(* ===== verification/_CoqProject ===== *)
-Q . S2P
Prelude.v
GoStrings.v
GoFloat.v
GoFloatFacts.v
GoFormat.v
GoRat.v
Accounting.v
Values.v
Exact.v
Snapshots.v
GoTime.v
Contracts.v
Risk.v
RiskProofs.v
RiskBatch.v
Brokers.v
Lifecycle.v
Cutover.v
Orchestrator.v
Engine.v
Strategy.v
TrendMomentum.v
TrendMomentumProofs.v
TargetStrategy.v
TargetProofs.v
CouncilBars.v
Council.v
CouncilProofs.v
LedgerModel.v
Ledger.v
LedgerAdmin.v
LedgerAdapter.v
LedgerFacts.v
LedgerFill.v
LedgerBooks.v
LedgerHistory.v
LedgerOutcome.v
LedgerTheorems.v
LedgerReconcile.v
LedgerAudit.v
ValidationTypes.v
Splits.v
SplitProofs.v
Manifest.v
ManifestProofs.v
FoldMetrics.v
FoldMetricsProofs.v
GoFloatRound.v
Evaluation.v
EvaluationProofs.v
WalkForward.v
WalkForwardProofs.v
Evidence.v
EvidenceProofs.v
MLEvaluation.v
MLProofs.v
Research.v
ResearchFacts.v
ResearchProofs.v
ValidationSamples.v
ResearchSamples.v
Governance.v
GovernanceProofs.v
GovernanceSamples.v
Exits.v
Indicators.v
Signals.v
IndicatorProofs.v
Universe.v
UniverseProofs.v
Replay.v
ReplayProofs.v
CloseRequests.v
BarClose.v
CloseProofs.v
BarCloseProofs.v
CloseSamples.v
