(* ===== verification/Prelude.v ===== *)
(** * A verification library for the trading platform (AndreiTelteu/trading-bot)

    The library models the decision and accounting core of the Go backend under
    src/internal/ and proves what that core promises: that orders stay within
    cash and risk limits, that the ledger's projections equal its immutable
    events, that experiments cannot leak or reuse their test data, and that
    trading authority is only granted step by step. This file is also the
    prelude: errors, the computations that carry them, and the lemmas on lists,
    options and sorting that all the other files share.

    ** The program and how its parts interact

    A market snapshot and a portfolio make a decision context
    (tradingcore/snapshots.go). A strategy turns it into order intents
    (strategy.go, trend_momentum.go with target_strategy.go, or the decision
    council of decision_council.go), the risk engine cuts or rejects them
    (risk.go), a broker fills them (brokers.go), and the ledger adapter records
    the outcome (ledger/tradingcore_adapter.go) through the ledger service
    (ledger/service.go), whose history an audit can reconcile
    (ledger/reconcile.go). The orchestrator runs these steps in order
    (orchestrator.go). Which of them may act at all is decided by the cutover
    flags (cutover/flags.go) and, for a strategy or model, by governance
    (governance/service.go): a deployment climbs from research to full live on
    the evidence of experiments, which internal/validation defines (manifest.go),
    runs (walkforward.go), evaluates (evaluation.go, ml.go) and keeps
    (repository.go, job.go).

    Around that core the services watch the market: the universe of symbols is
    filtered and ranked from the exchange's data (services/universe.go) with the
    indicators of indicators.go, ratings and sizes come from trending.go, and open
    positions are closed, on price ticks and when a bar closes, by the rules of
    exit_rules.go through the close requests of execution_coordinator.go, which
    sell through the ledger service. A backtest can replay the stored universe
    (backtest/engine.go).

    ** The files

    Go's language and standard library, executable:
    - GoStrings (strings, strconv, fmt on strings), GoFloat (float64 as binary64
      [spec_float], math), GoFormat (printing and reading float64), GoRat (big.Rat.SetString), GoTime (durations, sort.Search), with
      facts in GoFloatFacts and GoFloatRound.

    The trading core (src/internal/tradingcore, accounting):
    - Accounting (decimal.go), Values, Exact, Snapshots, Contracts: the data and
      its constructors, one file per Go file.
    - Risk with RiskProofs and RiskBatch; Brokers (brokers.go, determinism.go);
      Lifecycle (exits.go, rollout.go); Orchestrator; Engine composes the risk
      engine, the broker and the orchestrator as the program does.
    - Strategy (strategy.go), TrendMomentum with TrendMomentumProofs,
      TargetStrategy with TargetProofs, CouncilBars and Council with
      CouncilProofs.
    - Cutover (cutover/flags.go).

    The ledger (src/internal/ledger with its tables in database/models.go and the
    constraints and triggers of database/migrations.go):
    - LedgerModel: rows, tables, statements and transactions; Ledger: service.go;
      LedgerAdmin: adjustment.go, correction.go, backfill.go; LedgerAdapter;
      LedgerReconcile.
    - LedgerFacts, LedgerFill, LedgerBooks, LedgerHistory, LedgerOutcome,
      LedgerTheorems, LedgerAudit: invariants over every sequence of commands.

    Experiments (src/internal/validation):
    - ValidationTypes, Splits, Manifest, FoldMetrics, Evaluation, WalkForward,
      Evidence, MLEvaluation; Research: repository.go, ml_evidence.go, job.go.
    - SplitProofs, ManifestProofs, FoldMetricsProofs, EvaluationProofs,
      WalkForwardProofs, EvidenceProofs, MLProofs, ResearchFacts, ResearchProofs;
      ValidationSamples and ResearchSamples hold concrete experiments.

    Governance (src/internal/governance): Governance, GovernanceProofs,
    GovernanceSamples.

    Services (src/internal/services) and the replay of the universe:
    - Exits: exit_rules.go; Indicators: indicators.go; Signals: the ratings, gates and
      sizes of trending.go and the settings of analyzer.go; IndicatorProofs.
    - CloseRequests: execution_coordinator.go, position_projection.go and the
      price events of position_monitor.go; BarClose: bar_close_exits.go;
      CloseProofs, BarCloseProofs, and CloseSamples with concrete histories.
    - Universe: universe.go; UniverseProofs; Replay: the dynamic replay of
      backtest/engine.go with replay_membership.go; ReplayProofs.

    ** How state and errors are kept

    A pure function is a function. A fallible one returns [res]: [Ok], [Err] with
    the error the code builds, or [Panic] for a run-time panic. Code that reads
    and writes a database is a computation [stM] on a record with one field per
    table, keyed or ordered as its queries see it; a transaction runs its body and
    keeps the tables only when it succeeds. PostgreSQL's advisory locks, row locks
    and serializable retries make the transactions of one key happen one after the
    other, so a transaction is one atomic step and the histories of the theorems
    are arbitrary sequences of such steps. Integers of a fixed width are [Z] with
    the wrap-around written where the code can overflow. A Go map is a [gmap];
    where the code's result depends on the order in which a map is visited, that
    order is a parameter.

    ** What the theorems show

    - Ledger: reconciliation with the immutable events, exact effect of a fill,
      idempotent replay, atomic failure, append-only history, one outcome per
      batch, and that the service's own audit finds nothing in a ledger it wrote.
    - Risk and brokers: cash, turnover, gross and position limits of every
      approved batch, authority and concurrency gates, conservation of orders and
      fills, and the order of side effects of a run.
    - Strategies: no lookahead, gated and capped targets, faithful rebalancing,
      termination, and that no model answer escapes the council's gates.
    - Validation: no leakage between the windows of a fold, sealed test windows,
      canonical manifests, evidence that round-trips, metrics that reconcile with
      their evidence, evaluations that pass only through their gates, single use
      of a holdout, an immutable record of research.
    - Governance: authority earned rung by rung, single use of approvals, final
      rollbacks, and every gate of a transition.
    - Closing: every cycle of a position is closed at most once, by the fill its
      request asked for, whatever crashes and competes; recovery completes;
      exits follow their precedence; ticks and bar closes sell only what a rule
      of the position itself asks for.
    - Market: the single-pass MACD equals its definition, features and sizes
      never panic on checked settings and stay in bounds, the universe holds
      only filtered symbols within the policy's limits and is stored as it was
      selected, and a replay has no foresight.
    - Types, round trips and bounds of decimals, contexts and batches.
    The findings of the manifest (rounding up at the cash cap, two sells of one
    position, reuse of a holdout under a new family, deployments without a
    fallback, the shortlist a replay loses and others) are theorems about the same definitions.

    ** Bounds and fuel

    Recursions that are not structural have fuel, with a lemma or computation
    that it is enough: the digits of a number have log2 of it as fuel; the
    shortest float text tries one to seventeen digits, of which seventeen always
    read back; the decimal exponent is found in at most four corrections; a read
    exponent saturates at 10000, far beyond the range of float64, as Go's scanner
    does; [sort.Search] and [time.ParseDuration] have the length they scan;
    distributing capped weights makes at most one pass per weight; average ranks
    take one step per element.

    ** Parameters

    What is not in the repository's Go source is a parameter: JSON encoding and
    decoding, SHA-256 (only ever used as a function; nothing assumes it has no
    collisions unless the theorem says so), the text and precision PostgreSQL
    gives a jsonb or time column, the Stage 08 metadata, role switch and commit
    guards of the migrations, clock readings, the hook AfterWrite, the printed
    text of an error and of a time, the iteration order of a map, the candles and
    metadata of the exchange, math.Log1p and math.Exp, the decision
    model's answers, the generator of math/rand, the fold runners and the
    experiment source. Laws a theorem needs of them are hypotheses or classes, and
    a concrete instance satisfies them in its witness.

    ** Caveats

    float64 operations are rounded one by one (the Go compiler may fuse a
    multiplication and an addition on some architectures, not on amd64), and
    math.Log is Go's portable algorithm. [sort.Slice] is not stable; it is a
    stable sort here, where the keys compared are distinct (symbols of the
    exchange are). Times are nanoseconds
    since the zero time in UTC, without a monotonic clock reading. A nil slice and
    an empty one are the same. Errors the operating system or the network raise
    inside the database are not modelled.

    ** Not modelled

    Network and process code (handlers, middleware, websocket, cron, cmd,
    services that talk to the exchange or to a language model), configuration
    and database set-up, the operational tooling (backup, retention, gates), the
    point-in-time store, the backtest engine beyond its replay of the universe and
    what the trading core and validation share with it, the analysis loop of
    trending.go, and the front end. The manifest lists each with its
    reason. *)
From Stdlib Require Import Sorting.Sorted.
From stdpp Require Import base numbers strings gmap list.

Local Open Scope Z_scope.

(** ** Go errors

    A Go [error] is kept as the call that built it: the format string and its
    string arguments for [fmt.Errorf], the wrapped cause for a [%w] verb, the
    error structs of the program ([ledger.Error], [tradingcore.RunError],
    [validation.DiagnosticError] and its wrapper before a write,
    [governance.Error]) with their fields, and the errors of the database driver
    by name ([gorm.ErrRecordNotFound]) or SQLSTATE ([pgconn.PgError]). *)
Inductive error : Type :=
| Errorf (format : string) (args : list string)
| Wrapf (format : string) (args : list string) (cause : error)
| LedgerError (kind code message : string)
| LedgerErrorWith (kind code message : string) (cause : error)
| RunError (stage : string) (sideEffectsPossible : bool) (cause : error)
| DiagnosticError (code field details : string)
| PrewriteError (cause : error)
| JoinError (first second : error)
| GovernanceError (code details : string)
| DriverError (name : string)
| PgError (code constraint : string).

(** ** Computations that return, fail or panic

    [Ok] is a nil error, [Err] a non-nil one (the other results are then the
    zero values and are dropped), and [Panic] a run-time panic of the language
    or of its standard library, such as a division by a zero [big.Rat]. *)
Inductive res (A : Type) : Type :=
| Ok (a : A)
| Err (e : error)
| Panic (why : string).
Arguments Ok {A} a.
Arguments Err {A} e.
Arguments Panic {A} why.

Definition rbind {A B} (m : res A) (k : A -> res B) : res B :=
  match m with
  | Ok a => k a
  | Err e => Err e
  | Panic w => Panic w
  end.

Declare Scope go_scope.
Delimit Scope go_scope with go.

Notation "'let*' p := e 'in' k" := (rbind e (fun p => k))
  (at level 10, p pattern, e at level 200, k at level 200,
   format "'[v' 'let*'  p  :=  e  'in' '/' k ']'") : go_scope.
Notation "s =s t" := (String.eqb s t) (at level 70, no associativity) : go_scope.
Notation "s <>s t" := (negb (String.eqb s t)) (at level 70, no associativity) : go_scope.
Open Scope go_scope.

Definition is_ok {A} (m : res A) : bool :=
  match m with Ok _ => true | _ => false end.

(** [for _, x := range l { if err := f(x); err != nil { return err } }]. *)
Fixpoint forM_ {A} (f : A -> res unit) (l : list A) : res unit :=
  match l with
  | [] => Ok tt
  | x :: l' => let* _ := f x in forM_ f l'
  end.

(** A loop that threads a state and may stop at the first error. *)
Fixpoint foldM {A S} (f : S -> A -> res S) (s : S) (l : list A) : res S :=
  match l with
  | [] => Ok s
  | x :: l' => let* s' := f s x in foldM f s' l'
  end.

Fixpoint mapM {A B} (f : A -> res B) (l : list A) : res (list B) :=
  match l with
  | [] => Ok []
  | x :: l' => let* y := f x in let* ys := mapM f l' in Ok (y :: ys)
  end.

(** [if cond { return err }]. *)
Definition failIf (cond : bool) (e : error) : res unit :=
  if cond then Err e else Ok tt.

(** ** Stateful computations

    A computation that may change a state [W] (a clock, a generator, a
    database) before it returns, fails or panics. *)
Definition stM (W A : Type) : Type := W -> res A * W.
Definition sret {W A} (a : A) : stM W A := fun w => (Ok a, w).
Definition slift {W A} (m : res A) : stM W A := fun w => (m, w).
Definition sbind {W A B} (m : stM W A) (k : A -> stM W B) : stM W B := fun w =>
  match m w with
  | (Ok a, w') => k a w'
  | (Err e, w') => (Err e, w')
  | (Panic x, w') => (Panic x, w')
  end.
Notation "'let!' p := e 'in' k" := (sbind e (fun p => k))
  (at level 10, p pattern, e at level 200, k at level 200,
   format "'[v' 'let!'  p  :=  e  'in' '/' k ']'") : go_scope.

Fixpoint sfoldM {W A S} (f : S -> A -> stM W S) (s : S) (l : list A) : stM W S :=
  match l with
  | [] => sret s
  | x :: l' => let! s' := f s x in sfoldM f s' l'
  end.

(** An invariant of the state kept by every step of a successful loop. *)
Lemma sfoldM_keeps {W A S} (P : W -> Prop) (f : S -> A -> stM W S) s l w s' w' :
  (forall s a w s' w', P w -> f s a w = (Ok s', w') -> P w') -> P w -> sfoldM f s l w = (Ok s', w') -> P w'.
Proof.
  intros Hf. revert s w. induction l as [|a l IH]; intros s w Hw H; cbn in H.
  - by injection H as _ <-.
  - unfold sbind in H. destruct (f s a w) as [[x|e|y] d] eqn:E; [|discriminate..]. eauto.
Qed.

(** ** Automation *)

Lemma eqb_true_eq (s t : string) : (s =s t) = true -> s = t.
Proof. apply String.eqb_eq. Qed.

Lemma eqb_false_ne (s t : string) : (s =s t) = false -> s <> t.
Proof. apply String.eqb_neq. Qed.

(** One step of inverting a successful computation [H : m = Ok v]: split
    the binds and the guards the translated code is made of. *)
Ltac res_inv_step :=
  match goal with
  | H : Ok _ = Ok _ |- _ => injection H as H; subst
  | H : Err _ = Err _ |- _ => injection H as H; subst
  | H : Ok _ = Err _ |- _ => discriminate H
  | H : Err _ = Ok _ |- _ => discriminate H
  | H : Panic _ = Ok _ |- _ => discriminate H
  | H : Panic _ = Err _ |- _ => discriminate H
  | H : Ok _ = Panic _ |- _ => discriminate H
  | H : Err _ = Panic _ |- _ => discriminate H
  | H : failIf ?c _ = Ok _ |- _ =>
      unfold failIf in H; destruct c eqn:?; [discriminate H | clear H]
  | H : rbind ?m _ = Ok _ |- _ =>
      let E := fresh "E" in destruct m eqn:E; cbn [rbind] in H
  | H : (if ?c then Err _ else _) = Ok _ |- _ =>
      let E := fresh "E" in destruct c eqn:E; [discriminate H | ]
  | H : (if ?c then _ else Err _) = Ok _ |- _ =>
      let E := fresh "E" in destruct c eqn:E; [ | discriminate H]
  | H : match ?m with Some _ => _ | None => Err _ end = Ok _ |- _ =>
      let E := fresh "E" in destruct m eqn:E; [ | discriminate H]
  end.
Ltac res_inv := repeat res_inv_step.

(** Turn the boolean tests of the code into propositions. *)
Ltac bool_prop_step :=
  match goal with
  | H : (_ || _)%bool = false |- _ => apply orb_false_iff in H; destruct H
  | H : (_ && _)%bool = true |- _ => apply andb_true_iff in H; destruct H
  | H : negb _ = true |- _ => apply negb_true_iff in H
  | H : negb _ = false |- _ => apply negb_false_iff in H
  | H : String.eqb _ _ = true |- _ => apply eqb_true_eq in H
  | H : String.eqb _ _ = false |- _ => apply eqb_false_ne in H
  | H : (_ <? _) = true |- _ => apply Z.ltb_lt in H
  | H : (_ <? _) = false |- _ => apply Z.ltb_ge in H
  | H : (_ <=? _) = true |- _ => apply Z.leb_le in H
  | H : (_ <=? _) = false |- _ => apply Z.leb_gt in H
  | H : (_ =? _) = true |- _ => apply Z.eqb_eq in H
  | H : (_ =? _) = false |- _ => apply Z.eqb_neq in H
  end.
Ltac bool_prop := repeat bool_prop_step.

(** Split every [if] of the goal on its test. *)
Ltac split_ifs :=
  repeat match goal with
         | |- context [if ?c then _ else _] => destruct c eqn:?
         end.

(** ** Loops *)

Lemma forM__Ok {A} (f : A -> res unit) l :
  forM_ f l = Ok tt <-> Forall (fun x => f x = Ok tt) l.
Proof.
  induction l as [|x l IH]; cbn; [split; auto|]. rewrite Forall_cons.
  destruct (f x) as [[]|e|w]; cbn; [tauto | |];
    (split; [discriminate | intros [? _]; discriminate]).
Qed.

(** Whether a checking loop succeeds does not depend on the order. *)
Lemma forM__perm {A} (f : A -> res unit) l l' : l ≡ₚ l' -> forM_ f l = Ok tt -> forM_ f l' = Ok tt.
Proof. intros H. rewrite !forM__Ok. by rewrite H. Qed.

Lemma mapM_Ok {A B} (f : A -> res B) l ys :
  mapM f l = Ok ys <-> Forall2 (fun x y => f x = Ok y) l ys.
Proof.
  revert ys. induction l as [|x l IH]; intros ys; cbn.
  - split; [intros [= <-]; constructor | inversion 1; reflexivity].
  - split.
    + intros H. res_inv. constructor; [done | by apply IH].
    + inversion 1 as [|? y ? ys' Hy Hys]; subst. rewrite Hy. cbn.
      apply IH in Hys as ->. reflexivity.
Qed.

(** ** Slices: reading out of range panics *)
Definition index {A} (l : list A) (i : Z) : res A :=
  if i <? 0 then Panic "index out of range" else
  match l !! Z.to_nat i with Some a => Ok a | None => Panic "index out of range" end.
Definition slice_from {A} (l : list A) (low : Z) : res (list A) :=
  if (low <? 0) || (Z.of_nat (length l) <? low) then Panic "slice bounds out of range" else Ok (drop (Z.to_nat low) l).

Lemma mapM_length {A B} (f : A -> res B) l ys : mapM f l = Ok ys -> length ys = length l.
Proof. intros H%mapM_Ok. symmetry. by eapply Forall2_length. Qed.
Lemma filter_none {A} (p : A -> bool) l : Forall (fun a => p a = false) l -> List.filter p l = [].
Proof. induction 1 as [|a l Ha _ IH]; cbn; [done|]. by rewrite Ha. Qed.
Lemma foldM_app {A S} (f : S -> A -> res S) s l1 l2 :
  foldM f s (l1 ++ l2) = let* s' := foldM f s l1 in foldM f s' l2.
Proof.
  revert s. induction l1 as [|x l1 IH]; intros s; cbn; [done|].
  destruct (f s x); cbn; auto.
Qed.

(** Rule for a loop invariant: the invariant is indexed by the elements done. *)
Lemma foldM_inv {A S} (P : list A -> S -> Prop) (f : S -> A -> res S) l s s' :
  P [] s ->
  (forall done x t t', P done t -> x ∈ l -> f t x = Ok t' -> P (done ++ [x]) t') ->
  foldM f s l = Ok s' -> P l s'.
Proof.
  intros H0 Hstep H.
  enough (G : forall done rest t, (forall x, x ∈ rest -> x ∈ l) -> P done t ->
              foldM f t rest = Ok s' -> P (done ++ rest) s').
  { apply (G [] l s); auto. }
  intros done rest. revert done. induction rest as [|x rest IH]; cbn; intros done t Hin HP E.
  - res_inv. by rewrite app_nil_r.
  - res_inv. replace (done ++ x :: rest) with ((done ++ [x]) ++ rest)
      by (by rewrite <- app_assoc).
    eapply IH; [ | | exact E].
    + intros y Hy. apply Hin. by right.
    + eapply Hstep; eauto. apply Hin. left.
Qed.

Lemma sbind_Ok {W A B} (m : stM W A) (k : A -> stM W B) w b w' :
  sbind m k w = (Ok b, w') -> exists a w1, m w = (Ok a, w1) /\ k a w1 = (Ok b, w').
Proof. unfold sbind. destruct (m w) as [[a|e|x] w1]; try done. eauto. Qed.

(** Invert a successful stateful computation. *)
Ltac st_inv :=
  repeat match goal with
  | H : sbind _ _ _ = (Ok _, _) |- _ =>
      let a := fresh "a" in let w := fresh "w" in let E := fresh "E" in
      apply sbind_Ok in H as (a & w & E & H)
  | H : sret _ _ = (Ok _, _) |- _ => unfold sret in H; injection H as H; subst
  | H : slift ?m _ = (Ok _, _) |- _ =>
      unfold slift in H; let E := fresh "E" in destruct m eqn:E; [injection H as H; subst | discriminate H..]
  end.

Lemma sfoldM_inv {W A S} (P : list A -> S -> Prop) (f : S -> A -> stM W S) l s s' w w' :
  P [] s ->
  (forall done x t t' v v', P done t -> x ∈ l -> f t x v = (Ok t', v') -> P (done ++ [x]) t') ->
  sfoldM f s l w = (Ok s', w') -> P l s'.
Proof.
  intros H0 Hstep H.
  enough (G : forall done rest t v, (forall x, x ∈ rest -> x ∈ l) -> P done t ->
              sfoldM f t rest v = (Ok s', w') -> P (done ++ rest) s').
  { by eapply (G [] l s); eauto. }
  intros done rest. revert done. induction rest as [|x rest IH]; cbn [sfoldM]; intros done t v Hin HP E.
  - st_inv. by rewrite app_nil_r.
  - st_inv. replace (done ++ x :: rest) with ((done ++ [x]) ++ rest) by (by rewrite <- app_assoc).
    eapply IH; [ | | exact E].
    + intros y Hy. apply Hin. by right.
    + eapply Hstep; eauto. apply Hin. left.
Qed.

(** ** [sort.SliceStable]

    Insertion sort: an element is placed before the first element that is not
    less than it, so equal elements keep their order. For the strict weak
    orders the program sorts by, every stable sort returns this list. *)
Section StableSort.
Context {A : Type} (less : A -> A -> bool).

Fixpoint sinsert (x : A) (l : list A) : list A :=
  match l with
  | [] => [x]
  | y :: l' => if less y x then y :: sinsert x l' else x :: y :: l'
  end.

Fixpoint SliceStable (l : list A) : list A :=
  match l with
  | [] => []
  | x :: l' => sinsert x (SliceStable l')
  end.

(** [l] is in non-descending order. *)
Definition ordered (l : list A) : Prop :=
  Sorted (fun x y => less y x = false) l.

Lemma sinsert_Permutation x l : x :: l ≡ₚ sinsert x l.
Proof.
  induction l as [|y l IH]; cbn; [done|].
  destruct (less y x); [|done]. rewrite Permutation_swap. by constructor.
Qed.

Lemma SliceStable_Permutation l : l ≡ₚ SliceStable l.
Proof.
  induction l as [|x l IH]; cbn; [done|].
  rewrite <- sinsert_Permutation. by constructor.
Qed.

Lemma SliceStable_length l : length (SliceStable l) = length l.
Proof. symmetry. apply Permutation_length, SliceStable_Permutation. Qed.

Lemma SliceStable_Forall (P : A -> Prop) l :
  Forall P (SliceStable l) <-> Forall P l.
Proof. by rewrite <- SliceStable_Permutation. Qed.

Lemma SliceStable_elem x l : x ∈ SliceStable l <-> x ∈ l.
Proof. by rewrite <- SliceStable_Permutation. Qed.

(** A list already in order is not changed. *)
Lemma SliceStable_ordered_id l : ordered l -> SliceStable l = l.
Proof.
  unfold ordered. induction 1 as [|x l Hs IH Hd]; cbn; [done|]. rewrite IH.
  destruct Hd as [|y l Hxy]; cbn; [done|]. by rewrite Hxy.
Qed.

Hypothesis less_asym : forall x y, less x y = true -> less y x = false.

Lemma sinsert_ordered x l : ordered l -> ordered (sinsert x l).
Proof.
  unfold ordered. induction 1 as [|y l Hs IH Hd]; cbn; [by repeat constructor|].
  destruct (less y x) eqn:E.
  - constructor; [done|]. destruct Hd as [|z l Hyz]; cbn.
    + constructor. auto.
    + destruct (less z x) eqn:E2; constructor; auto.
  - constructor; [by constructor|]. by constructor.
Qed.

Lemma SliceStable_ordered l : ordered (SliceStable l).
Proof. induction l; cbn; [constructor | by apply sinsert_ordered]. Qed.

Lemma SliceStable_idemp l : SliceStable (SliceStable l) = SliceStable l.
Proof. apply SliceStable_ordered_id, SliceStable_ordered. Qed.

Hypothesis notless_trans : forall x y z,
  less y x = false -> less z y = false -> less z x = false.

Lemma ordered_cons x l : ordered (x :: l) <->
  ordered l /\ Forall (fun y => less y x = false) l.
Proof.
  unfold ordered. split.
  - intros H. apply Sorted_StronglySorted in H; [|intros a b c; eauto].
    inversion H; subst. split; [by apply StronglySorted_Sorted | done].
  - intros [Hs Hf]. constructor; [done|]. destruct Hf; by constructor.
Qed.

(** Two ordered lists with the same elements are equal when only equal
    elements are unordered: the result does not depend on the input order. *)
Lemma ordered_unique l1 l2 :
  (forall x y, x ∈ l1 -> y ∈ l1 -> less x y = false -> less y x = false -> x = y) ->
  ordered l1 -> ordered l2 -> l1 ≡ₚ l2 -> l1 = l2.
Proof.
  revert l2. induction l1 as [|x l1 IH]; intros l2 Ht H1 H2 HP.
  - by apply Permutation_nil_l.
  - destruct l2 as [|y l2]; [by apply Permutation_nil_r in HP|].
    apply ordered_cons in H1 as [H1 F1]. apply ordered_cons in H2 as [H2 F2].
    rewrite Forall_forall in F1, F2.
    assert (Hy : y ∈ x :: l1) by (rewrite HP; left).
    assert (Hx : x ∈ y :: l2) by (rewrite <- HP; left).
    assert (x = y) as <-.
    { apply elem_of_cons in Hy as [->|Hy]; [done|].
      apply elem_of_cons in Hx as [->|Hx]; [done|].
      apply Ht; [set_solver | set_solver | by apply F2 | by apply F1]. }
    f_equal. apply IH; auto.
    + intros a b Ha Hb. apply Ht; by right.
    + by apply Permutation_cons_inv in HP.
Qed.

Lemma SliceStable_perm_eq l1 l2 :
  (forall x y, x ∈ l1 -> y ∈ l1 -> less x y = false -> less y x = false -> x = y) ->
  l1 ≡ₚ l2 -> SliceStable l1 = SliceStable l2.
Proof.
  intros Ht HP. apply ordered_unique; try apply SliceStable_ordered.
  - intros x y Hx Hy. apply Ht; by apply SliceStable_elem.
  - by rewrite <- !SliceStable_Permutation.
Qed.
End StableSort.

(** ** Sort orders

    The comparison functions the program sorts by are strict weak orders: a
    total order on one key, or a first key and, when it is equal, another such
    comparison. *)
Class StrictTotal {K} (less : K -> K -> bool) : Prop := {
  total_asym : forall x y, less x y = true -> less y x = false;
  total_trans : forall x y z, less y x = false -> less z y = false -> less z x = false;
  total_eq : forall x y, less x y = false -> less y x = false -> x = y }.

Class StrictWeak {A} (less : A -> A -> bool) : Prop := {
  weak_asym : forall x y, less x y = true -> less y x = false;
  weak_trans : forall x y z, less y x = false -> less z y = false -> less z x = false }.

#[export] Instance Z_ltb_total : StrictTotal Z.ltb.
Proof. constructor; intros; lia. Qed.

Lemma total_irrefl {K} (less : K -> K -> bool) `{!StrictTotal less} x : less x x = false.
Proof. destruct (less x x) eqn:E; [|done]. by rewrite (total_asym _ _ E) in E. Qed.

#[export] Instance key_weak {A K} (f : A -> K) (less : K -> K -> bool) `{!StrictTotal less} :
  StrictWeak (fun x y => less (f x) (f y)).
Proof. constructor; intros; [by apply total_asym | by eapply total_trans]. Qed.

(** [if f(x) != f(y) { return f(x) < f(y) }; return less2(x, y)]. *)
Definition lex {A K} (keq kless : K -> K -> bool) (f : A -> K) (less2 : A -> A -> bool) (x y : A) : bool :=
  if negb (keq (f x) (f y)) then kless (f x) (f y) else less2 x y.

Section Lex.
Context {A K : Type} (keq kless : K -> K -> bool) (f : A -> K) (less2 : A -> A -> bool).
Context `{!StrictTotal kless}.
Hypothesis keq_spec : forall a b, keq a b = true <-> a = b.

Lemma lex_cases x y : lex keq kless f less2 x y = true <->
  kless (f x) (f y) = true \/ (f x = f y /\ less2 x y = true).
Proof.
  unfold lex. destruct (keq (f x) (f y)) eqn:E; cbn [negb].
  - apply keq_spec in E. rewrite E, total_irrefl by done.
    split; [by auto|]. by intros [[=]|[_ H]].
  - split; [auto|]. intros [H|[H _]]; [done|]. apply keq_spec in H. congruence.
Qed.

Lemma lex_false x y : lex keq kless f less2 x y = false <->
  kless (f x) (f y) = false /\ (f x = f y -> less2 x y = false).
Proof.
  rewrite <- not_true_iff_false, lex_cases, <- (not_true_iff_false (kless _ _)),
    <- (not_true_iff_false (less2 _ _)). tauto.
Qed.

Lemma lex_weak : StrictWeak less2 -> StrictWeak (lex keq kless f less2).
Proof.
  intros W. constructor; intros x y.
  - rewrite lex_cases, lex_false. intros [H|[E H]].
    + split; [by apply total_asym|]. intros E. by rewrite E, total_irrefl in H.
    + rewrite E, total_irrefl by done. split; [done|]. intros _. by apply weak_asym.
  - intros z. rewrite !lex_false. intros [H1 H2] [H3 H4]. split; [by eapply total_trans|].
    intros E. assert (f y = f x) as E2.
    { apply total_eq; [done|]. by rewrite <- E. }
    apply weak_trans with y; [by apply H2 | apply H4; congruence].
Qed.

(** Elements the composite does not order agree on the key. *)
Lemma lex_tie x y : lex keq kless f less2 x y = false -> lex keq kless f less2 y x = false ->
  f x = f y /\ less2 x y = false /\ less2 y x = false.
Proof.
  rewrite !lex_false. intros [H1 H2] [H3 H4].
  assert (f x = f y) as E by by apply total_eq. auto.
Qed.
End Lex.

Section StableSortWeak.
Context {A : Type} (less : A -> A -> bool) `{!StrictWeak less}.

Lemma sort_ordered l : ordered less (SliceStable less l).
Proof. apply SliceStable_ordered, weak_asym. Qed.

Lemma sort_idemp l : SliceStable less (SliceStable less l) = SliceStable less l.
Proof. apply SliceStable_idemp, weak_asym. Qed.

(** The input order is immaterial when no two different elements tie. *)
Lemma sort_perm_eq l1 l2 :
  (forall x y, x ∈ l1 -> y ∈ l1 -> less x y = false -> less y x = false -> x = y) ->
  l1 ≡ₚ l2 -> SliceStable less l1 = SliceStable less l2.
Proof. apply SliceStable_perm_eq; [apply weak_asym | apply weak_trans]. Qed.
Lemma ordered_sublist l l' : sublist l l' -> ordered less l' -> ordered less l.
Proof.
  induction 1 as [|x l l' Hs IH|x l l' Hs IH]; [done | |];
    rewrite ?(ordered_cons less weak_trans); intros [H F].
  - split; [auto|]. rewrite Forall_forall in *. intros y Hy. apply F.
    by eapply elem_of_sublist.
  - auto.
Qed.
End StableSortWeak.

Lemma ordered_fmap {A B} (f : A -> B) (less : B -> B -> bool) l :
  ordered less (f <$> l) <-> ordered (fun x y => less (f x) (f y)) l.
Proof.
  unfold ordered. induction l as [|x l IH]; [split; constructor|]. rewrite fmap_cons.
  split; inversion 1 as [|? ? Hs Hd]; subst; (constructor; [by apply IH|]); destruct l; cbn in *;
    inversion Hd; constructor; done.
Qed.

(** Elements of a list with distinct keys are known by their key. *)
Lemma NoDup_key {A K} (f : A -> K) l x y : NoDup (f <$> l) -> x ∈ l -> y ∈ l -> f x = f y -> x = y.
Proof.
  induction l as [|z l IH]; [by intros _ ?%elem_of_nil|]. rewrite fmap_cons, NoDup_cons.
  intros [Hn Hd] Hx Hy E. apply elem_of_cons in Hx as [->|Hx], Hy as [->|Hy]; try done.
  - destruct Hn. rewrite E. by apply list_elem_of_fmap_2.
  - destruct Hn. rewrite <- E. by apply list_elem_of_fmap_2.
  - by apply IH.
Qed.

(** ** Machine integers *)

(** The value of an [int64] computation: wrap-around to 64 bits. *)
Definition int64 (z : Z) : Z := (z + 2 ^ 63) mod 2 ^ 64 - 2 ^ 63.
Definition in_int64 (z : Z) : Prop := - 2 ^ 63 <= z < 2 ^ 63.

Lemma int64_id z : in_int64 z -> int64 z = z.
Proof. unfold in_int64, int64. intros H. rewrite Z.mod_small; lia. Qed.

(** ** Sums of integers over lists *)

Definition Zsum {A} (f : A -> Z) (l : list A) : Z :=
  foldr (fun x acc => f x + acc) 0 l.

Lemma Zsum_nil {A} (f : A -> Z) : Zsum f [] = 0.
Proof. done. Qed.
Lemma Zsum_cons {A} (f : A -> Z) x l : Zsum f (x :: l) = f x + Zsum f l.
Proof. done. Qed.
Lemma Zsum_app {A} (f : A -> Z) l1 l2 : Zsum f (l1 ++ l2) = Zsum f l1 + Zsum f l2.
Proof.
  induction l1 as [|x l1 IH]; [done|]. cbn [app]. rewrite !Zsum_cons, IH. lia.
Qed.
Lemma Zsum_ext {A} (f g : A -> Z) l :
  (forall x, x ∈ l -> f x = g x) -> Zsum f l = Zsum g l.
Proof.
  intros H. induction l as [|x l IH]; [done|]. rewrite !Zsum_cons.
  rewrite (H x), IH; [done | | left]. intros y Hy. apply H. by right.
Qed.
Lemma Zsum_perm {A} (f : A -> Z) l l' : l ≡ₚ l' -> Zsum f l = Zsum f l'.
Proof. induction 1; rewrite ?Zsum_cons in *; lia. Qed.
Lemma NoDup_snoc {A} (l : list A) x : NoDup l -> x ∉ l -> NoDup (l ++ [x]).
Proof. intros H1 H2. apply NoDup_app. split_and!; [done | | apply NoDup_singleton]. by intros y Hy ->%list_elem_of_singleton. Qed.

Create HintDb go.
Create Rewrite HintDb go_sum.
#[export] Hint Rewrite @Zsum_nil @Zsum_cons @Zsum_app : go_sum.
#[export] Hint Resolve SliceStable_Permutation SliceStable_ordered : go.
