(* ===== verification/GoStrings.v ===== *)
(** * GoStrings: the parts of Go's [strings] and [strconv] the program uses

    A Go string is a sequence of bytes, as is [String.string]. Functions that
    Go defines on runes are written on the UTF-8 encodings they match. *)
From Stdlib Require Import Ascii.
From stdpp Require Import base numbers strings list.
From S2P Require Import Prelude.
Local Open Scope Z_scope.

Definition byte (c : Ascii.ascii) : Z := Z.of_N (Ascii.N_of_ascii c).
Definition chr (n : Z) : Ascii.ascii := Ascii.ascii_of_N (Z.to_N n).

(** [len(s)]. *)
Definition slen (s : string) : Z := Z.of_nat (String.length s).

(** A predicate on every byte; [for _, c := range s { if !p(c) { fail } }]
    when [p] fails on every byte above 0x7f. *)
Fixpoint str_all (p : Ascii.ascii -> bool) (s : string) : bool :=
  match s with
  | EmptyString => true
  | String c s' => (p c && str_all p s')%bool
  end.

Fixpoint str_any (p : Ascii.ascii -> bool) (s : string) : bool :=
  match s with
  | EmptyString => false
  | String c s' => (p c || str_any p s')%bool
  end.

Fixpoint str_map (f : Ascii.ascii -> Ascii.ascii) (s : string) : string :=
  match s with
  | EmptyString => EmptyString
  | String c s' => String (f c) (str_map f s')
  end.

Definition is_digit (c : Ascii.ascii) : bool := (48 <=? byte c) && (byte c <=? 57).
Definition graphic (c : Ascii.ascii) : bool := (33 <=? byte c) && (byte c <=? 126).

(** ** [strings.TrimSpace] *)

Definition ascii_space (c : Ascii.ascii) : bool :=
  ((9 <=? byte c) && (byte c <=? 13)) || (byte c =? 32).
(** U+0085 and U+00A0. *)
Definition space2 (a b : Ascii.ascii) : bool :=
  (byte a =? 194) && ((byte b =? 133) || (byte b =? 160)).
(** U+1680, U+2000 to U+200A, U+2028, U+2029, U+202F, U+205F and U+3000. *)
Definition space3 (a b c : Ascii.ascii) : bool :=
  let x := byte a in let y := byte b in let z := byte c in
  ((x =? 225) && (y =? 154) && (z =? 128)) ||
  ((x =? 226) && (y =? 128) &&
     (((128 <=? z) && (z <=? 138)) || (z =? 168) || (z =? 169) || (z =? 175))) ||
  ((x =? 226) && (y =? 129) && (z =? 159)) ||
  ((x =? 227) && (y =? 128) && (z =? 128)).

Fixpoint TrimLeftSpace (s : string) : string :=
  match s with
  | EmptyString => EmptyString
  | String a s1 =>
      if ascii_space a then TrimLeftSpace s1
      else match s1 with
           | EmptyString => s
           | String b s2 =>
               if space2 a b then TrimLeftSpace s2
               else match s2 with
                    | EmptyString => s
                    | String c s3 => if space3 a b c then TrimLeftSpace s3 else s
                    end
           end
  end.

(** The suffix of white space starts where the rest is white space only. *)
Fixpoint TrimRightSpace (s : string) : string :=
  match s with
  | EmptyString => EmptyString
  | String a s' => if TrimLeftSpace s =s "" then "" else String a (TrimRightSpace s')
  end.

Definition TrimSpace (s : string) : string := TrimRightSpace (TrimLeftSpace s).

(** ** Prefixes, searching, splitting, repeating *)

Definition HasPrefix (s prefix : string) : bool := String.prefix prefix s.

(** [s[1:]]. *)
Definition tail1 (s : string) : string :=
  match s with EmptyString => EmptyString | String _ s' => s' end.

Definition drop_str (n : nat) (s : string) : string := String.substring n (String.length s - n) s.
Definition TrimPrefix (s prefix : string) : string :=
  if HasPrefix s prefix then drop_str (String.length prefix) s else s.

Definition is_char (c d : Ascii.ascii) : bool := Ascii.eqb c d.

(** [strings.ContainsAny(s, "eE")]. *)
Definition contains_eE (s : string) : bool :=
  str_any (fun c => is_char "e" c || is_char "E" c)%char s.

(** [strings.Split(s, sep)] for a one-byte separator. *)
Fixpoint Split (sep : Ascii.ascii) (s : string) : list string :=
  match s with
  | EmptyString => [EmptyString]
  | String c s' =>
      if is_char sep c then EmptyString :: Split sep s'
      else match Split sep s' with
           | [] => [String c EmptyString]
           | p :: ps => String c p :: ps
           end
  end.

Fixpoint Repeat0 (n : nat) : string :=
  match n with O => EmptyString | S n' => String "0" (Repeat0 n') end.

(** [strings.TrimLeft(s, "0")] and [strings.TrimRight(s, c)]. *)
Fixpoint TrimLeft0 (s : string) : string :=
  match s with
  | String c s' => if is_char "0" c then TrimLeft0 s' else s
  | EmptyString => EmptyString
  end.
Fixpoint TrimRight (c : Ascii.ascii) (s : string) : string :=
  match s with
  | EmptyString => EmptyString
  | String a s' =>
      let t := TrimRight c s' in
      if (t =s "") && is_char c a then EmptyString else String a t
  end.

(** ** Letter case

    ASCII letters, and the two code points outside ASCII whose mapping is an
    ASCII letter: U+0130 and U+212A for [ToLower], U+0131 and U+017F for
    [ToUpper]. Every other letter outside ASCII is left as it is: its image is
    outside ASCII too, so it never equals the constants the code compares
    these results with. *)
Definition lower_byte (c : Ascii.ascii) : Ascii.ascii :=
  if (65 <=? byte c) && (byte c <=? 90) then chr (byte c + 32) else c.
Definition upper_byte (c : Ascii.ascii) : Ascii.ascii :=
  if (97 <=? byte c) && (byte c <=? 122) then chr (byte c - 32) else c.

Fixpoint ToLower (s : string) : string :=
  match s with
  | EmptyString => EmptyString
  | String a s1 =>
      match s1 with
      | EmptyString => String (lower_byte a) EmptyString
      | String b s2 =>
          if (byte a =? 196) && (byte b =? 176) then String "i" (ToLower s2)
          else match s2 with
               | String c s3 =>
                   if (byte a =? 226) && (byte b =? 132) && (byte c =? 170)
                   then String "k" (ToLower s3) else String (lower_byte a) (ToLower s1)
               | EmptyString => String (lower_byte a) (ToLower s1)
               end
      end
  end.

Fixpoint ToUpper (s : string) : string :=
  match s with
  | EmptyString => EmptyString
  | String a s1 =>
      match s1 with
      | EmptyString => String (upper_byte a) EmptyString
      | String b s2 =>
          if (byte a =? 196) && (byte b =? 177) then String "I" (ToUpper s2)
          else if (byte a =? 197) && (byte b =? 191) then String "S" (ToUpper s2)
          else String (upper_byte a) (ToUpper s1)
      end
  end.

(** [strings.EqualFold] on the ASCII letters, with the two simple folds that
    reach ASCII (U+017F with s, U+212A with k). *)
Fixpoint fold_canon (s : string) : string :=
  match s with
  | EmptyString => EmptyString
  | String a s1 =>
      match s1 with
      | EmptyString => String (lower_byte a) EmptyString
      | String b s2 =>
          if (byte a =? 197) && (byte b =? 191) then String "s" (fold_canon s2)
          else match s2 with
               | String c s3 =>
                   if (byte a =? 226) && (byte b =? 132) && (byte c =? 170)
                   then String "k" (fold_canon s3) else String (lower_byte a) (fold_canon s1)
               | EmptyString => String (lower_byte a) (fold_canon s1)
               end
      end
  end.
Definition EqualFold (s t : string) : bool := fold_canon s =s fold_canon t.

(** ** Decimal numerals: [strconv.FormatInt], [big.Int.String],
    [big.Int.SetString(_, 10)] and [strconv.Atoi] *)

Definition digit_val (c : Ascii.ascii) : Z := byte c - 48.

Fixpoint digits_acc (s : string) (acc : Z) : Z :=
  match s with
  | EmptyString => acc
  | String c s' => digits_acc s' (acc * 10 + digit_val c)
  end.
Definition digits_val (s : string) : Z := digits_acc s 0.

Fixpoint format_digits (fuel : nat) (n : Z) (acc : string) : string :=
  match fuel with
  | O => acc
  | S f =>
      let acc' := String (chr (48 + n mod 10)) acc in
      if n / 10 =? 0 then acc' else format_digits f (n / 10) acc'
  end.
(** One division by ten drops at least three bits, so [log2 n + 1] rounds do. *)
Definition format_nonneg (n : Z) : string := format_digits (S (Z.to_nat (Z.log2 n))) n "".
Definition Itoa (z : Z) : string :=
  if z <? 0 then String "-" (format_nonneg (- z)) else format_nonneg z.

(** [new(big.Int).SetString(s, 10)]: [None] when the string is not a numeral. *)
Definition SetString (s : string) : option Z :=
  let negative := HasPrefix s "-" in
  let digits := if (negative || HasPrefix s "+")%bool then tail1 s else s in
  if (digits =s "") || negb (str_all is_digit digits) then None
  else Some (if negative then - digits_val digits else digits_val digits).

Definition int64_ok (z : Z) : bool := (- 2 ^ 63 <=? z) && (z <? 2 ^ 63).
(** [strconv.Atoi] on a 64-bit platform. *)
Definition Atoi (s : string) : option Z :=
  match SetString s with
  | Some z => if int64_ok z then Some z else None
  | None => None
  end.

(** The value that comes with an ignored error: the nearest int, or zero. *)
Definition AtoiValue (s : string) : Z :=
  match SetString s with Some z => Z.max (- 2 ^ 63) (Z.min (2 ^ 63 - 1) z) | None => 0 end.

(** [strconv.ParseBool]. *)
Definition ParseBool (s : string) : option bool :=
  if existsb (String.eqb s) ["1"; "t"; "T"; "true"; "TRUE"; "True"] then Some true
  else if existsb (String.eqb s) ["0"; "f"; "F"; "false"; "FALSE"; "False"] then Some false
  else None.

(** ** Facts on bytes and predicates *)

Lemma byte_bound c : 0 <= byte c < 256.
Proof. unfold byte. pose proof (Ascii.N_ascii_bounded c). lia. Qed.

Lemma byte_chr n : 0 <= n < 256 -> byte (chr n) = n.
Proof. intros H. unfold byte, chr. rewrite Ascii.N_ascii_embedding; lia. Qed.

Lemma chr_byte c : chr (byte c) = c.
Proof. unfold byte, chr. rewrite N2Z.id. apply Ascii.ascii_N_embedding. Qed.

Lemma is_digit_spec c : is_digit c = true <-> 48 <= byte c <= 57.
Proof. unfold is_digit. rewrite andb_true_iff, !Z.leb_le. done. Qed.

Lemma is_char_spec c d : is_char c d = true <-> c = d.
Proof. apply Ascii.eqb_eq. Qed.

Lemma str_app_cons c s t : String c s +:+ t = String c (s +:+ t).
Proof. done. Qed.
Lemma str_app_nil t : "" +:+ t = t.
Proof. done. Qed.

Lemma str_all_app p s t : str_all p (s +:+ t) = (str_all p s && str_all p t)%bool.
Proof.
  induction s as [|c s IH]; [done|]. rewrite str_app_cons. cbn [str_all].
  by rewrite IH, andb_assoc.
Qed.

Lemma str_any_app p s t : str_any p (s +:+ t) = (str_any p s || str_any p t)%bool.
Proof.
  induction s as [|c s IH]; [done|]. rewrite str_app_cons. cbn [str_any].
  by rewrite IH, orb_assoc.
Qed.

Lemma str_all_impl (p q : Ascii.ascii -> bool) s :
  (forall c, p c = true -> q c = true) -> str_all p s = true -> str_all q s = true.
Proof.
  intros H. induction s as [|c s IH]; cbn; [done|].
  rewrite !andb_true_iff. intros []. auto.
Qed.

Lemma str_any_none (p q : Ascii.ascii -> bool) s :
  (forall c, p c = true -> q c = false) -> str_all p s = true -> str_any q s = false.
Proof.
  intros H. induction s as [|c s IH]; cbn; [done|].
  rewrite andb_true_iff. intros [Hc Hs]. by rewrite (H c Hc), IH.
Qed.

Lemma slen_cons c s : slen (String c s) = 1 + slen s.
Proof. unfold slen. cbn. lia. Qed.
Lemma slen_app s t : slen (s +:+ t) = slen s + slen t.
Proof.
  induction s as [|c s IH]; [done|]. rewrite str_app_cons, !slen_cons, IH. lia.
Qed.
Lemma slen_nonneg s : 0 <= slen s.
Proof. unfold slen. lia. Qed.

Lemma app_empty_r s : s +:+ "" = s.
Proof. induction s as [|c s IH]; [done|]. by rewrite str_app_cons, IH. Qed.
Lemma str_app_assoc s t u : (s +:+ t) +:+ u = s +:+ (t +:+ u).
Proof. induction s as [|c s IH]; [done|]. by rewrite !str_app_cons, IH. Qed.

(** ** Facts on numerals *)

Lemma digits_acc_app s t acc :
  digits_acc (s +:+ t) acc = digits_acc t (digits_acc s acc).
Proof. revert acc. induction s as [|c s IH]; intros acc; [done|]. apply IH. Qed.

Lemma digits_acc_linear s acc :
  digits_acc s acc = acc * 10 ^ slen s + digits_val s.
Proof.
  unfold digits_val. revert acc. induction s as [|c s IH]; intros acc.
  - change (slen "") with 0. cbn [digits_acc]. rewrite Z.pow_0_r. lia.
  - cbn [digits_acc]. rewrite IH, (IH (0 * 10 + digit_val c)), slen_cons.
    rewrite Z.pow_add_r by (pose proof (slen_nonneg s); lia).
    change (10 ^ 1) with 10. ring.
Qed.

Lemma digits_val_app s t :
  digits_val (s +:+ t) = digits_val s * 10 ^ slen t + digits_val t.
Proof. unfold digits_val at 1. by rewrite digits_acc_app, digits_acc_linear. Qed.

Lemma digits_val_cons c s :
  digits_val (String c s) = digit_val c * 10 ^ slen s + digits_val s.
Proof. unfold digits_val at 1. cbn [digits_acc]. apply digits_acc_linear. Qed.

Lemma digits_val_bound s :
  str_all is_digit s = true -> 0 <= digits_val s < 10 ^ slen s.
Proof.
  induction s as [|c s IH]; cbn [str_all]; [by vm_compute|].
  rewrite andb_true_iff, is_digit_spec. intros [Hc Hs].
  rewrite digits_val_cons, slen_cons. specialize (IH Hs).
  rewrite Z.pow_add_r by (pose proof (slen_nonneg s); lia).
  unfold digit_val. nia.
Qed.

Lemma Repeat0_len n : slen (Repeat0 n) = Z.of_nat n.
Proof. induction n; cbn [Repeat0]; [done|]. rewrite slen_cons. lia. Qed.
Lemma Repeat0_digits n : str_all is_digit (Repeat0 n) = true.
Proof. induction n; cbn; auto. Qed.
Lemma Repeat0_val n : digits_val (Repeat0 n) = 0.
Proof. induction n; cbn [Repeat0]; [done|]. rewrite digits_val_cons, IHn. change (digit_val "0") with 0. lia. Qed.

Lemma digit_chr n : 0 <= n < 10 -> is_digit (chr (48 + n)) = true.
Proof. intros H. rewrite is_digit_spec, byte_chr; lia. Qed.

(** [format_digits] with enough fuel prints the digits of [n] before [acc]. *)
Lemma format_digits_spec fuel n acc :
  0 <= n -> n < 10 ^ Z.of_nat fuel -> (0 < fuel)%nat ->
  exists d, format_digits fuel n acc = d +:+ acc /\ str_all is_digit d = true /\
            digits_val d = n /\ d <> "" /\
            (forall s, d = String "0" s -> s = "").
Proof.
  revert n acc. induction fuel as [|f IH]; intros n acc Hn Hb Hf; [lia|].
  cbn [format_digits]. pose proof (Z.mod_pos_bound n 10 ltac:(lia)) as Hm.
  pose proof (Z.div_mod n 10 ltac:(lia)) as Hd.
  assert (Hdv : digit_val (chr (48 + n mod 10)) = n mod 10).
  { unfold digit_val. rewrite byte_chr; lia. }
  destruct (n / 10 =? 0) eqn:E; bool_prop.
  - exists (String (chr (48 + n mod 10)) ""). rewrite str_app_cons, str_app_nil.
    cbn [str_all]. rewrite digit_chr, digits_val_cons, Hdv by lia.
    change (slen "") with 0. change (digits_val "") with 0. rewrite Z.pow_0_r.
    repeat split; [lia | done | congruence].
  - assert (Hq : 1 <= n / 10) by (pose proof (Z.div_pos n 10 Hn ltac:(lia)); lia).
    destruct f as [|f]; [cbn in Hb; lia|].
    destruct (IH (n / 10) (String (chr (48 + n mod 10)) acc)) as (d & Ed & Hdig & Hv & Hne & H0);
      [lia | | lia |].
    { replace (Z.of_nat (S (S f))) with (1 + Z.of_nat (S f)) in Hb by lia.
      rewrite Z.pow_add_r in Hb by lia. nia. }
    exists (d +:+ String (chr (48 + n mod 10)) ""). repeat split.
    + by rewrite Ed, str_app_assoc.
    + rewrite str_all_app, Hdig. cbn [str_all]. by rewrite digit_chr by lia.
    + rewrite digits_val_app, digits_val_cons, Hv, Hdv, slen_cons.
      change (slen "") with 0. change (digits_val "") with 0.
      change (10 ^ (1 + 0)) with 10. rewrite Z.pow_0_r. lia.
    + destruct d; [done|]. by rewrite str_app_cons.
    + intros s Hs. destruct d as [|c d]; [done|]. rewrite str_app_cons in Hs.
      injection Hs as -> Hs. specialize (H0 d eq_refl) as ->.
      change (digits_val "0") with 0 in Hv. lia.
Qed.

Lemma log2_fuel n : 0 <= n -> n < 10 ^ Z.of_nat (S (Z.to_nat (Z.log2 n))).
Proof.
  intros Hn. destruct (Z.eq_dec n 0) as [->|]; [done|].
  apply Z.lt_le_trans with (2 ^ Z.of_nat (S (Z.to_nat (Z.log2 n)))).
  - pose proof (Z.log2_nonneg n). replace (Z.of_nat _) with (Z.succ (Z.log2 n)) by lia.
    apply Z.log2_spec. lia.
  - apply Z.pow_le_mono_l. lia.
Qed.

(** The numeral of a non-negative integer: digits only, not empty, with no
    leading zero but for zero itself, and of that value. *)
Record numeral (n : Z) (s : string) : Prop := {
  numeral_digits : str_all is_digit s = true;
  numeral_val : digits_val s = n;
  numeral_nonempty : s <> "";
  numeral_canonical : forall s', s = String "0" s' -> s' = ""
}.

Lemma format_nonneg_numeral n : 0 <= n -> numeral n (format_nonneg n).
Proof.
  intros Hn. unfold format_nonneg.
  destruct (format_digits_spec _ n "" Hn (log2_fuel n Hn) ltac:(lia))
    as (d & -> & ? & ? & ? & ?).
  rewrite app_empty_r. by split.
Qed.

Lemma numeral_unique n s t : numeral n s -> numeral n t -> s = t.
Proof.
  assert (Hlen : forall u v, numeral n u -> numeral n v -> slen u < slen v -> False).
  { intros u v [Hu1 Hu2 Hu3 _] [Hv1 Hv2 Hv3 Hv4] Hl.
    destruct v as [|c v]; [done|]. cbn [str_all] in Hv1.
    apply andb_true_iff in Hv1 as [Hc Hv1]. apply is_digit_spec in Hc.
    pose proof (digits_val_bound v Hv1). pose proof (digits_val_bound u Hu1).
    rewrite digits_val_cons in Hv2. rewrite slen_cons in Hl.
    destruct (Z.eq_dec (byte c) 48) as [E|E].
    - assert (c = "0"%char) as -> by (by rewrite <- (chr_byte c), E).
      specialize (Hv4 v eq_refl) as ->. destruct u; [done|].
      rewrite slen_cons in Hl. pose proof (slen_nonneg u).
      change (slen "") with 0 in Hl. lia.
    - assert (10 ^ slen u <= 10 ^ slen v) by (apply Z.pow_le_mono_r; lia).
      unfold digit_val in Hv2. nia. }
  intros Hs Ht. assert (El : slen s = slen t).
  { destruct (Z.lt_trichotomy (slen s) (slen t)) as [|[|]]; [|done|]; exfalso; eauto. }
  destruct Hs as [Hs1 Hs2 _ _], Ht as [Ht1 Ht2 _ _]. clear Hlen.
  rewrite <- Ht2 in Hs2. clear Ht2 n.
  revert t Hs1 Ht1 Hs2 El. induction s as [|c s IH]; intros [|d t] Hs1 Ht1 Hv El; try done.
  cbn [str_all] in *. apply andb_true_iff in Hs1 as [Hc Hs1], Ht1 as [Hd Ht1].
  rewrite !slen_cons in El. rewrite !digits_val_cons in Hv.
  assert (El' : slen s = slen t) by lia. rewrite El' in Hv.
  pose proof (digits_val_bound s Hs1). pose proof (digits_val_bound t Ht1).
  rewrite El' in H. apply is_digit_spec in Hc, Hd.
  assert (digit_val c = digit_val d) as E by nia.
  f_equal; [rewrite <- (chr_byte c), <- (chr_byte d); f_equal; unfold digit_val in E; lia|].
  apply IH; auto. nia.
Qed.

Lemma HasPrefix_char c d s : HasPrefix (String d s) (String c "") = is_char c d.
Proof.
  unfold HasPrefix, is_char. simpl. destruct (ascii_dec c d) as [->|Hn].
  - rewrite Ascii.eqb_refl. by destruct s.
  - symmetry. by apply Ascii.eqb_neq.
Qed.

Lemma digit_is_char c d : is_digit d = true -> is_digit c = false -> is_char c d = false.
Proof.
  intros Hd Hc. destruct (is_char c d) eqn:E; [|done].
  apply is_char_spec in E as <-. congruence.
Qed.

(** [SetString] inverts the printer. *)
Lemma digit_not_sign s c :
  str_all is_digit s = true -> is_digit c = false -> HasPrefix s (String c "") = false.
Proof.
  intros Hs Hc. destruct s as [|d s]; [done|]. cbn [str_all] in Hs.
  apply andb_true_iff in Hs as [Hd _]. rewrite HasPrefix_char. by apply digit_is_char.
Qed.

Lemma SetString_digits s :
  str_all is_digit s = true -> s <> "" -> SetString s = Some (digits_val s).
Proof.
  intros Hs Hne. unfold SetString.
  rewrite !digit_not_sign by done. cbn [orb]. rewrite Hs. cbn [negb].
  apply String.eqb_neq in Hne as ->. done.
Qed.

Lemma SetString_minus s :
  str_all is_digit s = true -> s <> "" ->
  SetString (String "-" s) = Some (- digits_val s).
Proof.
  intros Hs Hne. unfold SetString.
  assert (HasPrefix (String "-" s) "-" = true) as -> by (by destruct s).
  cbn [orb tail1]. rewrite Hs. apply String.eqb_neq in Hne as ->. done.
Qed.

Lemma SetString_Itoa z : SetString (Itoa z) = Some z.
Proof.
  unfold Itoa. destruct (z <? 0) eqn:E; bool_prop.
  - destruct (format_nonneg_numeral (- z) ltac:(lia)) as [Hd Hv Hne _].
    rewrite SetString_minus by done. f_equal. lia.
  - destruct (format_nonneg_numeral z ltac:(lia)) as [Hd Hv Hne _].
    rewrite SetString_digits by done. by f_equal.
Qed.

Lemma Itoa_inj y z : Itoa y = Itoa z -> y = z.
Proof. intros H. apply (f_equal SetString) in H. rewrite !SetString_Itoa in H. congruence. Qed.

(** ** Facts on trimming *)

Lemma graphic_spec c : graphic c = true <-> 33 <= byte c <= 126.
Proof. unfold graphic. rewrite andb_true_iff, !Z.leb_le. done. Qed.

Lemma digit_graphic c : is_digit c = true -> graphic c = true.
Proof. rewrite is_digit_spec, graphic_spec. lia. Qed.

Lemma TrimLeftSpace_graphic c s :
  graphic c = true -> TrimLeftSpace (String c s) = String c s.
Proof.
  rewrite graphic_spec. intros Hc. cbn [TrimLeftSpace].
  assert (ascii_space c = false) as -> by (unfold ascii_space; lia).
  destruct s as [|b s]; [done|].
  assert (space2 c b = false) as -> by (unfold space2; lia).
  destruct s as [|d s]; [done|].
  assert (space3 c b d = false) as -> by (unfold space3; lia). done.
Qed.

Lemma TrimRightSpace_graphic s : str_all graphic s = true -> TrimRightSpace s = s.
Proof.
  induction s as [|c s IH]; [done|]. cbn [str_all]. rewrite andb_true_iff.
  intros [Hc Hs]. unfold TrimRightSpace; fold TrimRightSpace.
  rewrite TrimLeftSpace_graphic by done. cbn [String.eqb]. by rewrite IH.
Qed.

Lemma TrimSpace_graphic s : str_all graphic s = true -> TrimSpace s = s.
Proof.
  intros Hs. unfold TrimSpace. destruct s as [|c s]; [done|].
  cbn [str_all] in Hs. rewrite TrimLeftSpace_graphic.
  - by apply TrimRightSpace_graphic.
  - by apply andb_true_iff in Hs as [].
Qed.

Lemma Repeat0_S n : Repeat0 (S n) = Repeat0 n +:+ "0".
Proof.
  induction n as [|n IH]; [done|]. cbn [Repeat0]. rewrite str_app_cons.
  cbn [Repeat0] in IH. by rewrite IH.
Qed.

(** Trimming zeros on the left keeps the value of a digit string, and leaves
    a string that does not start with zero. *)
Lemma TrimLeft0_digits s :
  str_all is_digit s = true ->
  str_all is_digit (TrimLeft0 s) = true /\ digits_val (TrimLeft0 s) = digits_val s /\
  (forall s', TrimLeft0 s <> String "0" s').
Proof.
  induction s as [|c s IH]; [repeat split; done|]. cbn [str_all TrimLeft0].
  intros Hs. pose proof Hs as Hs'. apply andb_true_iff in Hs as [Hc Hs].
  destruct (is_char "0" c) eqn:E.
  - apply is_char_spec in E as <-. destruct (IH Hs) as (? & Hv & ?).
    split; [done|]. split; [|done]. rewrite Hv, digits_val_cons.
    change (digit_val "0") with 0. lia.
  - repeat split; [done|]. intros s' [= -> ->]. done.
Qed.

Lemma TrimLeft0_pad n s : TrimLeft0 (Repeat0 n +:+ s) = TrimLeft0 s.
Proof.
  induction n as [|n IH]; [done|]. cbn [Repeat0]. rewrite str_app_cons. apply IH.
Qed.

Lemma TrimLeft0_id s : (forall s', s <> String "0" s') -> TrimLeft0 s = s.
Proof.
  destruct s as [|c s]; [done|]. intros H. cbn [TrimLeft0].
  destruct (is_char "0" c) eqn:E; [|done].
  apply is_char_spec in E as <-. by destruct (H s).
Qed.

(** ** Facts on splitting *)

Definition has_char (c : Ascii.ascii) (s : string) : bool := str_any (is_char c) s.

Lemma Split_none sep s : has_char sep s = false -> Split sep s = [s].
Proof.
  unfold has_char. induction s as [|c s IH]; [done|]. cbn [str_any Split].
  rewrite orb_false_iff. intros [-> H]. by rewrite IH.
Qed.

Lemma Split_one sep s t :
  has_char sep s = false -> has_char sep t = false ->
  Split sep (s +:+ String sep t) = [s; t].
Proof.
  unfold has_char. intros Hs Ht. induction s as [|c s IH].
  - rewrite str_app_nil. cbn [Split].
    assert (is_char sep sep = true) as -> by by apply is_char_spec.
    by rewrite Split_none.
  - cbn [str_any] in Hs. apply orb_false_iff in Hs as [Hc Hs].
    rewrite str_app_cons. cbn [Split]. by rewrite Hc, IH.
Qed.

Lemma digits_no_char c s :
  is_digit c = false -> str_all is_digit s = true -> has_char c s = false.
Proof.
  intros Hc. apply str_any_none. intros d Hd.
  destruct (is_char c d) eqn:E; [|done]. apply is_char_spec in E as <-. congruence.
Qed.

Lemma contains_eE_none s :
  has_char "e" s = false -> has_char "E" s = false -> contains_eE s = false.
Proof.
  unfold contains_eE, has_char. induction s as [|d s IH]; [done|]. cbn [str_any].
  intros He HE. apply orb_false_iff in He as [-> He], HE as [-> HE]. by rewrite IH.
Qed.

(** ** The order of strings: bytewise lexicographic, as Go's [<] *)

Lemma str_ltb_asym s t : String.ltb s t = true -> String.ltb t s = false.
Proof.
  unfold String.ltb. rewrite (String.compare_antisym t s).
  by destruct (String.compare s t).
Qed.

Lemma str_not_ltb s t : String.ltb t s = false <-> String.le s t.
Proof.
  unfold String.ltb, String.le, String.leb.
  rewrite (String.compare_antisym t s). destruct (String.compare s t); cbn;
    split; try done; intros [].
Qed.

Lemma str_notless_trans x y z :
  String.ltb y x = false -> String.ltb z y = false -> String.ltb z x = false.
Proof. rewrite !str_not_ltb. intros H1 H2. by etrans. Qed.

Lemma str_ltb_total x y : String.ltb x y = false -> String.ltb y x = false -> x = y.
Proof. rewrite !str_not_ltb. intros H1 H2. by apply (anti_symm String.le). Qed.

#[export] Instance str_ltb_strict_total : StrictTotal String.ltb.
Proof.
  constructor; [apply str_ltb_asym | apply str_notless_trans | apply str_ltb_total].
Qed.

Lemma str_ltb_irrefl x : String.ltb x x = false.
Proof. destruct (String.ltb x x) eqn:E; [|done]. by rewrite (str_ltb_asym _ _ E) in E. Qed.

#[export] Hint Resolve str_ltb_asym str_notless_trans str_ltb_total str_ltb_irrefl : go.

(** ** Facts on lengths and slices *)

Lemma str_length_app s t : String.length (s +:+ t) = (String.length s + String.length t)%nat.
Proof.
  induction s as [|c s IH]; [done|]. rewrite str_app_cons. cbn [String.length]. by rewrite IH.
Qed.

Lemma Repeat0_length n : String.length (Repeat0 n) = n.
Proof. induction n; cbn; auto. Qed.

Lemma substring_whole s : String.substring 0 (String.length s) s = s.
Proof. induction s as [|c s IH]; cbn; [done|]. by rewrite IH. Qed.

Lemma substring_app s t : String.substring 0 (String.length s) (s +:+ t) = s.
Proof.
  induction s as [|c s IH]; [by destruct t|]. rewrite str_app_cons. cbn. by rewrite IH.
Qed.

Lemma drop_str_app s t : drop_str (String.length s) (s +:+ t) = t.
Proof.
  unfold drop_str. rewrite str_length_app.
  replace (_ + _ - _)%nat with (String.length t) by lia.
  induction s as [|c s IH]; [apply substring_whole|]. rewrite str_app_cons. cbn. apply IH.
Qed.

(** A string splits at every position counted from its end. *)
Lemma split_at_end k s : (k <= String.length s)%nat ->
  exists a b, s = a +:+ b /\ String.length b = k.
Proof.
  induction s as [|c s IH]; cbn; intros H.
  - exists "", "". split; [done|cbn; lia].
  - destruct (Nat.eq_dec k (S (String.length s))) as [->|].
    + exists "", (String c s). done.
    + destruct IH as (a & b & -> & Hb); [lia|]. by exists (String c a), b.
Qed.

(** ** Facts on trimming a byte on the right *)

Lemma TrimRight_none c s : has_char c s = false -> TrimRight c s = s.
Proof.
  unfold has_char. induction s as [|d s IH]; [done|]. cbn [str_any TrimRight].
  rewrite orb_false_iff. intros [Hd Hs]. rewrite IH, Hd by done. by rewrite andb_false_r.
Qed.

Lemma TrimRight_app c s t : TrimRight c t <> "" -> TrimRight c (s +:+ t) = s +:+ TrimRight c t.
Proof.
  intros Ht. induction s as [|d s IH]; [done|]. rewrite !str_app_cons. cbn [TrimRight].
  rewrite IH. destruct (s +:+ TrimRight c t =s "") eqn:E; [|done].
  apply eqb_true_eq in E. destruct s; [by rewrite str_app_nil in E | done].
Qed.

Lemma TrimRight_cons c d s : is_char c d = false -> TrimRight c (String d s) = String d (TrimRight c s).
Proof. intros H. cbn [TrimRight]. by rewrite H, andb_false_r. Qed.

Lemma TrimRight_empty c s : TrimRight c s = "" -> TrimRight c (String c s) = "".
Proof.
  intros H. cbn [TrimRight]. rewrite H. cbn [String.eqb andb].
  assert (is_char c c = true) as -> by by apply is_char_spec. done.
Qed.

(** Trimming zeros on the right removes exactly a run of zeros. *)
Lemma TrimRight_zeros s :
  s = TrimRight "0" s +:+ Repeat0 (String.length s - String.length (TrimRight "0" s)).
Proof.
  induction s as [|c s IH]; [done|]. cbn [TrimRight].
  destruct ((TrimRight "0" s =s "") && is_char "0" c) eqn:E.
  - apply andb_true_iff in E as [E Hc]. apply eqb_true_eq in E.
    apply is_char_spec in Hc as <-. rewrite E in IH. rewrite str_app_nil in IH.
    rewrite str_app_nil. cbn [String.length] in *. rewrite Nat.sub_0_r in *. cbn [Repeat0].
    by rewrite <- IH.
  - rewrite str_app_cons. cbn [String.length]. by rewrite Nat.sub_succ, <- IH.
Qed.

Lemma TrimRight_length c s : (String.length (TrimRight c s) <= String.length s)%nat.
Proof.
  induction s as [|d s IH]; cbn [TrimRight]; [done|].
  destruct (_ && _); cbn [String.length]; lia.
Qed.

Lemma TrimRight_all p c s : str_all p s = true -> str_all p (TrimRight c s) = true.
Proof.
  induction s as [|d s IH]; [done|]. cbn [str_all TrimRight].
  rewrite andb_true_iff. intros [Hd Hs]. destruct (_ && is_char c d); [done|].
  cbn [str_all]. by rewrite Hd, IH.
Qed.

(** ** Signed fixed-point texts

    What both decimal parsers first do with [-w.f], [-w], [w.f] or [w]: trim
    it, refuse an exponent, take the sign off and split at the point. *)
Definition point_text (dot : bool) (w f : string) : string :=
  if dot then w +:+ String "." f else w.
Definition signed_text (negative : bool) (body : string) : string :=
  if negative then String "-" body else body.

Lemma digits_head s : str_all is_digit s = true -> s <> "" ->
  exists c t, s = String c t /\ is_digit c = true.
Proof.
  destruct s as [|c t]; [done|]. cbn [str_all]. intros H _.
  apply andb_true_iff in H as [H _]. eauto.
Qed.

Section SignedText.
Context (dot negative : bool) (w f : string).
Hypothesis Hw : str_all is_digit w = true.
Hypothesis Hwn : w <> "".
Hypothesis Hf : str_all is_digit f = true.
Let body := point_text dot w f.
Let text := signed_text negative body.

Lemma point_text_head : exists c b, body = String c b /\ is_digit c = true.
Proof.
  destruct (digits_head w Hw Hwn) as (c & t & E & Hc). exists c.
  unfold body, point_text. rewrite E. destruct dot; eauto.
Qed.

Lemma point_text_no_char d :
  is_digit d = false -> is_char d "." = false -> has_char d body = false.
Proof.
  intros Hd Hdot. pose proof (digits_no_char d w Hd Hw) as H1.
  pose proof (digits_no_char d f Hd Hf) as H2. unfold body, point_text.
  destruct dot; [|done]. unfold has_char in *. rewrite str_any_app, H1. cbn [str_any].
  by rewrite Hdot, H2.
Qed.

Lemma signed_text_trim : TrimSpace text = text.
Proof.
  apply TrimSpace_graphic. assert (Hb : str_all graphic body = true).
  { unfold body, point_text. destruct dot; rewrite ?str_all_app; cbn [str_all];
      by rewrite ?(str_all_impl is_digit graphic) by (done || apply digit_graphic). }
  unfold text, signed_text. destruct negative; [|done]. cbn [str_all]. by rewrite Hb.
Qed.

Lemma signed_text_accepted : ((text =s "") || contains_eE text)%bool = false.
Proof.
  assert (G : contains_eE body = false)
    by (apply contains_eE_none; by apply point_text_no_char).
  destruct point_text_head as (c & b & E & _). unfold text, signed_text.
  destruct negative; [|by rewrite G, E]. unfold contains_eE in *. cbn [str_any].
  by rewrite G.
Qed.

Lemma signed_text_sign : HasPrefix text "-" = negative.
Proof.
  destruct point_text_head as (c & b & E & Hc). unfold text, signed_text. rewrite E.
  destruct negative; rewrite HasPrefix_char; [done | by apply digit_is_char].
Qed.

Lemma signed_text_body :
  (if (negative || HasPrefix text "+")%bool then tail1 text else text) = body.
Proof.
  destruct point_text_head as (c & b & E & Hc). unfold text, signed_text. rewrite E.
  destruct negative; [done|]. cbn [orb]. rewrite HasPrefix_char, digit_is_char; done.
Qed.

Lemma point_text_split : Split "." body = if dot then [w; f] else [w].
Proof.
  unfold body, point_text. destruct dot.
  - apply Split_one; by apply digits_no_char.
  - by apply Split_none, digits_no_char.
Qed.
End SignedText.

(** ** [strings.HasSuffix] and [strings.ReplaceAll] *)
Definition HasSuffix (s suffix : string) : bool :=
  (String.length suffix <=? String.length s)%nat && (drop_str (String.length s - String.length suffix) s =s suffix).
(** Occurrences are replaced from the left; [skip] bytes of one are still to be
    dropped. The pattern is not empty. *)
Fixpoint replace_from (old new : string) (skip : nat) (s : string) : string :=
  match s with
  | EmptyString => EmptyString
  | String c s' =>
      match skip with
      | S k => replace_from old new k s'
      | O => if HasPrefix s old then new +:+ replace_from old new (String.length old - 1) s' else String c (replace_from old new 0 s')
      end
  end.
Definition ReplaceAll (s old new : string) : string := replace_from old new 0 s.
Example replace_usdt : ReplaceAll "USDTUSDCUSDT" "USDT" "" = "USDC". Proof. reflexivity. Qed.
Example replace_slash : ReplaceAll "BTC/USDT" "/" "" = "BTCUSDT". Proof. reflexivity. Qed.
Example suffix_yes : HasSuffix "BTCUSDT" "USDT" = true. Proof. reflexivity. Qed.
Example suffix_no : HasSuffix "DT" "USDT" = false. Proof. reflexivity. Qed.
