(* ===== verification/GoFloat.v ===== *)
(** * GoFloat: Go's [float64] and [math]

    IEEE 754 binary64 as the standard library's [spec_float] with 53 bits of
    precision: executable, and rounded to nearest even by each operation; of
    [math] comparisons with NaN and signed zeros as [math.Max] and [math.Min]
    make them, the square root, and the portable [math.Log]; and the comparisons
    as an order that linear arithmetic decides. *)
From Stdlib Require Import SpecFloat.
From stdpp Require Import base numbers list.
Local Open Scope Z_scope.

Definition float64 : Type := spec_float.
Definition prec : Z := 53.
Definition emax : Z := 1024.

Definition fadd : float64 -> float64 -> float64 := SFadd prec emax.
Definition fsub : float64 -> float64 -> float64 := SFsub prec emax.
Definition fmul : float64 -> float64 -> float64 := SFmul prec emax.
Definition fdiv : float64 -> float64 -> float64 := SFdiv prec emax.
Definition flt : float64 -> float64 -> bool := SFltb.
Definition fle : float64 -> float64 -> bool := SFleb.
Definition feq : float64 -> float64 -> bool := SFeqb.
Definition fzero : float64 := S754_zero false.

(** [float64(z)]. *)
Definition f_of_Z (z : Z) : float64 := binary_normalize prec emax z 0 false.

(** The float64 nearest to [n / d]: what [strconv.ParseFloat] returns for the
    decimal numeral of that value ([d] a power of ten), an infinity when it
    overflows. [SFdiv] needs no normalised operands. *)
Definition f_of_ratio (n : Z) (d : positive) : float64 :=
  match n with
  | Z0 => S754_zero false
  | Zpos p => fdiv (S754_finite false p 0) (S754_finite false d 0)
  | Zneg p => fdiv (S754_finite true p 0) (S754_finite false d 0)
  end.

Definition is_nan (x : float64) : bool := match x with S754_nan => true | _ => false end.
Definition is_inf (x : float64) : bool := match x with S754_infinity _ => true | _ => false end.

Example f_of_ratio_tenth : f_of_ratio 1 10 = S754_finite false 7205759403792794 (-56).
Proof. reflexivity. Qed.
Example f_of_ratio_exact : f_of_ratio (-3) 4 = S754_finite true 6755399441055744 (-53).
Proof. reflexivity. Qed.

(** ** [math] *)
Definition fone : float64 := f_of_Z 1.
Definition f_tiny : float64 := f_of_ratio 1 1000000000000.
Definition fhundred : float64 := f_of_Z 100.
Definition finite_f (x : float64) : bool := negb (is_nan x || is_inf x).
Definition fabs (x : float64) : float64 := SFabs x.
Definition fneg (x : float64) : float64 := SFopp x.
Definition fsqrt (x : float64) : float64 := SFsqrt prec emax x.

(** [math.Max] and [math.Min]: infinities first, then NaN, then signed zeros. *)
Definition fmax (x y : float64) : float64 :=
  if existsb (fun v => match v with S754_infinity false => true | _ => false end) [x; y] then S754_infinity false
  else if is_nan x || is_nan y then S754_nan
  else if feq x fzero && feq x y then match x with S754_zero true => y | _ => x end
  else if flt y x then x else y.
Definition fmin (x y : float64) : float64 :=
  if existsb (fun v => match v with S754_infinity true => true | _ => false end) [x; y] then S754_infinity true
  else if is_nan x || is_nan y then S754_nan
  else if feq x fzero && feq x y then match x with S754_zero true => x | _ => y end
  else if flt x y then x else y.

(** ** [math.Log] *)
(** [math.Frexp] on a positive finite number. *)
Definition Frexp (m : positive) (e : Z) : float64 * Z :=
  let d := Z.pos (digits2_pos m) in (binary_normalize prec emax (Z.pos m) (- d) false, e + d).
Definition Ln2Hi : float64 := f_of_ratio 693147180369123816490 1000000000000000000000.
Definition Ln2Lo : float64 := f_of_ratio 190821492927058770002 1000000000000000000000000000000.
Definition log_coefficients : list float64 :=
  (fun n => f_of_ratio n 10000000000000000000) <$>
    [6666666666666735130; 3999999999940941908; 2857142874366239149; 2222219843214978396; 1818357216161805012;
     1531383769920937332; 1479819860511658591].
Definition half_sqrt2 : float64 := f_of_ratio 70710678118654752440084436210484903928483593768847 100000000000000000000000000000000000000000000000000.
Definition Log (x : float64) : float64 :=
  match x with
  | S754_nan => S754_nan
  | S754_infinity false => x
  | S754_zero _ => S754_infinity true
  | S754_infinity true | S754_finite true _ _ => S754_nan
  | S754_finite false m e =>
      let '(f0, ki0) := Frexp m e in
      let low := flt f0 half_sqrt2 in
      let f1 := if low then fmul f0 (f_of_Z 2) else f0 in
      let k := f_of_Z (if low then ki0 - 1 else ki0) in
      let f := fsub f1 fone in
      let s := fdiv f (fadd (f_of_Z 2) f) in
      let s2 := fmul s s in let s4 := fmul s2 s2 in
      let L i := default fzero (log_coefficients !! i) in
      let t1 := fmul s2 (fadd (L 0%nat) (fmul s4 (fadd (L 2%nat) (fmul s4 (fadd (L 4%nat) (fmul s4 (L 6%nat))))))) in
      let t2 := fmul s4 (fadd (L 1%nat) (fmul s4 (fadd (L 3%nat) (fmul s4 (L 5%nat))))) in
      let R := fadd t1 t2 in
      let hfsq := fmul (fmul (f_of_ratio 1 2) f) f in
      fsub (fmul k Ln2Hi) (fsub (fsub hfsq (fadd (fmul s (fadd hfsq R)) (fmul k Ln2Lo))) f)
  end.

Example log_one : Log fone = fzero. Proof. vm_compute. reflexivity. Qed.
(** 0x3FE62E42FEFA39EF *)
Example log_two : Log (f_of_Z 2) = S754_finite false 6243314768165359 (-53). Proof. vm_compute. reflexivity. Qed.
(** 0x40026BB1BBB55516, the float64 nearest to ln 10. *)
Example log_ten : Log (f_of_Z 10) = S754_finite false 5184960683398422 (-51). Proof. vm_compute. reflexivity. Qed.

(** ** Comparisons as an order

    Leaving NaN aside, floats are compared by sign, exponent and mantissa. *)
Definition rank (x : float64) : Z * Z * Z :=
  match x with
  | S754_nan | S754_zero _ => (0, 0, 0)
  | S754_infinity s => (if s then -2 else 2, 0, 0)
  | S754_finite s m e => if s then (-1, - e, Z.neg m) else (1, e, Z.pos m)
  end.
Definition below (a b : Z * Z * Z) : Prop :=
  a.1.1 < b.1.1 \/ a.1.1 = b.1.1 /\ (a.1.2 < b.1.2 \/ a.1.2 = b.1.2 /\ a.2 < b.2).
Definition compare3 (a b : Z * Z * Z) : comparison :=
  match a.1.1 ?= b.1.1 with Eq => match a.1.2 ?= b.1.2 with Eq => a.2 ?= b.2 | c => c end | c => c end.
Lemma compare_rank x y : is_nan x = false -> is_nan y = false -> SFcompare x y = Some (compare3 (rank x) (rank y)).
Proof.
  destruct x as [a|a| |[] m1 e1], y as [b|b| |[] m2 e2]; try done; intros _ _; try (by destruct a, b); try (by destruct a); try (by destruct b); cbn; f_equal.
  - rewrite Z.compare_opp. rewrite (Z.compare_antisym e1 e2). destruct (e1 ?= e2); done.
Qed.
Lemma compare3_spec a b : CompareSpec (a = b) (below a b) (below b a) (compare3 a b).
Proof.
  destruct a as [[a1 a2] a3], b as [[b1 b2] b3]. unfold compare3, below. cbn. destruct (Z.compare_spec a1 b1); [|constructor; lia..].
  destruct (Z.compare_spec a2 b2); [|constructor; lia..]. destruct (Z.compare_spec a3 b3); constructor; [congruence | lia..].
Qed.
Lemma flt_rank x y : flt x y = true <-> is_nan x = false /\ is_nan y = false /\ below (rank x) (rank y).
Proof.
  destruct (is_nan x) eqn:Hx; [destruct x; try done; split; [discriminate | by intros [? _]]|].
  destruct (is_nan y) eqn:Hy; [destruct y; try done; split; [by destruct x | by intros (_ & ? & _)]|].
  unfold flt, SFltb. rewrite compare_rank by done. destruct (compare3_spec (rank x) (rank y)) as [E|E|E]; unfold below in *; (split; [intros H; try discriminate|]); try done;
    intros (_ & _ & H); rewrite ?E in H; lia.
Qed.
Lemma fle_rank x y : fle x y = true <-> is_nan x = false /\ is_nan y = false /\ ~ below (rank y) (rank x).
Proof.
  destruct (is_nan x) eqn:Hx; [destruct x; try done; split; [discriminate | by intros [? _]]|].
  destruct (is_nan y) eqn:Hy; [destruct y; try done; split; [by destruct x | by intros (_ & ? & _)]|].
  unfold fle, SFleb. rewrite compare_rank by done. destruct (compare3_spec (rank x) (rank y)) as [E|E|E]; unfold below in *; (split; [intros H; try discriminate|]); try done.
  - intros. rewrite E. split_and!; [done..|lia].
  - intros. split_and!; [done..|lia].
  - intros (_ & _ & H). by destruct H.
Qed.
Lemma flt_not_nan x y : is_nan x = false -> is_nan y = false -> flt x y = false <-> ~ below (rank x) (rank y).
Proof. intros Hx Hy. rewrite <- not_true_iff_false, flt_rank. tauto. Qed.
Lemma flt_irrefl x : flt x x = false.
Proof. apply not_true_iff_false. rewrite flt_rank. unfold below. lia. Qed.
Lemma flt_asym x y : flt x y = true -> flt y x = false.
Proof. rewrite <- not_true_iff_false, !flt_rank. unfold below. lia. Qed.
Lemma flt_trans x y z : flt x y = true -> flt y z = true -> flt x z = true.
Proof. rewrite !flt_rank. unfold below. intros (? & ? & ?) (? & ? & ?). split_and!; [done..|lia]. Qed.
Lemma not_flt_fle x y : is_nan x = false -> is_nan y = false -> flt x y = false -> fle y x = true.
Proof. intros Hx Hy. rewrite flt_not_nan, fle_rank by done. done. Qed.
Lemma fle_nan x y : fle x y = true -> is_nan x = false /\ is_nan y = false.
Proof. rewrite fle_rank. tauto. Qed.
Lemma not_fle_flt x y : is_nan x = false -> is_nan y = false -> fle x y = false -> flt y x = true.
Proof.
  intros Hx Hy. rewrite <- not_true_iff_false, fle_rank, flt_rank. intros H. split_and!; [done..|].
  assert (below (rank y) (rank x) \/ ~ below (rank y) (rank x)) as [Hb|Hb] by (unfold below; lia); [done|]. by destruct H.
Qed.
