(* ===== verification/GoFloatFacts.v ===== *)
(** * GoFloatFacts: signs of binary64 results

    Sums, products and quotients of non-negative numbers are non-negative, and
    no NaN appears; comparisons with the bounds of an interval. *)
From Stdlib Require Import SpecFloat.
From stdpp Require Import base numbers list.
From S2P Require Import GoFloat.
Local Open Scope Z_scope.

(** Not NaN, and not below zero. *)
Definition nonneg (x : float64) : bool :=
  match x with S754_zero _ | S754_finite false _ _ | S754_infinity false => true | _ => false end.
Definition positive_finite (x : float64) : bool := match x with S754_finite false _ _ => true | _ => false end.

(** ** Rounding keeps the sign *)
Lemma shr_1_nonneg r : 0 <= shr_m r -> 0 <= shr_m (shr_1 r).
Proof. destruct r as [[|[m|m|]|m] b s]; cbn; lia. Qed.
Lemma iter_shr_nonneg p r : 0 <= shr_m r -> 0 <= shr_m (SpecFloat.iter_pos shr_1 p r).
Proof. revert r. induction p as [p IH|p IH|]; intros r H; cbn [SpecFloat.iter_pos]; auto using shr_1_nonneg. Qed.
Lemma shr_fexp_nonneg m e l : 0 <= m -> 0 <= shr_m (fst (shr_fexp prec emax m e l)).
Proof.
  intros H. unfold shr_fexp, shr. assert (0 <= shr_m (shr_record_of_loc m l)) by (by destruct l as [|[]]).
  destruct (fexp _ _ _ - e); cbn; auto using iter_shr_nonneg.
Qed.
Lemma round_nearest_nonneg m l : 0 <= m -> 0 <= round_nearest_even m l.
Proof. intros H. destruct l as [|[]]; cbn; try destruct (Z.even m); lia. Qed.
Lemma round_aux_nonneg m e l : 0 <= m -> nonneg (binary_round_aux prec emax false m e l) = true.
Proof.
  intros H. unfold binary_round_aux. destruct (shr_fexp prec emax m e l) as [r e1] eqn:E1.
  pose proof (shr_fexp_nonneg m e l H) as H1. rewrite E1 in H1. cbn [fst] in H1.
  destruct (shr_fexp prec emax (round_nearest_even _ _) e1 loc_Exact) as [r2 e2] eqn:E2.
  pose proof (shr_fexp_nonneg _ e1 loc_Exact (round_nearest_nonneg _ (loc_of_shr_record r) H1)) as H2.
  rewrite E2 in H2. cbn [fst] in H2. destruct (shr_m r2); [done | by destruct (_ <=? _) | lia].
Qed.
Lemma round_nonneg m e : nonneg (binary_round prec emax false m e) = true.
Proof. unfold binary_round. destruct (shl_align _ _ _). by apply round_aux_nonneg. Qed.
Lemma normalize_nonneg m e s : 0 <= m -> nonneg (binary_normalize prec emax m e s) = true.
Proof. intros H. destruct m; [done | apply round_nonneg | lia]. Qed.

(** ** Arithmetic *)
Lemma fadd_nonneg x y : nonneg x = true -> nonneg y = true -> nonneg (fadd x y) = true.
Proof.
  destruct x as [[]|[]| |[] mx ex], y as [[]|[]| |[] my ey]; intros Hx Hy; try done.
  unfold fadd, SFadd. apply normalize_nonneg. cbn [cond_Zopp]. lia.
Qed.
Lemma fmul_nonneg x y : nonneg x = true -> nonneg y = true -> finite_f x = true -> finite_f y = true -> nonneg (fmul x y) = true.
Proof.
  destruct x as [[]|[]| |[] mx ex], y as [[]|[]| |[] my ey]; intros Hx Hy Fx Fy; try done.
  unfold fmul, SFmul. apply round_aux_nonneg. lia.
Qed.
Lemma fdiv_nonneg x y : nonneg x = true -> positive_finite y = true -> nonneg (fdiv x y) = true.
Proof.
  destruct x as [[]|[]| |[] mx ex], y as [[]|[]| |[] my ey]; intros Hx Hy; try done.
  unfold fdiv, SFdiv. destruct (SFdiv_core_binary _ _ _ _ _ _) as [[q e] l] eqn:E.
  apply round_aux_nonneg. unfold SFdiv_core_binary in E.
  destruct (Z.div_eucl _ (Z.pos my)) as [q' r] eqn:Ed. injection E as <- _ _.
  assert (q' = (match ex - ey - Z.min (fexp prec emax (Zdigits2 (Z.pos mx) + ex - (Zdigits2 (Z.pos my) + ey))) (ex - ey) with
    | 0 => Z.pos mx | Z.pos _ => Z.shiftl (Z.pos mx) (ex - ey - Z.min (fexp prec emax (Zdigits2 (Z.pos mx) + ex - (Zdigits2 (Z.pos my) + ey))) (ex - ey))
    | Z.neg _ => 0 end) / Z.pos my) as ->; [unfold Z.div; by rewrite Ed|].
  apply Z.div_pos; [|done]. set (s := ex - ey - _). destruct s; [done | apply Z.shiftl_nonneg; lia | done].
Qed.
Lemma ratio_nonneg n d : 0 <= n -> nonneg (f_of_ratio n d) = true.
Proof. intros H. destruct n; [done | | lia]. by apply fdiv_nonneg. Qed.
Lemma f_of_Z_nonneg n : 0 <= n -> nonneg (f_of_Z n) = true.
Proof. apply normalize_nonneg. Qed.
Lemma foldl_fadd_nonneg {A} (f : A -> float64) l x : nonneg x = true -> Forall (fun a => nonneg (f a) = true) l ->
  nonneg (foldl (fun s a => fadd s (f a)) x l) = true.
Proof. intros Hx H. revert x Hx. induction H as [|a l Ha _ IH]; intros x Hx; cbn; auto using fadd_nonneg. Qed.

(** ** Comparisons *)
Lemma nonneg_le x : nonneg x = true -> fle fzero x = true.
Proof. by destruct x as [[]|[]| |[]]. Qed.
Lemma le_finite x : finite_f x = true -> flt x fzero = false -> nonneg x = true.
Proof. by destruct x as [[]|[]| |[]]. Qed.
(** A clamped number lies in the unit interval. *)
Definition unit_interval (x : float64) : bool := finite_f x && nonneg x && fle x fone.
Lemma fmax_zero x : fle x fone = true -> nonneg x = true -> unit_interval (fmax fzero x) = true.
Proof. destruct x as [[]|[]| |[] m e]; intros H Hn; done. Qed.
Lemma compare_positive m1 e1 m2 e2 : SFcompare (S754_finite false m1 e1) (S754_finite false m2 e2) =
  Some (match e1 ?= e2 with Lt => Lt | Gt => Gt | Eq => Pos.compare_cont Eq m1 m2 end).
Proof. cbn. by destruct (e1 ?= e2). Qed.
Lemma not_lt_le m1 e1 m2 e2 : flt (S754_finite false m1 e1) (S754_finite false m2 e2) = false ->
  fle (S754_finite false m2 e2) (S754_finite false m1 e1) = true.
Proof.
  unfold flt, fle, SFltb, SFleb. rewrite !compare_positive, (Z.compare_antisym e1 e2).
  destruct (e1 ?= e2); cbn [CompOpp]; [|done..]. pose proof (Pos.compare_cont_antisym m1 m2 Eq) as E.
  change (CompOpp Eq) with Eq in E. rewrite <- E. by destruct (Pos.compare_cont Eq m1 m2).
Qed.
Lemma fmin_one x : nonneg x = true -> fle (fmin fone x) fone = true /\ nonneg (fmin fone x) = true.
Proof.
  destruct x as [[]|[]| |[] m e]; intros Hn; try done.
  unfold fmin. change (existsb _ _) with false. change (is_nan fone || is_nan (S754_finite false m e)) with false.
  change (feq fone fzero) with false. cbn [andb].
  destruct (flt fone (S754_finite false m e)) eqn:E; [done|]. split; [|done]. by apply not_lt_le.
Qed.
Lemma clamp_unit x : nonneg x = true -> unit_interval (fmax fzero (fmin fone x)) = true.
Proof. intros [H1 H2]%fmin_one. by apply fmax_zero. Qed.

(** ** The order of positive finite numbers *)
Lemma fle_refl x : positive_finite x = true -> fle x x = true.
Proof.
  destruct x as [| | |[] m e]; try done. intros _. unfold fle, SFleb. rewrite compare_positive, Z.compare_refl.
  change (Pos.compare_cont Eq m m) with (Pos.compare m m). by rewrite Pos.compare_refl.
Qed.
Lemma fle_trans x y z : positive_finite x = true -> positive_finite y = true -> positive_finite z = true ->
  fle x y = true -> fle y z = true -> fle x z = true.
Proof.
  destruct x as [| | |[] m1 e1], y as [| | |[] m2 e2], z as [| | |[] m3 e3]; try done. intros _ _ _.
  unfold fle, SFleb. rewrite !compare_positive.
  change (Pos.compare_cont Eq m1 m2) with (Pos.compare m1 m2). change (Pos.compare_cont Eq m2 m3) with (Pos.compare m2 m3).
  change (Pos.compare_cont Eq m1 m3) with (Pos.compare m1 m3).
  destruct (Z.compare_spec e1 e2), (Z.compare_spec e2 e3), (Z.compare_spec e1 e3); try done; try lia;
    destruct (Pos.compare_spec m1 m2), (Pos.compare_spec m2 m3), (Pos.compare_spec m1 m3); try done; lia.
Qed.
Lemma flt_false_le x y : positive_finite x = true -> positive_finite y = true -> flt x y = false -> fle y x = true.
Proof. destruct x as [| | |[]], y as [| | |[]]; try done. intros _ _. apply not_lt_le. Qed.
Lemma flt_le x y : flt x y = true -> fle x y = true.
Proof. unfold flt, fle, SFltb, SFleb. by destruct (SFcompare x y) as [[]|]. Qed.
Lemma positive_of x : finite_f x = true -> flt fzero x = true -> positive_finite x = true.
Proof. by destruct x as [[]|[]| |[]]. Qed.
Lemma positive_nonneg x : positive_finite x = true -> nonneg x = true.
Proof. by destruct x as [[]|[]| |[]]. Qed.
