(* ===== verification/GoFormat.v ===== *)
(** * GoFormat: printing and reading float64

    [strconv.FormatFloat(v, 'f', -1, 64)] and ['f'] with a precision, and
    [strconv.ParseFloat(s, 64)] below.

    The shortest decimal that reads back as the same float64, executable: for
    one to seventeen significant digits the nearest decimal of that length is
    tried. *)
From Stdlib Require Import Ascii SpecFloat.
From stdpp Require Import base numbers strings list.
From S2P Require Import Prelude GoStrings GoFloat.
Local Open Scope Z_scope.

(** A non-negative rational as numerator and denominator, times [10 ^ k]. *)
Definition scale10 (q : Z * Z) (k : Z) : Z * Z :=
  let '(n, d) := q in if 0 <=? k then (n * 10 ^ k, d) else (n, d * 10 ^ (- k)).
Definition magnitude (m : positive) (e : Z) : Z * Z :=
  if 0 <=? e then (Zpos m * 2 ^ e, 1) else (Zpos m, 2 ^ (- e)).

(** The least [k] with [q < 10 ^ k], from an estimate at most four below it. *)
Fixpoint decimal_exponent (fuel : nat) (q : Z * Z) (k : Z) : Z :=
  match fuel with
  | O => k
  | S f => let '(n, d) := scale10 q (- k) in if n <? d then k else decimal_exponent f q (k + 1)
  end.
Definition exponent_of (q : Z * Z) : Z :=
  decimal_exponent 4 q ((Z.log2 (fst q) - Z.log2 (snd q)) * 30103 / 100000 - 1).

Definition round_half_even (n d : Z) : Z :=
  let q := n / d in let r := n mod d in
  if (2 * r <? d) || ((2 * r =? d) && Z.even q) then q else q + 1.

Definition of_decimal (digits k : Z) : float64 :=
  let '(n, d) := scale10 (digits, 1) k in f_of_ratio n (Z.to_pos d).

(** The digits and exponent of the shortest decimal equal to [q] as a float. *)
Fixpoint shortest (fuel : nat) (v : float64) (q : Z * Z) (k n : Z) : Z * Z :=
  let '(a, b) := scale10 q (n - k) in
  let digits := round_half_even a b in
  match fuel with
  | O => (digits, k - n)
  | S f => if feq (of_decimal digits (k - n)) v then (digits, k - n) else shortest f v q k (n + 1)
  end.

Definition plain_text (digits k : Z) : string :=
  if 0 <=? k then Itoa (digits * 10 ^ k)
  else let text := Itoa (digits mod 10 ^ (- k)) in
       Itoa (digits / 10 ^ (- k)) +:+ "." +:+ Repeat0 (Z.to_nat (- k) - String.length text) +:+ text.

Definition FormatFloat (v : float64) : string :=
  match v with
  | S754_nan => "NaN"
  | S754_infinity s => if s then "-Inf" else "+Inf"
  | S754_zero s => if s then "-0" else "0"
  | S754_finite s m e =>
      let q := magnitude m e in
      let '(digits, k) := shortest 16 (S754_finite false m e) q (exponent_of q) 1 in
      (if s then "-" else "") +:+ plain_text digits k
  end.

(** [FormatFloat(v, 'f', digits, 64)], the text of [%.<digits>f]: the exact
    value of the float rounded to nearest even. *)
Definition FormatFixed (v : float64) (digits : Z) : string :=
  match v with
  | S754_nan => "NaN"
  | S754_infinity s => if s then "-Inf" else "+Inf"
  | S754_zero s => (if s then "-" else "") +:+ plain_text 0 (- digits)
  | S754_finite s m e =>
      let '(n, d) := scale10 (magnitude m e) digits in
      (if s then "-" else "") +:+ plain_text (round_half_even n d) (- digits)
  end.

Example fixed_half : FormatFixed (f_of_ratio 1 8) 2 = "0.12".
Proof. vm_compute. reflexivity. Qed.
Example fixed_third : FormatFixed (f_of_ratio (-1) 3) 18 = "-0.333333333333333315".
Proof. vm_compute. reflexivity. Qed.
Example fixed_zero : FormatFixed (S754_zero true) 1 = "-0.0".
Proof. vm_compute. reflexivity. Qed.
Example format_tenth : FormatFloat (f_of_ratio 1 10) = "0.1".
Proof. vm_compute. reflexivity. Qed.
Example format_400 : FormatFloat (f_of_Z 400) = "400".
Proof. vm_compute. reflexivity. Qed.
Example format_third : FormatFloat (f_of_ratio (-1) 3) = "-0.3333333333333333".
Proof. vm_compute. reflexivity. Qed.
Example format_sum : FormatFloat (fadd (f_of_ratio 1 10) (f_of_ratio 2 10)) = "0.30000000000000004".
Proof. vm_compute. reflexivity. Qed.
Example format_small : FormatFloat (f_of_ratio 12345 1000000000) = "0.000012345".
Proof. vm_compute. reflexivity. Qed.
Example format_big : FormatFloat (f_of_Z 123456789012345678901234567890) = "123456789012345680000000000000".
Proof. vm_compute. reflexivity. Qed.

(** ** [strconv.ParseFloat(s, 64)]

    Decimal and hexadecimal floating-point literals with Go's underscores,
    infinities and NaN, correctly rounded. *)
Definition is_hex_letter (c : Ascii.ascii) : bool := (97 <=? byte (lower_byte c)) && (byte (lower_byte c) <=? 102).
Definition hex_val (c : Ascii.ascii) : Z := if is_digit c then digit_val c else byte (lower_byte c) - 87.
Definition mantissa_digit (hex : bool) (c : Ascii.ascii) : bool := is_digit c || (hex && is_hex_letter c).

(** The mantissa loop of [readFloat]: the integer of the digits, the number of
    digits after the point, whether there were digits, and what is left. *)
Fixpoint scan_mantissa (hex sawdot sawdigits : bool) (m frac : Z) (s : string) : Z * Z * bool * string :=
  match s with
  | EmptyString => (m, frac, sawdigits, s)
  | String c s' =>
      if is_char "_" c then scan_mantissa hex sawdot sawdigits m frac s'
      else if is_char "." c then
        if sawdot then (m, frac, sawdigits, s) else scan_mantissa hex true sawdigits m frac s'
      else if mantissa_digit hex c then
        scan_mantissa hex sawdot true (m * (if hex then 16 else 10) + hex_val c)
          (if sawdot then frac + 1 else frac) s'
      else (m, frac, sawdigits, s)
  end.
(** The digits of the exponent, which stops growing at 10000. *)
Fixpoint scan_exponent (e : Z) (s : string) : Z * string :=
  match s with
  | EmptyString => (e, s)
  | String c s' =>
      if is_char "_" c then scan_exponent e s'
      else if is_digit c then scan_exponent (if e <? 10000 then e * 10 + digit_val c else e) s'
      else (e, s)
  end.

(** [underscoreOK]: [saw] is the class of the last character ([0] a digit,
    [1] an underscore, [2] another one). *)
Fixpoint underscores_ok (hex : bool) (saw : Z) (s : string) : bool :=
  match s with
  | EmptyString => negb (saw =? 1)
  | String c s' =>
      if mantissa_digit hex c then underscores_ok hex 0 s'
      else if is_char "_" c then if saw =? 0 then underscores_ok hex 1 s' else false
      else if saw =? 1 then false else underscores_ok hex 2 s'
  end.
Definition base_prefix (s : string) : bool :=
  match s with
  | String z (String x _) => is_char "0" z && existsb (is_char (lower_byte x)) ["b"; "o"; "x"]%char
  | _ => false
  end.
Definition underscoreOK (unsigned : string) : bool :=
  if base_prefix unsigned
  then underscores_ok (match unsigned with String _ (String x _) => is_char "x" (lower_byte x) | _ => false end) 0
         (drop_str 2 unsigned)
  else underscores_ok false 2 unsigned.

(** [commonPrefixLenIgnoreCase] of the special words: ASCII letters only. *)
Definition EqualFoldASCII (s t : string) : bool := str_map lower_byte s =s str_map lower_byte t.

(** [m * 10^k] or [m * 2^k] as a float. *)
Definition of_scaled (hex : bool) (m k : Z) : float64 :=
  if hex then let q := if 0 <=? k then (m * 2 ^ k, 1) else (m, 2 ^ (- k)) in f_of_ratio (fst q) (Z.to_pos (snd q))
  else of_decimal m k.

Definition exponent_part (hex : bool) (s : string) : option (Z * string) :=
  match s with
  | String c s' =>
      if is_char (if hex then "p" else "e")%char (lower_byte c) then
        let negative := HasPrefix s' "-" in
        let digits := if negative || HasPrefix s' "+" then tail1 s' else s' in
        match digits with
        | String d _ => if is_digit d then
                          let '(e, rest) := scan_exponent 0 digits in Some (if negative then - e else e, rest)
                        else None
        | EmptyString => None
        end
      else if hex then None else Some (0, s)
  | EmptyString => if hex then None else Some (0, s)
  end.
(** [None] is a syntax error; a value out of range is an infinity. *)
Definition parse_number (negative : bool) (unsigned : string) : option float64 :=
  let hex := match unsigned with
             | String z (String x (String _ _)) => is_char "0" z && is_char "x" (lower_byte x)
             | _ => false
             end in
  let '(m, frac, sawdigits, rest) :=
    scan_mantissa hex false false 0 0 (if hex then drop_str 2 unsigned else unsigned) in
  if negb sawdigits then None else
  match exponent_part hex rest with
  | Some (e, EmptyString) =>
      if str_any (is_char "_") unsigned && negb (underscoreOK unsigned) then None else
      let v := of_scaled hex m (e - (if hex then 4 * frac else frac)) in
      Some (if negative then SFopp v else v)
  | _ => None
  end.
(** The value and whether the error is nil: a syntax error comes with 0, a range
    error with the infinity. *)
Definition ParseFloatErr (s : string) : float64 * bool :=
  let negative := HasPrefix s "-" in
  let unsigned := if negative || HasPrefix s "+" then tail1 s else s in
  if EqualFoldASCII unsigned "inf" || EqualFoldASCII unsigned "infinity" then (S754_infinity negative, true)
  else if EqualFoldASCII s "nan" then (S754_nan, true)
  else match parse_number negative unsigned with
       | Some v => (v, negb (is_inf v))
       | None => (fzero, false)
       end.
Definition ParseFloat (s : string) : option float64 :=
  let '(v, ok) := ParseFloatErr s in if ok then Some v else None.

Example parse_decimal : ParseFloat "0.1" = Some (f_of_ratio 1 10). Proof. vm_compute. reflexivity. Qed.
Example parse_exponent : ParseFloat "-12.5e-1" = Some (f_of_ratio (-5) 4). Proof. vm_compute. reflexivity. Qed.
Example parse_underscores : ParseFloat "1_23.50_0_0e+1_2" = Some (f_of_Z 123500000000000).
Proof. vm_compute. reflexivity. Qed.
Example parse_bad_underscore : ParseFloat "1__23.5e+12" = None. Proof. vm_compute. reflexivity. Qed.
Example parse_hex : ParseFloat "0x_1_2.3_4_5p+1_2" = Some (f_of_Z 74565). Proof. vm_compute. reflexivity. Qed.
Example parse_range : ParseFloat "1e400" = None /\ ParseFloat "-Inf" = Some (S754_infinity true) /\
  ParseFloat "1e-400" = Some fzero /\ ParseFloat "" = None /\ ParseFloat "1.2.3" = None /\ ParseFloat "." = None.
Proof. vm_compute. done. Qed.
