(* ===== verification/GoRat.v ===== *)
(** * GoRat: [( *big.Rat).SetString]

    The text a rational is read from: a fraction of two integers, or a decimal,
    binary, octal or hexadecimal numeral with an optional fraction and decimal
    or binary exponent. A scanner is a function of the characters left. *)
From Stdlib Require Import Ascii QArith.
From stdpp Require Import base numbers strings list.
From S2P Require Import Prelude GoStrings.
Local Open Scope Z_scope.

(** The value of a digit; a digit of no base is [None]. *)
Definition digit_of (c : ascii) : option Z :=
  if is_digit c then Some (digit_val c)
  else if (97 <=? byte c) && (byte c <=? 122) then Some (byte c - 97 + 10)
  else if (65 <=? byte c) && (byte c <=? 90) then Some (byte c - 65 + 10)
  else None.

(** The loop of [nat.scan]: [prev] is the kind of the previous character, [dp]
    the number of digits before the radix point. *)
Record scanned : Type := mkScanned { sc_value : Z; sc_count : Z; sc_dp : option Z; sc_prev : ascii; sc_invalid : bool; sc_rest : string }.
Fixpoint scan_digits (b : Z) (fracOk : bool) (prev : ascii) (invalid : bool) (v count : Z) (dp : option Z) (s : string) : scanned :=
  match s with
  | EmptyString => mkScanned v count dp prev invalid s
  | String c s' =>
      if is_char "." c && fracOk then scan_digits b false "." (invalid || is_char "_" prev) v count (Some count) s'
      else if is_char "_" c then scan_digits b fracOk "_" (invalid || negb (is_char "0" prev)) v count dp s'
      else match digit_of c with
           | Some d => if d <? b then scan_digits b fracOk "0" invalid (v * b + d) (count + 1) dp s'
                       else mkScanned v count dp prev invalid s
           | None => mkScanned v count dp prev invalid s
           end
  end.
(** The base, whether the prefix is the bare octal [0], the kind of the
    previous character, the digits counted so far, and what is left. *)
Definition scan_prefix (fracOk : bool) (s : string) : Z * bool * ascii * Z * string :=
  match s with
  | String z s' =>
      if negb (is_char "0" z) then (10, false, "."%char, 0, s) else
      match s' with
      | EmptyString => (10, false, "0"%char, 1, s')
      | String c s'' =>
          if is_char "b" (lower_byte c) then (2, false, "0"%char, 0, s'')
          else if is_char "o" (lower_byte c) then (8, false, "0"%char, 0, s'')
          else if is_char "x" (lower_byte c) then (16, false, "0"%char, 0, s'')
          else if fracOk then (10, false, "0"%char, 1, s') else (8, true, "0"%char, 0, s')
      end
  | EmptyString => (10, false, "."%char, 0, s)
  end.
(** [nat.scan(r, 0, fracOk)]: value, base, digit or fraction count, rest. *)
Definition nat_scan (fracOk : bool) (s : string) : option (Z * Z * Z * string) :=
  let '(b, octal, prev, count, s1) := scan_prefix fracOk s in
  let r := scan_digits b fracOk prev false 0 count None s1 in
  if sc_invalid r || is_char "_" (sc_prev r) then None else
  if sc_count r =? 0 then if octal then Some (0, 10, 1, sc_rest r) else None else
  Some (sc_value r, b, match sc_dp r with Some d => d - sc_count r | None => sc_count r end, sc_rest r).
(** [scanSign]: an error on the empty input. *)
Definition scanSign (s : string) : option (bool * string) :=
  match s with
  | EmptyString => None
  | String c s' => if is_char "-" c then Some (true, s') else if is_char "+" c then Some (false, s') else Some (false, s)
  end.
Definition Int_SetString (s : string) : option Z :=
  match scanSign s with
  | None => None
  | Some (neg, s1) =>
      match nat_scan false s1 with
      | Some (v, _, _, EmptyString) => Some (if neg then - v else v)
      | _ => None
      end
  end.

(** [scanExponent]: the exponent, its base and the rest. *)
Fixpoint exponent_digits (prev : ascii) (invalid : bool) (v count : Z) (s : string) : scanned :=
  match s with
  | EmptyString => mkScanned v count None prev invalid s
  | String c s' =>
      if is_digit c then exponent_digits "0" invalid (v * 10 + digit_val c) (count + 1) s'
      else if is_char "_" c then exponent_digits "_" (invalid || negb (is_char "0" prev)) v count s'
      else mkScanned v count None prev invalid s
  end.
Definition scanExponent (s : string) : option (Z * Z * string) :=
  match s with
  | EmptyString => Some (0, 10, s)
  | String c s' =>
      let base := if is_char "e" (lower_byte c) then Some 10 else if is_char "p" (lower_byte c) then Some 2 else None in
      match base with
      | None => Some (0, 10, s)
      | Some base =>
          let '(neg, s1) := default (false, s') (scanSign s') in
          let r := exponent_digits "." false 0 0 s1 in
          let e := if neg then - sc_value r else sc_value r in
          if (sc_count r =? 0) || negb (int64_ok e) || sc_invalid r || is_char "_" (sc_prev r) then None
          else Some (e, base, sc_rest r)
      end
  end.

Fixpoint cut_at (c : ascii) (s : string) : option (string * string) :=
  match s with
  | EmptyString => None
  | String d s' => if is_char c d then Some (EmptyString, s')
                   else match cut_at c s' with Some (a, b) => Some (String d a, b) | None => None end
  end.
(** The mantissa scaled by the powers of 5 and 2. *)
Definition scaled_rat (neg : bool) (v exp5 exp2 : Z) : option Q :=
  if 1000000 <? Z.abs exp5 then None else
  if (exp2 <? -10000000) || (10000000 <? exp2) then None else
  let num := v * (if 0 <? exp5 then 5 ^ exp5 else 1) * (if 0 <? exp2 then 2 ^ exp2 else 1) in
  let den := (if exp5 <? 0 then 5 ^ (- exp5) else 1) * (if exp2 <? 0 then 2 ^ (- exp2) else 1) in
  Some (Qmake (if neg then - num else num) (Z.to_pos den)).
Definition Rat_SetString (s : string) : option Q :=
  if s =s "" then None else
  match cut_at "/" s with
  | Some (a, b) =>
      match Int_SetString a, nat_scan false b with
      | Some n, Some (d, _, _, EmptyString) => if d =? 0 then None else Some (Qmake n (Z.to_pos d))
      | _, _ => None
      end
  | None =>
      match scanSign s with
      | None => None
      | Some (neg, s1) =>
          match nat_scan true s1 with
          | None => None
          | Some (v, base, fcount, s2) =>
              match scanExponent s2 with
              | Some (exp, ebase, EmptyString) =>
                  if v =? 0 then Some 0%Q else
                  let d := if fcount <? 0 then fcount else 0 in
                  let exp5 := if base =? 10 then d else 0 in
                  let exp2 := if base =? 8 then d * 3 else if base =? 16 then d * 4 else d in
                  if ebase =? 10 then scaled_rat neg v (int64 (exp5 + exp)) (int64 (exp2 + exp))
                  else scaled_rat neg v exp5 (int64 (exp2 + exp))
              | _ => None
              end
          end
      end
  end.

Example rat_decimal : Rat_SetString "-12.50" = Some (-1250 # 100)%Q /\ Rat_SetString "1_000" = Some (1000 # 1)%Q.
Proof. vm_compute. done. Qed.
Example rat_fraction : Rat_SetString "1/3" = Some (1 # 3)%Q /\ Rat_SetString "0x10/010" = Some (16 # 8)%Q /\ Rat_SetString "1/0" = None.
Proof. vm_compute. done. Qed.
Example rat_exponents : Rat_SetString "1.5e2" = Some (150 # 1)%Q /\ Rat_SetString "0x1p-3" = Some (1 # 8)%Q /\
  Rat_SetString "0.0e999" = Some 0%Q /\ Rat_SetString "1e1000001" = None.
Proof. vm_compute. done. Qed.
Example rat_bad : Rat_SetString "" = None /\ Rat_SetString "+" = None /\ Rat_SetString "1 " = None /\ Rat_SetString "_1" = None /\
  Rat_SetString "08/1" = None /\ Rat_SetString "NaN" = None /\ Rat_SetString "1_.5" = None.
Proof. vm_compute. done. Qed.
