(* ===== verification/Accounting.v ===== *)
(** * Accounting: [internal/accounting/decimal.go]

    The persisted economic number: a fixed-point integer of 18 decimal
    places. [Decimal] is the struct with its [*big.Int] (absent when nil);
    every method allocates its result, so no two values share an integer. *)
From Stdlib Require Import Ascii.
From stdpp Require Import base numbers strings list.
From S2P Require Import Prelude GoStrings GoFloat GoFormat.
Local Open Scope Z_scope.

Record Decimal : Type := mkDecimal { value : option Z }.

#[export] Instance Decimal_eq_dec : EqDecision Decimal.
Proof. solve_decision. Defined.

Definition Scale : nat := 18.
Definition factor : Z := 10 ^ 18.
Definition dec (z : Z) : Decimal := mkDecimal (Some z).

Definition Zero : Decimal := dec 0.

Definition Parse (input0 : string) : res Decimal :=
  let input := TrimSpace input0 in
  if (input =s "") || contains_eE input then Err (Errorf "invalid decimal %q" [input]) else
  let negative := HasPrefix input "-" in
  let input := if negative || HasPrefix input "+" then tail1 input else input in
  let bad := Err (Errorf "invalid decimal %q" [input]) in
  match Split "." input with
  | [] => bad
  | whole :: rest =>
      match rest with
      | _ :: _ :: _ => bad
      | _ =>
        if whole =s "" then bad else
        let fraction := match rest with [] => "" | f :: _ => f end in
        if Z.of_nat Scale <? slen fraction
        then Err (Errorf "decimal scale exceeds %d" [Itoa (Z.of_nat Scale)]) else
        let digits := whole +:+ fraction +:+ Repeat0 (Scale - String.length fraction) in
        if negb (str_all is_digit digits) then bad else
        match SetString digits with
        | None => bad
        | Some value => Ok (dec (if negative then - value else value))
        end
      end
  end.

(** [Parse(strconv.FormatFloat(value, 'f', -1, 64))]. *)
Definition FromFloat (value : float64) : res Decimal := Parse (FormatFloat value).

Definition MustParse (value : string) : res Decimal :=
  match Parse value with
  | Ok d => Ok d
  | Err _ => Panic "MustParse"
  | Panic w => Panic w
  end.

Definition Valid (d : Decimal) : bool := match value d with Some _ => true | None => false end.
(** The integer read through a possibly nil pointer. *)
Definition integer (d : Decimal) : Z := match value d with Some z => z | None => 0 end.
Definition Sign (d : Decimal) : Z :=
  match value d with None => 0 | Some z => Z.sgn z end.
Definition Cmp (d other : Decimal) : Z :=
  match integer d ?= integer other with Lt => -1 | Eq => 0 | Gt => 1 end.
Definition Add (d other : Decimal) : Decimal := dec (integer d + integer other).
Definition Sub (d other : Decimal) : Decimal := dec (integer d - integer other).
Definition Neg (d : Decimal) : Decimal := dec (- integer d).

(** [QuoRem] truncates toward zero; a remainder of at least half the divisor
    moves the quotient away from zero. *)
Definition roundQuotient (numerator denominator : Z) : Z :=
  let quotient := Z.quot numerator denominator in
  let remainder := Z.rem numerator denominator in
  let twice := Z.abs (remainder * 2) in
  if Z.abs denominator <=? twice then
    if 0 <=? Z.sgn numerator * Z.sgn denominator then quotient + 1 else quotient - 1
  else quotient.

Definition Mul (d other : Decimal) : Decimal :=
  dec (roundQuotient (integer d * integer other) factor).
Definition Div (d other : Decimal) : res Decimal :=
  if Sign other =? 0 then Err (Errorf "decimal division by zero" []) else
  Ok (dec (roundQuotient (integer d * factor) (integer other))).
Definition MulDiv (d multiplier divisor : Decimal) : res Decimal :=
  if Sign divisor =? 0 then Err (Errorf "decimal division by zero" []) else
  Ok (dec (roundQuotient (integer d * integer multiplier) (integer divisor))).

(** The zero value a failed [Div] or [MulDiv] leaves where the code drops the
    error ([x, _ := a.Div(b)]). *)
Definition ignore_err (r : res Decimal) : Decimal :=
  match r with Ok d => d | _ => mkDecimal None end.

(** [for len(digits) <= Scale { digits = "0" + digits }]. *)
Definition pad_to (n : nat) (digits : string) : string :=
  Repeat0 (n - String.length digits) +:+ digits.

Definition to_string (d : Decimal) : string :=
  let value := integer d in
  let negative := value <? 0 in
  let digits := pad_to (S Scale) (Itoa (Z.abs value)) in
  let point := (String.length digits - Scale)%nat in
  let result := String.substring 0 point digits +:+ "." +:+ drop_str point digits in
  let result := TrimRight "." (TrimRight "0" result) in
  let result := if result =s "" then "0" else result in
  if negative && (result <>s "0") then "-" +:+ result else result.

(** [strconv.ParseFloat(d.String(), 64)]: the nearest float64. *)
Definition Float64 (d : Decimal) : float64 := f_of_ratio (integer d) 1000000000000000000.

(** [driver.Value] and [sql.Scanner]: NULL for a nil pointer, else the text. *)
Definition Value (d : Decimal) : option string :=
  if negb (Valid d) then None else Some (to_string d).
Definition Scan (src : option string) : res Decimal :=
  match src with
  | None => Ok (mkDecimal None)
  | Some input => let* parsed := Parse input in Ok (dec (integer parsed))
  end.

Definition MarshalJSON (d : Decimal) : string :=
  if negb (Valid d) then "null" else String (chr 34) (to_string d +:+ String (chr 34) "").

Example parse_1 : Parse " -12.50 " = Ok (dec (-12500000000000000000)).
Proof. reflexivity. Qed.
Example string_1 : to_string (dec (-12500000000000000000)) = "-12.5".
Proof. reflexivity. Qed.
Example string_2 : to_string (dec 10000000000000000000) = "10".
Proof. reflexivity. Qed.
Example string_3 : to_string (dec (-1)) = "-0.000000000000000001".
Proof. reflexivity. Qed.

Example from_float : FromFloat (f_of_ratio 1 10) = Ok (dec 100000000000000000).
Proof. vm_compute. reflexivity. Qed.

(** ** Rounding *)

Lemma Sign_integer d : Sign d = Z.sgn (integer d).
Proof. unfold Sign, integer. by destruct (value d). Qed.

Lemma Sign_eqb_0 d : (Sign d =? 0) = (integer d =? 0).
Proof. rewrite Sign_integer. destruct (integer d); done. Qed.

Lemma Cmp_spec d e : Cmp d e = Z.sgn (integer d - integer e).
Proof. unfold Cmp. destruct (Z.compare_spec (integer d) (integer e)); lia. Qed.

(** The rounding rule of [roundQuotient] on naturals: half away from zero. *)
Definition half_up (n d : Z) : Z := (2 * n + d) / (2 * d).

Lemma half_up_quot_rem n d : 0 <= n -> 0 < d ->
  half_up n d = if d <=? 2 * (n mod d) then n / d + 1 else n / d.
Proof.
  intros Hn Hd. unfold half_up. pose proof (Z.mod_pos_bound n d Hd).
  pose proof (Z.div_mod n d ltac:(lia)).
  destruct (d <=? 2 * (n mod d)) eqn:E; bool_prop; symmetry.
  - apply Z.div_unique with (2 * (n mod d) - d); lia.
  - apply Z.div_unique with (2 * (n mod d) + d); lia.
Qed.

Lemma roundQuotient_sign n d : d <> 0 ->
  roundQuotient n d = Z.sgn n * Z.sgn d * half_up (Z.abs n) (Z.abs d).
Proof.
  intros Hd. unfold roundQuotient. rewrite half_up_quot_rem by lia.
  pose proof (Z.mod_pos_bound (Z.abs n) (Z.abs d) ltac:(lia)) as Hm.
  rewrite Z.quot_div, Z.rem_mod by done.
  replace (Z.abs (Z.sgn n * (Z.abs n mod Z.abs d) * 2)) with (2 * (Z.abs n mod Z.abs d)).
  2: { destruct (Z.eq_dec n 0) as [->|]; [cbn; rewrite Z.mod_0_l; lia|].
       rewrite !Z.abs_mul. lia. }
  destruct (Z.abs d <=? 2 * (Z.abs n mod Z.abs d)) eqn:E; bool_prop; [|done].
  assert (Hn : n <> 0).
  { intros ->. change (Z.abs 0) with 0 in E. rewrite Z.mod_0_l in E by lia. lia. }
  destruct (0 <=? Z.sgn n * Z.sgn d) eqn:E2; bool_prop; nia.
Qed.

Lemma half_up_bound n d : 0 < d -> d * (2 * half_up n d - 1) <= 2 * n < d * (2 * half_up n d + 1).
Proof.
  intros Hd. unfold half_up. pose proof (Z.div_mod (2 * n + d) (2 * d) ltac:(lia)).
  pose proof (Z.mod_pos_bound (2 * n + d) (2 * d) ltac:(lia)). nia.
Qed.

Lemma half_up_mono n m d : 0 < d -> n <= m -> half_up n d <= half_up m d.
Proof. intros Hd H. apply Z.div_le_mono; lia. Qed.

Lemma half_up_mul k d : 0 < d -> half_up (k * d) d = k.
Proof. intros Hd. unfold half_up. symmetry. apply Z.div_unique with d; lia. Qed.

Lemma roundQuotient_nonneg n d : 0 <= n -> 0 < d -> roundQuotient n d = half_up n d.
Proof.
  intros Hn Hd. rewrite roundQuotient_sign, (Z.abs_eq n), (Z.abs_eq d), (Z.sgn_pos d) by lia.
  destruct (Z.eq_dec n 0) as [->|]; [|rewrite Z.sgn_pos by lia; lia].
  pose proof (half_up_mul 0 d Hd) as H0. rewrite Z.mul_0_l in H0. rewrite H0. lia.
Qed.

Lemma roundQuotient_exact k d : d <> 0 -> roundQuotient (k * d) d = k.
Proof.
  intros Hd. rewrite roundQuotient_sign, Z.abs_mul, half_up_mul, Z.sgn_mul by lia. nia.
Qed.

Lemma roundQuotient_error n d : d <> 0 ->
  2 * Z.abs (n - d * roundQuotient n d) <= Z.abs d.
Proof.
  intros Hd. rewrite (roundQuotient_sign _ _ Hd).
  pose proof (half_up_bound (Z.abs n) (Z.abs d) ltac:(lia)) as Hb.
  set (q := half_up (Z.abs n) (Z.abs d)) in *. clearbody q. nia.
Qed.

(** Every division of the ledger's decimals ([Mul], [Div], [MulDiv]) rounds
    to the nearest representable value, and a tie away from zero: the result
    is the sign of the quotient times the half-up quotient of the absolute
    values, and it misses the exact quotient by at most half a unit in the
    18th place. *)
Theorem roundQuotient_nearest (n d : Z) : d <> 0 ->
  roundQuotient n d = Z.sgn n * Z.sgn d * ((2 * Z.abs n + Z.abs d) / (2 * Z.abs d)) /\
  2 * Z.abs (n - d * roundQuotient n d) <= Z.abs d.
Proof.
  intros Hd. split; [by apply roundQuotient_sign | by apply roundQuotient_error].
Qed.

Lemma roundQuotient_nearest_witness :
  (3 <> 0) /\ roundQuotient (-5) 3 = -2.
Proof.
  split; [lia|]. destruct (roundQuotient_nearest (-5) 3 ltac:(lia)) as [H _].
  rewrite H. reflexivity.
Defined.

(** ** Proportional release of a basis ([MulDiv]) *)

Lemma MulDiv_Ok d m v : integer v <> 0 ->
  MulDiv d m v = Ok (dec (roundQuotient (integer d * integer m) (integer v))).
Proof.
  intros Hv. unfold MulDiv. rewrite Sign_eqb_0. by apply Z.eqb_neq in Hv as ->.
Qed.

Lemma Div_Ok d v : integer v <> 0 ->
  Div d v = Ok (dec (roundQuotient (integer d * factor) (integer v))).
Proof.
  intros Hv. unfold Div. rewrite Sign_eqb_0. by apply Z.eqb_neq in Hv as ->.
Qed.

Lemma release_bounds b q t : 0 <= b -> 0 <= q <= t -> 0 < t ->
  0 <= roundQuotient (b * q) t <= b.
Proof.
  intros Hb Hq Ht. rewrite roundQuotient_nonneg by nia. split.
  - rewrite <- (half_up_mul 0 t Ht). apply half_up_mono; nia.
  - rewrite <- (half_up_mul b t Ht) at 2. apply half_up_mono; nia.
Qed.

(** Selling [q] of [t] units of a position releases, by [MulDiv], between
    zero and the whole of its cost basis, and selling all of it releases the
    basis exactly: no rounding residue is left on a closed position. *)
Theorem MulDiv_release (basis q t : Decimal) :
  0 <= integer basis -> 0 < integer q -> integer q <= integer t ->
  exists released, MulDiv basis q t = Ok released /\
    0 <= integer released <= integer basis /\
    (integer q = integer t -> integer released = integer basis).
Proof.
  intros Hb Hq Ht. rewrite MulDiv_Ok by lia. eexists. split; [done|]. cbn [integer dec value].
  split; [apply release_bounds; lia|]. intros ->. apply roundQuotient_exact. lia.
Qed.

Lemma MulDiv_release_witness :
  0 <= 100 /\ exists r, MulDiv (dec 100) (dec 2) (dec 3) = Ok r /\ integer r = 67.
Proof.
  split; [lia|].
  destruct (MulDiv_release (dec 100) (dec 2) (dec 3)) as (r & E & _); [cbn; lia..|].
  exists r. split; [exact E|]. vm_compute in E. injection E as <-. reflexivity.
Defined.

(** ** Printing and parsing *)

Lemma pad_to_digits n s : str_all is_digit s = true -> str_all is_digit (pad_to n s) = true.
Proof. intros H. unfold pad_to. by rewrite str_all_app, Repeat0_digits. Qed.

Lemma pad_to_val n s : digits_val (pad_to n s) = digits_val s.
Proof. unfold pad_to. by rewrite digits_val_app, Repeat0_val. Qed.

Lemma pad_to_length n s : String.length (pad_to n s) = Nat.max n (String.length s).
Proof. unfold pad_to. rewrite str_length_app, Repeat0_length. lia. Qed.

(** What [String] prints of a non-negative value: a whole part [w], and a
    fraction [f] of at most 18 digits that does not end in a zero. *)
Inductive rendering (v : Z) : string -> Prop :=
| rendering_intro w f :
    str_all is_digit w = true -> w <> "" ->
    str_all is_digit f = true -> (String.length f <= Scale)%nat ->
    digits_val (w +:+ f +:+ Repeat0 (Scale - String.length f)) = v ->
    rendering v (if f =s "" then w else w +:+ String "." f).

Lemma TrimRight_dot_digits w :
  str_all is_digit w = true -> TrimRight "." (w +:+ ".") = w.
Proof.
  induction w as [|c w IH]; [done|]. cbn [str_all]. rewrite andb_true_iff.
  intros [Hc Hw]. rewrite str_app_cons. cbn [TrimRight]. rewrite IH by done.
  destruct (is_char "." c) eqn:E; [by apply is_char_spec in E as <- |].
  by rewrite andb_false_r.
Qed.

Lemma render_nonneg v : 0 <= v ->
  let digits := pad_to (S Scale) (Itoa v) in
  let point := (String.length digits - Scale)%nat in
  rendering v (TrimRight "." (TrimRight "0"
    (String.substring 0 point digits +:+ "." +:+ drop_str point digits))).
Proof.
  intros Hv digits point.
  assert (Hn : numeral v (Itoa v)).
  { unfold Itoa. destruct (v <? 0) eqn:E; bool_prop; [lia|]. by apply format_nonneg_numeral. }
  assert (Hd : str_all is_digit digits = true) by apply pad_to_digits, Hn.
  assert (Hdv : digits_val digits = v) by (unfold digits; rewrite pad_to_val; apply Hn).
  pose proof (pad_to_length (S Scale) (Itoa v)) as Hl. fold digits in Hl.
  destruct (split_at_end Scale digits ltac:(lia)) as (w & f & E & Hf).
  assert (Hp : point = String.length w).
  { unfold point. rewrite E, str_length_app. lia. }
  rewrite Hp, E, substring_app, drop_str_app.
  rewrite E in Hd. rewrite str_all_app in Hd. apply andb_true_iff in Hd as [Hw Hfd].
  change ("." +:+ f) with (String "." f).
  assert (Hdot : TrimRight "0" (String "." f) = String "." (TrimRight "0" f))
    by by apply TrimRight_cons.
  rewrite TrimRight_app, Hdot by by rewrite Hdot.
  assert (Hft : str_all is_digit (TrimRight "0" f) = true) by by apply TrimRight_all.
  replace (TrimRight "." (w +:+ String "." (TrimRight "0" f)))
    with (if TrimRight "0" f =s "" then w else w +:+ String "." (TrimRight "0" f)).
  2: { destruct (TrimRight "0" f =s "") eqn:Ef.
       - apply eqb_true_eq in Ef as ->. symmetry. by apply TrimRight_dot_digits.
       - assert (Hnd : TrimRight "." (TrimRight "0" f) = TrimRight "0" f)
           by (apply TrimRight_none, digits_no_char; done).
         assert (Hds : TrimRight "." (String "." (TrimRight "0" f)) = String "." (TrimRight "0" f)).
         { cbn [TrimRight]. by rewrite Hnd, Ef. }
         by rewrite TrimRight_app, Hds by by rewrite Hds. }
  constructor; try done.
  - intros ->. rewrite E, str_app_nil, Hf in Hl. lia.
  - pose proof (TrimRight_length "0" f). lia.
  - rewrite <- Hf, <- TrimRight_zeros. by rewrite <- E.
Qed.

(** Parsing what a rendering prints. *)
Lemma Parse_rendering (negative : bool) v s :
  rendering v s ->
  Parse (signed_text negative s) = Ok (dec (if negative then - v else v)).
Proof.
  intros [w f Hw Hwn Hf Hfl Hval]. set (dot := negb (f =s "")).
  replace (if f =s "" then w else w +:+ String "." f) with (point_text dot w f)
    by (unfold dot; by destruct (f =s "")).
  unfold Parse. cbv zeta.
  rewrite (signed_text_trim dot negative w f Hw Hf),
    (signed_text_accepted dot negative w f Hw Hwn Hf),
    (signed_text_sign dot negative w f Hw Hwn),
    (signed_text_body dot negative w f Hw Hwn), (point_text_split dot negative w f Hw Hf).
  apply String.eqb_neq in Hwn as Hw0. unfold dot.
  assert (Hlen : (Z.of_nat Scale <? slen f) = false) by (unfold slen; lia).
  assert (Hall : str_all is_digit (w +:+ f +:+ Repeat0 (Scale - String.length f)) = true)
    by (by rewrite !str_all_app, Hw, Hf, Repeat0_digits).
  assert (Hset : SetString (w +:+ f +:+ Repeat0 (Scale - String.length f)) = Some v).
  { rewrite SetString_digits, Hval; [done..|]. by destruct w. }
  destruct (f =s "") eqn:E; cbn [negb].
  - apply eqb_true_eq in E as ->. rewrite Hw0, Hlen, Hall, Hset. done.
  - rewrite Hw0, Hlen, Hall, Hset. done.
Qed.

Lemma rendering_not_zero_text v s : rendering v s -> s = "0" -> v = 0.
Proof.
  intros [w f Hw Hwn Hf Hfl Hval] E. destruct (f =s "") eqn:Ef.
  - apply eqb_true_eq in Ef as ->. subst w. by rewrite <- Hval.
  - exfalso. destruct w as [|c w]; [done|]. rewrite str_app_cons in E.
    injection E as _ E. by destruct w.
Qed.

Lemma rendering_nonempty v s : rendering v s -> (s =s "") = false.
Proof.
  intros [w f Hw Hwn _ _ _]. apply String.eqb_neq. destruct (f =s ""); [done|]. by destruct w.
Qed.

Lemma to_string_rendering d :
  exists s, rendering (Z.abs (integer d)) s /\
    to_string d = signed_text ((integer d <? 0) && (s <>s "0")) s.
Proof.
  eexists. split; [apply render_nonneg, Z.abs_nonneg|].
  unfold to_string. by rewrite (rendering_nonempty _ _ (render_nonneg _ (Z.abs_nonneg _))).
Qed.

(** C11. Persistence is lossless: every amount written as text is read back as
    the same 18-place integer, whatever its sign and size. *)
Theorem Parse_String (d : Decimal) : Parse (to_string d) = Ok (dec (integer d)).
Proof.
  destruct (to_string_rendering d) as (s & Hs & ->).
  destruct (integer d <? 0) eqn:E; bool_prop; cbn [andb].
  - destruct (s =s "0") eqn:E0; cbn [negb].
    + apply eqb_true_eq in E0. apply (rendering_not_zero_text _ _ Hs) in E0. lia.
    + rewrite (Parse_rendering true _ _ Hs). do 2 f_equal. lia.
  - rewrite (Parse_rendering false _ _ Hs). do 2 f_equal. lia.
Qed.

(** The same through the driver's [Value] and [Scan], where NULL stands for
    the absent decimal. *)
Lemma Scan_Value (d : Decimal) : Scan (Value d) = Ok d.
Proof.
  unfold Scan, Value. destruct d as [[z|]]; [|done]. cbn [Valid value negb].
  by rewrite Parse_String.
Qed.
