(* ===== verification/Values.v ===== *)
(** * Values: [internal/tradingcore/values.go]

    The exact decimal of the trading core (a signed numeral and a scale), the
    economic value types built on it, and the validated identities. *)
From Stdlib Require Import Ascii.
From stdpp Require Import base numbers strings list.
From S2P Require Import Prelude GoStrings GoFloat GoFormat.
Local Open Scope Z_scope.

Definition MaxDecimalScale : Z := 18.

(** The zero value is [mkDecimal "" 0 false], which is invalid. *)
Record Decimal : Type := mkDecimal { coefficient : string; scale : Z; valid : bool }.
#[export] Instance Decimal_eq_dec : EqDecision Decimal.
Proof. solve_decision. Defined.
Definition Decimal_zero : Decimal := mkDecimal "" 0 false.

Definition NewScaledDecimal (coefficient0 : string) (scale : Z) : res Decimal :=
  if MaxDecimalScale <? scale
  then Err (Errorf "decimal scale %d exceeds maximum %d" [Itoa scale; Itoa MaxDecimalScale]) else
  let coefficient := TrimSpace coefficient0 in
  let negative := HasPrefix coefficient "-" in
  let coefficient := if negative || HasPrefix coefficient "+" then tail1 coefficient
                     else coefficient in
  if coefficient =s "" then Err (Errorf "scaled decimal coefficient is required" []) else
  if negb (str_all is_digit coefficient)
  then Err (Errorf "invalid scaled decimal coefficient %q" [coefficient]) else
  let coefficient := TrimLeft0 coefficient in
  let coefficient := if coefficient =s "" then "0" else coefficient in
  let coefficient := if negative && (coefficient <>s "0") then "-" +:+ coefficient
                     else coefficient in
  Ok (mkDecimal coefficient scale true).

Definition NewDecimal (coefficient scale : Z) : res Decimal :=
  NewScaledDecimal (Itoa coefficient) scale.

Definition MustDecimal (coefficient scale : Z) : res Decimal :=
  match NewDecimal coefficient scale with
  | Err _ => Panic "MustDecimal"
  | r => r
  end.

Definition ParseDecimal (input0 : string) : res Decimal :=
  let input := TrimSpace input0 in
  if (input =s "") || contains_eE input then Err (Errorf "invalid decimal %q" [input]) else
  let negative := HasPrefix input "-" in
  let input := if negative || HasPrefix input "+" then tail1 input else input in
  let bad := Err (Errorf "invalid decimal %q" [input]) in
  let finish (digits : string) (scale : Z) :=
    if MaxDecimalScale <? scale
    then Err (Errorf "decimal scale %d exceeds maximum %d" [Itoa scale; Itoa MaxDecimalScale]) else
    if negb (str_all is_digit digits) then Err (Errorf "invalid decimal digits %q" [digits]) else
    NewScaledDecimal (if negative then "-" +:+ digits else digits) scale in
  match Split "." input with
  | [whole] => if whole =s "" then bad else finish whole 0
  | [whole; fraction] =>
      if (whole =s "") || (fraction =s "") then bad
      else finish (whole +:+ fraction) (slen fraction)
  | _ => bad
  end.

Definition Decimal_Valid (value : Decimal) : bool := valid value.
Definition Decimal_Coefficient (value : Decimal) : string := coefficient value.
Definition Decimal_Scale (value : Decimal) : Z := scale value.
Definition Decimal_Sign (value : Decimal) : Z :=
  if negb (valid value) || (coefficient value =s "0") then 0
  else if HasPrefix (coefficient value) "-" then -1 else 1.

Definition Decimal_String (value : Decimal) : string :=
  if negb (valid value) then "<invalid>" else
  let negative := HasPrefix (coefficient value) "-" in
  let digits := if negative then TrimPrefix (coefficient value) "-" else coefficient value in
  let digits :=
    if 0 <? scale value then
      let n := Z.to_nat (scale value) in
      let padded := Repeat0 (S n - String.length digits) +:+ digits in
      let point := (String.length padded - n)%nat in
      String.substring 0 point padded +:+ "." +:+ drop_str point padded
    else digits in
  if negative then "-" +:+ digits else digits.

Definition Decimal_Float64 (value : Decimal) : float64 := fst (ParseFloatErr (Decimal_String value)).

(** ** Quantities, prices and amounts *)
Record Quantity : Type := mkQuantity { Quantity_Decimal : Decimal }.
Record Price : Type := mkPrice { Price_Decimal : Decimal }.
Record SignedAmount : Type := mkAmount { Amount_Decimal : Decimal }.
#[export] Instance Quantity_eq_dec : EqDecision Quantity. Proof. solve_decision. Defined.
#[export] Instance Price_eq_dec : EqDecision Price. Proof. solve_decision. Defined.
#[export] Instance SignedAmount_eq_dec : EqDecision SignedAmount. Proof. solve_decision. Defined.

Definition Quantity_zero : Quantity := mkQuantity Decimal_zero.
Definition Price_zero : Price := mkPrice Decimal_zero.
Definition Amount_zero : SignedAmount := mkAmount Decimal_zero.

Definition NewQuantity (value : Decimal) : res Quantity :=
  if negb (Decimal_Valid value) || (Decimal_Sign value <=? 0)
  then Err (Errorf "quantity must be a valid positive decimal" []) else Ok (mkQuantity value).
Definition NewPrice (value : Decimal) : res Price :=
  if negb (Decimal_Valid value) || (Decimal_Sign value <=? 0)
  then Err (Errorf "price must be a valid positive decimal" []) else Ok (mkPrice value).
Definition NewSignedAmount (value : Decimal) : res SignedAmount :=
  if negb (Decimal_Valid value)
  then Err (Errorf "amount must be a valid decimal" []) else Ok (mkAmount value).
Definition Quantity_Valid (value : Quantity) : bool :=
  Decimal_Valid (Quantity_Decimal value) && (0 <? Decimal_Sign (Quantity_Decimal value)).
Definition Price_Valid (value : Price) : bool :=
  Decimal_Valid (Price_Decimal value) && (0 <? Decimal_Sign (Price_Decimal value)).
Definition Amount_Valid (value : SignedAmount) : bool := Decimal_Valid (Amount_Decimal value).

(** ** Identities

    The twelve identity structs wrap one string that only [validateIdentity]
    builds; they are their string here. *)
Abbreviation AccountID := string (only parsing).
Abbreviation AssetID := string (only parsing).
Abbreviation InstrumentID := string (only parsing).
Abbreviation VenueID := string (only parsing).
Abbreviation PositionID := string (only parsing).
Abbreviation OrderID := string (only parsing).
Abbreviation FillID := string (only parsing).
Abbreviation EventID := string (only parsing).
Abbreviation StrategyID := string (only parsing).
Abbreviation IdempotencyKey := string (only parsing).
Abbreviation CorrelationID := string (only parsing).
Abbreviation CausationID := string (only parsing).

Definition validateIdentity (kind value0 : string) : res string :=
  let value := TrimSpace value0 in
  if value =s "" then Err (Errorf "%s is required" [kind]) else
  if 200 <? slen value then Err (Errorf "%s exceeds 200 characters" [kind]) else
  if negb (str_all graphic value)
  then Err (Errorf "%s contains unsupported characters" [kind]) else Ok value.

Definition NewAccountID (v : string) : res AccountID := validateIdentity "account id" v.
Definition NewAssetID (v : string) : res AssetID := validateIdentity "asset id" v.
Definition NewInstrumentID (v : string) : res InstrumentID := validateIdentity "instrument id" v.
Definition NewVenueID (v : string) : res VenueID := validateIdentity "venue id" v.
Definition NewPositionID (v : string) : res PositionID := validateIdentity "position id" v.
Definition NewOrderID (v : string) : res OrderID := validateIdentity "order id" v.
Definition NewFillID (v : string) : res FillID := validateIdentity "fill id" v.
Definition NewEventID (v : string) : res EventID := validateIdentity "event id" v.
Definition NewStrategyID (v : string) : res StrategyID := validateIdentity "strategy id" v.
Definition NewIdempotencyKey (v : string) : res IdempotencyKey := validateIdentity "idempotency key" v.
Definition NewCorrelationID (v : string) : res CorrelationID := validateIdentity "correlation id" v.
Definition NewCausationID (v : string) : res CausationID := validateIdentity "causation id" v.

(** The value of an identity constructor whose error the caller drops. *)
Definition ignore_id (r : res string) : string := match r with Ok v => v | _ => "" end.

Record VersionContext : Type := mkVersions {
  V_Strategy : string; V_Settings : string; V_Policy : string; V_Model : string;
  V_FeatureSpec : string; V_Dataset : string; V_Engine : string; V_Universe : string;
  V_FlagSchema : string }.
Record Provenance : Type := mkProvenance {
  P_Source : string; P_Actor : string; P_Reason : string;
  P_CorrelationID : CorrelationID; P_CausationID : CausationID }.
#[export] Instance VersionContext_eq_dec : EqDecision VersionContext. Proof. solve_decision. Defined.
#[export] Instance Provenance_eq_dec : EqDecision Provenance. Proof. solve_decision. Defined.

Example ParseDecimal_1 : ParseDecimal " -0012.50 " = Ok (mkDecimal "-1250" 2 true).
Proof. reflexivity. Qed.
Example String_1 : Decimal_String (mkDecimal "-5" 3 true) = "-0.005".
Proof. reflexivity. Qed.

(** ** The well-formed decimals

    What every constructor returns: a canonical numeral and a scale in range.
    [decimal z k] is the decimal [z / 10^k]. *)
Definition decimal (z k : Z) : Decimal := mkDecimal (Itoa z) k true.
Definition decimal_wf (d : Decimal) : Prop := exists z k, 0 <= k <= 18 /\ d = decimal z k.

Lemma Itoa_nonneg_numeral z : 0 <= z -> numeral z (Itoa z).
Proof.
  intros Hz. unfold Itoa. destruct (z <? 0) eqn:E; bool_prop; [lia|].
  by apply format_nonneg_numeral.
Qed.

Lemma Itoa_neg z : z < 0 -> Itoa z = String "-" (Itoa (- z)).
Proof.
  intros Hz. unfold Itoa. destruct (z <? 0) eqn:E; bool_prop; [|lia].
  destruct (- z <? 0) eqn:E2; bool_prop; [lia|done].
Qed.

(** Trimming the zeros of a digit string leaves the canonical numeral. *)
Lemma canonical_digits s : str_all is_digit s = true ->
  (if TrimLeft0 s =s "" then "0" else TrimLeft0 s) = Itoa (digits_val s).
Proof.
  intros Hs. destruct (TrimLeft0_digits s Hs) as (Hd & Hv & Hz).
  pose proof (digits_val_bound s Hs).
  apply (numeral_unique (digits_val s)); [|apply Itoa_nonneg_numeral; lia].
  destruct (TrimLeft0 s =s "") eqn:E; bool_prop.
  - rewrite E in Hv. rewrite <- Hv. split; try done. congruence.
  - split; try done. intros s' Hs'. by apply Hz in Hs'.
Qed.

Lemma Itoa_0 : Itoa 0 = "0".
Proof. reflexivity. Qed.

Lemma Itoa_zero_eqb z : (Itoa z =s "0") = (z =? 0).
Proof.
  destruct (z =? 0) eqn:E; bool_prop; [by subst|].
  apply String.eqb_neq. intros H. rewrite <- Itoa_0 in H. by apply Itoa_inj in H.
Qed.

(** [NewScaledDecimal] on an optionally signed digit string. *)
Lemma NewScaledDecimal_digits (negative : bool) s k :
  str_all is_digit s = true -> s <> "" -> k <= 18 ->
  NewScaledDecimal (signed_text negative s) k =
  Ok (decimal (if negative then - digits_val s else digits_val s) k).
Proof.
  intros Hs Hne Hk. unfold NewScaledDecimal, MaxDecimalScale. cbv zeta.
  assert ((18 <? k) = false) as -> by lia.
  pose proof (signed_text_trim false negative s "" Hs eq_refl) as Ht.
  pose proof (signed_text_sign false negative s "" Hs Hne) as Hg.
  pose proof (signed_text_body false negative s "" Hs Hne) as Hb.
  cbn [point_text] in *. rewrite Ht, Hg, Hb, Hs, canonical_digits by done.
  apply String.eqb_neq in Hne as ->. cbn [negb]. rewrite Itoa_zero_eqb. unfold decimal.
  do 2 f_equal. set (v := digits_val s). assert (0 <= v) by (apply digits_val_bound; done).
  destruct negative; cbn [andb]; [|done].
  destruct (v =? 0) eqn:E0; bool_prop; cbn [negb]; [by rewrite E0|].
  rewrite (Itoa_neg (- v)) by lia. by rewrite Z.opp_involutive.
Qed.

Lemma NewScaledDecimal_Itoa z k : k <= 18 -> NewScaledDecimal (Itoa z) k = Ok (decimal z k).
Proof.
  intros Hk. destruct (Z.lt_ge_cases z 0) as [Hz|Hz].
  - rewrite Itoa_neg by done. destruct (Itoa_nonneg_numeral (- z) ltac:(lia)) as [Hd Hv Hn _].
    etransitivity; [exact (NewScaledDecimal_digits true _ k Hd Hn Hk)|]. rewrite Hv.
    do 2 f_equal. lia.
  - destruct (Itoa_nonneg_numeral z Hz) as [Hd Hv Hn _].
    etransitivity; [exact (NewScaledDecimal_digits false _ k Hd Hn Hk)|]. by rewrite Hv.
Qed.

Lemma NewScaledDecimal_wf s k d : 0 <= k -> NewScaledDecimal s k = Ok d -> decimal_wf d.
Proof.
  intros Hk. unfold NewScaledDecimal, MaxDecimalScale. cbv zeta.
  set (c := if _ || _ then tail1 _ else _). set (n := HasPrefix _ "-").
  destruct (18 <? k) eqn:E; bool_prop; [done|].
  destruct (c =s "") eqn:Ec; bool_prop; [done|].
  destruct (str_all is_digit c) eqn:Ed; cbn [negb]; [|done]. intros [= <-].
  pose proof (digits_val_bound c Ed). rewrite (canonical_digits c Ed), Itoa_zero_eqb.
  exists (if n then - digits_val c else digits_val c), k. split; [lia|]. unfold decimal. f_equal.
  destruct n; cbn [andb]; [|done]. destruct (digits_val c =? 0) eqn:E0; bool_prop; cbn [negb].
  - by rewrite E0.
  - rewrite (Itoa_neg (- _)) by lia. by rewrite Z.opp_involutive.
Qed.

Lemma decimal_wf_intro z k : 0 <= k <= 18 -> decimal_wf (decimal z k).
Proof. intros Hk. by exists z, k. Qed.

Lemma decimal_prefix z : HasPrefix (Itoa z) "-" = (z <? 0).
Proof.
  destruct (z <? 0) eqn:E; bool_prop.
  - by rewrite Itoa_neg, HasPrefix_char by done.
  - destruct (Itoa_nonneg_numeral z E) as [Hd _ Hn _].
    destruct (digits_head _ Hd Hn) as (c & t & Ec & Hc). rewrite Ec, HasPrefix_char.
    by apply digit_is_char.
Qed.

Lemma Sign_decimal z k : Decimal_Sign (decimal z k) = Z.sgn z.
Proof.
  unfold Decimal_Sign, decimal. cbn [valid coefficient negb orb].
  rewrite Itoa_zero_eqb, decimal_prefix.
  destruct (z =? 0) eqn:E; bool_prop; [by subst|]. destruct (z <? 0) eqn:E2; bool_prop; lia.
Qed.

Lemma drop_prefix c s : TrimPrefix (String c s) (String c "") = s.
Proof.
  unfold TrimPrefix. rewrite HasPrefix_char.
  assert (is_char c c = true) as -> by by apply is_char_spec.
  apply (drop_str_app (String c "")).
Qed.

(** The text of a well-formed decimal: an optional sign before the digits of
    [|z|], with the point [k] places from their end. *)
Lemma String_decimal z k : 0 <= k <= 18 ->
  exists w f, str_all is_digit w = true /\ w <> "" /\ str_all is_digit f = true /\
    slen f = k /\ digits_val (w +:+ f) = Z.abs z /\
    Decimal_String (decimal z k) =
      signed_text (z <? 0) (point_text (negb (k =? 0)) w f).
Proof.
  intros Hk. destruct (Itoa_nonneg_numeral (Z.abs z) ltac:(lia)) as [Hd Hv Hn _].
  set (digits := Itoa (Z.abs z)) in *.
  set (n := Z.to_nat k). set (p := Repeat0 (S n - String.length digits) +:+ digits).
  assert (Hp : str_all is_digit p = true) by (unfold p; by rewrite str_all_app, Repeat0_digits).
  assert (Hpv : digits_val p = Z.abs z).
  { unfold p. rewrite digits_val_app, Repeat0_val. lia. }
  assert (Hpl : (S n <= String.length p)%nat).
  { unfold p. rewrite str_length_app, Repeat0_length. lia. }
  destruct (split_at_end n p ltac:(lia)) as (w & f & Ep & Hf).
  rewrite Ep, str_all_app in Hp. apply andb_true_iff in Hp as [Hw Hfd].
  exists (if k =? 0 then digits else w), f.
  assert (Hwl : (1 <= String.length w)%nat) by (rewrite Ep, str_length_app in Hpl; lia).
  assert (Hf0 : k = 0 -> f = "").
  { intros ->. destruct f; [done|]. cbn in Hf. unfold n in Hf. lia. }
  repeat split; [by case_match | | done | unfold slen; lia | |].
  - case_match; [done|]. intros ->. cbn in Hwl. lia.
  - destruct (k =? 0) eqn:E; bool_prop; [rewrite (Hf0 E), app_empty_r; done | by rewrite <- Ep].
  - unfold Decimal_String, decimal. cbn [valid coefficient scale negb]. rewrite decimal_prefix.
    assert (Hdig : (if z <? 0 then TrimPrefix (Itoa z) "-" else Itoa z) = digits).
    { unfold digits. destruct (z <? 0) eqn:E; bool_prop.
      - rewrite Itoa_neg, drop_prefix by done. f_equal. lia.
      - f_equal. lia. }
    rewrite Hdig. fold n. fold p. cbv zeta.
    assert (Hpt : (String.length p - n)%nat = String.length w)
      by (rewrite Ep, str_length_app; lia).
    rewrite Hpt, Ep, substring_app, drop_str_app.
    destruct (0 <? k) eqn:E1, (k =? 0) eqn:E2; bool_prop; try lia; done.
Qed.

(** Parsing an optionally signed digit string with an optional fraction. *)
Lemma ParseDecimal_digits (negative : bool) w f :
  str_all is_digit w = true -> w <> "" -> str_all is_digit f = true -> slen f <= 18 ->
  ParseDecimal (signed_text negative (point_text (negb (slen f =? 0)) w f)) =
  Ok (decimal (if negative then - digits_val (w +:+ f) else digits_val (w +:+ f)) (slen f)).
Proof.
  intros Hw Hwn Hf Hfl. set (dot := negb (slen f =? 0)).
  assert (Hf0 : slen f = 0 -> f = "").
  { destruct f; [done|]. rewrite slen_cons. pose proof (slen_nonneg f). lia. }
  unfold ParseDecimal, MaxDecimalScale. cbv zeta.
  rewrite (signed_text_trim dot negative w f Hw Hf),
    (signed_text_accepted dot negative w f Hw Hwn Hf),
    (signed_text_sign dot negative w f Hw Hwn),
    (signed_text_body dot negative w f Hw Hwn), (point_text_split dot negative w f Hw Hf).
  change ("-" +:+ ?x) with (String "-" x).
  apply String.eqb_neq in Hwn as Hw0. unfold dot.
  destruct (slen f =? 0) eqn:E; [apply Z.eqb_eq in E | apply Z.eqb_neq in E]; cbn [negb]; cbv iota; rewrite Hw0.
  - rewrite (Hf0 E), app_empty_r, Hw.
    exact (NewScaledDecimal_digits negative w 0 Hw Hwn ltac:(lia)).
  - assert ((f =s "") = false) as -> by (apply String.eqb_neq; by intros ->).
    assert ((18 <? slen f) = false) as -> by lia. rewrite str_all_app, Hw, Hf.
    cbn [orb andb negb].
    apply NewScaledDecimal_digits; [by rewrite str_all_app, Hw | by destruct w | done].
Qed.

(** The textual form of the exact decimals is faithful: every value a
    constructor can return is read back unchanged, coefficient and scale, from
    the text that orders, fills and traces carry. *)
Theorem ParseDecimal_String (d : Decimal) : decimal_wf d -> ParseDecimal (Decimal_String d) = Ok d.
Proof.
  intros (z & k & Hk & ->).
  destruct (String_decimal z k Hk) as (w & f & Hw & Hwn & Hf & Hfl & Hv & ->).
  pose proof (ParseDecimal_digits (z <? 0) w f Hw Hwn Hf ltac:(lia)) as H.
  rewrite Hfl in H. rewrite H, Hv. do 2 f_equal.
  destruct (z <? 0) eqn:E; bool_prop; lia.
Qed.

Lemma ParseDecimal_String_witness :
  decimal_wf (decimal (-5) 3) /\ ParseDecimal "-0.005" = Ok (decimal (-5) 3).
Proof.
  split; [exists (-5), 3; split; [lia | reflexivity]|].
  apply (ParseDecimal_String (decimal (-5) 3)). exists (-5), 3. split; [lia | reflexivity].
Defined.

(** Parsed decimals are well formed. *)
Lemma ParseDecimal_wf s d : ParseDecimal s = Ok d -> decimal_wf d.
Proof.
  unfold ParseDecimal. cbv zeta. set (input := if _ || _ then tail1 _ else _). set (n := HasPrefix _ "-").
  destruct ((TrimSpace s =s "") || contains_eE (TrimSpace s)); [done|].
  assert (Hf : forall digits k, 0 <= k ->
    (if MaxDecimalScale <? k
     then Err (Errorf "decimal scale %d exceeds maximum %d" [Itoa k; Itoa MaxDecimalScale])
     else if negb (str_all is_digit digits) then Err (Errorf "invalid decimal digits %q" [digits])
     else NewScaledDecimal (if n then "-" +:+ digits else digits) k) = Ok d -> decimal_wf d).
  { intros digits k Hk. destruct (_ <? _); [done|]. destruct (negb _); [done|]. by apply NewScaledDecimal_wf. }
  destruct (Split "." input) as [|whole [|fraction [|]]]; try done.
  - destruct (whole =s ""); [done|]. apply Hf. lia.
  - destruct ((whole =s "") || (fraction =s "")); [done|]. apply Hf, slen_nonneg.
Qed.
