(* ===== verification/Exact.v ===== *)
(** * Exact: [internal/tradingcore/exact.go]

    Exact rational arithmetic over the decimals: [big.Rat] values are the
    standard library's [Q] up to [Qeq]; what the code reads off a [big.Rat]
    (numerator, denominator, sign) is read off its reduced form, so every
    operation is [Proper] for [Qeq]. *)
From Stdlib Require Import QArith Qabs Lqa.
From stdpp Require Import base numbers strings gmap list.
From S2P Require Import Prelude GoStrings Accounting Values.
Local Open Scope Z_scope.

(** ** [big.Rat] *)
Abbreviation Rat := Q (only parsing).
Definition Num (r : Rat) : Z := Qnum (Qred r).
Definition Denom (r : Rat) : Z := Z.pos (Qden (Qred r)).
Definition Rat_Sign (r : Rat) : Z := Z.sgn (Qnum r).
Definition Rat_Cmp (a b : Rat) : Z := match (a ?= b)%Q with Lt => -1 | Eq => 0 | Gt => 1 end.
(** [Quo] panics on a zero divisor. *)
Definition Quo (a b : Rat) : res Rat :=
  if Rat_Sign b =? 0 then Panic "division by zero" else Ok (a / b)%Q.
Definition NewRat (n : Z) (d : positive) : Rat := n # d.
Definition SetInt (n : Z) : Rat := inject_Z n.

(** ** The conversions *)

(** A nil map stays nil; the model's maps have no identity, so a copy is the
    map itself. *)
Definition cloneStrings (input : option (gmap string string)) : option (gmap string string) :=
  match input with
  | None => None
  | Some input => Some (map_fold (fun key value result => <[key := value]> result) ∅ input)
  end.

(** [SetString] leaves the receiver at zero when it refuses the empty
    coefficient of the invalid zero value. *)
Definition decimalRat (value : Decimal) : Rat :=
  let n := match SetString (Decimal_Coefficient value) with Some n => n | None => 0 end in
  let d := 10 ^ Decimal_Scale value in
  n # Z.to_pos d.

Definition ratDecimal (value : Rat) : res Decimal :=
  let scale := MaxDecimalScale in
  let multiplier := 10 ^ scale in
  let numerator := Num value * multiplier in
  let quotient := Z.quot numerator (Denom value) in
  let remainder := Z.rem numerator (Denom value) in
  let quotient :=
    if Z.abs (Denom value) <=? Z.abs remainder * 2 then
      if Rat_Sign value <? 0 then quotient - 1 else quotient + 1
    else quotient in
  NewScaledDecimal (Itoa quotient) scale.

Definition amountFromRat (value : Rat) : res SignedAmount :=
  let* d := ratDecimal value in NewSignedAmount d.
Definition quantityFromRat (value : Rat) : res Quantity :=
  let* d := ratDecimal value in NewQuantity d.

Definition notional (quantity : Quantity) (price : Price) : Rat :=
  (decimalRat (Quantity_Decimal quantity) * decimalRat (Price_Decimal price))%Q.

Definition normalizedQuantity (value : Rat) (lot : Quantity) : res Rat :=
  if Rat_Sign value <=? 0 then Err (Errorf "quantity is not positive" []) else
  if negb (Quantity_Valid lot) then Ok value else
  let step := decimalRat (Quantity_Decimal lot) in
  let* units := Quo value step in
  let whole := Z.quot (Num units) (Denom units) in
  let result := (SetInt whole * step)%Q in
  if Rat_Sign result <=? 0 then Err (Errorf "quantity_below_lot_size" []) else Ok result.

Example ratDecimal_1 : ratDecimal (2 # 3) = Ok (decimal 666666666666666667 18).
Proof. reflexivity. Qed.
Example ratDecimal_2 : ratDecimal (-1 # 3) = Ok (decimal (-333333333333333333) 18).
Proof. reflexivity. Qed.

(** ** The decimals and values the constructors return

    The fields of [Decimal] are not exported: outside its constructors the only
    value the language can produce is the zero one. *)
Definition decimal_any (d : Decimal) : Prop := d = Decimal_zero \/ decimal_wf d.
Definition quantity_any (q : Quantity) : Prop :=
  q = Quantity_zero \/ exists z k, 0 <= k <= 18 /\ 0 < z /\ q = mkQuantity (decimal z k).
Definition price_any (p : Price) : Prop :=
  p = Price_zero \/ exists z k, 0 <= k <= 18 /\ 0 < z /\ p = mkPrice (decimal z k).
Definition amount_any (a : SignedAmount) : Prop :=
  a = Amount_zero \/ exists z k, 0 <= k <= 18 /\ a = mkAmount (decimal z k).

Lemma SetString_Itoa_ok z : SetString (Itoa z) = Some z.
Proof. apply SetString_Itoa. Qed.

Lemma pos_pow10 k : 0 <= k -> Z.pos (Z.to_pos (10 ^ k)) = 10 ^ k.
Proof. intros Hk. apply Z2Pos.id. apply Z.pow_pos_nonneg; lia. Qed.

Lemma decimalRat_decimal z k : decimalRat (decimal z k) = z # Z.to_pos (10 ^ k).
Proof. unfold decimalRat, decimal. cbn [Decimal_Coefficient coefficient Decimal_Scale scale].
  by rewrite SetString_Itoa_ok. Qed.

Lemma Rat_Sign_lt r : (0 <? Rat_Sign r) = true <-> (0 < r)%Q.
Proof. unfold Rat_Sign, Qlt. cbn. rewrite Z.ltb_lt, Z.mul_1_r. lia. Qed.

Lemma Rat_Sign_le r : (Rat_Sign r <=? 0) = true <-> (r <= 0)%Q.
Proof. unfold Rat_Sign, Qle. cbn. rewrite Z.leb_le, Z.mul_1_r. lia. Qed.

Lemma Rat_Sign_gt r : (Rat_Sign r <=? 0) = false <-> (0 < r)%Q.
Proof. unfold Rat_Sign, Qlt. cbn. rewrite Z.leb_gt, Z.mul_1_r. lia. Qed.

Lemma Rat_Sign_neg r : (Rat_Sign r <? 0) = true <-> (r < 0)%Q.
Proof. unfold Rat_Sign, Qlt. cbn. rewrite Z.ltb_lt, Z.mul_1_r. lia. Qed.

Lemma Rat_Sign_zero r : (Rat_Sign r =? 0) = true <-> (r == 0)%Q.
Proof. unfold Rat_Sign, Qeq. cbn. rewrite Z.eqb_eq, Z.mul_1_r. lia. Qed.

Lemma Rat_Cmp_gt a b : (0 <? Rat_Cmp a b) = true <-> (b < a)%Q.
Proof.
  unfold Rat_Cmp. destruct (Qcompare_spec a b) as [H|H|H]; cbn;
    split; intros; try done; try lra.
Qed.

Lemma Rat_Cmp_lt a b : (Rat_Cmp a b <? 0) = true <-> (a < b)%Q.
Proof.
  unfold Rat_Cmp. destruct (Qcompare_spec a b) as [H|H|H]; cbn;
    split; intros; try done; try lra.
Qed.

#[export] Instance Rat_Sign_proper : Proper (Qeq ==> eq) Rat_Sign.
Proof.
  intros a b H. unfold Rat_Sign, Qeq in *.
  pose proof (f_equal Z.sgn H) as Hs. rewrite !Z.sgn_mul in Hs. cbn in Hs. lia.
Qed.
#[export] Instance Num_proper : Proper (Qeq ==> eq) Num.
Proof. intros a b H. unfold Num. by rewrite (Qred_complete _ _ H). Qed.
#[export] Instance Denom_proper : Proper (Qeq ==> eq) Denom.
Proof. intros a b H. unfold Denom. by rewrite (Qred_complete _ _ H). Qed.
#[export] Instance ratDecimal_proper : Proper (Qeq ==> eq) ratDecimal.
Proof.
  intros a b H. unfold ratDecimal.
  by rewrite (Num_proper _ _ H), (Denom_proper _ _ H), (Rat_Sign_proper _ _ H).
Qed.
#[export] Instance quantityFromRat_proper : Proper (Qeq ==> eq) quantityFromRat.
Proof. intros a b H. unfold quantityFromRat. by rewrite (ratDecimal_proper _ _ H). Qed.
#[export] Instance amountFromRat_proper : Proper (Qeq ==> eq) amountFromRat.
Proof. intros a b H. unfold amountFromRat. by rewrite (ratDecimal_proper _ _ H). Qed.

(** ** Rounding to 18 places *)

Lemma Denom_pos v : 0 < Denom v.
Proof. done. Qed.

Lemma Num_Denom v : (Num v # Z.to_pos (Denom v) == v)%Q.
Proof. unfold Num, Denom. cbn [Z.to_pos]. rewrite <- (Qred_correct v) at 3. by destruct (Qred v). Qed.

(** The integer count of [10^-18] units nearest to [v], ties away from zero. *)
Definition round18 (v : Rat) : Z := roundQuotient (Num v * 10 ^ 18) (Denom v).

#[export] Instance round18_proper : Proper (Qeq ==> eq) round18.
Proof. intros a b H. unfold round18. by rewrite (Num_proper _ _ H), (Denom_proper _ _ H). Qed.

Lemma Num_Sign v : Z.sgn (Num v) = Rat_Sign v.
Proof.
  unfold Num. change (Z.sgn (Qnum (Qred v))) with (Rat_Sign (Qred v)).
  apply Rat_Sign_proper, Qred_correct.
Qed.

Lemma ratDecimal_round v : ratDecimal v = Ok (decimal (round18 v) 18).
Proof.
  unfold ratDecimal, MaxDecimalScale. cbv zeta. rewrite NewScaledDecimal_Itoa by done.
  unfold round18, roundQuotient. cbv zeta. do 2 f_equal. rewrite <- Num_Sign.
  pose proof (Denom_pos v). set (q := Z.quot _ _). set (r := Z.rem _ _).
  replace (Z.abs (r * 2)) with (Z.abs r * 2) by lia.
  destruct (Z.abs (Denom v) <=? Z.abs r * 2); [|done].
  rewrite (Z.sgn_pos (Denom v)), Z.mul_1_r, Z.sgn_mul by lia.
  change (Z.sgn (10 ^ 18)) with 1. rewrite Z.mul_1_r.
  destruct (Z.sgn (Num v) <? 0) eqn:E, (0 <=? Z.sgn (Num v)) eqn:E2; bool_prop; lia.
Qed.

(** Rounding does not depend on the fraction that represents the value. *)
Lemma half_up_scale n d k : 0 < d -> 0 < k -> half_up (k * n) (k * d) = half_up n d.
Proof.
  intros Hd Hk. unfold half_up.
  replace (2 * (k * n) + k * d) with (k * (2 * n + d)) by lia.
  replace (2 * (k * d)) with (k * (2 * d)) by lia. by rewrite Z.div_mul_cancel_l by lia.
Qed.

Lemma roundQuotient_scale n d k : 0 < d -> 0 < k ->
  roundQuotient (k * n) (k * d) = roundQuotient n d.
Proof.
  intros Hd Hk. rewrite !roundQuotient_sign, !Z.abs_mul, !Z.sgn_mul, (Z.abs_eq k), (Z.abs_eq d),
    half_up_scale, (Z.sgn_pos k), (Z.sgn_pos d) by lia. lia.
Qed.

Lemma round18_fraction n d : round18 (n # d) = roundQuotient (n * 10 ^ 18) (Z.pos d).
Proof.
  unfold round18. pose proof (Num_Denom (n # d)) as H. unfold Qeq in H. cbn [Qnum Qden] in H.
  rewrite Z2Pos.id in H by apply Denom_pos. pose proof (Denom_pos (n # d)).
  rewrite <- (roundQuotient_scale (Num _ * _) _ (Z.pos d)), <- (roundQuotient_scale (n * _) _
    (Denom (n # d))) by lia.
  f_equal; nia.
Qed.

Lemma roundQuotient_mono n m d : 0 < d -> n <= m -> roundQuotient n d <= roundQuotient m d.
Proof.
  intros Hd H. rewrite !roundQuotient_sign, (Z.abs_eq d), (Z.sgn_pos d) by lia.
  assert (Hnn : forall x, 0 <= x -> 0 <= half_up x d).
  { intros x Hx. rewrite <- (half_up_mul 0 d Hd). apply half_up_mono; lia. }
  pose proof (Hnn (Z.abs n) ltac:(lia)). pose proof (Hnn (Z.abs m) ltac:(lia)).
  destruct (Z.lt_ge_cases 0 n), (Z.lt_ge_cases 0 m); try (nia || lia).
  - rewrite !Z.sgn_pos by lia. pose proof (half_up_mono (Z.abs n) (Z.abs m) d Hd ltac:(lia)). lia.
  - pose proof (half_up_mono (Z.abs m) (Z.abs n) d Hd ltac:(lia)). nia.
Qed.

Lemma round18_mono v w : (v <= w)%Q -> round18 v <= round18 w.
Proof.
  intros H. destruct v as [a b], w as [c d]. rewrite !round18_fraction.
  unfold Qle in H. cbn [Qnum Qden] in H.
  rewrite <- (roundQuotient_scale _ (Z.pos b) (Z.pos d)),
    <- (roundQuotient_scale _ (Z.pos d) (Z.pos b)) by lia.
  rewrite (Z.mul_comm (Z.pos b) (Z.pos d)). apply roundQuotient_mono; nia.
Qed.

(** A value with at most 18 places is not changed. *)
Lemma round18_exact v z k : 0 <= k <= 18 -> (v == z # Z.to_pos (10 ^ k))%Q ->
  round18 v = z * 10 ^ (18 - k).
Proof.
  intros Hk ->. rewrite round18_fraction, pos_pow10 by lia.
  replace (z * 10 ^ 18) with ((z * 10 ^ (18 - k)) * 10 ^ k).
  - apply roundQuotient_exact. apply Z.pow_nonzero; lia.
  - rewrite <- Z.mul_assoc, <- Z.pow_add_r by lia. do 2 f_equal. lia.
Qed.

Lemma round18_pos_iff v : 0 < round18 v <-> (1 # 2000000000000000000 <= v)%Q.
Proof.
  destruct v as [n d]. rewrite round18_fraction. unfold Qle. cbn [Qnum Qden].
  destruct (Z.lt_ge_cases 0 n) as [Hn|Hn].
  - rewrite roundQuotient_nonneg by lia. unfold half_up. split; intros H.
    + assert (1 <= (2 * (n * 10 ^ 18) + Z.pos d) / (2 * Z.pos d)) by lia.
      pose proof (Z.mul_div_le (2 * (n * 10 ^ 18) + Z.pos d) (2 * Z.pos d) ltac:(lia)). nia.
    + apply Z.lt_le_trans with 1; [lia|]. apply Z.div_le_lower_bound; lia.
  - pose proof (roundQuotient_mono (n * 10 ^ 18) (0 * Z.pos d) (Z.pos d) ltac:(lia) ltac:(lia)).
    rewrite roundQuotient_exact in * by lia. nia.
Qed.

(** [x] within half a unit of the 18th place of [y]. *)
Definition near18 (x y : Rat) : Prop := (Qabs (x - y) <= 1 # 2000000000000000000)%Q.

Lemma round18_near v : near18 (round18 v # 1000000000000000000) v.
Proof.
  unfold near18. rewrite <- (Num_Denom v) at 2. unfold round18.
  pose proof (Denom_pos v) as Hd.
  pose proof (roundQuotient_error (Num v * 10 ^ 18) (Denom v) ltac:(lia)) as H.
  set (q := roundQuotient _ _) in *. set (n := Num v) in *. set (d := Denom v) in *. clearbody q n d.
  apply Qabs_Qle_condition. unfold Qle, Qminus, Qplus, Qopp. cbn [Qnum Qden].
  rewrite Pos2Z.inj_mul, Z2Pos.id by lia. rewrite (Z.abs_eq d) in H by lia. nia.
Qed.

Lemma decimalRat_wf d : decimal_any d ->
  exists z k, 0 <= k <= 18 /\ (decimalRat d == z # Z.to_pos (10 ^ k))%Q.
Proof.
  intros [->|(z & k & Hk & ->)].
  - exists 0, 0. split; [lia | reflexivity].
  - exists z, k. split; [done|]. by rewrite decimalRat_decimal.
Qed.

(** Every result that is rounded back to a decimal ([ratDecimal]: risk
    quantities, prices, fees) is the nearest value with 18 places, ties away
    from zero, by the same rule as the ledger's division; and a value that
    already is a decimal is returned unchanged in value. *)
Theorem ratDecimal_nearest (v : Rat) :
  exists z, ratDecimal v = Ok (decimal z 18) /\
    z = roundQuotient (Num v * 10 ^ 18) (Denom v) /\
    near18 (decimalRat (decimal z 18)) v /\
    (forall d, decimal_any d -> (decimalRat d == v)%Q -> (decimalRat (decimal z 18) == v)%Q).
Proof.
  exists (round18 v). rewrite decimalRat_decimal. change (Z.to_pos (10 ^ 18)) with 1000000000000000000%positive.
  split_and!; [apply ratDecimal_round | done | apply round18_near |].
  intros d Hd Hv. destruct (decimalRat_wf d Hd) as (z & k & Hk & Hz).
  rewrite Hz in Hv. rewrite (round18_exact v z k Hk) by (by symmetry). rewrite <- Hv.
  unfold Qeq. cbn [Qnum Qden]. rewrite pos_pow10 by lia.
  rewrite <- Z.mul_assoc, <- Z.pow_add_r by lia. by replace (18 - k + k) with 18 by lia.
Qed.

Lemma quantityFromRat_eq v :
  quantityFromRat v =
  if 0 <? round18 v then Ok (mkQuantity (decimal (round18 v) 18))
  else Err (Errorf "quantity must be a valid positive decimal" []).
Proof.
  unfold quantityFromRat. rewrite ratDecimal_round. cbn [rbind]. unfold NewQuantity.
  rewrite Sign_decimal. cbn [decimal Decimal_Valid valid negb orb].
  destruct (0 <? round18 v) eqn:E; bool_prop.
  - rewrite Z.sgn_pos by lia. done.
  - destruct (Z.sgn (round18 v) <=? 0) eqn:E2; bool_prop; [done|]. lia.
Qed.

Lemma amountFromRat_eq v : amountFromRat v = Ok (mkAmount (decimal (round18 v) 18)).
Proof. unfold amountFromRat. by rewrite ratDecimal_round. Qed.

Lemma Quantity_Valid_spec q : quantity_any q ->
  (Quantity_Valid q = true <-> exists z k, 0 <= k <= 18 /\ 0 < z /\ q = mkQuantity (decimal z k)).
Proof.
  intros [->|H].
  { split; [done|]. intros (z & k & _ & _ & [=]). }
  split; [done|]. intros _. destruct H as (z & k & Hk & Hz & ->). unfold Quantity_Valid. cbn [Quantity_Decimal].
  rewrite Sign_decimal, Z.sgn_pos by lia. done.
Qed.

Lemma decimal_pos z k : 0 < z -> (0 < decimalRat (decimal z k))%Q.
Proof. intros Hz. rewrite decimalRat_decimal. unfold Qlt. cbn. lia. Qed.

Lemma quantity_any_pos q : quantity_any q -> Quantity_Valid q = true ->
  (0 < decimalRat (Quantity_Decimal q))%Q.
Proof.
  intros Hq Hv. apply Quantity_Valid_spec in Hv as (z & k & Hk & Hz & ->); [|done].
  by apply decimal_pos.
Qed.

Lemma price_any_pos p : price_any p -> Price_Valid p = true ->
  (0 < decimalRat (Price_Decimal p))%Q.
Proof.
  intros [->|(z & k & Hk & Hz & ->)] Hv; [done|]. by apply decimal_pos.
Qed.

Lemma quantity_any_nonneg q : quantity_any q -> (0 <= decimalRat (Quantity_Decimal q))%Q.
Proof.
  intros [->|(z & k & Hk & Hz & ->)]; [done|]. by apply Qlt_le_weak, decimal_pos.
Qed.

(** The whole number of steps in a positive value. *)
Definition steps (v s : Rat) : Z := Z.quot (Num (v / s)) (Denom (v / s)).

Lemma steps_spec v s : (0 < v)%Q -> (0 < s)%Q ->
  0 <= steps v s /\ (SetInt (steps v s) * s <= v)%Q /\ (v < SetInt (steps v s + 1) * s)%Q.
Proof.
  intros Hv Hs. unfold steps. set (u := (v / s)%Q).
  assert (Hu : (0 < u)%Q) by (by apply Qlt_shift_div_l; [|rewrite Qmult_0_l]).
  assert (Huv : (u * s == v)%Q) by (unfold u; field; intros Hc; rewrite Hc in Hs; by apply Qlt_irrefl in Hs).
  assert (Hn : 0 < Num u).
  { apply Rat_Sign_lt, Z.ltb_lt in Hu. rewrite <- Num_Sign in Hu. lia. }
  pose proof (Denom_pos u) as Hd. pose proof (Num_Denom u) as E.
  rewrite Z.quot_div_nonneg by lia.
  pose proof (Z.div_mod (Num u) (Denom u) ltac:(lia)). pose proof (Z.mod_pos_bound (Num u) (Denom u) Hd).
  set (q := Num u / Denom u) in *.
  assert (H1 : (SetInt q <= u)%Q).
  { rewrite <- E. unfold SetInt, inject_Z, Qle. cbn [Qnum Qden]. rewrite Z2Pos.id by lia. nia. }
  assert (H2 : (u < SetInt (q + 1))%Q).
  { rewrite <- E. unfold SetInt, inject_Z, Qlt. cbn [Qnum Qden]. rewrite Z2Pos.id by lia. nia. }
  split; [apply Z.div_pos; lia|].
  rewrite <- Huv. split; [apply Qmult_le_compat_r; [done | lra] | by apply Qmult_lt_compat_r].
Qed.

Lemma normalizedQuantity_cut (value : Rat) (lot : Quantity) : quantity_any lot ->
  match normalizedQuantity value lot with
  | Ok r =>
      (0 < r /\ r <= value)%Q /\
      (Quantity_Valid lot = false -> r = value) /\
      (Quantity_Valid lot = true -> exists n, 0 < n /\
        (r == SetInt n * decimalRat (Quantity_Decimal lot))%Q /\
        (value < SetInt (n + 1) * decimalRat (Quantity_Decimal lot))%Q)
  | Err _ =>
      (value <= 0)%Q \/
      (Quantity_Valid lot = true /\ (value < decimalRat (Quantity_Decimal lot))%Q)
  | Panic _ => False
  end.
Proof.
  intros Hl. unfold normalizedQuantity. destruct (Rat_Sign value <=? 0) eqn:Ev.
  { left. by apply Rat_Sign_le. }
  apply Rat_Sign_gt in Ev. destruct (Quantity_Valid lot) eqn:Evl; cbn [negb].
  2: { split_and!; [done | lra | done | done]. }
  pose proof (quantity_any_pos lot Hl Evl) as Hs. set (s := decimalRat _) in *.
  unfold Quo. destruct (Rat_Sign s =? 0) eqn:E0; [apply Rat_Sign_zero in E0; lra|].
  cbn [rbind]. fold (steps value s). destruct (steps_spec value s Ev Hs) as (Hn & Hle & Hlt).
  destruct (Rat_Sign (SetInt (steps value s) * s) <=? 0) eqn:Er.
  - right. split; [done|]. apply Rat_Sign_le in Er.
    assert (steps value s = 0) as E.
    { destruct (Z.eq_dec (steps value s) 0) as [|Hne]; [done|]. exfalso.
      assert ((1 <= SetInt (steps value s))%Q) by (unfold SetInt, Qle; cbn; lia). nra. }
    rewrite E in Hlt. change (SetInt (0 + 1)) with 1%Q in Hlt. lra.
  - apply Rat_Sign_gt in Er. split_and!; [done | done | done |]. intros _.
    exists (steps value s). split_and!; [|reflexivity | done].
    destruct (Z.eq_dec (steps value s) 0) as [E|]; [|lia]. rewrite E in Er.
    change (SetInt 0) with 0%Q in Er. lra.
Qed.

(** Lot normalisation: a quantity is cut to the greatest multiple of the lot
    that does not exceed it, and is refused exactly when it is not positive or
    smaller than one lot; without a valid lot it is kept as it is. *)
Theorem normalizedQuantity_spec (value : Rat) (lot : Quantity) : quantity_any lot ->
  match normalizedQuantity value lot with
  | Ok r =>
      (0 < r /\ r <= value)%Q /\
      (Quantity_Valid lot = false -> r = value) /\
      (Quantity_Valid lot = true -> exists n, 0 < n /\
        (r == SetInt n * decimalRat (Quantity_Decimal lot))%Q /\
        (value < SetInt (n + 1) * decimalRat (Quantity_Decimal lot))%Q)
  | Err _ =>
      (value <= 0)%Q \/
      (Quantity_Valid lot = true /\ (value < decimalRat (Quantity_Decimal lot))%Q)
  | Panic _ => False
  end.
Proof.
  apply normalizedQuantity_cut.
Qed.

Lemma normalizedQuantity_spec_witness :
  quantity_any (mkQuantity (decimal 5 1)) /\
  exists r, normalizedQuantity (17 # 10) (mkQuantity (decimal 5 1)) = Ok r /\ (r <= 17 # 10)%Q.
Proof.
  assert (H : quantity_any (mkQuantity (decimal 5 1))) by (right; exists 5, 1; split_and!; done || lia).
  split; [exact H|]. pose proof (normalizedQuantity_spec (17 # 10) _ H) as S.
  destruct (normalizedQuantity (17 # 10) (mkQuantity (decimal 5 1))) as [r|e|w] eqn:E.
  - exists r. split; [reflexivity | apply S].
  - vm_compute in E. discriminate E.
  - destruct S.
Defined.
