(* ===== verification/Snapshots.v ===== *)
(** * Snapshots: [internal/tradingcore/snapshots.go]

    The immutable inputs of a decision: instruments, bars, the candidate
    universe, the portfolio and the decision context that owns copies of all of
    them. Times are nanoseconds since the zero time, in UTC; a slice is a list
    (a nil one and an empty one are not told apart by any code modelled here),
    a map a [gmap]. A loop over a map whose order is not specified is a loop
    over [map_to_list]; sorting distinct keys is [SliceStable]. *)
From stdpp Require Import base numbers strings gmap list.
From S2P Require Import Prelude GoStrings Values.
Local Open Scope Z_scope.

Definition Time : Type := Z.
Definition Duration : Type := Z.
Definition IsZero (t : Time) : bool := t =? 0.
Definition Before (t u : Time) : bool := t <? u.
Definition After (t u : Time) : bool := u <? t.
(** [Sub] saturates at the range of [int64]. *)
Definition time_Sub (t u : Time) : Duration := Z.max (- 2 ^ 63) (Z.min (2 ^ 63 - 1) (t - u)).

Abbreviation OrderSide := string (only parsing).
Abbreviation OrderType := string (only parsing).
Abbreviation ExecutionMode := string (only parsing).
Definition Buy : OrderSide := "buy".
Definition Sell : OrderSide := "sell".
Definition MarketOrder : OrderType := "market".
Definition LimitOrder : OrderType := "limit".
Definition ExecutionResearch : ExecutionMode := "research".
Definition ExecutionShadow : ExecutionMode := "shadow".
Definition ExecutionBacktest : ExecutionMode := "backtest_simulation".
Definition ExecutionLiveDryRun : ExecutionMode := "live_dry_run".
Definition ExecutionPaper : ExecutionMode := "paper".
Definition ExecutionLimitedLive : ExecutionMode := "limited_live".
Definition ExecutionFullLive : ExecutionMode := "full_live".

(** [switch mode { case ...: default: }] over the seven modes. *)
Definition supported_mode (mode : ExecutionMode) : bool :=
  (mode =s ExecutionResearch) || (mode =s ExecutionShadow) || (mode =s ExecutionBacktest) ||
  (mode =s ExecutionLiveDryRun) || (mode =s ExecutionPaper) ||
  (mode =s ExecutionLimitedLive) || (mode =s ExecutionFullLive).

(** ** Instruments *)
Record Instrument : Type := mkInstrument {
  I_ID : InstrumentID; I_BaseAsset : AssetID; I_QuoteAsset : AssetID;
  I_Venue : VenueID; I_VenueSymbol : string }.
#[export] Instance Instrument_eq_dec : EqDecision Instrument. Proof. solve_decision. Defined.
Definition Instrument_zero : Instrument := mkInstrument "" "" "" "" "".

Definition Instrument_Validate (instrument : Instrument) : res unit :=
  if (I_ID instrument =s "") || (I_BaseAsset instrument =s "") ||
     (I_QuoteAsset instrument =s "") || (I_Venue instrument =s "")
  then Err (Errorf "instrument id, assets, venue, and venue symbol are required" []) else
  let* _ := validateIdentity "venue symbol" (I_VenueSymbol instrument) in
  if I_BaseAsset instrument =s I_QuoteAsset instrument
  then Err (Errorf "base and quote asset must differ" []) else Ok tt.

Definition NewInstrument (id : InstrumentID) (baseAsset quoteAsset : AssetID) (venue : VenueID)
    (venueSymbol : string) : res Instrument :=
  let* symbol := validateIdentity "venue symbol" venueSymbol in
  let instrument := mkInstrument id baseAsset quoteAsset venue symbol in
  let* _ := Instrument_Validate instrument in
  Ok instrument.

(** ** Bars, quotes and coverage *)
Record Bar : Type := mkBar {
  B_Instrument : Instrument; B_Interval : Duration; B_OpenTime : Time; B_CloseTime : Time;
  B_Open : Price; B_High : Price; B_Low : Price; B_Close : Price; B_Volume : Quantity }.
#[export] Instance Bar_eq_dec : EqDecision Bar. Proof. solve_decision. Defined.

Definition Bar_Validate (bar : Bar) : res unit :=
  let* _ := Instrument_Validate (B_Instrument bar) in
  if (B_Interval bar <=? 0) || IsZero (B_OpenTime bar) ||
     negb (After (B_CloseTime bar) (B_OpenTime bar)) ||
     negb (time_Sub (B_CloseTime bar) (B_OpenTime bar) =? B_Interval bar)
  then Err (Errorf "bar timestamps must align to its positive interval" []) else
  if negb (Price_Valid (B_Open bar)) || negb (Price_Valid (B_High bar)) ||
     negb (Price_Valid (B_Low bar)) || negb (Price_Valid (B_Close bar)) ||
     negb (Quantity_Valid (B_Volume bar))
  then Err (Errorf "bar prices and volume must be positive exact values" []) else Ok tt.

Record Quote : Type := mkQuote {
  Q_Instrument : Instrument; Q_Bid : Price; Q_Ask : Price; Q_Last : Price; Q_ObservedAt : Time }.
#[export] Instance Quote_eq_dec : EqDecision Quote. Proof. solve_decision. Defined.

Record Coverage : Type := mkCoverage {
  Cov_Instrument : Instrument; Cov_From : Time; Cov_Through : Time;
  Cov_ExpectedObservations : Z; Cov_ActualObservations : Z; Cov_Complete : bool;
  Cov_Source : string; Cov_DatasetVersion : string }.

Record BarsRequest : Type := mkBarsRequest {
  BR_Instrument : Instrument; BR_Interval : Duration; BR_From : Time; BR_Through : Time }.
Definition BarsRequest_Validate (request : BarsRequest) : res unit :=
  if I_ID (BR_Instrument request) =s "" then Err (Errorf "instrument is required" []) else
  if BR_Interval request <=? 0 then Err (Errorf "interval must be positive" []) else
  if IsZero (BR_From request) || negb (After (BR_Through request) (BR_From request))
  then Err (Errorf "invalid coverage interval" []) else Ok tt.

Record BarSeries : Type := mkBarSeries { bars : list Bar }.
#[export] Instance BarSeries_eq_dec : EqDecision BarSeries. Proof. solve_decision. Defined.
Definition bar_less (x y : Bar) : bool := Before (B_OpenTime x) (B_OpenTime y).
Definition NewBarSeries (values : list Bar) : res BarSeries :=
  let* _ := forM_ Bar_Validate values in
  Ok (mkBarSeries (SliceStable bar_less values)).
Definition Bars (series : BarSeries) : list Bar := bars series.
Definition Len (series : BarSeries) : Z := Z.of_nat (length (bars series)).

(** ** The universe *)
Record UniverseCandidate : Type := mkCandidate {
  UC_Instrument : Instrument; UC_Rank : Z; UC_Score : Decimal; UC_Eligible : bool;
  UC_RejectionReason : string; UC_MembershipSource : string; UC_MembershipVersion : string }.
#[export] Instance UniverseCandidate_eq_dec : EqDecision UniverseCandidate.
Proof. solve_decision. Defined.

Record UniverseSnapshot : Type := mkUniverse {
  u_asOf : Time; u_policyVersion : string; u_source : string;
  u_candidates : list UniverseCandidate }.
Definition UniverseSnapshot_zero : UniverseSnapshot := mkUniverse 0 "" "" [].

Definition candidate_check (candidate : UniverseCandidate) : res unit :=
  let* _ := Instrument_Validate (UC_Instrument candidate) in
  if UC_Rank candidate <? 0 then Err (Errorf "candidate rank cannot be negative" []) else
  if negb (Decimal_Valid (UC_Score candidate))
  then Err (Errorf "candidate score must be an exact decimal" []) else Ok tt.
Definition candidate_less : UniverseCandidate -> UniverseCandidate -> bool :=
  lex Z.eqb Z.ltb UC_Rank
    (fun x y => String.ltb (I_ID (UC_Instrument x)) (I_ID (UC_Instrument y))).

Definition NewUniverseSnapshot (asOf : Time) (policyVersion source : string)
    (candidates : list UniverseCandidate) : res UniverseSnapshot :=
  if IsZero asOf then Err (Errorf "universe as-of time is required" []) else
  let* _ := forM_ candidate_check candidates in
  Ok (mkUniverse asOf policyVersion source (SliceStable candidate_less candidates)).

(** ** The portfolio *)
Record Position : Type := mkPosition {
  Pos_ID : PositionID; Pos_Instrument : Instrument; Pos_Quantity : Quantity;
  Pos_AveragePrice : Price; Pos_MarkPrice : Price; Pos_OpenedAt : Time;
  Pos_RealizedPnL : SignedAmount; Pos_PyramidLayers : Z }.
#[export] Instance Position_eq_dec : EqDecision Position. Proof. solve_decision. Defined.

Record PendingOrder : Type := mkPending {
  PO_ID : OrderID; PO_Instrument : Instrument; PO_Side : OrderSide; PO_Remaining : Quantity;
  PO_SubmittedAt : Time }.
#[export] Instance PendingOrder_eq_dec : EqDecision PendingOrder. Proof. solve_decision. Defined.

Record RiskState : Type := mkRiskState {
  known : bool; grossExposure : SignedAmount; realizedPnL : SignedAmount;
  dailyLoss : SignedAmount; openRisk : SignedAmount; rs_turnover : SignedAmount }.
#[export] Instance RiskState_eq_dec : EqDecision RiskState. Proof. solve_decision. Defined.
Definition RiskState_zero : RiskState :=
  mkRiskState false Amount_zero Amount_zero Amount_zero Amount_zero Amount_zero.

Definition NewRiskStateWithTurnover
    (grossExposure realizedPnL dailyLoss openRisk turnover : SignedAmount) : res RiskState :=
  let* _ := forM_ (fun value => if negb (Amount_Valid value)
                                then Err (Errorf "risk values must be exact signed amounts" [])
                                else Ok tt)
                  [grossExposure; realizedPnL; dailyLoss; openRisk; turnover] in
  Ok (mkRiskState true grossExposure realizedPnL dailyLoss openRisk turnover).
Definition NewRiskState (grossExposure realizedPnL dailyLoss openRisk : SignedAmount) : res RiskState :=
  let* d := MustDecimal 0 0 in
  let zero := match NewSignedAmount d with Ok a => a | _ => Amount_zero end in
  NewRiskStateWithTurnover grossExposure realizedPnL dailyLoss openRisk zero.
Definition RiskState_Turnover (state : RiskState) : SignedAmount := rs_turnover state.
Definition RiskState_Known (state : RiskState) : bool := known state.
Definition RiskState_Values (state : RiskState) : SignedAmount * SignedAmount * SignedAmount * SignedAmount :=
  (grossExposure state, realizedPnL state, dailyLoss state, openRisk state).

Record PortfolioSnapshot : Type := mkPortfolio {
  p_asOf : Time; p_accountID : AccountID; p_executionMode : ExecutionMode;
  p_cash : gmap AssetID SignedAmount; p_positions : list Position;
  p_pending : list PendingOrder; p_risk : RiskState }.
Definition PortfolioSnapshot_zero : PortfolioSnapshot := mkPortfolio 0 "" "" ∅ [] [] RiskState_zero.

Definition cash_check (entry : AssetID * SignedAmount) : res unit :=
  let '(asset, amount) := entry in
  if (asset =s "") || negb (Amount_Valid amount)
  then Err (Errorf "cash requires valid asset and exact amount" []) else Ok tt.
Definition position_check (position : Position) : res unit :=
  if (Pos_ID position =s "") || negb (is_ok (Instrument_Validate (Pos_Instrument position))) ||
     negb (Quantity_Valid (Pos_Quantity position)) || negb (Price_Valid (Pos_AveragePrice position)) ||
     negb (Price_Valid (Pos_MarkPrice position)) || IsZero (Pos_OpenedAt position) ||
     (Pos_PyramidLayers position <? 0)
  then Err (Errorf "position contains invalid identity, value, or time" []) else Ok tt.
Definition pending_check (order : PendingOrder) : res unit :=
  if (PO_ID order =s "") || negb (is_ok (Instrument_Validate (PO_Instrument order))) ||
     ((PO_Side order <>s Buy) && (PO_Side order <>s Sell)) ||
     negb (Quantity_Valid (PO_Remaining order)) || IsZero (PO_SubmittedAt order)
  then Err (Errorf "pending order contains invalid identity, value, side, or time" []) else Ok tt.
Definition position_less (x y : Position) : bool := String.ltb (Pos_ID x) (Pos_ID y).
Definition pending_less (x y : PendingOrder) : bool := String.ltb (PO_ID x) (PO_ID y).

Definition NewPortfolioSnapshot (asOf : Time) (accountID : AccountID) (mode : ExecutionMode)
    (cash : gmap AssetID SignedAmount) (positions : list Position) (pending : list PendingOrder)
    (risk : RiskState) : res PortfolioSnapshot :=
  if IsZero asOf then Err (Errorf "portfolio as-of time is required" []) else
  if accountID =s "" then Err (Errorf "account id is required" []) else
  if negb (supported_mode mode) then Err (Errorf "unsupported execution mode %q" [mode]) else
  let* _ := forM_ cash_check (map_to_list cash) in
  let* _ := forM_ position_check positions in
  let* _ := forM_ pending_check pending in
  Ok (mkPortfolio asOf accountID mode cash (SliceStable position_less positions)
        (SliceStable pending_less pending) risk).

Definition CashAssets (snapshot : PortfolioSnapshot) : list AssetID :=
  SliceStable String.ltb (map_to_list (p_cash snapshot)).*1.
Definition CashAmount (snapshot : PortfolioSnapshot) (asset : AssetID) : option SignedAmount :=
  p_cash snapshot !! asset.

(** ** The decision context *)
Record DecisionContext : Type := mkContext {
  marketObservedAt : Time; signalAt : Time; decisionAt : Time;
  dc_bars : gmap InstrumentID BarSeries; quotes : gmap InstrumentID Quote;
  universe : UniverseSnapshot; portfolio : PortfolioSnapshot;
  settings : gmap string string; versions : VersionContext }.

Record DecisionContextInput : Type := mkContextInput {
  MarketObservedAt : Time; SignalAt : Time; DecisionAt : Time;
  In_Bars : gmap InstrumentID (list Bar); In_Quotes : gmap InstrumentID Quote;
  In_Universe : UniverseSnapshot; In_Portfolio : PortfolioSnapshot;
  In_Settings : gmap string string; In_Versions : VersionContext }.

(** The constructors called on what a snapshot's accessors return. *)
Definition rebuildUniverse (s : UniverseSnapshot) : res UniverseSnapshot :=
  NewUniverseSnapshot (u_asOf s) (u_policyVersion s) (u_source s) (u_candidates s).
Definition rebuildPortfolio (s : PortfolioSnapshot) : res PortfolioSnapshot :=
  NewPortfolioSnapshot (p_asOf s) (p_accountID s) (p_executionMode s) (p_cash s) (p_positions s)
    (p_pending s) (p_risk s).

Definition add_series (result : gmap InstrumentID BarSeries) (entry : InstrumentID * list Bar) :
    res (gmap InstrumentID BarSeries) :=
  let '(id, values) := entry in
  let* series := NewBarSeries values in
  Ok (<[id := series]> result).

Definition NewDecisionContext (input : DecisionContextInput) : res DecisionContext :=
  if IsZero (MarketObservedAt input) || IsZero (SignalAt input) || IsZero (DecisionAt input)
  then Err (Errorf "market, signal, and decision timestamps are required" []) else
  if Before (SignalAt input) (MarketObservedAt input) || Before (DecisionAt input) (SignalAt input)
  then Err (Errorf "decision timestamps must be ordered market <= signal <= decision" []) else
  let* bars := foldM add_series ∅ (map_to_list (In_Bars input)) in
  let* universe := rebuildUniverse (In_Universe input) in
  let* portfolio := rebuildPortfolio (In_Portfolio input) in
  Ok (mkContext (MarketObservedAt input) (SignalAt input) (DecisionAt input) bars (In_Quotes input)
        universe portfolio (In_Settings input) (In_Versions input)).

Definition Context_Bars (context : DecisionContext) (id : InstrumentID) : list Bar :=
  match dc_bars context !! id with Some series => Bars series | None => [] end.
Definition Context_Quote (context : DecisionContext) (id : InstrumentID) : option Quote :=
  quotes context !! id.
Definition QuoteInstruments (context : DecisionContext) : list InstrumentID :=
  SliceStable String.ltb (map_to_list (quotes context)).*1.
Definition Universe (context : DecisionContext) : UniverseSnapshot :=
  match rebuildUniverse (universe context) with Ok s => s | _ => UniverseSnapshot_zero end.
Definition Portfolio (context : DecisionContext) : PortfolioSnapshot :=
  match rebuildPortfolio (portfolio context) with Ok s => s | _ => PortfolioSnapshot_zero end.
Definition Setting (context : DecisionContext) (key : string) : option string :=
  settings context !! key.
Definition SettingKeys (context : DecisionContext) : list string :=
  SliceStable String.ltb (map_to_list (settings context)).*1.

(** ** Orders *)
#[export] Instance bar_less_weak : StrictWeak bar_less.
Proof. apply (key_weak B_OpenTime Z.ltb). Qed.
#[export] Instance candidate_less_weak : StrictWeak candidate_less.
Proof.
  apply lex_weak; [apply _ | apply Z.eqb_eq |]. apply (key_weak (fun x => I_ID (UC_Instrument x)) String.ltb).
Qed.
#[export] Instance position_less_weak : StrictWeak position_less.
Proof. apply (key_weak Pos_ID String.ltb). Qed.
#[export] Instance pending_less_weak : StrictWeak pending_less.
Proof. apply (key_weak PO_ID String.ltb). Qed.

(** ** What the constructors establish *)
Inductive universe_wf (s : UniverseSnapshot) : Prop :=
| universe_wf_intro :
    IsZero (u_asOf s) = false ->
    forM_ candidate_check (u_candidates s) = Ok tt ->
    ordered candidate_less (u_candidates s) -> universe_wf s.

Inductive portfolio_wf (s : PortfolioSnapshot) : Prop :=
| portfolio_wf_intro :
    IsZero (p_asOf s) = false -> (p_accountID s =s "") = false ->
    supported_mode (p_executionMode s) = true ->
    forM_ cash_check (map_to_list (p_cash s)) = Ok tt ->
    forM_ position_check (p_positions s) = Ok tt ->
    forM_ pending_check (p_pending s) = Ok tt ->
    ordered position_less (p_positions s) -> ordered pending_less (p_pending s) ->
    portfolio_wf s.

Lemma NewUniverseSnapshot_wf asOf v src cs s :
  NewUniverseSnapshot asOf v src cs = Ok s -> universe_wf s.
Proof.
  unfold NewUniverseSnapshot. intros H. res_inv. destruct a. constructor; cbn; [done | |].
  - eapply forM__perm; [apply SliceStable_Permutation | done].
  - apply sort_ordered, _.
Qed.

Lemma rebuildUniverse_id s : universe_wf s -> rebuildUniverse s = Ok s.
Proof.
  intros [Ht Hc Ho]. unfold rebuildUniverse, NewUniverseSnapshot. rewrite Ht, Hc. cbn [rbind].
  rewrite (SliceStable_ordered_id _ _ Ho). by destruct s.
Qed.

Lemma NewPortfolioSnapshot_wf asOf acc mode cash ps os risk s :
  NewPortfolioSnapshot asOf acc mode cash ps os risk = Ok s -> portfolio_wf s.
Proof.
  unfold NewPortfolioSnapshot. intros H.
  destruct (supported_mode mode) eqn:Em; cbn [negb] in H; res_inv; try done.
  repeat match goal with u : unit |- _ => destruct u end.
  constructor; cbn; try done; try (apply sort_ordered, _);
    (eapply forM__perm; [apply SliceStable_Permutation | done]).
Qed.

Lemma rebuildPortfolio_id s : portfolio_wf s -> rebuildPortfolio s = Ok s.
Proof.
  intros [Ht Ha Hm Hc Hp Ho Hps Hos]. unfold rebuildPortfolio, NewPortfolioSnapshot.
  rewrite Ht, Ha, Hm, Hc, Hp, Ho. cbn [negb rbind].
  rewrite (SliceStable_ordered_id _ _ Hps), (SliceStable_ordered_id _ _ Hos). by destruct s.
Qed.

Definition series_wf (s : BarSeries) : Prop :=
  forM_ Bar_Validate (bars s) = Ok tt /\ ordered bar_less (bars s).

Lemma NewBarSeries_wf values s : NewBarSeries values = Ok s -> series_wf s.
Proof.
  unfold NewBarSeries. intros H. res_inv. destruct a. split; cbn.
  - eapply forM__perm; [apply SliceStable_Permutation | done].
  - apply sort_ordered, _.
Qed.

Lemma NewBarSeries_id s : series_wf s -> NewBarSeries (Bars s) = Ok s.
Proof.
  intros [Hv Ho]. unfold NewBarSeries, Bars. rewrite Hv. cbn [rbind].
  rewrite (SliceStable_ordered_id _ _ Ho). by destruct s.
Qed.

(** The loop that copies the bars builds, for each instrument, the series of
    its bars. *)
Lemma add_series_spec l r m : NoDup l.*1 -> foldM add_series r l = Ok m ->
  forall id, match list_to_map (M := gmap _ _) l !! id with
             | Some values => exists s, NewBarSeries values = Ok s /\ m !! id = Some s
             | None => m !! id = r !! id
             end.
Proof.
  revert r. induction l as [|[id values] l IH]; intros r Hd H id'; cbn in *; res_inv.
  - by rewrite lookup_empty.
  - apply NoDup_cons in Hd as [Hn Hd].
    specialize (IH _ Hd H id'). destruct (decide (id = id')) as [<-|Hne].
    + rewrite lookup_insert_eq. rewrite not_elem_of_list_to_map_1 in IH by done.
      rewrite lookup_insert_eq in IH. eauto.
    + rewrite lookup_insert_ne by done. destruct (list_to_map l !! id'); [done|].
      by rewrite lookup_insert_ne in IH.
Qed.

Lemma add_series_total l r :
  Forall (fun e => exists s, NewBarSeries e.2 = Ok s) l -> exists m, foldM add_series r l = Ok m.
Proof.
  intros H. revert r. induction H as [|[id values] l [s Hs] _ IH]; intros r; [by eexists|].
  cbn [foldM add_series]. cbn in Hs. rewrite Hs. apply IH.
Qed.

Lemma bars_spec (M : gmap InstrumentID (list Bar)) m :
  foldM add_series ∅ (map_to_list M) = Ok m ->
  forall id, match M !! id with
             | Some values => exists s, NewBarSeries values = Ok s /\ m !! id = Some s
             | None => m !! id = None
             end.
Proof.
  intros H id. pose proof (add_series_spec _ _ _ (NoDup_fst_map_to_list M) H id) as Hs.
  rewrite list_to_map_to_list in Hs. destruct (M !! id); [done|]. by rewrite lookup_empty in Hs.
Qed.

(** Copying the copies gives the same series. *)
Lemma bars_again M m : foldM add_series ∅ (map_to_list M) = Ok m ->
  foldM add_series ∅ (map_to_list (fmap Bars m : gmap InstrumentID (list Bar))) = Ok m.
Proof.
  intros H. pose proof (bars_spec _ _ H) as Hb.
  assert (Hwf : forall id s, m !! id = Some s -> series_wf s).
  { intros id s Hs. specialize (Hb id). destruct (M !! id); [|congruence].
    destruct Hb as (s' & Hn & Hs'). apply NewBarSeries_wf in Hn. congruence. }
  destruct (add_series_total (map_to_list (fmap Bars m : gmap InstrumentID (list Bar))) ∅) as [m' Hm].
  { apply Forall_forall. intros [id values] Hin. apply elem_of_map_to_list in Hin.
    rewrite lookup_fmap in Hin. destruct (m !! id) as [s|] eqn:Es; [|done].
    injection Hin as <-. exists s. by eapply NewBarSeries_id, Hwf. }
  rewrite Hm. f_equal. apply map_eq. intros id.
  pose proof (bars_spec _ _ Hm id) as Hs. rewrite lookup_fmap in Hs.
  destruct (m !! id) as [s|] eqn:Es; cbn in Hs; [|done].
  destruct Hs as (s' & Hn & ->). rewrite (NewBarSeries_id s) in Hn by (by eapply Hwf). congruence.
Qed.

(** The accessors of a context as an input: what [TrendMomentumStrategy] and the
    adapters pass on when they derive one context from another. *)
Definition as_input (c : DecisionContext) : DecisionContextInput :=
  mkContextInput (marketObservedAt c) (signalAt c) (decisionAt c)
    (fmap Bars (dc_bars c)) (quotes c) (Universe c) (Portfolio c) (settings c) (versions c).

(** What the constructor establishes. *)
Record context_wf (c : DecisionContext) : Prop := {
  cw_order : marketObservedAt c <= signalAt c <= decisionAt c;
  cw_signal : IsZero (signalAt c) = false;
  cw_universe : universe_wf (universe c);
  cw_portfolio : portfolio_wf (portfolio c) }.
Lemma NewDecisionContext_wf input c : NewDecisionContext input = Ok c -> context_wf c.
Proof.
  unfold NewDecisionContext. intros H. res_inv.
  match goal with H : rebuildUniverse _ = Ok _ |- _ => apply NewUniverseSnapshot_wf in H end.
  match goal with H : rebuildPortfolio _ = Ok _ |- _ => apply NewPortfolioSnapshot_wf in H end.
  unfold Before in *. bool_prop. split; cbn; (done || lia).
Qed.
Lemma context_Universe c : context_wf c -> Universe c = universe c.
Proof. intros [_ _ Hu _]. unfold Universe. by rewrite rebuildUniverse_id. Qed.
Lemma context_Portfolio c : context_wf c -> Portfolio c = portfolio c.
Proof. intros [_ _ _ Hp]. unfold Portfolio. by rewrite rebuildPortfolio_id. Qed.

(** C12. A decision context is a stable value: its timestamps are ordered, the
    copies its accessors hand out are the snapshots it holds, and building a
    context again from them returns the same context. *)
Theorem NewDecisionContext_stable (input : DecisionContextInput) (c : DecisionContext) :
  NewDecisionContext input = Ok c ->
  marketObservedAt c <= signalAt c <= decisionAt c /\
  Universe c = universe c /\ Portfolio c = portfolio c /\
  universe_wf (universe c) /\ portfolio_wf (portfolio c) /\
  NewDecisionContext (as_input c) = Ok c.
Proof.
  intros H. pose proof (NewDecisionContext_wf _ _ H) as Hw. pose proof (context_Universe _ Hw) as HU.
  pose proof (context_Portfolio _ Hw) as HP. pose proof Hw as [Ho _ Hu Hp]. split_and!; try done; [lia..|].
  unfold NewDecisionContext in *. res_inv.
  unfold as_input. rewrite HU, HP.
  cbn [MarketObservedAt SignalAt DecisionAt In_Bars In_Quotes In_Universe In_Portfolio In_Settings
       In_Versions marketObservedAt signalAt decisionAt dc_bars quotes universe portfolio settings versions] in *.
  rewrite E, E0, (rebuildUniverse_id _ Hu), (rebuildPortfolio_id _ Hp), (bars_again _ _ E1). done.
Qed.

Definition sample_instrument : Instrument := mkInstrument "btc-usdt" "BTC" "USDT" "binance" "BTCUSDT".
Definition sample_context : DecisionContextInput :=
  mkContextInput 10 20 30
    {["btc-usdt" := [mkBar sample_instrument 5 7 12 (mkPrice (decimal 3 0)) (mkPrice (decimal 4 0))
                       (mkPrice (decimal 2 0)) (mkPrice (decimal 3 0)) (mkQuantity (decimal 1 0));
                     mkBar sample_instrument 5 2 7 (mkPrice (decimal 3 0)) (mkPrice (decimal 4 0))
                       (mkPrice (decimal 2 0)) (mkPrice (decimal 3 0)) (mkQuantity (decimal 1 0))]]}
    ∅
    (mkUniverse 10 "v1" "fixture" [mkCandidate sample_instrument 1 (decimal 5 1) true "" "" ""])
    (mkPortfolio 10 "account" ExecutionPaper {["USDT" := mkAmount (decimal 1000 0)]} [] [] RiskState_zero)
    ∅ (mkVersions "s" "" "" "" "" "" "" "" "").

Lemma NewDecisionContext_stable_witness :
  exists c, NewDecisionContext sample_context = Ok c /\ NewDecisionContext (as_input c) = Ok c.
Proof.
  destruct (NewDecisionContext sample_context) as [c|e|w] eqn:E; [|vm_compute in E; discriminate E..].
  exists c. split; [reflexivity|]. apply (NewDecisionContext_stable _ _ E).
Defined.
