(* ===== verification/GoTime.v ===== *)
(** * GoTime: durations, clock fields of a time, [time.ParseDuration] and
    [sort.Search]

    A time is its nanoseconds since the zero time, in UTC (Snapshots.v). *)
From Stdlib Require Import Ascii SpecFloat.
From stdpp Require Import base numbers strings list.
From S2P Require Import Prelude GoStrings GoFloat Snapshots.
Local Open Scope Z_scope.

(** ** Clock fields *)
Definition SecondNs : Duration := 1000000000.
Definition MinuteNs : Duration := 60 * SecondNs.
Definition HourNs : Duration := 60 * MinuteNs.
Definition Minute (t : Time) : Z := (t / MinuteNs) mod 60.
Definition Second (t : Time) : Z := (t / SecondNs) mod 60.
Definition Nanosecond (t : Time) : Z := t mod SecondNs.
(** [t.Truncate(d)], for a positive [d]. *)
Definition Truncate (t : Time) (d : Duration) : Time := t - t mod d.
(** [time.UnixMicro(t.UnixMicro())]: whole microseconds since 1970. *)
Definition truncate_micro (t : Time) : Time := t - t mod 1000.

Lemma minute_aligned t : Second t = 0 -> Nanosecond t = 0 -> t mod MinuteNs = 0.
Proof.
  unfold Second, Nanosecond, MinuteNs, SecondNs. intros H1 H2.
  rewrite (Z.div_mod t 1000000000) at 1 by lia. rewrite H2, Z.add_0_r.
  rewrite Z.mul_comm, (Z.mul_mod_distr_r _ 60 1000000000) by lia. rewrite H1. done.
Qed.
Lemma Truncate_mod t d : 0 < d -> Truncate t d mod d = 0.
Proof. intros Hd. unfold Truncate. rewrite Zminus_mod, Z.mod_mod, Z.sub_diag by lia. by apply Z.mod_0_l; lia. Qed.
Lemma Truncate_bounds t d : 0 < d -> Truncate t d <= t < Truncate t d + d.
Proof. intros Hd. unfold Truncate. pose proof (Z.mod_pos_bound t d Hd). lia. Qed.

(** ** [time.ParseDuration] *)

(** [float64(f)] truncated to an integer, for a finite non-negative [f]. *)
Definition f_trunc (f : float64) : Z :=
  match f with
  | S754_finite s m e => let z := if 0 <=? e then Z.pos m * 2 ^ e else Z.pos m / 2 ^ (- e) in if s then - z else z
  | _ => 0
  end.

(** [leadingInt]: [None] when the value overflows. *)
Fixpoint leadingInt (x : Z) (s : string) : option (Z * string) :=
  match s with
  | String c s' =>
      if is_digit c then
        if 2 ^ 63 / 10 <? x then None else
        let x := x * 10 + digit_val c in
        if 2 ^ 63 <? x then None else leadingInt x s'
      else Some (x, s)
  | EmptyString => Some (x, s)
  end.
(** [leadingFraction]: the digits that fit and the scale. *)
Fixpoint leadingFraction (x : Z) (scale : float64) (overflow : bool) (s : string) : Z * float64 * string :=
  match s with
  | String c s' =>
      if is_digit c then
        if overflow then leadingFraction x scale true s' else
        if (2 ^ 63 - 1) / 10 <? x then leadingFraction x scale true s' else
        let y := x * 10 + digit_val c in
        if 2 ^ 63 <? y then leadingFraction x scale true s' else
        leadingFraction y (fmul scale (f_of_Z 10)) false s'
      else (x, scale, s)
  | EmptyString => (x, scale, s)
  end.
Definition unit_of (u : string) : option Z :=
  if u =s "ns" then Some 1
  else if (u =s "us") || (u =s String (chr 194) (String (chr 181) "s")) || (u =s String (chr 206) (String (chr 188) "s"))
  then Some 1000
  else if u =s "ms" then Some 1000000
  else if u =s "s" then Some SecondNs else if u =s "m" then Some MinuteNs else if u =s "h" then Some HourNs else None.
(** The unit: up to a point or a digit. *)
Fixpoint span_unit (s : string) : string * string :=
  match s with
  | String c s' => if is_char "." c || is_digit c then (EmptyString, s)
                   else let '(u, rest) := span_unit s' in (String c u, rest)
  | EmptyString => (EmptyString, s)
  end.
(** One number with its unit and what is left. *)
Definition duration_item (s : string) : option (Z * string) :=
  match s with
  | EmptyString => None
  | String c _ =>
      if negb (is_char "." c || is_digit c) then None else
      match leadingInt 0 s with
      | None => None
      | Some (v, s1) =>
          let pre := negb (slen s1 =? slen s) in
          let '(f, scale, s2, post) :=
            match s1 with
            | String p s1' => if is_char "." p
                then let '(f, scale, rest) := leadingFraction 0 (f_of_Z 1) false s1' in
                     (f, scale, rest, negb (slen rest =? slen s1'))
                else (0, f_of_Z 1, s1, false)
            | EmptyString => (0, f_of_Z 1, s1, false)
            end in
          if negb pre && negb post then None else
          let '(u, rest) := span_unit s2 in
          if u =s "" then None else
          match unit_of u with
          | None => None
          | Some unit =>
              if 2 ^ 63 / unit <? v then None else
              let v := v * unit in
              let v := if 0 <? f then v + f_trunc (fmul (f_of_Z f) (fdiv (f_of_Z unit) scale)) else v in
              if (0 <? f) && (2 ^ 63 <? v) then None else Some (v, rest)
          end
      end
  end.
(** Every item consumes a character, so the length is fuel enough. *)
Fixpoint duration_items (fuel : nat) (d : Z) (s : string) : option Z :=
  if s =s "" then Some d else
  match fuel with
  | O => None
  | S fuel =>
      match duration_item s with
      | None => None
      | Some (v, rest) => let d := d + v in if 2 ^ 63 <? d then None else duration_items fuel d rest
      end
  end.
Definition ParseDuration (s : string) : option Duration :=
  let negative := HasPrefix s "-" in
  let body := if negative || HasPrefix s "+" then tail1 s else s in
  if body =s "0" then Some 0 else
  if body =s "" then None else
  match duration_items (String.length body) 0 body with
  | None => None
  | Some d => if negative then Some (- d) else if 2 ^ 63 - 1 <? d then None else Some d
  end.

Example parse_day : ParseDuration "24h" = Some (24 * HourNs). Proof. vm_compute. reflexivity. Qed.
Example parse_mixed : ParseDuration "-1h2.5s3ms" = Some (- (HourNs + 2500000000 + 3000000)). Proof. vm_compute. reflexivity. Qed.
Example parse_bad : ParseDuration "3" = None /\ ParseDuration "" = None /\ ParseDuration ".s" = None /\
  ParseDuration "9223372036854775808ns" = None /\ ParseDuration "+0" = Some 0.
Proof. vm_compute. done. Qed.

(** ** [sort.Search] *)

(** The binary search between [i] and [j]. *)
Fixpoint search_between (fuel : nat) (f : nat -> bool) (i j : nat) : nat :=
  match fuel with
  | O => i
  | S fuel =>
      if (i <? j)%nat then
        let h := Nat.div2 (i + j) in
        if f h then search_between fuel f i h else search_between fuel f (S h) j
      else i
  end.
(** The interval shrinks at every step, so its length is fuel enough. *)
Definition Search (n : nat) (f : nat -> bool) : nat := search_between n f 0 n.

Section Search.
Context (f : nat -> bool) (n : nat).
Hypothesis Hmono : forall i j, (i <= j < n)%nat -> f i = true -> f j = true.
Lemma search_between_spec fuel i j : (j - i <= fuel)%nat -> (i <= j <= n)%nat ->
  (forall k, (k < i)%nat -> f k = false) -> (forall k, (j <= k < n)%nat -> f k = true) ->
  let r := search_between fuel f i j in
  (i <= r <= j)%nat /\ (forall k, (k < r)%nat -> f k = false) /\ (forall k, (r <= k < n)%nat -> f k = true).
Proof using Hmono.
  revert i j. induction fuel as [|fuel IH]; intros i j Hf Hij Hlo Hhi; cbn [search_between].
  - split_and!; [lia | lia | done | intros; apply Hhi; lia].
  - destruct (Nat.ltb_spec i j).
    + pose proof (Nat.div2_odd (i + j)) as Hd. pose proof (Nat.div2_decr (i + j) (i + j)).
      set (h := Nat.div2 (i + j)) in *. assert (i <= h < j)%nat by (destruct (Nat.odd (i + j)); cbn in Hd; lia).
      destruct (f h) eqn:E.
      * destruct (IH i h) as (G1 & G2 & G3); [lia | lia | done | |split_and!; try done; lia].
        intros k Hk. apply (Hmono h k); [lia | done].
      * destruct (IH (S h) j) as (G1 & G2 & G3); [lia | lia | | done | split_and!; try done; lia].
        intros k Hk. destruct (f k) eqn:Ek; [|done]. rewrite (Hmono k h) in E; [done | lia | done].
    + split_and!; [lia | lia | done | intros; apply Hhi; lia].
Qed.
Lemma Search_spec : (Search n f <= n)%nat /\ (forall k, (k < Search n f)%nat -> f k = false) /\
  (forall k, (Search n f <= k < n)%nat -> f k = true).
Proof using Hmono.
  destruct (search_between_spec n 0 n) as (H1 & H2 & H3); [lia | lia | intros k Hk; lia | intros k Hk; exfalso; lia |].
  split_and!; [apply H1 | exact H2 | exact H3].
Qed.
End Search.
