(* ===== verification/Contracts.v ===== *)
(** * Contracts: [internal/tradingcore/contracts.go]

    The messages the parts of the engine exchange (intents and their batches,
    risk decisions, fills, broker outcomes, ledger events and batches) and the
    constructors that check and order them. The interfaces of the file are the
    type classes and parameters of the files that use them. *)
From stdpp Require Import base numbers strings gmap list.
From S2P Require Import Prelude GoStrings Values Snapshots.
Local Open Scope Z_scope.

(** ** Optional values: [{set bool; value T}] *)
Abbreviation OptionalPrice := (option Price) (only parsing).
Abbreviation OptionalQuantity := (option Quantity) (only parsing).
Definition SomePrice (value : Price) : OptionalPrice := Some value.
Definition SomeQuantity (value : Quantity) : OptionalQuantity := Some value.

(** ** Order intents *)
Abbreviation QuantitySemantics := string (only parsing).
Definition QuantityExact : QuantitySemantics := "exact_quantity".
Definition QuantityCashCapped : QuantitySemantics := "cash_capped".
Definition QuantityExitAll : QuantitySemantics := "exit_all".

Record OrderIntent : Type := mkIntent {
  OI_ID : OrderID; OI_IdempotencyKey : IdempotencyKey; OI_AccountID : AccountID;
  OI_Instrument : Instrument; OI_Side : OrderSide; OI_Type : OrderType; OI_Quantity : Quantity;
  OI_LimitPrice : OptionalPrice; OI_ReferencePrice : OptionalPrice;
  OI_SignalAt : Time; OI_DecisionAt : Time; OI_CreatedAt : Time;
  OI_ExecutionMode : ExecutionMode; OI_QuantitySemantics : QuantitySemantics; OI_Priority : Z;
  OI_Reason : string; OI_Horizon : string; OI_Versions : VersionContext;
  OI_Provenance : Provenance; OI_metadata : option (gmap string string) }.
#[export] Instance OrderIntent_eq_dec : EqDecision OrderIntent. Proof. solve_decision. Defined.

(** Assignments to fields of a copied intent. *)
Definition set_OI_metadata (m : option (gmap string string)) (i : OrderIntent) : OrderIntent :=
  mkIntent (OI_ID i) (OI_IdempotencyKey i) (OI_AccountID i) (OI_Instrument i) (OI_Side i) (OI_Type i)
    (OI_Quantity i) (OI_LimitPrice i) (OI_ReferencePrice i) (OI_SignalAt i) (OI_DecisionAt i)
    (OI_CreatedAt i) (OI_ExecutionMode i) (OI_QuantitySemantics i) (OI_Priority i) (OI_Reason i)
    (OI_Horizon i) (OI_Versions i) (OI_Provenance i) m.
Definition set_OI_QuantitySemantics (s : QuantitySemantics) (i : OrderIntent) : OrderIntent :=
  mkIntent (OI_ID i) (OI_IdempotencyKey i) (OI_AccountID i) (OI_Instrument i) (OI_Side i) (OI_Type i)
    (OI_Quantity i) (OI_LimitPrice i) (OI_ReferencePrice i) (OI_SignalAt i) (OI_DecisionAt i)
    (OI_CreatedAt i) (OI_ExecutionMode i) s (OI_Priority i) (OI_Reason i)
    (OI_Horizon i) (OI_Versions i) (OI_Provenance i) (OI_metadata i).
Definition set_OI_Quantity (q : Quantity) (i : OrderIntent) : OrderIntent :=
  mkIntent (OI_ID i) (OI_IdempotencyKey i) (OI_AccountID i) (OI_Instrument i) (OI_Side i) (OI_Type i)
    q (OI_LimitPrice i) (OI_ReferencePrice i) (OI_SignalAt i) (OI_DecisionAt i)
    (OI_CreatedAt i) (OI_ExecutionMode i) (OI_QuantitySemantics i) (OI_Priority i) (OI_Reason i)
    (OI_Horizon i) (OI_Versions i) (OI_Provenance i) (OI_metadata i).
Definition set_OI_Policy (policy : string) (i : OrderIntent) : OrderIntent :=
  let v := OI_Versions i in
  mkIntent (OI_ID i) (OI_IdempotencyKey i) (OI_AccountID i) (OI_Instrument i) (OI_Side i) (OI_Type i)
    (OI_Quantity i) (OI_LimitPrice i) (OI_ReferencePrice i) (OI_SignalAt i) (OI_DecisionAt i)
    (OI_CreatedAt i) (OI_ExecutionMode i) (OI_QuantitySemantics i) (OI_Priority i) (OI_Reason i)
    (OI_Horizon i)
    (mkVersions (V_Strategy v) (V_Settings v) policy (V_Model v) (V_FeatureSpec v) (V_Dataset v)
       (V_Engine v) (V_Universe v) (V_FlagSchema v))
    (OI_Provenance i) (OI_metadata i).

Definition OrderIntent_Validate (intent : OrderIntent) : res unit :=
  if (OI_ID intent =s "") || (OI_IdempotencyKey intent =s "") || (OI_AccountID intent =s "") ||
     (I_ID (OI_Instrument intent) =s "")
  then Err (Errorf "order identity fields are required" []) else
  if (OI_Side intent <>s Buy) && (OI_Side intent <>s Sell)
  then Err (Errorf "unsupported order side %q" [OI_Side intent]) else
  if (OI_Type intent <>s MarketOrder) && (OI_Type intent <>s LimitOrder)
  then Err (Errorf "unsupported order type %q" [OI_Type intent]) else
  if negb (Quantity_Valid (OI_Quantity intent))
  then Err (Errorf "positive quantity is required" []) else
  if OI_Priority intent <? 0 then Err (Errorf "order priority cannot be negative" []) else
  if negb ((OI_QuantitySemantics intent =s "") || (OI_QuantitySemantics intent =s QuantityExact) ||
           (OI_QuantitySemantics intent =s QuantityCashCapped) ||
           (OI_QuantitySemantics intent =s QuantityExitAll))
  then Err (Errorf "unsupported quantity semantics %q" [OI_QuantitySemantics intent]) else
  if negb (supported_mode (OI_ExecutionMode intent))
  then Err (Errorf "unsupported execution mode %q" [OI_ExecutionMode intent]) else
  if IsZero (OI_SignalAt intent) || Before (OI_DecisionAt intent) (OI_SignalAt intent) ||
     Before (OI_CreatedAt intent) (OI_DecisionAt intent)
  then Err (Errorf "order timestamps must be ordered signal <= decision <= created" []) else
  if OI_Type intent =s LimitOrder then
    match OI_LimitPrice intent with
    | Some price => if negb (Price_Valid price)
                    then Err (Errorf "limit order requires a positive limit price" []) else Ok tt
    | None => Err (Errorf "limit order requires a positive limit price" [])
    end
  else Ok tt.

Definition NewOrderIntent (intent : OrderIntent) (metadata : option (gmap string string)) :
    res OrderIntent :=
  let intent := set_OI_metadata metadata intent in
  let intent := if OI_QuantitySemantics intent =s "" then set_OI_QuantitySemantics QuantityExact intent
                else intent in
  let* _ := OrderIntent_Validate intent in
  Ok intent.

(** ** Decision batches *)
Record DecisionBatch : Type := mkBatch { intents : list OrderIntent }.
#[export] Instance DecisionBatch_eq_dec : EqDecision DecisionBatch. Proof. solve_decision. Defined.

Definition intent_less : OrderIntent -> OrderIntent -> bool :=
  lex Z.eqb Z.ltb OI_Priority
    (lex String.eqb String.ltb (fun i => I_ID (OI_Instrument i))
       (lex String.eqb String.ltb OI_Side
          (fun x y => String.ltb (OI_ID x) (OI_ID y)))).

Definition NewDecisionBatch (values : list OrderIntent) : res DecisionBatch :=
  let* _ := forM_ OrderIntent_Validate values in
  Ok (mkBatch (SliceStable intent_less values)).
Definition Intents (batch : DecisionBatch) : list OrderIntent := intents batch.
(** [batch, _ := NewDecisionBatch(...)]. *)
Definition rebuildBatch (batch : DecisionBatch) : DecisionBatch :=
  match NewDecisionBatch (Intents batch) with Ok b => b | _ => mkBatch [] end.

Record NoAction : Type := mkNoAction {
  NA_Instrument : Instrument; NA_Code : string; NA_Reason : string; NA_ObservedScore : Decimal }.
Record StrategyResult : Type := mkStrategyResult {
  sr_intents : DecisionBatch; sr_noActions : list NoAction }.
Definition noaction_less (x y : NoAction) : bool :=
  String.ltb (I_ID (NA_Instrument x)) (I_ID (NA_Instrument y)).
Definition NewStrategyResult (intents : DecisionBatch) (noActions : list NoAction) : StrategyResult :=
  mkStrategyResult intents (SliceStable noaction_less noActions).
Definition StrategyResult_Intents (result : StrategyResult) : DecisionBatch :=
  rebuildBatch (sr_intents result).
Definition NoActions (result : StrategyResult) : list NoAction := sr_noActions result.

(** ** Risk policies and decisions *)
Record ExecutionCostPolicy : Type := mkCosts {
  C_Version : string; C_FeeBPS : Z; C_AdverseSlippageBPS : Z }.
Record RiskPolicy : Type := mkPolicy {
  RP_Version : string; RP_MaxPositions : Z; RP_MaxGrossExposure : SignedAmount;
  RP_MaxPositionValue : SignedAmount; RP_MaxTurnover : SignedAmount; RP_CashReserve : SignedAmount;
  RP_MaxConcurrentOrders : Z; RP_PyramidingEnabled : bool; RP_MaxPyramidLayers : Z;
  RP_LotSize : Quantity; RP_ExecutionCosts : ExecutionCostPolicy }.

(** The basis points are [int64]s: their sum may wrap. *)
Definition ExecutionCostPolicy_Validate (policy : ExecutionCostPolicy) : res unit :=
  if C_Version policy =s "" then Err (Errorf "execution cost policy version is required" []) else
  if (C_FeeBPS policy <? 0) || (C_AdverseSlippageBPS policy <? 0) ||
     (10000 <=? int64 (C_FeeBPS policy + C_AdverseSlippageBPS policy))
  then Err (Errorf "invalid execution cost basis points" []) else Ok tt.

Definition Amount_Sign (a : SignedAmount) : Z := Decimal_Sign (Amount_Decimal a).

Definition RiskPolicy_Validate (policy : RiskPolicy) : res unit :=
  if (RP_Version policy =s "") || (RP_MaxPositions policy <? 0)
  then Err (Errorf "risk policy version is required and max positions cannot be negative" []) else
  if negb (Amount_Valid (RP_MaxGrossExposure policy)) || negb (Amount_Valid (RP_MaxPositionValue policy)) ||
     (Amount_Sign (RP_MaxGrossExposure policy) <? 0) || (Amount_Sign (RP_MaxPositionValue policy) <? 0)
  then Err (Errorf "risk limits must be valid non-negative exact amounts" []) else
  if (Amount_Valid (RP_MaxTurnover policy) && (Amount_Sign (RP_MaxTurnover policy) <? 0)) ||
     (Amount_Valid (RP_CashReserve policy) && (Amount_Sign (RP_CashReserve policy) <? 0))
  then Err (Errorf "turnover and cash reserve must be non-negative" []) else
  if (RP_MaxConcurrentOrders policy <? 0) || (RP_MaxPyramidLayers policy <? 0)
  then Err (Errorf "concurrency and pyramid limits cannot be negative" []) else
  ExecutionCostPolicy_Validate (RP_ExecutionCosts policy).

Abbreviation RejectionCode := string (only parsing).
Record OrderRejection : Type := mkRejection {
  OR_OrderID : OrderID; OR_Code : RejectionCode; OR_Message : string; OR_EvaluatedAt : Time;
  OR_PolicyVersion : string }.
#[export] Instance OrderRejection_eq_dec : EqDecision OrderRejection. Proof. solve_decision. Defined.

Record RiskTrace : Type := mkTrace {
  T_OrderID : string; T_PolicyVersion : string; T_Checks : list string;
  T_RequestedQuantity : string; T_ApprovedQuantity : string; T_RequestedNotional : string;
  T_ApprovedNotional : string; T_Priority : Z; T_CostPolicyVersion : string;
  T_ReservedFee : string; T_ReservedSlippage : string; T_PreCash : string; T_PostCash : string;
  T_PreGrossExposure : string; T_PostGrossExposure : string; T_PreTurnover : string;
  T_PostTurnover : string }.
Record RiskDecision : Type := mkRiskDecision {
  rd_approved : DecisionBatch; rd_rejected : list OrderRejection; rd_trace : list RiskTrace }.
Definition rejection_less (x y : OrderRejection) : bool := String.ltb (OR_OrderID x) (OR_OrderID y).
Definition NewRiskDecision (approved : DecisionBatch) (rejected : list OrderRejection) : RiskDecision :=
  mkRiskDecision approved (SliceStable rejection_less rejected) [].
Definition NewRiskDecisionWithTrace (approved : DecisionBatch) (rejected : list OrderRejection)
    (trace : list RiskTrace) : RiskDecision :=
  let result := NewRiskDecision approved rejected in
  mkRiskDecision (rd_approved result) (rd_rejected result) trace.
Definition Approved (decision : RiskDecision) : DecisionBatch := rebuildBatch (rd_approved decision).
Definition Rejected (decision : RiskDecision) : list OrderRejection := rd_rejected decision.
Definition Trace (decision : RiskDecision) : list RiskTrace := rd_trace decision.

(** ** Fills and broker outcomes *)
Record Fill : Type := mkFill {
  F_ID : FillID; F_OrderID : OrderID; F_ProviderFillID : string; F_Instrument : Instrument;
  F_Side : OrderSide; F_Quantity : Quantity; F_Price : Price; F_Fee : SignedAmount;
  F_FeeAsset : AssetID; F_OrderedAt : Time; F_SubmittedAt : Time; F_AcceptedAt : Time;
  F_FilledAt : Time; F_Versions : VersionContext; F_Provenance : Provenance;
  F_CostModelVersion : string }.
#[export] Instance Fill_eq_dec : EqDecision Fill. Proof. solve_decision. Defined.

Definition Fill_Validate (fill : Fill) : res unit :=
  if (F_ID fill =s "") || (F_OrderID fill =s "") || (F_ProviderFillID fill =s "") ||
     negb (is_ok (Instrument_Validate (F_Instrument fill)))
  then Err (Errorf "fill identity fields are required" []) else
  if (F_Side fill <>s Buy) && (F_Side fill <>s Sell)
  then Err (Errorf "unsupported fill side %q" [F_Side fill]) else
  if negb (Quantity_Valid (F_Quantity fill)) || negb (Price_Valid (F_Price fill)) ||
     negb (Amount_Valid (F_Fee fill)) || (F_FeeAsset fill =s "")
  then Err (Errorf "fill quantity, price, and fee must be exact valid values" []) else
  if F_CostModelVersion fill =s "" then Err (Errorf "fill cost model version is required" []) else
  if IsZero (F_OrderedAt fill) || Before (F_SubmittedAt fill) (F_OrderedAt fill) ||
     Before (F_AcceptedAt fill) (F_SubmittedAt fill) || Before (F_FilledAt fill) (F_AcceptedAt fill)
  then Err (Errorf "fill timestamps must be ordered order <= submit <= accept <= fill" []) else Ok tt.

Abbreviation BrokerOrderStatus := string (only parsing).
Definition BrokerAccepted : BrokerOrderStatus := "accepted".
Definition BrokerPartiallyFilled : BrokerOrderStatus := "partially_filled".
Definition BrokerFilled : BrokerOrderStatus := "filled".

Record AcceptedOrder : Type := mkAccepted {
  AO_OrderID : OrderID; AO_ProviderOrderID : string; AO_Status : BrokerOrderStatus;
  AO_AcceptedAt : Time; AO_Remaining : OptionalQuantity; AO_fills : list Fill }.
#[export] Instance AcceptedOrder_eq_dec : EqDecision AcceptedOrder. Proof. solve_decision. Defined.

Definition AcceptedOrder_Validate (order : AcceptedOrder) : res unit :=
  if (AO_OrderID order =s "") || (AO_ProviderOrderID order =s "") || IsZero (AO_AcceptedAt order)
  then Err (Errorf "accepted order identity and timestamp are required" []) else
  if AO_Status order =s BrokerAccepted then Ok tt else
  if AO_Status order =s BrokerPartiallyFilled then
    match AO_fills order with
    | [] => Err (Errorf "partial order requires at least one fill" [])
    | _ => match AO_Remaining order with
           | Some remaining => if negb (Quantity_Valid remaining)
               then Err (Errorf "partial order requires positive remaining quantity" []) else Ok tt
           | None => Err (Errorf "partial order requires positive remaining quantity" [])
           end
    end
  else if AO_Status order =s BrokerFilled then
    match AO_fills order with
    | [] => Err (Errorf "filled order requires at least one fill" [])
    | _ => match AO_Remaining order with
           | Some _ => Err (Errorf "filled order cannot have remaining quantity" [])
           | None => Ok tt
           end
    end
  else Err (Errorf "unsupported broker order status %q" [AO_Status order]).

Definition fill_less (x y : Fill) : bool := String.ltb (F_ID x) (F_ID y).
Definition fill_of_order (orderID : OrderID) (fill : Fill) : res unit :=
  let* _ := Fill_Validate fill in
  if F_OrderID fill <>s orderID
  then Err (Errorf "fill order id does not match accepted order" []) else Ok tt.
Definition set_AO_fills (fills : list Fill) (o : AcceptedOrder) : AcceptedOrder :=
  mkAccepted (AO_OrderID o) (AO_ProviderOrderID o) (AO_Status o) (AO_AcceptedAt o) (AO_Remaining o) fills.
Definition NewAcceptedOrder (order : AcceptedOrder) (fills : list Fill) : res AcceptedOrder :=
  let* _ := forM_ (fill_of_order (AO_OrderID order)) fills in
  let order := set_AO_fills (SliceStable fill_less fills) order in
  let* _ := AcceptedOrder_Validate order in
  Ok order.
Definition Fills (order : AcceptedOrder) : list Fill := AO_fills order.

Abbreviation OutcomeCompleteness := string (only parsing).
Definition OutcomeComplete : OutcomeCompleteness := "complete".
Definition OutcomeIndeterminate : OutcomeCompleteness := "indeterminate".

Record BrokerBatchOutcome : Type := mkOutcome {
  bo_completeness : OutcomeCompleteness; bo_accepted : list AcceptedOrder;
  bo_rejected : list OrderRejection }.
Definition accepted_less (x y : AcceptedOrder) : bool := String.ltb (AO_OrderID x) (AO_OrderID y).
Definition rejection_check (rejection : OrderRejection) : res unit :=
  if (OR_OrderID rejection =s "") || (OR_Code rejection =s "") || IsZero (OR_EvaluatedAt rejection)
  then Err (Errorf "rejection requires order id, code, and evaluation time" []) else Ok tt.
Definition NewBrokerBatchOutcome (completeness : OutcomeCompleteness) (accepted : list AcceptedOrder)
    (rejected : list OrderRejection) : res BrokerBatchOutcome :=
  if (completeness <>s OutcomeComplete) && (completeness <>s OutcomeIndeterminate)
  then Err (Errorf "unsupported outcome completeness %q" [completeness]) else
  let* _ := forM_ AcceptedOrder_Validate accepted in
  let* _ := forM_ rejection_check rejected in
  Ok (mkOutcome completeness (SliceStable accepted_less accepted) (SliceStable rejection_less rejected)).

(** ** Ledger events, batches and append outcomes *)
Abbreviation LedgerEventType := string (only parsing).
Definition LedgerCashAdjusted : LedgerEventType := "cash_adjusted".
Definition LedgerTradeFilled : LedgerEventType := "trade_filled".
Definition LedgerFeeCharged : LedgerEventType := "fee_charged".
Definition LedgerCapitalDeposit : LedgerEventType := "capital_deposit".
Definition LedgerCapitalWithdrawal : LedgerEventType := "capital_withdrawal".
Definition LedgerBuyFill : LedgerEventType := "buy_fill".
Definition LedgerSellFill : LedgerEventType := "sell_fill".
Definition LedgerTradingFee : LedgerEventType := "trading_fee".
Definition LedgerExchangeFee : LedgerEventType := "exchange_fee".
Definition LedgerFundingInterest : LedgerEventType := "funding_interest".
Definition LedgerAdminCorrection : LedgerEventType := "administrative_correction".
Definition LedgerReversal : LedgerEventType := "reversal".
Definition supported_event (t : LedgerEventType) : bool :=
  existsb (String.eqb t)
    [LedgerCashAdjusted; LedgerTradeFilled; LedgerFeeCharged; LedgerCapitalDeposit;
     LedgerCapitalWithdrawal; LedgerBuyFill; LedgerSellFill; LedgerTradingFee; LedgerExchangeFee;
     LedgerFundingInterest; LedgerAdminCorrection; LedgerReversal].

Definition PostingCash : string := "cash".
Definition PostingAsset : string := "asset".
Record LedgerPosting : Type := mkPosting {
  LP_Dimension : string; LP_AssetID : AssetID; LP_InstrumentID : InstrumentID;
  LP_Amount : SignedAmount }.
#[export] Instance LedgerPosting_eq_dec : EqDecision LedgerPosting. Proof. solve_decision. Defined.

Record LedgerEvent : Type := mkEvent {
  E_ID : EventID; E_IdempotencyKey : IdempotencyKey; E_Type : LedgerEventType;
  E_AccountID : AccountID; E_OrderID : OrderID; E_FillID : FillID; E_PositionID : PositionID;
  E_VenueID : VenueID; E_OccurredAt : Time; E_RecordedAt : Time; E_Versions : VersionContext;
  E_Provenance : Provenance; E_ReversesEventID : EventID; E_postings : list LedgerPosting }.
#[export] Instance LedgerEvent_eq_dec : EqDecision LedgerEvent. Proof. solve_decision. Defined.
Definition set_E_postings (postings : list LedgerPosting) (e : LedgerEvent) : LedgerEvent :=
  mkEvent (E_ID e) (E_IdempotencyKey e) (E_Type e) (E_AccountID e) (E_OrderID e) (E_FillID e)
    (E_PositionID e) (E_VenueID e) (E_OccurredAt e) (E_RecordedAt e) (E_Versions e)
    (E_Provenance e) (E_ReversesEventID e) postings.

Definition posting_check (posting : LedgerPosting) : res unit :=
  if negb (Amount_Valid (LP_Amount posting))
  then Err (Errorf "ledger posting amount must be exact" []) else
  if LP_Dimension posting =s PostingCash then
    if LP_AssetID posting =s "" then Err (Errorf "cash posting requires asset id" []) else Ok tt
  else if LP_Dimension posting =s PostingAsset then
    if (LP_AssetID posting =s "") || (LP_InstrumentID posting =s "")
    then Err (Errorf "asset posting requires asset and instrument ids" []) else Ok tt
  else Err (Errorf "unsupported posting dimension %q" [LP_Dimension posting]).

Definition NewLedgerEvent (event : LedgerEvent) (postings : list LedgerPosting) : res LedgerEvent :=
  if (E_ID event =s "") || (E_IdempotencyKey event =s "") || (E_AccountID event =s "")
  then Err (Errorf "ledger event identity fields are required" []) else
  if IsZero (E_OccurredAt event) || Before (E_RecordedAt event) (E_OccurredAt event)
  then Err (Errorf "ledger timestamps must be ordered occurred <= recorded" []) else
  if (length postings =? 0)%nat then Err (Errorf "ledger event requires postings" []) else
  if negb (supported_event (E_Type event))
  then Err (Errorf "unsupported ledger event type %q" [E_Type event]) else
  let* _ := forM_ posting_check postings in
  Ok (set_E_postings postings event).

Record LedgerBatch : Type := mkLedgerBatch {
  lb_idempotencyKey : IdempotencyKey; lb_events : list LedgerEvent }.
#[export] Instance LedgerBatch_eq_dec : EqDecision LedgerBatch. Proof. solve_decision. Defined.
Definition event_less (x y : LedgerEvent) : bool := String.ltb (E_ID x) (E_ID y).
Definition see_event (seen : gset EventID) (event : LedgerEvent) : res (gset EventID) :=
  if (E_ID event =s "") || (length (E_postings event) =? 0)%nat
  then Err (Errorf "ledger batch contains unvalidated event" []) else
  if bool_decide (E_ID event ∈ seen)
  then Err (Errorf "ledger batch contains duplicate event id %s" [E_ID event]) else
  Ok ({[ E_ID event ]} ∪ seen).
Definition NewLedgerBatch (key : IdempotencyKey) (events : list LedgerEvent) : res LedgerBatch :=
  if key =s "" then Err (Errorf "ledger batch idempotency key is required" []) else
  if (length events =? 0)%nat then Err (Errorf "ledger batch requires events" []) else
  let* _ := foldM see_event ∅ events in
  Ok (mkLedgerBatch key (SliceStable event_less events)).

Abbreviation LedgerAppendStatus := string (only parsing).
Definition LedgerAppended : LedgerAppendStatus := "appended".
Definition LedgerAlreadyApplied : LedgerAppendStatus := "already_applied".
Definition LedgerRejected : LedgerAppendStatus := "rejected".
Definition LedgerAppendIndeterminate : LedgerAppendStatus := "indeterminate".
Record LedgerAppendOutcome : Type := mkAppendOutcome {
  la_status : LedgerAppendStatus; la_batchKey : IdempotencyKey; la_eventIDs : list EventID;
  la_rejectionCode : string; la_message : string }.
Definition event_id_check (id : EventID) : res unit :=
  if id =s "" then Err (Errorf "ledger append outcome contains invalid event id" []) else Ok tt.
Definition NewLedgerAppendOutcome (status : LedgerAppendStatus) (batchKey : IdempotencyKey)
    (eventIDs : list EventID) (rejectionCode message : string) : res LedgerAppendOutcome :=
  if batchKey =s "" then Err (Errorf "ledger append outcome requires batch key" []) else
  let* _ :=
    if (status =s LedgerAppended) || (status =s LedgerAlreadyApplied) then
      failIf (length eventIDs =? 0)%nat
        (Errorf "successful ledger append outcome requires event ids" [])
    else if status =s LedgerRejected then
      failIf (rejectionCode =s "") (Errorf "rejected ledger append outcome requires code" [])
    else if status =s LedgerAppendIndeterminate then Ok tt
    else Err (Errorf "unsupported ledger append status %q" [status]) in
  let* _ := forM_ event_id_check eventIDs in
  Ok (mkAppendOutcome status batchKey (SliceStable String.ltb eventIDs) rejectionCode message).

Record ReconciliationReport : Type := mkReport {
  rr_asOf : Time; rr_accountID : AccountID; rr_balanced : bool;
  rr_cashDifferences : gmap AssetID SignedAmount;
  rr_positionDifferences : gmap InstrumentID SignedAmount; rr_issues : list string }.
Definition NewReconciliationReport (asOf : Time) (accountID : AccountID) (balanced : bool)
    (cash : gmap AssetID SignedAmount) (positions : gmap InstrumentID SignedAmount)
    (issues : list string) : ReconciliationReport :=
  mkReport asOf accountID balanced cash positions issues.

(** ** Orders *)
#[export] Instance intent_less_weak : StrictWeak intent_less.
Proof.
  apply lex_weak; [apply _ | apply Z.eqb_eq |].
  apply lex_weak; [apply _ | apply String.eqb_eq |].
  apply lex_weak; [apply _ | apply String.eqb_eq |]. apply (key_weak OI_ID String.ltb).
Qed.
#[export] Instance noaction_less_weak : StrictWeak noaction_less.
Proof. apply (key_weak (fun x => I_ID (NA_Instrument x)) String.ltb). Qed.
#[export] Instance rejection_less_weak : StrictWeak rejection_less.
Proof. apply (key_weak OR_OrderID String.ltb). Qed.
#[export] Instance fill_less_weak : StrictWeak fill_less.
Proof. apply (key_weak F_ID String.ltb). Qed.
#[export] Instance accepted_less_weak : StrictWeak accepted_less.
Proof. apply (key_weak AO_OrderID String.ltb). Qed.
#[export] Instance event_less_weak : StrictWeak event_less.
Proof. apply (key_weak E_ID String.ltb). Qed.

Lemma intent_less_tie x y : intent_less x y = false -> intent_less y x = false -> OI_ID x = OI_ID y.
Proof.
  intros H1 H2. apply lex_tie in H1 as (_ & H1 & H2'); [|apply _ | apply Z.eqb_eq | done].
  apply lex_tie in H1 as (_ & H1 & H2''); [|apply _ | apply String.eqb_eq | done].
  apply lex_tie in H1 as (_ & H1 & H3); [|apply _ | apply String.eqb_eq | done].
  by apply str_ltb_total.
Qed.

(** ** Decision batches *)
Definition batch_wf (b : DecisionBatch) : Prop :=
  Forall (fun i => OrderIntent_Validate i = Ok tt) (intents b) /\ ordered intent_less (intents b).

Lemma NewDecisionBatch_inv l b : NewDecisionBatch l = Ok b ->
  forM_ OrderIntent_Validate l = Ok tt /\ intents b = SliceStable intent_less l /\ batch_wf b.
Proof.
  unfold NewDecisionBatch. intros H. res_inv. destruct a. split_and!; try done.
  split; [|apply sort_ordered, _]. by apply SliceStable_Forall, forM__Ok.
Qed.

Lemma NewDecisionBatch_id b : batch_wf b -> NewDecisionBatch (Intents b) = Ok b.
Proof.
  intros [Hv Ho]. apply forM__Ok in Hv. unfold NewDecisionBatch, Intents. rewrite Hv. cbn [rbind].
  rewrite (SliceStable_ordered_id _ _ Ho). by destruct b.
Qed.

Lemma rebuildBatch_id b : batch_wf b -> rebuildBatch b = b.
Proof. intros Hb. unfold rebuildBatch. by rewrite NewDecisionBatch_id. Qed.

(** A decision batch holds exactly the intents it was built from, all valid,
    in the order of priority, instrument, side and order id; the accessors that
    build it again return the same batch; and when the order ids are distinct
    the batch does not depend on the order the intents were supplied in. *)
Theorem NewDecisionBatch_deterministic (l : list OrderIntent) (b : DecisionBatch) :
  NewDecisionBatch l = Ok b ->
  intents b ≡ₚ l /\ batch_wf b /\ rebuildBatch b = b /\
  (forall l', NoDup (OI_ID <$> l) -> l' ≡ₚ l -> NewDecisionBatch l' = Ok b).
Proof.
  intros H. apply NewDecisionBatch_inv in H as (Hv & Hs & Hb).
  split_and!; [| done | by apply rebuildBatch_id |].
  - rewrite Hs. symmetry. apply SliceStable_Permutation.
  - intros l' Hd Hp. unfold NewDecisionBatch. symmetry in Hp.
    rewrite (forM__perm _ _ _ Hp Hv). cbn [rbind]. f_equal.
    rewrite <- (sort_perm_eq intent_less l l'); [by destruct b; cbn in Hs; rewrite Hs | | done].
    intros x y Hx Hy H1 H2. eapply NoDup_key; eauto. by apply intent_less_tie.
Qed.

Definition sample_intent : OrderIntent :=
  mkIntent "o1" "k1" "account" sample_instrument Buy MarketOrder (mkQuantity (decimal 2 0)) None
    (Some (mkPrice (decimal 3 0))) 10 20 30 ExecutionPaper QuantityExact 1 "r" "15m"
    (mkVersions "s" "" "" "" "" "" "" "" "") (mkProvenance "" "" "" "" "") None.
Definition sample_intent2 : OrderIntent :=
  mkIntent "o2" "k2" "account" sample_instrument Sell MarketOrder (mkQuantity (decimal 1 0)) None
    (Some (mkPrice (decimal 3 0))) 10 20 30 ExecutionPaper QuantityExact 0 "r" "15m"
    (mkVersions "s" "" "" "" "" "" "" "" "") (mkProvenance "" "" "" "" "") None.

Lemma NewDecisionBatch_deterministic_witness :
  exists b, NewDecisionBatch [sample_intent; sample_intent2] = Ok b /\
            NewDecisionBatch [sample_intent2; sample_intent] = Ok b.
Proof.
  eexists. split; [vm_compute; reflexivity|].
  eapply (NewDecisionBatch_deterministic [sample_intent; sample_intent2]).
  - vm_compute. reflexivity.
  - apply (bool_decide_unpack _). vm_compute. exact I.
  - apply perm_swap.
Defined.

(** ** Ledger batches *)
Definition event_validated (e : LedgerEvent) : Prop := E_ID e <> "" /\ E_postings e <> [].

Lemma see_event_spec seen e : see_event seen e = Ok ({[ E_ID e ]} ∪ seen) <->
  event_validated e /\ E_ID e ∉ seen.
Proof.
  unfold see_event, event_validated. destruct (E_ID e =s "") eqn:E; bool_prop.
  { cbn [orb]. split; [done|]. by intros [[]]. }
  destruct (E_postings e) as [|p ps] eqn:Ep; cbn [length Nat.eqb orb].
  { split; [done|]. by intros [[]]. }
  case_bool_decide as Hin; split; try done; by intros [_ []].
Qed.

Lemma see_event_Ok seen e s : see_event seen e = Ok s -> s = {[ E_ID e ]} ∪ seen.
Proof. unfold see_event. intros H. by res_inv. Qed.

Lemma see_events_spec events seen : is_ok (foldM see_event seen events) = true <->
  Forall event_validated events /\ NoDup (E_ID <$> events) /\
  Forall (fun e => E_ID e ∉ seen) events.
Proof.
  revert seen. induction events as [|e es IH]; intros seen; cbn [foldM].
  { split; [intros _|done]. split_and!; constructor. }
  rewrite fmap_cons, NoDup_cons, !Forall_cons. destruct (see_event seen e) as [s|x|w] eqn:E; cbn [rbind].
  - pose proof (see_event_Ok _ _ _ E) as ->. rewrite IH. apply see_event_spec in E as [Hv Hn].
    assert (Hs : Forall (fun x => E_ID x ∉ {[E_ID e]} ∪ seen) es <->
                 (E_ID e ∉ E_ID <$> es) /\ Forall (fun x => E_ID x ∉ seen) es).
    { rewrite !Forall_forall, list_elem_of_fmap. set_solver. }
    rewrite Hs. tauto.
  - split; [done|]. intros ([Hv _] & _ & [Hn _]).
    by rewrite (proj2 (see_event_spec seen e)) in E.
  - split; [done|]. intros ([Hv _] & _ & [Hn _]).
    by rewrite (proj2 (see_event_spec seen e)) in E.
Qed.

(** A ledger batch is accepted exactly when it has a key and at least one
    event, every event was validated and no event id occurs twice; it then
    holds those events in the order of their ids, whatever order they were
    supplied in. *)
Theorem NewLedgerBatch_spec (key : IdempotencyKey) (events : list LedgerEvent) :
  (is_ok (NewLedgerBatch key events) = true <->
     key <> "" /\ events <> [] /\ Forall event_validated events /\ NoDup (E_ID <$> events)) /\
  (forall b, NewLedgerBatch key events = Ok b ->
     lb_idempotencyKey b = key /\ lb_events b ≡ₚ events /\ ordered event_less (lb_events b) /\
     forall events', events' ≡ₚ events -> NewLedgerBatch key events' = Ok b).
Proof.
  assert (Hiff : forall es, is_ok (NewLedgerBatch key es) = true <->
     key <> "" /\ es <> [] /\ Forall event_validated es /\ NoDup (E_ID <$> es)).
  { intros es. pose proof (see_events_spec es ∅) as Hs. unfold NewLedgerBatch.
    assert (He : Forall (fun e => E_ID e ∉ (∅ : gset EventID)) es)
      by (apply Forall_forall; set_solver).
    destruct (key =s "") eqn:Ek; bool_prop; [naive_solver|].
    destruct es as [|e es]; [naive_solver|]. cbn [length Nat.eqb].
    destruct (foldM see_event ∅ (e :: es)); cbn [rbind is_ok] in *; naive_solver. }
  split; [apply Hiff|]. intros b H.
  pose proof (proj1 (Hiff events)) as Hw. rewrite H in Hw. destruct Hw as (Hk & Hne & Hv & Hd); [done|].
  assert (Hb : b = mkLedgerBatch key (SliceStable event_less events))
    by (unfold NewLedgerBatch in H; by res_inv).
  subst b. cbn [lb_idempotencyKey lb_events]. split_and!; [done | | apply sort_ordered, _ |].
  { symmetry. apply SliceStable_Permutation. }
  intros es Hp. assert (is_ok (NewLedgerBatch key es) = true) as Ho.
  { apply Hiff. split_and!; [done | | by rewrite Hp | by rewrite Hp].
    intros ->. by apply Permutation_nil_l in Hp. }
  destruct (NewLedgerBatch key es) as [b'| |] eqn:E; try done. f_equal.
  assert (b' = mkLedgerBatch key (SliceStable event_less es)) as ->
    by (unfold NewLedgerBatch in E; by res_inv).
  f_equal. symmetry. apply sort_perm_eq; [apply _ | | by symmetry].
  intros x y Hx Hy H1 H2. eapply NoDup_key; eauto. by apply str_ltb_total.
Qed.
