(* ===== verification/Risk.v ===== *)
(** * Risk: [internal/tradingcore/risk.go]

    The portfolio risk engine: each intent of a batch is checked against the
    portfolio and the limits left by the intents approved before it, its
    quantity is cut to those limits and to the lot, and what it uses is
    reserved. Exact rational arithmetic throughout. *)
From Stdlib Require Import QArith Qabs Lqa.
From stdpp Require Import base numbers strings gmap list.
From S2P Require Import Prelude GoStrings Values Exact Snapshots Contracts.
Local Open Scope Z_scope.

Definition RiskExecutionNotAuthorized : RejectionCode := "execution_not_authorized".
Definition RiskMissingPrice : RejectionCode := "valuation_price_required".
Definition RiskPendingConflict : RejectionCode := "pending_order_conflict".
Definition RiskPositionExists : RejectionCode := "position_exists".
Definition RiskPyramidLayers : RejectionCode := "max_pyramid_layers_reached".
Definition RiskMaxPositions : RejectionCode := "max_positions_reached".
Definition RiskMaxConcurrency : RejectionCode := "max_concurrent_orders_reached".
Definition RiskPositionExposure : RejectionCode := "per_position_exposure_exceeded".
Definition RiskTotalExposure : RejectionCode := "total_exposure_exceeded".
Definition RiskTurnover : RejectionCode := "turnover_exceeded".
Definition RiskInsufficientCash : RejectionCode := "insufficient_cash".
Definition RiskQuantityBelowLot : RejectionCode := "quantity_below_lot_size".
Definition RiskInsufficientAsset : RejectionCode := "insufficient_asset".

(** ** Measures of the portfolio *)
Definition same_instrument (x y : Instrument) : bool := I_ID x =s I_ID y.

Definition portfolioGross (values : list Position) : Rat :=
  foldl (fun total v => total + notional (Pos_Quantity v) (Pos_MarkPrice v))%Q 0%Q values.
Definition instrumentExposure (values : list Position) (instrument : Instrument) : Rat :=
  foldl (fun total v => if same_instrument (Pos_Instrument v) instrument
                        then total + notional (Pos_Quantity v) (Pos_MarkPrice v) else total)%Q 0%Q values.
Definition positionQuantity (values : list Position) (instrument : Instrument) : Rat :=
  foldl (fun total v => if same_instrument (Pos_Instrument v) instrument
                        then total + decimalRat (Quantity_Decimal (Pos_Quantity v)) else total)%Q 0%Q values.
Definition existingCount (values : list Position) (instrument : Instrument) : Z :=
  foldl (fun count v => if same_instrument (Pos_Instrument v) instrument then count + 1 else count) 0 values.
Definition pyramidLayers (values : list Position) (instrument : Instrument) : Z :=
  foldl (fun total v => if same_instrument (Pos_Instrument v) instrument
                        then total + (if Pos_PyramidLayers v =? 0 then 1 else Pos_PyramidLayers v)
                        else total) 0 values.
Definition countNewBuys (intents : list OrderIntent) (positions : list Position) : Z :=
  foldl (fun count i => if (OI_Side i =s Buy) && (existingCount positions (OI_Instrument i) =? 0)
                        then count + 1 else count) 0 intents.
Definition pendingConflict (values : list PendingOrder) (intent : OrderIntent) : bool :=
  existsb (fun v => same_instrument (PO_Instrument v) (OI_Instrument intent)) values.
Definition intentPrice (intent : OrderIntent) (positions : list Position) : option Price :=
  match OI_ReferencePrice intent with
  | Some p => Some p
  | None => match OI_LimitPrice intent with
            | Some p => Some p
            | None =>
                match List.find (fun p => same_instrument (Pos_Instrument p) (OI_Instrument intent))
                        positions with
                | Some position => Some (Pos_MarkPrice position)
                | None => None
                end
            end
  end.
Definition ratString (value : Rat) : string :=
  match ratDecimal value with Ok d => Decimal_String d | _ => Decimal_String Decimal_zero end.
Definition valueOrZero (value : option Rat) (fallback : Rat) : Rat :=
  match value with Some v => v | None => fallback end.

(** ** Capping an intent *)

(** [int64(10000 + bps)] for a buy, [10000 - bps] for a sell. *)
Definition adverseBPS (side : OrderSide) (bps : Z) : Z :=
  if side =s Sell then int64 (10000 - bps) else int64 (10000 + bps).
Definition feeFactor (costs : ExecutionCostPolicy) : Rat := NewRat (int64 (10000 + C_FeeBPS costs)) 10000.
Definition adversePrice (price : Price) (side : OrderSide) (costs : ExecutionCostPolicy) : Rat :=
  (decimalRat (Price_Decimal price) * NewRat (adverseBPS side (C_AdverseSlippageBPS costs)) 10000)%Q.
Definition cashUnit (price : Price) (side : OrderSide) (costs : ExecutionCostPolicy) : Rat :=
  (adversePrice price side costs * feeFactor costs)%Q.

Definition Qcap (result candidate : Rat) : Rat :=
  if 0 <? Rat_Cmp result candidate then candidate else result.

(** The closure [capBy]: the new result, or the code the limit rejects with. *)
Definition capBy (result : Rat) (limit : SignedAmount) (used unit : Rat) (code : RejectionCode) :
    res (Rat * RejectionCode) :=
  if negb (Amount_Valid limit) || (Amount_Sign limit =? 0) then Ok (result, "") else
  let remaining := (decimalRat (Amount_Decimal limit) - used)%Q in
  if Rat_Sign remaining <=? 0 then Ok (result, code) else
  let* candidate := Quo remaining unit in
  Ok (Qcap result candidate, "").

Definition capIntent (quantity : Rat) (intent : OrderIntent) (price : Price)
    (positions : list Position) (gross turnover : Rat) (cash : option Rat) (policy : RiskPolicy) :
    res (Rat * RejectionCode) :=
  let costs := RP_ExecutionCosts policy in
  let referencePrice := decimalRat (Price_Decimal price) in
  let buy := OI_Side intent =s Buy in
  let* (result, code) :=
    if buy then capBy quantity (RP_MaxPositionValue policy)
                  (instrumentExposure positions (OI_Instrument intent)) referencePrice RiskPositionExposure
    else Ok (quantity, "") in
  if code <>s "" then Ok (result, code) else
  let* (result, code) :=
    if buy then capBy result (RP_MaxGrossExposure policy) gross referencePrice RiskTotalExposure
    else Ok (result, "") in
  if code <>s "" then Ok (result, code) else
  let* (result, code) := capBy result (RP_MaxTurnover policy) turnover
                           (adversePrice price (OI_Side intent) costs) RiskTurnover in
  if code <>s "" then Ok (result, code) else
  if buy then
    match cash with
    | None => Ok (result, RiskInsufficientCash)
    | Some cash =>
        if Rat_Sign cash <=? 0 then Ok (result, RiskInsufficientCash) else
        let* candidate := Quo cash (cashUnit price (OI_Side intent) costs) in
        let result := Qcap result candidate in
        if Rat_Sign result <=? 0 then Ok (result, RiskInsufficientCash) else Ok (result, "")
    end
  else
    let result := Qcap result (positionQuantity positions (OI_Instrument intent)) in
    if Rat_Sign result <=? 0 then Ok (result, RiskInsufficientAsset) else Ok (result, "").

Definition costReservation (quantity : Rat) (price : Price) (side : OrderSide)
    (costs : ExecutionCostPolicy) : Rat * Rat * Rat :=
  let reference := (quantity * decimalRat (Price_Decimal price))%Q in
  let gross := (reference * NewRat (adverseBPS side (C_AdverseSlippageBPS costs)) 10000)%Q in
  let slippage := (gross - reference)%Q in
  let slippage := if Rat_Sign slippage <? 0 then (- slippage)%Q else slippage in
  let fee := (gross * NewRat (C_FeeBPS costs) 10000)%Q in
  (gross, slippage, fee).

(** ** The evaluation loop *)
Record RiskLoop : Type := mkLoop {
  rl_gross : Rat; rl_turnover : Rat; rl_cash : gmap AssetID Rat;
  rl_approved : list OrderIntent; rl_rejected : list OrderRejection; rl_traces : list RiskTrace }.

Definition not_authorized (mode : ExecutionMode) : bool :=
  (mode =s ExecutionResearch) || (mode =s ExecutionShadow) || (mode =s ExecutionLiveDryRun).

Section Evaluate.
Context (portfolio : PortfolioSnapshot) (policy : RiskPolicy).
Let positions := p_positions portfolio.
Let pending := p_pending portfolio.
Let costs := RP_ExecutionCosts policy.

(** The [switch]: the checks recorded and the rejection code, empty if none. *)
Definition authorize (approved : list OrderIntent) (intent : OrderIntent) (hasPrice : bool) :
    list string * RejectionCode :=
  let buy := OI_Side intent =s Buy in
  if not_authorized (OI_ExecutionMode intent) then (["execution_authority"], RiskExecutionNotAuthorized)
  else if negb hasPrice then (["execution_authority"], RiskMissingPrice)
  else if pendingConflict pending intent
  then (["execution_authority"; "pending_conflict"], RiskPendingConflict)
  else if buy && (0 <? existingCount positions (OI_Instrument intent)) && negb (RP_PyramidingEnabled policy)
  then (["execution_authority"; "pyramiding"], RiskPositionExists)
  else if buy && RP_PyramidingEnabled policy && (0 <? RP_MaxPyramidLayers policy) &&
          (RP_MaxPyramidLayers policy <=? pyramidLayers positions (OI_Instrument intent))
  then (["execution_authority"; "pyramid_layers"], RiskPyramidLayers)
  else if (0 <? RP_MaxConcurrentOrders policy) &&
          (RP_MaxConcurrentOrders policy <=? Z.of_nat (length pending) + Z.of_nat (length approved))
  then (["execution_authority"; "concurrency"], RiskMaxConcurrency)
  else if buy && (existingCount positions (OI_Instrument intent) =? 0) && (0 <? RP_MaxPositions policy) &&
          (RP_MaxPositions policy <=? Z.of_nat (length positions) + countNewBuys approved positions)
  then (["execution_authority"; "positions"], RiskMaxPositions)
  else (["execution_authority"], "").

(** [capIntent] and then the lot, when no check has rejected. *)
Definition size_intent (st : RiskLoop) (intent : OrderIntent) (price : option Price)
    (requested : Rat) (code : RejectionCode) : res (Rat * RejectionCode) :=
  if code <>s "" then Ok (requested, code) else
  match price with
  | None => Panic "unreachable: no price without a rejection"
  | Some price =>
      let* (quantity, code) :=
        capIntent requested intent price positions (rl_gross st) (rl_turnover st)
          (rl_cash st !! I_QuoteAsset (OI_Instrument intent)) policy in
      if code <>s "" then Ok (quantity, code) else
      match normalizedQuantity quantity (RP_LotSize policy) with
      | Ok normalized => Ok (normalized, "")
      | Err _ => Ok (quantity, RiskQuantityBelowLot)
      | Panic w => Panic w
      end
  end.

(** The metadata the broker later compares with its own cost model. *)
Definition with_costs (metadata : option (gmap string string)) : gmap string string :=
  let m := match metadata with Some m => m | None => ∅ end in
  <["slippage_bps" := Itoa (C_AdverseSlippageBPS costs)]>
    (<["fee_bps" := Itoa (C_FeeBPS costs)]>
      (<["cost_policy_version" := C_Version costs]> m)).

Definition OrderIntent_zero : OrderIntent :=
  mkIntent "" "" "" Instrument_zero "" "" Quantity_zero None None 0 0 0 "" "" 0 "" ""
    (mkVersions "" "" "" "" "" "" "" "" "") (mkProvenance "" "" "" "" "") None.
Definition approved_intent (intent : OrderIntent) (quantity : Quantity) : OrderIntent :=
  let intent := set_OI_Policy (RP_Version policy) (set_OI_Quantity quantity intent) in
  match NewOrderIntent intent (Some (with_costs (OI_metadata intent))) with
  | Ok i => i
  | _ => OrderIntent_zero
  end.

(** What an approval reserves: turnover, gross exposure, cash. *)
Definition reserve (st : RiskLoop) (intent : OrderIntent) (price : Price)
    (quantity approvedNotional reservedFee : Rat) : res RiskLoop :=
  let approved := rl_approved st ++ [intent] in
  let turnover := (rl_turnover st + approvedNotional)%Q in
  let referenceNotional := (quantity * decimalRat (Price_Decimal price))%Q in
  if OI_Side intent =s Buy then
    let asset := I_QuoteAsset (OI_Instrument intent) in
    match rl_cash st !! asset with
    | None => Panic "nil pointer dereference"
    | Some cash =>
        Ok (mkLoop (rl_gross st + referenceNotional)%Q turnover
              (<[asset := (cash - (approvedNotional + reservedFee))%Q]> (rl_cash st))
              approved (rl_rejected st) (rl_traces st))
    end
  else Ok (mkLoop (rl_gross st - referenceNotional)%Q turnover (rl_cash st) approved
             (rl_rejected st) (rl_traces st)).

Definition reject (st : RiskLoop) (intent : OrderIntent) (code : RejectionCode) : RiskLoop :=
  mkLoop (rl_gross st) (rl_turnover st) (rl_cash st) (rl_approved st)
    (rl_rejected st ++ [mkRejection (OI_ID intent) code code (p_asOf portfolio) (RP_Version policy)])
    (rl_traces st).
Definition add_trace (trace : RiskTrace) (st : RiskLoop) : RiskLoop :=
  mkLoop (rl_gross st) (rl_turnover st) (rl_cash st) (rl_approved st) (rl_rejected st)
    (rl_traces st ++ [trace]).

(** The decision on one sized intent. *)
Definition settle (st : RiskLoop) (intent : OrderIntent) (price : option Price) (quantity : Rat)
    (code : RejectionCode) (approvedNotional reservedFee : Rat) : res RiskLoop :=
  if code <>s "" then Ok (reject st intent code) else
  match price with
  | None => Panic "unreachable: no price without a rejection"
  | Some price =>
      match quantityFromRat quantity with
      | Ok approvedQuantity =>
          reserve st (approved_intent intent approvedQuantity) price quantity approvedNotional reservedFee
      | Err _ => Ok (reject st intent RiskQuantityBelowLot)
      | Panic w => Panic w
      end
  end.

(** The body of the loop over [batch.Intents()]. *)
Definition evaluate_intent (st : RiskLoop) (intent : OrderIntent) : res RiskLoop :=
  let requested := decimalRat (Quantity_Decimal (OI_Quantity intent)) in
  let asset := I_QuoteAsset (OI_Instrument intent) in
  let preCash := valueOrZero (rl_cash st !! asset) 0%Q in
  let price := intentPrice intent positions in
  let hasPrice := match price with Some _ => true | None => false end in
  let (checks, code) := authorize (rl_approved st) intent hasPrice in
  let checks := if code =s "" then
      checks ++ ["position_exposure"; "gross_exposure"; "turnover"; "cash"; "lot_size"] else checks in
  let* (quantity, code) := size_intent st intent price requested code in
  let '(costed, approvedNotional, reservedSlip, reservedFee) :=
    match price with
    | Some p => if 0 <? Rat_Sign quantity then
                  let '(g, s, f) := costReservation quantity p (OI_Side intent) costs in
                  (Some p, g, s, f)
                else (None, 0%Q, 0%Q, 0%Q)
    | None => (None, 0%Q, 0%Q, 0%Q)
    end in
  let* st' := settle st intent price quantity code approvedNotional reservedFee in
  let cost_text (f : Price -> Rat) := match costed with Some p => ratString (f p) | None => "" end in
  Ok (add_trace
    (mkTrace (OI_ID intent) (RP_Version policy) checks (Decimal_String (Quantity_Decimal (OI_Quantity intent)))
       (ratString quantity)
       (cost_text (fun p => requested * decimalRat (Price_Decimal p))%Q)
       (cost_text (fun _ => approvedNotional)) (OI_Priority intent) (C_Version costs)
       (cost_text (fun _ => reservedFee)) (cost_text (fun _ => reservedSlip))
       (ratString preCash) (ratString (valueOrZero (rl_cash st' !! asset) preCash))
       (ratString (rl_gross st)) (ratString (rl_gross st'))
       (ratString (rl_turnover st)) (ratString (rl_turnover st'))) st').

Definition available_cash (amount : SignedAmount) : Rat :=
  let available := decimalRat (Amount_Decimal amount) in
  if Amount_Valid (RP_CashReserve policy)
  then (available - decimalRat (Amount_Decimal (RP_CashReserve policy)))%Q else available.

Definition initial_loop : RiskLoop :=
  let state := p_risk portfolio in
  let gross := portfolioGross positions in
  let '(gross, turnover) :=
    if RiskState_Known state then
      (decimalRat (Amount_Decimal (grossExposure state)),
       decimalRat (Amount_Decimal (RiskState_Turnover state)))
    else (gross, 0%Q) in
  mkLoop gross turnover (available_cash <$> p_cash portfolio) [] [] [].

Definition Evaluate (batch : DecisionBatch) : res RiskDecision :=
  let* _ := RiskPolicy_Validate policy in
  let* st := foldM evaluate_intent initial_loop (Intents batch) in
  let* approvedBatch := NewDecisionBatch (rl_approved st) in
  Ok (NewRiskDecisionWithTrace approvedBatch (rl_rejected st) (rl_traces st)).
End Evaluate.
