(* ===== verification/RiskProofs.v ===== *)
(** * RiskProofs: what the risk engine of [Risk] guarantees

    The sizing of one intent ([capIntent], [size_intent]), the decision relation
    of a whole batch by rule induction, and the limits the approved batch
    respects. *)
From Stdlib Require Import QArith Qabs Lqa.
From stdpp Require Import base numbers strings gmap list.
From S2P Require Import Prelude GoStrings Values Exact Snapshots Contracts Risk.
Local Open Scope Z_scope.

(** ** Type invariants of the inputs *)
Definition opt_price_any (p : option Price) : Prop :=
  match p with Some p => price_any p | None => True end.
Inductive intent_any (i : OrderIntent) : Prop :=
| intent_any_intro : quantity_any (OI_Quantity i) -> opt_price_any (OI_LimitPrice i) ->
    opt_price_any (OI_ReferencePrice i) -> intent_any i.
Inductive position_any (p : Position) : Prop :=
| position_any_intro : quantity_any (Pos_Quantity p) -> price_any (Pos_MarkPrice p) -> position_any p.
Definition costs_ok (c : ExecutionCostPolicy) : Prop :=
  0 <= C_FeeBPS c /\ 0 <= C_AdverseSlippageBPS c /\ C_FeeBPS c + C_AdverseSlippageBPS c < 10000.

(** Basis points whose sum fits 64 bits are what [Validate] says they are. *)
Lemma costs_validated c : ExecutionCostPolicy_Validate c = Ok tt ->
  in_int64 (C_FeeBPS c + C_AdverseSlippageBPS c) -> costs_ok c.
Proof.
  unfold ExecutionCostPolicy_Validate. intros H Hi. res_inv. bool_prop.
  rewrite int64_id in * by done. unfold costs_ok. lia.
Qed.

Lemma int64_small z : 0 <= z < 2 ^ 62 -> int64 z = z.
Proof. intros H. apply int64_id. unfold in_int64. lia. Qed.

Section Sizes.
Context (costs : ExecutionCostPolicy) (Hc : costs_ok costs).

Lemma adverseBPS_pos side : 0 < adverseBPS side (C_AdverseSlippageBPS costs).
Proof.
  destruct Hc as (Hf & Hs & Hl). unfold adverseBPS. destruct (side =s Sell); rewrite int64_small; lia.
Qed.

Lemma feeFactor_pos : (1 <= feeFactor costs)%Q.
Proof.
  destruct Hc as (Hf & Hs & Hl). unfold feeFactor, NewRat. rewrite int64_small by lia.
  unfold Qle. cbn. lia.
Qed.

Lemma adverse_rat_pos side : (0 < NewRat (adverseBPS side (C_AdverseSlippageBPS costs)) 10000)%Q.
Proof. pose proof (adverseBPS_pos side). unfold NewRat, Qlt. cbn. lia. Qed.

Context (price : Price) (Hp : price_any price).

Lemma price_nonneg : (0 <= decimalRat (Price_Decimal price))%Q.
Proof.
  destruct Hp as [->|(z & k & Hk & Hz & ->)]; [done|]. by apply Qlt_le_weak, decimal_pos.
Qed.

Lemma adversePrice_nonneg side : (0 <= adversePrice price side costs)%Q.
Proof.
  unfold adversePrice. apply Qmult_le_0_compat; [apply price_nonneg|].
  apply Qlt_le_weak, adverse_rat_pos.
Qed.

Lemma cashUnit_nonneg side : (0 <= cashUnit price side costs)%Q.
Proof.
  unfold cashUnit. apply Qmult_le_0_compat; [apply adversePrice_nonneg|].
  pose proof feeFactor_pos. lra.
Qed.
End Sizes.

(** ** Capping *)
Definition limit_on (l : SignedAmount) : bool := Amount_Valid l && negb (Amount_Sign l =? 0).
Definition limit_value (l : SignedAmount) : Rat := decimalRat (Amount_Decimal l).

Lemma Qcap_spec r c : (0 < r)%Q -> (0 < c)%Q ->
  (0 < Qcap r c /\ Qcap r c <= r /\ Qcap r c <= c)%Q.
Proof.
  intros Hr Hc. unfold Qcap. destruct (0 <? Rat_Cmp r c) eqn:E.
  - apply Rat_Cmp_gt in E. split_and!; lra.
  - apply not_true_iff_false in E. rewrite Rat_Cmp_gt in E. apply Qnot_lt_le in E. split_and!; lra.
Qed.

Lemma Quo_Ok a b r : Quo a b = Ok r -> (0 <= b)%Q -> (0 < b)%Q /\ (r * b == a)%Q.
Proof.
  unfold Quo. destruct (Rat_Sign b =? 0) eqn:E; [done|]. intros [= <-] Hb.
  apply not_true_iff_false in E. rewrite Rat_Sign_zero in E.
  split; [|field; done]. apply Qle_lteq in Hb as [Hb|Hb]; [done|]. by symmetry in Hb.
Qed.

Lemma Quo_total a b : (0 < b)%Q -> Quo a b = Ok (a / b)%Q.
Proof.
  intros Hb. unfold Quo. destruct (Rat_Sign b =? 0) eqn:E; [|done].
  apply Rat_Sign_zero in E. rewrite E in Hb. by apply Qlt_irrefl in Hb.
Qed.

Lemma Qdiv_pos a u r : (r * u == a)%Q -> (0 < u)%Q -> (0 < a)%Q -> (0 < r)%Q.
Proof.
  intros E Hu Ha. rewrite <- E in Ha. apply Qnot_le_lt. intros Hr.
  pose proof (Qmult_le_compat_r r 0 u Hr ltac:(lra)). lra.
Qed.

Lemma capBy_spec r limit used unit code r' c :
  capBy r limit used unit code = Ok (r', c) -> code <> "" -> c = "" -> (0 < r)%Q -> (0 <= unit)%Q ->
  (0 < r' /\ r' <= r)%Q /\
  (limit_on limit = true -> (used + r' * unit <= limit_value limit)%Q).
Proof.
  unfold capBy, limit_on, limit_value. intros H Hcode -> Hr Hu.
  destruct (Amount_Valid limit); cbn [negb orb andb] in *.
  2: { injection H as <-. split; [lra | done]. }
  destruct (Amount_Sign limit =? 0); cbn [negb] in *.
  { injection H as <-. split; [lra | done]. }
  set (rem := (decimalRat (Amount_Decimal limit) - used)%Q) in *.
  destruct (Rat_Sign rem <=? 0) eqn:Er.
  { exfalso. apply Hcode. congruence. }
  apply Rat_Sign_gt in Er. res_inv.
  apply Quo_Ok in E as [Hp E]; [|done].
  pose proof (Qdiv_pos _ _ _ E Hp Er) as Ha.
  destruct (Qcap_spec r a Hr Ha) as (H1 & H2 & H3). split; [done|]. intros _.
  pose proof (Qmult_le_compat_r _ _ unit H3 Hu). unfold rem in *. lra.
Qed.

(** What a sized intent satisfies: [q] is the quantity before the lot. *)
Inductive capped (policy : RiskPolicy) (positions : list Position) (intent : OrderIntent)
    (price : Price) (gross turnover : Rat) (cash : option Rat) (requested q : Rat) : Prop :=
| capped_intro :
    (0 < q /\ q <= requested)%Q ->
    (OI_Side intent = Buy -> limit_on (RP_MaxPositionValue policy) = true ->
      (instrumentExposure positions (OI_Instrument intent) + q * decimalRat (Price_Decimal price)
       <= limit_value (RP_MaxPositionValue policy))%Q) ->
    (OI_Side intent = Buy -> limit_on (RP_MaxGrossExposure policy) = true ->
      (gross + q * decimalRat (Price_Decimal price) <= limit_value (RP_MaxGrossExposure policy))%Q) ->
    (limit_on (RP_MaxTurnover policy) = true ->
      (turnover + q * adversePrice price (OI_Side intent) (RP_ExecutionCosts policy)
       <= limit_value (RP_MaxTurnover policy))%Q) ->
    (OI_Side intent = Buy -> exists c, cash = Some c /\
      (q * cashUnit price (OI_Side intent) (RP_ExecutionCosts policy) <= c)%Q) ->
    (OI_Side intent <> Buy -> (q <= positionQuantity positions (OI_Instrument intent))%Q) ->
    capped policy positions intent price gross turnover cash requested q.

(** A smaller positive quantity is capped as well: the lot only cuts. *)
Lemma capped_smaller policy positions intent price gross turnover cash requested q q' :
  costs_ok (RP_ExecutionCosts policy) -> price_any price ->
  capped policy positions intent price gross turnover cash requested q ->
  (0 < q' /\ q' <= q)%Q ->
  capped policy positions intent price gross turnover cash requested q'.
Proof.
  intros Hc Hp [Hq H1 H2 H3 H4 H5] Hq'.
  assert (Hm : forall u, (0 <= u)%Q -> (q' * u <= q * u)%Q)
    by (intros u Hu; apply Qmult_le_compat_r; [apply Hq' | done]).
  pose proof (Hm _ (price_nonneg _ Hp)) as Hm1.
  pose proof (Hm _ (adversePrice_nonneg _ Hc _ Hp (OI_Side intent))) as Hm2.
  pose proof (Hm _ (cashUnit_nonneg _ Hc _ Hp (OI_Side intent))) as Hm3.
  constructor.
  - lra.
  - intros Hb Hl. specialize (H1 Hb Hl). lra.
  - intros Hb Hl. specialize (H2 Hb Hl). lra.
  - intros Hl. specialize (H3 Hl). lra.
  - intros Hb. destruct (H4 Hb) as (c & -> & Hcash). exists c. split; [done|]. lra.
  - intros Hb. specialize (H5 Hb). lra.
Qed.

Lemma capIntent_spec quantity intent price positions gross turnover cash policy q :
  costs_ok (RP_ExecutionCosts policy) -> price_any price -> (0 < quantity)%Q ->
  capIntent quantity intent price positions gross turnover cash policy = Ok (q, "") ->
  capped policy positions intent price gross turnover cash quantity q.
Proof.
  intros Hc Hp Hq. unfold capIntent.
  pose proof (price_nonneg _ Hp) as Hp0.
  pose proof (adversePrice_nonneg _ Hc _ Hp (OI_Side intent)) as Ha0.
  pose proof (cashUnit_nonneg _ Hc _ Hp (OI_Side intent)) as Hu0.
  destruct (OI_Side intent =s Buy) eqn:Eb.
  - destruct (capBy quantity _ _ _ _) as [[r1 c1]| |] eqn:E1; cbn [rbind]; try done.
    destruct (c1 =s "") eqn:Ec1; cbn [negb]; [apply eqb_true_eq in Ec1 as ->|intros [= _ ->]; done].
    apply capBy_spec in E1 as [B1 L1]; [|done..].
    destruct (capBy r1 _ _ _ _) as [[r2 c2]| |] eqn:E2; cbn [rbind]; try done.
    destruct (c2 =s "") eqn:Ec2; cbn [negb]; [apply eqb_true_eq in Ec2 as ->|intros [= _ ->]; done].
    apply capBy_spec in E2 as [B2 L2]; [|done || lra ..].
    destruct (capBy r2 _ _ _ _) as [[r3 c3]| |] eqn:E3; cbn [rbind]; try done.
    destruct (c3 =s "") eqn:Ec3; cbn [negb]; [apply eqb_true_eq in Ec3 as ->|intros [= _ ->]; done].
    apply capBy_spec in E3 as [B3 L3]; [|done || lra ..].
    destruct cash as [c|]; [|done]. destruct (Rat_Sign c <=? 0) eqn:Es; [done|].
    apply Rat_Sign_gt in Es.
    destruct (Quo c _) as [cand| |] eqn:Eq; cbn [rbind]; try done.
    apply Quo_Ok in Eq as [Hup Eq]; [|done]. pose proof (Qdiv_pos _ _ _ Eq Hup Es) as Hcand.
    destruct (Qcap_spec r3 cand ltac:(lra) Hcand) as (Q1 & Q2 & Q3).
    destruct (Rat_Sign (Qcap r3 cand) <=? 0); [done|]. intros [= <-].
    set (q := Qcap r3 cand) in *.
    assert (Hm : forall u r, (0 <= u)%Q -> (q <= r)%Q -> (q * u <= r * u)%Q)
      by (intros u r ? ?; by apply Qmult_le_compat_r).
    apply eqb_true_eq in Eb.
    constructor; [lra | intros _ Hl | intros _ Hl | intros Hl | intros _ | done].
    + specialize (L1 Hl). pose proof (Hm _ r1 Hp0 ltac:(lra)). lra.
    + specialize (L2 Hl). pose proof (Hm _ r2 Hp0 ltac:(lra)). lra.
    + specialize (L3 Hl). pose proof (Hm _ r3 Ha0 ltac:(lra)). lra.
    + exists c. split; [done|]. pose proof (Hm _ cand Hu0 Q3). lra.
  - cbn [rbind negb String.eqb].
    destruct (capBy quantity _ _ _ _) as [[r3 c3]| |] eqn:E3; cbn [rbind]; try done.
    destruct (c3 =s "") eqn:Ec3; cbn [negb]; [apply eqb_true_eq in Ec3 as ->|intros [= _ ->]; done].
    apply capBy_spec in E3 as [B3 L3]; [|done..].
    set (held := positionQuantity positions (OI_Instrument intent)).
    destruct (Rat_Sign (Qcap r3 held) <=? 0) eqn:Es; [done|]. apply Rat_Sign_gt in Es. intros [= <-].
    apply eqb_false_ne in Eb.
    assert (Hh : (0 < held)%Q).
    { unfold Qcap in Es. destruct (0 <? Rat_Cmp r3 held) eqn:Ex; [done|].
      apply not_true_iff_false in Ex. rewrite Rat_Cmp_gt in Ex. apply Qnot_lt_le in Ex. lra. }
    destruct (Qcap_spec r3 held ltac:(lra) Hh) as (Q1 & Q2 & Q3).
    constructor; [lra | done | done | intros Hl | done | done].
    specialize (L3 Hl). pose proof (Qmult_le_compat_r _ _ _ Q2 Ha0). lra.
Qed.

(** ** One intent *)

(** The intent an approval emits: the capped quantity, the policy's version and
    the cost reservation; everything else is the requested intent's. *)
Definition refine (policy : RiskPolicy) (i : OrderIntent) (q : Quantity) : OrderIntent :=
  let i := set_OI_metadata (Some (with_costs policy (OI_metadata i)))
             (set_OI_Policy (RP_Version policy) (set_OI_Quantity q i)) in
  if OI_QuantitySemantics i =s "" then set_OI_QuantitySemantics QuantityExact i else i.

Lemma refine_fields policy i q : let i' := refine policy i q in
  OI_ID i' = OI_ID i /\ OI_Instrument i' = OI_Instrument i /\ OI_Side i' = OI_Side i /\
  OI_Priority i' = OI_Priority i /\ OI_Quantity i' = q /\ OI_LimitPrice i' = OI_LimitPrice i /\
  OI_ReferencePrice i' = OI_ReferencePrice i /\ OI_ExecutionMode i' = OI_ExecutionMode i /\
  OI_AccountID i' = OI_AccountID i /\ OI_IdempotencyKey i' = OI_IdempotencyKey i /\
  V_Policy (OI_Versions i') = RP_Version policy /\
  OI_metadata i' = Some (with_costs policy (OI_metadata i)).
Proof.
  unfold refine. destruct (OI_QuantitySemantics _ =s ""); destruct i as []; cbn; by split_and!.
Qed.

Lemma refine_valid policy i q : OrderIntent_Validate i = Ok tt -> Quantity_Valid q = true ->
  OrderIntent_Validate (refine policy i q) = Ok tt.
Proof.
  intros Hi Hq. unfold refine. destruct i as [? ? ? ? ? ? q0 ? ? ? ? ? ? sem].
  cbn in *. unfold OrderIntent_Validate in *. cbn in *.
  destruct (Quantity_Valid q0) eqn:E0; cbn [negb] in Hi.
  2: { exfalso. revert Hi. repeat case_match; try done. }
  destruct (sem =s "") eqn:Es; cbn in *; rewrite ?Es, Hq; cbn [negb orb]; exact Hi.
Qed.

Lemma approved_intent_refine policy i q : OrderIntent_Validate i = Ok tt -> Quantity_Valid q = true ->
  approved_intent policy i q = refine policy i q.
Proof.
  intros Hi Hq. pose proof (refine_valid policy i q Hi Hq) as Hv.
  unfold approved_intent, NewOrderIntent.
  replace (OI_metadata (set_OI_Policy (RP_Version policy) (set_OI_Quantity q i))) with (OI_metadata i)
    by by destruct i.
  fold (refine policy i q). by rewrite Hv.
Qed.

Section Step.
Context (portfolio : PortfolioSnapshot) (policy : RiskPolicy).
Let positions := p_positions portfolio.
Let costs := RP_ExecutionCosts policy.
Hypothesis Hcosts : costs_ok costs.
Hypothesis Hlot : quantity_any (RP_LotSize policy).
Hypothesis Hpositions : Forall position_any positions.

Definition ref_price (i : OrderIntent) : Rat :=
  match intentPrice i positions with Some p => decimalRat (Price_Decimal p) | None => 0%Q end.
Definition adverse_price (i : OrderIntent) : Rat :=
  match intentPrice i positions with Some p => adversePrice p (OI_Side i) costs | None => 0%Q end.
Definition cash_unit (i : OrderIntent) : Rat :=
  match intentPrice i positions with Some p => cashUnit p (OI_Side i) costs | None => 0%Q end.

(** [q] is a whole number of lots, where a lot is set. *)
Definition lot_multiple (q : Rat) : Prop :=
  Quantity_Valid (RP_LotSize policy) = true ->
  exists n, 0 < n /\ (q == SetInt n * decimalRat (Quantity_Decimal (RP_LotSize policy)))%Q.

Definition rejection (i : OrderIntent) (code : RejectionCode) : OrderRejection :=
  mkRejection (OI_ID i) code code (p_asOf portfolio) (RP_Version policy).

(** The outcome of one intent in the state the earlier ones left. *)
Inductive decision (st : RiskLoop) (i : OrderIntent) (st' : RiskLoop) : Prop :=
| decision_reject code :
    code <> "" ->
    rl_gross st' = rl_gross st -> rl_turnover st' = rl_turnover st -> rl_cash st' = rl_cash st ->
    rl_approved st' = rl_approved st ->
    rl_rejected st' = rl_rejected st ++ [rejection i code] -> decision st i st'
| decision_approve price q :
    snd (authorize portfolio policy (rl_approved st) i true) = "" ->
    intentPrice i positions = Some price ->
    capped policy positions i price (rl_gross st) (rl_turnover st)
      (rl_cash st !! I_QuoteAsset (OI_Instrument i))
      (decimalRat (Quantity_Decimal (OI_Quantity i))) q ->
    lot_multiple q -> 0 < round18 q ->
    rl_approved st' = rl_approved st ++ [refine policy i (mkQuantity (decimal (round18 q) 18))] ->
    rl_rejected st' = rl_rejected st ->
    (rl_turnover st' == rl_turnover st + q * adversePrice price (OI_Side i) costs)%Q ->
    (rl_gross st' == if OI_Side i =s Buy then rl_gross st + q * decimalRat (Price_Decimal price)
                     else rl_gross st - q * decimalRat (Price_Decimal price))%Q ->
    (forall a, match rl_cash st !! a, rl_cash st' !! a with
               | Some c, Some c' =>
                   (c' == if (OI_Side i =s Buy) && (I_QuoteAsset (OI_Instrument i) =s a)
                          then c - q * cashUnit price (OI_Side i) costs else c)%Q
               | None, None => True
               | _, _ => False
               end) ->
    decision st i st'.

Lemma intentPrice_any i p : intent_any i -> intentPrice i positions = Some p -> price_any p.
Proof.
  intros [_ Hl Hr]. unfold intentPrice. destruct (OI_ReferencePrice i); [by intros [= <-]|].
  destruct (OI_LimitPrice i); [by intros [= <-]|].
  destruct (List.find _ positions) as [pos|] eqn:E; [|done]. intros [= <-].
  apply List.find_some in E as [E _]. apply list_elem_of_In in E.
  rewrite Forall_forall in Hpositions. by destruct (Hpositions _ E).
Qed.

Lemma costReservation_spec q price side :
  let '(g, _, f) := costReservation q price side costs in
  (g == q * adversePrice price side costs /\ g + f == q * cashUnit price side costs)%Q.
Proof.
  destruct Hcosts as (Hf & Hs & Hl). unfold costReservation. split.
  - unfold adversePrice. ring.
  - unfold cashUnit, adversePrice, feeFactor. rewrite int64_small by lia.
    unfold NewRat. set (a := adverseBPS _ _). set (d := decimalRat _).
    assert (Hfee : (10000 + C_FeeBPS costs # 10000 == 1 + (C_FeeBPS costs # 10000))%Q)
      by (unfold Qeq; cbn; lia).
    rewrite Hfee. ring.
Qed.

Lemma authorize_no_price A i : snd (authorize portfolio policy A i false) <> "".
Proof. unfold authorize. by destruct (not_authorized _). Qed.

Lemma size_intent_spec st i price q : intent_any i -> OrderIntent_Validate i = Ok tt ->
  intentPrice i positions = Some price ->
  size_intent portfolio policy st i (Some price) (decimalRat (Quantity_Decimal (OI_Quantity i))) "" = Ok (q, "") ->
  capped policy positions i price (rl_gross st) (rl_turnover st)
    (rl_cash st !! I_QuoteAsset (OI_Instrument i))
    (decimalRat (Quantity_Decimal (OI_Quantity i))) q /\ lot_multiple q.
Proof.
  intros Hi Hv Hpr. pose proof (intentPrice_any _ _ Hi Hpr) as Hp. unfold size_intent.
  cbn [String.eqb negb]. set (requested := decimalRat _).
  assert (Hq : (0 < requested)%Q).
  { apply quantity_any_pos; [apply Hi|]. unfold OrderIntent_Validate in Hv.
    destruct (Quantity_Valid (OI_Quantity i)); [done|]. revert Hv. repeat case_match; done. }
  destruct (capIntent _ _ _ _ _ _ _ _) as [[q0 c]| |] eqn:E; cbn [rbind]; try done.
  destruct (c =s "") eqn:Ec; cbn [negb]; [apply eqb_true_eq in Ec as ->|intros [= _ ->]; done].
  apply capIntent_spec in E; [|done..].
  pose proof (normalizedQuantity_cut q0 (RP_LotSize policy) Hlot) as Hn.
  destruct (normalizedQuantity q0 _) as [r| |] eqn:En; try done. intros [= <-].
  destruct Hn as (Hr & Hn1 & Hn2). split.
  - eapply capped_smaller; eauto.
  - intros Hl. destruct (Hn2 Hl) as (n & Hn & E1 & _). eauto.
Qed.

Lemma round18_quantity q : 0 < round18 q -> Quantity_Valid (mkQuantity (decimal (round18 q) 18)) = true.
Proof.
  intros Hq. unfold Quantity_Valid. cbn [Quantity_Decimal]. rewrite Sign_decimal, Z.sgn_pos by lia.
  done.
Qed.

(** A settled intent, whatever amounts its trace reports. *)
Lemma settle_spec st i price q g f st' : intent_any i -> OrderIntent_Validate i = Ok tt ->
  intentPrice i positions = Some price ->
  snd (authorize portfolio policy (rl_approved st) i true) = "" ->
  size_intent portfolio policy st i (Some price) (decimalRat (Quantity_Decimal (OI_Quantity i))) "" = Ok (q, "") ->
  (g == q * adversePrice price (OI_Side i) costs)%Q -> (g + f == q * cashUnit price (OI_Side i) costs)%Q ->
  settle portfolio policy st i (Some price) q "" g f = Ok st' -> decision st i st'.
Proof.
  intros Hi Hv Hpr Ha Hs Hg Hf. unfold settle. cbn [String.eqb negb].
  rewrite quantityFromRat_eq. destruct (0 <? round18 q) eqn:E0; bool_prop.
  2: { intros [= <-]. by apply (decision_reject _ _ _ RiskQuantityBelowLot). }
  rewrite approved_intent_refine by (done || by apply round18_quantity).
  destruct (size_intent_spec _ _ _ _ Hi Hv Hpr Hs) as [Hcap Hlm].
  set (i' := refine policy i (mkQuantity (decimal (round18 q) 18))).
  pose proof (refine_fields policy i (mkQuantity (decimal (round18 q) 18))) as Hr. fold i' in Hr.
  cbv zeta in Hr. destruct Hr as (_ & Hin & Hsd & _).
  unfold reserve. rewrite Hsd, Hin. destruct (OI_Side i =s Buy) eqn:Eb.
  - destruct (rl_cash st !! I_QuoteAsset (OI_Instrument i)) as [c|] eqn:Ec; [|done].
    rewrite <- Ec in Hcap. intros [= <-]. apply (decision_approve _ _ _ price q); try done; cbn [rl_gross rl_turnover rl_cash].
    + by rewrite Hg.
    + by rewrite Eb.
    + intros a. rewrite Eb. cbn [andb]. destruct (I_QuoteAsset (OI_Instrument i) =s a) eqn:Ea.
      * apply eqb_true_eq in Ea as <-. rewrite Ec, lookup_insert_eq. by rewrite Hf.
      * apply eqb_false_ne in Ea. rewrite lookup_insert_ne by done. by destruct (rl_cash st !! a).
  - intros [= <-]. apply (decision_approve _ _ _ price q); try done; cbn [rl_gross rl_turnover rl_cash].
    + by rewrite Hg.
    + by rewrite Eb.
    + intros a. rewrite Eb. cbn [andb]. by destruct (rl_cash st !! a).
Qed.

Lemma settle_code st i price q code g f st' : code <> "" ->
  settle portfolio policy st i price q code g f = Ok st' -> decision st i st'.
Proof.
  intros Hc. unfold settle. apply String.eqb_neq in Hc as Hc'. rewrite Hc'. cbn [negb].
  intros [= <-]. by apply (decision_reject _ _ _ code).
Qed.

Lemma decision_add_trace st i st' t : decision st i st' -> decision st i (add_trace t st').
Proof. intros []; [eapply decision_reject | eapply decision_approve]; eauto. Qed.

Lemma evaluate_intent_decision st i st' : intent_any i -> OrderIntent_Validate i = Ok tt ->
  evaluate_intent portfolio policy st i = Ok st' -> decision st i st'.
Proof.
  intros Hi Hv. unfold evaluate_intent. cbv zeta. fold positions costs.
  destruct (authorize _ _ _ _ _) as [checks code] eqn:Ea.
  set (requested := decimalRat _).
  destruct (size_intent _ _ _ _ _ _ code) as [[q code']| |] eqn:Es; cbn [rbind]; try done.
  set (costed := match intentPrice i positions with Some _ => _ | None => _ end).
  destruct costed as [[[cp g] sl] f] eqn:Ecosted.
  destruct (settle _ _ _ _ _ _ _ _ _) as [s| |] eqn:Et; cbn [rbind]; try done.
  intros [= <-]. apply decision_add_trace.
  destruct (decide (code' = "")) as [->|Hne]; [|by eapply settle_code].
  destruct (decide (code = "")) as [->|Hne].
  2: { unfold size_intent in Es. apply String.eqb_neq in Hne as Hn'. rewrite Hn' in Es. cbn in Es. congruence. }
  destruct (intentPrice i positions) as [price|] eqn:Hpr.
  2: { exfalso. pose proof (authorize_no_price (rl_approved st) i) as Hn. by rewrite Ea in Hn. }
  pose proof (size_intent_spec _ _ _ _ Hi Hv Hpr Es) as [Hcap _].
  destruct Hcap as [[Hq _] _ _ _ _ _].
  unfold costed in Ecosted. apply Rat_Sign_lt in Hq. rewrite Hq in Ecosted.
  pose proof (costReservation_spec q price (OI_Side i)) as Hcr.
  destruct (costReservation q price (OI_Side i) costs) as [[g' s'] f'].
  injection Ecosted as <- <- <- <-. destruct Hcr as [Hg Hf].
  eapply settle_spec; eauto. by rewrite Ea.
Qed.
End Step.
