(* ===== verification/RiskBatch.v ===== *)
(** * RiskBatch: what [PortfolioRiskEngine.Evaluate] guarantees of a batch

    The states the loop reaches, by rule induction over the decisions of
    [RiskProofs], and the limits the approved batch respects. *)
From Stdlib Require Import QArith Qabs Qminmax Lqa.
From stdpp Require Import base numbers strings gmap list.
From S2P Require Import Prelude GoStrings Values Exact Snapshots Contracts Risk RiskProofs.
Local Open Scope Z_scope.

(** ** Rational sums *)
Definition Qsum {A} (f : A -> Q) (l : list A) : Q := foldr (fun x acc => f x + acc)%Q 0%Q l.

Lemma Qsum_snoc {A} (f : A -> Q) l x : (Qsum f (l ++ [x]) == Qsum f l + f x)%Q.
Proof.
  unfold Qsum. induction l as [|y l IH]; cbn [app foldr]; [ring|]. rewrite IH. ring.
Qed.

(** ** The keys a batch is ordered by *)
Definition ikey (i : OrderIntent) : Z * string * string * string :=
  (OI_Priority i, I_ID (OI_Instrument i), OI_Side i, OI_ID i).
Definition key_less (x y : Z * string * string * string) : bool :=
  lex Z.eqb Z.ltb (fun k => k.1.1.1)
    (lex String.eqb String.ltb (fun k => k.1.1.2)
       (lex String.eqb String.ltb (fun k => k.1.2) (fun x y => String.ltb x.2 y.2))) x y.
Lemma intent_less_key x y : intent_less x y = key_less (ikey x) (ikey y).
Proof. reflexivity. Qed.
#[export] Instance key_less_weak : StrictWeak key_less.
Proof.
  apply lex_weak; [apply _ | apply Z.eqb_eq |].
  apply lex_weak; [apply _ | apply String.eqb_eq |].
  apply lex_weak; [apply _ | apply String.eqb_eq |]. apply (key_weak snd String.ltb).
Qed.
Lemma ikey_refine policy i q : ikey (refine policy i q) = ikey i.
Proof.
  pose proof (refine_fields policy i q) as H. cbv zeta in H.
  unfold ikey. by destruct H as (-> & -> & -> & -> & _).
Qed.

Section Batch.
Context (portfolio : PortfolioSnapshot) (policy : RiskPolicy).
Let positions := p_positions portfolio.
Let costs := RP_ExecutionCosts policy.

(** The states the loop can be in after the intents [done]. *)
Inductive reached : list OrderIntent -> RiskLoop -> Prop :=
| reached_nil : reached [] (initial_loop portfolio policy)
| reached_snoc done i st st' :
    reached done st -> decision portfolio policy st i st' -> reached (done ++ [i]) st'.

Lemma reached_keys done st : reached done st ->
  sublist (ikey <$> rl_approved st) (ikey <$> done).
Proof.
  induction 1 as [|done i st st' Hr IH Hd].
  - unfold initial_loop. by destruct (RiskState_Known _).
  - rewrite fmap_app. destruct Hd as [code ? ? ? ? -> ?|price q ? ? ? ? ? -> ? ? ? ?].
    + by apply sublist_inserts_r.
    + rewrite fmap_app. apply sublist_app; [done|]. cbn. by rewrite ikey_refine.
Qed.

Lemma reached_ids done st : reached done st ->
  (OI_ID <$> rl_approved st) ++ (OR_OrderID <$> rl_rejected st) ≡ₚ OI_ID <$> done.
Proof.
  induction 1 as [|done i st st' Hr IH Hd].
  - unfold initial_loop. by destruct (RiskState_Known _).
  - rewrite fmap_app, <- IH. destruct Hd as [code ? ? ? ? -> ->|price q ? ? ? ? ? -> -> ? ? ?].
    + rewrite fmap_app. cbn. by rewrite app_assoc.
    + rewrite fmap_app. cbn. pose proof (refine_fields policy i (mkQuantity (decimal (round18 q) 18))) as Hf.
      cbv zeta in Hf. destruct Hf as (-> & _). rewrite <- !app_assoc. apply Permutation_app_head.
      apply Permutation_app_comm.
Qed.

(** Rule induction for a property of every approved intent. *)
Lemma reached_approved (P : OrderIntent -> Prop) done st : reached done st ->
  (forall i st0 price q,
     i ∈ done ->
     snd (authorize portfolio policy (rl_approved st0) i true) = "" ->
     intentPrice i positions = Some price ->
     capped policy positions i price (rl_gross st0) (rl_turnover st0)
       (rl_cash st0 !! I_QuoteAsset (OI_Instrument i))
       (decimalRat (Quantity_Decimal (OI_Quantity i))) q ->
     lot_multiple policy q -> 0 < round18 q ->
     P (refine policy i (mkQuantity (decimal (round18 q) 18)))) ->
  Forall P (rl_approved st).
Proof.
  intros Hr. induction Hr as [|done i st st' Hr IH Hd]; intros HP.
  - unfold initial_loop. by destruct (RiskState_Known _).
  - assert (IH' : Forall P (rl_approved st)).
    { apply IH. intros. eapply HP; eauto. apply elem_of_app. by left. }
    destruct Hd as [code ? ? ? ? -> ?|price q ? ? ? ? ? -> ? ? ? ?]; [done|].
    apply Forall_app. split; [done|]. constructor; [|constructor].
    eapply HP; eauto. apply elem_of_app. right. by left.
Qed.

Lemma reached_rejected done st : reached done st ->
  Forall (fun r => OR_Code r <> "" /\ OR_PolicyVersion r = RP_Version policy /\
                   OR_EvaluatedAt r = p_asOf portfolio) (rl_rejected st).
Proof.
  induction 1 as [|done i st st' Hr IH Hd].
  - unfold initial_loop. by destruct (RiskState_Known _).
  - destruct Hd as [code ? ? ? ? ? ->|price q ? ? ? ? ? ? -> ? ? ?]; [|done].
    apply Forall_app. split; [done|]. by repeat constructor.
Qed.

Hypothesis Hcosts : costs_ok costs.
Hypothesis Hlot : quantity_any (RP_LotSize policy).
Hypothesis Hpositions : Forall position_any positions.

Lemma foldM_reached l st : Forall intent_any l -> Forall (fun i => OrderIntent_Validate i = Ok tt) l ->
  foldM (evaluate_intent portfolio policy) (initial_loop portfolio policy) l = Ok st -> reached l st.
Proof.
  intros Ha Hv H. eapply (foldM_inv reached); [constructor | | exact H].
  intros done i t t' Hr Hi Hs. rewrite Forall_forall in Ha, Hv. econstructor; [exact Hr|].
  by apply evaluate_intent_decision; auto.
Qed.

(** The batch [Evaluate] returns is what the loop approved, in that order. *)
Lemma Evaluate_reached batch d : batch_wf batch -> Forall intent_any (Intents batch) ->
  Evaluate portfolio policy batch = Ok d ->
  exists st, reached (Intents batch) st /\ intents (rd_approved d) = rl_approved st /\
    rd_rejected d = SliceStable rejection_less (rl_rejected st) /\ batch_wf (rd_approved d).
Proof.
  intros [Hv Ho] Ha H. unfold Evaluate in H. res_inv. rename a0 into st, a1 into b.
  apply foldM_reached in E0 as Hr; [|done..].
  apply NewDecisionBatch_inv in E1 as (_ & Hs & Hb).
  exists st. split_and!; [done | | done | done]. cbn. rewrite Hs.
  apply SliceStable_ordered_id. pose proof (reached_keys _ _ Hr) as Hk.
  apply (ordered_fmap ikey key_less). eapply ordered_sublist; [apply _ | exact Hk|].
  by apply (ordered_fmap ikey key_less).
Qed.
End Batch.

(** ** Inputs *)

(** Values the constructors return, and basis points whose sum fits 64 bits. *)
Inductive risk_inputs (portfolio : PortfolioSnapshot) (policy : RiskPolicy) (batch : DecisionBatch) : Prop :=
| risk_inputs_intro :
    in_int64 (C_FeeBPS (RP_ExecutionCosts policy) + C_AdverseSlippageBPS (RP_ExecutionCosts policy)) ->
    quantity_any (RP_LotSize policy) -> Forall position_any (p_positions portfolio) ->
    batch_wf batch -> Forall intent_any (Intents batch) -> risk_inputs portfolio policy batch.

Lemma policy_costs policy : RiskPolicy_Validate policy = Ok tt ->
  ExecutionCostPolicy_Validate (RP_ExecutionCosts policy) = Ok tt.
Proof. unfold RiskPolicy_Validate. intros H. res_inv. done. Qed.

Lemma Evaluate_states portfolio policy batch d : risk_inputs portfolio policy batch ->
  Evaluate portfolio policy batch = Ok d ->
  costs_ok (RP_ExecutionCosts policy) /\ exists st, reached portfolio policy (Intents batch) st /\
    intents (rd_approved d) = rl_approved st /\
    rd_rejected d = SliceStable rejection_less (rl_rejected st) /\ batch_wf (rd_approved d).
Proof.
  intros [Hi Hl Hp Hb Ha] H.
  assert (Hc : costs_ok (RP_ExecutionCosts policy)).
  { apply costs_validated; [|done]. apply policy_costs. unfold Evaluate in H. res_inv. by destruct a. }
  split; [done|]. by apply Evaluate_reached.
Qed.

(** The quantity, and the amounts, an approved intent stands for. *)
Definition quantity_of (i : OrderIntent) : Rat := decimalRat (Quantity_Decimal (OI_Quantity i)).

Lemma intentPrice_refine policy i q ps : intentPrice (refine policy i q) ps = intentPrice i ps.
Proof.
  pose proof (refine_fields policy i q) as H. cbv zeta in H.
  destruct H as (_ & Hi & _ & _ & _ & Hl & Hr & _). unfold intentPrice. by rewrite Hl, Hr, Hi.
Qed.

Lemma rounded_le q (d : Decimal) : decimal_any d -> (q <= decimalRat d)%Q ->
  (decimalRat (decimal (round18 q) 18) <= decimalRat d)%Q.
Proof.
  intros Hd Hq. destruct (decimalRat_wf d Hd) as (z & k & Hk & Hz). rewrite Hz in *.
  apply round18_mono in Hq. rewrite (round18_exact (z # _) z k Hk) in Hq by reflexivity.
  rewrite decimalRat_decimal. unfold Qle. cbn [Qnum Qden]. rewrite !pos_pow10 by lia.
  pose proof (Z.pow_add_r 10 (18 - k) k ltac:(lia) ltac:(lia)) as Hpow.
  replace (18 - k + k) with 18 in Hpow by lia. rewrite Hpow.
  assert (0 < 10 ^ k) by (apply Z.pow_pos_nonneg; lia). nia.
Qed.

Lemma quantity_any_decimal q : quantity_any q -> decimal_any (Quantity_Decimal q).
Proof. intros [->|(z & k & Hk & _ & ->)]; [by left | right; by exists z, k]. Qed.

(** C8. Risk evaluation decides every intent exactly once: the ids of the
    approved and the rejected orders together are those of the batch, a
    rejection carries a code, and an approved order is the requested one with
    a positive quantity that is never larger than requested, the policy's
    version and the cost reservation. *)
Theorem Evaluate_partition portfolio policy batch d :
  risk_inputs portfolio policy batch -> Evaluate portfolio policy batch = Ok d ->
  (OI_ID <$> intents (rd_approved d)) ++ (OR_OrderID <$> rd_rejected d) ≡ₚ OI_ID <$> intents batch /\
  Forall (fun r => OR_Code r <> "" /\ OR_PolicyVersion r = RP_Version policy /\
                   OR_EvaluatedAt r = p_asOf portfolio) (rd_rejected d) /\
  Forall (fun i' => exists i q, i ∈ intents batch /\ i' = refine policy i q /\
            (0 < quantity_of i' /\ quantity_of i' <= quantity_of i)%Q) (intents (rd_approved d)).
Proof.
  intros Hin H. pose proof Hin as [_ _ _ _ Hany].
  destruct (Evaluate_states _ _ _ _ Hin H) as (_ & st & Hr & -> & -> & _).
  split_and!.
  - rewrite <- (reached_ids _ _ _ _ Hr). apply Permutation_app_head.
    apply Permutation_map. symmetry. apply SliceStable_Permutation.
  - apply SliceStable_Forall. by eapply reached_rejected.
  - eapply reached_approved; [exact Hr|]. intros i st0 price q Hi _ _ [Hq _ _ _ _ _] _ Hpos.
    exists i, (mkQuantity (decimal (round18 q) 18)). split_and!; [done | done | |].
    all: pose proof (refine_fields policy i (mkQuantity (decimal (round18 q) 18))) as Hf; cbv zeta in Hf;
      destruct Hf as (_ & _ & _ & _ & Hqq & _); unfold quantity_of; rewrite Hqq; cbn [Quantity_Decimal].
    + by apply decimal_pos.
    + apply rounded_le; [|lra]. rewrite Forall_forall in Hany. apply quantity_any_decimal.
      by destruct (Hany i Hi).
Qed.

(** ** A sample run *)
Definition sample_policy : RiskPolicy :=
  mkPolicy "risk-v1" 3 (mkAmount (decimal 500 0)) (mkAmount (decimal 300 0)) (mkAmount (decimal 1000 0))
    (mkAmount (decimal 10 0)) 4 false 0 (mkQuantity (decimal 1 3)) (mkCosts "costs-v1" 10 5).
Definition sample_eth : Instrument := mkInstrument "eth-usdt" "ETH" "USDT" "binance" "ETHUSDT".
Definition sample_portfolio : PortfolioSnapshot :=
  mkPortfolio 20 "account" ExecutionPaper {["USDT" := mkAmount (decimal 100 0)]}
    [mkPosition "p1" sample_eth (mkQuantity (decimal 3 0)) (mkPrice (decimal 20 0)) (mkPrice (decimal 25 0))
       5 (mkAmount (decimal 0 0)) 1] [] RiskState_zero.
Definition sample_buy (id : string) (instrument : Instrument) (side : OrderSide) (quantity : Z) : OrderIntent :=
  mkIntent id id "account" instrument side MarketOrder (mkQuantity (decimal quantity 0)) None
    (Some (mkPrice (decimal 3 0))) 10 20 30 ExecutionPaper QuantityExact 1 "r" "15m"
    (mkVersions "s" "" "" "" "" "" "" "" "") (mkProvenance "" "" "" "" "") None.
Definition sample_batch : DecisionBatch :=
  mkBatch [sample_buy "o1" sample_instrument Buy 70; sample_buy "o2" sample_eth Buy 1;
           sample_buy "o3" sample_eth Sell 9].
Definition sample_decision : RiskDecision :=
  match Evaluate sample_portfolio sample_policy sample_batch with
  | Ok d => d
  | _ => NewRiskDecision (mkBatch []) []
  end.

Example sample_approved :
  (fun i => (OI_ID i, Decimal_String (Quantity_Decimal (OI_Quantity i)))) <$> intents (rd_approved sample_decision)
  = [("o1", "29.955000000000000000"); ("o3", "3.000000000000000000")].
Proof. vm_compute. reflexivity. Qed.

Lemma decimal_quantity_any z k : 0 <= k <= 18 -> 0 < z -> quantity_any (mkQuantity (decimal z k)).
Proof. intros Hk Hz. right. by exists z, k. Qed.
Lemma decimal_price_any z k : 0 <= k <= 18 -> 0 < z -> price_any (mkPrice (decimal z k)).
Proof. intros Hk Hz. right. by exists z, k. Qed.

Lemma sample_inputs : risk_inputs sample_portfolio sample_policy sample_batch.
Proof.
  constructor; cbn.
  - unfold in_int64. cbn. lia.
  - apply decimal_quantity_any; lia.
  - constructor; [|constructor].
    constructor; [apply decimal_quantity_any | apply decimal_price_any]; lia.
  - split; [|unfold ordered; cbn; repeat constructor].
    cbn. repeat (constructor; [vm_compute; reflexivity|]). constructor.
  - assert (Hs : forall id ins side q, 0 < q -> intent_any (sample_buy id ins side q)).
    { intros. constructor; cbn; [apply decimal_quantity_any; lia | done | apply decimal_price_any; lia]. }
    repeat (constructor; [apply Hs; lia|]). constructor.
Qed.

Lemma Evaluate_partition_witness :
  Evaluate sample_portfolio sample_policy sample_batch = Ok sample_decision /\
  (OI_ID <$> intents (rd_approved sample_decision)) ++ (OR_OrderID <$> rd_rejected sample_decision)
    ≡ₚ ["o1"; "o2"; "o3"].
Proof.
  assert (E : Evaluate sample_portfolio sample_policy sample_batch = Ok sample_decision)
    by (vm_compute; reflexivity).
  split; [exact E|]. exact (proj1 (Evaluate_partition _ _ _ _ sample_inputs E)).
Defined.

(** ** Authority and counts *)
Lemma authorize_ok portfolio policy A i :
  snd (authorize portfolio policy A i true) = "" ->
  not_authorized (OI_ExecutionMode i) = false /\
  pendingConflict (p_pending portfolio) i = false /\
  (OI_Side i = Buy -> 0 < existingCount (p_positions portfolio) (OI_Instrument i) ->
     RP_PyramidingEnabled policy = true) /\
  (OI_Side i = Buy -> RP_PyramidingEnabled policy = true -> 0 < RP_MaxPyramidLayers policy ->
     pyramidLayers (p_positions portfolio) (OI_Instrument i) < RP_MaxPyramidLayers policy) /\
  (0 < RP_MaxConcurrentOrders policy ->
     Z.of_nat (length (p_pending portfolio)) + Z.of_nat (length A) < RP_MaxConcurrentOrders policy) /\
  (OI_Side i = Buy -> existingCount (p_positions portfolio) (OI_Instrument i) = 0 ->
     0 < RP_MaxPositions policy ->
     Z.of_nat (length (p_positions portfolio)) + countNewBuys A (p_positions portfolio) < RP_MaxPositions policy).
Proof.
  unfold authorize. intros H.
  repeat match type of H with
         | snd (if ?c then _ else _) = _ => destruct c eqn:?; [done|]
         end.
  cbn [negb] in *. split_and!; try done.
  all: intros; repeat match goal with
    | H : OI_Side _ = Buy |- _ => rewrite H in *; clear H
    | H : (_ && _)%bool = false |- _ => apply andb_false_iff in H as [H|H]
    end; bool_prop; try done; try lia; congruence.
Qed.

Lemma countNewBuys_snoc A i ps : countNewBuys (A ++ [i]) ps =
  countNewBuys A ps + (if (OI_Side i =s Buy) && (existingCount ps (OI_Instrument i) =? 0) then 1 else 0).
Proof. unfold countNewBuys. rewrite foldl_app. cbn [foldl]. destruct (_ && _); lia. Qed.

Lemma reached_counts portfolio policy done st : reached portfolio policy done st ->
  (0 < RP_MaxConcurrentOrders policy -> rl_approved st <> [] ->
     Z.of_nat (length (p_pending portfolio)) + Z.of_nat (length (rl_approved st)) <= RP_MaxConcurrentOrders policy) /\
  (0 < RP_MaxPositions policy -> 0 < countNewBuys (rl_approved st) (p_positions portfolio) ->
     Z.of_nat (length (p_positions portfolio)) + countNewBuys (rl_approved st) (p_positions portfolio)
     <= RP_MaxPositions policy).
Proof.
  induction 1 as [|done i st st' Hr IH Hd].
  - unfold initial_loop. by destruct (RiskState_Known _).
  - destruct Hd as [code ? ? ? ? -> ?|price q Ha ? ? ? ? -> ? ? ? ?]; [done|].
    apply authorize_ok in Ha as (_ & _ & _ & _ & Hcon & Hpos). destruct IH as [IH1 IH2].
    rewrite length_app, countNewBuys_snoc. cbn [length].
    pose proof (refine_fields policy i (mkQuantity (decimal (round18 q) 18))) as Hf. cbv zeta in Hf.
    destruct Hf as (_ & -> & -> & _). split.
    + intros Hm _. specialize (Hcon Hm). lia.
    + intros Hm Hn. destruct ((OI_Side i =s Buy) && _) eqn:Eb.
      * bool_prop. specialize (Hpos ltac:(done) ltac:(done) Hm). lia.
      * specialize (IH2 Hm). lia.
Qed.

(** C9. Authority and counts: research, shadow and dry-run orders are never
    approved, nor an order on an instrument with a pending order; a buy on a
    held instrument needs pyramiding and a free layer; pending and approved
    orders stay within the concurrency limit and positions plus approved new
    entries within the position limit. *)
Theorem Evaluate_authority portfolio policy batch d :
  risk_inputs portfolio policy batch -> Evaluate portfolio policy batch = Ok d ->
  let approved := intents (rd_approved d) in
  Forall (fun i =>
    not_authorized (OI_ExecutionMode i) = false /\
    pendingConflict (p_pending portfolio) i = false /\
    (OI_Side i = Buy -> 0 < existingCount (p_positions portfolio) (OI_Instrument i) ->
       RP_PyramidingEnabled policy = true) /\
    (OI_Side i = Buy -> RP_PyramidingEnabled policy = true -> 0 < RP_MaxPyramidLayers policy ->
       pyramidLayers (p_positions portfolio) (OI_Instrument i) < RP_MaxPyramidLayers policy)) approved /\
  (0 < RP_MaxConcurrentOrders policy -> approved <> [] ->
     Z.of_nat (length (p_pending portfolio)) + Z.of_nat (length approved) <= RP_MaxConcurrentOrders policy) /\
  (0 < RP_MaxPositions policy -> 0 < countNewBuys approved (p_positions portfolio) ->
     Z.of_nat (length (p_positions portfolio)) + countNewBuys approved (p_positions portfolio)
     <= RP_MaxPositions policy).
Proof.
  intros Hin H. destruct (Evaluate_states _ _ _ _ Hin H) as (_ & st & Hr & E & _). cbv zeta. rewrite E.
  split; [|by eapply reached_counts]. eapply reached_approved; [exact Hr|].
  intros i st0 price q _ Ha _ _ _ _. apply authorize_ok in Ha as (H1 & H2 & H3 & H4 & _).
  pose proof (refine_fields policy i (mkQuantity (decimal (round18 q) 18))) as Hf. cbv zeta in Hf.
  destruct Hf as (_ & Hi & Hs & _ & _ & _ & _ & Hm & _). rewrite Hi, Hs, Hm.
  split_and!; try done. unfold pendingConflict in *. by rewrite Hi.
Qed.

Lemma Evaluate_authority_witness :
  Evaluate sample_portfolio sample_policy sample_batch = Ok sample_decision /\
  Z.of_nat (length (intents (rd_approved sample_decision))) <= 4.
Proof.
  assert (E : Evaluate sample_portfolio sample_policy sample_batch = Ok sample_decision)
    by (vm_compute; reflexivity).
  split; [exact E|]. destruct (Evaluate_authority _ _ _ _ sample_inputs E) as (_ & Hc & _).
  cbv zeta in Hc. change (RP_MaxConcurrentOrders sample_policy) with 4 in Hc.
  change (length (p_pending sample_portfolio)) with 0%nat in Hc.
  apply Hc; [lia | vm_compute; discriminate].
Defined.

(** ** Cash, turnover and exposure *)

Lemma lot_exact policy q : quantity_any (RP_LotSize policy) ->
  Quantity_Valid (RP_LotSize policy) = true -> lot_multiple policy q ->
  (decimalRat (decimal (round18 q) 18) == q)%Q.
Proof.
  intros Hl Hv Hm. destruct (Hm Hv) as (n & Hn & E).
  apply Quantity_Valid_spec in Hv as (z & k & Hk & Hz & El); [|done].
  rewrite El in E. cbn [Quantity_Decimal] in E. rewrite decimalRat_decimal in *.
  assert (E' : (q == n * z # Z.to_pos (10 ^ k))%Q).
  { rewrite E. unfold SetInt, inject_Z, Qeq. cbn [Qnum Qden Qmult]. rewrite Pos.mul_1_l. lia. }
  rewrite (round18_exact q (n * z) k Hk E'), E'. unfold Qeq. cbn [Qnum Qden]. rewrite !pos_pow10 by lia.
  rewrite <- Z.mul_assoc, <- Z.pow_add_r by lia. by replace (18 - k + k) with 18 by lia.
Qed.

Section Limits.
Context (portfolio : PortfolioSnapshot) (policy : RiskPolicy).
Let positions := p_positions portfolio.
Let costs := RP_ExecutionCosts policy.
Hypothesis Hcosts : costs_ok costs.
Hypothesis Hpositions : Forall position_any positions.
Hypothesis Hlot : quantity_any (RP_LotSize policy).
Hypothesis Hvalid : Quantity_Valid (RP_LotSize policy) = true.

(** Cash an approved order takes at the adverse price with the fee; notional
    at the adverse price; exposure at the reference price. *)
Definition spend (asset : AssetID) (i : OrderIntent) : Rat :=
  if (OI_Side i =s Buy) && (I_QuoteAsset (OI_Instrument i) =s asset)
  then (quantity_of i * cash_unit portfolio policy i)%Q else 0%Q.
Definition traded (i : OrderIntent) : Rat := (quantity_of i * adverse_price portfolio policy i)%Q.
Definition exposed (i : OrderIntent) : Rat :=
  if OI_Side i =s Buy then (quantity_of i * ref_price portfolio i)%Q
  else (- (quantity_of i * ref_price portfolio i))%Q.
Definition available (asset : AssetID) : Rat :=
  match p_cash portfolio !! asset with Some a => available_cash policy a | None => 0%Q end.

Lemma refine_amounts i price q : intentPrice i positions = Some price -> lot_multiple policy q ->
  let i' := refine policy i (mkQuantity (decimal (round18 q) 18)) in
  (quantity_of i' == q /\ cash_unit portfolio policy i' == cashUnit price (OI_Side i) costs /\
   adverse_price portfolio policy i' == adversePrice price (OI_Side i) costs /\
   ref_price portfolio i' == decimalRat (Price_Decimal price))%Q /\
  OI_Side i' = OI_Side i /\ OI_Instrument i' = OI_Instrument i.
Proof.
  intros Hp Hm i'.
  pose proof (refine_fields policy i (mkQuantity (decimal (round18 q) 18))) as Hf. cbv zeta in Hf.
  fold i' in Hf. destruct Hf as (_ & Hi & Hs & _ & Hq & _).
  unfold quantity_of, cash_unit, adverse_price, ref_price, i'. rewrite intentPrice_refine.
  fold i' positions. rewrite Hp, Hs, Hi, Hq. split_and!; try done. by apply (lot_exact policy).
Qed.

Lemma reached_cash done st asset : reached portfolio policy done st ->
  match p_cash portfolio !! asset, rl_cash st !! asset with
  | Some amount, Some c =>
      (c == available asset - Qsum (spend asset) (rl_approved st))%Q
  | None, None => True
  | _, _ => False
  end /\ (Qsum (spend asset) (rl_approved st) <= Qmax 0 (available asset))%Q.
Proof.
  unfold available. induction 1 as [|done i st st' Hr IH Hd].
  - assert (H0 : rl_approved (initial_loop portfolio policy) = [])
      by (unfold initial_loop; by destruct (RiskState_Known _)).
    assert (H1 : rl_cash (initial_loop portfolio policy) = available_cash policy <$> p_cash portfolio)
      by (unfold initial_loop; by destruct (RiskState_Known _)).
    rewrite H0, H1, lookup_fmap. cbn [Qsum foldr]. split; [|apply Q.le_max_l].
    destruct (p_cash portfolio !! asset); cbn; [ring | done].
  - destruct Hd as [code ? ? ? -> -> ?|price q Ha Hp [Hq _ _ _ Hcash _] Hm Hr18 -> _ _ _ Hc]; [done|].
    destruct (refine_amounts i price q Hp Hm) as ((Eq & Eu & _) & Es & Ei).
    set (i' := refine _ _ _) in *. rewrite !Qsum_snoc.
    assert (Esp : (spend asset i' == if (OI_Side i =s Buy) && (I_QuoteAsset (OI_Instrument i) =s asset)
                     then q * cashUnit price (OI_Side i) costs else 0)%Q).
    { unfold spend. rewrite Es, Ei. destruct (_ && _); [by rewrite Eq, Eu | done]. }
    rewrite Esp. specialize (Hc asset). destruct IH as [IH1 IH2].
    destruct ((OI_Side i =s Buy) && (I_QuoteAsset (OI_Instrument i) =s asset)) eqn:Eb.
    + rewrite ?Eb in Hc. bool_prop. subst asset. destruct (Hcash ltac:(done)) as (c & Ec & Hle). rewrite Ec in *.
      destruct (p_cash portfolio !! _) as [amount|]; [|done].
      destruct (rl_cash st' !! _) as [c'|]; [|done]. split.
      { unfold costs in *. rewrite Qsum_snoc, Esp, Hc, IH1. ring. }
      eapply Qle_trans; [|apply Q.le_max_r]. unfold costs in *. lra.
    + rewrite ?Eb in Hc. destruct (p_cash portfolio !! asset) as [amount|], (rl_cash st !! asset) as [c|],
        (rl_cash st' !! asset) as [c'|]; try done.
      * split; [rewrite Qsum_snoc, Esp, Hc, IH1; ring | by rewrite Qplus_0_r].
      * split; [done | by rewrite Qplus_0_r].
Qed.

Lemma approved_nonneg i price q : intent_any i -> intentPrice i positions = Some price -> (0 < q)%Q ->
  (0 <= q * decimalRat (Price_Decimal price) /\ 0 <= q * adversePrice price (OI_Side i) costs)%Q.
Proof.
  intros Ha Hp Hq. pose proof (intentPrice_any portfolio Hpositions _ _ Ha Hp) as Hpa.
  split; apply Qmult_le_0_compat; try lra; [by apply price_nonneg | by apply adversePrice_nonneg].
Qed.

Lemma reached_limits done st : reached portfolio policy done st -> Forall intent_any done ->
  let gross0 := rl_gross (initial_loop portfolio policy) in
  let turnover0 := rl_turnover (initial_loop portfolio policy) in
  (rl_turnover st == turnover0 + Qsum traded (rl_approved st) /\
   rl_gross st == gross0 + Qsum exposed (rl_approved st))%Q /\
  (limit_on (RP_MaxTurnover policy) = true ->
     (rl_turnover st <= Qmax turnover0 (limit_value (RP_MaxTurnover policy)))%Q) /\
  (limit_on (RP_MaxGrossExposure policy) = true ->
     (rl_gross st <= Qmax gross0 (limit_value (RP_MaxGrossExposure policy)))%Q).
Proof.
  cbv zeta. induction 1 as [|done i st st' Hr IH Hd]; intros Ha.
  - assert (H0 : rl_approved (initial_loop portfolio policy) = [])
      by (unfold initial_loop; by destruct (RiskState_Known _)).
    rewrite H0. cbn [Qsum foldr]. split_and!; try ring; intros _; apply Q.le_max_l.
  - apply Forall_app in Ha as [Ha Hi]. inversion Hi as [|? ? Hi' _]; subst. specialize (IH Ha).
    destruct IH as ((IT & IG) & HT & HG).
    destruct Hd as [code ? -> -> _ -> ?|price q Hau Hp [Hq _ Hgr Htu _ _] Hm Hr18 -> _ Et Eg _]; [done|].
    destruct (refine_amounts i price q Hp Hm) as ((Eq & _ & Ea & Er) & Es & Ei).
    destruct (approved_nonneg i price q Hi' Hp ltac:(lra)) as [Hn1 Hn2].
    set (i' := refine _ _ _) in *. rewrite !Qsum_snoc.
    assert (E1 : (traded i' == q * adversePrice price (OI_Side i) costs)%Q)
      by (unfold traded; by rewrite Eq, Ea).
    assert (E2 : (exposed i' == if OI_Side i =s Buy then q * decimalRat (Price_Decimal price)
                                else - (q * decimalRat (Price_Decimal price)))%Q)
      by (unfold exposed; rewrite Es; destruct (OI_Side i =s Buy); by rewrite Eq, Er).
    split_and!.
    + unfold costs in *. rewrite Et, IT, E1. ring.
    + rewrite Eg, E2. destruct (OI_Side i =s Buy); rewrite IG; ring.
    + intros Hl. rewrite Et. eapply Qle_trans; [|apply Q.le_max_r]. by apply Htu.
    + intros Hl. rewrite Eg. destruct (OI_Side i =s Buy) eqn:Eb.
      * eapply Qle_trans; [|apply Q.le_max_r]. apply Hgr; [by apply eqb_true_eq | done].
      * specialize (HG Hl). lra.
Qed.
End Limits.





(** ** Evaluation completes *)

Lemma capBy_total r limit used unit code : (0 < unit)%Q -> exists p, capBy r limit used unit code = Ok p.
Proof.
  intros Hu. unfold capBy. repeat case_match; eauto. rewrite Quo_total by done. cbn [rbind]. eauto.
Qed.

Lemma capIntent_total quantity intent price positions gross turnover cash policy :
  costs_ok (RP_ExecutionCosts policy) -> (0 < decimalRat (Price_Decimal price))%Q ->
  exists p, capIntent quantity intent price positions gross turnover cash policy = Ok p.
Proof.
  intros Hc Hp.
  assert (Ha : (0 < adversePrice price (OI_Side intent) (RP_ExecutionCosts policy))%Q).
  { unfold adversePrice. apply Qmult_lt_0_compat; [done | by apply adverse_rat_pos]. }
  assert (Hu : (0 < cashUnit price (OI_Side intent) (RP_ExecutionCosts policy))%Q).
  { unfold cashUnit. apply Qmult_lt_0_compat; [done|]. pose proof (feeFactor_pos _ Hc). lra. }
  unfold capIntent. destruct (OI_Side intent =s Buy).
  - edestruct (capBy_total quantity) as [[r1 c1] E1]; [exact Hp|]. rewrite E1. cbn [rbind].
    case_match; [eauto|]. edestruct (capBy_total r1) as [[r2 c2] E2]; [exact Hp|]. rewrite E2. cbn [rbind].
    case_match; [eauto|]. edestruct (capBy_total r2) as [[r3 c3] E3]; [exact Ha|]. rewrite E3. cbn [rbind].
    case_match; [eauto|]. destruct cash; [|eauto]. case_match; [eauto|].
    rewrite Quo_total by done. cbn [rbind]. case_match; eauto.
  - cbn [rbind negb String.eqb]. edestruct (capBy_total quantity) as [[r3 c3] E3]; [exact Ha|]. rewrite E3.
    cbn [rbind]. repeat case_match; eauto.
Qed.

(** Every price an intent is valued at is a positive decimal. *)
Definition priced (portfolio : PortfolioSnapshot) (i : OrderIntent) : Prop :=
  forall p, intentPrice i (p_positions portfolio) = Some p -> Price_Valid p = true.

Section Total.
Context (portfolio : PortfolioSnapshot) (policy : RiskPolicy).
Hypothesis Hcosts : costs_ok (RP_ExecutionCosts policy).
Hypothesis Hlot : quantity_any (RP_LotSize policy).
Hypothesis Hpositions : Forall position_any (p_positions portfolio).

Lemma settle_total st i price q code g f : intent_any i -> OrderIntent_Validate i = Ok tt ->
  snd (authorize portfolio policy (rl_approved st) i true) = "" ->
  intentPrice i (p_positions portfolio) = Some price ->
  size_intent portfolio policy st i (Some price) (decimalRat (Quantity_Decimal (OI_Quantity i))) "" = Ok (q, code) ->
  exists st', settle portfolio policy st i (Some price) q code g f = Ok st'.
Proof.
  intros Hi Hv Ha Hp Hs. unfold settle. destruct (code =s "") eqn:Ec; cbn [negb]; [|eauto].
  apply eqb_true_eq in Ec as ->. rewrite quantityFromRat_eq.
  destruct (0 <? round18 q) eqn:E0; [|eauto]. apply Z.ltb_lt in E0.
  rewrite approved_intent_refine by (done || by apply round18_quantity).
  pose proof (refine_fields policy i (mkQuantity (decimal (round18 q) 18))) as Hf. cbv zeta in Hf.
  destruct Hf as (_ & Hin & Hsd & _). unfold reserve. rewrite Hsd, Hin.
  destruct (OI_Side i =s Buy) eqn:Eb; [|eauto]. apply eqb_true_eq in Eb.
  destruct (size_intent_spec portfolio policy Hcosts Hlot Hpositions st i price q Hi Hv Hp Hs) as [[_ _ _ _ Hc _] _].
  destruct (Hc Eb) as (c & -> & _). eauto.
Qed.

Lemma evaluate_intent_total st i : intent_any i -> OrderIntent_Validate i = Ok tt -> priced portfolio i ->
  exists st', evaluate_intent portfolio policy st i = Ok st'.
Proof.
  intros Hi Hv Hpr. unfold evaluate_intent. cbv zeta.
  destruct (authorize _ _ _ _ _) as [checks code] eqn:Ea.
  destruct (code =s "") eqn:Ec.
  - apply eqb_true_eq in Ec as ->. destruct (intentPrice i (p_positions portfolio)) as [price|] eqn:Ep.
    2: { pose proof (authorize_no_price portfolio policy (rl_approved st) i) as Hn. by rewrite Ea in Hn. }
    assert (Hpp : (0 < decimalRat (Price_Decimal price))%Q).
    { apply price_any_pos; [|by apply Hpr]. by eapply intentPrice_any. }
    assert (Hsz : exists q code, size_intent portfolio policy st i (Some price)
               (decimalRat (Quantity_Decimal (OI_Quantity i))) "" = Ok (q, code)).
    { unfold size_intent. cbn [String.eqb negb].
      edestruct capIntent_total as [[q c] E]; [exact Hcosts | exact Hpp |]. rewrite E. cbn [rbind].
      case_match; [eauto|]. pose proof (normalizedQuantity_cut q (RP_LotSize policy) Hlot) as Hn.
      destruct (normalizedQuantity q _); [eauto | eauto | done]. }
    destruct Hsz as (q & code & E). rewrite E. cbn [rbind].
    destruct (if 0 <? Rat_Sign q then _ else _) as [[[cp g] sl] f].
    edestruct settle_total as [st' Es]; [exact Hi | exact Hv | by rewrite Ea | exact Ep | exact E |].
    rewrite Es. cbn [rbind]. eauto.
  - unfold size_intent. rewrite Ec. cbn [negb rbind].
    unfold settle. rewrite Ec. cbn [negb rbind].
    destruct (intentPrice i _); [destruct (if 0 <? Rat_Sign _ then _ else _) as [[[cp g] sl] f]|]; eauto.
Qed.

Lemma evaluate_intents_total l st : Forall intent_any l -> Forall (fun i => OrderIntent_Validate i = Ok tt) l ->
  Forall (priced portfolio) l -> exists st', foldM (evaluate_intent portfolio policy) st l = Ok st'.
Proof.
  intros Ha Hv Hp. revert st. induction l as [|i l IH]; intros st; [by exists st|].
  inversion Ha; inversion Hv; inversion Hp; subst.
  destruct (evaluate_intent_total st i) as [st1 E]; [done..|]. cbn [foldM]. rewrite E. by apply IH.
Qed.
End Total.

Lemma reached_valid portfolio policy done st : reached portfolio policy done st ->
  Forall (fun i => OrderIntent_Validate i = Ok tt) done ->
  Forall (fun i => OrderIntent_Validate i = Ok tt) (rl_approved st).
Proof.
  intros Hr Hv. eapply reached_approved; [exact Hr|]. intros i st0 price q Hi _ _ _ _ Hq.
  rewrite Forall_forall in Hv. apply refine_valid; [by apply Hv | by apply round18_quantity].
Qed.



(** ** Limits of the guarantees

    Closed runs that show where the statements above need their hypotheses. *)
Definition approve_one (portfolio : PortfolioSnapshot) (policy : RiskPolicy) (l : list OrderIntent) :
    res (list (string * string)) :=
  let* b := NewDecisionBatch l in
  let* d := Evaluate portfolio policy b in
  Ok ((fun i => (OI_ID i, Decimal_String (Quantity_Decimal (OI_Quantity i)))) <$> intents (rd_approved d)).

Definition open_policy (lot : Quantity) : RiskPolicy :=
  mkPolicy "risk-v1" 0 (mkAmount (decimal 0 0)) (mkAmount (decimal 0 0)) Amount_zero Amount_zero 0 false 0 lot
    (mkCosts "costs-v1" 0 0).
Definition cash_portfolio (cash : Z) : PortfolioSnapshot :=
  mkPortfolio 20 "account" ExecutionPaper {["USDT" := mkAmount (decimal cash 0)]} [] [] RiskState_zero.

(** Without a lot size the capped quantity is rounded to the nearest 18th
    place, so the approved order can cost more than the cash it was cut to:
    0.666666666666666667 at 3 is more than 2. *)
Example cash_cap_rounds_up :
  approve_one (cash_portfolio 2) (open_policy Quantity_zero) [sample_buy "o1" sample_instrument Buy 5]
  = Ok [("o1", "0.666666666666666667")].
Proof. vm_compute. reflexivity. Qed.

(** The held quantity is compared with each order alone: two orders that each
    sell the whole position are both approved. *)
Example two_sells_of_one_position :
  approve_one sample_portfolio (open_policy (mkQuantity (decimal 1 0)))
    [sample_buy "s1" sample_eth Sell 3; sample_buy "s2" sample_eth Sell 3]
  = Ok [("s1", "3.000000000000000000"); ("s2", "3.000000000000000000")].
Proof. vm_compute. reflexivity. Qed.

(** Pyramiding and the per-position limit look at existing positions only: two
    buys of one new instrument are both approved although the policy does not
    pyramid and limits a position to 30. *)
Example two_buys_of_one_instrument :
  approve_one (cash_portfolio 100)
    (mkPolicy "risk-v1" 0 (mkAmount (decimal 0 0)) (mkAmount (decimal 30 0)) Amount_zero Amount_zero 0 false 0
       (mkQuantity (decimal 1 0)) (mkCosts "costs-v1" 0 0))
    [sample_buy "b1" sample_instrument Buy 10; sample_buy "b2" sample_instrument Buy 10]
  = Ok [("b1", "10.000000000000000000"); ("b2", "10.000000000000000000")].
Proof. vm_compute. reflexivity. Qed.

(** The basis points are added in 64 bits, so a sum past the range wraps to a
    negative number and passes the check. *)
Example costs_overflow :
  ExecutionCostPolicy_Validate (mkCosts "v" (2 ^ 63 - 1) 1) = Ok tt.
Proof. vm_compute. reflexivity. Qed.

(** A reference price is not checked when an intent is built: a present but
    zero price makes the evaluation divide by zero. *)
Example zero_reference_price_panics :
  let i := sample_buy "o1" sample_instrument Buy 5 in
  let i := mkIntent (OI_ID i) (OI_IdempotencyKey i) (OI_AccountID i) (OI_Instrument i) (OI_Side i) (OI_Type i)
             (OI_Quantity i) None (Some Price_zero) 10 20 30 ExecutionPaper QuantityExact 1 "r" "15m"
             (OI_Versions i) (OI_Provenance i) None in
  NewOrderIntent i None = Ok i /\
  approve_one (cash_portfolio 2) (open_policy (mkQuantity (decimal 1 0))) [i] = Panic "division by zero".
Proof. vm_compute. split; reflexivity. Qed.
