(* ===== verification/Brokers.v ===== *)
(** * Brokers: [internal/tradingcore/brokers.go] and [determinism.go]

    The simulated brokers (backtest and paper), which turn approved intents
    into fills, and the shadow and live brokers, which never fill. The clock and
    the id generator are an interface; the fixed clock with the sequence
    generator is the reproducible implementation. *)
From Stdlib Require Import Ascii.
From Stdlib Require Import QArith Qabs Lqa.
From stdpp Require Import base numbers strings gmap list.
From S2P Require Import Prelude GoStrings Values Exact Snapshots Contracts.
Local Open Scope Z_scope.

(** ** Clocks and id generators *)
Class Determinism (W : Type) := {
  Now : stM W Time;
  NewID : stM W string }.

(** [FixedClock] and [SequenceIDGenerator]; the counter is a [uint64]. *)
Record FixedWorld : Type := mkFixedWorld { fw_instant : Time; fw_prefix : string; fw_next : Z }.
Definition NewFixedClock (instant : Time) : Time := instant.
Definition NewSequenceIDGenerator (instant : Time) (prefix : string) (first : Z) : FixedWorld :=
  mkFixedWorld instant prefix first.
Definition SequenceIDGenerator_NewID : stM FixedWorld string := fun w =>
  let value := fw_next w in
  let w' := mkFixedWorld (fw_instant w) (fw_prefix w) ((fw_next w + 1) mod 2 ^ 64) in
  if fw_prefix w =s "" then (Ok (Itoa value), w') else (Ok (fw_prefix w +:+ "-" +:+ Itoa value), w').
#[export] Instance FixedWorld_determinism : Determinism FixedWorld := {
  Now := fun w => (Ok (fw_instant w), w);
  NewID := SequenceIDGenerator_NewID }.

(** ** Simulated execution *)
Definition ExchangeExecutionFenced : RejectionCode := "exchange_execution_fenced".
Definition BelowMinimumQuantity : RejectionCode := "below_minimum_quantity".
Definition BelowMinimumNotional : RejectionCode := "below_minimum_notional".
Definition SimulatedNoFillZeroTrades : RejectionCode := "simulated_no_fill_zero_trades".

Record CostModel : Type := mkCostModel {
  CM_FeeBPS : Z; CM_SlippageBPS : Z; CM_FillBPS : Z; CM_RejectCode : RejectionCode;
  CM_Version : string; CM_ExecutionPrice : OptionalPrice; CM_PriceTick : string;
  CM_MinQuantity : string; CM_MinNotional : string; CM_SubmittedAt : Time }.

(** [Clock] and [IDs] are interfaces that may be nil. *)
Record SimulationBroker : Type := mkSimulation {
  SB_HasClock : bool; SB_HasIDs : bool; SB_Costs : CostModel; SB_Name : string }.
Record BacktestBroker : Type := mkBacktest {
  BB_Simulation : SimulationBroker; zeroVolumeInstrument : InstrumentID;
  zeroVolumeOpen : Time; zeroVolumeClose : Time }.
Definition NewBacktestBroker (costs : CostModel) : BacktestBroker :=
  mkBacktest (mkSimulation true true costs "backtest") "" 0 0.
Definition NewPaperBroker (costs : CostModel) : SimulationBroker :=
  mkSimulation true true costs "paper".
Definition WithZeroVolumeWindow (broker : BacktestBroker) (instrument : InstrumentID)
    (open close : Time) : BacktestBroker :=
  mkBacktest (BB_Simulation broker) instrument open close.

Definition newRatBPS (value : Rat) (bps : Z) : Rat := (value * NewRat bps 10000)%Q.
Definition applyBPS (price : Price) (bps : Z) (add : bool) : res Price :=
  let factor := if add then NewRat (int64 (10000 + bps)) 10000 else NewRat (int64 (10000 - bps)) 10000 in
  let* d := ratDecimal (decimalRat (Price_Decimal price) * factor)%Q in
  NewPrice d.

Definition roundPriceAdverse (price : Price) (tickRaw : string) (side : OrderSide) : res Price :=
  match ParseDecimal tickRaw with
  | Panic w => Panic w
  | Err _ => Err (Errorf "invalid price tick %q" [tickRaw])
  | Ok tick =>
      if Decimal_Sign tick <=? 0 then Err (Errorf "invalid price tick %q" [tickRaw]) else
      let value := decimalRat (Price_Decimal price) in
      let quantum := decimalRat tick in
      let* ratio := Quo value quantum in
      let units := Z.quot (Num ratio) (Denom ratio) in
      let units := if (side =s Buy) && (Rat_Cmp (SetInt units) ratio <? 0) then units + 1 else units in
      let* rounded := ratDecimal (SetInt units * quantum)%Q in
      NewPrice rounded
  end.

(** [metadata[key]], on a map that may be nil. *)
Definition metadata_get (metadata : option (gmap string string)) (key : string) : string :=
  match metadata with Some m => default "" (m !! key) | None => "" end.
Definition cost_mismatch (costs : CostModel) (intent : OrderIntent) : bool :=
  (metadata_get (OI_metadata intent) "cost_policy_version" <>s CM_Version costs) ||
  (metadata_get (OI_metadata intent) "fee_bps" <>s Itoa (CM_FeeBPS costs)) ||
  (metadata_get (OI_metadata intent) "slippage_bps" <>s Itoa (CM_SlippageBPS costs)).

(** The price the fill starts from. *)
Definition executionPrice (costs : CostModel) (intent : OrderIntent) : option Price :=
  match CM_ExecutionPrice costs with
  | Some p => Some p
  | None => match OI_ReferencePrice intent with Some p => Some p | None => OI_LimitPrice intent end
  end.
(** [fillBPS]: zero means a complete fill. *)
Definition fillBPS (costs : CostModel) : Z := if CM_FillBPS costs =? 0 then 10000 else CM_FillBPS costs.

(** The price and quantity of the fill, before any effect. *)
Definition fillTerms (costs : CostModel) (intent : OrderIntent) : res (Price * Quantity) :=
  match executionPrice costs intent with
  | None => Err (Errorf "intent %s has no execution reference price" [OI_ID intent])
  | Some price =>
      let* fillPrice := applyBPS price (CM_SlippageBPS costs) (OI_Side intent =s Buy) in
      let* fillPrice := if CM_PriceTick costs <>s ""
                        then roundPriceAdverse fillPrice (CM_PriceTick costs) (OI_Side intent)
                        else Ok fillPrice in
      if (fillBPS costs <? 0) || (10000 <? fillBPS costs)
      then Err (Errorf "fill bps must be between 0 and 10000" []) else
      let* fillQuantity :=
        if fillBPS costs <? 10000
        then quantityFromRat (newRatBPS (decimalRat (Quantity_Decimal (OI_Quantity intent))) (fillBPS costs))
        else Ok (OI_Quantity intent) in
      Ok (fillPrice, fillQuantity)
  end.

(** The minimum checks: the rejection they end with, if any. *)
Definition belowMinimum (costs : CostModel) (fillQuantity : Quantity) (fillPrice : Price) :
    res (option (RejectionCode * string)) :=
  let* low_quantity :=
    if CM_MinQuantity costs <>s "" then
      let* minimum := ParseDecimal (CM_MinQuantity costs) in
      Ok (Rat_Cmp (decimalRat (Quantity_Decimal fillQuantity)) (decimalRat minimum) <? 0)
    else Ok false in
  if low_quantity then Ok (Some (BelowMinimumQuantity, "quantity below symbol minimum")) else
  let* low_notional :=
    if CM_MinNotional costs <>s "" then
      let* minimum := ParseDecimal (CM_MinNotional costs) in
      Ok (Rat_Cmp (notional fillQuantity fillPrice) (decimalRat minimum) <? 0)
    else Ok false in
  if low_notional then Ok (Some (BelowMinimumNotional, "fill notional below symbol minimum")) else
  Ok None.

(** When the simulated order was submitted, given the time of the fill. *)
Definition submissionTime (costs : CostModel) (intent : OrderIntent) (at_ : Time) : res Time :=
  if negb (IsZero (CM_SubmittedAt costs)) then
    if Before (CM_SubmittedAt costs) (OI_CreatedAt intent) || After (CM_SubmittedAt costs) at_
    then Err (Errorf "intent %s simulated submission lies outside order/fill interval" [OI_ID intent])
    else Ok (CM_SubmittedAt costs)
  else Ok at_.

(** The accepted order that carries the fill. *)
Definition acceptedOrder (broker : SimulationBroker) (intent : OrderIntent) (fillRaw : string)
    (fillPrice : Price) (fillQuantity : Quantity) (fee : SignedAmount) (submittedAt at_ : Time) :
    res AcceptedOrder :=
  let costs := SB_Costs broker in
  let fillID := ignore_id (NewFillID ("fill-" +:+ fillRaw)) in
  let fill :=
    mkFill fillID (OI_ID intent) (SB_Name broker +:+ "-" +:+ fillRaw) (OI_Instrument intent)
      (OI_Side intent) fillQuantity fillPrice fee (I_QuoteAsset (OI_Instrument intent))
      (OI_CreatedAt intent) submittedAt submittedAt at_ (OI_Versions intent)
      (mkProvenance (SB_Name broker +:+ "_broker") (CM_Version costs) (OI_Reason intent) "" "")
      (CM_Version costs) in
  let* (status, remaining) :=
    if fillBPS costs <? 10000 then
      let* remainingQuantity :=
        quantityFromRat (decimalRat (Quantity_Decimal (OI_Quantity intent))
                         - decimalRat (Quantity_Decimal fillQuantity))%Q in
      Ok (BrokerPartiallyFilled, SomeQuantity remainingQuantity)
    else Ok (BrokerFilled, None) in
  NewAcceptedOrder
    (mkAccepted (OI_ID intent) (SB_Name broker +:+ "-order-" +:+ OI_IdempotencyKey intent) status
       submittedAt remaining []) [fill].

Section Submit.
Context {W : Type} `{!Determinism W}.

Definition now_rejection (intent : OrderIntent) (code : RejectionCode) (message : string) :
    stM W OrderRejection :=
  let! now := Now in
  sret (mkRejection (OI_ID intent) code message now (V_Policy (OI_Versions intent))).

(** The body of the loop over [batch.Intents()]. *)
Definition submit_intent (broker : SimulationBroker) (acc : list AcceptedOrder * list OrderRejection)
    (intent : OrderIntent) : stM W (list AcceptedOrder * list OrderRejection) :=
  let '(accepted, rejected) := acc in
  let costs := SB_Costs broker in
  if cost_mismatch costs intent
  then slift (Err (Errorf "intent %s cost reservation does not match broker cost model" [OI_ID intent])) else
  if CM_RejectCode costs <>s "" then
    let! r := now_rejection intent (CM_RejectCode costs) (CM_RejectCode costs) in
    sret (accepted, rejected ++ [r])
  else
  let! (fillPrice, fillQuantity) := slift (fillTerms costs intent) in
  let! below := slift (belowMinimum costs fillQuantity fillPrice) in
  match below with
  | Some (code, message) =>
      let! r := now_rejection intent code message in
      sret (accepted, rejected ++ [r])
  | None =>
      let! fee := slift (amountFromRat (newRatBPS (notional fillQuantity fillPrice) (CM_FeeBPS costs))) in
      let! fillRaw := NewID in
      let! at_ := Now in
      let! submittedAt := slift (submissionTime costs intent at_) in
      let! order := slift (acceptedOrder broker intent fillRaw fillPrice fillQuantity fee submittedAt at_) in
      sret (accepted ++ [order], rejected)
  end.

Definition SimulationBroker_Submit (broker : SimulationBroker) (batch : DecisionBatch) :
    stM W BrokerBatchOutcome :=
  if negb (SB_HasClock broker) || negb (SB_HasIDs broker)
  then slift (Err (Errorf "simulation broker dependencies are required" [])) else
  let! (accepted, rejected) := sfoldM (submit_intent broker) ([], []) (Intents batch) in
  slift (NewBrokerBatchOutcome OutcomeComplete accepted rejected).

(** The loop of the zero-volume window: rejections and the other intents. *)
Definition zero_volume_intent (broker : BacktestBroker) (acc : list OrderRejection * list OrderIntent)
    (intent : OrderIntent) : res (list OrderRejection * list OrderIntent) :=
  let '(rejected, other) := acc in
  let costs := SB_Costs (BB_Simulation broker) in
  if I_ID (OI_Instrument intent) <>s zeroVolumeInstrument broker then Ok (rejected, other ++ [intent]) else
  if After (OI_DecisionAt intent) (zeroVolumeOpen broker) || After (OI_CreatedAt intent) (zeroVolumeOpen broker)
  then Err (Errorf "intent %s occurs after selected zero-volume open" [OI_ID intent]) else
  if cost_mismatch costs intent
  then Err (Errorf "intent %s cost reservation does not match broker cost model" [OI_ID intent]) else
  Ok (rejected ++ [mkRejection (OI_ID intent) SimulatedNoFillZeroTrades
        "simulated zero-fill/cancel: selected execution bar has zero reported base volume"
        (zeroVolumeClose broker) (V_Policy (OI_Versions intent))], other).

Definition BacktestBroker_Submit (broker : BacktestBroker) (batch : DecisionBatch) :
    stM W BrokerBatchOutcome :=
  if IsZero (zeroVolumeClose broker) then SimulationBroker_Submit (BB_Simulation broker) batch else
  if negb (SB_HasClock (BB_Simulation broker)) || negb (SB_HasIDs (BB_Simulation broker))
  then slift (Err (Errorf "simulation broker dependencies are required" [])) else
  let invalid := slift (Err (Errorf "invalid selected zero-volume execution window" [])) in
  if (zeroVolumeInstrument broker =s "") || IsZero (zeroVolumeOpen broker) ||
     negb (After (zeroVolumeClose broker) (zeroVolumeOpen broker)) then invalid else
  let! now := Now in
  if negb (now =? zeroVolumeOpen broker) then invalid else
  let! (rejected, other) := slift (foldM (zero_volume_intent broker) ([], []) (Intents batch)) in
  let! otherBatch := slift (NewDecisionBatch other) in
  let! filled := SimulationBroker_Submit (BB_Simulation broker) otherBatch in
  slift (NewBrokerBatchOutcome OutcomeComplete (bo_accepted filled) (rejected ++ bo_rejected filled)).
End Submit.

(** ** The brokers that never fill *)
Definition ShadowBroker_Submit (batch : DecisionBatch) : res BrokerBatchOutcome :=
  if negb (length (Intents batch) =? 0)%nat
  then Err (Errorf "shadow_execution_forbidden: broker received %d approved intents"
              [Itoa (Z.of_nat (length (Intents batch)))]) else
  NewBrokerBatchOutcome OutcomeComplete [] [].

Record LiveOrderRequest : Type := mkLiveRequest {
  LR_ClientOrderID : string; LR_Symbol : string; LR_Side : string; LR_Type : string;
  LR_Quantity : string; LR_LimitPrice : string; LR_PolicyVersion : string }.

(** [strings.Map] by bytes: the argument is an identity, whose characters are
    all ASCII. *)
Definition client_char (c : Ascii.ascii) : Ascii.ascii :=
  let b := byte c in
  if ((97 <=? b) && (b <=? 122)) || ((65 <=? b) && (b <=? 90)) || ((48 <=? b) && (b <=? 57)) || (b =? 45)
  then c else "-"%char.
Definition stableClientOrderID (value : string) : string :=
  let value := str_map client_char value in
  if 32 <? slen value then String.substring 0 32 value else value.

Definition BuildRequest (intent : OrderIntent) : LiveOrderRequest :=
  mkLiveRequest (stableClientOrderID (OI_IdempotencyKey intent)) (I_VenueSymbol (OI_Instrument intent))
    (ToUpper (OI_Side intent)) (ToUpper (OI_Type intent))
    (Decimal_String (Quantity_Decimal (OI_Quantity intent)))
    (match OI_LimitPrice intent with Some price => Decimal_String (Price_Decimal price) | None => "" end)
    (V_Policy (OI_Versions intent)).
Definition BuildRequests (batch : DecisionBatch) : list LiveOrderRequest := BuildRequest <$> Intents batch.

Definition LiveBroker_Submit (batch : DecisionBatch) : res BrokerBatchOutcome :=
  let rejected := (fun intent =>
    mkRejection (OI_ID intent) ExchangeExecutionFenced "durable live submission recovery is not available"
      (OI_DecisionAt intent) (V_Policy (OI_Versions intent))) <$> Intents batch in
  NewBrokerBatchOutcome OutcomeComplete [] rejected.

(** ** Prices *)
Lemma NewPrice_Ok d p : NewPrice d = Ok p -> p = mkPrice d /\ Decimal_Valid d = true /\ 0 < Decimal_Sign d.
Proof. unfold NewPrice. destruct (_ || _)%bool eqn:E; [done|]. intros [= <-]. bool_prop. done. Qed.

Lemma roundPriceAdverse_cases price tickRaw side p : price_any price ->
  roundPriceAdverse price tickRaw side = Ok p ->
  exists tick n, ParseDecimal tickRaw = Ok tick /\ (0 < decimalRat tick)%Q /\ price_any p /\
    (decimalRat (Price_Decimal p) == SetInt n * decimalRat tick)%Q /\
    if side =s Buy
    then (decimalRat (Price_Decimal price) <= decimalRat (Price_Decimal p) /\
          decimalRat (Price_Decimal p) < decimalRat (Price_Decimal price) + decimalRat tick)%Q
    else (decimalRat (Price_Decimal p) <= decimalRat (Price_Decimal price) /\
          decimalRat (Price_Decimal price) < decimalRat (Price_Decimal p) + decimalRat tick)%Q.
Proof.
  intros Hp. unfold roundPriceAdverse. destruct (ParseDecimal tickRaw) as [tick| |] eqn:Et; try done.
  destruct (Decimal_Sign tick <=? 0) eqn:Es; [done|]. bool_prop.
  destruct (ParseDecimal_wf _ _ Et) as (z & k & Hk & ->). rewrite Sign_decimal in Es.
  assert (Hz : 0 < z) by lia. pose proof (decimal_pos z k Hz) as Hq.
  set (q := decimalRat (decimal z k)) in *. set (v := decimalRat (Price_Decimal price)).
  unfold Quo. destruct (Rat_Sign q =? 0) eqn:E0; [apply Rat_Sign_zero in E0; lra|]. cbn [rbind].
  fold (steps v q).
  assert (Hv : (0 < v)%Q \/ v = (0 # 1)%Q).
  { destruct Hp as [->|(zp & kp & Hkp & Hzp & ->)]; [by right|]. left. by apply decimal_pos. }
  assert (Hsteps : (SetInt (steps v q) * q <= v)%Q /\ (v < SetInt (steps v q + 1) * q)%Q).
  { destruct Hv as [Hv|Hv]; [by apply steps_spec|]. rewrite Hv.
    assert (steps (0 # 1) q = 0) as ->.
    { unfold steps. assert (E : ((0 # 1) / q == 0)%Q) by (unfold Qdiv; ring).
      by rewrite (Num_proper _ _ E), (Denom_proper _ _ E). }
    change (SetInt 0) with 0%Q. change (SetInt (0 + 1)) with 1%Q. split; lra. }
  destruct Hsteps as [H1 H2]. set (u := steps v q) in *.
  set (n := if (side =s Buy) && _ then u + 1 else u).
  rewrite ratDecimal_round. cbn [rbind]. intros H. apply NewPrice_Ok in H as (-> & _ & Hs).
  rewrite Sign_decimal in Hs. set (r := round18 _) in *.
  assert (Er : (decimalRat (decimal r 18) == SetInt n * q)%Q).
  { rewrite decimalRat_decimal. unfold r.
    assert (E : (SetInt n * q == n * z # Z.to_pos (10 ^ k))%Q).
    { unfold q. rewrite decimalRat_decimal. unfold SetInt, inject_Z, Qeq. cbn [Qnum Qden Qmult].
      rewrite Pos.mul_1_l. lia. }
    rewrite (round18_exact _ _ k Hk E), E. unfold Qeq. cbn [Qnum Qden]. rewrite !pos_pow10 by lia.
    rewrite <- Z.mul_assoc, <- Z.pow_add_r by lia. by replace (18 - k + k) with 18 by lia. }
  exists (decimal z k), n. cbn [Price_Decimal]. fold q. split_and!; [done | done | | done |].
  { right. exists r, 18. split_and!; done || lia. }
  assert (Hsucc : (SetInt (u + 1) * q == SetInt u * q + q)%Q).
  { unfold SetInt. rewrite inject_Z_plus. ring. }
  unfold n in *. destruct (side =s Buy); cbn [andb] in *.
  - destruct (Rat_Cmp (SetInt u) (v / q) <? 0) eqn:Ec.
    + rewrite Er. apply Rat_Cmp_lt in Ec.
      assert ((SetInt u * q < v)%Q).
      { apply (Qmult_lt_compat_r _ _ q Hq) in Ec.
        assert (E : (v / q * q == v)%Q) by (field; intros Hx; rewrite Hx in Hq; by apply Qlt_irrefl in Hq).
        by rewrite E in Ec. }
      split; lra.
    + rewrite Er. apply not_true_iff_false in Ec. rewrite Rat_Cmp_lt in Ec. apply Qnot_lt_le in Ec.
      apply (Qmult_le_compat_r _ _ q) in Ec; [|lra].
      assert (E : (v / q * q == v)%Q) by (field; intros Hx; rewrite Hx in Hq; by apply Qlt_irrefl in Hq).
      rewrite E in Ec. split; lra.
  - rewrite Er. split; lra.
Qed.

Lemma applyBPS_cases price bps add p : price_any price -> 0 <= bps < 10000 ->
  applyBPS price bps add = Ok p ->
  price_any p /\
  if add then (decimalRat (Price_Decimal price) <= decimalRat (Price_Decimal p))%Q
  else (decimalRat (Price_Decimal p) <= decimalRat (Price_Decimal price))%Q.
Proof.
  intros Hp Hb. unfold applyBPS. set (factor := if add then _ else _). rewrite ratDecimal_round. cbn [rbind].
  intros H. apply NewPrice_Ok in H as (-> & _ & Hs). rewrite Sign_decimal in Hs.
  set (r := round18 _) in *. split; [right; exists r, 18; split_and!; done || lia|].
  cbn [Price_Decimal].
  assert (Hd : decimal_any (Price_Decimal price)).
  { destruct Hp as [->|(z & k & Hk & Hz & ->)]; [by left | right; by exists z, k]. }
  assert (Hv : (0 <= decimalRat (Price_Decimal price))%Q).
  { destruct Hp as [->|(z & k & Hk & Hz & ->)]; [done | by apply Qlt_le_weak, decimal_pos]. }
  set (v := decimalRat (Price_Decimal price)) in *.
  destruct (decimalRat_wf _ Hd) as (z & k & Hk & Ez). fold v in Ez.
  pose proof (round18_exact v z k Hk Ez) as Ev.
  assert (Hrv : (decimalRat (decimal (round18 v) 18) == v)%Q).
  { rewrite Ev, Ez, decimalRat_decimal. unfold Qeq. cbn [Qnum Qden]. rewrite !pos_pow10 by lia.
    rewrite <- Z.mul_assoc, <- Z.pow_add_r by lia. by replace (18 - k + k) with 18 by lia. }
  assert (Hm : forall a b, a <= b -> (decimalRat (decimal a 18) <= decimalRat (decimal b 18))%Q).
  { intros a b Hab. rewrite !decimalRat_decimal. unfold Qle. cbn [Qnum Qden]. nia. }
  unfold factor in r. destruct add.
  - rewrite <- Hrv. apply Hm, round18_mono. rewrite <- (Qmult_1_r v) at 1.
    rewrite !(Qmult_comm v). apply Qmult_le_compat_r; [|done].
    rewrite int64_id by (unfold in_int64; lia). unfold NewRat, Qle. cbn [Qnum Qden]. lia.
  - rewrite <- Hrv. apply Hm, round18_mono. rewrite <- (Qmult_1_r v) at 2.
    rewrite !(Qmult_comm v). apply Qmult_le_compat_r; [|done].
    rewrite int64_id by (unfold in_int64; lia). unfold NewRat, Qle. cbn [Qnum Qden]. lia.
Qed.

Definition opt_price (p : OptionalPrice) : Prop := match p with Some p => price_any p | None => True end.

(** Simulated prices are never better than the market: a buy fills at or
    above the price it starts from and every other order at or below it, and
    with a price tick the fill price is the adverse neighbour on the tick grid:
    a whole number of ticks, less than one tick from the slipped price. *)
Theorem fillTerms_adverse (costs : CostModel) (intent : OrderIntent) (p : Price) (q : Quantity) :
  opt_price (CM_ExecutionPrice costs) -> opt_price (OI_ReferencePrice intent) ->
  opt_price (OI_LimitPrice intent) -> 0 <= CM_SlippageBPS costs < 10000 ->
  fillTerms costs intent = Ok (p, q) ->
  exists start slipped, executionPrice costs intent = Some start /\
    applyBPS start (CM_SlippageBPS costs) (OI_Side intent =s Buy) = Ok slipped /\
    (if OI_Side intent =s Buy
     then (decimalRat (Price_Decimal start) <= decimalRat (Price_Decimal p))%Q
     else (decimalRat (Price_Decimal p) <= decimalRat (Price_Decimal start))%Q) /\
    (CM_PriceTick costs = "" -> p = slipped) /\
    (CM_PriceTick costs <> "" -> exists tick n, ParseDecimal (CM_PriceTick costs) = Ok tick /\
       (decimalRat (Price_Decimal p) == SetInt n * decimalRat tick)%Q /\
       (Qabs (decimalRat (Price_Decimal p) - decimalRat (Price_Decimal slipped)) < decimalRat tick)%Q).
Proof.
  intros He Hr Hl Hb. unfold fillTerms. destruct (executionPrice costs intent) as [start|] eqn:Ep; [|done].
  assert (Hstart : price_any start).
  { unfold executionPrice in Ep. destruct (CM_ExecutionPrice costs); [injection Ep as <-; exact He|].
    destruct (OI_ReferencePrice intent); [injection Ep as <-; exact Hr|].
    destruct (OI_LimitPrice intent); [injection Ep as <-; exact Hl | done]. }
  intros H. res_inv. rename a into slipped. exists start, slipped.
  destruct (applyBPS_cases _ _ _ _ Hstart Hb E) as [Hsl Hadv].
  destruct (CM_PriceTick costs =s "") eqn:Et; cbn [negb] in E0.
  - apply eqb_true_eq in Et. injection E0 as <-. by split_and!.
  - apply eqb_false_ne in Et.
    destruct (roundPriceAdverse_cases _ _ _ _ Hsl E0) as (tick & n & Etick & Hq & _ & En & Hside).
    split_and!; try done.
    + destruct (OI_Side intent =s Buy); lra.
    + intros _. exists tick, n. split_and!; [done | done |].
      apply Qabs_case; intros; destruct (OI_Side intent =s Buy); lra.
Qed.

Definition sample_costs : CostModel :=
  mkCostModel 10 5 6000 "" "costs-v1" None "0.01" "0.5" "1" 0.

Lemma fillTerms_adverse_witness :
  fillTerms sample_costs sample_intent =
    Ok (mkPrice (decimal 3010000000000000000 18), mkQuantity (decimal 1200000000000000000 18)) /\
  exists tick n, ParseDecimal "0.01" = Ok tick /\
    (decimalRat (decimal 3010000000000000000 18) == SetInt n * decimalRat tick)%Q.
Proof.
  assert (E : fillTerms sample_costs sample_intent =
    Ok (mkPrice (decimal 3010000000000000000 18), mkQuantity (decimal 1200000000000000000 18)))
    by (vm_compute; reflexivity).
  split; [exact E|].
  assert (Hp : opt_price (OI_ReferencePrice sample_intent))
    by (right; exists 3, 0; split_and!; reflexivity || discriminate).
  destruct (fillTerms_adverse sample_costs sample_intent _ _ I Hp I ltac:(split; [discriminate | reflexivity]) E)
    as (start & slipped & _ & _ & _ & _ & H).
  destruct H as (tick & n & Ht & Hn & _); [discriminate|]. exists tick, n. split; [exact Ht | exact Hn].
Defined.

(** ** Fills *)
Definition remaining_of (o : AcceptedOrder) : Rat :=
  match AO_Remaining o with Some r => decimalRat (Quantity_Decimal r) | None => 0%Q end.

(** An accepted order that executes an intent: one valid fill, on its side and
    instrument, which with the remaining quantity makes up the intent's. *)
Inductive executes (intent : OrderIntent) (o : AcceptedOrder) : Prop :=
| executes_intro f :
    AO_OrderID o = OI_ID intent -> AcceptedOrder_Validate o = Ok tt -> AO_fills o = [f] ->
    Fill_Validate f = Ok tt -> F_OrderID f = OI_ID intent ->
    F_Side f = OI_Side intent -> F_Instrument f = OI_Instrument intent ->
    OI_CreatedAt intent <= F_SubmittedAt f <= F_FilledAt f ->
    (0 < decimalRat (Quantity_Decimal (F_Quantity f)))%Q -> (0 <= remaining_of o)%Q ->
    (decimalRat (Quantity_Decimal (F_Quantity f)) + remaining_of o ==
     decimalRat (Quantity_Decimal (OI_Quantity intent)))%Q ->
    executes intent o.

Lemma quantityFromRat_difference q1 q2 r : quantity_any q1 -> quantity_any q2 ->
  quantityFromRat (decimalRat (Quantity_Decimal q1) - decimalRat (Quantity_Decimal q2))%Q = Ok r ->
  (0 < decimalRat (Quantity_Decimal r) /\
   decimalRat (Quantity_Decimal q2) + decimalRat (Quantity_Decimal r) == decimalRat (Quantity_Decimal q1))%Q.
Proof.
  intros H1 H2. assert (Hw : forall q, quantity_any q -> decimal_any (Quantity_Decimal q)).
  { intros q [->|(z & k & Hk & _ & ->)]; [by left | right; by exists z, k]. }
  destruct (decimalRat_wf _ (Hw _ H1)) as (z1 & k1 & Hk1 & E1).
  destruct (decimalRat_wf _ (Hw _ H2)) as (z2 & k2 & Hk2 & E2).
  set (v1 := decimalRat (Quantity_Decimal q1)) in *. set (v2 := decimalRat (Quantity_Decimal q2)) in *.
  rewrite quantityFromRat_eq. destruct (0 <? round18 (v1 - v2)) eqn:E; [|done]. intros [= <-].
  bool_prop. cbn [Quantity_Decimal]. split; [by apply decimal_pos|].
  assert (Hpow : forall k, 0 <= k <= 18 -> 10 ^ 18 = 10 ^ (18 - k) * 10 ^ k).
  { intros k Hk. rewrite <- Z.pow_add_r by lia. by replace (18 - k + k) with 18 by lia. }
  assert (Hd : (v1 - v2 == (z1 * 10 ^ (18 - k1) - z2 * 10 ^ (18 - k2)) # Z.to_pos (10 ^ 18))%Q).
  { rewrite E1, E2. unfold Qeq, Qminus, Qplus, Qopp. cbn [Qnum Qden]. rewrite Pos2Z.inj_mul, !pos_pow10 by lia.
    pose proof (Hpow k1 Hk1) as P1. pose proof (Hpow k2 Hk2) as P2.
    transitivity (z1 * 10 ^ k2 * (10 ^ (18 - k1) * 10 ^ k1) - z2 * 10 ^ k1 * (10 ^ (18 - k2) * 10 ^ k2)).
    - rewrite <- P1, <- P2. ring.
    - ring. }
  rewrite decimalRat_decimal, (round18_exact _ _ 18 ltac:(lia) Hd).
  change (10 ^ (18 - 18)) with 1. rewrite Z.mul_1_r, <- Hd. ring.
Qed.

Lemma Fill_Validate_times f : Fill_Validate f = Ok tt ->
  F_OrderedAt f <= F_SubmittedAt f <= F_AcceptedAt f /\ F_AcceptedAt f <= F_FilledAt f.
Proof. unfold Fill_Validate, Before. intros H. res_inv. bool_prop. lia. Qed.

Lemma NewAcceptedOrder_Ok o fills o' : NewAcceptedOrder o fills = Ok o' ->
  o' = set_AO_fills (SliceStable fill_less fills) o /\ AcceptedOrder_Validate o' = Ok tt /\
  Forall (fun f => Fill_Validate f = Ok tt /\ F_OrderID f = AO_OrderID o) fills.
Proof.
  unfold NewAcceptedOrder. intros H. res_inv.
  repeat match goal with u : unit |- _ => destruct u end. split_and!; try done.
  apply forM__Ok in E. eapply Forall_impl; [exact E|]. intros f Hf. unfold fill_of_order in Hf. cbn beta in Hf.
  destruct (Fill_Validate f) as [[]| |]; try done. cbn [rbind] in Hf.
  destruct (F_OrderID f =s AO_OrderID o) eqn:Eo; [|done]. by apply eqb_true_eq in Eo.
Qed.

Lemma acceptedOrder_executes broker intent raw p q fee sub at_ o :
  quantity_any (OI_Quantity intent) -> quantity_any q ->
  ((fillBPS (SB_Costs broker) <? 10000) = false -> q = OI_Quantity intent) ->
  Quantity_Valid q = true ->
  acceptedOrder broker intent raw p q fee sub at_ = Ok o -> executes intent o.
Proof.
  intros Hi Hq Hfull Hpos. unfold acceptedOrder. cbv zeta. set (fill := mkFill _ _ _ _ _ _ _ _ _ _ _ _ _ _ _ _).
  intros H. apply quantity_any_pos in Hpos as Hp0; [|done].
  destruct (fillBPS (SB_Costs broker) <? 10000) eqn:Eb; cbn [rbind] in H.
  - destruct (quantityFromRat _) as [r| |] eqn:Er; cbn [rbind] in H; try done.
    apply quantityFromRat_difference in Er as [Hr0 Er]; [|done..].
    apply NewAcceptedOrder_Ok in H as (-> & Hv & Hf). inversion Hf as [|? ? [Hfv Hfo] _]; subst.
    pose proof (Fill_Validate_times _ Hfv) as Ht. cbn in Ht.
    apply (executes_intro _ _ fill); try done; cbn; try lia.
    by apply Qlt_le_weak.
  - apply NewAcceptedOrder_Ok in H as (-> & Hv & Hf). inversion Hf as [|? ? [Hfv Hfo] _]; subst.
    pose proof (Fill_Validate_times _ Hfv) as Ht. cbn in Ht.
    apply (executes_intro _ _ fill); try done; cbn [remaining_of set_AO_fills AO_Remaining]; try (cbn; lia).
    cbn [fill F_Quantity]. rewrite (Hfull ltac:(done)). apply Qplus_0_r.
Qed.

Lemma fillTerms_quantity costs intent p q : quantity_any (OI_Quantity intent) ->
  Quantity_Valid (OI_Quantity intent) = true -> fillTerms costs intent = Ok (p, q) ->
  quantity_any q /\ Quantity_Valid q = true /\ ((fillBPS costs <? 10000) = false -> q = OI_Quantity intent).
Proof.
  intros Hi Hv. unfold fillTerms. destruct (executionPrice costs intent); [|done]. intros H. res_inv.
  destruct (fillBPS costs <? 10000); [|by injection E2 as <-].
  rewrite quantityFromRat_eq in E2. destruct (0 <? round18 _) eqn:E3; [|done]. injection E2 as <-. bool_prop.
  split_and!; [right; eexists _, 18; split_and!; [lia.. | | reflexivity]; done | | done].
  unfold Quantity_Valid. cbn [Quantity_Decimal]. rewrite Sign_decimal, Z.sgn_pos by done. done.
Qed.

Section SubmitProofs.
Context {W : Type} `{!Determinism W}.

(** What the loop has produced after the intents [done]. *)
Definition executed (done : list OrderIntent) (acc : list AcceptedOrder * list OrderRejection) : Prop :=
  (AO_OrderID <$> acc.1) ++ (OR_OrderID <$> acc.2) ≡ₚ OI_ID <$> done /\
  Forall (fun o => exists i, i ∈ done /\ executes i o) acc.1 /\
  Forall (fun r => OR_Code r <> "") acc.2.

Lemma executed_reject done acc i r : executed done acc -> OR_OrderID r = OI_ID i -> OR_Code r <> "" ->
  executed (done ++ [i]) (acc.1, acc.2 ++ [r]).
Proof.
  intros (H1 & H2 & H3) Er Hc. split_and!; cbn [fst snd].
  - rewrite !fmap_app, <- H1, app_assoc. cbn. by rewrite Er.
  - eapply Forall_impl; [exact H2|]. intros o (j & Hj & He). exists j. split; [set_solver | done].
  - apply Forall_app. split; [done|]. by constructor.
Qed.

Lemma executed_accept done acc i o : executed done acc -> executes i o ->
  executed (done ++ [i]) (acc.1 ++ [o], acc.2).
Proof.
  intros (H1 & H2 & H3) He. split_and!; cbn [fst snd]; [| |done].
  - rewrite !fmap_app, <- H1, <- !app_assoc. apply Permutation_app_head. cbn.
    destruct He as [f -> _ _ _ _ _ _ _ _ _ _]. apply Permutation_cons_append.
  - apply Forall_app. split.
    + eapply Forall_impl; [exact H2|]. intros o' (j & Hj & Hj'). exists j. split; [set_solver | done].
    + constructor; [|constructor]. exists i. split; [set_solver | done].
Qed.

Lemma now_rejection_Ok intent code message (w : W) r w' : now_rejection intent code message w = (Ok r, w') ->
  OR_OrderID r = OI_ID intent /\ OR_Code r = code.
Proof. unfold now_rejection. intros H. st_inv. done. Qed.

Lemma belowMinimum_code costs q p code message : belowMinimum costs q p = Ok (Some (code, message)) -> code <> "".
Proof. unfold belowMinimum. intros H. res_inv. destruct a; [by injection H as <-|]. res_inv. destruct a; [by injection H as <-|done]. Qed.

Lemma submit_intent_executed broker done acc i acc' (w w' : W) :
  quantity_any (OI_Quantity i) -> Quantity_Valid (OI_Quantity i) = true ->
  executed done acc -> submit_intent broker acc i w = (Ok acc', w') -> executed (done ++ [i]) acc'.
Proof.
  intros Hq Hv Hacc. unfold submit_intent. destruct acc as [accepted rejected].
  destruct (cost_mismatch _ _); [done|].
  destruct (CM_RejectCode (SB_Costs broker) =s "") eqn:Ec; cbn [negb]; intros H.
  2: { st_inv. apply now_rejection_Ok in E as [E1 E2]. apply (executed_reject done (accepted, rejected)); [done..|].
       rewrite E2. by apply eqb_false_ne. }
  st_inv. destruct a as [p q]. st_inv. destruct a as [[code message]|]; st_inv.
  - apply now_rejection_Ok in E as [E2 E3]. apply (executed_reject done (accepted, rejected)); [done..|].
    rewrite E3. by eapply belowMinimum_code.
  - apply (executed_accept done (accepted, rejected)); [done|].
    destruct (fillTerms_quantity _ _ _ _ Hq Hv E0) as (Hqa & Hqv & Hfull). eapply acceptedOrder_executes; eauto.
Qed.
End SubmitProofs.


Definition sample_costed (i : OrderIntent) : OrderIntent :=
  set_OI_metadata (Some {["cost_policy_version" := "costs-v1"; "fee_bps" := "10"; "slippage_bps" := "5"]}) i.
Definition sample_orders : DecisionBatch := mkBatch [sample_costed sample_intent2; sample_costed sample_intent].
Definition sample_paper : SimulationBroker := NewPaperBroker sample_costs.


(** ** The fenced brokers *)
Lemma client_char_ok c : let b := byte (client_char c) in
  97 <= b <= 122 \/ 65 <= b <= 90 \/ 48 <= b <= 57 \/ b = 45.
Proof.
  cbv zeta. unfold client_char. cbv zeta.
  destruct ((97 <=? byte c) && _ || _ || _ || _) eqn:E; [|right; right; right; reflexivity].
  rewrite !orb_true_iff, !andb_true_iff in E. lia.
Qed.

Lemma str_map_length f s : String.length (str_map f s) = String.length s.
Proof. induction s as [|c s IH]; cbn; [done|]. by rewrite IH. Qed.

Lemma substring_length n s : (n <= String.length s)%nat -> String.length (String.substring 0 n s) = n.
Proof.
  revert s. induction n as [|n IH]; intros s H; [by destruct s|].
  destruct s as [|c s]; cbn in *; [lia|]. rewrite IH by lia. done.
Qed.

Lemma stableClientOrderID_length v : slen (stableClientOrderID v) <= 32.
Proof.
  unfold stableClientOrderID. destruct (32 <? slen (str_map client_char v)) eqn:E; bool_prop; [|lia].
  unfold slen in *. rewrite substring_length; lia.
Qed.

(** Fenced execution: the shadow broker succeeds only on an empty batch and
    the live broker rejects every order as fenced, so neither ever reports an
    acceptance or a fill; the client order ids of the requests the live broker
    builds fit the 32 characters of the venue. *)
Theorem fenced_brokers (batch : DecisionBatch) :
  batch_wf batch -> Forall (fun i => 0 < OI_SignalAt i) (intents batch) ->
  (ShadowBroker_Submit batch = Ok (mkOutcome OutcomeComplete [] []) <-> intents batch = []) /\
  (intents batch <> [] -> exists e, ShadowBroker_Submit batch = Err e) /\
  (exists o, LiveBroker_Submit batch = Ok o /\ bo_accepted o = [] /\
     (OR_OrderID <$> bo_rejected o) ≡ₚ OI_ID <$> intents batch /\
     Forall (fun r => OR_Code r = ExchangeExecutionFenced) (bo_rejected o)) /\
  Forall (fun r => slen (LR_ClientOrderID r) <= 32) (BuildRequests batch).
Proof.
  intros [Hv _] Ht. split_and!.
  - unfold ShadowBroker_Submit, Intents. destruct (intents batch); [done|]. split; done.
  - unfold ShadowBroker_Submit, Intents. intros Hne. destruct (intents batch); [done|]. cbn. eauto.
  - unfold LiveBroker_Submit, NewBrokerBatchOutcome, Intents. cbn [negb String.eqb andb]. cbv zeta.
    set (rej := _ <$> intents batch).
    assert (Hr : forM_ rejection_check rej = Ok tt).
    { apply forM__Ok. unfold rej. apply Forall_fmap. rewrite Forall_forall in *. intros i Hi.
      specialize (Hv i Hi). specialize (Ht i Hi). cbn in Ht. unfold OrderIntent_Validate, Before in Hv. res_inv.
      cbn. unfold rejection_check. cbn. bool_prop. unfold IsZero.
      assert ((OI_ID i =s "") = false) as -> by by apply String.eqb_neq.
      assert ((OI_DecisionAt i =? 0) = false) as -> by lia. done. }
    rewrite Hr. cbn. eexists. split; [reflexivity|]. cbn. split_and!; [done | |].
    + rewrite <- (SliceStable_Permutation rejection_less rej). unfold rej. rewrite <- list_fmap_compose.
      by apply Permutation_refl'.
    + apply SliceStable_Forall. unfold rej. apply Forall_fmap. by apply Forall_true.
  - unfold BuildRequests. apply Forall_fmap, Forall_true. intros i. cbn. apply stableClientOrderID_length.
Qed.

Lemma fenced_brokers_witness :
  exists o, LiveBroker_Submit sample_orders = Ok o /\ bo_accepted o = [].
Proof.
  destruct (fenced_brokers sample_orders) as (_ & _ & (o & E & Ha & _) & _).
  - split; [|unfold ordered; repeat constructor]. repeat (constructor; [vm_compute; reflexivity|]). constructor.
  - repeat (constructor; [reflexivity|]). constructor.
  - exists o. split; [exact E | exact Ha].
Defined.
