(* ===== verification/Lifecycle.v ===== *)
(** * Lifecycle: [internal/tradingcore/exits.go] and [rollout.go]

    The exit decision shared by every mode, and the authority a model has in an
    execution mode and rollout state. *)
From stdpp Require Import base numbers strings list.
From S2P Require Import Prelude GoStrings Snapshots.
Local Open Scope Z_scope.

(** ** Exits *)
Record ExitTriggerInput : Type := mkExitInput {
  HardStop : bool; TakeProfit : bool; ATRTrailing : bool; PercentTrailing : bool;
  FallbackStop : bool; FallbackTakeProfit : bool; TimeStop : bool; Signal : bool;
  AtLoss : bool; AllowSellAtLoss : bool }.
Record ExitDecision : Type := mkExitDecision {
  Exit : bool; Reason : string; Simultaneous : list string }.

(** The anonymous struct [{active; reason; protective}]. *)
Record Trigger : Type := mkTrigger { active : bool; reason : string; protective : bool }.
Definition orderedTriggers (input : ExitTriggerInput) : list Trigger :=
  [mkTrigger (HardStop input) "stop_loss" true; mkTrigger (TakeProfit input) "take_profit" true;
   mkTrigger (ATRTrailing input) "atr_trailing_stop" true;
   mkTrigger (PercentTrailing input) "trailing_stop" true;
   mkTrigger (FallbackStop input) "stop_loss" true;
   mkTrigger (FallbackTakeProfit input) "take_profit" true;
   mkTrigger (TimeStop input) "time_stop" false; mkTrigger (Signal input) "signal_exit" false].

Definition exit_step (input : ExitTriggerInput) (result : ExitDecision) (trigger : Trigger) : ExitDecision :=
  if negb (active trigger) || (negb (protective trigger) && AtLoss input && negb (AllowSellAtLoss input))
  then result else
  let simultaneous := Simultaneous result ++ [reason trigger] in
  if negb (Exit result) then mkExitDecision true (reason trigger) simultaneous
  else mkExitDecision (Exit result) (Reason result) simultaneous.
Definition EvaluateExitLifecycle (input : ExitTriggerInput) : ExitDecision :=
  foldl (exit_step input) (mkExitDecision false "" []) (orderedTriggers input).

(** Specification: a trigger counts when it is active and, unless it is
    protective, selling at a loss is not in question. *)
Definition effective (input : ExitTriggerInput) (trigger : Trigger) : bool :=
  active trigger && (protective trigger || negb (AtLoss input) || AllowSellAtLoss input).

Lemma exit_step_effective input d t : exit_step input d t =
  if effective input t
  then mkExitDecision true (if Exit d then Reason d else reason t) (Simultaneous d ++ [reason t]) else d.
Proof.
  unfold exit_step, effective.
  destruct (active t), (protective t), (AtLoss input), (AllowSellAtLoss input), d as [[] r s]; reflexivity.
Qed.

Lemma exit_loop input l d :
  foldl (exit_step input) d l =
  let fired := reason <$> List.filter (effective input) l in
  mkExitDecision (Exit d || negb (length fired =? 0)%nat)
    (if Exit d then Reason d else List.hd (Reason d) fired) (Simultaneous d ++ fired).
Proof.
  revert d. induction l as [|t l IH]; intros d; cbn [foldl].
  { destruct d as [[] r s]; cbn; by rewrite app_nil_r. }
  rewrite IH, exit_step_effective. cbv zeta. cbn [List.filter].
  destruct (effective input t); [|done].
  destruct d as [[] r s]; cbn; rewrite <- ?app_assoc; reflexivity.
Qed.

(** Exit precedence: a position is exited exactly when some trigger counts,
    the reason is that of the first one in the fixed order (hard stop, take
    profit, trailing stops, fallbacks, time stop, signal), all of them are kept
    for audit in that order, and a protective trigger always counts, also at a
    loss. *)
Theorem EvaluateExitLifecycle_first_match (input : ExitTriggerInput) :
  let d := EvaluateExitLifecycle input in
  let fired := reason <$> List.filter (effective input) (orderedTriggers input) in
  (Exit d = true <-> exists t, t ∈ orderedTriggers input /\ effective input t = true) /\
  Simultaneous d = fired /\ Reason d = List.hd "" fired /\
  (forall t, t ∈ orderedTriggers input -> active t = true -> protective t = true -> Exit d = true) /\
  (AtLoss input = true -> AllowSellAtLoss input = false ->
     ("time_stop" ∉ Simultaneous d) /\ ("signal_exit" ∉ Simultaneous d)).
Proof.
  cbv zeta. unfold EvaluateExitLifecycle. rewrite exit_loop. cbv zeta. cbn [Exit Reason Simultaneous orb].
  set (fired := _ <$> _).
  assert (He : (negb (Nat.eqb (length fired) 0) = true) <->
               (exists t, t ∈ orderedTriggers input /\ effective input t = true)).
  { unfold fired. rewrite length_fmap. split.
    - intros H. destruct (List.filter (effective input) (orderedTriggers input)) as [|t l] eqn:E; [done|].
      exists t. rewrite list_elem_of_In, <- List.filter_In, E. by left.
    - intros (t & Ht & Hf). rewrite list_elem_of_In in Ht.
      assert (Hin : List.In t (List.filter (effective input) (orderedTriggers input)))
        by by apply List.filter_In.
      by destruct (List.filter (effective input) (orderedTriggers input)). }
  split_and!; [exact He | done | done | |].
  - intros t Ht Ha Hp. apply He. exists t. split; [done|]. unfold effective. by rewrite Ha, Hp.
  - intros Hl Hs. unfold fired.
    split; intros Hin; apply list_elem_of_fmap in Hin as (t & Er & Ht); apply list_elem_of_In, List.filter_In in Ht as [Ht Hf];
      unfold effective in Hf; rewrite Hl, Hs in Hf; cbn in Hf; rewrite orb_false_r in Hf;
      repeat (destruct Ht as [<-|Ht]; [cbn in *; try discriminate; by rewrite andb_false_r in Hf|]); done.
Qed.

(** ** Model rollout *)
Record ModelAuthority : Type := mkAuthority {
  UseModel : bool; Observe : bool; Blocked : bool; MA_Reason : string }.

Definition rollout_authorized (mode : ExecutionMode) (state : string) : bool :=
  if (mode =s ExecutionResearch) || (mode =s ExecutionShadow) then false
  else if mode =s ExecutionPaper
  then (state =s "paper") || (state =s "limited_live") || (state =s "full_live")
  else if mode =s ExecutionLimitedLive then (state =s "limited_live") || (state =s "full_live")
  else if mode =s ExecutionFullLive then state =s "full_live" else false.

Definition ResolveModelAuthority (mode : ExecutionMode) (rolloutState fallback : string)
    (modelAvailable : bool) : ModelAuthority :=
  let state := ToLower (TrimSpace rolloutState) in
  let fallback := ToLower (TrimSpace fallback) in
  let authorized := rollout_authorized mode state in
  if authorized && modelAvailable then mkAuthority true modelAvailable false "" else
  if authorized && negb modelAvailable && (fallback <>s "rule_based")
  then mkAuthority false modelAvailable true "model_unavailable_no_fallback" else
  if negb authorized && (fallback <>s "rule_based")
  then mkAuthority false modelAvailable true "rollout_not_authorized_no_fallback" else
  mkAuthority false modelAvailable false "".

(** The modes by the capital they may use; a rollout state grants authority to
    the modes of at most its level. *)
Definition mode_level (mode : ExecutionMode) : option nat :=
  if mode =s ExecutionPaper then Some 1%nat else if mode =s ExecutionLimitedLive then Some 2%nat
  else if mode =s ExecutionFullLive then Some 3%nat else None.
Definition state_level (state : string) : nat :=
  if state =s "paper" then 1%nat else if state =s "limited_live" then 2%nat
  else if state =s "full_live" then 3%nat else 0%nat.

Lemma rollout_authorized_level mode state :
  rollout_authorized mode state =
  match mode_level mode with Some n => (n <=? state_level state)%nat | None => false end.
Proof.
  unfold rollout_authorized, mode_level, state_level.
  destruct (mode =s ExecutionResearch) eqn:E1; [by apply eqb_true_eq in E1 as ->|].
  destruct (mode =s ExecutionShadow) eqn:E2; [by apply eqb_true_eq in E2 as ->|]. cbn [orb].
  destruct (state =s "paper") eqn:S1; [apply eqb_true_eq in S1 as ->|];
    [|destruct (state =s "limited_live") eqn:S2; [apply eqb_true_eq in S2 as ->|];
      [|destruct (state =s "full_live") eqn:S3]]; by repeat case_match.
Qed.

(** Model authority: a model decides exactly when it is available and the
    rollout state has reached the level of the execution mode, so never in
    research, shadow, dry-run or backtest modes; whenever it does not decide,
    entries go on only with the rule-based fallback and are blocked otherwise. *)
Theorem ResolveModelAuthority_levels (mode : ExecutionMode) (rolloutState fallback : string) (available : bool) :
  let r := ResolveModelAuthority mode rolloutState fallback available in
  (UseModel r = true <->
     available = true /\ exists n, mode_level mode = Some n /\
       (n <= state_level (ToLower (TrimSpace rolloutState)))%nat) /\
  (Blocked r = true <-> UseModel r = false /\ ToLower (TrimSpace fallback) <> "rule_based") /\
  Observe r = available /\
  (MA_Reason r <> "" <-> Blocked r = true).
Proof.
  cbv zeta. unfold ResolveModelAuthority. cbv zeta. rewrite rollout_authorized_level.
  set (state := ToLower (TrimSpace rolloutState)). set (fb := ToLower (TrimSpace fallback)).
  destruct (fb =s "rule_based") eqn:Ef; [apply eqb_true_eq in Ef | apply eqb_false_ne in Ef].
  all: destruct (mode_level mode) as [n|];
    [destruct (n <=? state_level state)%nat eqn:En; [apply Nat.leb_le in En | apply Nat.leb_gt in En]|].
  all: destruct available; cbn; split_and!; try done; split; intros; try done.
  all: repeat match goal with
       | H : _ /\ _ |- _ => destruct H
       | H : exists _, _ |- _ => destruct H
       | H : Some _ = Some _ |- _ => injection H as H; subst
       end; try done; try lia; eauto.
Qed.
