(* ===== verification/Cutover.v ===== *)
(** * Cutover: [internal/cutover/flags.go]

    The startup envelope of authority: the flags, their validation, the active
    flags of the process and the authorisation of runtime settings. The digest
    of the canonical JSON of the flags is a parameter. *)
From stdpp Require Import base numbers strings gmap list.
From S2P Require Import Prelude GoStrings.
Local Open Scope Z_scope.

Definition FlagSchemaVersion : string := "stage08-flags-v1".

Record Flags : Type := mkFlags {
  SchemaVersion : string; LedgerAuthority : string; SharedEngine : string; NewBacktest : string;
  PointInTime : string; CandidateStrategy : string; DualRun : string; Stage07Context : string }.
#[export] Instance Flags_eq_dec : EqDecision Flags. Proof. solve_decision. Defined.
Definition Flags_zero : Flags := mkFlags "" "" "" "" "" "" "" "".

Definition SafeFlags : Flags := mkFlags FlagSchemaVersion "legacy" "off" "off" "off" "off" "off" "".

Definition IsLive (f : Flags) : bool :=
  (SharedEngine f =s "limited_live") || (SharedEngine f =s "full_live") ||
  (CandidateStrategy f =s "limited_live") || (CandidateStrategy f =s "full_live").
Definition CapitalEnabled (f : Flags) : bool := (SharedEngine f =s "paper") || IsLive f.

Definition flag_checks (f : Flags) : list (string * string * list string) :=
  [("STAGE08_LEDGER_AUTHORITY", LedgerAuthority f, ["legacy"; "compare"; "authoritative"]);
   ("STAGE08_SHARED_ENGINE", SharedEngine f, ["off"; "shadow"; "paper"; "limited_live"; "full_live"]);
   ("STAGE08_NEW_BACKTEST", NewBacktest f, ["off"; "research"]);
   ("STAGE08_POINT_IN_TIME_UNIVERSE", PointInTime f, ["off"; "research"; "authoritative"]);
   ("STAGE08_CANDIDATE_STRATEGY", CandidateStrategy f,
      ["off"; "research"; "shadow"; "paper"; "limited_live"; "full_live"]);
   ("STAGE08_DUAL_RUN", DualRun f, ["off"; "observe"])].
Definition flag_check (check : string * string * list string) : res unit :=
  let '(name, value, allowed) := check in
  if negb (existsb (String.eqb value) allowed)
  then Err (Errorf "unknown or malformed %s=%q (allowed: %s)" [name; value; String.concat "," allowed])
  else Ok tt.

Definition Flags_Validate (f : Flags) : res unit :=
  if SchemaVersion f <>s FlagSchemaVersion
  then Err (Errorf "unsupported STAGE08_FLAG_SCHEMA_VERSION %q (required %q)"
              [SchemaVersion f; FlagSchemaVersion]) else
  let* _ := forM_ flag_check (flag_checks f) in
  if (DualRun f =s "observe") && (SharedEngine f =s "off")
  then Err (Errorf "STAGE08_DUAL_RUN=observe requires STAGE08_SHARED_ENGINE=shadow or stronger" []) else
  if (CandidateStrategy f <>s "off") && (CandidateStrategy f <>s "research") &&
     ((SharedEngine f =s "off") || (PointInTime f =s "off"))
  then Err (Errorf "candidate strategy shadow/capital modes require shared engine and point-in-time universe" []) else
  if (CandidateStrategy f =s "paper") && (SharedEngine f <>s "paper")
  then Err (Errorf "candidate paper requires STAGE08_SHARED_ENGINE=paper" []) else
  if (SharedEngine f =s "paper") && (LedgerAuthority f <>s "authoritative")
  then Err (Errorf "new paper requires authoritative ledger" []) else
  if (PointInTime f =s "authoritative") && (SharedEngine f =s "off")
  then Err (Errorf "authoritative point-in-time universe requires shared engine" []) else
  if IsLive f then
    if (LedgerAuthority f <>s "authoritative") || (PointInTime f <>s "authoritative") || (Stage07Context f =s "")
    then Err (Errorf "live modes require authoritative ledger/PIT universe and exact STAGE08_STAGE07_CONTEXT" []) else
    if SharedEngine f <>s CandidateStrategy f
    then Err (Errorf "live shared-engine and candidate modes must match exactly" []) else Ok tt
  else Ok tt.

(** [assign]: the normalised value of a key, or the default. *)
Definition assign (values : gmap string string) (key default : string) : string :=
  match values !! key with Some value => TrimSpace (ToLower value) | None => default end.
(** Both results are returned: the flags also when they are refused. *)
Definition Parse (values : gmap string string) : Flags * res unit :=
  let s := SafeFlags in
  let f := mkFlags (assign values "STAGE08_FLAG_SCHEMA_VERSION" (SchemaVersion s))
    (assign values "STAGE08_LEDGER_AUTHORITY" (LedgerAuthority s))
    (assign values "STAGE08_SHARED_ENGINE" (SharedEngine s))
    (assign values "STAGE08_NEW_BACKTEST" (NewBacktest s))
    (assign values "STAGE08_POINT_IN_TIME_UNIVERSE" (PointInTime s))
    (assign values "STAGE08_CANDIDATE_STRATEGY" (CandidateStrategy s))
    (assign values "STAGE08_DUAL_RUN" (DualRun s))
    (match values !! "STAGE08_STAGE07_CONTEXT" with
     | Some value => TrimSpace value
     | None => Stage07Context s
     end) in
  (f, Flags_Validate f).

Definition AuthorizeRuntimeSetting (f : Flags) (engineMode : string) : res unit :=
  let exceeds := Err (Errorf "trading_engine_mode %q exceeds validated Stage 08 authority" [engineMode]) in
  let mode := ToLower (TrimSpace engineMode) in
  if mode =s "legacy" then Ok tt else
  if mode =s "shadow_compare" then
    if (DualRun f =s "observe") && (SharedEngine f <>s "off") then Ok tt else exceeds
  else if mode =s "shared" then
    if (SharedEngine f =s "paper") && (LedgerAuthority f =s "authoritative") then Ok tt else exceeds
  else Err (Errorf "unknown trading_engine_mode %q" [engineMode]).

(** ** The active flags of the process *)
Record ActiveState : Type := mkActive {
  as_flags : Flags; as_snapshotID : string; as_authority : string; initialized : bool }.
Definition initial_active : ActiveState := mkActive Flags_zero "" "" false.

Section Active.
(** The hex digest of the canonical JSON of the flags. *)
Variable Canonical : Flags -> res string.

Definition ActivateVerified (flags : Flags) (snapshotID authority : string) (st : ActiveState) :
    res unit * ActiveState :=
  match Flags_Validate flags with
  | Ok _ =>
      let mismatch :=
        if snapshotID <>s "" then
          match Canonical flags with Ok digest => digest <>s snapshotID | _ => true end
        else false in
      if mismatch then (Err (Errorf "verified flag snapshot digest mismatch" []), st)
      else (Ok tt, mkActive flags snapshotID authority true)
  | Err e => (Err e, st)
  | Panic w => (Panic w, st)
  end.
Definition Activate (flags : Flags) (st : ActiveState) : res unit * ActiveState :=
  ActivateVerified flags "" "unverified" st.
Definition ActiveEvidence (st : ActiveState) : Flags * string * string * bool :=
  (as_flags st, as_snapshotID st, as_authority st, initialized st).
Definition Active (st : ActiveState) : Flags * bool := (as_flags st, initialized st).
Definition ResetForTest (st : ActiveState) : ActiveState := mkActive Flags_zero "" "" false.

(** The states of a process: any sequence of activations and resets. *)
Inductive active_reachable : ActiveState -> Prop :=
| active_start : active_reachable initial_active
| active_activate st flags snapshotID authority :
    active_reachable st -> active_reachable (snd (ActivateVerified flags snapshotID authority st))
| active_unverified st flags : active_reachable st -> active_reachable (snd (Activate flags st))
| active_reset st : active_reachable st -> active_reachable (ResetForTest st).
End Active.

(** ** What validated flags promise *)

Lemma Flags_Validate_inv f : Flags_Validate f = Ok tt ->
  (DualRun f = "observe" -> SharedEngine f <> "off") /\
  (CandidateStrategy f <> "off" -> CandidateStrategy f <> "research" ->
     SharedEngine f <> "off" /\ PointInTime f <> "off") /\
  (CandidateStrategy f = "paper" -> SharedEngine f = "paper") /\
  (SharedEngine f = "paper" -> LedgerAuthority f = "authoritative") /\
  (PointInTime f = "authoritative" -> SharedEngine f <> "off") /\
  (IsLive f = true -> LedgerAuthority f = "authoritative" /\ PointInTime f = "authoritative" /\
     Stage07Context f <> "" /\ SharedEngine f = CandidateStrategy f).
Proof.
  unfold Flags_Validate. intros H.
  destruct (SchemaVersion f =s FlagSchemaVersion); cbn [negb] in H; [|done].
  destruct (forM_ flag_check (flag_checks f)); cbn [rbind] in H; try done.
  repeat match type of H with
         | (if ?c then Err _ else _) = _ => let E := fresh "E" in destruct c eqn:E; [done|]
         end.
  split_and!.
  1-5: intros; repeat match goal with
    | H : ?x = _ |- _ => match type of x with string => is_var x; subst end
    end.
  - intros Hs. rewrite H0, Hs in E. done.
  - split; intros Hs; rewrite Hs in E0; apply String.eqb_neq in H0, H1; rewrite H0, H1 in E0; cbn in E0;
      [done | by rewrite orb_true_r in E0].
  - rewrite H0 in E1. cbn in E1. apply negb_false_iff in E1. by apply eqb_true_eq.
  - rewrite H0 in E2. cbn in E2. apply negb_false_iff in E2. by apply eqb_true_eq.
  - intros Hs. rewrite H0, Hs in E3. done.
  - intros Hl. rewrite Hl in H. res_inv. bool_prop. done.
Qed.

(** The authority envelope: flags that pass validation never enable capital
    (simulated or live) without the authoritative ledger, never run a candidate
    beyond research without the shared engine and a point-in-time universe, and
    go live only with matching engine and candidate modes, the authoritative
    universe and a bound validation context; a runtime setting never selects the
    shared engine beyond paper. *)
Theorem validated_flags_envelope (f : Flags) :
  Flags_Validate f = Ok tt ->
  (CapitalEnabled f = true -> LedgerAuthority f = "authoritative") /\
  (CandidateStrategy f <> "off" -> CandidateStrategy f <> "research" ->
     SharedEngine f <> "off" /\ PointInTime f <> "off") /\
  (IsLive f = true -> SharedEngine f = CandidateStrategy f /\ PointInTime f = "authoritative" /\
     Stage07Context f <> "") /\
  (forall mode, AuthorizeRuntimeSetting f mode = Ok tt ->
     ToLower (TrimSpace mode) = "legacy" \/
     (ToLower (TrimSpace mode) = "shadow_compare" /\ SharedEngine f <> "off") \/
     (ToLower (TrimSpace mode) = "shared" /\ SharedEngine f = "paper" /\ IsLive f = false)).
Proof.
  intros H. apply Flags_Validate_inv in H as (H1 & H2 & H3 & H4 & H5 & H6). split_and!; [| done | |].
  - unfold CapitalEnabled. rewrite orb_true_iff. intros [E|E]; [apply H4; by apply eqb_true_eq | by apply H6].
  - intros E. by destruct (H6 E) as (_ & ? & ? & ?).
  - intros mode. unfold AuthorizeRuntimeSetting. cbv zeta.
    destruct (ToLower (TrimSpace mode) =s "legacy") eqn:E1; [left; by apply eqb_true_eq|].
    destruct (ToLower (TrimSpace mode) =s "shadow_compare") eqn:E2.
    { intros H. res_inv. bool_prop. right; left. done. }
    destruct (ToLower (TrimSpace mode) =s "shared") eqn:E3; [|done]. intros H. res_inv.
    apply andb_true_iff in E as [Ep _]. apply eqb_true_eq in Ep, E3. right; right. split_and!; [done | done |].
    destruct (IsLive f) eqn:El; [|done]. destruct (H6 eq_refl) as (_ & _ & _ & Es).
    unfold IsLive in El. rewrite <- Es, Ep in El. done.
Qed.

Definition sample_flags : Flags :=
  mkFlags FlagSchemaVersion "authoritative" "paper" "off" "research" "paper" "observe" "".
Lemma validated_flags_envelope_witness :
  Flags_Validate sample_flags = Ok tt /\ LedgerAuthority sample_flags = "authoritative".
Proof.
  split; [reflexivity|]. apply (validated_flags_envelope sample_flags); reflexivity.
Defined.

(** The process never acts on unvalidated flags: in every state reached by
    activations and resets, initialised flags passed validation, and a verified
    snapshot id is the digest of exactly these flags; a refused activation
    leaves the active flags as they were. *)
Theorem active_flags_verified (Canonical : Flags -> res string) (st : ActiveState) :
  active_reachable Canonical st ->
  (initialized st = true ->
     Flags_Validate (as_flags st) = Ok tt /\
     (as_snapshotID st <> "" -> Canonical (as_flags st) = Ok (as_snapshotID st))) /\
  (forall flags snapshotID authority e st',
     ActivateVerified Canonical flags snapshotID authority st = (Err e, st') -> st' = st).
Proof.
  intros Hr. split.
  - assert (Hact : forall st0 flags snapshotID authority,
      (initialized st0 = true -> Flags_Validate (as_flags st0) = Ok tt /\
         (as_snapshotID st0 <> "" -> Canonical (as_flags st0) = Ok (as_snapshotID st0))) ->
      let s := snd (ActivateVerified Canonical flags snapshotID authority st0) in
      initialized s = true -> Flags_Validate (as_flags s) = Ok tt /\
         (as_snapshotID s <> "" -> Canonical (as_flags s) = Ok (as_snapshotID s))).
    { intros st0 flags sid auth IH s. unfold s, ActivateVerified.
      destruct (Flags_Validate flags) as [[]| |] eqn:Ev; try exact IH.
      destruct (sid =s "") eqn:Es; cbn [negb].
      - cbn. intros _. split; [done|]. by apply eqb_true_eq in Es.
      - destruct (Canonical flags) as [d| |] eqn:Ec; try exact IH.
        destruct (d =s sid) eqn:Ed; cbn [negb]; [|exact IH]. apply eqb_true_eq in Ed as ->. done. }
    induction Hr as [|st flags sid auth _ IH|st flags _ IH|st _ IH]; [done | by apply Hact | | done].
    unfold Activate. by apply Hact.
  - intros flags sid auth e st'. unfold ActivateVerified.
    destruct (Flags_Validate flags); [|by intros [= _ <-] | done].
    destruct (if sid <>s "" then _ else _); [by intros [= _ <-] | done].
Qed.

Lemma active_flags_verified_witness :
  let st := snd (Activate (fun _ => Ok "digest") sample_flags initial_active) in
  initialized st = true /\ Flags_Validate (as_flags st) = Ok tt.
Proof.
  cbv zeta. split; [reflexivity|].
  refine (proj1 (proj1 (active_flags_verified (fun _ => Ok "digest") _ _) _)).
  - apply active_unverified, active_start.
  - reflexivity.
Defined.
