(* ===== verification/Orchestrator.v ===== *)
(** * Orchestrator: [internal/tradingcore/orchestrator.go]

    One run of the engine: source, strategy, risk, broker, ledger and trace, in
    this order, against the interfaces of the other parts. The model keeps the
    calls that cross the interfaces, so that the theorems can say which side
    effects an outcome rules out. Time formatting and JSON encoding of the trace
    are parameters. *)
From stdpp Require Import base numbers strings gmap list.
From S2P Require Import Prelude GoStrings Values Snapshots Contracts.
Local Open Scope Z_scope.

(** ** Errors of a run *)
Abbreviation RunStage := string (only parsing).
Definition RunStageSource : RunStage := "source".
Definition RunStageStrategy : RunStage := "strategy".
Definition RunStageRisk : RunStage := "risk".
Definition RunStageBroker : RunStage := "broker".
Definition RunStageLedger : RunStage := "ledger".
Definition RunStageTrace : RunStage := "trace".

(** [errors.As(err, &runErr)]: the outermost [RunError] of the chain. *)
Fixpoint as_run_error (err : error) : option (RunStage * bool) :=
  match err with
  | RunError stage sideEffects _ => Some (stage, sideEffects)
  | Wrapf _ _ cause => as_run_error cause
  | LedgerErrorWith _ _ _ cause => as_run_error cause
  | _ => None
  end.
Definition IsPreSubmissionFailure (err : error) : bool :=
  match as_run_error err with
  | Some (stage, sideEffects) =>
      negb sideEffects &&
      ((stage =s RunStageSource) || (stage =s RunStageStrategy) || (stage =s RunStageRisk))
  | None => false
  end.
Definition runError (stage : RunStage) (sideEffects : bool) (err : error) : error :=
  RunError stage sideEffects err.

Record Observation : Type := mkObservation {
  Ob_Stage : string; Ob_Code : string; Ob_OrderID : OrderID; Ob_Metadata : option (gmap string string) }.

(** ** The run trace *)
Record traceIntent : Type := mkTraceIntent {
  TI_ID : string; TI_Symbol : string; TI_Side : string; TI_Quantity : string; TI_Reason : string;
  TI_Engine : string; TI_Strategy : string; TI_Policy : string; TI_Model : string; TI_Dataset : string;
  TI_Universe : string; TI_FlagSchema : string; TI_SignalAt : string; TI_DecisionAt : string; TI_OrderAt : string }.
Record traceRejection : Type := mkTraceRejection { TR_ID : string; TR_Code : string; TR_Policy : string }.
Record traceNoAction : Type := mkTraceNoAction {
  TN_Symbol : string; TN_Code : string; TN_Reason : string; TN_Score : string }.
Record traceFill : Type := mkTraceFill {
  TF_ID : string; TF_OrderID : string; TF_ProviderFillID : string; TF_Quantity : string; TF_Price : string;
  TF_Fee : string; TF_FeeAsset : string; TF_CostModelVersion : string; TF_OrderedAt : string;
  TF_SubmittedAt : string; TF_AcceptedAt : string; TF_FilledAt : string }.
Record traceAccepted : Type := mkTraceAccepted {
  TA_OrderID : string; TA_ProviderOrderID : string; TA_Status : string; TA_Remaining : string;
  TA_Fills : list traceFill }.
Record runTrace : Type := mkRunTrace {
  RT_DecisionAt : string; RT_Strategy : list traceIntent; RT_NoActions : list traceNoAction;
  RT_RiskApproved : list traceIntent; RT_RiskRejected : list traceRejection; RT_RiskTrace : list RiskTrace;
  RT_BrokerCompleteness : OutcomeCompleteness; RT_BrokerAccepted : list traceAccepted;
  RT_BrokerRejected : list traceRejection }.

Record RunResult : Type := mkRunResult {
  RR_Strategy : StrategyResult; RR_Risk : RiskDecision; RR_Broker : BrokerBatchOutcome; RR_Trace : string }.

Section Trace.
(** [t.UTC().Format(time.RFC3339Nano)] and [json.Marshal]. *)
Variable FormatTime : Time -> string.
Variable Marshal : runTrace -> res string.

Definition intentTrace (intent : OrderIntent) : traceIntent :=
  let v := OI_Versions intent in
  mkTraceIntent (OI_ID intent) (I_VenueSymbol (OI_Instrument intent)) (OI_Side intent)
    (Decimal_String (Quantity_Decimal (OI_Quantity intent))) (OI_Reason intent) (V_Engine v) (V_Strategy v)
    (V_Policy v) (V_Model v) (V_Dataset v) (V_Universe v) (V_FlagSchema v)
    (FormatTime (OI_SignalAt intent)) (FormatTime (OI_DecisionAt intent)) (FormatTime (OI_CreatedAt intent)).
Definition rejectionTrace (rejected : OrderRejection) : traceRejection :=
  mkTraceRejection (OR_OrderID rejected) (OR_Code rejected) (OR_PolicyVersion rejected).
Definition fillTrace (fill : Fill) : traceFill :=
  mkTraceFill (F_ID fill) (F_OrderID fill) (F_ProviderFillID fill)
    (Decimal_String (Quantity_Decimal (F_Quantity fill))) (Decimal_String (Price_Decimal (F_Price fill)))
    (Decimal_String (Amount_Decimal (F_Fee fill))) (F_FeeAsset fill) (F_CostModelVersion fill)
    (FormatTime (F_OrderedAt fill)) (FormatTime (F_SubmittedAt fill)) (FormatTime (F_AcceptedAt fill))
    (FormatTime (F_FilledAt fill)).
Definition acceptedTrace (accepted : AcceptedOrder) : traceAccepted :=
  mkTraceAccepted (AO_OrderID accepted) (AO_ProviderOrderID accepted) (AO_Status accepted)
    (match AO_Remaining accepted with Some r => Decimal_String (Quantity_Decimal r) | None => "" end)
    (fillTrace <$> Fills accepted).
Definition noActionTrace (noAction : NoAction) : traceNoAction :=
  mkTraceNoAction (I_VenueSymbol (NA_Instrument noAction)) (NA_Code noAction) (NA_Reason noAction)
    (Decimal_String (NA_ObservedScore noAction)).
Definition stableRunTrace (snapshot : DecisionContext) (strategy : StrategyResult) (risk : RiskDecision)
    (broker : BrokerBatchOutcome) : res string :=
  Marshal
    (mkRunTrace (FormatTime (decisionAt snapshot)) (intentTrace <$> Intents (StrategyResult_Intents strategy))
       (noActionTrace <$> NoActions strategy) (intentTrace <$> Intents (Approved risk))
       (rejectionTrace <$> Rejected risk) (Trace risk) (bo_completeness broker)
       (acceptedTrace <$> bo_accepted broker) (rejectionTrace <$> bo_rejected broker)).

(** ** The run *)

(** The calls that cross the interfaces, with what they carry. *)
Inductive Call : Type :=
| CallSource
| CallStrategy
| CallRisk
| CallSubmit (batch : DecisionBatch)
| CallRecord (batch : DecisionBatch) (outcome : BrokerBatchOutcome)
| CallObserve (observation : Observation).

Section Run.
Context {W : Type}.

(** The dependencies; each interface may be nil. *)
Record Orchestrator : Type := mkOrchestrator {
  Source : option (stM W (DecisionContext * RiskPolicy));
  Strategy : option (DecisionContext -> stM W StrategyResult);
  Risk : option (DecisionBatch -> PortfolioSnapshot -> RiskPolicy -> stM W RiskDecision);
  Broker : option (DecisionBatch -> stM W BrokerBatchOutcome);
  Ledger : option (DecisionBatch -> BrokerBatchOutcome -> stM W unit);
  Observer : option (Observation -> stM W unit) }.

Abbreviation M := (stM (W * list Call)).

(** Call a dependency: it changes the world and leaves its call in the log. *)
Definition call {A} (c : Call) (m : stM W A) : M A := fun '(w, log) =>
  let (r, w') := m w in (r, (w', log ++ [c])).
(** [if err != nil { return RunResult{}, runError(stage, sideEffects, err) }]. *)
Definition staged {A} (stage : RunStage) (sideEffects : bool) (m : M A) : M A := fun s =>
  match m s with
  | (Err e, s') => (Err (runError stage sideEffects e), s')
  | r => r
  end.

(** The observer's error is dropped; a panic is not. *)
Definition observe (runner : Orchestrator) (observation : Observation) : M unit := fun s =>
  match Observer runner with
  | None => (Ok tt, s)
  | Some o =>
      match call (CallObserve observation) (o observation) s with
      | (Panic w, s') => (Panic w, s')
      | (_, s') => (Ok tt, s')
      end
  end.
Fixpoint observe_all (runner : Orchestrator) (observations : list Observation) : M unit :=
  match observations with
  | [] => sret tt
  | o :: l => let! _ := observe runner o in observe_all runner l
  end.

Definition noActionObservation (noAction : NoAction) : Observation :=
  mkObservation "strategy" (NA_Code noAction) "" (Some {["instrument" := I_ID (NA_Instrument noAction)]}).
Definition rejectionObservation (stage : string) (rejection : OrderRejection) : Observation :=
  mkObservation stage (OR_Code rejection) (OR_OrderID rejection) None.

Definition Run (runner : Orchestrator) : M RunResult :=
  match Source runner, Strategy runner, Risk runner, Broker runner, Ledger runner with
  | Some source, Some strategy, Some risk, Some broker, Some ledger =>
      let! (snapshot, policy) := staged RunStageSource false (call CallSource source) in
      let! strategyResult := staged RunStageStrategy false (call CallStrategy (strategy snapshot)) in
      let! _ := observe_all runner (noActionObservation <$> NoActions strategyResult) in
      let! riskResult := staged RunStageRisk false
        (call CallRisk (risk (StrategyResult_Intents strategyResult) (Portfolio snapshot) policy)) in
      let! _ := observe_all runner (rejectionObservation "risk" <$> Rejected riskResult) in
      let! brokerResult := staged RunStageBroker true
        (call (CallSubmit (Approved riskResult)) (broker (Approved riskResult))) in
      let! _ := observe_all runner (rejectionObservation "broker" <$> bo_rejected brokerResult) in
      let! _ := staged RunStageLedger true
        (call (CallRecord (Approved riskResult) brokerResult) (ledger (Approved riskResult) brokerResult)) in
      let! trace := staged RunStageTrace true
        (slift (stableRunTrace snapshot strategyResult riskResult brokerResult)) in
      sret (mkRunResult strategyResult riskResult brokerResult trace)
  | _, _, _, _, _ => slift (Err (Errorf "orchestrator dependencies are required" []))
  end.
End Run.
End Trace.

(** ** Which calls an outcome implies *)
Definition is_observe (c : Call) : bool := match c with CallObserve _ => true | _ => false end.
(** The calls that are not observations. *)
Definition effects (calls : list Call) : list Call := List.filter (fun c => negb (is_observe c)) calls.

Lemma effects_app l1 l2 : effects (l1 ++ l2) = effects l1 ++ effects l2.
Proof. apply List.filter_app. Qed.

Section RunProofs.
Context {W : Type} (FormatTime : Time -> string) (Marshal : runTrace -> res string).

Lemma staged_call {A} stage fx c (m : stM W A) w log :
  staged stage fx (call c m) (w, log) =
  match m w with
  | (Ok a, w') => (Ok a, (w', log ++ [c]))
  | (Err e, w') => (Err (runError stage fx e), (w', log ++ [c]))
  | (Panic x, w') => (Panic x, (w', log ++ [c]))
  end.
Proof. unfold staged, call. destruct (m w) as [[a|e|x] w']; reflexivity. Qed.

Lemma observe_all_spec (runner : Orchestrator (W := W)) os w log :
  exists r w' obs, observe_all runner os (w, log) = (r, (w', log ++ obs)) /\ effects obs = [] /\
    (r = Ok tt \/ exists x, r = Panic x).
Proof.
  revert w log. induction os as [|o os IH]; intros w log; cbn [observe_all].
  { exists (Ok tt), w, []. rewrite app_nil_r. eauto. }
  unfold sbind, observe. destruct (Observer runner) as [ob|].
  2: { apply IH. }
  unfold call. destruct (ob o w) as [[a|e|x] w1].
  1-2: destruct (IH w1 (log ++ [CallObserve o])) as (r & w' & obs & E & Ho & Hr);
    exists r, w', (CallObserve o :: obs); rewrite E, <- app_assoc; eauto.
  exists (Panic x), w1, [CallObserve o]. eauto.
Qed.

(** The effectful calls of a run, as far as it got. *)
Definition full_run (b : DecisionBatch) (o : BrokerBatchOutcome) : list Call :=
  [CallSource; CallStrategy; CallRisk; CallSubmit b; CallRecord b o].

Inductive run_outcome (runner : Orchestrator (W := W)) : res RunResult -> list Call -> Prop :=
| run_ok result calls :
    effects calls = full_run (Approved (RR_Risk result)) (RR_Broker result) ->
    run_outcome runner (Ok result) calls
| run_before e calls n b o : (0 < n <= 3)%nat ->
    effects calls = take n (full_run b o) -> IsPreSubmissionFailure e = true ->
    run_outcome runner (Err e) calls
| run_after e calls n b o : (4 <= n)%nat ->
    effects calls = take n (full_run b o) -> IsPreSubmissionFailure e = false ->
    run_outcome runner (Err e) calls
| run_missing e : IsPreSubmissionFailure e = false ->
    Source runner = None \/ Strategy runner = None \/ Risk runner = None \/
    Broker runner = None \/ Ledger runner = None ->
    run_outcome runner (Err e) []
| run_panic x calls n b o : effects calls = take n (full_run b o) -> run_outcome runner (Panic x) calls.

(** Close a way the run can stop: [con] after [n] calls. *)
Ltac run_stop con n b o :=
  intros [= <- <- <-]; rewrite <- ?app_assoc; eexists; (split; [reflexivity|]);
  eapply (con _ _ _ n b o); try lia; try done;
  rewrite ?effects_app; repeat match goal with H : effects _ = [] |- _ => rewrite H end; done.
Ltac run_missing_dep := intros [= <- <- <-]; exists []; rewrite app_nil_r; (split; [done|]); apply run_missing; auto 6.
(** Step over the observations, which add no effect. *)
Ltac run_observe n b o :=
  unfold sbind at 1;
  match goal with |- context [observe_all ?runner ?os (?w, ?l)] =>
    let r := fresh "r" in let w' := fresh "w" in let obs := fresh "obs" in let E := fresh "E" in
    let H := fresh "H" in let x := fresh "x" in
    destruct (observe_all_spec runner os w l) as (r & w' & obs & E & H & [->|[x ->]]); rewrite E;
    [| run_stop run_panic n b o]
  end.

Lemma Run_outcome (runner : Orchestrator (W := W)) w log r w' log' :
  Run FormatTime Marshal runner (w, log) = (r, (w', log')) ->
  exists calls, log' = log ++ calls /\ run_outcome runner r calls.
Proof.
  unfold Run. destruct (Source runner) as [source|] eqn:D1; [|run_missing_dep].
  destruct (Strategy runner) as [strategy|] eqn:D2; [|run_missing_dep].
  destruct (Risk runner) as [risk|] eqn:D3; [|run_missing_dep].
  destruct (Broker runner) as [broker|] eqn:D4; [|run_missing_dep].
  destruct (Ledger runner) as [ledger|] eqn:D5; [|run_missing_dep]. clear D1 D2 D3 D4 D5.
  set (b0 := mkBatch []). set (o0 := mkOutcome "" [] []).
  unfold sbind at 1. rewrite staged_call. destruct (source w) as [[[snapshot policy]|e|x] w1];
    [| run_stop run_before 1%nat b0 o0 | run_stop run_panic 1%nat b0 o0].
  unfold sbind at 1. rewrite staged_call. destruct (strategy snapshot w1) as [[sr|e|x] w2];
    [| run_stop run_before 2%nat b0 o0 | run_stop run_panic 2%nat b0 o0].
  run_observe 2%nat b0 o0.
  unfold sbind at 1. rewrite staged_call. destruct (risk _ _ _ _) as [[rd|e|x] w4];
    [| run_stop run_before 3%nat b0 o0 | run_stop run_panic 3%nat b0 o0].
  run_observe 3%nat b0 o0.
  unfold sbind at 1. rewrite staged_call. destruct (broker _ _) as [[o|e|x] w6];
    [| run_stop run_after 4%nat (Approved rd) o0 | run_stop run_panic 4%nat (Approved rd) o0].
  run_observe 4%nat (Approved rd) o0.
  unfold sbind at 1. rewrite staged_call. destruct (ledger _ _ _) as [[u|e|x] w8];
    [| run_stop run_after 5%nat (Approved rd) o | run_stop run_panic 5%nat (Approved rd) o].
  unfold sbind, staged, slift. destruct (stableRunTrace _ _ snapshot sr rd o) as [t|e|x];
    [| run_stop run_after 5%nat (Approved rd) o | run_stop run_panic 5%nat (Approved rd) o].
  intros [= <- <- <-]. rewrite <- !app_assoc. eexists. split; [reflexivity|]. apply run_ok.
  rewrite !effects_app. repeat match goal with H : effects _ = [] |- _ => rewrite H end. done.
Qed.

Lemma effects_elem c calls : is_observe c = false -> (c ∈ calls <-> c ∈ effects calls).
Proof.
  intros Hc. rewrite !list_elem_of_In. unfold effects. rewrite List.filter_In, Hc. tauto.
Qed.

(** The cases of membership in an explicit list of calls. *)
Ltac take_inv H :=
  cbn [take] in H; rewrite ?take_nil in H;
  repeat (apply elem_of_cons in H as [H|H]; [try discriminate H|]); try (by apply elem_of_nil in H).
Lemma take_full_run_submit n b o b' :
  CallSubmit b' ∈ take n (full_run b o) -> b' = b /\ (4 <= n)%nat.
Proof.
  unfold full_run. intros H. do 5 (destruct n as [|n]; [take_inv H; (split; [congruence | lia])|]).
  take_inv H; (split; [congruence | lia]).
Qed.
Lemma take_full_run_record n b o b' o' :
  CallRecord b' o' ∈ take n (full_run b o) -> b' = b /\ o' = o /\ (5 <= n)%nat.
Proof.
  unfold full_run. intros H. do 5 (destruct n as [|n]; [take_inv H; (split_and!; [congruence.. | lia])|]).
  take_inv H; (split_and!; [congruence.. | lia]).
Qed.
End RunProofs.


Definition failing_runner : Orchestrator (W := unit) :=
  mkOrchestrator (Some (fun w => (Err (Errorf "no market data" []), w)))
    (Some (fun _ w => (Ok (NewStrategyResult (mkBatch []) []), w)))
    (Some (fun _ _ _ w => (Ok (NewRiskDecision (mkBatch []) []), w)))
    (Some (fun _ w => (Ok (mkOutcome OutcomeComplete [] []), w))) (Some (fun _ _ w => (Ok tt, w))) None.

