(* ===== verification/Engine.v ===== *)
(** * Engine: the parts of the trading core put together

    The risk engine and the paper broker behind the interfaces of the
    orchestrator, as the program composes them: the cost reservation that links
    the two, and a run of the whole pipeline. *)
From Stdlib Require Import QArith.
From stdpp Require Import base numbers strings gmap list.
From S2P Require Import Prelude GoStrings Values Exact Snapshots Contracts Risk RiskProofs RiskBatch.
From S2P Require Import Brokers Orchestrator.
Local Open Scope Z_scope.

(** [FixedStrategy.Decide] and the two engine parts as dependencies of a run. *)
Definition FixedStrategy_Decide (result : StrategyResult) (_ : DecisionContext) : res StrategyResult :=
  Ok result.
Definition paper_engine (source : DecisionContext * RiskPolicy) (strategy : StrategyResult)
    (broker : SimulationBroker) : Orchestrator (W := FixedWorld) :=
  mkOrchestrator (Some (sret source)) (Some (fun c => slift (FixedStrategy_Decide strategy c)))
    (Some (fun batch portfolio policy => slift (Evaluate portfolio policy batch)))
    (Some (SimulationBroker_Submit broker)) (Some (fun _ _ => sret tt)) None.

(** ** The cost reservation *)
Lemma with_costs_get policy m k : metadata_get (Some (with_costs policy m)) k =
  let costs := RP_ExecutionCosts policy in
  if k =s "slippage_bps" then Itoa (C_AdverseSlippageBPS costs) else
  if k =s "fee_bps" then Itoa (C_FeeBPS costs) else
  if k =s "cost_policy_version" then C_Version costs else metadata_get m k.
Proof.
  unfold with_costs, metadata_get. cbv zeta.
  destruct (k =s "slippage_bps") eqn:E1.
  { apply eqb_true_eq in E1 as ->. by rewrite lookup_insert_eq. }
  apply eqb_false_ne in E1. rewrite lookup_insert_ne by done.
  destruct (k =s "fee_bps") eqn:E2.
  { apply eqb_true_eq in E2 as ->. by rewrite lookup_insert_eq. }
  apply eqb_false_ne in E2. rewrite lookup_insert_ne by done.
  destruct (k =s "cost_policy_version") eqn:E3.
  { apply eqb_true_eq in E3 as ->. by rewrite lookup_insert_eq. }
  apply eqb_false_ne in E3. rewrite lookup_insert_ne by done. by destruct m.
Qed.

(** The costs a broker fills with are those the policy reserved. *)
Definition costs_agree (policy : RiskPolicy) (costs : CostModel) : Prop :=
  CM_Version costs = C_Version (RP_ExecutionCosts policy) /\
  CM_FeeBPS costs = C_FeeBPS (RP_ExecutionCosts policy) /\
  CM_SlippageBPS costs = C_AdverseSlippageBPS (RP_ExecutionCosts policy).

(** The cost handshake: an approved order passes the broker's check of its
    cost reservation exactly when the broker's cost model has the version, fee
    and slippage of the policy the order was approved under, so a broker with
    other costs can never fill an approved order. *)
Theorem approved_cost_handshake portfolio policy batch d (costs : CostModel) :
  risk_inputs portfolio policy batch -> Evaluate portfolio policy batch = Ok d ->
  Forall (fun i => cost_mismatch costs i = false <-> costs_agree policy costs) (intents (rd_approved d)).
Proof.
  intros Hin H. destruct (Evaluate_states _ _ _ _ Hin H) as (_ & st & Hr & -> & _).
  eapply reached_approved; [exact Hr|]. intros i st0 price q _ _ _ _ _ _.
  pose proof (refine_fields policy i (mkQuantity (decimal (round18 q) 18))) as Hf. cbv zeta in Hf.
  unfold cost_mismatch, costs_agree.
  assert (Hm : OI_metadata (refine policy i (mkQuantity (decimal (round18 q) 18))) =
               Some (with_costs policy (OI_metadata i))) by apply Hf.
  rewrite Hm, !with_costs_get. cbn [String.eqb Ascii.eqb Bool.eqb]. cbv zeta.
  rewrite !orb_false_iff, !negb_false_iff, !String.eqb_eq. split.
  - intros [[Hv Hfee] Hs]. apply Itoa_inj in Hfee, Hs. done.
  - intros (Hv & Hfee & Hs). by rewrite Hv, Hfee, Hs.
Qed.

Definition handshake_costs : CostModel := mkCostModel 10 5 0 "" "costs-v1" None "" "" "" 0.
Lemma approved_cost_handshake_witness :
  Evaluate sample_portfolio sample_policy sample_batch = Ok sample_decision /\
  Forall (fun i => cost_mismatch handshake_costs i = false) (intents (rd_approved sample_decision)).
Proof.
  assert (E : Evaluate sample_portfolio sample_policy sample_batch = Ok sample_decision)
    by (vm_compute; reflexivity).
  split; [exact E|].
  eapply Forall_impl; [exact (approved_cost_handshake _ _ _ _ handshake_costs sample_inputs E)|].
  intros i Hi. apply Hi. split; [reflexivity | split; reflexivity].
Defined.

(** ** A run of the whole pipeline *)
Example paper_run :
  let strategy := NewStrategyResult (mkBatch [sample_buy "o1" sample_instrument Buy 70]) [] in
  match NewDecisionContext sample_context with
  | Ok context =>
      match Run (fun _ => "") (fun _ => Ok "trace")
              (paper_engine (context, sample_policy) strategy (NewPaperBroker handshake_costs))
              (NewSequenceIDGenerator 50 "id" 1, []) with
      | (Ok result, (world, calls)) =>
          ((fun o => (AO_OrderID o, AO_Status o, (fun f => F_ID f) <$> Fills o)) <$> bo_accepted (RR_Broker result))
            = [("o1", "filled", ["fill-id-1"])] /\ fw_next world = 2 /\ length calls = 5%nat
      | _ => False
      end
  | _ => False
  end.
Proof. vm_compute. split_and!; reflexivity. Qed.
