(* ===== verification/Strategy.v ===== *)
(** * Strategy: the legacy rule strategy of [internal/tradingcore/strategy.go]

    Every candidate of the universe becomes one entry intent or one no-action
    with the code of the first gate it fails. Time formatting and parsing,
    SHA-256 and the printed text of an error are parameters. *)
From Stdlib Require Import Ascii QArith SpecFloat.
From stdpp Require Import base numbers strings gmap list.
From S2P Require Import Prelude GoStrings GoFloat GoFormat Values Exact Snapshots Contracts Lifecycle.
Local Open Scope Z_scope.

Definition LegacyStrategyVersion : string := "legacy-rule-v1".

(** ** Settings *)
Definition setting (settings : gmap string string) (key : string) : string := default "" (settings !! key).
Definition value (settings : gmap string string) (key fallback : string) : string :=
  let v := TrimSpace (setting settings key) in if v <>s "" then v else fallback.
Definition boolSetting (settings : gmap string string) (key : string) (fallback : bool) : bool :=
  match settings !! key with
  | None => fallback
  | Some v => default fallback (ParseBool v)
  end.
Definition floatSetting (settings : gmap string string) (key : string) (fallback : float64) : float64 :=
  default fallback (ParseFloat (setting settings key)).
Definition intSetting (settings : gmap string string) (key : string) (fallback : Z) : Z :=
  default fallback (Atoi (setting settings key)).

(** ** Position sizes *)

(** [Rat.SetString] on the texts that [FormatFloat] prints: an optional minus,
    digits and optional decimals; not "NaN" or an infinity. *)
Definition Rat_SetString (s : string) : option Rat :=
  let negative := HasPrefix s "-" in
  let body := if negative then TrimPrefix s "-" else s in
  let sign (n : Z) := if negative then - n else n in
  match Split "." body with
  | [w] => if negb (w =s "") && str_all is_digit w then Some (inject_Z (sign (digits_val w))) else None
  | [w; f] =>
      if negb (w =s "") && str_all is_digit w && negb (f =s "") && str_all is_digit f
      then Some (sign (digits_val (w +:+ f)) # Z.to_pos (10 ^ slen f)) else None
  | _ => None
  end.
(** [Mul] with the nil rational of a failed [SetString] panics. *)
Definition newRatPercent (value : Rat) (percent : float64) : res Rat :=
  match Rat_SetString (FormatFloat (fdiv percent (f_of_Z 100))) with
  | Some p => Ok (value * p)%Q
  | None => Panic "nil pointer dereference"
  end.
Definition newRatDiv (a b : Rat) : res Rat := Quo a b.

(** ** The gates *)
Definition position_of (portfolio : PortfolioSnapshot) (id_ : InstrumentID) : bool :=
  existsb (fun position => I_ID (Pos_Instrument position) =s id_) (p_positions portfolio).
Definition model_authority (settings : gmap string string) (portfolio : PortfolioSnapshot) : ModelAuthority :=
  ResolveModelAuthority (p_executionMode portfolio) (value settings "model_rollout_state" "shadow")
    (value settings "model_fallback_mode" "rule_based") (boolSetting settings "model_available" false).
Definition legacyEntryGate (settings : gmap string string) (id_ : string) (portfolio : PortfolioSnapshot)
    (instrument : Instrument) : string :=
  if boolSetting settings ("analysis_error." +:+ id_) false then "analysis_error" else
  if negb (boolSetting settings "auto_trade_enabled" false) then "auto_trade_disabled" else
  if boolSetting settings "universe_risk_off" false then "universe_regime_risk_off" else
  let authority := model_authority settings portfolio in
  if Blocked authority then MA_Reason authority else
  if UseModel authority && negb (boolSetting settings ("model_selected." +:+ id_) false)
  then "model_policy_not_selected" else
  let signal := ToUpper (value settings ("signal." +:+ id_) "NEUTRAL") in
  if negb (UseModel authority) && boolSetting settings "buy_only_strong" false && (signal <>s "STRONG_BUY")
  then "signal_not_qualified" else
  if negb (UseModel authority) && (signal <>s "BUY") && (signal <>s "STRONG_BUY") then "signal_not_qualified" else
  if UseModel authority && negb (boolSetting settings ("model_floor_ok." +:+ id_) false)
  then "model_policy_floor_failed" else
  if negb (UseModel authority) &&
     flt (floatSetting settings ("rating." +:+ id_) fzero) (floatSetting settings "min_confidence_to_buy" fzero)
  then "confidence_not_qualified" else
  if negb (boolSetting settings ("regime_ok." +:+ id_) true) then "regime_gate_failed" else
  if negb (boolSetting settings ("vol_ok." +:+ id_) true) then "vol_gate_failed" else
  if intSetting settings "max_positions" 5 <=? Z.of_nat (length (p_positions portfolio))
  then "max_positions_reached" else
  if position_of portfolio (I_ID instrument) then "position_exists" else "".

Definition noAction (candidate : UniverseCandidate) (code reason : string) : NoAction :=
  mkNoAction (UC_Instrument candidate) code reason (UC_Score candidate).
Definition intent_keys : list string :=
  ["stop_price"; "take_profit_price"; "atr_value"; "atr_trailing_mult"; "max_bars_held"; "entry_rank"; "regime_state";
   "breadth_ratio"; "model_version"; "predicted_probability"; "predicted_ev"].
Definition add_metadata (settings : gmap string string) (id_ : string) (metadata : gmap string string) (key : string) :
    gmap string string :=
  let configured := TrimSpace (setting settings (key +:+ "." +:+ id_)) in
  if configured <>s "" then <[key := configured]> metadata else metadata.
Definition entry_metadata (settings : gmap string string) (candidate : UniverseCandidate) : gmap string string :=
  foldl (add_metadata settings (I_ID (UC_Instrument candidate)))
    (list_to_map [("rank", Itoa (UC_Rank candidate)); ("rollout_state", value settings "model_rollout_state" "shadow")])
    intent_keys.

Section Legacy.
(** [t.UTC().Format(time.RFC3339Nano)], [time.Parse(time.RFC3339Nano, s)], the
    hex digits of SHA-256, [err.Error()]. *)
Variables (FormatTime : Time -> string) (ParseTime : string -> option Time) (sha256hex : string -> string)
  (ErrorText : error -> string).

Definition stableStrategyIntentID (snapshot : DecisionContext) (account : AccountID) (instrument : Instrument)
    (side : OrderSide) : string :=
  String.substring 0 24 (sha256hex (FormatTime (decisionAt snapshot) +:+ "|" +:+ account +:+ "|" +:+ I_ID instrument +:+
    "|" +:+ side +:+ "|" +:+ V_Strategy (versions snapshot) +:+ "|" +:+ V_Policy (versions snapshot))).

(** The size: the configured quantity, else [entry_percent] of the cash. *)
Definition entry_quantity (settings : gmap string string) (id_ : string) (cash : SignedAmount) (last : Price) :
    res (res Quantity) :=
  let percent := floatSetting settings "entry_percent" (f_of_Z 5) in
  let* requested := newRatPercent (decimalRat (Amount_Decimal cash)) percent in
  let* units := newRatDiv requested (decimalRat (Price_Decimal last)) in
  let configured := TrimSpace (setting settings ("requested_quantity." +:+ id_)) in
  Ok (if configured <>s "" then let* decimal := ParseDecimal configured in NewQuantity decimal
      else quantityFromRat units).
Definition created_at (settings : gmap string string) (decisionAt : Time) : res Time :=
  let configured := TrimSpace (setting settings "order_created_at") in
  if configured =s "" then Ok decisionAt else
  match ParseTime configured with
  | Some parsed => if Before parsed decisionAt then Err (Errorf "invalid order_created_at" []) else Ok parsed
  | None => Err (Errorf "invalid order_created_at" [])
  end.

(** One candidate: no action or an intent. *)
Definition decide_candidate (snapshot : DecisionContext) (candidate : UniverseCandidate) :
    res (NoAction + OrderIntent) :=
  let settings := settings snapshot in let portfolio := Portfolio snapshot in
  let instrument := UC_Instrument candidate in
  if negb (UC_Eligible candidate)
  then Ok (inl (noAction candidate "universe_ineligible" (UC_RejectionReason candidate))) else
  let id_ := I_ID instrument in
  let code := legacyEntryGate settings id_ portfolio instrument in
  if code <>s "" then Ok (inl (noAction candidate code code)) else
  match Context_Quote snapshot id_ with
  | None => Ok (inl (noAction candidate "quote_unavailable" "quote_unavailable"))
  | Some quote =>
      if negb (Price_Valid (Q_Last quote))
      then Ok (inl (noAction candidate "quote_unavailable" "quote_unavailable")) else
      match CashAmount portfolio (I_QuoteAsset instrument) with
      | None => Ok (inl (noAction candidate "insufficient_cash" "insufficient_cash"))
      | Some cash =>
          if Decimal_Sign (Amount_Decimal cash) <=? 0
          then Ok (inl (noAction candidate "insufficient_cash" "insufficient_cash")) else
          let* sized := entry_quantity settings id_ cash (Q_Last quote) in
          match sized with
          | Err err => Ok (inl (noAction candidate "invalid_position_size" (ErrorText err)))
          | Panic why => Panic why
          | Ok quantity =>
              let rawID := stableStrategyIntentID snapshot (p_accountID portfolio) instrument Buy in
              let orderID := ignore_id (NewOrderID ("order-" +:+ rawID)) in
              let key := ignore_id (NewIdempotencyKey ("intent-" +:+ rawID)) in
              let* createdAt := created_at settings (decisionAt snapshot) in
              let* intent := NewOrderIntent
                (mkIntent orderID key (p_accountID portfolio) instrument Buy MarketOrder quantity None
                   (SomePrice (Q_Last quote)) (signalAt snapshot) (decisionAt snapshot) createdAt
                   (p_executionMode portfolio) QuantityCashCapped (UC_Rank candidate) "passed_gates"
                   (value settings "strategy_horizon" "15m") (versions snapshot)
                   (mkProvenance "legacy_rule_strategy" LegacyStrategyVersion "passed_gates" "" "") None)
                (Some (entry_metadata settings candidate)) in
              Ok (inr intent)
          end
      end
  end.
Definition decide_step (snapshot : DecisionContext) (s : list OrderIntent * list NoAction)
    (candidate : UniverseCandidate) : res (list OrderIntent * list NoAction) :=
  let '(intents, noActions) := s in
  let* entry := decide_candidate snapshot candidate in
  Ok match entry with
     | inl n => (intents, noActions ++ [n])
     | inr i => (intents ++ [i], noActions)
     end.
Definition Legacy_Decide (snapshot : DecisionContext) : res StrategyResult :=
  let candidates := u_candidates (Universe snapshot) in
  let* (intents, noActions) := foldM (decide_step snapshot) ([], []) candidates in
  let* batch := NewDecisionBatch intents in
  Ok (NewStrategyResult batch noActions).
End Legacy.

(** ** Percentages are total on finite floats *)
Lemma scale10_nonneg q k : 0 <= fst q -> 0 < snd q -> 0 <= fst (scale10 q k) /\ 0 < snd (scale10 q k).
Proof.
  destruct q as [n d]. unfold scale10. cbn. intros Hn Hd.
  assert (H10 : forall j, 0 <= j -> 0 < 10 ^ j) by (intros; apply Z.pow_pos_nonneg; lia).
  destruct (Z.leb_spec 0 k); cbn; [specialize (H10 k) | specialize (H10 (- k))]; nia.
Qed.
Lemma round_half_even_nonneg n d : 0 <= n -> 0 < d -> 0 <= round_half_even n d.
Proof. intros Hn Hd. unfold round_half_even. pose proof (Z.div_pos n d Hn Hd). destruct (_ || _)%bool; lia. Qed.
Lemma shortest_nonneg fuel v q k n : 0 <= fst q -> 0 < snd q -> 0 <= fst (shortest fuel v q k n).
Proof.
  intros Hn Hd. revert n. induction fuel as [|fuel IH]; intros n; cbn [shortest];
    destruct (scale10 q (n - k)) as [a b] eqn:E; destruct (scale10_nonneg q (n - k) Hn Hd) as [Ha Hb]; rewrite E in *;
    cbn [fst snd] in *; pose proof (round_half_even_nonneg a b Ha Hb); [done|]. by destruct (feq _ _).
Qed.

(** The text of a finite float: digits with an optional point and sign. *)
Lemma plain_text_shape digits k : 0 <= digits -> exists dot w f,
  plain_text digits k = point_text dot w f /\ str_all is_digit w = true /\ w <> "" /\ str_all is_digit f = true /\
  (dot = true -> f <> "").
Proof.
  intros Hd. unfold plain_text, Itoa.
  assert (Hdig : forall n, 0 <= n -> numeral n (if n <? 0 then String "-" (format_nonneg (- n)) else format_nonneg n)).
  { intros n Hn. rewrite (proj2 (Z.ltb_ge _ _)) by lia. by apply format_nonneg_numeral. }
  destruct (Z.leb_spec 0 k).
  - eexists false, _, "". split; [reflexivity|]. destruct (Hdig (digits * 10 ^ k)) as [H1 _ H2 _]; [|done].
    apply Z.mul_nonneg_nonneg; [lia | apply Z.pow_nonneg; lia].
  - assert (0 < 10 ^ (- k)) by (apply Z.pow_pos_nonneg; lia).
    destruct (Hdig (digits / 10 ^ (- k))) as [H1 _ H2 _]; [by apply Z.div_pos|].
    destruct (Hdig (digits mod 10 ^ (- k))) as [H3 _ H4 _]; [by apply Z.mod_pos_bound|].
    eexists true, _, (Repeat0 _ +:+ _). split; [reflexivity|]. split_and!; try done.
    + by rewrite str_all_app, Repeat0_digits, H3.
    + intros _. by destruct (Repeat0 _).
Qed.
Definition finite (v : float64) : Prop := is_nan v = false /\ is_inf v = false.
Lemma FormatFloat_shape v : finite v -> exists negative dot w f,
  FormatFloat v = signed_text negative (point_text dot w f) /\ str_all is_digit w = true /\ w <> "" /\
  str_all is_digit f = true /\ (dot = true -> f <> "").
Proof.
  intros [H1 H2]. destruct v as [s|s| |s m e]; try done.
  - exists s, false, "0", "". by destruct s.
  - unfold FormatFloat. destruct (shortest _ _ _ _ _) as [digits k] eqn:E.
    destruct (plain_text_shape digits k) as (dot & w & f & -> & Hw).
    + change digits with (fst (digits, k)). rewrite <- E. apply shortest_nonneg; unfold magnitude;
        destruct (Z.leb_spec 0 e); cbn; try lia; apply Z.pow_pos_nonneg; lia.
    + exists s, dot, w, f. split; [by destruct s | exact Hw].
Qed.
Lemma TrimPrefix_minus s : TrimPrefix (String "-" s) "-" = s.
Proof. unfold TrimPrefix. rewrite HasPrefix_char. exact (drop_str_app "-" s). Qed.
Lemma newRatPercent_total v p : finite (fdiv p (f_of_Z 100)) -> exists q, newRatPercent v p = Ok q.
Proof.
  intros (n & dot & w & f & E & Hw & Hne & Hf & Hdot)%FormatFloat_shape. unfold newRatPercent, Rat_SetString. rewrite E.
  rewrite signed_text_sign by done.
  assert (Eb : (if n then TrimPrefix (signed_text n (point_text dot w f)) "-" else signed_text n (point_text dot w f))
    = point_text dot w f) by (destruct n; [apply TrimPrefix_minus | done]).
  rewrite Eb, point_text_split by done. apply String.eqb_neq in Hne. destruct dot.
  - specialize (Hdot eq_refl). apply String.eqb_neq in Hdot. rewrite Hne, Hw, Hdot, Hf. cbn. eauto.
  - rewrite Hne, Hw. cbn. eauto.
Qed.

(** ** Identities from a digest *)
Lemma str_all_substring p n s : str_all p s = true -> str_all p (String.substring 0 n s) = true.
Proof.
  revert n. induction s as [|c s IH]; intros [|n]; cbn; try done. intros [-> H]%andb_true_iff. by rewrite IH.
Qed.
Lemma slen_substring n s : slen (String.substring 0 n s) <= Z.of_nat n.
Proof.
  revert n. induction s as [|c s IH]; intros [|n]; cbn; try (unfold slen; cbn; lia).
  rewrite slen_cons. specialize (IH n). lia.
Qed.
Lemma prefixed_identity kind prefix s : str_all graphic prefix = true -> prefix <> "" -> slen prefix <= 150 ->
  str_all graphic s = true -> slen s <= 24 -> validateIdentity kind (prefix +:+ s) = Ok (prefix +:+ s).
Proof.
  intros Hp Hne Hl Hs Hl2. unfold validateIdentity.
  assert (Hg : str_all graphic (prefix +:+ s) = true) by (by rewrite str_all_app, Hp, Hs).
  rewrite TrimSpace_graphic, Hg by done. rewrite (proj2 (Z.ltb_ge _ _)) by (rewrite slen_app; lia).
  by destruct prefix.
Qed.

(** ** What a decision contains *)
Section Decisions.
Context (FormatTime : Time -> string) (ParseTime : string -> option Time) (sha256hex : string -> string)
  (ErrorText : error -> string).
Abbreviation Decide := (Legacy_Decide FormatTime ParseTime sha256hex ErrorText).

(** An entry intent and the candidate it stands for. *)
Record entry (c : DecisionContext) (candidate : UniverseCandidate) (i : OrderIntent) : Prop := {
  en_instrument : OI_Instrument i = UC_Instrument candidate /\ OI_Priority i = UC_Rank candidate;
  en_eligible : UC_Eligible candidate = true;
  en_gate : legacyEntryGate (settings c) (I_ID (OI_Instrument i)) (portfolio c) (OI_Instrument i) = "";
  en_quote : exists quote, quotes c !! I_ID (OI_Instrument i) = Some quote /\ Price_Valid (Q_Last quote) = true /\
    OI_ReferencePrice i = Some (Q_Last quote);
  en_cash : exists cash, p_cash (portfolio c) !! I_QuoteAsset (OI_Instrument i) = Some cash /\
    0 < Decimal_Sign (Amount_Decimal cash);
  en_shape : OI_Side i = Buy /\ OI_Type i = MarketOrder /\ OI_QuantitySemantics i = QuantityCashCapped /\
    OI_ExecutionMode i = p_executionMode (portfolio c) /\ OI_AccountID i = p_accountID (portfolio c);
  en_valid : OrderIntent_Validate i = Ok tt }.

Lemma decide_candidate_entry c candidate e : context_wf c ->
  decide_candidate FormatTime ParseTime sha256hex ErrorText c candidate = Ok e ->
  match e with inl n => NA_Instrument n = UC_Instrument candidate | inr i => entry c candidate i end.
Proof.
  intros Hw H. unfold decide_candidate in H. rewrite (context_Portfolio _ Hw) in H.
  destruct (UC_Eligible candidate) eqn:Ee; cbn [negb] in H; [|by injection H as <-].
  destruct (String.eqb_spec (legacyEntryGate (settings c) (I_ID (UC_Instrument candidate)) (portfolio c)
    (UC_Instrument candidate)) "") as [Eg|]; cbn [negb] in H; [|by injection H as <-].
  unfold Context_Quote in H. destruct (quotes c !! _) as [quote|] eqn:Eq; [|by injection H as <-].
  destruct (Price_Valid (Q_Last quote)) eqn:Ev; cbn [negb] in H; [|by injection H as <-].
  unfold CashAmount in H. destruct (p_cash _ !! _) as [cash|] eqn:Ec; [|by injection H as <-].
  destruct (Z.leb_spec (Decimal_Sign (Amount_Decimal cash)) 0); [by injection H as <-|].
  destruct (entry_quantity _ _ _ _) as [sized|x|w]; cbn [rbind] in H; [|discriminate..].
  destruct sized as [q|x|w]; [|by injection H as <-|discriminate].
  destruct (created_at _ _ _) as [t|x|w]; cbn [rbind] in H; [|discriminate..].
  unfold NewOrderIntent in H. cbn [OI_QuantitySemantics set_OI_metadata] in H.
  destruct (OrderIntent_Validate _) as [[]|x|w] eqn:Eval in H; cbn [rbind] in H; [|discriminate..].
  injection H as <-. split; cbn; try done; [by exists quote | by exists cash].
Qed.

(** A decision answers every candidate of the universe exactly once, with
    an intent or a no-action. An intent is a valid cash-capped market purchase
    of an eligible candidate that passed every gate, priced at a valid quote
    and backed by cash, in the portfolio's account and mode. *)
Theorem Legacy_Decide_answers input c r : NewDecisionContext input = Ok c -> Decide c = Ok r ->
  (OI_Instrument <$> intents (sr_intents r)) ++ (NA_Instrument <$> sr_noActions r) ≡ₚ
    UC_Instrument <$> u_candidates (universe c) /\
  Forall (fun i => exists candidate, candidate ∈ u_candidates (universe c) /\ entry c candidate i) (intents (sr_intents r)).
Proof.
  intros Hw%NewDecisionContext_wf H. unfold Legacy_Decide in H. rewrite (context_Universe _ Hw) in H. res_inv.
  match goal with H : foldM _ _ _ = Ok ?x |- _ => destruct x as [l n]; rename H into Hf end. res_inv.
  match goal with H : NewDecisionBatch _ = Ok _ |- _ => apply NewDecisionBatch_inv in H as (_ & Hb & _) end.
  cbn [sr_intents sr_noActions NewStrategyResult]. rewrite Hb, <- !SliceStable_Permutation.
  apply (foldM_inv (fun seen '(l, n) => (OI_Instrument <$> l) ++ (NA_Instrument <$> n) ≡ₚ UC_Instrument <$> seen /\
    Forall (fun i => exists candidate, candidate ∈ seen /\ entry c candidate i) l)) in Hf; [done | by split|].
  intros seen candidate [l0 n0] [l1 n1] [Hp He] _ E. unfold decide_step in E. res_inv.
  match goal with H : decide_candidate _ _ _ _ _ _ = Ok ?e |- _ => apply decide_candidate_entry in H; [|done]; destruct e as [m|i] end;
    injection E as <- <-; rewrite !fmap_app; (split; [rewrite <- Hp; cbn|]).
  - match goal with H : NA_Instrument _ = _ |- _ => rewrite H end. by rewrite app_assoc.
  - eapply Forall_impl; [exact He|]. intros j (x & Hx & Hj). exists x. split; [set_solver | done].
  - destruct (en_instrument _ _ _ E0) as [-> _]. by rewrite <- !app_assoc, (Permutation_app_comm [_]).
  - apply Forall_app. split.
    + eapply Forall_impl; [exact He|]. intros j (x & Hx & Hj). exists x. split; [set_solver | done].
    + apply Forall_singleton. exists candidate. split; [set_solver | done].
Qed.


Lemma ParseDecimal_returns t w : ParseDecimal t <> Panic w.
Proof.
  unfold ParseDecimal, NewScaledDecimal.
  repeat match goal with
  | |- (if ?c then _ else _) <> _ => destruct c
  | |- match ?l with [] => _ | _ => _ end <> _ => destruct l
  | |- (let x := _ in _) <> _ => cbn zeta
  | |- _ => done
  end.
Qed.
Lemma NewQuantity_valid d : (forall w, NewQuantity d <> Panic w) /\
  (forall q, NewQuantity d = Ok q -> Quantity_Valid q = true).
Proof.
  unfold NewQuantity, Quantity_Valid. destruct (_ || _)%bool eqn:E; split; try done.
  intros q [= <-]. cbn. apply orb_false_iff in E as [E1 E2]. apply negb_false_iff in E1. rewrite E1.
  apply Z.leb_gt in E2. by apply Z.ltb_lt.
Qed.
Lemma entry_quantity_total settings id_ cash last :
  finite (fdiv (floatSetting settings "entry_percent" (f_of_Z 5)) (f_of_Z 100)) -> price_any last -> Price_Valid last = true ->
  exists sized, entry_quantity settings id_ cash last = Ok sized /\ (forall w, sized <> Panic w) /\
    (forall q, sized = Ok q -> Quantity_Valid q = true).
Proof.
  intros Hf Ha Hv. unfold entry_quantity.
  destruct (newRatPercent_total (decimalRat (Amount_Decimal cash)) _ Hf) as [x ->]. cbn [rbind].
  pose proof (price_any_pos _ Ha Hv) as Hs. unfold newRatDiv, Quo.
  assert (Hne : (Rat_Sign (decimalRat (Price_Decimal last)) =? 0) = false).
  { apply Z.eqb_neq. unfold Rat_Sign, Qlt in *. destruct (decimalRat _) as [n d]. cbn in *. lia. }
  rewrite Hne.
  cbn [rbind]. eexists. split; [reflexivity|]. destruct (_ <>s "").
  - unfold rbind. destruct (ParseDecimal _) as [d|e|w] eqn:Ep; [apply NewQuantity_valid | done|].
    by apply ParseDecimal_returns in Ep.
  - unfold quantityFromRat. rewrite ratDecimal_round. apply NewQuantity_valid.
Qed.

Lemma stable_identity c account instrument kind prefix : (forall s, str_all graphic (sha256hex s) = true) ->
  str_all graphic prefix = true -> prefix <> "" -> slen prefix <= 150 ->
  ignore_id (validateIdentity kind (prefix +:+ stableStrategyIntentID FormatTime sha256hex c account instrument Buy)) <> "".
Proof.
  intros Hh Hp Hne Hl. rewrite prefixed_identity; [| done.. | by apply str_all_substring | apply (slen_substring 24)].
  cbn. by destruct prefix.
Qed.

Lemma decide_candidate_total c candidate t : context_wf c -> candidate ∈ u_candidates (universe c) ->
  (forall s, str_all graphic (sha256hex s) = true) -> map_Forall (fun _ q => price_any (Q_Last q)) (quotes c) ->
  finite (fdiv (floatSetting (settings c) "entry_percent" (f_of_Z 5)) (f_of_Z 100)) ->
  created_at ParseTime (settings c) (decisionAt c) = Ok t ->
  exists e, decide_candidate FormatTime ParseTime sha256hex ErrorText c candidate = Ok e.
Proof.
  intros Hw Hin Hh Hq Hf Ht. pose proof (cw_order _ Hw) as Ho. pose proof (cw_signal _ Hw) as Hsig.
  destruct (cw_universe _ Hw) as [_ Hu _]. destruct (cw_portfolio _ Hw) as [_ Hacc Hmode _ _ _ _ _].
  apply forM__Ok in Hu. rewrite Forall_forall in Hu. specialize (Hu _ Hin).
  unfold candidate_check, Instrument_Validate in Hu. res_inv. bool_prop.
  unfold decide_candidate. rewrite (context_Portfolio _ Hw).
  destruct (UC_Eligible candidate); [|by eexists]. cbn [negb]. destruct (_ <>s ""); [by eexists|].
  unfold Context_Quote. destruct (quotes c !! _) as [quote|] eqn:Eq; [|by eexists].
  destruct (Price_Valid (Q_Last quote)) eqn:Ev; [|by eexists]. cbn [negb].
  destruct (CashAmount _ _) as [cash|]; [|by eexists]. destruct (_ <=? 0); [by eexists|].
  destruct (entry_quantity_total (settings c) (I_ID (UC_Instrument candidate)) cash (Q_Last quote)) as (sized & -> & Hnp & Hval);
    [done | by apply (Hq _ _ Eq) | done |].
  cbn [rbind]. destruct sized as [q|e|w]; [|by eexists|by destruct (Hnp w)].
  rewrite Ht. cbn [rbind]. unfold NewOrderIntent.
  match goal with |- context [OrderIntent_Validate ?i] => assert (Hv : OrderIntent_Validate i = Ok tt) end.
  2: { rewrite Hv. by eexists. }
  unfold created_at in Ht. specialize (Hval q eq_refl).
  assert (decisionAt c <= t).
  { destruct (_ =s ""); [by injection Ht as <-; lia|]. destruct (ParseTime _); [|done].
    destruct (Before _ _) eqn:Eb; [done|]. injection Ht as <-. unfold Before in Eb. bool_prop. lia. }
  unfold OrderIntent_Validate. cbn -[ignore_id NewOrderID NewIdempotencyKey stableStrategyIntentID].
  assert (String.eqb (ignore_id (NewOrderID ("order-" +:+ stableStrategyIntentID FormatTime sha256hex c
    (p_accountID (portfolio c)) (UC_Instrument candidate) Buy))) "" = false) as -> by (by apply String.eqb_neq, stable_identity).
  assert (String.eqb (ignore_id (NewIdempotencyKey ("intent-" +:+ stableStrategyIntentID FormatTime sha256hex c
    (p_accountID (portfolio c)) (UC_Instrument candidate) Buy))) "" = false) as -> by (by apply String.eqb_neq, stable_identity).
  repeat match goal with H : ?x <> "" |- _ => rewrite (proj2 (String.eqb_neq x "") H); clear H end.
  cbn. rewrite Hval. cbn. rewrite (proj2 (Z.ltb_ge (UC_Rank candidate) 0)) by done. rewrite Hmode, Hsig. cbn. unfold Before.
  by rewrite !(proj2 (Z.ltb_ge _ _)) by lia.
Qed.


(** ** An unauthorised model has no influence *)

(** The settings in which the model reports its choices. *)
Definition model_key (key : string) : bool :=
  (key =s "model_available") || HasPrefix key "model_selected." || HasPrefix key "model_floor_ok.".
Definition agree (s s' : gmap string string) : Prop := forall key, model_key key = false -> s !! key = s' !! key.
Definition with_settings (s : gmap string string) (c : DecisionContext) : DecisionContext :=
  mkContext (marketObservedAt c) (signalAt c) (decisionAt c) (dc_bars c) (quotes c) (universe c) (portfolio c) s
    (versions c).
Definition rollout_state (settings : gmap string string) : string :=
  ToLower (TrimSpace (value settings "model_rollout_state" "shadow")).

Section Agree.
Context (s s' : gmap string string).
Hypothesis Ha : agree s s'.
Lemma agree_setting key : model_key key = false -> setting s key = setting s' key.
Proof using Ha. intros H. unfold setting. by rewrite (Ha _ H). Qed.
Lemma agree_value key fallback : model_key key = false -> value s key fallback = value s' key fallback.
Proof using Ha. intros H. unfold value. by rewrite (agree_setting _ H). Qed.
Lemma agree_bool key fallback : model_key key = false -> boolSetting s key fallback = boolSetting s' key fallback.
Proof using Ha. intros H. unfold boolSetting. by rewrite (Ha _ H). Qed.
Lemma agree_float key fallback : model_key key = false -> floatSetting s key fallback = floatSetting s' key fallback.
Proof using Ha. intros H. unfold floatSetting. by rewrite (agree_setting _ H). Qed.
Lemma agree_int key fallback : model_key key = false -> intSetting s key fallback = intSetting s' key fallback.
Proof using Ha. intros H. unfold intSetting. by rewrite (agree_setting _ H). Qed.

Lemma agree_authority p : rollout_authorized (p_executionMode p) (rollout_state s) = false ->
  let a := model_authority s p in let a' := model_authority s' p in
  UseModel a = false /\ UseModel a' = false /\ Blocked a = Blocked a' /\ MA_Reason a = MA_Reason a'.
Proof using Ha.
  intros H. unfold model_authority, rollout_state in *. rewrite <- (agree_value "model_rollout_state"),
    <- (agree_value "model_fallback_mode") by reflexivity.
  unfold ResolveModelAuthority. rewrite H. cbn. by destruct (ToLower _ =s "rule_based").
Qed.
Lemma agree_gate id_ p inst : rollout_authorized (p_executionMode p) (rollout_state s) = false ->
  legacyEntryGate s id_ p inst = legacyEntryGate s' id_ p inst.
Proof using Ha.
  intros H. unfold legacyEntryGate. destruct (agree_authority p H) as (-> & -> & -> & ->).
  rewrite !(agree_bool ("analysis_error." +:+ id_)), !(agree_bool "auto_trade_enabled"),
    !(agree_bool "universe_risk_off"), !(agree_value ("signal." +:+ id_)), !(agree_bool "buy_only_strong"),
    !(agree_float ("rating." +:+ id_)), !(agree_float "min_confidence_to_buy"), !(agree_bool ("regime_ok." +:+ id_)),
    !(agree_bool ("vol_ok." +:+ id_)), !(agree_int "max_positions") by reflexivity.
  reflexivity.
Qed.
Lemma agree_metadata candidate : entry_metadata s candidate = entry_metadata s' candidate.
Proof using Ha.
  unfold entry_metadata. rewrite <- (agree_value "model_rollout_state") by reflexivity.
  generalize (list_to_map (M := gmap string string) [("rank", Itoa (UC_Rank candidate));
    ("rollout_state", value s "model_rollout_state" "shadow")]).
  assert (Hk : Forall (fun k => model_key (k +:+ "." +:+ I_ID (UC_Instrument candidate)) = false) intent_keys)
    by (repeat constructor).
  induction Hk as [|k l Hk _ IH]; intros m; [done|]. cbn [foldl]. unfold add_metadata at 2 4.
  by rewrite (agree_setting _ Hk).
Qed.
Lemma agree_quantity id_ cash last : entry_quantity s id_ cash last = entry_quantity s' id_ cash last.
Proof using Ha.
  unfold entry_quantity. by rewrite (agree_float "entry_percent"), (agree_setting ("requested_quantity." +:+ id_)) by reflexivity.
Qed.
End Agree.

(** A model without authority for the portfolio's mode cannot influence a
    decision: when the rollout state does not authorise the mode, any change of
    the settings through which the model reports its availability, choices and
    floors leaves the decision as it is. *)
Theorem unauthorized_model_ignored c s' : rollout_authorized (p_executionMode (Portfolio c)) (rollout_state (settings c)) = false ->
  agree (settings c) s' -> Decide (with_settings s' c) = Decide c.
Proof.
  intros Hauth Ha. unfold Legacy_Decide. change (Universe (with_settings s' c)) with (Universe c). f_equal.
  generalize (@nil OrderIntent, @nil NoAction). generalize (u_candidates (Universe c)).
  induction l as [|x l IH]; intros [is0 ns]; [done|]. cbn [foldM]. unfold decide_step at 1 3.
  assert (E : decide_candidate FormatTime ParseTime sha256hex ErrorText (with_settings s' c) x =
    decide_candidate FormatTime ParseTime sha256hex ErrorText c x); [|rewrite E].
  - unfold decide_candidate. change (settings (with_settings s' c)) with s'.
    change (Portfolio (with_settings s' c)) with (Portfolio c). change (Context_Quote (with_settings s' c)) with (Context_Quote c).
    rewrite <- (agree_gate _ _ Ha) by done. rewrite <- (agree_metadata _ _ Ha).
    unfold created_at. cbn [with_settings decisionAt signalAt versions]. rewrite <- (agree_setting _ _ Ha "order_created_at") by reflexivity.
    rewrite <- (agree_value _ _ Ha "strategy_horizon") by reflexivity.
    change (stableStrategyIntentID FormatTime sha256hex (with_settings s' c)) with (stableStrategyIntentID FormatTime sha256hex c).
    destruct (UC_Eligible x); [|done]. destruct (_ <>s ""); [done|]. destruct (Context_Quote c _); [|done].
    destruct (negb _); [done|]. destruct (CashAmount _ _); [|done]. by rewrite <- (agree_quantity _ _ Ha).
  - destruct (decide_candidate _ _ _ _ c x) as [[n|i]|e|w]; cbn [rbind]; [apply IH.. | done | done].
Qed.
End Decisions.

(** ** Witnesses *)
Module LegacySample.
Definition time_text (_ : Time) : string := "t".
Definition no_time (_ : string) : option Time := None.
Definition digest (_ : string) : string := "0123456789abcdef0123456789abcdef".
Definition message (_ : error) : string := "error".
Definition eth : Instrument := mkInstrument "eth-usdt" "ETH" "USDT" "binance" "ETHUSDT".
Definition rules : gmap string string :=
  list_to_map [("auto_trade_enabled", "true"); ("signal.btc-usdt", "buy"); ("signal.eth-usdt", "sell");
               ("entry_percent", "10")].
Definition input (settings : gmap string string) : DecisionContextInput :=
  mkContextInput 10 20 30 ∅
    {["btc-usdt" := mkQuote sample_instrument (mkPrice (decimal 3 0)) (mkPrice (decimal 3 0)) (mkPrice (decimal 4 0)) 10]}
    (mkUniverse 10 "v1" "fixture" [mkCandidate sample_instrument 1 (decimal 5 1) true "" "" "";
                                   mkCandidate eth 2 (decimal 4 1) true "" "" ""])
    (mkPortfolio 10 "account" ExecutionPaper {["USDT" := mkAmount (decimal 1000 0)]} [] [] RiskState_zero)
    settings (mkVersions "s" "" "" "" "" "" "" "" "").
Definition built (settings : gmap string string) : DecisionContext :=
  match NewDecisionContext (input settings) with Ok c => c | _ => mkContext 0 0 0 ∅ ∅ UniverseSnapshot_zero PortfolioSnapshot_zero ∅ (mkVersions "" "" "" "" "" "" "" "" "") end.
Abbreviation Decide := (Legacy_Decide time_text no_time digest message).
Definition decided (settings : gmap string string) : StrategyResult :=
  match Decide (built settings) with Ok r => r | _ => mkStrategyResult (mkBatch []) [] end.
Lemma built_ok : NewDecisionContext (input rules) = Ok (built rules).
Proof. vm_compute. reflexivity. Qed.
End LegacySample.

Lemma Legacy_Decide_answers_witness :
  LegacySample.Decide (LegacySample.built LegacySample.rules) = Ok (LegacySample.decided LegacySample.rules) /\
  OI_Instrument <$> intents (sr_intents (LegacySample.decided LegacySample.rules)) = [sample_instrument] /\
  NA_Code <$> sr_noActions (LegacySample.decided LegacySample.rules) = ["signal_not_qualified"] /\
  length (u_candidates (universe (LegacySample.built LegacySample.rules))) = 2%nat.
Proof.
  assert (E : LegacySample.Decide (LegacySample.built LegacySample.rules) = Ok (LegacySample.decided LegacySample.rules))
    by (vm_compute; reflexivity).
  split; [exact E|].
  destruct (Legacy_Decide_answers LegacySample.time_text LegacySample.no_time LegacySample.digest LegacySample.message
    _ _ _ LegacySample.built_ok E) as [Hp _].
  split; [vm_compute; reflexivity|]. split; [vm_compute; reflexivity|].
  apply Permutation_length in Hp. rewrite length_app, !length_fmap in Hp. rewrite <- Hp. vm_compute. reflexivity.
Defined.


Lemma unauthorized_model_ignored_witness :
  LegacySample.Decide (with_settings (<["model_available" := "true"]> (<["model_selected.eth-usdt" := "true"]> LegacySample.rules))
    (LegacySample.built LegacySample.rules)) = LegacySample.Decide (LegacySample.built LegacySample.rules).
Proof.
  apply (unauthorized_model_ignored LegacySample.time_text LegacySample.no_time LegacySample.digest LegacySample.message).
  - vm_compute. reflexivity.
  - intros key Hk. change (settings (LegacySample.built LegacySample.rules)) with LegacySample.rules.
    rewrite !lookup_insert_ne; [done | |]; intros <-; vm_compute in Hk; discriminate Hk.
Defined.

(** A percentage that is not a number, which [ParseFloat] accepts, panics. *)
Lemma entry_percent_nan_panics :
  LegacySample.Decide (with_settings (<["entry_percent" := "NaN"]> LegacySample.rules) (LegacySample.built LegacySample.rules)) =
  Panic "nil pointer dereference".
Proof. vm_compute. reflexivity. Qed.
