(* ===== verification/TrendMomentum.v ===== *)
(** * TrendMomentum: [internal/tradingcore/trend_momentum.go]

    The Stage 06 planner: completed 4h feature buckets, the benchmark regime,
    momentum factors, ranking, capped target weights and exit reasons, on
    float64. The iteration over the member map is a parameter, any order of
    the map's entries; [sort.Slice] is a stable sort, as it is for the orders
    here whenever their keys are distinct. *)
From Stdlib Require Import Ascii SpecFloat.
From stdpp Require Import base numbers strings gmap list.
From S2P Require Import Prelude GoStrings GoFloat GoFormat Snapshots GoTime.
Local Open Scope Z_scope.

Definition TrendMomentumPlanSchemaVersion : string := "trend-momentum-plan-v1".
Definition DefaultTrendMomentumParameters : gmap string string :=
  list_to_map
    [("variant", "combined"); ("vol_normalization", "true"); ("lookback_bars", "30"); ("trend_bars", "20");
     ("regime_bars", "30"); ("rebalance", "24h"); ("top_n", "3"); ("max_positions", "3"); ("risk_on_gross", "0.75");
     ("neutral_gross", "0.25"); ("risk_off_gross", "0"); ("regime_band", "0.01"); ("position_cap", "0.25");
     ("max_gross", "0.75"); ("max_net", "0.75"); ("cash_reserve", "0.25"); ("vol_floor", "0.02");
     ("turnover_budget", "0.25"); ("skip_delta", "0.005"); ("execution_gap_reserve", "0.1");
     ("allocation_tolerance", "0.02"); ("hard_stop", "0.12"); ("include_shortlist", "true");
     ("execution_intent", "shadow"); ("target_gross", "0.75")].

(** ** Data *)
Record TrendMomentumBar : Type := mkTMBar { TB_OpenTime : Time; TB_CloseTime : Time; TB_Close : float64 }.
Record TrendMomentumMember : Type := mkTMMember {
  TM_Symbol : string; TM_AssetID : string; TM_ExchangeSymbolID : string; TM_Eligible : bool }.
Record TrendMomentumPosition : Type := mkTMPosition {
  TP_Symbol : string; TP_EntryPrice : float64; TP_MarkPrice : float64 }.
Record TrendMomentumInput : Type := mkTMInput {
  TI_DecisionAt : Time; TI_LastRebalance : Time; TI_Benchmark : list TrendMomentumBar;
  TI_Series : gmap string (list TrendMomentumBar); TI_Members : list TrendMomentumMember;
  TI_Positions : list TrendMomentumPosition; TI_LastTargets : list string;
  TI_Parameters : option (gmap string string) }.
Record TrendMomentumHistory : Type := mkTMHistory {
  th_benchmark : list TrendMomentumBar; th_series : gmap string (list TrendMomentumBar) }.
Record TrendMomentumFactor : Type := mkTMFactor {
  TF_Symbol : string; TF_AssetID : string; TF_ExchangeSymbolID : string; TF_Momentum : float64;
  TF_Volatility : float64; TF_Normalized : float64; TF_AbsoluteTrend : bool; TF_Last : float64;
  TF_TrendMean : float64; TF_Rank : Z; TF_Selected : bool; TF_Reason : string }.
Record TrendMomentumExit : Type := mkTMExit { TE_Primary : string; TE_Concurrent : list string }.
Record TrendMomentumPlan : Type := mkTMPlan {
  Decide : bool; Targets : list string; TargetWeights : gmap string float64; Regime : string;
  RegimeReason : string; TargetGross : float64; Factors : list TrendMomentumFactor;
  Exits : gmap string TrendMomentumExit; Diagnostics : list string; RiskStopOnly : bool }.

(** ** Numbers *)
Definition param (p : gmap string string) (key : string) : string := default "" (p !! key).
(** The errors are dropped: the values that come with them are used. *)
Definition tmFloat (p : gmap string string) (key : string) : float64 := fst (ParseFloatErr (param p key)).
Definition tmInt (p : gmap string string) (key : string) : Z := AtoiValue (param p key).

Definition tmMean (b : list TrendMomentumBar) : float64 :=
  fdiv (foldl (fun total v => fadd total (TB_Close v)) fzero b) (f_of_Z (Z.of_nat (length b))).
(** The returns of consecutive closes. *)
Fixpoint tm_returns (b : list TrendMomentumBar) : list float64 :=
  match b with
  | x :: ((y :: _) as rest) =>
      (if flt fzero (TB_Close x) then [fsub (fdiv (TB_Close y) (TB_Close x)) fone] else []) ++ tm_returns rest
  | _ => []
  end.
Definition tmVolatility (b : list TrendMomentumBar) : float64 :=
  if (length b <? 2)%nat then fzero else
  let values := tm_returns b in
  if (length values <? 2)%nat then fzero else
  let n := Z.of_nat (length values) in
  let mean := fdiv (foldl fadd fzero values) (f_of_Z n) in
  let sum := foldl (fun sum v => let d := fsub v mean in fadd sum (fmul d d)) fzero values in
  fsqrt (fdiv sum (f_of_Z (n - 1))).

(** ** Completed 4h buckets *)
Definition QuarterNs : Duration := 15 * MinuteNs.
Definition BucketNs : Duration := 4 * HourNs.
(** The bucket and slot of a usable 15m bar. *)
Definition bar_slot (bar : TrendMomentumBar) : option (Time * Z) :=
  if fle (TB_Close bar) fzero then None else
  let open := TB_OpenTime bar in
  if negb (Minute open mod 15 =? 0) || negb (Second open =? 0) || negb (Nanosecond open =? 0) then None else
  if Before (TB_CloseTime bar) open || After (TB_CloseTime bar) (open + QuarterNs) then None else
  let bucket := Truncate open BucketNs in
  Some (bucket, Z.quot (time_Sub open bucket) QuarterNs).
Abbreviation Buckets := (gmap Time (gmap Z TrendMomentumBar)) (only parsing).
Definition add_bar (buckets : Buckets) (bar : TrendMomentumBar) : Buckets :=
  match bar_slot bar with
  | None => buckets
  | Some (bucket, slot) => <[bucket := <[slot := bar]> (default ∅ (buckets !! bucket))]> buckets
  end.
Definition tmAggregate4H (bars : list TrendMomentumBar) : list TrendMomentumBar :=
  let buckets := foldl add_bar ∅ bars in
  let keys := (List.filter (fun '(_, bucket) => Z.of_nat (size bucket) =? 16) (map_to_list buckets)).*1 in
  (fun key => default (mkTMBar 0 0 fzero) (default ∅ (buckets !! key) !! 15)) <$> SliceStable Before keys.
Definition PrepareTrendMomentumHistory (benchmark : list TrendMomentumBar)
    (series : gmap string (list TrendMomentumBar)) : TrendMomentumHistory :=
  mkTMHistory (tmAggregate4H benchmark) (tmAggregate4H <$> series).
Definition tmPreparedAsOf (bars : list TrendMomentumBar) (at_ : Time) : list TrendMomentumBar :=
  take (Search (length bars) (fun i => match bars !! i with Some bar => After (TB_CloseTime bar) at_ | None => true end))
    bars.

(** ** Exits at the hard stop *)
Definition stopped_out (p : gmap string string) (position : TrendMomentumPosition) : bool :=
  let stop := tmFloat p "hard_stop" in
  flt fzero stop && flt fzero (TP_EntryPrice position) && flt fzero (TP_MarkPrice position) &&
  fle (TP_MarkPrice position) (fmul (TP_EntryPrice position) (fsub fone stop)).
Definition no_plan : TrendMomentumPlan := mkTMPlan false [] ∅ "" "" fzero [] ∅ [] false.
(** Between two rebalances: the last targets without the positions at their stop. *)
Definition plan_between (input : TrendMomentumInput) (p : gmap string string) : TrendMomentumPlan :=
  let hit := List.filter (stopped_out p) (TI_Positions input) in
  let stopped := TP_Symbol <$> hit in
  let exits := foldl (fun m s => <[s := mkTMExit "risk_stop" []]> m) ∅ stopped in
  match stopped with
  | [] => mkTMPlan false (TI_LastTargets input) ∅ "" "" fzero [] ∅ [] false
  | _ => mkTMPlan true (List.filter (fun s => negb (existsb (String.eqb s) stopped)) (TI_LastTargets input)) ∅ "" ""
           fzero [] exits [] true
  end.

(** ** The regime of the benchmark *)
Definition regime_of (p : gmap string string) (benchmark : list TrendMomentumBar) (price : float64) : string * string :=
  let mean := tmMean benchmark in let band := tmFloat p "regime_band" in
  if flt (fmul mean (fadd fone band)) price then ("risk_on", "benchmark_above_long_mean_band")
  else if flt price (fmul mean (fsub fone band)) then ("risk_off", "benchmark_below_long_mean_band")
  else ("neutral", "benchmark_inside_neutral_band").

(** The switches of the variant. *)
Definition variant (p : gmap string string) : string := param p "variant".
Definition relative (p : gmap string string) : bool := variant p <>s "absolute_trend_only".
Definition benchmarkGate (p : gmap string string) : bool := variant p =s "combined".
Definition volatility (p : gmap string string) : bool := (variant p =s "combined") && (param p "vol_normalization" =s "true").
Definition target_gross (p : gmap string string) (regime : string) : float64 :=
  let exposureRegime := if benchmarkGate p then regime else "risk_on" in
  fmin (tmFloat p (exposureRegime +:+ "_gross")) (fmin (tmFloat p "max_gross") (tmFloat p "target_gross")).

(** ** Members and factor rows *)
Definition add_member (members : gmap string TrendMomentumMember) (member : TrendMomentumMember) :
    res (gmap string TrendMomentumMember) :=
  if TM_Eligible member then
    if (TM_Symbol member =s "") || (TM_AssetID member =s "") || (TM_ExchangeSymbolID member =s "")
    then Err (Errorf "eligible member requires stable identities" [])
    else Ok (<[TM_Symbol member := member]> members)
  else Ok members.
(** The factor of a symbol, or the reason why it has none. *)
Definition factor_row (p : gmap string string) (lookback trendBars : Z) (floor : float64) (bucketClose : Time)
    (bars : list TrendMomentumBar) (symbol : string) (member : TrendMomentumMember) : res (string + TrendMomentumFactor) :=
  let n := Z.of_nat (length bars) in
  if n <? Z.max (int64 (lookback + 1)) trendBars then Ok (inl (symbol +:+ ":insufficient_warmup")) else
  let* lastBar := index bars (n - 1) in
  if negb (TB_CloseTime lastBar =? bucketClose) then Ok (inl (symbol +:+ ":feature_bucket_mismatch")) else
  let* fromBar := index bars (n - 1 - lookback) in
  let from := TB_Close fromBar in let last := TB_Close lastBar in
  if fle from fzero || fle last fzero then Ok (inl (symbol +:+ ":invalid_close")) else
  let* window := slice_from bars (n - 1 - lookback) in
  let* trend := slice_from bars (n - trendBars) in
  let momentum := fsub (fdiv last from) fone in let vol := tmVolatility window in
  let normalized := if volatility p then fdiv momentum (fmax vol floor) else momentum in
  Ok (inr (mkTMFactor symbol (TM_AssetID member) (TM_ExchangeSymbolID member) momentum vol normalized
             (flt (tmMean trend) last) last (tmMean trend) 0 false "")).
Definition row_less (p : gmap string string) (x y : TrendMomentumFactor) : bool :=
  if relative p && negb (feq (TF_Normalized x) (TF_Normalized y)) then flt (TF_Normalized y) (TF_Normalized x)
  else if TF_AssetID x <>s TF_AssetID y then String.ltb (TF_AssetID x) (TF_AssetID y)
  else String.ltb (TF_ExchangeSymbolID x) (TF_ExchangeSymbolID y).

(** ** Selection *)
Definition selectable (p : gmap string string) (regime : string) (held : list string) (row : TrendMomentumFactor) : bool :=
  ((variant p =s "absolute_trend_only") && TF_AbsoluteTrend row ||
   (variant p =s "relative_momentum_only") ||
   ((variant p =s "combined") && (regime <>s "risk_off") && TF_AbsoluteTrend row)) &&
  negb ((param p "entry_momentum_rule" =s "positive_new_targets_v1") && fle (TF_Momentum row) fzero &&
        negb (existsb (String.eqb (TF_Symbol row)) held)).
Definition select_row (p : gmap string string) (regime : string) (held : list string) (topN : Z)
    (selected : list TrendMomentumFactor) (row : TrendMomentumFactor) : list TrendMomentumFactor :=
  if selectable p regime held row && (Z.of_nat (length selected) <? topN) then selected ++ [row] else selected.

(** ** Weights *)
Definition raw_weight (p : gmap string string) (floor : float64) (row : TrendMomentumFactor) : float64 :=
  if volatility p then fdiv fone (fmax (TF_Volatility row) floor) else fone.
Definition add_weight (p : gmap string string) (floor : float64) (s : gmap string float64 * float64)
    (row : TrendMomentumFactor) : gmap string float64 * float64 :=
  let v := raw_weight p floor row in (<[TF_Symbol row := v]> (fst s), fadd (snd s) v).
Definition member_key (members : gmap string TrendMomentumMember) (symbol : string) : string * string :=
  match members !! symbol with Some m => (TM_AssetID m, TM_ExchangeSymbolID m) | None => ("", "") end.
Definition symbol_less (members : gmap string TrendMomentumMember) : string -> string -> bool :=
  lex String.eqb String.ltb (fun s => fst (member_key members s))
    (lex String.eqb String.ltb (fun s => snd (member_key members s)) String.ltb).
Definition weight_of (weights : gmap string float64) (symbol : string) : float64 := default fzero (weights !! symbol).
Definition scale_weights (p : gmap string string) (gross denom : float64) (symbols : list string)
    (weights : gmap string float64) : gmap string float64 :=
  if flt fzero denom
  then foldl (fun m s => <[s := fmin (tmFloat p "position_cap") (fdiv (fmul gross (weight_of m s)) denom)]> m) weights symbols
  else weights.
Definition below_cap (p : gmap string string) (weight : float64) : bool :=
  flt weight (fsub (tmFloat p "position_cap") f_tiny).
(** The passes that spread what the cap left over. *)
Fixpoint spread (passes : nat) (p : gmap string string) (gross : float64) (symbols : list string)
    (weights : gmap string float64) : gmap string float64 :=
  match passes with
  | O => weights
  | S passes =>
      let total := foldl (fun t s => fadd t (weight_of weights s)) fzero symbols in
      let open := length (List.filter (fun s => below_cap p (weight_of weights s)) symbols) in
      if fle (fsub gross f_tiny) total || (open =? 0)%nat then weights else
      let add := fdiv (fsub gross total) (f_of_Z (Z.of_nat open)) in
      spread passes p gross symbols
        (foldl (fun m s => if below_cap p (weight_of m s)
                           then <[s := fmin (tmFloat p "position_cap") (fadd (weight_of m s) add)]> m else m) weights symbols)
  end.

(** ** Factors and exits of the plan *)
Definition factor_reason (p : gmap string string) (regime : string) (held : list string) (selected : bool)
    (row : TrendMomentumFactor) : string :=
  if selected then "selected"
  else if (variant p <>s "relative_momentum_only") && negb (TF_AbsoluteTrend row) then "excluded_absolute_trend"
  else if regime =s "risk_off" then "excluded_regime_risk_off"
  else if (param p "entry_momentum_rule" =s "positive_new_targets_v1") && fle (TF_Momentum row) fzero &&
          negb (existsb (String.eqb (TF_Symbol row)) held)
  then "excluded_nonpositive_new_entry_momentum"
  else "excluded_below_rank".
Definition labelled (p : gmap string string) (regime : string) (held : list string) (weights : gmap string float64)
    (i : nat) (row : TrendMomentumFactor) : TrendMomentumFactor :=
  let selected := bool_decide (is_Some (weights !! TF_Symbol row)) in
  mkTMFactor (TF_Symbol row) (TF_AssetID row) (TF_ExchangeSymbolID row) (TF_Momentum row) (TF_Volatility row)
    (TF_Normalized row) (TF_AbsoluteTrend row) (TF_Last row) (TF_TrendMean row) (Z.of_nat i + 1) selected
    (factor_reason p regime held selected row).
(** [bySymbol[symbol]]: the last row of the symbol. *)
Definition where_row (symbol : string) (rows : list TrendMomentumFactor) : option TrendMomentumFactor :=
  head (List.filter (fun row => TF_Symbol row =s symbol) (reverse rows)).
Definition exit_reasons (p : gmap string string) (regime : string) (rows : list TrendMomentumFactor)
    (weights : gmap string float64) (position : TrendMomentumPosition) : list string :=
  (if stopped_out p position then ["risk_stop"] else []) ++
  (if benchmarkGate p && (regime =s "risk_off") then ["regime_risk_off"]
   else if benchmarkGate p && (regime =s "neutral") then ["regime_reduction"] else []) ++
  match where_row (TP_Symbol position) rows with
  | None => ["loss_of_eligibility"]
  | Some state => if (variant p <>s "relative_momentum_only") && negb (TF_AbsoluteTrend state)
                  then ["loss_of_absolute_trend"] else []
  end ++
  match weights !! TP_Symbol position with
  | None => [if relative p then "loss_of_rank" else "loss_of_selection"]
  | Some _ => []
  end.
Definition add_exit (p : gmap string string) (regime : string) (rows : list TrendMomentumFactor)
    (weights : gmap string float64) (exits : gmap string TrendMomentumExit) (position : TrendMomentumPosition) :
    gmap string TrendMomentumExit :=
  match exit_reasons p regime rows weights position with
  | [] => exits
  | primary :: concurrent => <[TP_Symbol position := mkTMExit primary concurrent]> exits
  end.

Section Plan.
(** The order in which [range members] visits the map. *)
Variable range : gmap string TrendMomentumMember -> list (string * TrendMomentumMember).

(** The factor rows and the diagnostics of the members without one. *)
Definition add_row (p : gmap string string) (lookback trendBars : Z) (bucketClose : Time) (history : TrendMomentumHistory)
    (decisionAt : Time) (s : list TrendMomentumFactor * list string) (entry : string * TrendMomentumMember) :
    res (list TrendMomentumFactor * list string) :=
  let '(rows, diagnostics) := s in let '(symbol, member) := entry in
  let bars := tmPreparedAsOf (default [] (th_series history !! symbol)) decisionAt in
  let* row := factor_row p lookback trendBars (tmFloat p "vol_floor") bucketClose bars symbol member in
  Ok match row with
     | inl d => (rows, diagnostics ++ [d])
     | inr r => (rows ++ [r], diagnostics)
     end.

(** From the sorted rows to the plan. *)
Definition finish_plan (input : TrendMomentumInput) (p : gmap string string) (regime reason : string)
    (members : gmap string TrendMomentumMember) (rows : list TrendMomentumFactor) (diagnostics : list string) :
    TrendMomentumPlan :=
  let gross := target_gross p regime in let floor := tmFloat p "vol_floor" in
  let topN := Z.min (tmInt p "top_n") (tmInt p "max_positions") in
  let held := TP_Symbol <$> TI_Positions input in
  let selected := foldl (select_row p regime held topN) [] rows in
  let '(weights, denom) := foldl (add_weight p floor) (∅, fzero) selected in
  let symbols := SliceStable (symbol_less members) (map_to_list weights).*1 in
  let weights := scale_weights p gross denom symbols weights in
  let weights := spread (size weights) p gross symbols weights in
  mkTMPlan true (SliceStable (symbol_less members) symbols) weights regime reason gross
    (imap (labelled p regime held weights) rows)
    (foldl (add_exit p regime rows weights) ∅ (TI_Positions input)) diagnostics false.

Definition PlanTrendMomentumWithHistory (input : TrendMomentumInput) (history0 : option TrendMomentumHistory) :
    res TrendMomentumPlan :=
  if IsZero (TI_DecisionAt input) then Err (Errorf "trend momentum decision time is required" []) else
  match TI_Parameters input with
  | None => Err (Errorf "trend momentum parameters are required" [])
  | Some p =>
      match history0 with
      | None => Err (Errorf "trend momentum prepared history is required" [])
      | Some history =>
          let intent := param p "execution_intent" in
          if (intent =s "live_submit") || (intent =s "promotion")
          then Err (Errorf "trend momentum execution intent %q is fenced" [intent]) else
          match ParseDuration (param p "rebalance") with
          | None => Err (Errorf "invalid trend momentum rebalance" [])
          | Some rebalance =>
              if rebalance <=? 0 then Err (Errorf "invalid trend momentum rebalance" []) else
              if negb (IsZero (TI_LastRebalance input)) &&
                 (time_Sub (TI_DecisionAt input) (TI_LastRebalance input) <? rebalance)
              then Ok (plan_between input p) else
              let benchmark := tmPreparedAsOf (th_benchmark history) (TI_DecisionAt input) in
              let n := Z.of_nat (length benchmark) in let regimeBars := tmInt p "regime_bars" in
              if n <? regimeBars then Err (Errorf "completed benchmark regime warmup unavailable" []) else
              let* benchmark := slice_from benchmark (n - regimeBars) in
              let* lastBar := index benchmark (Z.of_nat (length benchmark) - 1) in
              let '(regime, reason) := regime_of p benchmark (TB_Close lastBar) in
              let lookback := tmInt p "lookback_bars" in let trendBars := tmInt p "trend_bars" in
              if (lookback <? 1) || (trendBars <? 1) then Err (Errorf "trend momentum lookbacks are required" []) else
              let* members := foldM add_member ∅ (TI_Members input) in
              let* (rows, diagnostics) :=
                foldM (add_row p lookback trendBars (TB_CloseTime lastBar) history (TI_DecisionAt input)) ([], [])
                  (range members) in
              Ok (finish_plan input p regime reason members (SliceStable (row_less p) rows) diagnostics)
          end
      end
  end.
Definition PlanTrendMomentum (input : TrendMomentumInput) : res TrendMomentumPlan :=
  PlanTrendMomentumWithHistory input (Some (PrepareTrendMomentumHistory (TI_Benchmark input) (TI_Series input))).
End Plan.
