(* ===== verification/TrendMomentumProofs.v ===== *)
(** * TrendMomentumProofs: what the planner guarantees

    No lookahead, gated targets, and independence of the map's iteration. *)
From Stdlib Require Import Ascii SpecFloat.
From stdpp Require Import base numbers strings gmap list.
From S2P Require Import Prelude GoStrings GoFloat GoFormat Snapshots GoTime TrendMomentum.
Local Open Scope Z_scope.

(** ** Filters *)
Lemma filter_sublist {A} (p : A -> bool) l : sublist (List.filter p l) l.
Proof. induction l as [|a l IH]; cbn; [constructor|]. destruct (p a); by constructor. Qed.
Lemma filter_ext {A} (p q : A -> bool) l : (forall a, a ∈ l -> p a = q a) -> List.filter p l = List.filter q l.
Proof.
  induction l as [|a l IH]; intros H; cbn; [done|].
  rewrite (H a), IH; [done | intros b Hb; apply H; by right | left].
Qed.
Lemma filter_fmap {A B} (p : B -> bool) (f : A -> B) l : List.filter p (f <$> l) = f <$> List.filter (fun a => p (f a)) l.
Proof. induction l as [|a l IH]; cbn; [done|]. rewrite IH. by destruct (p (f a)). Qed.
Lemma elem_of_filter {A} (p : A -> bool) l a : a ∈ List.filter p l <-> a ∈ l /\ p a = true.
Proof. by rewrite list_elem_of_In, List.filter_In, <- list_elem_of_In. Qed.

(** ** Slots *)
(** The quarter hours of a 4h bucket. *)
Lemma quarter_index t : Minute t mod 15 = 0 -> Second t = 0 -> Nanosecond t = 0 ->
  let b := Truncate t BucketNs in let j := Z.quot (time_Sub t b) QuarterNs in
  b mod BucketNs = 0 /\ (t : Z) = b + j * QuarterNs /\ 0 <= j <= 15.
Proof.
  intros Hk Hs0 Hn0. cbn zeta. pose proof (Truncate_bounds t BucketNs ltac:(done)) as Hb.
  split; [by apply Truncate_mod|].
  assert (Hq : t mod QuarterNs = 0).
  { assert (Hm : t mod MinuteNs = 0) by (apply minute_aligned; lia).
    unfold Minute in Hk. unfold QuarterNs.
    assert (E60 : (t / MinuteNs) mod 15 = 0).
    { rewrite <- Hk. rewrite <- (Z.mod_mod_divide _ 60 15) by (by exists 4). done. }
    rewrite (Z.div_mod t MinuteNs), Hm, Z.add_0_r, (Z.mul_comm MinuteNs) by done.
    rewrite Z.mul_mod_distr_r by done. by rewrite E60. }
  assert (Hd : (t - Truncate t BucketNs) mod QuarterNs = 0).
  { unfold Truncate. replace (t - (t - t mod BucketNs)) with (t mod BucketNs) by lia.
    rewrite <- Hq. apply Z.mod_mod_divide. by exists 16. }
  assert (Hs : time_Sub t (Truncate t BucketNs) = t - Truncate t BucketNs).
  { unfold time_Sub, BucketNs, HourNs, MinuteNs, SecondNs in *. lia. }
  rewrite Hs. set (d := t - Truncate t BucketNs) in *.
  assert (Hdb : 0 <= d < BucketNs) by lia. rewrite Z.quot_div_nonneg by (done || lia).
  pose proof (Z.div_mod d QuarterNs ltac:(done)) as Hdiv. rewrite Hd in Hdiv.
  assert (d / QuarterNs <= 15). { apply Z.lt_succ_r, Z.div_lt_upper_bound; [done|]. exact (proj2 Hdb). }
  pose proof (Z.div_pos d QuarterNs ltac:(lia) ltac:(done)). lia.
Qed.
Lemma bar_slot_Some bar b j : bar_slot bar = Some (b, j) ->
  b mod BucketNs = 0 /\ (TB_OpenTime bar : Z) = b + j * QuarterNs /\ 0 <= j <= 15 /\
  TB_OpenTime bar <= TB_CloseTime bar <= TB_OpenTime bar + QuarterNs.
Proof.
  unfold bar_slot. destruct (fle _ _); [done|].
  destruct (negb _ || _ || _)%bool eqn:Ea; [done|]. destruct (Before _ _ || After _ _)%bool eqn:Eb; [done|]. cbn zeta. intros [= <- <-].
  unfold Before, After in Eb. bool_prop. destruct (quarter_index (TB_OpenTime bar)) as (Q1 & Q2 & Q3); [lia..|].
  split_and!; (done || lia).
Qed.

Definition slot_bar (bars : list TrendMomentumBar) (b : Time) (j : Z) : option TrendMomentumBar :=
  default ∅ (foldl add_bar ∅ bars !! b) !! j.
Definition distinct_opens (bars : list TrendMomentumBar) : Prop := NoDup (TB_OpenTime <$> bars).

Lemma slot_bar_snoc bars bar b j : slot_bar (bars ++ [bar]) b j =
  if bool_decide (bar_slot bar = Some (b, j)) then Some bar else slot_bar bars b j.
Proof.
  unfold slot_bar. rewrite foldl_app. cbn [foldl]. unfold add_bar at 1. destruct (bar_slot bar) as [[b' j']|]; [|done].
  destruct (decide (b' = b)) as [<-|Hb].
  - rewrite lookup_insert_eq. cbn. destruct (decide (j' = j)) as [<-|Hj].
    + rewrite lookup_insert_eq, bool_decide_eq_true_2 by done. done.
    + rewrite lookup_insert_ne, bool_decide_eq_false_2 by congruence. done.
  - rewrite lookup_insert_ne, bool_decide_eq_false_2 by congruence. done.
Qed.
(** With distinct opening times a slot holds the only bar that fits it. *)
Lemma slot_bar_spec bars b j bar : distinct_opens bars ->
  slot_bar bars b j = Some bar <-> bar ∈ bars /\ bar_slot bar = Some (b, j).
Proof.
  induction bars as [|x bars IH] using rev_ind; intros Hd.
  - unfold slot_bar. cbn. split; [by rewrite lookup_empty | by intros [?%elem_of_nil _]].
  - unfold distinct_opens in Hd. rewrite fmap_app in Hd. apply NoDup_app in Hd as (Hd & Hx & _).
    rewrite slot_bar_snoc. destruct (bool_decide _) eqn:E.
    + apply bool_decide_eq_true in E. split.
      * intros [= <-]. split; [set_solver | done].
      * intros [Hin Hs]. apply elem_of_app in Hin as [Hin|Hin%list_elem_of_singleton]; [exfalso|by subst].
        apply bar_slot_Some in E as (_ & E & _), Hs as (_ & Hs & _).
        apply (Hx (TB_OpenTime bar)); [by apply list_elem_of_fmap_2 | apply list_elem_of_singleton]. congruence.
    + apply bool_decide_eq_false in E. rewrite (IH Hd). set_unfold. naive_solver.
Qed.

(** ** Complete buckets *)
Definition complete (bars : list TrendMomentumBar) (b : Time) : Prop := forall j, 0 <= j <= 15 -> is_Some (slot_bar bars b j).
Definition keys_of (bars : list TrendMomentumBar) : list Time :=
  (List.filter (fun '(_, bucket) => Z.of_nat (size bucket) =? 16)
     (map_to_list (foldl add_bar ∅ bars : Buckets))).*1.
Definition last_slot (bars : list TrendMomentumBar) (b : Time) : TrendMomentumBar :=
  default (mkTMBar 0 0 fzero) (slot_bar bars b 15).

Lemma size_slots {A} (m : gmap Z A) : (forall j, is_Some (m !! j) -> 0 <= j <= 15) ->
  Z.of_nat (size m) = 16 <-> (forall j, 0 <= j <= 15 -> is_Some (m !! j)).
Proof.
  intros Hr. set (S := list_to_set (seqZ 0 16) : gset Z).
  assert (HS : forall j, j ∈ S <-> 0 <= j <= 15) by (intros j; unfold S; rewrite elem_of_list_to_set, elem_of_seqZ; lia).
  assert (Hsize : size S = 16%nat) by (vm_compute; done).
  assert (Hsub : dom m ⊆ S) by (intros j Hj; apply HS, Hr; by apply elem_of_dom).
  rewrite <- size_dom. split.
  - intros E j Hj. apply elem_of_dom. assert (dom m = S) as -> by (apply set_subseteq_size_eq; [done | lia]). by apply HS.
  - intros H. assert (dom m = S) as ->; [|lia]. apply set_eq. intros j. split; [apply Hsub|].
    intros Hj%HS. by apply elem_of_dom, H.
Qed.
Lemma slot_range bars b j bar : distinct_opens bars -> slot_bar bars b j = Some bar -> 0 <= j <= 15.
Proof. intros Hd [_ Hs]%slot_bar_spec; [|done]. by apply bar_slot_Some in Hs as (_ & _ & ? & _). Qed.
Lemma keys_of_spec bars b : distinct_opens bars -> b ∈ keys_of bars <-> complete bars b.
Proof.
  intros Hd. unfold keys_of.
  assert (Hr : forall m, foldl add_bar ∅ bars !! b = Some m -> forall j, is_Some (m !! j) -> 0 <= j <= 15).
  { intros m Hm j [bar Hj]. apply (slot_range bars b j bar Hd). unfold slot_bar. by rewrite Hm. }
  split.
  - intros ([b' m] & -> & [Hin Hs]%elem_of_filter)%list_elem_of_fmap. cbn in *. apply elem_of_map_to_list in Hin.
    intros j Hj. unfold slot_bar. rewrite Hin. apply Z.eqb_eq in Hs. by apply (size_slots m (Hr m Hin)).
  - intros Hc. unfold complete, slot_bar in Hc. destruct (foldl add_bar ∅ bars !! b) as [m|] eqn:Em.
    + apply list_elem_of_fmap. exists (b, m). split; [done|]. apply elem_of_filter. split; [by apply elem_of_map_to_list|].
      apply Z.eqb_eq. by apply (size_slots m (Hr m eq_refl)).
    + destruct (Hc 0 ltac:(lia)) as [x Hx]. cbn in Hx. by rewrite lookup_empty in Hx.
Qed.
Lemma keys_of_NoDup bars : NoDup (keys_of bars).
Proof.
  unfold keys_of. eapply sublist_NoDup; [|apply (fmap_sublist fst), filter_sublist].
  apply (NoDup_fst_map_to_list (foldl add_bar ∅ bars : Buckets)).
Qed.

(** ** What is known at a time *)
Lemma multiples_gap a b n : 0 < n -> a mod n = 0 -> b mod n = 0 -> a < b -> a + n <= b.
Proof.
  intros Hn Ha%Z.div_exact Hb%Z.div_exact Hlt; [|lia..]. rewrite Ha, Hb in *.
  assert (a / n < b / n) by nia. nia.
Qed.
Lemma ordered_lookup (l : list Time) i j x y : ordered Before l -> (i < j)%nat -> l !! i = Some x -> l !! j = Some y -> x <= y.
Proof.
  revert i j. induction l as [|a l IH]; intros i j Ho Hij Hi Hj; [done|].
  apply (ordered_cons Before) in Ho as [Ho Hf]; [|unfold Before; intros; lia]. destruct j as [|j]; [lia|]. cbn in Hj.
  destruct i as [|i]; [injection Hi as <-|by apply (IH i j); [| lia | |]].
  rewrite Forall_forall in Hf. specialize (Hf y ltac:(by eapply list_elem_of_lookup_2)). unfold Before in Hf. lia.
Qed.
Lemma take_filter {A} (p : A -> bool) l r : (forall k a, l !! k = Some a -> p a = (k <? r)%nat) ->
  take r l = List.filter p l.
Proof.
  revert r. induction l as [|a l IH]; intros r H; [by rewrite take_nil|]. cbn [List.filter].
  rewrite (H 0%nat a eq_refl). destruct r as [|r]; cbn.
  - rewrite <- (IH 0%nat); [by rewrite take_0 | intros k x Hk; exact (H (S k) x Hk)].
  - f_equal. apply IH. intros k x Hk. exact (H (S k) x Hk).
Qed.

Section Known.
Context (bars : list TrendMomentumBar) (at_ : Time).
Hypothesis Hd : distinct_opens bars.

Lemma last_slot_close b : complete bars b -> b mod BucketNs = 0 /\
  b + 15 * QuarterNs <= TB_CloseTime (last_slot bars b) <= b + BucketNs /\
  slot_bar bars b 15 = Some (last_slot bars b).
Proof using Hd.
  intros Hc. destruct (Hc 15 ltac:(lia)) as [bar E]. unfold last_slot. rewrite E. cbn [default from_option id].
  apply slot_bar_spec in E as [_ (H1 & H2 & _ & H3)%bar_slot_Some]; [|done].
  split_and!; [done | | |done]; clear H1; unfold BucketNs, QuarterNs, HourNs, MinuteNs, SecondNs in *; lia.
Qed.
Lemma keys_gap b1 b2 : complete bars b1 -> complete bars b2 -> b1 < b2 ->
  TB_CloseTime (last_slot bars b1) < TB_CloseTime (last_slot bars b2).
Proof using Hd.
  intros [H1 [H2 _]]%last_slot_close [H3 [H4 _]]%last_slot_close Hlt.
  enough (b1 + BucketNs <= b2) by (unfold QuarterNs, MinuteNs, SecondNs in *; lia).
  by apply multiples_gap.
Qed.

Lemma aggregate_eq : tmAggregate4H bars = last_slot bars <$> SliceStable Before (keys_of bars).
Proof. done. Qed.
Lemma sorted_keys_complete b : b ∈ SliceStable Before (keys_of bars) <-> complete bars b.
Proof using Hd. rewrite SliceStable_elem. by apply keys_of_spec. Qed.
Lemma prepared_filter : tmPreparedAsOf (tmAggregate4H bars) at_ =
  last_slot bars <$> List.filter (fun b => TB_CloseTime (last_slot bars b) <=? at_) (SliceStable Before (keys_of bars)).
Proof using Hd.
  rewrite <- (filter_fmap (fun bar => TB_CloseTime bar <=? at_)). unfold tmPreparedAsOf. rewrite aggregate_eq.
  set (l := SliceStable Before (keys_of bars)).
  assert (Hinc : forall i j x y, (i <= j)%nat -> l !! i = Some x -> l !! j = Some y ->
    TB_CloseTime (last_slot bars x) <= TB_CloseTime (last_slot bars y)).
  { intros i j x y Hij Hi Hj. destruct (decide (i = j)) as [->|]; [simplify_eq; lia|].
    assert (Hle : x <= y) by (eapply (ordered_lookup l i j); [apply SliceStable_ordered; unfold Before; intros; lia | | exact Hi | exact Hj]; lia).
    destruct (decide (x = y)) as [->|]; [lia|]. apply Z.lt_le_incl, keys_gap; [| | lia]; apply sorted_keys_complete;
      by eapply list_elem_of_lookup_2. }
  set (f := fun i => match (last_slot bars <$> l) !! i with Some bar => After (TB_CloseTime bar) at_ | None => true end).
  destruct (Search_spec f (length (last_slot bars <$> l))) as (_ & Hlo & Hhi).
  { intros i j Hij Hi. unfold f in *. rewrite !list_lookup_fmap in *. destruct (l !! j) as [y|] eqn:Ej; [|done].
    destruct (l !! i) as [x|] eqn:Ei; [|apply lookup_ge_None in Ei; apply lookup_lt_Some in Ej; lia].
    cbn in *. unfold After in *. pose proof (Hinc i j x y ltac:(lia) Ei Ej). lia. }
  apply take_filter. intros k bar Hk. assert (Hf : f k = After (TB_CloseTime bar) at_) by (unfold f; by rewrite Hk).
  pose proof (lookup_lt_Some _ _ _ Hk). destruct (Nat.ltb_spec k (Search (length (last_slot bars <$> l)) f)).
  - specialize (Hlo k ltac:(lia)). rewrite Hf in Hlo. unfold After in Hlo. lia.
  - specialize (Hhi k ltac:(lia)). rewrite Hf in Hhi. unfold After in Hhi. lia.
Qed.

(** The bars that have closed by then. *)
Definition known : list TrendMomentumBar := List.filter (fun bar => TB_CloseTime bar <=? at_) bars.
Lemma known_distinct : distinct_opens known.
Proof using Hd. unfold distinct_opens, known. eapply sublist_NoDup; [exact Hd|]. apply fmap_sublist, filter_sublist. Qed.
End Known.

Lemma known_complete bars at_ b : distinct_opens bars ->
  (complete (known bars at_) b /\ TB_CloseTime (last_slot (known bars at_) b) <= at_) <->
  (complete bars b /\ TB_CloseTime (last_slot bars b) <= at_).
Proof.
  intros Hd. pose proof (known_distinct bars at_ Hd) as Hk.
  assert (Hslot : forall j bar, slot_bar (known bars at_) b j = Some bar <->
    slot_bar bars b j = Some bar /\ TB_CloseTime bar <= at_).
  { intros j bar. rewrite !slot_bar_spec by done. unfold known. rewrite elem_of_filter, Z.leb_le. tauto. }
  split; intros [Hc Hle].
  - assert (Hc' : complete bars b) by (intros j Hj; destruct (Hc j Hj) as [x [Hx _]%Hslot]; by eexists).
    split; [done|]. destruct (last_slot_close _ Hk b Hc) as (_ & _ & [E _]%Hslot).
    destruct (last_slot_close _ Hd b Hc') as (_ & _ & E'). congruence.
  - destruct (last_slot_close _ Hd b Hc) as (_ & _ & E). pose proof E as [_ (_ & Eo & _ & Ec)%bar_slot_Some]%slot_bar_spec; [|done].
    assert (Hc' : complete (known bars at_) b).
    { intros j Hj. destruct (Hc j Hj) as [x Hx]. exists x. apply Hslot. split; [done|].
      destruct (decide (j = 15)) as [->|]; [congruence|].
      apply slot_bar_spec in Hx as [_ (_ & Exo & _ & Exc)%bar_slot_Some]; [|done].
      unfold QuarterNs, MinuteNs, SecondNs in *. lia. }
    split; [done|]. destruct (last_slot_close _ Hk b Hc') as (_ & _ & [E' ?]%Hslot). done.
Qed.

Lemma prepared_known bars at_ : distinct_opens bars ->
  tmPreparedAsOf (tmAggregate4H (known bars at_)) at_ = tmPreparedAsOf (tmAggregate4H bars) at_.
Proof.
  intros Hd. pose proof (known_distinct bars at_ Hd) as Hk. rewrite !prepared_filter by done.
  set (sel := fun bs => List.filter (fun b => TB_CloseTime (last_slot bs b) <=? at_) (SliceStable Before (keys_of bs))).
  fold (sel bars) (sel (known bars at_)).
  assert (Hsel : forall bs, distinct_opens bs -> forall b, b ∈ sel bs <-> complete bs b /\ TB_CloseTime (last_slot bs b) <= at_).
  { intros bs Hbs b. unfold sel. by rewrite elem_of_filter, sorted_keys_complete, Z.leb_le. }
  assert (Hord : forall bs, ordered Before (sel bs)).
  { intros bs. eapply (ordered_sublist Before); [apply filter_sublist | apply SliceStable_ordered; unfold Before; intros; lia]. }
  assert (Hnd : forall bs, NoDup (sel bs)).
  { intros bs. eapply sublist_NoDup; [|apply filter_sublist]. rewrite <- SliceStable_Permutation. apply keys_of_NoDup. }
  assert (E : sel (known bars at_) = sel bars).
  { apply (ordered_unique Before); [unfold Before; intros; lia.. | done | done |].
    apply NoDup_Permutation; [done..|]. intros b. rewrite !Hsel by done. by apply known_complete. }
  rewrite E. apply list_fmap_ext. intros i b Hb.
  assert (Hin : b ∈ sel bars) by (by eapply list_elem_of_lookup_2). pose proof Hin as [Hc Hle]%Hsel; [|done].
  rewrite <- E in Hin. apply Hsel in Hin as [Hc' Hle']; [|done].
  destruct (last_slot_close _ Hk b Hc') as (_ & _ & [Hin1 Hs1]%slot_bar_spec); [|done].
  destruct (last_slot_close _ Hd b Hc) as (_ & _ & E1).
  assert (E2 : slot_bar bars b 15 = Some (last_slot (known bars at_) b)).
  { apply slot_bar_spec; [done|]. split; [|done]. unfold known in Hin1. by apply elem_of_filter in Hin1 as [? _]. }
  congruence.
Qed.

(** ** No lookahead *)
Lemma foldM_ext {A S} (f g : S -> A -> res S) l s : (forall s a, f s a = g s a) -> foldM f s l = foldM g s l.
Proof. intros H. revert s. induction l as [|a l IH]; intros s; [done|]. cbn. rewrite H. by destruct (g s a); cbn. Qed.

(** What of an input has happened by its decision time. *)
Definition seen_at (input : TrendMomentumInput) : TrendMomentumInput :=
  let at_ := TI_DecisionAt input in
  mkTMInput at_ (TI_LastRebalance input) (known (TI_Benchmark input) at_)
    ((fun bars => known bars at_) <$> TI_Series input) (TI_Members input) (TI_Positions input) (TI_LastTargets input)
    (TI_Parameters input).

(** C17. No lookahead: bars that close after the decision have no influence on
    the plan, whatever they contain, as long as no series has two bars with one
    opening time. *)
Theorem PlanTrendMomentum_no_lookahead range input : distinct_opens (TI_Benchmark input) ->
  map_Forall (fun _ bars => distinct_opens bars) (TI_Series input) ->
  PlanTrendMomentum range input = PlanTrendMomentum range (seen_at input).
Proof.
  intros Hb Hs. unfold PlanTrendMomentum, PlanTrendMomentumWithHistory, PrepareTrendMomentumHistory.
  cbn [seen_at TI_DecisionAt TI_Parameters TI_LastRebalance TI_Benchmark TI_Series TI_Members th_benchmark].
  rewrite prepared_known by done. change (plan_between (seen_at input)) with (plan_between input).
  change (finish_plan (seen_at input)) with (finish_plan input).
  repeat match goal with
  | |- (if ?c then _ else _) = (if ?c then _ else _) => destruct c; [done|]
  | |- match ?o with Some _ => _ | None => _ end = match ?o with Some _ => _ | None => _ end => destruct o; [|done]
  | |- rbind ?m _ = rbind ?m _ => destruct m; cbn [rbind]; [|done..]
  | |- (let '(_, _) := ?x in _) = (let '(_, _) := ?x in _) => destruct x
  | |- match ?o with Some _ => _ | None => _ end = _ => destruct o; [|done]
  | |- _ => progress cbn zeta
  end.
  f_equal. apply foldM_ext. intros [rows diags] [symbol member]. unfold add_row. cbn [th_series].
  rewrite !lookup_fmap. specialize (Hs symbol). destruct (TI_Series input !! symbol) as [bars|]; [|done].
  cbn [fmap option_fmap option_map default from_option id]. by rewrite prepared_known by (by apply Hs).
Qed.

(** ** Folds of the selection and of the weights *)
Section Selection.
Context (p : gmap string string) (regime : string) (held : list string) (topN : Z) (floor : float64).

Lemma select_spec rows : let selected := foldl (select_row p regime held topN) [] rows in
  sublist selected rows /\ Forall (fun r => selectable p regime held r = true) selected /\
  Z.of_nat (length selected) <= Z.max 0 topN.
Proof.
  induction rows as [|r rows IH] using rev_ind; [split_and!; [constructor | constructor | cbn; lia]|].
  rewrite foldl_app. cbn [foldl]. cbn zeta in *. destruct IH as (H1 & H2 & H3).
  set (sel := foldl _ [] rows) in *. unfold select_row.
  destruct (selectable p regime held r) eqn:E; cbn [andb]; [destruct (Z.ltb_spec (Z.of_nat (length sel)) topN)|].
  - split_and!; [by apply sublist_app | by apply Forall_app_2, Forall_singleton | rewrite length_app; cbn; lia].
  - split_and!; [by apply sublist_inserts_r | done | done].
  - split_and!; [by apply sublist_inserts_r | done | done].
Qed.

Lemma weights_spec selected s0 : let s := foldl (add_weight p floor) s0 selected in
  snd s = foldl (fun d r => fadd d (raw_weight p floor r)) (snd s0) selected /\
  dom (fst s) = list_to_set (C := gset string) (TF_Symbol <$> selected) ∪ dom (fst s0).
Proof.
  revert s0. induction selected as [|r l IH]; intros s0; cbn [foldl]; [split; [done | set_solver]|].
  destruct (IH (add_weight p floor s0 r)) as [H1 H2]. cbn zeta in *. rewrite H1, H2. split; [done|].
  unfold add_weight. cbn [fst]. set_solver.
Qed.

(** Updates at keys that are there keep the keys, and a property of the values. *)
Lemma updates_dom (c : gmap string float64 -> string -> bool) (f : gmap string float64 -> string -> float64) l m :
  (forall s, s ∈ l -> s ∈ dom m) -> dom (foldl (fun m s => if c m s then <[s := f m s]> m else m) m l) = dom m.
Proof.
  revert m. induction l as [|s l IH]; intros m H; [done|]. cbn [foldl].
  assert (E : dom (if c m s then <[s := f m s]> m else m) = dom m).
  { destruct (c m s); [|done]. rewrite dom_insert_L. specialize (H s ltac:(left)). set_solver. }
  rewrite IH; [done|]. intros x Hx. rewrite E. apply H. by right.
Qed.
Lemma updates_values (P : float64 -> Prop) (c : gmap string float64 -> string -> bool)
    (f : gmap string float64 -> string -> float64) l m : (forall m s, P (f m s)) ->
  map_Forall (fun _ => P) m -> map_Forall (fun _ => P) (foldl (fun m s => if c m s then <[s := f m s]> m else m) m l).
Proof.
  intros Hf. revert m. induction l as [|s l IH]; intros m Hm; [done|]. cbn [foldl]. apply IH.
  destruct (c m s); [|done]. apply map_Forall_insert_2; [apply Hf | done].
Qed.
Definition capped (w : float64) : Prop := flt (tmFloat p "position_cap") w = false.
Lemma fmin_capped x : capped (fmin (tmFloat p "position_cap") x).
Proof.
  unfold capped, fmin, flt. set (c := tmFloat p "position_cap").
  assert (Hcc : SFltb c c = false).
  { destruct c as [[]|[]| |[] m e]; cbn; try done; unfold SFltb, SFcompare; rewrite ?Z.compare_refl, ?Pos.compare_cont_refl; done. }
  destruct (existsb _ _) eqn:E1; [by destruct c as [[]|[]| |[] m e]|].
  destruct (is_nan c || is_nan x)%bool eqn:E2; [by destruct c as [[]|[]| |[] m e]|].
  destruct (_ && _)%bool eqn:E3.
  - apply andb_true_iff in E3 as [Hz Hx]. destruct c as [[]|[]| |[] m e], x as [[]|[]| |[] m' e']; done.
  - destruct (SFltb c x) eqn:E4; [exact Hcc | exact E4].
Qed.
Lemma spread_dom n gross symbols m : (forall s, s ∈ symbols -> s ∈ dom m) -> dom (spread n p gross symbols m) = dom m.
Proof.
  revert m. induction n as [|n IH]; intros m H; [done|]. cbn [spread]. destruct (_ || _)%bool; [done|].
  assert (E : forall add, dom (foldl (fun m s => if below_cap p (weight_of m s)
    then <[s := fmin (tmFloat p "position_cap") (fadd (weight_of m s) add)]> m else m) m symbols) = dom m).
  { intros add. by apply (updates_dom (fun m s => below_cap p (weight_of m s))
      (fun m s => fmin (tmFloat p "position_cap") (fadd (weight_of m s) add))). }
  rewrite IH; [apply E|]. intros s Hs. rewrite E. by apply H.
Qed.
Lemma spread_capped n gross symbols m : map_Forall (fun _ => capped) m -> map_Forall (fun _ => capped) (spread n p gross symbols m).
Proof.
  revert m. induction n as [|n IH]; intros m H; [done|]. cbn [spread]. destruct (_ || _)%bool; [done|]. apply IH.
  apply (updates_values capped (fun m s => below_cap p (weight_of m s))
    (fun m s => fmin (tmFloat p "position_cap") (fadd (weight_of m s) _))); [intros; apply fmin_capped | done].
Qed.
Lemma scale_dom gross denom symbols m : (forall s, s ∈ symbols -> s ∈ dom m) -> dom (scale_weights p gross denom symbols m) = dom m.
Proof.
  intros H. unfold scale_weights. destruct (flt _ _); [|done].
  by apply (updates_dom (fun _ _ => true) (fun m s => fmin (tmFloat p "position_cap") (fdiv (fmul gross (weight_of m s)) denom))).
Qed.
Lemma scale_capped gross denom symbols m : flt fzero denom = true -> (forall s, s ∈ dom m -> s ∈ symbols) -> NoDup symbols ->
  map_Forall (fun _ => capped) (scale_weights p gross denom symbols m).
Proof.
  intros Hd Hs Hn. unfold scale_weights. rewrite Hd.
  assert (Hgen : forall l (m : gmap string float64), (forall s w, m !! s = Some w -> s ∈ l \/ capped w) ->
    map_Forall (fun _ => capped) (foldl (fun m s => <[s := fmin (tmFloat p "position_cap") (fdiv (fmul gross (weight_of m s)) denom)]> m) m l)).
  { induction l as [|s l IH]; intros m' H'; cbn [foldl].
    - intros s w Hw. destruct (H' s w Hw) as [?%elem_of_nil|]; done.
    - apply IH. intros s' w Hw. destruct (decide (s' = s)) as [->|].
      + rewrite lookup_insert_eq in Hw. injection Hw as <-. right. apply fmin_capped.
      + rewrite lookup_insert_ne in Hw by done. destruct (H' s' w Hw) as [Hin|]; [|by right]. left. set_solver. }
  apply Hgen. intros s w Hw. left. apply Hs. by eapply elem_of_dom_2.
Qed.
End Selection.

(** ** The rows and their symbols *)
(** What a new target must satisfy in the variant of the plan. *)
Definition admitted (p : gmap string string) (regime : string) (held : list string) (r : TrendMomentumFactor) : Prop :=
  (variant p = "combined" \/ variant p = "absolute_trend_only" \/ variant p = "relative_momentum_only") /\
  (variant p = "combined" -> regime <> "risk_off") /\
  (variant p <> "relative_momentum_only" -> TF_AbsoluteTrend r = true) /\
  (param p "entry_momentum_rule" = "positive_new_targets_v1" -> ~ TF_Symbol r ∈ held -> fle (TF_Momentum r) fzero = false).
Lemma selectable_admitted p regime held r : selectable p regime held r = true -> admitted p regime held r.
Proof.
  unfold selectable, admitted. intros [Hv Hm]%andb_true_iff. rewrite !orb_true_iff, !andb_true_iff in Hv.
  rewrite !negb_true_iff, !String.eqb_eq, String.eqb_neq in Hv.
  split_and!.
  - tauto.
  - intros Hc. rewrite Hc in Hv. destruct Hv as [[[? _]|?]|[[_ ?] _]]; [done..|]. done.
  - tauto.
  - intros E Hn. rewrite E in Hm. cbn in Hm. destruct (fle _ _); [|done]. cbn in Hm.
    exfalso. apply Hn. destruct (existsb _ held) eqn:Eh; [|done]. apply existsb_exists in Eh as (x & Hx & ->%String.eqb_eq).
    by apply list_elem_of_In.
Qed.

Lemma filter_nodup {A} (f : A -> string) (sel rows : list A) : sublist sel rows -> NoDup (f <$> rows) ->
  List.filter (fun r => bool_decide (f r ∈ f <$> sel)) rows = sel.
Proof.
  induction 1 as [|a sel rows H IH|a sel rows H IH]; intros Hn; cbn [List.filter]; [done| |];
    cbn in Hn; apply NoDup_cons in Hn as [Ha Hn].
  - rewrite bool_decide_eq_true_2 by (cbn; left). f_equal. etransitivity; [|exact (IH Hn)]. apply filter_ext.
    intros b Hb. apply bool_decide_ext. cbn. rewrite elem_of_cons. split; [intros [E|]; [|done] | by right].
    exfalso. apply Ha. rewrite <- E. by apply list_elem_of_fmap_2.
  - rewrite bool_decide_eq_false_2; [by apply IH|]. intros Hin. apply Ha.
    eapply elem_of_sublist; [exact Hin|]. by apply fmap_sublist.
Qed.

Lemma foldM_rows_spec {S A B} (f : S -> A -> res S) (rows : S -> list B) (R : A -> B -> Prop) l s s' :
  (forall s a s', f s a = Ok s' -> rows s' = rows s \/ exists b, rows s' = rows s ++ [b] /\ R a b) ->
  foldM f s l = Ok s' -> exists tail l', rows s' = rows s ++ tail /\ sublist l' l /\ Forall2 R l' tail.
Proof.
  intros Hf. revert s. induction l as [|a l IH]; intros s H; cbn in H.
  - injection H as <-. exists [], []. by rewrite app_nil_r.
  - destruct (f s a) as [s1| |] eqn:E; cbn in H; [|done..]. destruct (IH s1 H) as (tail & l' & Er & Hs & H2).
    destruct (Hf _ _ _ E) as [E'|(b & E' & Hb)]; rewrite Er, E'.
    + exists tail, l'. split_and!; [done | by constructor | done].
    + exists (b :: tail), (a :: l'). rewrite <- app_assoc. split_and!; [done | by constructor | by constructor].
Qed.

Lemma add_members_spec l m m' : foldM add_member m l = Ok m' -> forall s x, m' !! s = Some x ->
  m !! s = Some x \/ (x ∈ l /\ TM_Eligible x = true /\ TM_Symbol x = s).
Proof.
  revert m. induction l as [|a l IH]; intros m H s x Hx; cbn in H; [injection H as <-; by left|].
  unfold add_member in H at 1. destruct (TM_Eligible a) eqn:Ea; [destruct (_ || _)%bool in H; [done|]|]; cbn in H.
  - destruct (IH _ H s x Hx) as [Hi|(Hin & ? & ?)]; [|right; split_and!; [by right | done..]].
    apply lookup_insert_Some in Hi as [[E1 <-]|[_ ?]]; [right; split_and!; [by left | done..] | by left].
  - destruct (IH _ H s x Hx) as [Hi|(Hin & ? & ?)]; [by left | right; split_and!; [by right | done..]].
Qed.
Lemma factor_row_symbol p lb tb floor close bars s m r : factor_row p lb tb floor close bars s m = Ok (inr r) ->
  TF_Symbol r = s /\ TF_AssetID r = TM_AssetID m /\ TF_ExchangeSymbolID r = TM_ExchangeSymbolID m.
Proof.
  unfold factor_row. destruct (_ <? _); [done|]. destruct (index _ _); cbn; [|done..]. destruct (negb _); [done|].
  destruct (index _ _); cbn; [|done..]. destruct (_ || _)%bool; [done|]. destruct (slice_from _ _); cbn; [|done..].
  destruct (slice_from _ _); cbn; [|done..]. by intros [= <-].
Qed.

(** The rows of one plan: one row per symbol, with the identities of its member. *)
Definition rows_wf (members : gmap string TrendMomentumMember) (rows : list TrendMomentumFactor) : Prop :=
  NoDup (TF_Symbol <$> rows) /\
  Forall (fun r => exists m, members !! TF_Symbol r = Some m /\ TF_AssetID r = TM_AssetID m /\
                             TF_ExchangeSymbolID r = TM_ExchangeSymbolID m) rows.
Lemma rows_wf_perm members l l' : l ≡ₚ l' -> rows_wf members l -> rows_wf members l'.
Proof. intros E [H1 H2]. split; by rewrite <- E. Qed.
Lemma add_rows_wf range p lb tb close history at_ members rows diags :
  range members ≡ₚ map_to_list members ->
  foldM (add_row p lb tb close history at_) ([], []) (range members) = Ok (rows, diags) -> rows_wf members rows.
Proof.
  intros Hr H.
  set (R := fun (e : string * TrendMomentumMember) r =>
    TF_Symbol r = fst e /\ TF_AssetID r = TM_AssetID (snd e) /\ TF_ExchangeSymbolID r = TM_ExchangeSymbolID (snd e)).
  destruct (fun Hf => foldM_rows_spec _ fst R _ _ _ Hf H) as (tail & l' & E & Hs & H2).
  { intros [rs ds] [s m] s' Hs. unfold add_row in Hs. destruct (factor_row _ _ _ _ _ _ _ _) as [x| |] eqn:Hx; [|done..].
       injection Hs as <-. destruct x as [d|r]; [by left|right]. exists r. split; [done|]. by apply factor_row_symbol in Hx. }
  cbn in E. subst rows.
  assert (Ef : TF_Symbol <$> tail = l'.*1) by (clear -H2; induction H2 as [|? ? ? ? (? & _) ? IH]; cbn; congruence).
  split.
  - rewrite Ef. eapply sublist_NoDup; [|by apply fmap_sublist]. rewrite Hr. apply NoDup_fst_map_to_list.
  - apply Forall_forall. intros r Hin. apply list_elem_of_lookup in Hin as [i Hi].
    destruct (Forall2_lookup_r _ _ _ _ _ H2 Hi) as ([s m] & Hl & E1 & E2 & E3). cbn in *. exists m. split_and!; [|done..].
    rewrite E1. apply elem_of_map_to_list. rewrite <- Hr. eapply elem_of_sublist; [|exact Hs]. by eapply list_elem_of_lookup_2.
Qed.

(** ** The plan of the sorted rows *)
(** The sum the raw weights are divided by. *)
Definition raw_sum (p : gmap string string) (rows : list TrendMomentumFactor) : float64 :=
  foldl (fun d r => fadd d (raw_weight p (tmFloat p "vol_floor") r)) fzero (List.filter TF_Selected rows).
Definition plan_ok (input : TrendMomentumInput) (p : gmap string string) (plan : TrendMomentumPlan) : Prop :=
  NoDup (Targets plan) /\ (forall s, s ∈ Targets plan <-> is_Some (TargetWeights plan !! s)) /\
  Z.of_nat (length (Targets plan)) <= Z.max 0 (Z.min (tmInt p "top_n") (tmInt p "max_positions")) /\
  Forall (fun s => exists r m, r ∈ Factors plan /\ TF_Symbol r = s /\ TF_Selected r = true /\
    admitted p (Regime plan) (TP_Symbol <$> TI_Positions input) r /\
    m ∈ TI_Members input /\ TM_Eligible m = true /\ TM_Symbol m = s /\ TF_AssetID r = TM_AssetID m /\
    TF_ExchangeSymbolID r = TM_ExchangeSymbolID m) (Targets plan) /\
  (flt fzero (raw_sum p (Factors plan)) = true -> map_Forall (fun _ => capped p) (TargetWeights plan)).

Lemma labelled_filter p regime held weights k rows :
  foldl (fun d r => fadd d (raw_weight p (tmFloat p "vol_floor") r)) fzero
    (List.filter TF_Selected (imap (fun i => labelled p regime held weights (k + i)) rows)) =
  foldl (fun d r => fadd d (raw_weight p (tmFloat p "vol_floor") r)) fzero
    (List.filter (fun r => bool_decide (is_Some (weights !! TF_Symbol r))) rows).
Proof.
  generalize fzero. revert k. induction rows as [|r rows IH]; intros k z; [done|]. cbn [imap List.filter].
  cbn [labelled TF_Selected]. unfold labelled at 1. cbn [TF_Selected]. rewrite Nat.add_0_r.
  rewrite (imap_ext _ (fun i => labelled p regime held weights (S k + i))) by (intros; cbn; by rewrite Nat.add_succ_r).
  destruct (bool_decide _) eqn:E; cbn [foldl]; apply IH.
Qed.

Lemma finish_plan_ok input p regime reason members rows diags :
  rows_wf members rows ->
  (forall s m, members !! s = Some m -> m ∈ TI_Members input /\ TM_Eligible m = true /\ TM_Symbol m = s) ->
  plan_ok input p (finish_plan input p regime reason members rows diags).
Proof.
  intros [Hn Hrows] Hm. unfold finish_plan.
  set (topN := Z.min _ _). set (held := TP_Symbol <$> _).
  destruct (select_spec p regime held topN rows) as (Hsub & Hsel & Hlen). cbn zeta in *.
  set (sel := foldl (select_row p regime held topN) [] rows) in *. set (floor := tmFloat p "vol_floor").
  destruct (weights_spec p floor sel (∅, fzero)) as [Hden Hdom]. cbn zeta in *.
  destruct (foldl (add_weight p floor) (∅, fzero) sel) as [w0 denom]. cbn [fst snd] in Hden, Hdom.
  set (symbols := SliceStable (symbol_less members) (map_to_list w0).*1).
  assert (Hw0 : dom w0 = list_to_set (C := gset string) (TF_Symbol <$> sel)) by (rewrite Hdom; set_solver).
  assert (Hsym : symbols ≡ₚ (map_to_list w0).*1) by (symmetry; apply SliceStable_Permutation).
  assert (Hsymin : forall s, s ∈ symbols <-> s ∈ dom w0).
  { intros s. rewrite Hsym, elem_of_dom. split.
    - intros ([x y] & -> & Hin)%list_elem_of_fmap. apply elem_of_map_to_list in Hin. by eexists.
    - intros [y Hy]. apply list_elem_of_fmap. exists (s, y). split; [done | by apply elem_of_map_to_list]. }
  assert (Hsymnd : NoDup symbols) by (rewrite Hsym; apply NoDup_fst_map_to_list).
  set (w1 := scale_weights _ _ _ _ _). set (w2 := spread _ _ _ _ _).
  assert (Hd1 : dom w1 = dom w0) by (apply scale_dom; intros s; apply Hsymin).
  assert (Hd2 : dom w2 = dom w0) by (unfold w2; rewrite spread_dom; [done | intros s ?%Hsymin; by rewrite Hd1]).
  assert (Hsome : forall s, is_Some (w2 !! s) <-> s ∈ TF_Symbol <$> sel).
  { intros s. by rewrite <- elem_of_dom, Hd2, Hw0, elem_of_list_to_set. }
  assert (HT : SliceStable (symbol_less members) symbols ≡ₚ symbols) by (symmetry; apply SliceStable_Permutation).
  assert (Hselsym : symbols ≡ₚ TF_Symbol <$> sel).
  { apply NoDup_Permutation; [done | by eapply sublist_NoDup, fmap_sublist |].
    intros s. by rewrite Hsymin, Hw0, elem_of_list_to_set. }
  unfold plan_ok. cbn [Targets TargetWeights Factors Regime]. fold topN held. split_and!.
  - by rewrite HT.
  - intros s. rewrite HT, Hsome, Hselsym. done.
  - rewrite HT, Hselsym, length_fmap. done.
  - apply Forall_forall. intros s Hs. rewrite HT, Hselsym in Hs. pose proof Hs as Hs'.
    apply list_elem_of_fmap in Hs as (r & -> & Hr).
    assert (Hr' : r ∈ rows) by (by eapply elem_of_sublist). pose proof Hr' as [i Hi]%list_elem_of_lookup.
    rewrite Forall_forall in Hrows, Hsel. destruct (Hrows r Hr') as (m & Em & E1 & E2).
    exists (labelled p regime held w2 i r), m. pose proof (Hm _ _ Em) as (? & ? & ?).
    refine (conj _ (conj eq_refl (conj _ (conj (selectable_admitted p regime held r (Hsel r Hr)) _)))); [| |done].
    + apply list_elem_of_lookup. exists i. by rewrite list_lookup_imap, Hi.
    + unfold labelled. cbn [TF_Selected]. by apply bool_decide_eq_true, Hsome.
  - intros Hpos. unfold w2. apply spread_capped, scale_capped; [|intros s ?; by apply Hsymin | done].
    rewrite Hden. unfold raw_sum in Hpos. rewrite (labelled_filter _ _ _ _ 0) in Hpos.
    rewrite (filter_ext _ (fun r => bool_decide (TF_Symbol r ∈ TF_Symbol <$> sel))) in Hpos
      by (intros; by apply bool_decide_ext).
    by rewrite (filter_nodup TF_Symbol sel rows) in Hpos.
Qed.

(** The plan of a rebalance: its targets are distinct, exactly the symbols
    with a weight, and no more than [top_n] and [max_positions] allow; each is
    an eligible member with the identities of its factor, and the factor passed
    the gates of the variant (absolute trend, no risk-off benchmark, positive
    momentum of a new target); no weight exceeds the position cap when the raw
    weights have a positive sum. *)
Theorem PlanTrendMomentum_targets range input p plan :
  (forall m, range m ≡ₚ map_to_list m) -> TI_Parameters input = Some p ->
  PlanTrendMomentum range input = Ok plan -> Decide plan = true -> RiskStopOnly plan = false ->
  plan_ok input p plan.
Proof.
  intros Hr Hp H Hd Hs. unfold PlanTrendMomentum, PlanTrendMomentumWithHistory in H. rewrite Hp in H. res_inv.
  destruct (negb _ && _)%bool in H.
  { injection H as <-. unfold plan_between in *. by destruct (TP_Symbol <$> _). }
  cbn zeta in H. res_inv. destruct (regime_of _ _ _) as [regime reason]. cbn zeta in H. res_inv.
  match goal with H : (let (_, _) := ?x in _) = Ok _ |- _ => destruct x as [rows diags]; injection H as <- end.
  apply finish_plan_ok.
  - eapply rows_wf_perm; [apply SliceStable_Permutation|]. eapply add_rows_wf; [apply Hr | eassumption].
  - intros s m Hm. match goal with E : foldM add_member _ _ = Ok _ |- _ => destruct (add_members_spec _ _ _ E s m Hm) as [Hi|Hi] end;
      [by rewrite lookup_empty in Hi | exact Hi].
Qed.

(** ** Concrete plans *)
Module PlanSample.
(** Bars of constant growth from midnight of 2024-01-01, in quarter hours. *)
Definition start : Time := Truncate 63839664000000000000 BucketNs.
Definition bar (k : Z) (close : float64) : TrendMomentumBar :=
  mkTMBar (start + k * QuarterNs) (start + (k + 1) * QuarterNs) close.
Definition bars (n : Z) (close : Z -> float64) : list TrendMomentumBar := (fun k => bar k (close k)) <$> seqZ 0 n.
Definition params : gmap string string :=
  <["regime_bars" := "2"]> (<["lookback_bars" := "1"]> (<["trend_bars" := "2"]> DefaultTrendMomentumParameters)).
Definition rising (base : Z) : Z -> float64 := fun k => f_of_Z (base + k).
Definition input (benchmark : list TrendMomentumBar) (p : gmap string string) : TrendMomentumInput :=
  mkTMInput (start + 48 * QuarterNs) 0 benchmark
    (list_to_map [("ADA", bars 56 (rising 100)); ("BTC", bars 56 (rising 50)); ("XRP", bars 56 (fun k => f_of_Z (200 - k)))])
    [mkTMMember "ADA" "asset-ada" "ex-ada" true; mkTMMember "BTC" "asset-btc" "ex-btc" true;
     mkTMMember "XRP" "asset-xrp" "ex-xrp" true] [mkTMPosition "XRP" (f_of_Z 200) (f_of_Z 150)] ["XRP"] (Some p).
Definition sample : TrendMomentumInput := input (bars 56 (rising 100)) params.
Definition sample_plan : TrendMomentumPlan :=
  match PlanTrendMomentum map_to_list sample with Ok plan => plan | _ => no_plan end.
(** One return only, hence no volatility, and no volatility floor. *)
Definition unfloored : TrendMomentumInput := input (bars 56 (rising 100)) (<["vol_floor" := "0"]> params).
End PlanSample.

Lemma PlanTrendMomentum_no_lookahead_witness :
  PlanTrendMomentum map_to_list PlanSample.sample = Ok PlanSample.sample_plan /\
  PlanTrendMomentum map_to_list PlanSample.sample = PlanTrendMomentum map_to_list (seen_at PlanSample.sample).
Proof.
  split; [vm_compute; reflexivity|]. apply (PlanTrendMomentum_no_lookahead map_to_list PlanSample.sample).
  - apply (bool_decide_unpack _). vm_compute. exact I.
  - apply (bool_decide_unpack _). vm_compute. exact I.
Defined.
Lemma PlanTrendMomentum_targets_witness :
  Targets PlanSample.sample_plan = ["ADA"; "BTC"] /\ plan_ok PlanSample.sample PlanSample.params PlanSample.sample_plan.
Proof.
  split; [vm_compute; reflexivity|].
  apply (PlanTrendMomentum_targets map_to_list PlanSample.sample PlanSample.params PlanSample.sample_plan);
    [intros m; reflexivity | reflexivity | vm_compute; reflexivity..].
Defined.

(** [regime_bars] is not checked: without it the benchmark window is empty and
    its last bar is read. *)
Lemma regime_bars_missing_panics :
  PlanTrendMomentum map_to_list (PlanSample.input (PlanSample.bars 56 (PlanSample.rising 100))
    (delete "regime_bars" PlanSample.params)) = Panic "index out of range".
Proof. vm_compute. reflexivity. Qed.

(** Neither is [vol_floor]: without it and without volatility the raw weights
    are infinite and the target weights not a number. *)
Lemma vol_floor_zero_nan_weights :
  exists plan, PlanTrendMomentum map_to_list PlanSample.unfloored = Ok plan /\
    map_to_list (TargetWeights plan) = [("ADA", S754_nan); ("BTC", S754_nan)].
Proof. eexists. split; vm_compute; reflexivity. Qed.
