(* ===== verification/TargetStrategy.v ===== *)
(** * TargetStrategy: [internal/tradingcore/target_strategy.go]

    Published targets become intents ([TargetAllocationStrategy]); the planner's
    weights become published targets ([TrendMomentumStrategy]). JSON, SHA-256,
    the time stamp and the iteration over the symbols are parameters. *)
From Stdlib Require Import Ascii QArith SpecFloat.
From stdpp Require Import base numbers strings gmap list.
From S2P Require Import Prelude GoStrings GoFloat GoFormat Values Exact Snapshots Contracts Strategy TrendMomentum.
Local Open Scope Z_scope.

(** ** Positions by instrument *)
(** The last position of an instrument wins. *)
Definition positions_by_id (positions : list Position) : gmap InstrumentID Position :=
  foldl (fun m position => <[I_ID (Pos_Instrument position) := position]> m) ∅ positions.
Definition decimalPlanValue (value : float64) : string := FormatFixed value 18.

(** ** Published targets *)
Definition target_action (settings : gmap string string) (key : string) : string :=
  ToLower (TrimSpace (setting settings ("target_action." +:+ key))).
Definition target_quantity (settings : gmap string string) (key : string) : res Quantity :=
  match (let* d := ParseDecimal (TrimSpace (setting settings ("target_quantity." +:+ key))) in NewQuantity d) with
  | Err e => Err (Wrapf "invalid target quantity for %s: %w" [key] e)
  | r => r
  end.
(** [float64] with a tolerance of 1e-12, as the code compares. *)
Definition exceeds_held (positions : gmap InstrumentID Position) (id_ : InstrumentID) (quantity : Quantity) : bool :=
  match positions !! id_ with
  | None => true
  | Some position =>
      flt (fadd (Decimal_Float64 (Quantity_Decimal (Pos_Quantity position))) f_tiny)
        (Decimal_Float64 (Quantity_Decimal quantity))
  end.
Definition target_side (positions : gmap InstrumentID Position) (id_ : InstrumentID) (action : string) (quantity : Quantity) :
    res (OrderSide * QuantitySemantics) :=
  if action =s "sell" then
    if exceeds_held positions id_ quantity then Err (Errorf "sell target for %s exceeds the held quantity" [id_])
    else Ok (Sell, QuantityExact)
  else if action <>s "buy" then Err (Errorf "unsupported target action %q" [action])
  else Ok (Buy, QuantityCashCapped).
(** The settings named "intent_metadata." and a suffix; the suffixes differ, so
    their order does not matter. *)
Definition add_intent_metadata (metadata : gmap string string) (entry : string * string) : gmap string string :=
  if HasPrefix (fst entry) "intent_metadata."
  then <[TrimPrefix (fst entry) "intent_metadata." := snd entry]> metadata else metadata.
Definition target_metadata (settings : gmap string string) (key : string) : gmap string string :=
  foldl add_intent_metadata
    (list_to_map [("target_weight", setting settings ("target_weight." +:+ key));
                  ("regime_state", setting settings ("target_regime." +:+ key));
                  ("execution_reference_price", setting settings ("execution_reference_price." +:+ key))])
    (map_to_list settings).

Section Target.
(** [t.UTC().Format("20060102T150405.000000000Z07:00")] and the hex digits of
    SHA-256. *)
Variables (FormatStamp : Time -> string) (sha256hex : string -> string).

Definition target_hash (snapshot : DecisionContext) (portfolio : PortfolioSnapshot) (key side : string) : string :=
  String.substring 0 24 (sha256hex (FormatStamp (decisionAt snapshot) +:+ "|" +:+ p_accountID portfolio +:+ "|" +:+ key +:+
    "|" +:+ side +:+ "|" +:+ V_Strategy (versions snapshot))).
(** One candidate: no action or an intent. *)
Definition target_candidate (snapshot : DecisionContext) (candidate : UniverseCandidate) : res (NoAction + OrderIntent) :=
  let settings := settings snapshot in let portfolio := Portfolio snapshot in
  let instrument := UC_Instrument candidate in let key := I_ID instrument in
  let action := target_action settings key in
  if (action =s "") || (action =s "hold") then
    let code0 := TrimSpace (setting settings ("no_action_code." +:+ key)) in
    let code := if code0 =s "" then "target_unchanged" else code0 in
    Ok (inl (mkNoAction instrument code code (UC_Score candidate)))
  else
  let* quantity := target_quantity settings key in
  let* (side, semantics) := target_side (positions_by_id (p_positions portfolio)) key action quantity in
  match Context_Quote snapshot key with
  | None => Err (Errorf "target quote unavailable for %s" [key])
  | Some quote =>
      if negb (Price_Valid (Q_Last quote)) then Err (Errorf "target quote unavailable for %s" [key]) else
      let hash := target_hash snapshot portfolio key side in
      let orderID := ignore_id (NewOrderID ("target-" +:+ hash)) in
      let idempotency := ignore_id (NewIdempotencyKey ("target-intent-" +:+ hash)) in
      let priority := Z.max 0 (AtoiValue (setting settings ("target_priority." +:+ key))) in
      let reason0 := TrimSpace (setting settings ("target_reason." +:+ key)) in
      let reason := if reason0 =s "" then "target_allocation" else reason0 in
      let* intent := NewOrderIntent
        (mkIntent orderID idempotency (p_accountID portfolio) instrument side MarketOrder quantity None
           (SomePrice (Q_Last quote)) (signalAt snapshot) (decisionAt snapshot) (decisionAt snapshot)
           (p_executionMode portfolio) semantics priority reason (setting settings "strategy_horizon")
           (versions snapshot) (mkProvenance "target_allocation" (V_Strategy (versions snapshot)) reason "" "") None)
        (Some (target_metadata settings key)) in
      Ok (inr intent)
  end.
Definition target_step (snapshot : DecisionContext) (s : list OrderIntent * list NoAction)
    (candidate : UniverseCandidate) : res (list OrderIntent * list NoAction) :=
  let '(intents, noActions) := s in
  let* entry := target_candidate snapshot candidate in
  Ok match entry with
     | inl n => (intents, noActions ++ [n])
     | inr i => (intents ++ [i], noActions)
     end.
Definition Target_Decide (snapshot : DecisionContext) : res StrategyResult :=
  let* (intents, noActions) := foldM (target_step snapshot) ([], []) (u_candidates (Universe snapshot)) in
  let* batch := NewDecisionBatch intents in
  Ok (NewStrategyResult batch noActions).

(** ** Targets of the planner *)
Definition equity_of (portfolio : PortfolioSnapshot) : Rat :=
  (foldl (fun e position => e + notional (Pos_Quantity position) (Pos_MarkPrice position))
    (foldl (fun e cash => e + decimalRat (Amount_Decimal (snd cash))) 0 (map_to_list (p_cash portfolio)))
    (p_positions portfolio))%Q.
Definition instruments_by_symbol (snapshot : DecisionContext) : gmap string Instrument :=
  foldl (fun m position => <[I_VenueSymbol (Pos_Instrument position) := Pos_Instrument position]> m)
    (foldl (fun m candidate => <[I_VenueSymbol (UC_Instrument candidate) := UC_Instrument candidate]> m) ∅
       (u_candidates (Universe snapshot)))
    (p_positions (Portfolio snapshot)).
(** The order in which [range bySymbol] visits the map. *)
Variable range : gmap string Instrument -> list (string * Instrument).

Definition held_of (portfolio : PortfolioSnapshot) (key : InstrumentID) : Rat :=
  match positions_by_id (p_positions portfolio) !! key with
  | Some position => decimalRat (Quantity_Decimal (Pos_Quantity position))
  | None => 0%Q
  end.
(** What the holding of an instrument is to change by. *)
Definition target_delta (snapshot : DecisionContext) (equity : Rat) (key : InstrumentID) (weight : Decimal) (last : Price) :
    res Rat :=
  let* desired := Quo (equity * decimalRat weight)%Q (decimalRat (Price_Decimal last)) in
  Ok (desired - held_of (Portfolio snapshot) key)%Q.
Definition publish (settings : gmap string string) (key side : string) (quantity : Quantity) (weight regime : string) :
    gmap string string :=
  <["target_reason." +:+ key := "trend_momentum_" +:+ regime]>
    (<["target_regime." +:+ key := regime]> (<["target_weight." +:+ key := weight]>
      (<["target_quantity." +:+ key := Decimal_String (Quantity_Decimal quantity)]>
        (<["target_action." +:+ key := side]> settings)))).
Definition publish_target (snapshot : DecisionContext) (plan : TrendMomentumPlan) (equity : Rat)
    (settings : gmap string string) (entry : string * Instrument) : res (gmap string string) :=
  let '(symbol, instrument) := entry in let key := I_ID instrument in
  match Context_Quote snapshot key with
  | None => Err (Errorf "trend momentum quote unavailable for %s" [key])
  | Some quote =>
      if negb (Price_Valid (Q_Last quote)) then Err (Errorf "trend momentum quote unavailable for %s" [key]) else
      let weight := weight_of (TargetWeights plan) symbol in
      let* weightDecimal := ParseDecimal (decimalPlanValue weight) in
      let* delta := target_delta snapshot equity key weightDecimal (Q_Last quote) in
      if Rat_Sign delta =? 0 then Ok (<["no_action_code." +:+ key := "target_unchanged"]> settings) else
      let side := if Rat_Sign delta <? 0 then "sell" else "buy" in
      let amount := if Rat_Sign delta <? 0 then (- delta)%Q else delta in
      match quantityFromRat amount with
      | Err e => Err (Wrapf "trend momentum %s target: %w" [symbol] e)
      | Panic why => Panic why
      | Ok quantity => Ok (publish settings key side quantity (decimalPlanValue weight) (Regime plan))
      end
  end.
Definition trendMomentumTargetSettings (snapshot : DecisionContext) (base : gmap string string)
    (plan : TrendMomentumPlan) : res (gmap string string) :=
  let equity := equity_of (Portfolio snapshot) in
  if Rat_Sign equity <=? 0 then Err (Errorf "trend momentum portfolio equity must be positive" []) else
  foldM (publish_target snapshot plan equity) base (range (instruments_by_symbol snapshot)).

(** ** The trend momentum strategy *)
(** [json.Unmarshal] of the published input; the order of the planner's members. *)
Variables (decode : string -> res TrendMomentumInput)
  (range_members : gmap string TrendMomentumMember -> list (string * TrendMomentumMember)).

Definition set_DecisionAt (t : Time) (input : TrendMomentumInput) : TrendMomentumInput :=
  mkTMInput t (TI_LastRebalance input) (TI_Benchmark input) (TI_Series input) (TI_Members input) (TI_Positions input)
    (TI_LastTargets input) (TI_Parameters input).
(** The input at the clock of the snapshot. *)
Definition clocked_input (snapshot : DecisionContext) : res TrendMomentumInput :=
  let raw := TrimSpace (setting (settings snapshot) "trend_momentum_input") in
  if raw =s "" then Err (Errorf "trend momentum point-in-time input is required" []) else
  match decode raw with
  | Err e => Err (Wrapf "decode trend momentum input: %w" [] e)
  | Panic why => Panic why
  | Ok input0 =>
      let input := if IsZero (TI_DecisionAt input0) then set_DecisionAt (decisionAt snapshot) input0 else input0 in
      if negb (TI_DecisionAt input =? decisionAt snapshot)
      then Err (Errorf "trend momentum decision clock differs from immutable snapshot" []) else Ok input
  end.
(** [plan.SchemaVersion] is the constant the planner sets. *)
Definition derived_settings (plan : TrendMomentumPlan) (derived : gmap string string) : gmap string string :=
  <["trend_momentum_target_gross" := decimalPlanValue (TargetGross plan)]>
    (<["trend_momentum_regime_reason" := RegimeReason plan]> (<["trend_momentum_regime" := Regime plan]>
      (<["trend_momentum_plan_schema" := TrendMomentumPlanSchemaVersion]> derived))).
Definition TrendMomentum_Decide (snapshot : DecisionContext) : res StrategyResult :=
  let* input := clocked_input snapshot in
  let* plan := PlanTrendMomentum range_members input in
  let* derived := trendMomentumTargetSettings snapshot (settings snapshot) plan in
  let* contextWithTargets := NewDecisionContext
    (mkContextInput (marketObservedAt snapshot) (signalAt snapshot) (decisionAt snapshot) ∅ (quotes snapshot)
       (Universe snapshot) (Portfolio snapshot) (derived_settings plan derived) (versions snapshot)) in
  Target_Decide contextWithTargets.
End Target.
