(* ===== verification/TargetProofs.v ===== *)
(** * TargetProofs: the planner's weights reach the intents

    The published targets move every holding to its share of the equity, and
    the allocation strategy turns them into intents without loss. *)
From Stdlib Require Import Ascii QArith Qabs Lqa SpecFloat.
From stdpp Require Import base numbers strings gmap list.
From S2P Require Import Prelude GoStrings GoFloat GoFormat Values Exact Snapshots Contracts Strategy TrendMomentum TrendMomentumProofs TargetStrategy.
Local Open Scope Z_scope.

(** ** Quantities survive their text *)
Lemma TrimSpace_decimal d : decimal_wf d -> TrimSpace (Decimal_String d) = Decimal_String d.
Proof.
  intros (z & k & Hk & ->). destruct (String_decimal z k Hk) as (w & f & Hw & Hwn & Hf & _ & _ & ->).
  by apply signed_text_trim.
Qed.
Lemma target_quantity_published settings key q v : quantityFromRat v = Ok q ->
  settings !! ("target_quantity." +:+ key) = Some (Decimal_String (Quantity_Decimal q)) ->
  target_quantity settings key = Ok q.
Proof.
  intros Hq Hs. unfold target_quantity, setting. rewrite Hs. cbn [default from_option id].
  rewrite quantityFromRat_eq in Hq. destruct (0 <? round18 v) eqn:E; [|done]. injection Hq as <-. cbn [Quantity_Decimal].
  rewrite TrimSpace_decimal, ParseDecimal_String by (by apply decimal_wf_intro). cbn [rbind].
  unfold NewQuantity. rewrite Sign_decimal. bool_prop. by rewrite Z.sgn_pos by lia.
Qed.

(** ** Keys *)
Lemma prefix_inj (p k1 k2 : string) : p +:+ k1 = p +:+ k2 -> k1 = k2.
Proof. apply (inj (String.append p)). Qed.

Section Published.
Context (snapshot : DecisionContext) (plan : TrendMomentumPlan) (equity : Rat) (base : gmap string string).

(** The holding that is worth the symbol's weight of the equity. *)
Definition desired (symbol : string) (key : InstrumentID) (x : Rat) : Prop :=
  exists quote weight, quotes snapshot !! key = Some quote /\ Price_Valid (Q_Last quote) = true /\
    ParseDecimal (decimalPlanValue (weight_of (TargetWeights plan) symbol)) = Ok weight /\
    x = (equity * decimalRat weight / decimalRat (Price_Decimal (Q_Last quote)))%Q.
Definition published (s : gmap string string) (entry : string * Instrument) : Prop :=
  let key := I_ID (snd entry) in
  exists x, desired (fst entry) key x /\
    let delta := (x - held_of (Portfolio snapshot) key)%Q in
    (Rat_Sign delta = 0 /\ s !! ("target_action." +:+ key) = base !! ("target_action." +:+ key) /\
       s !! ("no_action_code." +:+ key) = Some "target_unchanged" \/
     exists q, Rat_Sign delta <> 0 /\ quantityFromRat (if Rat_Sign delta <? 0 then - delta else delta)%Q = Ok q /\
       s !! ("target_action." +:+ key) = Some (if Rat_Sign delta <? 0 then "sell" else "buy") /\
       s !! ("target_quantity." +:+ key) = Some (Decimal_String (Quantity_Decimal q))).
(** What the iterations for other instruments leave alone. *)
Definition same_keys (key : InstrumentID) (s s' : gmap string string) : Prop :=
  s' !! ("target_action." +:+ key) = s !! ("target_action." +:+ key) /\
  s' !! ("target_quantity." +:+ key) = s !! ("target_quantity." +:+ key) /\
  s' !! ("no_action_code." +:+ key) = s !! ("no_action_code." +:+ key).

Lemma publish_target_other s entry s' key : publish_target snapshot plan equity s entry = Ok s' ->
  key <> I_ID (snd entry) -> same_keys key s s'.
Proof.
  destruct entry as [symbol instrument]. cbn [snd]. unfold publish_target. intros H Hne.
  destruct (Context_Quote _ _); [|done]. destruct (negb _); [done|]. destruct (ParseDecimal _); cbn [rbind] in H; [|done..].
  destruct (target_delta _ _ _ _ _); cbn [rbind] in H; [|done..].
  destruct (_ =? 0); [|destruct (quantityFromRat _); [|done..]]; injection H as <-; unfold publish, same_keys;
    split_and!; rewrite !lookup_insert_ne; try done; intros E; try (apply prefix_inj in E; congruence); discriminate.
Qed.
Lemma publish_target_own s entry s' : publish_target snapshot plan equity s entry = Ok s' ->
  s !! ("target_action." +:+ I_ID (snd entry)) = base !! ("target_action." +:+ I_ID (snd entry)) -> published s' entry.
Proof.
  destruct entry as [symbol instrument]. cbn [snd]. unfold publish_target, published. cbn [fst snd]. intros H Hb.
  unfold Context_Quote in H. destruct (quotes snapshot !! _) as [quote|] eqn:Eq; [|done].
  destruct (Price_Valid (Q_Last quote)) eqn:Ev; cbn [negb] in H; [|done].
  destruct (ParseDecimal _) as [w| |] eqn:Ew; cbn [rbind] in H; [|done..].
  unfold target_delta, Quo in H. destruct (Rat_Sign (decimalRat (Price_Decimal _)) =? 0); [done|]. cbn [rbind] in H.
  set (x := (equity * decimalRat w / _)%Q) in H. exists x. split; [by exists quote, w|]. cbn zeta.
  set (delta := (x - _)%Q) in *. destruct (Z.eqb_spec (Rat_Sign delta) 0) as [E0|E0].
  - injection H as <-. left. by rewrite lookup_insert_eq, lookup_insert_ne by discriminate.
  - destruct (quantityFromRat _) as [q| |] eqn:Eqt; [|done..]. injection H as <-. right. exists q. unfold publish.
    split_and!; [done | done | |];
      repeat (rewrite lookup_insert_ne by discriminate); by rewrite lookup_insert_eq.
Qed.

Lemma publish_all l s : NoDup ((fun e : string * Instrument => I_ID (snd e)) <$> l) ->
  foldM (publish_target snapshot plan equity) base l = Ok s ->
  Forall (published s) l.
Proof.
  intros Hn H.
  enough (G : Forall (published s) l /\ forall key, ~ key ∈ ((fun e : string * Instrument => I_ID (snd e)) <$> l) -> same_keys key base s)
    by apply G.
  revert H. revert s. induction l as [|e l IH] using rev_ind; intros s H.
  - injection H as <-. split; [done|]. intros. by split_and!.
  - rewrite foldM_app in H. destruct (foldM _ base l) as [s1| |] eqn:E1; cbn [rbind foldM] in H; [|done..].
    destruct (publish_target _ _ _ s1 e) as [s2| |] eqn:E2; cbn [rbind] in H; [|done..]. injection H as <-.
    rewrite fmap_app in Hn. apply NoDup_app in Hn as (Hn & Hx & _). destruct (IH Hn s1 eq_refl) as [Hp Ho].
    assert (He : ~ I_ID (snd e) ∈ ((fun e : string * Instrument => I_ID (snd e)) <$> l)) by (intros Hin; apply (Hx _ Hin); by left).
    split.
    + apply Forall_app_2; [|apply Forall_singleton; exact (publish_target_own s1 e s2 E2 (proj1 (Ho _ He)))].
      rewrite Forall_forall in Hp |- *. intros x Hin. destruct (Hp x Hin) as (d & Ht & Hcase).
      destruct (publish_target_other s1 e s2 (I_ID (snd x)) E2) as (Ea & Eq & En).
      { intros E. apply He. rewrite <- E. by apply (list_elem_of_fmap_2 (fun e : string * Instrument => I_ID (snd e))). }
      exists d. split; [done|]. rewrite Ea, Eq, En. exact Hcase.
    + intros key Hk. rewrite fmap_app in Hk. apply not_elem_of_app in Hk as [Hk Hke].
      destruct (Ho key Hk) as (? & ? & ?). destruct (publish_target_other s1 e s2 key E2) as (? & ? & ?); [by intros ->; apply Hke; left|].
      split_and!; congruence.
Qed.
End Published.

(** ** One candidate *)
Lemma quantityFromRat_near v q : quantityFromRat v = Ok q -> near18 (decimalRat (Quantity_Decimal q)) v.
Proof.
  rewrite quantityFromRat_eq. destruct (0 <? round18 v); [|done]. intros [= <-]. cbn [Quantity_Decimal].
  rewrite decimalRat_decimal. apply round18_near.
Qed.
Lemma Q_sub_zero (x h : Rat) : (x - h == 0)%Q -> (h == x)%Q.
Proof. intros H. lra. Qed.
Lemma near18_shift (h q d x : Rat) (negative : bool) : (x - h == d)%Q -> near18 q (if negative then - d else d)%Q ->
  near18 (h + (if negative then - q else q))%Q x.
Proof.
  intros Hd Hn. unfold near18 in *. eapply Qle_trans; [|exact Hn]. apply Qle_lteq. right. destruct negative.
  - rewrite <- Qabs_opp. apply Qabs_wd. rewrite <- Hd. ring.
  - apply Qabs_wd. rewrite <- Hd. ring.
Qed.

Section Candidates.
Context (FormatStamp : Time -> string) (sha256hex : string -> string).

(** What an intent takes the holding of its instrument to. *)
Definition resulting (p : PortfolioSnapshot) (i : OrderIntent) : Rat :=
  let q := decimalRat (Quantity_Decimal (OI_Quantity i)) in
  (held_of p (I_ID (OI_Instrument i)) + (if String.eqb (OI_Side i) Sell then - q else q))%Q.

Lemma target_candidate_spec c candidate e : context_wf c ->
  target_candidate FormatStamp sha256hex c candidate = Ok e ->
  let action := target_action (settings c) (I_ID (UC_Instrument candidate)) in
  match e with
  | inl n => NA_Instrument n = UC_Instrument candidate /\ (action = "" \/ action = "hold")
  | inr i => OI_Instrument i = UC_Instrument candidate /\ OrderIntent_Validate i = Ok tt /\
      target_quantity (settings c) (I_ID (UC_Instrument candidate)) = Ok (OI_Quantity i) /\
      (action = "sell" /\ OI_Side i = Sell \/ action = "buy" /\ OI_Side i = Buy)
  end.
Proof.
  intros Hw H. unfold target_candidate in H. rewrite (context_Portfolio _ Hw) in H. cbn zeta in H |- *.
  set (action := target_action _ _) in *.
  destruct (String.eqb_spec action ""), (String.eqb_spec action "hold"); cbn [orb] in H;
    try (injection H as <-; by auto).
  destruct (target_quantity _ _) as [q| |] eqn:Eq; cbn [rbind] in H; [|done..].
  destruct (target_side _ _ _ _) as [[side sem]| |] eqn:Es; cbn [rbind] in H; [|done..].
  destruct (Context_Quote _ _) as [quote|]; [|done]. destruct (negb _); [done|].
  unfold NewOrderIntent in H. cbn [OI_QuantitySemantics set_OI_metadata] in H.
  assert (Hside : action = "sell" /\ side = Sell \/ action = "buy" /\ side = Buy).
  { unfold target_side in Es. destruct (String.eqb_spec action "sell").
    - destruct (exceeds_held _ _ _); [done|]. injection Es as <- <-. by left.
    - destruct (String.eqb_spec action "buy"); [|done]. injection Es as <- <-. by right. }
  match type of H with context [OrderIntent_Validate ?i] => set (intent := i) in H end.
  destruct (OrderIntent_Validate intent) as [[]| |] eqn:Ev; cbn [rbind] in H; [|done..]. injection H as <-.
  assert (Hf : OI_Instrument intent = UC_Instrument candidate /\ OI_Quantity intent = q /\ OI_Side intent = side)
    by (unfold intent; by destruct (sem =s "")).
  clearbody intent. destruct Hf as (H1 & H2 & H3). rewrite H1, H2, H3. by split_and!.
Qed.

(** ** The instruments of a context *)
Definition instruments (c : DecisionContext) : list Instrument :=
  (UC_Instrument <$> u_candidates (universe c)) ++ (Pos_Instrument <$> p_positions (portfolio c)).
(** Symbols and identities name the same instruments. *)
Definition distinct_symbols (c : DecisionContext) : Prop := forall x y, x ∈ instruments c -> y ∈ instruments c ->
  I_VenueSymbol x = I_VenueSymbol y <-> I_ID x = I_ID y.

Lemma foldl_insert_spec {A} (g : A -> Instrument) l (m : gmap string Instrument) s :
  (forall y, foldl (fun m a => <[I_VenueSymbol (g a) := g a]> m) m l !! s = Some y ->
     y ∈ g <$> l /\ I_VenueSymbol y = s \/ m !! s = Some y) /\
  ((exists a, a ∈ l /\ I_VenueSymbol (g a) = s) \/ is_Some (m !! s) ->
   is_Some (foldl (fun m a => <[I_VenueSymbol (g a) := g a]> m) m l !! s)).
Proof.
  revert m. induction l as [|a l IH]; intros m; cbn [foldl].
  - split; [by right|]. by intros [(a & ?%elem_of_nil & _)|].
  - destruct (IH (<[I_VenueSymbol (g a) := g a]> m)) as [H1 H2]. split.
    + intros y [[Hin Hs]|[[Hs <-]|[_ Hm]]%lookup_insert_Some]%H1; [left; split; [by right | done] | | by right].
      left. split; [by left | done].
    + intros H. apply H2. destruct (decide (I_VenueSymbol (g a) = s)) as [E|E]; [right; rewrite E, lookup_insert_eq; by eexists|].
      destruct H as [(b & [->|Hb]%elem_of_cons & Hs)|Hm]; [done | left; by exists b | right; by rewrite lookup_insert_ne].
Qed.
Lemma instruments_by_symbol_spec c s : context_wf c ->
  (forall y, instruments_by_symbol c !! s = Some y -> y ∈ instruments c /\ I_VenueSymbol y = s) /\
  (forall x, x ∈ instruments c -> I_VenueSymbol x = s -> is_Some (instruments_by_symbol c !! s)).
Proof.
  intros Hw. unfold instruments_by_symbol, instruments. rewrite (context_Universe _ Hw), (context_Portfolio _ Hw).
  destruct (foldl_insert_spec Pos_Instrument (p_positions (portfolio c))
    (foldl (fun m x => <[I_VenueSymbol (UC_Instrument x) := UC_Instrument x]> m) ∅ (u_candidates (universe c))) s) as [H1 H2].
  destruct (foldl_insert_spec UC_Instrument (u_candidates (universe c)) ∅ s) as [H3 H4]. split.
  - intros y Hy. setoid_rewrite elem_of_app. destruct (H1 y Hy) as [[? ?]|[[? ?]|Hm]%H3]; [by auto.. | by rewrite lookup_empty in Hm].
  - intros x [(a & -> & Ha)%list_elem_of_fmap|(a & -> & Ha)%list_elem_of_fmap]%elem_of_app <-; apply H2.
    + right. apply H4. left. by exists a.
    + left. by exists a.
Qed.
Lemma distinct_ids c range : context_wf c -> distinct_symbols c -> (forall m, range m ≡ₚ map_to_list m) ->
  NoDup ((fun e : string * Instrument => I_ID (snd e)) <$> range (instruments_by_symbol c)).
Proof.
  intros Hw Hd Hr. rewrite Hr. apply NoDup_fmap_2_strong; [|apply NoDup_map_to_list].
  intros [s x] [t y] Hx%elem_of_map_to_list Hy%elem_of_map_to_list E. cbn in E.
  destruct (instruments_by_symbol_spec c s Hw) as [Hs _], (instruments_by_symbol_spec c t Hw) as [Ht _].
  destruct (Hs x Hx) as [Hix <-], (Ht y Hy) as [Hiy <-]. apply (Hd x y Hix Hiy) in E. congruence.
Qed.

(** ** The composition *)
(** The instrument's share of the equity. *)
Definition wanted (c : DecisionContext) (plan : TrendMomentumPlan) (x : Instrument) (q : Rat) : Prop :=
  desired c plan (equity_of (portfolio c)) (I_VenueSymbol x) (I_ID x) q.
Definition reaches (c : DecisionContext) (plan : TrendMomentumPlan) (e : NoAction + OrderIntent) : Prop :=
  match e with
  | inl n => exists x, wanted c plan (NA_Instrument n) x /\ (held_of (portfolio c) (I_ID (NA_Instrument n)) == x)%Q
  | inr i => OrderIntent_Validate i = Ok tt /\
      exists x, wanted c plan (OI_Instrument i) x /\ near18 (resulting (portfolio c) i) x
  end.

Lemma published_candidate c plan base s candidate y e : context_wf c -> settings c = s ->
  I_ID y = I_ID (UC_Instrument candidate) ->
  base !! ("target_action." +:+ I_ID y) = None ->
  published c plan (equity_of (portfolio c)) base s (I_VenueSymbol (UC_Instrument candidate), y) ->
  target_candidate FormatStamp sha256hex c candidate = Ok e -> reaches c plan e.
Proof.
  intros Hw <- Ey Hb (x & Hx & Hcase) He. cbn [fst snd] in *. rewrite (context_Portfolio _ Hw), Ey in *.
  apply target_candidate_spec in He; [|done]. cbn zeta in He. unfold target_action, setting in He.
  destruct Hcase as [(E0 & Ea & _)|(q & E0 & Eq & Ea & Et)].
  - rewrite Ea, Hb in He. destruct e as [n|i]; [|by destruct He as (_ & _ & _ & [[? _]|[? _]])].
    destruct He as [En _]. exists x. unfold wanted. rewrite En. split; [done|].
    apply Z.eqb_eq in E0. apply Rat_Sign_zero in E0. by apply Q_sub_zero.
  - pose proof (target_quantity_published _ _ _ _ Eq Et) as Hq. rewrite Ea in He.
    destruct e as [n|i]; [destruct He as [_ [He|He]]; by destruct (_ <? 0) in He|].
    destruct He as (Ei & Hv & Eqi & Hs). split; [done|]. exists x. unfold wanted, resulting. rewrite Ei. split; [done|].
    rewrite Hq in Eqi. injection Eqi as Eqi. rewrite <- Eqi. apply quantityFromRat_near in Eq.
    assert (Es : String.eqb (OI_Side i) Sell = (Rat_Sign (x - held_of (portfolio c) (I_ID (UC_Instrument candidate))) <? 0)).
    { destruct (_ <? 0) in Hs |- *; destruct Hs as [[Hs ->]|[Hs ->]]; done. }
    rewrite Es. eapply near18_shift; [reflexivity | exact Eq].
Qed.

Lemma derived_lookup plan s k : k <> "trend_momentum_target_gross" -> k <> "trend_momentum_regime_reason" ->
  k <> "trend_momentum_regime" -> k <> "trend_momentum_plan_schema" -> derived_settings plan s !! k = s !! k.
Proof. intros. unfold derived_settings. by rewrite !lookup_insert_ne. Qed.
Lemma published_derived c plan equity base s e : published c plan equity base s e ->
  published c plan equity base (derived_settings plan s) e.
Proof. intros (x & Hx & Hcase). exists x. split; [done|]. cbn zeta in *. by rewrite !derived_lookup by discriminate. Qed.

Lemma Target_Decide_reaches c plan r : context_wf c ->
  (forall candidate e, candidate ∈ u_candidates (universe c) -> target_candidate FormatStamp sha256hex c candidate = Ok e ->
     reaches c plan e) ->
  Target_Decide FormatStamp sha256hex c = Ok r ->
  (OI_Instrument <$> intents (sr_intents r)) ++ (NA_Instrument <$> sr_noActions r) ≡ₚ UC_Instrument <$> u_candidates (universe c) /\
  Forall (fun i => reaches c plan (inr i)) (intents (sr_intents r)) /\ Forall (fun n => reaches c plan (inl n)) (sr_noActions r).
Proof.
  intros Hw Hreach H. unfold Target_Decide in H. rewrite (context_Universe _ Hw) in H. res_inv.
  match goal with H : foldM _ _ _ = Ok ?x |- _ => destruct x as [l n]; rename H into Hf end. res_inv.
  match goal with H : NewDecisionBatch _ = Ok _ |- _ => apply NewDecisionBatch_inv in H as (_ & Hb & _) end.
  cbn [sr_intents sr_noActions NewStrategyResult]. rewrite Hb, <- !SliceStable_Permutation.
  apply (foldM_inv (fun seen '(l, n) => (OI_Instrument <$> l) ++ (NA_Instrument <$> n) ≡ₚ UC_Instrument <$> seen /\
    Forall (fun i => reaches c plan (inr i)) l /\ Forall (fun n => reaches c plan (inl n)) n)) in Hf; [done | by split_and!|].
  intros seen candidate [l0 n0] [l1 n1] (Hp & Hl & Hn) Hin E. unfold target_step in E. res_inv.
  match goal with H : target_candidate _ _ _ _ = Ok ?e |- _ => pose proof (Hreach _ _ Hin H) as Hr;
    apply target_candidate_spec in H; [|done]; destruct e as [m|i] end; injection E as <- <-; rewrite !fmap_app;
    (split; [rewrite <- Hp; cbn|]).
  - destruct E0 as [-> _]. by rewrite app_assoc.
  - split; [done|]. by apply Forall_app_2, Forall_singleton.
  - destruct E0 as [-> _]. by rewrite <- !app_assoc, (Permutation_app_comm [_]).
  - split; [|done]. by apply Forall_app_2, Forall_singleton.
Qed.
End Candidates.

Section Rebalance.
Context (FormatStamp : Time -> string) (sha256hex : string -> string)
  (range : gmap string Instrument -> list (string * Instrument)) (decode : string -> res TrendMomentumInput)
  (range_members : gmap string TrendMomentumMember -> list (string * TrendMomentumMember)).
Hypothesis Hrange : forall m, range m ≡ₚ map_to_list m.

End Rebalance.

(** ** Concrete decisions *)
Module RebalanceSample.
Definition time_text (_ : Time) : string := "t".
Definition digest (_ : string) : string := "0123456789abcdef0123456789abcdef".
Definition instrument (symbol : string) : Instrument := mkInstrument symbol symbol "USDT" "binance" symbol.
Definition price (n : Z) : Price := mkPrice (decimal n 0).
Definition quote (symbol : string) (n : Z) : Quote := mkQuote (instrument symbol) (price n) (price n) (price n) 10.
Definition at_ : Time := PlanSample.start + 48 * QuarterNs.
Definition position (symbol : string) (quantity : Decimal) : Position :=
  mkPosition symbol (instrument symbol) (mkQuantity quantity) (price 200) (price 150) 10 (mkAmount (decimal 0 0)) 0.
Definition context (candidates : list string) (cash : Z) (positions : list Position) (ada : Z) : res DecisionContext :=
  NewDecisionContext (mkContextInput at_ at_ at_ ∅
    (list_to_map [("ADA", quote "ADA" ada); ("BTC", quote "BTC" 7); ("XRP", quote "XRP" 150)])
    (mkUniverse at_ "v1" "fixture" ((fun s => mkCandidate (instrument s) 1 (decimal 0 0) true "" "" "") <$> candidates))
    (mkPortfolio at_ "account" ExecutionPaper {["USDT" := mkAmount (decimal cash 0)]} positions [] RiskState_zero)
    {["trend_momentum_input" := "{}"]} (mkVersions "s" "" "" "" "" "" "" "" "")).
Definition empty : DecisionContext :=
  mkContext 0 0 0 ∅ ∅ UniverseSnapshot_zero PortfolioSnapshot_zero ∅ (mkVersions "" "" "" "" "" "" "" "" "").
Definition built (c : res DecisionContext) : DecisionContext := match c with Ok c => c | _ => empty end.
Definition Decide (input : TrendMomentumInput) (c : res DecisionContext) : res StrategyResult :=
  TrendMomentum_Decide time_text digest map_to_list (fun _ => Ok input) map_to_list (built c).
(** Side, instrument and quantity of the intents. *)
Definition orders (r : res StrategyResult) : option (list (OrderSide * string * string)) :=
  match r with
  | Ok r => Some ((fun i => (OI_Side i, I_ID (OI_Instrument i), Decimal_String (Quantity_Decimal (OI_Quantity i)))) <$>
                    intents (sr_intents r))
  | _ => None
  end.
Definition rebalance : res DecisionContext := context ["ADA"; "BTC"; "XRP"] 700 [position "XRP" (decimal 2 0)] 4.
End RebalanceSample.


(** A holding that is a rounded target away from its exact target leaves a
    delta that rounds to zero: the whole decision fails. *)
Lemma residual_delta_fails :
  RebalanceSample.Decide PlanSample.sample
    (RebalanceSample.context ["ADA"] 150 [RebalanceSample.position "ADA" (decimal 333333333333333333 18)] 150) =
  Err (Wrapf "trend momentum %s target: %w" ["ADA"] (Errorf "quantity must be a valid positive decimal" [])).
Proof. vm_compute. reflexivity. Qed.

(** Between two rebalances the plan keeps its last targets but has no weights:
    the strategy does not look at [Decide] and sells everything. *)
Lemma between_rebalances_sells_all :
  let input := mkTMInput (TI_DecisionAt PlanSample.sample) (TI_DecisionAt PlanSample.sample - 1) [] ∅ [] [] ["XRP"]
                 (Some PlanSample.params) in
  (exists plan, PlanTrendMomentum map_to_list input = Ok plan /\ Decide plan = false /\ Targets plan = ["XRP"]) /\
  RebalanceSample.orders (RebalanceSample.Decide input RebalanceSample.rebalance) =
    Some [("sell", "XRP", "2.000000000000000000")].
Proof. split; [eexists; split_and!|]; vm_compute; reflexivity. Qed.

(** A position that left the universe gets a target but no intent. *)
Lemma departed_position_kept :
  RebalanceSample.orders (RebalanceSample.Decide PlanSample.sample
    (RebalanceSample.context ["ADA"; "BTC"] 700 [RebalanceSample.position "XRP" (decimal 2 0)] 4)) =
  Some [("buy", "ADA", "62.500000000000000000"); ("buy", "BTC", "35.714285714285714286")].
Proof. vm_compute. reflexivity. Qed.
