(* ===== verification/CouncilBars.v ===== *)
(** * CouncilBars: bars and indicators of [internal/tradingcore/decision_council.go]

    Completed 4h bars from 15m and from 1h bars, and the indicators of the
    council's state, on float64. Reading a series out of range panics. *)
From Stdlib Require Import Ascii SpecFloat.
From stdpp Require Import base numbers strings gmap list.
From S2P Require Import Prelude GoStrings GoFloat Snapshots GoTime TrendMomentum.
Local Open Scope Z_scope.

(** ** Bars *)
Record CouncilBar : Type := mkCBar {
  CB_OpenTime : Time; CB_CloseTime : Time; CB_Open : float64; CB_High : float64; CB_Low : float64;
  CB_Close : float64; CB_Volume : float64 }.
Definition CouncilBar_zero : CouncilBar := mkCBar 0 0 fzero fzero fzero fzero fzero.
Definition fge (x y : float64) : bool := fle y x.
Definition fgt (x y : float64) : bool := flt y x.

Definition validCouncilBar (b : CouncilBar) : bool :=
  forallb finite_f [CB_Open b; CB_High b; CB_Low b; CB_Close b; CB_Volume b] &&
  fgt (CB_Open b) fzero && fgt (CB_Close b) fzero && fgt (CB_Low b) fzero && fge (CB_High b) (CB_Low b) &&
  fge (CB_High b) (CB_Open b) && fge (CB_High b) (CB_Close b) && fle (CB_Low b) (CB_Open b) &&
  fle (CB_Low b) (CB_Close b) && fge (CB_Volume b) fzero.

(** ** Buckets of 4h *)
Abbreviation CouncilBuckets := (gmap Time (gmap Z CouncilBar)) (only parsing).
(** The last [limit] keys in time order. *)
Definition last_keys (keys : list Time) (limit : Z) : list Time :=
  let keys := SliceStable Before keys in
  if limit <? Z.of_nat (length keys) then drop (length keys - Z.to_nat limit) keys else keys.
(** A missing slot reads as the zero bar. *)
Definition slot (slots : gmap Z CouncilBar) (i : Z) : CouncilBar := default CouncilBar_zero (slots !! i).
Definition merge_slot (slots : gmap Z CouncilBar) (bar : CouncilBar) (i : Z) : CouncilBar :=
  let v := slot slots i in
  mkCBar (CB_OpenTime bar) (CB_CloseTime bar) (CB_Open bar)
    (if fgt (CB_High v) (CB_High bar) then CB_High v else CB_High bar)
    (if flt (CB_Low v) (CB_Low bar) then CB_Low v else CB_Low bar)
    (CB_Close bar) (fadd (CB_Volume bar) (CB_Volume v)).
(** The bar of a bucket of [n] slots. *)
Definition merged_bar (n : Z) (key : Time) (slots : gmap Z CouncilBar) : CouncilBar :=
  foldl (merge_slot slots)
    (mkCBar key (CB_CloseTime (slot slots (n - 1))) (CB_Open (slot slots 0)) (CB_High (slot slots 0))
       (CB_Low (slot slots 0)) (CB_Close (slot slots (n - 1))) fzero)
    (seqZ 0 n).

(** From 15m bars; a duplicated slot spoils its bucket for good. *)
Definition usable_15m (bar : CouncilBar) : bool :=
  let open := CB_OpenTime bar in
  negb (IsZero open || negb (Minute open mod 15 =? 0) || negb (Second open =? 0) || negb (Nanosecond open =? 0) ||
        Before (CB_CloseTime bar) open || After (CB_CloseTime bar) (open + QuarterNs) || negb (validCouncilBar bar)).
Definition add_15m (s : CouncilBuckets * gset Time) (bar : CouncilBar) : CouncilBuckets * gset Time :=
  let '(buckets, invalid) := s in
  if negb (usable_15m bar) then (buckets, invalid) else
  let open := CB_OpenTime bar in let bucket := Truncate open BucketNs in
  let index := Z.quot (time_Sub open bucket) QuarterNs in
  let slots := default ∅ (buckets !! bucket) in
  match slots !! index with
  | Some _ => (<[bucket := slots]> buckets, {[ bucket ]} ∪ invalid)
  | None => (<[bucket := <[index := bar]> slots]> buckets, invalid)
  end.
Definition complete_15m (at_ : Time) (slots : gmap Z CouncilBar) : bool :=
  (Z.of_nat (size slots) =? 16) && negb (IsZero (CB_CloseTime (slot slots 15))) &&
  negb (After (CB_CloseTime (slot slots 15)) at_) &&
  forallb (fun i => negb (IsZero (CB_CloseTime (slot slots i)))) (seqZ 0 16).
Definition AggregateCouncilBars4H (bars : list CouncilBar) (at_ : Time) (limit : Z) : list CouncilBar :=
  if limit <=? 0 then [] else
  let '(buckets, invalid) := foldl add_15m (∅, ∅) bars in
  let keys := (List.filter (fun '(key, slots) => negb (bool_decide (key ∈ invalid)) && complete_15m at_ slots)
                 (map_to_list buckets)).*1 in
  (fun key => merged_bar 16 key (default ∅ (buckets !! key))) <$> last_keys keys limit.

(** From 1h bars; a duplicated slot empties its bucket. *)
Definition usable_1h (bar : CouncilBar) : bool :=
  let open := CB_OpenTime bar in
  negb (negb (Minute open =? 0) || negb (Second open =? 0) || negb (Nanosecond open =? 0) ||
        Before (CB_CloseTime bar) open || After (CB_CloseTime bar) (open + HourNs) || negb (validCouncilBar bar)).
Definition add_1h (buckets : CouncilBuckets) (bar : CouncilBar) : CouncilBuckets :=
  if negb (usable_1h bar) then buckets else
  let open := CB_OpenTime bar in let bucket := Truncate open BucketNs in
  let index := Z.quot (time_Sub open bucket) HourNs in
  let slots := default ∅ (buckets !! bucket) in
  match slots !! index with
  | Some _ => delete bucket buckets
  | None => <[bucket := <[index := bar]> slots]> buckets
  end.
Definition complete_1h (at_ : Time) (slots : gmap Z CouncilBar) : bool :=
  (Z.of_nat (size slots) =? 4) && negb (After (CB_CloseTime (slot slots 3)) at_).
Definition AggregateCouncilBars4HFrom1H (bars : list CouncilBar) (at_ : Time) (limit : Z) : list CouncilBar :=
  if limit <=? 0 then [] else
  let buckets := foldl add_1h ∅ bars in
  let keys := (List.filter (fun '(_, slots) => complete_1h at_ slots) (map_to_list buckets)).*1 in
  (fun key => merged_bar 4 key (default ∅ (buckets !! key))) <$> last_keys keys limit.

(** ** Indicators *)
Definition last_of (b : list CouncilBar) : res CouncilBar := index b (Z.of_nat (length b) - 1).
Definition councilReturn (b : list CouncilBar) (k : Z) : res float64 :=
  let n := Z.of_nat (length b) - 1 in
  let* last := index b n in let* from := index b (n - k) in
  Ok (fmul (fsub (fdiv (CB_Close last) (CB_Close from)) fone) fhundred).
Definition councilMeanClose (b : list CouncilBar) (k : Z) : res float64 :=
  let* window := slice_from b (Z.of_nat (length b) - k) in
  Ok (fdiv (foldl (fun s v => fadd s (CB_Close v)) fzero window) (f_of_Z k)).
Definition councilSMADistance (b : list CouncilBar) (k : Z) : res float64 :=
  let* last := last_of b in let* mean := councilMeanClose b k in
  Ok (fmul (fsub (fdiv (CB_Close last) mean) fone) fhundred).
Definition councilMeanVolumeAt (b : list CouncilBar) (end_ k : Z) : res float64 :=
  let* s := foldM (fun s i => let* v := index b i in Ok (fadd s (CB_Volume v))) fzero (seqZ (end_ - k + 1) k) in
  Ok (fdiv s (f_of_Z k)).
Definition councilMeanVolume (b : list CouncilBar) (k : Z) : res float64 :=
  councilMeanVolumeAt b (Z.of_nat (length b) - 1) k.
Definition councilRatio (num den : float64) : float64 := if feq den fzero then fzero else fdiv num den.
Definition councilRange (b : list CouncilBar) (k : Z) : res (float64 * float64) :=
  let* first := index b (Z.of_nat (length b) - k) in
  let* window := slice_from b (Z.of_nat (length b) - k) in
  Ok (foldl (fun '(h, l) v => (if fgt (CB_High v) h then CB_High v else h, if flt (CB_Low v) l then CB_Low v else l))
        (CB_High first, CB_Low first) window).
(** [math.Log(b[i].Close / b[i-1].Close)]. *)
Definition log_return (b : list CouncilBar) (i : Z) : res float64 :=
  let* v := index b i in let* u := index b (i - 1) in Ok (Log (fdiv (CB_Close v) (CB_Close u))).
Definition councilVol (b : list CouncilBar) (k : Z) : res float64 :=
  let n := Z.of_nat (length b) - 1 in
  let* sum := foldM (fun s i => let* r := log_return b i in Ok (fadd s r)) fzero (seqZ (n - k + 1) k) in
  let mean := fdiv sum (f_of_Z k) in
  let* variance := foldM (fun s i => let* r := log_return b i in let d := fsub r mean in Ok (fadd s (fmul d d))) fzero
                     (seqZ (n - k + 1) k) in
  Ok (fmul (fsqrt (fdiv variance (f_of_Z k))) fhundred).
Definition true_range (v u : CouncilBar) : float64 :=
  fmax (fsub (CB_High v) (CB_Low v))
    (fmax (fabs (fsub (CB_High v) (CB_Close u))) (fabs (fsub (CB_Low v) (CB_Close u)))).
Definition councilATR (b : list CouncilBar) (k : Z) : res float64 :=
  let* atr := foldM (fun atr i =>
      let* v := index b i in let* u := index b (i - 1) in
      let tr := true_range v u in
      Ok (if i <=? k then let atr := fadd atr tr in if i =? k then fdiv atr (f_of_Z k) else atr
          else fdiv (fadd (fmul atr (f_of_Z (k - 1))) tr) (f_of_Z k)))
    fzero (seqZ 1 (Z.of_nat (length b) - 1)) in
  let* last := last_of b in
  Ok (fmul (fdiv atr (CB_Close last)) fhundred).
Definition close_change (b : list CouncilBar) (i : Z) : res float64 :=
  let* v := index b i in let* u := index b (i - 1) in Ok (fsub (CB_Close v) (CB_Close u)).
Definition councilRSI (b : list CouncilBar) (k : Z) : res float64 :=
  let* (gain, loss) := foldM (fun '(gain, loss) i =>
      let* d := close_change b i in
      Ok (if fgt d fzero then (fadd gain d, loss) else (gain, fsub loss d))) (fzero, fzero) (seqZ 1 k) in
  let gain := fdiv gain (f_of_Z k) in let loss := fdiv loss (f_of_Z k) in
  let* (gain, loss) := foldM (fun '(gain, loss) i =>
      let* d := close_change b i in
      let '(g, l) := if fgt d fzero then (d, fzero) else (fzero, fneg d) in
      Ok (fdiv (fadd (fmul gain (f_of_Z (k - 1))) g) (f_of_Z k), fdiv (fadd (fmul loss (f_of_Z (k - 1))) l) (f_of_Z k)))
    (gain, loss) (seqZ (k + 1) (Z.of_nat (length b) - (k + 1))) in
  Ok (if feq loss fzero then if feq gain fzero then f_of_Z 50 else fhundred
      else fsub fhundred (fdiv fhundred (fadd fone (fdiv gain loss)))).
Definition cleanZero (v : float64) : float64 := if flt (fabs v) (f_of_ratio 5 1000) then fzero else v.
Definition clampCouncil (v : float64) : float64 := fmax fzero (fmin fone v).
