(* ===== verification/Council.v ===== *)
(** * Council: [internal/tradingcore/decision_council.go]

    The decision council: the state text it shows the model, its questions, the
    scores it computes from the answers and the proposal it derives. The model,
    SHA-256 and JSON are parameters; [DecisionModel] holds the records of
    [internal/decisionmodel/contract.go]. *)
From Stdlib Require Import Ascii SpecFloat.
From stdpp Require Import base numbers strings gmap list.
From S2P Require Import Prelude GoStrings GoFloat GoFormat Snapshots GoTime TrendMomentum CouncilBars.
Local Open Scope Z_scope.

(** ** The boundary to decision models *)
Module DecisionModel.
Definition QuestionScore : string := "score".
Definition QuestionChoice : string := "choice".
Definition QuestionNoul : string := "noul".
Record Question : Type := mkQuestion {
  Q_Type : string; Q_Instructions : string; Q_ScoreCriteria : list string; Q_ChoiceCriteria : gmap string string }.
Record Request : Type := mkRequest { RQ_State : string; RQ_Questions : gmap string Question }.
Record Answer : Type := mkAnswer {
  A_Type : string; A_Score : float64; A_Choice : string; A_Probability : float64;
  A_Probabilities : gmap string float64; A_Confidence : float64 }.
Definition Answer_zero : Answer := mkAnswer "" fzero "" fzero ∅ fzero.
Record Response : Type := mkResponse {
  RS_ModelIdentity : string; RS_Driver : string; RS_ResolvedModel : string; RS_RequestDigest : string;
  RS_Answers : gmap string Answer; RS_Cached : bool }.
End DecisionModel.
Import DecisionModel.

(** ** Data *)
Record CouncilSignal : Type := mkSignal {
  CS_V4Action : string; CS_Regime : string; CS_Rank : Z; CS_UniverseSize : Z; CS_Momentum : float64;
  CS_Normalized : float64; CS_Volatility : float64; CS_TargetWeight : float64; CS_AbsoluteTrend : bool }.
Record CouncilPosition : Type := mkCPosition {
  CP_HasPosition : bool; CP_EntryPrice : float64; CP_MarkPrice : float64; CP_DurationBars : Z;
  CP_MFEPercent : float64; CP_MAEPercent : float64 }.
Record CouncilFactorObservation : Type := mkFactorObs {
  FO_BarsAgo : Z; FO_Rank : Z; FO_Momentum : float64; FO_Normalized : float64; FO_Volatility : float64;
  FO_AbsoluteTrend : bool }.
Record CouncilCrossSection : Type := mkCross {
  XS_Rank : Z; XS_Momentum : float64; XS_Normalized : float64; XS_Volatility : float64; XS_AbsoluteTrend : bool;
  XS_HasPosition : bool }.
Record CouncilEconomics : Type := mkEconomics {
  CE_RoundTripCostBPS : float64; CE_RequiredEdge6BarsBPS : float64; CE_DistanceToNormalEntryRank : Z;
  CE_AvailablePositionSlots : Z; CE_CurrentGrossExposurePercent : float64; CE_TurnoverBudgetRemainingPercent : float64 }.
Record CouncilInput : Type := mkCouncilInput {
  CI_Asset : list CouncilBar; CI_Market : list CouncilBar; CI_AssetDaily : list CouncilBar;
  CI_MarketDaily : list CouncilBar; CI_Signal : CouncilSignal; CI_Position : CouncilPosition;
  CI_Economics : CouncilEconomics; CI_FactorHistory : list CouncilFactorObservation;
  CI_CrossSection : list CouncilCrossSection }.
Record CouncilOutcome : Type := mkCouncilOutcome {
  CO_Bull : float64; CO_Bear : float64; CO_Hodl : float64; CO_BullConfidence : float64; CO_BearConfidence : float64;
  CO_HodlConfidence : float64; CO_FinalChoice : string; CO_FinalProbabilities : gmap string float64;
  CO_FinalConfidence : float64; CO_Proposed : string; CO_Applied : bool; CO_Reason : string; CO_StateDigest : string;
  CO_ScoreRequestDigest : string; CO_FinalRequestDigest : string; CO_ResolvedModel : string; CO_Cached : bool }.

Definition CouncilObserveV1 : string := "observe_v1".
Definition CouncilVetoV1 : string := "veto_v1".
Definition CouncilObserveV2 : string := "observe_v2".
Definition CouncilActiveV2 : string := "active_v2".
Definition CouncilMinimumBars : Z := 51.
Definition councilStateSchema : string := "decision-council-state-v1".
Definition councilStateSchemaV2 : string := "decision-council-state-v2-compact-v3".
Definition ErrInsufficientCouncilData : error := Errorf "insufficient council data" [].

(** ** Validation *)
Definition finitePositive (v : float64) : bool := fgt v fzero && finite_f v.
Definition validCouncilEconomics (e : CouncilEconomics) : bool :=
  if (CE_DistanceToNormalEntryRank e <? 0) || (CE_AvailablePositionSlots e <? 0) then false else
  forallb (fun v => finite_f v && negb (flt v fzero))
    [CE_RoundTripCostBPS e; CE_RequiredEdge6BarsBPS e; CE_CurrentGrossExposurePercent e;
     CE_TurnoverBudgetRemainingPercent e].
Definition validSignal (s : CouncilSignal) : bool :=
  if (CS_V4Action s <>s "buy") && (CS_V4Action s <>s "hold") then false else
  if (CS_Regime s <>s "risk_on") && (CS_Regime s <>s "neutral") && (CS_Regime s <>s "risk_off") then false else
  if (CS_Rank s <? 0) || (CS_UniverseSize s <? 1) || (CS_UniverseSize s <? CS_Rank s) then false else
  forallb finite_f [CS_Momentum s; CS_Normalized s; CS_Volatility s; CS_TargetWeight s].
(** Valid bars with increasing closing times. *)
Fixpoint valid_series (previous : option CouncilBar) (series : list CouncilBar) : bool :=
  match series with
  | [] => true
  | bar :: rest =>
      validCouncilBar bar &&
      match previous with Some p => After (CB_CloseTime bar) (CB_CloseTime p) | None => true end &&
      valid_series (Some bar) rest
  end.
Definition invalid_position (p : CouncilPosition) : bool :=
  CP_HasPosition p && (negb (finitePositive (CP_EntryPrice p)) || negb (finitePositive (CP_MarkPrice p))).

(** ** The state text *)
Definition newline : Ascii.ascii := "010".
Definition line (text : string) : string := String newline text.
Definition format_bool (b : bool) : string := if b then "true" else "false".
(** [%.2f], [%.3f] and [%.1f] of a cleaned number. *)
Definition f2 (v : float64) : string := FormatFixed (cleanZero v) 2.
Definition f3 (v : float64) : string := FormatFixed (cleanZero v) 3.
Definition f1 (v : float64) : string := FormatFixed (cleanZero v) 1.
Definition percent_change (a b : float64) : float64 := fmul (fsub (fdiv a b) fone) fhundred.

Definition return_lines (name : string) (b : list CouncilBar) (horizons : list Z) : res string :=
  foldM (fun text k => let* r := councilReturn b k in
    Ok (text +:+ line (name +:+ Itoa k +:+ "_pct=" +:+ f2 r))) "" horizons.
(** The twelve latest bars: change, range and relative volume. *)
Definition recent_item (a : list CouncilBar) (i : Z) : res string :=
  let* v := index a i in let* u := index a (i - 1) in let* mean := councilMeanVolumeAt a i 20 in
  Ok (f2 (percent_change (CB_Close v) (CB_Close u)) +:+ "/" +:+
      f2 (fmul (fdiv (fsub (CB_High v) (CB_Low v)) (CB_Close v)) fhundred) +:+ "/" +:+
      f2 (councilRatio (CB_Volume v) mean)).
Definition recent_items (a : list CouncilBar) : res (list string) :=
  foldM (fun items i => let* item := recent_item a i in Ok (items ++ [item])) [] (seqZ (Z.of_nat (length a) - 12) 12).
Definition count_ups (a : list CouncilBar) : res Z :=
  foldM (fun ups i => let* v := index a i in Ok (if fgt (CB_Close v) (CB_Open v) then ups + 1 else ups)) 0
    (seqZ (Z.of_nat (length a) - 12) 12).
Definition signal_lines (s : CouncilSignal) (p : CouncilPosition) : string :=
  line ("signal=" +:+ CS_V4Action s) +:+ line ("regime=" +:+ CS_Regime s) +:+
  line ("rank=" +:+ Itoa (CS_Rank s) +:+ "/" +:+ Itoa (CS_UniverseSize s)) +:+
  line ("momentum=" +:+ f2 (CS_Momentum s)) +:+ line ("normalized_momentum=" +:+ f2 (CS_Normalized s)) +:+
  line ("volatility=" +:+ f2 (CS_Volatility s)) +:+ line ("absolute_trend=" +:+ format_bool (CS_AbsoluteTrend s)) +:+
  line ("target_weight=" +:+ f2 (CS_TargetWeight s)) +:+ line ("has_position=" +:+ format_bool (CP_HasPosition p)).
(** The text after the checks: [a] the asset, [m] the market. *)
Definition state_text (a m : list CouncilBar) (s : CouncilSignal) (p : CouncilPosition) : res string :=
  let* returns := return_lines "asset_ret" a [1; 3; 6; 12; 30] in
  let* vol := councilVol a 30 in let* atr := councilATR a 14 in let* rsi := councilRSI a 14 in
  let* sma20 := councilSMADistance a 20 in let* sma50 := councilSMADistance a 50 in
  let* (high, low) := councilRange a 30 in
  let* last := last_of a in
  let position := if fgt high low then fdiv (fsub (CB_Close last) low) (fsub high low) else fzero in
  let* volume20 := councilMeanVolume a 20 in let* volume5 := councilMeanVolume a 5 in
  let* ups := count_ups a in let* recent := recent_items a in
  let* market := return_lines "market_ret" m [1; 6; 30] in
  let* marketSMA := councilSMADistance m 30 in let* marketVol := councilVol m 30 in
  let* assetRet := councilReturn a 30 in let* marketRet := councilReturn m 30 in
  Ok ("schema=" +:+ councilStateSchema +:+ line "bar=4h" +:+ returns +:+
      line ("asset_realized_vol30_pct=" +:+ f2 vol) +:+ line ("asset_atr14_pct=" +:+ f2 atr) +:+
      line ("asset_rsi14=" +:+ f2 rsi) +:+ line ("asset_sma20_distance_pct=" +:+ f2 sma20) +:+
      line ("asset_sma50_distance_pct=" +:+ f2 sma50) +:+
      line ("asset_drawdown30_pct=" +:+ f2 (percent_change (CB_Close last) high)) +:+
      line ("asset_range30_position=" +:+ f2 (clampCouncil position)) +:+
      line ("asset_volume_ratio20=" +:+ f2 (councilRatio (CB_Volume last) volume20)) +:+
      line ("asset_volume_trend5_20=" +:+ f2 (councilRatio volume5 volume20)) +:+
      line ("asset_up_bars12=" +:+ Itoa ups) +:+ line ("asset_recent12=" +:+ String.concat "," recent) +:+ market +:+
      line ("market_sma30_distance_pct=" +:+ f2 marketSMA) +:+ line ("market_realized_vol30_pct=" +:+ f2 marketVol) +:+
      line ("relative_ret30_pct=" +:+ f2 (fsub assetRet marketRet)) +:+ signal_lines s p +:+
      (if CP_HasPosition p then line ("unrealized_pnl_pct=" +:+ f2 (percent_change (CP_MarkPrice p) (CP_EntryPrice p))) else "")).
Definition short_series (input : CouncilInput) : bool :=
  (Z.of_nat (length (CI_Asset input)) <? CouncilMinimumBars) || (Z.of_nat (length (CI_Market input)) <? CouncilMinimumBars).
Definition BuildCouncilState (input : CouncilInput) : res string :=
  if short_series input then Err ErrInsufficientCouncilData else
  if negb (forallb (valid_series None) [CI_Asset input; CI_Market input]) then Err (Errorf "invalid council bars" []) else
  if negb (validSignal (CI_Signal input)) || invalid_position (CI_Position input)
  then Err (Errorf "invalid council signal or position" []) else
  state_text (CI_Asset input) (CI_Market input) (CI_Signal input) (CI_Position input).

(** ** The compact second version *)
(** [strings.Replace(s, old, new, 1)], for a non-empty [old]. *)
Definition replace_first (s old new : string) : string :=
  match String.index 0 old s with
  | None => s
  | Some i => String.substring 0 i s +:+ new +:+ drop_str (i + String.length old) s
  end.
Definition last_items (n : nat) (items : list string) : list string := drop (length items - n) items.
(** Only the six latest bars stay. *)
Definition compact_recent (base : string) : string :=
  match String.index 0 "asset_recent12=" base with
  | None => base
  | Some start =>
      let valueStart := (start + String.length "asset_recent12=")%nat in
      let rest := drop_str valueStart base in
      match String.index 0 (String newline "") rest with
      | None => base
      | Some end_ =>
          String.substring 0 start base +:+ "asset_recent6=" +:+
          String.concat "," (last_items 6 (Split "," (String.substring 0 end_ rest))) +:+ drop_str end_ rest
      end
  end.
Definition daily_summary (label : string) (bars : list CouncilBar) : res string :=
  let n := Z.of_nat (length bars) in
  let* (text, wrote) := foldM (fun '(text, wrote) horizon =>
      if n <=? horizon then Ok (text, wrote) else
      let* r := councilReturn bars horizon in
      Ok (text +:+ (if wrote : bool then "," else "") +:+ "r" +:+ Itoa horizon +:+ ":" +:+ f2 r, true)) ("", false) [1; 7; 30; 90] in
  let* tail := (if 31 <=? n then
                  let* vol := councilVol bars 30 in let* sma := councilSMADistance bars 30 in
                  Ok (",vol30:" +:+ f2 vol +:+ ",sma30:" +:+ f2 sma)
                else Ok "") in
  Ok (line (label +:+ "=") +:+ text +:+ tail +:+ (if wrote then "" else "short")).
Definition economics_lines (e : CouncilEconomics) : string :=
  line ("round_trip_cost_bps=" +:+ f1 (CE_RoundTripCostBPS e)) +:+
  line ("required_edge_6_bars_bps=" +:+ f1 (CE_RequiredEdge6BarsBPS e)) +:+
  line ("distance_to_normal_entry_rank=" +:+ Itoa (CE_DistanceToNormalEntryRank e)) +:+
  line ("available_position_slots=" +:+ Itoa (CE_AvailablePositionSlots e)) +:+
  line ("current_gross_exposure_pct=" +:+ f2 (CE_CurrentGrossExposurePercent e)) +:+
  line ("turnover_budget_remaining_pct=" +:+ f2 (CE_TurnoverBudgetRemainingPercent e)).
Definition factor_item (v : CouncilFactorObservation) : string :=
  ";" +:+ Itoa (FO_BarsAgo v) +:+ "/" +:+ Itoa (FO_Rank v) +:+ "/" +:+ f3 (FO_Momentum v) +:+ "/" +:+ f3 (FO_Normalized v) +:+
  "/" +:+ f3 (FO_Volatility v) +:+ "/" +:+ format_bool (FO_AbsoluteTrend v).
Definition cross_item (v : CouncilCrossSection) : string :=
  ";" +:+ Itoa (XS_Rank v) +:+ "/" +:+ f3 (XS_Momentum v) +:+ "/" +:+ f3 (XS_Normalized v) +:+ "/" +:+ f3 (XS_Volatility v) +:+
  "/" +:+ format_bool (XS_AbsoluteTrend v) +:+ "/" +:+ format_bool (XS_HasPosition v).
Definition position_lines (p : CouncilPosition) : string :=
  line ("position_duration_4h=" +:+ Itoa (CP_DurationBars p)) +:+ line ("position_mfe_pct=" +:+ f2 (CP_MFEPercent p)) +:+
  line ("position_mae_pct=" +:+ f2 (CP_MAEPercent p)) +:+
  (if CP_HasPosition p then
     let unrealized := percent_change (CP_MarkPrice p) (CP_EntryPrice p) in
     line ("position_giveback_from_mfe_pct=" +:+ f2 (fmax fzero (fsub (CP_MFEPercent p) unrealized)))
   else "").
Definition count_lines (input : CouncilInput) : string :=
  line ("asset_4h_count=" +:+ Itoa (Z.of_nat (length (CI_Asset input)))) +:+
  line ("market_4h_count=" +:+ Itoa (Z.of_nat (length (CI_Market input)))) +:+
  line ("asset_daily_count=" +:+ Itoa (Z.of_nat (length (CI_AssetDaily input)))) +:+
  line ("market_daily_count=" +:+ Itoa (Z.of_nat (length (CI_MarketDaily input)))).
Definition unbounded_state (input : CouncilInput) : bool :=
  (360 <? Z.of_nat (length (CI_Asset input))) || (360 <? Z.of_nat (length (CI_Market input))) ||
  (180 <? Z.of_nat (length (CI_AssetDaily input))) || (180 <? Z.of_nat (length (CI_MarketDaily input))) ||
  (360 <? Z.of_nat (length (CI_FactorHistory input))) || (64 <? Z.of_nat (length (CI_CrossSection input))).
Definition BuildCouncilStateV2 (input : CouncilInput) : res string :=
  if short_series input then Err ErrInsufficientCouncilData else
  if unbounded_state input then Err (Errorf "unbounded council v2 state" []) else
  if negb (forallb (valid_series None) [CI_Asset input; CI_Market input; CI_AssetDaily input; CI_MarketDaily input])
  then Err (Errorf "invalid council bars" []) else
  if negb (validSignal (CI_Signal input)) || (CP_DurationBars (CI_Position input) <? 0) ||
     invalid_position (CI_Position input) || negb (validCouncilEconomics (CI_Economics input))
  then Err (Errorf "invalid council signal, position, or economics" []) else
  let* base := BuildCouncilState input in
  let base := compact_recent (replace_first base ("schema=" +:+ councilStateSchema) ("schema=" +:+ councilStateSchemaV2)) in
  let* assetDaily := daily_summary "asset_daily_summary" (CI_AssetDaily input) in
  let* marketDaily := daily_summary "market_daily_summary" (CI_MarketDaily input) in
  let factors := drop (length (CI_FactorHistory input) - 3) (CI_FactorHistory input) in
  let cross := take 4 (CI_CrossSection input) in
  let text := base +:+ count_lines input +:+ assetDaily +:+ marketDaily +:+ position_lines (CI_Position input) +:+
    economics_lines (CI_Economics input) +:+
    line "factors=ago/rank/mom/norm/vol/trend" +:+ String.concat "" (factor_item <$> factors) +:+
    line "cross=rank/mom/norm/vol/trend/held" +:+ String.concat "" (cross_item <$> cross) in
  if 1800 <? slen text then Err (Errorf "council v2 compact state exceeds 1800 bytes" []) else Ok text.

(** ** Questions *)
Definition councilLevels : list string := ["none"; "weak"; "moderate"; "strong"; "very_strong"].
Definition councilLevelMeanings : gmap string string :=
  list_to_map [("none", "No support at all."); ("weak", "Weak support."); ("moderate", "Moderate support."); ("strong", "Strong support."); ("very_strong", "Very strong support.")].
Definition councilBullInstructionV1 : string :=
  "Score upside continuation merit over the next few 4h bars. Weigh volume confirmation, momentum persistence across horizons, trend alignment with market, and orderly structure above averages; penalize overextension.".
Definition councilBearInstructionV1 : string :=
  "Score downside or reversal risk over the next few 4h bars. Weigh exhaustion, overbought RSI, stretched distance above averages, fading volume on up moves, adverse market regime, high volatility, and breakdown from range.".
Definition councilHodlInstructionV1 : string :=
  "If has_position=true, score merit of keeping the position open using intact trend, absence of breakdown, and unrealized P&L context. If has_position=false, score merit of staying flat or not buying when evidence conflicts or is weak.".
Definition councilFinalInstructionV1 : string :=
  "Choose the best action for the current long-only state using the asset, market, signal, position, and council scores.".
Definition councilBullInstruction : string :=
  "Score upside continuation merit over the next few 4h bars. Weigh volume confirmation, momentum persistence across horizons, trend alignment with market, orderly structure above averages, required edge after round-trip costs, portfolio capacity, and whether early admission improves on waiting for the normal rank; penalize overextension.".
Definition councilBearInstruction : string :=
  "Score downside or reversal risk over the next few 4h bars. Weigh exhaustion, overbought RSI, stretched distance above averages, fading volume on up moves, adverse market regime, high volatility, breakdown from range, unrealized loss, giveback from MFE, adverse excursion, and weakening factor rank. For an open position, meaningful deterioration may justify an early exit before the normal v4 exit.".
Definition councilHodlInstruction : string :=
  "If has_position=true, compare keeping the position with exiting early: reward intact multi-horizon trend and recovery potential, but penalize breakdown, worsening rank, large MFE giveback, adverse excursion, and downside risk. Do not default to keep merely because a position is open; account for whipsaw and foregone recovery risk when considering early exit. If has_position=false, score merit of waiting for the normal signal or rejecting entry when evidence is weak, costs consume the edge, or portfolio capacity is scarce.".
Definition councilEntryInstruction : string :=
  "Decide whether this flat near-signal setup deserves early admission before the normal strategy selects it. Account for round-trip costs, required six-bar edge, distance from normal entry rank, available slots, gross exposure, turnover budget, and the risk of crowding out a stronger position.".
Definition councilExitInstruction : string :=
  "Decide whether to keep the open long or exit early before the normal v4 exit. Exit early only when point-in-time evidence shows meaningful deterioration and downside/giveback risk outweighs recovery potential, transaction costs, and whipsaw risk.".
Definition councilEntryRuleV1 : string :=
  "buy && !has_position: admit iff final=buy && bull>=0.50 && bear<0.50; else veto".
Definition councilHoldRuleV1 : string :=
  "hold && has_position: early_exit iff final=sell && bear>=0.60 && hodl<0.40; else hold".
Definition councilEntryRule : string :=
  "buy && !has_position: admit iff final=admit && bull>=0.70 && bear<0.50; else veto".
Definition councilHoldRule : string :=
  "hold && has_position: early_exit iff final=exit_early && bear>=0.60 && hodl<0.40; else hold".
Definition councilScoreRule : string :=
  "score=clamp(sum(level_index*probability[level])/(levels-1),0,1) over ordered choice levels; when probabilities absent clamp(index(choice)/(levels-1),0,1)".

Definition councilLevelCriteria : gmap string string := councilLevelMeanings.
Definition choice_question (instructions : string) (criteria : gmap string string) : Question :=
  mkQuestion QuestionChoice instructions [] criteria.
Definition score_questions (bull bear hodl : string) : gmap string Question :=
  list_to_map [("decision_bull", choice_question bull councilLevelCriteria);
               ("decision_bear", choice_question bear councilLevelCriteria);
               ("decision_hodl", choice_question hodl councilLevelCriteria)].
Definition councilScoreQuestionsV1 : gmap string Question :=
  score_questions councilBullInstructionV1 councilBearInstructionV1 councilHodlInstructionV1.
Definition councilScoreQuestions : gmap string Question :=
  score_questions councilBullInstruction councilBearInstruction councilHodlInstruction.
Definition councilFinalQuestionsV1 : gmap string Question :=
  {["decision_final" := choice_question councilFinalInstructionV1 (list_to_map [("buy", "open or keep a long");
    ("sell", "exit or avoid");
    ("hodl", "keep current state: hold an open position or stay flat")])]}.
Definition councilEntryFinalQuestions : gmap string Question :=
  {["decision_final" := choice_question councilEntryInstruction (list_to_map [("admit", "Open the long early because expected edge clearly exceeds costs and opportunity cost.");
    ("wait_for_normal_signal", "Stay flat now and let the normal strategy decide later.");
    ("reject", "Avoid this setup because evidence, economics, or portfolio capacity is inadequate.")])]}.
Definition councilExitFinalQuestions : gmap string Question :=
  {["decision_final" := choice_question councilExitInstruction (list_to_map [("keep", "Keep the long because continuation or recovery merit outweighs deterioration risk.");
    ("exit_early", "Close before the normal exit because deterioration and giveback risk outweigh recovery and whipsaw risk.")])]}.
Definition councilFinalQuestions (action : string) : gmap string Question :=
  if action =s "buy" then councilEntryFinalQuestions else councilExitFinalQuestions.

(** ** Scores *)
Definition level_index (level : string) : option nat := list_find (eq level) councilLevels ≫= fun p => Some (fst p).
Definition bad_probability (key : string) (p : float64) : bool :=
  negb (existsb (String.eqb key) councilLevels) || negb (finite_f p) || flt p fzero || fgt p fone.
Definition add_level (probabilities : gmap string float64) (s : float64 * float64) (e : Z * string) : float64 * float64 :=
  let p := default fzero (probabilities !! snd e) in
  (fadd (fst s) p, fadd (snd s) (fmul (f_of_Z (fst e)) p)).
Definition councilExpectedScore (answer : Answer) : res float64 :=
  if A_Type answer <>s QuestionChoice then Err (Errorf "invalid council score answer type" []) else
  if (size (A_Probabilities answer) =? 0)%nat then
    match level_index (A_Choice answer) with
    | None => Err (Errorf "invalid council score choice" [])
    | Some i => Ok (clampCouncil (fdiv (f_of_Z (Z.of_nat i)) (f_of_Z 4)))
    end
  else if existsb (fun '(key, p) => bad_probability key p) (map_to_list (A_Probabilities answer))
  then Err (Errorf "invalid council score probability" []) else
  let '(sum, weighted) := foldl (add_level (A_Probabilities answer)) (fzero, fzero) (zip [0; 1; 2; 3; 4] councilLevels) in
  if fle sum fzero then Err (Errorf "invalid council score probability sum" []) else
  Ok (clampCouncil (fdiv weighted (f_of_Z 4))).

(** ** The council *)
(** The proposal: an entry is admitted or vetoed, a position held or left early. *)
Definition proposal (v2 : bool) (action choice : string) (bull bear hodl : float64) : string :=
  let half := f_of_ratio 5 10 in
  if action =s "buy" then
    if negb v2 && (choice =s "buy") && fge bull half && flt bear half ||
       v2 && (choice =s "admit") && fge bull (f_of_ratio 7 10) && flt bear half then "admit" else "veto"
  else
    if negb v2 && (choice =s "sell") && fge bear (f_of_ratio 6 10) && flt hodl (f_of_ratio 4 10) ||
       v2 && (choice =s "exit_early") && fge bear (f_of_ratio 6 10) && flt hodl (f_of_ratio 4 10)
    then "early_exit" else "hold".
Definition valid_final (v2 : bool) (action choice : string) : bool :=
  negb v2 && existsb (String.eqb choice) ["buy"; "sell"; "hodl"] ||
  v2 && (action =s "buy") && existsb (String.eqb choice) ["admit"; "wait_for_normal_signal"; "reject"] ||
  v2 && (action =s "hold") && existsb (String.eqb choice) ["keep"; "exit_early"].
Definition second_version (policy : string) : bool := (policy =s CouncilObserveV2) || (policy =s CouncilActiveV2).
Definition known_policy (policy : string) : bool :=
  existsb (String.eqb policy) [CouncilObserveV1; CouncilVetoV1; CouncilObserveV2; CouncilActiveV2].
Definition applies (policy : string) : bool := (policy =s CouncilVetoV1) || (policy =s CouncilActiveV2).
Definition read_score (answers : gmap string Answer) (name : string) : res (float64 * float64) :=
  match answers !! name with
  | None => Err (Errorf "invalid council score answer %s" [name])
  | Some answer =>
      if A_Type answer <>s QuestionChoice then Err (Errorf "invalid council score answer %s" [name]) else
      match councilExpectedScore answer with
      | Err e => Err (Wrapf "%s: %w" [name] e)
      | Panic why => Panic why
      | Ok v => Ok (v, A_Confidence answer)
      end
  end.
Definition final_state (state : string) (bull bear hodl : float64) : string :=
  state +:+ line "council: bull=" +:+ FormatFixed bull 2 +:+ " bear=" +:+ FormatFixed bear 2 +:+ " hodl=" +:+ FormatFixed hodl 2.

Section Council.
(** The hex digits of SHA-256 and [json.Marshal] of the prompt definitions. *)
Variables (sha256hex : string -> string)
  (marshal : string -> gmap string Question -> list (string * gmap string Question) -> list (string * string) -> string).

Definition CouncilPromptDigest : string :=
  sha256hex (marshal councilStateSchema councilScoreQuestionsV1 [("final_questions", councilFinalQuestionsV1)]
    [("score_rule", councilScoreRule); ("entry_rule", councilEntryRuleV1); ("hold_rule", councilHoldRuleV1)]).
Definition CouncilPromptDigestV2 : string :=
  sha256hex (marshal councilStateSchemaV2 councilScoreQuestions
    [("final_entry_questions", councilEntryFinalQuestions); ("final_exit_questions", councilExitFinalQuestions)]
    [("score_rule", councilScoreRule); ("entry_rule", councilEntryRule); ("hold_rule", councilHoldRule)]).

(** [policy] and [model] are the fields of the council; [cancelled] is
    [ctx.Err()]. *)
Definition Evaluate (policy : string) (model : option (Request -> res Response)) (cancelled : option error)
    (input : CouncilInput) : res CouncilOutcome :=
  if negb (known_policy policy) then Err (Errorf "unknown council policy %q" [policy]) else
  match model with
  | None => Err (Errorf "council model is required" [])
  | Some Decide =>
      let action := CS_V4Action (CI_Signal input) in let held := CP_HasPosition (CI_Position input) in
      if negb ((action =s "buy") && negb held || (action =s "hold") && held)
      then Err (Errorf "invalid council action and position combination" []) else
      match cancelled with
      | Some e => Err e
      | None =>
          let v2 := second_version policy in
          let first := BuildCouncilState input in
          let* state := (if v2 then match first with Panic why => Panic why | _ => BuildCouncilStateV2 input end else first) in
          let* scores := match Decide (mkRequest state (if v2 then councilScoreQuestions else councilScoreQuestionsV1)) with
                         | Err e => Err (Wrapf "council scores: %w" [] e) | r => r end in
          let* (bull, bullConfidence) := read_score (RS_Answers scores) "decision_bull" in
          let* (bear, bearConfidence) := read_score (RS_Answers scores) "decision_bear" in
          let* (hodl, hodlConfidence) := read_score (RS_Answers scores) "decision_hodl" in
          let* final := match Decide (mkRequest (final_state state bull bear hodl)
                                        (if v2 then councilFinalQuestions action else councilFinalQuestionsV1)) with
                        | Err e => Err (Wrapf "council final: %w" [] e) | r => r end in
          match RS_Answers final !! "decision_final" with
          | None => Err (Errorf "invalid council final answer" [])
          | Some answer =>
              if (A_Type answer <>s QuestionChoice) || negb (valid_final v2 action (A_Choice answer))
              then Err (Errorf "invalid council final answer" []) else
              let proposed := proposal v2 action (A_Choice answer) bull bear hodl in
              Ok (mkCouncilOutcome bull bear hodl bullConfidence bearConfidence hodlConfidence (A_Choice answer)
                    (A_Probabilities answer) (A_Confidence answer) proposed (applies policy)
                    ("decision_council_" +:+ proposed) (sha256hex state) (RS_RequestDigest scores) (RS_RequestDigest final)
                    (RS_ResolvedModel final) (RS_Cached scores && RS_Cached final))
          end
      end
  end.
End Council.
