(* ===== verification/CouncilProofs.v ===== *)
(** * CouncilProofs: completed bars, bounded scores and gated proposals *)
From Stdlib Require Import Ascii SpecFloat Sorted.
From stdpp Require Import base numbers strings gmap list.
From S2P Require Import Prelude GoStrings GoFloat GoFloatFacts GoFormat Snapshots GoTime TrendMomentum TrendMomentumProofs CouncilBars Council.
Local Open Scope Z_scope.

(** ** The bars that fit a slot *)
Definition fits (b : Time) (i : Z) (bar : CouncilBar) : bool :=
  usable_15m bar && (Truncate (CB_OpenTime bar) BucketNs =? b) &&
  (Z.quot (time_Sub (CB_OpenTime bar) (Truncate (CB_OpenTime bar) BucketNs)) QuarterNs =? i).
Definition occ (bars : list CouncilBar) (b : Time) (i : Z) : list CouncilBar := List.filter (fits b i) bars.

Lemma occ_snoc bars x b i : occ (bars ++ [x]) b i = occ bars b i ++ (if fits b i x then [x] else []).
Proof. unfold occ. rewrite List.filter_app. cbn. by destruct (fits b i x). Qed.
Lemma fits_usable b i x : fits b i x = true -> usable_15m x = true.
Proof. unfold fits. by destruct (usable_15m x). Qed.
Lemma fits_own x : usable_15m x = true -> forall b i, fits b i x =
  bool_decide (b = Truncate (CB_OpenTime x) BucketNs /\
               i = Z.quot (time_Sub (CB_OpenTime x) (Truncate (CB_OpenTime x) BucketNs)) QuarterNs).
Proof.
  intros Hu b i. unfold fits. rewrite Hu. cbn [andb]. symmetry. destruct (bool_decide _) eqn:E.
  - apply bool_decide_eq_true in E as [-> ->]. by rewrite !Z.eqb_refl.
  - apply bool_decide_eq_false in E. symmetry. apply andb_false_iff. rewrite !Z.eqb_neq.
    destruct (decide (b = Truncate (CB_OpenTime x) BucketNs)) as [->|]; [right; intros <-; by apply E | left; congruence].
Qed.

(** The loop keeps the first bar of each slot and remembers the buckets in
    which some slot came twice. *)
Lemma add_15m_spec bars : let '(buckets, invalid) := foldl add_15m (∅, ∅) bars in
  (forall b i, default ∅ (buckets !! b) !! i = head (occ bars b i)) /\
  (forall b, b ∈ invalid <-> exists i, (2 <= length (occ bars b i))%nat).
Proof.
  induction bars as [|x bars IH] using rev_ind.
  - cbn. split; [intros b i; by rewrite !lookup_empty | intros b; split; [set_solver | intros (i & Hi); cbn in Hi; lia]].
  - rewrite foldl_app. cbn [foldl]. destruct (foldl add_15m (∅, ∅) bars) as [buckets invalid]. destruct IH as [H1 H2].
    unfold add_15m. destruct (usable_15m x) eqn:Hu; cbn [negb].
    2: { assert (E : forall b i, occ (bars ++ [x]) b i = occ bars b i).
         { intros b i. rewrite occ_snoc. destruct (fits b i x) eqn:E; [apply fits_usable in E; congruence | apply app_nil_r]. }
         split; [intros b i; by rewrite E | intros b; rewrite H2; by setoid_rewrite E]. }
    pose proof (fits_own x Hu) as Hf. set (B := Truncate _ _) in *. set (J := Z.quot _ _) in *.
    assert (Hocc : forall b i, occ (bars ++ [x]) b i = occ bars b i ++ (if bool_decide (b = B /\ i = J) then [x] else []))
      by (intros b i; by rewrite occ_snoc, Hf).
    pose proof (H1 B J) as HBJ. destruct (default ∅ (buckets !! B) !! J) as [y|] eqn:Ey.
    + split.
      * intros b i. rewrite Hocc. destruct (decide (b = B)) as [->|Hb].
        -- rewrite lookup_insert_eq. cbn [default from_option id]. rewrite H1.
           destruct (bool_decide _) eqn:Ed; [|by rewrite app_nil_r]. apply bool_decide_eq_true in Ed as [_ ->].
           by destruct (occ bars B J).
        -- rewrite lookup_insert_ne by done. rewrite bool_decide_eq_false_2 by tauto. by rewrite app_nil_r, H1.
      * intros b. rewrite elem_of_union, elem_of_singleton, H2. split.
        -- intros [->|(i & Hi)]; [exists J | exists i]; rewrite Hocc, length_app.
           ++ rewrite bool_decide_eq_true_2 by done. destruct (occ bars B J); [done|]. cbn. lia.
           ++ lia.
        -- intros (i & Hi). rewrite Hocc in Hi. destruct (bool_decide _) eqn:Ed.
           ++ apply bool_decide_eq_true in Ed as [-> _]. by left.
           ++ right. exists i. by rewrite app_nil_r in Hi.
    + assert (Hnil : occ bars B J = []) by (by destruct (occ bars B J)). split.
      * intros b i. rewrite Hocc. destruct (decide (b = B)) as [->|Hb].
        -- rewrite lookup_insert_eq. cbn [default from_option id]. destruct (decide (i = J)) as [->|Hi].
           ++ by rewrite lookup_insert_eq, bool_decide_eq_true_2, Hnil.
           ++ rewrite lookup_insert_ne, H1, bool_decide_eq_false_2 by (done || naive_solver). by rewrite app_nil_r.
        -- rewrite lookup_insert_ne by done. rewrite bool_decide_eq_false_2 by tauto. by rewrite app_nil_r, H1.
      * intros b. rewrite H2. split; intros (i & Hi); exists i; rewrite Hocc in *; [rewrite length_app; lia|].
        destruct (bool_decide _) eqn:Ed; [|by rewrite app_nil_r in Hi].
        apply bool_decide_eq_true in Ed as [-> ->]. rewrite Hnil in Hi. cbn in Hi. lia.
Qed.

Lemma fits_slot b i x : fits b i x = true ->
  b mod BucketNs = 0 /\ (CB_OpenTime x : Z) = b + i * QuarterNs /\ 0 <= i <= 15 /\
  CB_OpenTime x <= CB_CloseTime x <= CB_OpenTime x + QuarterNs /\ validCouncilBar x = true.
Proof.
  unfold fits. intros H. apply andb_true_iff in H as [H Hi]. apply andb_true_iff in H as [Hu Hb].
  apply Z.eqb_eq in Hi, Hb. subst b i. unfold usable_15m in Hu. apply negb_true_iff in Hu.
  repeat (apply orb_false_iff in Hu as [Hu ?]). unfold Before, After in *.
  repeat match goal with H : negb _ = false |- _ => apply negb_false_iff in H end. bool_prop.
  destruct (quarter_index (CB_OpenTime x)) as (Q1 & Q2 & Q3); [lia..|]. split_and!; (done || lia).
Qed.
Lemma occ_elem bars b i x : x ∈ occ bars b i <-> x ∈ bars /\ fits b i x = true.
Proof. apply elem_of_filter. Qed.

(** ** Completed buckets *)
(** Every slot of the bucket has exactly one bar, and the last has closed. *)
Definition completed (bars : list CouncilBar) (at_ b : Time) (f : Z -> CouncilBar) : Prop :=
  (forall i, 0 <= i <= 15 -> occ bars b i = [f i] /\ CB_CloseTime (f i) <> 0) /\ CB_CloseTime (f 15) <= at_.
Definition keys_15m (bars : list CouncilBar) (at_ : Time) : list Time :=
  let '(buckets, invalid) := foldl add_15m (∅, ∅) bars in
  (List.filter (fun '(key, slots) => negb (bool_decide (key ∈ invalid)) && complete_15m at_ slots) (map_to_list buckets)).*1.

Lemma complete_slots at_ slots : complete_15m at_ slots = true ->
  size slots = 16%nat /\ CB_CloseTime (slot slots 15) <= at_ /\ (forall i, 0 <= i <= 15 -> CB_CloseTime (slot slots i) <> 0).
Proof.
  unfold complete_15m, After. intros H. repeat (apply andb_true_iff in H as [H ?]). unfold IsZero in *.
  match goal with H : forallb _ _ = true |- _ => rewrite List.forallb_forall in H; rename H into Hf end. bool_prop.
  split_and!; [lia | lia |]. intros i Hi. specialize (Hf i). rewrite <- list_elem_of_In, elem_of_seqZ in Hf.
  specialize (Hf ltac:(lia)). apply negb_true_iff in Hf. bool_prop. done.
Qed.
Lemma slots_complete at_ slots : size slots = 16%nat -> CB_CloseTime (slot slots 15) <= at_ ->
  (forall i, 0 <= i <= 15 -> CB_CloseTime (slot slots i) <> 0) -> complete_15m at_ slots = true.
Proof.
  intros Hs Ha Hz. unfold complete_15m, After, IsZero. rewrite Hs. rewrite !andb_true_iff, !negb_true_iff, !Z.eqb_neq, Z.ltb_ge.
  split_and!; [done | by apply Hz | done |]. apply List.forallb_forall. intros i Hi%list_elem_of_In%elem_of_seqZ.
  apply negb_true_iff, Z.eqb_neq, Hz. lia.
Qed.

Lemma keys_15m_spec bars at_ b : b ∈ keys_15m bars at_ <-> exists f, completed bars at_ b f.
Proof.
  unfold keys_15m. pose proof (add_15m_spec bars) as H. destruct (foldl add_15m (∅, ∅) bars) as [buckets invalid].
  destruct H as [H1 H2].
  assert (Hr : forall slots, default ∅ (buckets !! b) = slots -> forall j, is_Some (slots !! j) -> 0 <= j <= 15).
  { intros slots <- j [x Hx]. rewrite H1 in Hx. assert (x ∈ occ bars b j) as [_ (_ & _ & ? & _)%fits_slot]%occ_elem; [|done].
    destruct (occ bars b j); [done|]. injection Hx as <-. by left. }
  split.
  - intros ([b' slots] & -> & [Hin Hc]%elem_of_filter)%list_elem_of_fmap. cbn [fst] in *. apply elem_of_map_to_list in Hin.
    apply andb_true_iff in Hc as [Hi Hc]. apply negb_true_iff, bool_decide_eq_false in Hi.
    apply complete_slots in Hc as (Hsz & Ha & Hz).
    assert (Hd : default ∅ (buckets !! b') = slots) by (by rewrite Hin).
    exists (slot slots). split; [|done]. intros i Hi'. split; [|by apply Hz].
    destruct (proj1 (size_slots slots (Hr slots Hd)) ltac:(lia) i Hi') as [x Hx].
    assert (Hslot : slot slots i = x) by (unfold slot; by rewrite Hx). rewrite Hslot.
    rewrite <- Hd, H1 in Hx. destruct (occ bars b' i) as [|y [|z l]] eqn:Eo; [done | by injection Hx as ->|].
    exfalso. apply Hi, H2. exists i. rewrite Eo. cbn. lia.
  - intros (f & Hf & Ha).
    assert (Hl : forall i, 0 <= i <= 15 -> default ∅ (buckets !! b) !! i = Some (f i))
      by (intros i Hi; destruct (Hf i Hi) as [E _]; by rewrite H1, E).
    destruct (buckets !! b) as [slots|] eqn:Eb; [|specialize (Hl 0 ltac:(lia)); cbn in Hl; by rewrite lookup_empty in Hl].
    cbn [default from_option id] in Hl. assert (Hslot : forall i, 0 <= i <= 15 -> slot slots i = f i)
      by (intros i Hi; unfold slot; by rewrite Hl).
    apply list_elem_of_fmap. exists (b, slots). split; [done|]. apply elem_of_filter. split; [by apply elem_of_map_to_list|].
    apply andb_true_iff. split.
    + apply negb_true_iff, bool_decide_eq_false. intros (i & Hi)%H2.
      assert (Hi' : 0 <= i <= 15).
      { destruct (occ bars b i) as [|x l] eqn:Eo; [cbn in Hi; lia|]. assert (x ∈ occ bars b i) as [_ (_ & _ & ? & _)%fits_slot]%occ_elem; [|done].
        rewrite Eo. by left. }
      destruct (Hf i Hi') as [E _]. rewrite E in Hi. cbn in Hi. lia.
    + apply slots_complete.
      * enough (Z.of_nat (size slots) = 16) by lia. apply size_slots; [by apply Hr|]. intros j Hj. rewrite Hl by done. by eexists.
      * by rewrite Hslot by lia.
      * intros i Hi. rewrite Hslot by done. by apply Hf.
Qed.
Lemma keys_15m_NoDup bars at_ : NoDup (keys_15m bars at_).
Proof.
  unfold keys_15m. destruct (foldl add_15m (∅, ∅) bars) as [buckets invalid].
  eapply sublist_NoDup; [apply (NoDup_fst_map_to_list buckets) | apply (fmap_sublist fst), filter_sublist].
Qed.

Lemma last_keys_drop keys limit : 0 < limit ->
  last_keys keys limit = drop (Z.to_nat (Z.of_nat (length keys) - limit)) (SliceStable Before keys).
Proof.
  intros Hl. unfold last_keys. rewrite SliceStable_length. destruct (Z.ltb_spec limit (Z.of_nat (length keys))).
  - f_equal. lia.
  - by replace (Z.to_nat (Z.of_nat (length keys) - limit)) with 0%nat by lia.
Qed.

(** ** The merged bar *)
Record sound_bar (b : CouncilBar) : Prop := {
  sb_open : positive_finite (CB_Open b) = true; sb_high : positive_finite (CB_High b) = true;
  sb_low : positive_finite (CB_Low b) = true; sb_close : positive_finite (CB_Close b) = true;
  sb_hl : fle (CB_Low b) (CB_High b) = true; sb_ho : fle (CB_Open b) (CB_High b) = true;
  sb_hc : fle (CB_Close b) (CB_High b) = true; sb_lo : fle (CB_Low b) (CB_Open b) = true;
  sb_lc : fle (CB_Low b) (CB_Close b) = true; sb_volume : nonneg (CB_Volume b) = true }.
Lemma valid_sound b : validCouncilBar b = true <-> sound_bar b /\ finite_f (CB_Volume b) = true.
Proof.
  unfold validCouncilBar, fgt, fge. cbn [forallb]. rewrite !andb_true_iff. split.
  - intros [[[[[[[[[(F1 & F2 & F3 & F4 & F5 & _) ?] ?] ?] ?] ?] ?] ?] ?] Hv]. split; [|done].
    split; try done; try (by apply positive_of).
    + destruct (CB_High b) as [[]|[]| |[]], (CB_Low b) as [[]|[]| |[]]; done.
    + apply le_finite; [done|]. by destruct (CB_Volume b) as [[]|[]| |[]].
  - intros [[] Hf].
    assert (Hp : forall x, positive_finite x = true -> finite_f x = true /\ flt fzero x = true) by (by intros [[]|[]| |[]]).
    repeat match goal with H : positive_finite _ = true |- _ => apply Hp in H as [??] end.
    split_and!; try done. by apply nonneg_le.
Qed.

Section Merge.
Context (slots : gmap Z CouncilBar) (f : Z -> CouncilBar).
Hypothesis Hslots : forall i, 0 <= i <= 15 -> slot slots i = f i /\ sound_bar (f i).

(** After the slots of [l]. *)
Record merging (start : CouncilBar) (l : list Z) (bar : CouncilBar) : Prop := {
  mg_same : CB_OpenTime bar = CB_OpenTime start /\ CB_CloseTime bar = CB_CloseTime start /\
            CB_Open bar = CB_Open start /\ CB_Close bar = CB_Close start;
  mg_high : positive_finite (CB_High bar) = true /\ fle (CB_High start) (CB_High bar) = true /\
    Forall (fun i => fle (CB_High (f i)) (CB_High bar) = true) l /\
    (CB_High bar = CB_High start \/ Exists (fun i => CB_High bar = CB_High (f i)) l);
  mg_low : positive_finite (CB_Low bar) = true /\ fle (CB_Low bar) (CB_Low start) = true /\
    Forall (fun i => fle (CB_Low bar) (CB_Low (f i)) = true) l /\
    (CB_Low bar = CB_Low start \/ Exists (fun i => CB_Low bar = CB_Low (f i)) l);
  mg_volume : CB_Volume bar = foldl (fun s i => fadd s (CB_Volume (f i))) (CB_Volume start) l }.

Lemma merge_all start l : positive_finite (CB_High start) = true -> positive_finite (CB_Low start) = true ->
  Forall (fun i => 0 <= i <= 15) l -> merging start l (foldl (merge_slot slots) start l).
Proof using Hslots.
  intros Hh Hl. induction l as [|i l IH] using rev_ind; intros Hr.
  - cbn. split; cbn; [done | split_and!; auto using fle_refl | split_and!; auto using fle_refl | done].
  - apply Forall_app in Hr as [Hr [Hi _]%Forall_cons]. destruct (IH Hr) as [M1 (H1 & H2 & H3 & H4) (L1 & L2 & L3 & L4) V].
    rewrite foldl_app. cbn [foldl]. set (bar := foldl (merge_slot slots) start l) in *.
    destruct (Hslots i Hi) as [Es Hs]. unfold merge_slot. rewrite Es. split; cbn -[fle].
    + done.
    + unfold fgt. destruct (flt (CB_High bar) (CB_High (f i))) eqn:E.
      * apply flt_le in E. split_and!; [by apply Hs | eapply fle_trans; [| | |exact H2|exact E]; (done || apply Hs) | |].
        -- apply Forall_app_2; [|apply Forall_singleton; by apply fle_refl, Hs].
           rewrite Forall_forall in H3, Hr |- *. intros j Hj. destruct (Hslots j (Hr j Hj)) as [_ Hsj].
           eapply fle_trans; [apply Hsj | | | by apply H3 | exact E]; [done | apply Hs].
        -- right. apply Exists_app. right. by constructor.
      * apply flt_false_le in E; [|done|apply Hs]. split_and!; [done | done | by apply Forall_app_2, Forall_singleton |].
        destruct H4 as [?|?]; [by left | right; apply Exists_app; by left].
    + destruct (flt (CB_Low (f i)) (CB_Low bar)) eqn:E.
      * apply flt_le in E. split_and!; [by apply Hs | eapply fle_trans; [| | |exact E|exact L2]; (done || apply Hs) | |].
        -- apply Forall_app_2; [|apply Forall_singleton; by apply fle_refl, Hs].
           rewrite Forall_forall in L3, Hr |- *. intros j Hj. destruct (Hslots j (Hr j Hj)) as [_ Hsj].
           eapply fle_trans; [ | | apply Hsj | exact E | by apply L3]; [apply Hs | done].
        -- right. apply Exists_app. right. by constructor.
      * apply flt_false_le in E; [|apply Hs|done]. split_and!; [done | done | by apply Forall_app_2, Forall_singleton |].
        destruct L4 as [?|?]; [by left | right; apply Exists_app; by left].
    + rewrite foldl_app. cbn [foldl]. by rewrite V.
Qed.
End Merge.

(** ** The aggregated series *)
Record merged_of (b : Time) (f : Z -> CouncilBar) (bar : CouncilBar) : Prop := {
  mo_times : CB_OpenTime bar = b /\ CB_CloseTime bar = CB_CloseTime (f 15);
  mo_prices : CB_Open bar = CB_Open (f 0) /\ CB_Close bar = CB_Close (f 15);
  mo_high : (forall i, 0 <= i <= 15 -> fle (CB_High (f i)) (CB_High bar) = true) /\
            exists i, 0 <= i <= 15 /\ CB_High bar = CB_High (f i);
  mo_low : (forall i, 0 <= i <= 15 -> fle (CB_Low bar) (CB_Low (f i)) = true) /\
           exists i, 0 <= i <= 15 /\ CB_Low bar = CB_Low (f i);
  mo_volume : CB_Volume bar = foldl (fun s i => fadd s (CB_Volume (f i))) fzero (seqZ 0 16) }.

Lemma completed_slot bars at_ b f i : completed bars at_ b f -> 0 <= i <= 15 ->
  sound_bar (f i) /\ b mod BucketNs = 0 /\ b + i * QuarterNs <= CB_CloseTime (f i) <= b + (i + 1) * QuarterNs.
Proof.
  intros [Hf _] Hi. destruct (Hf i Hi) as [Eo _]. assert (f i ∈ occ bars b i) as [_ Hfit]%occ_elem by (rewrite Eo; by left).
  apply fits_slot in Hfit as (Hb & Ho & _ & Hc & [Hs _]%valid_sound). split_and!; [done | done | lia | lia].
Qed.
Lemma merged_bar_spec bars at_ b f slots : completed bars at_ b f -> (forall i, 0 <= i <= 15 -> slot slots i = f i) ->
  merged_of b f (merged_bar 16 b slots).
Proof.
  intros Hc Hs. unfold merged_bar. rewrite !Hs by lia.
  assert (Hsl : forall i, 0 <= i <= 15 -> slot slots i = f i /\ sound_bar (f i))
    by (intros i Hi; split; [by apply Hs | by apply (completed_slot bars at_ b f i Hc)]).
  set (start := mkCBar _ _ _ _ _ _ _).
  destruct (merge_all slots f Hsl start (seqZ 0 16)) as [(M1 & M2 & M3 & M4) (_ & _ & H3 & H4) (_ & _ & L3 & L4) V];
    [by apply (Hsl 0) | by apply (Hsl 0) | apply Forall_forall; intros i Hi%elem_of_seqZ; lia |].
  rewrite Forall_forall in H3, L3. setoid_rewrite elem_of_seqZ in H3. setoid_rewrite elem_of_seqZ in L3.
  rewrite Exists_exists in H4, L4. setoid_rewrite elem_of_seqZ in H4. setoid_rewrite elem_of_seqZ in L4.
  split; [done | done | | | done].
  - split; [intros i Hi; apply H3; lia|]. destruct H4 as [H4|(i & Hi & H4)]; [exists 0 | exists i]; (split; [lia | exact H4]).
  - split; [intros i Hi; apply L3; lia|]. destruct L4 as [L4|(i & Hi & L4)]; [exists 0 | exists i]; (split; [lia | exact L4]).
Qed.
Lemma merged_valid bars at_ b f bar : completed bars at_ b f -> merged_of b f bar -> finite_f (CB_Volume bar) = true ->
  validCouncilBar bar = true.
Proof.
  intros Hc [_ [P1 P2] [H1 (ih & Hih & H2)] [L1 (il & Hil & L2)] V] Hv. apply valid_sound. split; [|done].
  assert (Hs : forall i, 0 <= i <= 15 -> sound_bar (f i)) by (intros i Hi; by apply (completed_slot bars at_ b f i Hc)).
  assert (Hh : positive_finite (CB_High bar) = true) by (rewrite H2; by apply Hs).
  assert (Hl : positive_finite (CB_Low bar) = true) by (rewrite L2; by apply Hs).
  destruct (Hs 0 ltac:(lia)), (Hs 15 ltac:(lia)). specialize (H1 0 ltac:(lia)) as H10. specialize (H1 15 ltac:(lia)) as H115.
  specialize (L1 0 ltac:(lia)) as L10. specialize (L1 15 ltac:(lia)) as L115.
  split; rewrite ?P1, ?P2; try done.
  - apply (fle_trans _ (CB_Low (f 0))); [done.. |]. by apply (fle_trans _ (CB_High (f 0))).
  - by apply (fle_trans _ (CB_High (f 0))).
  - by apply (fle_trans _ (CB_High (f 15))).
  - by apply (fle_trans _ (CB_Low (f 0))).
  - by apply (fle_trans _ (CB_Low (f 15))).
  - rewrite V. apply foldl_fadd_nonneg; [done|]. apply Forall_forall. intros i Hi%elem_of_seqZ. apply Hs. lia.
Qed.

Lemma ordered_strict keys : ordered Before keys -> NoDup keys -> StronglySorted Z.lt keys.
Proof.
  induction keys as [|k keys IH]; intros Ho Hn; [constructor|]. apply NoDup_cons in Hn as [Hk Hn].
  apply (ordered_cons Before) in Ho as [Ho Hf]; [|unfold Before; intros; lia]. constructor; [by apply IH|].
  rewrite Forall_forall in Hf |- *. intros y Hy. specialize (Hf y Hy). unfold Before in Hf.
  assert (k <> y) by (intros ->; done). lia.
Qed.
Lemma series_increasing keys out previous :
  Forall2 (fun b bar => b mod BucketNs = 0 /\ b + 15 * QuarterNs <= CB_CloseTime bar <= b + BucketNs /\ validCouncilBar bar = true)
    keys out ->
  StronglySorted Z.lt keys -> (forall p, previous = Some p -> Forall (fun b => CB_CloseTime p <= b) keys) ->
  valid_series previous out = true.
Proof.
  intros H. revert previous. induction H as [|b bar keys out (Hb & Hc & Hv) Hrest IH]; intros previous Hs Hp; [done|].
  apply StronglySorted_inv in Hs as [Hs Hlt]. cbn [valid_series]. rewrite Hv. cbn [andb].
  apply andb_true_iff. split.
  - destruct previous as [p|]; [|done]. specialize (Hp p eq_refl). apply Forall_cons in Hp as [Hp _].
    unfold After. apply Z.ltb_lt. unfold QuarterNs, MinuteNs, SecondNs in *. lia.
  - apply IH; [done|]. intros p [= <-]. rewrite Forall_forall in Hlt |- *. intros b' Hb'.
    specialize (Hlt b' Hb'). apply list_elem_of_lookup in Hb' as [i Hi].
    destruct (Forall2_lookup_l _ _ _ _ _ Hrest Hi) as (bar' & _ & Hm & _).
    pose proof (multiples_gap b b' BucketNs ltac:(done) Hb Hm Hlt). lia.
Qed.

Lemma StronglySorted_drop {A} (R : A -> A -> Prop) n l : StronglySorted R l -> StronglySorted R (drop n l).
Proof. revert l. induction n as [|n IH]; intros [|x l] H; try done. apply IH. by apply StronglySorted_inv in H as [? _]. Qed.

(** C21. Completed bars: the series of 4h bars has, in order of time, the latest
    [limit] of the aligned buckets in which every quarter hour has exactly one
    usable bar and the last has closed by then. Each bar opens and closes with
    its bucket, has its extremes and its volume; and the series is one the
    council accepts unless a volume overflows. *)
Theorem AggregateCouncilBars4H_spec bars at_ limit : 0 < limit ->
  let out := AggregateCouncilBars4H bars at_ limit in
  exists keys, StronglySorted Z.lt keys /\ (forall b, b ∈ keys <-> exists f, completed bars at_ b f) /\
    Forall2 (fun b bar => exists f, completed bars at_ b f /\ merged_of b f bar)
      (drop (Z.to_nat (Z.of_nat (length keys) - limit)) keys) out /\
    (Forall (fun bar => finite_f (CB_Volume bar) = true) out -> valid_series None out = true).
Proof.
  intros Hl. cbn zeta. exists (SliceStable Before (keys_15m bars at_)).
  assert (Hk : forall b, b ∈ SliceStable Before (keys_15m bars at_) <-> exists f, completed bars at_ b f)
    by (intros b; rewrite SliceStable_elem; apply keys_15m_spec).
  assert (Hs : StronglySorted Z.lt (SliceStable Before (keys_15m bars at_))).
  { apply ordered_strict; [apply SliceStable_ordered; unfold Before; intros; lia|].
    rewrite <- SliceStable_Permutation. apply keys_15m_NoDup. }
  assert (Hout : Forall2 (fun b bar => exists f, completed bars at_ b f /\ merged_of b f bar)
    (drop (Z.to_nat (Z.of_nat (length (SliceStable Before (keys_15m bars at_))) - limit)) (SliceStable Before (keys_15m bars at_)))
    (AggregateCouncilBars4H bars at_ limit)).
  { rewrite SliceStable_length, <- last_keys_drop by done. unfold AggregateCouncilBars4H.
    rewrite (proj2 (Z.leb_gt limit 0)) by done.
    pose proof (add_15m_spec bars) as Hadd. assert (Ekeys := eq_refl (keys_15m bars at_)). unfold keys_15m in Ekeys at 2.
    destruct (foldl add_15m (∅, ∅) bars) as [buckets invalid]. destruct Hadd as [H1 _]. rewrite <- Ekeys.
    apply Forall2_fmap_r, Forall_Forall2_diag, Forall_forall. intros b Hb.
    assert (Hin : b ∈ SliceStable Before (keys_15m bars at_))
      by (rewrite last_keys_drop in Hb by done; eapply elem_of_sublist; [exact Hb | apply sublist_drop]).
    apply Hk in Hin as [f Hf]. exists f. split; [done|]. apply (merged_bar_spec bars at_); [done|].
    intros i Hi. destruct Hf as [Hf _]. destruct (Hf i Hi) as [E _]. unfold slot. by rewrite H1, E. }
  split_and!; [exact Hs | exact Hk | exact Hout |]. intros Hv.
  apply (series_increasing (drop (Z.to_nat (Z.of_nat (length (SliceStable Before (keys_15m bars at_))) - limit))
    (SliceStable Before (keys_15m bars at_)))); [|by apply StronglySorted_drop | done].
  apply Forall2_same_length_lookup. split; [by eapply Forall2_length|]. intros i b bar Hb Hbar.
  destruct (Forall2_lookup_lr _ _ _ _ _ _ Hout Hb Hbar) as (f & Hf & Hm).
  destruct (completed_slot bars at_ b f 15 Hf ltac:(lia)) as (_ & Hmod & Hclose). pose proof Hm as [[_ Ec] _ _ _ _].
  split_and!; [done | rewrite Ec; lia | rewrite Ec; unfold BucketNs, QuarterNs, HourNs, MinuteNs, SecondNs in *; lia |].
  eapply merged_valid; [done..|]. rewrite Forall_forall in Hv. apply Hv. by eapply list_elem_of_lookup_2.
Qed.

(** ** Scores *)
Import DecisionModel.
Lemma expected_score_unit answer v : councilExpectedScore answer = Ok v -> unit_interval v = true.
Proof.
  unfold councilExpectedScore. destruct (_ <>s _); [done|]. destruct (_ =? 0)%nat.
  - destruct (level_index _) as [i|]; [|done]. intros [= <-]. apply clamp_unit, fdiv_nonneg; [apply f_of_Z_nonneg; lia | done].
  - destruct (existsb _ _) eqn:Ex; [done|].
    assert (Hp : forall level, level ∈ councilLevels -> nonneg (default fzero (A_Probabilities answer !! level)) = true /\
      finite_f (default fzero (A_Probabilities answer !! level)) = true).
    { intros level _. destruct (A_Probabilities answer !! level) as [p|] eqn:Ep; [|done]. cbn [default from_option id].
      apply elem_of_map_to_list in Ep. destruct (bad_probability level p) eqn:Eb.
      - assert (existsb (fun '(key, p) => bad_probability key p) (map_to_list (A_Probabilities answer)) = true); [|congruence].
        apply existsb_exists. exists (level, p). by rewrite <- list_elem_of_In.
      - unfold bad_probability in Eb. apply orb_false_iff in Eb as [Eb _]. apply orb_false_iff in Eb as [Eb Hneg].
        apply orb_false_iff in Eb as [_ Hfin]. apply negb_false_iff in Hfin. split; [by apply le_finite | done]. }
    assert (Hsum : forall l s, Forall (fun e => (0 <= fst e)%Z /\ finite_f (f_of_Z (fst e)) = true /\ snd e ∈ councilLevels) l ->
      nonneg (snd s) = true -> nonneg (snd (foldl (add_level (A_Probabilities answer)) s l)) = true).
    { intros l s Hl. revert s. induction Hl as [|[i level] l (Hi & Hfi & Hin) _ IH]; intros s Hs; [done|]. cbn [foldl]. apply IH.
      unfold add_level. cbn [fst snd] in *. destruct (Hp level Hin) as [Hn Hf].
      apply fadd_nonneg; [done|]. apply fmul_nonneg; [by apply f_of_Z_nonneg | done..]. }
    specialize (Hsum (zip [0; 1; 2; 3; 4] councilLevels) (fzero, fzero)).
    destruct (foldl _ _ _) as [sum weighted] eqn:Ef. destruct (fle sum fzero); [done|]. intros [= <-].
    apply clamp_unit, fdiv_nonneg; [|done]. apply Hsum; [|done].
    cbn. repeat (apply Forall_cons; split; [split_and!; [cbn; lia | done | set_solver]|]). constructor.
Qed.
Lemma read_score_unit answers name v c : read_score answers name = Ok (v, c) -> unit_interval v = true.
Proof.
  unfold read_score. destruct (answers !! name); [|done]. destruct (_ <>s _); [done|].
  destruct (councilExpectedScore _) eqn:E; [|done..]. intros [= <- <-]. by eapply expected_score_unit.
Qed.

(** ** The outcome *)
(** An entry needs the model's consent and both thresholds. *)
Definition entry_consent (policy : string) (o : CouncilOutcome) : Prop :=
  if second_version policy
  then CO_FinalChoice o = "admit" /\ fge (CO_Bull o) (f_of_ratio 7 10) = true /\ flt (CO_Bear o) (f_of_ratio 5 10) = true
  else CO_FinalChoice o = "buy" /\ fge (CO_Bull o) (f_of_ratio 5 10) = true /\ flt (CO_Bear o) (f_of_ratio 5 10) = true.
(** So does an early exit. *)
Definition exit_consent (policy : string) (o : CouncilOutcome) : Prop :=
  CO_FinalChoice o = (if second_version policy then "exit_early" else "sell") /\
  fge (CO_Bear o) (f_of_ratio 6 10) = true /\ flt (CO_Hodl o) (f_of_ratio 4 10) = true.

Record gated (policy : string) (input : CouncilInput) (o : CouncilOutcome) : Prop := {
  ga_scores : Forall (fun v => unit_interval v = true) [CO_Bull o; CO_Bear o; CO_Hodl o];
  ga_entry : CP_HasPosition (CI_Position input) = false ->
    (CO_Proposed o = "admit" /\ entry_consent policy o) \/ (CO_Proposed o = "veto" /\ ~ entry_consent policy o);
  ga_held : CP_HasPosition (CI_Position input) = true ->
    (CO_Proposed o = "early_exit" /\ exit_consent policy o) \/ (CO_Proposed o = "hold" /\ ~ exit_consent policy o);
  ga_choice : is_Some ((if second_version policy then councilFinalQuestions (CS_V4Action (CI_Signal input))
                        else councilFinalQuestionsV1) !! "decision_final" ≫= fun q => Q_ChoiceCriteria q !! CO_FinalChoice o);
  ga_applied : CO_Applied o = true <-> policy = CouncilVetoV1 \/ policy = CouncilActiveV2;
  ga_reason : CO_Reason o = "decision_council_" +:+ CO_Proposed o }.

Lemma consent_cases (a b : string) (x y : bool) (yes no : string) :
  let p := if ((a =s b) && x && y)%bool then yes else no in
  (p = yes /\ (a = b /\ x = true /\ y = true)) \/ (p = no /\ ~ (a = b /\ x = true /\ y = true)).
Proof. cbn zeta. destruct (String.eqb_spec a b), x, y; cbn; first [left; by split_and! | right; split; [done | by intros (? & ? & ?)]]. Qed.
Lemma proposal_spec policy action choice (o : CouncilOutcome) : choice = CO_FinalChoice o ->
  let p := proposal (second_version policy) action choice (CO_Bull o) (CO_Bear o) (CO_Hodl o) in
  if String.eqb action "buy"
  then (p = "admit" /\ entry_consent policy o) \/ (p = "veto" /\ ~ entry_consent policy o)
  else (p = "early_exit" /\ exit_consent policy o) \/ (p = "hold" /\ ~ exit_consent policy o).
Proof.
  intros ->. cbn zeta. unfold proposal, entry_consent, exit_consent.
  destruct (action =s "buy"), (second_version policy); cbn [negb andb orb]; rewrite ?orb_false_r;
    match goal with |- context [if ((?a =s ?b) && ?x && ?y)%bool then _ else _] => exact (consent_cases a b x y _ _) end.
Qed.
Lemma valid_final_offered v2 action choice : (action = "buy" \/ action = "hold") -> valid_final v2 action choice = true ->
  is_Some ((if v2 then councilFinalQuestions action else councilFinalQuestionsV1) !! "decision_final"
           ≫= fun q => Q_ChoiceCriteria q !! choice).
Proof.
  unfold valid_final. rewrite !orb_true_iff, !andb_true_iff, !existsb_exists, negb_true_iff, !String.eqb_eq.
  intros Ha [[(-> & x & Hx & ->%String.eqb_eq)|((-> & ->) & x & Hx & ->%String.eqb_eq)]|((-> & ->) & x & Hx & ->%String.eqb_eq)];
    cbn [In] in Hx; repeat (destruct Hx as [<-|Hx]; [vm_compute; by eexists|]); done.
Qed.

(** C20. Whatever the model answers, an outcome is gated: its scores lie in the
    unit interval, an entry is admitted exactly when the model chose to admit
    it and both scores reach their thresholds, a position is left early exactly
    under the exit's thresholds, a flat asset is never "held" and a held one
    never "admitted", the final choice is one that was offered, and only the
    veto and active policies apply the proposal. *)
Theorem Evaluate_gated sha policy model cancelled input o :
  Evaluate sha policy model cancelled input = Ok o -> gated policy input o.
Proof.
  unfold Evaluate. intros H. destruct (negb (known_policy policy)); [done|]. destruct model as [Decide|]; [|done]. cbn zeta in H.
  set (action := CS_V4Action _) in *. set (held := CP_HasPosition _) in *.
  destruct (negb _) eqn:Ea in H; [done|]. destruct cancelled; [done|].
  apply negb_false_iff in Ea. rewrite orb_true_iff, !andb_true_iff, negb_true_iff, !String.eqb_eq in Ea.
  set (v2 := second_version policy) in *.
  destruct (if v2 then _ else _) as [state| |] in H; cbn [rbind] in H; [|done..].
  destruct (match Decide _ with Err e => _ | r => r end) as [scores| |] in H; cbn [rbind] in H; [|done..].
  destruct (read_score _ "decision_bull") as [[bull c1]| |] eqn:E1; cbn [rbind] in H; [|done..].
  destruct (read_score _ "decision_bear") as [[bear c2]| |] eqn:E2; cbn [rbind] in H; [|done..].
  destruct (read_score _ "decision_hodl") as [[hodl c3]| |] eqn:E3; cbn [rbind] in H; [|done..].
  destruct (match Decide _ with Err e => _ | r => r end) as [final| |] in H; cbn [rbind] in H; [|done..].
  destruct (RS_Answers final !! "decision_final") as [answer|]; [|done].
  destruct (_ || _)%bool eqn:Ev in H; [done|]. apply orb_false_iff in Ev as [_ Ev]. apply negb_false_iff in Ev.
  injection H as <-.
  match goal with |- gated _ _ ?o => pose proof (proposal_spec policy action (A_Choice answer) o eq_refl) as Hp end.
  cbn zeta in Hp. fold v2 in Hp.
  split; cbn [CO_Bull CO_Bear CO_Hodl CO_Proposed CO_FinalChoice CO_Applied CO_Reason].
  - repeat constructor; by eapply read_score_unit.
  - fold held. intros Hh. destruct Ea as [[Ea _]|[_ Ea]]; [rewrite Ea in *; exact Hp | congruence].
  - fold held. intros Hh. destruct Ea as [[_ Ea]|[Ea _]]; [congruence | rewrite Ea in *; exact Hp].
  - apply valid_final_offered; [|done]. destruct Ea as [[? _]|[? _]]; by auto.
  - unfold applies. by rewrite orb_true_iff, !String.eqb_eq.
  - done.
Qed.

(** ** The state text is total *)
Definition returns {A} (m : res A) : Prop := exists a, m = Ok a.
Lemma returns_Ok {A} (a : A) : returns (Ok a).
Proof. by eexists. Qed.
Lemma returns_bind {A B} (m : res A) (k : A -> res B) : returns m -> (forall a, returns (k a)) -> returns (let* a := m in k a).
Proof. intros [a ->] H. apply H. Qed.
Lemma foldM_returns {A S} (f : S -> A -> res S) l s : (forall s a, a ∈ l -> returns (f s a)) -> returns (foldM f s l).
Proof.
  revert s. induction l as [|a l IH]; intros s H; [apply returns_Ok|]. cbn [foldM].
  destruct (H s a ltac:(left)) as [s' ->]. cbn [rbind]. apply IH. intros s1 x Hx. apply H. by right.
Qed.
Lemma index_returns {A} (l : list A) i : 0 <= i < Z.of_nat (length l) -> returns (index l i).
Proof.
  intros Hi. unfold index. rewrite (proj2 (Z.ltb_ge i 0)) by lia.
  destruct (lookup_lt_is_Some_2 l (Z.to_nat i)) as [a ->]; [lia | apply returns_Ok].
Qed.
Lemma slice_returns {A} (l : list A) i : 0 <= i <= Z.of_nat (length l) -> returns (slice_from l i).
Proof.
  intros Hi. unfold slice_from. rewrite (proj2 (Z.ltb_ge i 0)), (proj2 (Z.ltb_ge _ i)) by lia. apply returns_Ok.
Qed.
Ltac returns_step :=
  match goal with
  | |- returns (Ok _) => apply returns_Ok
  | |- returns (rbind _ _) => apply returns_bind; [|intros]
  | |- returns (foldM _ _ (seqZ _ _)) => apply foldM_returns; intros ? ? ?%elem_of_seqZ
  | |- returns (index _ _) => apply index_returns; lia
  | |- returns (slice_from _ _) => apply slice_returns; lia
  | |- returns (let '(_, _) := ?x in _) => destruct x
  | |- returns ((let '(_, _) := ?x in _) _) => destruct x
  | |- returns (if ?c then _ else _) => destruct c
  end.
Ltac returns_tac := cbn zeta; repeat returns_step.

Section Total.
Context (b : list CouncilBar).
Lemma last_returns : b <> [] -> returns (last_of b).
Proof. intros H. unfold last_of. destruct b; [done|]. apply index_returns. cbn [length]. lia. Qed.
Lemma return_returns k : 0 <= k < Z.of_nat (length b) -> returns (councilReturn b k).
Proof. intros. unfold councilReturn. returns_tac. Qed.
Lemma sma_returns k : 0 < k <= Z.of_nat (length b) -> returns (councilSMADistance b k).
Proof. intros. unfold councilSMADistance, councilMeanClose, last_of. returns_tac. Qed.
Lemma mean_volume_at_returns e k : e < Z.of_nat (length b) -> k <= e + 1 -> returns (councilMeanVolumeAt b e k).
Proof. intros. unfold councilMeanVolumeAt. returns_tac. Qed.
Lemma range_returns k : 0 < k <= Z.of_nat (length b) -> returns (councilRange b k).
Proof. intros. unfold councilRange. returns_tac. Qed.
Lemma vol_returns k : 0 <= k < Z.of_nat (length b) -> returns (councilVol b k).
Proof. intros. unfold councilVol, log_return. returns_tac. Qed.
Lemma atr_returns k : b <> [] -> returns (councilATR b k).
Proof.
  intros Hb. unfold councilATR. apply returns_bind; [returns_tac|]. intros. apply returns_bind; [by apply last_returns | intros; returns_tac].
Qed.
Lemma rsi_returns k : 0 <= k < Z.of_nat (length b) -> returns (councilRSI b k).
Proof. intros. unfold councilRSI, close_change. returns_tac. Qed.
Lemma return_lines_returns name ks : Forall (fun k => 0 <= k < Z.of_nat (length b)) ks -> returns (return_lines name b ks).
Proof.
  intros H. unfold return_lines. apply foldM_returns. intros s k Hk. rewrite Forall_forall in H.
  apply returns_bind; [by apply return_returns, H | intros; returns_tac].
Qed.
Lemma recent_returns : 51 <= Z.of_nat (length b) -> returns (recent_items b) /\ returns (count_ups b).
Proof.
  intros H. unfold recent_items, count_ups, recent_item. split; returns_tac. apply mean_volume_at_returns; lia.
Qed.
End Total.

Lemma state_text_returns a m s p : 51 <= Z.of_nat (length a) -> 51 <= Z.of_nat (length m) -> returns (state_text a m s p).
Proof.
  intros Ha Hm. unfold state_text, councilMeanVolume. destruct (recent_returns a Ha) as [H1 H2].
  repeat match goal with
  | |- returns (rbind _ _) => apply returns_bind; [|intros ?; cbn zeta]
  | |- returns (let '(_, _) := ?x in _) => destruct x
  end.
  all: first [ done | apply returns_Ok | apply vol_returns; lia | apply rsi_returns; lia | apply sma_returns; lia
             | apply range_returns; lia | apply mean_volume_at_returns; lia | apply return_returns; lia
             | apply return_lines_returns; repeat constructor; lia
             | apply atr_returns; destruct a; [cbn in Ha; lia | done]
             | apply last_returns; destruct a; [cbn in Ha; lia | done] ].
Qed.

(** ** Which inputs have a state *)
Definition usable_input (input : CouncilInput) : Prop :=
  51 <= Z.of_nat (length (CI_Asset input)) /\ 51 <= Z.of_nat (length (CI_Market input)) /\
  valid_series None (CI_Asset input) = true /\ valid_series None (CI_Market input) = true /\
  validSignal (CI_Signal input) = true /\ invalid_position (CI_Position input) = false.
Lemma BuildCouncilState_usable input : if decide (usable_input input) then returns (BuildCouncilState input)
  else exists e, BuildCouncilState input = Err e.
Proof.
  unfold usable_input, BuildCouncilState, short_series, CouncilMinimumBars. cbn [forallb].
  destruct (Z.ltb_spec (Z.of_nat (length (CI_Asset input))) 51); cbn [orb]; [rewrite decide_False by lia; by eexists|].
  destruct (Z.ltb_spec (Z.of_nat (length (CI_Market input))) 51); cbn [orb]; [rewrite decide_False by lia; by eexists|].
  destruct (valid_series None (CI_Asset input)); cbn [andb negb]; [|rewrite decide_False by naive_solver; by eexists].
  destruct (valid_series None (CI_Market input)); cbn [andb negb]; [|rewrite decide_False by naive_solver; by eexists].
  destruct (validSignal _); cbn [orb negb]; [|rewrite decide_False by naive_solver; by eexists].
  destruct (invalid_position _); [rewrite decide_False by naive_solver; by eexists|].
  rewrite decide_True by done. by apply state_text_returns.
Qed.
Lemma daily_returns label bars : exists t, daily_summary label bars = Ok t.
Proof.
  unfold daily_summary. set (n := Z.of_nat (length bars)). apply returns_bind.
  - apply foldM_returns. intros [text wrote] k Hk. cbn beta iota. destruct (Z.leb_spec n k); [apply returns_Ok|].
    apply returns_bind; [|intros; apply returns_Ok]. apply return_returns. fold n.
    apply list_elem_of_In in Hk. cbn in Hk. lia.
  - intros [text wrote]. apply returns_bind; [|intros; apply returns_Ok]. destruct (Z.leb_spec 31 n); [|apply returns_Ok].
    apply returns_bind; [apply vol_returns; fold n; lia|]. intros. apply returns_bind; [apply sma_returns; fold n; lia|].
    intros. apply returns_Ok.
Qed.

(** Building the council's state never panics: the first version succeeds
    exactly on inputs with at least 51 valid, increasing bars of both series and
    a valid signal and position, although its indicators index those series;
    the second returns at most 1800 bytes, or an error. *)
Theorem BuildCouncilState_total input :
  ((exists t, BuildCouncilState input = Ok t) <-> usable_input input) /\
  (forall why, BuildCouncilState input <> Panic why) /\ (forall why, BuildCouncilStateV2 input <> Panic why) /\
  (forall t, BuildCouncilStateV2 input = Ok t -> slen t <= 1800 /\ usable_input input).
Proof.
  pose proof (BuildCouncilState_usable input) as H. split_and!.
  - destruct (decide _) as [Hu|Hu]; [tauto|]. destruct H as [e ->]. split; [by intros [? ?] | done].
  - intros why. destruct (decide _); destruct H as [x ->]; done.
  - intros why. unfold BuildCouncilStateV2. repeat match goal with |- (if ?c then Err _ else _) <> _ => destruct c; [done|] end.
    destruct (decide _); destruct H as [x ->]; cbn [rbind]; [|done]. cbn zeta.
    destruct (daily_returns "asset_daily_summary" (CI_AssetDaily input)) as [t1 ->].
    destruct (daily_returns "market_daily_summary" (CI_MarketDaily input)) as [t2 ->]. cbn [rbind]. by destruct (_ <? _).
  - intros t. unfold BuildCouncilStateV2. repeat match goal with |- (if ?c then Err _ else _) = _ -> _ => destruct c; [done|] end.
    destruct (decide _) as [Hu|]; destruct H as [x ->]; cbn [rbind]; [|done]. cbn zeta.
    destruct (daily_returns "asset_daily_summary" (CI_AssetDaily input)) as [t1 ->].
    destruct (daily_returns "market_daily_summary" (CI_MarketDaily input)) as [t2 ->]. cbn [rbind].
    match goal with |- (if ?c then _ else _) = _ -> _ => destruct c eqn:E; [done|] end. intros [= <-]. bool_prop. done.
Qed.

(** ** Concrete evaluations *)
Module CouncilSample.
Definition cbar (k : Z) (close : Z) : CouncilBar :=
  mkCBar (PlanSample.start + k * QuarterNs) (PlanSample.start + (k + 1) * QuarterNs) (f_of_Z close) (f_of_Z (close + 2))
    (f_of_Z (close - 2)) (f_of_Z (close + 1)) (f_of_Z 10).
Definition quarter_bars (n : Z) : list CouncilBar := (fun k => cbar k (100 + k mod 7)) <$> seqZ 0 n.
Definition series : list CouncilBar := AggregateCouncilBars4H (quarter_bars 832) (PlanSample.start + 832 * QuarterNs) 60.
Definition signal : CouncilSignal := mkSignal "buy" "risk_on" 2 5 fone fone fone fone true.
Definition flat : CouncilPosition := mkCPosition false fzero fzero 0 fzero fzero.
Definition economics : CouncilEconomics := mkEconomics fone fone 1 2 fone fone.
Definition input : CouncilInput := mkCouncilInput series series [] [] signal flat economics [] [].
Definition answer (choice : string) : Answer := mkAnswer QuestionChoice fzero choice fzero ∅ fone.
(** A model that supports the bull case and admits. *)
Definition model (request : Request) : res Response :=
  Ok (mkResponse "p/m" "d" "r" "digest"
    (list_to_map [("decision_bull", answer "strong"); ("decision_bear", answer "weak"); ("decision_hodl", answer "none");
                  ("decision_final", answer "admit")]) true).
Definition sha (_ : string) : string := "digest".
Definition outcome : res CouncilOutcome := Evaluate sha CouncilActiveV2 (Some model) None input.
Definition nothing : CouncilOutcome := mkCouncilOutcome fzero fzero fzero fzero fzero fzero "" ∅ fzero "" false "" "" "" "" "" false.
Definition outcome_of (r : res CouncilOutcome) : CouncilOutcome := match r with Ok o => o | _ => nothing end.
Definition admitted : CouncilOutcome := outcome_of outcome.
End CouncilSample.

Lemma AggregateCouncilBars4H_spec_witness :
  length CouncilSample.series = 52%nat /\ valid_series None CouncilSample.series = true.
Proof.
  assert (E : length CouncilSample.series = 52%nat) by (vm_compute; reflexivity). split; [exact E|].
  destruct (AggregateCouncilBars4H_spec (CouncilSample.quarter_bars 832) (PlanSample.start + 832 * QuarterNs) 60 ltac:(lia))
    as (keys & _ & _ & _ & Hv). apply Hv. apply (bool_decide_unpack _). vm_compute. exact I.
Defined.
Lemma Evaluate_gated_witness :
  CouncilSample.outcome = Ok CouncilSample.admitted /\ CO_Proposed CouncilSample.admitted = "admit" /\
  gated CouncilActiveV2 CouncilSample.input CouncilSample.admitted.
Proof.
  assert (E : CouncilSample.outcome = Ok CouncilSample.admitted) by (vm_compute; reflexivity).
  split; [exact E|]. split; [vm_compute; reflexivity|].
  exact (Evaluate_gated CouncilSample.sha CouncilActiveV2 (Some CouncilSample.model) None CouncilSample.input _ E).
Defined.

(** Three copies of one hour: the second empties the bucket, the third starts it
    again, and the bucket counts as complete. Three copies of a quarter hour
    spoil theirs. *)
Definition hour_bar (k : Z) : CouncilBar :=
  mkCBar (PlanSample.start + k * HourNs) (PlanSample.start + (k + 1) * HourNs) fone fone fone fone fone.
Lemma tripled_hour_accepted :
  length (AggregateCouncilBars4HFrom1H (hour_bar <$> [0; 0; 0; 1; 2; 3]) (PlanSample.start + BucketNs) 1) = 1%nat /\
  AggregateCouncilBars4H (CouncilSample.cbar 0 100 :: CouncilSample.cbar 0 100 :: CouncilSample.quarter_bars 16)
    (PlanSample.start + BucketNs) 1 = [].
Proof. split; vm_compute; reflexivity. Qed.
