(* ===== verification/LedgerModel.v ===== *)
(** * LedgerModel: [internal/ledger/errors.go], [internal/database/models.go]
    and the ledger tables of [internal/database/migrations.go]

    The rows the ledger service keeps, the tables with the constraints and
    insert triggers the migrations install, the statements the service issues
    on them as stateful computations, and its transactions. The role switch
    and the deferred commit guards of the later migrations are parameters of
    the operations that use them; column lengths, the bookkeeping times
    [CreatedAt]/[UpdatedAt] of wallets and states and the gaps PostgreSQL
    leaves in rolled back sequences are not modelled. *)
From Stdlib Require Import Ascii.
From stdpp Require Import base numbers strings gmap list.
From S2P Require Import Prelude GoStrings GoFloat Accounting Snapshots.
Local Open Scope Z_scope.

(** ** Errors. A message built by [Sprintf] is kept as its format. *)
Definition KindValidation : string := "validation".
Definition KindConflict : string := "conflict".
Definition KindUnavailable : string := "unavailable".
Definition KindIndeterminate : string := "indeterminate".
Definition KindInternal : string := "internal".

Definition newError (kind code message : string) (cause : option error) : error :=
  match cause with
  | None => LedgerError kind code message
  | Some e => LedgerErrorWith kind code message e
  end.
Definition validation (code message : string) : error := newError KindValidation code message None.
Definition conflict (code message : string) (cause : option error) : error :=
  newError KindConflict code message cause.
Definition unavailable (code message : string) : error := newError KindUnavailable code message None.
Definition internal (code : string) (cause : error) : error :=
  newError KindInternal code "ledger persistence failed" (Some cause).

(** [errors.As] for the three error types, along the causes. *)
Fixpoint as_ledger_error (err : error) : option (string * string) :=
  match err with
  | LedgerError kind code _ | LedgerErrorWith kind code _ _ => Some (kind, code)
  | Wrapf _ _ cause | RunError _ _ cause => as_ledger_error cause
  | _ => None
  end.
Fixpoint as_pg_error (err : error) : option (string * string) :=
  match err with
  | PgError code constraint => Some (code, constraint)
  | Wrapf _ _ cause | RunError _ _ cause | LedgerErrorWith _ _ _ cause => as_pg_error cause
  | _ => None
  end.
(** [errors.Is(err, gorm.ErrRecordNotFound)] for an error of the driver. *)
Definition ErrRecordNotFound : error := DriverError "record not found".
Definition is_not_found (err : error) : bool :=
  match err with DriverError name => name =s "record not found" | _ => false end.

Definition ErrorDetails (err : error) : string * string :=
  match as_ledger_error err with
  | Some details => details
  | None => (KindInternal, "internal_error")
  end.
Definition IsConflict (err : error) : bool :=
  let '(kind, _) := ErrorDetails err in (kind =s KindConflict) || (kind =s KindUnavailable).

Definition DefaultAccountID : string := "primary".
Definition requirePrimaryAccount (account : string) : res unit :=
  if (account =s "") || (account =s DefaultAccountID) then Ok tt
  else Err (validation "unsupported_account" "only account %q is supported").

Definition normalizePersistenceError (err : error) : error :=
  let rest := match as_ledger_error err with
              | Some _ => err
              | None => internal "persistence_failure" err
              end in
  match as_pg_error err with
  | Some (code, constraint) =>
      if code =s "23505" then
        conflict "duplicate_identity" "provider or ledger identity already exists" (Some err)
      else if (code =s "23503") || (code =s "23514") then conflict "ledger_constraint" constraint (Some err)
      else rest
  | None => rest
  end.

(** ** Rows *)
Record Wallet : Type := mkWallet {
  W_ID : Z; W_Balance : float64; W_BalanceExact : option Decimal; W_Currency : string;
  W_AccountID : string }.

(** The exact projection of a position, its float shadow, its open/closed
    cycle, and the fields copied from commands, grouped. *)
Record PositionExact : Type := mkExact {
  AmountExact : option Decimal; CostBasisExact : option Decimal;
  RealizedPnLExact : option Decimal; FeesExact : option Decimal }.
Record PositionFloats : Type := mkFloats {
  Amount : float64; AvgPrice : float64; EntryPrice : option float64; CurrentPrice : option float64;
  LastMarkPrice : option float64; LastMarkAt : option Time; Pnl : float64; PnlPercent : float64 }.
Record Cycle : Type := mkCycle {
  Status : string; OpenedAt : Time; ClosedAt : option Time; CloseReason : option string;
  ExitPending : bool }.
Record Labels : Type := mkLabels {
  ModelVersion : string; PolicyVersion : string; UniverseMode : string; RolloutState : string;
  ExperimentID : option string; PredictionLogID : option Z; DecisionContextJSON : string }.
Record Protection : Type := mkProtection {
  StopPrice : option float64; TakeProfitPrice : option float64; TrailingStopPrice : option float64;
  LastAtrValue : option float64; MaxBarsHeld : option Z }.
Record Entry : Type := mkEntry {
  ExecutionMode_ : string; EntrySource : string; DecisionTimeframe : string; StrategyVersion : string;
  ClientPositionID : option string }.
Record Position : Type := mkPosition {
  Ps_ID : Z; Ps_Symbol : string; Ps_AccountID : string; Ps_exact : PositionExact;
  Ps_floats : PositionFloats; Ps_cycle : Cycle; Ps_entry : Entry; Ps_labels : Labels;
  Ps_protection : Protection }.

Record OrderExact : Type := mkOrderExact {
  AmountCryptoExact : option Decimal; RequestedQuantityExact : option Decimal;
  ExecutedQuantityExact : option Decimal; RemainingQuantityExact : option Decimal;
  AmountUsdtExact : option Decimal; FeeExact : option Decimal }.
Record OrderFloats : Type := mkOrderFloats {
  AmountCrypto : float64; AmountUsdt : float64; O_Price : float64; O_Fee : float64;
  RequestedPrice : option float64; FillPrice : option float64; ExecutedQty : option float64;
  ExchangeFee : option float64 }.
Record OrderTimes : Type := mkOrderTimes {
  SubmittedAt : option Time; FilledAt : option Time; ExecutedAt : Time }.
Record Order : Type := mkOrder {
  O_ID : Z; O_OrderType : string; O_AccountID : string; O_Symbol : string; O_exact : OrderExact;
  O_floats : OrderFloats; O_LedgerBatchID : option string; O_ExchangeOrderID : option string;
  O_ClientOrderID : option string; O_Status : string; O_ExecutionMode : string; O_labels : Labels;
  O_Stage08ContextJSON : string; O_TriggerReason : option string; O_times : OrderTimes }.

Record LedgerBatch : Type := mkBatchRow {
  LB_AccountID : string; LB_PayloadHash : string; LB_CreatedAt : Time }.
Abbreviation BrokerOutcomeIngestion := LedgerBatch (only parsing).

Record Fill : Type := mkFill {
  F_ID : string; F_LedgerBatchID : string; F_AccountID : string; F_OrderID : Z; F_VenueID : string;
  F_ProviderFillID : option string; F_PositionID : Z; F_Symbol : string; F_Side : string;
  F_Quantity : Decimal; F_RequestedPrice : Decimal; F_FillPrice : Decimal; F_GrossAmount : Decimal;
  F_FeeAmount : Decimal; F_FeeType : string; F_FeeCurrency : string; F_ExecutionMode : string;
  F_StrategyVersion : string; F_PolicyVersion : string; F_CostModelVersion : string;
  F_Stage08ContextJSON : string; F_OccurredAt : Time; F_CreatedAt : Time }.

Record LedgerEvent : Type := mkEvent {
  E_ID : string; E_LedgerBatchID : string; E_Sequence : Z; E_IdempotencyKey : string;
  E_EventType : string; E_AccountID : string; E_VenueID : string; E_Currency : string;
  E_Symbol : string; E_CashDelta : Decimal; E_AssetDelta : Decimal; E_OrderID : option Z;
  E_FillID : option string; E_PositionID : option Z; E_ExecutionMode : string;
  E_StrategyVersion : string; E_PolicyVersion : string; E_Actor : string; E_Reason : string;
  E_ReversesEventID : option string; E_RealizedPnL : Decimal; E_CostBasisDelta : Decimal;
  E_FeeDelta : Decimal; E_MetadataJSON : string; E_Stage08ContextJSON : string;
  E_OccurredAt : Time; E_RecordedAt : Time }.

Record LedgerMigrationState : Type := mkState {
  S_Status : string; S_OpeningEventID : option string; S_UnresolvedJSON : string;
  S_ApprovedBy : option string; S_ApprovedAt : option Time }.

(** ** The database: tables in primary key (for fills and events insertion)
    order, the batch-like tables by key, and the id sequences. *)
Record DB : Type := mkDB {
  wallets : list Wallet; positions : list Position; orders : list Order; fills : list Fill;
  events : list LedgerEvent; batches : gmap string LedgerBatch;
  ingestions : gmap string BrokerOutcomeIngestion; states : gmap string LedgerMigrationState;
  next_position : Z; next_order : Z }.

Definition set_wallets (f : list Wallet -> list Wallet) (db : DB) : DB :=
  mkDB (f (wallets db)) (positions db) (orders db) (fills db) (events db) (batches db)
    (ingestions db) (states db) (next_position db) (next_order db).
Definition set_positions (f : list Position -> list Position) (db : DB) : DB :=
  mkDB (wallets db) (f (positions db)) (orders db) (fills db) (events db) (batches db)
    (ingestions db) (states db) (next_position db) (next_order db).
Definition set_orders (f : list Order -> list Order) (db : DB) : DB :=
  mkDB (wallets db) (positions db) (f (orders db)) (fills db) (events db) (batches db)
    (ingestions db) (states db) (next_position db) (next_order db).
Definition add_fill (fill : Fill) (db : DB) : DB :=
  mkDB (wallets db) (positions db) (orders db) (fills db ++ [fill]) (events db) (batches db)
    (ingestions db) (states db) (next_position db) (next_order db).
Definition add_event (event : LedgerEvent) (db : DB) : DB :=
  mkDB (wallets db) (positions db) (orders db) (fills db) (events db ++ [event]) (batches db)
    (ingestions db) (states db) (next_position db) (next_order db).
Definition set_batches (f : gmap string LedgerBatch -> gmap string LedgerBatch) (db : DB) : DB :=
  mkDB (wallets db) (positions db) (orders db) (fills db) (events db) (f (batches db))
    (ingestions db) (states db) (next_position db) (next_order db).
Definition set_ingestions (f : gmap string BrokerOutcomeIngestion -> gmap string BrokerOutcomeIngestion)
    (db : DB) : DB :=
  mkDB (wallets db) (positions db) (orders db) (fills db) (events db) (batches db)
    (f (ingestions db)) (states db) (next_position db) (next_order db).
Definition set_states (f : gmap string LedgerMigrationState -> gmap string LedgerMigrationState)
    (db : DB) : DB :=
  mkDB (wallets db) (positions db) (orders db) (fills db) (events db) (batches db)
    (ingestions db) (f (states db)) (next_position db) (next_order db).
Definition bump_position (db : DB) : DB :=
  mkDB (wallets db) (positions db) (orders db) (fills db) (events db) (batches db)
    (ingestions db) (states db) (next_position db + 1) (next_order db).
Definition bump_order (db : DB) : DB :=
  mkDB (wallets db) (positions db) (orders db) (fills db) (events db) (batches db)
    (ingestions db) (states db) (next_position db) (next_order db + 1).

(** ** Statements *)
Definition Tx (A : Type) : Type := stM DB A.
Definition get {A} (f : DB -> A) : Tx A := fun db => (Ok (f db), db).
Definition modify (f : DB -> DB) : Tx unit := fun db => (Ok tt, f db).
Definition found {A} (row : option A) : Tx A :=
  slift match row with Some a => Ok a | None => Err ErrRecordNotFound end.
(** [err] as a value, for the code that goes on after [ErrRecordNotFound]. *)
Definition or_not_found {A} (m : Tx A) : Tx (option A) := fun db =>
  match m db with
  | (Ok a, db') => (Ok (Some a), db')
  | (Err e, db') => if is_not_found e then (Ok None, db') else (Err e, db')
  | (Panic w, db') => (Panic w, db')
  end.
Definition where_ {A} (p : A -> bool) (l : list A) : option A := List.find p l.
Definition check (cond : bool) (code constraint : string) : Tx unit :=
  slift (failIf (negb cond) (PgError code constraint)).
(** [numeric(38,18)]: an absolute value of [10^20] or more is out of range. *)
Definition numeric_ok (d : option Decimal) : bool :=
  match d with Some d => Z.abs (integer d) <? 10 ^ 38 | None => true end.
Definition numeric (ds : list (option Decimal)) : Tx unit :=
  check (forallb numeric_ok ds) "22003" "numeric field overflow".
Definition not_null (ds : list Decimal) : Tx unit :=
  check (forallb Valid ds) "23502" "not-null constraint".

Definition FirstWallet : Tx Wallet := let! db := get id in found (head (wallets db)).
Definition FirstWalletOf (account : string) : Tx Wallet :=
  let! db := get id in found (where_ (fun w => W_AccountID w =s account) (wallets db)).
Definition SaveWallet (wallet : Wallet) : Tx unit :=
  let! _ := numeric [W_BalanceExact wallet] in
  modify (set_wallets (fmap (fun w => if W_ID w =? W_ID wallet then wallet else w))).

Definition FirstPositionOf (account symbol : string) : Tx Position :=
  let! db := get id in
  found (where_ (fun p => (Ps_AccountID p =s account) && (Ps_Symbol p =s symbol)) (positions db)).
Definition FirstOpenPositionOf (account symbol : string) : Tx Position :=
  let! db := get id in
  found (where_ (fun p => (Ps_AccountID p =s account) && (Ps_Symbol p =s symbol) &&
                          (Status (Ps_cycle p) =s "open")) (positions db)).
Definition FirstPosition (id_ : Z) : Tx Position :=
  let! db := get id in found (where_ (fun p => Ps_ID p =? id_) (positions db)).
Definition position_numerics (p : Position) : list (option Decimal) :=
  let x := Ps_exact p in [AmountExact x; CostBasisExact x; RealizedPnLExact x; FeesExact x].
Definition SavePosition (position : Position) : Tx unit :=
  let! _ := numeric (position_numerics position) in
  modify (set_positions (fmap (fun p => if Ps_ID p =? Ps_ID position then position else p))).
(** [Create] fills the zero values of defaulted columns and the new id. *)
Definition orDefault (value default : string) : string := if value =s "" then default else value.
Definition position_defaults (id_ : Z) (p : Position) : Position :=
  let c := Ps_cycle p in let e := Ps_entry p in
  mkPosition id_ (Ps_Symbol p) (orDefault (Ps_AccountID p) DefaultAccountID) (Ps_exact p) (Ps_floats p)
    (mkCycle (orDefault (Status c) "open") (OpenedAt c) (ClosedAt c) (CloseReason c) (ExitPending c))
    (mkEntry (orDefault (ExecutionMode_ e) "paper") (orDefault (EntrySource e) "manual")
       (orDefault (DecisionTimeframe e) "15m") (StrategyVersion e) (ClientPositionID e))
    (Ps_labels p) (Ps_protection p).
Definition CreatePosition (position : Position) : Tx Position :=
  let! db := get id in
  let created := position_defaults (next_position db) position in
  let! _ := numeric (position_numerics created) in
  let! _ := check (Ps_AccountID created =s DefaultAccountID) "23514" "positions_primary_account_check" in
  let! _ := check (negb (existsb (fun p => Ps_Symbol p =s Ps_Symbol created) (positions db)))
                  "23505" "idx_positions_symbol" in
  let! _ := modify (fun db => bump_position (set_positions (fun l => l ++ [created]) db)) in
  sret created.

Definition FirstOrder (id_ : Z) : Tx Order :=
  let! db := get id in found (where_ (fun o => O_ID o =? id_) (orders db)).
Definition order_numerics (o : Order) : list (option Decimal) :=
  let x := O_exact o in
  [AmountCryptoExact x; RequestedQuantityExact x; ExecutedQuantityExact x; RemainingQuantityExact x;
   AmountUsdtExact x; FeeExact x].
Definition SaveOrder (order : Order) : Tx unit :=
  let! _ := numeric (order_numerics order) in
  modify (set_orders (fmap (fun o => if O_ID o =? O_ID order then order else o))).
Definition order_defaults (id_ : Z) (o : Order) : Order :=
  mkOrder id_ (O_OrderType o) (orDefault (O_AccountID o) DefaultAccountID) (O_Symbol o) (O_exact o)
    (O_floats o) (O_LedgerBatchID o) (O_ExchangeOrderID o) (O_ClientOrderID o)
    (orDefault (O_Status o) "filled") (orDefault (O_ExecutionMode o) "paper") (O_labels o)
    (orDefault (O_Stage08ContextJSON o) "{}") (O_TriggerReason o) (O_times o).
Definition CreateOrder (order : Order) : Tx Order :=
  let! db := get id in
  let created := order_defaults (next_order db) order in
  let! _ := numeric (order_numerics created) in
  let! _ := check (O_AccountID created =s DefaultAccountID) "23514" "orders_primary_account_check" in
  let! _ := modify (fun db => bump_order (set_orders (fun l => l ++ [created]) db)) in
  sret created.

(** The trigger [validate_fill_links]. *)
Definition fill_links (db : DB) (f : Fill) : bool :=
  (match batches db !! F_LedgerBatchID f with Some b => LB_AccountID b =s F_AccountID f | None => false end) &&
  existsb (fun o => (O_ID o =? F_OrderID f) && (O_AccountID o =s F_AccountID f) &&
                    (O_Symbol o =s F_Symbol f) && (O_OrderType o =s F_Side f) &&
                    ((F_ExecutionMode f <>s "exchange") || bool_decide (is_Some (O_ExchangeOrderID o))))
    (orders db) &&
  existsb (fun p => (Ps_ID p =? F_PositionID f) && (Ps_AccountID p =s F_AccountID f) &&
                    (Ps_Symbol p =s F_Symbol f)) (positions db) &&
  existsb (fun w => (W_AccountID w =s F_AccountID f) && (W_Currency w =s F_FeeCurrency f)) (wallets db).
Definition fill_economic (f : Fill) : bool :=
  ((F_Side f =s "buy") || (F_Side f =s "sell")) && (0 <? Sign (F_Quantity f)) &&
  (0 <? Sign (F_RequestedPrice f)) && (0 <? Sign (F_FillPrice f)) && (0 <? Sign (F_GrossAmount f)) &&
  (0 <=? Sign (F_FeeAmount f)).
Definition same_provider_fill (f g : Fill) : bool :=
  (F_AccountID f =s F_AccountID g) && (F_VenueID f =s F_VenueID g) &&
  match F_ProviderFillID f, F_ProviderFillID g with Some a, Some b => a =s b | _, _ => false end.
Definition fill_decimals (f : Fill) : list Decimal :=
  [F_Quantity f; F_RequestedPrice f; F_FillPrice f; F_GrossAmount f; F_FeeAmount f].
Definition CreateFill (fill : Fill) : Tx unit :=
  let! db := get id in
  let! _ := numeric (Some <$> fill_decimals fill) in
  let! _ := check (fill_links db fill) "P0001" "fill account links are inconsistent" in
  let! _ := not_null (fill_decimals fill) in
  let! _ := check (fill_economic fill) "23514" "fills_economic_check" in
  let! _ := check ((F_AccountID fill =s DefaultAccountID) && (F_FeeCurrency fill <>s ""))
                  "23514" "fills_primary_account_check" in
  let! _ := check (negb (After (F_OccurredAt fill) (F_CreatedAt fill))) "23514" "fills_time_check" in
  let! _ := check ((F_ExecutionMode fill <>s "exchange") ||
                   ((F_VenueID fill <>s "internal") && bool_decide (is_Some (F_ProviderFillID fill))))
                  "23514" "fills_provider_identity_check" in
  let! _ := check (negb (existsb (fun f => (F_ID f =s F_ID fill) ||
                                           (F_LedgerBatchID f =s F_LedgerBatchID fill) ||
                                           same_provider_fill f fill) (fills db)))
                  "23505" "fills_pkey" in
  modify (add_fill fill).

Definition EventCapitalDeposit : string := "capital_deposit".
Definition EventCapitalWithdrawal : string := "capital_withdrawal".
Definition EventBuyFill : string := "buy_fill".
Definition EventSellFill : string := "sell_fill".
Definition EventTradingFee : string := "trading_fee".
Definition EventExchangeFee : string := "exchange_fee".
Definition EventFundingInterest : string := "funding_interest".
Definition EventAdminCorrection : string := "administrative_correction".
Definition EventReversal : string := "reversal".

(** The trigger [validate_event_links]. *)
Definition opt_links {A} (id_ : option A) (p : A -> bool) : bool :=
  match id_ with Some a => p a | None => true end.
Definition event_links (db : DB) (e : LedgerEvent) : bool :=
  (match batches db !! E_LedgerBatchID e with Some b => LB_AccountID b =s E_AccountID e | None => false end) &&
  existsb (fun w => (W_AccountID w =s E_AccountID e) && (W_Currency w =s E_Currency e)) (wallets db) &&
  opt_links (E_OrderID e) (fun i =>
    existsb (fun o => (O_ID o =? i) && (O_AccountID o =s E_AccountID e)) (orders db)) &&
  opt_links (E_PositionID e) (fun i =>
    existsb (fun p => (Ps_ID p =? i) && (Ps_AccountID p =s E_AccountID e) &&
                      ((E_Symbol e =s "") || (Ps_Symbol p =s E_Symbol e))) (positions db)) &&
  opt_links (E_FillID e) (fun i =>
    existsb (fun f => (F_ID f =s i) && (F_AccountID f =s E_AccountID e) && (F_VenueID f =s E_VenueID e) &&
                      (F_Symbol f =s E_Symbol e) &&
                      opt_links (E_OrderID e) (fun o => F_OrderID f =? o) &&
                      opt_links (E_PositionID e) (fun p => F_PositionID f =? p)) (fills db)).
(** The checks [ledger_events_type_check] and [ledger_events_sign_check]. *)
Definition event_signs (e : LedgerEvent) : bool :=
  let t := E_EventType e in let cash := Sign (E_CashDelta e) in let asset := Sign (E_AssetDelta e) in
  ((t =s EventBuyFill) && (cash <? 0) && (0 <? asset)) ||
  ((t =s EventSellFill) && (0 <? cash) && (asset <? 0)) ||
  (((t =s EventTradingFee) || (t =s EventExchangeFee)) && (cash <=? 0) && (asset =? 0)) ||
  ((t =s EventCapitalDeposit) && (0 <=? cash) && (asset =? 0)) ||
  ((t =s EventCapitalWithdrawal) && (cash <=? 0) && (asset =? 0)) ||
  (t =s EventFundingInterest) || (t =s EventAdminCorrection) || (t =s EventReversal).
Definition same_event_identity (e f : LedgerEvent) : bool :=
  (E_ID e =s E_ID f) || ((E_LedgerBatchID e =s E_LedgerBatchID f) && (E_Sequence e =? E_Sequence f)) ||
  (E_IdempotencyKey e =s E_IdempotencyKey f) ||
  match E_ReversesEventID e, E_ReversesEventID f with Some a, Some b => a =s b | _, _ => false end.
Definition event_decimals (e : LedgerEvent) : list Decimal :=
  [E_CashDelta e; E_AssetDelta e; E_RealizedPnL e; E_CostBasisDelta e; E_FeeDelta e].
(** The zero [Decimal] of the two columns with default 0 is stored as 0. *)
Definition event_defaults (e : LedgerEvent) : LedgerEvent :=
  let zeroed d := if Valid d then d else Zero in
  mkEvent (E_ID e) (E_LedgerBatchID e) (E_Sequence e) (E_IdempotencyKey e) (E_EventType e)
    (E_AccountID e) (orDefault (E_VenueID e) "internal") (E_Currency e) (E_Symbol e) (E_CashDelta e)
    (E_AssetDelta e) (E_OrderID e) (E_FillID e) (E_PositionID e) (E_ExecutionMode e)
    (E_StrategyVersion e) (E_PolicyVersion e) (E_Actor e) (E_Reason e) (E_ReversesEventID e)
    (E_RealizedPnL e) (zeroed (E_CostBasisDelta e)) (zeroed (E_FeeDelta e))
    (orDefault (E_MetadataJSON e) "{}") (orDefault (E_Stage08ContextJSON e) "{}")
    (E_OccurredAt e) (E_RecordedAt e).
Definition CreateEvent (event0 : LedgerEvent) : Tx LedgerEvent :=
  let! db := get id in
  let event := event_defaults event0 in
  let! _ := numeric (Some <$> event_decimals event) in
  let! _ := check (event_links db event) "P0001" "event account links are inconsistent" in
  let! _ := not_null (event_decimals event) in
  let! _ := check (event_signs event) "23514" "ledger_events_sign_check" in
  let! _ := check (negb (After (E_OccurredAt event) (E_RecordedAt event))) "23514" "ledger_events_time_check" in
  let! _ := check (E_AccountID event =s DefaultAccountID) "23514" "ledger_events_primary_account_check" in
  let! _ := check (negb (existsb (fun e => same_event_identity e event) (events db)))
                  "23505" "ledger_events_pkey" in
  let! _ := check (opt_links (E_ReversesEventID event)
                    (fun i => existsb (fun e => E_ID e =s i) (events db))) "23503" "fk_events_reversal" in
  let! _ := modify (add_event event) in
  sret event.
(** [tx.Create(&events)]: one insert of several rows. *)
Fixpoint CreateEvents (l : list LedgerEvent) : Tx (list LedgerEvent) :=
  match l with
  | [] => sret []
  | e :: l' => let! e' := CreateEvent e in let! es := CreateEvents l' in sret (e' :: es)
  end.
Definition FirstEvent (id_ : string) : Tx LedgerEvent :=
  let! db := get id in found (where_ (fun e => E_ID e =s id_) (events db)).
Definition FirstEventOfBatch (batchID : string) : Tx LedgerEvent :=
  let! db := get id in found (where_ (fun e => E_LedgerBatchID e =s batchID) (events db)).
Definition FirstFillOfBatch (batchID : string) : Tx Fill :=
  let! db := get id in found (where_ (fun f => F_LedgerBatchID f =s batchID) (fills db)).

Definition FirstBatch (id_ : string) : Tx LedgerBatch := let! db := get id in found (batches db !! id_).
Definition CreateBatch (id_ : string) (row : LedgerBatch) : Tx unit :=
  let! db := get id in
  let! _ := check (LB_AccountID row =s DefaultAccountID) "23514" "ledger_batches_primary_account_check" in
  let! _ := check (bool_decide (batches db !! id_ = None)) "23505" "ledger_batches_pkey" in
  modify (set_batches (fun m => <[id_ := row]> m)).
Definition FirstIngestion (id_ : string) : Tx BrokerOutcomeIngestion :=
  let! db := get id in found (ingestions db !! id_).
Definition CreateIngestion (id_ : string) (row : BrokerOutcomeIngestion) : Tx unit :=
  let! db := get id in
  let! _ := check (bool_decide (ingestions db !! id_ = None)) "23505" "broker_outcome_ingestions_pkey" in
  modify (set_ingestions (fun m => <[id_ := row]> m)).
Definition FirstState (account : string) : Tx LedgerMigrationState :=
  let! db := get id in found (states db !! account).
(** [Save] of a loaded state, or an insert that updates on conflict. *)
Definition SaveState (account : string) (row : LedgerMigrationState) : Tx unit :=
  modify (set_states (fun m => <[account := row]> m)).

(** ** Transactions

    [DB.Transaction]: everything is undone unless the body returns nil and the
    deferred guards accept the change at commit. The account lock serialises
    the writers of an account, so a transaction is one step. *)
Section Transactions.
Variable guards : DB -> DB -> res unit.

Definition transaction {A} (body : Tx A) : Tx A := fun db =>
  match body db with
  | (Ok a, db') => match guards db db' with
                   | Ok _ => (Ok a, db')
                   | Err e => (Err e, db)
                   | Panic w => (Panic w, db)
                   end
  | (r, _) => (r, db)
  end.
(** [return result, normalizePersistenceError(err)]. *)
Definition normalized {A} (m : Tx A) : Tx A := fun db =>
  match m db with
  | (Err e, db') => (Err (normalizePersistenceError e), db')
  | r => r
  end.

Lemma transaction_Ok {A} (body : Tx A) db a db' :
  transaction body db = (Ok a, db') -> body db = (Ok a, db').
Proof.
  unfold transaction. destruct (body db) as [[x|e|w] d]; [|done..].
  by destruct (guards db d).
Qed.
Lemma transaction_rollback {A} (body : Tx A) db r db' :
  transaction body db = (r, db') -> is_ok r = false -> db' = db.
Proof.
  unfold transaction. destruct (body db) as [[x|e|w] d]; [destruct (guards db d)|..];
    intros [= <- <-]; done.
Qed.
Lemma normalized_Ok {A} (m : Tx A) db a db' :
  normalized m db = (Ok a, db') <-> m db = (Ok a, db').
Proof. unfold normalized. by destruct (m db) as [[x|e|w] d]. Qed.
Lemma normalized_rollback {A} (body : Tx A) db r db' :
  normalized (transaction body) db = (r, db') -> is_ok r = false -> db' = db.
Proof.
  unfold normalized. destruct (transaction body db) as [[x|e|w] d] eqn:E; intros [= <- <-] H;
    try done; by eapply transaction_rollback.
Qed.
End Transactions.
