(* ===== verification/Ledger.v ===== *)
(** * Ledger: [internal/ledger/service.go]

    The ledger service: one atomic economic command per transaction. A fill
    moves the wallet, the position projection and the order, and appends the
    immutable fill and its events; the idempotency batch makes a command
    happen once. The clock is the sequence of its readings during a call;
    JSON, SHA-256 and the Stage 08 context are parameters. *)
From Stdlib Require Import Ascii.
From stdpp Require Import base numbers strings gmap list.
From S2P Require Import Prelude GoStrings GoFloat Accounting Snapshots LedgerModel.
Local Open Scope Z_scope.

Definition ErrUnreconciledLegacyState : error :=
  unavailable "ledger_not_ready" "ledger migration or exposure resolution required".
Definition ErrInsufficientCash : error := conflict "insufficient_cash" "insufficient cash" None.
Definition ErrInsufficientAsset : error :=
  conflict "insufficient_asset" "insufficient position quantity" None.
Definition ErrIdempotencyConflict : error :=
  conflict "idempotency_conflict" "idempotency key reused with different payload" None.
Definition ErrProjectionUnavailable : error :=
  unavailable "projection_unavailable" "exact ledger projection unavailable".
Definition ErrExchangeExecutionFenced : error :=
  unavailable "exchange_execution_fenced"
    "exchange execution is disabled until durable Stage 02 broker recovery is available".
Definition ErrHistoricalReconciliationUnsupported : error :=
  validation "historical_reconciliation_unsupported"
    "historical as_of reconciliation is not supported by current projections".

(** A value of [map[string]interface{}]: a string, or another value by its
    JSON text. *)
Inductive MetaValue : Type := MetaString (s : string) | MetaOther (json : string).
Abbreviation Metadata := (gmap string MetaValue) (only parsing).

Record FillCommand : Type := mkFillCommand {
  C_IdempotencyKey : string; C_AccountID : string; C_Symbol : string; C_Side : string;
  C_Quantity : Decimal; C_RequestedPrice : Decimal; C_FillPrice : Decimal; C_Fee : Decimal;
  C_FeeType : string; C_Currency : string; C_ExecutionMode : string; C_ProviderFillID : string;
  C_ProviderOrderID : string; C_VenueID : string; C_FeeCurrency : string; C_OrderStatus : string;
  C_ExistingOrderID : Z; C_ClientOrderID : string; C_OccurredAt : Time; C_Actor : string;
  C_Reason : string; C_StrategyVersion : string; C_CostModelVersion : string;
  C_Metadata : option Metadata; C_EntrySource : string; C_DecisionTimeframe : string;
  C_labels : Labels; C_protection : Protection }.

Record FillResult : Type := mkFillResult {
  AlreadyApplied : bool; R_Wallet : Wallet; R_Position : Position; R_Order : Order; R_Fill : Fill }.

(** The assignments [command.X = ...] of [ApplyFill] and its callers. *)
Definition set_ids (c : FillCommand) (account venue feeCurrency cost : string) (order : Z) (at_ : Time) :
    FillCommand :=
  mkFillCommand (C_IdempotencyKey c) account (C_Symbol c) (C_Side c) (C_Quantity c)
    (C_RequestedPrice c) (C_FillPrice c) (C_Fee c) (C_FeeType c) (C_Currency c) (C_ExecutionMode c)
    (C_ProviderFillID c) (C_ProviderOrderID c) venue feeCurrency (C_OrderStatus c) order
    (C_ClientOrderID c) at_ (C_Actor c) (C_Reason c) (C_StrategyVersion c) cost (C_Metadata c)
    (C_EntrySource c) (C_DecisionTimeframe c) (C_labels c) (C_protection c).

Definition stringPtrOrNil (value : string) : option string :=
  if TrimSpace value =s "" then None else Some value.
Definition nonempty (value fallback : string) : string :=
  if TrimSpace value =s "" then fallback else value.

Definition validateFill (command : FillCommand) : res unit :=
  if (TrimSpace (C_IdempotencyKey command) =s "") || (TrimSpace (C_Symbol command) =s "")
  then Err (validation "invalid_fill" "idempotency key and symbol are required") else
  if (C_Side command <>s "buy") && (C_Side command <>s "sell")
  then Err (validation "invalid_side" "side must be buy or sell") else
  if (Sign (C_Quantity command) <=? 0) || (Sign (C_RequestedPrice command) <=? 0) ||
     (Sign (C_FillPrice command) <=? 0) || (Sign (C_Fee command) <? 0)
  then Err (validation "invalid_amount" "quantity/prices must be positive and fee non-negative") else
  if (C_Currency command =s "") || (C_ExecutionMode command =s "") || (C_FeeType command =s "")
  then Err (validation "invalid_dimensions" "currency, execution mode, and fee type are required") else
  if C_CostModelVersion command =s ""
  then Err (validation "invalid_cost_model_version" "cost model version is required") else Ok tt.

(** [if OccurredAt.IsZero() { OccurredAt = now() }; recordedAt := now()] on the
    clock readings of the call. *)
Definition stampTimes (now : nat -> Time) (occurredAt : Time) : res (Time * Time) :=
  let '(at_, recordedAt) := if IsZero occurredAt then (now 0%nat, now 1%nat) else (occurredAt, now 0%nat) in
  if After at_ recordedAt
  then Err (validation "future_occurred_at" "occurred_at must be no later than recorded_at")
  else Ok (at_, recordedAt).

(** The checks of [ApplyFill] before it reads the clock, with its defaults. *)
Definition checkFill (command0 : FillCommand) : res FillCommand :=
  let* _ := requirePrimaryAccount (C_AccountID command0) in
  let command := set_ids command0 (C_AccountID command0) (C_VenueID command0) (C_FeeCurrency command0)
    (orDefault (C_CostModelVersion command0) "legacy-cost-v1") (C_ExistingOrderID command0)
    (C_OccurredAt command0) in
  let* _ := validateFill command in
  let command := set_ids command (orDefault (C_AccountID command) DefaultAccountID)
    (orDefault (C_VenueID command) "internal") (orDefault (C_FeeCurrency command) (C_Currency command))
    (C_CostModelVersion command) (C_ExistingOrderID command) (C_OccurredAt command) in
  let* _ := failIf (C_FeeCurrency command <>s C_Currency command)
    (validation "unsupported_fee_asset" "fees must use the settlement currency") in
  let* _ := failIf ((C_ExecutionMode command =s "exchange") &&
      ((C_VenueID command =s "internal") || (C_ProviderFillID command =s "") ||
       (C_ProviderOrderID command =s "")))
    (validation "provider_identity_required"
       "exchange fills require venue, provider order id, and genuine provider fill id") in
  Ok command.

(** The part of [ApplyFill] before the payload digest. *)
Definition prepareFill (now : nat -> Time) (command0 : FillCommand) : res (FillCommand * Time) :=
  let* command := checkFill command0 in
  let* (at_, recordedAt) := stampTimes now (C_OccurredAt command) in
  Ok (set_ids command (C_AccountID command) (C_VenueID command) (C_FeeCurrency command)
        (C_CostModelVersion command) (C_ExistingOrderID command) at_, recordedAt).

(** ** The position projection *)
Definition exactOr0 (d : option Decimal) : Decimal := default Zero d.
Definition has_projection (p : Position) : bool :=
  match AmountExact (Ps_exact p), CostBasisExact (Ps_exact p) with Some _, Some _ => true | _, _ => false end.
Definition is_open (p : Position) : bool := Status (Ps_cycle p) =s "open".

Definition newPosition (account symbol : string) (now : Time) : Position :=
  mkPosition 0 symbol account (mkExact None None None None)
    (mkFloats fzero fzero None None None None fzero fzero)
    (mkCycle "open" now None None false) (mkEntry "" "" "" "" None)
    (mkLabels "" "" "" "" None None "") (mkProtection None None None None None).
(** A new cycle on a closed position keeps its realised profit and fees. *)
Definition reopened (p : Position) (now : Time) : Position :=
  mkPosition (Ps_ID p) (Ps_Symbol p) (Ps_AccountID p)
    (mkExact None None (RealizedPnLExact (Ps_exact p)) (FeesExact (Ps_exact p))) (Ps_floats p)
    (mkCycle "open" now None None (ExitPending (Ps_cycle p))) (Ps_entry p) (Ps_labels p) (Ps_protection p).

(** The position a buy adds to, and whether it opens a cycle. *)
Definition positionForBuy (command : FillCommand) (row : option Position) : res (Position * bool) :=
  match row with
  | None => Ok (newPosition (C_AccountID command) (C_Symbol command) (C_OccurredAt command), true)
  | Some p =>
      if negb (is_open p) then
        if negb (has_projection p) then Err ErrProjectionUnavailable
        else Ok (reopened p (C_OccurredAt command), true)
      else if negb (has_projection p) then Err ErrProjectionUnavailable else Ok (p, false)
  end.

Definition bought (command : FillCommand) (position : Position) (openingCycle : bool)
    (gross : Decimal) : Position :=
  let x := Ps_exact position in let c := Ps_cycle position in let f := Ps_floats position in
  let now := C_OccurredAt command in
  let newQuantity := Add (exactOr0 (AmountExact x)) (C_Quantity command) in
  let newBasis := Add (exactOr0 (CostBasisExact x)) gross in
  let average := Float64 (ignore_err (Div newBasis newQuantity)) in
  let mark := Float64 (C_FillPrice command) in
  let labels := C_labels command in
  mkPosition (Ps_ID position) (Ps_Symbol position) (Ps_AccountID position)
    (mkExact (Some newQuantity) (Some newBasis)
       (Some (Sub (exactOr0 (RealizedPnLExact x)) (C_Fee command)))
       (Some (Add (exactOr0 (FeesExact x)) (C_Fee command))))
    (mkFloats (Float64 newQuantity) average (Some average) (Some mark) (Some mark) (Some now) (Pnl f)
       (PnlPercent f))
    (mkCycle (Status c) (OpenedAt c) (ClosedAt c) (CloseReason c) false)
    (mkEntry (C_ExecutionMode command) (C_EntrySource command) (C_DecisionTimeframe command)
       (if openingCycle
        then nonempty (C_StrategyVersion command) (nonempty (ModelVersion labels) "manual-execution")
        else StrategyVersion (Ps_entry position))
       (ClientPositionID (Ps_entry position)))
    labels (C_protection command).

Definition hundred : Decimal := dec (100 * factor).
Definition ten_thousand : Decimal := dec (10000 * factor).
Definition one : Decimal := dec factor.
Example constants : MustParse "100" = Ok hundred /\ MustParse "10000" = Ok ten_thousand /\
  MustParse "1" = Ok one.
Proof. repeat split. Qed.

(** The position after a sell, with the realised profit before the fee and
    the released basis. *)
Definition sold (command : FillCommand) (position : Position) (oldQuantity oldBasis gross : Decimal) :
    Position * Decimal * Decimal :=
  let x := Ps_exact position in let c := Ps_cycle position in let f := Ps_floats position in
  let now := C_OccurredAt command in
  let releasedBasis := ignore_err (MulDiv oldBasis (C_Quantity command) oldQuantity) in
  let realized := Sub gross releasedBasis in
  let newQuantity := Sub oldQuantity (C_Quantity command) in
  let newBasis := Sub oldBasis releasedBasis in
  let netRealized := Sub realized (C_Fee command) in
  let pnl := Add (exactOr0 (RealizedPnLExact x)) netRealized in
  let pnlPercent :=
    if 0 <? Sign releasedBasis then Float64 (Mul (ignore_err (Div netRealized releasedBasis)) hundred)
    else PnlPercent f in
  let mark := Float64 (C_FillPrice command) in
  let closes := Sign newQuantity =? 0 in
  (mkPosition (Ps_ID position) (Ps_Symbol position) (Ps_AccountID position)
     (mkExact (Some newQuantity) (Some newBasis) (Some pnl)
        (Some (Add (exactOr0 (FeesExact x)) (C_Fee command))))
     (mkFloats (Float64 newQuantity)
        (if closes then AvgPrice f else Float64 (ignore_err (Div newBasis newQuantity))) (EntryPrice f)
        (Some mark) (Some mark) (Some now) (Float64 pnl) pnlPercent)
     (if closes then mkCycle "closed" (OpenedAt c) (Some now) (stringPtrOrNil (C_Reason command)) false
      else mkCycle (Status c) (OpenedAt c) (ClosedAt c) (CloseReason c) false)
     (Ps_entry position) (Ps_labels position) (Ps_protection position), realized, releasedBasis).

(** Returns the position, the realised profit and the basis delta. *)
Definition applyPosition (command : FillCommand) (gross : Decimal) : Tx (Position * Decimal * Decimal) :=
  let! row := or_not_found (FirstPositionOf (C_AccountID command) (C_Symbol command)) in
  if C_Side command =s "buy" then
    let! (position, openingCycle) := slift (positionForBuy command row) in
    let position := bought command position openingCycle gross in
    if Ps_ID position =? 0 then
      let! created := CreatePosition position in sret (created, Zero, gross)
    else
      let! _ := SavePosition position in sret (position, Zero, gross)
  else
    match row with
    | None => slift (Err ErrProjectionUnavailable)
    | Some position =>
        if negb (is_open position) then slift (Err ErrProjectionUnavailable) else
        match AmountExact (Ps_exact position), CostBasisExact (Ps_exact position) with
        | Some oldQuantity, Some oldBasis =>
            if 0 <? Cmp (C_Quantity command) oldQuantity then slift (Err ErrInsufficientAsset) else
            let '(after, realized, releasedBasis) := sold command position oldQuantity oldBasis gross in
            let! _ := SavePosition after in sret (after, realized, Neg releasedBasis)
        | _, _ => slift (Err ErrProjectionUnavailable)
        end
    end.

(** [CostedPaperFill]: adverse slippage and the fee on the slipped gross. *)
Definition CostedPaperFill (side : string) (quantity requested : Decimal) (feeBPS slippageBPS : Z) :
    res (Decimal * Decimal) :=
  if (feeBPS <? 0) || (slippageBPS <? 0)
  then Err (validation "invalid_fee_bps" "basis points must be non-negative") else
  let* slippage := MustParse (Itoa slippageBPS) in
  let slip := ignore_err (Div slippage ten_thousand) in
  let multiplier := if side =s "sell" then Sub one slip else Add one slip in
  let fill := Mul requested multiplier in
  let* feePoints := MustParse (Itoa feeBPS) in
  let feeRate := ignore_err (Div feePoints ten_thousand) in
  let fee := Mul (Mul quantity fill) feeRate in
  Ok (fill, fee).

(** ** The order projection *)
Definition newOrder (command : FillCommand) : Order :=
  mkOrder 0 (C_Side command) (C_AccountID command) (C_Symbol command)
    (mkOrderExact None None None None None None)
    (mkOrderFloats fzero fzero fzero fzero None None None None) (Some (C_IdempotencyKey command)) None
    (if C_ClientOrderID command <>s "" then stringPtrOrNil (C_ClientOrderID command) else None) "" ""
    (mkLabels "" "" "" "" None None "") "" None (mkOrderTimes None None (C_OccurredAt command)).

(** The totals of the order with this fill. *)
Definition orderTotals (order : Order) (command : FillCommand) (gross : Decimal) :
    Decimal * Decimal * Decimal :=
  let x := O_exact order in
  match AmountCryptoExact x, AmountUsdtExact x, FeeExact x with
  | Some quantity, Some usdt, Some fee =>
      (Add quantity (C_Quantity command), Add usdt gross, Add fee (C_Fee command))
  | _, _, _ => (C_Quantity command, gross, C_Fee command)
  end.

Definition filledOrder (stage08 : string) (order : Order) (command : FillCommand) (gross : Decimal) :
    res Order :=
  let x := O_exact order in
  let '(totalQuantity, totalGross, totalFee) := orderTotals order command gross in
  let averageFill := ignore_err (Div totalGross totalQuantity) in
  let requested := Float64 (C_RequestedPrice command) in let fill := Float64 averageFill in
  let qty := Float64 totalQuantity in let fee := Float64 totalFee in
  let orderStatus := orDefault (C_OrderStatus command) "filled" in
  let requestedQuantity :=
    match RequestedQuantityExact x with
    | None => if C_OrderStatus command =s "filled" then Some totalQuantity else None
    | Some q => Some q
    end in
  let* remaining :=
    match requestedQuantity with
    | None => Ok (RemainingQuantityExact x)
    | Some q =>
        let remaining := Sub q totalQuantity in
        if Sign remaining <? 0
        then Err (conflict "order_overfill" "executed quantity exceeds requested quantity" None)
        else Ok (Some remaining)
    end in
  let now := C_OccurredAt command in
  Ok (mkOrder (O_ID order) (C_Side command) (O_AccountID order) (C_Symbol command)
        (mkOrderExact (Some totalQuantity) requestedQuantity (Some totalQuantity) remaining
           (Some totalGross) (Some totalFee))
        (mkOrderFloats qty (Float64 totalGross) fill fee (Some requested) (Some fill) (Some qty) (Some fee))
        (O_LedgerBatchID order)
        (if C_ProviderOrderID command <>s "" then Some (C_ProviderOrderID command)
         else O_ExchangeOrderID order)
        (O_ClientOrderID order) orderStatus (C_ExecutionMode command) (C_labels command) stage08
        (stringPtrOrNil (C_Reason command))
        (mkOrderTimes (Some now) (if orderStatus =s "filled" then Some now else None)
           (ExecutedAt (O_times order)))).

Definition upsertFilledOrder (stage08 : string) (command : FillCommand) (gross : Decimal) : Tx Order :=
  let! order :=
    if 0 <? C_ExistingOrderID command then
      let! order := FirstOrder (C_ExistingOrderID command) in
      if (O_AccountID order <>s C_AccountID command) || (O_Symbol order <>s C_Symbol command) ||
         (O_OrderType order <>s C_Side command)
      then slift (Err (conflict "order_fill_mismatch" "fill does not match reserved order dimensions" None))
      else sret order
    else sret (newOrder command) in
  let! order := slift (filledOrder stage08 order command gross) in
  if O_ID order =? 0 then CreateOrder order else let! _ := SaveOrder order in sret order.

(** ** Batches *)

(** Whether the command has been applied already. *)
Definition beginBatch (id_ account payloadHash : string) (at_ : Time) : Tx bool :=
  let! existing := or_not_found (FirstBatch id_) in
  match existing with
  | Some row =>
      if LB_PayloadHash row <>s payloadHash then slift (Err ErrIdempotencyConflict) else sret true
  | None => let! _ := CreateBatch id_ (mkBatchRow account payloadHash at_) in sret false
  end.

Definition requireReady (account : string) : Tx unit := fun db =>
  match FirstState account db with
  | (Ok state, _) => (if S_Status state =s "ready" then Ok tt else Err ErrUnreconciledLegacyState, db)
  | _ => (Err ErrUnreconciledLegacyState, db)
  end.

Definition loadFillResult (batchID : string) : Tx FillResult :=
  let! fill := FirstFillOfBatch batchID in
  let! order := FirstOrder (F_OrderID fill) in
  let! position := FirstPosition (F_PositionID fill) in
  let! wallet := FirstWallet in
  sret (mkFillResult false wallet position order fill).

Definition set_balance (wallet : Wallet) (balance : Decimal) : Wallet :=
  mkWallet (W_ID wallet) (Float64 balance) (Some balance) (W_Currency wallet) (W_AccountID wallet).

Section Service.
(** [SetRole] is [SET LOCAL ROLE]; [AfterWrite] the rollback seam; [guards] the
    deferred commit guards. *)
Variables (guards : DB -> DB -> res unit) (SetRole : res unit) (AfterWrite : string -> res unit).
Variables (now : nat -> Time) (sha256hex : string -> string).
Variables (MarshalFill : FillCommand -> res string) (MarshalMetadata : Metadata -> res string)
  (Stage08 : FillCommand -> string).

Definition allowLedgerProjectionWrites : Tx unit := slift SetRole.
(** Transactions are steps of the model: the advisory lock has no effect. *)
Definition lockAccount (account : string) : Tx unit := sret tt.
Definition fail (stage : string) : Tx unit := slift (AfterWrite stage).
Definition stableID (kind key : string) : string :=
  kind +:+ "_" +:+ String.substring 0 32 (sha256hex (kind +:+ ":" +:+ key)).

(** The digest leaves the time out, so a retry at another time agrees. *)
Definition hashFill (command : FillCommand) : res (string * string) :=
  let* payload := MarshalFill (set_ids command (C_AccountID command) (C_VenueID command)
    (C_FeeCurrency command) (C_CostModelVersion command) (C_ExistingOrderID command) 0) in
  let* metadata := match C_Metadata command with Some m => MarshalMetadata m | None => Ok "{}" end in
  Ok (sha256hex payload, metadata).

Definition CheckReady (account : string) : Tx unit :=
  let! _ := slift (requirePrimaryAccount account) in
  let account := orDefault account DefaultAccountID in
  transaction guards (
    let! _ := (fun db => match allowLedgerProjectionWrites db with
                         | (Ok _, db) => (Ok tt, db) | (_, db) => (Err ErrUnreconciledLegacyState, db) end) in
    let! _ := requireReady account in
    let! wallet := FirstWalletOf account in
    match W_BalanceExact wallet with
    | None => slift (Err ErrProjectionUnavailable)
    | Some _ => sret tt
    end).

(** *** Fills *)
Definition fillRow (command : FillCommand) (recordedAt : Time) (order : Order) (position : Position)
    (gross : Decimal) : Fill :=
  mkFill (stableID "fill" (C_IdempotencyKey command)) (C_IdempotencyKey command) (C_AccountID command)
    (O_ID order) (C_VenueID command) (stringPtrOrNil (C_ProviderFillID command)) (Ps_ID position)
    (C_Symbol command) (C_Side command) (C_Quantity command) (C_RequestedPrice command)
    (C_FillPrice command) gross (C_Fee command) (C_FeeType command) (C_FeeCurrency command)
    (C_ExecutionMode command) (C_StrategyVersion command) (PolicyVersion (C_labels command))
    (C_CostModelVersion command) (Stage08 command) (C_OccurredAt command) recordedAt.

Definition fillEvent (command : FillCommand) (recordedAt : Time) (metadataJSON : string) (order : Order)
    (position : Position) (id_ key : string) (sequence : Z) (eventType : string)
    (cashDelta assetDelta realized basisDelta feeDelta : Decimal) : LedgerEvent :=
  mkEvent id_ (C_IdempotencyKey command) sequence key eventType (C_AccountID command)
    (C_VenueID command) (C_Currency command) (C_Symbol command) cashDelta assetDelta
    (Some (O_ID order)) (Some (stableID "fill" (C_IdempotencyKey command))) (Some (Ps_ID position))
    (C_ExecutionMode command) (C_StrategyVersion command) (PolicyVersion (C_labels command))
    (nonempty (C_Actor command) "execution_adapter") (C_Reason command) None realized basisDelta
    feeDelta metadataJSON (Stage08 command) (C_OccurredAt command) recordedAt.

Definition fillEvents (command : FillCommand) (recordedAt : Time) (metadataJSON : string) (order : Order)
    (position : Position) (cashDelta assetDelta realized basisDelta : Decimal) : list LedgerEvent :=
  let key := C_IdempotencyKey command in
  let event := fillEvent command recordedAt metadataJSON order position in
  event (stableID "event-fill" key) (key +:+ ":fill") 1
    (if C_Side command =s "sell" then EventSellFill else EventBuyFill)
    cashDelta assetDelta realized basisDelta Zero ::
  (if 0 <? Sign (C_Fee command) then
     [event (stableID "event-fee" key) (key +:+ ":fee") 2
        (if (C_FeeType command =s EventExchangeFee) || (C_ExecutionMode command =s "exchange")
         then EventExchangeFee else EventTradingFee)
        (Neg (C_Fee command)) Zero (Neg (C_Fee command)) Zero (C_Fee command)]
   else []).

Definition applyNewFill (command : FillCommand) (recordedAt : Time) (metadataJSON : string) :
    Tx FillResult :=
  let! _ := requireReady (C_AccountID command) in
  let! wallet := FirstWallet in
  match W_BalanceExact wallet with
  | None => slift (Err ErrProjectionUnavailable)
  | Some balance =>
      if negb (EqualFold (W_Currency wallet) (C_Currency command))
      then slift (Err (validation "unsupported_currency"
                         "fill currency %s does not match wallet currency %s")) else
      let gross := Mul (C_Quantity command) (C_FillPrice command) in
      let buy := C_Side command =s "buy" in
      let cashDelta := if buy then Neg gross else gross in
      let assetDelta := if buy then C_Quantity command else Neg (C_Quantity command) in
      let newCash := Sub (Add balance cashDelta) (C_Fee command) in
      if Sign newCash <? 0 then slift (Err ErrInsufficientCash) else
      let! (position, realized, basisDelta) := applyPosition command gross in
      let wallet := set_balance wallet newCash in
      let! _ := SaveWallet wallet in
      let! _ := fail "projection" in
      let! order := upsertFilledOrder (Stage08 command) command gross in
      let! _ := fail "order" in
      let fill := fillRow command recordedAt order position gross in
      let! _ := CreateFill fill in
      let! _ := fail "fill" in
      let! _ := CreateEvents (fillEvents command recordedAt metadataJSON order position cashDelta
                                assetDelta realized basisDelta) in
      let! _ := fail "ledger" in
      sret (mkFillResult false wallet position order fill)
  end.

Definition fillBody (command : FillCommand) (recordedAt : Time) (payloadHash metadataJSON : string) :
    Tx FillResult :=
  let! _ := allowLedgerProjectionWrites in
  let! _ := lockAccount (C_AccountID command) in
  let! already := beginBatch (C_IdempotencyKey command) (C_AccountID command) payloadHash
                    (C_OccurredAt command) in
  if already then
    let! loaded := loadFillResult (C_IdempotencyKey command) in
    sret (mkFillResult true (R_Wallet loaded) (R_Position loaded) (R_Order loaded) (R_Fill loaded))
  else applyNewFill command recordedAt metadataJSON.

(** [txn] is how the body runs: in a transaction of its own, or, for a service
    on the caller's transaction, directly in it. *)
Definition ApplyFillWith (txn : Tx FillResult -> Tx FillResult) (command0 : FillCommand) : Tx FillResult :=
  let! (command, recordedAt) := slift (prepareFill now command0) in
  let! (payloadHash, metadataJSON) := slift (hashFill command) in
  normalized (txn (fillBody command recordedAt payloadHash metadataJSON)).
Definition ApplyFill : FillCommand -> Tx FillResult := ApplyFillWith (transaction guards).
End Service.
