(* ===== verification/LedgerAdmin.v ===== *)
(** * LedgerAdmin: [internal/ledger/adjustment.go], [correction.go], [backfill.go]

    The administrative commands: cash adjustments, reversals of cash events,
    asset corrections during migration, and the opening balance of an account
    that existed before the ledger. *)
From Stdlib Require Import Ascii.
From stdpp Require Import base numbers strings gmap list.
From S2P Require Import Prelude GoStrings GoFloat Accounting Snapshots LedgerModel Ledger.
Local Open Scope Z_scope.

Record AdjustmentCommand : Type := mkAdjustment {
  A_EventID : string; A_IdempotencyKey : string; A_AccountID : string; A_Type : string;
  A_Amount : Decimal; A_Currency : string; A_Actor : string; A_Reason : string; A_OccurredAt : Time }.
Record AdjustmentResult : Type := mkAdjustmentResult {
  AR_AlreadyApplied : bool; AR_Wallet : Wallet; AR_Event : LedgerEvent }.
Record ReversalCommand : Type := mkReversal {
  V_IdempotencyKey : string; V_OriginalEventID : string; V_Actor : string; V_Reason : string;
  V_OccurredAt : Time }.
Record AssetCorrectionCommand : Type := mkCorrection {
  K_IdempotencyKey : string; K_AccountID : string; K_Symbol : string; K_Quantity : Decimal;
  K_CostBasis : Decimal; K_Currency : string; K_Actor : string; K_Reason : string;
  K_Evidence : option Metadata; K_OccurredAt : Time }.

Definition set_adjustment (c : AdjustmentCommand) (account : string) (at_ : Time) : AdjustmentCommand :=
  mkAdjustment (A_EventID c) (A_IdempotencyKey c) account (A_Type c) (A_Amount c) (A_Currency c)
    (A_Actor c) (A_Reason c) at_.
Definition set_correction (c : AssetCorrectionCommand) (account : string) (at_ : Time) :
    AssetCorrectionCommand :=
  mkCorrection (K_IdempotencyKey c) account (K_Symbol c) (K_Quantity c) (K_CostBasis c) (K_Currency c)
    (K_Actor c) (K_Reason c) (K_Evidence c) at_.
Definition set_reversal (c : ReversalCommand) (at_ : Time) : ReversalCommand :=
  mkReversal (V_IdempotencyKey c) (V_OriginalEventID c) (V_Actor c) (V_Reason c) at_.

(** The part of [ApplyAdjustment] before the payload digest. *)
Definition prepareAdjustment (now : nat -> Time) (command : AdjustmentCommand) :
    res (AdjustmentCommand * Time) :=
  let* _ := requirePrimaryAccount (A_AccountID command) in
  let* (at_, recordedAt) := stampTimes now (A_OccurredAt command) in
  let type_ := A_Type command in
  let* _ := failIf ((A_IdempotencyKey command =s "") || (A_Currency command =s "") ||
      (A_Actor command =s "") || (TrimSpace (A_Reason command) =s "") || (Sign (A_Amount command) =? 0))
    (validation "invalid_adjustment"
       "idempotency key, non-zero amount, currency, actor, and reason are required") in
  let* _ := failIf ((type_ <>s EventCapitalDeposit) && (type_ <>s EventCapitalWithdrawal) &&
      (type_ <>s EventFundingInterest) && (type_ <>s EventAdminCorrection))
    (validation "unsupported_adjustment_type" "unsupported adjustment type %q") in
  let* _ := failIf (((type_ =s EventCapitalDeposit) || (type_ =s EventCapitalWithdrawal)) &&
      (Sign (A_Amount command) <? 0))
    (validation "invalid_adjustment_amount" "capital deposit/withdrawal amount must be positive") in
  Ok (set_adjustment command (orDefault (A_AccountID command) DefaultAccountID) at_, recordedAt).

Definition adjustmentDelta (command : AdjustmentCommand) : Decimal :=
  if A_Type command =s EventCapitalWithdrawal then Neg (A_Amount command) else A_Amount command.

Definition prepareReversal (now : nat -> Time) (command : ReversalCommand) : res (ReversalCommand * Time) :=
  let* _ := failIf ((V_IdempotencyKey command =s "") || (V_OriginalEventID command =s "") ||
      (V_Actor command =s "") || (V_Reason command =s ""))
    (validation "invalid_reversal" "all reversal fields are required") in
  let* (at_, recordedAt) := stampTimes now (V_OccurredAt command) in
  Ok (set_reversal command at_, recordedAt).

Definition prepareCorrection (now : nat -> Time) (command : AssetCorrectionCommand) :
    res (AssetCorrectionCommand * Time) :=
  let* _ := requirePrimaryAccount (K_AccountID command) in
  let* _ := failIf ((K_IdempotencyKey command =s "") || (K_Symbol command =s "") ||
      (Sign (K_Quantity command) <=? 0) || (Sign (K_CostBasis command) <? 0) ||
      (K_Actor command =s "") || (K_Reason command =s ""))
    (validation "invalid_asset_correction"
       "idempotency key, symbol, positive quantity, non-negative basis, actor and reason are required") in
  let* (at_, recordedAt) := stampTimes now (K_OccurredAt command) in
  Ok (set_correction command (orDefault (K_AccountID command) DefaultAccountID) at_, recordedAt).

(** [original.AssetDelta] taken back from a position. *)
Definition reversedPosition (original : LedgerEvent) (at_ : Time) (position : Position)
    (amount costBasis : Decimal) : res Position :=
  let quantity := Sub amount (E_AssetDelta original) in
  let basis := Sub costBasis (E_CostBasisDelta original) in
  if (Sign quantity <? 0) || (Sign basis <? 0)
  then Err (conflict "reversal_projection_conflict"
              "correction reversal would make projection negative" None) else
  let x := Ps_exact position in let f := Ps_floats position in let c := Ps_cycle position in
  let closes := Sign quantity =? 0 in
  Ok (mkPosition (Ps_ID position) (Ps_Symbol position) (Ps_AccountID position)
    (mkExact (Some quantity) (Some basis) (RealizedPnLExact x) (FeesExact x))
    (mkFloats (Float64 quantity)
       (if closes then AvgPrice f else Float64 (ignore_err (Div basis quantity))) (EntryPrice f)
       (CurrentPrice f) (LastMarkPrice f) (LastMarkAt f) (Pnl f) (PnlPercent f))
    (if closes then mkCycle "closed" (OpenedAt c) (Some at_) (stringPtrOrNil "administrative_reversal")
                            (ExitPending c) else c)
    (Ps_entry position) (Ps_labels position) (Ps_protection position)).

(** A legacy position with its reviewed exact exposure. *)
Definition correctedPosition (command : AssetCorrectionCommand) (position : Position) : Position :=
  let f := Ps_floats position in
  mkPosition (Ps_ID position) (Ps_Symbol position) (Ps_AccountID position)
    (mkExact (Some (K_Quantity command)) (Some (K_CostBasis command)) (Some Zero) (Some Zero))
    (mkFloats (Amount f) (Float64 (ignore_err (Div (K_CostBasis command) (K_Quantity command))))
       (EntryPrice f) (CurrentPrice f) (LastMarkPrice f) (LastMarkAt f) (Pnl f) (PnlPercent f))
    (Ps_cycle position) (Ps_entry position) (Ps_labels position) (Ps_protection position).

Definition quoted (s : string) : string := String (chr 34) (s +:+ String (chr 34) "").
Definition is_nil {A} (o : option A) : bool := match o with None => true | Some _ => false end.

Section Admin.
Variables (guards : DB -> DB -> res unit) (SetRole : res unit) (AfterWrite : string -> res unit).
Variables (now : nat -> Time) (sha256hex : string -> string).
Variables (MarshalAdjustment : AdjustmentCommand -> res string)
  (MarshalReversal : ReversalCommand -> res string)
  (MarshalCorrection : AssetCorrectionCommand -> res string)
  (MarshalEvidence : option Metadata -> res string).

Definition hashOf (payload : res string) : res string := let* text := payload in Ok (sha256hex text).

Definition adjustmentEvent (command : AdjustmentCommand) (recordedAt : Time) (delta : Decimal) : LedgerEvent :=
  let key := A_IdempotencyKey command in
  mkEvent (orDefault (A_EventID command) (stableID sha256hex "event-adjustment" key)) key 1
    (key +:+ ":adjustment") (A_Type command) (A_AccountID command) "internal" (A_Currency command) ""
    delta Zero None None None "administrative" "" "" (A_Actor command) (A_Reason command) None Zero
    (mkDecimal None) (mkDecimal None) "{}" "" (A_OccurredAt command) recordedAt.

Definition adjustmentBody (command : AdjustmentCommand) (recordedAt : Time) (payloadHash : string) :
    Tx AdjustmentResult :=
  let! _ := allowLedgerProjectionWrites SetRole in
  let! _ := lockAccount (A_AccountID command) in
  let! already := beginBatch (A_IdempotencyKey command) (A_AccountID command) payloadHash
                    (A_OccurredAt command) in
  if already then
    let! event := FirstEventOfBatch (A_IdempotencyKey command) in
    let! wallet := FirstWallet in
    sret (mkAdjustmentResult true wallet event)
  else
    let! _ := requireReady (A_AccountID command) in
    let! wallet := FirstWallet in
    match W_BalanceExact wallet with
    | None => slift (Err ErrProjectionUnavailable)
    | Some old =>
        if negb (EqualFold (W_Currency wallet) (A_Currency command))
        then slift (Err (validation "unsupported_currency"
                           "adjustment currency %s does not match wallet currency %s")) else
        let delta := adjustmentDelta command in
        let balance := Add old delta in
        if Sign balance <? 0 then slift (Err ErrInsufficientCash) else
        let wallet := set_balance wallet balance in
        let! _ := SaveWallet wallet in
        let! event := CreateEvent (adjustmentEvent command recordedAt delta) in
        let! _ := fail AfterWrite "ledger" in
        sret (mkAdjustmentResult false wallet event)
    end.

Definition ApplyAdjustment (command0 : AdjustmentCommand) : Tx AdjustmentResult :=
  let! (command, recordedAt) := slift (prepareAdjustment now command0) in
  let! payloadHash := slift (hashOf (MarshalAdjustment (set_adjustment command (A_AccountID command) 0))) in
  normalized (transaction guards (adjustmentBody command recordedAt payloadHash)).

(** *** Reversals *)
Definition reversalEvent (command : ReversalCommand) (recordedAt : Time) (original : LedgerEvent) : LedgerEvent :=
  let key := V_IdempotencyKey command in
  mkEvent (stableID sha256hex "event-reversal" key) key 1 (key +:+ ":reversal") EventReversal
    (E_AccountID original) (E_VenueID original) (E_Currency original) (E_Symbol original)
    (Neg (E_CashDelta original)) (Neg (E_AssetDelta original)) None None (E_PositionID original)
    "administrative" "" "" (V_Actor command) (V_Reason command) (Some (E_ID original))
    (Neg (E_RealizedPnL original)) (Neg (E_CostBasisDelta original)) (Neg (E_FeeDelta original)) "{}" ""
    (V_OccurredAt command) recordedAt.

Definition reverseAsset (command : ReversalCommand) (original : LedgerEvent) : Tx unit :=
  if Sign (E_AssetDelta original) =? 0 then sret tt else
  let! position := FirstPositionOf (E_AccountID original) (E_Symbol original) in
  match AmountExact (Ps_exact position), CostBasisExact (Ps_exact position) with
  | Some amount, Some basis =>
      let! after := slift (reversedPosition original (V_OccurredAt command) position amount basis) in
      SavePosition after
  | _, _ => slift (Err ErrProjectionUnavailable)
  end.

Definition reversalBody (command : ReversalCommand) (recordedAt : Time) : Tx LedgerEvent :=
  let! _ := allowLedgerProjectionWrites SetRole in
  let! original := FirstEvent (V_OriginalEventID command) in
  if bool_decide (is_Some (E_FillID original)) ||
     (negb (Sign (E_AssetDelta original) =? 0) && (E_EventType original <>s EventAdminCorrection))
  then slift (Err (validation "unsupported_reversal" "fill reversals require a compensating fill")) else
  let! _ := lockAccount (E_AccountID original) in
  let hash := match hashOf (MarshalReversal (set_reversal command 0)) with Ok h => h | _ => "" end in
  let! already := beginBatch (V_IdempotencyKey command) (E_AccountID original) hash
                    (V_OccurredAt command) in
  if already then FirstEventOfBatch (V_IdempotencyKey command) else
  let! _ := requireReady (E_AccountID original) in
  let! wallet := FirstWallet in
  match W_BalanceExact wallet with
  | None => slift (Err ErrProjectionUnavailable)
  | Some old =>
      let balance := Sub old (E_CashDelta original) in
      if Sign balance <? 0 then slift (Err ErrInsufficientCash) else
      let! _ := SaveWallet (set_balance wallet balance) in
      let! _ := reverseAsset command original in
      CreateEvent (reversalEvent command recordedAt original)
  end.

Definition ReverseCashEvent (command0 : ReversalCommand) : Tx LedgerEvent :=
  let! (command, recordedAt) := slift (prepareReversal now command0) in
  normalized (transaction guards (reversalBody command recordedAt)).

(** *** Asset corrections *)
Definition correctionEvent (command : AssetCorrectionCommand) (recordedAt : Time) (position : Position)
    (metadata : string) : LedgerEvent :=
  let key := K_IdempotencyKey command in
  mkEvent (stableID sha256hex "event-asset-correction" key) key 1 (key +:+ ":asset") EventAdminCorrection
    (K_AccountID command) "internal" (K_Currency command) (K_Symbol command) Zero (K_Quantity command)
    None None (Some (Ps_ID position)) "administrative" "" "" (K_Actor command) (K_Reason command) None
    Zero (K_CostBasis command) Zero metadata "" (K_OccurredAt command) recordedAt.

(** The open positions that still have no exact projection. *)
Definition unresolved_positions (account : string) (db : DB) : list Position :=
  List.filter (fun p => (Ps_AccountID p =s account) && (Status (Ps_cycle p) =s "open") &&
      (is_nil (AmountExact (Ps_exact p)) || is_nil (CostBasisExact (Ps_exact p)))) (positions db).

Definition correctionBody (command : AssetCorrectionCommand) (recordedAt : Time)
    (hash metadata : string) : Tx LedgerEvent :=
  let account := K_AccountID command in
  let! _ := allowLedgerProjectionWrites SetRole in
  let! _ := lockAccount account in
  let! already := beginBatch (K_IdempotencyKey command) account hash (K_OccurredAt command) in
  if already then FirstEventOfBatch (K_IdempotencyKey command) else
  let! state := FirstState account in
  if (S_Status state <>s "pending_resolution") && (S_Status state <>s "ready")
  then slift (Err ErrUnreconciledLegacyState) else
  let! wallet := FirstWallet in
  if W_Currency wallet <>s K_Currency command
  then slift (Err (validation "unsupported_currency" "correction currency must be %s")) else
  let! position := FirstOpenPositionOf account (K_Symbol command) in
  if negb (is_nil (AmountExact (Ps_exact position))) || negb (is_nil (CostBasisExact (Ps_exact position)))
  then slift (Err (conflict "already_reconciled" "position already has an exact projection" None)) else
  let mismatch := Err (validation "legacy_quantity_mismatch"
    "correction quantity must equal the observed legacy position quantity") in
  let! _ := slift match FromFloat (Amount (Ps_floats position)) with
                  | Ok legacyQty => if Cmp legacyQty (K_Quantity command) =? 0 then Ok tt else mismatch
                  | Err _ => mismatch
                  | Panic w => Panic w
                  end in
  let! _ := SavePosition (correctedPosition command position) in
  let! event := CreateEvent (correctionEvent command recordedAt position metadata) in
  let! db := get id in
  let! _ := if Z.of_nat (length (unresolved_positions account db)) =? 0 then
      SaveState account (mkState "ready" (S_OpeningEventID state)
        ("[" +:+ quoted "legacy historical orders/fills remain unreconstructed" +:+ "]")
        (S_ApprovedBy state) (S_ApprovedAt state))
    else sret tt in
  sret event.

Definition ApplyAssetCorrection (command0 : AssetCorrectionCommand) : Tx LedgerEvent :=
  let! (command, recordedAt) := slift (prepareCorrection now command0) in
  let! hash := slift (hashOf (MarshalCorrection (set_correction command (K_AccountID command) 0))) in
  let metadata := match MarshalEvidence (K_Evidence command) with Ok m => orDefault m "{}" | _ => "{}" end in
  normalized (transaction guards (correctionBody command recordedAt hash metadata)).
End Admin.

(** ** The opening balance *)
Definition BackfillApproval : string := "APPROVE_LEDGER_OPENING_BALANCE".
Record BackfillOptions : Type := mkOptions {
  B_Apply : bool; B_Approval : string; B_ApprovedBy : string; B_AccountID : string; B_PlanID : string;
  B_ReportDigest : string; B_ApprovalDigest : string }.
Record BackfillReport : Type := mkReport {
  DryRun : bool; WouldOpenCash : string; RB_Currency : string; LegacyPositionIDs : list Z;
  LegacyOrderIDs : list Z; LegacyPositionCount : Z; LegacyOrderCount : Z; SampleTruncated : bool;
  Unresolved : list string; Applied : bool }.
Definition set_applied (r : BackfillReport) (cash currency : string) : BackfillReport :=
  mkReport false cash currency (LegacyPositionIDs r) (LegacyOrderIDs r) (LegacyPositionCount r)
    (LegacyOrderCount r) (SampleTruncated r) (Unresolved r) true.

(** The position of a closed legacy cycle: exactly nothing. *)
Definition zeroedPosition (p : Position) : Position :=
  mkPosition (Ps_ID p) (Ps_Symbol p) (Ps_AccountID p)
    (mkExact (Some Zero) (Some Zero) (Some Zero) (Some Zero)) (Ps_floats p) (Ps_cycle p) (Ps_entry p)
    (Ps_labels p) (Ps_protection p).
Definition zeroClosedPositions (account : string) (l : list Position) : list Position :=
  (fun p => if (Ps_AccountID p =s account) && (Status (Ps_cycle p) <>s "open")
            then zeroedPosition p else p) <$> l.

Section Backfill.
Variables (guards : DB -> DB -> res unit) (SetRole : res unit).
Variables (now : nat -> Time) (sha256hex : string -> string).
(** The JSON of the event metadata and of the unresolved notes, and the Stage
    08 context of the active flags. *)
Variables (MarshalBackfill : BackfillOptions -> list string -> string)
  (MarshalStrings : list string -> string) (ObservationContext : string).

Definition backfillReport (options : BackfillOptions) (wallet : Wallet) (balance : Decimal) (db : DB) :
    BackfillReport :=
  let account := B_AccountID options in
  let legacyPositions :=
    List.filter (fun p => (Ps_AccountID p =s account) && (Status (Ps_cycle p) =s "open")) (positions db) in
  let legacyOrders := List.filter (fun o => O_AccountID o =s account) (orders db) in
  let positionIDs := take 100 (Ps_ID <$> legacyPositions) in
  let orderIDs := take 100 (O_ID <$> legacyOrders) in
  let positionCount := Z.of_nat (length legacyPositions) in
  let orderCount := Z.of_nat (length legacyOrders) in
  mkReport (negb (B_Apply options)) (to_string balance) (W_Currency wallet) positionIDs orderIDs
    positionCount orderCount
    ((Z.of_nat (length positionIDs) <? positionCount) || (Z.of_nat (length orderIDs) <? orderCount))
    ((if 0 <? positionCount
      then ["legacy positions were not converted into asset events or cost basis"] else []) ++
     (if 0 <? orderCount then ["legacy orders were not assumed to be executed fills"] else []))
    false.

Definition openingEvent (options : BackfillOptions) (at_ : Time) (unresolved : list string)
    (currency : string) (balance : Decimal) : LedgerEvent :=
  let batchID := "legacy-opening-" +:+ B_AccountID options in
  mkEvent (stableID sha256hex "event-opening" batchID) batchID 1 (batchID +:+ ":capital")
    EventCapitalDeposit (B_AccountID options) "internal" currency "" balance Zero None None None
    "administrative" "" "" (B_ApprovedBy options) "approved legacy cutover opening cash balance" None
    Zero Zero Zero (MarshalBackfill options unresolved) ObservationContext at_ at_.

Definition backfillBody (options : BackfillOptions) (at_ : Time) (report : BackfillReport) :
    Tx BackfillReport :=
  let account := B_AccountID options in
  let! _ := allowLedgerProjectionWrites SetRole in
  let! _ := lockAccount account in
  let! state := or_not_found (FirstState account) in
  if match state with Some s => S_Status s =s "ready" | None => false end
  then slift (Err (conflict "backfill_already_applied" "ledger backfill already applied" None)) else
  let! wallet := FirstWalletOf account in
  let! balance := slift (FromFloat (W_Balance wallet)) in
  let! _ := SaveWallet (mkWallet (W_ID wallet) (W_Balance wallet) (Some balance) (W_Currency wallet)
                          (W_AccountID wallet)) in
  let! _ := modify (set_positions (zeroClosedPositions account)) in
  let batchID := "legacy-opening-" +:+ account in
  let hash := stableID sha256hex "payload" (account +:+ to_string balance) in
  let! _ := CreateBatch batchID (mkBatchRow account hash at_) in
  let! event := CreateEvent (openingEvent options at_ (Unresolved report) (W_Currency wallet) balance) in
  let status := if 0 <? LegacyPositionCount report then "pending_resolution" else "ready" in
  let! _ := SaveState account (mkState status (Some (E_ID event)) (MarshalStrings (Unresolved report))
                         (Some (B_ApprovedBy options)) (Some at_)) in
  sret (set_applied report (to_string balance) (W_Currency wallet)).

Definition Backfill (options0 : BackfillOptions) : Tx BackfillReport :=
  let! _ := slift (requirePrimaryAccount (B_AccountID options0)) in
  let options := mkOptions (B_Apply options0) (B_Approval options0) (B_ApprovedBy options0)
    (orDefault (B_AccountID options0) DefaultAccountID) (B_PlanID options0) (B_ReportDigest options0)
    (B_ApprovalDigest options0) in
  let! wallet := FirstWalletOf (B_AccountID options) in
  let! balance := slift (FromFloat (W_Balance wallet)) in
  let! db := get id in
  let report := backfillReport options wallet balance db in
  if negb (B_Apply options) then sret report else
  if (B_Approval options <>s BackfillApproval) || (B_ApprovedBy options =s "")
  then slift (Err (validation "backfill_approval_required"
                     "explicit approval %q and approved-by are required")) else
  normalized (transaction guards (backfillBody options (now 0%nat) report)).
End Backfill.
