(* ===== verification/LedgerAdapter.v ===== *)
(** * LedgerAdapter: [internal/ledger/tradingcore_adapter.go]

    The port between the trading engine and the ledger service. A broker
    outcome is checked against the approved batch and turned into orders and
    fill commands ([validateBrokerOutcome]), recorded in one transaction keyed
    by the digest of the approved intents ([RecordBrokerOutcome]); cash events
    are appended as adjustments, and the stored events are read back as
    engine events. JSON, SHA-256 and the printed text of an error are
    parameters. *)
From Stdlib Require Import Ascii.
From stdpp Require Import base numbers strings gmap list.
From S2P Require Import Prelude GoStrings GoFloat GoFormat Accounting.
From S2P Require Values Contracts.
From S2P Require Import Snapshots LedgerModel Ledger LedgerAdmin.
Local Open Scope Z_scope.

(** ** Checking a broker outcome *)
Definition metadataFloat (values : gmap string string) (key : string) : option float64 :=
  match values !! key with Some raw => ParseFloat raw | None => None end.
Definition metadataInt (values : gmap string string) (key : string) : option Z :=
  match values !! key with Some raw => Atoi raw | None => None end.

Record outcomePlan : Type := mkPlan {
  op_intent : Contracts.OrderIntent; op_accepted : Contracts.AcceptedOrder;
  op_requested : Decimal; op_remaining : Decimal; op_symbol : string; op_commands : list FillCommand }.
(** An entry of the payload that is digested. *)
Inductive OutcomeItem : Type :=
| ItemAccepted (intent providerOrder status requested executed remaining : string) (fills : list FillCommand)
| ItemRejected (intent rejection : string).

(** [accounting.Parse(value.Decimal().String())], its error ignored. *)
Definition core_decimal (d : Values.Decimal) : Decimal := ignore_err (Parse (Values.Decimal_String d)).
Definition intent_metadata (intent : Contracts.OrderIntent) : gmap string string :=
  default ∅ (Contracts.OI_metadata intent).
Definition live_mode (mode : ExecutionMode) : bool := (mode =s ExecutionLimitedLive) || (mode =s ExecutionFullLive).

Definition see_intent (s : gmap Values.OrderID Contracts.OrderIntent * list string) (intent : Contracts.OrderIntent) :
    res (gmap Values.OrderID Contracts.OrderIntent * list string) :=
  let '(intents, identityValues) := s in
  let* _ := requirePrimaryAccount (Contracts.OI_AccountID intent) in
  if (Contracts.OI_ExecutionMode intent <>s ExecutionPaper) && negb (live_mode (Contracts.OI_ExecutionMode intent))
  then Err (Errorf "execution mode %s cannot produce an economic broker outcome" [Contracts.OI_ExecutionMode intent])
  else Ok (<[Contracts.OI_ID intent := intent]> intents,
           identityValues ++ [Contracts.OI_IdempotencyKey intent]).

(** The command of one fill of an accepted order. *)
Definition fill_metadata (intent : Contracts.OrderIntent) (fill : Contracts.Fill) : Metadata :=
  let v := Contracts.OI_Versions intent in
  list_to_map
    [("horizon", MetaString (Contracts.OI_Horizon intent));
     ("active_path", MetaString (Contracts.OI_ExecutionMode intent));
     ("flag_schema_version", MetaString (Values.V_FlagSchema v)); ("engine_version", MetaString (Values.V_Engine v));
     ("strategy_version", MetaString (Values.V_Strategy v)); ("risk_policy_version", MetaString (Values.V_Policy v));
     ("model_version", MetaString (Values.V_Model v)); ("dataset_version", MetaString (Values.V_Dataset v));
     ("universe_version", MetaString (Values.V_Universe v));
     ("cost_model_version", MetaString (Contracts.F_CostModelVersion fill))].
Definition fill_protection (metadata : gmap string string) (fillPrice : Decimal) : Protection :=
  let atr := metadataFloat metadata "atr_value" in
  let trailing :=
    match atr, metadataFloat metadata "atr_trailing_mult" with
    | Some a, Some m => let value := fsub (Float64 fillPrice) (fmul a m) in
                        if flt fzero value then Some value else None
    | _, _ => None
    end in
  mkProtection (metadataFloat metadata "stop_price") (metadataFloat metadata "take_profit_price") trailing atr
    (metadataInt metadata "max_bars_held").
Definition fill_command (intent : Contracts.OrderIntent) (accepted : Contracts.AcceptedOrder) (fill : Contracts.Fill) :
    FillCommand :=
  let metadata := intent_metadata intent in let instrument := Contracts.OI_Instrument intent in
  let v := Contracts.OI_Versions intent in
  let fillPrice := core_decimal (Values.Price_Decimal (Contracts.F_Price fill)) in
  let requestedPrice := match Contracts.OI_ReferencePrice intent with
                        | Some reference => core_decimal (Values.Price_Decimal reference)
                        | None => fillPrice
                        end in
  mkFillCommand (Contracts.OI_IdempotencyKey intent +:+ ":" +:+ Contracts.F_ProviderFillID fill)
    (Contracts.OI_AccountID intent) (I_BaseAsset instrument) (Contracts.OI_Side intent)
    (core_decimal (Values.Quantity_Decimal (Contracts.F_Quantity fill))) requestedPrice fillPrice
    (core_decimal (Values.Amount_Decimal (Contracts.F_Fee fill))) EventTradingFee (I_QuoteAsset instrument)
    (Contracts.OI_ExecutionMode intent) (Contracts.F_ProviderFillID fill)
    (Contracts.AO_ProviderOrderID accepted) (I_Venue instrument) "" (Contracts.AO_Status accepted) 0 ""
    (Contracts.F_FilledAt fill) (Values.P_Source (Contracts.F_Provenance fill)) (Contracts.OI_Reason intent)
    (Values.V_Strategy v) (Contracts.F_CostModelVersion fill) (Some (fill_metadata intent fill)) "auto_trend"
    (Contracts.OI_Horizon intent)
    (mkLabels (Values.V_Model v) (Values.V_Policy v) "" (default "" (metadata !! "rollout_state")) None None "")
    (fill_protection metadata fillPrice).

(** The fills of an accepted order: provider fill ids seen in the outcome so
    far, the executed quantity and the commands. *)
Definition FillState : Type := gset string * Decimal * list FillCommand.
Definition take_fill (intent : Contracts.OrderIntent) (accepted : Contracts.AcceptedOrder) (s : FillState)
    (fill : Contracts.Fill) : res FillState :=
  let '(providerFills, executed, commands) := s in
  if (I_ID (Contracts.F_Instrument fill) <>s I_ID (Contracts.OI_Instrument intent)) ||
     (Contracts.F_Side fill <>s Contracts.OI_Side intent) ||
     (Contracts.F_FeeAsset fill <>s I_QuoteAsset (Contracts.OI_Instrument intent))
  then Err (Errorf "fill %s dimensions do not match approved intent" [Contracts.F_ID fill]) else
  if bool_decide (Contracts.F_ProviderFillID fill ∈ providerFills)
  then Err (Errorf "duplicate provider fill id %s" [Contracts.F_ProviderFillID fill]) else
  if Contracts.F_CostModelVersion fill <>s default "" (intent_metadata intent !! "cost_policy_version")
  then Err (Errorf "fill cost model version does not match approved reservation" []) else
  let command := fill_command intent accepted fill in
  Ok ({[ Contracts.F_ProviderFillID fill ]} ∪ providerFills, Add executed (C_Quantity command),
      commands ++ [command]).

(** The accepted orders: orders seen, provider fills, plans and payload. *)
Record OutcomeState : Type := mkOutcomeState {
  os_seen : gset Values.OrderID; os_fills : gset string; os_plans : list outcomePlan; os_payload : list OutcomeItem }.
Definition take_accepted (intents : gmap Values.OrderID Contracts.OrderIntent) (s : OutcomeState)
    (accepted : Contracts.AcceptedOrder) : res OutcomeState :=
  let orderID := Contracts.AO_OrderID accepted in
  match intents !! orderID with
  | None => Err (Errorf "accepted order %s is not a unique approved intent" [orderID])
  | Some intent =>
      if bool_decide (orderID ∈ os_seen s)
      then Err (Errorf "accepted order %s is not a unique approved intent" [orderID]) else
      if live_mode (Contracts.OI_ExecutionMode intent) then Err ErrExchangeExecutionFenced else
      let requested := core_decimal (Values.Quantity_Decimal (Contracts.OI_Quantity intent)) in
      if default "" (intent_metadata intent !! "cost_policy_version") =s ""
      then Err (Errorf "approved intent %s lacks execution cost reservation version" [Contracts.OI_ID intent]) else
      let* (fills, executed, commands) :=
        foldM (take_fill intent accepted) (os_fills s, Zero, []) (Contracts.Fills accepted) in
      let remaining := match Contracts.AO_Remaining accepted with
                       | Some value => core_decimal (Values.Quantity_Decimal value)
                       | None => Sub requested executed
                       end in
      if negb (Cmp (Add executed remaining) requested =? 0) || (Sign remaining <? 0)
      then Err (Errorf "accepted order %s quantities do not reconcile" [orderID]) else
      if (Contracts.AO_Status accepted =s Contracts.BrokerFilled) && negb (Sign remaining =? 0)
      then Err (Errorf "filled order has remaining quantity" []) else
      Ok (mkOutcomeState ({[ orderID ]} ∪ os_seen s) fills
            (os_plans s ++ [mkPlan intent accepted requested remaining
                              (I_BaseAsset (Contracts.OI_Instrument intent)) commands])
            (os_payload s ++ [ItemAccepted (Contracts.OI_IdempotencyKey intent)
                                (Contracts.AO_ProviderOrderID accepted) (Contracts.AO_Status accepted)
                                (to_string requested) (to_string executed) (to_string remaining) commands]))
  end.
Definition take_rejected (intents : gmap Values.OrderID Contracts.OrderIntent) (s : OutcomeState)
    (rejected : Contracts.OrderRejection) : res OutcomeState :=
  let orderID := Contracts.OR_OrderID rejected in
  match intents !! orderID with
  | None => Err (Errorf "rejected order %s is not a unique approved intent" [orderID])
  | Some intent =>
      if bool_decide (orderID ∈ os_seen s)
      then Err (Errorf "rejected order %s is not a unique approved intent" [orderID]) else
      Ok (mkOutcomeState ({[ orderID ]} ∪ os_seen s) (os_fills s) (os_plans s)
            (os_payload s ++ [ItemRejected (Contracts.OI_IdempotencyKey intent) (Contracts.OR_Code rejected)]))
  end.

Section Adapter.
Variables (guards : DB -> DB -> res unit) (SetRole : res unit) (AfterWrite : string -> res unit).
(** The clock readings of the adapter and of its calls of the service: [now 0]
    is its own, [now (S i)] that of the [i]-th fill. *)
Variables (now : nat -> nat -> Time) (sha256hex : string -> string).
Variables (MarshalFill : FillCommand -> res string) (MarshalMetadata : Metadata -> res string)
  (Stage08 : FillCommand -> string) (MarshalAdjustment : AdjustmentCommand -> res string).
Variables (MarshalStrings : list string -> string) (MarshalOutcome : list OutcomeItem -> string)
  (MarshalObservation : Contracts.OrderIntent -> string) (ErrorText : error -> string).

Definition validateBrokerOutcome (approved : Contracts.DecisionBatch) (outcome : Contracts.BrokerBatchOutcome) :
    res (list outcomePlan * string * string) :=
  if Contracts.bo_completeness outcome <>s Contracts.OutcomeComplete
  then Err (newError KindIndeterminate "broker_outcome_indeterminate"
              "broker outcome must be recovered before ledger ingestion" None) else
  let* (intents, identityValues) := foldM see_intent (∅, []) (Contracts.Intents approved) in
  let* s := foldM (take_accepted intents) (mkOutcomeState ∅ ∅ [] []) (Contracts.bo_accepted outcome) in
  let* s := foldM (take_rejected intents) s (Contracts.bo_rejected outcome) in
  if negb (Z.of_nat (size (os_seen s)) =? Z.of_nat (size intents))
  then Err (Errorf "complete broker outcome does not resolve every approved intent" []) else
  Ok (os_plans s, "outcome-" +:+ sha256hex (MarshalStrings identityValues),
      sha256hex (MarshalOutcome (os_payload s))).

(** ** Recording a broker outcome *)
Definition plan_price (intent : Contracts.OrderIntent) : float64 :=
  match Contracts.OI_ReferencePrice intent with
  | Some reference => Values.Decimal_Float64 (Values.Price_Decimal reference)
  | None => match Contracts.OI_LimitPrice intent with
            | Some limit => Values.Decimal_Float64 (Values.Price_Decimal limit)
            | None => fzero
            end
  end.
Definition acceptedOrderRow (item : outcomePlan) : Order :=
  let intent := op_intent item in let at_ := Contracts.AO_AcceptedAt (op_accepted item) in
  let v := Contracts.OI_Versions intent in
  mkOrder 0 (Contracts.OI_Side intent) (Contracts.OI_AccountID intent) (op_symbol item)
    (mkOrderExact (Some Zero) (Some (op_requested item)) (Some Zero) (Some (op_requested item)) (Some Zero)
       (Some Zero))
    (mkOrderFloats fzero fzero fzero fzero (Some (plan_price intent)) None None None) None
    (Some (Contracts.AO_ProviderOrderID (op_accepted item))) (Some (Contracts.OI_IdempotencyKey intent))
    Contracts.BrokerAccepted (Contracts.OI_ExecutionMode intent)
    (mkLabels (Values.V_Model v) (Values.V_Policy v) "" "" None None "") (MarshalObservation intent) None
    (mkOrderTimes (Some at_) None at_).
(** The columns of the final [Updates]. *)
Definition settledOrder (item : outcomePlan) (o : Order) : Order :=
  let x := O_exact o in let times := O_times o in let accepted := op_accepted item in
  mkOrder (O_ID o) (O_OrderType o) (O_AccountID o) (O_Symbol o)
    (mkOrderExact (AmountCryptoExact x) (Some (op_requested item))
       (Some (Sub (op_requested item) (op_remaining item))) (Some (op_remaining item)) (AmountUsdtExact x)
       (FeeExact x))
    (O_floats o) (O_LedgerBatchID o) (O_ExchangeOrderID o) (O_ClientOrderID o) (Contracts.AO_Status accepted)
    (O_ExecutionMode o) (O_labels o) (O_Stage08ContextJSON o) (O_TriggerReason o)
    (mkOrderTimes (SubmittedAt times)
       (if Contracts.AO_Status accepted =s Contracts.BrokerFilled then Some (Contracts.AO_AcceptedAt accepted)
        else FilledAt times) (ExecutedAt times)).
Definition UpdateOrder (id_ : Z) (f : Order -> Order) : Tx unit :=
  let! db := get id in
  let! _ := numeric (mjoin (order_numerics <$> (f <$> List.filter (fun o => O_ID o =? id_) (orders db)))) in
  modify (set_orders (fmap (fun o => if O_ID o =? id_ then f o else o))).

(** [command.ExistingOrderID = order.ID]. *)
Definition for_order (orderID : Z) (command : FillCommand) : FillCommand :=
  set_ids command (C_AccountID command) (C_VenueID command) (C_FeeCurrency command)
    (C_CostModelVersion command) orderID (C_OccurredAt command).
(** The child service runs on the transaction, so its own is a savepoint of
    it whose failure fails the whole. *)
Definition recordFill (orderID : Z) (i : nat) (command : FillCommand) : Tx nat :=
  let! _ := ApplyFillWith SetRole AfterWrite (now (S i)) sha256hex MarshalFill MarshalMetadata Stage08
              (fun body => body) (for_order orderID command) in
  sret (S i).
Definition recordPlan (i : nat) (item : outcomePlan) : Tx nat :=
  let! order := CreateOrder (acceptedOrderRow item) in
  let! i := sfoldM (recordFill (O_ID order)) i (op_commands item) in
  let! _ := UpdateOrder (O_ID order) (settledOrder item) in
  sret i.
Definition outcomeBody (plan : list outcomePlan) (identity payloadHash : string) : Tx unit :=
  let! existing := or_not_found (FirstIngestion identity) in
  match existing with
  | Some row => if LB_PayloadHash row <>s payloadHash then slift (Err ErrIdempotencyConflict) else sret tt
  | None =>
      let account := match plan with item :: _ => Contracts.OI_AccountID (op_intent item) | [] => "primary" end in
      let! _ := CreateIngestion identity (mkBatchRow account payloadHash (now 0%nat 0%nat)) in
      let! _ := sfoldM recordPlan 0%nat plan in
      sret tt
  end.
(** After a failure, a retry that lost the race is successful when the same
    outcome has been recorded. *)
Definition or_recorded (identity payloadHash : string) (m : Tx unit) : Tx unit := fun db =>
  match m db with
  | (Err e, db') =>
      match ingestions db' !! identity with
      | Some row => if LB_PayloadHash row =s payloadHash then (Ok tt, db') else (Err e, db')
      | None => (Err e, db')
      end
  | r => r
  end.
Definition RecordBrokerOutcome (approved : Contracts.DecisionBatch) (outcome : Contracts.BrokerBatchOutcome) :
    Tx unit :=
  let! (plan, identity, payloadHash) := slift (validateBrokerOutcome approved outcome) in
  normalized (or_recorded identity payloadHash (transaction guards (outcomeBody plan identity payloadHash))).

(** ** Appending a cash event *)
Definition single {A} (l : list A) : option A := match l with [x] => Some x | _ => None end.
Definition append_command (batch : Contracts.LedgerBatch) (event : Contracts.LedgerEvent)
    (posting : Contracts.LedgerPosting) (amount : Decimal) : AdjustmentCommand :=
  let kind := Contracts.E_Type event in
  mkAdjustment (Contracts.E_ID event) (Contracts.lb_idempotencyKey batch) (Contracts.E_AccountID event) kind
    (if kind =s EventCapitalWithdrawal then Neg amount else amount) (Contracts.LP_AssetID posting)
    (Values.P_Actor (Contracts.E_Provenance event)) (Values.P_Reason (Contracts.E_Provenance event))
    (Contracts.E_OccurredAt event).
Definition AppendAtomic (batch : Contracts.LedgerBatch) : Tx Contracts.LedgerAppendOutcome :=
  let key := Contracts.lb_idempotencyKey batch in
  let rejected code message :=
    slift (Contracts.NewLedgerAppendOutcome Contracts.LedgerRejected key [] code message) in
  match single (Contracts.lb_events batch) with
  | None => rejected "unsupported_batch_shape" "runtime adapter accepts one projection-safe cash event"
  | Some event =>
      match single (Contracts.E_postings event) with
      | None => rejected "projection_data_required" "asset/trade events must use typed fill or correction commands"
      | Some posting =>
          if Contracts.LP_Dimension posting <>s Contracts.PostingCash
          then rejected "projection_data_required" "asset/trade events must use typed fill or correction commands" else
          let! amount := slift (Parse (Values.Decimal_String (Values.Amount_Decimal (Contracts.LP_Amount posting)))) in
          fun db =>
          match ApplyAdjustment guards SetRole AfterWrite (now 0%nat) sha256hex MarshalAdjustment
                  (append_command batch event posting amount) db with
          | (Ok result, db') =>
              (Contracts.NewLedgerAppendOutcome
                 (if AR_AlreadyApplied result then Contracts.LedgerAlreadyApplied else Contracts.LedgerAppended)
                 key [Contracts.E_ID event] "" "", db')
          | (Err err, db') =>
              let '(errorKind, code) := ErrorDetails err in
              (Contracts.NewLedgerAppendOutcome
                 (if errorKind =s KindIndeterminate then Contracts.LedgerAppendIndeterminate
                  else Contracts.LedgerRejected) key [] code (ErrorText err), db')
          | (Panic w, db') => (Panic w, db')
          end
      end
  end.
End Adapter.

(** ** Reading events back *)
Definition mustCoreDecimal (value : Decimal) : res Values.Decimal :=
  match Values.ParseDecimal (to_string value) with
  | Ok result => Ok result
  | _ => Panic "mustCoreDecimal"
  end.
(** [amount, _ := NewSignedAmount(mustCoreDecimal(value))]. *)
Definition core_amount (value : Decimal) : res Values.SignedAmount :=
  let* d := mustCoreDecimal value in
  Ok match Values.NewSignedAmount d with Ok a => a | _ => Values.Amount_zero end.
Definition opt_identity {A} (o : option A) (f : A -> res string) : res string :=
  match o with Some a => f a | None => Ok "" end.

Definition row_postings (row : LedgerEvent) : res (list Contracts.LedgerPosting) :=
  let* cash :=
    if Sign (E_CashDelta row) =? 0 then Ok [] else
    let* amount := core_amount (E_CashDelta row) in
    Ok [Contracts.mkPosting Contracts.PostingCash (Values.ignore_id (Values.NewAssetID (E_Currency row))) "" amount] in
  let* asset :=
    if Sign (E_AssetDelta row) =? 0 then Ok [] else
    let* amount := core_amount (E_AssetDelta row) in
    Ok [Contracts.mkPosting Contracts.PostingAsset (Values.ignore_id (Values.NewAssetID (E_Symbol row)))
          (Values.ignore_id (Values.NewInstrumentID (E_Symbol row))) amount] in
  match cash ++ asset with
  | [] =>
      let* amount := core_amount Zero in
      Ok [Contracts.mkPosting Contracts.PostingCash (Values.ignore_id (Values.NewAssetID (E_Currency row))) "" amount]
  | postings => Ok postings
  end.
Definition core_event (row : LedgerEvent) : res Contracts.LedgerEvent :=
  let* eventID := Values.NewEventID (E_ID row) in
  let* key := Values.NewIdempotencyKey (E_IdempotencyKey row) in
  let* accountID := Values.NewAccountID (E_AccountID row) in
  let* venue := Values.NewVenueID (E_VenueID row) in
  let* orderID := opt_identity (E_OrderID row) (fun i => Values.NewOrderID (Itoa i)) in
  let* fillID := opt_identity (E_FillID row) Values.NewFillID in
  let* positionID := opt_identity (E_PositionID row) (fun i => Values.NewPositionID (Itoa i)) in
  let* reverses := opt_identity (E_ReversesEventID row) Values.NewEventID in
  let* postings := row_postings row in
  Contracts.NewLedgerEvent
    (Contracts.mkEvent eventID key (E_EventType row) accountID orderID fillID positionID venue (E_OccurredAt row)
       (E_RecordedAt row)
       (Values.mkVersions (E_StrategyVersion row) "" (E_PolicyVersion row) "" "" "" "" "" "")
       (Values.mkProvenance "postgres" (E_Actor row) (E_Reason row) "" "") reverses []) postings.

(** [ORDER BY occurred_at,recorded_at,id] of the rows of the account. *)
Definition row_less : LedgerEvent -> LedgerEvent -> bool :=
  lex Z.eqb Z.ltb E_OccurredAt (lex Z.eqb Z.ltb E_RecordedAt (fun x y => String.ltb (E_ID x) (E_ID y))).
Definition rows_until (account : string) (until : Time) (l : list LedgerEvent) : list LedgerEvent :=
  SliceStable row_less
    (List.filter (fun e => (E_AccountID e =s account) && (IsZero until || negb (After (E_OccurredAt e) until))) l).
Definition Events (account : string) (until : Time) : Tx (list Contracts.LedgerEvent) :=
  let! _ := slift (requirePrimaryAccount account) in
  let! db := get id in
  slift (mapM core_event (rows_until account until (events db))).

(** ** Reconciling a snapshot *)
Definition add_posting (sums : gmap string Decimal * gmap string Decimal) (posting : Contracts.LedgerPosting) :
    gmap string Decimal * gmap string Decimal :=
  let '(cash, assets) := sums in
  let value := core_decimal (Values.Amount_Decimal (Contracts.LP_Amount posting)) in
  let at_key m key := default (mkDecimal None) (m !! key) in
  if Contracts.LP_Dimension posting =s Contracts.PostingCash
  then (<[Contracts.LP_AssetID posting := Add (at_key cash (Contracts.LP_AssetID posting)) value]> cash, assets)
  else (cash, <[Contracts.LP_InstrumentID posting := Add (at_key assets (Contracts.LP_InstrumentID posting)) value]> assets).
Definition posting_sums (l : list Contracts.LedgerEvent) : gmap string Decimal * gmap string Decimal :=
  foldl add_posting (∅, ∅) (mjoin (Contracts.E_postings <$> l)).
(** One entry of a difference map, absent when it is zero. *)
Definition add_difference (m : gmap string Values.SignedAmount) (entry : string * Decimal) :
    res (gmap string Values.SignedAmount) :=
  let '(key, difference) := entry in
  if Sign difference =? 0 then Ok m else
  let* amount := core_amount difference in Ok (<[key := amount]> m).
(** The differences of the projected values (in order, later ones win), and
    of the sums of keys that are not projected. *)
Definition differences (projected : list (string * Decimal)) (sums : gmap string Decimal) :
    res (gmap string Values.SignedAmount) :=
  let at_key key := default (mkDecimal None) (sums !! key) in
  let* m := foldM add_difference ∅ ((fun '(key, p) => (key, Sub p (at_key key))) <$> projected) in
  foldM add_difference m
    ((fun '(key, v) => (key, Neg v)) <$>
     List.filter (fun '(key, _) => negb (existsb (fun '(k, _) => k =s key) projected)) (map_to_list sums)).
Definition Reconcile (snapshot : PortfolioSnapshot) : Tx Contracts.ReconciliationReport :=
  let! l := Events (p_accountID snapshot) (p_asOf snapshot) in
  let '(cash, assets) := posting_sums l in
  let! cashDiff := slift (differences
    ((fun '(k, a) => (k, core_decimal (Values.Amount_Decimal a))) <$> map_to_list (p_cash snapshot)) cash) in
  let! positionDiff := slift (differences
    ((fun p => (I_ID (Pos_Instrument p), core_decimal (Values.Quantity_Decimal (Pos_Quantity p)))) <$>
     p_positions snapshot) assets) in
  sret (Contracts.NewReconciliationReport (p_asOf snapshot) (p_accountID snapshot)
          (bool_decide (cashDiff = ∅) && bool_decide (positionDiff = ∅)) cashDiff positionDiff []).
