(* ===== verification/LedgerFacts.v ===== *)
(** * LedgerFacts: the ledger against its own events

    [reconciled] says that the wallet and every position projection are the
    sums of the immutable events. The statements of [LedgerModel] are described
    by equations on the tables they change, and each table change by its effect
    on [reconciled]. *)
From stdpp Require Import base numbers strings gmap list.
From S2P Require Import Prelude GoStrings GoFloat Accounting Snapshots LedgerModel.
Local Open Scope Z_scope.

(** ** Sums *)
Definition int_of (d : option Decimal) : Z := integer (default Zero d).

Record Sums : Type := mkSums { s_amount : Z; s_basis : Z; s_pnl : Z; s_fees : Z }.
Definition zero_sums : Sums := mkSums 0 0 0 0.
Definition add_sums (a b : Sums) : Sums :=
  mkSums (s_amount a + s_amount b) (s_basis a + s_basis b) (s_pnl a + s_pnl b) (s_fees a + s_fees b).

Definition exact_sums (x : PositionExact) : Sums :=
  mkSums (int_of (AmountExact x)) (int_of (CostBasisExact x)) (int_of (RealizedPnLExact x))
    (int_of (FeesExact x)).
Definition event_sums (e : LedgerEvent) : Sums :=
  mkSums (integer (E_AssetDelta e)) (integer (E_CostBasisDelta e)) (integer (E_RealizedPnL e))
    (integer (E_FeeDelta e)).
Definition ledger_sums (symbol : string) (l : list LedgerEvent) : Sums :=
  foldr (fun e acc => if E_Symbol e =s symbol then add_sums (event_sums e) acc else acc) zero_sums l.
Definition cash_sum (l : list LedgerEvent) : Z := Zsum (fun e => integer (E_CashDelta e)) l.

Lemma add_sums_assoc a b c : add_sums a (add_sums b c) = add_sums (add_sums a b) c.
Proof. unfold add_sums. cbn. f_equal; lia. Qed.
Lemma add_sums_0_l a : add_sums zero_sums a = a.
Proof. by destruct a. Qed.
Lemma add_sums_0_r a : add_sums a zero_sums = a.
Proof. destruct a. unfold add_sums. cbn. f_equal; lia. Qed.

Lemma ledger_sums_app symbol l1 l2 :
  ledger_sums symbol (l1 ++ l2) = add_sums (ledger_sums symbol l1) (ledger_sums symbol l2).
Proof.
  induction l1 as [|e l1 IH]; cbn [app ledger_sums foldr]; [by rewrite add_sums_0_l|].
  fold (ledger_sums symbol (l1 ++ l2)) (ledger_sums symbol l1). rewrite IH.
  destruct (E_Symbol e =s symbol); [apply add_sums_assoc | done].
Qed.
Lemma ledger_sums_other symbol l :
  Forall (fun e => E_Symbol e <> symbol) l -> ledger_sums symbol l = zero_sums.
Proof.
  induction 1 as [|e l He Hl IH]; [done|]. cbn.
  by rewrite (proj2 (String.eqb_neq _ _) He).
Qed.

(** The projection of a symbol, nothing when it has no position. *)
Definition position_of (db : DB) (symbol : string) : option Position :=
  where_ (fun p => Ps_Symbol p =s symbol) (positions db).
Definition projection_in (l : list Position) (symbol : string) : Sums :=
  match where_ (fun p => Ps_Symbol p =s symbol) l with
  | Some p => exact_sums (Ps_exact p)
  | None => zero_sums
  end.
Definition projection (db : DB) : string -> Sums := projection_in (positions db).

(** ** The invariant *)
Record good_position (p : Position) : Prop := {
  gp_account : Ps_AccountID p = DefaultAccountID;
  gp_amount : 0 <= s_amount (exact_sums (Ps_exact p));
  gp_basis : 0 <= s_basis (exact_sums (Ps_exact p));
  gp_closed : Status (Ps_cycle p) <> "open" ->
    s_amount (exact_sums (Ps_exact p)) = 0 /\ s_basis (exact_sums (Ps_exact p)) = 0;
  gp_absent : AmountExact (Ps_exact p) = None -> exact_sums (Ps_exact p) = zero_sums }.
(** Events without a fill carry no profit or fee, a basis only with an asset,
    and corrections add to the asset. *)
Definition good_event (e : LedgerEvent) : Prop :=
  E_AccountID e = DefaultAccountID /\
  (E_FillID e = None -> integer (E_RealizedPnL e) = 0 /\ integer (E_FeeDelta e) = 0 /\
     (integer (E_AssetDelta e) = 0 -> integer (E_CostBasisDelta e) = 0) /\
     (E_EventType e = EventAdminCorrection -> 0 <= integer (E_AssetDelta e))).

Record positions_ok (next : Z) (l : list Position) : Prop := {
  po_symbols : NoDup (Ps_Symbol <$> l);
  po_ids : NoDup (Ps_ID <$> l);
  po_range : Forall (fun p => 0 < Ps_ID p < next) l;
  po_good : Forall good_position l }.

Record reconciled (db : DB) : Prop := {
  rc_wallet : exists w, wallets db = [w] /\ W_AccountID w = DefaultAccountID /\
    int_of (W_BalanceExact w) = cash_sum (events db) /\ 0 <= int_of (W_BalanceExact w) /\
    Forall (fun e => E_Currency e = W_Currency w) (events db);
  rc_positions : positions_ok (next_position db) (positions db);
  rc_projection : forall symbol, projection db symbol = ledger_sums symbol (events db);
  rc_next : 0 < next_position db;
  rc_events : Forall good_event (events db) }.

(** ** Finding rows *)
Lemma where_Some {A} (p : A -> bool) l a : where_ p l = Some a -> a ∈ l /\ p a = true.
Proof. unfold where_. intros H. apply List.find_some in H as [H1 H2]. split; [by apply list_elem_of_In | done]. Qed.
Lemma where_None {A} (p : A -> bool) l : where_ p l = None -> forall a, a ∈ l -> p a = false.
Proof. intros H a Ha. eapply List.find_none; [exact H | by apply list_elem_of_In]. Qed.
Lemma where_unique {A} (p : A -> bool) l a :
  a ∈ l -> p a = true -> (forall b, b ∈ l -> p b = true -> b = a) -> where_ p l = Some a.
Proof.
  intros Ha Hp Hu. destruct (where_ p l) as [b|] eqn:E.
  - apply where_Some in E as [Hb Hpb]. by rewrite (Hu b).
  - by rewrite (where_None _ _ E a Ha) in Hp.
Qed.
Lemma NoDup_same_key {A K} (f : A -> K) l a b : NoDup (f <$> l) -> a ∈ l -> b ∈ l -> f a = f b -> a = b.
Proof.
  induction l as [|x l IH]; [intros _ Ha; by apply elem_of_nil in Ha|].
  rewrite fmap_cons, NoDup_cons, !elem_of_cons. intros [Hx Hl] [->|Ha] [->|Hb] E; auto.
  - destruct Hx. rewrite E. by apply list_elem_of_fmap_2.
  - destruct Hx. rewrite <- E. by apply list_elem_of_fmap_2.
Qed.

Lemma projection_in_found l p : NoDup (Ps_Symbol <$> l) -> p ∈ l ->
  projection_in l (Ps_Symbol p) = exact_sums (Ps_exact p).
Proof.
  intros Hn Hp. unfold projection_in. rewrite (where_unique _ l p); [done..| |].
  - apply String.eqb_refl.
  - intros b Hb E. apply eqb_true_eq in E. by eapply NoDup_same_key.
Qed.
Lemma projection_in_absent l symbol :
  (forall p, p ∈ l -> Ps_Symbol p <> symbol) -> projection_in l symbol = zero_sums.
Proof.
  intros H. unfold projection_in. destruct (where_ _ l) as [p|] eqn:E; [|done].
  apply where_Some in E as [Hp E]. apply eqb_true_eq in E. by destruct (H p Hp).
Qed.

(** ** Replacing and adding a position *)
Definition replace_position (p' : Position) (l : list Position) : list Position :=
  (fun p => if Ps_ID p =? Ps_ID p' then p' else p) <$> l.

Section Replace.
Context (l : list Position) (next : Z) (p p' : Position).
Hypothesis Hl : positions_ok next l.
Hypothesis Hp : p ∈ l.
Hypothesis Hid : Ps_ID p' = Ps_ID p.
Hypothesis Hsym : Ps_Symbol p' = Ps_Symbol p.

Lemma replace_fmap {K} (f : Position -> K) : f p' = f p -> f <$> replace_position p' l = f <$> l.
Proof using Hl Hp Hid.
  intros Hf. unfold replace_position. rewrite <- list_fmap_compose. apply list_fmap_ext.
  intros i q Hq. cbn. destruct (Z.eqb_spec (Ps_ID q) (Ps_ID p')) as [E|_]; [|done].
  rewrite Hf. f_equal. eapply NoDup_same_key; [apply (po_ids _ _ Hl) | done | by eapply list_elem_of_lookup_2 | congruence].
Qed.
Lemma replace_elem q : q ∈ replace_position p' l -> q = p' \/ (q ∈ l /\ Ps_ID q <> Ps_ID p').
Proof.
  unfold replace_position. intros (r & -> & Hr)%list_elem_of_fmap.
  destruct (Z.eqb_spec (Ps_ID r) (Ps_ID p')); auto.
Qed.
Lemma replace_has : p' ∈ replace_position p' l.
Proof using Hp Hid.
  unfold replace_position. apply list_elem_of_fmap. exists p. split; [|done].
  by rewrite Hid, Z.eqb_refl.
Qed.
Lemma replace_ok : good_position p' -> positions_ok next (replace_position p' l).
Proof using Hl Hp Hid Hsym.
  intros Hg. destruct Hl as [H1 H2 H3 H4]. split.
  - by rewrite replace_fmap.
  - by rewrite replace_fmap.
  - rewrite Forall_forall in *. intros q [->|[Hq _]]%replace_elem; [|by apply H3].
    rewrite Hid. by apply H3.
  - rewrite Forall_forall in *. intros q [->|[Hq _]]%replace_elem; [done | by apply H4].
Qed.
Lemma replace_projection symbol : projection_in (replace_position p' l) symbol =
  if Ps_Symbol p =s symbol then exact_sums (Ps_exact p') else projection_in l symbol.
Proof using Hl Hp Hid Hsym.
  destruct (String.eqb_spec (Ps_Symbol p) symbol) as [<-|Hne].
  - rewrite <- Hsym. apply projection_in_found; [|apply replace_has].
    rewrite replace_fmap by done. apply (po_symbols _ _ Hl).
  - destruct (where_ (fun p => Ps_Symbol p =s symbol) l) as [q|] eqn:E.
    + apply where_Some in E as [Hq E]. apply eqb_true_eq in E as <-.
      rewrite !projection_in_found; [done | apply (po_symbols _ _ Hl) | done | |].
      * rewrite replace_fmap by done. apply (po_symbols _ _ Hl).
      * unfold replace_position. apply list_elem_of_fmap. exists q. split; [|done].
        destruct (Z.eqb_spec (Ps_ID q) (Ps_ID p')) as [E|_]; [|done].
        destruct Hne. f_equal. eapply NoDup_same_key; [apply (po_ids _ _ Hl) | done..|]. congruence.
    + rewrite !projection_in_absent; [done | |].
      * intros q Hq Eq. pose proof (where_None _ _ E q Hq) as Ht. cbn in Ht.
        by rewrite Eq, String.eqb_refl in Ht.
      * intros q [->|[Hq _]]%replace_elem Eq; [congruence|].
        pose proof (where_None _ _ E q Hq) as Ht. cbn in Ht. by rewrite Eq, String.eqb_refl in Ht.
Qed.
End Replace.

Lemma append_ok l next p : positions_ok next l -> Ps_ID p = next -> 0 < next ->
  (forall q, q ∈ l -> Ps_Symbol q <> Ps_Symbol p) -> good_position p -> positions_ok (next + 1) (l ++ [p]).
Proof.
  intros [H1 H2 H3 H4] Hid Hn Hs Hg. rewrite Forall_forall in H3. split.
  - rewrite fmap_app. apply NoDup_app. split_and!; [done | | apply NoDup_singleton].
    intros x (q & -> & Hq)%list_elem_of_fmap E%list_elem_of_singleton. by apply (Hs q).
  - rewrite fmap_app. apply NoDup_app. split_and!; [done | | apply NoDup_singleton].
    intros x (q & -> & Hq)%list_elem_of_fmap E%list_elem_of_singleton. apply H3 in Hq. lia.
  - apply Forall_app. split; [|constructor; [lia|constructor]].
    apply Forall_forall. intros q Hq. apply H3 in Hq. lia.
  - apply Forall_app. split; [done | by constructor].
Qed.
Lemma append_projection l p symbol : (forall q, q ∈ l -> Ps_Symbol q <> Ps_Symbol p) ->
  projection_in (l ++ [p]) symbol =
  if Ps_Symbol p =s symbol then exact_sums (Ps_exact p) else projection_in l symbol.
Proof.
  intros H. unfold projection_in, where_. induction l as [|q l IH]; cbn [app List.find].
  - by destruct (Ps_Symbol p =s symbol).
  - destruct (String.eqb_spec (Ps_Symbol q) symbol) as [E|E].
    + subst symbol. destruct (String.eqb_spec (Ps_Symbol p) (Ps_Symbol q)) as [E2|]; [|done].
      destruct (H q); [left | done].
    + apply IH. intros r Hr. apply H. by right.
Qed.

(** ** What the statements do *)

Lemma check_Ok c code constraint db u db' :
  check c code constraint db = (Ok u, db') -> c = true /\ db' = db.
Proof. unfold check, slift, failIf. by destruct c; intros [= <- <-]. Qed.
Lemma slift_Ok {A} (m : res A) (db : DB) a db' : slift m db = (Ok a, db') -> m = Ok a /\ db' = db.
Proof. unfold slift. by intros [= -> ->]. Qed.
Lemma found_Ok {A} (o : option A) (db : DB) a db' : found o db = (Ok a, db') -> o = Some a /\ db' = db.
Proof. unfold found. intros [H ->]%slift_Ok. by destruct o; [injection H as -> | discriminate]. Qed.
Lemma or_not_found_Ok {A} (m : Tx A) db o db' : or_not_found m db = (Ok o, db') ->
  match o with Some a => m db = (Ok a, db') | None => exists e, m db = (Err e, db') /\ is_not_found e = true end.
Proof.
  unfold or_not_found. destruct (m db) as [[a|e|w] d]; [by intros [= <- <-]| |done].
  destruct (is_not_found e) eqn:E; intros [= <- <-]. eauto.
Qed.

(** Invert a successful statement or block of statements, step by step. *)
Ltac tx_inv_step :=
  match goal with
  | H : sbind _ _ _ = (Ok _, _) |- _ =>
      let a := fresh "a" in let d := fresh "d" in let E := fresh "E" in
      apply sbind_Ok in H as (a & d & E & H)
  | H : sret _ _ = (Ok _, _) |- _ => unfold sret in H; injection H as H; subst
  | H : get _ _ = (Ok _, _) |- _ => unfold get in H; injection H as H; subst
  | H : modify _ _ = (Ok _, _) |- _ => unfold modify in H; injection H as H; subst
  | H : numeric _ _ = (Ok _, _) |- _ => apply check_Ok in H as [H ->]
  | H : not_null _ _ = (Ok _, _) |- _ => apply check_Ok in H as [H ->]
  | H : check _ _ _ _ = (Ok _, _) |- _ => apply check_Ok in H as [H ->]
  | H : found _ _ = (Ok _, _) |- _ => apply found_Ok in H as [H ->]
  | H : slift (Err _) _ = (Ok _, _) |- _ => discriminate H
  | H : slift _ _ = (Ok _, _) |- _ => apply slift_Ok in H as [H ->]
  | H : (if ?c then slift (Err _) else _) _ = (Ok _, _) |- _ =>
      let E := fresh "C" in destruct c eqn:E; [discriminate H|]
  | H : match ?o with Some _ => _ | None => slift (Err _) end _ = (Ok _, _) |- _ =>
      let E := fresh "S" in destruct o eqn:E; [|discriminate H]
  | H : (let '(_, _) := ?p in _) _ = (Ok _, _) |- _ => let E := fresh "P" in destruct p eqn:E
  end.
Ltac tx_inv := repeat (tx_inv_step; cbn [id] in *).

Lemma existsb_false {A} (p : A -> bool) l a : existsb p l = false -> a ∈ l -> p a = false.
Proof.
  intros H Ha. destruct (p a) eqn:E; [|done]. rewrite <- H. symmetry.
  apply List.existsb_exists. exists a. split; [by apply list_elem_of_In | done].
Qed.

Lemma SaveWallet_Ok w db u db' : SaveWallet w db = (Ok u, db') ->
  db' = set_wallets (fmap (fun v => if W_ID v =? W_ID w then w else v)) db.
Proof. unfold SaveWallet. intros H. by tx_inv. Qed.
Lemma SavePosition_Ok p db u db' : SavePosition p db = (Ok u, db') ->
  db' = set_positions (replace_position p) db.
Proof. unfold SavePosition. intros H. by tx_inv. Qed.
Lemma CreatePosition_Ok p0 db p db' : CreatePosition p0 db = (Ok p, db') ->
  p = position_defaults (next_position db) p0 /\ Ps_AccountID p = DefaultAccountID /\
  (forall q, q ∈ positions db -> Ps_Symbol q <> Ps_Symbol p) /\
  db' = bump_position (set_positions (fun l => l ++ [p]) db).
Proof.
  unfold CreatePosition. intros H. tx_inv. bool_prop. split_and!; [done | done | | done].
  intros q Hq E. match goal with H : existsb _ _ = false |- _ => eapply existsb_false in H; [|exact Hq] end.
  cbn in *. by rewrite E, String.eqb_refl in *.
Qed.
Lemma SaveOrder_Ok o db u db' : SaveOrder o db = (Ok u, db') -> exists f, db' = set_orders f db.
Proof. unfold SaveOrder. intros H. tx_inv. eauto. Qed.
Lemma CreateOrder_Ok o db o' db' : CreateOrder o db = (Ok o', db') ->
  o' = order_defaults (next_order db) o /\ db' = bump_order (set_orders (fun l => l ++ [o']) db).
Proof. unfold CreateOrder. intros H. tx_inv. done. Qed.
Lemma CreateFill_Ok f db u db' : CreateFill f db = (Ok u, db') ->
  db' = add_fill f db /\ fill_links db f = true /\ fill_economic f = true /\
  forallb Valid (fill_decimals f) = true /\
  Forall (fun g => F_LedgerBatchID g <> F_LedgerBatchID f) (fills db).
Proof.
  unfold CreateFill. intros H. tx_inv. bool_prop. split_and!; try done.
  apply Forall_forall. intros g Hg E.
  match goal with H : existsb _ _ = false |- _ => eapply existsb_false in H; [|exact Hg] end.
  by rewrite E, String.eqb_refl, orb_true_r in *.
Qed.
Lemma CreateEvent_Ok e0 db e db' : CreateEvent e0 db = (Ok e, db') ->
  e = event_defaults e0 /\ E_AccountID e = DefaultAccountID /\ event_signs e = true /\
  (exists w, w ∈ wallets db /\ W_Currency w = E_Currency e) /\ db' = add_event e db.
Proof.
  unfold CreateEvent. intros H. tx_inv. bool_prop. split_and!; try done.
  match goal with H : event_links _ _ = true |- _ => unfold event_links in H; bool_prop end.
  match goal with H : existsb _ (wallets _) = true |- _ => apply List.existsb_exists in H as (w & Hw & H) end.
  bool_prop. exists w. split; [by apply list_elem_of_In | done].
Qed.
Lemma CreateBatch_Ok id_ row db u db' : CreateBatch id_ row db = (Ok u, db') ->
  batches db !! id_ = None /\ db' = set_batches (fun m => <[id_ := row]> m) db.
Proof. unfold CreateBatch. intros H. tx_inv. split; [by eapply bool_decide_eq_true_1 | done]. Qed.

(** ** Books

    Two states with the same books have the same wallet, positions and events:
    orders, fills, batches and states do not enter [reconciled]. *)
Record same_books (db db' : DB) : Prop := {
  sb_wallets : wallets db' = wallets db; sb_positions : positions db' = positions db;
  sb_next : next_position db' = next_position db; sb_events : events db' = events db }.
#[export] Instance same_books_equivalence : Equivalence same_books.
Proof.
  split; [by split | intros x y []; by split | intros x y z [] []; split; congruence].
Qed.
#[export] Instance reconciled_proper : Proper (same_books ==> iff) reconciled.
Proof.
  assert (forall x y, same_books x y -> reconciled x -> reconciled y) as H.
  { intros x y [E1 E2 E3 E4] [R1 R2 R3 R4 R5]. split; unfold projection in *;
      rewrite ?E1, ?E2, ?E3, ?E4; done. }
  intros x y Hxy. split; apply H; [done | by symmetry].
Qed.
Lemma same_books_orders f db : same_books db (set_orders f db).
Proof. by split. Qed.
Lemma same_books_new_order f db : same_books db (bump_order (set_orders f db)).
Proof. by split. Qed.
Lemma same_books_fill f db : same_books db (add_fill f db).
Proof. by split. Qed.
Lemma same_books_batches f db : same_books db (set_batches f db).
Proof. by split. Qed.
Lemma same_books_states f db : same_books db (set_states f db).
Proof. by split. Qed.
Lemma same_books_ingestions f db : same_books db (set_ingestions f db).
Proof. by split. Qed.
#[export] Hint Resolve same_books_orders same_books_new_order same_books_fill same_books_batches
  same_books_states same_books_ingestions : go.

(** The books after a posting: the wallet row, the positions and new events. *)
Lemma reconciled_post db db' w w' evs :
  reconciled db -> wallets db = [w] -> wallets db' = [w'] ->
  W_AccountID w' = W_AccountID w -> W_Currency w' = W_Currency w ->
  events db' = events db ++ evs -> Forall good_event evs ->
  Forall (fun e => E_Currency e = W_Currency w) evs ->
  int_of (W_BalanceExact w') = int_of (W_BalanceExact w) + cash_sum evs ->
  0 <= int_of (W_BalanceExact w') ->
  positions_ok (next_position db') (positions db') -> 0 < next_position db' ->
  (forall s, projection db' s = add_sums (projection db s) (ledger_sums s evs)) ->
  reconciled db'.
Proof.
  intros [(w0 & E0 & Ha & Hb & Hn & Hc) Hp Hpr Hnx He] Ew Ew' Ea Ec Ee Hg Hcur Hcash Hnn Hok Hnx' Hpr'.
  rewrite Ew in E0. injection E0 as ->. split; [|done| |done|].
  - exists w'. rewrite Ew', Ee. split_and!; [done | congruence | | done |].
    + unfold cash_sum in *. rewrite Zsum_app, Hcash, Hb. done.
    + rewrite Ec. by apply Forall_app.
  - intros s. rewrite Hpr', Ee, ledger_sums_app, Hpr. done.
  - rewrite Ee. by apply Forall_app.
Qed.

(** All events of a posting have one symbol. *)
Definition total_sums (l : list LedgerEvent) : Sums := foldr (fun e => add_sums (event_sums e)) zero_sums l.
Lemma ledger_sums_one symbol s l : Forall (fun e => E_Symbol e = symbol) l ->
  ledger_sums s l = if symbol =s s then total_sums l else zero_sums.
Proof.
  induction 1 as [|e l He Hl IH]; cbn; [by destruct (symbol =s s)|].
  fold (ledger_sums s l). rewrite IH, He. by destruct (symbol =s s).
Qed.

(** Defaulted columns do not change the sums. *)
Lemma defaults_sums e : event_sums (event_defaults e) = event_sums e.
Proof.
  unfold event_sums, event_defaults. cbn [E_AssetDelta E_CostBasisDelta E_RealizedPnL E_FeeDelta].
  by destruct (E_CostBasisDelta e) as [[]], (E_FeeDelta e) as [[]].
Qed.
Lemma total_defaults l : total_sums (event_defaults <$> l) = total_sums l.
Proof.
  induction l as [|e l IH]; [done|]. rewrite fmap_cons. unfold total_sums in *. cbn [foldr].
  by rewrite IH, defaults_sums.
Qed.
Lemma cash_defaults l : cash_sum (event_defaults <$> l) = cash_sum l.
Proof.
  induction l as [|e l IH]; [done|]. rewrite fmap_cons. unfold cash_sum in *. by rewrite !Zsum_cons, IH.
Qed.
