(* ===== verification/LedgerFill.v ===== *)
(** * LedgerFill: correctness of [ApplyFill]

    A fill posts its events and moves the wallet and the position by exactly
    what the events say; a full sale leaves nothing behind; a repeated command
    changes nothing. *)
From stdpp Require Import base numbers strings gmap list.
From S2P Require Import Prelude GoStrings GoFloat Accounting Snapshots LedgerModel Ledger LedgerFacts.
Local Open Scope Z_scope.

(** ** Amounts *)
Lemma integer_Neg d : integer (Neg d) = - integer d. Proof. done. Qed.
Lemma integer_Add d e : integer (Add d e) = integer d + integer e. Proof. done. Qed.
Lemma integer_Sub d e : integer (Sub d e) = integer d - integer e. Proof. done. Qed.
Lemma integer_Zero : integer Zero = 0. Proof. done. Qed.
Create Rewrite HintDb go_dec.
#[export] Hint Rewrite integer_Neg integer_Add integer_Sub integer_Zero : go_dec.
Lemma Sign_pos d : 0 < Sign d -> 0 < integer d.
Proof. rewrite Sign_integer. lia. Qed.
Lemma Sign_nonneg d : 0 <= Sign d -> 0 <= integer d.
Proof. rewrite Sign_integer. lia. Qed.
Lemma Cmp_le d e : (0 <? Cmp d e) = false -> integer d <= integer e.
Proof. rewrite Cmp_spec. intros H%Z.ltb_ge. lia. Qed.
Lemma Mul_nonneg d e : 0 <= integer d -> 0 <= integer e -> 0 <= integer (Mul d e).
Proof.
  intros Hd He. cbn [Mul integer dec value]. rewrite roundQuotient_nonneg by (unfold factor; nia).
  rewrite <- (half_up_mul 0 factor) by done. apply half_up_mono; [done | nia].
Qed.

(** The economic facts a validated command carries. *)
Record valid_fill (command : FillCommand) : Prop := {
  vf_side : C_Side command = "buy" \/ C_Side command = "sell";
  vf_quantity : 0 < integer (C_Quantity command);
  vf_price : 0 < integer (C_FillPrice command);
  vf_fee : 0 <= integer (C_Fee command);
  vf_account : C_AccountID command = DefaultAccountID }.

Ltac cbn_command :=
  cbn [C_IdempotencyKey C_AccountID C_Symbol C_Side C_Quantity C_RequestedPrice C_FillPrice C_Fee
       C_FeeType C_Currency C_ExecutionMode C_ProviderFillID C_ProviderOrderID C_VenueID C_FeeCurrency
       C_ExistingOrderID C_OccurredAt C_CostModelVersion set_ids] in *.

Lemma checkFill_valid command0 command : checkFill command0 = Ok command ->
  valid_fill command /\ C_OccurredAt command = C_OccurredAt command0.
Proof.
  unfold checkFill, requirePrimaryAccount. cbn_command. intros H.
  destruct (_ || _)%bool eqn:Ha in H; cbn [rbind] in H; [|discriminate]. res_inv.
  match goal with H : validateFill _ = Ok _ |- _ => rename H into Hv end.
  unfold validateFill in Hv. cbn_command. res_inv. bool_prop. split; [|done].
  split; cbn; rewrite ?Sign_integer in *; try lia.
  - destruct (String.eqb_spec (C_Side command0) "buy"); [by left|].
    destruct (String.eqb_spec (C_Side command0) "sell"); [by right|]. discriminate.
  - unfold orDefault. destruct (String.eqb_spec (C_AccountID command0) ""); [done|].
    apply orb_true_iff in Ha as [Ha|Ha]; bool_prop; [done | exact Ha].
Qed.

(** The stamped command keeps all that the checks returned but the time. *)
Definition stamped (command : FillCommand) (at_ : Time) : FillCommand :=
  set_ids command (C_AccountID command) (C_VenueID command) (C_FeeCurrency command)
    (C_CostModelVersion command) (C_ExistingOrderID command) at_.
Lemma prepareFill_Ok now command0 command recordedAt :
  prepareFill now command0 = Ok (command, recordedAt) <->
  exists checked at_, checkFill command0 = Ok checked /\
    stampTimes now (C_OccurredAt checked) = Ok (at_, recordedAt) /\ command = stamped checked at_.
Proof.
  unfold prepareFill. split.
  - intros H. res_inv. match goal with H : (let '(_, _) := ?x in _) = Ok _ |- _ => destruct x end. res_inv. eauto.
  - intros (checked & at_ & -> & Hs & ->). cbn. by rewrite Hs.
Qed.
Lemma prepareFill_valid now command0 command recordedAt :
  prepareFill now command0 = Ok (command, recordedAt) -> valid_fill command.
Proof.
  intros (checked & at_ & [Hv _]%checkFill_valid & _ & ->)%prepareFill_Ok. by destruct Hv.
Qed.

(** ** The position *)
Definition fill_delta (command : FillCommand) (realized basisDelta : Decimal) : Sums :=
  mkSums (if C_Side command =s "buy" then integer (C_Quantity command) else - integer (C_Quantity command))
    (integer basisDelta) (integer realized - integer (C_Fee command)) (integer (C_Fee command)).

Lemma bought_sums command p opening gross :
  exact_sums (Ps_exact (bought command p opening gross)) =
  add_sums (exact_sums (Ps_exact p))
    (mkSums (integer (C_Quantity command)) (integer gross) (- integer (C_Fee command)) (integer (C_Fee command))).
Proof. unfold exact_sums, add_sums, int_of. cbn. f_equal. Qed.

Lemma sold_sums command p oldQuantity oldBasis gross p' realized released :
  AmountExact (Ps_exact p) = Some oldQuantity -> CostBasisExact (Ps_exact p) = Some oldBasis ->
  sold command p oldQuantity oldBasis gross = (p', realized, released) ->
  exact_sums (Ps_exact p') =
  add_sums (exact_sums (Ps_exact p))
    (mkSums (- integer (C_Quantity command)) (- integer released)
       (integer realized - integer (C_Fee command)) (integer (C_Fee command))) /\
  integer realized = integer gross - integer released.
Proof.
  intros Ha Hb [= <- <- <-]. unfold exact_sums, add_sums, int_of. rewrite Ha, Hb. cbn. split; [f_equal; lia | done].
Qed.

Lemma bought_good command p opening gross : valid_fill command -> 0 <= integer gross ->
  Ps_AccountID p = DefaultAccountID -> 0 <= s_amount (exact_sums (Ps_exact p)) ->
  0 <= s_basis (exact_sums (Ps_exact p)) -> Status (Ps_cycle p) = "open" ->
  good_position (bought command p opening gross).
Proof.
  intros [_ Hq _ Hf _] Hg Ha H1 H2 Ho.
  pose proof (bought_sums command p opening gross) as E. split; [done|..]; rewrite ?E; cbn [s_amount s_basis add_sums].
  - lia.
  - lia.
  - intros []. done.
  - done.
Qed.

Lemma sold_good command p oldQuantity oldBasis gross p' realized released :
  valid_fill command -> good_position p -> is_open p = true ->
  AmountExact (Ps_exact p) = Some oldQuantity -> CostBasisExact (Ps_exact p) = Some oldBasis ->
  integer (C_Quantity command) <= integer oldQuantity ->
  sold command p oldQuantity oldBasis gross = (p', realized, released) ->
  good_position p' /\ 0 <= integer released <= integer oldBasis /\
  (integer (C_Quantity command) = integer oldQuantity -> integer released = integer oldBasis).
Proof.
  intros [_ Hq _ Hf _] [Hacc Ham Hba _ _] Hopen Ha Hb Hle Hs.
  destruct (sold_sums _ _ _ _ _ _ _ _ Ha Hb Hs) as [E _].
  unfold exact_sums, int_of in Ham, Hba. rewrite Ha in Ham. rewrite Hb in Hba. cbn in Ham, Hba.
  assert (Hrel : 0 <= integer released <= integer oldBasis /\
    (integer (C_Quantity command) = integer oldQuantity -> integer released = integer oldBasis)).
  { injection Hs as _ _ <-. rewrite MulDiv_Ok by lia. cbn [ignore_err integer dec value].
    split; [apply release_bounds; lia|]. intros ->. apply roundQuotient_exact. lia. }
  destruct Hrel as [Hrel Hfull]. split; [|done].
  assert (Eq : s_amount (exact_sums (Ps_exact p)) = integer oldQuantity /\
    s_basis (exact_sums (Ps_exact p)) = integer oldBasis).
  { unfold exact_sums, int_of. by rewrite Ha, Hb. }
  destruct Eq as [Eq Eb].
  split; rewrite ?E; cbn [s_amount s_basis add_sums]; rewrite ?Eq, ?Eb.
  - by injection Hs as <- _ _.
  - lia.
  - lia.
  - intros Hst. assert (Hz : integer (Sub oldQuantity (C_Quantity command)) = 0).
    { injection Hs as <- _ _. cbn [Ps_cycle] in Hst. rewrite Sign_eqb_0 in Hst.
      destruct (Z.eqb_spec (integer (Sub oldQuantity (C_Quantity command))) 0) as [Ez|]; [done|].
      destruct Hst. by apply eqb_true_eq. }
    cbn in Hz. rewrite Hfull by lia. lia.
  - by injection Hs as <- _ _.
Qed.

Definition with_positions (db : DB) (l : list Position) (next : Z) : DB :=
  mkDB (wallets db) l (orders db) (fills db) (events db) (batches db) (ingestions db) (states db) next
    (next_order db).

(** What a position posting of a symbol does to the positions. *)
Record position_posted (db db' : DB) (symbol : string) (delta : Sums) : Prop := {
  pp_frame : db' = with_positions db (positions db') (next_position db');
  pp_ok : positions_ok (next_position db') (positions db');
  pp_next : 0 < next_position db';
  pp_projection : forall s, projection db' s =
    add_sums (projection db s) (if symbol =s s then delta else zero_sums) }.

Lemma posted_replace db p p' delta :
  positions_ok (next_position db) (positions db) -> 0 < next_position db -> p ∈ positions db ->
  Ps_ID p' = Ps_ID p -> Ps_Symbol p' = Ps_Symbol p -> good_position p' ->
  exact_sums (Ps_exact p') = add_sums (exact_sums (Ps_exact p)) delta ->
  position_posted db (set_positions (replace_position p') db) (Ps_Symbol p) delta.
Proof.
  intros Hok Hn Hp Hid Hs Hg E. split; [by destruct db | by eapply replace_ok | done |].
  intros s. unfold projection. cbn [positions set_positions]. erewrite replace_projection by done.
  destruct (String.eqb_spec (Ps_Symbol p) s) as [<-|]; [|by rewrite add_sums_0_r].
  by rewrite E, projection_in_found by (done || apply (po_symbols _ _ Hok)).
Qed.
Lemma posted_append db p delta :
  positions_ok (next_position db) (positions db) -> 0 < next_position db ->
  Ps_ID p = next_position db -> (forall q, q ∈ positions db -> Ps_Symbol q <> Ps_Symbol p) ->
  good_position p -> exact_sums (Ps_exact p) = delta ->
  position_posted db (bump_position (set_positions (fun l => l ++ [p]) db)) (Ps_Symbol p) delta.
Proof.
  intros Hok Hn Hid Hs Hg E. split; [by destruct db | by apply append_ok | cbn; lia |].
  intros s. unfold projection. cbn [positions set_positions bump_position]. rewrite append_projection by done.
  destruct (String.eqb_spec (Ps_Symbol p) s) as [<-|]; [|by rewrite add_sums_0_r].
  rewrite E, projection_in_absent by done. by rewrite add_sums_0_l.
Qed.

(** The row a fill of a symbol finds. *)
Lemma FirstPositionOf_Ok account symbol db p db' : FirstPositionOf account symbol db = (Ok p, db') ->
  db' = db /\ p ∈ positions db /\ Ps_Symbol p = symbol /\ Ps_AccountID p = account.
Proof.
  unfold FirstPositionOf. intros H. tx_inv.
  match goal with H : where_ _ _ = Some _ |- _ => apply where_Some in H as [Hp H] end. by bool_prop.
Qed.
Lemma row_of command db row db' : Forall good_position (positions db) ->
  C_AccountID command = DefaultAccountID ->
  or_not_found (FirstPositionOf (C_AccountID command) (C_Symbol command)) db = (Ok row, db') ->
  db' = db /\ match row with
              | Some p => p ∈ positions db /\ Ps_Symbol p = C_Symbol command
              | None => forall q, q ∈ positions db -> Ps_Symbol q <> C_Symbol command
              end.
Proof.
  intros Hg Ha H. apply or_not_found_Ok in H. destruct row as [p|].
  - apply FirstPositionOf_Ok in H as (-> & ? & ? & _). auto.
  - destruct H as (e & H & _). unfold FirstPositionOf, sbind, get, found, slift in H. cbn in H.
    destruct (where_ _ (positions db)) eqn:E; [discriminate|]. injection H as _ <-. split; [done|].
    intros q Hq Es. pose proof (where_None _ _ E q Hq) as Hx. cbn in Hx. rewrite Forall_forall in Hg.
    by rewrite Es, (gp_account _ (Hg q Hq)), Ha, !String.eqb_refl in Hx.
Qed.

Lemma positionForBuy_Ok command row p opening : C_AccountID command = DefaultAccountID ->
  (forall q, row = Some q -> good_position q /\ Ps_Symbol q = C_Symbol command) ->
  positionForBuy command row = Ok (p, opening) ->
  Ps_AccountID p = DefaultAccountID /\ Status (Ps_cycle p) = "open" /\ Ps_Symbol p = C_Symbol command /\
  exact_sums (Ps_exact p) = match row with Some q => exact_sums (Ps_exact q) | None => zero_sums end /\
  Ps_ID p = match row with Some q => Ps_ID q | None => 0 end.
Proof.
  intros Ha Hrow. unfold positionForBuy. destruct row as [q|].
  - destruct (Hrow q eq_refl) as [[Hacc Ham Hba Hcl Hab] Hs]. unfold is_open.
    destruct (Status (Ps_cycle q) =s "open") eqn:Ho; cbn [negb]; bool_prop.
    + destruct (has_projection q); [intros [= <- <-] | discriminate]. by repeat split.
    + destruct (has_projection q); [intros [= <- <-] | discriminate].
      destruct (Hcl Ho) as [E1 E2]. split_and!; try done.
      unfold exact_sums in *. cbn in *. by rewrite E1, E2.
  - intros [= <- <-]. by repeat split.
Qed.

(** The terms of a sale: no more than held, a proportional part of the basis
    released, all of it when the position closes. *)
Record sale_terms (command : FillCommand) (gross : Decimal) (db : DB) (p' : Position)
    (realized basisDelta : Decimal) : Prop := {
  st_realized : integer realized = integer gross + integer basisDelta;
  st_held : integer (C_Quantity command) <= s_amount (projection db (C_Symbol command));
  st_released : 0 <= - integer basisDelta <= s_basis (projection db (C_Symbol command));
  st_full : integer (C_Quantity command) = s_amount (projection db (C_Symbol command)) ->
    - integer basisDelta = s_basis (projection db (C_Symbol command)) /\ Status (Ps_cycle p') = "closed";
  st_partial : integer (C_Quantity command) < s_amount (projection db (C_Symbol command)) ->
    Status (Ps_cycle p') = "open" }.

Lemma position_defaults_good id_ p : good_position p -> good_position (position_defaults id_ p).
Proof.
  intros [H1 H2 H3 H4 H5]. split; cbn [position_defaults Ps_AccountID Ps_exact Ps_cycle Status]; try done.
  - by rewrite H1.
  - unfold orDefault. destruct (String.eqb_spec (Status (Ps_cycle p)) ""); [done | exact H4].
Qed.

Lemma buy_posted command gross db row p' basisDelta realized db' :
  valid_fill command -> 0 <= integer gross -> positions_ok (next_position db) (positions db) ->
  0 < next_position db ->
  match row with
  | Some p => p ∈ positions db /\ Ps_Symbol p = C_Symbol command
  | None => forall q, q ∈ positions db -> Ps_Symbol q <> C_Symbol command
  end ->
  (let! (position, opening) := slift (positionForBuy command row) in
   let position := bought command position opening gross in
   if Ps_ID position =? 0 then
     let! created := CreatePosition position in sret (created, Zero, gross)
   else let! _ := SavePosition position in sret (position, Zero, gross)) db
  = (Ok (p', realized, basisDelta), db') ->
  position_posted db db' (C_Symbol command)
    (mkSums (integer (C_Quantity command)) (integer gross) (- integer (C_Fee command)) (integer (C_Fee command))) /\
  realized = Zero /\ basisDelta = gross /\ p' ∈ positions db' /\ Ps_Symbol p' = C_Symbol command.
Proof.
  intros Hv Hg Hok Hn Hrow H. pose proof (po_good _ _ Hok) as Hgood. rewrite Forall_forall in Hgood.
  tx_inv. subst a. apply positionForBuy_Ok in E as (Ha & Ho & Hs & Ex & Hid); [|apply Hv|].
  2: { intros q ->. destruct Hrow. auto. }
  pose proof (bought_sums command p b gross) as Eb. rewrite Ex in Eb.
  assert (Hgb : good_position (bought command p b gross)).
  { apply bought_good; try done; rewrite Ex; destruct row as [q|]; try done; apply Hgood, Hrow. }
  cbn [bought Ps_ID] in H. rewrite Hid in H. destruct row as [q|].
  - destruct Hrow as [Hq Hsq]. pose proof (po_range _ _ Hok) as Hr. rewrite Forall_forall in Hr.
    apply Hr in Hq as Hrq. rewrite (proj2 (Z.eqb_neq _ _)) in H by lia. tx_inv.
    apply SavePosition_Ok in E as ->. rewrite <- Hsq. split_and!; [|done|done| |].
    + apply posted_replace; cbn; try done; congruence.
    + cbn. eapply replace_has; [exact Hq | done].
    + cbn. congruence.
  - rewrite Z.eqb_refl in H. tx_inv. apply CreatePosition_Ok in E as (Ep & _ & Hns & ->).
    assert (Hsp : Ps_Symbol p' = C_Symbol command) by (subst p'; done). rewrite <- Hsp.
    split_and!; [|done|done| |done].
    + apply posted_append; [done|done|by subst p'|done| |].
      * subst p'. by apply position_defaults_good.
      * subst p'. rewrite add_sums_0_l in Eb. exact Eb.
    + cbn. apply elem_of_app. right. by apply list_elem_of_singleton.
Qed.

Lemma applyPosition_posted command gross db p' realized basisDelta db' :
  valid_fill command -> 0 <= integer gross -> positions_ok (next_position db) (positions db) ->
  0 < next_position db ->
  applyPosition command gross db = (Ok (p', realized, basisDelta), db') ->
  position_posted db db' (C_Symbol command) (fill_delta command realized basisDelta) /\
  p' ∈ positions db' /\ Ps_Symbol p' = C_Symbol command /\
  (C_Side command = "buy" -> realized = Zero /\ basisDelta = gross) /\
  (C_Side command <> "buy" -> sale_terms command gross db p' realized basisDelta).
Proof.
  intros Hv Hg Hok Hn H. unfold applyPosition in H. apply sbind_Ok in H as (row & d & E & H).
  pose proof (po_good _ _ Hok) as Hgood. apply row_of in E as [-> Hrow]; [|done | apply Hv].
  rewrite Forall_forall in Hgood. unfold fill_delta. destruct (String.eqb_spec (C_Side command) "buy") as [Es|Es].
  - apply buy_posted in H as (H & -> & -> & Hp & Hs); done.

  - destruct row as [p|]; [|discriminate]. destruct Hrow as [Hp Hs]. tx_inv.
    match goal with H : AmountExact _ = Some _ |- _ => rename H into Eq end.
    match goal with H : CostBasisExact _ = Some _ |- _ => rename H into Eb end.
    match goal with H : (0 <? Cmp _ _) = false |- _ => apply Cmp_le in H as Hle end.
    match goal with H : negb (is_open _) = false |- _ => apply negb_false_iff in H as Ho end.
    match goal with H : sold _ _ _ _ _ = _ |- _ => rename H into Hsold end.
    destruct (sold_sums _ _ _ _ _ _ _ _ Eq Eb Hsold) as [Ex Er].
    destruct (sold_good _ _ _ _ _ _ _ _ Hv (Hgood p Hp) Ho Eq Eb Hle Hsold) as (Hgp & Hrel & Hfull).
    apply SavePosition_Ok in E as ->. rewrite <- Hs.
    assert (Hids : Ps_ID p' = Ps_ID p /\ Ps_Symbol p' = Ps_Symbol p) by (injection Hsold as <- _ _; done).
    destruct Hids as [Hid Hsy]. split_and!; [| | done | done | intros _].
    + apply posted_replace; done.
    + cbn. by eapply replace_has.
    + pose proof (projection_in_found _ _ (po_symbols _ _ Hok) Hp) as Epr.
      split; unfold projection; rewrite <- ?Hs, ?Epr; unfold exact_sums, int_of; rewrite ?Eq, ?Eb;
        cbn [default from_option id s_amount s_basis]; autorewrite with go_dec; try lia.
      * intros E. split; [rewrite Hfull by done; lia|]. injection Hsold as <- _ _. cbn [Ps_cycle Status].
        rewrite Sign_eqb_0, integer_Sub, E, Z.sub_diag. done.
      * intros E. injection Hsold as <- _ _. cbn [Ps_cycle Status].
        rewrite Sign_eqb_0, integer_Sub, (proj2 (Z.eqb_neq _ _)) by lia. by apply eqb_true_eq.
Qed.

(** ** Orders and events *)
Record orders_ok (db : DB) : Prop := {
  oo_ids : NoDup (O_ID <$> orders db);
  oo_range : Forall (fun o => 0 < O_ID o < next_order db) (orders db);
  oo_next : 0 < next_order db }.
Definition with_orders (db : DB) (l : list Order) (next : Z) : DB :=
  mkDB (wallets db) (positions db) l (fills db) (events db) (batches db) (ingestions db) (states db)
    (next_position db) next.
Definition with_events (db : DB) (l : list LedgerEvent) : DB :=
  mkDB (wallets db) (positions db) (orders db) (fills db) l (batches db) (ingestions db) (states db)
    (next_position db) (next_order db).

Lemma SaveOrder_ok o o' db u db' : orders_ok db -> o ∈ orders db -> O_ID o' = O_ID o ->
  SaveOrder o' db = (Ok u, db') ->
  db' = with_orders db (orders db') (next_order db') /\ orders_ok db' /\ o' ∈ orders db'.
Proof.
  intros [H1 H2 H3] Ho Hid H. unfold SaveOrder in H. tx_inv. cbn.
  rewrite Forall_forall in H2.
  assert (Eids : O_ID <$> ((fun x => if O_ID x =? O_ID o' then o' else x) <$> orders db) = O_ID <$> orders db).
  { rewrite <- list_fmap_compose. apply list_fmap_ext. intros i x Hx. cbn.
    destruct (Z.eqb_spec (O_ID x) (O_ID o')); congruence. }
  split_and!; [done | split; cbn; [by rewrite Eids | | done] | ].
  - apply Forall_forall. intros x (y & -> & Hy)%list_elem_of_fmap.
    destruct (O_ID y =? O_ID o'); [rewrite Hid|]; by apply H2.
  - apply list_elem_of_fmap. exists o. by rewrite Hid, Z.eqb_refl.
Qed.
Lemma CreateOrder_ok o0 db o db' : orders_ok db -> CreateOrder o0 db = (Ok o, db') ->
  db' = with_orders db (orders db') (next_order db') /\ orders_ok db' /\ o ∈ orders db'.
Proof.
  intros [H1 H2 H3] (Eo & ->)%CreateOrder_Ok. rewrite Forall_forall in H2. subst o. split_and!; [done | | ].
  - split; cbn; [| |lia].
    + rewrite fmap_app. apply NoDup_app. split_and!; [done | | apply NoDup_singleton].
      intros x (q & -> & Hq)%list_elem_of_fmap E%list_elem_of_singleton. apply H2 in Hq. cbn in E. lia.
    + apply Forall_app. split; [|constructor; [cbn; lia | constructor]].
      apply Forall_forall. intros q Hq. apply H2 in Hq. lia.
  - cbn. apply elem_of_app. right. by apply list_elem_of_singleton.
Qed.
Lemma filledOrder_id stage08 order command gross o : filledOrder stage08 order command gross = Ok o ->
  O_ID o = O_ID order.
Proof.
  unfold filledOrder. destruct (orderTotals order command gross) as [[q g] f]. intros H. res_inv. done.
Qed.
Lemma upsertFilledOrder_ok stage08 command gross db o db' : orders_ok db ->
  upsertFilledOrder stage08 command gross db = (Ok o, db') ->
  db' = with_orders db (orders db') (next_order db') /\ orders_ok db' /\ o ∈ orders db'.
Proof.
  intros Hok H. unfold upsertFilledOrder in H. tx_inv.
  match goal with H : filledOrder _ _ _ _ = Ok _ |- _ => apply filledOrder_id in H as Hid end.
  destruct (0 <? C_ExistingOrderID command).
  - tx_inv. unfold FirstOrder in *. tx_inv.
    match goal with H : where_ _ _ = Some _ |- _ => apply where_Some in H as [Hin _] end.
    pose proof (oo_range _ Hok) as Hr. rewrite Forall_forall in Hr. apply Hr in Hin as Hrange.
    rewrite (proj2 (Z.eqb_neq _ _)) in H by lia. tx_inv. eapply SaveOrder_ok; eauto.
  - tx_inv. rewrite Hid in H. change (O_ID (newOrder command)) with 0 in H. rewrite Z.eqb_refl in H. by eapply CreateOrder_ok.
Qed.

Definition event_accepted (db : DB) (e : LedgerEvent) : Prop :=
  E_AccountID e = DefaultAccountID /\ event_signs e = true /\
  exists w, w ∈ wallets db /\ W_Currency w = E_Currency e.
Lemma CreateEvents_ok l db r db' : CreateEvents l db = (Ok r, db') ->
  db' = with_events db (events db ++ (event_defaults <$> l)) /\
  Forall (event_accepted db) (event_defaults <$> l).
Proof.
  revert db r. induction l as [|e l IH]; intros db r H; cbn [CreateEvents] in H; tx_inv.
  - split; [|constructor]. rewrite app_nil_r. by destruct db'.
  - apply CreateEvent_Ok in E as (-> & Ha & Hs & Hw & ->). apply IH in E0 as [-> Hf].
    rewrite fmap_cons. split; [by cbn; rewrite <- app_assoc|]. constructor; [|exact Hf]. done.
Qed.

(** ** The effect of a fill *)
Section Effect.
Context (guards : DB -> DB -> res unit) (SetRole : res unit) (AfterWrite : string -> res unit).
Context (now : nat -> Time) (sha256hex : string -> string).
Context (MarshalFill : FillCommand -> res string) (MarshalMetadata : Metadata -> res string)
  (Stage08 : FillCommand -> string).

Definition fill_gross (command : FillCommand) : Decimal := Mul (C_Quantity command) (C_FillPrice command).
Definition fill_cash (command : FillCommand) : Decimal :=
  if C_Side command =s "buy" then Neg (fill_gross command) else fill_gross command.
Definition fill_asset (command : FillCommand) : Decimal :=
  if C_Side command =s "buy" then C_Quantity command else Neg (C_Quantity command).
Definition posted_events (command : FillCommand) (recordedAt : Time) (metadata : string) (order : Order)
    (position : Position) (realized basisDelta : Decimal) : list LedgerEvent :=
  event_defaults <$> fillEvents sha256hex Stage08 command recordedAt metadata order position
    (fill_cash command) (fill_asset command) realized basisDelta.

(** What a new fill leaves behind: [w] and [b] are the wallet row and its
    balance before. *)
Record fill_posted (command : FillCommand) (recordedAt : Time) (metadata : string) (db db' : DB)
    (r : FillResult) (w : Wallet) (b realized basisDelta : Decimal) : Prop := {
  fp_before : wallets db = [w] /\ W_BalanceExact w = Some b;
  fp_wallet : R_Wallet r = set_balance w (Sub (Add b (fill_cash command)) (C_Fee command));
  fp_nonneg : 0 <= integer b + integer (fill_cash command) - integer (C_Fee command);
  fp_wallets : wallets db' = [R_Wallet r];
  fp_posted : position_posted db (with_positions db (positions db') (next_position db')) (C_Symbol command)
                (fill_delta command realized basisDelta);
  fp_position : R_Position r ∈ positions db' /\ Ps_Symbol (R_Position r) = C_Symbol command;
  fp_order : orders_ok db' /\ R_Order r ∈ orders db';
  fp_fill : R_Fill r = fillRow sha256hex Stage08 command recordedAt (R_Order r) (R_Position r) (fill_gross command);
  fp_fills : fills db' = fills db ++ [R_Fill r] /\
    Forall (fun f => F_LedgerBatchID f <> C_IdempotencyKey command) (fills db);
  fp_events : let evs := posted_events command recordedAt metadata (R_Order r) (R_Position r) realized basisDelta in
    events db' = events db ++ evs /\ Forall (event_accepted db') evs;
  fp_frame : batches db' = batches db /\ states db' = states db /\ ingestions db' = ingestions db;
  fp_ready : exists s, states db !! C_AccountID command = Some s /\ S_Status s = "ready";
  fp_new : AlreadyApplied r = false;
  fp_buy : C_Side command = "buy" -> realized = Zero /\ basisDelta = fill_gross command;
  fp_sell : C_Side command <> "buy" ->
    sale_terms command (fill_gross command) db (R_Position r) realized basisDelta }.

Lemma requireReady_Ok account db u db' : requireReady account db = (Ok u, db') ->
  db' = db /\ exists s, states db !! account = Some s /\ S_Status s = "ready".
Proof.
  unfold requireReady, FirstState, sbind, get, found, slift. cbn.
  destruct (states db !! account) as [s|]; [|done]. destruct (S_Status s =s "ready") eqn:E; [|done].
  intros [= <- <-]. bool_prop. eauto.
Qed.

Lemma applyNewFill_posted command recordedAt metadata db r db' :
  valid_fill command -> reconciled db -> orders_ok db ->
  applyNewFill AfterWrite sha256hex Stage08 command recordedAt metadata db = (Ok r, db') ->
  exists w b realized basisDelta, fill_posted command recordedAt metadata db db' r w b realized basisDelta.
Proof.
  intros Hv Hr Ho H. pose proof (rc_wallet _ Hr) as (w & Ew & Hacc & _). unfold applyNewFill, FirstWallet in H.
  apply sbind_Ok in H as (u & d0 & E0 & H). apply requireReady_Ok in E0 as [-> Hready].
  tx_inv. rewrite Ew in *. match goal with H : head _ = Some _ |- _ => injection H as <- end.
  tx_inv. unfold fail in *. bool_prop. rename d0 into db.
  fold (fill_gross command) in *. fold (fill_cash command) in *. fold (fill_asset command) in *.
  repeat match goal with
  | H : slift (AfterWrite _) _ = (Ok _, _) |- _ => apply slift_Ok in H as [_ ->]
  end.
  match goal with H : applyPosition _ _ _ = _ |- _ => rename H into Hpos end.
  apply applyPosition_posted in Hpos as (Hpp & Hin & Hsym & Hbuy & Hsell);
    [| done | apply Mul_nonneg; pose proof (vf_quantity _ Hv); pose proof (vf_price _ Hv); lia
     | apply (rc_positions _ Hr) | apply (rc_next _ Hr)].
  match goal with H : SaveWallet _ _ = _ |- _ => apply SaveWallet_Ok in H as -> end.
  match goal with H : upsertFilledOrder _ _ _ _ = _ |- _ => rename H into Hord end.
  pose proof (pp_frame _ _ _ _ Hpp) as Ed1.
  apply upsertFilledOrder_ok in Hord as (Ed6 & Ho6 & Hino); [|rewrite Ed1; by destruct Ho].
  match goal with H : CreateFill _ _ = _ |- _ => apply CreateFill_Ok in H as (-> & _ & _ & _ & Hfr) end.
  match goal with H : CreateEvents _ _ = _ |- _ => apply CreateEvents_ok in H as [-> Hev] end.
  do 4 eexists. rewrite Ed6, Ed1 in *. split; cbn in *; try done.
  - match goal with H : 0 <= Z.sgn _ |- _ => revert H end. lia.
  - rewrite Ew. cbn. by rewrite Z.eqb_refl.
  - split; [|done]. by destruct Ho6.
Qed.

(** The events of a fill sum to what the fill did. *)
Lemma posted_events_symbol command recordedAt metadata order position realized basisDelta :
  Forall (fun e => E_Symbol e = C_Symbol command)
    (posted_events command recordedAt metadata order position realized basisDelta).
Proof. unfold posted_events, fillEvents. destruct (0 <? Sign (C_Fee command)); repeat constructor. Qed.
Lemma posted_events_fill command recordedAt metadata order position realized basisDelta :
  Forall (fun e => is_Some (E_FillID e))
    (posted_events command recordedAt metadata order position realized basisDelta).
Proof. unfold posted_events, fillEvents. destruct (0 <? Sign (C_Fee command)); repeat constructor; eauto. Qed.
Lemma no_fee command : 0 <= integer (C_Fee command) -> (0 <? Sign (C_Fee command)) = false ->
  integer (C_Fee command) = 0.
Proof. rewrite Sign_integer. intros H1 H2%Z.ltb_ge. lia. Qed.
Lemma posted_events_sums command recordedAt metadata order position realized basisDelta :
  0 <= integer (C_Fee command) ->
  total_sums (posted_events command recordedAt metadata order position realized basisDelta) =
  fill_delta command realized basisDelta /\
  cash_sum (posted_events command recordedAt metadata order position realized basisDelta) =
  integer (fill_cash command) - integer (C_Fee command).
Proof.
  intros Hf. unfold posted_events. rewrite total_defaults, cash_defaults.
  unfold fillEvents, cash_sum, fill_delta, fill_asset, event_sums, add_sums, total_sums.
  destruct (C_Side command =s "buy"); destruct (0 <? Sign (C_Fee command)) eqn:E;
    try (apply no_fee in E; [|done]); cbn -[integer Neg Zero];
    unfold event_sums, add_sums; cbn -[integer Neg Zero]; autorewrite with go_dec;
    (split; [f_equal; lia | lia]).
Qed.

Lemma fill_posted_reconciled command recordedAt metadata db db' r w b realized basisDelta :
  valid_fill command -> reconciled db ->
  fill_posted command recordedAt metadata db db' r w b realized basisDelta -> reconciled db'.
Proof.
  intros Hv Hr [[Ew Eb] EW Hnn Ew' Hpp _ _ _ _ [Ee Hacc] _ _ _ _ _].
  pose proof (vf_fee _ Hv) as Hfee.
  destruct (posted_events_sums command recordedAt metadata (R_Order r) (R_Position r) realized basisDelta Hfee)
    as [Hs Hc].
  eapply reconciled_post with (w := w) (w' := R_Wallet r); [exact Hr | done | done | | | exact Ee | | | | | | |].
  - by rewrite EW.
  - by rewrite EW.
  - eapply Forall_impl; [apply Forall_and; split; [exact Hacc | apply posted_events_fill]|].
    intros e [(Ha & _) [i Hi]]. split; [done|]. congruence.
  - eapply Forall_impl; [exact Hacc|]. intros e (_ & _ & v & Hv' & Hcur). rewrite Ew' in Hv'.
    apply list_elem_of_singleton in Hv' as ->. rewrite <- Hcur, EW. done.
  - rewrite Hc, EW, Eb. unfold int_of. cbn -[integer Add Sub]. autorewrite with go_dec. lia.
  - rewrite EW. unfold int_of. cbn -[integer Add Sub]. autorewrite with go_dec. lia.
  - apply (pp_ok _ _ _ _ Hpp).
  - apply (pp_next _ _ _ _ Hpp).
  - intros s. erewrite (ledger_sums_one (C_Symbol command)) by apply posted_events_symbol.
    rewrite Hs. apply (pp_projection _ _ _ _ Hpp).
Qed.

(** ** Whole calls *)

(** Nothing happens before the opening balance. *)
Definition opening_batch : string := "legacy-opening-" +:+ DefaultAccountID.
Definition opened (db : DB) : Prop :=
  batches db !! opening_batch = None -> events db = [] /\ states db !! DefaultAccountID = None.
Record ledger_ok (db : DB) : Prop := {
  lo_reconciled : reconciled db; lo_orders : orders_ok db; lo_opened : opened db }.

Lemma opened_ready db s : opened db -> states db !! DefaultAccountID = Some s ->
  is_Some (batches db !! opening_batch).
Proof. intros H Hs. destruct (batches db !! opening_batch) eqn:E; [eauto|]. destruct (H E). congruence. Qed.
Lemma opened_is_Some db : is_Some (batches db !! opening_batch) -> opened db.
Proof. intros [row E] H. congruence. Qed.
Lemma insert_is_Some {A} (m : gmap string A) k k' a : is_Some (m !! k') -> is_Some (<[k := a]> m !! k').
Proof. intros [x E]. destruct (decide (k = k')) as [->|]; [rewrite lookup_insert_eq | rewrite lookup_insert_ne by done]; eauto. Qed.

Lemma beginBatch_Ok id_ account hash at_ db already db' :
  beginBatch id_ account hash at_ db = (Ok already, db') ->
  if already then db' = db /\ exists row, batches db !! id_ = Some row /\ LB_PayloadHash row = hash
  else batches db !! id_ = None /\ db' = set_batches (fun m => <[id_ := mkBatchRow account hash at_]> m) db.
Proof.
  unfold beginBatch. intros H. tx_inv. apply or_not_found_Ok in E. destruct a as [row|].
  - unfold FirstBatch in E. tx_inv. bool_prop. eauto.
  - destruct E as (e & E & _). unfold FirstBatch, sbind, get, found, slift in E. cbn in E.
    destruct (batches db !! id_) eqn:Eb; [discriminate|]. injection E as _ <-. tx_inv.
    by apply CreateBatch_Ok in E as [_ ->].
Qed.

Lemma loadFillResult_Ok batchID db r db' : loadFillResult batchID db = (Ok r, db') -> db' = db.
Proof.
  unfold loadFillResult, FirstFillOfBatch, FirstOrder, FirstPosition, FirstWallet. intros H. by tx_inv.
Qed.
Lemma fillBody_ok command recordedAt hash metadata db r db' : valid_fill command -> ledger_ok db ->
  fillBody SetRole AfterWrite sha256hex Stage08 command recordedAt hash metadata db = (Ok r, db') ->
  ledger_ok db'.
Proof.
  intros Hv Hok H. unfold fillBody, allowLedgerProjectionWrites, lockAccount in H. tx_inv.
  match goal with H : beginBatch _ _ _ _ _ = (Ok ?x, _) |- _ => rename x into already; apply beginBatch_Ok in H as Hb end.
  destruct already.
  - destruct Hb as [-> _]. tx_inv. match goal with H : loadFillResult _ _ = _ |- _ => by apply loadFillResult_Ok in H as -> end.
  - destruct Hb as [_ ->].
    destruct Hok as [Hr Ho Hop]. apply applyNewFill_posted in H as (w & b & realized & basisDelta & Hp);
      [|done | by eapply reconciled_proper; [symmetry; apply same_books_batches|] | by destruct Ho].
    pose proof Hp as [].
    split; [eapply fill_posted_reconciled; [done | | exact Hp] | apply fp_order0 |].
    + by eapply reconciled_proper; [symmetry; apply same_books_batches|].
    + apply opened_is_Some. destruct fp_frame0 as (-> & _). cbn. apply insert_is_Some.
      destruct fp_ready0 as (s & Hs & _). rewrite (vf_account _ Hv) in Hs. by eapply opened_ready.
Qed.
End Effect.
