(* ===== verification/LedgerBooks.v ===== *)
(** * LedgerBooks: the ledger stays reconciled

    Every command of the service keeps the wallet and the positions equal to
    the sums of the events, from the state before the opening balance on. *)
From stdpp Require Import base numbers strings gmap list.
From S2P Require Import Prelude GoStrings GoFloat Accounting Snapshots LedgerModel Ledger LedgerAdmin.
From S2P Require Import LedgerFacts LedgerFill.
Local Open Scope Z_scope.

Lemma reconciled_batches f db : reconciled db -> reconciled (set_batches f db).
Proof. by rewrite <- (same_books_batches f db). Qed.
Lemma ledger_sums_zero s l : Forall (fun e => event_sums e = zero_sums) l -> ledger_sums s l = zero_sums.
Proof.
  induction 1 as [|e l He Hl IH]; [done|]. cbn. fold (ledger_sums s l). rewrite IH, He.
  by destruct (E_Symbol e =s s).
Qed.
Lemma wallet_saved db w w' : wallets db = [w] -> W_ID w' = W_ID w ->
  (fun v => if W_ID v =? W_ID w' then w' else v) <$> wallets db = [w'].
Proof. intros -> E. cbn. by rewrite E, Z.eqb_refl. Qed.

Lemma cash_event_post_good e : event_sums e = zero_sums -> E_AccountID e = DefaultAccountID -> good_event e.
Proof. intros Hz Ha. split; [done|]. intros _. injection Hz as -> -> -> ->. done. Qed.

(** An event without a fill that a command with no position posts. *)
Lemma cash_event_post db w w' e :
  reconciled db -> wallets db = [w] -> W_ID w' = W_ID w -> W_AccountID w' = W_AccountID w ->
  W_Currency w' = W_Currency w -> event_sums e = zero_sums -> E_AccountID e = DefaultAccountID ->
  E_Currency e = W_Currency w ->
  int_of (W_BalanceExact w') = int_of (W_BalanceExact w) + integer (E_CashDelta e) ->
  0 <= int_of (W_BalanceExact w') ->
  reconciled (add_event e (set_wallets (fmap (fun v => if W_ID v =? W_ID w' then w' else v)) db)).
Proof.
  intros Hr Ew Hid Ha Hc Hz Hacc Hcur Hcash Hnn.
  eapply reconciled_post with (w := w) (w' := w') (evs := [e]);
    [exact Hr | done | by eapply wallet_saved | done | done | done | | by repeat constructor | | done | | | ].
  - constructor; [|constructor]. by apply cash_event_post_good.
  - rewrite Hcash. unfold cash_sum. rewrite Zsum_cons, Zsum_nil. lia.
  - apply (rc_positions _ Hr).
  - apply (rc_next _ Hr).
  - intros s. rewrite ledger_sums_zero by (by repeat constructor). by rewrite add_sums_0_r.
Qed.
(** The currency of an accepted event is that of the only wallet. *)
Lemma accepted_currency db w e0 e db' : wallets db = [w] -> CreateEvent e0 db = (Ok e, db') ->
  e = event_defaults e0 /\ E_AccountID e = DefaultAccountID /\ E_Currency e = W_Currency w /\
  event_signs e = true /\ db' = add_event e db.
Proof.
  intros Ew (-> & Ha & Hs & (v & Hv & Hc) & ->)%CreateEvent_Ok. rewrite Ew in Hv.
  apply list_elem_of_singleton in Hv as ->. done.
Qed.

Section Books.
Context (guards : DB -> DB -> res unit) (SetRole : res unit) (AfterWrite : string -> res unit).
Context (now : nat -> Time) (sha256hex : string -> string).

(** ** Adjustments *)
Lemma prepareAdjustment_account command0 command recordedAt :
  prepareAdjustment now command0 = Ok (command, recordedAt) -> A_AccountID command = DefaultAccountID.
Proof.
  unfold prepareAdjustment, requirePrimaryAccount. intros H.
  destruct (_ || _)%bool eqn:Ha in H; cbn [rbind] in H; [|discriminate].
  res_inv. match goal with H : (let '(_, _) := ?x in _) = Ok _ |- _ => destruct x end. res_inv. cbn.
  unfold orDefault. destruct (String.eqb_spec (A_AccountID command0) ""); [done|].
  apply orb_true_iff in Ha as [Ha|Ha]; bool_prop; done.
Qed.

Lemma adjustment_sums command recordedAt delta :
  event_sums (event_defaults (adjustmentEvent sha256hex command recordedAt delta)) = zero_sums.
Proof. by rewrite defaults_sums. Qed.

Lemma adjustmentBody_ok command recordedAt hash db r db' :
  A_AccountID command = DefaultAccountID -> ledger_ok db ->
  adjustmentBody SetRole AfterWrite sha256hex command recordedAt hash db = (Ok r, db') -> ledger_ok db'.
Proof.
  intros Hacc Hok H. unfold adjustmentBody, allowLedgerProjectionWrites, lockAccount, FirstWallet,
    FirstEventOfBatch, fail in H. tx_inv.
  match goal with H : beginBatch _ _ _ _ _ = (Ok ?x, _) |- _ => rename x into already; apply beginBatch_Ok in H as Hb end.
  destruct already; [destruct Hb as [-> _]; by tx_inv|]. destruct Hb as [_ ->].
  destruct Hok as [Hr Ho Hop]. pose proof (rc_wallet _ Hr) as (w & Ew & _).
  tx_inv. match goal with H : requireReady _ _ = _ |- _ => apply requireReady_Ok in H as [-> (s & Hs & _)] end.
  match goal with H : head _ = Some _ |- _ => cbn [wallets set_batches] in H; rewrite Ew in H; injection H as <- end.
  tx_inv. bool_prop.
  match goal with H : SaveWallet _ _ = _ |- _ => apply SaveWallet_Ok in H as -> end.
  match goal with H : CreateEvent _ _ = _ |- _ => eapply accepted_currency in H as (He & Ha & Hc & _ & ->) end.
  2: { eapply wallet_saved; [exact Ew | done]. }
  split; [| by destruct Ho | ].
  - eapply cash_event_post; [by apply reconciled_batches | exact Ew | done | done | done | | done | exact Hc | |].
    + subst. apply adjustment_sums.
    + subst. unfold int_of. match goal with H : W_BalanceExact w = Some _ |- _ => rewrite H end. done.
    + unfold int_of. cbn -[integer Add]. by apply Sign_nonneg.
  - apply opened_is_Some. cbn. apply insert_is_Some. rewrite Hacc in Hs. by eapply opened_ready.
Qed.

(** ** Asset corrections *)
Lemma prepareCorrection_valid command0 command recordedAt :
  prepareCorrection now command0 = Ok (command, recordedAt) ->
  K_AccountID command = DefaultAccountID /\ 0 < integer (K_Quantity command) /\
  0 <= integer (K_CostBasis command).
Proof.
  unfold prepareCorrection, requirePrimaryAccount. intros H.
  destruct (_ || _)%bool eqn:Ha in H; cbn [rbind] in H; [|discriminate].
  res_inv. match goal with H : (let '(_, _) := ?x in _) = Ok _ |- _ => destruct x end. res_inv.
  cbn [set_correction K_AccountID K_Quantity K_CostBasis]. bool_prop. rewrite !Sign_integer in *. split; [|lia].
  unfold orDefault. destruct (String.eqb_spec (K_AccountID command0) ""); [done|].
  apply orb_true_iff in Ha as [Ha|Ha]; bool_prop; done.
Qed.

Lemma corrected_posted command db p :
  0 < integer (K_Quantity command) -> 0 <= integer (K_CostBasis command) -> reconciled db ->
  p ∈ positions db -> Status (Ps_cycle p) = "open" -> AmountExact (Ps_exact p) = None ->
  position_posted db (set_positions (replace_position (correctedPosition command p)) db) (Ps_Symbol p)
    (mkSums (integer (K_Quantity command)) (integer (K_CostBasis command)) 0 0).
Proof.
  intros Hq Hb Hr Hp Ho Hn. pose proof (po_good _ _ (rc_positions _ Hr)) as Hg.
  rewrite Forall_forall in Hg. pose proof (Hg p Hp) as [Ha _ _ _ Hz].
  apply posted_replace; try done; [apply (rc_positions _ Hr) | apply (rc_next _ Hr) | |].
  - split; [done | | | done | done]; unfold exact_sums, int_of; cbn -[integer]; lia.
  - by rewrite (Hz Hn), add_sums_0_l.
Qed.

(** An event with an asset, posted together with its position. *)
Lemma asset_event_post db d0 d w w' e symbol delta :
  reconciled db -> position_posted d0 d symbol delta -> positions d0 = positions db -> wallets d = [w'] -> wallets db = [w] ->
  W_AccountID w' = W_AccountID w -> W_Currency w' = W_Currency w ->
  int_of (W_BalanceExact w') = int_of (W_BalanceExact w) + integer (E_CashDelta e) ->
  0 <= int_of (W_BalanceExact w') -> events d = events db ->
  good_event e -> E_Currency e = W_Currency w -> E_Symbol e = symbol -> event_sums e = delta ->
  reconciled (add_event e d).
Proof.
  intros Hr Hp E0 Ew' Ew Ha Hc Hcash Hnn Ee Hg Hcur Hs Hd.
  eapply reconciled_post with (w := w) (w' := w') (evs := [e]);
    [exact Hr | done | done | done | done | by cbn; rewrite Ee | by apply Forall_singleton | by apply Forall_singleton
     | | done | apply (pp_ok _ _ _ _ Hp) | apply (pp_next _ _ _ _ Hp) |].
  - rewrite Hcash. unfold cash_sum. rewrite Zsum_cons, Zsum_nil. lia.
  - intros s. erewrite ledger_sums_one by (by repeat constructor). rewrite Hs. cbn [total_sums foldr].
    rewrite add_sums_0_r, Hd. unfold projection at 2. rewrite <- E0. apply (pp_projection _ _ _ _ Hp).
Qed.

Lemma correctionBody_ok command recordedAt hash metadata db r db' :
  K_AccountID command = DefaultAccountID -> 0 < integer (K_Quantity command) ->
  0 <= integer (K_CostBasis command) -> ledger_ok db ->
  correctionBody SetRole sha256hex command recordedAt hash metadata db = (Ok r, db') -> ledger_ok db'.
Proof.
  intros Hacc Hq Hb Hok H. unfold correctionBody, allowLedgerProjectionWrites, lockAccount, FirstWallet,
    FirstEventOfBatch in H. tx_inv.
  match goal with H : beginBatch _ _ _ _ _ = (Ok ?x, _) |- _ => rename x into already; apply beginBatch_Ok in H as Hbatch end.
  destruct already; [destruct Hbatch as [-> _]; by tx_inv|]. destruct Hbatch as [_ ->].
  destruct Hok as [Hr Ho Hop]. pose proof (rc_wallet _ Hr) as (w & Ew & _ & _ & Hnn & _).
  unfold FirstState, FirstOpenPositionOf in *. tx_inv.
  match goal with H : head _ = Some _ |- _ => cbn [wallets set_batches] in H; rewrite Ew in H; injection H as <- end.
  match goal with H : where_ _ _ = Some _ |- _ => apply where_Some in H as [Hin Hwh] end.
  match goal with H : states _ !! _ = Some _ |- _ => rename H into Hstate end.
  match goal with H : SavePosition _ _ = _ |- _ => apply SavePosition_Ok in H as -> end.
  match goal with H : CreateEvent _ _ = _ |- _ => eapply accepted_currency in H as (He & Ha & Hc & _ & ->); [|exact Ew] end.
  bool_prop. cbn [states set_batches positions] in Hstate, Hin.
  match goal with H : is_nil (AmountExact (Ps_exact ?q)) = true |- _ => rename q into p;
    assert (Hnone : AmountExact (Ps_exact p) = None) by (by destruct (AmountExact (Ps_exact p))) end.
  match goal with H : _ = (Ok _, db') |- _ => rename H into Hlast end.
  match type of Hlast with _ ?d = _ => assert (Hok : ledger_ok d) end.
  { pose proof (reconciled_batches (fun m => <[K_IdempotencyKey command :=
      mkBatchRow (K_AccountID command) hash (K_OccurredAt command)]> m) db Hr) as Hr'.
    split; [| by destruct Ho |].
    - eapply asset_event_post with (w := w) (w' := w) (symbol := K_Symbol command);
        [exact Hr' | | done | exact Ew | exact Ew | done | done | | done | done | | exact Hc | by subst | ].
      + match goal with H : Ps_Symbol p = _ |- _ => rewrite <- H end. by apply corrected_posted.
      + subst. cbn. lia.
      + subst. split; [done|]. cbn. intros _. split_and!; [done..| |]; lia.
      + subst. rewrite defaults_sums. done.
    - apply opened_is_Some. cbn. apply insert_is_Some. rewrite Hacc in Hstate. by eapply opened_ready. }
  destruct (_ =? 0); [unfold SaveState in Hlast|]; tx_inv; [|done].
  destruct Hok as [Hr1 [] Ho1]. split; [|done|].
  - eapply reconciled_proper; [symmetry; apply same_books_states | exact Hr1].
  - apply opened_is_Some. cbn. apply insert_is_Some. rewrite Hacc in Hstate. by eapply opened_ready.
Qed.

(** ** Reversals *)

(** Reversing the whole amount of a position also takes back its whole basis. *)
Definition reversal_clean (command : ReversalCommand) (db : DB) : Prop :=
  forall original p amount basis, original ∈ events db -> E_ID original = V_OriginalEventID command ->
    p ∈ positions db -> Ps_Symbol p = E_Symbol original ->
    AmountExact (Ps_exact p) = Some amount -> CostBasisExact (Ps_exact p) = Some basis ->
    integer (E_AssetDelta original) <> 0 -> integer amount = integer (E_AssetDelta original) ->
    integer basis = integer (E_CostBasisDelta original).

Lemma reversed_posted original at_ db p p' amount basis :
  positions_ok (next_position db) (positions db) -> 0 < next_position db -> p ∈ positions db ->
  0 <= integer (E_AssetDelta original) ->
  integer (E_AssetDelta original) <> 0 ->
  AmountExact (Ps_exact p) = Some amount -> CostBasisExact (Ps_exact p) = Some basis ->
  (integer amount = integer (E_AssetDelta original) -> integer basis = integer (E_CostBasisDelta original)) ->
  reversedPosition original at_ p amount basis = Ok p' ->
  position_posted db (set_positions (replace_position p') db) (Ps_Symbol p)
    (mkSums (- integer (E_AssetDelta original)) (- integer (E_CostBasisDelta original)) 0 0).
Proof.
  intros Hok Hn Hp Hpos Hne Hq Hb Hclean H. pose proof (po_good _ _ Hok) as Hg.
  rewrite Forall_forall in Hg. pose proof (Hg p Hp) as [Ha Hq0 Hb0 Hcl _].
  unfold exact_sums, int_of in Hq0, Hb0, Hcl. rewrite Hq, Hb in *. cbn [default from_option id s_amount s_basis] in *.
  unfold reversedPosition in H. res_inv. bool_prop. rewrite !Sign_integer, !integer_Sub in *.
  apply posted_replace; try done.
  - split; unfold exact_sums, int_of; cbn -[integer Sub Sign Z.eqb]; autorewrite with go_dec; [done | lia | lia | | done].
    match goal with |- context [if ?z =? 0 then _ else _] => destruct (Z.eqb_spec z 0) as [E|E] end.
    + intros _. rewrite Hclean; lia.
    + intros Hst. apply Hcl in Hst. lia.
  - unfold exact_sums, add_sums, int_of. rewrite Hq, Hb. cbn -[integer Sub]. autorewrite with go_dec. f_equal; lia.
Qed.

Lemma reversal_sums command recordedAt original : good_event original -> E_FillID original = None ->
  event_sums (event_defaults (reversalEvent sha256hex command recordedAt original)) =
  mkSums (- integer (E_AssetDelta original)) (- integer (E_CostBasisDelta original)) 0 0.
Proof.
  intros [_ Hg] Hf. destruct (Hg Hf) as (H1 & H2 & _). rewrite defaults_sums. unfold event_sums.
  cbn -[integer Neg]. rewrite !integer_Neg, H1, H2. done.
Qed.
Lemma reversal_good command recordedAt original : good_event original -> E_FillID original = None ->
  E_AccountID (event_defaults (reversalEvent sha256hex command recordedAt original)) = DefaultAccountID ->
  good_event (event_defaults (reversalEvent sha256hex command recordedAt original)).
Proof.
  intros Hg Hf Ha. split; [done|]. intros _. pose proof (reversal_sums command recordedAt original Hg Hf) as E.
  pose proof (f_equal s_amount E) as E1. pose proof (f_equal s_basis E) as E2. pose proof (f_equal s_pnl E) as E3.
  pose proof (f_equal s_fees E) as E4. cbn [event_sums s_amount s_basis s_pnl s_fees] in *.
  rewrite E1, E2, E3, E4. split_and!; [done..| |done].
  intros Hz. destruct Hg as [_ Hg]. destruct (Hg Hf) as (_ & _ & Hb & _). rewrite Hb; lia.
Qed.

Lemma reverseAsset_posted command original db u db' :
  positions_ok (next_position db) (positions db) -> 0 < next_position db ->
  good_event original -> E_FillID original = None ->
  (integer (E_AssetDelta original) = 0 \/ E_EventType original = EventAdminCorrection) ->
  (forall p amount basis, p ∈ positions db -> Ps_Symbol p = E_Symbol original ->
    AmountExact (Ps_exact p) = Some amount -> CostBasisExact (Ps_exact p) = Some basis ->
    integer (E_AssetDelta original) <> 0 -> integer amount = integer (E_AssetDelta original) ->
    integer basis = integer (E_CostBasisDelta original)) ->
  reverseAsset command original db = (Ok u, db') ->
  position_posted db db' (E_Symbol original)
    (mkSums (- integer (E_AssetDelta original)) (- integer (E_CostBasisDelta original)) 0 0).
Proof.
  intros Hok Hn Hg Hf Htype Hclean H. destruct Hg as [_ Hg]. destruct (Hg Hf) as (_ & _ & Hb & Hpos).
  unfold reverseAsset in H. rewrite Sign_eqb_0 in H.
  destruct (Z.eqb_spec (integer (E_AssetDelta original)) 0) as [E|E].
  - tx_inv. rewrite E, (Hb E). split; [by destruct db' | done | done |].
    intros s. destruct (_ =s _); by rewrite add_sums_0_r.
  - destruct Htype as [|Htype]; [done|]. tx_inv.
    match goal with H : FirstPositionOf _ _ _ = _ |- _ => apply FirstPositionOf_Ok in H as (-> & Hp & Hs & _) end.
    tx_inv. apply SavePosition_Ok in H as ->. rewrite <- Hs.
    eapply reversed_posted; eauto.
Qed.

Lemma reversalBody_ok MarshalReversal command recordedAt db r db' :
  reversal_clean command db -> ledger_ok db ->
  reversalBody SetRole sha256hex MarshalReversal command recordedAt db = (Ok r, db') -> ledger_ok db'.
Proof.
  intros Hclean Hok H. unfold reversalBody, allowLedgerProjectionWrites, lockAccount, FirstWallet, FirstEvent,
    FirstEventOfBatch in H. tx_inv.
  match goal with H : where_ _ _ = Some ?e |- _ => rename e into original; apply where_Some in H as [Hin Hid] end.
  match goal with H : beginBatch _ _ _ _ _ = (Ok ?x, _) |- _ => rename x into already; apply beginBatch_Ok in H as Hbatch end.
  destruct already; [destruct Hbatch as [-> _]; by tx_inv|]. destruct Hbatch as [_ ->].
  destruct Hok as [Hr Ho Hop]. pose proof (rc_wallet _ Hr) as (w & Ew & _ & _ & Hnn & _).
  tx_inv. match goal with H : requireReady _ _ = _ |- _ => apply requireReady_Ok in H as [-> (s & Hs & _)] end.
  match goal with H : head _ = Some _ |- _ => cbn [wallets set_batches] in H; rewrite Ew in H; injection H as <- end.
  tx_inv. bool_prop.
  match goal with H : SaveWallet _ _ = _ |- _ => apply SaveWallet_Ok in H as -> end.
  match goal with H : reverseAsset _ _ _ = _ |- _ => rename H into Hasset end.
  assert (Hf : E_FillID original = None).
  { destruct (E_FillID original) eqn:E; [|done]. by rewrite bool_decide_true in * by eauto. }
  pose proof (rc_events _ Hr) as Hevs. rewrite Forall_forall in Hevs. pose proof (Hevs _ Hin) as Hgood.
  apply reverseAsset_posted in Hasset as Hp;
    [| apply (rc_positions _ Hr) | apply (rc_next _ Hr) | done | done | | ].
  2: { match goal with H : (negb _ && _)%bool = false |- _ => apply andb_false_iff in H as [H|H] end;
         bool_prop; [left; rewrite Sign_integer in *; lia | by right]. }
  2: { intros p amount basis Hip. eapply Hclean; eauto. }
  pose proof (pp_frame _ _ _ _ Hp) as Ed.
  assert (Ew3 : wallets d3 = [set_balance w (Sub d0 (E_CashDelta original))]).
  { rewrite Ed. exact (wallet_saved d w (set_balance w (Sub d0 (E_CashDelta original))) Ew eq_refl). }
  match goal with H : CreateEvent _ _ = _ |- _ => eapply accepted_currency in H as (He & Ha & Hc & _ & ->) end.
  2: { exact Ew3. }
  split.
  - eapply asset_event_post with (w := w) (db := d) (w' := set_balance w (Sub d0 (E_CashDelta original)));
      [done | exact Hp | done | | done | done | done | | | | | | subst; done |].
    + exact Ew3.
    + subst. unfold int_of. rewrite S. cbn -[integer Sub Neg]. autorewrite with go_dec. lia.
    + unfold int_of. cbn -[integer Sub]. by apply Sign_nonneg.
    + by rewrite Ed.
    + subst. by apply reversal_good.
    + exact Hc.
    + subst. by apply reversal_sums.
  - rewrite Ed. by destruct Ho.
  - apply opened_is_Some. rewrite Ed. cbn. apply insert_is_Some. destruct Hgood as [Hacc _].
    cbn in Hs. rewrite Hacc in Hs. by eapply opened_ready.
Qed.

(** ** The opening balance *)
Lemma zeroClosed_fmap {K} (f : Position -> K) account l : (forall p, f (zeroedPosition p) = f p) ->
  f <$> zeroClosedPositions account l = f <$> l.
Proof.
  intros Hf. unfold zeroClosedPositions. rewrite <- list_fmap_compose. apply list_fmap_ext.
  intros i p _. cbn. by destruct (_ && _)%bool; rewrite ?Hf.
Qed.
Lemma zeroClosed_ok account next l : positions_ok next l -> positions_ok next (zeroClosedPositions account l).
Proof.
  intros [H1 H2 H3 H4]. split; rewrite ?zeroClosed_fmap by done; try done;
    unfold zeroClosedPositions; rewrite Forall_fmap.
  - eapply Forall_impl; [exact H3|]. intros p Hp. cbn. by destruct (_ && _)%bool.
  - eapply Forall_impl; [exact H4|]. intros p Hp. cbn. destruct (_ && _)%bool; [|done].
    by destruct Hp; split.
Qed.
Lemma zeroClosed_projection account next l s : positions_ok next l ->
  (forall s, projection_in l s = zero_sums) -> projection_in (zeroClosedPositions account l) s = zero_sums.
Proof.
  intros Hok Hz. unfold projection_in at 1. destruct (where_ _ _) as [q|] eqn:E; [|done].
  apply where_Some in E as [Hq _]. apply list_elem_of_fmap in Hq as (p & -> & Hp).
  destruct (_ && _)%bool; [done|]. rewrite <- (projection_in_found l p); [apply Hz | apply (po_symbols _ _ Hok) | done].
Qed.

Lemma state_lookup account db o db' : or_not_found (FirstState account) db = (Ok o, db') ->
  db' = db /\ o = states db !! account.
Proof.
  unfold or_not_found, FirstState, sbind, get, found, slift. cbn.
  destruct (states db !! account); by intros [= <- <-].
Qed.

(** The books the opening posting leaves. *)
Lemma opening_post db d w balance e :
  reconciled db -> events db = [] -> wallets db = [w] ->
  wallets d = [mkWallet (W_ID w) (W_Balance w) (Some balance) (W_Currency w) (W_AccountID w)] ->
  positions d = zeroClosedPositions DefaultAccountID (positions db) ->
  next_position d = next_position db -> events d = [] ->
  event_sums e = zero_sums -> E_AccountID e = DefaultAccountID -> E_Currency e = W_Currency w ->
  integer (E_CashDelta e) = integer balance -> 0 <= integer balance ->
  reconciled (add_event e d).
Proof.
  intros Hr Hnil Ew Ew' Ep Enx Ee Hz Ha Hc Hcash Hnn.
  pose proof (rc_wallet _ Hr) as (v & Ew0 & _ & Hcash0 & _). rewrite Ew in Ew0. injection Ew0 as <-.
  assert (Hzero : forall s, projection_in (positions db) s = zero_sums).
  { intros s. fold (projection db s). by rewrite (rc_projection _ Hr), Hnil. }
  eapply reconciled_post with (db := db) (w := w) (evs := [e]); [done | done | exact Ew' | done | done | | | | | | | | ].
  - cbn. by rewrite Ee, Hnil.
  - apply Forall_singleton. by apply cash_event_post_good.
  - by apply Forall_singleton.
  - rewrite Hcash0, Hnil. unfold int_of, cash_sum. rewrite Zsum_cons, !Zsum_nil. cbn -[integer]. lia.
  - done.
  - cbn [add_event positions next_position]. rewrite Ep, Enx. apply zeroClosed_ok, (rc_positions _ Hr).
  - cbn [add_event next_position]. rewrite Enx. apply (rc_next _ Hr).
  - intros s. rewrite (ledger_sums_zero s [e]) by (by apply Forall_singleton).
    unfold projection. cbn [add_event positions]. rewrite Ep, Hzero. cbn.
    eapply zeroClosed_projection; [apply (rc_positions _ Hr) | done].
Qed.

Lemma backfillBody_ok MarshalBackfill MarshalStrings ObservationContext options at_ report db r db' :
  B_AccountID options = DefaultAccountID -> ledger_ok db ->
  backfillBody SetRole sha256hex MarshalBackfill MarshalStrings ObservationContext options at_ report db
    = (Ok r, db') -> ledger_ok db'.
Proof.
  intros Hacc [Hr Ho Hop] H. unfold backfillBody, allowLedgerProjectionWrites, lockAccount, FirstWalletOf,
    SaveState in H. tx_inv.
  match goal with H : or_not_found _ _ = _ |- _ => apply state_lookup in H as [-> ->] end.
  tx_inv. rewrite Hacc in *.
  match goal with H : SaveWallet _ _ = _ |- _ => apply SaveWallet_Ok in H as -> end.
  match goal with H : CreateBatch _ _ _ = _ |- _ => apply CreateBatch_Ok in H as [Hnone ->] end.
  destruct (Hop Hnone) as [Hnil _]. pose proof (rc_wallet _ Hr) as (w & Ew & Ha & Hcash & Hnn & _).
  match goal with H : where_ _ _ = Some ?v |- _ => apply where_Some in H as [Hv _]; rewrite Ew in Hv;
    apply list_elem_of_singleton in Hv as -> end.
  match goal with H : CreateEvent _ _ = (Ok ?e, _) |- _ => rename e into event;
    eapply accepted_currency in H as (He & Hea & Hec & Hs & ->);
    [|exact (wallet_saved db w (mkWallet (W_ID w) (W_Balance w) (Some a2) (W_Currency w) (W_AccountID w)) Ew eq_refl)] end.
  assert (Hr1 : reconciled (add_event event (set_batches (fun m => <[opening_batch :=
      mkBatchRow DefaultAccountID (stableID sha256hex "payload" (DefaultAccountID +:+ to_string a2)) at_]> m)
    (set_positions (zeroClosedPositions DefaultAccountID) (set_wallets (fmap (fun v => if W_ID v =? W_ID w then
      mkWallet (W_ID w) (W_Balance w) (Some a2) (W_Currency w) (W_AccountID w) else v)) db))))).
  { eapply opening_post with (balance := a2); try done.
    - exact (wallet_saved db w (mkWallet (W_ID w) (W_Balance w) (Some a2) (W_Currency w) (W_AccountID w)) Ew eq_refl).
    - subst event. by rewrite defaults_sums.
    - by subst event.
    - subst event. unfold event_signs in Hs. cbn -[Sign Zero] in Hs. rewrite !orb_false_r in Hs. bool_prop.
      by apply Sign_nonneg. }
  split.
  - eapply reconciled_proper; [symmetry; apply same_books_states | exact Hr1].
  - by destruct Ho.
  - apply opened_is_Some. cbn. rewrite lookup_insert_eq. eauto.
Qed.
End Books.
