(* ===== verification/LedgerHistory.v ===== *)
(** * LedgerHistory: the ledger is append-only

    The tables of events and fills only grow at the end and no batch or
    recorded outcome is changed. [Grows] is resolved by the structure of the operation. *)
From stdpp Require Import base numbers strings gmap list.
From S2P Require Import Prelude GoStrings GoFloat Accounting Snapshots LedgerModel Ledger LedgerAdmin LedgerFacts.
Local Open Scope Z_scope.

Record extends (db db' : DB) : Prop := {
  ex_events : exists l, events db' = events db ++ l;
  ex_fills : exists l, fills db' = fills db ++ l;
  ex_batches : batches db ⊆ batches db';
  ex_ingestions : ingestions db ⊆ ingestions db' }.
#[export] Instance extends_preorder : PreOrder extends.
Proof.
  split.
  - intros db. split; [exists []; by rewrite app_nil_r.. | done | done].
  - intros x y z [[l1 E1] [k1 F1] B1 I1] [[l2 E2] [k2 F2] B2 I2].
    split; [| | by transitivity (batches y) | by transitivity (ingestions y)].
    + exists (l1 ++ l2). by rewrite E2, E1, app_assoc.
    + exists (k1 ++ k2). by rewrite F2, F1, app_assoc.
Qed.

(** A run, whatever its result, only extends the history. *)
Class Grows {A} (m : Tx A) : Prop := grows : forall db, extends db (snd (m db)).

Lemma extends_same db db' : events db' = events db -> fills db' = fills db -> batches db' = batches db ->
  ingestions db' = ingestions db -> extends db db'.
Proof. intros E1 E2 E3 E4. split; [exists []; by rewrite app_nil_r.. | by rewrite E3 | by rewrite E4]. Qed.

#[export] Instance grows_ret {A} (a : A) : Grows (sret a).
Proof. intros db. cbn. reflexivity. Qed.
#[export] Instance grows_lift {A} (m : res A) : Grows (slift m).
Proof. intros db. cbn. reflexivity. Qed.
#[export] Instance grows_get {A} (f : DB -> A) : Grows (get f).
Proof. intros db. cbn. reflexivity. Qed.
#[export] Instance grows_bind {A B} (m : Tx A) (k : A -> Tx B) : Grows m -> (forall a, Grows (k a)) ->
  Grows (sbind m k).
Proof.
  intros Hm Hk db. unfold sbind. specialize (Hm db). destruct (m db) as [[a|e|w] d]; [|done..].
  etrans; [exact Hm | apply Hk].
Qed.
#[export] Instance grows_if {A} (c : bool) (m1 m2 : Tx A) : Grows m1 -> Grows m2 ->
  Grows (if c then m1 else m2).
Proof. by destruct c. Qed.
#[export] Instance grows_option {A B} (o : option B) (m1 : B -> Tx A) (m2 : Tx A) :
  (forall b, Grows (m1 b)) -> Grows m2 -> Grows (match o with Some b => m1 b | None => m2 end).
Proof. by destruct o. Qed.
#[export] Instance grows_pair {A B C} (p : B * C) (m : B -> C -> Tx A) :
  (forall b c, Grows (m b c)) -> Grows (let '(b, c) := p in m b c).
Proof. by destruct p. Qed.
#[export] Instance grows_or_not_found {A} (m : Tx A) : Grows m -> Grows (or_not_found m).
Proof.
  intros Hm db. unfold or_not_found. specialize (Hm db). destruct (m db) as [[a|e|w] d]; [done| |done].
  by destruct (is_not_found e).
Qed.
#[export] Instance grows_found {A} (o : option A) : Grows (found o).
Proof. unfold found. apply _. Qed.
#[export] Instance grows_check c code constraint : Grows (check c code constraint).
Proof. unfold check. apply _. Qed.
#[export] Instance grows_numeric l : Grows (numeric l).
Proof. unfold numeric. apply _. Qed.
#[export] Instance grows_not_null l : Grows (not_null l).
Proof. unfold not_null. apply _. Qed.

Lemma grows_modify f : (forall db, extends db (f db)) -> Grows (modify f).
Proof. intros H db. apply H. Qed.
Lemma grows_same f : (forall db, events (f db) = events db /\ fills (f db) = fills db /\ batches (f db) = batches db /\
  ingestions (f db) = ingestions db) -> Grows (modify f).
Proof. intros H. apply grows_modify. intros db. destruct (H db) as (? & ? & ? & ?). by apply extends_same. Qed.
#[export] Hint Extern 1 (Grows (modify _)) => (apply grows_same; by intros []) : typeclass_instances.
#[export] Instance grows_add_fill f : Grows (modify (add_fill f)).
Proof. apply grows_modify. intros db. split; [exists []; by rewrite app_nil_r | by exists [f] | done | done]. Qed.
#[export] Instance grows_add_event e : Grows (modify (add_event e)).
Proof. apply grows_modify. intros db. split; [by exists [e] | exists []; by rewrite app_nil_r | done | done]. Qed.

(** A batch is only inserted where there was none. *)
#[export] Instance grows_CreateBatch id_ row : Grows (CreateBatch id_ row).
Proof.
  intros db. unfold CreateBatch, check, sbind, get, slift, failIf, modify.
  destruct (_ =s _); cbn; [|reflexivity]. destruct (batches db !! id_) eqn:E; cbn; [reflexivity|].
  split; [exists []; by rewrite app_nil_r.. | by apply insert_subseteq | done].
Qed.

#[export] Instance grows_SaveWallet w : Grows (SaveWallet w).
Proof. unfold SaveWallet. apply _. Qed.
#[export] Instance grows_SavePosition p : Grows (SavePosition p).
Proof. unfold SavePosition. apply _. Qed.
#[export] Instance grows_CreatePosition p : Grows (CreatePosition p).
Proof. unfold CreatePosition. apply _. Qed.
#[export] Instance grows_SaveOrder o : Grows (SaveOrder o).
Proof. unfold SaveOrder. apply _. Qed.
#[export] Instance grows_CreateOrder o : Grows (CreateOrder o).
Proof. unfold CreateOrder. apply _. Qed.
#[export] Instance grows_CreateFill f : Grows (CreateFill f).
Proof. unfold CreateFill. apply _. Qed.
#[export] Instance grows_CreateEvent e : Grows (CreateEvent e).
Proof. unfold CreateEvent. apply _. Qed.
#[export] Instance grows_CreateEvents l : Grows (CreateEvents l).
Proof. induction l; cbn [CreateEvents]; apply _. Qed.
#[export] Instance grows_SaveState account row : Grows (SaveState account row).
Proof. unfold SaveState. apply _. Qed.
#[export] Instance grows_CreateIngestion id_ row : Grows (CreateIngestion id_ row).
Proof.
  intros db. unfold CreateIngestion, check, sbind, get, slift, failIf, modify.
  destruct (ingestions db !! id_) eqn:E; cbn; rewrite E; cbn; [reflexivity|].
  split; [exists []; by rewrite app_nil_r.. | done | by apply insert_subseteq].
Qed.
#[export] Instance grows_requireReady account : Grows (requireReady account).
Proof.
  intros db. unfold requireReady. destruct (FirstState account db) as [[s|e|w] d]; cbn; reflexivity.
Qed.
Ltac unfold_reads := unfold FirstWallet, FirstWalletOf, FirstPositionOf, FirstOpenPositionOf, FirstPosition,
  FirstOrder, FirstEvent, FirstEventOfBatch, FirstFillOfBatch, FirstBatch, FirstIngestion, FirstState.
#[export] Instance grows_beginBatch id_ account hash at_ : Grows (beginBatch id_ account hash at_).
Proof. unfold beginBatch. unfold_reads. apply _. Qed.
#[export] Instance grows_loadFillResult id_ : Grows (loadFillResult id_).
Proof. unfold loadFillResult. unfold_reads. apply _. Qed.
#[export] Instance grows_applyPosition command gross : Grows (applyPosition command gross).
Proof. unfold applyPosition. unfold_reads. apply _. Qed.
#[export] Instance grows_upsertFilledOrder stage08 command gross : Grows (upsertFilledOrder stage08 command gross).
Proof. unfold upsertFilledOrder. unfold_reads. apply _. Qed.
#[export] Instance grows_transaction {A} guards (m : Tx A) : Grows m -> Grows (transaction guards m).
Proof.
  intros Hm db. unfold transaction. specialize (Hm db). destruct (m db) as [[a|e|w] d]; [|cbn; reflexivity..].
  destruct (guards db d); [exact Hm | cbn; reflexivity..].
Qed.
#[export] Instance grows_normalized {A} (m : Tx A) : Grows m -> Grows (normalized m).
Proof. intros Hm db. unfold normalized. specialize (Hm db). by destruct (m db) as [[a|e|w] d]. Qed.

#[export] Instance grows_ApplyFill guards SetRole AfterWrite now sha256hex MarshalFill MarshalMetadata Stage08 command :
  Grows (ApplyFill guards SetRole AfterWrite now sha256hex MarshalFill MarshalMetadata Stage08 command).
Proof.
  unfold ApplyFill, ApplyFillWith, fillBody, applyNewFill, allowLedgerProjectionWrites, lockAccount, fail.
  unfold_reads. apply _.
Qed.
#[export] Instance grows_ApplyAdjustment guards SetRole AfterWrite now sha256hex Marshal command :
  Grows (ApplyAdjustment guards SetRole AfterWrite now sha256hex Marshal command).
Proof.
  unfold ApplyAdjustment, adjustmentBody, allowLedgerProjectionWrites, lockAccount, fail.
  unfold_reads. apply _.
Qed.
#[export] Instance grows_ReverseCashEvent guards SetRole now sha256hex Marshal command :
  Grows (ReverseCashEvent guards SetRole now sha256hex Marshal command).
Proof.
  unfold ReverseCashEvent, reversalBody, reverseAsset, allowLedgerProjectionWrites, lockAccount.
  unfold_reads. apply _.
Qed.
#[export] Instance grows_ApplyAssetCorrection guards SetRole now sha256hex Marshal MarshalEvidence command :
  Grows (ApplyAssetCorrection guards SetRole now sha256hex Marshal MarshalEvidence command).
Proof.
  unfold ApplyAssetCorrection, correctionBody, allowLedgerProjectionWrites, lockAccount.
  unfold_reads. apply _.
Qed.
#[export] Instance grows_Backfill guards SetRole now sha256hex MarshalBackfill MarshalStrings context options :
  Grows (Backfill guards SetRole now sha256hex MarshalBackfill MarshalStrings context options).
Proof.
  unfold Backfill, backfillBody, allowLedgerProjectionWrites, lockAccount.
  unfold_reads. apply _.
Qed.
