(* ===== verification/LedgerOutcome.v ===== *)
(** * LedgerOutcome: recording a broker outcome keeps the ledger

    The transaction of [RecordBrokerOutcome] is a sequence of new orders,
    fills through the service and order updates; each keeps the ledger
    reconciled and its history. *)
From stdpp Require Import base numbers strings gmap list.
From S2P Require Import Prelude GoStrings GoFloat Accounting.
From S2P Require Values Contracts.
From S2P Require Import Snapshots LedgerModel Ledger LedgerAdmin LedgerAdapter.
From S2P Require Import LedgerFacts LedgerFill LedgerBooks LedgerHistory.
Local Open Scope Z_scope.

(** ** What a checked outcome says *)

(** A fill agrees with its intent. *)
Definition fill_matches (intent : Contracts.OrderIntent) (fill : Contracts.Fill) : Prop :=
  I_ID (Contracts.F_Instrument fill) = I_ID (Contracts.OI_Instrument intent) /\
  Contracts.F_Side fill = Contracts.OI_Side intent /\
  Contracts.F_FeeAsset fill = I_QuoteAsset (Contracts.OI_Instrument intent) /\
  intent_metadata intent !! "cost_policy_version" = Some (Contracts.F_CostModelVersion fill).
Definition executed_of (item : outcomePlan) : Z := Zsum (fun c => integer (C_Quantity c)) (op_commands item).
(** The plan of an accepted order: its intent, one command per fill, and
    quantities that add up. *)
Record plan_ok (approved : list Contracts.OrderIntent) (item : outcomePlan) : Prop := {
  po_intent : op_intent item ∈ approved /\ Contracts.OI_ID (op_intent item) = Contracts.AO_OrderID (op_accepted item);
  po_paper : Contracts.OI_ExecutionMode (op_intent item) = ExecutionPaper /\
             (Contracts.OI_AccountID (op_intent item) = "" \/ Contracts.OI_AccountID (op_intent item) = DefaultAccountID);
  po_requested : op_requested item = core_decimal (Values.Quantity_Decimal (Contracts.OI_Quantity (op_intent item)));
  po_commands : op_commands item =
    fill_command (op_intent item) (op_accepted item) <$> Contracts.Fills (op_accepted item);
  po_fills : Forall (fill_matches (op_intent item)) (Contracts.Fills (op_accepted item));
  po_sum : executed_of item + integer (op_remaining item) = integer (op_requested item);
  po_remaining : 0 <= integer (op_remaining item);
  po_filled : Contracts.AO_Status (op_accepted item) = Contracts.BrokerFilled -> integer (op_remaining item) = 0 }.

Lemma requirePrimary_Ok account u : requirePrimaryAccount account = Ok u -> account = "" \/ account = DefaultAccountID.
Proof.
  unfold requirePrimaryAccount. destruct (String.eqb_spec account ""); [by left|].
  destruct (String.eqb_spec account DefaultAccountID); [by right | done].
Qed.
Lemma see_intents l intents ids : foldM see_intent (∅, []) l = Ok (intents, ids) ->
  ids = Contracts.OI_IdempotencyKey <$> l /\
  dom intents = list_to_set (C := gset string) (Contracts.OI_ID <$> l) /\
  map_Forall (fun id intent => intent ∈ l /\ Contracts.OI_ID intent = id) intents /\
  Forall (fun i => (Contracts.OI_AccountID i = "" \/ Contracts.OI_AccountID i = DefaultAccountID) /\
    (Contracts.OI_ExecutionMode i = ExecutionPaper \/ live_mode (Contracts.OI_ExecutionMode i) = true)) l.
Proof.
  intros H. apply (foldM_inv (fun l '(intents, ids) => ids = Contracts.OI_IdempotencyKey <$> l /\
    dom intents = list_to_set (C := gset string) (Contracts.OI_ID <$> l) /\
    map_Forall (fun id intent => intent ∈ l /\ Contracts.OI_ID intent = id) intents /\
    Forall (fun i => (Contracts.OI_AccountID i = "" \/ Contracts.OI_AccountID i = DefaultAccountID) /\
    (Contracts.OI_ExecutionMode i = ExecutionPaper \/ live_mode (Contracts.OI_ExecutionMode i) = true)) l)) in H; [done | |].
  - split_and!; [done | set_solver | apply map_Forall_empty | constructor].
  - intros d i [m k] [m' k'] (-> & Hd & Hm & Hf) Hi E. unfold see_intent in E. res_inv. rewrite !fmap_app.
    split_and!; [done | set_solver | |].
    + apply map_Forall_insert_2; [split; [set_solver | done]|]. eapply map_Forall_impl; [exact Hm|].
      intros id j [Hj E']. split; [set_solver | done].
    + apply Forall_app. split; [done|]. apply Forall_singleton. split; [by eapply requirePrimary_Ok|].
      destruct (String.eqb_spec (Contracts.OI_ExecutionMode i) ExecutionPaper); [by left|]. right.
      destruct (live_mode _); [done|discriminate].
Qed.

Lemma take_fills intent accepted l pf0 pf executed commands :
  default "" (intent_metadata intent !! "cost_policy_version") <> "" ->
  foldM (take_fill intent accepted) (pf0, Zero, []) l = Ok (pf, executed, commands) ->
  commands = fill_command intent accepted <$> l /\ Forall (fill_matches intent) l /\
  integer executed = Zsum (fun c => integer (C_Quantity c)) commands /\
  pf = list_to_set (C := gset string) (Contracts.F_ProviderFillID <$> l) ∪ pf0 /\
  NoDup (Contracts.F_ProviderFillID <$> l) /\ Forall (fun f => Contracts.F_ProviderFillID f ∉ pf0) l.
Proof.
  intros Hcost H. apply (foldM_inv (fun l '(pf, executed, commands) =>
    commands = fill_command intent accepted <$> l /\ Forall (fill_matches intent) l /\
    integer executed = Zsum (fun c => integer (C_Quantity c)) commands /\
    pf = list_to_set (C := gset string) (Contracts.F_ProviderFillID <$> l) ∪ pf0 /\
    NoDup (Contracts.F_ProviderFillID <$> l) /\ Forall (fun f => Contracts.F_ProviderFillID f ∉ pf0) l)) in H; [done | |].
  - split_and!; [done | constructor | done | set_solver | constructor | constructor].
  - intros d f [[p e] c] [[p' e'] c'] (-> & Hm & He & -> & Hnd & Hout) _ E. unfold take_fill in E. res_inv.
    bool_prop. match goal with H : bool_decide _ = false |- _ => apply bool_decide_eq_false in H as Hnew end.
    rewrite not_elem_of_union in Hnew. destruct Hnew as [Hn1 Hn2]. rewrite not_elem_of_list_to_set in Hn1.
    rewrite !fmap_app. split_and!; [done | | | set_solver | by apply NoDup_snoc | by apply Forall_app, conj, Forall_singleton].
    + apply Forall_app. split; [done|]. apply Forall_singleton. split_and!; try done.
      match goal with H : Contracts.F_CostModelVersion f = default "" ?o |- _ => destruct o as [v|] eqn:Ev; cbn in H end;
        [congruence | done].
    + rewrite Zsum_app, Zsum_cons, Zsum_nil, Z.add_0_r, integer_Add, He. done.
Qed.

(** The accepted orders. *)
Record accepted_inv (approved : list Contracts.OrderIntent) (done : list Contracts.AcceptedOrder) (s : OutcomeState) :
    Prop := {
  ai_seen : os_seen s = list_to_set (C := gset string) (Contracts.AO_OrderID <$> done);
  ai_nodup : NoDup (Contracts.AO_OrderID <$> done);
  ai_plans : op_accepted <$> os_plans s = done;
  ai_ok : Forall (plan_ok approved) (os_plans s);
  ai_fills : os_fills s = list_to_set (C := gset string) (mjoin (fmap Contracts.F_ProviderFillID ∘ Contracts.Fills <$> done));
  ai_distinct : NoDup (mjoin (fmap Contracts.F_ProviderFillID ∘ Contracts.Fills <$> done)) }.

Lemma take_accepted_inv approved intents ids done s accepted s' :
  map_Forall (fun id intent => intent ∈ approved /\ Contracts.OI_ID intent = id) intents ->
  Forall (fun i => (Contracts.OI_AccountID i = "" \/ Contracts.OI_AccountID i = DefaultAccountID) /\
    (Contracts.OI_ExecutionMode i = ExecutionPaper \/ live_mode (Contracts.OI_ExecutionMode i) = true)) approved ->
  foldM see_intent (∅, []) approved = Ok (intents, ids) ->
  accepted_inv approved done s -> take_accepted intents s accepted = Ok s' -> accepted_inv approved (done ++ [accepted]) s'.
Proof.
  intros Hm Hf _ [H1 H2 H3 H4 H5 H6] E. unfold take_accepted in E.
  destruct (intents !! _) as [intent|] eqn:Ei; [|discriminate]. apply Hm in Ei as [Hin Hid].
  res_inv. match goal with H : foldM (take_fill _ _) _ _ = Ok ?x |- _ => destruct x as [[pf executed] commands] end. res_inv.
  bool_prop. match goal with H : bool_decide _ = false |- _ => apply bool_decide_eq_false in H as Hnew end.
  match goal with H : foldM (take_fill _ _) _ _ = Ok _ |- _ => apply take_fills in H as (Hc & Hm' & Hex & Hpf & Hnd & Hout); [|done] end.
  rewrite Forall_forall in Hf. destruct (Hf _ Hin) as [Hacc [Hmode|Hmode]]; [|congruence].
  rewrite H1, not_elem_of_list_to_set in Hnew.
  rewrite Cmp_spec, integer_Add, Sign_integer in *.
  split; cbn [os_seen os_fills os_plans].
  - rewrite H1, fmap_app. set_solver.
  - rewrite fmap_app. by apply NoDup_snoc.
  - by rewrite fmap_app.
  - apply Forall_app. split; [done|]. apply Forall_singleton.
    split; cbn [op_intent op_accepted op_requested op_remaining op_commands]; try done.
    + unfold executed_of. cbn [op_commands]. rewrite <- Hex. lia.
    + lia.
    + intros Hst. match goal with H : (_ && _)%bool = false |- _ => rewrite Hst in H end.
      cbn in *. bool_prop. lia.
  - rewrite Hpf, H5, fmap_app, join_app. cbn. rewrite app_nil_r. set_solver.
  - rewrite fmap_app, join_app. cbn. rewrite app_nil_r. apply NoDup_app. split_and!; [done | | done].
    intros x Hx (f & -> & Hfin)%list_elem_of_fmap. rewrite Forall_forall in Hout. apply (Hout f Hfin).
    rewrite H5. by apply elem_of_list_to_set.
Qed.

Lemma take_rejecteds intents l s0 s : foldM (take_rejected intents) s0 l = Ok s ->
  os_plans s = os_plans s0 /\ os_seen s = list_to_set (C := gset string) (Contracts.OR_OrderID <$> l) ∪ os_seen s0 /\
  NoDup (Contracts.OR_OrderID <$> l) /\
  Forall (fun r => (Contracts.OR_OrderID r ∉ os_seen s0) /\ is_Some (intents !! Contracts.OR_OrderID r)) l.
Proof.
  intros H. apply (foldM_inv (fun l s => os_plans s = os_plans s0 /\
    os_seen s = list_to_set (C := gset string) (Contracts.OR_OrderID <$> l) ∪ os_seen s0 /\
    NoDup (Contracts.OR_OrderID <$> l) /\
    Forall (fun r => (Contracts.OR_OrderID r ∉ os_seen s0) /\ is_Some (intents !! Contracts.OR_OrderID r)) l)) in H; [done | |].
  - split_and!; [done | set_solver | constructor | constructor].
  - intros d r t t' (Hp & Hs & Hn & Hf) _ E. unfold take_rejected in E.
    destruct (intents !! _) as [i|] eqn:Ei; [|discriminate]. res_inv.
    match goal with H : bool_decide _ = false |- _ => apply bool_decide_eq_false in H as Hnew end.
    rewrite Hs, not_elem_of_union, not_elem_of_list_to_set in Hnew. destruct Hnew as [Hn1 Hn2].
    cbn [os_plans os_seen]. rewrite fmap_app. split_and!; [done | set_solver | by apply NoDup_snoc |].
    apply Forall_app. split; [done|]. apply Forall_singleton. split; [done | by eexists].
Qed.

Lemma ledger_ok_orders db db' : ledger_ok db -> db' = with_orders db (orders db') (next_order db') ->
  orders_ok db' -> ledger_ok db'.
Proof.
  intros [Hr Ho Hop] E Ho'. split; [|done|].
  - eapply reconciled_proper; [|exact Hr]. rewrite E. by split.
  - rewrite E. exact Hop.
Qed.
Lemma UpdateOrder_Ok id_ f db u db' : UpdateOrder id_ f db = (Ok u, db') ->
  db' = with_orders db ((fun o => if O_ID o =? id_ then f o else o) <$> orders db) (next_order db).
Proof. unfold UpdateOrder. intros H. by tx_inv. Qed.
Lemma UpdateOrder_ok id_ f db u db' : (forall o, O_ID (f o) = O_ID o) -> ledger_ok db ->
  UpdateOrder id_ f db = (Ok u, db') -> ledger_ok db'.
Proof.
  intros Hf Hok ->%UpdateOrder_Ok. eapply ledger_ok_orders; [exact Hok | done |].
  destruct Hok as [_ [H1 H2 H3] _]. split; cbn; [| |done].
  - rewrite <- list_fmap_compose. rewrite (list_fmap_ext _ O_ID); [done|].
    intros i o _. cbn. by destruct (O_ID o =? id_).
  - apply Forall_fmap. eapply Forall_impl; [exact H2|]. intros o Ho. cbn.
    destruct (O_ID o =? id_); by rewrite ?Hf.
Qed.

Section Outcome.
Context (guards : DB -> DB -> res unit) (SetRole : res unit) (AfterWrite : string -> res unit)
  (now : nat -> nat -> Time) (sha256hex : string -> string) (MarshalFill : FillCommand -> res string)
  (MarshalMetadata : Metadata -> res string) (Stage08 : FillCommand -> string)
  (MarshalStrings : list string -> string) (MarshalOutcome : list OutcomeItem -> string)
  (MarshalObservation : Contracts.OrderIntent -> string).

(** The stages of the check. *)
Lemma checked_stages approved outcome plan identity hash :
  validateBrokerOutcome sha256hex MarshalStrings MarshalOutcome approved outcome = Ok (plan, identity, hash) ->
  exists intents ids s1 s2, foldM see_intent (∅, []) (Contracts.Intents approved) = Ok (intents, ids) /\
  accepted_inv (Contracts.intents approved) (Contracts.bo_accepted outcome) s1 /\
  foldM (take_rejected intents) s1 (Contracts.bo_rejected outcome) = Ok s2 /\ plan = os_plans s2 /\
  size (os_seen s2) = size intents.
Proof.
  intros H. unfold validateBrokerOutcome in H. res_inv.
  match goal with H : foldM see_intent _ _ = Ok ?x |- _ => destruct x as [intents ids] end. res_inv.
  match goal with H : foldM see_intent _ _ = Ok _ |- _ => pose proof H as Hsee; apply see_intents in H as (_ & Hdom & Hm & Hf) end.
  match goal with H : foldM (take_accepted _) _ _ = Ok ?x |- _ => rename x into s1; rename H into Ha end.
  eapply (foldM_inv (accepted_inv (Contracts.intents approved))) in Ha.
  2: { split; cbn; done || constructor. }
  2: { intros d x t t' Hi _. by eapply take_accepted_inv. }
  bool_prop. match goal with H : foldM (take_rejected _) _ _ = Ok ?x |- _ => exists intents, ids, s1, x end. split_and!; try done. lia.
Qed.
Lemma checked_accepted approved outcome plan identity hash :
  validateBrokerOutcome sha256hex MarshalStrings MarshalOutcome approved outcome = Ok (plan, identity, hash) ->
  op_accepted <$> plan = Contracts.bo_accepted outcome /\ Forall (plan_ok (Contracts.intents approved)) plan.
Proof.
  intros (intents & ids & s1 & s2 & _ & Ha & Hr & -> & _)%checked_stages.
  apply take_rejecteds in Hr as (-> & _). destruct Ha. done.
Qed.

(** A checked outcome resolves every approved intent exactly once, by an
    accepted or a rejected order: the orders are distinct and are those of the
    intents. Each accepted order has one command per fill, its fills agree with
    the intent, no provider fill occurs twice, and the executed and remaining
    quantities add up to the approved one. *)
Theorem validateBrokerOutcome_spec approved outcome plan identity hash :
  validateBrokerOutcome sha256hex MarshalStrings MarshalOutcome approved outcome = Ok (plan, identity, hash) ->
  let ids := (Contracts.AO_OrderID <$> Contracts.bo_accepted outcome) ++
             (Contracts.OR_OrderID <$> Contracts.bo_rejected outcome) in
  NoDup ids /\ (forall id, id ∈ ids <-> id ∈ Contracts.OI_ID <$> Contracts.intents approved) /\
  op_accepted <$> plan = Contracts.bo_accepted outcome /\ Forall (plan_ok (Contracts.intents approved)) plan /\
  NoDup (mjoin (fmap Contracts.F_ProviderFillID ∘ Contracts.Fills <$> Contracts.bo_accepted outcome)).
Proof.
  intros (intents & ids & s1 & s2 & Hsee & [H1 H2 H3 H4 H5 H6] & Hr & -> & Hsize)%checked_stages.
  apply see_intents in Hsee as (_ & Hdom & Hm & Hf). apply take_rejecteds in Hr as (Hp2 & Hs2 & Hn2 & Hf2).
  assert (Hsub : os_seen s2 ⊆ dom intents).
  { rewrite Hs2, H1. rewrite Forall_forall in Hf2. rewrite Forall_forall in H4. intros x [Hx|Hx]%elem_of_union.
    - apply elem_of_list_to_set, list_elem_of_fmap in Hx as (r & -> & Hr). apply elem_of_dom. by apply Hf2.
    - apply elem_of_list_to_set, list_elem_of_fmap in Hx as (o & -> & Ho). rewrite <- H3 in Ho.
      apply list_elem_of_fmap in Ho as (item & -> & Hitem). destruct (po_intent _ _ (H4 _ Hitem)) as [Hin <-].
      rewrite Hdom. apply elem_of_list_to_set. by apply list_elem_of_fmap_2. }
  assert (Hall : os_seen s2 = dom intents).
  { apply set_subseteq_size_eq; [exact Hsub|]. rewrite size_dom. lia. }
  rewrite Hp2. split_and!; try done.
  - apply NoDup_app. split_and!; [done | | done]. intros x Hx (r & -> & Hr)%list_elem_of_fmap.
    rewrite Forall_forall in Hf2. destruct (Hf2 _ Hr) as [Hnot _]. apply Hnot. rewrite H1. by apply elem_of_list_to_set.
  - intros id_. assert (Hid : id_ ∈ os_seen s2 <-> id_ ∈ dom intents) by (by rewrite Hall).
    rewrite Hdom, Hs2, H1, elem_of_union, !elem_of_list_to_set in Hid. rewrite elem_of_app. unfold Contracts.Intents in Hid.
    clear -Hid. tauto.
Qed.

Lemma recordFill_ok orderID i c db j db' : ledger_ok db ->
  recordFill SetRole AfterWrite now sha256hex MarshalFill MarshalMetadata Stage08 orderID i c db = (Ok j, db') ->
  ledger_ok db'.
Proof.
  intros Hok H. unfold recordFill, ApplyFillWith in H. tx_inv.
  match goal with H : normalized _ _ = _ |- _ => apply (proj1 (normalized_Ok _ _ _ _)) in H end.
  match goal with H : prepareFill _ _ = Ok _ |- _ => apply prepareFill_valid in H end.
  eapply fillBody_ok; eauto.
Qed.
Lemma recordPlan_ok i item db j db' : ledger_ok db ->
  recordPlan SetRole AfterWrite now sha256hex MarshalFill MarshalMetadata Stage08 MarshalObservation i item db
    = (Ok j, db') -> ledger_ok db'.
Proof.
  intros Hok H. unfold recordPlan in H. tx_inv.
  match goal with H : CreateOrder _ _ = _ |- _ => apply CreateOrder_ok in H as (E & Ho & _); [|apply Hok] end.
  match goal with H : UpdateOrder _ _ _ = _ |- _ => eapply UpdateOrder_ok; [| |exact H]; [done|] end.
  match goal with H : sfoldM _ _ _ _ = _ |- _ => eapply sfoldM_keeps; [| |exact H] end.
  - intros s c w s' w'. apply recordFill_ok.
  - by eapply ledger_ok_orders.
Qed.
Lemma outcomeBody_ok plan identity hash db u db' : ledger_ok db ->
  outcomeBody SetRole AfterWrite now sha256hex MarshalFill MarshalMetadata Stage08 MarshalObservation plan identity
    hash db = (Ok u, db') -> ledger_ok db'.
Proof.
  intros Hok H. unfold outcomeBody in H. tx_inv.
  match goal with H : or_not_found _ _ = _ |- _ => apply or_not_found_Ok in H end.
  match goal with H : match ?o with Some _ => _ | None => _ end |- _ => destruct o as [row|] end.
  - unfold FirstIngestion in *. by tx_inv.
  - match goal with H : exists _, _ /\ _ |- _ => destruct H as (e & H & _);
      unfold FirstIngestion, sbind, get, found, slift in H; cbn in H; injection H as _ <- end.
    tx_inv. match goal with H : CreateIngestion _ _ _ = _ |- _ => unfold CreateIngestion in H end. tx_inv.
    match goal with H : sfoldM _ _ _ _ = _ |- _ => eapply sfoldM_keeps; [| |exact H] end.
    + intros s item w s' w'. apply recordPlan_ok.
    + destruct Hok as [Hr Ho Hop]. split; [|by destruct Ho|done].
      by eapply reconciled_proper; [symmetry; apply same_books_ingestions|].
Qed.
End Outcome.

(** ** The history *)
#[export] Instance grows_sfoldM {A S} (f : S -> A -> Tx S) l s : (forall s a, Grows (f s a)) -> Grows (sfoldM f s l).
Proof. intros Hf. revert s. induction l as [|a l IH]; intros s; cbn [sfoldM]; apply _. Qed.
#[export] Instance grows_UpdateOrder id_ f : Grows (UpdateOrder id_ f).
Proof. unfold UpdateOrder. apply _. Qed.
#[export] Instance grows_recordFill SetRole AfterWrite now sha256hex MarshalFill MarshalMetadata Stage08 orderID i c :
  Grows (recordFill SetRole AfterWrite now sha256hex MarshalFill MarshalMetadata Stage08 orderID i c).
Proof.
  unfold recordFill, ApplyFillWith, fillBody, applyNewFill, allowLedgerProjectionWrites, lockAccount, fail.
  unfold_reads. apply _.
Qed.
#[export] Instance grows_outcomeBody SetRole AfterWrite now sha256hex MarshalFill MarshalMetadata Stage08
    MarshalObservation plan identity hash :
  Grows (outcomeBody SetRole AfterWrite now sha256hex MarshalFill MarshalMetadata Stage08 MarshalObservation plan
           identity hash).
Proof. unfold outcomeBody, recordPlan. unfold_reads. apply _. Qed.
#[export] Instance grows_or_recorded identity hash m : Grows m -> Grows (or_recorded identity hash m).
Proof.
  intros Hm db. unfold or_recorded. specialize (Hm db). destruct (m db) as [[a|e|w] d]; [done| |done].
  destruct (ingestions d !! identity) as [row|]; [|done]. by destruct (LB_PayloadHash row =s hash).
Qed.
#[export] Instance grows_RecordBrokerOutcome guards SetRole AfterWrite now sha256hex MarshalFill MarshalMetadata
    Stage08 MarshalStrings MarshalOutcome MarshalObservation approved outcome :
  Grows (RecordBrokerOutcome guards SetRole AfterWrite now sha256hex MarshalFill MarshalMetadata Stage08
           MarshalStrings MarshalOutcome MarshalObservation approved outcome).
Proof. unfold RecordBrokerOutcome. apply _. Qed.

(** ** A broker outcome is recorded once *)
Section Once.
Context (guards : DB -> DB -> res unit) (SetRole : res unit) (AfterWrite : string -> res unit)
  (sha256hex : string -> string) (MarshalFill : FillCommand -> res string)
  (MarshalMetadata : Metadata -> res string) (Stage08 : FillCommand -> string)
  (MarshalStrings : list string -> string) (MarshalOutcome : list OutcomeItem -> string)
  (MarshalObservation : Contracts.OrderIntent -> string).

Definition record (now : nat -> nat -> Time) : Contracts.DecisionBatch -> Contracts.BrokerBatchOutcome -> Tx unit :=
  RecordBrokerOutcome guards SetRole AfterWrite now sha256hex MarshalFill MarshalMetadata Stage08 MarshalStrings
    MarshalOutcome MarshalObservation.
Definition checked := validateBrokerOutcome sha256hex MarshalStrings MarshalOutcome.

Lemma outcomeBody_recorded now plan identity hash db u db' :
  outcomeBody SetRole AfterWrite now sha256hex MarshalFill MarshalMetadata Stage08 MarshalObservation plan identity
    hash db = (Ok u, db') -> exists row, ingestions db' !! identity = Some row /\ LB_PayloadHash row = hash.
Proof.
  intros H. unfold outcomeBody in H. tx_inv.
  match goal with H : or_not_found _ _ = _ |- _ => apply or_not_found_Ok in H end.
  match goal with H : match ?o with Some _ => _ | None => _ end |- _ => destruct o as [row|] end.
  - unfold FirstIngestion in *. tx_inv. bool_prop. eauto.
  - match goal with H : exists _, _ /\ _ |- _ => destruct H as (e & H & _);
      unfold FirstIngestion, sbind, get, found, slift in H; cbn in H; injection H as _ <- end.
    tx_inv. match goal with H : CreateIngestion _ _ _ = _ |- _ => unfold CreateIngestion in H end. tx_inv.
    match goal with H : sfoldM ?f ?s ?l ?d = (_, ?d') |- _ => pose proof (grows (m := sfoldM f s l) d) as Hg; rewrite H in Hg end.
    destruct Hg as [_ _ _ Hi]. cbn in Hi. eexists. split; [eapply lookup_weaken; [apply lookup_insert_eq | exact Hi]|done].
Qed.
(** The body when the outcome is there. *)
Lemma outcomeBody_again now plan identity hash db row : ingestions db !! identity = Some row ->
  outcomeBody SetRole AfterWrite now sha256hex MarshalFill MarshalMetadata Stage08 MarshalObservation plan identity
    hash db = (if LB_PayloadHash row =s hash then Ok tt else Err ErrIdempotencyConflict, db).
Proof.
  intros H. unfold outcomeBody, or_not_found, FirstIngestion, sbind, get, found, slift. cbn. rewrite H. cbn.
  by destruct (LB_PayloadHash row =s hash).
Qed.

(** C15. Recording a broker outcome is atomic and happens once: a failure
    leaves the database as it was; after a success the outcome is recorded
    under the digest of its intents, and recording it again, at any time,
    succeeds and changes nothing; another outcome for the same intents is
    refused with [idempotency_conflict]. The commit guards must accept a
    transaction that changes nothing. *)
Theorem RecordBrokerOutcome_once now approved outcome db r db' : (forall d, is_ok (guards d d) = true) ->
  record now approved outcome db = (r, db') ->
  (is_ok r = false -> db' = db) /\
  (r = Ok tt -> exists plan identity hash row, checked approved outcome = Ok (plan, identity, hash) /\
     ingestions db' !! identity = Some row /\ LB_PayloadHash row = hash /\
     (forall now2, record now2 approved outcome db' = (Ok tt, db')) /\
     (forall now2 outcome2 plan2 hash2, checked approved outcome2 = Ok (plan2, identity, hash2) -> hash2 <> hash ->
        record now2 approved outcome2 db' = (Err ErrIdempotencyConflict, db'))).
Proof.
  intros Hg H. unfold record, RecordBrokerOutcome, sbind, slift in *. fold checked in *.
  destruct (checked approved outcome) as [[[plan identity] hash]|e|w] eqn:Ec; [|by injection H as <- <-..].
  assert (Hagain : forall now2 plan2 hash2 row, ingestions db' !! identity = Some row ->
    normalized (or_recorded identity hash2 (transaction guards (outcomeBody SetRole AfterWrite now2 sha256hex MarshalFill
      MarshalMetadata Stage08 MarshalObservation plan2 identity hash2))) db' =
    (if LB_PayloadHash row =s hash2 then Ok tt else Err ErrIdempotencyConflict, db')).
  { intros now2 plan2 hash2 row Hrow. unfold normalized, or_recorded, transaction. rewrite (outcomeBody_again _ _ _ _ _ _ Hrow).
    destruct (LB_PayloadHash row =s hash2) eqn:Eh.
    - specialize (Hg db'). by destruct (guards db' db').
    - rewrite Hrow, Eh. done. }
  unfold normalized, or_recorded in H.
  destruct (transaction guards _ db) as [[u|e|w] d] eqn:Et.
  - injection H as <- <-. split; [done|]. intros _. pose proof (transaction_Ok _ _ _ _ _ Et) as Hb.
    apply outcomeBody_recorded in Hb as (row & Hrow & Hh). exists plan, identity, hash, row. split_and!; try done.
    + intros now2. by rewrite (Hagain now2 plan hash row Hrow), Hh, String.eqb_refl.
    + intros now2 outcome2 plan2 hash2 E2 Hne. rewrite E2, (Hagain now2 plan2 hash2 row Hrow), Hh.
      by rewrite (proj2 (String.eqb_neq _ _)) by congruence.
  - pose proof (transaction_rollback _ _ _ _ _ Et eq_refl) as ->.
    destruct (ingestions db !! identity) as [row|] eqn:Ei; [destruct (LB_PayloadHash row =s hash) eqn:Eh|]; injection H as <- <-;
      (split; [done|]); intros Hr; try discriminate Hr.
    bool_prop. exists plan, identity, hash, row. split_and!; try done.
    + intros now2. by rewrite (Hagain now2 plan hash row Ei), Eh, String.eqb_refl.
    + intros now2 outcome2 plan2 hash2 E2 Hne. rewrite E2, (Hagain now2 plan2 hash2 row Ei), Eh.
      by rewrite (proj2 (String.eqb_neq _ _)) by congruence.
  - injection H as <- <-. by pose proof (transaction_rollback _ _ _ _ _ Et eq_refl) as ->.
Qed.
End Once.
