(* ===== verification/LedgerTheorems.v ===== *)
(** * LedgerTheorems: what the ledger service promises

    Reconciliation and append-only history along every sequence of commands,
    exact sales, atomicity, and replay of a command. *)
From Stdlib Require Import Ascii.
From stdpp Require Import base numbers strings gmap list relations.
From S2P Require Import Prelude GoStrings GoFloat Accounting.
From S2P Require Values Contracts.
From S2P Require Import Snapshots LedgerModel Ledger LedgerAdmin LedgerAdapter.
From S2P Require Import LedgerFacts LedgerFill LedgerBooks LedgerHistory LedgerOutcome.
Local Open Scope Z_scope.

Section Service.
Context (guards : DB -> DB -> res unit) (SetRole : res unit) (AfterWrite : string -> res unit)
  (sha256hex : string -> string) (MarshalFill : FillCommand -> res string)
  (MarshalMetadata : Metadata -> res string) (Stage08 : FillCommand -> string)
  (MarshalAdjustment : AdjustmentCommand -> res string) (MarshalReversal : ReversalCommand -> res string)
  (MarshalCorrection : AssetCorrectionCommand -> res string)
  (MarshalEvidence : option Metadata -> res string)
  (MarshalBackfill : BackfillOptions -> list string -> string) (MarshalStrings : list string -> string)
  (ObservationContext : string) (MarshalOutcome : list OutcomeItem -> string)
  (MarshalObservation : Contracts.OrderIntent -> string).

Definition applyFill (now : nat -> Time) : FillCommand -> Tx FillResult :=
  ApplyFill guards SetRole AfterWrite now sha256hex MarshalFill MarshalMetadata Stage08.

(** A command of the service, at some reading of the clock, with any result. *)
Inductive command_step (db : DB) : DB -> Prop :=
| step_fill now command : command_step db (snd (applyFill now command db))
| step_adjustment now command : command_step db
    (snd (ApplyAdjustment guards SetRole AfterWrite now sha256hex MarshalAdjustment command db))
| step_reversal now command : reversal_clean command db -> command_step db
    (snd (ReverseCashEvent guards SetRole now sha256hex MarshalReversal command db))
| step_correction now command : command_step db
    (snd (ApplyAssetCorrection guards SetRole now sha256hex MarshalCorrection MarshalEvidence command db))
| step_backfill now options : command_step db
    (snd (Backfill guards SetRole now sha256hex MarshalBackfill MarshalStrings ObservationContext options db)).

Definition recordOutcome (now : nat -> nat -> Time) : Contracts.DecisionBatch -> Contracts.BrokerBatchOutcome -> Tx unit :=
  RecordBrokerOutcome guards SetRole AfterWrite now sha256hex MarshalFill MarshalMetadata Stage08 MarshalStrings
    MarshalOutcome MarshalObservation.
(** A command, or a broker outcome recorded by the adapter. *)
Inductive ledger_step (db : DB) : DB -> Prop :=
| step_command db' : command_step db db' -> ledger_step db db'
| step_outcome now approved outcome : ledger_step db (snd (recordOutcome now approved outcome db)).

(** A property that a body keeps is kept by the transaction, whatever its result. *)
Lemma txn_ok {A} {P : DB -> Prop} (body : Tx A) db :
  (forall a d, body db = (Ok a, d) -> P d) -> P db -> P (snd (normalized (transaction guards body) db)).
Proof.
  intros Hb Hok. unfold normalized, transaction. destruct (body db) as [[a|e|w] d] eqn:E; [|done..].
  destruct (guards db d); [|done..]. by eapply Hb.
Qed.
(** The checks before a transaction. *)
Lemma guard_ok {A B} {P : DB -> Prop} (m : res A) (k : A -> Tx B) db :
  (forall a, m = Ok a -> P (snd (k a db))) -> P db -> P (snd (sbind (slift m) k db)).
Proof. intros H Hok. unfold sbind, slift. destruct m; [by apply H | done..]. Qed.

Lemma command_ledger_ok db db' : ledger_ok db -> command_step db db' -> ledger_ok db'.
Proof.
  intros Hok Hs. destruct Hs as [now c|now c|now c Hclean|now c|now o].
  - apply guard_ok; [|done]. intros [c' t] Hp. apply guard_ok; [|done]. intros [h m] _.
    apply txn_ok; [|done]. intros a d. apply fillBody_ok; [by eapply prepareFill_valid | done].
  - apply guard_ok; [|done]. intros [c' t] Hp. apply guard_ok; [|done]. intros h _.
    apply txn_ok; [|done]. intros a d. apply adjustmentBody_ok; [by eapply prepareAdjustment_account | done].
  - apply guard_ok; [|done]. intros [c' t] Hp. apply txn_ok; [|done]. intros a d.
    apply reversalBody_ok; [|done]. unfold prepareReversal in Hp. res_inv.
    match goal with H : (let '(_, _) := ?x in _) = Ok _ |- _ => destruct x end. by res_inv.
  - apply guard_ok; [|done]. intros [c' t] Hp. apply guard_ok; [|done]. intros h _.
    apply prepareCorrection_valid in Hp as (H1 & H2 & H3).
    apply txn_ok; [|done]. intros a d. by apply correctionBody_ok.
  - unfold Backfill, requirePrimaryAccount.
    apply guard_ok; [|done]. intros [] Ha. cbn [B_AccountID].
    assert (Hacc : orDefault (B_AccountID o) DefaultAccountID = DefaultAccountID).
    { unfold orDefault. destruct (B_AccountID o =s "") eqn:E; [done|]. cbn in Ha.
      destruct (B_AccountID o =s DefaultAccountID) eqn:E2; [by bool_prop | discriminate]. }
    unfold FirstWalletOf, found, sbind, get. cbn [fst snd id].
    destruct (where_ _ (wallets db)) as [w|]; [|done]. cbn [slift].
    unfold slift at 1. destruct (FromFloat (W_Balance w)); [|done..].
    destruct (negb _); [done|]. destruct ((_ <>s BackfillApproval) || _)%bool; [done|].
    apply txn_ok; [|done]. intros r d. by apply backfillBody_ok.
Qed.

Lemma recorded_ok {P : DB -> Prop} identity hash (m : Tx unit) db : (forall u d, m db = (Ok u, d) -> P d) -> P db ->
  P (snd (normalized (or_recorded identity hash (transaction guards m)) db)).
Proof.
  intros Hm Hok. unfold normalized, or_recorded.
  pose proof (txn_ok m db Hm Hok) as H. unfold normalized in H. destruct (transaction guards m db) as [[u|e|w] d]; [done| |done].
  destruct (ingestions d !! identity) as [row|]; [|done]. by destruct (LB_PayloadHash row =s hash).
Qed.
Lemma step_ledger_ok db db' : ledger_ok db -> ledger_step db db' -> ledger_ok db'.
Proof.
  intros Hok [d Hs|now approved outcome]; [by eapply command_ledger_ok|].
  apply guard_ok; [|done]. intros [[plan identity] hash] _. apply recorded_ok; [|done].
  intros u d. by apply outcomeBody_ok.
Qed.

Lemma step_extends db db' : ledger_step db db' -> extends db db'.
Proof. intros [d []|]; apply grows. Qed.

(** The state the migration starts from: a primary wallet and legacy rows that
    have no exact projection, no history and no readiness. *)
Record legacy (db : DB) : Prop := {
  lg_wallet : exists w, wallets db = [w] /\ W_AccountID w = DefaultAccountID /\ W_BalanceExact w = None;
  lg_positions : NoDup (Ps_Symbol <$> positions db) /\ NoDup (Ps_ID <$> positions db) /\
    Forall (fun p => 0 < Ps_ID p < next_position db /\ Ps_AccountID p = DefaultAccountID /\
                     Ps_exact p = mkExact None None None None) (positions db) /\ 0 < next_position db;
  lg_orders : orders_ok db;
  lg_history : events db = [] /\ states db = ∅ }.

Lemma legacy_ledger_ok db : legacy db -> ledger_ok db.
Proof.
  intros [(w & Ew & Ha & Hb) (H1 & H2 & H3 & H4) Ho [He Hs]].
  split; [|done | by intros _; rewrite He, Hs]. rewrite Forall_forall in H3. split.
  - exists w. rewrite He, Hb. by split_and!.
  - split; [done | done | apply Forall_forall; intros p Hp; by apply H3 |].
    apply Forall_forall. intros p Hp. destruct (H3 p Hp) as (_ & Hacc & Ex). split; rewrite ?Ex; done.
  - intros s. rewrite He. unfold projection, projection_in. destruct (where_ _ _) as [p|] eqn:E; [|done].
    apply where_Some in E as [Hp _]. destruct (H3 p Hp) as (_ & _ & ->). done.
  - done.
  - rewrite He. constructor.
Qed.


(** C5. History is append-only: along any sequence of commands the events and
    fills are only extended at the end and no idempotency batch or recorded
    broker outcome is changed or removed. *)
Theorem history_append_only (db db' : DB) : rtc ledger_step db db' ->
  (exists l, events db' = events db ++ l) /\ (exists l, fills db' = fills db ++ l) /\
  batches db ⊆ batches db' /\ ingestions db ⊆ ingestions db'.
Proof.
  intros H. assert (extends db db') as []; [|done].
  induction H as [|x y z Hs _ IH]; [reflexivity | etrans; [by apply step_extends | done]].
Qed.

(** ** One fill *)
Lemma prepareFill_fields now c0 c t : prepareFill now c0 = Ok (c, t) ->
  C_IdempotencyKey c = C_IdempotencyKey c0 /\ C_Symbol c = C_Symbol c0 /\ C_Side c = C_Side c0 /\
  C_Quantity c = C_Quantity c0 /\ C_FillPrice c = C_FillPrice c0 /\ C_Fee c = C_Fee c0 /\
  C_Currency c = C_Currency c0.
Proof.
  intros (checked & at_ & H & _ & ->)%prepareFill_Ok. unfold checkFill in H. by res_inv.
Qed.

(** A new fill, with the batch row it starts from. *)
Lemma applyFill_new now c0 db r db' : ledger_ok db -> applyFill now c0 db = (Ok r, db') ->
  AlreadyApplied r = false ->
  exists c t hash metadata w b realized basisDelta,
    prepareFill now c0 = Ok (c, t) /\ hashFill sha256hex MarshalFill MarshalMetadata c = Ok (hash, metadata) /\
    SetRole = Ok tt /\ batches db !! C_IdempotencyKey c = None /\
    fill_posted sha256hex Stage08 c t metadata
      (set_batches (fun m => <[C_IdempotencyKey c := mkBatchRow (C_AccountID c) hash (C_OccurredAt c)]> m) db)
      db' r w b realized basisDelta.
Proof.
  intros [Hr Ho _] H Hnew. unfold applyFill, ApplyFill, ApplyFillWith in H. tx_inv.
  apply (proj1 (normalized_Ok _ _ _ _)), transaction_Ok in H.
  match goal with H : prepareFill _ _ = Ok _ |- _ => rename H into Hp; pose proof (prepareFill_valid _ _ _ _ Hp) as Hv end.
  match goal with H : hashFill _ _ _ _ = Ok _ |- _ => rename H into Hh end.
  unfold fillBody, allowLedgerProjectionWrites, lockAccount in H. tx_inv.
  match goal with H : beginBatch _ _ _ _ _ = (Ok ?x, _) |- _ => rename x into already; apply beginBatch_Ok in H as Hb end.
  destruct already; [tx_inv; discriminate|]. destruct Hb as [Hnone ->].
  apply applyNewFill_posted in H as (w & b & realized & basisDelta & H);
    [|done | by apply reconciled_batches | by destruct Ho].
  match goal with H : SetRole = Ok ?u |- _ => destruct u end.
  do 8 eexists. split_and!; [exact Hp | exact Hh | done | exact Hnone | exact H].
Qed.

(** C2. A new fill moves exactly what it says: the wallet by the gross amount
    and the fee, only the symbol's position, a purchase by its quantity and
    cost, and a sale, of no more than is held, by its quantity and a released
    basis between zero and the whole; selling everything releases the whole
    basis and closes the position. *)
Theorem ApplyFill_effect now c db r db' : ledger_ok db -> applyFill now c db = (Ok r, db') ->
  AlreadyApplied r = false ->
  let gross := Mul (C_Quantity c) (C_FillPrice c) in
  let before := projection db (C_Symbol c) in let after := projection db' (C_Symbol c) in
  let quantity := integer (C_Quantity c) in let fee := integer (C_Fee c) in
  (exists w b b', wallets db = [w] /\ W_BalanceExact w = Some b /\
     wallets db' = [R_Wallet r] /\ W_BalanceExact (R_Wallet r) = Some b' /\ 0 <= integer b' /\
     integer b' = integer b + (if C_Side c =s "buy" then - integer gross else integer gross) - fee) /\
  (forall symbol, symbol <> C_Symbol c -> projection db' symbol = projection db symbol) /\
  (C_Side c = "buy" -> after = add_sums before (mkSums quantity (integer gross) (- fee) fee)) /\
  (C_Side c <> "buy" -> exists released, quantity <= s_amount before /\
     0 <= released <= s_basis before /\
     after = add_sums before (mkSums (- quantity) (- released) (integer gross - released - fee) fee) /\
     (quantity = s_amount before -> released = s_basis before /\ Status (Ps_cycle (R_Position r)) = "closed")).
Proof.
  intros Hok H Hnew gross before after quantity fee.
  apply applyFill_new in H as (c' & t & hash & m & w & b & realized & bd & Hp & _ & _ & _ & P); try done.
  apply prepareFill_fields in Hp as (_ & Es & Eside & Eq & Ep & Ef & _).
  assert (Hpr : forall s, projection db' s = add_sums (projection db s)
    (if C_Symbol c' =s s then fill_delta c' realized bd else zero_sums))
    by (apply (pp_projection _ _ _ _ (fp_posted _ _ _ _ _ _ _ _ _ _ _ _ P))).
  destruct P as [[Ew Eb] EW Hnn Ew' _ _ _ _ _ _ _ _ _ Hbuy Hsell].
  unfold fill_cash, fill_gross, fill_delta in *. rewrite Es, ?Eside, ?Eq, ?Ep, ?Ef in *.
  split_and!.
  - exists w, b. eexists. split_and!; [done | done | done | by rewrite EW | done |].
    autorewrite with go_dec. by destruct (C_Side c =s "buy").
  - intros symbol Hne. rewrite Hpr, (proj2 (String.eqb_neq _ _)) by done. apply add_sums_0_r.
  - intros Hside. destruct (Hbuy Hside) as [-> ->]. unfold after. rewrite Hpr, String.eqb_refl, Hside. done.
  - intros Hside. destruct (Hsell Hside) as [H1 H2 H3 H4 _]. rewrite Es, Eq in *.
    exists (- integer bd). split_and!; [done | apply H3 | apply H3 | |].
    + unfold after. rewrite Hpr, String.eqb_refl, (proj2 (String.eqb_neq _ _) Hside), H1. unfold gross, quantity, fee.
      f_equal. f_equal; lia.
    + intros E. by apply H4.
Qed.

(** ** Failures and repetitions *)

(** C4. A fill that fails, for whatever reason, leaves the database as it was;
    in particular a key that was used for a command with another digest is
    refused with [idempotency_conflict]. *)
Theorem ApplyFill_atomic now c0 db res_ db' : applyFill now c0 db = (res_, db') ->
  (is_ok res_ = false -> db' = db) /\
  (forall c t hash metadata row, prepareFill now c0 = Ok (c, t) -> SetRole = Ok tt ->
     hashFill sha256hex MarshalFill MarshalMetadata c = Ok (hash, metadata) ->
     batches db !! C_IdempotencyKey c = Some row -> LB_PayloadHash row <> hash ->
     res_ = Err ErrIdempotencyConflict /\ db' = db).
Proof.
  intros H. split.
  - unfold applyFill, ApplyFill, ApplyFillWith, sbind, slift in H.
    destruct (prepareFill now c0) as [[c t]|e|w]; [|by injection H as <- <-..].
    destruct (hashFill _ _ _ c) as [[h m]|e|w]; [|by injection H as <- <-..].
    by eapply normalized_rollback.
  - intros c t hash metadata row Hp Hrole Hh Hrow Hne.
    unfold applyFill, ApplyFill, ApplyFillWith, sbind, slift in H. rewrite Hp, Hh in H.
    unfold normalized, transaction, fillBody, allowLedgerProjectionWrites, lockAccount, beginBatch, or_not_found,
      FirstBatch, found, get, sbind, slift in H. rewrite Hrole in H. cbn in H. rewrite Hrow in H.
    rewrite (proj2 (String.eqb_neq _ _) Hne) in H. cbn in H. by injection H as <- <-.
Qed.

(** The same command at other readings of the clock has the same digest. *)
Lemma prepareFill_retime now now2 c0 c t : prepareFill now c0 = Ok (c, t) ->
  is_ok (stampTimes now2 (C_OccurredAt c0)) = true ->
  exists at2 t2, prepareFill now2 c0 = Ok (stamped c at2, t2) /\
    hashFill sha256hex MarshalFill MarshalMetadata (stamped c at2) =
    hashFill sha256hex MarshalFill MarshalMetadata c.
Proof.
  intros (checked & at_ & Hc & Hs & ->)%prepareFill_Ok H2.
  destruct (checkFill_valid _ _ Hc) as [_ Et]. rewrite <- Et in H2.
  destruct (stampTimes now2 _) as [[a b]|e|w] eqn:E; [|done..]. exists a, b.
  split; [|done]. apply prepareFill_Ok. eauto 6.
Qed.

Lemma where_app {A} (p : A -> bool) l a : Forall (fun x => p x = false) l -> p a = true ->
  where_ p (l ++ [a]) = Some a.
Proof. intros H Ha. unfold where_. induction H as [|x l Hx _ IH]; cbn; [by rewrite Ha | by rewrite Hx]. Qed.

(** C3. Applying a command again, at any later time, changes nothing and
    returns what the first application did, marked as already applied. The
    commit guards must accept a transaction that changes nothing. *)
Theorem ApplyFill_replay now now2 c0 db r db' : ledger_ok db -> applyFill now c0 db = (Ok r, db') ->
  AlreadyApplied r = false -> is_ok (stampTimes now2 (C_OccurredAt c0)) = true ->
  is_ok (guards db' db') = true ->
  applyFill now2 c0 db' =
    (Ok (mkFillResult true (R_Wallet r) (R_Position r) (R_Order r) (R_Fill r)), db').
Proof.
  intros Hok H Hnew Ht Hg.
  apply applyFill_new in H as (c & t & hash & m & w & b & realized & bd & Hp & Hh & Hrole & _ & P); try done.
  destruct (prepareFill_retime _ now2 _ _ _ Hp Ht) as (at2 & t2 & Hp2 & Hh2).
  destruct P as [_ _ _ Ew Hpp [Hin _] [[Hoi _ _] Hino] EF [Ef Hfr] _ (Eb & _) _ _ _ _].
  unfold applyFill, ApplyFill, ApplyFillWith, sbind, slift. rewrite Hp2, Hh2, Hh.
  unfold normalized, transaction, fillBody, allowLedgerProjectionWrites, lockAccount, beginBatch, or_not_found,
    FirstBatch, loadFillResult, FirstFillOfBatch, FirstOrder, FirstPosition, FirstWallet, found, get, sbind, slift.
  rewrite Hrole. cbn. rewrite Eb. cbn. rewrite lookup_insert_eq. cbn. rewrite String.eqb_refl. cbn.
  rewrite Ef, (where_app _ _ (R_Fill r)); [| |by rewrite EF; cbn; apply String.eqb_refl].
  2: { eapply Forall_impl; [exact Hfr|]. intros f Hf. cbn. by apply String.eqb_neq. }
  rewrite EF. cbn [F_OrderID F_PositionID fillRow].
  rewrite (where_unique _ (orders db') (R_Order r)); [|done|apply Z.eqb_refl|].
  2: { intros o Ho E. bool_prop. by eapply NoDup_same_key. }
  rewrite (where_unique _ (positions db') (R_Position r)); [|done|apply Z.eqb_refl|].
  2: { intros p Hp' E. bool_prop. by eapply NoDup_same_key; [apply (po_ids _ _ (pp_ok _ _ _ _ Hpp)) | ..]. }
  rewrite Ew. cbn. destruct (guards db' db'); [|done..]. by rewrite <- EF.
Qed.
End Service.

(** ** A concrete service *)
Module Sample.
Definition guards (_ _ : DB) : res unit := Ok tt.
Definition hook (_ : string) : res unit := Ok tt.
Definition clock (n : nat) : Time := 1000 + Z.of_nat n.
Definition digest (s : string) : string := s.
Definition fillText (c : FillCommand) : res string := Ok (C_IdempotencyKey c +:+ to_string (C_Quantity c)).
Definition metaText (_ : Metadata) : res string := Ok "{}".
Definition stage08 (_ : FillCommand) : string := "{}".
Definition adjText (c : AdjustmentCommand) : res string := Ok (A_IdempotencyKey c).
Definition revText (c : ReversalCommand) : res string := Ok (V_IdempotencyKey c).
Definition corText (c : AssetCorrectionCommand) : res string := Ok (K_IdempotencyKey c).
Definition evidenceText (_ : option Metadata) : res string := Ok "{}".
Definition backText (_ : BackfillOptions) (_ : list string) : string := "{}".
Definition listText (_ : list string) : string := "[]".
Definition outcomeText (_ : list OutcomeItem) : string := "[]".
Definition intentText (_ : Contracts.OrderIntent) : string := "{}".

Definition units (z : Z) : Decimal := dec (z * factor).
Definition no_labels : Labels := mkLabels "m" "p" "u" "" None None "".
Definition no_protection : Protection := mkProtection None None None None None.
Definition command (key side : string) (quantity price : Z) : FillCommand :=
  mkFillCommand key "" "BTC" side (units quantity) (units price) (units price) (units 1) "trading_fee" "USDT"
    "paper" "" "" "" "" "" 0 "" 0 "test" "reason" "s" "" None "manual" "15m" no_labels no_protection.
Definition options : BackfillOptions := mkOptions true BackfillApproval "admin" "" "" "" "".
Definition legacy_position : Position :=
  mkPosition 1 "BTC" "primary" (mkExact None None None None)
    (mkFloats (f_of_Z 2) fzero None None None None fzero fzero) (mkCycle "open" 5 None None false)
    (mkEntry "paper" "manual" "15m" "" None) no_labels no_protection.
Definition db0 (l : list Position) : DB :=
  mkDB [mkWallet 1 (f_of_Z 400) None "USDT" "primary"] l [] [] [] ∅ ∅ ∅ 2 1.

Definition backfill (db : DB) : DB :=
  snd (Backfill guards (Ok tt) clock digest backText listText "{}" options db).
Abbreviation run := (applyFill guards (Ok tt) hook digest fillText metaText stage08 clock).
Definition fill (c : FillCommand) (db : DB) : DB := snd (run c db).
Definition correct (db : DB) : DB :=
  snd (ApplyAssetCorrection guards (Ok tt) clock digest corText evidenceText
    (mkCorrection "cor" "" "BTC" (units 2) (units 100) "USDT" "admin" "reviewed" None 0) db).
Definition reverse (id_ : string) (db : DB) : DB :=
  snd (ReverseCashEvent guards (Ok tt) clock digest revText (mkReversal "rev" id_ "admin" "undo" 0) db).
Definition step := ledger_step guards (Ok tt) hook digest fillText metaText stage08 adjText revText corText
  evidenceText backText listText "{}" outcomeText intentText.

Definition ready : DB := backfill (db0 []).
Definition bought_db : DB := fill (command "k1" "buy" 3 100) ready.
Definition sold_db : DB := fill (command "k2" "sell" 3 110) bought_db.

Lemma db0_legacy l : l = [] \/ l = [legacy_position] -> legacy (db0 l).
Proof.
  intros [-> | ->]; (split; [eexists; split_and!; done | split_and! | split; [constructor | constructor | done] | done]);
    repeat constructor; set_solver.
Qed.
Lemma fill_step c db : step db (fill c db).
Proof. apply step_command. exact (step_fill _ _ _ _ _ _ _ _ _ _ _ _ _ _ db clock c). Qed.
Lemma backfill_step db : step db (backfill db).
Proof. apply step_command. exact (step_backfill _ _ _ _ _ _ _ _ _ _ _ _ _ _ db clock options). Qed.
Lemma correct_step db : step db (correct db).
Proof. apply step_command. apply step_correction. Qed.
Lemma run_history : rtc step (db0 []) sold_db.
Proof.
  apply (rtc_l step _ ready); [exact (backfill_step (db0 []))|].
  apply (rtc_l step _ bought_db); [exact (fill_step _ ready)|]. apply rtc_once. exact (fill_step _ bought_db).
Qed.
Lemma ready_ok : ledger_ok ready.
Proof.
  eapply step_ledger_ok; [|exact (backfill_step (db0 []))]. apply legacy_ledger_ok, db0_legacy. by left.
Qed.
Lemma bought_ok : ledger_ok bought_db.
Proof. eapply step_ledger_ok; [apply ready_ok | exact (fill_step _ ready)]. Qed.

(** A run with a result that passes a check. *)
Definition ends {A} (p : A -> bool) (o : res A * DB) : bool := match fst o with Ok a => p a | _ => false end.
Lemma ends_Ok {A} (p : A -> bool) (m : Tx A) db : ends p (m db) = true ->
  exists a, m db = (Ok a, snd (m db)) /\ p a = true.
Proof. unfold ends. destruct (m db) as [[a|e|w] d]; [by exists a | done..]. Qed.
Lemma run_new c db : ends (fun r => negb (AlreadyApplied r)) (run c db) = true ->
  exists r, run c db = (Ok r, fill c db) /\ AlreadyApplied r = false.
Proof. intros (r & E & Hn)%ends_Ok. exists r. split; [exact E | by apply negb_true_iff]. Qed.

(** A reversal of the whole amount with part of the basis: the closed position
    keeps a basis, the next purchase drops it, and the projection no longer is
    the sum of the events. *)
Definition corrected : DB := correct (backfill (db0 [legacy_position])).
Definition traded : DB := fill (command "k2" "sell" 1 60) (fill (command "k1" "buy" 1 60) corrected).
Definition reversed : DB := reverse "event-asset-correction_event-asset-correction:cor" traded.
Definition rebought : DB := fill (command "k3" "buy" 1 10) reversed.
End Sample.

(** An approved purchase of two, one of which the broker sold, and a rejected one. *)
Module OutcomeSample.
Definition quantity (z : Z) : Values.Quantity := Values.mkQuantity (Values.decimal z 0).
Definition price (z : Z) : Values.Price := Values.mkPrice (Values.decimal z 0).
Definition btc : Instrument := mkInstrument "btc-usdt" "BTC" "USDT" "binance" "BTCUSDT".
Definition versions : Values.VersionContext := Values.mkVersions "s1" "t1" "p1" "m1" "f1" "d1" "e1" "u1" "g1".
Definition provenance : Values.Provenance := Values.mkProvenance "paper" "engine" "signal" "" "".
Definition intent (id_ : string) : Contracts.OrderIntent :=
  Contracts.mkIntent id_ ("key-" +:+ id_) "primary" btc "buy" "market" (quantity 2) None (Some (price 50)) 900 900 900
    "paper" "exact" 0 "signal" "15m" versions provenance (Some {[ "cost_policy_version" := "c1" ]}).
Definition fill (id_ : string) (q : Z) : Contracts.Fill :=
  Contracts.mkFill id_ "o1" ("p-" +:+ id_) btc "buy" (quantity q) (price 51) (Values.mkAmount (Values.decimal 1 0)) "USDT"
    900 901 902 903 versions provenance "c1".
Definition approved : Contracts.DecisionBatch := Contracts.mkBatch [intent "o1"; intent "o2"].
Definition outcome (fills : list Contracts.Fill) (remaining : option Values.Quantity) : Contracts.BrokerBatchOutcome :=
  Contracts.mkOutcome "complete"
    [Contracts.mkAccepted "o1" "x1" (if remaining is Some _ then "partially_filled" else "filled") 902 remaining fills]
    [Contracts.mkRejection "o2" "no_liquidity" "" 902 "p1"].
Definition partial : Contracts.BrokerBatchOutcome := outcome [fill "f1" 1] (Some (quantity 1)).
Definition filled : Contracts.BrokerBatchOutcome := outcome [fill "f1" 1; fill "f2" 1] None.
Definition text (l : list OutcomeItem) : string :=
  foldl (fun s item => s +:+ match item with ItemAccepted _ _ st _ _ _ _ => st | ItemRejected _ c => c end) "" l.
Definition clock (_ n : nat) : Time := 1000 + Z.of_nat n.
Definition check := validateBrokerOutcome Sample.digest Sample.listText text approved.
Definition checked_of (o : Contracts.BrokerBatchOutcome) : list outcomePlan * string * string :=
  match check o with Ok p => p | _ => ([], "", "") end.
Abbreviation run := (record Sample.guards (Ok tt) Sample.hook Sample.digest Sample.fillText Sample.metaText Sample.stage08
  Sample.listText text Sample.intentText clock approved).
Definition outcome_of (o : Contracts.BrokerBatchOutcome) (db : DB) : DB := snd (run o db).
Definition bought_one : DB := outcome_of partial Sample.ready.
Lemma run_Ok o db : Sample.ends (fun _ => true) (run o db) = true -> run o db = (Ok tt, outcome_of o db).
Proof. by intros ([] & E & _)%Sample.ends_Ok. Qed.
End OutcomeSample.

(** Reversing a correction after trading leaves a closed position with a
    basis, which the next purchase forgets. *)
Lemma reversal_loses_basis :
  reconciled Sample.traded /\
  (Status ∘ Ps_cycle <$> positions Sample.reversed) = ["closed"] /\
  s_basis (projection Sample.reversed "BTC") = 6666666666666666667 /\
  s_basis (projection Sample.rebought "BTC") = 10 * factor /\
  s_basis (ledger_sums "BTC" (events Sample.rebought)) = 16666666666666666667.
Proof.
  split; [|vm_compute; done].
  assert (H : rtc Sample.step (Sample.db0 [Sample.legacy_position]) Sample.traded).
  { apply (rtc_l _ _ (Sample.backfill (Sample.db0 [Sample.legacy_position]))); [apply Sample.backfill_step|].
    apply (rtc_l _ _ Sample.corrected); [apply Sample.correct_step|].
    eapply rtc_l; [apply (Sample.fill_step (Sample.command "k1" "buy" 1 60))|]. apply rtc_once, Sample.fill_step. }
  assert (Hl : ledger_ok (Sample.db0 [Sample.legacy_position]))
    by (apply legacy_ledger_ok, Sample.db0_legacy; by right).
  apply lo_reconciled. clear -H Hl. induction H as [|x y z Hs _ IH]; [done | eauto using step_ledger_ok].
Qed.


Lemma history_append_only_witness :
  exists l, events Sample.sold_db = events (Sample.db0 []) ++ l /\ length l = 5%nat.
Proof.
  destruct (history_append_only _ _ _ _ _ _ _ _ _ _ _ _ _ _ _ _ _ _ Sample.run_history) as [[l E] _].
  exists l. split; [exact E|].
  enough (length (events Sample.sold_db) = 5%nat) by (rewrite E in *; assumption). vm_compute. reflexivity.
Defined.

Lemma ApplyFill_effect_witness : exists r,
  Sample.run (Sample.command "k2" "sell" 3 110) Sample.bought_db = (Ok r, Sample.sold_db) /\
  Status (Ps_cycle (R_Position r)) = "closed" /\
  projection Sample.sold_db "BTC" = mkSums 0 0 (28 * factor) (2 * factor).
Proof.
  destruct (Sample.run_new (Sample.command "k2" "sell" 3 110) Sample.bought_db) as (r & E & Hn); [vm_compute; reflexivity|].
  exists r. split; [exact E|].
  destruct (ApplyFill_effect Sample.guards (Ok tt) Sample.hook Sample.digest Sample.fillText Sample.metaText Sample.stage08
    Sample.clock _ _ _ _ Sample.bought_ok E Hn) as (_ & _ & _ & Hs).
  destruct Hs as (rel & _ & _ & _ & Hfull); [discriminate|].
  split; [|vm_compute; reflexivity]. apply Hfull. vm_compute. reflexivity.
Defined.

Lemma ApplyFill_atomic_witness :
  Sample.run (Sample.command "k1" "buy" 2 100) Sample.bought_db =
    (Err ErrIdempotencyConflict, Sample.bought_db).
Proof.
  pose (c := Sample.command "k1" "buy" 2 100).
  pose (p := match prepareFill Sample.clock c with Ok p => p | _ => (c, 0) end).
  assert (Ep : prepareFill Sample.clock c = Ok (fst p, snd p)) by (vm_compute; reflexivity).
  destruct (ApplyFill_atomic Sample.guards (Ok tt) Sample.hook Sample.digest Sample.fillText Sample.metaText Sample.stage08
    Sample.clock c Sample.bought_db _ _ (surjective_pairing _)) as [_ H].
  destruct (H (fst p) (snd p) (Sample.digest ("k1" +:+ to_string (Sample.units 2))) "{}"
    (mkBatchRow "primary" ("k1" +:+ to_string (Sample.units 3)) 1000) Ep eq_refl) as [E1 E2].
  - vm_compute. reflexivity.
  - vm_compute. reflexivity.
  - apply (bool_decide_eq_false (_ = _)). vm_compute. reflexivity.
  - rewrite <- E1 at 1. rewrite <- E2 at 3. apply surjective_pairing.
Defined.

Lemma ApplyFill_replay_witness : exists r,
  Sample.run (Sample.command "k2" "sell" 3 110) Sample.bought_db = (Ok r, Sample.sold_db) /\
  Sample.run (Sample.command "k2" "sell" 3 110) Sample.sold_db =
    (Ok (mkFillResult true (R_Wallet r) (R_Position r) (R_Order r) (R_Fill r)), Sample.sold_db).
Proof.
  destruct (Sample.run_new (Sample.command "k2" "sell" 3 110) Sample.bought_db) as (r & E & Hn); [vm_compute; reflexivity|].
  exists r. split; [exact E|].
  apply (ApplyFill_replay Sample.guards (Ok tt) Sample.hook Sample.digest Sample.fillText Sample.metaText Sample.stage08
    Sample.clock Sample.clock _ _ _ _ Sample.bought_ok E Hn); reflexivity.
Defined.

Lemma validateBrokerOutcome_spec_witness : exists plan identity hash,
  OutcomeSample.check OutcomeSample.filled = Ok (plan, identity, hash) /\
  Forall (plan_ok (Contracts.intents OutcomeSample.approved)) plan /\ executed_of <$> plan = [2 * factor].
Proof.
  assert (E : OutcomeSample.check OutcomeSample.filled = Ok (OutcomeSample.checked_of OutcomeSample.filled))
    by (vm_compute; reflexivity).
  destruct (OutcomeSample.checked_of OutcomeSample.filled) as [[plan identity] hash] eqn:Ep.
  exists plan, identity, hash. split; [exact E|].
  destruct (validateBrokerOutcome_spec Sample.digest Sample.listText OutcomeSample.text OutcomeSample.approved
    OutcomeSample.filled plan identity hash E) as (_ & _ & _ & H & _). split; [exact H|].
  apply (f_equal (fun p => executed_of <$> fst (fst p))) in Ep. cbn [fst] in Ep. rewrite <- Ep.
  vm_compute. reflexivity.
Defined.

Lemma RecordBrokerOutcome_once_witness :
  OutcomeSample.run OutcomeSample.partial OutcomeSample.bought_one = (Ok tt, OutcomeSample.bought_one) /\
  OutcomeSample.run OutcomeSample.filled OutcomeSample.bought_one =
    (Err ErrIdempotencyConflict, OutcomeSample.bought_one) /\
  projection OutcomeSample.bought_one "BTC" = mkSums factor (51 * factor) (- factor) factor.
Proof.
  assert (E : OutcomeSample.run OutcomeSample.partial Sample.ready = (Ok tt, OutcomeSample.bought_one))
    by (apply OutcomeSample.run_Ok; vm_compute; reflexivity).
  destruct (RecordBrokerOutcome_once Sample.guards (Ok tt) Sample.hook Sample.digest Sample.fillText Sample.metaText
    Sample.stage08 Sample.listText OutcomeSample.text Sample.intentText OutcomeSample.clock OutcomeSample.approved
    OutcomeSample.partial Sample.ready (Ok tt) OutcomeSample.bought_one (fun _ => eq_refl) E) as [_ H].
  destruct (H eq_refl) as (plan & identity & hash & row & Hc & _ & _ & Hsame & Hother).
  split; [apply Hsame|]. split; [|vm_compute; reflexivity].
  assert (E1 : OutcomeSample.checked_of OutcomeSample.partial = (plan, identity, hash))
    by (unfold OutcomeSample.checked_of, OutcomeSample.check, checked in *; by rewrite Hc).
  assert (E2 : OutcomeSample.check OutcomeSample.filled = Ok (OutcomeSample.checked_of OutcomeSample.filled))
    by (vm_compute; reflexivity).
  assert (Ei : snd (fst (OutcomeSample.checked_of OutcomeSample.partial)) =
    snd (fst (OutcomeSample.checked_of OutcomeSample.filled))) by (vm_compute; reflexivity).
  assert (Eh : bool_decide (snd (OutcomeSample.checked_of OutcomeSample.partial) =
    snd (OutcomeSample.checked_of OutcomeSample.filled)) = false) by (vm_compute; reflexivity).
  apply bool_decide_eq_false in Eh. rewrite E1 in Ei, Eh. cbn [fst snd] in Ei, Eh.
  destruct (OutcomeSample.checked_of OutcomeSample.filled) as [[plan2 identity2] hash2]. cbn [fst snd] in Ei, Eh.
  rewrite <- Ei in E2. apply (Hother OutcomeSample.clock OutcomeSample.filled plan2 hash2 E2). congruence.
Defined.
