(* ===== verification/LedgerReconcile.v ===== *)
(** * LedgerReconcile: [internal/ledger/reconcile.go]

    The reconciliation report: the sums of the events against the wallet, the
    positions and the orders, and the rows that do not belong to each other.
    Rows come in the order of their query; PostgreSQL's text order is taken to
    be that of the bytes. The JSON list of unresolved notes is a parameter. *)
From Stdlib Require Import Ascii.
From stdpp Require Import base numbers strings gmap list.
From S2P Require Import Prelude GoStrings GoFloat Accounting Snapshots LedgerModel Ledger LedgerFacts.
From S2P Require Import LedgerFill LedgerBooks LedgerTheorems.
Local Open Scope Z_scope.

Record Difference : Type := mkDifference {
  D_Dimension : string; D_Key : string; D_Ledger : string; D_Projection : option string;
  D_Difference : option string }.
Record ReconciliationReport : Type := mkReconciliation {
  RR_AsOf : Time; RR_AccountID : string; RR_Balanced : bool; CashByCurrency : gmap string string;
  AssetsBySymbol : gmap string string; FeesByCurrency : gmap string string;
  RealizedPnLByCurrency : gmap string string; Differences : list Difference; OrphanOrderIDs : list Z;
  PendingOrderIDs : list Z; OrphanFillIDs : list string; OrphanEventIDs : list string;
  RecordIssues : list string; RR_Unresolved : list string; ExpectedIssues : list string;
  ActionableIssues : list string; UnrealizedPnLBySymbol : gmap string string }.

(** ** Sums by key: a missing key is the zero [Decimal]. *)
Definition at_key {K} `{Countable K} (m : gmap K Decimal) (key : K) : Decimal := default (mkDecimal None) (m !! key).
Definition add_at (m : gmap string Decimal) (key : string) (d : Decimal) : gmap string Decimal :=
  <[key := Add (at_key m key) d]> m.
Record Totals : Type := mkTotals {
  t_cash : gmap string Decimal; t_assets : gmap string Decimal; t_feesCurrency : gmap string Decimal;
  t_pnlCurrency : gmap string Decimal; t_basis : gmap string Decimal; t_feesSymbol : gmap string Decimal;
  t_pnlSymbol : gmap string Decimal }.
Definition is_fee_event (e : LedgerEvent) : bool :=
  (E_EventType e =s EventTradingFee) || (E_EventType e =s EventExchangeFee).
Definition is_fill_event (e : LedgerEvent) : bool :=
  (E_EventType e =s EventBuyFill) || (E_EventType e =s EventSellFill).
Definition add_totals (t : Totals) (event : LedgerEvent) : Totals :=
  let currency := E_Currency event in let symbol := E_Symbol event in
  let with_symbol m d := if symbol <>s "" then add_at m symbol d else m in
  mkTotals (add_at (t_cash t) currency (E_CashDelta event))
    (with_symbol (t_assets t) (E_AssetDelta event))
    (if is_fee_event event then add_at (t_feesCurrency t) currency (Neg (E_CashDelta event)) else t_feesCurrency t)
    (add_at (t_pnlCurrency t) currency (E_RealizedPnL event))
    (with_symbol (t_basis t) (E_CostBasisDelta event))
    (with_symbol (t_feesSymbol t) (E_FeeDelta event))
    (with_symbol (t_pnlSymbol t) (E_RealizedPnL event)).
Definition eventTotals (l : list LedgerEvent) : Totals := foldl add_totals (mkTotals ∅ ∅ ∅ ∅ ∅ ∅ ∅) l.

(** [ORDER BY occurred_at, recorded_at, id]. *)
Definition event_less : LedgerEvent -> LedgerEvent -> bool :=
  lex Z.eqb Z.ltb E_OccurredAt
    (lex Z.eqb Z.ltb E_RecordedAt (fun x y => String.ltb (E_ID x) (E_ID y))).
Definition accountEvents (db : DB) (account : string) (asOf : Time) : list LedgerEvent :=
  SliceStable event_less
    (List.filter (fun e => (E_AccountID e =s account) && negb (After (E_OccurredAt e) asOf)) (events db)).

(** ** Differences *)
Definition compareExact (dimension key : string) (projection : option Decimal) (ledgerValue : Decimal) :
    list Difference :=
  match projection with
  | None => [mkDifference dimension key (to_string ledgerValue) None None]
  | Some p =>
      if Cmp p ledgerValue =? 0 then []
      else [mkDifference dimension key (to_string ledgerValue) (Some (to_string p))
              (Some (to_string (Sub p ledgerValue)))]
  end.
Definition positionDifferences (t : Totals) (position : Position) : list Difference :=
  let symbol := Ps_Symbol position in let x := Ps_exact position in
  compareExact "asset" symbol (AmountExact x) (at_key (t_assets t) symbol) ++
  compareExact "cost_basis" symbol (CostBasisExact x) (at_key (t_basis t) symbol) ++
  compareExact "fees" symbol (FeesExact x) (at_key (t_feesSymbol t) symbol) ++
  compareExact "realized_pnl" symbol (RealizedPnLExact x) (at_key (t_pnlSymbol t) symbol).
Definition unresolvedPosition (position : Position) : list string :=
  match AmountExact (Ps_exact position) with
  | None => ["position " +:+ Ps_Symbol position +:+ " has no exact ledger projection"]
  | Some _ => []
  end.
Definition unrealized (position : Position) : option string :=
  let x := Ps_exact position in
  match AmountExact x, CostBasisExact x, LastMarkPrice (Ps_floats position) with
  | Some amount, Some basis, Some price =>
      Some (to_string (Sub (Mul amount (ignore_err (FromFloat price))) basis))
  | _, _, _ => None
  end.
(** The amounts of keys that nothing projects. *)
Definition strayDifferences (dimension : string) (known : string -> bool) (m : gmap string Decimal) :
    list Difference :=
  (fun '(key, amount) => mkDifference dimension key (to_string amount) None None) <$>
    List.filter (fun '(key, amount) => negb (known key) && negb (Sign amount =? 0)) (map_to_list m).

Definition allDifferences (t : Totals) (wallet : Wallet) (l : list Position) : list Difference :=
  compareExact "cash" (W_Currency wallet) (W_BalanceExact wallet) (at_key (t_cash t) (W_Currency wallet)) ++
  strayDifferences "unsupported_currency" (fun c => c =s W_Currency wallet) (t_cash t) ++
  mjoin (positionDifferences t <$> l) ++
  strayDifferences "asset" (fun s => existsb (fun p => Ps_Symbol p =s s) l) (t_assets t).

(** ** Orphans *)
Definition has_fill (db : DB) (o : Order) : bool := existsb (fun f => F_OrderID f =? O_ID o) (fills db).
Definition ordersWithoutFill (db : DB) (account : string) (statuses : list string) : list Z :=
  SliceStable Z.ltb
    (O_ID <$> List.filter (fun o => (O_AccountID o =s account) && negb (has_fill db o) &&
                                    existsb (String.eqb (O_Status o)) statuses) (orders db)).
Definition sort_ids (l : list string) : list string := SliceStable String.ltb l.
Definition orphanFills (db : DB) (account : string) : list string :=
  sort_ids (F_ID <$> List.filter (fun f => (F_AccountID f =s account) &&
    negb (existsb (fun e => is_fill_event e &&
                            match E_FillID e with Some i => i =s F_ID f | None => false end)
                  (events db))) (fills db)).
Definition orphanEvents (db : DB) (account : string) : list string :=
  sort_ids (E_ID <$> List.filter (fun e => (E_AccountID e =s account) &&
    match E_FillID e with Some i => negb (existsb (fun f => F_ID f =s i) (fills db)) | None => false end)
    (events db)).

(** ** Fills against their events and orders *)
Record FillScan : Type := mkScan { fillCount : Z; feeCash : Decimal; postingIssues : list string }.
Definition scan_event (fill : Fill) (s : FillScan) (event : LedgerEvent) : FillScan :=
  if is_fill_event event then
    let expectedCash := if F_Side fill =s "buy" then Neg (F_GrossAmount fill) else F_GrossAmount fill in
    let expectedAsset := if F_Side fill =s "sell" then Neg (F_Quantity fill) else F_Quantity fill in
    mkScan (fillCount s + 1) (feeCash s)
      (postingIssues s ++
       (if negb (Cmp (E_CashDelta event) expectedCash =? 0) || negb (Cmp (E_AssetDelta event) expectedAsset =? 0)
        then ["fill " +:+ F_ID fill +:+ " postings do not match immutable fill"] else []))
  else if is_fee_event event then mkScan (fillCount s) (Add (feeCash s) (Neg (E_CashDelta event))) (postingIssues s)
  else s.
Definition fillIssues (l : list LedgerEvent) (fill : Fill) : list string :=
  let own := List.filter (fun e => match E_FillID e with Some i => i =s F_ID fill | None => false end) l in
  let s := foldl (scan_event fill) (mkScan 0 Zero []) own in
  postingIssues s ++
  (if negb (fillCount s =? 1)
   then ["fill " +:+ F_ID fill +:+ " has " +:+ Itoa (fillCount s) +:+ " fill events"] else []) ++
  (if negb (Cmp (feeCash s) (F_FeeAmount fill) =? 0)
   then ["fill " +:+ F_ID fill +:+ " fee events do not match fill fee"] else []).
Definition add_order_total (m : gmap Z (Decimal * Decimal * Decimal)) (fill : Fill) :
    gmap Z (Decimal * Decimal * Decimal) :=
  let zero := mkDecimal None in
  let '(quantity, gross, fee) := default (zero, zero, zero) (m !! F_OrderID fill) in
  <[F_OrderID fill := (Add quantity (F_Quantity fill), Add gross (F_GrossAmount fill), Add fee (F_FeeAmount fill))]> m.
Definition orderIssues (db : DB) (total : Z * (Decimal * Decimal * Decimal)) : list string :=
  let '(orderID, (quantity, gross, fee)) := total in
  match where_ (fun o => O_ID o =? orderID) (orders db) with
  | None => ["fills reference missing order " +:+ Itoa orderID]
  | Some order =>
      let x := O_exact order in
      match AmountCryptoExact x, AmountUsdtExact x, FeeExact x with
      | Some a, Some u, Some f =>
          if negb (Cmp a quantity =? 0) || negb (Cmp u gross =? 0) || negb (Cmp f fee =? 0)
          then ["order " +:+ Itoa (O_ID order) +:+ " projection does not match its fills"] else []
      | _, _, _ => ["order " +:+ Itoa (O_ID order) +:+ " has no exact fill projection"]
      end
  end.
Definition recordIssues (db : DB) (account : string) (asOf : Time) (l : list LedgerEvent) : list string :=
  let own := List.filter (fun f => (F_AccountID f =s account) && negb (After (F_OccurredAt f) asOf)) (fills db) in
  mjoin (fillIssues l <$> own) ++ mjoin (orderIssues db <$> map_to_list (foldl add_order_total ∅ own)).

(** ** The report *)
Section Report.
Variable UnmarshalStrings : string -> option (list string).
Variables (guards : DB -> DB -> res unit) (now : nat -> Time).

(** The notes of the migration state: unresolved, expected, actionable. *)
Definition stateNotes (state : option LedgerMigrationState) : list string * list string * list string :=
  match state with
  | None => let note := ["ledger migration state is absent"] in (note, [], note)
  | Some s =>
      if S_UnresolvedJSON s =s "" then ([], [], []) else
      match UnmarshalStrings (S_UnresolvedJSON s) with
      | None => ([], [], [])
      | Some notes => if S_Status s =s "ready" then (notes, notes, []) else (notes, [], notes)
      end
  end.

Definition buildReport (db : DB) (account : string) (asOf : Time) (wallet : Wallet) : ReconciliationReport :=
  let l := accountEvents db account asOf in
  let t := eventTotals l in
  let own := List.filter (fun p => Ps_AccountID p =s account) (positions db) in
  let differences := SliceStable (fun x y => String.ltb (D_Dimension x +:+ D_Key x) (D_Dimension y +:+ D_Key y))
                       (allDifferences t wallet own) in
  let '(notes, expectedNotes, actionableNotes) := stateNotes (states db !! account) in
  let unresolved := sort_ids
    ((if bool_decide (is_Some (W_BalanceExact wallet)) then [] else ["wallet exact projection is absent"]) ++
     mjoin (unresolvedPosition <$> own) ++ notes) in
  let issues := sort_ids (recordIssues db account asOf l) in
  let orphanOrders := ordersWithoutFill db account ["filled"] in
  let pendingOrders := ordersWithoutFill db account ["pending"; "failed"] in
  let fillsWithout := orphanFills db account in
  let eventsWithout := orphanEvents db account in
  let expected := sort_ids
    (((fun i => "non-filled audit order " +:+ Itoa i +:+ " has no fill") <$> pendingOrders) ++ expectedNotes) in
  let actionable := sort_ids
    (actionableNotes ++
     ((fun d => "exact " +:+ D_Dimension d +:+ " difference for " +:+ D_Key d) <$> differences) ++
     ((fun i => "filled order " +:+ Itoa i +:+ " has no fill") <$> orphanOrders) ++
     ((fun i => "fill " +:+ i +:+ " has no economic fill event") <$> fillsWithout) ++
     ((fun i => "event " +:+ i +:+ " references a missing fill") <$> eventsWithout) ++ issues) in
  mkReconciliation asOf account (bool_decide (actionable = [])) (to_string <$> t_cash t)
    (to_string <$> t_assets t) (to_string <$> t_feesCurrency t) (to_string <$> t_pnlCurrency t) differences
    orphanOrders pendingOrders fillsWithout eventsWithout issues unresolved expected actionable
    (list_to_map (rev (omap (fun p => (fun s => (Ps_Symbol p, s)) <$> unrealized p) own))).

Definition Reconcile (account0 : string) (asOf0 : Time) : Tx ReconciliationReport :=
  let! _ := slift (requirePrimaryAccount account0) in
  if negb (IsZero asOf0) then slift (Err ErrHistoricalReconciliationUnsupported) else
  let account := orDefault account0 DefaultAccountID in
  transaction guards (
    let asOf := now 0%nat in
    let! wallet := FirstWalletOf account in
    let! db := get id in
    sret (buildReport db account asOf wallet)).
End Report.

(** ** What an empty list of differences means *)

Lemma at_key_add m key d k : integer (at_key (add_at m key d) k) =
  integer (at_key m k) + (if key =s k then integer d else 0).
Proof.
  unfold add_at, at_key. destruct (String.eqb_spec key k) as [->|Hne].
  - rewrite lookup_insert_eq. done.
  - rewrite lookup_insert_ne by done. lia.
Qed.

(** The sums of a currency. *)
Definition currency_sum (l : list LedgerEvent) (currency : string) : Z :=
  Zsum (fun e => if E_Currency e =s currency then integer (E_CashDelta e) else 0) l.
Definition symbol_totals (t : Totals) (s : string) : Sums :=
  mkSums (integer (at_key (t_assets t) s)) (integer (at_key (t_basis t) s))
    (integer (at_key (t_pnlSymbol t) s)) (integer (at_key (t_feesSymbol t) s)).

Lemma add_totals_spec t e : (forall c, integer (at_key (t_cash (add_totals t e)) c) =
    integer (at_key (t_cash t) c) + (if E_Currency e =s c then integer (E_CashDelta e) else 0)) /\
  (forall s, s <> "" -> symbol_totals (add_totals t e) s =
    add_sums (symbol_totals t s) (if E_Symbol e =s s then event_sums e else zero_sums)).
Proof.
  split; [intros c; apply at_key_add|]. intros s Hs. unfold symbol_totals, add_totals.
  cbn [t_assets t_basis t_pnlSymbol t_feesSymbol].
  destruct (String.eqb_spec (E_Symbol e) "") as [E|E]; cbn [negb].
  - rewrite E, (proj2 (String.eqb_neq "" s)) by congruence. by rewrite add_sums_0_r.
  - rewrite !at_key_add. by destruct (E_Symbol e =s s); unfold add_sums; cbn -[integer]; f_equal; lia.
Qed.
Lemma foldl_totals l t : (forall c, integer (at_key (t_cash (foldl add_totals t l)) c) =
    integer (at_key (t_cash t) c) + currency_sum l c) /\
  (forall s, s <> "" -> symbol_totals (foldl add_totals t l) s = add_sums (symbol_totals t s) (ledger_sums s l)).
Proof.
  revert t. induction l as [|e l IH]; intros t; cbn [foldl].
  - split; [intros c; unfold currency_sum; cbn; lia | intros s _; cbn; by rewrite add_sums_0_r].
  - destruct (IH (add_totals t e)) as [H1 H2]. destruct (add_totals_spec t e) as [G1 G2].
    split; [intros c; rewrite H1, G1; unfold currency_sum; rewrite Zsum_cons; lia|].
    intros s Hs. rewrite H2, G2, <- add_sums_assoc by done. f_equal. cbn. fold (ledger_sums s l).
    destruct (E_Symbol e =s s); [done | by rewrite add_sums_0_l].
Qed.
Lemma eventTotals_spec l : (forall c, integer (at_key (t_cash (eventTotals l)) c) = currency_sum l c) /\
  (forall s, s <> "" -> symbol_totals (eventTotals l) s = ledger_sums s l).
Proof.
  destruct (foldl_totals l (mkTotals ∅ ∅ ∅ ∅ ∅ ∅ ∅)) as [H1 H2]. split.
  - intros c. unfold eventTotals. rewrite H1. done.
  - intros s Hs. unfold eventTotals. rewrite H2 by done. destruct (ledger_sums s l). done.
Qed.

Lemma compareExact_nil dimension key o d : compareExact dimension key o d = [] <->
  exists p, o = Some p /\ integer p = integer d.
Proof.
  unfold compareExact. destruct o as [p|].
  - rewrite Cmp_spec. destruct (Z.eqb_spec (Z.sgn (integer p - integer d)) 0) as [E|E]; split; try done.
    + intros _. exists p. split; [done | lia].
    + intros (q & [= <-] & Hq). lia.
  - split; [done | by intros (p & [=] & _)].
Qed.
Lemma strayDifferences_nil dimension known m : strayDifferences dimension known m = [] <->
  forall k, known k = false -> integer (at_key m k) = 0.
Proof.
  unfold strayDifferences. transitivity
    (List.filter (fun '(key, amount) => negb (known key) && negb (Sign amount =? 0)) (map_to_list m) = []).
  { split; [apply fmap_nil_inv | by intros ->]. }
  split.
  - intros H k Hk. unfold at_key. destruct (m !! k) as [d|] eqn:E; [|done]. cbn [default from_option id].
    destruct (Z.eqb_spec (integer d) 0) as [|Hne]; [done|]. exfalso.
    assert (Hin : (k, d) ∈ List.filter (fun '(key, amount) => negb (known key) && negb (Sign amount =? 0)) (map_to_list m)).
    { apply list_elem_of_In, List.filter_In. split; [by apply list_elem_of_In, elem_of_map_to_list|].
      rewrite Hk, Sign_eqb_0, (proj2 (Z.eqb_neq _ _) Hne). done. }
    rewrite H in Hin. by apply elem_of_nil in Hin.
  - intros H. apply elem_of_nil_inv. intros [k d] Hin.
    apply list_elem_of_In, List.filter_In in Hin as [Hin Hp]. apply list_elem_of_In, elem_of_map_to_list in Hin.
    apply andb_true_iff in Hp as [Hk Hs]. bool_prop. specialize (H k Hk). unfold at_key in H. rewrite Hin in H.
    cbn [default from_option id] in H. rewrite Sign_integer in Hs. lia.
Qed.
(** The empty symbol has no sums: cash events carry it. *)
Definition symbol_sums (s : string) (l : list LedgerEvent) : Sums :=
  if s =s "" then zero_sums else ledger_sums s l.
Lemma foldl_totals_empty l t : symbol_totals (foldl add_totals t l) "" = symbol_totals t "".
Proof.
  revert t. induction l as [|e l IH]; intros t; cbn [foldl]; [done|]. rewrite IH. unfold symbol_totals, add_totals.
  cbn [t_assets t_basis t_pnlSymbol t_feesSymbol]. destruct (String.eqb_spec (E_Symbol e) "") as [E|E]; cbn [negb]; [done|].
  rewrite !at_key_add, (proj2 (String.eqb_neq _ _) E). f_equal; lia.
Qed.
Lemma symbol_totals_spec l s : symbol_totals (eventTotals l) s = symbol_sums s l.
Proof.
  unfold symbol_sums. destruct (String.eqb_spec s "") as [->|E]; [apply foldl_totals_empty | by apply eventTotals_spec].
Qed.

(** A position whose four projections are present and are the sums [s]. *)
Definition projects (p : Position) (s : Sums) : Prop :=
  exists amount basis pnl fees, Ps_exact p = mkExact (Some amount) (Some basis) (Some pnl) (Some fees) /\
    mkSums (integer amount) (integer basis) (integer pnl) (integer fees) = s.
Lemma positionDifferences_nil l p :
  positionDifferences (eventTotals l) p = [] <-> projects p (symbol_sums (Ps_Symbol p) l).
Proof.
  rewrite <- symbol_totals_spec. unfold positionDifferences, symbol_totals, projects. rewrite !app_nil, !compareExact_nil.
  destruct (Ps_exact p) as [a b r f]. cbn [AmountExact CostBasisExact RealizedPnLExact FeesExact]. split.
  - intros ((a' & -> & Ha) & (b' & -> & Hb) & (f' & -> & Hf) & (r' & -> & Hr)).
    exists a', b', r', f'. split; [done | by f_equal].
  - intros (a' & b' & r' & f' & [= -> -> -> ->] & E). injection E as Ea Eb Er Ef. split_and!; by eexists.
Qed.

(** What reconciliation compares: the wallet, every own position, and nothing
    left over. *)
Record agrees (wallet : Wallet) (own : list Position) (l : list LedgerEvent) : Prop := {
  ag_cash : exists b, W_BalanceExact wallet = Some b /\ integer b = currency_sum l (W_Currency wallet);
  ag_currency : forall c, c <> W_Currency wallet -> currency_sum l c = 0;
  ag_positions : Forall (fun p => projects p (symbol_sums (Ps_Symbol p) l)) own;
  ag_assets : forall s, s <> "" -> Forall (fun p => Ps_Symbol p <> s) own -> s_amount (ledger_sums s l) = 0 }.

Lemma mjoin_nil {A B} (f : A -> list B) l : mjoin (f <$> l) = [] <-> Forall (fun a => f a = []) l.
Proof.
  induction l as [|a l IH]; cbn; [split; [constructor|done]|]. by rewrite app_nil, Forall_cons, <- IH.
Qed.
Lemma known_symbol (l : list Position) s : existsb (fun p => Ps_Symbol p =s s) l = false <-> Forall (fun p => Ps_Symbol p <> s) l.
Proof.
  induction l as [|p l IH]; cbn; [split; [constructor|done]|].
  by rewrite orb_false_iff, String.eqb_neq, Forall_cons, IH.
Qed.
Lemma allDifferences_nil wallet own l : allDifferences (eventTotals l) wallet own = [] <-> agrees wallet own l.
Proof.
  destruct (eventTotals_spec l) as [Hc Hs]. unfold allDifferences.
  rewrite !app_nil, compareExact_nil, !strayDifferences_nil, mjoin_nil.
  assert (Hp : Forall (fun p => positionDifferences (eventTotals l) p = []) own <->
    Forall (fun p => projects p (symbol_sums (Ps_Symbol p) l)) own).
  { apply Forall_proper; [intros p; apply positionDifferences_nil | done]. }
  rewrite Hp. split.
  - intros (H1 & H2 & H3 & H4). split; [| |done|].
    + destruct H1 as (b & Hb & E). exists b. by rewrite <- Hc.
    + intros c Hne. rewrite <- Hc. apply H2. by apply String.eqb_neq.
    + intros s Hne Hn. rewrite <- Hs by done. apply H4. by apply known_symbol.
  - intros [H1 H2 H3 H4]. split_and!; [| |done|].
    + destruct H1 as (b & Hb & E). exists b. by rewrite Hc.
    + intros c Hne. rewrite Hc. apply H2. by apply String.eqb_neq.
    + intros s Hn. change (integer (at_key (t_assets (eventTotals l)) s)) with (s_amount (symbol_totals (eventTotals l) s)).
      rewrite symbol_totals_spec. unfold symbol_sums. destruct (String.eqb_spec s "") as [|E]; [done|].
      apply H4; [done | by apply known_symbol].
Qed.

Lemma SliceStable_nil {A} (less : A -> A -> bool) l : SliceStable less l = [] <-> l = [].
Proof. rewrite <- !length_zero_iff_nil, <- (SliceStable_length less l). done. Qed.

(** ** The theorems *)
Section Theorems.
Context (UnmarshalStrings : string -> option (list string)) (guards : DB -> DB -> res unit) (now : nat -> Time).

Lemma buildReport_Differences db account asOf wallet :
  Differences (buildReport UnmarshalStrings db account asOf wallet) = [] <->
  agrees wallet (List.filter (fun p => Ps_AccountID p =s account) (positions db)) (accountEvents db account asOf).
Proof.
  unfold buildReport. destruct (stateNotes _ _) as [[notes expected] actionable]. cbn [Differences].
  by rewrite SliceStable_nil, allDifferences_nil.
Qed.

(** A reconciliation changes nothing, and reports no difference exactly
    when the wallet is the sum of the cash events of its currency, no other
    currency has cash, every position has the four exact sums of its symbol's
    events, and no symbol without a position has an amount. *)
Theorem Reconcile_differences account0 asOf0 db r db' :
  Reconcile UnmarshalStrings guards now account0 asOf0 db = (Ok r, db') ->
  db' = db /\ exists w, w ∈ wallets db /\ W_AccountID w = DefaultAccountID /\
  (Differences r = [] <-> agrees w
     (List.filter (fun p => Ps_AccountID p =s DefaultAccountID) (positions db))
     (accountEvents db DefaultAccountID (now 0%nat))).
Proof.
  intros H. unfold Reconcile, requirePrimaryAccount in H. tx_inv.
  apply transaction_Ok in H. unfold FirstWalletOf in H. tx_inv.
  assert (Ha : orDefault account0 DefaultAccountID = DefaultAccountID).
  { unfold orDefault. destruct (account0 =s "") eqn:EA; [done|]. cbn in *.
    destruct (account0 =s DefaultAccountID) eqn:EB; [by bool_prop | discriminate]. }
  rewrite Ha in *. split; [done|].
  match goal with H : where_ _ (wallets _) = Some ?w |- _ => apply where_Some in H as [Hin Hw]; exists w end.
  bool_prop. split_and!; [done | done | apply buildReport_Differences].
Qed.

(** The sums do not depend on the order of the events. *)
Lemma ledger_sums_perm s l l' : l ≡ₚ l' -> ledger_sums s l = ledger_sums s l'.
Proof.
  induction 1 as [|e l l' _ IH|e e' l|l l' l'' _ IH1 _ IH2]; [done | | |congruence].
  - cbn. unfold ledger_sums in IH. by rewrite IH.
  - cbn. fold (ledger_sums s l). destruct (E_Symbol e =s s), (E_Symbol e' =s s); try done.
    unfold add_sums. cbn. f_equal; lia.
Qed.
Lemma currency_sum_perm c l l' : l ≡ₚ l' -> currency_sum l c = currency_sum l' c.
Proof.
  unfold currency_sum. induction 1 as [|e l l' _ IH|e e' l|l l' l'' _ IH1 _ IH2]; [done | | |congruence].
  - by rewrite !Zsum_cons, IH.
  - rewrite !Zsum_cons. destruct (E_Currency e =s c), (E_Currency e' =s c); lia.
Qed.
Lemma currency_sum_one c l : Forall (fun e => E_Currency e = c) l ->
  forall c', currency_sum l c' = if c =s c' then cash_sum l else 0.
Proof.
  intros H c'. unfold currency_sum, cash_sum. induction H as [|e l He _ IH]; [by destruct (c =s c')|].
  rewrite !Zsum_cons, IH. cbn beta. rewrite He. destruct (c =s c'); lia.
Qed.

(** Every event has happened by [asOf], and the projections are filled in. *)
Record projected (asOf : Time) (db : DB) : Prop := {
  pj_events : Forall (fun e => E_OccurredAt e <= asOf) (events db);
  pj_wallet : Forall (fun w => is_Some (W_BalanceExact w)) (wallets db);
  pj_positions : Forall (fun p => Ps_Symbol p <> "" /\
    exists a b r f, Ps_exact p = mkExact (Some a) (Some b) (Some r) (Some f)) (positions db) }.

Lemma filter_all {A} (p : A -> bool) l : Forall (fun a => p a = true) l -> List.filter p l = l.
Proof. induction 1 as [|a l Ha _ IH]; cbn; [done|]. by rewrite Ha, IH. Qed.
Lemma forallb_Forall {A} (p : A -> bool) (P : A -> Prop) l :
  (forall a, p a = true -> P a) -> forallb p l = true -> Forall P l.
Proof. intros H Hl. apply Forall_forall. intros a Ha. apply H. by eapply List.forallb_forall, list_elem_of_In. Qed.
Lemma accountEvents_all db asOf : Forall good_event (events db) ->
  Forall (fun e => E_OccurredAt e <= asOf) (events db) ->
  accountEvents db DefaultAccountID asOf ≡ₚ events db.
Proof.
  intros Hg Ht. unfold accountEvents. rewrite <- SliceStable_Permutation, filter_all; [done|].
  eapply Forall_impl; [apply Forall_and; split; [exact Hg | exact Ht]|].
  intros e [[Ha _] Hle]. cbn in *. rewrite Ha. unfold After. cbn. by apply negb_true_iff, Z.ltb_ge.
Qed.

Lemma reconciled_agrees db asOf w : reconciled db -> projected asOf db -> wallets db = [w] ->
  agrees w (List.filter (fun p => Ps_AccountID p =s DefaultAccountID) (positions db))
    (accountEvents db DefaultAccountID asOf).
Proof.
  intros [(w0 & Ew & Ha & Hb & _ & Hc) [Hsym _ _ Hgood] Hpr _ Hev] [Ht Hw Hps] E.
  rewrite Ew in E. injection E as ->. pose proof (accountEvents_all _ _ Hev Ht) as Hperm.
  rewrite filter_all by (eapply Forall_impl; [exact Hgood|]; intros p [Hacc _ _ _ _]; by rewrite Hacc).
  rewrite Ew in Hw. apply Forall_singleton in Hw as [b Eb].
  split.
  - exists b. split; [done|]. rewrite (currency_sum_perm _ _ _ Hperm), (currency_sum_one _ _ Hc), String.eqb_refl.
    rewrite <- Hb, Eb. done.
  - intros c Hne. rewrite (currency_sum_perm _ _ _ Hperm), (currency_sum_one _ _ Hc).
    by rewrite (proj2 (String.eqb_neq _ _)) by congruence.
  - rewrite Forall_forall in *. intros p Hp. destruct (Hps p Hp) as (Hne & a & b' & r & f & Ex).
    exists a, b', r, f. split; [done|]. unfold symbol_sums. rewrite (proj2 (String.eqb_neq _ _) Hne).
    rewrite (ledger_sums_perm _ _ _ Hperm), <- Hpr. unfold projection. by rewrite projection_in_found, Ex.
  - intros s _ Hn. rewrite (ledger_sums_perm _ _ _ Hperm), <- Hpr. unfold projection.
    rewrite Forall_forall in Hn. by rewrite projection_in_absent.
Qed.

(** A ledger in the state the service keeps, with its projections filled
    in and no event after the clock, is reconciled without a difference. *)
Theorem Reconcile_reconciled db : reconciled db -> projected (now 0%nat) db -> is_ok (guards db db) = true ->
  exists r, Reconcile UnmarshalStrings guards now "" 0 db = (Ok r, db) /\ Differences r = [].
Proof.
  intros Hr Hp Hg. destruct (rc_wallet db Hr) as (w & Ew & Ha & _).
  unfold Reconcile, transaction, FirstWalletOf, where_, found, get, sbind, slift, sret. cbn.
  rewrite Ew. cbn. rewrite Ha. cbn. destruct (guards db db); [|done..].
  eexists. split; [done|]. apply buildReport_Differences. by apply reconciled_agrees.
Qed.
End Theorems.

(** ** Witnesses *)
Module ReconcileSample.
Definition unmarshal (_ : string) : option (list string) := Some [].
Definition clock (_ : nat) : Time := 5000.
Abbreviation run := (Reconcile unmarshal Sample.guards clock "" 0).
(** A wallet that was edited behind the service. *)
Definition tampered : DB :=
  set_wallets (fmap (fun w => mkWallet (W_ID w) (W_Balance w) (Some (Sample.units 7)) (W_Currency w) (W_AccountID w)))
    Sample.bought_db.

Lemma bought_projected : projected 5000 Sample.bought_db.
Proof.
  split.
  - apply (forallb_Forall (fun e => E_OccurredAt e <=? 5000)); [intros e; apply Z.leb_le | vm_compute; done].
  - vm_compute. repeat constructor. by eexists.
  - vm_compute. apply Forall_singleton. split; [done|]. by do 4 eexists.
Qed.
End ReconcileSample.

Lemma Reconcile_reconciled_witness : exists r,
  ReconcileSample.run Sample.bought_db = (Ok r, Sample.bought_db) /\ Differences r = [].
Proof.
  exact (Reconcile_reconciled ReconcileSample.unmarshal Sample.guards ReconcileSample.clock _
    (lo_reconciled _ Sample.bought_ok) ReconcileSample.bought_projected eq_refl).
Defined.

Lemma Reconcile_differences_witness : exists r,
  ReconcileSample.run ReconcileSample.tampered = (Ok r, ReconcileSample.tampered) /\
  D_Dimension <$> Differences r = ["cash"] /\ RR_Balanced r = false.
Proof.
  destruct (Sample.ends_Ok (fun r => bool_decide (D_Dimension <$> Differences r = ["cash"]) && negb (RR_Balanced r))%bool
    ReconcileSample.run ReconcileSample.tampered) as (r & E & [Hd Hb]%andb_true_iff); [vm_compute; reflexivity|].
  exists r. split; [|split; [by apply bool_decide_eq_true in Hd | by apply negb_true_iff]].
  destruct (Reconcile_differences ReconcileSample.unmarshal Sample.guards ReconcileSample.clock "" 0
    ReconcileSample.tampered r _ E) as [Ed _]. rewrite Ed in E. exact E.
Defined.
