(* ===== verification/LedgerAudit.v ===== *)
(** * LedgerAudit: the report of a ledger that only the service wrote

    The records invariant: every fill has exactly its events, every order is
    the sum of its fills, every filled order has a fill, and a ready account
    has exact projections. Every command keeps it, so that the reconciliation
    of such a ledger finds nothing to act on. *)
From Stdlib Require Import Ascii.
From stdpp Require Import base numbers strings gmap list relations.
From S2P Require Import Prelude GoStrings GoFloat Accounting.
From S2P Require Values Contracts.
From S2P Require Import Snapshots LedgerModel Ledger LedgerAdmin LedgerAdapter.
From S2P Require Import LedgerFacts LedgerFill LedgerBooks LedgerOutcome LedgerTheorems LedgerReconcile.
Local Open Scope Z_scope.

(** ** Filters *)
Lemma filter_perm {A} (p : A -> bool) l l' : l ≡ₚ l' -> List.filter p l ≡ₚ List.filter p l'.
Proof.
  induction 1 as [|a l l' _ IH|a b l|l l' l'' _ IH1 _ IH2]; cbn; [done | | |by etrans].
  - by destruct (p a); rewrite IH.
  - destruct (p a), (p b); (done || apply Permutation_swap).
Qed.
(** ** One fill and its events *)
Definition of_fill (id_ : string) (e : LedgerEvent) : bool :=
  match E_FillID e with Some i => i =s id_ | None => false end.
Definition matches_fill (f : Fill) (e : LedgerEvent) : Prop :=
  integer (E_CashDelta e) = (if F_Side f =s "buy" then - integer (F_GrossAmount f) else integer (F_GrossAmount f)) /\
  integer (E_AssetDelta e) = (if F_Side f =s "sell" then - integer (F_Quantity f) else integer (F_Quantity f)).
Definition fee_cash (e : LedgerEvent) : Z :=
  if is_fill_event e then 0 else if is_fee_event e then - integer (E_CashDelta e) else 0.
Definition fill_one (e : LedgerEvent) : Z := if is_fill_event e then 1 else 0.
(** The events of a fill: one economic event that matches it, and its fee. *)
Record clean (f : Fill) (own : list LedgerEvent) : Prop := {
  cl_one : Zsum fill_one own = 1;
  cl_fee : Zsum fee_cash own = integer (F_FeeAmount f);
  cl_match : Forall (fun e => is_fill_event e = true -> matches_fill f e) own }.

Lemma scan_event_spec f s e : let s' := scan_event f s e in
  fillCount s' = fillCount s + fill_one e /\ integer (feeCash s') = integer (feeCash s) + fee_cash e /\
  (postingIssues s' = [] <-> postingIssues s = [] /\ (is_fill_event e = true -> matches_fill f e)).
Proof.
  unfold scan_event, fill_one, fee_cash. destruct (is_fill_event e) eqn:E; cbn [fillCount feeCash postingIssues].
  - split_and!; [done | lia |]. rewrite app_nil. unfold matches_fill. rewrite !Cmp_spec.
    destruct (F_Side f =s "buy"), (F_Side f =s "sell"); autorewrite with go_dec;
      (split; [intros [-> H]; split; [done|]; intros _
              | intros [-> H]; split; [done|]; specialize (H eq_refl) as [H1 H2]; rewrite H1, H2; rewrite !Z.sub_diag; done]);
      match type of H with (if ?c then _ else _) = _ => destruct c eqn:Ec in H; [done|] end; bool_prop; lia.
  - destruct (is_fee_event e); cbn [fillCount feeCash postingIssues]; autorewrite with go_dec;
      split_and!; try lia; by split; [intros; split | intros []].
Qed.
Lemma foldl_scan f l s : let s' := foldl (scan_event f) s l in
  fillCount s' = fillCount s + Zsum fill_one l /\ integer (feeCash s') = integer (feeCash s) + Zsum fee_cash l /\
  (postingIssues s' = [] <-> postingIssues s = [] /\ Forall (fun e => is_fill_event e = true -> matches_fill f e) l).
Proof.
  revert s. induction l as [|e l IH]; intros s; cbn [foldl].
  - rewrite !Zsum_nil. split_and!; [lia | lia |]. split; [by intros | by intros []].
  - destruct (IH (scan_event f s e)) as (H1 & H2 & H3). destruct (scan_event_spec f s e) as (G1 & G2 & G3).
    cbn zeta in *. rewrite H1, H2, G1, G2, H3, G3, !Zsum_cons, Forall_cons. split_and!; [lia | lia | tauto].
Qed.
Lemma fillIssues_nil l f : fillIssues l f = [] <-> clean f (List.filter (of_fill (F_ID f)) l).
Proof.
  unfold fillIssues. fold (of_fill (F_ID f)).
  destruct (foldl_scan f (List.filter (of_fill (F_ID f)) l) (mkScan 0 Zero [])) as (H1 & H2 & H3).
  cbn zeta in *. rewrite !app_nil, H3, H1, Cmp_spec, H2. cbn [fillCount feeCash postingIssues]. rewrite integer_Zero.
  split.
  - intros ([_ Hm] & Hc & Hf). split; [| |done].
    + match type of Hc with (if ?c then _ else _) = _ => destruct c eqn:Ec in Hc; [done|] end. bool_prop. lia.
    + match type of Hf with (if ?c then _ else _) = _ => destruct c eqn:Ec in Hf; [done|] end. bool_prop. lia.
  - intros [-> -> Hm]. split_and!; [done | done | done |]. by rewrite Z.sub_diag.
Qed.
#[export] Instance clean_proper f : Proper (Permutation ==> iff) (clean f).
Proof.
  assert (forall l l', l ≡ₚ l' -> clean f l -> clean f l') as H.
  { intros l l' E [H1 H2 H3]. split; [by rewrite <- (Zsum_perm _ _ _ E) .. | by rewrite <- E]. }
  intros l l' E. split; by apply H.
Qed.

(** ** One order and its fills *)
Definition fills_of (id_ : Z) (l : list Fill) : list Fill := List.filter (fun f => F_OrderID f =? id_) l.
Definition total_of (f : Fill -> Decimal) (l : list Fill) : Z := Zsum (fun x => integer (f x)) l.
Definition order_totals (o : Order) : option (Decimal * Decimal * Decimal) :=
  match AmountCryptoExact (O_exact o), AmountUsdtExact (O_exact o), FeeExact (O_exact o) with
  | Some q, Some u, Some f => Some (q, u, f)
  | _, _, _ => None
  end.
Definition is_total (l : list Fill) (t : Decimal * Decimal * Decimal) : Prop :=
  let '(q, u, f) := t in
  integer q = total_of F_Quantity l /\ integer u = total_of F_GrossAmount l /\ integer f = total_of F_FeeAmount l.
(** The totals of an order, if it has any, are those of its fills; an order
    without fills is not filled. *)
Definition order_clean (o : Order) (own : list Fill) : Prop :=
  match order_totals o with Some t => is_total own t | None => own = [] end /\
  (own = [] -> O_Status o <> "filled").

Lemma total_snoc g l f : total_of g (l ++ [f]) = total_of g l + integer (g f).
Proof. unfold total_of. by rewrite Zsum_app, Zsum_cons, Zsum_nil, Z.add_0_r. Qed.
Lemma fills_of_snoc id_ l f : fills_of id_ (l ++ [f]) =
  if F_OrderID f =? id_ then fills_of id_ l ++ [f] else fills_of id_ l.
Proof.
  unfold fills_of. rewrite List.filter_app. cbn. destruct (F_OrderID f =? id_); [done | apply app_nil_r].
Qed.
(** The totals of the scan are those of the fills of the order. *)
Lemma order_scan l id_ : match foldl add_order_total ∅ l !! id_ with
  | None => fills_of id_ l = []
  | Some t => fills_of id_ l <> [] /\ is_total (fills_of id_ l) t
  end.
Proof.
  induction l as [|f l IH] using rev_ind; [done|]. rewrite foldl_app, fills_of_snoc. cbn [foldl].
  unfold add_order_total at 1. destruct (Z.eqb_spec (F_OrderID f) id_) as [<-|Hne].
  - destruct (foldl add_order_total ∅ l !! F_OrderID f) as [[[q u] e]|] eqn:E; cbn [default from_option id];
      rewrite lookup_insert_eq; (split; [by intros [_ [=]]%app_eq_nil|]); unfold is_total; rewrite !total_snoc.
    + destruct IH as [_ (H1 & H2 & H3)]. by rewrite <- H1, <- H2, <- H3.
    + by rewrite IH.
  - destruct (default _ _) as [[q u] e]. by rewrite lookup_insert_ne.
Qed.

(** The orders agree with the fills of the orders table. *)
Record orders_clean (db : DB) : Prop := {
  oc_clean : Forall (fun o => order_clean o (fills_of (O_ID o) (fills db))) (orders db);
  oc_known : Forall (fun f => exists o, o ∈ orders db /\ O_ID o = F_OrderID f) (fills db) }.

Lemma orderIssues_nil db id_ t : orders_ok db -> orders_clean db ->
  fills_of id_ (fills db) <> [] -> is_total (fills_of id_ (fills db)) t -> orderIssues db (id_, t) = [].
Proof.
  intros [Hn _ _] [Hc Hk] Hne Ht. destruct t as [[q u] f]. unfold orderIssues.
  destruct (fills_of id_ (fills db)) as [|x l] eqn:Ef; [done|].
  assert (Hx : x ∈ fills_of id_ (fills db)) by (rewrite Ef; left).
  apply list_elem_of_In, List.filter_In in Hx as [Hx%list_elem_of_In Hid]. bool_prop.
  rewrite Forall_forall in Hc. rewrite Forall_forall in Hk. destruct (Hk x Hx) as (o & Ho & Eo).
  rewrite (where_unique _ _ o); [|done | apply Z.eqb_eq; congruence |].
  2: { intros b Hb E. bool_prop. eapply NoDup_same_key; [exact Hn | done..|congruence]. }
  pose proof (Hc o Ho) as [Ht' _]. rewrite Eo, Hid, Ef in Ht'. unfold order_totals in Ht'.
  destruct (O_exact o) as [[q'|] ? ? ? [u'|] [f'|]]; cbn [AmountCryptoExact AmountUsdtExact FeeExact] in Ht'; try done.
  destruct Ht as (H1 & H2 & H3), Ht' as (G1 & G2 & G3).
  cbn -[Cmp]. by rewrite !Cmp_spec, H1, H2, H3, G1, G2, G3, !Z.sub_diag.
Qed.

(** ** Positions *)
Definition full (p : Position) : Prop :=
  exists a b r f, Ps_exact p = mkExact (Some a) (Some b) (Some r) (Some f).
Definition unresolved (p : Position) : Prop := AmountExact (Ps_exact p) = None \/ CostBasisExact (Ps_exact p) = None.
Lemma full_or_resolved p : full p \/ unresolved p -> AmountExact (Ps_exact p) <> None ->
  CostBasisExact (Ps_exact p) <> None -> full p.
Proof. intros [H|[H|H]] H1 H2; done. Qed.

(** Before the opening balance anything goes; afterwards closed positions are
    exact, and when the account is ready all are. *)
Record positions_clean (db : DB) : Prop := {
  pc_symbols : Forall (fun p => Ps_Symbol p <> "") (positions db);
  pc_exact : Forall (fun p => full p \/ unresolved p) (positions db);
  pc_closed : is_Some (states db !! DefaultAccountID) ->
    Forall (fun p => Status (Ps_cycle p) = "open" \/ full p) (positions db) /\
    Forall (fun w => is_Some (W_BalanceExact w)) (wallets db);
  pc_ready : forall s, states db !! DefaultAccountID = Some s -> S_Status s = "ready" -> Forall full (positions db) }.

(** The records: fills against events and the other way round, orders and
    positions. *)
Record audited (db : DB) : Prop := {
  au_fills : Forall (fun f => F_AccountID f = DefaultAccountID /\
    clean f (List.filter (of_fill (F_ID f)) (events db))) (fills db);
  au_links : Forall (fun e => match E_FillID e with
                              | Some i => exists f, f ∈ fills db /\ F_ID f = i | None => True end) (events db);
  au_orders : orders_clean db;
  au_positions : positions_clean db }.

(** ** The report *)
Lemma mjoin_fmap_nil {A B} (f : A -> list B) l : Forall (fun a => f a = []) l -> mjoin (f <$> l) = [].
Proof. apply mjoin_nil. Qed.
Lemma not_Zsum_one {A} (p : A -> bool) l : Forall (fun a => p a = false) l ->
  Zsum (fun a => if p a then 1 else 0) l = 0.
Proof. induction 1 as [|a l Ha _ IH]; [done|]. rewrite Zsum_cons, IH, Ha. done. Qed.
Lemma clean_has_fill_event f l : clean f l -> existsb is_fill_event l = true.
Proof.
  intros [H1 _ _]. destruct (existsb is_fill_event l) eqn:E; [done|]. exfalso.
  unfold fill_one in H1. rewrite not_Zsum_one in H1; [done|]. apply Forall_forall. intros e He.
  by eapply existsb_false.
Qed.

Section Report.
Context (db : DB) (asOf : Time).
Hypothesis Ha : audited db.
Hypothesis Ho : orders_ok db.
Hypothesis Hg : Forall good_event (events db).
Hypothesis Hevents : Forall (fun e => E_OccurredAt e <= asOf) (events db).
Hypothesis Hfills : Forall (fun f => F_OccurredAt f <= asOf) (fills db).

Lemma recordIssues_nil : recordIssues db DefaultAccountID asOf (accountEvents db DefaultAccountID asOf) = [].
Proof using Ha Ho Hg Hevents Hfills.
  destruct Ha as [Hf _ Hord _]. unfold recordIssues.
  rewrite filter_all; [apply app_nil; split; apply mjoin_fmap_nil|].
  - eapply Forall_impl; [exact Hf|]. intros f [_ Hc]. apply fillIssues_nil.
    by rewrite (filter_perm _ _ _ (accountEvents_all _ _ Hg Hevents)).
  - apply Forall_forall. intros [id_ t] Hin. apply elem_of_map_to_list in Hin.
    pose proof (order_scan (fills db) id_) as Hs. rewrite Hin in Hs. destruct Hs. by apply orderIssues_nil.
  - eapply Forall_impl; [apply Forall_and; split; [exact Hf | exact Hfills]|].
    intros f [[Hacc _] Ht]. cbn in Ht |- *. rewrite Hacc. cbn. by apply negb_true_iff, Z.ltb_ge.
Qed.
Lemma orphanOrders_nil : ordersWithoutFill db DefaultAccountID ["filled"] = [].
Proof using Ha.
  unfold ordersWithoutFill. apply SliceStable_nil. rewrite filter_none; [done|].
  destruct Ha as [_ _ [Hc _] _]. eapply Forall_impl; [exact Hc|]. intros o Hoc. cbn.
  destruct (has_fill db o) eqn:E; [by rewrite andb_false_r|].
  destruct (String.eqb_spec (O_Status o) "filled") as [Es|]; [|by rewrite !andb_false_r].
  destruct Hoc as [_ Hoc]. destruct Hoc; [|done]. unfold fills_of. apply filter_none.
  apply Forall_forall. intros f Hf. by eapply existsb_false in E.
Qed.
Lemma orphanFills_nil : orphanFills db DefaultAccountID = [].
Proof using Ha.
  unfold orphanFills, sort_ids. apply SliceStable_nil. rewrite filter_none; [done|].
  eapply Forall_impl; [apply (au_fills _ Ha)|]. intros f [_ Hc]. cbn.
  apply andb_false_iff. right. apply negb_false_iff, List.existsb_exists.
  apply clean_has_fill_event, List.existsb_exists in Hc as (e & He & Hfe).
  apply List.filter_In in He as [He Hof]. exists e. split; [done|]. rewrite Hfe. exact Hof.
Qed.
Lemma orphanEvents_nil : orphanEvents db DefaultAccountID = [].
Proof using Ha.
  unfold orphanEvents, sort_ids. apply SliceStable_nil. rewrite filter_none; [done|].
  eapply Forall_impl; [apply (au_links _ Ha)|]. intros e He. cbn beta in *.
  destruct (E_FillID e) as [i|]; [|by rewrite andb_false_r]. destruct He as (f & Hf & Hid).
  apply andb_false_iff. right. apply negb_false_iff, List.existsb_exists. exists f.
  split; [by apply list_elem_of_In | by apply String.eqb_eq].
Qed.

Lemma audited_projected s : states db !! DefaultAccountID = Some s -> S_Status s = "ready" -> projected asOf db.
Proof using Ha Hevents.
  intros Hs Hr. destruct (au_positions _ Ha) as [H1 _ H3 H4]. split; [done | |].
  - apply H3. by rewrite Hs.
  - specialize (H4 s Hs Hr). eapply Forall_impl; [apply Forall_and; split; [exact H1 | exact H4]|].
    intros p [Hn (a & b & r & f & E)]. split; [done|]. eauto.
Qed.
End Report.

Lemma buildReport_balanced Unmarshal db asOf w s : audited db -> orders_ok db -> reconciled db -> wallets db = [w] ->
  Forall (fun e => E_OccurredAt e <= asOf) (events db) -> Forall (fun f => F_OccurredAt f <= asOf) (fills db) ->
  states db !! DefaultAccountID = Some s -> S_Status s = "ready" ->
  let r := buildReport Unmarshal db DefaultAccountID asOf w in
  RR_Balanced r = true /\ Differences r = [] /\ ActionableIssues r = [].
Proof.
  intros Ha Ho Hr Ew He Hf Hs Hready. pose proof (audited_projected db asOf Ha He s Hs Hready) as Hp.
  pose proof (reconciled_agrees db asOf w Hr Hp Ew) as Hag. apply allDifferences_nil in Hag.
  pose proof (recordIssues_nil db asOf Ha Ho (rc_events _ Hr) He Hf) as Hi.
  cbn zeta. unfold buildReport. rewrite Hs. cbn [stateNotes]. rewrite Hready, Hag, Hi.
  rewrite orphanOrders_nil, orphanFills_nil, orphanEvents_nil by done.
  destruct (S_UnresolvedJSON s =s ""); [done|]. by destruct (Unmarshal _).
Qed.

(** ** What a filled order becomes *)
Lemma filledOrder_totals stage08 order command gross o : filledOrder stage08 order command gross = Ok o ->
  O_ID o = O_ID order /\ order_totals o = Some (orderTotals order command gross).
Proof.
  unfold filledOrder. destruct (orderTotals order command gross) as [[q g] f]. intros H. by res_inv.
Qed.
Lemma orderTotals_none order command gross : order_totals order = None ->
  orderTotals order command gross = (C_Quantity command, gross, C_Fee command).
Proof. unfold order_totals, orderTotals. by destruct (O_exact order) as [[] ? ? ? [] []]; cbn. Qed.
Lemma orderTotals_some order command gross q u f : order_totals order = Some (q, u, f) ->
  orderTotals order command gross = (Add q (C_Quantity command), Add u gross, Add f (C_Fee command)).
Proof. unfold order_totals, orderTotals. destruct (O_exact order) as [[] ? ? ? [] []]; cbn; try done. by intros [= -> -> ->]. Qed.

(** The order a fill is added to, and the orders afterwards. *)
Lemma upsertFilledOrder_orders stage08 command gross db o db' : orders_ok db ->
  upsertFilledOrder stage08 command gross db = (Ok o, db') ->
  exists o0, order_totals o = Some (orderTotals o0 command gross) /\
  (o0 ∈ orders db /\ O_ID o0 = O_ID o \/ order_totals o0 = None /\ O_ID o = next_order db) /\
  (forall x, x ∈ orders db' -> x = o \/ x ∈ orders db /\ O_ID x <> O_ID o) /\
  (forall x, x ∈ orders db -> exists y, y ∈ orders db' /\ O_ID y = O_ID x).
Proof.
  intros Hok H. pose proof (oo_range _ Hok) as Hr. rewrite Forall_forall in Hr.
  unfold upsertFilledOrder in H. tx_inv.
  match goal with H : filledOrder _ ?x _ _ = Ok _ |- _ => rename x into o0; apply filledOrder_totals in H as [Hid Ht] end.
  exists o0. destruct (0 <? C_ExistingOrderID command).
  - tx_inv. unfold FirstOrder in *. tx_inv.
    match goal with H : where_ _ _ = Some _ |- _ => apply where_Some in H as [Hin _] end.
    apply Hr in Hin as Hrange. rewrite (proj2 (Z.eqb_neq _ _)) in H by lia. tx_inv.
    match goal with H : SaveOrder _ _ = _ |- _ => unfold SaveOrder in H end. tx_inv. cbn [orders set_orders].
    split_and!; [done | by left | |].
    + intros x (y & -> & Hy)%list_elem_of_fmap. destruct (Z.eqb_spec (O_ID y) (O_ID o)); auto.
    + intros x Hx. eexists. split; [apply list_elem_of_fmap; by exists x|]. cbn.
      destruct (Z.eqb_spec (O_ID x) (O_ID o)); congruence.
  - tx_inv. rewrite Hid in H. change (O_ID (newOrder command)) with 0 in H. rewrite Z.eqb_refl in H.
    apply CreateOrder_Ok in H as [-> ->]. cbn [orders bump_order set_orders].
    split_and!; [exact Ht | by right | |].
    + intros x [Hx|Hx%list_elem_of_singleton]%elem_of_app; [|by left]. right. split; [done|].
      apply Hr in Hx. cbn. lia.
    + intros x Hx. exists x. split; [apply elem_of_app; by left | done].
Qed.

Lemma orders_clean_fill db db' o0 o command gross f : orders_ok db -> orders_clean db ->
  order_totals o = Some (orderTotals o0 command gross) ->
  (o0 ∈ orders db /\ O_ID o0 = O_ID o \/ order_totals o0 = None /\ O_ID o = next_order db) ->
  (forall x, x ∈ orders db' -> x = o \/ x ∈ orders db /\ O_ID x <> O_ID o) ->
  (forall x, x ∈ orders db -> exists y, y ∈ orders db' /\ O_ID y = O_ID x) ->
  o ∈ orders db' -> fills db' = fills db ++ [f] -> F_OrderID f = O_ID o ->
  F_Quantity f = C_Quantity command -> F_GrossAmount f = gross -> F_FeeAmount f = C_Fee command ->
  orders_clean db'.
Proof.
  intros Hok [Hc Hk] Ht Ho0 Hback Hforth Hin Ef Hid Hq Hu Hf.
  pose proof (oo_range _ Hok) as Hr. rewrite Forall_forall in Hr, Hc. rewrite Forall_forall in Hk.
  assert (Hsum : is_total (fills_of (O_ID o) (fills db) ++ [f]) (orderTotals o0 command gross)).
  { assert (Hnone : fills_of (O_ID o) (fills db) = [] -> order_totals o0 = None ->
      is_total (fills_of (O_ID o) (fills db) ++ [f]) (orderTotals o0 command gross)).
    { intros -> E. rewrite orderTotals_none by done. unfold is_total, total_of.
      autorewrite with go_sum. rewrite Hq, Hu, Hf. split_and!; lia. }
    destruct Ho0 as [[Ho0 E0]|[E0 Enx]].
    - pose proof (Hc o0 Ho0) as H0. rewrite E0 in H0. destruct H0 as [H0 _]. destruct (order_totals o0) as [[[q u] e]|] eqn:Et.
      2: { by apply Hnone. }
      destruct H0 as (H1 & H2 & H3). erewrite orderTotals_some by done. unfold is_total.
        rewrite !total_snoc, Hq, Hu, Hf. cbn -[total_of]. autorewrite with go_dec. by rewrite H1, H2, H3.
    - apply Hnone; [|done]. unfold fills_of. apply filter_none, Forall_forall. intros x Hx.
      destruct (Hk x Hx) as (y & Hy & Ey). apply Hr in Hy. apply Z.eqb_neq. lia. }
  split.
  - apply Forall_forall. intros x Hx. rewrite Ef, fills_of_snoc, Hid. destruct (Hback x Hx) as [->|[Hxo Hne]].
    + rewrite Z.eqb_refl. split; [by rewrite Ht | by intros [_ [=]]%app_eq_nil].
    + rewrite (proj2 (Z.eqb_neq _ _)) by congruence. by apply Hc.
  - rewrite Ef. apply Forall_app. split; [|apply Forall_singleton; eauto].
    apply Forall_forall. intros x Hx. destruct (Hk x Hx) as (y & Hy & Ey).
    destruct (Hforth y Hy) as (z & Hz & Ez). exists z. split; [done | congruence].
Qed.

(** ** The events of a new fill *)
Section NewFill.
Context (sha256hex : string -> string) (Stage08 : FillCommand -> string).

Lemma posted_events_own command recordedAt metadata order position realized basisDelta :
  Forall (fun e => of_fill (stableID sha256hex "fill" (C_IdempotencyKey command)) e = true)
    (posted_events sha256hex Stage08 command recordedAt metadata order position realized basisDelta).
Proof.
  unfold posted_events, fillEvents. apply Forall_fmap. apply Forall_cons. split; [apply String.eqb_refl|].
  destruct (0 <? Sign (C_Fee command)); [|constructor]. apply Forall_singleton, String.eqb_refl.
Qed.
Lemma fill_event_kind command recordedAt metadata order position id_ key sequence cash asset realized basis fee :
  is_fill_event (event_defaults (fillEvent sha256hex Stage08 command recordedAt metadata order position id_ key
    sequence (if C_Side command =s "sell" then EventSellFill else EventBuyFill) cash asset realized basis fee)) = true.
Proof. unfold is_fill_event. cbn. by destruct (C_Side command =s "sell"). Qed.
Lemma fee_event_kind command recordedAt metadata order position id_ key sequence c cash asset realized basis fee :
  let e := event_defaults (fillEvent sha256hex Stage08 command recordedAt metadata order position id_ key
    sequence (if c : bool then EventExchangeFee else EventTradingFee) cash asset realized basis fee) in
  is_fill_event e = false /\ is_fee_event e = true.
Proof. unfold is_fill_event, is_fee_event. by destruct c. Qed.

Lemma posted_events_clean command recordedAt metadata order position realized basisDelta :
  valid_fill command ->
  clean (fillRow sha256hex Stage08 command recordedAt order position (fill_gross command))
    (posted_events sha256hex Stage08 command recordedAt metadata order position realized basisDelta).
Proof.
  intros [Hs _ _ Hfee _]. unfold posted_events, fillEvents.
  set (econ := fillEvent _ _ _ _ _ _ _ _ _ _ (if C_Side command =s "sell" then _ else _) _ _ _ _ _).
  assert (Hk : is_fill_event (event_defaults econ) = true) by apply fill_event_kind.
  assert (Hm : matches_fill (fillRow sha256hex Stage08 command recordedAt order position (fill_gross command))
    (event_defaults econ)).
  { unfold matches_fill, econ, fill_cash, fill_asset. cbn -[integer Neg fill_gross].
    destruct Hs as [-> | ->]; cbn -[integer Neg fill_gross]; autorewrite with go_dec; done. }
  destruct (0 <? Sign (C_Fee command)) eqn:Ef.
  - set (fee := fillEvent _ _ _ _ _ _ _ _ _ _ (if (_ || _)%bool then _ else _) _ _ _ _ _).
    destruct (fee_event_kind command recordedAt metadata order position (stableID sha256hex "event-fee" (C_IdempotencyKey command))
      (C_IdempotencyKey command +:+ ":fee") 2 ((C_FeeType command =s EventExchangeFee) || (C_ExecutionMode command =s "exchange"))%bool
      (Neg (C_Fee command)) Zero (Neg (C_Fee command)) Zero (C_Fee command)) as [Hn Hf]. fold fee in Hn, Hf.
    split; cbn [fmap list_fmap].
    + rewrite !Zsum_cons, Zsum_nil. unfold fill_one. by rewrite Hk, Hn.
    + rewrite !Zsum_cons, Zsum_nil. unfold fee_cash. rewrite Hk, Hn, Hf. cbn -[integer Neg]. autorewrite with go_dec. lia.
    + constructor; [done | apply Forall_singleton]. by rewrite Hn.
  - apply no_fee in Ef; [|done]. split; cbn [fmap list_fmap].
    + rewrite Zsum_cons, Zsum_nil. unfold fill_one. by rewrite Hk.
    + rewrite Zsum_cons, Zsum_nil. unfold fee_cash. rewrite Hk. cbn -[integer]. by rewrite Ef.
    + by apply Forall_singleton.
Qed.
End NewFill.

(** ** The rows a new fill writes *)
Lemma CreateFill_fresh f db u db' : CreateFill f db = (Ok u, db') ->
  F_AccountID f = DefaultAccountID /\ Forall (fun g => F_ID g <> F_ID f) (fills db).
Proof.
  unfold CreateFill. intros H. tx_inv. bool_prop. split; [done|].
  apply Forall_forall. intros g Hg E.
  match goal with H : existsb _ _ = false |- _ => eapply existsb_false in H; [|exact Hg] end.
  by rewrite E, String.eqb_refl in *.
Qed.
Lemma applyPosition_rows command gross db p' realized basisDelta db' :
  applyPosition command gross db = (Ok (p', realized, basisDelta), db') ->
  db' = with_positions db (positions db') (next_position db') /\
  full p' /\ forall x, x ∈ positions db' -> x = p' \/ x ∈ positions db.
Proof.
  intros H. unfold applyPosition in H. apply sbind_Ok in H as (row & d & E & H).
  assert (d = db) as ->.
  { apply or_not_found_Ok in E. unfold FirstPositionOf in E. destruct row as [p|]; [by tx_inv|].
    destruct E as (e & E & _). unfold sbind, get, found, slift in E. cbn in E. by injection E. }
  destruct (C_Side command =s "buy").
  - apply sbind_Ok in H as ([p opening] & d & E' & H). apply slift_Ok in E' as [_ ->]. cbn zeta in H.
    destruct (Ps_ID (bought command p opening gross) =? 0); tx_inv.
    + match goal with H : CreatePosition _ _ = _ |- _ => apply CreatePosition_Ok in H as (-> & _ & _ & ->) end.
      split_and!; [by destruct db | by do 4 eexists|]. intros x [Hx|Hx%list_elem_of_singleton]%elem_of_app; auto.
    + match goal with H : SavePosition _ _ = _ |- _ => apply SavePosition_Ok in H as -> end.
      split_and!; [by destruct db | by do 4 eexists|]. intros x [->|[Hx _]]%replace_elem; auto.
  - destruct row as [p|]; [|discriminate]. tx_inv.
    match goal with H : SavePosition _ _ = _ |- _ => apply SavePosition_Ok in H as -> end.
    match goal with H : sold _ _ _ _ _ = _ |- _ => injection H as <- _ _ end.
    split_and!; [by destruct db | by do 4 eexists|]. intros x [->|[Hx _]]%replace_elem; auto.
Qed.

Section FillRows.
Context (AfterWrite : string -> res unit) (sha256hex : string -> string) (Stage08 : FillCommand -> string).

(** The rows written by the statements of a new fill. *)
Lemma applyNewFill_rows command recordedAt metadata db r db' : orders_ok db ->
  applyNewFill AfterWrite sha256hex Stage08 command recordedAt metadata db = (Ok r, db') ->
  full (R_Position r) /\ (forall x, x ∈ positions db' -> x = R_Position r \/ x ∈ positions db) /\
  F_AccountID (R_Fill r) = DefaultAccountID /\ Forall (fun g => F_ID g <> F_ID (R_Fill r)) (fills db) /\
  exists o0, order_totals (R_Order r) = Some (orderTotals o0 command (fill_gross command)) /\
  (o0 ∈ orders db /\ O_ID o0 = O_ID (R_Order r) \/ order_totals o0 = None /\ O_ID (R_Order r) = next_order db) /\
  (forall x, x ∈ orders db' -> x = R_Order r \/ x ∈ orders db /\ O_ID x <> O_ID (R_Order r)) /\
  (forall x, x ∈ orders db -> exists y, y ∈ orders db' /\ O_ID y = O_ID x).
Proof.
  intros Ho H. unfold applyNewFill, FirstWallet, fail in H.
  apply sbind_Ok in H as (u & d0 & E0 & H). apply requireReady_Ok in E0 as [-> _]. tx_inv.
  fold (fill_gross command) in *.
  repeat match goal with H : slift (AfterWrite _) _ = (Ok _, _) |- _ => apply slift_Ok in H as [_ ->] end.
  match goal with H : applyPosition _ _ _ = _ |- _ => rename H into Hpos end.
  pose proof (applyPosition_rows _ _ _ _ _ _ _ Hpos) as (Ed & Hfull & Hrows).
  match goal with H : SaveWallet _ _ = _ |- _ => apply SaveWallet_Ok in H as -> end.
  match goal with H : upsertFilledOrder _ _ _ _ = _ |- _ => rename H into Hord end.
  match goal with H : CreateFill _ _ = _ |- _ => rename H into Hfill end.
  match goal with H : CreateEvents _ _ = _ |- _ => apply CreateEvents_ok in H as [-> _] end.
  pose proof (CreateFill_fresh _ _ _ _ Hfill) as [Hacc Hfresh]. apply CreateFill_Ok in Hfill as (-> & _).
  cbn [R_Position R_Order R_Fill positions orders fills with_events add_fill] in *.
  rewrite Ed in Hord. pose proof Hord as Hord2.
  apply upsertFilledOrder_orders in Hord as (o0 & H1 & H2 & H3 & H4); [|by destruct Ho].
  apply upsertFilledOrder_ok in Hord2 as (Eo & _); [|by destruct Ho].
  rewrite Eo in Hfresh. split_and!; [done | by rewrite Eo | done | exact Hfresh | by exists o0].
Qed.

Lemma of_fill_other i j e : of_fill i e = true -> i <> j -> of_fill j e = false.
Proof. unfold of_fill. destruct (E_FillID e); [|done]. intros H Hne. bool_prop. subst. by apply String.eqb_neq. Qed.
Lemma of_fill_is e i : of_fill i e = true -> E_FillID e = Some i.
Proof. unfold of_fill. destruct (E_FillID e); [|done]. intros H. bool_prop. congruence. Qed.

(** The fills and events of a database after a new fill with its events. *)
Lemma fills_clean_fill db db' f evs : audited db -> fills db' = fills db ++ [f] -> events db' = events db ++ evs ->
  F_AccountID f = DefaultAccountID -> Forall (fun g => F_ID g <> F_ID f) (fills db) ->
  Forall (fun e => of_fill (F_ID f) e = true) evs -> clean f evs ->
  Forall (fun f => F_AccountID f = DefaultAccountID /\ clean f (List.filter (of_fill (F_ID f)) (events db'))) (fills db') /\
  Forall (fun e => match E_FillID e with
                   | Some i => exists f, f ∈ fills db' /\ F_ID f = i | None => True end) (events db').
Proof.
  intros [Hf Hl _ _] Ef Ee Hacc Hfresh Hown Hclean. rewrite Ef, Ee.
  rewrite Forall_forall in Hfresh. rewrite !Forall_app, Forall_singleton. split_and!.
  - apply Forall_forall. intros g Hg. rewrite Forall_forall in Hf. destruct (Hf g Hg) as [Ha Hc].
    split; [done|]. rewrite List.filter_app, (filter_none _ evs), app_nil_r; [done|].
    eapply Forall_impl; [exact Hown|]. intros e He. eapply of_fill_other; [exact He|]. intros E. by apply (Hfresh g Hg).
  - done.
  - rewrite List.filter_app, (filter_none _ (events db)), (filter_all _ evs); [exact Hclean|exact Hown|].
    eapply Forall_impl; [exact Hl|]. intros e He. cbn beta in He. unfold of_fill. destruct (E_FillID e) as [i|]; [|done].
    destruct He as (g & Hg & <-). apply String.eqb_neq. by apply Hfresh.
  - eapply Forall_impl; [exact Hl|]. intros e He. cbn beta in *. destruct (E_FillID e) as [i|]; [|done].
    destruct He as (g & Hg & E). exists g. split; [apply elem_of_app; by left | done].
  - eapply Forall_impl; [exact Hown|]. intros e He. rewrite (of_fill_is _ _ He). exists f.
    split; [apply elem_of_app; right; by apply list_elem_of_singleton | done].
Qed.

Lemma applyNewFill_audited command recordedAt metadata db r db' :
  valid_fill command -> C_Symbol command <> "" -> reconciled db -> orders_ok db -> audited db ->
  applyNewFill AfterWrite sha256hex Stage08 command recordedAt metadata db = (Ok r, db') -> audited db'.
Proof.
  intros Hv Hsym Hr Ho Ha H.
  apply applyNewFill_rows in H as Hrows; [|done].
  destruct Hrows as (Hfull & Hpos & Hacc & Hfresh & o0 & Ht & Ho0 & Hback & Hforth).
  apply applyNewFill_posted in H as (w & b & realized & basisDelta & P); [|done..].
  destruct P as [_ EW _ Ew' _ [Hp Hps] [_ Hin] EF [Ef _] [Ee _] (_ & Es & _) (s & Hs & Hready) _ _ _].
  destruct (fills_clean_fill db db' (R_Fill r) _ Ha Ef Ee Hacc Hfresh) as [H1 H2].
  - rewrite EF. apply posted_events_own.
  - rewrite EF. by apply posted_events_clean.
  - rewrite (vf_account _ Hv) in Hs. destruct Ha as [_ _ Hoc [P1 P2 P3 P4]]. split; [done | done | |].
    + eapply orders_clean_fill; try done; by rewrite EF.
    + specialize (P4 s Hs Hready).
      assert (Hall : Forall full (positions db')).
      { apply Forall_forall. rewrite Forall_forall in P4. intros x Hx. destruct (Hpos x Hx) as [->|]; auto. }
      split; [| |intros _; split|done].
      * apply Forall_forall. rewrite Forall_forall in P1. intros x Hx. destruct (Hpos x Hx) as [->|]; [congruence | auto].
      * eapply Forall_impl; [exact Hall|]. auto.
      * eapply Forall_impl; [exact Hall|]. auto.
      * rewrite Ew', EW. apply Forall_singleton. eauto.
Qed.
End FillRows.

(** ** Administrative commands *)

(** An event without a fill leaves the records of the fills alone. *)
Lemma audited_event db db' e : audited db -> fills db' = fills db -> orders db' = orders db ->
  events db' = events db ++ [e] -> E_FillID e = None -> positions_clean db' -> audited db'.
Proof.
  intros [Hf Hl [Hc Hk] _] Ef Eo Ee Hn Hp. split; [| | |done].
  - rewrite Ef, Ee. eapply Forall_impl; [exact Hf|]. intros f [Ha Hcl]. split; [done|].
    rewrite List.filter_app, (filter_none _ [e]), app_nil_r; [done|].
    apply Forall_singleton. unfold of_fill. by rewrite Hn.
  - rewrite Ee, Forall_app, Forall_singleton, Hn, Ef. by split.
  - split; by rewrite Eo, Ef.
Qed.
Lemma audited_same db db' : audited db -> fills db' = fills db -> orders db' = orders db ->
  events db' = events db -> positions_clean db' -> audited db'.
Proof. intros [Hf Hl [Hc Hk] _] Ef Eo Ee Hp. split; [| |split|done]; by rewrite ?Ef, ?Eo, ?Ee. Qed.
(** A posting of a ready account: the wallet is exact, and a changed position too. *)
Lemma positions_clean_ready db db' p' s : positions_clean db ->
  states db !! DefaultAccountID = Some s -> S_Status s = "ready" -> states db' = states db ->
  (forall x, x ∈ positions db' -> x ∈ positions db \/ x = p' /\ full p' /\ Ps_Symbol p' <> "") ->
  Forall (fun w => is_Some (W_BalanceExact w)) (wallets db') -> positions_clean db'.
Proof.
  intros [P1 P2 P3 P4] Hs Hr Es Hx Hw. specialize (P4 s Hs Hr).
  assert (Hall : Forall full (positions db')).
  { apply Forall_forall. rewrite Forall_forall in P4. intros x Hin. destruct (Hx x Hin) as [|(-> & ? & ?)]; auto. }
  split; [| |intros _; split|done].
  - apply Forall_forall. rewrite Forall_forall in P1. intros x Hin. destruct (Hx x Hin) as [|(-> & ? & ?)]; auto.
  - eapply Forall_impl; [exact Hall|]. auto.
  - eapply Forall_impl; [exact Hall|]. auto.
  - done.
Qed.

Section Admin.
Context (SetRole : res unit) (AfterWrite : string -> res unit) (sha256hex : string -> string).

Lemma audited_batches f db : audited db -> audited (set_batches f db).
Proof. intros Ha. apply (audited_same db); [done..|]. destruct (au_positions _ Ha). by split. Qed.
Lemma wallets_exact_saved db w balance : wallets db = [w] -> Forall (fun w => is_Some (W_BalanceExact w))
  ((fun v => if W_ID v =? W_ID (set_balance w balance) then set_balance w balance else v) <$> wallets db).
Proof. intros E. rewrite (wallet_saved _ w) by done. apply Forall_singleton. eauto. Qed.

Lemma adjustmentBody_audited command recordedAt hash db r db' :
  A_AccountID command = DefaultAccountID -> ledger_ok db -> audited db ->
  adjustmentBody SetRole AfterWrite sha256hex command recordedAt hash db = (Ok r, db') -> audited db'.
Proof.
  intros Hacc [Hr _ _] Ha H. unfold adjustmentBody, allowLedgerProjectionWrites, lockAccount, FirstWallet,
    FirstEventOfBatch, fail in H. tx_inv.
  match goal with H : beginBatch _ _ _ _ _ = (Ok ?x, _) |- _ => rename x into already; apply beginBatch_Ok in H as Hb end.
  destruct already; [destruct Hb as [-> _]; by tx_inv|]. destruct Hb as [_ ->].
  pose proof (rc_wallet _ Hr) as (w & Ew & _).
  tx_inv. match goal with H : requireReady _ _ = _ |- _ => apply requireReady_Ok in H as [-> (s & Hs & Hready)] end.
  match goal with H : head _ = Some _ |- _ => cbn [wallets set_batches] in H; rewrite Ew in H; injection H as <- end.
  tx_inv. match goal with H : SaveWallet _ _ = _ |- _ => apply SaveWallet_Ok in H as -> end.
  match goal with H : CreateEvent _ _ = _ |- _ => apply CreateEvent_Ok in H as (-> & _ & _ & _ & ->) end.
  eapply audited_event; [exact Ha | done | done | done | done |]. rewrite Hacc in Hs.
  eapply (positions_clean_ready db _ (newPosition "" "" 0)); [apply (au_positions _ Ha) | exact Hs | done | done | auto |].
  by apply (wallets_exact_saved (set_batches _ db) w).
Qed.

Lemma reverseAsset_rows command original db u db' : positions_clean db ->
  reverseAsset command original db = (Ok u, db') ->
  db' = with_positions db (positions db') (next_position db) /\
  exists p', forall x, x ∈ positions db' -> x ∈ positions db \/ x = p' /\ full p' /\ Ps_Symbol p' <> "".
Proof.
  intros [P1 P2 _ _] H. unfold reverseAsset in H. destruct (_ =? 0).
  - tx_inv. split; [by destruct db'|]. exists (newPosition "" "" 0). auto.
  - tx_inv. match goal with H : FirstPositionOf _ _ _ = _ |- _ => apply FirstPositionOf_Ok in H as (-> & Hp & _) end.
    match goal with H : ?x ∈ positions _ |- _ => rename x into p end.
    rewrite Forall_forall in P1, P2. specialize (P1 p Hp).
    assert (Hf : full p) by (eapply full_or_resolved; [by apply P2 | congruence | congruence]).
    tx_inv. apply SavePosition_Ok in H as ->. split; [by destruct db|].
    match goal with H : reversedPosition _ _ _ _ _ = Ok ?p2 |- _ => exists p2; unfold reversedPosition in H end. res_inv.
    intros x [->|[Hx _]]%replace_elem; [right | by left]. split_and!; [done | | done].
    destruct Hf as (qa & qb & qr & qf & Ex). unfold full. cbn [Ps_exact]. rewrite Ex. by do 4 eexists.
Qed.
Lemma reversalBody_audited MarshalReversal command recordedAt db r db' : ledger_ok db -> audited db ->
  reversalBody SetRole sha256hex MarshalReversal command recordedAt db = (Ok r, db') -> audited db'.
Proof.
  intros [Hr _ _] Ha H. unfold reversalBody, allowLedgerProjectionWrites, lockAccount, FirstWallet, FirstEvent,
    FirstEventOfBatch in H. tx_inv.
  match goal with H : where_ _ _ = Some ?e |- _ => rename e into original; apply where_Some in H as [Hin _] end.
  match goal with H : beginBatch _ _ _ _ _ = (Ok ?x, _) |- _ => rename x into already; apply beginBatch_Ok in H as Hbatch end.
  destruct already; [destruct Hbatch as [-> _]; by tx_inv|]. destruct Hbatch as [_ ->].
  pose proof (rc_wallet _ Hr) as (w & Ew & _).
  tx_inv. match goal with H : requireReady _ _ = _ |- _ => apply requireReady_Ok in H as [-> (s & Hs & Hready)] end.
  match goal with H : head _ = Some _ |- _ => cbn [wallets set_batches] in H; rewrite Ew in H; injection H as <- end.
  tx_inv. match goal with H : SaveWallet _ _ = _ |- _ => apply SaveWallet_Ok in H as -> end.
  match goal with H : reverseAsset _ _ _ = _ |- _ => apply reverseAsset_rows in H as (Ed & p' & Hrows) end.
  2: { destruct (au_positions _ Ha). split; try done. intros Hst. split; [by apply pc_closed0|].
       by apply (wallets_exact_saved (set_batches _ _) w). }
  match goal with H : CreateEvent _ _ = _ |- _ => apply CreateEvent_Ok in H as (-> & _ & _ & _ & ->) end.
  pose proof (rc_events _ Hr) as Hevs. rewrite Forall_forall in Hevs. destruct (Hevs _ Hin) as [Hacc _].
  rewrite Hacc in Hs.
  eapply audited_event; [exact Ha | by rewrite Ed | by rewrite Ed | by rewrite Ed | done |].
  eapply (positions_clean_ready _ _ p'); [apply (au_positions _ Ha) | exact Hs | done | by rewrite Ed | exact Hrows |].
  rewrite Ed. by apply (wallets_exact_saved (set_batches _ _) w).
Qed.

(** *** Corrections *)
Lemma unresolved_none account db p : Forall good_position (positions db) -> account = DefaultAccountID ->
  unresolved_positions account db = [] -> p ∈ positions db -> Status (Ps_cycle p) = "open" -> ~ unresolved p.
Proof.
  intros Hg -> Hn Hp Ho Hu. rewrite Forall_forall in Hg.
  assert (Hin : p ∈ unresolved_positions DefaultAccountID db).
  { apply list_elem_of_In, List.filter_In. split; [by apply list_elem_of_In|].
    rewrite (gp_account _ (Hg p Hp)), Ho. by destruct Hu as [-> | ->]; rewrite ?orb_true_r. }
  rewrite Hn in Hin. by apply elem_of_nil in Hin.
Qed.
Lemma positions_clean_corrected db db' p p' s : positions_clean db -> states db !! DefaultAccountID = Some s ->
  p ∈ positions db -> unresolved p -> full p' -> Ps_Symbol p' = Ps_Symbol p ->
  positions db' = replace_position p' (positions db) -> states db' = states db -> wallets db' = wallets db ->
  positions_clean db' /\ S_Status s <> "ready".
Proof.
  intros [P1 P2 P3 P4] Hs Hp Hu Hf Hsym Ep Es Ew.
  assert (Hnr : S_Status s <> "ready").
  { intros E. specialize (P4 s Hs E). rewrite Forall_forall in P4. destruct (P4 p Hp) as (a & b & r & f & Ex).
    destruct Hu as [Hu|Hu]; by rewrite Ex in Hu. }
  split; [|done]. assert (Hx : forall P, (forall x, x ∈ positions db -> P x) -> P p' -> Forall P (positions db')).
  { intros P H1 H2. rewrite Ep. apply Forall_forall. intros x [->|[Hx _]]%replace_elem; auto. }
  rewrite Forall_forall in P1, P2. destruct P3 as [P3 Hw]; [by rewrite Hs|]. rewrite Forall_forall in P3. split.
  - apply Hx; [done | rewrite Hsym; auto].
  - apply Hx; auto.
  - intros _. rewrite Ew. split; [|done]. apply Hx; auto.
  - rewrite Es. intros s' Hs'. congruence.
Qed.

Lemma correctionBody_audited command recordedAt hash metadata db r db' :
  K_AccountID command = DefaultAccountID -> ledger_ok db -> audited db ->
  correctionBody SetRole sha256hex command recordedAt hash metadata db = (Ok r, db') ->
  Forall good_position (positions db') -> audited db'.
Proof.
  intros Hacc [Hr _ _] Ha H Hgood. unfold correctionBody, allowLedgerProjectionWrites, lockAccount, FirstWallet,
    FirstEventOfBatch in H. tx_inv.
  match goal with H : beginBatch _ _ _ _ _ = (Ok ?x, _) |- _ => rename x into already; apply beginBatch_Ok in H as Hbatch end.
  destruct already; [destruct Hbatch as [-> _]; by tx_inv|]. destruct Hbatch as [_ ->].
  unfold FirstState, FirstOpenPositionOf in *. tx_inv.
  match goal with H : where_ _ _ = Some ?q |- _ => rename q into p; apply where_Some in H as [Hin Hwh] end.
  match goal with H : states _ !! _ = Some ?s0 |- _ => rename H into Hs; rename s0 into s end.
  match goal with H : SavePosition _ _ = _ |- _ => apply SavePosition_Ok in H as -> end.
  match goal with H : CreateEvent _ _ = _ |- _ => apply CreateEvent_Ok in H as (-> & _ & _ & _ & ->) end.
  rewrite Hacc in Hs. cbn [states set_batches positions] in Hs, Hin.
  assert (Hu : unresolved p).
  { match goal with H : (negb (is_nil _) || _)%bool = false |- _ => apply orb_false_iff in H as [H _] end.
    left. by destruct (AmountExact (Ps_exact p)). }
  match goal with H : _ = (Ok _, db') |- _ => rename H into Hlast end.
  match type of Hlast with _ ?d = _ => assert (Hd : positions_clean d /\ S_Status s <> "ready");
    [|assert (Hok : audited d) by (eapply audited_event; [exact Ha | done.. | apply Hd])] end.
  { eapply positions_clean_corrected with (p := p) (p' := correctedPosition command p); [apply (au_positions _ Ha) | exact Hs | done | done | | done..].
    by do 4 eexists. }
  destruct (Z.of_nat _ =? 0) eqn:Ecount in Hlast; [unfold SaveState in Hlast|]; tx_inv; [|done].
  bool_prop. destruct Hd as [[P1 P2 P3 P4] _].
  eapply audited_same; [exact Hok | done | done | done |].
  destruct P3 as [P3 P5]; [cbn; by rewrite Hs|]. split; [done | done | by intros _ | intros s' _ _].
  apply Forall_forall. intros x Hx. rewrite Forall_forall in P2, P3. destruct (P3 x Hx) as [Ho|]; [|done].
  destruct (P2 x Hx) as [|Hux]; [done|]. exfalso.
  eapply unresolved_none; [exact Hgood | exact Hacc | by apply length_zero_iff_nil, Nat2Z.inj | exact Hx | done | done].
Qed.

(** *** The opening balance *)
Lemma zeroClosed_elem account l x : x ∈ zeroClosedPositions account l ->
  exists p, p ∈ l /\ Ps_Symbol x = Ps_Symbol p /\ Ps_cycle x = Ps_cycle p /\ Ps_AccountID x = Ps_AccountID p /\
  (full x \/ x = p /\ (Ps_AccountID p = account -> Status (Ps_cycle p) = "open")).
Proof.
  intros (p & -> & Hp)%list_elem_of_fmap. exists p.
  destruct ((Ps_AccountID p =s account) && (Status (Ps_cycle p) <>s "open"))%bool eqn:E.
  - split_and!; try done. left. by do 4 eexists.
  - split_and!; try done. right. split; [done|]. intros Ha. rewrite Ha, String.eqb_refl in E. cbn in E.
    by apply negb_false_iff, String.eqb_eq in E.
Qed.
Lemma positions_clean_opened db db' s : Forall good_position (positions db) -> positions_clean db ->
  positions db' = zeroClosedPositions DefaultAccountID (positions db) ->
  Forall (fun w => is_Some (W_BalanceExact w)) (wallets db') -> states db' !! DefaultAccountID = Some s ->
  (S_Status s = "ready" -> Forall (fun p => Status (Ps_cycle p) <> "open") (positions db)) -> positions_clean db'.
Proof.
  intros Hg [P1 P2 _ _] Ep Hw Es Hready. rewrite Forall_forall in Hg, P1. rewrite Forall_forall in P2.
  split; [| |intros _; split; [|done]|intros s' Hs' Hr]; apply Forall_forall; intros x Hx; rewrite Ep in Hx;
    apply zeroClosed_elem in Hx as (p & Hp & Hsym & Hcy & Hacc & Hcase).
  - rewrite Hsym. by apply P1.
  - destruct Hcase as [|[-> _]]; [by left | by apply P2].
  - destruct Hcase as [|[-> Ho]]; [by right|]. left. apply Ho, (gp_account _ (Hg p Hp)).
  - destruct Hcase as [|[-> Ho]]; [done|]. exfalso. rewrite Es in Hs'. injection Hs' as <-.
    specialize (Hready Hr). rewrite Forall_forall in Hready. apply (Hready p Hp), Ho, (gp_account _ (Hg p Hp)).
Qed.
Lemma backfillBody_audited MarshalBackfill MarshalStrings ObservationContext options at_ report db r db' :
  B_AccountID options = DefaultAccountID -> ledger_ok db -> audited db ->
  (LegacyPositionCount report <= 0 -> Forall (fun p => Status (Ps_cycle p) <> "open") (positions db)) ->
  backfillBody SetRole sha256hex MarshalBackfill MarshalStrings ObservationContext options at_ report db
    = (Ok r, db') -> audited db'.
Proof.
  intros Hacc [Hr _ _] Ha Hcount H. unfold backfillBody, allowLedgerProjectionWrites, lockAccount, FirstWalletOf,
    SaveState in H. tx_inv.
  match goal with H : or_not_found _ _ = _ |- _ => apply state_lookup in H as [-> ->] end.
  tx_inv. rewrite Hacc in *.
  match goal with H : SaveWallet _ _ = _ |- _ => apply SaveWallet_Ok in H as -> end.
  match goal with H : CreateBatch _ _ _ = _ |- _ => apply CreateBatch_Ok in H as [Hnone ->] end.
  pose proof (rc_wallet _ Hr) as (w & Ew & _).
  match goal with H : where_ _ _ = Some ?v |- _ => apply where_Some in H as [Hv _]; rewrite Ew in Hv;
    apply list_elem_of_singleton in Hv as -> end.
  match goal with H : CreateEvent _ _ = _ |- _ => apply CreateEvent_Ok in H as (-> & _ & _ & _ & ->) end.
  eapply audited_event; [exact Ha | done | done | done | done |].
  eapply positions_clean_opened; [apply (po_good _ _ (rc_positions _ Hr)) | apply (au_positions _ Ha) | done | | |].
  - cbn [wallets set_states add_event set_batches set_positions set_wallets].
    rewrite (wallet_saved db w) by done. apply Forall_singleton. eauto.
  - apply lookup_insert_eq.
  - cbn [S_Status]. destruct (Z.ltb_spec 0 (LegacyPositionCount report)); [done|]. auto.
Qed.
End Admin.

(** ** Fills through the service *)
Lemma checkFill_symbol c0 c : checkFill c0 = Ok c -> C_Symbol c <> "".
Proof.
  unfold checkFill. intros H. res_inv.
  match goal with H : validateFill _ = Ok _ |- _ => unfold validateFill in H end. cbn_command. res_inv. bool_prop.
  cbn. intros Esym. rewrite Esym in *. done.
Qed.
Lemma prepareFill_symbol now c0 c t : prepareFill now c0 = Ok (c, t) -> C_Symbol c <> "".
Proof. intros (checked & at_ & Hc & _ & ->)%prepareFill_Ok. exact (checkFill_symbol _ _ Hc). Qed.
Lemma prepareFill_order now c0 c t : prepareFill now c0 = Ok (c, t) -> C_ExistingOrderID c = C_ExistingOrderID c0.
Proof. intros (checked & at_ & Hc & _ & ->)%prepareFill_Ok. unfold checkFill in Hc. by res_inv. Qed.
Lemma upsertFilledOrder_existing stage08 command gross db o db' : 0 < C_ExistingOrderID command ->
  upsertFilledOrder stage08 command gross db = (Ok o, db') -> O_ID o = C_ExistingOrderID command.
Proof.
  intros Hpos H. unfold upsertFilledOrder in H. rewrite (proj2 (Z.ltb_lt _ _) Hpos) in H. tx_inv.
  unfold FirstOrder in *. tx_inv.
  match goal with H : filledOrder _ ?x _ _ = Ok ?y |- _ => rename x into o0; rename y into o1;
    apply filledOrder_totals in H as [Hid _] end.
  match goal with H : where_ _ _ = Some _ |- _ => apply where_Some in H as [_ Hw] end. bool_prop.
  rewrite Hid, Hw, (proj2 (Z.eqb_neq _ _)) in H by lia. tx_inv. congruence.
Qed.

Section Fills.
Context (SetRole : res unit) (AfterWrite : string -> res unit) (sha256hex : string -> string)
  (MarshalFill : FillCommand -> res string) (MarshalMetadata : Metadata -> res string)
  (Stage08 : FillCommand -> string).

Lemma fillBody_audited command recordedAt hash metadata db r db' :
  valid_fill command -> C_Symbol command <> "" -> ledger_ok db -> audited db ->
  fillBody SetRole AfterWrite sha256hex Stage08 command recordedAt hash metadata db = (Ok r, db') -> audited db'.
Proof.
  intros Hv Hs [Hr Ho _] Ha H. unfold fillBody, allowLedgerProjectionWrites, lockAccount in H. tx_inv.
  match goal with H : beginBatch _ _ _ _ _ = (Ok ?x, _) |- _ => rename x into already; apply beginBatch_Ok in H as Hb end.
  destruct already.
  - destruct Hb as [-> _]. tx_inv. match goal with H : loadFillResult _ _ = _ |- _ => by apply loadFillResult_Ok in H as -> end.
  - destruct Hb as [_ ->]. eapply applyNewFill_audited in H; [done | done | done | | |].
    + by apply reconciled_batches.
    + by destruct Ho.
    + by apply audited_batches.
Qed.

(** A fill with a new key and an existing order. *)
Lemma fillBody_new command recordedAt hash metadata db r db' :
  valid_fill command -> ledger_ok db -> batches db !! C_IdempotencyKey command = None -> 0 < C_ExistingOrderID command ->
  fillBody SetRole AfterWrite sha256hex Stage08 command recordedAt hash metadata db = (Ok r, db') ->
  (exists f, fills db' = fills db ++ [f] /\ F_OrderID f = C_ExistingOrderID command) /\
  (forall k, k <> C_IdempotencyKey command -> batches db' !! k = batches db !! k).
Proof.
  intros Hv [Hr Ho _] Hnone Hpos H. unfold fillBody, allowLedgerProjectionWrites, lockAccount in H. tx_inv.
  match goal with H : beginBatch _ _ _ _ _ = (Ok ?x, _) |- _ => rename x into already; apply beginBatch_Ok in H as Hb end.
  destruct already; [destruct Hb as (_ & row & Hrow & _); congruence|]. destruct Hb as [_ ->].
  assert (Hid : O_ID (R_Order r) = C_ExistingOrderID command).
  { unfold applyNewFill, FirstWallet, fail in H. apply sbind_Ok in H as (u & d0 & E0 & H).
    apply requireReady_Ok in E0 as [-> _]. tx_inv.
    match goal with H : upsertFilledOrder _ _ _ _ = _ |- _ => by apply upsertFilledOrder_existing in H end. }
  eapply applyNewFill_posted in H as (w & b & realized & basisDelta & P);
    [|done | by apply reconciled_batches | by destruct Ho].
  destruct P as [_ _ _ _ _ _ _ EF [Ef _] _ (Eb & _) _ _ _ _]. split.
  - exists (R_Fill r). split; [exact Ef|]. by rewrite EF.
  - intros k Hk. rewrite Eb. cbn. by rewrite lookup_insert_ne.
Qed.

Section Loop.
Context (now : nat -> nat -> Time) (orderID : Z).
Hypothesis HorderID : 0 < orderID.

Lemma recordFill_new i c db j db' : ledger_ok db -> audited db -> batches db !! C_IdempotencyKey c = None ->
  recordFill SetRole AfterWrite now sha256hex MarshalFill MarshalMetadata Stage08 orderID i c db = (Ok j, db') ->
  ledger_ok db' /\ audited db' /\ (exists f, fills db' = fills db ++ [f] /\ F_OrderID f = orderID) /\
  (forall k, k <> C_IdempotencyKey c -> batches db' !! k = batches db !! k).
Proof using HorderID.
  intros Hok Ha Hnone H. split; [by eapply recordFill_ok|]. unfold recordFill, ApplyFillWith in H. tx_inv.
  match goal with H : normalized _ _ = _ |- _ => apply (proj1 (normalized_Ok _ _ _ _)) in H; rename H into Hbody end.
  match goal with H : prepareFill _ _ = Ok _ |- _ => rename H into Hp end.
  pose proof (prepareFill_valid _ _ _ _ Hp) as Hv. pose proof (prepareFill_symbol _ _ _ _ Hp) as Hs.
  pose proof (prepareFill_order _ _ _ _ Hp) as Horder. apply prepareFill_fields in Hp as (Hkey & _).
  cbn in Horder, Hkey. rewrite <- Horder in *. rewrite <- Hkey in *.
  split; [by eapply fillBody_audited|]. eapply fillBody_new; eauto.
Qed.
Lemma recordFills_new l : forall i db j db', ledger_ok db -> audited db -> NoDup (C_IdempotencyKey <$> l) ->
  Forall (fun c => batches db !! C_IdempotencyKey c = None) l ->
  sfoldM (recordFill SetRole AfterWrite now sha256hex MarshalFill MarshalMetadata Stage08 orderID) i l db = (Ok j, db') ->
  ledger_ok db' /\ audited db' /\ (exists k, fills db' = fills db ++ k /\ (l <> [] -> fills_of orderID (fills db') <> [])) /\
  (forall k, k ∉ C_IdempotencyKey <$> l -> batches db' !! k = batches db !! k).
Proof using HorderID.
  induction l as [|c l IH]; intros i db j db' Hok Ha Hnd Hnone H; cbn [sfoldM] in H.
  - tx_inv. split_and!; [done | done | exists []; by rewrite app_nil_r | done].
  - apply sbind_Ok in H as (i' & d & E & H). rewrite fmap_cons in Hnd. apply NoDup_cons in Hnd as [Hni Hnd].
    apply Forall_cons in Hnone as [Hc Hnone].
    apply recordFill_new in E as (Hok1 & Ha1 & (f & Ef & Hf) & Hb1); [|done..].
    apply IH in H as (Hok2 & Ha2 & (k & Ek & _) & Hb2); [|done | done | done |].
    + split_and!; [done | done | |].
      * exists (f :: k). rewrite Ek, Ef, <- app_assoc. split; [done|]. intros _.
        unfold fills_of. rewrite !List.filter_app. cbn. rewrite Hf, Z.eqb_refl. by intros [_ [=]]%app_eq_nil.
      * intros x Hx. rewrite fmap_cons, not_elem_of_cons in Hx. destruct Hx. by rewrite Hb2, Hb1.
    + rewrite Forall_forall in *. intros c' Hc'. rewrite Hb1; [by apply Hnone|].
      intros E. apply Hni. rewrite <- E. by apply list_elem_of_fmap_2.
Qed.
End Loop.
End Fills.

(** ** Broker outcomes *)
Lemma audited_orders db l next : audited db -> orders_clean (with_orders db l next) -> audited (with_orders db l next).
Proof. intros [H1 H2 _ [P1 P2 P3 P4]] Hc. by split. Qed.
Lemma orders_clean_new db o0 o db' : orders_ok db -> orders_clean db -> CreateOrder o0 db = (Ok o, db') ->
  order_totals o0 = Some (Zero, Zero, Zero) -> O_Status o0 = "accepted" -> orders_clean db'.
Proof.
  intros [_ Hr _] [Hc Hk] (-> & ->)%CreateOrder_Ok Ht Hs. rewrite Forall_forall in Hk. split; cbn [orders fills bump_order set_orders].
  - apply Forall_app. split; [exact Hc|]. apply Forall_singleton.
    assert (Hnil : fills_of (next_order db) (fills db) = []).
    { apply filter_none, Forall_forall. intros f Hf. destruct (Hk f Hf) as (y & Hy & E).
      rewrite Forall_forall in Hr. apply Hr in Hy. apply Z.eqb_neq. lia. }
    cbn [O_ID order_defaults]. rewrite Hnil. split.
    + change (order_totals (order_defaults (next_order db) o0)) with (order_totals o0). by rewrite Ht.
    + intros _. cbn. by rewrite Hs.
  - apply Forall_forall. intros f Hf. destruct (Hk f Hf) as (y & Hy & E). exists y.
    split; [apply elem_of_app; by left | done].
Qed.
Lemma orders_clean_update db id_ g : orders_clean db -> (forall o, O_ID (g o) = O_ID o) ->
  (forall o, order_totals (g o) = order_totals o) ->
  ((forall o, O_Status (g o) = "filled" -> fills_of id_ (fills db) <> [])) ->
  orders_clean (with_orders db ((fun o => if O_ID o =? id_ then g o else o) <$> orders db) (next_order db)).
Proof.
  intros [Hc Hk] Hid Ht Hs. split; cbn [orders fills with_orders].
  - apply Forall_fmap. eapply Forall_impl; [exact Hc|]. intros o [H1 H2]. cbn.
    destruct (Z.eqb_spec (O_ID o) id_) as [E|]; [|done]. split; rewrite ?Ht, Hid, E in *; [done|].
    intros Hn Hf. by apply (Hs o).
  - eapply Forall_impl; [exact Hk|]. intros f (o & Ho & E). eexists.
    split; [apply list_elem_of_fmap; by exists o|]. cbn. destruct (O_ID o =? id_); by rewrite ?Hid.
Qed.

Section Outcomes.
Context (guards : DB -> DB -> res unit) (SetRole : res unit) (AfterWrite : string -> res unit)
  (now : nat -> nat -> Time) (sha256hex : string -> string)
  (MarshalFill : FillCommand -> res string) (MarshalMetadata : Metadata -> res string)
  (Stage08 : FillCommand -> string) (MarshalStrings : list string -> string)
  (MarshalOutcome : list OutcomeItem -> string) (MarshalObservation : Contracts.OrderIntent -> string).

Definition item_keys (item : outcomePlan) : list string := C_IdempotencyKey <$> op_commands item.
(** A filled order has a fill. *)
Definition item_filled (item : outcomePlan) : Prop :=
  Contracts.AO_Status (op_accepted item) = "filled" -> op_commands item <> [].

Lemma recordPlan_audited i item db j db' : ledger_ok db -> audited db -> item_filled item ->
  NoDup (item_keys item) -> Forall (fun k => batches db !! k = None) (item_keys item) ->
  recordPlan SetRole AfterWrite now sha256hex MarshalFill MarshalMetadata Stage08 MarshalObservation i item db
    = (Ok j, db') ->
  ledger_ok db' /\ audited db' /\ (forall k, k ∉ item_keys item -> batches db' !! k = batches db !! k).
Proof.
  intros Hok Ha Hfilled Hnd Hnone H. split; [by eapply recordPlan_ok|]. unfold recordPlan in H. tx_inv.
  match goal with H : CreateOrder _ _ = (Ok ?x, _) |- _ => rename H into Hcreate; rename x into o end.
  pose proof (CreateOrder_ok _ _ _ _ (lo_orders _ Hok) Hcreate) as (Ed & Ho & _).
  pose proof (orders_clean_new _ _ _ _ (lo_orders _ Hok) (au_orders _ Ha) Hcreate eq_refl eq_refl) as Hoc.
  pose proof (oo_next _ (lo_orders _ Hok)) as Hpos. apply CreateOrder_Ok in Hcreate as [Eo Edb].
  assert (Hid : 0 < O_ID o) by (by subst o).
  match goal with H : sfoldM _ _ _ ?d = _ |- _ => rename H into Hfills; assert (Hok1 : ledger_ok d) by (by eapply ledger_ok_orders);
    assert (Ha1 : audited d) by (rewrite Ed in Hoc |- *; by apply audited_orders) end.
  eapply recordFills_new in Hfills as (Hok2 & Ha2 & (k & _ & Hne) & Hb); [|done | done | done | done |].
  2: { rewrite Ed. apply Forall_fmap in Hnone. exact Hnone. }
  match goal with H : UpdateOrder _ _ _ = _ |- _ => apply UpdateOrder_Ok in H as -> end. split.
  - apply audited_orders; [done|]. apply orders_clean_update; [apply Ha2 | done | done |].
    intros o1 Hst. apply Hne, Hfilled. exact Hst.
  - intros x Hx. cbn. rewrite Hb by done. by rewrite Ed.
Qed.
Lemma recordPlans_audited l : forall i db j db', ledger_ok db -> audited db -> Forall item_filled l ->
  NoDup (mjoin (item_keys <$> l)) -> Forall (fun k => batches db !! k = None) (mjoin (item_keys <$> l)) ->
  sfoldM (recordPlan SetRole AfterWrite now sha256hex MarshalFill MarshalMetadata Stage08 MarshalObservation) i l db
    = (Ok j, db') -> audited db'.
Proof.
  induction l as [|item l IH]; intros i db j db' Hok Ha Hf Hnd Hnone H; cbn [sfoldM] in H; [by tx_inv|].
  apply sbind_Ok in H as (i' & d & E & H). cbn in Hnd, Hnone. apply NoDup_app in Hnd as (Hn1 & Hdis & Hn2).
  apply Forall_app in Hnone as [Hk1 Hk2]. apply Forall_cons in Hf as [Hf1 Hf2].
  apply recordPlan_audited in E as (Hok1 & Ha1 & Hb); [|done..].
  eapply IH; [exact Hok1 | done | done | exact Hn2 | | exact H].
  rewrite Forall_forall in *. intros x Hx. rewrite Hb; [by apply Hk2|]. intros Hin. by apply (Hdis x).
Qed.

(** An outcome of the constructors, none of whose fills was recorded before. *)
Record fresh_outcome (approved : Contracts.DecisionBatch) (outcome : Contracts.BrokerBatchOutcome) (db : DB) : Prop := {
  fo_built : exists c a r, Contracts.NewBrokerBatchOutcome c a r = Ok outcome;
  fo_keys : forall plan identity hash,
    validateBrokerOutcome sha256hex MarshalStrings MarshalOutcome approved outcome = Ok (plan, identity, hash) ->
    ingestions db !! identity = None ->
    NoDup (mjoin (item_keys <$> plan)) /\ Forall (fun k => batches db !! k = None) (mjoin (item_keys <$> plan)) }.

(** A validated filled order has fills. *)
Lemma validated_filled order : Contracts.AcceptedOrder_Validate order = Ok tt ->
  Contracts.AO_Status order = "filled" -> Contracts.Fills order <> [].
Proof.
  unfold Contracts.AcceptedOrder_Validate. intros H E. rewrite E in H. cbn in H. res_inv.
  unfold Contracts.Fills. by destruct (Contracts.AO_fills order).
Qed.
Lemma built_accepted c a r outcome : Contracts.NewBrokerBatchOutcome c a r = Ok outcome ->
  Forall (fun o => Contracts.AcceptedOrder_Validate o = Ok tt) (Contracts.bo_accepted outcome).
Proof.
  unfold Contracts.NewBrokerBatchOutcome. intros H. res_inv. cbn [Contracts.bo_accepted].
  rewrite <- SliceStable_Permutation. apply forM__Ok.
  match goal with H : forM_ Contracts.AcceptedOrder_Validate _ = Ok ?u |- _ => by destruct u end.
Qed.
Lemma checked_plans approved outcome plan identity hash :
  validateBrokerOutcome sha256hex MarshalStrings MarshalOutcome approved outcome = Ok (plan, identity, hash) ->
  op_accepted <$> plan = Contracts.bo_accepted outcome /\
  Forall (fun item => op_commands item =
    fill_command (op_intent item) (op_accepted item) <$> Contracts.Fills (op_accepted item)) plan.
Proof.
  intros (Hp & Hok)%checked_accepted. split; [done|]. eapply Forall_impl; [exact Hok|]. by intros item [].
Qed.
Lemma checked_filled approved outcome db plan identity hash : fresh_outcome approved outcome db ->
  validateBrokerOutcome sha256hex MarshalStrings MarshalOutcome approved outcome = Ok (plan, identity, hash) ->
  Forall item_filled plan.
Proof.
  intros [(c & a & r & Hb) _] H. apply checked_plans in H as (Hp & Hcmd). apply built_accepted in Hb.
  rewrite <- Hp in Hb. apply Forall_fmap in Hb.
  eapply Forall_impl; [apply Forall_and; split; [exact Hb | exact Hcmd]|].
  intros item [Hv Hc] Hst. rewrite Hc. intros E%fmap_nil_inv. by eapply validated_filled.
Qed.

Lemma outcomeBody_audited plan identity hash db u db' : ledger_ok db -> audited db -> Forall item_filled plan ->
  (ingestions db !! identity = None ->
     NoDup (mjoin (item_keys <$> plan)) /\ Forall (fun k => batches db !! k = None) (mjoin (item_keys <$> plan))) ->
  outcomeBody SetRole AfterWrite now sha256hex MarshalFill MarshalMetadata Stage08 MarshalObservation plan identity
    hash db = (Ok u, db') -> audited db'.
Proof.
  intros Hok Ha Hf Hk H. unfold outcomeBody in H. tx_inv.
  match goal with H : or_not_found _ _ = _ |- _ => rename H into Hor; apply or_not_found_Ok in Hor end.
  match goal with H : match ?o with Some _ => _ | None => _ end |- _ => destruct o as [row|] end.
  - unfold FirstIngestion in *. by tx_inv.
  - destruct Hor as (e & Hor & _). unfold FirstIngestion, sbind, get, found, slift in Hor. cbn in Hor.
    injection Hor as Hnone <-. tx_inv.
    match goal with H : CreateIngestion _ _ _ = _ |- _ => unfold CreateIngestion in H end. tx_inv.
    destruct Hk as [Hnd Hkeys]; [by match goal with |- ?o = None => destruct o end|].
    match goal with H : sfoldM _ _ _ ?d = _ |- _ => eapply (recordPlans_audited _ _ d); [| |exact Hf|exact Hnd|exact Hkeys|exact H] end.
    + destruct Hok as [Hr Ho Hop]. split; [|by destruct Ho|done].
      by eapply reconciled_proper; [symmetry; apply same_books_ingestions|].
    + eapply audited_same; [exact Ha | done..|]. destruct (au_positions _ Ha). by split.
Qed.
End Outcomes.

(** ** Every run of the service *)
Section Audit.
Context (guards : DB -> DB -> res unit) (SetRole : res unit) (AfterWrite : string -> res unit)
  (sha256hex : string -> string) (MarshalFill : FillCommand -> res string)
  (MarshalMetadata : Metadata -> res string) (Stage08 : FillCommand -> string)
  (MarshalAdjustment : AdjustmentCommand -> res string) (MarshalReversal : ReversalCommand -> res string)
  (MarshalCorrection : AssetCorrectionCommand -> res string)
  (MarshalEvidence : option Metadata -> res string)
  (MarshalBackfill : BackfillOptions -> list string -> string) (MarshalStrings : list string -> string)
  (ObservationContext : string) (MarshalOutcome : list OutcomeItem -> string)
  (MarshalObservation : Contracts.OrderIntent -> string).

Definition service_step : DB -> DB -> Prop :=
  ledger_step guards SetRole AfterWrite sha256hex MarshalFill MarshalMetadata Stage08 MarshalAdjustment MarshalReversal
    MarshalCorrection MarshalEvidence MarshalBackfill MarshalStrings ObservationContext MarshalOutcome MarshalObservation.
Definition service_command : DB -> DB -> Prop :=
  command_step guards SetRole AfterWrite sha256hex MarshalFill MarshalMetadata Stage08 MarshalAdjustment MarshalReversal
    MarshalCorrection MarshalEvidence MarshalBackfill MarshalStrings ObservationContext.
(** A command, or the recording of a validated broker outcome whose fills were
    not applied before under other keys. *)
Inductive audited_step (db : DB) : DB -> Prop :=
| audited_command db' : service_command db db' -> audited_step db db'
| audited_outcome now approved outcome :
    fresh_outcome sha256hex MarshalStrings MarshalOutcome approved outcome db ->
    audited_step db (snd (recordOutcome guards SetRole AfterWrite sha256hex MarshalFill MarshalMetadata Stage08
      MarshalStrings MarshalOutcome MarshalObservation now approved outcome db)).

Lemma audited_step_service db db' : audited_step db db' -> service_step db db'.
Proof. intros [d H|]; [by apply step_command | apply step_outcome]. Qed.

Lemma requirePrimary_default account u : requirePrimaryAccount account = Ok u ->
  orDefault account DefaultAccountID = DefaultAccountID.
Proof. intros [-> | ->]%requirePrimary_Ok; done. Qed.
Lemma Backfill_audited now o db : ledger_ok db -> audited db ->
  audited (snd (Backfill guards SetRole now sha256hex MarshalBackfill MarshalStrings ObservationContext o db)).
Proof.
  intros Hok Ha. apply guard_ok; [|done]. intros u Hacc%requirePrimary_default. cbn [B_AccountID].
  unfold FirstWalletOf, found, sbind, get. cbn [fst snd id].
  destruct (where_ _ (wallets db)) as [w|]; [|done]. cbn [slift].
  unfold slift at 1. destruct (FromFloat (W_Balance w)); [|done..].
  destruct (negb _); [done|]. destruct ((_ <>s BackfillApproval) || _)%bool; [done|].
  apply txn_ok; [|done]. intros r d. apply backfillBody_audited; [done..|].
  cbn [B_AccountID LegacyPositionCount backfillReport]. rewrite Hacc. intros Hle.
  assert (Hnil : forall l : list Position, Z.of_nat (length l) <= 0 -> l = []) by (intros []; cbn; [done | lia]).
  apply Hnil in Hle. apply Forall_forall. intros p Hp Ho.
  pose proof (po_good _ _ (rc_positions _ (lo_reconciled _ Hok))) as Hg. rewrite Forall_forall in Hg.
  assert (Hin : p ∈ (List.filter (fun p => (Ps_AccountID p =s DefaultAccountID) && (Status (Ps_cycle p) =s "open"))%bool
    (positions db))).
  { apply list_elem_of_In, List.filter_In. split; [by apply list_elem_of_In|].
    by rewrite (gp_account _ (Hg p Hp)), Ho. }
  rewrite Hle in Hin. by apply elem_of_nil in Hin.
Qed.
Lemma command_audited db db' : ledger_ok db -> audited db -> service_command db db' -> audited db'.
Proof.
  intros Hok Ha Hs. destruct Hs as [now c|now c|now c Hclean|now c|now o].
  - apply guard_ok; [|done]. intros [c' t] Hp. apply guard_ok; [|done]. intros [h m] _.
    apply txn_ok; [|done]. intros a d.
    apply fillBody_audited; [by eapply prepareFill_valid | by eapply prepareFill_symbol | done..].
  - apply guard_ok; [|done]. intros [c' t] Hp. apply guard_ok; [|done]. intros h _.
    apply txn_ok; [|done]. intros a d. apply adjustmentBody_audited; [by eapply prepareAdjustment_account | done..].
  - apply guard_ok; [|done]. intros [c' t] Hp. apply txn_ok; [|done]. intros a d. by apply reversalBody_audited.
  - apply guard_ok; [|done]. intros [c' t] Hp. apply guard_ok; [|done]. intros h _.
    apply prepareCorrection_valid in Hp as (H1 & H2 & H3).
    apply txn_ok; [|done]. intros a d Hb. apply correctionBody_ok in Hb as Hok'; [|done..].
    eapply correctionBody_audited; [exact H1 | exact Hok | exact Ha | exact Hb|].
    apply (po_good _ _ (rc_positions _ (lo_reconciled _ Hok'))).
  - by apply Backfill_audited.
Qed.
Lemma step_audited db db' : ledger_ok db /\ audited db -> audited_step db db' -> ledger_ok db' /\ audited db'.
Proof.
  intros [Hok Ha] Hs. split; [eapply step_ledger_ok; [exact Hok | by apply audited_step_service]|].
  destruct Hs as [d Hs|now approved outcome Hf]; [by eapply command_audited|].
  apply guard_ok; [|done]. intros [[plan identity] hash] Hc. apply recorded_ok; [|done]. intros u d Hb.
  eapply outcomeBody_audited; [exact Hok | exact Ha | by eapply checked_filled | | exact Hb].
  intros Hnone. by eapply (fo_keys _ _ _ _ _ _ Hf).
Qed.

(** The state the migration starts from, before the first fill. *)
Record fresh (db : DB) : Prop := {
  fr_legacy : legacy db;
  fr_fills : fills db = [];
  fr_orders : Forall (fun o => order_totals o = None /\ O_Status o <> "filled") (orders db);
  fr_symbols : Forall (fun p => Ps_Symbol p <> "") (positions db) }.
Lemma fresh_audited db : fresh db -> audited db.
Proof.
  intros [[_ (_ & _ & Hp & _) _ [He Hst]] Hf Ho Hs]. split.
  - rewrite Hf. constructor.
  - rewrite He. constructor.
  - split; rewrite Hf; [|constructor]. eapply Forall_impl; [exact Ho|]. intros o [H1 H2]. split; [by rewrite H1|done].
  - split; [done | | rewrite Hst; by intros [] | rewrite Hst; done].
    eapply Forall_impl; [exact Hp|]. intros p (_ & _ & Ex). right. left. by rewrite Ex.
Qed.

End Audit.

Module AuditSample.
Definition step := audited_step Sample.guards (Ok tt) Sample.hook Sample.digest Sample.fillText Sample.metaText Sample.stage08
  Sample.adjText Sample.revText Sample.corText Sample.evidenceText Sample.backText Sample.listText "{}"
  Sample.outcomeText Sample.intentText.
Lemma audit_fill_step c db : step db (Sample.fill c db).
Proof. apply audited_command. exact (step_fill _ _ _ _ _ _ _ _ _ _ _ _ _ _ db Sample.clock c). Qed.
Lemma audit_backfill_step db : step db (Sample.backfill db).
Proof. apply audited_command. exact (step_backfill _ _ _ _ _ _ _ _ _ _ _ _ _ _ db Sample.clock Sample.options). Qed.
Lemma audit_run_history : rtc step (Sample.db0 []) Sample.sold_db.
Proof.
  apply (rtc_l step _ Sample.ready); [exact (audit_backfill_step (Sample.db0 []))|].
  apply (rtc_l step _ Sample.bought_db); [exact (audit_fill_step _ Sample.ready)|].
  apply rtc_once. exact (audit_fill_step _ Sample.bought_db).
Qed.
Definition state : LedgerMigrationState := default (mkState "" None "" None None) (states Sample.sold_db !! DefaultAccountID).
End AuditSample.

