(* ===== verification/ValidationTypes.v ===== *)
(** * ValidationTypes: the records of [internal/validation]

    The experiment manifest, the folds, the samples, the fold evidence and the
    diagnostics ([types.go] and the records of [walkforward.go],
    [evaluation.go] and [ml.go]). A digest type is its text, a [time.Duration]
    its nanoseconds, an optional pointer an [option], a map a [gmap]; a nil
    slice and an empty one are not told apart. *)
From stdpp Require Import base numbers strings gmap list.
From S2P Require Import Prelude GoStrings GoFloat Snapshots.
Local Open Scope Z_scope.

Definition ManifestSchemaVersion : string := "validation-experiment-manifest-v2".
Definition EvidenceSchemaVersion : string := "validation-evidence-v2".
Definition MLSchemaVersion : string := "ml-evaluation-v2".
Definition GovernancePolicyVersion : string := "stage07-governance-policy-v1".
Definition MaxFolds : Z := 64.
Definition MaxBootstrapIterations : Z := 10000.
Definition MaxManifestBytes : Z := 1048576.
Definition MaxFoldArtifactBytes : Z := 4194304.

(** ** Diagnostics *)
Definition DiagnosticInvalidManifest : string := "invalid_manifest".
Definition DiagnosticManifestIntegrity : string := "manifest_integrity_failure".
Definition DiagnosticInsufficientWindows : string := "insufficient_independent_windows".
Definition DiagnosticInvalidWindowOrder : string := "invalid_window_order".
Definition DiagnosticInsufficientObservations : string := "insufficient_observations".
Definition DiagnosticInsufficientTrades : string := "insufficient_trades".
Definition DiagnosticInsufficientRegimes : string := "insufficient_regimes".
Definition DiagnosticMissingBenchmark : string := "missing_benchmark".
Definition DiagnosticIncompleteCoverage : string := "incomplete_coverage".
Definition DiagnosticZeroTrades : string := "zero_trades".
Definition DiagnosticNonFinite : string := "non_finite_metric".
Definition DiagnosticUnsupportedUnit : string := "unsupported_statistical_unit".
Definition DiagnosticOneClass : string := "one_class_labels".
Definition DiagnosticTestLeakage : string := "test_data_leakage".
Definition DiagnosticDominated : string := "performance_dominated".
Definition DiagnosticBaselineMismatch : string := "baseline_candidate_or_exposure_mismatch".
Definition DiagnosticInvalidProbability : string := "invalid_probability".
Definition DiagnosticHoldoutReuse : string := "confirmatory_holdout_reused".
Definition DiagnosticCapacity : string := "capacity_or_liquidity_failure".

(** ** Windows *)
Record Interval : Type := mkInterval { Iv_Start : Time; Iv_End : Time }.
#[export] Instance Interval_eq_dec : EqDecision Interval. Proof. solve_decision. Defined.
Definition Interval_Valid (v : Interval) : bool := negb (IsZero (Iv_Start v)) && After (Iv_End v) (Iv_Start v).
Record Fold : Type := mkFold { Fo_Index : Z; Fo_Train : Interval; Fo_Validation : Interval; Fo_Test : Interval }.
#[export] Instance Fold_eq_dec : EqDecision Fold. Proof. solve_decision. Defined.

(** ** The manifest *)
Record VersionRef : Type := mkVersionRef { VR_ID : string; VR_Version : string; VR_ImplementationDigest : string; VR_ConfigDigest : string }.
#[export] Instance VersionRef_eq_dec : EqDecision VersionRef. Proof. solve_decision. Defined.
Record PolicyBundle : Type := mkPolicies {
  PB_Composite : string; PB_Execution : string; PB_Universe : string; PB_ModelSelection : string;
  PB_EntrySelection : string; PB_PortfolioRisk : string; PB_Rollout : string; PB_Cost : string }.
Record SampleRequirements : Type := mkRequirements {
  SR_MinFolds : Z; SR_MinIndependentUnits : Z; SR_MinObservationsPerFold : Z; SR_MinTradesPerFold : Z; SR_MinRegimes : Z }.
Record Threshold : Type := mkThreshold { Th_Metric : string; Th_Op : string; Th_Value : float64 }.
Record ArtifactLinks : Type := mkArtifacts {
  AL_Metrics : string; AL_Trades : string; AL_Curves : string; AL_Cohorts : string; AL_Factors : string;
  AL_Coverage : string; AL_Comparison : string }.
Record ReproductionInvocation : Type := mkReproduce { RP_Command : string; RP_Args : list string; RP_Env : gmap string string }.
Record ConfirmatoryHoldoutContract : Type := mkHoldout { CH_ID : string; CH_DatasetDigest : string; CH_Interval : Interval }.
Record CapacityStressPolicy : Type := mkStress { CS_MaxParticipation : float64; CS_ImpactBpsAtMax : float64; CS_StressMultiplier : float64 }.
Record BaselineComparabilityPolicy : Type := mkComparability { BC_MaxGrossExposureDifference : float64; BC_MaxTurnoverRelativeDiff : float64 }.
Record AuthorityPolicyEnvelope : Type := mkAuthority { AP_SchemaVersion : string; AP_Payload : gmap string string; AP_Digest : string }.
Record ResearchOverride : Type := mkOverride { RO_Mode : string; RO_BoundedTo : Interval; RO_Reason : string }.

Definition ArtifactBootstrap : string := "bootstrap".
Definition ArtifactContractFixture : string := "contract_fixture".
Definition ArtifactResearch : string := "research".
Definition ArtifactShadowCandidate : string := "shadow_candidate".
Definition ArtifactPromotableCandidate : string := "promotable_candidate".
Record FeatureField : Type := mkFeature { FF_Name : string; FF_Type : string }.
Record ModelAuthority : Type := mkModel {
  MA_Version : string; MA_Class : string; MA_ModelDigest : string; MA_FeatureSpec : string; MA_Features : list FeatureField;
  MA_LabelSpec : string; MA_LabelHorizon : Duration; MA_CodeRevision : string; MA_DatasetManifest : string;
  MA_TrainingManifest : string; MA_PolicyVersion : string; MA_Seed : Z }.
Definition CanHoldAuthority (m : ModelAuthority) : bool := MA_Class m =s ArtifactPromotableCandidate.
Record MLRequirements : Type := mkMLRequirements {
  ML_MinLabels : Z; ML_MinIndependentWindows : Z; ML_Buckets : Z; ML_MinBucketSupport : Z; ML_ClipEpsilon : float64;
  ML_MinAUC : float64; ML_MaxLogLoss : float64; ML_MaxBrier : float64; ML_MaxCalibrationError : float64 }.

Record ManifestSpec : Type := mkSpec {
  MS_SchemaVersion : string; MS_StudyType : string; MS_Exploratory : bool; MS_FamilyID : string;
  MS_ConfirmatoryHoldout : option ConfirmatoryHoldoutContract; MS_CodeRevision : string;
  MS_Candidate : VersionRef; MS_Baseline : VersionRef; MS_Model : option ModelAuthority; MS_MLRequirements : option MLRequirements;
  MS_Policies : PolicyBundle; MS_GovernancePolicy : string; MS_AuthorityPolicy : AuthorityPolicyEnvelope;
  MS_DatasetManifestID : string; MS_DatasetManifestHash : string; MS_DatasetDigest : string; MS_UniversePolicy : string;
  MS_Interval : Interval; MS_DecisionClock : string; MS_ExecutionClock : string; MS_Seed : Z;
  MS_ExecutionSemantics : gmap string string; MS_CapacityStress : CapacityStressPolicy;
  MS_BaselineComparability : option BaselineComparabilityPolicy; MS_Folds : list Fold; MS_FoldSourceJobIDs : list Z;
  MS_FeatureHorizon : Duration; MS_LabelHorizon : Duration; MS_Purge : Duration; MS_Embargo : Duration;
  MS_AllowedTuning : gmap string (list string); MS_Metrics : list string; MS_StatisticalUnit : string;
  MS_BootstrapIterations : Z; MS_Samples : SampleRequirements; MS_PromotionThresholds : list Threshold;
  MS_RollbackThresholds : list Threshold; MS_RequiredElapsed : gmap string Duration; MS_Artifacts : ArtifactLinks;
  MS_Reproduce : ReproductionInvocation; MS_ResearchOverride : option ResearchOverride }.
Record ExperimentManifest : Type := mkManifest {
  EM_ID : string; EM_ContentID : string; EM_ContentDigest : string; EM_CreatedAt : Time; EM_Spec : ManifestSpec }.

(** ** Samples and fold evidence *)
Record Sample : Type := mkSample {
  Sa_ID : string; Sa_ObservedAt : Time; Sa_FeatureStart : Time; Sa_FeatureEnd : Time; Sa_LabelEnd : Time;
  Sa_Symbol : string; Sa_Regime : string; Sa_BenchmarkSeen : bool; Sa_CoverageOK : bool; Sa_Values : gmap string float64 }.
Record Split : Type := mkSplit {
  Sp_Train : list Sample; Sp_Validation : list Sample; Sp_Test : list Sample; Sp_Purged : list string; Sp_Embargoed : list string }.
Record FrozenDecision : Type := mkFrozen {
  FD_FoldIndex : Z; FD_Choice : string; FD_Parameters : gmap string string; FD_FitDigest : string; FD_SelectionDigest : string;
  FD_ArtifactDigest : string; FD_TrainDigest : string; FD_ValidationDigest : string; FD_TestDigest : string; FD_DataDigest : string;
  FD_SelectionRationale : string }.
Record FoldMetrics : Type := mkMetrics {
  FM_Observations : Z; FM_Trades : Z; FM_NoFillCount : Z; FM_BaselineNoFillCount : Z; FM_BenchmarkPresent : bool;
  FM_CoverageComplete : bool; FM_Regimes : gmap string Z; FM_RegimeContributions : gmap string float64;
  FM_AfterCostExpectancy : float64; FM_AfterCostReturn : float64; FM_BenchmarkRelativeReturn : float64; FM_MaxDrawdown : float64;
  FM_Turnover : float64; FM_GrossExposure : float64; FM_NetExposure : float64; FM_Coverage : float64; FM_DownsideDeviation : float64;
  FM_ExpectedShortfall95 : float64; FM_MaxLiquidityParticipation : float64; FM_Sharpe : float64;
  FM_TradeContributions : gmap string float64; FM_OpenPositionContributions : gmap string float64;
  FM_SymbolContributions : gmap string float64 }.
Record FoldFit : Type := mkFit {
  FF_Choice : string; FF_Parameters : gmap string string; FF_Artifact : string; FF_TrainDigest : string; FF_ValidationDigest : string;
  FF_DataDigest : string; FF_SelectionRationale : string }.
Record TradePrimitive : Type := mkTrade {
  TP_ID : string; TP_EntryFillIDs : list string; TP_ExitFillID : string; TP_Symbol : string; TP_Regime : string; TP_OpenedAt : Time;
  TP_ClosedAt : Time; TP_Notional : float64; TP_GrossPnL : float64; TP_Cost : float64; TP_NetPnL : float64; TP_AvailableLiquidity : float64 }.
Record FillPrimitive : Type := mkFillP {
  FP_ID : string; FP_OrderID : string; FP_Symbol : string; FP_Side : string; FP_At : Time; FP_Notional : float64; FP_AvailableLiquidity : float64 }.
Record NoFillPrimitive : Type := mkNoFill {
  NF_SchemaVersion : string; NF_OrderID : string; NF_Symbol : string; NF_Side : string; NF_SignalAt : Time; NF_SelectedOpenAt : Time;
  NF_EvaluatedAt : Time; NF_RequestedQuantity : string; NF_ApprovedQuantity : string; NF_FilledQuantity : string; NF_ReferencePrice : string;
  NF_SelectedOpenPrice : string; NF_SelectedClosePrice : string; NF_ExecutionPolicyVersion : string; NF_DatasetManifestID : string;
  NF_Reason : string; NF_LiquidityEvidence : string; NF_BarVolume : string; NF_CapacityQuantity : string }.
Record CurvePrimitive : Type := mkCurve { CP_At : Time; CP_Equity : float64; CP_Benchmark : float64; CP_GrossExposure : float64; CP_NetExposure : float64 }.
Record ResidualPositionPrimitive : Type := mkResidual {
  RS_Symbol : string; RS_MarkedAt : Time; RS_Quantity : float64; RS_CostBasis : float64; RS_EntryFee : float64; RS_MarkPrice : float64;
  RS_MarkValue : float64; RS_UnrealizedPnL : float64 }.
Record FoldPrimitives : Type := mkPrimitives {
  FPr_StartingCapital : float64; FPr_ExpectedObservations : Z; FPr_ObservedObservations : Z; FPr_Trades : list TradePrimitive;
  FPr_Fills : list FillPrimitive; FPr_NoFills : list NoFillPrimitive; FPr_BaselineNoFills : list NoFillPrimitive;
  FPr_ResidualPositions : list ResidualPositionPrimitive; FPr_Curve : list CurvePrimitive; FPr_BaselineGrossExposure : float64;
  FPr_BaselineTurnover : float64 }.
Record FoldResult : Type := mkFoldResult {
  FR_Fold : Fold; FR_Frozen : FrozenDecision; FR_Primitives : FoldPrimitives; FR_Metrics : FoldMetrics; FR_WorstRegime : string; FR_WorstSymbol : string }.

(** ** The aggregate *)
Record ConfidenceInterval : Type := mkCI { CI_Available : bool; CI_Reason : string; CI_Mean : float64; CI_Lower : float64; CI_Upper : float64 }.
Record MetricSummary : Type := mkSummary {
  Su_AfterCostExpectancy : ConfidenceInterval; Su_AfterCostReturn : ConfidenceInterval; Su_BenchmarkRelativeReturn : ConfidenceInterval;
  Su_MaxDrawdown : ConfidenceInterval; Su_Turnover : ConfidenceInterval; Su_GrossExposure : ConfidenceInterval; Su_NetExposure : ConfidenceInterval;
  Su_Coverage : ConfidenceInterval; Su_DownsideDeviation : ConfidenceInterval; Su_ExpectedShortfall95 : ConfidenceInterval;
  Su_MaxLiquidityParticipation : ConfidenceInterval; Su_StressedAfterCostReturn : ConfidenceInterval; Su_DeflatedSharpe : ConfidenceInterval }.
Record Domination : Type := mkDomination { Do_TradeFraction : float64; Do_SymbolFraction : float64; Do_WindowFraction : float64; Do_Dominated : bool }.
Record GateResult : Type := mkGate { Ga_Metric : string; Ga_Op : string; Ga_Threshold : float64; Ga_Observed : float64; Ga_Passed : bool }.
Record Evaluation : Type := mkEvaluation {
  Ev_SchemaVersion : string; Ev_StudyType : string; Ev_IndependentUnits : Z; Ev_Metrics : MetricSummary; Ev_WorstWindow : Z;
  Ev_WorstRegime : string; Ev_WorstSymbol : string; Ev_Domination : Domination; Ev_Gates : list GateResult; Ev_Passed : bool }.
Record WalkForwardResult : Type := mkWalkForward {
  WF_SchemaVersion : string; WF_ExperimentID : string; WF_Folds : list FoldResult; WF_Aggregate : Evaluation }.

(** ** Copies: values are immutable here, a clone only puts its times in UTC and
    turns a negative zero into zero *)
Definition zero_value (v : float64) : float64 := if feq v fzero then fzero else v.
Definition cloneSample (s : Sample) : Sample :=
  mkSample (Sa_ID s) (Sa_ObservedAt s) (Sa_FeatureStart s) (Sa_FeatureEnd s) (Sa_LabelEnd s) (Sa_Symbol s) (Sa_Regime s)
    (Sa_BenchmarkSeen s) (Sa_CoverageOK s) (zero_value <$> Sa_Values s).
Definition cloneSamples (values : list Sample) : list Sample := cloneSample <$> values.
