(* ===== verification/Splits.v ===== *)
(** * Splits: the folds of a walk-forward experiment

    [internal/validation/walkforward.go] and [manifest.go]: the checks of the
    folds, of the samples, of a split and of a fit, and [SplitFold], which
    purges and embargoes what would leak between the windows of a fold.
    [sort.Slice] is a stable sort: samples that tie have the same identity,
    which the checks of [validateSamples] exclude. *)
From stdpp Require Import base numbers strings gmap list.
From S2P Require Import Prelude GoStrings GoFloat Snapshots ValidationTypes.
Local Open Scope Z_scope.

Definition contains (interval : Interval) (at_ : Time) : bool :=
  negb (Before at_ (Iv_Start interval)) && Before at_ (Iv_End interval).

(** ** [SplitFold] *)
Definition sample_less (a b : Sample) : bool :=
  if Sa_ObservedAt a =? Sa_ObservedAt b then String.ltb (Sa_ID a) (Sa_ID b) else Before (Sa_ObservedAt a) (Sa_ObservedAt b).
Definition add_train (r : Split) s := mkSplit (Sp_Train r ++ [s]) (Sp_Validation r) (Sp_Test r) (Sp_Purged r) (Sp_Embargoed r).
Definition add_validation (r : Split) s := mkSplit (Sp_Train r) (Sp_Validation r ++ [s]) (Sp_Test r) (Sp_Purged r) (Sp_Embargoed r).
Definition add_test (r : Split) s := mkSplit (Sp_Train r) (Sp_Validation r) (Sp_Test r ++ [s]) (Sp_Purged r) (Sp_Embargoed r).
Definition add_purged (r : Split) s := mkSplit (Sp_Train r) (Sp_Validation r) (Sp_Test r) (Sp_Purged r ++ [Sa_ID s]) (Sp_Embargoed r).
Definition add_embargoed (r : Split) s := mkSplit (Sp_Train r) (Sp_Validation r) (Sp_Test r) (Sp_Purged r) (Sp_Embargoed r ++ [Sa_ID s]).

Definition bad_sample (s : Sample) : bool :=
  (Sa_ID s =s "") || IsZero (Sa_ObservedAt s) || IsZero (Sa_FeatureStart s) ||
  Before (Sa_FeatureEnd s) (Sa_FeatureStart s) || Before (Sa_LabelEnd s) (Sa_ObservedAt s).
Definition split_sample (fold : Fold) (purge embargo : Duration) (result : Split) (sample : Sample) : res Split :=
  if bad_sample sample
  then Err (DiagnosticError DiagnosticInvalidManifest "sample" "sample identity and causal feature/label horizon are invalid") else
  if contains (Fo_Train fold) (Sa_ObservedAt sample) then
    let boundary := Iv_Start (Fo_Validation fold) + int64 (- purge) in
    if After (Sa_FeatureEnd sample) boundary || After (Sa_LabelEnd sample) boundary
    then Ok (add_purged result sample) else Ok (add_train result sample)
  else if contains (Fo_Validation fold) (Sa_ObservedAt sample) then
    if Before (Sa_ObservedAt sample) (Iv_End (Fo_Train fold) + embargo) then Ok (add_embargoed result sample)
    else if After (Sa_FeatureEnd sample) (Iv_Start (Fo_Test fold) + int64 (- purge)) ||
            After (Sa_LabelEnd sample) (Iv_Start (Fo_Test fold) + int64 (- purge))
    then Ok (add_purged result sample) else Ok (add_validation result sample)
  else if contains (Fo_Test fold) (Sa_ObservedAt sample) then
    if Before (Sa_ObservedAt sample) (Iv_End (Fo_Validation fold) + embargo) then Ok (add_embargoed result sample)
    else Ok (add_test result sample)
  else Ok result.
Definition SplitFold (samples : list Sample) (fold : Fold) (purge embargo : Duration) : res Split :=
  foldM (split_sample fold purge embargo) (mkSplit [] [] [] [] []) (SliceStable sample_less samples).

(** ** Checks *)
Definition check_fold (interval : Interval) (st : Z * Time) (fold : Fold) : res (Z * Time) :=
  let '(i, priorTestEnd) := st in
  if negb (Fo_Index fold =? i) || negb (Interval_Valid (Fo_Train fold)) || negb (Interval_Valid (Fo_Validation fold)) ||
     negb (Interval_Valid (Fo_Test fold)) || Before (Iv_Start (Fo_Train fold)) (Iv_Start interval) ||
     After (Iv_End (Fo_Test fold)) (Iv_End interval) || After (Iv_End (Fo_Train fold)) (Iv_Start (Fo_Validation fold)) ||
     After (Iv_End (Fo_Validation fold)) (Iv_Start (Fo_Test fold))
  then Err (DiagnosticError DiagnosticInvalidWindowOrder ("folds[" +:+ Itoa i +:+ "]")
    "folds must be indexed, half-open, chronological train/validation/test intervals inside the manifest interval") else
  if negb (IsZero priorTestEnd) && Before (Iv_Start (Fo_Test fold)) priorTestEnd
  then Err (DiagnosticError DiagnosticInvalidWindowOrder ("folds[" +:+ Itoa i +:+ "].test")
    "untouched test windows overlap or are out of order") else
  Ok (i + 1, Iv_End (Fo_Test fold)).
Definition ValidateFolds (folds : list Fold) (interval : Interval) (minimum0 : Z) : res unit :=
  let minimum := if minimum0 <? 2 then 2 else minimum0 in
  let n := Z.of_nat (length folds) in
  if (n <? minimum) || (MaxFolds <? n)
  then Err (DiagnosticError DiagnosticInsufficientWindows ""
    ("need " +:+ Itoa minimum +:+ ".." +:+ Itoa MaxFolds +:+ " folds, got " +:+ Itoa n)) else
  let* _ := foldM (check_fold interval) (0, 0) folds in Ok tt.

Definition bad_value (kv : string * float64) : bool := (kv.1 =s "") || negb (finite_f kv.2).
Definition validate_sample (featureHorizon labelHorizon : Duration) (seen : gset string) (sample : Sample) : res (gset string) :=
  if bool_decide (Sa_ID sample ∈ seen)
  then Err (DiagnosticError DiagnosticInvalidManifest "sample.id" ("duplicate sample: " +:+ Sa_ID sample)) else
  if (Sa_ID sample =s "") || IsZero (Sa_ObservedAt sample) || IsZero (Sa_FeatureStart sample) ||
     IsZero (Sa_FeatureEnd sample) || IsZero (Sa_LabelEnd sample)
  then Err (DiagnosticError DiagnosticInvalidManifest "sample" "complete sample timestamps are required") else
  if After (Sa_FeatureEnd sample) (Sa_ObservedAt sample)
  then Err (DiagnosticError DiagnosticTestLeakage "sample.feature_end" (Sa_ID sample +:+ " contains future features")) else
  if negb (Sa_FeatureEnd sample =? Sa_ObservedAt sample) ||
     negb (Sa_FeatureStart sample =? Sa_ObservedAt sample + int64 (- featureHorizon))
  then Err (DiagnosticError DiagnosticInvalidManifest "sample.feature_horizon" (Sa_ID sample)) else
  if negb (Sa_LabelEnd sample =? Sa_ObservedAt sample + labelHorizon)
  then Err (DiagnosticError DiagnosticInvalidManifest "sample.label_horizon" (Sa_ID sample)) else
  if existsb bad_value (map_to_list (Sa_Values sample))
  then Err (DiagnosticError DiagnosticNonFinite "sample.values" (Sa_ID sample)) else
  Ok ({[Sa_ID sample]} ∪ seen).
Definition validateSamples (samples : list Sample) (featureHorizon labelHorizon : Duration) : res unit :=
  let* _ := foldM (validate_sample featureHorizon labelHorizon) ∅ samples in Ok tt.

Definition check_seen (sample : Sample) : res unit :=
  if negb (Sa_BenchmarkSeen sample) then Err (DiagnosticError DiagnosticMissingBenchmark "" (Sa_ID sample)) else
  if negb (Sa_CoverageOK sample) then Err (DiagnosticError DiagnosticIncompleteCoverage "" (Sa_ID sample)) else Ok tt.
Definition validateSplit (split : Split) (requirements : SampleRequirements) : res unit :=
  let len (l : list Sample) := Z.of_nat (length l) in
  let min := SR_MinObservationsPerFold requirements in
  if (len (Sp_Train split) <? min) || (len (Sp_Validation split) <? min) || (len (Sp_Test split) <? min)
  then Err (DiagnosticError DiagnosticInsufficientObservations ""
    ("train=" +:+ Itoa (len (Sp_Train split)) +:+ " validation=" +:+ Itoa (len (Sp_Validation split)) +:+
     " test=" +:+ Itoa (len (Sp_Test split)) +:+ " minimum=" +:+ Itoa min)) else
  forM_ check_seen (Sp_Train split ++ Sp_Validation split ++ Sp_Test split).

(** [sort.Strings]. *)
Definition sort_strings (l : list string) : list string := SliceStable String.ltb l.
Definition map_keys {A} (m : gmap string A) : list string := (map_to_list m).*1.
Definition parameterChoiceKey (parameters : gmap string string) : string :=
  String.concat ";" ((fun key => key +:+ "=" +:+ default "" (parameters !! key)) <$> sort_strings (map_keys parameters)).

Definition check_parameter (allowed : gmap string (list string)) (kv : string * string) : res unit :=
  match allowed !! kv.1 with
  | None => Err (DiagnosticError DiagnosticInvalidManifest "fold_fit.parameters" ("undeclared parameter: " +:+ kv.1))
  | Some choices =>
      if existsb (fun candidate => kv.2 =s candidate) choices then Ok tt
      else Err (DiagnosticError DiagnosticInvalidManifest "fold_fit.parameters" ("out-of-list value: " +:+ kv.1 +:+ "=" +:+ kv.2))
  end.
Definition validateFit (fit : FoldFit) (allowed : gmap string (list string)) : res unit :=
  if (FF_Choice fit =s "") || (slen (FF_Artifact fit) =? 0) || (MaxFoldArtifactBytes <? slen (FF_Artifact fit)) ||
     (Nat.eqb (size (FF_Parameters fit)) 0)
  then Err (DiagnosticError DiagnosticInvalidManifest "fold_fit" "choice, bounded artifact, and parameters are required") else
  if negb (Nat.eqb (size (FF_Parameters fit)) (size allowed))
  then Err (DiagnosticError DiagnosticInvalidManifest "fold_fit.parameters" "complete predeclared parameter set is required") else
  let* _ := forM_ (check_parameter allowed) (map_to_list (FF_Parameters fit)) in
  if FF_Choice fit <>s parameterChoiceKey (FF_Parameters fit)
  then Err (DiagnosticError DiagnosticInvalidManifest "fold_fit.choice" "choice does not bind the complete predeclared parameter set") else
  Ok tt.
