(* ===== verification/SplitProofs.v ===== *)
(** * SplitProofs: a fold's samples do not leak between its windows *)
From stdpp Require Import base numbers strings gmap list.
From S2P Require Import Prelude GoStrings GoFloat Snapshots ValidationTypes Splits.
Local Open Scope Z_scope.

(** ** The order of the samples *)
Lemma sample_less_eq a b :
  sample_less a b = lex Z.eqb Z.ltb Sa_ObservedAt (fun a b => String.ltb (Sa_ID a) (Sa_ID b)) a b.
Proof. unfold sample_less, lex, Before. by destruct (_ =? _). Qed.
#[export] Instance sample_less_weak : StrictWeak sample_less.
Proof.
  pose proof (lex_weak Z.eqb Z.ltb Sa_ObservedAt (fun a b => String.ltb (Sa_ID a) (Sa_ID b)) Z.eqb_eq _) as W.
  constructor.
  - intros x y. rewrite !sample_less_eq. apply weak_asym.
  - intros x y z. rewrite !sample_less_eq. apply weak_trans.
Qed.
Lemma sample_less_tie x y : sample_less x y = false -> sample_less y x = false -> Sa_ID x = Sa_ID y.
Proof.
  rewrite !sample_less_eq. intros H1 H2. destruct (lex_tie _ _ _ _ Z.eqb_eq _ _ H1 H2) as (_ & H3 & H4).
  by apply str_ltb_total.
Qed.
Lemma sample_less_time x y : sample_less y x = false -> Sa_ObservedAt x <= Sa_ObservedAt y.
Proof. unfold sample_less, Before. destruct (Z.eqb_spec (Sa_ObservedAt y) (Sa_ObservedAt x)); [lia|]. intros H. lia. Qed.

(** ** What each window admits *)
Definition windows_ordered (fold : Fold) : Prop :=
  Iv_End (Fo_Train fold) <= Iv_Start (Fo_Validation fold) /\ Iv_Start (Fo_Validation fold) < Iv_End (Fo_Validation fold) /\
  Iv_End (Fo_Validation fold) <= Iv_Start (Fo_Test fold) /\ Iv_Start (Fo_Test fold) < Iv_End (Fo_Test fold).
Definition in_train (fold : Fold) (purge : Z) (s : Sample) : Prop :=
  contains (Fo_Train fold) (Sa_ObservedAt s) = true /\
  Sa_FeatureEnd s + purge <= Iv_Start (Fo_Validation fold) /\ Sa_LabelEnd s + purge <= Iv_Start (Fo_Validation fold).
Definition in_validation (fold : Fold) (purge embargo : Z) (s : Sample) : Prop :=
  contains (Fo_Validation fold) (Sa_ObservedAt s) = true /\ Iv_End (Fo_Train fold) + embargo <= Sa_ObservedAt s /\
  Sa_FeatureEnd s + purge <= Iv_Start (Fo_Test fold) /\ Sa_LabelEnd s + purge <= Iv_Start (Fo_Test fold).
Definition in_test (fold : Fold) (embargo : Z) (s : Sample) : Prop :=
  contains (Fo_Test fold) (Sa_ObservedAt s) = true /\ Iv_End (Fo_Validation fold) + embargo <= Sa_ObservedAt s.
Definition observed (fold : Fold) (s : Sample) : bool :=
  contains (Fo_Train fold) (Sa_ObservedAt s) || contains (Fo_Validation fold) (Sa_ObservedAt s) || contains (Fo_Test fold) (Sa_ObservedAt s).
Definition split_ids (r : Split) : list string :=
  (Sa_ID <$> Sp_Train r) ++ (Sa_ID <$> Sp_Validation r) ++ (Sa_ID <$> Sp_Test r) ++ Sp_Purged r ++ Sp_Embargoed r.

Section Steps.
Context (fold : Fold) (purge embargo : Z).
Hypothesis Hpurge : 0 <= purge < 2 ^ 63.

(** What one sample does to the split. *)
Inductive placed (r : Split) (s : Sample) : Split -> Prop :=
| PlacedTrain : in_train fold purge s -> placed r s (add_train r s)
| PlacedValidation : in_validation fold purge embargo s -> placed r s (add_validation r s)
| PlacedTest : in_test fold embargo s -> placed r s (add_test r s)
| PlacedPurged : observed fold s = true -> placed r s (add_purged r s)
| PlacedEmbargoed : observed fold s = true -> placed r s (add_embargoed r s)
| PlacedOutside : observed fold s = false -> placed r s r.
Lemma split_sample_placed r s r' : split_sample fold purge embargo r s = Ok r' -> placed r s r'.
Proof using Hpurge.
  unfold split_sample. rewrite int64_id by (unfold in_int64; lia). unfold After, Before. intros H.
  destruct (bad_sample s); [done|].
  assert (Ho : observed fold s = contains (Fo_Train fold) (Sa_ObservedAt s) || contains (Fo_Validation fold) (Sa_ObservedAt s)
    || contains (Fo_Test fold) (Sa_ObservedAt s)) by done.
  destruct (contains (Fo_Train fold) _) eqn:E1; [|destruct (contains (Fo_Validation fold) _) eqn:E2; [|destruct (contains (Fo_Test fold) _) eqn:E3]];
    cbn in Ho; repeat match type of H with context [if ?c then _ else _] => destruct c eqn:? end; injection H as <-; bool_prop;
    try (by constructor); constructor; unfold in_train, in_validation, in_test; split_and?; done || lia.
Qed.

Definition split_inv (done : list Sample) (r : Split) : Prop :=
  Forall (in_train fold purge) (Sp_Train r) /\ Forall (in_validation fold purge embargo) (Sp_Validation r) /\
  Forall (in_test fold embargo) (Sp_Test r) /\ split_ids r ≡ₚ Sa_ID <$> filter (fun s => observed fold s = true) done /\
  sublist (Sp_Train r) done /\ sublist (Sp_Validation r) done /\ sublist (Sp_Test r) done.
Lemma placed_inv done r s r' : split_inv done r -> placed r s r' -> split_inv (done ++ [s]) r'.
Proof using Hpurge.
  intros (H1 & H2 & H3 & H4 & H5 & H6 & H7) Hp. unfold split_inv. rewrite filter_app.
  assert (Hs : forall l, sublist l done -> sublist l (done ++ [s])) by (intros; by apply sublist_inserts_r).
  assert (Hs1 : forall l, sublist l done -> sublist (l ++ [s]) (done ++ [s])) by (intros; by apply sublist_app).
  assert (Ho : forall r', split_ids r' ≡ₚ Sa_ID s :: split_ids r -> observed fold s = true ->
    split_ids r' ≡ₚ Sa_ID <$> filter (fun s => observed fold s = true) done ++ filter (fun s => observed fold s = true) [s]).
  { intros r'' -> E. rewrite filter_cons, decide_True by done. rewrite filter_nil, fmap_app, H4. cbn.
    by rewrite Permutation_app_comm. }
  assert (Hin : forall iv, contains iv (Sa_ObservedAt s) = true -> iv ∈ [Fo_Train fold; Fo_Validation fold; Fo_Test fold] -> observed fold s = true).
  { intros iv E Hi. unfold observed. rewrite !elem_of_cons, elem_of_nil in Hi. destruct Hi as [->|[->|[->|[]]]]; rewrite E;
      destruct (contains (Fo_Train fold) _), (contains (Fo_Validation fold) _); done. }
  destruct Hp as [Hi|Hi|Hi|E|E|E]; cbn [add_train add_validation add_test add_purged add_embargoed Sp_Train Sp_Validation Sp_Test];
    split_and!; rewrite ?Forall_app, ?Forall_singleton; auto;
    try (apply Ho; [unfold split_ids; cbn; rewrite ?fmap_app; cbn; solve_Permutation | (eapply Hin; [apply Hi|]; set_solver) || done]).
  rewrite filter_cons, decide_False, filter_nil, app_nil_r by (by rewrite E). done.
Qed.
End Steps.

Lemma SplitFold_inv samples fold purge embargo split : 0 <= purge < 2 ^ 63 ->
  SplitFold samples fold purge embargo = Ok split -> split_inv fold purge embargo (SliceStable sample_less samples) split.
Proof.
  intros Hp H. apply (foldM_inv (split_inv fold purge embargo)) in H; [done | |].
  { unfold split_inv. cbn. split_and!; constructor. }
  clear H.
  intros done s t t' Hi _ Es. eapply placed_inv; [done..|]. by eapply split_sample_placed.
Qed.

(** Whatever samples are split, no outcome of an earlier window of the
    fold reaches into a later one: features and labels of the training samples
    end at least the purge before the validation window and before every
    validation and test sample, those of the validation samples at least the
    purge before the test window, and the embargo separates each window from
    the end of the one before it. *)
Theorem SplitFold_no_leakage samples fold purge embargo split :
  windows_ordered fold -> 0 <= purge < 2 ^ 63 -> SplitFold samples fold purge embargo = Ok split ->
  (forall a b, a ∈ Sp_Train split -> b ∈ Sp_Validation split ++ Sp_Test split ->
     Sa_FeatureEnd a + purge <= Sa_ObservedAt b /\ Sa_LabelEnd a + purge <= Sa_ObservedAt b) /\
  (forall a b, a ∈ Sp_Validation split -> b ∈ Sp_Test split ->
     Sa_FeatureEnd a + purge <= Sa_ObservedAt b /\ Sa_LabelEnd a + purge <= Sa_ObservedAt b) /\
  (forall b, b ∈ Sp_Validation split -> Iv_End (Fo_Train fold) + embargo <= Sa_ObservedAt b) /\
  (forall b, b ∈ Sp_Test split -> Iv_End (Fo_Validation fold) + embargo <= Sa_ObservedAt b).
Proof.
  intros (W1 & W2 & W3 & W4) Hp H. apply SplitFold_inv in H as (H1 & H2 & H3 & _); [|done].
  rewrite !Forall_forall in *.
  assert (Hc : forall iv t, contains iv t = true -> Iv_Start iv <= t < Iv_End iv)
    by (unfold contains, Before; intros; bool_prop; lia).
  split_and!.
  - intros a b Ha [Hb|Hb]%elem_of_app; destruct (H1 _ Ha) as (_ & A1 & A2).
    + destruct (H2 _ Hb) as (B1%Hc & _). lia.
    + destruct (H3 _ Hb) as (B1%Hc & _). lia.
  - intros a b Ha Hb. destruct (H2 _ Ha) as (_ & _ & A1 & A2). destruct (H3 _ Hb) as (B1%Hc & _). lia.
  - intros b Hb. by destruct (H2 _ Hb) as (_ & B & _).
  - intros b Hb. by destruct (H3 _ Hb) as (_ & B).
Qed.

(** A split places every sample observed in the fold exactly once, in a
    window, among the purged or among the embargoed; the windows are in
    chronological order; and the split does not depend on the order in which
    samples of distinct identities are given. *)
Theorem SplitFold_partition samples fold purge embargo split :
  0 <= purge < 2 ^ 63 -> NoDup (Sa_ID <$> samples) -> SplitFold samples fold purge embargo = Ok split ->
  split_ids split ≡ₚ Sa_ID <$> filter (fun s => observed fold s = true) samples /\
  Forall (fun w => ordered (fun x y => Sa_ObservedAt x <? Sa_ObservedAt y) w) [Sp_Train split; Sp_Validation split; Sp_Test split] /\
  (forall samples', samples ≡ₚ samples' -> SplitFold samples' fold purge embargo = Ok split).
Proof.
  intros Hp Hd H. pose proof H as H0. apply SplitFold_inv in H as (_ & _ & _ & H4 & H5 & H6 & H7); [|done]. split_and!.
  - rewrite H4. by rewrite <- SliceStable_Permutation.
  - assert (Ho : forall w, sublist w (SliceStable sample_less samples) -> ordered (fun x y => Sa_ObservedAt x <? Sa_ObservedAt y) w).
    { intros w Hw. apply (ordered_sublist sample_less) in Hw; [|apply sort_ordered; apply _]. revert Hw. unfold ordered.
      induction 1 as [|x l _ IH Hr]; constructor; [done|].
      destruct Hr as [|y l E]; constructor. apply sample_less_time in E. lia. }
    rewrite !Forall_cons. auto.
  - intros samples' HP. rewrite <- H0. unfold SplitFold. f_equal. symmetry. apply sort_perm_eq; [apply _| |done].
    intros x y Hx Hy E1 E2. eapply NoDup_key; eauto using sample_less_tie.
Qed.

(** ** An example *)
Module SplitSample.
Definition fold : Fold := mkFold 0 (mkInterval 10 20) (mkInterval 20 30) (mkInterval 30 40).
Definition sample (id : string) (at_ label : Time) : Sample := mkSample id at_ (at_ - 3) at_ label "BTC" "bull" true true ∅.
Definition samples : list Sample :=
  [sample "e" 35 37; sample "b" 18 20; sample "a" 12 14; sample "c" 21 22; sample "d" 24 26; sample "f" 45 47].
Definition split_of (r : res Split) : Split := match r with Ok s => s | _ => mkSplit [] [] [] [] [] end.
Definition split : Split := split_of (SplitFold samples fold 1 2).
Lemma split_ok : SplitFold samples fold 1 2 = Ok split.
Proof. vm_compute. reflexivity. Qed.
Example split_ids_value : (Sa_ID <$> Sp_Train split, Sa_ID <$> Sp_Validation split, Sa_ID <$> Sp_Test split, Sp_Purged split, Sp_Embargoed split)
  = (["a"], ["d"], ["e"], ["b"], ["c"]).
Proof. vm_compute. reflexivity. Qed.
End SplitSample.

Lemma SplitFold_no_leakage_witness :
  exists a b, a ∈ Sp_Train SplitSample.split /\ b ∈ Sp_Test SplitSample.split /\ Sa_LabelEnd a + 1 <= Sa_ObservedAt b.
Proof.
  exists (SplitSample.sample "a" 12 14), (SplitSample.sample "e" 35 37).
  assert (H : Sp_Train SplitSample.split = [SplitSample.sample "a" 12 14] /\ Sp_Test SplitSample.split = [SplitSample.sample "e" 35 37])
    by (vm_compute; done).
  destruct H as [-> E]. split_and!; [by left | rewrite E; by left|].
  destruct (SplitFold_no_leakage SplitSample.samples SplitSample.fold 1 2 SplitSample.split) as (H1 & _).
  - unfold windows_ordered. cbn. lia.
  - lia.
  - exact SplitSample.split_ok.
  - apply (H1 (SplitSample.sample "a" 12 14) (SplitSample.sample "e" 35 37)).
    + replace (Sp_Train SplitSample.split) with [SplitSample.sample "a" 12 14] by (by vm_compute). by left.
    + rewrite E. apply elem_of_app. right. by left.
Defined.
Lemma SplitFold_partition_witness :
  split_ids SplitSample.split ≡ₚ ["e"; "b"; "a"; "c"; "d"] /\
  SplitFold (reverse SplitSample.samples) SplitSample.fold 1 2 = Ok SplitSample.split.
Proof.
  destruct (SplitFold_partition SplitSample.samples SplitSample.fold 1 2 SplitSample.split) as (H1 & _ & H2).
  - lia.
  - apply (bool_decide_unpack _). vm_compute. exact I.
  - exact SplitSample.split_ok.
  - split; [etransitivity; [exact H1 | vm_compute; done]|]. apply H2. symmetry. apply reverse_Permutation.
Defined.
