(* ===== verification/Manifest.v ===== *)
(** * Manifest: the experiment manifest

    [internal/validation/manifest.go] and [policy.go]: the checks that make a
    manifest canonical, its identity and its verification, and the authority
    policy envelope. SHA-256, JSON and the text of a time are parameters; so is
    the order in which the payload of a policy is visited. *)
From Stdlib Require Import Ascii SpecFloat.
From stdpp Require Import base numbers strings gmap list.
From S2P Require Import Prelude GoStrings GoFloat GoTime GoFormat Snapshots ValidationTypes Splits.
Local Open Scope Z_scope.

Definition AuthorityPolicySchemaVersion : string := "authority-policy-envelope-v1".
Definition RequiredConfirmatoryMetrics : list string :=
  ["after_cost_expectancy"; "after_cost_return"; "benchmark_relative_return"; "coverage"; "gross_exposure"; "max_drawdown"; "net_exposure";
   "turnover"; "downside_deviation"; "expected_shortfall_95"; "max_liquidity_participation"; "stressed_after_cost_return"; "deflated_sharpe"].
Definition invalid (field details : string) : error := DiagnosticError DiagnosticInvalidManifest field details.
Definition blank (s : string) : bool := TrimSpace s =s "".

(** ** [strconv.FormatFloat(v, 'g', -1, 64)], also the text of [%g] *)
Definition exponent_text (e : Z) : string :=
  (if e <? 0 then "-" else "+") +:+ (if Z.abs e <? 10 then "0" else "") +:+ Itoa (Z.abs e).
Definition FormatG (v : float64) : string :=
  match v with
  | S754_finite s m e =>
      let q := magnitude m e in
      let '(digits, k) := shortest 16 (S754_finite false m e) q (exponent_of q) 1 in
      let text := Itoa digits in
      let exp := slen text + k - 1 in
      (if s then "-" else "") +:+
      (if (exp <? -4) || (6 <=? exp)
       then match text with
            | String c EmptyString => text +:+ "e" +:+ exponent_text exp
            | String c rest => String c ("." +:+ rest) +:+ "e" +:+ exponent_text exp
            | EmptyString => ""
            end
       else plain_text digits k)
  | _ => FormatFloat v
  end.

(** ** Policies *)
Definition canonicalPolicyScalar (value : string) : string :=
  let lower := if ToLower value =s "true" then "true" else if ToLower value =s "false" then "false" else value in
  match ParseFloat value with
  | Some parsed => if is_nan parsed || is_inf parsed then lower else if feq parsed fzero then "0" else FormatG parsed
  | None => lower
  end.
(** Some value is blank or equal to the one before it. *)
Fixpoint repeated (previous : option string) (l : list string) : bool :=
  match l with
  | [] => false
  | v :: l' => blank v || match previous with Some p => v =s p | None => false end || repeated (Some v) l'
  end.
Definition sortedUnique (values : list string) : res (list string) :=
  let result := sort_strings values in
  if repeated None result then Err (Errorf "values must be non-empty and unique" []) else Ok result.

Section Envelope.
Context (sha256hex : string -> string) (MarshalPolicy : string -> gmap string string -> string).
Context (range : gmap string string -> list (string * string)).

Definition add_policy (normalized : gmap string string) (kv : string * string) : res (gmap string string) :=
  let key := TrimSpace kv.1 in
  let value := TrimSpace kv.2 in
  if (key =s "") || (value =s "") then Err (invalid "authority_policy" "empty policy key/value")
  else Ok (<[key := canonicalPolicyScalar value]> normalized).
Definition NewAuthorityPolicyEnvelope (payload : gmap string string) : res AuthorityPolicyEnvelope :=
  if (Nat.eqb (size payload) 0) || (256 <? Z.of_nat (size payload))
  then Err (invalid "authority_policy" "complete bounded policy payload is required") else
  let* normalized := foldM add_policy ∅ (range payload) in
  Ok (mkAuthority AuthorityPolicySchemaVersion normalized (sha256hex (MarshalPolicy AuthorityPolicySchemaVersion normalized))).
Definition Envelope_Verify (e : AuthorityPolicyEnvelope) : res unit :=
  let* expected := NewAuthorityPolicyEnvelope (AP_Payload e) in
  if (AP_SchemaVersion e <>s AP_SchemaVersion expected) || (AP_Digest e <>s AP_Digest expected)
  then Err (DiagnosticError DiagnosticManifestIntegrity "authority_policy" "policy envelope digest mismatch") else Ok tt.
Definition WithRolloutState (e : AuthorityPolicyEnvelope) (state : string) : res AuthorityPolicyEnvelope :=
  NewAuthorityPolicyEnvelope (<["rollout_state" := TrimSpace state]> (AP_Payload e)).
End Envelope.

(** ** Checks of a manifest *)
Definition exactDigest (value : string) : bool :=
  (slen value =? 64) && str_all (fun c => is_digit c || ((97 <=? byte c) && (byte c <=? 102))) value.
Definition completePolicies (p : PolicyBundle) : bool :=
  forallb (fun s => s <>s "") [PB_Composite p; PB_Execution p; PB_Universe p; PB_ModelSelection p; PB_EntrySelection p; PB_PortfolioRisk p; PB_Rollout p; PB_Cost p].
Definition thresholdLess (a b : Threshold) : bool :=
  if Th_Metric a <>s Th_Metric b then String.ltb (Th_Metric a) (Th_Metric b)
  else if Th_Op a <>s Th_Op b then String.ltb (Th_Op a) (Th_Op b) else flt (Th_Value a) (Th_Value b).
Definition complete_ref (v : VersionRef) : bool :=
  negb (blank (VR_ID v)) && negb (blank (VR_Version v)) && exactDigest (VR_ImplementationDigest v) && exactDigest (VR_ConfigDigest v).
Definition identified (s : ManifestSpec) : bool :=
  (MS_SchemaVersion s =s ManifestSchemaVersion) && negb (blank (MS_CodeRevision s)) && complete_ref (MS_Candidate s) && complete_ref (MS_Baseline s) &&
  exactDigest (MS_DatasetManifestID s) && (MS_DatasetManifestID s =s MS_DatasetManifestHash s) && exactDigest (MS_DatasetDigest s) &&
  (MS_DatasetDigest s =s MS_DatasetManifestHash s) && completePolicies (MS_Policies s) && Interval_Valid (MS_Interval s).
Definition policy_keys : list string :=
  ["selection_top_k"; "selection_min_probability"; "selection_min_ev"; "fallback_mode"; "strategy_parameters"; "risk_policy"; "turnover_policy";
   "cash_policy"; "universe_policy"; "execution_policy"; "cost_policy"; "model_version"; "feature_schema"; "rollout_state"].
(** [m[key]] of a map of strings. *)
Definition text_at (m : gmap string string) (key : string) : string := default "" (m !! key).
Definition present (m : gmap string string) (field details key : string) : res unit :=
  failIf (blank (text_at m key)) (invalid (field +:+ key) details).
Definition complete_artifacts (s : ManifestSpec) : bool :=
  let a := MS_Artifacts s in
  forallb (fun s => s <>s "") [AL_Metrics a; AL_Trades a; AL_Curves a; AL_Cohorts a; AL_Factors a; AL_Coverage a; AL_Comparison a; RP_Command (MS_Reproduce s)] &&
  negb (Nat.eqb (length (RP_Args (MS_Reproduce s))) 0).
(** The checks up to the study label. *)
Definition check_declaration (s : ManifestSpec) : res unit :=
  let* _ := forM_ (present (MS_ExecutionSemantics s) "execution_semantics." "complete cost/fill semantics required") ["fee_bps"; "slippage_bps"; "timing"; "liquidity"] in
  if negb (complete_artifacts s) then Err (invalid "" "complete bounded artifact links and reproduction arguments required") else
  if (MS_StudyType s <>s "exploratory") && (MS_StudyType s <>s "confirmatory")
  then Err (invalid "study_type" "must be exploratory or confirmatory") else
  failIf (negb (Bool.eqb (MS_Exploratory s) (MS_StudyType s =s "exploratory"))) (invalid "exploratory" "study label is inconsistent").
Definition bad_stress (p : CapacityStressPolicy) : bool :=
  negb (finite_f (CS_MaxParticipation p)) || negb (finite_f (CS_ImpactBpsAtMax p)) || negb (finite_f (CS_StressMultiplier p)) ||
  fle (CS_MaxParticipation p) fzero || flt fone (CS_MaxParticipation p) || flt (CS_ImpactBpsAtMax p) fzero || flt (CS_StressMultiplier p) fone.
Definition bad_comparability (p : BaselineComparabilityPolicy) : bool :=
  negb (finite_f (BC_MaxGrossExposureDifference p)) || negb (finite_f (BC_MaxTurnoverRelativeDiff p)) ||
  flt (BC_MaxGrossExposureDifference p) fzero || flt fone (BC_MaxGrossExposureDifference p) ||
  flt (BC_MaxTurnoverRelativeDiff p) fzero || flt fone (BC_MaxTurnoverRelativeDiff p).
Definition is_some {A} (o : option A) : bool := match o with Some _ => true | None => false end.
(** The numeric policies, up to the predeclared metrics. *)
Definition check_policies (s : ManifestSpec) : res unit :=
  if bad_stress (MS_CapacityStress s)
  then Err (invalid "capacity_stress" "bounded participation, nonnegative impact, and conservative multiplier are required") else
  if match MS_BaselineComparability s with Some p => bad_comparability p | None => false end
  then Err (invalid "baseline_comparability" "comparability tolerances must be finite fractions in [0,1]") else
  if (MS_FeatureHorizon s <? 0) || (MS_LabelHorizon s <=? 0) || (MS_Purge s <? 0) || (MS_Embargo s <? 0)
  then Err (invalid "horizons" "label horizon must be positive and purge/embargo cannot be negative") else
  if (MS_BootstrapIterations s <=? 0) || (MaxBootstrapIterations <? MS_BootstrapIterations s)
  then Err (invalid "bootstrap_iterations" "iterations are outside bounded limits") else
  if (MS_StatisticalUnit s <>s "chronological_test_window") && (MS_StatisticalUnit s <>s "declared_block")
  then Err (DiagnosticError DiagnosticUnsupportedUnit "statistical_unit" "per-bar IID bootstrap is prohibited") else
  failIf (Nat.eqb (length (MS_Metrics s)) 0 || Nat.eqb (length (MS_PromotionThresholds s)) 0 || Nat.eqb (length (MS_RollbackThresholds s)) 0 ||
          (RP_Command (MS_Reproduce s) =s ""))
    (invalid "" "metrics, gates, rollback thresholds, and reproduction invocation must be predeclared").
Definition weak_samples (q : SampleRequirements) : bool :=
  (SR_MinFolds q <? 3) || (SR_MinIndependentUnits q <? 3) || (SR_MinObservationsPerFold q <? 10) || (SR_MinTradesPerFold q <? 1) || (SR_MinRegimes q <? 2).
Definition confirmatory (s : ManifestSpec) : bool := MS_StudyType s =s "confirmatory".
Definition check_confirmatory (s : ManifestSpec) : res unit :=
  if negb (confirmatory s) then Ok tt else
  let* _ := forM_ (fun required => failIf (negb (existsb (String.eqb required) (MS_Metrics s)))
                     (invalid "metrics" ("missing required confirmatory metric " +:+ required))) RequiredConfirmatoryMetrics in
  if weak_samples (MS_Samples s) then Err (invalid "sample_requirements" "client requirements weaken governance minima") else
  forM_ (fun target => failIf (default 0 (MS_RequiredElapsed s !! target) <=? 0)
           (invalid ("required_elapsed." +:+ target) "target-specific elapsed evidence must be predeclared")) ["paper"; "limited_live"; "full_live"].
Definition threshold_key (t : Threshold) : string := Th_Metric t +:+ "|" +:+ Th_Op t +:+ "|" +:+ FormatG (Th_Value t).
Definition check_threshold (metrics : list string) (seen : gset string) (t : Threshold) : res (gset string) :=
  if negb (existsb (String.eqb (Th_Metric t)) metrics) then Err (invalid "thresholds" ("threshold metric is not declared: " +:+ Th_Metric t)) else
  if bool_decide (threshold_key t ∈ seen) then Err (invalid "thresholds" "duplicate gate") else Ok ({[threshold_key t]} ∪ seen).
Definition zero_threshold (t : Threshold) : Threshold := mkThreshold (Th_Metric t) (Th_Op t) (zero_value (Th_Value t)).
Definition bad_choices (kv : string * list string) : bool := blank kv.1 || Nat.eqb (length kv.2) 0 || (64 <? length kv.2)%nat.
(** The bounds of the collections, the tuning space and the folds. *)
Definition check_collections (s : ManifestSpec) : res unit :=
  if (128 <? length (MS_Metrics s))%nat || (128 <? length (MS_PromotionThresholds s))%nat || (128 <? length (MS_RollbackThresholds s))%nat ||
     (64 <? size (MS_AllowedTuning s))%nat || (64 <? length (RP_Args (MS_Reproduce s)))%nat || (128 <? size (MS_ExecutionSemantics s))%nat ||
     (16 <? size (MS_RequiredElapsed s))%nat
  then Err (invalid "" "manifest collection exceeds bounded limits") else
  if Nat.eqb (size (MS_AllowedTuning s)) 0 then Err (invalid "allowed_tuning" "complete tuning search space is required") else
  if existsb bad_choices (map_to_list (MS_AllowedTuning s))
  then Err (invalid "allowed_tuning" "tuning keys and choices must be non-empty and bounded") else
  ValidateFolds (MS_Folds s) (MS_Interval s) (SR_MinFolds (MS_Samples s)).
Definition check_job (seen : gset Z) (id : Z) : res (gset Z) :=
  if (id =? 0) || bool_decide (id ∈ seen) then Err (invalid "fold_source_job_ids" "source jobs must be nonzero and unique") else Ok ({[id]} ∪ seen).
Definition check_jobs (s : ManifestSpec) : res unit :=
  if negb (confirmatory s) then Ok tt else
  if negb (Nat.eqb (length (MS_FoldSourceJobIDs s)) (length (MS_Folds s)))
  then Err (invalid "fold_source_job_ids" "one trusted Stage 05/06 source job is required per fold") else
  let* _ := foldM check_job ∅ (MS_FoldSourceJobIDs s) in Ok tt.

(** ** Models *)
Definition check_feature (seen : gset string) (f : FeatureField) : res (gset string) :=
  if (FF_Name f =s "") || ((FF_Type f <>s "float64") && (FF_Type f <>s "int64") && (FF_Type f <>s "bool")) || bool_decide (FF_Name f ∈ seen)
  then Err (invalid "model.features" "ordered feature names/types must be unique and supported") else Ok ({[FF_Name f]} ∪ seen).
Definition ValidateModelAuthority (m : ModelAuthority) (s : ManifestSpec) : res unit :=
  if (MA_Version m =s "") || negb (exactDigest (MA_ModelDigest m)) || (MA_FeatureSpec m =s "") || Nat.eqb (length (MA_Features m)) 0 ||
     (MA_LabelSpec m =s "") || (MA_LabelHorizon m <=? 0) || (MA_CodeRevision m =s "") || negb (exactDigest (MA_DatasetManifest m)) ||
     negb (exactDigest (MA_TrainingManifest m)) || (MA_PolicyVersion m =s "")
  then Err (invalid "model" "complete model training provenance and ordered feature schema are required") else
  if (MA_CodeRevision m <>s MS_CodeRevision s) || (MA_DatasetManifest m <>s MS_DatasetManifestID s) ||
     (MA_PolicyVersion m <>s PB_Composite (MS_Policies s)) || negb (MA_LabelHorizon m =? MS_LabelHorizon s)
  then Err (invalid "model" "model provenance is incompatible with experiment code, data, label horizon, or policy") else
  let* _ := foldM check_feature ∅ (MA_Features m) in
  failIf (negb (existsb (String.eqb (MA_Class m)) [ArtifactBootstrap; ArtifactContractFixture; ArtifactResearch; ArtifactShadowCandidate; ArtifactPromotableCandidate]))
    (invalid "model.class" "unknown artifact class").
Definition orElse (v default_ : float64) : float64 := if feq v fzero then default_ else v.
Definition NormalizeMLRequirements (q : MLRequirements) : res MLRequirements :=
  let q := mkMLRequirements (ML_MinLabels q) (ML_MinIndependentWindows q) (ML_Buckets q) (ML_MinBucketSupport q) (ML_ClipEpsilon q)
    (orElse (ML_MinAUC q) (f_of_ratio 55 100)) (orElse (ML_MaxLogLoss q) (f_of_ratio 8 10)) (orElse (ML_MaxBrier q) (f_of_ratio 25 100))
    (orElse (ML_MaxCalibrationError q) (f_of_ratio 3 10)) in
  if (ML_MinIndependentWindows q <? 2) || (ML_Buckets q <? 2) || (20 <? ML_Buckets q) || (ML_MinBucketSupport q <? 1) ||
     fle (ML_ClipEpsilon q) fzero || fle (f_of_ratio 1 10) (ML_ClipEpsilon q) || negb (finite_f (ML_MinAUC q)) ||
     negb (finite_f (ML_MaxLogLoss q)) || negb (finite_f (ML_MaxBrier q)) || negb (finite_f (ML_MaxCalibrationError q)) ||
     flt (ML_MinAUC q) (f_of_ratio 55 100) || flt (f_of_ratio 8 10) (ML_MaxLogLoss q) || flt (f_of_ratio 25 100) (ML_MaxBrier q) ||
     flt (f_of_ratio 3 10) (ML_MaxCalibrationError q)
  then Err (invalid "ml_requirements" "") else Ok q.
(** The model gates: the normalized requirements. *)
Definition check_model (s : ManifestSpec) : res (option MLRequirements) :=
  match MS_Model s with
  | Some m =>
      let* _ := ValidateModelAuthority m s in
      match MS_MLRequirements s with
      | None => Err (invalid "ml_requirements" "predeclared non-weakenable ML gates are required")
      | Some q =>
          let* normalized := NormalizeMLRequirements q in
          if (text_at (AP_Payload (MS_AuthorityPolicy s)) "model_version" <>s MA_Version m) ||
             (text_at (AP_Payload (MS_AuthorityPolicy s)) "feature_schema" <>s MA_FeatureSpec m)
          then Err (invalid "authority_policy" "model/version schema authority mismatch") else Ok (Some normalized)
      end
  | None => if is_some (MS_MLRequirements s) then Err (invalid "ml_requirements" "ML gates require a model manifest") else Ok None
  end.
Definition check_override (s : ManifestSpec) : res unit :=
  match MS_ResearchOverride s with
  | Some o =>
      failIf (blank (RO_Mode o) || blank (RO_Reason o) || negb (Interval_Valid (RO_BoundedTo o)) ||
              Before (Iv_Start (RO_BoundedTo o)) (Iv_Start (MS_Interval s)) || After (Iv_End (RO_BoundedTo o)) (Iv_End (MS_Interval s)))
        (invalid "research_override" "override must declare a reason, mode, and bounded interval inside the experiment")
  | None => Ok tt
  end.
Definition sort_choices (kv : string * list string) : res (string * list string) :=
  match sortedUnique kv.2 with
  | Ok u => Ok (kv.1, u)
  | Err _ => Err (invalid ("allowed_tuning." +:+ kv.1) "values must be non-empty and unique")
  | Panic w => Panic w
  end.
Definition sort_tuning (m : gmap string (list string)) : res (gmap string (list string)) :=
  let* sorted := mapM sort_choices (map_to_list m) in Ok (list_to_map sorted).
Definition bad_threshold (t : Threshold) : bool :=
  negb (finite_f (Th_Value t)) || negb (existsb (String.eqb (Th_Op t)) [">"; ">="; "<"; "<="]).

(** The specification with the fields the checks normalize. *)
Definition with_identity (s : ManifestSpec) (schema family : string) : ManifestSpec :=
  mkSpec schema (MS_StudyType s) (MS_Exploratory s) family (MS_ConfirmatoryHoldout s) (MS_CodeRevision s) (MS_Candidate s) (MS_Baseline s) (MS_Model s)
    (MS_MLRequirements s) (MS_Policies s) (MS_GovernancePolicy s) (MS_AuthorityPolicy s) (MS_DatasetManifestID s) (MS_DatasetManifestHash s)
    (MS_DatasetDigest s) (MS_UniversePolicy s) (MS_Interval s) (MS_DecisionClock s) (MS_ExecutionClock s) (MS_Seed s) (MS_ExecutionSemantics s)
    (MS_CapacityStress s) (MS_BaselineComparability s) (MS_Folds s) (MS_FoldSourceJobIDs s) (MS_FeatureHorizon s) (MS_LabelHorizon s) (MS_Purge s)
    (MS_Embargo s) (MS_AllowedTuning s) (MS_Metrics s) (MS_StatisticalUnit s) (MS_BootstrapIterations s) (MS_Samples s) (MS_PromotionThresholds s)
    (MS_RollbackThresholds s) (MS_RequiredElapsed s) (MS_Artifacts s) (MS_Reproduce s) (MS_ResearchOverride s).
Definition with_collections (s : ManifestSpec) (ml : option MLRequirements) (tuning : gmap string (list string)) (metrics : list string)
    (promotion rollback : list Threshold) : ManifestSpec :=
  mkSpec (MS_SchemaVersion s) (MS_StudyType s) (MS_Exploratory s) (MS_FamilyID s) (MS_ConfirmatoryHoldout s) (MS_CodeRevision s) (MS_Candidate s) (MS_Baseline s)
    (MS_Model s) ml (MS_Policies s) (MS_GovernancePolicy s) (MS_AuthorityPolicy s) (MS_DatasetManifestID s) (MS_DatasetManifestHash s)
    (MS_DatasetDigest s) (MS_UniversePolicy s) (MS_Interval s) (MS_DecisionClock s) (MS_ExecutionClock s) (MS_Seed s) (MS_ExecutionSemantics s)
    (MS_CapacityStress s) (MS_BaselineComparability s) (MS_Folds s) (MS_FoldSourceJobIDs s) (MS_FeatureHorizon s) (MS_LabelHorizon s) (MS_Purge s)
    (MS_Embargo s) tuning metrics (MS_StatisticalUnit s) (MS_BootstrapIterations s) (MS_Samples s) promotion rollback (MS_RequiredElapsed s)
    (MS_Artifacts s) (MS_Reproduce s) (MS_ResearchOverride s).

(** ** The canonical manifest *)
Section Manifest.
Context (sha256hex : string -> string) (MarshalPolicy : string -> gmap string string -> string)
  (MarshalFamily : string -> string -> string -> string -> string) (MarshalHoldout : string -> string -> Interval -> string)
  (MarshalSpec : ManifestSpec -> res string) (FormatTime : Time -> string).
Context (range : gmap string string -> list (string * string)).

Definition check_identity (s : ManifestSpec) : res unit :=
  if negb (identified s)
  then Err (invalid "" "schema, revision, candidate/baseline implementation and configuration identities, exact dataset digest, policy bundle, and interval are required") else
  if MS_GovernancePolicy s <>s GovernancePolicyVersion then Err (invalid "governance_policy" "non-weakenable governance policy version is required") else
  let* _ := Envelope_Verify sha256hex MarshalPolicy range (MS_AuthorityPolicy s) in
  let* _ := forM_ (present (AP_Payload (MS_AuthorityPolicy s)) "authority_policy." "authority-affecting policy component is required") policy_keys in
  failIf (blank (MS_UniversePolicy s) || blank (MS_DecisionClock s) || blank (MS_ExecutionClock s))
    (invalid "" "universe and UTC decision/execution clocks are required").
Definition family_of (s : ManifestSpec) : string :=
  if MS_FamilyID s =s ""
  then sha256hex (MarshalFamily (VR_ID (MS_Candidate s)) (VR_ImplementationDigest (MS_Candidate s)) (MS_DatasetDigest s) (PB_Composite (MS_Policies s)))
  else MS_FamilyID s.
Definition validateConfirmatoryHoldout (s : ManifestSpec) : res unit :=
  let bad := Err (invalid "confirmatory_holdout" "locked holdout must exactly bind family dataset and confirmatory interval") in
  match MS_ConfirmatoryHoldout s with
  | None => bad
  | Some h =>
      if negb (exactDigest (CH_ID h)) || negb (Interval_Valid (CH_Interval h)) || (CH_DatasetDigest h <>s MS_DatasetDigest s) ||
         negb (Iv_Start (CH_Interval h) =? Iv_Start (MS_Interval s)) || negb (Iv_End (CH_Interval h) =? Iv_End (MS_Interval s))
      then bad else
      failIf (CH_ID h <>s sha256hex (MarshalHoldout (MS_FamilyID s) (CH_DatasetDigest h) (CH_Interval h)))
        (DiagnosticError DiagnosticManifestIntegrity "confirmatory_holdout.id" "holdout identity does not bind its declared scope")
  end.
Definition NewConfirmatoryHoldoutContract (familyID dataset : string) (interval : Interval) : res ConfirmatoryHoldoutContract :=
  if negb (exactDigest familyID) || negb (exactDigest dataset) || negb (Interval_Valid interval) then Err (invalid "confirmatory_holdout" "") else
  Ok (mkHoldout (sha256hex (MarshalHoldout familyID dataset interval)) dataset interval).
Definition check_family (s : ManifestSpec) : res unit :=
  if negb (exactDigest (MS_FamilyID s)) then Err (invalid "family_id" "immutable research family identity is required") else
  if confirmatory s then validateConfirmatoryHoldout s
  else failIf (is_some (MS_ConfirmatoryHoldout s)) (invalid "confirmatory_holdout" "exploratory attempts cannot consume a confirmatory holdout").

Definition schema_of (s : ManifestSpec) : string := if blank (MS_SchemaVersion s) then ManifestSchemaVersion else TrimSpace (MS_SchemaVersion s).
(** The checks on a specification whose identity and collections are final. *)
Definition check_thresholds (s : ManifestSpec) : res unit :=
  let* _ := foldM (check_threshold (MS_Metrics s)) ∅ (MS_PromotionThresholds s ++ MS_RollbackThresholds s) in Ok tt.
Definition CanonicalManifestSpec (spec0 : ManifestSpec) : res (string * ManifestSpec) :=
  let s0 := with_identity spec0 (schema_of spec0) (MS_FamilyID spec0) in
  let* _ := check_identity s0 in
  let* _ := check_declaration s0 in
  let s := with_identity s0 (MS_SchemaVersion s0) (family_of s0) in
  let* _ := check_family s in
  let* _ := check_policies s in
  match sortedUnique (MS_Metrics s) with
  | Panic w => Panic w
  | Err _ => Err (invalid "metrics" "values must be non-empty and unique")
  | Ok metrics =>
      let promotion := zero_threshold <$> MS_PromotionThresholds s in
      let rollback := zero_threshold <$> MS_RollbackThresholds s in
      let s := with_collections s (MS_MLRequirements s) (MS_AllowedTuning s) metrics promotion rollback in
      let* _ := check_confirmatory s in
      let* _ := check_thresholds s in
      let* _ := check_collections s in
      let* _ := check_jobs s in
      let* ml := check_model s in
      let* _ := check_override s in
      let* tuning := sort_tuning (MS_AllowedTuning s) in
      let promotion := SliceStable thresholdLess promotion in
      let rollback := SliceStable thresholdLess rollback in
      let s := with_collections s ml tuning (sort_strings metrics) promotion rollback in
      if existsb bad_threshold (promotion ++ rollback)
      then Err (invalid "thresholds" "threshold values and operators must be finite and supported") else
      match MarshalSpec s with
      | Panic w => Panic w
      | Err e => Err (Wrapf "canonical manifest: %w" [] e)
      | Ok encoded =>
          if MaxManifestBytes <? slen encoded then Err (invalid "" "manifest exceeds 1 MiB canonical limit") else Ok (encoded, s)
      end
  end.

Definition newline : string := String (chr 10) "".
Definition record_id (contentID : string) (createdAt : Time) : string := sha256hex (contentID +:+ newline +:+ FormatTime createdAt).
Definition NewManifest (spec : ManifestSpec) (createdAt0 : Time) : res ExperimentManifest :=
  let* cn := CanonicalManifestSpec spec in
  let createdAt := truncate_micro createdAt0 in
  if IsZero createdAt then Err (invalid "created_at" "immutable creation time is required") else
  let contentID := sha256hex cn.1 in
  Ok (mkManifest (record_id contentID createdAt) contentID contentID createdAt cn.2).
Definition Manifest_Verify (m : ExperimentManifest) : res unit :=
  let* cn := CanonicalManifestSpec (EM_Spec m) in
  let expected := sha256hex cn.1 in
  if (expected <>s EM_ContentID m) || (expected <>s EM_ContentDigest m)
  then Err (DiagnosticError DiagnosticManifestIntegrity "content_digest" "stored semantic content differs from immutable identity") else
  failIf (record_id expected (EM_CreatedAt m) <>s EM_ID m)
    (DiagnosticError DiagnosticManifestIntegrity "id" "record identity or creation time was mutated").
End Manifest.
