(* ===== verification/ManifestProofs.v ===== *)
(** * ManifestProofs: canonical manifests are stable and verifiable *)
From Stdlib Require Import Ascii SpecFloat.
From stdpp Require Import base numbers strings gmap list.
From S2P Require Import Prelude GoStrings GoFloat GoTime GoFormat Snapshots ValidationTypes Splits SplitProofs Manifest.
Local Open Scope Z_scope.

(** ** Sorting *)
Lemma thresholdLess_asym a b : thresholdLess a b = true -> thresholdLess b a = false.
Proof.
  unfold thresholdLess. rewrite (String.eqb_sym (Th_Metric b)), (String.eqb_sym (Th_Op b)).
  destruct (Th_Metric a =s Th_Metric b); cbn [negb]; [|apply str_ltb_asym].
  destruct (Th_Op a =s Th_Op b); cbn [negb]; [apply flt_asym | apply str_ltb_asym].
Qed.
Lemma sort_strings_idemp l : sort_strings (sort_strings l) = sort_strings l.
Proof. apply SliceStable_idemp, str_ltb_asym. Qed.
Lemma sort_strings_length l : length (sort_strings l) = length l.
Proof. apply SliceStable_length. Qed.
Lemma sortedUnique_spec l u : sortedUnique l = Ok u <-> repeated None (sort_strings l) = false /\ u = sort_strings l.
Proof. unfold sortedUnique. destruct (repeated _ _); split; [done | by intros [? _] | by intros [= <-] | by intros [_ ->]]. Qed.
Lemma sortedUnique_idemp l u : sortedUnique l = Ok u -> sortedUnique u = Ok u.
Proof. rewrite !sortedUnique_spec. intros [H ->]. by rewrite sort_strings_idemp. Qed.

(** ** Thresholds *)
Lemma zero_value_idemp v : zero_value (zero_value v) = zero_value v.
Proof. unfold zero_value. destruct (feq v fzero) eqn:E; [done|]. by rewrite E. Qed.
Lemma zero_threshold_idemp t : zero_threshold (zero_threshold t) = zero_threshold t.
Proof. unfold zero_threshold. cbn. by rewrite zero_value_idemp. Qed.
Lemma zero_sorted l : zero_threshold <$> SliceStable thresholdLess (zero_threshold <$> l) = SliceStable thresholdLess (zero_threshold <$> l).
Proof.
  rewrite <- (list_fmap_id (SliceStable _ _)) at 2. apply list_fmap_ext. intros i t Ht.
  apply list_elem_of_lookup_2, SliceStable_elem, list_elem_of_fmap in Ht as (y & -> & _). apply zero_threshold_idemp.
Qed.
(** A loop that refuses a key it has seen. *)
Lemma check_thresholds_loop metrics l seen s : foldM (check_threshold metrics) seen l = Ok s <->
  s = list_to_set (threshold_key <$> l) ∪ seen /\ Forall (fun t => existsb (String.eqb (Th_Metric t)) metrics = true /\ threshold_key t ∉ seen) l /\
  NoDup (threshold_key <$> l).
Proof.
  revert seen. induction l as [|t l IH]; intros seen; cbn [foldM].
  - cbn. split; [intros [= <-]; split_and!; [set_solver | constructor..] | intros (-> & _); f_equal; set_solver].
  - unfold check_threshold at 1. rewrite fmap_cons, NoDup_cons, Forall_cons. cbn [list_to_set].
    destruct (existsb _ metrics); cbn [negb rbind]; [|by split; [|intros (_ & [[? _] _] & _)]].
    case_bool_decide as Hs; cbn [rbind]; [by split; [|intros (_ & [[_ ?] _] & _)]|]. rewrite IH, !Forall_forall.
    split; intros (-> & H1 & H2).
    + split_and!; try done; [cbn; by rewrite (assoc_L (∪)), (comm_L (∪) (list_to_set _)) | | ].
      * intros x Hx. destruct (H1 x Hx). set_solver.
      * intros (y & E & Hy)%list_elem_of_fmap. destruct (H1 y Hy) as [_ Hn]. apply Hn. rewrite E. set_solver.
    + destruct H1 as [_ H1]. destruct H2 as [Hn H2]. split_and!; try done; [cbn; by rewrite (assoc_L (∪)), (comm_L (∪) (list_to_set _)) | ].
      intros x Hx. split; [by apply H1|]. rewrite elem_of_union, elem_of_singleton. intros [E|E]; [|by apply (H1 x Hx)].
      apply Hn. rewrite <- E. by apply list_elem_of_fmap_2.
Qed.
Lemma check_thresholds_perm s s' : MS_Metrics s = MS_Metrics s' ->
  MS_PromotionThresholds s ++ MS_RollbackThresholds s ≡ₚ MS_PromotionThresholds s' ++ MS_RollbackThresholds s' ->
  check_thresholds s = Ok tt -> check_thresholds s' = Ok tt.
Proof.
  unfold check_thresholds. intros Em HP H. destruct (foldM _ _ _) as [seen|e|w] eqn:E; [|done..].
  apply check_thresholds_loop in E as (_ & H1 & H2). rewrite HP in H1, H2. rewrite Em in H1.
  pose proof (proj2 (check_thresholds_loop (MS_Metrics s') _ ∅ _) (conj eq_refl (conj H1 H2))) as ->. done.
Qed.

(** ** Tuning choices *)
Lemma sort_choices_spec kv kv' : sort_choices kv = Ok kv' <-> repeated None (sort_strings kv.2) = false /\ kv' = (kv.1, sort_strings kv.2).
Proof.
  unfold sort_choices. destruct (sortedUnique kv.2) as [u|e|w] eqn:E.
  - apply sortedUnique_spec in E as [E ->]. by split; [intros [= <-] | intros [_ ->]].
  - split; [done|]. intros [H _]. unfold sortedUnique in E. by rewrite H in E.
  - unfold sortedUnique in E. by destruct (repeated _ _).
Qed.
Lemma sort_tuning_spec m m' : sort_tuning m = Ok m' <->
  map_Forall (fun _ l => repeated None (sort_strings l) = false) m /\ m' = sort_strings <$> m.
Proof.
  unfold sort_tuning. assert (Hl : forall l l', mapM sort_choices l = Ok l' <->
    Forall (fun kv : string * list string => repeated None (sort_strings kv.2) = false) l /\ l' = prod_map id sort_strings <$> l).
  { intros l l'. rewrite mapM_Ok. split.
    - induction 1 as [|kv kv' l l' Hk _ [IH1 ->]]; [done|]. apply sort_choices_spec in Hk as [Hk ->]. split; [by constructor | done].
    - intros [H ->]. induction H as [|kv l Hk _ IH]; [constructor|]. rewrite fmap_cons. constructor; [|done]. by apply sort_choices_spec. }
  assert (Hm : list_to_map (prod_map id sort_strings <$> map_to_list m) = sort_strings <$> m).
  { rewrite <- (list_to_map_to_list m) at 2. apply list_to_map_fmap. }
  rewrite map_Forall_to_list. split.
  - destruct (mapM _ _) as [l| |] eqn:E; [|done..]. apply Hl in E as [E ->]. cbn. intros [= <-]. split; [|done].
    eapply Forall_impl; [exact E|]. by intros [].
  - intros [H ->]. rewrite (proj2 (Hl (map_to_list m) (prod_map id sort_strings <$> map_to_list m))); [cbn; by rewrite Hm|].
    split; [|done]. eapply Forall_impl; [exact H|]. by intros [].
Qed.
Lemma sort_tuning_idemp m m' : sort_tuning m = Ok m' -> sort_tuning m' = Ok m'.
Proof.
  rewrite !sort_tuning_spec. intros [H ->]. rewrite <- map_fmap_compose. split.
  - apply map_Forall_fmap. eapply map_Forall_impl; [exact H|]. intros k l Hk. cbn. by rewrite sort_strings_idemp.
  - apply map_fmap_ext. intros k l _. cbn. by rewrite sort_strings_idemp.
Qed.
Lemma bad_choices_sorted m : existsb bad_choices (map_to_list (sort_strings <$> m)) = existsb bad_choices (map_to_list m).
Proof.
  rewrite map_to_list_fmap. induction (map_to_list m) as [|[k l] r IH]; [done|].
  rewrite fmap_cons. cbn [existsb]. rewrite IH. f_equal. unfold bad_choices. cbn. by rewrite sort_strings_length.
Qed.

(** ** Model requirements *)
Lemma orElse_idemp v d : feq d fzero = false -> orElse (orElse v d) d = orElse v d.
Proof. unfold orElse. intros H. destruct (feq v fzero) eqn:E; [by rewrite H | by rewrite E]. Qed.
Lemma NormalizeMLRequirements_idemp q q' : NormalizeMLRequirements q = Ok q' -> NormalizeMLRequirements q' = Ok q'.
Proof.
  unfold NormalizeMLRequirements. cbv zeta. cbn [ML_MinLabels ML_MinIndependentWindows ML_Buckets ML_MinBucketSupport ML_ClipEpsilon ML_MinAUC
    ML_MaxLogLoss ML_MaxBrier ML_MaxCalibrationError]. intros H. res_inv.
  cbn [ML_MinLabels ML_MinIndependentWindows ML_Buckets ML_MinBucketSupport ML_ClipEpsilon ML_MinAUC ML_MaxLogLoss ML_MaxBrier ML_MaxCalibrationError].
  rewrite !orElse_idemp by (vm_compute; reflexivity). by rewrite E.
Qed.

(** ** Policies *)
Section Policies.
Context (sha256hex : string -> string) (MarshalPolicy : string -> gmap string string -> string).
Definition policy_entry (kv : string * string) : string * string := (TrimSpace kv.1, canonicalPolicyScalar (TrimSpace kv.2)).
Lemma entry_keys l : (policy_entry <$> l).*1 = TrimSpace <$> l.*1.
Proof. induction l as [|kv l IH]; [done|]. rewrite !fmap_cons, IH. done. Qed.
Lemma add_policies l m m' : foldM add_policy m l = Ok m' -> m' = list_to_map (reverse (policy_entry <$> l)) ∪ m.
Proof.
  revert m. induction l as [|kv l IH]; intros m H; cbn [foldM] in H.
  - injection H as <-. cbn. by rewrite (left_id_L ∅ (∪)).
  - res_inv. unfold add_policy in E. destruct (_ || _) in E; [done|]. injection E as <-. apply IH in H as ->.
    rewrite fmap_cons, reverse_cons, list_to_map_app. cbn [list_to_map foldr policy_entry fst snd].
    rewrite <- (assoc_L (∪)). f_equal. cbn. by rewrite insert_empty, <- insert_union_singleton_l.
Qed.
Lemma add_policies_ok l m : (exists m', foldM add_policy m l = Ok m') <-> Forall (fun kv => blank kv.1 || blank kv.2 = false) l.
Proof.
  revert m. induction l as [|kv l IH]; intros m; cbn [foldM]; [split; [constructor | eauto]|]. rewrite Forall_cons.
  unfold add_policy at 1, blank. destruct (_ || _); cbn [rbind]; [split; [by intros [? ?] | by intros [? _]]|]. rewrite IH. tauto.
Qed.
(** The order in which the payload is visited is immaterial when no two keys
    become equal by trimming. *)
Lemma add_policies_perm l l' m : NoDup (TrimSpace <$> l.*1) -> l ≡ₚ l' -> foldM add_policy ∅ l = Ok m -> foldM add_policy ∅ l' = Ok m.
Proof.
  intros Hd HP H. assert (Hok : exists m', foldM add_policy ∅ l = Ok m') by eauto. apply add_policies_ok in Hok. rewrite HP in Hok.
  apply (add_policies_ok l' ∅) in Hok as [m' H']. rewrite H'. f_equal. apply add_policies in H as ->, H' as ->. f_equal.
  apply list_to_map_proper.
  - rewrite fmap_reverse, reverse_Permutation, entry_keys, <- HP. exact Hd.
  - by rewrite !reverse_Permutation, HP.
Qed.
Definition orders (range : gmap string string -> list (string * string)) : Prop := forall m, range m ≡ₚ map_to_list m.
Definition distinct_keys (payload : gmap string string) : Prop := NoDup (TrimSpace <$> map_keys payload).
Lemma Envelope_order range range' payload e : orders range -> orders range' -> distinct_keys payload ->
  NewAuthorityPolicyEnvelope sha256hex MarshalPolicy range payload = Ok e -> NewAuthorityPolicyEnvelope sha256hex MarshalPolicy range' payload = Ok e.
Proof.
  unfold orders. intros Hr Hr' Hd. unfold NewAuthorityPolicyEnvelope. destruct (_ || _); [done|]. intros H. res_inv.
  rewrite (add_policies_perm (range payload) (range' payload) a); [done | | by rewrite Hr, Hr' | done].
  unfold distinct_keys, map_keys in Hd. by rewrite Hr.
Qed.
Lemma Envelope_Verify_order range range' e : orders range -> orders range' -> distinct_keys (AP_Payload e) ->
  Envelope_Verify sha256hex MarshalPolicy range e = Ok tt -> Envelope_Verify sha256hex MarshalPolicy range' e = Ok tt.
Proof.
  intros Hr Hr' Hd. unfold Envelope_Verify. intros H. res_inv. rewrite (Envelope_order _ _ _ _ Hr Hr' Hd E). cbn [rbind]. by rewrite E0.
Qed.
End Policies.

(** ** The canonical specification *)
Section Canonical.
Context (sha256hex : string -> string) (MarshalPolicy : string -> gmap string string -> string)
  (MarshalFamily : string -> string -> string -> string -> string) (MarshalHoldout : string -> string -> Interval -> string)
  (MarshalSpec : ManifestSpec -> res string) (FormatTime : Time -> string).
Abbreviation Canonical range := (CanonicalManifestSpec sha256hex MarshalPolicy MarshalFamily MarshalHoldout MarshalSpec range).
Abbreviation New range := (NewManifest sha256hex MarshalPolicy MarshalFamily MarshalHoldout MarshalSpec FormatTime range).
Abbreviation Verify range := (Manifest_Verify sha256hex MarshalPolicy MarshalFamily MarshalHoldout MarshalSpec FormatTime range).

(** The specification before its collections are put in order. *)
Definition based (s0 : ManifestSpec) : ManifestSpec := with_identity s0 (schema_of s0) (family_of sha256hex MarshalFamily s0).
Definition declared (b : ManifestSpec) : ManifestSpec :=
  with_collections b (MS_MLRequirements b) (MS_AllowedTuning b) (sort_strings (MS_Metrics b))
    (zero_threshold <$> MS_PromotionThresholds b) (zero_threshold <$> MS_RollbackThresholds b).
Definition finished (b : ManifestSpec) (ml : option MLRequirements) : ManifestSpec :=
  with_collections b ml (sort_strings <$> MS_AllowedTuning b) (sort_strings (MS_Metrics b))
    (SliceStable thresholdLess (zero_threshold <$> MS_PromotionThresholds b)) (SliceStable thresholdLess (zero_threshold <$> MS_RollbackThresholds b)).

(** What the checks of a base specification amount to. *)
Record canonical (range : gmap string string -> list (string * string)) (s0 : ManifestSpec) (ml : option MLRequirements) (encoded : string) : Prop := {
  ca_identity : check_identity sha256hex MarshalPolicy range (with_identity s0 (schema_of s0) (MS_FamilyID s0)) = Ok tt;
  ca_declaration : check_declaration (based s0) = Ok tt;
  ca_family : check_family sha256hex MarshalHoldout (based s0) = Ok tt;
  ca_policies : check_policies (based s0) = Ok tt;
  ca_metrics : repeated None (sort_strings (MS_Metrics s0)) = false;
  ca_confirmatory : check_confirmatory (declared (based s0)) = Ok tt;
  ca_thresholds : check_thresholds (declared (based s0)) = Ok tt;
  ca_collections : check_collections (declared (based s0)) = Ok tt;
  ca_jobs : check_jobs (declared (based s0)) = Ok tt;
  ca_model : check_model (declared (based s0)) = Ok ml;
  ca_override : check_override (declared (based s0)) = Ok tt;
  ca_tuning : sort_tuning (MS_AllowedTuning s0) = Ok (sort_strings <$> MS_AllowedTuning s0);
  ca_bounded : existsb bad_threshold (MS_PromotionThresholds (finished (based s0) ml) ++ MS_RollbackThresholds (finished (based s0) ml)) = false;
  ca_marshal : MarshalSpec (finished (based s0) ml) = Ok encoded;
  ca_size : (MaxManifestBytes <? slen encoded) = false }.
Lemma unit_ok (r : res unit) u : r = Ok u -> r = Ok tt.
Proof. by destruct u. Qed.
Lemma CanonicalManifestSpec_spec range s0 encoded n : Canonical range s0 = Ok (encoded, n) <->
  exists ml, canonical range s0 ml encoded /\ n = finished (based s0) ml.
Proof.
  split.
  - unfold CanonicalManifestSpec. cbv zeta. intros H. res_inv.
    destruct (sortedUnique _) as [metrics|e|w] eqn:Em; [|done..]. apply sortedUnique_spec in Em as [Em ->]. res_inv.
    match goal with H : sort_tuning _ = Ok _ |- _ => pose proof H as Ht; apply sort_tuning_spec in Ht as [_ ->] end. res_inv.
    destruct (MarshalSpec _) as [enc|e|w] eqn:Es; [|done..]. res_inv.
    match goal with H : check_model _ = Ok ?m |- _ => exists m end. rewrite sort_strings_idemp in *.
    split; [|done]. constructor; try (eapply unit_ok; eassumption); try assumption.
  - intros (ml & [H1 H2 H3 H4 H5 H6 H7 H8 H9 H10 H11 H12 H13 H14 H15] & ->).
    unfold CanonicalManifestSpec. cbv zeta. rewrite H1. cbn [rbind].
    change (check_declaration _) with (check_declaration (based s0)). rewrite H2. cbn [rbind].
    change (check_family _ _ _) with (check_family sha256hex MarshalHoldout (based s0)). rewrite H3. cbn [rbind].
    change (check_policies _) with (check_policies (based s0)). rewrite H4. cbn [rbind].
    change (sortedUnique _) with (sortedUnique (MS_Metrics s0)). rewrite (proj2 (sortedUnique_spec _ _) (conj H5 eq_refl)).
    change (check_confirmatory _) with (check_confirmatory (declared (based s0))). rewrite H6. cbn [rbind].
    change (check_thresholds _) with (check_thresholds (declared (based s0))). rewrite H7. cbn [rbind].
    change (check_collections _) with (check_collections (declared (based s0))). rewrite H8. cbn [rbind].
    change (check_jobs _) with (check_jobs (declared (based s0))). rewrite H9. cbn [rbind].
    change (check_model _) with (check_model (declared (based s0))). rewrite H10. cbn [rbind].
    change (check_override _) with (check_override (declared (based s0))). rewrite H11. cbn [rbind].
    change (sort_tuning _) with (sort_tuning (MS_AllowedTuning s0)). rewrite H12. cbn [rbind].
    rewrite sort_strings_idemp.
    change (existsb bad_threshold _) with (existsb bad_threshold (MS_PromotionThresholds (finished (based s0) ml) ++ MS_RollbackThresholds (finished (based s0) ml))).
    rewrite H13. change (MarshalSpec _) with (MarshalSpec (finished (based s0) ml)). by rewrite H14, H15.
Qed.

(** ** A canonical specification is its own canonical form *)
Lemma check_identity_order range range' s : orders range -> orders range' -> distinct_keys (AP_Payload (MS_AuthorityPolicy s)) ->
  check_identity sha256hex MarshalPolicy range s = Ok tt -> check_identity sha256hex MarshalPolicy range' s = Ok tt.
Proof.
  intros Hr Hr' Hd. unfold check_identity. intros H. destruct (negb _); [done|]. destruct (negb _); [done|].
  destruct (Envelope_Verify _ _ _ _) as [[]|e|w] eqn:E in H; [|done..]. by rewrite (Envelope_Verify_order _ _ _ _ _ Hr Hr' Hd E).
Qed.
Lemma identified_schema range s : check_identity sha256hex MarshalPolicy range s = Ok tt -> MS_SchemaVersion s = ManifestSchemaVersion.
Proof.
  unfold check_identity. intros H. destruct (identified s) eqn:E; cbn [negb] in H; [|done]. unfold identified in E. clear H. by bool_prop.
Qed.
Lemma exact_nonempty s : exactDigest s = true -> s <> "".
Proof. by intros H ->. Qed.
Section Stable.
Context (range : gmap string string -> list (string * string)) (s0 : ManifestSpec) (ml : option MLRequirements) (encoded : string).
Hypothesis Hc : canonical range s0 ml encoded.
Let n := finished (based s0) ml.
Lemma schema_stable : schema_of n = ManifestSchemaVersion.
Proof using Hc.
  pose proof (identified_schema _ _ (ca_identity _ _ _ _ Hc)) as E. cbn in E. unfold schema_of at 1.
  change (MS_SchemaVersion n) with (schema_of s0). rewrite E. vm_compute. reflexivity.
Qed.
Lemma family_stable : family_of sha256hex MarshalFamily n = family_of sha256hex MarshalFamily s0.
Proof using Hc.
  pose proof (ca_family _ _ _ _ Hc) as H. unfold check_family in H. destruct (exactDigest (MS_FamilyID _)) eqn:E; cbn [negb] in H; [|done].
  apply exact_nonempty in E. unfold family_of at 1. change (MS_FamilyID n) with (MS_FamilyID (based s0)).
  rewrite (proj2 (String.eqb_neq _ _) E). done.
Qed.
Lemma based_stable : based n = n.
Proof using Hc.
  unfold based. rewrite schema_stable, family_stable.
  pose proof (identified_schema _ _ (ca_identity _ _ _ _ Hc)) as E. cbn in E. by rewrite <- E.
Qed.
Lemma declared_stable : declared n = n.
Proof using Type. unfold declared. cbn. by rewrite !zero_sorted, sort_strings_idemp. Qed.
Lemma finished_stable : finished n ml = n.
Proof using Type.
  unfold finished. cbn. rewrite !zero_sorted, sort_strings_idemp, !(SliceStable_idemp _ thresholdLess_asym), <- map_fmap_compose.
  unfold n, finished. f_equal. apply map_fmap_ext. intros k l _. apply sort_strings_idemp.
Qed.
Lemma model_stable s : check_model s = Ok ml -> check_model (with_collections s ml (MS_AllowedTuning s) (MS_Metrics s) (MS_PromotionThresholds s) (MS_RollbackThresholds s)) = Ok ml.
Proof using ml.
  clear Hc n s0 encoded range.
  unfold check_model. cbn. destruct (MS_Model s) as [m|]; [|destruct (is_some _); by intros [= <-]].
  intros H. change (ValidateModelAuthority m _) with (ValidateModelAuthority m s) in *.
  destruct (ValidateModelAuthority m s); [|done..]. destruct (MS_MLRequirements s) as [q|]; [|done]. cbn [rbind] in *.
  destruct (NormalizeMLRequirements q) as [q'| |] eqn:E; [|done..]. cbn [rbind] in H. destruct (_ || _) eqn:E1 in H; [done|]. injection H as <-.
  rewrite (NormalizeMLRequirements_idemp _ _ E). cbn [rbind]. by rewrite E1.
Qed.
Lemma canonical_stable range' : orders range -> orders range' -> distinct_keys (AP_Payload (MS_AuthorityPolicy s0)) -> canonical range' n ml encoded.
Proof using Hc.
  intros Hr Hr' Hd. pose proof Hc as [H1 H2 H3 H4 H5 H6 H7 H8 H9 H10 H11 H12 H13 H14 H15].
  constructor; rewrite ?based_stable, ?declared_stable, ?finished_stable; try done.
  - rewrite schema_stable. pose proof (identified_schema _ _ H1) as E. cbn in E. rewrite E in H1.
    change (check_identity sha256hex MarshalPolicy range' _) with (check_identity sha256hex MarshalPolicy range' (with_identity s0 ManifestSchemaVersion (MS_FamilyID s0))).
    eapply check_identity_order; [exact Hr | exact Hr' | exact Hd | exact H1].
  - revert H4. unfold check_policies. unfold n, finished. cbn. by rewrite sort_strings_length, !SliceStable_length, !length_fmap.
  - change (MS_Metrics n) with (sort_strings (MS_Metrics s0)). by rewrite sort_strings_idemp.
  - apply (check_thresholds_perm (declared (based s0))); [done | | done].
    cbn. apply Permutation_app; apply SliceStable_Permutation.
  - revert H8. unfold check_collections. unfold n, finished, declared. cbn.
    by rewrite !SliceStable_length, map_size_fmap, bad_choices_sorted.
  - by apply model_stable in H10.
  - apply sort_tuning_idemp in H12. change (MS_AllowedTuning n) with (sort_strings <$> MS_AllowedTuning s0). rewrite H12. f_equal.
    by apply sort_tuning_spec in H12 as [_ E].
Qed.
End Stable.
Lemma CanonicalManifestSpec_idemp range range' s0 encoded n : orders range -> orders range' -> distinct_keys (AP_Payload (MS_AuthorityPolicy s0)) ->
  Canonical range s0 = Ok (encoded, n) -> Canonical range' n = Ok (encoded, n).
Proof.
  intros Hr Hr' Hd (ml & Hc & ->)%CanonicalManifestSpec_spec. apply CanonicalManifestSpec_spec. exists ml.
  split; [by eapply canonical_stable|]. by rewrite (based_stable _ _ _ _ Hc), finished_stable.
Qed.

(** A manifest that was created verifies, at any later time and whatever
    order the payload of its policy is visited in (as long as no two keys of
    the payload differ only in surrounding space): creating it puts its
    specification into a canonical form which canonicalization does not change,
    so that its content and record identities are found again. *)
Theorem NewManifest_verifies range range' spec createdAt m :
  orders range -> orders range' -> distinct_keys (AP_Payload (MS_AuthorityPolicy spec)) ->
  New range spec createdAt = Ok m ->
  Verify range' m = Ok tt /\ Canonical range' (EM_Spec m) = Canonical range spec /\
  EM_ContentID m = EM_ContentDigest m /\ EM_CreatedAt m <= createdAt < EM_CreatedAt m + 1000.
Proof.
  intros Hr Hr' Hd H. unfold NewManifest in H. destruct (Canonical range spec) as [[encoded n]|e|w] eqn:E; [|done..]. cbn [rbind] in H.
  destruct (IsZero _); [done|]. injection H as <-. cbn [EM_Spec EM_ContentID EM_ContentDigest EM_CreatedAt fst snd].
  pose proof (CanonicalManifestSpec_idemp range range' spec encoded n Hr Hr' Hd E) as E'. rewrite E'. split_and!; try done.
  - unfold Manifest_Verify. cbn [EM_Spec EM_ContentID EM_ContentDigest EM_CreatedAt EM_ID]. rewrite E'. cbn [rbind fst].
    rewrite String.eqb_refl. cbn. by rewrite String.eqb_refl.
  - unfold truncate_micro. pose proof (Z.mod_pos_bound createdAt 1000). lia.
  - unfold truncate_micro. pose proof (Z.mod_pos_bound createdAt 1000). lia.
Qed.
End Canonical.
