(* ===== verification/FoldMetrics.v ===== *)
(** * FoldMetrics: [internal/validation/primitives.go] and [ValidateFoldMetrics]

    [DeriveFoldMetrics] is the only way from the trades, fills and curve of a
    fold to its summary. Floats are binary64, without fused operations; the
    order in which a loop visits a map is the parameter [range] (the number of
    the loop comes first: the language gives each its own order). *)
From Stdlib Require Import QArith.
From stdpp Require Import base numbers strings gmap list.
From S2P Require Import Prelude GoStrings GoFloat GoTime GoRat Exact Snapshots ValidationTypes.
Local Open Scope Z_scope.

Definition f_1e10 : float64 := f_of_ratio 1 10000000000.
Definition tolerance (scale : float64) : float64 := fmax f_1e10 (fmul (fabs scale) f_1e10).
(** [math.Abs(x) > tolerance(scale)]. *)
Definition off (x scale : float64) : bool := flt (tolerance scale) (fabs x).
Definition len {A} (l : list A) : Z := Z.of_nat (length l).
Definition flen {A} (l : list A) : float64 := f_of_Z (len l).
(** [int(math.Ceil(x))]. *)
Definition Ceil (x : float64) : Z := let t := f_trunc x in if flt (f_of_Z t) x then t + 1 else t.
Definition fsum (l : list float64) : float64 := foldl fadd fzero l.
(** The order of [sort.Float64s]: NaN first. Equal floats are interchangeable
    but for the sign of zero. *)
Definition float_less (x y : float64) : bool := flt x y || (is_nan x && negb (is_nan y)).
Definition sort_floats (l : list float64) : list float64 := SliceStable float_less l.
(** [m[k] += v]. *)
Definition add_at (m : gmap string float64) (k : string) (v : float64) : gmap string float64 := <[k := fadd (default fzero (m !! k)) v]> m.

(** ** The curve *)
Record CurveState : Type := mkCurveState {
  cs_peak : float64; cs_drawdown : float64; cs_gross : float64; cs_net : float64; cs_previous : option CurvePrimitive; cs_returns : list float64 }.
Definition bad_point (point : CurvePrimitive) : bool :=
  IsZero (CP_At point) || negb (finite_f (CP_Equity point)) || negb (finite_f (CP_Benchmark point)) ||
  negb (finite_f (CP_GrossExposure point)) || negb (finite_f (CP_NetExposure point)) ||
  fle (CP_Equity point) fzero || fle (CP_Benchmark point) fzero.
Definition curve_step (s : CurveState) (point : CurvePrimitive) : res CurveState :=
  if bad_point point then Err (DiagnosticError DiagnosticNonFinite "curve" "") else
  if match cs_previous s with Some p => negb (After (CP_At point) (CP_At p)) | None => false end
  then Err (DiagnosticError DiagnosticInvalidWindowOrder "curve" "") else
  let returns := match cs_previous s with
    | Some p => cs_returns s ++ [fsub (fdiv (CP_Equity point) (CP_Equity p)) fone]
    | None => cs_returns s end in
  let peak := if flt (cs_peak s) (CP_Equity point) then CP_Equity point else cs_peak s in
  let current := fdiv (fsub peak (CP_Equity point)) peak in
  let drawdown := if flt (cs_drawdown s) current then current else cs_drawdown s in
  Ok (mkCurveState peak drawdown (fadd (cs_gross s) (CP_GrossExposure point)) (fadd (cs_net s) (CP_NetExposure point)) (Some point) returns).

(** ** Trades and fills *)
Record TradeState : Type := mkTradeState {
  ts_ids : gset string; ts_regimes : gmap string Z; ts_regimeContrib : gmap string float64; ts_tradeContrib : gmap string float64;
  ts_symbolContrib : gmap string float64; ts_netPnL : float64 }.
Definition trade_step (capital : float64) (s : TradeState) (trade : TradePrimitive) : res TradeState :=
  if (TP_ID trade =s "") || (TP_Symbol trade =s "") || (TP_Regime trade =s "") || IsZero (TP_OpenedAt trade) ||
     negb (After (TP_ClosedAt trade) (TP_OpenedAt trade))
  then Err (DiagnosticError DiagnosticInvalidManifest "trade" "complete unique chronological trade is required") else
  if bool_decide (TP_ID trade ∈ ts_ids s)
  then Err (DiagnosticError DiagnosticManifestIntegrity "trade.id" ("duplicate trade: " +:+ TP_ID trade)) else
  if negb (finite_f (TP_Notional trade)) || flt (TP_Notional trade) fzero || negb (finite_f (TP_AvailableLiquidity trade)) ||
     fle (TP_AvailableLiquidity trade) fzero || negb (finite_f (TP_GrossPnL trade)) || negb (finite_f (TP_Cost trade)) ||
     flt (TP_Cost trade) fzero || negb (finite_f (TP_NetPnL trade)) ||
     off (fsub (fsub (TP_GrossPnL trade) (TP_Cost trade)) (TP_NetPnL trade)) capital
  then Err (DiagnosticError DiagnosticManifestIntegrity "trade.pnl" "gross-cost must equal net PnL") else
  let contribution := fdiv (TP_NetPnL trade) capital in
  Ok (mkTradeState ({[TP_ID trade]} ∪ ts_ids s)
        (<[TP_Regime trade := default 0 (ts_regimes s !! TP_Regime trade) + 1]> (ts_regimes s))
        (add_at (ts_regimeContrib s) (TP_Regime trade) contribution) (<[TP_ID trade := contribution]> (ts_tradeContrib s))
        (add_at (ts_symbolContrib s) (TP_Symbol trade) contribution) (fadd (ts_netPnL s) (TP_NetPnL trade))).

Definition bad_side (side : string) : bool := (side <>s "buy") && (side <>s "sell").
Record FillState : Type := mkFillState { fs_ids : gset string; fs_orders : gset string; fs_turnover : float64; fs_participation : float64 }.
Definition fill_step (capital : float64) (s : FillState) (fill : FillPrimitive) : res FillState :=
  if (FP_ID fill =s "") || (FP_Symbol fill =s "") || bad_side (FP_Side fill) || IsZero (FP_At fill) ||
     negb (finite_f (FP_Notional fill)) || fle (FP_Notional fill) fzero || negb (finite_f (FP_AvailableLiquidity fill)) ||
     fle (FP_AvailableLiquidity fill) fzero
  then Err (DiagnosticError DiagnosticManifestIntegrity "fill" "complete economic fill is required") else
  if bool_decide (FP_ID fill ∈ fs_ids s)
  then Err (DiagnosticError DiagnosticManifestIntegrity "fill.id" ("duplicate fill: " +:+ FP_ID fill)) else
  let participation := fdiv (FP_Notional fill) (FP_AvailableLiquidity fill) in
  Ok (mkFillState ({[FP_ID fill]} ∪ fs_ids s) (if FP_OrderID fill <>s "" then {[FP_OrderID fill]} ∪ fs_orders s else fs_orders s)
        (fadd (fs_turnover s) (fdiv (FP_Notional fill) capital))
        (if flt (fs_participation s) participation then participation else fs_participation s)).

(** ** Rejected orders *)
Definition no_fills (details : string) : error := DiagnosticError DiagnosticManifestIntegrity "no_fills" details.
Definition bad_no_fill (r : NoFillPrimitive) : bool :=
  (NF_OrderID r =s "") || (NF_Symbol r =s "") || bad_side (NF_Side r) || IsZero (NF_SignalAt r) ||
  negb (After (NF_SelectedOpenAt r) (NF_SignalAt r)) || negb (After (NF_EvaluatedAt r) (NF_SelectedOpenAt r)) || (NF_DatasetManifestID r =s "").
Definition bad_chronology (curveStart curveEnd previousSignal : Time) (r : NoFillPrimitive) : bool :=
  Before (NF_SignalAt r) curveStart || After (NF_EvaluatedAt r) curveEnd ||
  (negb (IsZero previousSignal) && Before (NF_SignalAt r) previousSignal) ||
  negb (NF_SelectedOpenAt r =? Truncate (NF_SelectedOpenAt r) MinuteNs) ||
  negb (NF_EvaluatedAt r =? NF_SelectedOpenAt r + (MinuteNs - 1000000)).
(** The quantities and prices; the approved quantity when they are valid. *)
Definition rejected_quantity (r : NoFillPrimitive) : option Q :=
  match Rat_SetString (NF_RequestedQuantity r), Rat_SetString (NF_ApprovedQuantity r), Rat_SetString (NF_FilledQuantity r),
        Rat_SetString (NF_ReferencePrice r), Rat_SetString (NF_SelectedOpenPrice r) with
  | Some requested, Some approved, Some filled, Some reference, Some open =>
      if (Rat_Sign requested <=? 0) || (Rat_Sign approved <=? 0) || (0 <? Rat_Cmp approved requested) || negb (Rat_Sign filled =? 0) ||
         (Rat_Sign reference <=? 0) || (Rat_Sign open <=? 0) then None else Some approved
  | _, _, _, _, _ => None
  end.
Definition check_policy (r : NoFillPrimitive) (approved : Q) : res unit :=
  if NF_ExecutionPolicyVersion r =s "backtest-execution-v3" then
    failIf ((NF_SchemaVersion r <>s "simulated-no-fill-v1") || (NF_Reason r <>s "simulated_no_fill_zero_trades") ||
            (NF_LiquidityEvidence r <>s "zero_base_volume") || (NF_SelectedClosePrice r <>s "") || (NF_BarVolume r <>s "") ||
            (NF_CapacityQuantity r <>s "")) (no_fills "v3 no-fill policy or evidence differs")
  else if NF_ExecutionPolicyVersion r =s "backtest-execution-v4" then
    if (NF_SchemaVersion r <>s "simulated-no-fill-v2") || (NF_Reason r <>s "simulated_no_fill_volume_cap") ||
       (NF_LiquidityEvidence r <>s "selected_bar_base_volume_10pct")
    then Err (no_fills "v4 capacity no-fill policy differs") else
    match Rat_SetString (NF_SelectedClosePrice r), Rat_SetString (NF_BarVolume r), Rat_SetString (NF_CapacityQuantity r) with
    | Some closePrice, Some volume, Some capacity =>
        failIf ((Rat_Sign closePrice <=? 0) || (Rat_Sign volume <? 0) || (Rat_Sign capacity <? 0) ||
                (0 <? Rat_Cmp capacity (volume / (10 # 1))%Q) || (Rat_Cmp approved capacity <=? 0))
          (no_fills "v4 no-fill price, volume or capacity is invalid")
    | _, _, _ => Err (no_fills "v4 no-fill price, volume or capacity is invalid")
    end
  else Err (no_fills "unsupported no-fill execution policy").
Definition no_fill_step (filledOrders : gset string) (curveStart curveEnd : Time) (s : gset string * Time) (r : NoFillPrimitive) : res (gset string * Time) :=
  let '(seen, previousSignal) := s in
  if bad_no_fill r then Err (no_fills "incomplete simulated no-fill evidence") else
  if bad_chronology curveStart curveEnd previousSignal r
  then Err (no_fills "no-fill chronology differs from the fold curve or selected minute") else
  match rejected_quantity r with
  | None => Err (no_fills "no-fill quantity or price is invalid")
  | Some approved =>
      let* _ := check_policy r approved in
      if bool_decide (NF_OrderID r ∈ seen) then Err (no_fills "duplicate no-fill order") else
      if bool_decide (NF_OrderID r ∈ filledOrders) then Err (no_fills "no-fill order also has an economic fill") else
      Ok ({[NF_OrderID r]} ∪ seen, NF_SignalAt r)
  end.
Definition validateNoFillSet (values : list NoFillPrimitive) (filledOrders : gset string) (curveStart curveEnd : Time) : res unit :=
  let* _ := foldM (no_fill_step filledOrders curveStart curveEnd) (∅, 0) values in Ok tt.

(** ** Residual positions *)
Record ResidualState : Type := mkResidualState { rs_open : gmap string float64; rs_symbols : gmap string float64; rs_netPnL : float64 }.
Definition residual_step (capital : float64) (curveEnd : Time) (s : ResidualState) (p : ResidualPositionPrimitive) : res ResidualState :=
  if (RS_Symbol p =s "") || IsZero (RS_MarkedAt p) || After (RS_MarkedAt p) curveEnd
  then Err (DiagnosticError DiagnosticManifestIntegrity "residual_position" "final marked inventory must identify its symbol and valuation time") else
  if bool_decide (is_Some (rs_open s !! RS_Symbol p))
  then Err (DiagnosticError DiagnosticManifestIntegrity "residual_position.symbol" "duplicate final position") else
  if negb (finite_f (RS_Quantity p)) || fle (RS_Quantity p) fzero || negb (finite_f (RS_CostBasis p)) || fle (RS_CostBasis p) fzero ||
     negb (finite_f (RS_EntryFee p)) || flt (RS_EntryFee p) fzero || negb (finite_f (RS_MarkPrice p)) || fle (RS_MarkPrice p) fzero ||
     negb (finite_f (RS_MarkValue p)) || fle (RS_MarkValue p) fzero || negb (finite_f (RS_UnrealizedPnL p)) ||
     off (fsub (fmul (RS_Quantity p) (RS_MarkPrice p)) (RS_MarkValue p)) capital ||
     off (fsub (fsub (fsub (RS_MarkValue p) (RS_CostBasis p)) (RS_EntryFee p)) (RS_UnrealizedPnL p)) capital
  then Err (DiagnosticError DiagnosticManifestIntegrity "residual_position.pnl" "marked value, basis, fees and unrealized PnL do not reconcile") else
  let contribution := fdiv (RS_UnrealizedPnL p) capital in
  Ok (mkResidualState (<[RS_Symbol p := contribution]> (rs_open s)) (add_at (rs_symbols s) (RS_Symbol p) contribution)
        (fadd (rs_netPnL s) (RS_UnrealizedPnL p))).

(** ** Risk figures of the period returns *)
Definition square_below (s r : float64) : float64 := if flt r fzero then fadd s (fmul r r) else s.
Definition downsideAndExpectedShortfall (returns : list float64) : float64 * float64 :=
  match returns with
  | [] => (fzero, fzero)
  | _ =>
      let downside := fsqrt (fdiv (foldl square_below fzero returns) (flen returns)) in
      let n := Z.max 1 (Ceil (fmul (f_of_ratio 5 100) (flen returns))) in
      (downside, fmax fzero (fdiv (fneg (fsum (take (Z.to_nat n) (sort_floats returns)))) (f_of_Z n)))
  end.
Definition periodSharpe (returns : list float64) : float64 :=
  if len returns <? 2 then fzero else
  let avg := fdiv (fsum returns) (flen returns) in
  let variance := foldl (fun s r => fadd s (fmul (fsub r avg) (fsub r avg))) fzero returns in
  let std := fsqrt (fdiv variance (f_of_Z (len returns - 1))) in
  if feq std fzero then fzero else fdiv avg std.

(** ** [DeriveFoldMetrics] *)
Definition mismatch (p : FoldPrimitives) (gross turnover : float64) : bool :=
  negb (finite_f (FPr_BaselineGrossExposure p)) || negb (finite_f (FPr_BaselineTurnover p)) || flt (FPr_BaselineTurnover p) fzero ||
  off (fsub (FPr_BaselineGrossExposure p) (fdiv gross (flen (FPr_Curve p)))) fone ||
  off (fsub (FPr_BaselineTurnover p) turnover) (fmax fone turnover).
Definition derived (p : FoldPrimitives) (first final : CurvePrimitive) (c : CurveState) (t : TradeState) (f : FillState) (r : ResidualState) : FoldMetrics :=
  let capital := FPr_StartingCapital p in
  let benchmarkReturn := fsub (fdiv (CP_Benchmark final) (CP_Benchmark first)) fone in
  let afterCostReturn := fdiv (rs_netPnL r) capital in
  let expectancy := if 0 <? len (FPr_Trades p) then fdiv (fdiv (ts_netPnL t) capital) (flen (FPr_Trades p)) else fzero in
  let '(downside, tail) := downsideAndExpectedShortfall (cs_returns c) in
  {| FM_Observations := FPr_ObservedObservations p; FM_Trades := len (FPr_Trades p); FM_NoFillCount := len (FPr_NoFills p);
     FM_BaselineNoFillCount := len (FPr_BaselineNoFills p); FM_BenchmarkPresent := true;
     FM_CoverageComplete := FPr_ObservedObservations p =? FPr_ExpectedObservations p; FM_Regimes := ts_regimes t;
     FM_RegimeContributions := ts_regimeContrib t; FM_AfterCostExpectancy := expectancy; FM_AfterCostReturn := afterCostReturn;
     FM_BenchmarkRelativeReturn := fsub afterCostReturn benchmarkReturn; FM_MaxDrawdown := cs_drawdown c; FM_Turnover := fs_turnover f;
     FM_GrossExposure := fdiv (cs_gross c) (flen (FPr_Curve p)); FM_NetExposure := fdiv (cs_net c) (flen (FPr_Curve p));
     FM_Coverage := fdiv (f_of_Z (FPr_ObservedObservations p)) (f_of_Z (FPr_ExpectedObservations p)); FM_DownsideDeviation := downside;
     FM_ExpectedShortfall95 := tail; FM_MaxLiquidityParticipation := fs_participation f; FM_Sharpe := periodSharpe (cs_returns c);
     FM_TradeContributions := ts_tradeContrib t; FM_OpenPositionContributions := rs_open r; FM_SymbolContributions := rs_symbols r |}.
Definition DeriveFoldMetrics (p : FoldPrimitives) : res FoldMetrics :=
  let capital := FPr_StartingCapital p in
  if negb (finite_f capital) || fle capital fzero
  then Err (DiagnosticError DiagnosticInvalidManifest "starting_capital" "finite positive capital is required") else
  if (FPr_ExpectedObservations p <=? 0) || (FPr_ObservedObservations p <? 0) || (FPr_ExpectedObservations p <? FPr_ObservedObservations p)
  then Err (DiagnosticError DiagnosticIncompleteCoverage "" "observation coverage cannot be reconciled") else
  match FPr_Curve p with
  | first :: (_ :: _) as rest =>
      let final := List.last (FPr_Curve p) first in
      if off (fsub (CP_Equity first) capital) capital
      then Err (DiagnosticError DiagnosticManifestIntegrity "curve" "curve does not start at declared capital") else
      let* c := foldM curve_step (mkCurveState (CP_Equity first) fzero fzero fzero None []) (FPr_Curve p) in
      let* t := foldM (trade_step capital) (mkTradeState ∅ ∅ ∅ ∅ ∅ fzero) (FPr_Trades p) in
      let* f := foldM (fill_step capital) (mkFillState ∅ ∅ fzero fzero) (FPr_Fills p) in
      let* _ := validateNoFillSet (FPr_NoFills p) (fs_orders f) (CP_At first) (CP_At final) in
      let* _ := validateNoFillSet (FPr_BaselineNoFills p) ∅ (CP_At first) (CP_At final) in
      if (0 <? len (FPr_Trades p)) && (len (FPr_Fills p) =? 0)
      then Err (DiagnosticError DiagnosticManifestIntegrity "fills" "trades require economic fill evidence") else
      let* r := foldM (residual_step capital (CP_At final)) (mkResidualState ∅ (ts_symbolContrib t) (ts_netPnL t)) (FPr_ResidualPositions p) in
      if mismatch p (cs_gross c) (fs_turnover f)
      then Err (DiagnosticError DiagnosticBaselineMismatch "" "baseline must be exposure and turnover matched") else
      if off (fsub (fsub (CP_Equity final) capital) (rs_netPnL r)) capital
      then Err (DiagnosticError DiagnosticManifestIntegrity "curve" "final equity does not reconcile to trade PnL") else
      Ok (derived p first final c t f r)
  | _ => Err (DiagnosticError DiagnosticMissingBenchmark "" "aligned equity and benchmark curve is required")
  end.

(** ** [ValidateFoldMetrics] *)
Section Validate.
Context (range : nat -> forall A, gmap string A -> list (string * A)).

Definition regime_step (m : FoldMetrics) (total : Z) (kv : string * Z) : res Z :=
  if (kv.1 =s "") || (kv.2 <=? 0) then Err (DiagnosticError DiagnosticInsufficientRegimes "" "invalid regime cohort") else
  if bool_decide (is_Some (FM_RegimeContributions m !! kv.1)) then Ok (total + kv.2)
  else Err (DiagnosticError DiagnosticInsufficientRegimes "" "regime contribution cohort mismatch").
Definition open_step (total : float64) (kv : string * float64) : res float64 :=
  if (kv.1 =s "") || negb (finite_f kv.2) then Err (DiagnosticError DiagnosticNonFinite "open_position_contributions" "")
  else Ok (fadd total kv.2).
Definition label_loop (label : string) : nat := if label =s "trade" then 3 else if label =s "symbol" then 4 else 5.
Definition reconcile_label (m : FoldMetrics) (openTotal : float64) (lv : string * gmap string float64) : res unit :=
  let '(label, values) := lv in
  let total := foldl (fun s kv => fadd s kv.2) fzero (range (label_loop label) float64 values) in
  let total := if label <>s "symbol" then fadd total openTotal else total in
  failIf (off (fsub total (FM_AfterCostReturn m)) (fmax fone (fabs (FM_AfterCostReturn m))))
    (DiagnosticError DiagnosticManifestIntegrity "" (label +:+ " contributions do not reconcile to after-cost return")).
Definition contributions (m : FoldMetrics) : gmap string (gmap string float64) :=
  list_to_map [("trade", FM_TradeContributions m); ("symbol", FM_SymbolContributions m); ("regime", FM_RegimeContributions m)].
Definition metric_values (m : FoldMetrics) : list float64 :=
  [FM_AfterCostExpectancy m; FM_AfterCostReturn m; FM_BenchmarkRelativeReturn m; FM_MaxDrawdown m; FM_Turnover m; FM_GrossExposure m;
   FM_NetExposure m; FM_Coverage m; FM_DownsideDeviation m; FM_ExpectedShortfall95 m; FM_MaxLiquidityParticipation m; FM_Sharpe m].
Definition all_finite (values : gmap string float64) : bool := forallb (fun kv => finite_f kv.2) (map_to_list values).
Definition map_len {A} (m : gmap string A) : Z := Z.of_nat (size m).

Definition ValidateFoldMetrics (m : FoldMetrics) (requirements : SampleRequirements) : res unit :=
  if FM_Observations m <? SR_MinObservationsPerFold requirements
  then Err (DiagnosticError DiagnosticInsufficientObservations "" ("got " +:+ Itoa (FM_Observations m))) else
  if FM_Trades m =? 0 then Err (DiagnosticError DiagnosticZeroTrades "" "untouched test window has no trades") else
  if FM_Trades m <? SR_MinTradesPerFold requirements
  then Err (DiagnosticError DiagnosticInsufficientTrades "" ("got " +:+ Itoa (FM_Trades m))) else
  if negb (FM_BenchmarkPresent m) then Err (DiagnosticError DiagnosticMissingBenchmark "" "") else
  if negb (FM_CoverageComplete m) then Err (DiagnosticError DiagnosticIncompleteCoverage "" "") else
  if map_len (FM_Regimes m) <? SR_MinRegimes requirements
  then Err (DiagnosticError DiagnosticInsufficientRegimes "" ("got " +:+ Itoa (map_len (FM_Regimes m)))) else
  if map_len (FM_RegimeContributions m) <? SR_MinRegimes requirements
  then Err (DiagnosticError DiagnosticInsufficientRegimes "" "regime contribution evidence is incomplete") else
  let* regimeTrades := foldM (regime_step m) 0 (range 0 Z (FM_Regimes m)) in
  if negb (regimeTrades =? FM_Trades m) || negb (map_len (FM_Regimes m) =? map_len (FM_RegimeContributions m))
  then Err (DiagnosticError DiagnosticManifestIntegrity "" "regime counts do not reconcile to trades") else
  if negb (map_len (FM_TradeContributions m) =? FM_Trades m) || (map_len (FM_SymbolContributions m) =? 0)
  then Err (DiagnosticError DiagnosticManifestIntegrity "" "trade and symbol contributions must be complete") else
  let* openTotal := foldM open_step fzero (range 1 float64 (FM_OpenPositionContributions m)) in
  let* _ := forM_ (reconcile_label m openTotal) (range 2 (gmap string float64) (contributions m)) in
  if existsb (fun v => negb (finite_f v)) (metric_values m) then Err (DiagnosticError DiagnosticNonFinite "" "") else
  if negb (all_finite (FM_RegimeContributions m) && all_finite (FM_TradeContributions m) &&
           all_finite (FM_OpenPositionContributions m) && all_finite (FM_SymbolContributions m))
  then Err (DiagnosticError DiagnosticNonFinite "" "") else Ok tt.
End Validate.

Lemma len_fmap {A B} (f : A -> B) l : len (f <$> l) = len l.
Proof. unfold len. by rewrite length_fmap. Qed.
