(* ===== verification/FoldMetricsProofs.v ===== *)
(** * FoldMetricsProofs: what an accepted fold summary guarantees *)
From Stdlib Require Import QArith SpecFloat Sorting.Sorted.
From stdpp Require Import base numbers strings gmap list.
From S2P Require Import Prelude GoStrings GoFloat GoFloatFacts GoTime GoRat Exact Snapshots ValidationTypes FoldMetrics.
Local Open Scope Z_scope.

(** ** Helpers *)
Lemma Sorted_snoc {A} (R : A -> A -> Prop) l x : Sorted R l -> (forall y, last l = Some y -> R y x) -> Sorted R (l ++ [x]).
Proof.
  intros Hs. induction Hs as [|y l Hs IH Hd]; intros H; cbn [app]; [by repeat constructor|].
  constructor; [apply IH; intros z Hz; apply H; destruct l; [done | exact Hz] |].
  destruct Hd as [|z l Hyz]; constructor; [by apply H | done].
Qed.
Lemma flt_nonneg x y : nonneg x = true -> flt x y = true -> nonneg y = true.
Proof. by destruct x as [[]|[]| |[] ? ?], y as [[]|[]| |[] ? ?]. Qed.
Lemma max_nonneg x y : nonneg x = true -> nonneg (if flt x y then y else x) = true.
Proof. intros H. destruct (flt x y) eqn:E; [by eapply flt_nonneg | done]. Qed.
Lemma positive_not_le x : finite_f x = true -> fle x fzero = false -> positive_finite x = true.
Proof. by destruct x as [[]|[]| |[]]. Qed.

(** The sum of the counts of a map. *)
Definition counts (m : gmap string Z) : Z := Zsum snd (map_to_list m).
Lemma counts_insert m k : counts (<[k := default 0 (m !! k) + 1]> m) = counts m + 1.
Proof.
  unfold counts. rewrite <- insert_delete_eq, (Zsum_perm _ _ _ (map_to_list_insert _ _ _ (lookup_delete_eq m k))), Zsum_cons.
  destruct (m !! k) as [v|] eqn:E; cbn [default snd].
  - rewrite <- (Zsum_perm _ _ _ (map_to_list_delete _ _ _ E)), Zsum_cons. cbn. lia.
  - rewrite delete_id by done. cbn. lia.
Qed.

(** ** The curve *)
Definition point_ok (c : CurvePrimitive) : Prop :=
  CP_At c <> 0 /\ positive_finite (CP_Equity c) = true /\ positive_finite (CP_Benchmark c) = true /\
  finite_f (CP_GrossExposure c) = true /\ finite_f (CP_NetExposure c) = true.
Definition curve_inv (done : list CurvePrimitive) (s : CurveState) : Prop :=
  Forall point_ok done /\ Sorted (fun a b => CP_At a < CP_At b) done /\ cs_previous s = last done /\ nonneg (cs_drawdown s) = true.
Lemma good_point c : bad_point c = false -> point_ok c.
Proof. unfold bad_point, point_ok, IsZero. intros H. bool_prop. split_and!; auto using positive_not_le. Qed.
Lemma curve_inv_loop start l s : foldM curve_step (mkCurveState start fzero fzero fzero None []) l = Ok s -> curve_inv l s.
Proof.
  apply (foldM_inv curve_inv); [by split_and!; constructor|].
  intros d c t t' (H1 & H2 & H3 & H4) _ H. unfold curve_step in H. res_inv. unfold curve_inv. cbn [cs_previous cs_drawdown].
  rewrite Forall_app, Forall_singleton, last_snoc. split_and!; auto using good_point, max_nonneg.
  apply Sorted_snoc; [done|]. intros y Hy. rewrite H3, Hy in *. bool_prop. unfold After in *. lia.
Qed.

(** ** Trades *)
Definition trade_ok (t : TradePrimitive) : Prop :=
  TP_ID t <> "" /\ TP_Symbol t <> "" /\ TP_Regime t <> "" /\ TP_OpenedAt t < TP_ClosedAt t /\
  nonneg (TP_Notional t) = true /\ nonneg (TP_Cost t) = true /\ positive_finite (TP_AvailableLiquidity t) = true.
Definition trade_inv (done : list TradePrimitive) (s : TradeState) : Prop :=
  Forall trade_ok done /\ NoDup (TP_ID <$> done) /\ ts_ids s = list_to_set (TP_ID <$> done) /\
  dom (ts_tradeContrib s) = list_to_set (TP_ID <$> done) /\
  counts (ts_regimes s) = len done /\ dom (ts_regimes s) = list_to_set (TP_Regime <$> done) /\
  dom (ts_regimeContrib s) = list_to_set (TP_Regime <$> done) /\ dom (ts_symbolContrib s) = list_to_set (TP_Symbol <$> done) /\
  (forall k v, ts_regimes s !! k = Some v -> 0 < v).
Lemma list_to_set_snoc {A} `{Countable A} (l : list A) x : list_to_set (l ++ [x]) = ({[x]} ∪ list_to_set l : gset A).
Proof. rewrite list_to_set_app_L. cbn. set_solver. Qed.
Lemma fmap_snoc {A B} (f : A -> B) l x : f <$> l ++ [x] = (f <$> l) ++ [f x].
Proof. by rewrite fmap_app. Qed.
Lemma dom_add_at m k v : dom (add_at m k v) = {[k]} ∪ dom m.
Proof. apply dom_insert_L. Qed.
Lemma len_snoc {A} (l : list A) x : len (l ++ [x]) = len l + 1.
Proof. unfold len. rewrite length_app. cbn. lia. Qed.
Lemma trade_inv_loop capital l s : foldM (trade_step capital) (mkTradeState ∅ ∅ ∅ ∅ ∅ fzero) l = Ok s -> trade_inv l s.
Proof.
  apply (foldM_inv trade_inv).
  { unfold trade_inv. cbn. split_and!; try done; by constructor. }
  intros d t s0 s' (H1 & H2 & H3 & H4 & H5 & H6 & H7 & H8 & H9) _ H. unfold trade_step in H. res_inv.
  apply bool_decide_eq_false in E0. rewrite H3, elem_of_list_to_set in E0.
  unfold trade_inv. cbn [ts_ids ts_tradeContrib ts_regimes ts_regimeContrib ts_symbolContrib].
  rewrite !fmap_snoc, !list_to_set_snoc, len_snoc, !dom_add_at, !dom_insert_L, counts_insert, H3, H4, H5, H6, H7, H8.
  split_and!; try done.
  - apply Forall_app. split; [done|]. apply Forall_singleton. unfold trade_ok. bool_prop. unfold After in *.
    split_and!; auto using le_finite, positive_not_le; lia.
  - apply NoDup_app. split_and!; [done | | apply NoDup_singleton]. intros x Hx ->%list_elem_of_singleton. done.
  - intros k v. destruct (decide (k = TP_Regime t)) as [->|Hn].
    + rewrite lookup_insert_eq. intros [= <-]. destruct (ts_regimes s0 !! TP_Regime t) as [u|] eqn:Eu; cbn; [|lia].
      specialize (H9 _ _ Eu). lia.
    + rewrite lookup_insert_ne by done. apply H9.
Qed.

(** ** Fills *)
Definition fill_ok (f : FillPrimitive) : Prop :=
  FP_ID f <> "" /\ FP_Symbol f <> "" /\ (FP_Side f = "buy" \/ FP_Side f = "sell") /\
  positive_finite (FP_Notional f) = true /\ positive_finite (FP_AvailableLiquidity f) = true.
Definition fill_inv (done : list FillPrimitive) (s : FillState) : Prop :=
  Forall fill_ok done /\ NoDup (FP_ID <$> done) /\ fs_ids s = list_to_set (FP_ID <$> done) /\
  (forall o, o ∈ fs_orders s <-> o <> "" /\ o ∈ FP_OrderID <$> done) /\
  nonneg (fs_turnover s) = true /\ nonneg (fs_participation s) = true.
Lemma good_side s : bad_side s = false -> s = "buy" \/ s = "sell".
Proof. unfold bad_side. intros H. apply andb_false_iff in H as [H|H]; bool_prop; auto. Qed.
Lemma fill_inv_loop capital l s : positive_finite capital = true ->
  foldM (fill_step capital) (mkFillState ∅ ∅ fzero fzero) l = Ok s -> fill_inv l s.
Proof.
  intros Hc. apply (foldM_inv fill_inv).
  { unfold fill_inv. cbn. split_and!; try done; try constructor; [by intros ?%elem_of_empty | by intros [_ ?%elem_of_nil]]. }
  intros d f s0 s' (H1 & H2 & H3 & H4 & H5 & H6) _ H. unfold fill_step in H. res_inv.
  apply bool_decide_eq_false in E0. rewrite H3, elem_of_list_to_set in E0.
  assert (Hf : fill_ok f) by (unfold fill_ok; bool_prop; split_and!; auto using good_side, positive_not_le).
  pose proof Hf as (_ & _ & _ & Hn & Hl).
  unfold fill_inv. cbn [fs_ids fs_orders fs_turnover fs_participation]. rewrite !fmap_snoc, !list_to_set_snoc, H3.
  split_and!; [by apply Forall_app_2; [|apply Forall_singleton] | by apply NoDup_snoc | done | |
    by apply fadd_nonneg, fdiv_nonneg; [|apply positive_nonneg|] | by apply max_nonneg].
  intros o. rewrite elem_of_app, list_elem_of_singleton. destruct (FP_OrderID f =s "") eqn:E1; cbn [negb]; bool_prop.
  - rewrite H4. intuition congruence.
  - rewrite elem_of_union, elem_of_singleton, H4. intuition congruence.
Qed.

(** ** Rejected orders *)
Definition no_fill_ok (orders : gset string) (curveStart curveEnd : Time) (r : NoFillPrimitive) : Prop :=
  (NF_OrderID r <> "" /\ NF_OrderID r ∉ orders) /\ curveStart <= NF_SignalAt r < NF_SelectedOpenAt r /\ NF_SelectedOpenAt r < NF_EvaluatedAt r <= curveEnd /\
  exists requested approved filled, Rat_SetString (NF_RequestedQuantity r) = Some requested /\ Rat_SetString (NF_ApprovedQuantity r) = Some approved /\
    Rat_SetString (NF_FilledQuantity r) = Some filled /\ (filled == 0)%Q /\ (0 < approved)%Q /\ (approved <= requested)%Q.
Lemma rejected_quantity_spec r approved : rejected_quantity r = Some approved ->
  exists requested filled, Rat_SetString (NF_RequestedQuantity r) = Some requested /\ Rat_SetString (NF_ApprovedQuantity r) = Some approved /\
    Rat_SetString (NF_FilledQuantity r) = Some filled /\ (filled == 0)%Q /\ (0 < approved)%Q /\ (approved <= requested)%Q.
Proof.
  unfold rejected_quantity. intros H.
  destruct (Rat_SetString (NF_RequestedQuantity r)) as [q|] eqn:E1; [|done].
  destruct (Rat_SetString (NF_ApprovedQuantity r)) as [a|] eqn:E2; [|done].
  destruct (Rat_SetString (NF_FilledQuantity r)) as [f|] eqn:E3; [|done].
  destruct (Rat_SetString (NF_ReferencePrice r)) as [p|]; [|done]. destruct (Rat_SetString (NF_SelectedOpenPrice r)) as [o|]; [|done].
  destruct (_ || _) eqn:E in H; [done|]. injection H as <-. bool_prop. exists q, f. split_and!; try done.
  - unfold Rat_Sign, Qeq in *. cbn. lia.
  - apply Rat_Sign_lt. lia.
  - apply Qnot_lt_le. intros Hlt. unfold Rat_Cmp in *. apply Qgt_alt in Hlt. rewrite Hlt in *. lia.
Qed.
Lemma validateNoFillSet_ok values orders curveStart curveEnd : validateNoFillSet values orders curveStart curveEnd = Ok tt ->
  Forall (no_fill_ok orders curveStart curveEnd) values /\ NoDup (NF_OrderID <$> values).
Proof.
  unfold validateNoFillSet. intros H. destruct (foldM _ _ _) as [s|e|w] eqn:E; [|done..]. clear H.
  enough (G : Forall (no_fill_ok orders curveStart curveEnd) values /\ NoDup (NF_OrderID <$> values) /\
    s.1 = list_to_set (NF_OrderID <$> values)) by (split; apply G).
  revert E. apply (foldM_inv (fun done (s : gset string * Time) => Forall (no_fill_ok orders curveStart curveEnd) done /\
    NoDup (NF_OrderID <$> done) /\ s.1 = list_to_set (NF_OrderID <$> done))); [by split_and!; try constructor|].
  intros d r [seen prev] s' (H1 & H2 & H3) _ H. unfold no_fill_step in H. cbn in H3. subst seen.
  destruct (bad_no_fill r) eqn:B1; [done|]. destruct (bad_chronology _ _ _ _) eqn:B2; [done|].
  destruct (rejected_quantity r) as [a|] eqn:Eq; [|done]. destruct (check_policy r a) as [[]| |]; [|done..]. cbn [rbind] in H.
  destruct (bool_decide (NF_OrderID r ∈ _)) eqn:B3 in H; [done|]. destruct (bool_decide _) eqn:B4 in H; [done|]. injection H as <-.
  apply bool_decide_eq_false in B3, B4. rewrite elem_of_list_to_set in B3. rewrite fmap_snoc, list_to_set_snoc.
  split_and!; [|by apply NoDup_snoc | done]. apply Forall_app_2; [done|]. apply Forall_singleton.
  unfold bad_no_fill, bad_chronology, After, Before in *. bool_prop.
  destruct (rejected_quantity_spec _ _ Eq) as (q & f & Hq). unfold no_fill_ok. split_and!; [done | done | lia.. |]. by exists q, a, f.
Qed.

(** ** Residual positions *)
Definition residual_inv (symbols : gset string) (done : list ResidualPositionPrimitive) (s : ResidualState) : Prop :=
  dom (rs_open s) = list_to_set (RS_Symbol <$> done) /\ dom (rs_symbols s) = list_to_set (RS_Symbol <$> done) ∪ symbols /\
  NoDup (RS_Symbol <$> done) /\ Forall (fun p => RS_Symbol p <> "") done.
Lemma residual_inv_loop capital end_ l m pnl s :
  foldM (residual_step capital end_) (mkResidualState ∅ m pnl) l = Ok s -> residual_inv (dom m) l s.
Proof.
  apply (foldM_inv (residual_inv (dom m))).
  { unfold residual_inv. cbn. split_and!; try constructor; set_solver. }
  intros d p s0 s' (H1 & H2 & H3 & H4) _ H. unfold residual_step in H. res_inv.
  apply bool_decide_eq_false in E0. rewrite <- elem_of_dom, H1, elem_of_list_to_set in E0.
  unfold residual_inv. cbn [rs_open rs_symbols]. rewrite !fmap_snoc, !list_to_set_snoc, dom_add_at, dom_insert_L, H1, H2.
  split_and!; [done | by rewrite (assoc_L (∪)) | by apply NoDup_snoc|]. apply Forall_app_2; [done|]. apply Forall_singleton. by bool_prop.
Qed.

(** ** An accepted fold *)
(** The steps of a successful [DeriveFoldMetrics]. *)
Lemma DeriveFoldMetrics_steps p m : DeriveFoldMetrics p = Ok m ->
  exists first final c t f r, FPr_Curve p <> [] /\ positive_finite (FPr_StartingCapital p) = true /\
    curve_inv (FPr_Curve p) c /\ trade_inv (FPr_Trades p) t /\ fill_inv (FPr_Fills p) f /\
    validateNoFillSet (FPr_NoFills p) (fs_orders f) (CP_At first) (CP_At final) = Ok tt /\
    residual_inv (dom (ts_symbolContrib t)) (FPr_ResidualPositions p) r /\
    (FPr_Trades p <> [] -> FPr_Fills p <> []) /\ mismatch p (cs_gross c) (fs_turnover f) = false /\
    last (FPr_Curve p) = Some final /\
    off (fsub (fsub (CP_Equity final) (FPr_StartingCapital p)) (rs_netPnL r)) (FPr_StartingCapital p) = false /\
    0 <= FPr_ObservedObservations p <= FPr_ExpectedObservations p /\ 0 < FPr_ExpectedObservations p /\
    m = derived p first final c t f r.
Proof.
  unfold DeriveFoldMetrics. intros H.
  destruct (negb _ || _) eqn:E1 in H; [done|]. destruct (_ || _ || _) eqn:E2 in H; [done|].
  destruct (FPr_Curve p) as [|first [|second rest]] eqn:Ec; [done..|]. rewrite <- Ec in H |- *.
  assert (Hc : positive_finite (FPr_StartingCapital p) = true) by (bool_prop; auto using positive_not_le).
  destruct (off _ _) in H; [done|]. res_inv.
  match goal with H1 : foldM curve_step _ _ = Ok ?c, H2 : foldM (trade_step _) _ _ = Ok ?t, H3 : foldM (fill_step _) _ _ = Ok ?f,
    H4 : foldM (residual_step _ _) _ _ = Ok ?r |- _ =>
    apply curve_inv_loop in H1; apply trade_inv_loop in H2; apply fill_inv_loop in H3; [|done];
    apply residual_inv_loop in H4; exists first, (List.last (FPr_Curve p) first), c, t, f, r end.
  repeat match goal with u : unit |- _ => destruct u end.
  split_and!; try done; [by rewrite Ec | | | bool_prop; lia..].
  - intros Ht Hf. rewrite Hf in *. cbn in *. destruct (FPr_Trades p); [done|]. unfold len in *. cbn in *. done.
  - rewrite Ec. clear. revert first second. induction rest as [|x rest IH]; intros a b; [done|]. exact (IH a x).
Qed.


(** The float side of [ValidateFoldMetrics]: the contributions sum to the
    return, in the order the maps are visited, and every figure is finite. *)
Definition floats_reconcile (range : nat -> forall A, gmap string A -> list (string * A)) (m : FoldMetrics) : Prop :=
  (exists openTotal, foldM open_step fzero (range 1%nat float64 (FM_OpenPositionContributions m)) = Ok openTotal /\
     forM_ (reconcile_label range m openTotal) (range 2%nat (gmap string float64) (contributions m)) = Ok tt) /\
  existsb (fun v => negb (finite_f v)) (metric_values m) = false /\
  all_finite (FM_RegimeContributions m) && all_finite (FM_TradeContributions m) &&
  all_finite (FM_OpenPositionContributions m) && all_finite (FM_SymbolContributions m) = true.
(** The predeclared sample requirements. *)
Definition meets_requirements (m : FoldMetrics) (q : SampleRequirements) : Prop :=
  SR_MinObservationsPerFold q <= FM_Observations m /\ FM_Trades m <> 0 /\ SR_MinTradesPerFold q <= FM_Trades m /\
  FM_CoverageComplete m = true /\ SR_MinRegimes q <= map_len (FM_Regimes m).
Lemma regime_loop m l total : Forall (fun kv : string * Z => kv.1 <> "" /\ 0 < kv.2 /\ is_Some (FM_RegimeContributions m !! kv.1)) l ->
  foldM (regime_step m) total l = Ok (total + Zsum snd l).
Proof.
  intros H. revert total. induction H as [|[k v] l (H1 & H2 & H3) _ IH]; intros total; cbn [foldM]; [by rewrite Zsum_nil, Z.add_0_r|].
  unfold regime_step at 1. cbn [fst snd] in *. rewrite (proj2 (String.eqb_neq k "")), (proj2 (Z.leb_gt _ _)), bool_decide_true by done. cbn [orb rbind].
  rewrite IH, Zsum_cons. cbn [snd]. f_equal. lia.
Qed.
Lemma map_len_dom {A} (m : gmap string A) (l : list string) : NoDup l -> dom m = list_to_set l -> map_len m = len l.
Proof. intros Hd E. unfold map_len, len. by rewrite <- size_dom, E, size_list_to_set. Qed.
Lemma map_len_same {A B} (m : gmap string A) (m' : gmap string B) : dom m = dom m' -> map_len m = map_len m'.
Proof. intros E. unfold map_len. by rewrite <- !size_dom, E. Qed.

(** The summary derived from a fold is one the validation of summaries
    accepts exactly when the fold meets the predeclared sample requirements and
    its floats reconcile: the cohort checks on regimes, trades and symbols never
    fail on derived metrics. *)
Theorem derived_metrics_validated range p m q :
  (forall i A (v : gmap string A), range i A v ≡ₚ map_to_list v) -> DeriveFoldMetrics p = Ok m ->
  (ValidateFoldMetrics range m q = Ok tt <-> meets_requirements m q /\ floats_reconcile range m).
Proof.
  intros Hr (first & final & c & t & f & r & _ & _ & _ & (T1 & T2 & _ & T4 & T5 & T6 & T7 & T8 & T9) & _ & _ &
    (R1 & R2 & _) & _ & _ & _ & _ & _ & _ & E)%DeriveFoldMetrics_steps.
  assert (Hm : FM_Trades m = len (FPr_Trades p) /\ FM_Regimes m = ts_regimes t /\ FM_RegimeContributions m = ts_regimeContrib t /\
    FM_TradeContributions m = ts_tradeContrib t /\ FM_SymbolContributions m = rs_symbols r /\ FM_BenchmarkPresent m = true).
  { rewrite E. unfold derived. by destruct (downsideAndExpectedShortfall _). }
  clear E. destruct Hm as (M1 & M2 & M3 & M4 & M5 & M6).
  assert (G1 : foldM (regime_step m) 0 (range 0%nat Z (FM_Regimes m)) = Ok (FM_Trades m)).
  { rewrite regime_loop, Z.add_0_l.
    - rewrite M1, <- T5, M2. unfold counts. f_equal. by apply Zsum_perm.
    - rewrite Hr, M2, M3. apply Forall_forall. intros [k v] Hk%elem_of_map_to_list. cbn.
      assert (Hd : k ∈ dom (ts_regimes t)) by (by apply elem_of_dom_2 in Hk). split_and!; [| by eapply T9 |].
      + rewrite T6, elem_of_list_to_set in Hd. apply list_elem_of_fmap in Hd as (y & -> & Hy). rewrite Forall_forall in T1. by apply T1.
      + apply elem_of_dom. by rewrite T7, <- T6. }
  assert (G2 : map_len (FM_Regimes m) = map_len (FM_RegimeContributions m)) by (rewrite M2, M3; apply map_len_same; congruence).
  assert (G3 : map_len (FM_TradeContributions m) = FM_Trades m).
  { rewrite M4, M1, (map_len_dom _ _ T2 T4). unfold len. by rewrite length_fmap. }
  assert (G4 : FM_Trades m <> 0 -> map_len (FM_SymbolContributions m) <> 0).
  { intros Hn Hz. rewrite M1 in Hn. destruct (FPr_Trades p) as [|y l] eqn:El; [done|]. unfold map_len in Hz. rewrite M5 in Hz.
    assert (rs_symbols r = ∅) as Hz' by (apply map_size_empty_inv; lia). rewrite Hz', dom_empty_L, T8 in R2. cbn in R2. set_solver. }
  clear T1 T2 T4 T5 T6 T7 T8 T9 R1 R2 M1 M2 M3 M4 M5. unfold ValidateFoldMetrics, meets_requirements, floats_reconcile.
  rewrite M6, G1. cbn [negb rbind]. rewrite <- G2, G3, !Z.eqb_refl. cbn [negb orb].
  destruct (Z.ltb_spec (FM_Observations m) (SR_MinObservationsPerFold q)); [split; [done|lia]|].
  destruct (Z.eqb_spec (FM_Trades m) 0); [split; [done|lia]|]. specialize (G4 n).
  destruct (Z.ltb_spec (FM_Trades m) (SR_MinTradesPerFold q)); [split; [done|lia]|].
  destruct (FM_CoverageComplete m); cbn [negb]; [|split; [done | by intros [(_ & _ & _ & ? & _) _]]].
  destruct (Z.ltb_spec (map_len (FM_Regimes m)) (SR_MinRegimes q)); [split; [done|lia]|].
  rewrite (proj2 (Z.eqb_neq _ _) G4). destruct (foldM open_step _ _) as [o|e|w]; cbn [rbind];
    [|split; [done | by intros (_ & (? & ? & _) & _)]..].
  destruct (forM_ _ _) as [[]|e|w] eqn:Ef; cbn [rbind];
    [|split; [done | intros (_ & (? & [= <-] & Ef') & _); by rewrite Ef in Ef']..].
  destruct (existsb _ _); [split; [done | by intros (_ & _ & ? & _)]|].
  destruct (_ && _) eqn:Ea; cbn [negb]; [|split; [done | by intros (_ & _ & _ & ?)]].
  split; [|done]. intros _. split_and!; try done; try lia. by exists o.
Qed.

(** ** An example fold *)
Module FoldSample.
Definition minute (n : Z) : Time := n * MinuteNs.
Definition point (n : Z) (equity benchmark gross : float64) : CurvePrimitive := mkCurve (minute n) equity benchmark gross gross.
Definition trade : TradePrimitive :=
  mkTrade "t1" ["f1"] "f2" "BTC" "bull" (minute 1) (minute 3) (f_of_Z 500) (f_of_Z 12) (f_of_Z 2) (f_of_Z 10) (f_of_Z 100000).
Definition fill (id side : string) (n : Z) (notional : Z) : FillPrimitive := mkFillP id ("o-" +:+ id) "BTC" side (minute n) (f_of_Z notional) (f_of_Z 100000).
Definition rejected : NoFillPrimitive :=
  mkNoFill "simulated-no-fill-v1" "o-9" "ETH" "buy" (minute 1 + 5) (minute 2) (minute 3 - 1000000) "1.5" "3/2" "0" "100.25" "0x64"
    "" "backtest-execution-v3" "dataset" "simulated_no_fill_zero_trades" "zero_base_volume" "" "".
Definition fold : FoldPrimitives :=
  mkPrimitives (f_of_Z 1000) 3 3 [trade] [fill "f1" "buy" 1 500; fill "f2" "sell" 3 510] [rejected] [] []
    [point 1 (f_of_Z 1000) (f_of_Z 100) fzero; point 2 (f_of_Z 990) (f_of_Z 101) (f_of_ratio 1 2); point 4 (f_of_Z 1010) (f_of_Z 102) (f_of_ratio 1 4)]
    (f_of_ratio 1 4) (f_of_ratio 101 100).
Definition zero_metrics : FoldMetrics :=
  mkMetrics 0 0 0 0 false false ∅ ∅ fzero fzero fzero fzero fzero fzero fzero fzero fzero fzero fzero fzero ∅ ∅ ∅.
Definition metrics_of (r : res FoldMetrics) : FoldMetrics := match r with Ok m => m | _ => zero_metrics end.
Definition metrics : FoldMetrics := metrics_of (DeriveFoldMetrics fold).
Lemma fold_ok : DeriveFoldMetrics fold = Ok metrics.
Proof. vm_compute. reflexivity. Qed.
Definition any_order (i : nat) (A : Type) (m : gmap string A) : list (string * A) := map_to_list m.
Definition backwards (i : nat) (A : Type) (m : gmap string A) : list (string * A) := reverse (map_to_list m).
Definition requirements : SampleRequirements := mkRequirements 2 2 3 1 1.
End FoldSample.

Lemma derived_metrics_validated_witness : meets_requirements FoldSample.metrics FoldSample.requirements.
Proof.
  apply (derived_metrics_validated FoldSample.any_order FoldSample.fold FoldSample.metrics FoldSample.requirements).
  - done.
  - exact FoldSample.fold_ok.
  - vm_compute. reflexivity.
Defined.

(** Whether a summary is accepted can depend on the order in which a map is
    visited: the contributions are summed in that order. *)
Module OrderSample.
Definition big : float64 := f_of_Z (2 ^ 54).
Definition trades : gmap string float64 := list_to_map [("a", big); ("b", fone); ("c", fneg big)].
Definition metrics : FoldMetrics :=
  mkMetrics 3 3 0 0 true true {["bull" := 3]} {["bull" := fzero]} fzero fzero fzero fzero fzero fzero fzero fone fzero fzero fzero fzero
    trades ∅ {["BTC" := fzero]}.
Definition sorted_by (before : string -> string -> bool) (A : Type) (m : gmap string A) : list (string * A) :=
  SliceStable (fun x y => before x.1 y.1) (map_to_list m).
Definition rank (s : string) : Z := if s =s "c" then 1 else if s =s "b" then 2 else 0.
Definition order1 (_ : nat) : forall A, gmap string A -> list (string * A) := sorted_by String.ltb.
Definition order2 (_ : nat) : forall A, gmap string A -> list (string * A) := sorted_by (fun x y => rank x <? rank y).
End OrderSample.
Lemma sorted_by_perm before A (m : gmap string A) : OrderSample.sorted_by before A m ≡ₚ map_to_list m.
Proof. symmetry. apply SliceStable_Permutation. Qed.
Theorem validation_depends_on_map_order :
  exists range1 range2 m q,
    (forall i A (v : gmap string A), range1 i A v ≡ₚ map_to_list v) /\ (forall i A (v : gmap string A), range2 i A v ≡ₚ map_to_list v) /\
    ValidateFoldMetrics range1 m q = Ok tt /\
    ValidateFoldMetrics range2 m q = Err (DiagnosticError DiagnosticManifestIntegrity "" "trade contributions do not reconcile to after-cost return").
Proof.
  exists OrderSample.order1, OrderSample.order2, OrderSample.metrics, FoldSample.requirements.
  split_and!; [intros; apply sorted_by_perm.. | |]; vm_compute; reflexivity.
Qed.
