(* ===== verification/GoFloatRound.v ===== *)
(** * GoFloatRound: rounding does not cross a representable bound

    A binary64 product or conversion of an exact value at most [J / 2 ^ q] is
    itself at most [J / 2 ^ q], for bounds far below the precision. *)
From Stdlib Require Import SpecFloat Zpow_facts.
From stdpp Require Import base numbers list.
From S2P Require Import GoFloat GoTime.
Local Open Scope Z_scope.

Lemma digits_log2 m : Z.pos (digits2_pos m) = Z.log2 (Z.pos m) + 1.
Proof.
  induction m as [m IH|m IH|]; cbn [digits2_pos]; [| |done].
  - rewrite Pos2Z.inj_succ, IH, Pos2Z.inj_xI, Z.log2_succ_double by done. lia.
  - rewrite Pos2Z.inj_succ, IH, Pos2Z.inj_xO, Z.log2_double by done. lia.
Qed.

(** The record after shifting [m0] right by [k] bits. *)
Definition shifted (m0 k : Z) (r : shr_record) : Prop :=
  0 <= shr_m r /\ shr_m r * 2 ^ k <= m0 < (shr_m r + 1) * 2 ^ k /\
  (shr_m r * 2 ^ k = m0 -> shr_r r = false /\ shr_s r = false).
Lemma shifted_step m0 k r : 0 <= k -> shifted m0 k r -> shifted m0 (k + 1) (shr_1 r).
Proof.
  intros Hk (H1 & H2 & H3). rewrite <- (Z.add_0_r k) in H2 at 1. unfold shifted.
  assert (Hp : 2 ^ (k + 1) = 2 * 2 ^ k) by (rewrite Z.pow_add_r by lia; lia). rewrite Hp. rewrite Z.add_0_r in H2.
  pose proof (Z.pow_pos_nonneg 2 k ltac:(lia) Hk) as Hpos. set (p := 2 ^ k) in *. clearbody p.
  destruct r as [[|[m|m|]|m] b s]; cbn [shr_m shr_r shr_s shr_1] in *; try lia.
  all: rewrite ?(Pos2Z.inj_xI m), ?(Pos2Z.inj_xO m) in *; split_and!; try nia.
  all: intros E; try (destruct H3 as [-> ->]; [nia | done]); exfalso; nia.
Qed.
Lemma shifted_iter n m0 k r : 0 <= k -> shifted m0 k r -> shifted m0 (k + Z.pos n) (SpecFloat.iter_pos shr_1 n r).
Proof.
  revert k r. induction n as [n IH|n IH|]; intros k r Hk H; cbn [SpecFloat.iter_pos].
  - replace (k + Z.pos n~1) with (k + 1 + Z.pos n + Z.pos n) by lia. apply IH; [lia|]. apply IH; [lia|]. by apply shifted_step.
  - replace (k + Z.pos n~0) with (k + Z.pos n + Z.pos n) by lia. apply IH; [lia|]. by apply IH.
  - by apply shifted_step.
Qed.
(** The exponent after the shift of [shr_fexp]. *)
Definition shift_exp (m e : Z) : Z := Z.max e (fexp prec emax (Zdigits2 m + e)).
Lemma shr_fexp_spec m e : 0 <= m -> exists r, shr_fexp prec emax m e loc_Exact = (r, shift_exp m e) /\ shifted m (shift_exp m e - e) r.
Proof.
  intros Hm. assert (H0 : shifted m 0 (Build_shr_record m false false)) by (unfold shifted; cbn; split_and!; done || lia).
  unfold shr_fexp, shr. set (f := fexp prec emax (Zdigits2 m + e)). assert (Es : shift_exp m e = Z.max e f) by done. rewrite Es.
  cbn [shr_record_of_loc]. destruct (f - e) as [|n|n] eqn:En.
  - exists (Build_shr_record m false false). replace (Z.max e f) with e by lia. by rewrite Z.sub_diag.
  - eexists. split; [f_equal; lia|]. replace (Z.max e f - e) with (0 + Z.pos n) by lia. by apply shifted_iter.
  - exists (Build_shr_record m false false). replace (Z.max e f) with e by lia. by rewrite Z.sub_diag.
Qed.
Lemma round_up r m0 k : 0 <= k -> shifted m0 k r ->
  0 <= round_nearest_even (shr_m r) (loc_of_shr_record r) /\
  forall J, m0 <= J * 2 ^ k -> round_nearest_even (shr_m r) (loc_of_shr_record r) <= J.
Proof.
  intros Hk (H1 & H2 & H3). pose proof (Z.pow_pos_nonneg 2 k ltac:(lia) Hk) as Hp.
  assert (Hr : shr_m r <= round_nearest_even (shr_m r) (loc_of_shr_record r) <= shr_m r + 1 /\
    (shr_r r = false /\ shr_s r = false -> round_nearest_even (shr_m r) (loc_of_shr_record r) = shr_m r)).
  { destruct r as [m [] []]; cbn in *; try destruct (Z.even m); split; try lia; intros [? ?]; done. }
  destruct Hr as [Hr1 Hr2]. split; [lia|]. intros J HJ. set (p := 2 ^ k) in *. clearbody p.
  destruct (Z.eq_dec (shr_m r * p) m0) as [E|E]; [rewrite Hr2 by auto; nia | nia].
Qed.

(** The value is not negative and at most [J / 2 ^ q]. *)
Definition at_most (x : float64) (J q : Z) : Prop :=
  match x with S754_zero _ => True | S754_finite false m e => e <= - q /\ Z.pos m * 2 ^ q <= J * 2 ^ (- e) | _ => False end.
Lemma log2_below m e J q b : 0 < m -> 0 <= q -> e <= - q -> m * 2 ^ q <= J * 2 ^ (- e) -> J < 2 ^ (b + q) -> 0 <= b ->
  Z.log2 m + 1 + e <= b.
Proof.
  intros Hm Hq He H HJ Hb. assert (m * 2 ^ q < 2 ^ (b + q) * 2 ^ (- e)).
  { pose proof (Z.pow_pos_nonneg 2 (- e)). nia. }
  assert (Hlt : m < 2 ^ (b - e)).
  { rewrite Z.pow_add_r in H0 by lia. replace (b - e) with (b + - e) by lia. rewrite (Z.pow_add_r 2 b (- e)) by lia.
    pose proof (Z.pow_pos_nonneg 2 q). nia. }
  apply Z.log2_lt_pow2 in Hlt; lia.
Qed.
Lemma shift_exp_below m e J q b : 0 <= m -> 0 <= q -> e <= - q -> m * 2 ^ q <= J * 2 ^ (- e) -> J < 2 ^ (b + q) -> 0 <= b <= 53 - q ->
  -1074 + 0 <= - q -> e <= shift_exp m e <= - q.
Proof.
  intros Hm Hq He H HJ Hb Hq2. unfold shift_exp, fexp, SpecFloat.emin. change (3 - emax - prec) with (-1074). change prec with 53.
  destruct m as [|m|m]; [cbn; lia | | lia].
  cbn [Zdigits2]. rewrite digits_log2. pose proof (log2_below (Z.pos m) e J q b). lia.
Qed.
Lemma scale_le m k e e' J q : 0 <= q -> k = e' - e -> 0 <= k -> e' <= - q ->
  m * 2 ^ q <= J * 2 ^ (- e) -> m <= J * 2 ^ (- e' - q) * 2 ^ k.
Proof.
  intros Hq -> Hk He' H. rewrite <- Z.mul_assoc, <- Z.pow_add_r by lia. replace (- e' - q + (e' - e)) with (- e - q) by lia.
  replace (- e) with (- e - q + q) in H by lia. rewrite Z.pow_add_r in H by lia.
  pose proof (Z.pow_pos_nonneg 2 q). nia.
Qed.
Theorem round_at_most m e J q b : 0 < m -> 0 <= q <= 53 -> e <= - q -> m * 2 ^ q <= J * 2 ^ (- e) -> J < 2 ^ (b + q) -> 0 <= b <= 53 - q ->
  at_most (binary_round_aux prec emax false m e loc_Exact) J q.
Proof.
  intros Hm Hq He H HJ Hb. unfold binary_round_aux.
  destruct (shr_fexp_spec m e ltac:(lia)) as (r & -> & Hr). set (e1 := shift_exp m e) in *.
  pose proof (shift_exp_below m e J q b ltac:(lia) ltac:(lia) He H HJ Hb ltac:(lia)) as He1. fold e1 in He1.
  destruct (round_up r m (e1 - e) ltac:(lia) Hr) as [G0 G1]. set (m1 := round_nearest_even _ _) in *.
  specialize (G1 (J * 2 ^ (- e1 - q)) ltac:(eapply scale_le; eauto; lia)).
  assert (H1 : m1 * 2 ^ q <= J * 2 ^ (- e1)).
  { replace (- e1) with (- e1 - q + q) by lia. rewrite (Z.pow_add_r 2 (- e1 - q)) by lia. pose proof (Z.pow_pos_nonneg 2 q). nia. }
  destruct (shr_fexp_spec m1 e1 G0) as (r2 & -> & Hr2). set (e2 := shift_exp m1 e1) in *.
  pose proof (shift_exp_below m1 e1 J q b ltac:(lia) ltac:(lia) ltac:(lia) H1 HJ Hb ltac:(lia)) as He2. fold e2 in He2.
  destruct Hr2 as (K1 & K2 & _). assert (H2 : shr_m r2 <= J * 2 ^ (- e2 - q)).
  { pose proof (scale_le m1 (e2 - e1) e1 e2 J q ltac:(lia) eq_refl ltac:(lia) ltac:(lia) H1). pose proof (Z.pow_pos_nonneg 2 (e2 - e1)). nia. }
  destruct (shr_m r2) as [|m2|m2] eqn:Em; [done | | lia].
  rewrite (proj2 (Z.leb_le _ _)) by (change (emax - prec) with 971; lia). cbn. split; [lia|].
  replace (- e2) with (- e2 - q + q) by lia. rewrite (Z.pow_add_r 2 (- e2 - q)) by lia. pose proof (Z.pow_pos_nonneg 2 q). nia.
Qed.

(** ** Small integers and their fractions *)
Lemma iter_xO m d : Z.pos (Pos.iter xO m d) = Z.pos m * 2 ^ Z.pos d.
Proof.
  induction d as [|d IH] using Pos.peano_ind; [cbn; lia|].
  rewrite Pos.iter_succ, Pos2Z.inj_xO, IH, Pos2Z.inj_succ, Z.pow_succ_r by done. lia.
Qed.
Lemma f_of_Z_at_most K : 0 <= K < 2 ^ 20 -> at_most (f_of_Z K) K 0.
Proof.
  intros HK. unfold f_of_Z, binary_normalize. destruct K as [|K|K]; [done | | lia].
  unfold binary_round, shl_align. rewrite Z.add_0_r. set (f := fexp _ _ _).
  assert (Hf : -53 <= f <= 0).
  { unfold f, fexp, SpecFloat.emin. change (3 - emax - prec) with (-1074). change prec with 53. rewrite digits_log2.
    pose proof (Z.log2_nonneg (Z.pos K)). pose proof (proj1 (Z.log2_lt_pow2 (Z.pos K) 20 ltac:(lia)) ltac:(lia)). lia. }
  rewrite Z.sub_0_r. destruct f as [|f'|f'] eqn:Ef; [| lia |].
  - apply (round_at_most _ _ _ _ 20); lia.
  - apply (round_at_most _ _ _ _ 20); try lia. rewrite iter_xO, Z.pow_0_r, Z.mul_1_r. done.
Qed.
Lemma fmul_at_most mp ep y K J q b : at_most y K 0 -> 0 <= q <= 53 -> ep <= - q -> Z.pos mp * K * 2 ^ q <= J * 2 ^ (- ep) ->
  0 <= K -> J < 2 ^ (b + q) -> 0 <= b <= 53 - q -> at_most (fmul (S754_finite false mp ep) y) J q.
Proof.
  intros Hy Hq Hep H HK HJ Hb. destruct y as [s|s| |[] my ey]; try done. cbn in Hy. destruct Hy as [He Hy].
  unfold fmul, SFmul. cbn [xorb]. eapply round_at_most; try done; [lia|].
  rewrite Z.pow_0_r, Z.mul_1_r in Hy.
  replace (- (ep + ey)) with (- ep + - ey) by lia. rewrite Z.pow_add_r, Pos2Z.inj_mul by lia.
  pose proof (Z.pow_pos_nonneg 2 (- ey)). pose proof (Z.pow_pos_nonneg 2 q). set (a := 2 ^ (- ey)) in *. set (c := 2 ^ q) in *.
  set (d := 2 ^ (- ep)) in *. transitivity (Z.pos mp * (K * a) * c); [nia|].
  replace (Z.pos mp * (K * a) * c) with (Z.pos mp * K * c * a) by lia. rewrite (Z.mul_assoc J d a). apply Z.mul_le_mono_nonneg_r; lia.
Qed.
(** A number of at most [J / 2 ^ q] truncates to at most [J / 2 ^ q]. *)
Lemma trunc_at_most x J q : 0 <= q -> 0 <= J -> at_most x J q -> 0 <= f_trunc x <= J / 2 ^ q.
Proof.
  intros Hq HJ H. pose proof (Z.pow_pos_nonneg 2 q ltac:(lia) Hq) as Hp. destruct x as [s|s| |[] m e]; try done; cbn.
  - split; [lia|]. by apply Z.div_pos.
  - destruct H as [He H]. destruct (Z.leb_spec 0 e).
    + assert (e = 0) as -> by lia. assert (q = 0) as -> by lia. rewrite Z.div_1_r. cbn in *. lia.
    + pose proof (Z.pow_pos_nonneg 2 (- e) ltac:(lia) ltac:(lia)) as He'. split; [apply Z.div_pos; lia|].
      apply Z.div_le_lower_bound; [lia|].
      pose proof (Z.mul_div_le (Z.pos m) (2 ^ (- e)) He'). set (d := Z.pos m / 2 ^ (- e)) in *. nia.
Qed.
