(* ===== verification/Evaluation.v ===== *)
(** * Evaluation: [internal/validation/evaluation.go]

    The aggregate of the test windows: a seeded bootstrap of every metric, the
    domination limits and the promotion gates. The generator of [math/rand] is
    the parameter [Intn]: [Intn seed n k] is the [k]-th draw below [n] of the
    source with that seed. *)
From Stdlib Require Import SpecFloat.
From stdpp Require Import base numbers strings gmap list.
From S2P Require Import Prelude GoStrings GoFloat GoTime GoFormat Snapshots ValidationTypes Splits FoldMetrics.
Local Open Scope Z_scope.

Definition insufficient (details : string) : error := DiagnosticError DiagnosticInsufficientWindows "" details.
Definition compare (value : float64) (op : string) (threshold : float64) : bool :=
  if op =s ">" then flt threshold value else if op =s ">=" then fle threshold value
  else if op =s "<" then flt value threshold else if op =s "<=" then fle value threshold else false.
(** [math.Floor] of a non-negative number, as an integer. *)
Definition Floor (x : float64) : Z := f_trunc x.
Definition percentile (v : list float64) (p : float64) : res float64 :=
  if len v =? 1 then index v 0 else
  let x := fmul p (f_of_Z (len v - 1)) in
  let lo := Floor x in
  let hi := Ceil x in
  if lo =? hi then index v lo else
  let* a := index v lo in
  let* b := index v hi in
  Ok (fadd a (fmul (fsub b a) (fsub x (f_of_Z lo)))).
Definition safeFraction (a b : float64) : float64 := if feq b fzero then fzero else fdiv (fabs a) (fabs b).
Definition larger (m v : float64) : float64 := if flt m v then v else m.
Definition largestFraction (values : list float64) : float64 :=
  safeFraction (foldl larger fzero (fabs <$> values)) (fsum (fabs <$> values)).
Definition absMapSum (values : gmap string float64) : float64 :=
  fsum ((fun key => fabs (default fzero (values !! key))) <$> sort_strings (map_keys values)).
Definition largestAbsFraction (values : gmap string float64) : float64 :=
  safeFraction (foldl larger fzero ((fun kv => fabs kv.2) <$> map_to_list values)) (absMapSum values).
Definition minimumFloatKey (values : gmap string float64) : string :=
  match sort_strings (map_keys values) with
  | [] => ""
  | first :: rest =>
      foldl (fun best k => if flt (default fzero (values !! k)) (default fzero (values !! best)) then k else best) first rest
  end.

(** ** Stress and deflation *)
Definition stress_fill (p : FoldPrimitives) (policy : CapacityStressPolicy) (penalty : float64) (fill : FillPrimitive) : float64 :=
  let participation := fdiv (FP_Notional fill) (FP_AvailableLiquidity fill) in
  let impact := fmul (fmul (fdiv (CS_ImpactBpsAtMax policy) (f_of_Z 10000)) (fdiv participation (CS_MaxParticipation policy))) (CS_StressMultiplier policy) in
  fadd penalty (fmul (fdiv (FP_Notional fill) (FPr_StartingCapital p)) impact).
Definition stressedReturn (p : FoldPrimitives) (policy : CapacityStressPolicy) : res float64 :=
  let penalty := foldl (stress_fill p policy) fzero (FPr_Fills p) in
  let* final := index (FPr_Curve p) (len (FPr_Curve p) - 1) in
  Ok (fsub (fsub (fdiv (CP_Equity final) (FPr_StartingCapital p)) fone) penalty).
Fixpoint tuning_product (n : Z) (choices : list (string * list string)) : Z :=
  match choices with
  | [] => n
  | (_, c) :: rest => if (len c =? 0) || (1000000 / len c <? n) then 1000000 else tuning_product (n * len c) rest
  end.
Definition tuningChoices (allowed : gmap string (list string)) : Z := tuning_product 1 (map_to_list allowed).
Definition deflateSharpe (mean lower upper : float64) (units trials : Z) : float64 * float64 * float64 :=
  if (units <? 2) || (trials <? 1) then (fzero, fzero, fzero) else
  let penalty := fdiv (fsqrt (fmul (f_of_Z 2) (Log (f_of_Z trials)))) (fsqrt (f_of_Z units)) in
  (fsub mean penalty, fsub lower penalty, fsub upper penalty).

(** ** The drawdown of the chained windows *)
Definition drawdown_step (s : float64 * float64 * float64) (growth : float64) : float64 * float64 * float64 :=
  let '(equity, peak, worst) := s in
  let equity := fmul equity growth in
  let peak := if flt peak equity then equity else peak in
  let value := fdiv (fsub peak equity) peak in
  (equity, peak, if flt worst value then value else worst).
Fixpoint curve_growth (previous : CurvePrimitive) (rest : list CurvePrimitive) : list float64 :=
  match rest with
  | [] => []
  | current :: rest' =>
      let tail := curve_growth current rest' in
      if fle (CP_Equity previous) fzero || fle (CP_Equity current) fzero then tail
      else fdiv (CP_Equity current) (CP_Equity previous) :: tail
  end.
Definition growths (fold : FoldResult) : list float64 :=
  match FPr_Curve (FR_Primitives fold) with
  | first :: (_ :: _) as rest => curve_growth first rest
  | _ => [fadd fone (FM_AfterCostReturn (FR_Metrics fold))]
  end.
Definition chronologicalAggregateDrawdown (folds : list FoldResult) : float64 :=
  (foldl drawdown_step (fone, fone, fzero) (folds ≫= growths)).2.

(** ** Gates *)
Definition metric_bounds (m : MetricSummary) : list (string * float64) :=
  [("after_cost_expectancy", CI_Lower (Su_AfterCostExpectancy m)); ("after_cost_return", CI_Lower (Su_AfterCostReturn m));
   ("benchmark_relative_return", CI_Lower (Su_BenchmarkRelativeReturn m)); ("max_drawdown", CI_Upper (Su_MaxDrawdown m));
   ("turnover", CI_Upper (Su_Turnover m)); ("gross_exposure", CI_Upper (Su_GrossExposure m)); ("net_exposure", CI_Upper (Su_NetExposure m));
   ("coverage", CI_Lower (Su_Coverage m)); ("downside_deviation", CI_Upper (Su_DownsideDeviation m));
   ("expected_shortfall_95", CI_Upper (Su_ExpectedShortfall95 m)); ("max_liquidity_participation", CI_Upper (Su_MaxLiquidityParticipation m));
   ("stressed_after_cost_return", CI_Lower (Su_StressedAfterCostReturn m)); ("deflated_sharpe", CI_Lower (Su_DeflatedSharpe m))].
Definition lookup_metric (bounds : list (string * float64)) (metric : string) : option float64 :=
  snd <$> List.find (fun kv => kv.1 =s metric) bounds.
Definition gate (metrics : MetricSummary) (t : Threshold) : GateResult :=
  match lookup_metric (metric_bounds metrics) (Th_Metric t) with
  | Some observed => mkGate (Th_Metric t) (Th_Op t) (Th_Value t) observed (compare observed (Th_Op t) (Th_Value t))
  | None => mkGate (Th_Metric t) (Th_Op t) (Th_Value t) fzero false
  end.
Definition evaluateThresholds (thresholds : list Threshold) (metrics : MetricSummary) : list GateResult := gate metrics <$> thresholds.

(** ** Contribution totals *)
Definition add_all (f : float64 -> float64) (totals values : gmap string float64) : gmap string float64 :=
  foldl (fun m (kv : string * float64) => add_at m kv.1 (f kv.2)) totals (map_to_list values).
Definition symbolTotals (folds : list FoldResult) : gmap string float64 :=
  foldl (fun m fold => add_all (fun v => v) m (FM_SymbolContributions (FR_Metrics fold))) ∅ folds.
Definition symbolAbsTotals (folds : list FoldResult) : gmap string float64 :=
  foldl (fun m fold => add_all fabs m (FM_SymbolContributions (FR_Metrics fold))) ∅ folds.
Definition regimeTotals (folds : list FoldResult) : gmap string float64 :=
  foldl (fun m fold => add_all (fun v => v) m (FM_RegimeContributions (FR_Metrics fold))) ∅ folds.
Definition tradeMax (folds : list FoldResult) : float64 :=
  foldl larger fzero (folds ≫= (fun fold => (fun kv => fabs kv.2) <$> map_to_list (FM_TradeContributions (FR_Metrics fold)))).
Definition tradeTotal (folds : list FoldResult) : float64 :=
  fsum ((fun fold => absMapSum (FM_TradeContributions (FR_Metrics fold))) <$> folds).
Definition domination (folds : list FoldResult) : Domination :=
  let tradeFraction := safeFraction (tradeMax folds) (tradeTotal folds) in
  let symbolFraction := largestAbsFraction (symbolAbsTotals folds) in
  let windowFraction := largestFraction ((fun fold => fabs (FM_AfterCostReturn (FR_Metrics fold))) <$> folds) in
  mkDomination tradeFraction symbolFraction windowFraction
    (flt (f_of_ratio 5 10) tradeFraction || flt (f_of_ratio 6 10) symbolFraction || flt (f_of_ratio 6 10) windowFraction).
(** The first window with the least return. *)
Definition worstWindow (folds : list FoldResult) : option FoldResult :=
  match folds with
  | [] => None
  | first :: rest =>
      Some (foldl (fun worst fold => if flt (FM_AfterCostReturn (FR_Metrics fold)) (FM_AfterCostReturn (FR_Metrics worst)) then fold else worst) first rest)
  end.

(** ** The bootstrap *)
Definition unavailable : ConfidenceInterval := mkCI false "" fzero fzero fzero.
Definition weightedMean (values weights : list float64) : float64 :=
  fdiv (foldl (fun s vw => fadd s (fmul vw.1 vw.2)) fzero (zip values weights)) (fsum weights).
Definition usable_weight (w : float64) : float64 := if negb (finite_f w) || fle w fzero then fone else w.

Section Bootstrap.
Context (Intn : Z -> Z -> nat -> Z).

(** One resample, from the draw with number [k] on. *)
Definition draw (values weights : list float64) (seed : Z) (s : float64 * float64) (k : nat) : res (float64 * float64) :=
  let i := Intn seed (len values) k in
  let* v := index values i in
  let* w := index weights i in
  Ok (fadd s.1 (fmul v w), fadd s.2 w).
Definition resample (values weights : list float64) (seed : Z) (i : nat) : res float64 :=
  let n := length values in
  let* s := foldM (draw values weights seed) (fzero, fzero) (seq (i * n) n) in
  Ok (fdiv s.1 s.2).
Definition bootstrapWeighted (values weights : list float64) (seed iterations : Z) : res ConfidenceInterval :=
  if len values <? 2 then Err (insufficient "") else
  if (iterations <=? 0) || (MaxBootstrapIterations <? iterations)
  then Err (DiagnosticError DiagnosticInvalidManifest "bootstrap_iterations" "") else
  if negb (len weights =? len values) then Err (DiagnosticError DiagnosticInvalidManifest "bootstrap_weights" "") else
  if existsb (fun vw => negb (finite_f vw.1) || negb (finite_f vw.2) || fle vw.2 fzero) (zip values weights)
  then Err (DiagnosticError DiagnosticNonFinite "" "") else
  let* sample := mapM (resample values weights seed) (seq 0 (Z.to_nat iterations)) in
  let distribution := sort_floats sample in
  let* lower := percentile distribution (f_of_ratio 25 1000) in
  let* upper := percentile distribution (f_of_ratio 975 1000) in
  Ok (mkCI true "" (weightedMean values weights) lower upper).
Definition bootstrap (values : list float64) (seed iterations : Z) : res ConfidenceInterval :=
  bootstrapWeighted values ((fun _ => fone) <$> values) seed iterations.

(** ** [Evaluate] *)
Definition capitalWeight (v : FoldResult) : float64 := FPr_StartingCapital (FR_Primitives v).
Definition observationWeight (v : FoldResult) : float64 := f_of_Z (FM_Observations (FR_Metrics v)).
Definition tradeWeight (v : FoldResult) : float64 := f_of_Z (FM_Trades (FR_Metrics v)).
Definition windowWeight (v : FoldResult) : float64 := fone.
Definition metric (folds : list FoldResult) (spec : ManifestSpec) (extract : FoldMetrics -> float64) (weight : FoldResult -> float64) : res ConfidenceInterval :=
  bootstrapWeighted ((fun f => extract (FR_Metrics f)) <$> folds) ((fun f => usable_weight (weight f)) <$> folds)
    (MS_Seed spec) (MS_BootstrapIterations spec).
Definition stressed_value (spec : ManifestSpec) (fold : FoldResult) : res float64 :=
  if 2 <=? len (FPr_Curve (FR_Primitives fold)) then stressedReturn (FR_Primitives fold) (MS_CapacityStress spec)
  else Ok (FM_AfterCostReturn (FR_Metrics fold)).
Definition with_mean (c : ConfidenceInterval) (mean : float64) : ConfidenceInterval :=
  mkCI (CI_Available c) (CI_Reason c) mean (CI_Lower c) (CI_Upper c).
Definition summarize (folds : list FoldResult) (spec : ManifestSpec) : res MetricSummary :=
  let metric := metric folds spec in
  let* expectancy := metric FM_AfterCostExpectancy tradeWeight in
  let* returns := metric FM_AfterCostReturn capitalWeight in
  let* relative := metric FM_BenchmarkRelativeReturn capitalWeight in
  let* drawdown := metric FM_MaxDrawdown windowWeight in
  let drawdown := with_mean drawdown (chronologicalAggregateDrawdown folds) in
  let* turnover := metric FM_Turnover capitalWeight in
  let* gross := metric FM_GrossExposure observationWeight in
  let* net := metric FM_NetExposure observationWeight in
  let* coverage := metric FM_Coverage observationWeight in
  let* downside := metric FM_DownsideDeviation windowWeight in
  let* es := metric FM_ExpectedShortfall95 windowWeight in
  let* participation := metric FM_MaxLiquidityParticipation windowWeight in
  let* stressedValues := mapM (stressed_value spec) folds in
  let* stressed := bootstrapWeighted stressedValues ((fun f => usable_weight (capitalWeight f)) <$> folds) (MS_Seed spec) (MS_BootstrapIterations spec) in
  let* deflated := metric FM_Sharpe windowWeight in
  let '(mean, lower, upper) :=
    deflateSharpe (CI_Mean deflated) (CI_Lower deflated) (CI_Upper deflated) (len folds) (tuningChoices (MS_AllowedTuning spec)) in
  Ok (mkSummary expectancy returns relative drawdown turnover gross net coverage downside es participation stressed
        (mkCI (CI_Available deflated) (CI_Reason deflated) mean lower upper)).
Definition known_unit (unit : string) : bool := (unit =s "chronological_test_window") || (unit =s "declared_block").
Definition Evaluate (folds : list FoldResult) (spec : ManifestSpec) : res Evaluation :=
  let minimum := Z.max 2 (SR_MinIndependentUnits (MS_Samples spec)) in
  if len folds <? minimum
  then Err (insufficient ("need " +:+ Itoa minimum +:+ " independent units, got " +:+ Itoa (len folds))) else
  if negb (known_unit (MS_StatisticalUnit spec)) then Err (DiagnosticError DiagnosticUnsupportedUnit "" "") else
  let* summary := summarize folds spec in
  let d := domination folds in
  if Do_Dominated d
  then Err (DiagnosticError DiagnosticDominated "" ("trade=" +:+ FormatFixed (Do_TradeFraction d) 4 +:+ " symbol=" +:+
         FormatFixed (Do_SymbolFraction d) 4 +:+ " window=" +:+ FormatFixed (Do_WindowFraction d) 4)) else
  let gates := evaluateThresholds (MS_PromotionThresholds spec) summary in
  match worstWindow folds with
  | None => Panic "index out of range"
  | Some worst =>
      Ok (mkEvaluation EvidenceSchemaVersion (MS_StudyType spec) (len folds) summary (Fo_Index (FR_Fold worst))
            (minimumFloatKey (regimeTotals folds)) (minimumFloatKey (symbolTotals folds)) d gates (forallb Ga_Passed gates))
  end.
End Bootstrap.
