(* ===== verification/EvaluationProofs.v ===== *)
(** * EvaluationProofs: the aggregate passes only through its gates *)
From Stdlib Require Import SpecFloat.
From stdpp Require Import base numbers strings gmap list.
From S2P Require Import Prelude GoStrings GoFloat GoFloatFacts GoTime GoFormat Snapshots ValidationTypes Splits FoldMetrics FoldMetricsProofs GoFloatRound Evaluation.
Local Open Scope Z_scope.

(** ** The percentiles stay inside the distribution *)
Lemma rank_inside mp ep n : 2 <= n < 2 ^ 20 -> ep <= -10 -> Z.pos mp * 1024 * (n - 1) <= (1024 * (n - 1) - 1) * 2 ^ (- ep) ->
  let x := fmul (S754_finite false mp ep) (f_of_Z (n - 1)) in 0 <= Floor x < n /\ 0 <= Ceil x < n.
Proof.
  intros Hn Hep H x. assert (Hx : at_most x (1024 * (n - 1) - 1) 10).
  { apply (fmul_at_most _ _ _ (n - 1) _ 10 20); [apply f_of_Z_at_most; lia | lia..]. }
  apply trunc_at_most in Hx; [|lia..].
  assert ((1024 * (n - 1) - 1) / 2 ^ 10 < n - 1) by (apply Z.div_lt_upper_bound; lia).
  unfold Floor, Ceil. destruct (flt _ x); lia.
Qed.
Lemma percentile_rank n p : p = f_of_ratio 25 1000 \/ p = f_of_ratio 975 1000 -> 2 <= n <= MaxBootstrapIterations ->
  let x := fmul p (f_of_Z (n - 1)) in 0 <= Floor x < n /\ 0 <= Ceil x < n.
Proof.
  unfold MaxBootstrapIterations. intros [-> | ->] Hn.
  - replace (f_of_ratio 25 1000) with (S754_finite false 7205759403792794 (-58)) by (vm_compute; reflexivity). apply rank_inside; lia.
  - replace (f_of_ratio 975 1000) with (S754_finite false 8782019273372467 (-53)) by (vm_compute; reflexivity). apply rank_inside; lia.
Qed.
Lemma index_inside {A} (l : list A) i : 0 <= i < len l -> exists a, index l i = Ok a.
Proof.
  unfold index, len. intros H. rewrite (proj2 (Z.ltb_ge _ _)) by lia.
  destruct (lookup_lt_is_Some_2 l (Z.to_nat i)) as [a Ha]; [lia|]. rewrite Ha. eauto.
Qed.
Lemma percentile_inside v p : p = f_of_ratio 25 1000 \/ p = f_of_ratio 975 1000 -> 1 <= len v <= MaxBootstrapIterations ->
  exists x, percentile v p = Ok x.
Proof.
  intros Hp Hn. unfold percentile. destruct (Z.eqb_spec (len v) 1) as [E|E]; [apply index_inside; lia|].
  destruct (percentile_rank (len v) p Hp) as [H1 H2]; [lia|]. destruct (_ =? _).
  - by apply index_inside.
  - destruct (index_inside v _ H1) as [a ->]. destruct (index_inside v _ H2) as [b ->]. cbn. eauto.
Qed.

(** ** The bootstrap *)
Lemma mapM_total {A B} (f : A -> res B) l : (forall x, x ∈ l -> exists y, f x = Ok y) -> exists ys, mapM f l = Ok ys.
Proof.
  induction l as [|x l IH]; intros H; cbn; [eauto|]. destruct (H x) as [y ->]; [left|]. cbn.
  destruct IH as [ys ->]; [|by eauto]. intros z Hz. apply H. by right.
Qed.
Lemma foldM_total {A S} (f : S -> A -> res S) s l : (forall s x, exists s', f s x = Ok s') -> exists s', foldM f s l = Ok s'.
Proof. intros H. revert s. induction l as [|x l IH]; intros s; cbn; [eauto|]. destruct (H s x) as [s' ->]. apply IH. Qed.

Section Bootstrap.
Context (Intn : Z -> Z -> nat -> Z).
Hypothesis Intn_below : forall seed n k, 0 < n -> 0 <= Intn seed n k < n.

Lemma resample_total values weights seed i : values <> [] -> len weights = len values ->
  exists x, resample Intn values weights seed i = Ok x.
Proof using Intn_below.
  intros Hv Hw. unfold resample. match goal with |- context [foldM ?f ?s ?l] => destruct (foldM_total f s l) as [s' ->] end; [|cbn; eauto].
  intros s k. unfold draw. assert (0 < len values) by (destruct values; [done | unfold len; cbn; lia]).
  pose proof (Intn_below seed (len values) k ltac:(done)) as Hi.
  destruct (index_inside values _ Hi) as [v ->]. rewrite <- Hw in Hi. destruct (index_inside weights _ Hi) as [w Ew].
  rewrite Hw in Ew. cbn. rewrite Ew. cbn. eauto.
Qed.
Definition usable (values weights : list float64) (iterations : Z) : Prop :=
  2 <= len values /\ 0 < iterations <= MaxBootstrapIterations /\ len weights = len values /\
  Forall (fun v => finite_f v = true) values /\ Forall (fun w => positive_finite w = true) weights.
Lemma sort_floats_len l : len (sort_floats l) = len l.
Proof. unfold len, sort_floats. by rewrite SliceStable_length. Qed.
Lemma bootstrap_total values weights seed iterations : usable values weights iterations ->
  exists lower upper, bootstrapWeighted Intn values weights seed iterations = Ok (mkCI true "" (weightedMean values weights) lower upper).
Proof using Intn_below.
  intros (H1 & H2 & H3 & H4 & H5). unfold bootstrapWeighted.
  rewrite (proj2 (Z.ltb_ge _ _)), (proj2 (Z.leb_gt _ _)), (proj2 (Z.ltb_ge _ _)), H3, Z.eqb_refl by lia. cbn [orb negb].
  assert (E : existsb (fun vw : float64 * float64 => negb (finite_f vw.1) || negb (finite_f vw.2) || fle vw.2 fzero) (zip values weights) = false).
  { apply not_true_iff_false. rewrite existsb_exists. intros ([v w] & Hin%list_elem_of_In & Hb). cbn in Hb.
    pose proof (elem_of_zip_l _ _ _ _ Hin) as Hv. pose proof (elem_of_zip_r _ _ _ _ Hin) as Hw. rewrite !Forall_forall in *.
    rewrite H4 in Hb by done. specialize (H5 _ Hw). by destruct w as [| | |[]]. }
  rewrite E. match goal with |- context [mapM ?f ?l] => destruct (mapM_total f l) as [sample Es] end.
  { intros i _. apply resample_total; [|done]. intros ->. unfold len in H1. cbn in H1. lia. }
  rewrite Es. cbn [rbind]. assert (Hl : len (sort_floats sample) = iterations).
  { rewrite sort_floats_len. unfold len. rewrite (mapM_length _ _ _ Es), length_seq. lia. }
  destruct (percentile_inside (sort_floats sample) (f_of_ratio 25 1000)) as [lo ->]; [by left | lia|]. cbn [rbind].
  destruct (percentile_inside (sort_floats sample) (f_of_ratio 975 1000)) as [hi ->]; [by right | lia|]. cbn [rbind]. eauto.
Qed.
Lemma usable_weight_positive w : positive_finite (usable_weight w) = true.
Proof.
  unfold usable_weight. destruct (finite_f w) eqn:E1; cbn [negb orb]; [|vm_compute; reflexivity].
  destruct (fle w fzero) eqn:E2; [vm_compute; reflexivity | by apply positive_not_le].
Qed.

(** ** [Evaluate] *)
(** Every fold has finite metrics and a finite stressed return. *)
Definition fold_usable (spec : ManifestSpec) (f : FoldResult) : Prop :=
  existsb (fun v => negb (finite_f v)) (metric_values (FR_Metrics f)) = false /\
  forall v, stressed_value spec f = Ok v -> finite_f v = true.
Definition evaluable (folds : list FoldResult) (spec : ManifestSpec) : Prop :=
  Z.max 2 (SR_MinIndependentUnits (MS_Samples spec)) <= len folds /\ known_unit (MS_StatisticalUnit spec) = true /\
  0 < MS_BootstrapIterations spec <= MaxBootstrapIterations /\ Forall (fold_usable spec) folds.
Lemma weights_usable (weight : FoldResult -> float64) folds : Forall (fun w => positive_finite w = true) ((fun f => usable_weight (weight f)) <$> folds).
Proof. apply Forall_fmap, Forall_forall. intros f _. apply usable_weight_positive. Qed.
Lemma metric_total folds spec extract weight : evaluable folds spec -> (forall m, In (extract m) (metric_values m)) ->
  exists mean lower upper, metric Intn folds spec extract weight = Ok (mkCI true "" mean lower upper).
Proof using Intn_below.
  intros (H1 & _ & H2 & H3) He. unfold metric.
  match goal with |- context [bootstrapWeighted _ ?v ?w _ _] => destruct (bootstrap_total v w (MS_Seed spec) (MS_BootstrapIterations spec)) as (lo & hi & ->) end;
    [|by eauto].
  unfold usable. rewrite !len_fmap. split_and!; [lia.. | | apply weights_usable].
  apply Forall_fmap. rewrite Forall_forall in *. intros f Hf. destruct (H3 _ Hf) as [Hm _].
  destruct (finite_f (extract (FR_Metrics f))) eqn:E; [done|]. assert (Hx : existsb (fun v => negb (finite_f v)) (metric_values (FR_Metrics f)) = true).
  { apply existsb_exists. eexists. split; [apply He|]. cbn. by rewrite E. }
  by rewrite Hx in Hm.
Qed.
Lemma stressed_value_ok spec f : exists v, stressed_value spec f = Ok v.
Proof.
  unfold stressed_value, stressedReturn. destruct (Z.leb_spec 2 (len (FPr_Curve (FR_Primitives f)))); [|eauto].
  destruct (index_inside (FPr_Curve (FR_Primitives f)) (len (FPr_Curve (FR_Primitives f)) - 1)) as [c ->]; [lia|]. cbn. eauto.
Qed.
Ltac metric_ok H := match goal with |- context [metric _ ?folds ?spec ?e ?w] =>
  let E := fresh "E" in destruct (metric_total folds spec e w H) as (? & ? & ? & E);
  [intros; unfold metric_values; cbn [In]; tauto | rewrite E; cbn [rbind]; clear E] end.
Lemma summarize_total folds spec : evaluable folds spec -> exists s, summarize Intn folds spec = Ok s.
Proof using Intn_below.
  intros H. unfold summarize.
  do 11 metric_ok H. destruct (mapM_total (stressed_value spec) folds) as [vs Evs]; [intros f _; apply stressed_value_ok|].
  rewrite Evs. cbn [rbind]. pose proof H as (H1 & _ & H2 & H3).
  match goal with |- context [bootstrapWeighted _ ?v ?w _ _] => destruct (bootstrap_total v w (MS_Seed spec) (MS_BootstrapIterations spec)) as (lo & hi & ->) end.
  { assert (Hl : len vs = len folds) by (unfold len; by rewrite (mapM_length _ _ _ Evs)).
    unfold usable. rewrite !len_fmap, Hl. split_and!; [lia.. | | apply weights_usable].
    apply mapM_Ok in Evs. clear Hl H1 H. induction Evs as [|f v l vs Hv _ IH]; constructor.
    - rewrite Forall_cons in H3. by apply H3.
    - apply IH. rewrite Forall_cons in H3. by apply H3. }
  cbn [rbind]. metric_ok H. destruct (deflateSharpe _ _ _ _ _) as [[m l] u]. eauto.
Qed.

(** With a generator that draws below its bound, the evaluation of enough
    folds with finite figures never panics: it either
    reports that one trade, symbol or window dominates, or returns an
    evaluation. *)
Theorem Evaluate_result folds spec : evaluable folds spec ->
  if Do_Dominated (domination folds)
  then exists details, Evaluate Intn folds spec = Err (DiagnosticError DiagnosticDominated "" details)
  else exists ev, Evaluate Intn folds spec = Ok ev.
Proof using Intn_below.
  intros H. pose proof H as (H1 & H2 & _). unfold Evaluate.
  rewrite (proj2 (Z.ltb_ge _ _)), H2 by lia. cbn [negb]. destruct (summarize_total folds spec H) as [s ->]. cbn [rbind].
  destruct (Do_Dominated _); [eauto|]. destruct folds as [|f folds]; [unfold len in H1; cbn in H1; lia|]. cbn. eauto.
Qed.
End Bootstrap.

Lemma gates_metrics thresholds s : Ga_Metric <$> evaluateThresholds thresholds s = Th_Metric <$> thresholds.
Proof.
  induction thresholds as [|t l IH]; [done|]. unfold evaluateThresholds in *. rewrite !fmap_cons, IH. f_equal.
  unfold gate. by destruct (lookup_metric (metric_bounds s) (Th_Metric t)).
Qed.
Lemma gate_passes s t : Ga_Passed (gate s t) = true <->
  exists observed, lookup_metric (metric_bounds s) (Th_Metric t) = Some observed /\ compare observed (Th_Op t) (Th_Value t) = true.
Proof.
  unfold gate. destruct (lookup_metric (metric_bounds s) (Th_Metric t)) as [o|]; cbn.
  - split; [by eauto|]. by intros (? & [= <-] & ?).
  - split; [done|]. by intros (? & ? & _).
Qed.
Lemma gates_pass thresholds s : forallb Ga_Passed (evaluateThresholds thresholds s) = true <->
  Forall (fun t => exists observed, lookup_metric (metric_bounds s) (Th_Metric t) = Some observed /\ compare observed (Th_Op t) (Th_Value t) = true) thresholds.
Proof.
  induction thresholds as [|t l IH]; [split; [constructor | done]|].
  unfold evaluateThresholds in *. rewrite fmap_cons. cbn [forallb]. rewrite andb_true_iff, Forall_cons, IH, gate_passes. done.
Qed.

