(* ===== verification/WalkForward.v ===== *)
(** * WalkForward: running an experiment and its evidence

    [RunWalkForward] of [internal/validation/walkforward.go], and the checks
    and the compact form of its result ([repository.go],
    [evidence_envelope.go]). The runners of the folds are an interface: their
    operations may read and change a world [W], fail, and return anything. Each
    call is logged with its arguments and its answer. SHA-256, JSON, the
    generator and the order in which maps are visited are parameters. *)
From Stdlib Require Import Ascii SpecFloat.
From stdpp Require Import base numbers strings gmap list.
From S2P Require Import Prelude GoStrings GoFloat GoTime Snapshots ValidationTypes Splits FoldMetrics Manifest Evaluation.
Local Open Scope Z_scope.

Abbreviation choices := (gmap string (list string)) (only parsing).

(** ** Runners *)
Record FoldRunnerFactory (W R : Type) : Type := mkFactory {
  NewFoldRunner : Fold -> stM W (option R);
  FitAndSelect : R -> Fold -> list Sample -> list Sample -> choices -> stM W FoldFit;
  Test : R -> Fold -> string -> list Sample -> stM W FoldPrimitives;
  pointer : R -> option Z }.
Arguments NewFoldRunner {W R}. Arguments FitAndSelect {W R}. Arguments Test {W R}. Arguments pointer {W R}.

Inductive Call (R : Type) : Type :=
| CallNew (fold : Fold) (answer : res (option R))
| CallFit (runner : R) (fold : Fold) (train validation : list Sample) (allowed : choices) (answer : res FoldFit)
| CallTest (runner : R) (fold : Fold) (artifact : string) (test : list Sample) (answer : res FoldPrimitives).
Arguments CallNew {R}. Arguments CallFit {R}. Arguments CallTest {R}.

Definition logged {W R A} (c : res A -> Call R) (m : stM W A) : stM (W * list (Call R)) A := fun '(w, calls) =>
  let '(r, w') := m w in (r, (w', calls ++ [c r])).

Section WalkForward.
Context {W R : Type} (factory : FoldRunnerFactory W R).
Context (sha256hex : string -> string) (MarshalPolicy : string -> gmap string string -> string)
  (MarshalFamily : string -> string -> string -> string -> string) (MarshalHoldout : string -> string -> Interval -> string)
  (MarshalSpec : ManifestSpec -> res string) (FormatTime : Time -> string).
Context (MarshalSamples : list Sample -> res string)
  (MarshalFit : Z -> string -> string -> string -> Z -> string)
  (MarshalSelection : Z -> string -> string -> gmap string string -> choices -> string).
Context (Intn : Z -> Z -> nat -> Z) (policyOrder : gmap string string -> list (string * string))
  (range : nat -> nat -> forall A, gmap string A -> list (string * A)).

Definition Verify (m : ExperimentManifest) : res unit :=
  Manifest_Verify sha256hex MarshalPolicy MarshalFamily MarshalHoldout MarshalSpec FormatTime policyOrder m.
Definition sampleDigest (samples : list Sample) : res string :=
  let* encoded := MarshalSamples (cloneSamples samples) in Ok (sha256hex encoded).

(** ** Freezing the folds *)
Record Frozen : Type := mkFrozenFold { fz_decision : FrozenDecision; fz_split : Split; fz_runner : R; fz_artifact : string }.
Record FreezeState : Type := mkFreezeState { fz_folds : list Frozen; fz_pointers : gset Z }.
Definition fold_field (fold : Fold) (suffix : string) : string := "folds[" +:+ Itoa (Fo_Index fold) +:+ "]." +:+ suffix.
Definition freeze (spec : ManifestSpec) (fold : Fold) (split : Split) (fit : FoldFit) : res FrozenDecision :=
  let* trainDigest := sampleDigest (Sp_Train split) in
  let* validationDigest := sampleDigest (Sp_Validation split) in
  let artifactDigest := sha256hex (FF_Artifact fit) in
  let fitDigest := sha256hex (MarshalFit (Fo_Index fold) trainDigest (AP_Digest (MS_AuthorityPolicy spec)) artifactDigest (MS_Seed spec)) in
  let selectionDigest := sha256hex (MarshalSelection (Fo_Index fold) validationDigest (FF_Choice fit) (FF_Parameters fit) (MS_AllowedTuning spec)) in
  let* testDigest := sampleDigest (Sp_Test split) in
  let frozen := mkFrozen (Fo_Index fold) (FF_Choice fit) (FF_Parameters fit) fitDigest selectionDigest artifactDigest (FF_TrainDigest fit)
    (FF_ValidationDigest fit) testDigest (FF_DataDigest fit) (FF_SelectionRationale fit) in
  if (FF_Choice fit =s "") || (fitDigest =s "") || (selectionDigest =s "")
  then Err (DiagnosticError DiagnosticTestLeakage (fold_field fold "frozen") "trusted frozen decision is incomplete") else Ok frozen.
(** [runner, err := factory.NewFoldRunner(fold); if err != nil || runner == nil]. *)
Definition fresh_runner (fold : Fold) : stM (W * list (Call R)) R := fun st =>
  let missing := Err (DiagnosticError DiagnosticInvalidManifest (fold_field fold "runner") "fresh fold runner is required") in
  match logged (CallNew fold) (NewFoldRunner factory fold) st with
  | (Ok (Some r), st') => (Ok r, st')
  | (Panic w, st') => (Panic w, st')
  | (_, st') => (missing, st')
  end.
Definition claim_pointer (pointers : gset Z) (r : R) : res (gset Z) :=
  match pointer factory r with
  | Some p => if bool_decide (p ∈ pointers)
              then Err (DiagnosticError DiagnosticTestLeakage "fold_runner" "runner instance reused across folds") else Ok ({[p]} ∪ pointers)
  | None => Ok pointers
  end.
Definition freeze_fold (spec : ManifestSpec) (samples : list Sample) (s : FreezeState) (fold : Fold) : stM (W * list (Call R)) FreezeState :=
  let! split := slift (SplitFold samples fold (MS_Purge spec) (MS_Embargo spec)) in
  let! _ := slift (validateSplit split (MS_Samples spec)) in
  let! runner := fresh_runner fold in
  let! pointers := slift (claim_pointer (fz_pointers s) runner) in
  let train := cloneSamples (Sp_Train split) in
  let validation := cloneSamples (Sp_Validation split) in
  let! fit := logged (CallFit runner fold train validation (MS_AllowedTuning spec)) (FitAndSelect factory runner fold train validation (MS_AllowedTuning spec)) in
  let! _ := slift (validateFit fit (MS_AllowedTuning spec)) in
  let! frozen := slift (freeze spec fold split fit) in
  sret (mkFreezeState (fz_folds s ++ [mkFrozenFold frozen split runner (FF_Artifact fit)]) pointers).

(** ** Testing the frozen folds *)
Definition test_fold (spec : ManifestSpec) (results : list FoldResult) (ff : Fold * Frozen) : stM (W * list (Call R)) (list FoldResult) :=
  let '(fold, f) := ff in
  let test := cloneSamples (Sp_Test (fz_split f)) in
  let! primitive := logged (CallTest (fz_runner f) fold (fz_artifact f) test) (Test factory (fz_runner f) fold (fz_artifact f) test) in
  let! metrics := slift (DeriveFoldMetrics primitive) in
  let! _ := slift (ValidateFoldMetrics (range (length results)) metrics (MS_Samples spec)) in
  sret (results ++ [mkFoldResult fold (fz_decision f) primitive metrics (minimumFloatKey (FM_RegimeContributions metrics))
                      (minimumFloatKey (FM_SymbolContributions metrics))]).
(** [factory] may be nil. *)
Definition RunWalkForward (present : bool) (manifest : ExperimentManifest) (samples : list Sample) : stM (W * list (Call R)) WalkForwardResult :=
  let spec := EM_Spec manifest in
  let! _ := slift (Verify manifest) in
  let! _ := slift (failIf (negb present) (DiagnosticError DiagnosticInvalidManifest "" "fold runner factory is required")) in
  let! _ := slift (validateSamples samples (MS_FeatureHorizon spec) (MS_LabelHorizon spec)) in
  let! frozen := sfoldM (freeze_fold spec samples) (mkFreezeState [] ∅) (MS_Folds spec) in
  let! results := sfoldM (test_fold spec) [] (zip (MS_Folds spec) (fz_folds frozen)) in
  let! evaluation := slift (Evaluate Intn results spec) in
  sret (mkWalkForward EvidenceSchemaVersion (EM_ID manifest) results evaluation).
End WalkForward.
Arguments fz_decision {R}. Arguments fz_split {R}. Arguments fz_runner {R}. Arguments fz_artifact {R}.
Arguments fz_folds {R}. Arguments fz_pointers {R}. Arguments mkFreezeState {R}. Arguments mkFrozenFold {R}.
