(* ===== verification/WalkForwardProofs.v ===== *)
(** * WalkForwardProofs: no test window is opened before every fold is frozen *)
From Stdlib Require Import Ascii SpecFloat.
From stdpp Require Import base numbers strings gmap list.
From S2P Require Import Prelude GoStrings GoFloat GoTime Snapshots ValidationTypes Splits SplitProofs FoldMetrics FoldMetricsProofs Manifest ManifestProofs Evaluation WalkForward.
Local Open Scope Z_scope.
Set Default Proof Using "Type".

(** ** The folds of an accepted manifest *)
Definition fold_at (interval : Interval) (i : Z) (f : Fold) : Prop :=
  Fo_Index f = i /\ windows_ordered f /\ Iv_Start (Fo_Train f) < Iv_End (Fo_Train f) /\
  Iv_Start interval <= Iv_Start (Fo_Train f) /\ Iv_End (Fo_Test f) <= Iv_End interval.
Lemma check_fold_ok interval i prior f st : check_fold interval (i, prior) f = Ok st ->
  st = (i + 1, Iv_End (Fo_Test f)) /\ fold_at interval i f /\ (prior <> 0 -> prior <= Iv_Start (Fo_Test f)).
Proof.
  unfold check_fold. intros H. destruct (_ || _) eqn:E in H; [done|]. destruct (_ && _) eqn:E2 in H; [done|]. injection H as <-.
  unfold Interval_Valid, After, Before, IsZero in *. bool_prop.
  split_and!; [done | unfold fold_at, windows_ordered; lia |]. intros Hp. apply andb_false_iff in E2 as [E2|E2]; bool_prop; lia.
Qed.
Lemma check_folds_loop interval folds i prior st : 0 <= Iv_Start interval -> prior = 0 \/ 0 < prior ->
  foldM (check_fold interval) (i, prior) folds = Ok st ->
  (forall k f, folds !! k = Some f -> fold_at interval (i + Z.of_nat k) f /\ prior <= Iv_Start (Fo_Test f)) /\
  (forall k j f g, (k < j)%nat -> folds !! k = Some f -> folds !! j = Some g -> Iv_End (Fo_Test f) <= Iv_Start (Fo_Test g)).
Proof.
  intros Hi. revert i prior. induction folds as [|f folds IH]; intros i prior Hp H; cbn [foldM] in H; [split; [intros k f | intros k j f g _]; by rewrite lookup_nil|].
  destruct (check_fold interval (i, prior) f) as [st'| |] eqn:E; [|done..]. cbn [rbind] in H.
  apply check_fold_ok in E as (-> & Hf & Hprior). pose proof Hf as (_ & (W1 & W2 & W3 & W4) & W5 & W6 & _).
  apply IH in H as [H1 H2]; [|lia]. split.
  - intros [|k] g Hg; cbn in Hg.
    + injection Hg as <-. split; [by rewrite Z.add_0_r|]. destruct Hp as [->|Hp]; [lia | apply Hprior; lia].
    + destruct (H1 k g Hg) as [G1 G2]. split; [by replace (i + Z.of_nat (S k)) with (i + 1 + Z.of_nat k) by lia|].
      destruct Hp as [->|Hp]; [lia|]. specialize (Hprior ltac:(lia)). lia.
  - intros [|k] [|j] g h Hkj Hg Hh; cbn in Hg, Hh; try lia.
    + injection Hg as <-. by apply H1 in Hh as [_ Hh].
    + eapply (H2 k j); [lia | done..].
Qed.

(** The folds of an accepted experiment are between two (or the declared
    minimum) and sixty-four, indexed in order, each with its windows in
    chronological order inside the experiment's interval, and their test
    windows never overlap. *)
Theorem ValidateFolds_spec folds interval minimum : 0 <= Iv_Start interval -> ValidateFolds folds interval minimum = Ok tt ->
  Z.max 2 minimum <= Z.of_nat (length folds) <= MaxFolds /\
  (forall k f, folds !! k = Some f -> fold_at interval (Z.of_nat k) f) /\
  (forall k j f g, (k < j)%nat -> folds !! k = Some f -> folds !! j = Some g -> Iv_End (Fo_Test f) <= Iv_Start (Fo_Test g)).
Proof.
  intros Hi. unfold ValidateFolds. intros H. destruct (_ || _) eqn:E in H; [done|].
  destruct (foldM _ _ _) as [st| |] eqn:El; [|done..]. apply (check_folds_loop _ _ 0 0) in El as [H1 H2]; [|done|by left].
  split_and!; [bool_prop; destruct (Z.ltb_spec minimum 2); lia.. | | done].
  intros k f Hk. by destruct (H1 k f Hk) as [G _].
Qed.

(** ** The log of a computation *)
Section Log.
Context {W R : Type}.
Abbreviation state := (W * list (Call R))%type.
(** Whatever the outcome, [m] appends calls of [P] to the log. *)
Definition emits {A} (P : list (Call R) -> res A -> Prop) (m : stM state A) : Prop :=
  forall w l r w' l', m (w, l) = (r, (w', l')) -> exists new, l' = l ++ new /\ P new r.
Lemma emits_lift {A} (m : res A) : emits (fun new r => new = [] /\ r = m) (slift m).
Proof. intros w l r w' l' [= <- <- <-]. exists []. by rewrite app_nil_r. Qed.
Lemma emits_ret {A} (a : A) : emits (fun new r => new = [] /\ r = Ok a) (sret a).
Proof. intros w l r w' l' [= <- <- <-]. exists []. by rewrite app_nil_r. Qed.
Lemma emits_logged {A} (c : res A -> Call R) (m : stM W A) : emits (fun new r => new = [c r]) (logged c m).
Proof. intros w l r w' l' H. unfold logged in H. destruct (m w) as [r0 w0]. injection H as <- <- <-. by exists [c r0]. Qed.
Lemma emits_impl {A} (P Q : list (Call R) -> res A -> Prop) (m : stM state A) : emits P m -> (forall new r, P new r -> Q new r) -> emits Q m.
Proof. intros Hm H w l r w' l' E. apply Hm in E as (new & -> & HP). eauto. Qed.
(** A weaker form: every appended call satisfies [C], and a success satisfies [Q]. *)
Definition emits_all {A} (C : Call R -> Prop) (Q : list (Call R) -> A -> Prop) (m : stM state A) : Prop :=
  emits (fun new r => Forall C new /\ forall a, r = Ok a -> Q new a) m.
Lemma all_lift {A} C (m : res A) : emits_all C (fun new a => new = [] /\ m = Ok a) (slift m).
Proof. eapply emits_impl; [apply emits_lift|]. intros new r [-> ->]. split; [constructor | by intros a ->]. Qed.
Lemma all_ret {A} C (a : A) : emits_all C (fun new b => new = [] /\ b = a) (sret a).
Proof. eapply emits_impl; [apply emits_ret|]. intros new r [-> ->]. split; [constructor | by intros b [= ->]]. Qed.
Lemma all_logged {A} C (c : res A -> Call R) (m : stM W A) : (forall r, C (c r)) -> emits_all C (fun new a => new = [c (Ok a)]) (logged c m).
Proof. intros H. eapply emits_impl; [apply emits_logged|]. intros new r ->. split; [by constructor | by intros a ->]. Qed.
Lemma all_bind {A B} C (P : list (Call R) -> A -> Prop) (Q : A -> list (Call R) -> B -> Prop) (m : stM state A) (k : A -> stM state B) :
  emits_all C P m -> (forall a, (exists n, P n a) -> emits_all C (Q a) (k a)) ->
  emits_all C (fun new b => exists n1 n2 a, new = n1 ++ n2 /\ P n1 a /\ Q a n2 b) (sbind m k).
Proof.
  intros Hm Hk w l r w' l' H. unfold sbind in H. destruct (m (w, l)) as [r0 [w1 l1]] eqn:E. apply Hm in E as (n1 & -> & HF & HP).
  destruct r0 as [a|e|x]; [|injection H as <- <- <-; exists n1; split; [done|]; split; [done|]; intros ? [=]..].
  specialize (HP a eq_refl). apply Hk in H as (n2 & -> & HF2 & HQ); [|by eexists].
  exists (n1 ++ n2). split; [by rewrite (assoc_L (++))|]. split; [by apply Forall_app|]. intros b ->. exists n1, n2, a. eauto.
Qed.
Lemma all_impl {A} (C C' : Call R -> Prop) (P Q : list (Call R) -> A -> Prop) (m : stM state A) :
  (forall c, C c -> C' c) -> (forall new a, P new a -> Q new a) -> emits_all C P m -> emits_all C' Q m.
Proof. intros HC HP Hm. eapply emits_impl; [exact Hm|]. intros new r [HF H]. split; [by eapply Forall_impl | eauto]. Qed.
End Log.

(** ** Freezing and testing *)
Section Run.
Context {W R : Type} (factory : FoldRunnerFactory W R).
Context (sha256hex : string -> string) (MarshalSamples : list Sample -> res string)
  (MarshalFit : Z -> string -> string -> string -> Z -> string)
  (MarshalSelection : Z -> string -> string -> gmap string string -> gmap string (list string) -> string)
  (range : nat -> nat -> forall A, gmap string A -> list (string * A)).
Context (spec : ManifestSpec) (samples : list Sample).
Abbreviation Freeze := (freeze_fold factory sha256hex MarshalSamples MarshalFit MarshalSelection spec samples).
Abbreviation split_of fold := (SplitFold samples fold (MS_Purge spec) (MS_Embargo spec)).

(** A call made while a fold is frozen: its fit sees copies of the training and
    validation samples of that fold's split, and nothing else. *)
Definition freeze_call (folds : list Fold) (c : Call R) : Prop :=
  match c with
  | CallNew f _ => f ∈ folds
  | CallFit _ f train validation allowed _ => f ∈ folds /\ allowed = MS_AllowedTuning spec /\
      exists split, split_of f = Ok split /\ train = cloneSamples (Sp_Train split) /\ validation = cloneSamples (Sp_Validation split)
  | CallTest _ _ _ _ _ => False
  end.
(** What is frozen for a fold is what its logged fit returned. *)
Definition frozen_by (calls : list (Call R)) (f : Fold) (z : @Frozen R) : Prop :=
  split_of f = Ok (fz_split z) /\ exists fit,
    CallFit (fz_runner z) f (cloneSamples (Sp_Train (fz_split z))) (cloneSamples (Sp_Validation (fz_split z))) (MS_AllowedTuning spec) (Ok fit) ∈ calls /\
    fz_artifact z = FF_Artifact fit /\ validateFit fit (MS_AllowedTuning spec) = Ok tt /\
    freeze sha256hex MarshalSamples MarshalFit MarshalSelection spec f (fz_split z) fit = Ok (fz_decision z).
Definition test_call (pairs : list (Fold * @Frozen R)) (c : Call R) : Prop :=
  exists f z answer, (f, z) ∈ pairs /\ c = CallTest (fz_runner z) f (fz_artifact z) (cloneSamples (Sp_Test (fz_split z))) answer.
Lemma frozen_by_mono c1 c2 f z : frozen_by c1 f z -> (forall c, c ∈ c1 -> c ∈ c2) -> frozen_by c2 f z.
Proof. intros (H1 & fit & H2 & H3) H. split; [done|]. exists fit. auto. Qed.

Lemma fresh_runner_all folds fold : fold ∈ folds -> emits_all (freeze_call folds) (fun _ _ => True) (fresh_runner factory fold).
Proof.
  intros Hf w l r w' l' H. unfold fresh_runner in H. destruct (logged _ _ _) as [r0 [w0 l0]] eqn:E. apply emits_logged in E as (new & -> & ->).
  exists [CallNew fold r0]. destruct r0 as [[x|]|e|x]; injection H as <- <- <-; (split; [done|]; split; [by repeat constructor | done]).
Qed.
(** The pointers claimed so far are those of the frozen runners, all distinct. *)
Definition claimed (s : @FreezeState R) : Prop :=
  fz_pointers s = list_to_set (omap (fun z => pointer factory (fz_runner z)) (fz_folds s)) /\
  NoDup (omap (fun z => pointer factory (fz_runner z)) (fz_folds s)).
Lemma freeze_fold_all folds s fold : fold ∈ folds ->
  emits_all (freeze_call folds) (fun new s' => exists z, fz_folds s' = fz_folds s ++ [z] /\ frozen_by new fold z /\ (claimed s -> claimed s')) (Freeze s fold).
Proof.
  intros Hf. unfold freeze_fold. eapply all_impl; [done| |].
  2: { eapply all_bind; [apply all_lift|]. intros split (? & _ & Es). eapply all_bind; [apply all_lift|]. intros ? _.
       eapply all_bind; [by apply fresh_runner_all|]. intros runner _. eapply all_bind; [apply all_lift|]. intros pointers _.
       eapply all_bind; [apply all_logged; intros r; split; [done|]; split; [done|]; by exists split|]. intros fit _.
       eapply all_bind; [apply all_lift|]. intros ? _. eapply all_bind; [apply all_lift|]. intros frozen _. apply all_ret. }
  intros new s' H. cbn beta in H.
  destruct H as (n1 & n2 & split & -> & [-> Es] & n3 & n4 & u1 & -> & [-> _] & n5 & n6 & runner & -> & _ & n7 & n8 & pointers & -> & [-> Ep] &
    n9 & n10 & fit & -> & -> & n11 & n12 & u2 & -> & [-> Ev] & n13 & n14 & frozen & -> & [-> Ez] & -> & ->).
  eexists. split; [done|]. split.
  - split; [done|]. exists fit. cbn [fz_runner fz_split fz_artifact fz_decision]. destruct u2. split_and!; try done. set_solver.
  - intros [C1 C2]. unfold claimed, claim_pointer in *. cbn [fz_folds fz_pointers]. rewrite omap_app. cbn [omap list_omap fz_runner].
    destruct (pointer factory runner) as [p|]; [|injection Ep as <-; by rewrite app_nil_r].
    case_bool_decide as Hp; [done|]. injection Ep as <-. rewrite C1, elem_of_list_to_set in Hp.
    split; [by rewrite list_to_set_snoc, C1 | by apply NoDup_snoc].
Qed.
Lemma freeze_all folds done s : claimed s ->
  emits_all (freeze_call (done ++ folds)) (fun new s' => exists zs, fz_folds s' = fz_folds s ++ zs /\ Forall2 (frozen_by new) folds zs /\ claimed s')
    (sfoldM Freeze s folds).
Proof.
  revert done s. induction folds as [|f folds IH]; intros done s Hs; cbn [sfoldM].
  - eapply all_impl; [done| |apply all_ret]. intros new s' [-> ->]. exists []. by rewrite app_nil_r.
  - eapply all_impl; [done| |].
    2: { eapply all_bind; [apply freeze_fold_all; rewrite elem_of_app; right; left|]. intros s1 (n & z & _ & _ & Hc).
         specialize (IH (done ++ [f]) s1 (Hc Hs)). rewrite <- app_assoc in IH. exact IH. }
    intros new s' (n1 & n2 & s1 & -> & (z & E1 & Hz & _) & zs & E2 & Hzs & Hc). exists (z :: zs).
    split; [by rewrite E2, E1, <- app_assoc|]. split; [|done]. constructor.
    + eapply frozen_by_mono; [exact Hz | set_solver].
    + eapply Forall2_impl; [exact Hzs|]. intros f' z' H. eapply frozen_by_mono; [exact H | set_solver].
Qed.
(** The result of one tested fold. *)
Definition result_of (i : nat) (fz : Fold * @Frozen R) (r : FoldResult) : Prop :=
  FR_Fold r = fz.1 /\ FR_Frozen r = fz_decision fz.2 /\ DeriveFoldMetrics (FR_Primitives r) = Ok (FR_Metrics r) /\
  ValidateFoldMetrics (range i) (FR_Metrics r) (MS_Samples spec) = Ok tt.
Lemma test_fold_all pairs results fz : fz ∈ pairs ->
  emits_all (test_call pairs) (fun _ results' => exists r, results' = results ++ [r] /\ result_of (length results) fz r)
    (test_fold factory range spec results fz).
Proof.
  intros Hin. destruct fz as [f z]. unfold test_fold. eapply all_impl; [done| |].
  2: { eapply all_bind; [apply all_logged; intros r; exists f, z, r; split; [exact Hin | done]|]. intros p _. eapply all_bind; [apply all_lift|].
       intros m _. eapply all_bind; [apply all_lift|]. intros ? _. apply all_ret. }
  intros new s' H. cbn beta in H. destruct H as (n1 & n2 & p & -> & -> & n3 & n4 & m & -> & [-> Em] & n5 & n6 & [] & -> & [-> Ev] & -> & ->).
  eexists. split; [done|]. unfold result_of. by cbn.
Qed.
Lemma test_all pairs rest results : (forall fz, fz ∈ rest -> fz ∈ pairs) ->
  emits_all (test_call pairs) (fun _ results' => exists rs, results' = results ++ rs /\ length rs = length rest /\
    forall i fz r, rest !! i = Some fz -> rs !! i = Some r -> result_of (length results + i) fz r) (sfoldM (test_fold factory range spec) results rest).
Proof.
  revert results. induction rest as [|fz rest IH]; intros results Hin; cbn [sfoldM].
  - eapply all_impl; [done| |apply all_ret]. intros new s' [-> ->]. exists []. rewrite app_nil_r. split_and!; [done..|]. intros i fz r. by rewrite lookup_nil.
  - eapply all_impl; [done| |].
    2: { eapply all_bind; [apply test_fold_all, Hin; left|]. intros rs _. apply IH. intros y Hy. apply Hin. by right. }
    intros new s' (n1 & n2 & rs1 & -> & (r & -> & Hr) & rs & -> & Hl & Hrs). exists (r :: rs).
    split; [by rewrite <- app_assoc|]. split; [cbn; by rewrite Hl|].
    intros [|i] fz' r' H1 H2; cbn in H1, H2.
    + injection H1 as <-. injection H2 as <-. by rewrite Nat.add_0_r.
    + specialize (Hrs i fz' r' H1 H2). rewrite length_app in Hrs. cbn in Hrs. by replace (length results + S i)%nat with (length results + 1 + i)%nat by lia.
Qed.
End Run.

Section Theorems.
Context {W R : Type} (factory : FoldRunnerFactory W R).
Context (sha256hex : string -> string) (MarshalPolicy : string -> gmap string string -> string)
  (MarshalFamily : string -> string -> string -> string -> string) (MarshalHoldout : string -> string -> Interval -> string)
  (MarshalSpec : ManifestSpec -> res string) (FormatTime : Time -> string) (MarshalSamples : list Sample -> res string)
  (MarshalFit : Z -> string -> string -> string -> Z -> string)
  (MarshalSelection : Z -> string -> string -> gmap string string -> gmap string (list string) -> string)
  (Intn : Z -> Z -> nat -> Z) (policyOrder : gmap string string -> list (string * string))
  (range : nat -> nat -> forall A, gmap string A -> list (string * A)).
Abbreviation Run := (RunWalkForward factory sha256hex MarshalPolicy MarshalFamily MarshalHoldout MarshalSpec FormatTime MarshalSamples MarshalFit MarshalSelection Intn policyOrder range).
Abbreviation Accepted m := (Verify sha256hex MarshalPolicy MarshalFamily MarshalHoldout MarshalSpec FormatTime policyOrder m = Ok tt).
Abbreviation FrozenBy := (frozen_by sha256hex MarshalSamples MarshalFit MarshalSelection).

(** What a run returns when it succeeds. *)
Definition run_result (manifest : ExperimentManifest) (frozen : list (@Frozen R)) (result : WalkForwardResult) : Prop :=
  WF_SchemaVersion result = EvidenceSchemaVersion /\ WF_ExperimentID result = EM_ID manifest /\
  length (WF_Folds result) = length (MS_Folds (EM_Spec manifest)) /\
  (forall i fz r, zip (MS_Folds (EM_Spec manifest)) frozen !! i = Some fz -> WF_Folds result !! i = Some r -> result_of range (EM_Spec manifest) i fz r) /\
  Evaluate Intn (WF_Folds result) (EM_Spec manifest) = Ok (WF_Aggregate result).
(** The calls of a run: fits, and tests only once everything is frozen. *)
Definition sealed (manifest : ExperimentManifest) (samples : list Sample) (calls : list (Call R)) (r : res WalkForwardResult) : Prop :=
  let spec := EM_Spec manifest in
  exists fits tests, calls = fits ++ tests /\ Forall (freeze_call spec samples (MS_Folds spec)) fits /\
    (tests <> [] \/ is_ok r = true -> exists frozen, Forall2 (FrozenBy spec samples fits) (MS_Folds spec) frozen /\
       NoDup (omap (fun z => pointer factory (fz_runner z)) frozen) /\ Forall (test_call (zip (MS_Folds spec) frozen)) tests /\
       forall result, r = Ok result -> run_result manifest frozen result).
Lemma run_sealed present manifest samples w r w' calls : Run present manifest samples (w, []) = (r, (w', calls)) ->
  sealed manifest samples calls r /\ (calls <> [] \/ is_ok r = true -> Accepted manifest /\ validateSamples samples (MS_FeatureHorizon (EM_Spec manifest)) (MS_LabelHorizon (EM_Spec manifest)) = Ok tt).
Proof.
  set (spec := EM_Spec manifest). unfold RunWalkForward. fold spec. intros H.
  assert (Hstop' : forall e, sealed manifest samples [] (Err e)).
  { intros e. exists [], []. split; [done|]. split; [constructor|]. by intros [? | ?]. }
  assert (Hstop'' : forall x, sealed manifest samples [] (Panic x)).
  { intros e. exists [], []. split; [done|]. split; [constructor|]. by intros [? | ?]. }
  unfold sbind at 1, slift at 1 in H.
  destruct (Verify _ _ _ _ _ _ _ _) as [[]|e|x] eqn:E1 in H; [|injection H as <- <- <-; split; [done | by intros [? | ?]]..].
  unfold sbind at 1, slift at 1 in H. destruct (failIf _ _) as [[]|e|x] eqn:E2 in H; [|injection H as <- <- <-; split; [done | by intros [? | ?]]..].
  unfold sbind at 1, slift at 1 in H. destruct (validateSamples _ _ _) as [[]|e|x] eqn:E3 in H; [|injection H as <- <- <-; split; [done | by intros [? | ?]]..].
  split; [|by intros _]. clear E1 E2 E3. unfold sbind at 1 in H.
  destruct (sfoldM _ _ _ _) as [r1 [w1 l1]] eqn:Ef in H.
  apply (freeze_all factory sha256hex MarshalSamples MarshalFit MarshalSelection spec samples (MS_Folds spec) [] (mkFreezeState [] ∅)) in Ef as (fits & -> & HF & Hok);
    [|split; [done | constructor]]. cbn [app] in *.
  destruct r1 as [s1|e|x]; [|injection H as <- <- <-; exists fits, []; rewrite app_nil_r; split; [done|]; split; [done|]; by intros [? | ?]..].
  destruct (Hok s1 eq_refl) as (zs & Ez & Hz & Hc). cbn [fz_folds] in Ez. cbn in Ez. subst zs. destruct Hc as [_ Hc].
  unfold sbind at 1 in H. destruct (sfoldM _ _ _ _) as [r2 [w2 l2]] eqn:Et in H.
  apply (test_all factory range spec (zip (MS_Folds spec) (fz_folds s1)) (zip (MS_Folds spec) (fz_folds s1)) [] ltac:(done)) in Et as (tests & -> & HT & Hr).
  assert (Hend : calls = fits ++ tests /\ forall result, r = Ok result -> run_result manifest (fz_folds s1) result).
  { destruct r2 as [rs|e|x]; [|injection H as <- <- <-; split; [done | by intros ? [=]]..].
    destruct (Hr rs eq_refl) as (rs' & -> & Hl & Hrs). cbn [app] in H. unfold sbind, slift, sret in H.
    destruct (Evaluate _ _ _) as [ev|e|x] eqn:Ee; injection H as <- <- <-; (split; [done|]); intros result [= <-].
    unfold run_result. cbn [WF_SchemaVersion WF_ExperimentID WF_Folds WF_Aggregate]. split_and!; try done.
    rewrite Hl, length_zip_with. apply Forall2_length in Hz. fold spec. lia. }
  destruct Hend as [-> Hend]. exists fits, tests. split; [done|]. split; [done|]. intros _. exists (fz_folds s1). done.
Qed.

(** C23. No test window is opened before every fold is frozen: whatever the
    runners do, answer or fail, the calls of a run are the fits of the folds,
    each given only copies of that fold's training and validation samples, and
    then, once a runner of its own is frozen for every fold with the artifact
    and decision its fit returned, tests that each give a frozen runner exactly
    its artifact and the test samples of its fold. A successful run returns one
    result per fold, derived from its evidence, and their evaluation. *)
Theorem RunWalkForward_sealed present manifest samples w r w' calls :
  Run present manifest samples (w, []) = (r, (w', calls)) -> sealed manifest samples calls r.
Proof. by intros [H _]%run_sealed. Qed.

Lemma cloneSamples_in a l : a ∈ cloneSamples l -> exists s, s ∈ l /\ Sa_FeatureEnd a = Sa_FeatureEnd s /\ Sa_LabelEnd a = Sa_LabelEnd s /\ Sa_ObservedAt a = Sa_ObservedAt s.
Proof. unfold cloneSamples. intros (s & -> & Hs)%list_elem_of_fmap. by exists s. Qed.
Lemma accepted_folds manifest : Accepted manifest ->
  ValidateFolds (MS_Folds (EM_Spec manifest)) (MS_Interval (EM_Spec manifest)) (SR_MinFolds (MS_Samples (EM_Spec manifest))) = Ok tt /\
  0 <= MS_Purge (EM_Spec manifest).
Proof.
  unfold Verify, Manifest_Verify. intros H. destruct (CanonicalManifestSpec _ _ _ _ _ _ _) as [[enc n]|e|x] eqn:E; [|done..]. clear H.
  apply CanonicalManifestSpec_spec in E as (ml & [_ _ _ H4 _ _ _ H8 _ _ _ _ _ _ _] & _). split.
  - revert H8. unfold check_collections. cbn. do 3 (destruct (_ || _ || _) || destruct (Nat.eqb _ _) || destruct (existsb _ _); [done|]). done.
  - revert H4. unfold check_policies. cbn. destruct (bad_stress _); [done|].
    destruct (match MS_BaselineComparability _ with Some p => bad_comparability p | None => false end); [done|].
    destruct (_ || _) eqn:E; [done|]. intros _. by bool_prop.
Qed.
(** C22. In a run of an accepted experiment no runner is ever given, to fit or
    to select with, a sample whose features or label end less than the purge
    before a sample its fold is tested on. *)
Theorem RunWalkForward_no_leakage present manifest samples w r w' calls :
  MS_Purge (EM_Spec manifest) < 2 ^ 63 -> 0 <= Iv_Start (MS_Interval (EM_Spec manifest)) ->
  Run present manifest samples (w, []) = (r, (w', calls)) ->
  forall r1 r2 f train validation allowed fit artifact test primitives a b,
    CallFit r1 f train validation allowed fit ∈ calls -> CallTest r2 f artifact test primitives ∈ calls ->
    a ∈ train ++ validation -> b ∈ test ->
    Sa_FeatureEnd a + MS_Purge (EM_Spec manifest) <= Sa_ObservedAt b /\ Sa_LabelEnd a + MS_Purge (EM_Spec manifest) <= Sa_ObservedAt b.
Proof.
  intros Hp Hi H r1 r2 f train validation allowed fit artifact test primitives a b Hfit Htest Ha Hb.
  apply run_sealed in H as [(fits & tests & -> & HF & Hrest) Hacc].
  destruct Hacc as [Hacc _]; [left; by intros E; rewrite E in Hfit; apply elem_of_nil in Hfit|].
  apply accepted_folds in Hacc as [Hv Hp0]. destruct (ValidateFolds_spec _ _ _ Hi Hv) as (_ & Hfold & _).
  assert (Hin : CallTest r2 f artifact test primitives ∈ tests).
  { apply elem_of_app in Htest as [Ht|Ht]; [|done]. rewrite Forall_forall in HF. by destruct (HF _ Ht). }
  destruct Hrest as (frozen & Hz & _ & HT & _); [left; intros ->; by apply elem_of_nil in Hin|].
  assert (Hfit' : freeze_call (EM_Spec manifest) samples (MS_Folds (EM_Spec manifest)) (CallFit r1 f train validation allowed fit)).
  { apply elem_of_app in Hfit as [Hf|Hf]; rewrite Forall_forall in HF, HT; [by apply HF|]. by destruct (HT _ Hf) as (? & ? & ? & _ & [=]). }
  destruct Hfit' as (Hf & _ & split & Es & -> & ->). rewrite Forall_forall in HT. destruct (HT _ Hin) as (f' & z & ans & Hpair & [= -> <- -> -> ->]).
  apply list_elem_of_lookup in Hf as [k Hk]. destruct (Hfold _ _ Hk) as (_ & Hw & _).
  assert (fz_split z = split) as Ez.
  { apply list_elem_of_lookup in Hpair as [j Hj]. apply lookup_zip_Some in Hj as [Hj1 Hj2].
    destruct (Forall2_lookup_lr _ _ _ _ _ _ Hz Hj1 Hj2) as [Es' _]. congruence. }
  rewrite Ez in Hb. destruct (SplitFold_no_leakage samples f (MS_Purge (EM_Spec manifest)) (MS_Embargo (EM_Spec manifest)) split Hw ltac:(lia) Es) as (L1 & L2 & _).
  destruct (cloneSamples_in _ _ Hb) as (b' & Hb' & _ & _ & ->).
  apply elem_of_app in Ha as [Ha|Ha]; destruct (cloneSamples_in _ _ Ha) as (a' & Ha' & -> & -> & _).
  - apply L1; [done|]. apply elem_of_app. by right.
  - by apply L2.
Qed.
End Theorems.
