(* ===== verification/Evidence.v ===== *)
(** * Evidence: the compact form of a result

    [validateResultForPersistence] of [internal/validation/repository.go] and
    [evidence_envelope.go]: what is checked of a result before it is written,
    the root and the fold rows it is written as, and how they are read back.
    SHA-256, JSON, the text of an error, the generator and the order in which
    maps are visited are parameters. *)
From Stdlib Require Import Ascii SpecFloat.
From stdpp Require Import base numbers strings gmap list.
From S2P Require Import Prelude GoStrings GoFloat GoTime Snapshots ValidationTypes Splits FoldMetrics Manifest Evaluation WalkForward.
Local Open Scope Z_scope.

Definition CompactEvidenceRootSchemaVersion : string := "validation-evidence-root-v3".
Definition MaxEvidenceBytes : Z := 2097152.
Definition MaxFoldEvidenceBytes : Z := 16777216.
Definition MaxTotalFoldEvidenceBytes : Z := 67108864.

Record Diagnostic : Type := mkDiagnostic { Di_Code : string; Di_Field : string; Di_Details : string }.
Record foldEvidenceRef : Type := mkRef { Ref_FoldIndex : Z; Ref_EvidenceDigest : string; Ref_FrozenDigest : string }.
Record compactEvidenceResult : Type := mkCompact { CR_SchemaVersion : string; CR_ExperimentID : string; CR_Folds : list foldEvidenceRef; CR_Aggregate : Evaluation }.
Record compactEvidenceRoot : Type := mkRoot {
  Ro_SchemaVersion : string; Ro_ExperimentID : string; Ro_Status : string; Ro_Result : option compactEvidenceResult; Ro_Failure : option Diagnostic }.
Record preparedFoldEvidence : Type := mkPreparedFold { PF_Ref : foldEvidenceRef; PF_Bytes : string }.
Record preparedEvidence : Type := mkPrepared {
  PE_RootBytes : string; PE_RootDigest : string; PE_ID : string; PE_Status : string; PE_Folds : list preparedFoldEvidence }.
Record PersistedEvidence : Type := mkPersisted {
  Pe_ID : string; Pe_ExperimentID : string; Pe_Status : string; Pe_Result : option WalkForwardResult; Pe_Failure : option Diagnostic; Pe_CreatedAt : Time }.
(** [database.ValidationFoldEvidence]. *)
Record FoldRow : Type := mkFoldRow {
  Fr_ExperimentID : string; Fr_FoldIndex : Z; Fr_SchemaVersion : string; Fr_Status : string; Fr_FrozenDigest : string;
  Fr_EvidenceJSON : string; Fr_EvidenceDigest : string; Fr_CreatedAt : Time }.

Definition checkFoldEvidenceSize (size preceding : Z) : res unit :=
  if (MaxFoldEvidenceBytes <? size) || (size <? 0) then Err (Errorf "validation fold evidence exceeds 16 MiB limit" []) else
  failIf (MaxTotalFoldEvidenceBytes - size <? preceding) (Errorf "validation fold evidence total exceeds 64 MiB limit" []).
Definition checkRootEvidenceSize (size : Z) : res unit :=
  failIf ((MaxEvidenceBytes <? size) || (size <? 0)) (Errorf "validation evidence exceeds 2 MiB limit" []).

(** [errors.As(err, &diagnostic)] along the chain of causes. *)
Fixpoint as_diagnostic (e : error) : option Diagnostic :=
  match e with
  | DiagnosticError c f d => Some (mkDiagnostic c f d)
  | Wrapf _ _ cause | PrewriteError cause | LedgerErrorWith _ _ _ cause | RunError _ _ cause => as_diagnostic cause
  | JoinError first second => match as_diagnostic first with Some d => Some d | None => as_diagnostic second end
  | _ => None
  end.
(** [resultValidationError(err)]. *)
Definition prewrite {A} (m : res A) : res A := match m with Err e => Err (PrewriteError e) | _ => m end.
Definition integrity (details : string) : error := DiagnosticError DiagnosticManifestIntegrity "" details.

Section Evidence.
Context (sha256hex : string -> string) (MarshalPolicy : string -> gmap string string -> string)
  (MarshalFamily : string -> string -> string -> string -> string) (MarshalHoldout : string -> string -> Interval -> string)
  (MarshalSpec : ManifestSpec -> res string) (FormatTime : Time -> string)
  (MarshalMetrics : FoldMetrics -> res string) (MarshalAggregate : Evaluation -> res string) (MarshalFold : FoldResult -> res string)
  (MarshalFrozen : FrozenDecision -> res string) (MarshalRoot : compactEvidenceRoot -> res string)
  (UnmarshalFold : string -> res FoldResult) (UnmarshalRoot : string -> res compactEvidenceRoot) (ErrorText : error -> string).
Context (Intn : Z -> Z -> nat -> Z) (policyOrder : gmap string string -> list (string * string))
  (range : nat -> nat -> forall A, gmap string A -> list (string * A)).
Abbreviation VerifyManifest m := (Verify sha256hex MarshalPolicy MarshalFamily MarshalHoldout MarshalSpec FormatTime policyOrder m).

(** [if a != b { return integrity error }] on the JSON of two values. *)
Definition same_text {A} (marshal : A -> res string) (stored derived : A) (details : string) : res unit :=
  let* s := prewrite (marshal stored) in
  let* d := prewrite (marshal derived) in
  failIf (s <>s d) (PrewriteError (integrity details)).
Definition check_result_fold (spec : ManifestSpec) (i : nat) (ff : Fold * FoldResult) : res nat :=
  let '(declared, fold) := ff in
  if negb (bool_decide (FR_Fold fold = declared)) || negb (FD_FoldIndex (FR_Frozen fold) =? Fo_Index (FR_Fold fold))
  then Err (PrewriteError (integrity "fold identity or frozen decision mismatch")) else
  let* derived := prewrite (DeriveFoldMetrics (FR_Primitives fold)) in
  let* _ := same_text MarshalMetrics (FR_Metrics fold) derived "fold metrics do not reproduce from immutable primitives" in
  let* _ := prewrite (ValidateFoldMetrics (range i) derived (MS_Samples spec)) in
  Ok (S i).
Definition validateResultForPersistence (manifest : ExperimentManifest) (result : WalkForwardResult) : res unit :=
  let spec := EM_Spec manifest in
  if (WF_ExperimentID result <>s EM_ID manifest) || (WF_SchemaVersion result <>s EvidenceSchemaVersion)
  then Err (PrewriteError (integrity "result is not bound to experiment")) else
  if negb (Nat.eqb (length (WF_Folds result)) (length (MS_Folds spec)))
  then Err (PrewriteError (integrity "fold evidence does not cover the immutable manifest")) else
  let* _ := foldM (check_result_fold spec) 0%nat (zip (MS_Folds spec) (WF_Folds result)) in
  let* recomputed := prewrite (Evaluate Intn (WF_Folds result) spec) in
  same_text MarshalAggregate (WF_Aggregate result) recomputed "aggregate metrics do not reproduce from immutable folds".

(** ** Preparing *)
Definition FrozenDecision_Digest (f : FrozenDecision) : res string := let* encoded := MarshalFrozen f in Ok (sha256hex encoded).
Definition prepare_fold (s : Z * list preparedFoldEvidence) (fold : FoldResult) : res (Z * list preparedFoldEvidence) :=
  let '(total, folds) := s in
  let* b := prewrite (MarshalFold fold) in
  let* _ := prewrite (checkFoldEvidenceSize (slen b) total) in
  let* frozen := prewrite (FrozenDecision_Digest (FR_Frozen fold)) in
  Ok (total + slen b, folds ++ [mkPreparedFold (mkRef (Fo_Index (FR_Fold fold)) (sha256hex b) frozen) b]).
Definition failure_diagnostic (failure : error) : Diagnostic :=
  match as_diagnostic failure with Some d => d | None => mkDiagnostic DiagnosticInvalidManifest "" (ErrorText failure) end.
(** Whether the error is wrapped depends on whether there is a result. *)
Definition prewrite_if {A} (b : bool) (m : res A) : res A := if b then prewrite m else m.
Definition finish_root (manifest : ExperimentManifest) (isResult : bool) (root : compactEvidenceRoot) (folds : list preparedFoldEvidence) : res preparedEvidence :=
  let* b := prewrite_if isResult (MarshalRoot root) in
  let* _ := prewrite_if isResult (checkRootEvidenceSize (slen b)) in
  Ok (mkPrepared b (sha256hex b) (sha256hex (EM_ID manifest +:+ newline +:+ sha256hex b)) (Ro_Status root) folds).
Definition prepareEvidenceForPersistence (manifest : ExperimentManifest) (result : option WalkForwardResult) (failure : option error) : res preparedEvidence :=
  let* _ := VerifyManifest manifest in
  match result, failure with
  | Some result, None =>
      let* _ := validateResultForPersistence manifest result in
      let* prepared := foldM prepare_fold (0, []) (WF_Folds result) in
      let compact := mkCompact (WF_SchemaVersion result) (WF_ExperimentID result) (PF_Ref <$> prepared.2) (WF_Aggregate result) in
      finish_root manifest true (mkRoot CompactEvidenceRootSchemaVersion (EM_ID manifest) "passed" (Some compact) None) prepared.2
  | None, Some failure =>
      finish_root manifest false (mkRoot CompactEvidenceRootSchemaVersion (EM_ID manifest) "failed" None (Some (failure_diagnostic failure))) []
  | _, _ => Err (DiagnosticError DiagnosticInvalidManifest "" "exactly one of result or failure is required")
  end.
(** The row [PersistEvidence] writes for a fold. *)
Definition fold_row (manifest : ExperimentManifest) (status : string) (createdAt : Time) (f : preparedFoldEvidence) : FoldRow :=
  mkFoldRow (EM_ID manifest) (Ref_FoldIndex (PF_Ref f)) EvidenceSchemaVersion status (Ref_FrozenDigest (PF_Ref f)) (PF_Bytes f)
    (Ref_EvidenceDigest (PF_Ref f)) createdAt.

(** ** Reading back *)
(** [return bad(err.Error())]. *)
Definition bad_on {A} (m : res A) : res A := match m with Err e => Err (integrity (ErrorText e)) | _ => m end.
Definition hydrate_fold (manifest : ExperimentManifest) (s : Z * list FoldResult) (x : Fold * (foldEvidenceRef * FoldRow)) : res (Z * list FoldResult) :=
  let '(total, folds) := s in
  let '(declared, (ref, row)) := x in
  if negb (Ref_FoldIndex ref =? Fo_Index declared) || negb (Fr_FoldIndex row =? Ref_FoldIndex ref) || (Fr_ExperimentID row <>s EM_ID manifest) ||
     (Fr_SchemaVersion row <>s EvidenceSchemaVersion) || (Fr_Status row <>s "passed") || (Fr_EvidenceDigest row <>s Ref_EvidenceDigest ref) ||
     (Fr_FrozenDigest row <>s Ref_FrozenDigest ref)
  then Err (integrity "compact evidence fold reference mismatch") else
  if 2 * MaxFoldEvidenceBytes <? slen (Fr_EvidenceJSON row) then Err (integrity "compact fold row exceeds bounded load size") else
  let* fold := bad_on (UnmarshalFold (Fr_EvidenceJSON row)) in
  match MarshalFold fold with
  | Ok foldBytes =>
      if sha256hex foldBytes <>s Ref_EvidenceDigest ref then Err (integrity "compact evidence fold digest mismatch") else
      let* _ := bad_on (checkFoldEvidenceSize (slen foldBytes) total) in
      match FrozenDecision_Digest (FR_Frozen fold) with
      | Ok frozen =>
          if (frozen <>s Ref_FrozenDigest ref) || negb (bool_decide (FR_Fold fold = declared)) || negb (FD_FoldIndex (FR_Frozen fold) =? Ref_FoldIndex ref)
          then Err (integrity "compact evidence frozen or fold identity mismatch") else Ok (total + slen foldBytes, folds ++ [fold])
      | Err _ => Err (integrity "compact evidence frozen or fold identity mismatch")
      | Panic w => Panic w
      end
  | Err _ => Err (integrity "compact evidence fold digest mismatch")
  | Panic w => Panic w
  end.
Definition hydratePreparedEvidence (manifest : ExperimentManifest) (rootBytes : string) (rows : list FoldRow) : res PersistedEvidence :=
  let* _ := bad_on (checkRootEvidenceSize (slen rootBytes)) in
  let* root := bad_on (UnmarshalRoot rootBytes) in
  let* _ := match MarshalRoot root with Err _ => Err (integrity "invalid compact evidence root") | m => m end in
  if (Ro_SchemaVersion root <>s CompactEvidenceRootSchemaVersion) || (Ro_ExperimentID root <>s EM_ID manifest)
  then Err (integrity "compact evidence root identity mismatch") else
  if Ro_Status root =s "failed" then
    match Ro_Result root, Ro_Failure root, rows with
    | None, Some failure, [] => Ok (mkPersisted "" (EM_ID manifest) (Ro_Status root) None (Some failure) 0)
    | _, _, _ => Err (integrity "failed evidence has result or fold rows")
    end
  else if Ro_Status root <>s "passed" then Err (integrity "invalid compact evidence status") else
  match Ro_Result root, Ro_Failure root with
  | Some r, None =>
      if (CR_SchemaVersion r <>s EvidenceSchemaVersion) || (CR_ExperimentID r <>s EM_ID manifest) ||
         negb (Nat.eqb (length (CR_Folds r)) (length (MS_Folds (EM_Spec manifest)))) || negb (Nat.eqb (length rows) (length (CR_Folds r)))
      then Err (integrity "compact evidence fold set mismatch") else
      let* folds := foldM (hydrate_fold manifest) (0, []) (zip (MS_Folds (EM_Spec manifest)) (zip (CR_Folds r) rows)) in
      let result := mkWalkForward (CR_SchemaVersion r) (CR_ExperimentID r) folds.2 (CR_Aggregate r) in
      let* _ := bad_on (validateResultForPersistence manifest result) in
      Ok (mkPersisted "" (EM_ID manifest) (Ro_Status root) (Some result) None 0)
  | _, _ => Err (integrity "invalid compact evidence status")
  end.
End Evidence.
