(* ===== verification/EvidenceProofs.v ===== *)
(** * EvidenceProofs: what a run returns can be written, and is read back *)
From Stdlib Require Import Ascii SpecFloat.
From stdpp Require Import base numbers strings gmap list.
From S2P Require Import Prelude GoStrings GoFloat GoTime Snapshots ValidationTypes Splits FoldMetrics Manifest Evaluation WalkForward WalkForwardProofs Evidence.
Local Open Scope Z_scope.
Set Default Proof Using "Type".

Section Proofs.
Context (sha256hex : string -> string) (MarshalPolicy : string -> gmap string string -> string)
  (MarshalFamily : string -> string -> string -> string -> string) (MarshalHoldout : string -> string -> Interval -> string)
  (MarshalSpec : ManifestSpec -> res string) (FormatTime : Time -> string)
  (MarshalMetrics : FoldMetrics -> res string) (MarshalAggregate : Evaluation -> res string) (MarshalFold : FoldResult -> res string)
  (MarshalFrozen : FrozenDecision -> res string) (MarshalRoot : compactEvidenceRoot -> res string)
  (UnmarshalFold : string -> res FoldResult) (UnmarshalRoot : string -> res compactEvidenceRoot) (ErrorText : error -> string).
Context (Intn : Z -> Z -> nat -> Z) (policyOrder : gmap string string -> list (string * string)).
Abbreviation Validate range := (validateResultForPersistence MarshalMetrics MarshalAggregate Intn range).
Abbreviation Prepare range := (prepareEvidenceForPersistence sha256hex MarshalPolicy MarshalFamily MarshalHoldout MarshalSpec FormatTime MarshalMetrics
  MarshalAggregate MarshalFold MarshalFrozen MarshalRoot ErrorText Intn policyOrder range).
Abbreviation Hydrate range := (hydratePreparedEvidence sha256hex MarshalMetrics MarshalAggregate MarshalFold MarshalFrozen MarshalRoot
  UnmarshalFold UnmarshalRoot ErrorText Intn range).

(** ** What the checks before a write require *)
Definition fold_checked (range : nat -> nat -> forall A, gmap string A -> list (string * A)) (spec : ManifestSpec) (i : nat) (declared : Fold) (fold : FoldResult) : Prop :=
  FR_Fold fold = declared /\ FD_FoldIndex (FR_Frozen fold) = Fo_Index declared /\
  exists derived text, DeriveFoldMetrics (FR_Primitives fold) = Ok derived /\ MarshalMetrics (FR_Metrics fold) = Ok text /\ MarshalMetrics derived = Ok text /\
    ValidateFoldMetrics (range i) derived (MS_Samples spec) = Ok tt.
Lemma prewrite_Ok {A} (m : res A) a : prewrite m = Ok a <-> m = Ok a.
Proof. by destruct m. Qed.
Lemma same_text_spec {A} (marshal : A -> res string) stored derived details :
  same_text marshal stored derived details = Ok tt <-> exists text, marshal stored = Ok text /\ marshal derived = Ok text.
Proof.
  unfold same_text. destruct (marshal stored) as [s|e|w] eqn:E1; cbn; [|split; [done | by intros (? & ? & _)]..].
  destruct (marshal derived) as [d|e|w] eqn:E2; cbn; [|split; [done | by intros (? & _ & ?)]..].
  unfold failIf. destruct (String.eqb_spec s d) as [->|Hn]; cbn; split; [eauto | done | done |]. by intros (t & [= ->] & [= ->]).
Qed.
Lemma check_result_fold_spec range spec i declared fold j : check_result_fold MarshalMetrics range spec i (declared, fold) = Ok j <->
  j = S i /\ fold_checked range spec i declared fold.
Proof.
  unfold check_result_fold, fold_checked. case_bool_decide as E1; cbn [negb orb]; [|by split; [|intros (_ & ? & _)]].
  destruct (Z.eqb_spec (FD_FoldIndex (FR_Frozen fold)) (Fo_Index (FR_Fold fold))) as [E2|E2]; cbn [negb]; [|split; [done | intros (_ & <- & ? & _); done]].
  destruct (DeriveFoldMetrics (FR_Primitives fold)) as [m|e|w]; cbn [prewrite rbind]; [|split; [done | by intros (_ & _ & _ & ? & ? & ? & _)]..].
  destruct (same_text _ _ _ _) as [[]|e|w] eqn:E3; cbn [rbind].
  2,3: split; [done|]; intros (_ & _ & _ & d & t & [= <-] & H1 & H2 & _);
    rewrite (proj2 (same_text_spec MarshalMetrics _ _ "fold metrics do not reproduce from immutable primitives") (ex_intro _ t (conj H1 H2))) in E3; done.
  apply same_text_spec in E3 as (t & H1 & H2).
  destruct (ValidateFoldMetrics (range i) m (MS_Samples spec)) as [[]|e|w] eqn:E4; cbn [prewrite rbind]; [|split; [done | by intros (_ & _ & _ & ? & ? & [= <-] & _ & _ & ?); rewrite E4 in *]..].
  split; [intros [= <-]; rewrite <- E1; eauto 10 | by intros [-> _]].
Qed.
Lemma check_loop range spec decls folds i j : length folds = length decls ->
  foldM (check_result_fold MarshalMetrics range spec) i (zip decls folds) = Ok j <->
  j = (i + length folds)%nat /\ forall k d f, decls !! k = Some d -> folds !! k = Some f -> fold_checked range spec (i + k) d f.
Proof.
  revert i decls. induction folds as [|f folds IH]; intros i [|d decls] Hl; try done; cbn [zip zip_with foldM].
  - split; [intros [= <-]; split; [cbn; lia | intros k d f; by rewrite lookup_nil] | intros [-> _]; cbn; f_equal; lia].
  - cbn in Hl. destruct (check_result_fold MarshalMetrics range spec i (d, f)) as [i'|e|w] eqn:E; cbn [rbind].
    + apply check_result_fold_spec in E as [-> Hc]. rewrite IH by lia. cbn [length]. split; intros [-> H]; (split; [lia|]).
      * intros [|k] d' f' H1 H2; cbn in H1, H2; [injection H1 as <-; injection H2 as <-; by rewrite Nat.add_0_r|].
        replace (i + S k)%nat with (S i + k)%nat by lia. by apply H.
      * intros k d' f' H1 H2. replace (S i + k)%nat with (i + S k)%nat by lia. by apply H.
    + split; [done|]. intros [_ H]. specialize (H 0%nat d f eq_refl eq_refl). rewrite Nat.add_0_r in H.
      by rewrite (proj2 (check_result_fold_spec range spec i d f (S i)) (conj eq_refl H)) in E.
    + split; [done|]. intros [_ H]. specialize (H 0%nat d f eq_refl eq_refl). rewrite Nat.add_0_r in H.
      by rewrite (proj2 (check_result_fold_spec range spec i d f (S i)) (conj eq_refl H)) in E.
Qed.
Definition persistable range manifest result : Prop :=
  WF_ExperimentID result = EM_ID manifest /\ WF_SchemaVersion result = EvidenceSchemaVersion /\
  length (WF_Folds result) = length (MS_Folds (EM_Spec manifest)) /\
  (forall k d f, MS_Folds (EM_Spec manifest) !! k = Some d -> WF_Folds result !! k = Some f -> fold_checked range (EM_Spec manifest) k d f) /\
  exists ev text, Evaluate Intn (WF_Folds result) (EM_Spec manifest) = Ok ev /\ MarshalAggregate (WF_Aggregate result) = Ok text /\ MarshalAggregate ev = Ok text.
Lemma Validate_spec range manifest result : Validate range manifest result = Ok tt <-> persistable range manifest result.
Proof.
  unfold validateResultForPersistence, persistable.
  destruct (String.eqb_spec (WF_ExperimentID result) (EM_ID manifest)) as [E1|E1]; cbn [negb orb]; [|by split; [|intros (? & _)]].
  destruct (String.eqb_spec (WF_SchemaVersion result) EvidenceSchemaVersion) as [E2|E2]; cbn [negb orb]; [|by split; [|intros (_ & ? & _)]].
  destruct (Nat.eqb_spec (length (WF_Folds result)) (length (MS_Folds (EM_Spec manifest)))) as [E3|E3]; cbn [negb]; [|by split; [|intros (_ & _ & ? & _)]].
  pose proof (check_loop range (EM_Spec manifest) _ _ 0 (length (WF_Folds result)) E3) as Hl. cbn [Nat.add] in Hl.
  destruct (foldM _ _ _) as [j|e|w] eqn:El; cbn [rbind].
  2,3: split; [done|]; intros (_ & _ & _ & H & _); apply proj2 in Hl; specialize (Hl (conj eq_refl H)); done.
  assert (j = length (WF_Folds result)) as -> by (by apply (check_loop range (EM_Spec manifest) _ _ 0 j E3) in El as [-> _]).
  apply proj1 in Hl. destruct (Hl eq_refl) as [_ Hf].
  destruct (Evaluate Intn (WF_Folds result) (EM_Spec manifest)) as [ev|e|w]; cbn [prewrite rbind]; [|split; [done | by intros (_ & _ & _ & _ & ? & ? & ? & _)]..].
  rewrite same_text_spec. split; [intros (t & H1 & H2); split_and!; eauto | intros (_ & _ & _ & _ & ev' & t & [= <-] & H1 & H2); eauto].
Qed.

(** ** A run's result can be persisted *)
Context {W R : Type} (factory : FoldRunnerFactory W R).
Context (MarshalSamples : list Sample -> res string) (MarshalFit : Z -> string -> string -> string -> Z -> string)
  (MarshalSelection : Z -> string -> string -> gmap string string -> gmap string (list string) -> string)
  (range : nat -> nat -> forall A, gmap string A -> list (string * A)).
(** What a successful run returns passes every check made before a result
    is written: the persistence layer re-derives the metrics of each fold and
    the aggregate from the stored evidence, and finds the run's own (as long as
    its figures have a JSON text, and the verdict on a summary does not depend
    on the order in which its maps are visited). *)
Theorem RunWalkForward_persistable range' present manifest samples w result w' calls :
  RunWalkForward factory sha256hex MarshalPolicy MarshalFamily MarshalHoldout MarshalSpec FormatTime MarshalSamples MarshalFit MarshalSelection
    Intn policyOrder range present manifest samples (w, []) = (Ok result, (w', calls)) ->
  (forall i m, ValidateFoldMetrics (range i) m (MS_Samples (EM_Spec manifest)) = Ok tt -> ValidateFoldMetrics (range' i) m (MS_Samples (EM_Spec manifest)) = Ok tt) ->
  (forall f, f ∈ WF_Folds result -> exists text, MarshalMetrics (FR_Metrics f) = Ok text) ->
  (exists text, MarshalAggregate (WF_Aggregate result) = Ok text) ->
  Validate range' manifest result = Ok tt.
Proof.
  intros H Hr Hm [text Ha]. apply run_sealed in H as [(fits & tests & _ & _ & H) _].
  destruct H as (frozen & Hz & _ & _ & Hres); [by right|]. destruct (Hres _ eq_refl) as (R1 & R2 & R3 & R4 & R5).
  apply Validate_spec. split_and!; [done..| | by exists (WF_Aggregate result), text].
  intros k d f Hd Hf. pose proof (Forall2_length _ _ _ Hz) as Hl.
  destruct (lookup_lt_is_Some_2 frozen k) as [z Hk]; [rewrite <- Hl; by eapply lookup_lt_Some|].
  destruct (R4 k (d, z) f) as (E1 & E2 & E3 & E4); [by apply lookup_zip_Some | done |].
  destruct (Forall2_lookup_lr _ _ _ _ _ _ Hz Hd Hk) as (_ & fit & _ & _ & _ & Hfreeze).
  assert (Ei : FD_FoldIndex (fz_decision z) = Fo_Index d).
  { unfold freeze in Hfreeze. do 3 (destruct (sampleDigest _ _ _); [|done..]; cbn [rbind] in Hfreeze). destruct (_ || _) in Hfreeze; [done|]. by injection Hfreeze as <-. }
  split_and!; [exact E1 | by rewrite E2|]. destruct (Hm f) as [t Ht]; [by eapply list_elem_of_lookup_2|].
  exists (FR_Metrics f), t. split_and!; [done..|]. by apply Hr.
Qed.

(** ** Writing and reading back *)

(** The text a [jsonb] column gives back for the text that was written. *)
Context (stored : string -> string).
Definition stored_row (manifest : ExperimentManifest) (createdAt : Time) (f : preparedFoldEvidence) : FoldRow :=
  let row := fold_row manifest "passed" createdAt f in
  mkFoldRow (Fr_ExperimentID row) (Fr_FoldIndex row) (Fr_SchemaVersion row) (Fr_Status row) (Fr_FrozenDigest row)
    (stored (Fr_EvidenceJSON row)) (Fr_EvidenceDigest row) createdAt.
(** Documented behaviour of [encoding/json] and of the column, for the values
    that are written: each is read back as it was, the folds from a text at most
    twice as long. *)
Definition root_of (manifest : ExperimentManifest) (result : WalkForwardResult) (refs : list foldEvidenceRef) : compactEvidenceRoot :=
  mkRoot CompactEvidenceRootSchemaVersion (EM_ID manifest) "passed"
    (Some (mkCompact (WF_SchemaVersion result) (WF_ExperimentID result) refs (WF_Aggregate result))) None.
Definition folds_round_trip (folds : list FoldResult) : Prop :=
  forall f b, f ∈ folds -> MarshalFold f = Ok b -> UnmarshalFold (stored b) = Ok f /\ slen (stored b) <= 2 * slen b.
Definition root_round_trip (root : compactEvidenceRoot) : Prop :=
  forall b, MarshalRoot root = Ok b -> UnmarshalRoot (stored b) = Ok root /\ slen (stored b) <= MaxEvidenceBytes.
Abbreviation HydrateFold := (hydrate_fold sha256hex MarshalFold MarshalFrozen UnmarshalFold ErrorText).
Abbreviation PrepareFold := (prepare_fold sha256hex MarshalFold MarshalFrozen).
Lemma hydrate_loop manifest createdAt folds : folds_round_trip folds -> forall decls total pre s acc, length folds = length decls ->
  (forall k d f, decls !! k = Some d -> folds !! k = Some f -> FR_Fold f = d /\ FD_FoldIndex (FR_Frozen f) = Fo_Index d) ->
  foldM PrepareFold (total, pre) folds = Ok s -> exists ps, s.2 = pre ++ ps /\ length ps = length folds /\
    foldM (HydrateFold manifest) (total, acc) (zip decls (zip (PF_Ref <$> ps) (stored_row manifest createdAt <$> ps))) = Ok (s.1, acc ++ folds).
Proof.
  intros Hj. induction folds as [|f folds IH]; intros [|d decls] total pre s acc Hl Hd H; try done; cbn [foldM] in H.
  - injection H as <-. exists []. by rewrite !app_nil_r.
  - destruct (PrepareFold (total, pre) f) as [s1|e|w] eqn:E; [|done..]. cbn [rbind] in H. unfold prepare_fold in E.
    destruct (MarshalFold f) as [b|e|w] eqn:Eb; [|done..]. cbn [prewrite rbind] in E.
    destruct (checkFoldEvidenceSize (slen b) total) as [[]|e|w] eqn:Es; [|done..]. cbn [prewrite rbind] in E.
    destruct (FrozenDecision_Digest _ _ _) as [z|e|w] eqn:Ez; [|done..]. cbn [prewrite rbind] in E. injection E as <-.
    destruct (Hd 0%nat d f eq_refl eq_refl) as [D1 D2]. destruct (Hj f b ltac:(left) Eb) as [J1 J2].
    apply (IH ltac:(intros g c Hg; apply Hj; by right) decls (total + slen b) _ s (acc ++ [f])) in H as (ps & E1 & E2 & E3); [|cbn in Hl; lia | intros k; apply (Hd (S k))].
    exists (mkPreparedFold (mkRef (Fo_Index (FR_Fold f)) (sha256hex b) z) b :: ps).
    split; [by rewrite E1, <- app_assoc|]. split; [cbn; by rewrite E2|]. cbn [fmap list_fmap zip zip_with foldM]. unfold hydrate_fold at 1.
    cbn [stored_row fold_row PF_Ref PF_Bytes Ref_FoldIndex Ref_EvidenceDigest Ref_FrozenDigest Fr_ExperimentID Fr_FoldIndex Fr_SchemaVersion
      Fr_Status Fr_FrozenDigest Fr_EvidenceJSON Fr_EvidenceDigest].
    assert (Hb : slen b <= MaxFoldEvidenceBytes).
    { unfold checkFoldEvidenceSize in Es. destruct (_ || _) eqn:Eo in Es; [done|]. bool_prop. lia. }
    rewrite D1, !Z.eqb_refl, !String.eqb_refl. cbn [negb orb]. rewrite (proj2 (Z.ltb_ge _ _)) by lia.
    rewrite J1. cbn [bad_on rbind]. rewrite Eb, String.eqb_refl. cbn [negb]. rewrite Es. cbn [bad_on rbind].
    rewrite Ez, String.eqb_refl, D1, D2, Z.eqb_refl, bool_decide_true by done. cbn [negb orb rbind]. by rewrite E3, <- app_assoc.
Qed.

(** C24. What is written of a result is read back as that result: the root and
    the rows prepared for a result pass every check made when evidence is
    loaded, and give the same experiment, folds and aggregate. *)
Theorem prepared_evidence_round_trip range1 range2 manifest result p createdAt : folds_round_trip (WF_Folds result) ->
  root_round_trip (root_of manifest result (PF_Ref <$> PE_Folds p)) ->
  (forall i m, ValidateFoldMetrics (range1 i) m (MS_Samples (EM_Spec manifest)) = Ok tt -> ValidateFoldMetrics (range2 i) m (MS_Samples (EM_Spec manifest)) = Ok tt) ->
  Prepare range1 manifest (Some result) None = Ok p ->
  Hydrate range2 manifest (stored (PE_RootBytes p)) (stored_row manifest createdAt <$> PE_Folds p) =
    Ok (mkPersisted "" (EM_ID manifest) "passed" (Some result) None 0).
Proof.
  intros Hj Hroot Hr H. unfold prepareEvidenceForPersistence in H. destruct (Verify _ _ _ _ _ _ _ _) as [[]|e|w]; [|done..]. cbn [rbind] in H.
  destruct (Validate range1 manifest result) as [[]|e|w] eqn:Ev; [|done..]. cbn [rbind] in H.
  apply Validate_spec in Ev as (V1 & V2 & V3 & V4 & V5).
  destruct (foldM PrepareFold (0, []) (WF_Folds result)) as [s|e|w] eqn:Ef; [|done..]. cbn [rbind] in H.
  apply (hydrate_loop manifest createdAt _ Hj (MS_Folds (EM_Spec manifest)) 0 [] s []) in Ef as (ps & E1 & E2 & E3); [|done|];
    [|intros k d f Hd Hf; by destruct (V4 k d f Hd Hf) as (? & ? & _)].
  cbn [app] in *. rewrite E1 in H. unfold finish_root in H. cbn [prewrite_if] in H.
  destruct (MarshalRoot _) as [b|e|w] eqn:Eb in H; [|done..]. cbn [prewrite rbind] in H.
  destruct (checkRootEvidenceSize _) as [[]|e|w] in H; [|done..]. cbn [prewrite rbind] in H. injection H as <-. cbn [PE_RootBytes PE_Folds] in *.
  destruct (Hroot b Eb) as [Hback Hsize].
  unfold hydratePreparedEvidence, checkRootEvidenceSize, failIf. rewrite (proj2 (Z.ltb_ge _ _) Hsize).
  rewrite (proj2 (Z.ltb_ge _ 0)) by (unfold slen; lia). cbn [orb bad_on rbind]. rewrite Hback. cbn [bad_on rbind].
  change (MarshalRoot (root_of _ _ _)) with (MarshalRoot (root_of manifest result (PF_Ref <$> ps))). unfold root_of at 1. rewrite Eb. unfold root_of.
  cbn [Ro_SchemaVersion Ro_ExperimentID Ro_Status Ro_Result Ro_Failure CR_SchemaVersion CR_ExperimentID CR_Folds CR_Aggregate rbind].
  rewrite V1, V2, !String.eqb_refl. cbn [negb orb]. change ("passed" =s "failed") with false. change ("passed" =s "passed") with true. cbn [negb].
  rewrite !length_fmap, E2, V3, !Nat.eqb_refl. cbn [negb orb]. rewrite E3. cbn [rbind snd].
  assert (Er : mkWalkForward EvidenceSchemaVersion (EM_ID manifest) (WF_Folds result) (WF_Aggregate result) = result)
    by (destruct result; cbn in *; congruence).
  rewrite Er, (proj2 (Validate_spec range2 manifest result)); [done|]. split_and!; try done.
  intros k d f Hd Hf. destruct (V4 k d f Hd Hf) as (? & ? & m & t & ? & ? & ? & ?). split_and!; [done..|]. exists m, t. auto.
Qed.
End Proofs.
