(* ===== verification/MLEvaluation.v ===== *)
(** * MLEvaluation: the gates of a learned model

    [internal/validation/ml.go]: the discrimination, calibration and return
    figures of a model's outcomes, the comparison with the baseline on equal
    candidates and exposure, and the gates they must pass. The order in which
    an exposure map is visited is a parameter where its entries are summed. *)
From Stdlib Require Import SpecFloat.
From stdpp Require Import base numbers strings gmap list.
From S2P Require Import Prelude GoStrings GoFloat GoTime Snapshots ValidationTypes Splits FoldMetrics Manifest Evaluation.
Local Open Scope Z_scope.

Record MLOutcome : Type := mkOutcome {
  MO_ID : string; MO_Window : Z; MO_Symbol : string; MO_Probability : float64; MO_Positive : bool; MO_AfterCostReturn : float64;
  MO_CandidateSet : list string; MO_GrossExposure : float64; MO_BaselineSet : list string; MO_BaselineExposure : float64; MO_BaselineReturn : float64;
  MO_CandidateExposureByAsset : gmap string float64; MO_BaselineExposureByAsset : gmap string float64 }.
Record CalibrationBucket : Type := mkBucket {
  CB_Lower : float64; CB_Upper : float64; CB_Support : Z; CB_MeanProbability : float64; CB_ObservedRate : float64; CB_MeanReturn : float64 }.
Record MLEvaluation : Type := mkMLEvaluation {
  ME_SchemaVersion : string; ME_ClipEpsilon : float64; ME_ROC_AUC : float64; ME_Brier : float64; ME_LogLoss : float64;
  ME_ProbabilityReturnCorrelation : float64; ME_Calibration : list CalibrationBucket; ME_RankMonotonic : bool; ME_AfterCostExpectancy : float64;
  ME_EqualComparison : bool; ME_BaselineAfterCostExpectancy : float64; ME_CandidateMinusBaseline : float64; ME_Gates : gmap string bool; ME_Passed : bool }.

(** ** Sets and exposures *)
Definition see_value (seen : gset string) (value : string) : res (gset string) :=
  if (value =s "") || bool_decide (value ∈ seen) then Err (Errorf "" []) else Ok ({[value]} ∪ seen).
Definition uniqueSet (values : list string) : bool :=
  match foldM see_value ∅ values with Ok _ => negb (Nat.eqb (length values) 0) | _ => false end.
Definition sameSet (a b : list string) : bool :=
  Nat.eqb (length a) (length b) && bool_decide (sort_strings a = sort_strings b).
(** [math.Abs(x) > 1e-12]. *)
Definition apart (x : float64) : bool := flt f_tiny (fabs x).
Definition equal_entry (b : gmap string float64) (kv : string * float64) : bool :=
  match b !! kv.1 with Some bv => finite_f kv.2 && finite_f bv && negb (apart (fsub kv.2 bv)) | None => false end.
Definition equalExposure (a b : gmap string float64) : bool :=
  negb (Nat.eqb (size a) 0) && Nat.eqb (size a) (size b) && forallb (equal_entry b) (map_to_list a).

(** ** The area under the curve *)
Definition probability_less (a b : MLOutcome) : bool :=
  if feq (MO_Probability a) (MO_Probability b) then String.ltb (MO_ID a) (MO_ID b) else flt (MO_Probability a) (MO_Probability b).
(** The run of outcomes with the probability of the first one. *)
Fixpoint take_tied (p : float64) (l : list MLOutcome) : list MLOutcome * list MLOutcome :=
  match l with
  | o :: rest => if feq (MO_Probability o) p then let '(tied, after) := take_tied p rest in (o :: tied, after) else ([], l)
  | [] => ([], [])
  end.
Fixpoint rank_sum (fuel : nat) (i : Z) (l : list MLOutcome) (rankSum : float64) : float64 :=
  match fuel, l with
  | S fuel, o :: rest =>
      let '(tied, after) := take_tied (MO_Probability o) rest in
      let j := i + 1 + len tied in
      let avgRank := fdiv (fadd (f_of_Z (i + 1)) (f_of_Z j)) (f_of_Z 2) in
      rank_sum fuel j after (foldl (fun s v => if MO_Positive v then fadd s avgRank else s) rankSum (o :: tied))
  | _, _ => rankSum
  end.
Definition rocAUC (values : list MLOutcome) (positives negatives : Z) : float64 :=
  let ordered := SliceStable probability_less values in
  let rankSum := rank_sum (length ordered) 0 ordered fzero in
  fdiv (fsub rankSum (fdiv (f_of_Z (int64 (positives * (positives + 1)))) (f_of_Z 2))) (f_of_Z (int64 (positives * negatives))).

(** ** Calibration *)
Definition edge (i count : Z) : float64 := fdiv (f_of_Z i) (f_of_Z count).
Definition empty_bucket (count : Z) (i : nat) : CalibrationBucket * Z :=
  (mkBucket (edge (Z.of_nat i) count) (edge (Z.of_nat i + 1) count) 0 fzero fzero fzero, 0).
Definition add_outcome (v : MLOutcome) (bp : CalibrationBucket * Z) : CalibrationBucket * Z :=
  let '(b, positive) := bp in
  (mkBucket (CB_Lower b) (CB_Upper b) (CB_Support b + 1) (fadd (CB_MeanProbability b) (MO_Probability v)) (CB_ObservedRate b)
     (fadd (CB_MeanReturn b) (MO_AfterCostReturn v)), if MO_Positive v then positive + 1 else positive).
Definition bucket_index (count : Z) (v : MLOutcome) : Z :=
  let index := f_trunc (fmul (MO_Probability v) (f_of_Z count)) in if index =? count then index - 1 else index.
Definition place (count : Z) (result : list (CalibrationBucket * Z)) (v : MLOutcome) : res (list (CalibrationBucket * Z)) :=
  let i := bucket_index count v in
  let* b := index result i in Ok (<[Z.to_nat i := add_outcome v b]> result).
Definition average (bp : CalibrationBucket * Z) : CalibrationBucket :=
  let '(b, positive) := bp in
  if CB_Support b =? 0 then b else
  let support := f_of_Z (CB_Support b) in
  mkBucket (CB_Lower b) (CB_Upper b) (CB_Support b) (fdiv (CB_MeanProbability b) support) (fdiv (f_of_Z positive) support) (fdiv (CB_MeanReturn b) support).
Definition calibration (values : list MLOutcome) (count : Z) : res (list CalibrationBucket) :=
  if count <? 0 then Panic "makeslice: len out of range" else
  let* result := foldM (place count) (empty_bucket count <$> seq 0 (Z.to_nat count)) values in
  Ok (average <$> result).

(** ** Correlation *)
Definition mean (v : list float64) : float64 := fdiv (fsum v) (flen v).
Definition pearson (a b : list float64) : option float64 :=
  let ma := mean a in
  let mb := mean b in
  let devs := zip ((fun x => fsub x ma) <$> a) ((fun y => fsub y mb) <$> b) in
  let sum f := foldl (fun s (xy : float64 * float64) => fadd s (f xy)) fzero devs in
  let da := sum (fun xy => fmul xy.1 xy.1) in
  let db := sum (fun xy => fmul xy.2 xy.2) in
  if feq da fzero || feq db fzero then None else Some (fdiv (sum (fun xy => fmul xy.1 xy.2)) (fsqrt (fmul da db))).

Section MLEvaluation.
Context (range : gmap string float64 -> list (string * float64)).
Definition exposureReconciles (values : gmap string float64) (gross : float64) : bool :=
  forallb (fun kv => finite_f kv.2) (map_to_list values) &&
  fle (fabs (fsub (foldl (fun total kv => fadd total (fabs kv.2)) fzero (range values)) gross)) f_tiny.
Record OutcomeState : Type := mkOutcomeState { os_ids : gset string; os_windows : gset Z; os_positives : Z; os_negatives : Z }.
Definition bad_probability (o : MLOutcome) : bool :=
  negb (finite_f (MO_Probability o)) || flt (MO_Probability o) fzero || flt fone (MO_Probability o) || negb (finite_f (MO_AfterCostReturn o)) ||
  negb (finite_f (MO_BaselineReturn o)) || negb (finite_f (MO_GrossExposure o)) || negb (finite_f (MO_BaselineExposure o)).
Definition comparable (o : MLOutcome) : bool :=
  uniqueSet (MO_CandidateSet o) && uniqueSet (MO_BaselineSet o) && sameSet (MO_CandidateSet o) (MO_BaselineSet o) &&
  negb (apart (fsub (MO_GrossExposure o) (MO_BaselineExposure o))) && equalExposure (MO_CandidateExposureByAsset o) (MO_BaselineExposureByAsset o) &&
  exposureReconciles (MO_CandidateExposureByAsset o) (MO_GrossExposure o) && exposureReconciles (MO_BaselineExposureByAsset o) (MO_BaselineExposure o).
Definition check_outcome (s : OutcomeState) (o : MLOutcome) : res OutcomeState :=
  if (MO_ID o =s "") || (MO_Symbol o =s "") then Err (invalid "ml_outcome" "outcome identity and symbol are required") else
  if bool_decide (MO_ID o ∈ os_ids s) then Err (invalid "ml_outcome.id" ("duplicate outcome: " +:+ MO_ID o)) else
  if bad_probability o then Err (DiagnosticError DiagnosticInvalidProbability "" (MO_ID o)) else
  if negb (comparable o) then Err (DiagnosticError DiagnosticBaselineMismatch "" (MO_ID o)) else
  Ok (mkOutcomeState ({[MO_ID o]} ∪ os_ids s) ({[MO_Window o]} ∪ os_windows s)
        (if MO_Positive o then os_positives s + 1 else os_positives s) (if MO_Positive o then os_negatives s else os_negatives s + 1)).

Definition label (o : MLOutcome) : float64 := if MO_Positive o then fone else fzero.
Definition add_brier (s : float64) (o : MLOutcome) : float64 := let d := fsub (MO_Probability o) (label o) in fadd s (fmul d d).
Definition add_log_loss (clip : float64) (s : float64) (o : MLOutcome) : float64 :=
  let y := label o in
  let p := fmax clip (fmin (fsub fone clip) (MO_Probability o)) in
  fsub s (fadd (fmul y (Log p)) (fmul (fsub fone y) (Log (fsub fone p)))).
Definition f_1e15 : float64 := f_of_ratio 1 1000000000000000.
(** Whether the mean returns never decrease, the previous one, and the largest
    calibration error. *)
Definition check_bucket (minimum : Z) (s : bool * float64 * float64) (b : CalibrationBucket) : res (bool * float64 * float64) :=
  let '(monotonic, previous, maxError) := s in
  if CB_Support b <? minimum
  then Err (DiagnosticError DiagnosticInsufficientObservations "" "calibration bucket support is insufficient") else
  let e := fabs (fsub (CB_MeanProbability b) (CB_ObservedRate b)) in
  Ok (monotonic && negb (flt (fadd (CB_MeanReturn b) f_1e15) previous), CB_MeanReturn b, larger maxError e).
Definition ml_gates (q : MLRequirements) (auc brier logLoss maxError expectancy delta : float64) (monotonic : bool) : gmap string bool :=
  list_to_map [("discrimination", fle (ML_MinAUC q) auc); ("brier", fle brier (ML_MaxBrier q)); ("log_loss", fle logLoss (ML_MaxLogLoss q));
    ("calibration", fle maxError (ML_MaxCalibrationError q)); ("rank_monotonic", monotonic); ("after_cost_expectancy", flt fzero expectancy);
    ("equal_candidate_exposure", true); ("beats_baseline", flt fzero delta)].
Definition evaluateMLNormalized (outcomes : list MLOutcome) (q : MLRequirements) : res MLEvaluation :=
  let* s := foldM check_outcome (mkOutcomeState ∅ ∅ 0 0) outcomes in
  let windows := Z.of_nat (size (os_windows s)) in
  if windows <? ML_MinIndependentWindows q
  then Err (insufficient ("windows=" +:+ Itoa windows +:+ " minimum=" +:+ Itoa (ML_MinIndependentWindows q))) else
  if (os_positives s =? 0) || (os_negatives s =? 0) then Err (DiagnosticError DiagnosticOneClass "" "") else
  let auc := rocAUC outcomes (os_positives s) (os_negatives s) in
  let brier := fdiv (foldl add_brier fzero outcomes) (flen outcomes) in
  let logLoss := fdiv (foldl (add_log_loss (ML_ClipEpsilon q)) fzero outcomes) (flen outcomes) in
  let* buckets := calibration outcomes (ML_Buckets q) in
  let* monotonicity := foldM (check_bucket (ML_MinBucketSupport q)) (true, S754_infinity true, fzero) buckets in
  let '(monotonic, _, maxError) := monotonicity in
  match pearson (MO_Probability <$> outcomes) (MO_AfterCostReturn <$> outcomes) with
  | None => Err (DiagnosticError DiagnosticInsufficientObservations "probability_return_correlation" "degenerate probability or return variance")
  | Some correlation =>
      let expectancy := mean (MO_AfterCostReturn <$> outcomes) in
      let baselineExpectancy := mean (MO_BaselineReturn <$> outcomes) in
      let delta := fsub expectancy baselineExpectancy in
      let gates := ml_gates q auc brier logLoss maxError expectancy delta monotonic in
      Ok (mkMLEvaluation MLSchemaVersion (ML_ClipEpsilon q) auc brier logLoss correlation buckets monotonic expectancy true baselineExpectancy delta gates
            (forallb (fun kv => kv.2) (map_to_list gates)))
  end.
Definition EvaluateML (outcomes : list MLOutcome) (requirements : MLRequirements) : res MLEvaluation :=
  let* q := NormalizeMLRequirements requirements in
  if (ML_MinLabels q <? 2) || (len outcomes <? ML_MinLabels q)
  then Err (DiagnosticError DiagnosticInsufficientObservations "" ("labels=" +:+ Itoa (len outcomes) +:+ " minimum=" +:+ Itoa (ML_MinLabels q)))
  else evaluateMLNormalized outcomes q.
End MLEvaluation.
