(* ===== verification/MLProofs.v ===== *)
(** * MLProofs: no model passes except through its gates *)
From Stdlib Require Import SpecFloat.
From stdpp Require Import base numbers strings gmap list.
From S2P Require Import Prelude GoStrings GoFloat GoTime GoFloatFacts GoFloatRound Snapshots ValidationTypes Splits FoldMetrics Manifest ManifestProofs Evaluation EvaluationProofs MLEvaluation.
Local Open Scope Z_scope.

(** A value that a [float64] has. *)
Definition is_float (x : float64) : Prop := valid_binary prec emax x = true.

Lemma Zsum_fmap {A B} (f : B -> Z) (g : A -> B) l : Zsum f (g <$> l) = Zsum (fun x => f (g x)) l.
Proof. induction l as [|x l IH]; [done|]. rewrite fmap_cons, !Zsum_cons, IH. done. Qed.

(** ** The buckets *)
Lemma valid_mantissa s m e : is_float (S754_finite s m e) -> Z.pos m < 2 ^ 53.
Proof.
  unfold is_float. cbn. unfold bounded, canonical_mantissa, fexp, SpecFloat.emin. intros [H%Z.eqb_eq _]%andb_true_iff.
  change (3 - emax - prec) with (-1074) in H. change prec with 53 in H. rewrite digits_log2 in H. apply Z.log2_lt_pow2; lia.
Qed.
Lemma unit_mantissa m e : is_float (S754_finite false m e) -> flt fone (S754_finite false m e) = false -> e <= 0 /\ Z.pos m <= 2 ^ (- e).
Proof.
  intros Hm%valid_mantissa H. change fone with (S754_finite false 4503599627370496 (-52)) in H.
  unfold flt, SFltb in H. rewrite compare_positive in H. destruct (Z.compare_spec (-52) e) as [E|E|E]; [| done |].
  - subst e. change (2 ^ (- -52)) with 4503599627370496. split; [lia|]. apply Pos2Z.pos_le_pos, Pos.le_nlt. intros E%Pos.compare_lt_iff.
    change (Pos.compare_cont Eq 4503599627370496 m) with (Pos.compare 4503599627370496 m) in H. by rewrite E in H.
  - split; [lia|]. assert (2 ^ 53 <= 2 ^ (- e)) by (apply Z.pow_le_mono_r; lia). lia.
Qed.
Lemma bucket_inside count v : is_float (MO_Probability v) -> bad_probability v = false -> 1 <= count <= 20 -> 0 <= bucket_index count v < count.
Proof.
  intros Hf Hb Hc. unfold bucket_index.
  assert (H : 0 <= f_trunc (fmul (MO_Probability v) (f_of_Z count)) <= count).
  { pose proof (f_of_Z_at_most count ltac:(lia)) as Ha. unfold bad_probability in Hb.
    destruct (MO_Probability v) as [s|s| |[] m e]; try (destruct s; discriminate Hb); try discriminate Hb.
    - destruct (f_of_Z count) as [s'|s'| |s' m' e']; try done; cbn; lia.
    - bool_prop. destruct (unit_mantissa m e) as [He Hm]; [done..|].
      pose proof (trunc_at_most (fmul (S754_finite false m e) (f_of_Z count)) count 0) as T. rewrite Z.pow_0_r, Z.div_1_r in T. apply T; [lia..|].
      apply (fmul_at_most _ _ _ count _ 0 20); [done | lia | lia | nia | lia | lia | lia]. }
  destruct (Z.eqb_spec (f_trunc (fmul (MO_Probability v) (f_of_Z count))) count); lia.
Qed.

(** ** What the outcomes are checked for *)
Section Outcomes.
Context (range : gmap string float64 -> list (string * float64)).
Definition outcome_ok (o : MLOutcome) : Prop :=
  MO_ID o <> "" /\ MO_Symbol o <> "" /\ bad_probability o = false /\ comparable range o = true.
Definition positives (l : list MLOutcome) : Z := len (filter (fun o => MO_Positive o = true) l).
Definition negatives (l : list MLOutcome) : Z := len (filter (fun o => MO_Positive o = false) l).
Definition outcomes_checked (l : list MLOutcome) (s : OutcomeState) : Prop :=
  Forall outcome_ok l /\ NoDup (MO_ID <$> l) /\ os_ids s = list_to_set (MO_ID <$> l) /\ os_windows s = list_to_set (MO_Window <$> l) /\
  os_positives s = positives l /\ os_negatives s = negatives l.
Lemma count_one (b : bool) l o : len (filter (fun o => MO_Positive o = b) l ++ filter (fun o => MO_Positive o = b) [o]) =
  len (filter (fun o => MO_Positive o = b) l) + (if Bool.eqb (MO_Positive o) b then 1 else 0).
Proof. rewrite filter_cons, filter_nil. unfold len. rewrite length_app. destruct (decide _) as [E|E], (MO_Positive o), b; cbn; try done; lia. Qed.
Lemma check_outcome_step l s o s' : outcomes_checked l s -> check_outcome range s o = Ok s' -> outcomes_checked (l ++ [o]) s'.
Proof.
  intros (H1 & H2 & H3 & H4 & H5 & H6) H. unfold check_outcome in H. destruct (_ || _) eqn:E1 in H; [done|].
  destruct (bool_decide _) eqn:E2 in H; [done|]. apply bool_decide_eq_false in E2.
  destruct (bad_probability o) eqn:E3; [done|]. destruct (comparable range o) eqn:E4; [|done]. cbn in H. injection H as <-.
  unfold outcomes_checked, positives, negatives in *. rewrite !fmap_app, !list_to_set_app_L, !filter_app, H3, H4. cbn [os_ids os_windows os_positives os_negatives].
  rewrite H5, H6. split_and!.
  - apply Forall_app. split; [done|]. apply Forall_singleton. unfold outcome_ok. bool_prop. auto.
  - apply NoDup_app. split_and!; [done | | apply NoDup_singleton]. intros x Hx ->%list_elem_of_singleton. apply E2. rewrite H3. by apply elem_of_list_to_set.
  - cbn. rewrite union_empty_r_L, (comm_L (∪)). done.
  - cbn. rewrite union_empty_r_L, (comm_L (∪)). done.
  - rewrite count_one. destruct (MO_Positive o); cbn; lia.
  - rewrite count_one. destruct (MO_Positive o); cbn; lia.
Qed.
Lemma check_outcomes l s : foldM (check_outcome range) (mkOutcomeState ∅ ∅ 0 0) l = Ok s -> outcomes_checked l s.
Proof.
  intros H. eapply (foldM_inv outcomes_checked) in H; [done | | intros; by eapply check_outcome_step].
  unfold outcomes_checked. split_and!; try done. constructor.
Qed.

(** ** Every outcome is in one bucket *)
Lemma place_ok count result v : len result = count -> 1 <= count <= 20 -> is_float (MO_Probability v) -> bad_probability v = false ->
  exists result', place count result v = Ok result' /\ len result' = count /\
    Zsum (fun bp => CB_Support bp.1) result' = Zsum (fun bp => CB_Support bp.1) result + 1.
Proof.
  intros Hl Hc Hf Hb. pose proof (bucket_inside count v Hf Hb Hc) as Hi. unfold place.
  destruct (index_inside result (bucket_index count v)) as [b Eb]; [lia|]. rewrite Eb. cbn. eexists. split; [done|].
  split; [unfold len; rewrite length_insert; done|].
  unfold index in Eb. destruct (_ <? 0) in Eb; [done|]. destruct (result !! _) as [b'|] eqn:El; [|done]. injection Eb as ->.
  rewrite (insert_take_drop _ _ _ (lookup_lt_Some _ _ _ El)). rewrite <- (take_drop_middle _ _ _ El) at 3.
  rewrite !Zsum_app, !Zsum_cons. destruct b as [b p]. cbn. lia.
Qed.
Lemma calibration_ok values count : 1 <= count <= 20 -> Forall (fun v => is_float (MO_Probability v) /\ bad_probability v = false) values ->
  exists buckets, calibration values count = Ok buckets /\ len buckets = count /\ Zsum CB_Support buckets = len values.
Proof.
  intros Hc Hv. unfold calibration. rewrite (proj2 (Z.ltb_ge _ _)) by lia.
  assert (G : forall l, len l = count -> exists r, foldM (place count) l values = Ok r /\ len r = count /\
    Zsum (fun bp => CB_Support bp.1) r = Zsum (fun bp => CB_Support bp.1) l + len values).
  { induction Hv as [|v vs [Hf Hb] _ IH]; intros l Hl; cbn [foldM].
    - exists l. split_and!; [done..|]. unfold len. cbn. lia.
    - destruct (place_ok count l v Hl Hc Hf Hb) as (l' & -> & Hl' & E). cbn [rbind]. destruct (IH l' Hl') as (r & -> & Hr & E').
      exists r. split_and!; [done..|]. rewrite E', E. unfold len. cbn [length]. lia. }
  destruct (G (empty_bucket count <$> seq 0 (Z.to_nat count))) as (r & -> & Hr & E).
  { unfold len. rewrite length_fmap, length_seq. lia. }
  cbn [rbind]. eexists. split; [done|]. split; [unfold len; by rewrite length_fmap|].
  rewrite Zsum_fmap. transitivity (Zsum (fun bp : CalibrationBucket * Z => CB_Support bp.1) r).
  - apply Zsum_ext. intros [b p] _. unfold average. cbn. destruct (Z.eqb_spec (CB_Support b) 0); done.
  - rewrite E, Zsum_fmap. enough (forall l, Zsum (fun x => CB_Support (empty_bucket count x).1) l = 0) as -> by lia.
    induction l as [|x l IH]; [done|]. rewrite Zsum_cons, IH. done.
Qed.
End Outcomes.

(** ** The gates *)
Lemma forallb_perm {A} (p : A -> bool) l k : l ≡ₚ k -> forallb p l = forallb p k.
Proof. induction 1 as [| |x y l|]; cbn; [done | by f_equal | by rewrite !andb_assoc, (andb_comm (p y)) | congruence]. Qed.
Lemma gates_all q auc brier logLoss maxError expectancy delta monotonic :
  forallb (fun kv : string * bool => kv.2) (map_to_list (ml_gates q auc brier logLoss maxError expectancy delta monotonic)) = true <->
  (fle (ML_MinAUC q) auc = true /\ fle brier (ML_MaxBrier q) = true /\ fle logLoss (ML_MaxLogLoss q) = true /\
   fle maxError (ML_MaxCalibrationError q) = true) /\ monotonic = true /\ flt fzero expectancy = true /\ flt fzero delta = true.
Proof.
  unfold ml_gates. erewrite forallb_perm; [|apply map_to_list_to_map].
  - cbn [forallb snd]. rewrite !andb_true_iff. tauto.
  - apply (bool_decide_unpack _). vm_compute. exact I.
Qed.
(** The limits a model is held to are at least those of governance. *)
Definition governed (q : MLRequirements) : Prop :=
  2 <= ML_MinIndependentWindows q /\ 2 <= ML_Buckets q <= 20 /\ 1 <= ML_MinBucketSupport q /\ flt (ML_MinAUC q) (f_of_ratio 55 100) = false /\
  flt (f_of_ratio 8 10) (ML_MaxLogLoss q) = false /\ flt (f_of_ratio 25 100) (ML_MaxBrier q) = false /\ flt (f_of_ratio 3 10) (ML_MaxCalibrationError q) = false.
Lemma Normalize_governed q0 q : NormalizeMLRequirements q0 = Ok q -> governed q.
Proof.
  unfold NormalizeMLRequirements. cbn [ML_MinLabels ML_MinIndependentWindows ML_Buckets ML_MinBucketSupport ML_ClipEpsilon ML_MinAUC ML_MaxLogLoss ML_MaxBrier ML_MaxCalibrationError].
  destruct (_ || _) eqn:E; [done|]. intros [= <-]. unfold governed. cbn. bool_prop. split_and!; (done || lia).
Qed.
Lemma check_buckets minimum buckets s s' : foldM (check_bucket minimum) s buckets = Ok s' -> Forall (fun b => minimum <= CB_Support b) buckets.
Proof.
  revert s. induction buckets as [|b bs IH]; intros s H; [constructor|]. cbn [foldM] in H. destruct s as [[m p] e].
  unfold check_bucket at 1 in H. destruct (Z.ltb_spec (CB_Support b) minimum); [done|]. cbn [rbind] in H. constructor; [lia | by eapply IH].
Qed.


(** Evaluating a model never panics, whatever the outcomes and the
    requirements: every probability falls into a bucket. *)
Theorem EvaluateML_total range outcomes requirements w : Forall (fun o => is_float (MO_Probability o)) outcomes ->
  EvaluateML range outcomes requirements <> Panic w.
Proof.
  intros Hf H. unfold EvaluateML in H. destruct (NormalizeMLRequirements requirements) as [q|x|x] eqn:En; [|done|].
  2:{ unfold NormalizeMLRequirements in En. by destruct (_ || _) in En. }
  cbn [rbind] in H. destruct (_ || _) in H; [done|]. pose proof (Normalize_governed _ _ En) as Hg. unfold evaluateMLNormalized in H.
  destruct (foldM (check_outcome range) _ outcomes) as [s|x|x] eqn:Es; [|done|].
  2:{ revert Es. generalize (mkOutcomeState ∅ ∅ 0 0). clear. induction outcomes as [|o l IH]; intros s; [done|]. cbn [foldM].
      unfold check_outcome at 1. destruct (_ || _); [done|]. destruct (bool_decide _); [done|]. destruct (bad_probability _); [done|].
      destruct (negb _); [done | apply IH]. }
  cbn [rbind] in H. apply check_outcomes in Es as (H1 & _). destruct (_ <? _) in H; [done|]. destruct (_ || _) in H; [done|].
  destruct (calibration_ok outcomes (ML_Buckets q)) as (buckets & Eb & _); [unfold governed in Hg; lia | |].
  { apply Forall_forall. intros o Ho. rewrite Forall_forall in H1, Hf. split; [by apply Hf|]. by destruct (H1 o Ho) as (_ & _ & ? & _). }
  rewrite Eb in H. cbn [rbind] in H. destruct (foldM (check_bucket _) _ buckets) as [[[? ?] ?]|x|x] eqn:Em; [|done|].
  - cbn [rbind] in H. by destruct (pearson _ _).
  - revert Em. generalize (true, S754_infinity true, fzero). clear. induction buckets as [|b l IH]; intros [[m p] e]; [done|]. cbn [foldM].
    unfold check_bucket at 1. destruct (_ <? _); [done | apply IH].
Qed.
