(* ===== verification/Research.v ===== *)
(** * Research: the repository of experiments and their evidence

    [internal/validation/repository.go], [ml_evidence.go] and [job.go] over the
    tables of [internal/database/models.go], with the unique, check and foreign
    key constraints of the migrations: registering an experiment, its attempt
    and the single use of a locked holdout; persisting and loading evidence; and
    the job that runs an experiment. A transaction is one step: the advisory
    lock and the unique constraints serialise the writers of an experiment. The
    text a [jsonb] column gives back, the precision of a time column and JSON
    are parameters. *)
From Stdlib Require Import Ascii SpecFloat.
From stdpp Require Import base numbers strings gmap list.
From S2P Require Import Prelude GoStrings GoFloat GoTime Snapshots ValidationTypes Splits FoldMetrics Manifest Evaluation WalkForward Evidence MLEvaluation Cutover.
Local Open Scope Z_scope.

(** ** Tables *)
Record Experiment : Type := mkExperiment {
  Ex_ID : string; Ex_ContentID : string; Ex_SchemaVersion : string; Ex_ContentJSON : string; Ex_ContentDigest : string; Ex_CreatedAt : Time;
  Ex_BacktestJobID : option Z; Ex_ComparisonDigest : option string; Ex_AuthorityPolicyDigest : string; Ex_Stage08ContextJSON : string;
  Ex_CreatedBy : string; Ex_IdempotencyKey : option string }.
Record Family : Type := mkFamily { Fa_ID : string; Fa_ContentJSON : string; Fa_ContentDigest : string; Fa_CreatedAt : Time }.
Record Attempt : Type := mkAttempt {
  At_ID : string; At_FamilyID : string; At_ExperimentID : string; At_CandidateDigest : string; At_ContentDigest : string; At_CreatedAt : Time }.
Record AttemptOutcome : Type := mkAttemptOutcome {
  Oc_ID : string; Oc_AttemptID : string; Oc_ExperimentID : string; Oc_EvidenceID : string; Oc_Status : string; Oc_ContentDigest : string; Oc_CreatedAt : Time }.
Record Holdout : Type := mkHoldoutRow {
  Ho_ID : string; Ho_FamilyID : string; Ho_DatasetDigest : string; Ho_StartAt : Time; Ho_EndAt : Time; Ho_ContentDigest : string; Ho_LockedAt : Time }.
Record HoldoutUse : Type := mkUse { Us_ID : string; Us_HoldoutID : string; Us_ExperimentID : string; Us_CreatedAt : Time }.
Record EvidenceRow : Type := mkEvidenceRow {
  Er_ID : string; Er_ExperimentID : string; Er_SchemaVersion : string; Er_Status : string; Er_EvidenceJSON : string; Er_EvidenceDigest : string; Er_CreatedAt : Time }.
Record MLRow : Type := mkMLRow {
  Mr_ID : string; Mr_ExperimentID : string; Mr_SchemaVersion : string; Mr_EvidenceJSON : string; Mr_EvidenceDigest : string; Mr_Passed : bool; Mr_CreatedAt : Time }.
(** Each table by its primary key; the rows of the folds by their unique
    experiment and index. *)
Record Store : Type := mkStore {
  experiments : gmap string Experiment; families : gmap string Family; attempts : gmap string Attempt; outcomes : gmap string AttemptOutcome;
  holdouts : gmap string Holdout; uses : gmap string HoldoutUse; fold_rows : gmap (string * Z) FoldRow; evidences : gmap string EvidenceRow;
  ml_rows : gmap string MLRow }.
Definition empty_store : Store := mkStore ∅ ∅ ∅ ∅ ∅ ∅ ∅ ∅ ∅.
Definition set_experiments f s := mkStore (f (experiments s)) (families s) (attempts s) (outcomes s) (holdouts s) (uses s) (fold_rows s) (evidences s) (ml_rows s).
Definition set_families f s := mkStore (experiments s) (f (families s)) (attempts s) (outcomes s) (holdouts s) (uses s) (fold_rows s) (evidences s) (ml_rows s).
Definition set_attempts f s := mkStore (experiments s) (families s) (f (attempts s)) (outcomes s) (holdouts s) (uses s) (fold_rows s) (evidences s) (ml_rows s).
Definition set_outcomes f s := mkStore (experiments s) (families s) (attempts s) (f (outcomes s)) (holdouts s) (uses s) (fold_rows s) (evidences s) (ml_rows s).
Definition set_holdouts f s := mkStore (experiments s) (families s) (attempts s) (outcomes s) (f (holdouts s)) (uses s) (fold_rows s) (evidences s) (ml_rows s).
Definition set_uses f s := mkStore (experiments s) (families s) (attempts s) (outcomes s) (holdouts s) (f (uses s)) (fold_rows s) (evidences s) (ml_rows s).
Definition set_fold_rows f s := mkStore (experiments s) (families s) (attempts s) (outcomes s) (holdouts s) (uses s) (f (fold_rows s)) (evidences s) (ml_rows s).
Definition set_evidences f s := mkStore (experiments s) (families s) (attempts s) (outcomes s) (holdouts s) (uses s) (fold_rows s) (f (evidences s)) (ml_rows s).
Definition set_ml_rows f s := mkStore (experiments s) (families s) (attempts s) (outcomes s) (holdouts s) (uses s) (fold_rows s) (evidences s) (f (ml_rows s)).

(** ** Statements *)
Definition Tx (A : Type) : Type := stM Store A.
Definition get {S A} (f : S -> A) : stM S A := fun s => (Ok (f s), s).
Definition transaction {S A} (body : stM S A) : stM S A := fun s =>
  match body s with (Ok a, s') => (Ok a, s') | (r, _) => (r, s) end.
Definition exists_row {K A} `{Countable K} (p : A -> bool) (m : gmap K A) : bool := existsb (fun kv => p kv.2) (map_to_list m).
(** [First]: the row with the least primary key. *)
Definition First {A} (p : A -> bool) (m : gmap string A) : option A :=
  head (omap (fun k => match m !! k with Some a => if p a then Some a else None | None => None end) (sort_strings (map_keys m))).
Definition ErrRecordNotFound : error := DriverError "gorm.ErrRecordNotFound".
Definition found {S A} (row : option A) : stM S A := slift match row with Some a => Ok a | None => Err ErrRecordNotFound end.
Definition violation (code : string) (cond : bool) (constraint : string) : res unit := failIf (negb cond) (PgError code constraint).
(** [Clauses(OnConflict{DoNothing: true}).Create(&row)], whether a row was
    affected: the row's own constraints are checked first, then its conflicts,
    then the foreign keys of a row that was written. A conflict on a unique
    column that the clause does not name is an error. *)
Definition create {S} (own : res unit) (conflict unique references : bool) (write : S -> S) : stM S bool := fun s =>
  match own with
  | Ok _ =>
      if conflict then (Ok false, s) else
      if unique then (Err (PgError "23505" "unique"), s) else
      if references then (Ok true, write s) else (Err (PgError "23503" "foreign key"), s)
  | Err e => (Err e, s)
  | Panic w => (Panic w, s)
  end.
(** A [varchar(n)] counts characters: the bytes that do not continue one. *)
Fixpoint chars (s : string) : Z :=
  match s with
  | EmptyString => 0
  | String c rest => (if (128 <=? byte c) && (byte c <=? 191) then 0 else 1) + chars rest
  end.
Definition varchar (n : Z) (column text : string) : res unit := violation "22001" (chars text <=? n) column.
Definition digests (l : list string) : bool := forallb (fun text => chars text =? 64) l.
Definition known_status (status : string) : bool := (status =s "passed") || (status =s "failed").

Section Repository.
Context (connected : bool) (flags : option Flags) (ObservationContext : Flags -> string -> gmap string string -> string).
Context (sha256hex : string -> string) (MarshalPolicy : string -> gmap string string -> string)
  (MarshalFamily : string -> string -> string -> string -> string) (MarshalHoldout : string -> string -> Interval -> string)
  (MarshalSpec : ManifestSpec -> res string) (UnmarshalSpec : string -> res ManifestSpec) (MarshalRef : VersionRef -> string)
  (MarshalOutcome : string -> string -> string -> string) (FormatTime : Time -> string)
  (MarshalMetrics : FoldMetrics -> res string) (MarshalAggregate : Evaluation -> res string) (MarshalFold : FoldResult -> res string)
  (MarshalFrozen : FrozenDecision -> res string) (MarshalRoot : compactEvidenceRoot -> res string)
  (UnmarshalFold : string -> res FoldResult) (UnmarshalRoot : string -> res compactEvidenceRoot) (ErrorText : error -> string).
Context (jsonb : string -> res string) (column_time : Time -> Time).
Context (Intn : Z -> Z -> nat -> Z) (policyOrder : gmap string string -> list (string * string))
  (range : nat -> nat -> forall A, gmap string A -> list (string * A)).
Abbreviation VerifyManifest m := (Manifest_Verify sha256hex MarshalPolicy MarshalFamily MarshalHoldout MarshalSpec FormatTime policyOrder m).
Abbreviation Prepare := (prepareEvidenceForPersistence sha256hex MarshalPolicy MarshalFamily MarshalHoldout MarshalSpec FormatTime MarshalMetrics
  MarshalAggregate MarshalFold MarshalFrozen MarshalRoot ErrorText Intn policyOrder range).
Abbreviation Hydrate := (hydratePreparedEvidence sha256hex MarshalMetrics MarshalAggregate MarshalFold MarshalFrozen MarshalRoot
  UnmarshalFold UnmarshalRoot ErrorText Intn range).

(** ** Registering an experiment *)
Definition Stage08ObservationContext (flags : Flags) (manifest : ExperimentManifest) : string :=
  let spec := EM_Spec manifest in
  let modelVersion := match MS_Model spec with Some m => MA_Version m | None => "none" end in
  ObservationContext flags "stage07_validation"
    (list_to_map [("strategy", VR_ID (MS_Candidate spec) +:+ "@" +:+ VR_Version (MS_Candidate spec)); ("model", modelVersion);
       ("policy", PB_Composite (MS_Policies spec)); ("dataset", MS_DatasetManifestID spec); ("universe", MS_UniversePolicy spec)]).
Definition experiment_row (manifest : ExperimentManifest) (content : string) (job : option Z) (comparison : option string) (creator : string) (key : option string) : Experiment :=
  let spec := EM_Spec manifest in
  mkExperiment (EM_ID manifest) (EM_ContentID manifest) (MS_SchemaVersion spec) content (EM_ContentDigest manifest) (EM_CreatedAt manifest) job comparison
    (AP_Digest (MS_AuthorityPolicy spec)) (match flags with Some f => Stage08ObservationContext f manifest | None => "{}" end) creator key.
(** The row as it is stored. *)
Definition stored_experiment (row : Experiment) : res Experiment :=
  let* content := jsonb (Ex_ContentJSON row) in
  let* stage08 := jsonb (Ex_Stage08ContextJSON row) in
  let* _ := varchar 50 "schema_version" (Ex_SchemaVersion row) in
  let* _ := varchar 64 "comparison_digest" (default "" (Ex_ComparisonDigest row)) in
  let* _ := varchar 64 "authority_policy_digest" (Ex_AuthorityPolicyDigest row) in
  let* _ := varchar 200 "created_by" (Ex_CreatedBy row) in
  let* _ := violation "23514" (digests [Ex_ID row; Ex_ContentID row; Ex_ContentDigest row] && (Ex_ContentID row =s Ex_ContentDigest row))
              "validation_experiment_digest_check" in
  Ok (mkExperiment (Ex_ID row) (Ex_ContentID row) (Ex_SchemaVersion row) content (Ex_ContentDigest row) (column_time (Ex_CreatedAt row)) (Ex_BacktestJobID row)
        (Ex_ComparisonDigest row) (Ex_AuthorityPolicyDigest row) stage08 (Ex_CreatedBy row) (Ex_IdempotencyKey row)).
Definition same_key (a b : option string) : bool := match a, b with Some x, Some y => x =s y | _, _ => false end.
Definition CreateExperiment (row : Experiment) : Tx bool := 
  let! s := get id in
  let! stored := slift (stored_experiment row) in
  create (Ok tt) (bool_decide (is_Some (experiments s !! Ex_ID row))) (exists_row (fun e => same_key (Ex_IdempotencyKey e) (Ex_IdempotencyKey row)) (experiments s))
    true (set_experiments (<[Ex_ID row := stored]>)).
Definition CreateFamily (row : Family) : Tx bool :=
  let! s := get id in
  let! content := slift (jsonb (Fa_ContentJSON row)) in
  create (varchar 64 "id" (Fa_ID row)) (bool_decide (is_Some (families s !! Fa_ID row))) false true
    (set_families (<[Fa_ID row := mkFamily (Fa_ID row) content (Fa_ContentDigest row) (column_time (Fa_CreatedAt row))]>)).
Definition CreateAttempt (row : Attempt) : Tx bool :=
  let! s := get id in
  create (varchar 64 "id" (At_ID row)) (bool_decide (is_Some (attempts s !! At_ID row)) ||
                  exists_row (fun a => (At_FamilyID a =s At_FamilyID row) && (At_ExperimentID a =s At_ExperimentID row)) (attempts s)) false
    (bool_decide (is_Some (families s !! At_FamilyID row)) && bool_decide (is_Some (experiments s !! At_ExperimentID row)))
    (set_attempts (<[At_ID row := mkAttempt (At_ID row) (At_FamilyID row) (At_ExperimentID row) (At_CandidateDigest row) (At_ContentDigest row) (column_time (At_CreatedAt row))]>)).
Definition CreateHoldout (row : Holdout) : Tx bool :=
  let! s := get id in
  create (violation "23514" ((column_time (Ho_StartAt row) <? column_time (Ho_EndAt row)) && digests [Ho_ID row; Ho_ContentDigest row]) "research_confirmatory_holdout_interval_check")
    (bool_decide (is_Some (holdouts s !! Ho_ID row)) || exists_row (fun h => Ho_FamilyID h =s Ho_FamilyID row) (holdouts s)) false
    (bool_decide (is_Some (families s !! Ho_FamilyID row)))
    (set_holdouts (<[Ho_ID row := mkHoldoutRow (Ho_ID row) (Ho_FamilyID row) (Ho_DatasetDigest row) (column_time (Ho_StartAt row)) (column_time (Ho_EndAt row))
       (Ho_ContentDigest row) (column_time (Ho_LockedAt row))]>)).
Definition CreateUse (row : HoldoutUse) : Tx bool :=
  let! s := get id in
  create (varchar 64 "id" (Us_ID row)) (bool_decide (is_Some (uses s !! Us_ID row)) || exists_row (fun u => Us_HoldoutID u =s Us_HoldoutID row) (uses s) ||
                  exists_row (fun u => Us_ExperimentID u =s Us_ExperimentID row) (uses s)) false
    (bool_decide (is_Some (holdouts s !! Us_HoldoutID row)) && bool_decide (is_Some (experiments s !! Us_ExperimentID row)))
    (set_uses (<[Us_ID row := mkUse (Us_ID row) (Us_HoldoutID row) (Us_ExperimentID row) (column_time (Us_CreatedAt row))]>)).

Definition integrity_tx {A} (details : string) : Tx A := slift (Err (integrity details)).
Definition reused {A} (details : string) : Tx A := slift (Err (DiagnosticError DiagnosticHoldoutReuse "" details)).
Definition family_content (spec : ManifestSpec) : string :=
  MarshalFamily (VR_ID (MS_Candidate spec)) (VR_ImplementationDigest (MS_Candidate spec)) (MS_DatasetDigest spec) (PB_Composite (MS_Policies spec)).
Definition register_family (manifest : ExperimentManifest) : Tx unit :=
  let spec := EM_Spec manifest in
  let family := mkFamily (MS_FamilyID spec) (family_content spec) (sha256hex (family_content spec)) (EM_CreatedAt manifest) in
  let! affected := CreateFamily family in
  if (affected : bool) then sret tt else
  let! s := get id in
  let! existing := found (families s !! Fa_ID family) in
  if Fa_ContentDigest existing <>s Fa_ContentDigest family then integrity_tx "research family scope differs" else sret tt.
Definition attempt_of (manifest : ExperimentManifest) : Attempt :=
  let spec := EM_Spec manifest in
  mkAttempt (sha256hex (MS_FamilyID spec +:+ newline +:+ EM_ID manifest)) (MS_FamilyID spec) (EM_ID manifest) (sha256hex (MarshalRef (MS_Candidate spec)))
    (EM_ContentDigest manifest) (EM_CreatedAt manifest).
Definition register_attempt (manifest : ExperimentManifest) : Tx unit :=
  let attempt := attempt_of manifest in
  let! affected := CreateAttempt attempt in
  if (affected : bool) then sret tt else
  let! s := get id in
  let! existing := found (First (fun a => At_ExperimentID a =s EM_ID manifest) (attempts s)) in
  if (At_ID existing <>s At_ID attempt) || (At_FamilyID existing <>s At_FamilyID attempt) || (At_ContentDigest existing <>s At_ContentDigest attempt)
  then integrity_tx "attempt identity differs on retry" else sret tt.
Definition register_holdout (manifest : ExperimentManifest) (h : ConfirmatoryHoldoutContract) : Tx unit :=
  let holdout := mkHoldoutRow (CH_ID h) (MS_FamilyID (EM_Spec manifest)) (CH_DatasetDigest h) (Iv_Start (CH_Interval h)) (Iv_End (CH_Interval h)) (CH_ID h) (EM_CreatedAt manifest) in
  let! affected := CreateHoldout holdout in
  if (affected : bool) then sret tt else
  let! s := get id in
  let! existing := found (First (fun r => Ho_FamilyID r =s Ho_FamilyID holdout) (holdouts s)) in
  if (Ho_ID existing <>s Ho_ID holdout) || (Ho_DatasetDigest existing <>s Ho_DatasetDigest holdout) || negb (Ho_StartAt existing =? Ho_StartAt holdout) ||
     negb (Ho_EndAt existing =? Ho_EndAt holdout)
  then reused "family has a different locked confirmatory holdout" else sret tt.
Definition register_use (manifest : ExperimentManifest) (h : ConfirmatoryHoldoutContract) : Tx unit :=
  let! affected := CreateUse (mkUse (sha256hex (CH_ID h +:+ newline +:+ EM_ID manifest)) (CH_ID h) (EM_ID manifest) (EM_CreatedAt manifest)) in
  if (affected : bool) then sret tt else
  let! s := get id in
  let! existing := found (First (fun u => Us_HoldoutID u =s CH_ID h) (uses s)) in
  if Us_ExperimentID existing <>s EM_ID manifest then reused "locked confirmatory holdout has already been consumed" else sret tt.
Definition registerResearchAttempt (manifest : ExperimentManifest) : Tx unit :=
  let! _ := register_family manifest in
  let! _ := register_attempt manifest in
  if MS_StudyType (EM_Spec manifest) <>s "confirmatory" then sret tt else
  match MS_ConfirmatoryHoldout (EM_Spec manifest) with
  | None => slift (Panic "invalid memory address or nil pointer dereference")
  | Some h => let! _ := register_holdout manifest h in register_use manifest h
  end.

Definition LoadManifest (id_ : string) : Tx ExperimentManifest :=
  let! s := get id in
  let! row := found (experiments s !! id_) in
  if MaxEvidenceBytes <? slen (Ex_ContentJSON row) then integrity_tx "manifest exceeds bounded load size" else
  let! spec := slift (match UnmarshalSpec (Ex_ContentJSON row) with Err e => Err (integrity (ErrorText e)) | m => m end) in
  let manifest := mkManifest (Ex_ID row) (Ex_ContentID row) (Ex_ContentDigest row) (Ex_CreatedAt row) spec in
  let! _ := slift (VerifyManifest manifest) in
  if Ex_AuthorityPolicyDigest row <>s AP_Digest (MS_AuthorityPolicy spec) then integrity_tx "stored authority policy digest mismatch" else sret manifest.

(** The body of the transaction: the identity of the row that holds the content. *)
Definition create_body (manifest : ExperimentManifest) (row : Experiment) : Tx string :=
  let! s := get id in
  match match Ex_IdempotencyKey row with Some k => First (fun e => same_key (Ex_IdempotencyKey e) (Some k)) (experiments s) | None => None end with
  | Some existing =>
      if Ex_ContentID existing <>s EM_ContentID manifest
      then slift (Err (DiagnosticError DiagnosticManifestIntegrity "idempotency_key" "key reused for different semantic content")) else sret (Ex_ID existing)
  | None =>
      let! created := CreateExperiment row in
      if (created : bool) then let! _ := registerResearchAttempt manifest in sret (Ex_ID row) else sret (Ex_ID row)
  end.
Definition CreateManifestAuthenticated (manifest : ExperimentManifest) (job : option Z) (comparison : option string) (creator0 idempotencyKey0 : string) : Tx ExperimentManifest :=
  let! _ := slift (failIf (negb connected) (Errorf "validation repository database is required" [])) in
  let! _ := slift (VerifyManifest manifest) in
  let! content := slift (MarshalSpec (EM_Spec manifest)) in
  let creator := TrimSpace creator0 in
  let idempotencyKey := TrimSpace idempotencyKey0 in
  if creator =s "" then slift (Err (DiagnosticError DiagnosticInvalidManifest "creator" "")) else
  if (idempotencyKey <>s "") && ((slen idempotencyKey <? 8) || (120 <? slen idempotencyKey))
  then slift (Err (DiagnosticError DiagnosticInvalidManifest "idempotency_key" "")) else
  let key := if idempotencyKey =s "" then None else Some idempotencyKey in
  let! id_ := transaction (create_body manifest (experiment_row manifest content job comparison creator key)) in
  LoadManifest id_.
Definition CreateManifest (manifest : ExperimentManifest) (job : option Z) (comparison : option string) : Tx ExperimentManifest :=
  CreateManifestAuthenticated manifest job comparison "system" "".

(** ** Persisting evidence *)
Definition HasCompletedOutcome (manifestID : string) : Tx bool :=
  let! _ := slift (failIf (negb connected) (Errorf "validation repository database is required" [])) in
  let! s := get id in sret (exists_row (fun o => Oc_ExperimentID o =s manifestID) (outcomes s)).
Definition stored_fold (row : FoldRow) : res FoldRow :=
  let* json := jsonb (Fr_EvidenceJSON row) in
  let* _ := violation "23514" (known_status (Fr_Status row) && (0 <=? Fr_FoldIndex row) && digests [Fr_FrozenDigest row; Fr_EvidenceDigest row]) "validation_fold_evidence_state_check" in
  Ok (mkFoldRow (Fr_ExperimentID row) (Fr_FoldIndex row) (Fr_SchemaVersion row) (Fr_Status row) (Fr_FrozenDigest row) json (Fr_EvidenceDigest row) (column_time (Fr_CreatedAt row))).
Definition CreateFold (row : FoldRow) : Tx bool :=
  let! s := get id in
  let! stored := slift (stored_fold row) in
  create (Ok tt) (bool_decide (is_Some (fold_rows s !! (Fr_ExperimentID row, Fr_FoldIndex row)))) false (bool_decide (is_Some (experiments s !! Fr_ExperimentID row)))
    (set_fold_rows (<[(Fr_ExperimentID row, Fr_FoldIndex row) := stored]>)).
Definition stored_evidence (row : EvidenceRow) : res EvidenceRow :=
  let* json := jsonb (Er_EvidenceJSON row) in
  let* _ := violation "23514" (known_status (Er_Status row) && digests [Er_ID row; Er_EvidenceDigest row]) "validation_evidence_state_check" in
  Ok (mkEvidenceRow (Er_ID row) (Er_ExperimentID row) (Er_SchemaVersion row) (Er_Status row) json (Er_EvidenceDigest row) (column_time (Er_CreatedAt row))).
Definition CreateEvidence (row : EvidenceRow) : Tx bool :=
  let! s := get id in
  let! stored := slift (stored_evidence row) in
  create (Ok tt) (exists_row (fun e => Er_ExperimentID e =s Er_ExperimentID row) (evidences s)) (bool_decide (is_Some (evidences s !! Er_ID row)))
    (bool_decide (is_Some (experiments s !! Er_ExperimentID row))) (set_evidences (<[Er_ID row := stored]>)).
Definition CreateOutcome (row : AttemptOutcome) : Tx bool :=
  let! s := get id in
  create (violation "23514" (known_status (Oc_Status row)) "research_attempt_outcome_status_check") (exists_row (fun o => Oc_AttemptID o =s Oc_AttemptID row) (outcomes s))
    (bool_decide (is_Some (outcomes s !! Oc_ID row)) || exists_row (fun o => Oc_EvidenceID o =s Oc_EvidenceID row) (outcomes s))
    (bool_decide (is_Some (attempts s !! Oc_AttemptID row)) && bool_decide (is_Some (evidences s !! Oc_EvidenceID row)))
    (set_outcomes (<[Oc_ID row := mkAttemptOutcome (Oc_ID row) (Oc_AttemptID row) (Oc_ExperimentID row) (Oc_EvidenceID row) (Oc_Status row) (Oc_ContentDigest row) (column_time (Oc_CreatedAt row))]>)).

Definition persist_fold (manifest : ExperimentManifest) (status : string) (createdAt : Time) (_ : unit) (fold : preparedFoldEvidence) : Tx unit :=
  let row := fold_row manifest status createdAt fold in
  let! affected := CreateFold row in
  if (affected : bool) then sret tt else
  let! s := get id in
  let! existing := found (fold_rows s !! (EM_ID manifest, Ref_FoldIndex (PF_Ref fold))) in
  if (Fr_EvidenceDigest existing <>s Fr_EvidenceDigest row) || (Fr_FrozenDigest existing <>s Fr_FrozenDigest row) ||
     (Fr_SchemaVersion existing <>s Fr_SchemaVersion row) || (Fr_Status existing <>s Fr_Status row)
  then integrity_tx "idempotent fold retry has different content" else sret tt.
Definition persist_root (manifest : ExperimentManifest) (prepared : preparedEvidence) (createdAt : Time) : Tx unit :=
  let row := mkEvidenceRow (PE_ID prepared) (EM_ID manifest) CompactEvidenceRootSchemaVersion (PE_Status prepared) (PE_RootBytes prepared) (PE_RootDigest prepared) createdAt in
  let! affected := CreateEvidence row in
  if (affected : bool) then sret tt else
  let! s := get id in
  let! existing := found (First (fun e => Er_ExperimentID e =s EM_ID manifest) (evidences s)) in
  if (Er_ID existing <>s PE_ID prepared) || (Er_EvidenceDigest existing <>s PE_RootDigest prepared) || (Er_SchemaVersion existing <>s Er_SchemaVersion row) ||
     (Er_Status existing <>s Er_Status row)
  then integrity_tx "experiment already has different immutable evidence" else sret tt.
Definition persist_outcome (manifest : ExperimentManifest) (prepared : preparedEvidence) (createdAt : Time) : Tx unit :=
  let! s := get id in
  let! attempt := found (First (fun a => At_ExperimentID a =s EM_ID manifest) (attempts s)) in
  let outcome := mkAttemptOutcome (sha256hex (At_ID attempt +:+ newline +:+ PE_ID prepared)) (At_ID attempt) (EM_ID manifest) (PE_ID prepared) (PE_Status prepared)
    (sha256hex (MarshalOutcome (At_ID attempt) (PE_ID prepared) (PE_Status prepared))) createdAt in
  let! affected := CreateOutcome outcome in
  if (affected : bool) then sret tt else
  let! s := get id in
  let! existing := found (First (fun o => Oc_AttemptID o =s At_ID attempt) (outcomes s)) in
  if (Oc_EvidenceID existing <>s PE_ID prepared) || (Oc_Status existing <>s PE_Status prepared) then integrity_tx "attempt outcome was replaced" else sret tt.
Definition persist_body (manifest : ExperimentManifest) (isResult : bool) (prepared : preparedEvidence) (createdAt : Time) : Tx unit :=
  let! _ := if isResult then sfoldM (persist_fold manifest (PE_Status prepared) createdAt) tt (PE_Folds prepared) else sret tt in
  let! _ := persist_root manifest prepared createdAt in
  persist_outcome manifest prepared createdAt.

(** ** Loading evidence *)

(** The envelope that older rows hold. *)
Record legacyEvidence : Type := mkLegacy {
  Le_SchemaVersion : string; Le_ExperimentID : string; Le_Status : string; Le_Result : option WalkForwardResult; Le_Failure : option Diagnostic }.
Context (UnmarshalLegacy : string -> res legacyEvidence) (MarshalLegacy : legacyEvidence -> res string).
(** [err != nil || digest(canonical) != expected]. *)
Definition digest_is (encoded : res string) (expected : string) : res bool :=
  match encoded with Ok text => Ok (sha256hex text =s expected) | Err _ => Ok false | Panic w => Panic w end.
Definition load_legacy (row : EvidenceRow) : res PersistedEvidence :=
  let* payload := match UnmarshalLegacy (Er_EvidenceJSON row) with Err e => Err (integrity (ErrorText e)) | m => m end in
  let* bound := digest_is (MarshalLegacy payload) (Er_EvidenceDigest row) in
  if negb bound || (sha256hex (Er_ExperimentID row +:+ newline +:+ Er_EvidenceDigest row) <>s Er_ID row) then Err (integrity "stored evidence digest mismatch") else
  if (Le_SchemaVersion payload <>s EvidenceSchemaVersion) || (Le_ExperimentID payload <>s Er_ExperimentID row) || (Le_Status payload <>s Er_Status row)
  then Err (integrity "evidence envelope mismatch") else
  Ok (mkPersisted (Er_ID row) (Er_ExperimentID row) (Er_Status row) (Le_Result payload) (Le_Failure payload) (Er_CreatedAt row)).
Definition rows_of (experiment : string) (s : Store) : list FoldRow :=
  SliceStable (fun a b => Fr_FoldIndex a <? Fr_FoldIndex b) (filter (fun r => (Fr_ExperimentID r =s experiment) = true) (snd <$> map_to_list (fold_rows s))).
Definition add_size (textTotal : Z) (row : FoldRow) : res Z :=
  let size := slen (Fr_EvidenceJSON row) in
  if (size <? 0) || (2 * MaxFoldEvidenceBytes <? size) || (2 * MaxTotalFoldEvidenceBytes - size <? textTotal)
  then Err (integrity "compact fold row exceeds bounded load size") else Ok (textTotal + size).
Definition is_none {A} (o : option A) : bool := match o with None => true | Some _ => false end.
Definition check_count (root : compactEvidenceRoot) (n : nat) : res unit :=
  match Ro_Result root with
  | Some r => failIf (negb (Nat.eqb n (length (CR_Folds r)))) (integrity "missing compact fold rows")
  | None => failIf (negb (Nat.eqb n 0)) (integrity "failed compact evidence has fold rows")
  end.
Definition load_fold (row : EvidenceRow) (size : FoldRow) : Tx FoldRow :=
  let! s := get id in
  let! fold := found (match fold_rows s !! (Er_ExperimentID row, Fr_FoldIndex size) with
                      | Some r => if slen (Fr_EvidenceJSON r) <=? 2 * MaxFoldEvidenceBytes then Some r else None
                      | None => None end) in
  if negb (Fr_CreatedAt fold =? Er_CreatedAt row) then integrity_tx "compact fold creation time mismatch" else sret fold.
Definition smap {A B} (f : A -> Tx B) (l : list A) : Tx (list B) :=
  sfoldM (fun acc a => let! b := f a in sret (acc ++ [b])) [] l.
Definition loadCompactEvidenceSnapshot (row : EvidenceRow) : Tx PersistedEvidence :=
  let! root := slift (match UnmarshalRoot (Er_EvidenceJSON row) with Err e => Err (integrity (ErrorText e)) | m => m end) in
  let! bound := slift (digest_is (MarshalRoot root) (Er_EvidenceDigest row)) in
  if negb bound || (sha256hex (Er_ExperimentID row +:+ newline +:+ Er_EvidenceDigest row) <>s Er_ID row) || (Ro_ExperimentID root <>s Er_ExperimentID row) ||
     (Ro_Status root <>s Er_Status row) || (Ro_SchemaVersion root <>s Er_SchemaVersion row)
  then integrity_tx "stored compact evidence digest or identity mismatch" else
  let! manifest := LoadManifest (Er_ExperimentID row) in
  let! s := get id in
  let sizes := take (length (MS_Folds (EM_Spec manifest)) + 1) (rows_of (Er_ExperimentID row) s) in
  if (length (MS_Folds (EM_Spec manifest)) <? length sizes)%nat then integrity_tx "extra compact fold rows" else
  let! _ := slift (foldM add_size 0 sizes) in
  let! _ := slift (check_count root (length sizes)) in
  let! rows := smap (load_fold row) sizes in
  let! evidence := slift (Hydrate manifest (Er_EvidenceJSON row) rows) in
  sret (mkPersisted (Er_ID row) (Pe_ExperimentID evidence) (Pe_Status evidence) (Pe_Result evidence) (Pe_Failure evidence) (Er_CreatedAt row)).
(** A repeatable read transaction sees one state. *)
Definition loadCompactEvidence (row : EvidenceRow) : Tx PersistedEvidence := transaction (loadCompactEvidenceSnapshot row).
Definition LoadEvidence (id_ : string) : Tx PersistedEvidence :=
  let! s := get id in
  let! row := found (evidences s !! id_) in
  if 2 * MaxEvidenceBytes <? slen (Er_EvidenceJSON row) then integrity_tx "evidence exceeds bounded load size" else
  if MaxEvidenceBytes <? slen (Er_EvidenceJSON row) then integrity_tx "evidence exceeds bounded load size" else
  if Er_SchemaVersion row =s CompactEvidenceRootSchemaVersion then loadCompactEvidence row else slift (load_legacy row).

Definition PersistEvidence (manifestID : string) (result : option WalkForwardResult) (failure : option error) (createdAt : Time) : Tx PersistedEvidence :=
  let! _ := slift (failIf (Bool.eqb (is_none result) (is_none failure)) (DiagnosticError DiagnosticInvalidManifest "" "exactly one of result or failure is required")) in
  let! manifest := LoadManifest manifestID in
  if IsZero createdAt then slift (Err (Errorf "evidence creation time is required" [])) else
  let! prepared := slift (Prepare manifest result failure) in
  let! _ := transaction (persist_body manifest (is_some result) prepared createdAt) in
  LoadEvidence (PE_ID prepared).

(** ** Evidence of a learned model *)
Record MLProvenance : Type := mkProvenance {
  Pv_ArtifactDigest : string; Pv_TrainingManifestDigest : string; Pv_BaselineStrategy : VersionRef; Pv_BaselinePolicyDigest : string; Pv_DatasetManifestDigest : string }.
Record ImmutableMLEvidence : Type := mkMLEvidence {
  Im_ID : string; Im_SchemaVersion : string; Im_ExperimentID : string; Im_FoldEvidenceDigest : string; Im_Provenance : MLProvenance;
  Im_OutcomesDigest : string; Im_Evaluation : MLEvaluation; Im_ContentDigest : string; Im_CreatedAt : Time }.
Context (MarshalFolds : list FoldResult -> res string) (MarshalOutcomes : list MLOutcome -> res string)
  (MarshalPayload : string -> string -> string -> MLProvenance -> string -> MLEvaluation -> Time -> res string)
  (MarshalML : ImmutableMLEvidence -> res string) (UnmarshalML : string -> res ImmutableMLEvidence)
  (exposureOrder : gmap string float64 -> list (string * float64)).
Definition MLEvidenceSchemaVersion : string := "ml-promotion-evidence-v1".
(** [encoded, _ := json.Marshal(v)]. *)
Definition or_empty (m : res string) : string := match m with Ok text => text | _ => "" end.
Definition provenance_bound (p : MLProvenance) (m : ModelAuthority) (spec : ManifestSpec) : bool :=
  (Pv_ArtifactDigest p =s MA_ModelDigest m) && (Pv_TrainingManifestDigest p =s MA_TrainingManifest m) && bool_decide (Pv_BaselineStrategy p = MS_Baseline spec) &&
  (Pv_BaselinePolicyDigest p =s PB_Composite (MS_Policies spec)) && (Pv_DatasetManifestDigest p =s MS_DatasetManifestHash spec).
Definition NewImmutableMLEvidence (manifest : ExperimentManifest) (result : WalkForwardResult) (outcomes : list MLOutcome) (requirements : MLRequirements)
    (provenance : MLProvenance) (createdAt : Time) : res ImmutableMLEvidence :=
  match MS_Model (EM_Spec manifest) with
  | None => Err (DiagnosticError DiagnosticInvalidManifest "model" "model manifest is required")
  | Some model =>
      if negb (provenance_bound provenance model (EM_Spec manifest)) then Err (integrity "ML provenance does not match immutable experiment") else
      let* evaluation := EvaluateML exposureOrder outcomes requirements in
      let* folds := MarshalFolds (WF_Folds result) in
      let* encodedOutcomes := MarshalOutcomes outcomes in
      let foldDigest := sha256hex folds in
      let outcomesDigest := sha256hex encodedOutcomes in
      let contentDigest := sha256hex (or_empty (MarshalPayload MLEvidenceSchemaVersion (EM_ID manifest) foldDigest provenance outcomesDigest evaluation createdAt)) in
      Ok (mkMLEvidence (sha256hex (EM_ID manifest +:+ newline +:+ contentDigest)) MLEvidenceSchemaVersion (EM_ID manifest) foldDigest provenance outcomesDigest
            evaluation contentDigest createdAt)
  end.
Definition payload_digest (e : ImmutableMLEvidence) : string :=
  sha256hex (or_empty (MarshalPayload (Im_SchemaVersion e) (Im_ExperimentID e) (Im_FoldEvidenceDigest e) (Im_Provenance e) (Im_OutcomesDigest e) (Im_Evaluation e) (Im_CreatedAt e))).
Definition LoadMLEvidenceForExperiment (experimentID : string) : Tx ImmutableMLEvidence :=
  let! s := get id in
  let! row := found (First (fun r => Mr_ExperimentID r =s experimentID) (ml_rows s)) in
  let malformed := Err (integrity "malformed ML evidence") in
  if MaxEvidenceBytes <? slen (Mr_EvidenceJSON row) then slift malformed else
  let! e := slift (match UnmarshalML (Mr_EvidenceJSON row) with Err _ => malformed | m => m end) in
  if (payload_digest e <>s Mr_EvidenceDigest row) || (Im_ContentDigest e <>s Mr_EvidenceDigest row) || (Im_ID e <>s Mr_ID row) || negb (Mr_Passed row) ||
     negb (ME_Passed (Im_Evaluation e))
  then integrity_tx "stored ML evidence digest or gates failed" else sret e.
Definition CreateML (row : MLRow) : Tx bool :=
  let! s := get id in
  let! json := slift (jsonb (Mr_EvidenceJSON row)) in
  create (varchar 64 "id" (Mr_ID row)) (exists_row (fun r => Mr_ExperimentID r =s Mr_ExperimentID row) (ml_rows s)) (bool_decide (is_Some (ml_rows s !! Mr_ID row)))
    (bool_decide (is_Some (experiments s !! Mr_ExperimentID row)))
    (set_ml_rows (<[Mr_ID row := mkMLRow (Mr_ID row) (Mr_ExperimentID row) (Mr_SchemaVersion row) json (Mr_EvidenceDigest row) (Mr_Passed row) (column_time (Mr_CreatedAt row))]>)).
Definition PersistMLEvidence (e : ImmutableMLEvidence) : Tx ImmutableMLEvidence :=
  let! manifest := LoadManifest (Im_ExperimentID e) in
  if is_none (MS_Model (EM_Spec manifest)) then slift (Err (DiagnosticError DiagnosticInvalidManifest "model" "")) else
  let expected := payload_digest e in
  if (Im_SchemaVersion e <>s MLEvidenceSchemaVersion) || (Im_ContentDigest e <>s expected) || (Im_ID e <>s sha256hex (Im_ExperimentID e +:+ newline +:+ expected)) ||
     negb (ME_Passed (Im_Evaluation e))
  then integrity_tx "ML evidence integrity or gates failed" else
  let! _ := transaction (CreateML (mkMLRow (Im_ID e) (Im_ExperimentID e) (Im_SchemaVersion e) (or_empty (MarshalML e)) (Im_ContentDigest e) (ME_Passed (Im_Evaluation e)) (Im_CreatedAt e))) in
  LoadMLEvidenceForExperiment (Im_ExperimentID e).

(** ** The job *)
Context {W R : Type}.
(** [ExperimentSource], also an [MLExperimentSource] when [LoadML] is there. *)
Record ExperimentSource : Type := mkSource {
  Load : ExperimentManifest -> stM (W * list (Call R)) (list Sample * option (FoldRunnerFactory W R));
  LoadML : option (ExperimentManifest -> WalkForwardResult -> stM (W * list (Call R)) (list MLOutcome * (MLRequirements * MLProvenance))) }.
Context (MarshalSamples : list Sample -> res string) (MarshalFit : Z -> string -> string -> string -> Z -> string)
  (MarshalSelection : Z -> string -> string -> gmap string string -> gmap string (list string) -> string)
  (foldOrder : nat -> nat -> forall A, gmap string A -> list (string * A)).
(** What the job works on: the database, and the world of the source and the
    runners with the calls they were given. *)
Definition Job (A : Type) : Type := stM (Store * (W * list (Call R))) A.
Definition on_store {A} (m : Tx A) : Job A := fun '(s, w) => let '(r, s') := m s in (r, (s', w)).
Definition on_world {A} (m : stM (W * list (Call R)) A) : Job A := fun '(s, w) => let '(r, w') := m w in (r, (s, w')).
(** The error of [m] as a value. *)
Definition attempt_ {S A} (m : stM S A) : stM S (A + error) := fun s =>
  match m s with
  | (Ok a, s') => (Ok (inl a), s')
  | (Err e, s') => (Ok (inr e), s')
  | (Panic w, s') => (Panic w, s')
  end.
Fixpoint is_prewrite (e : error) : bool :=
  match e with
  | PrewriteError _ => true
  | Wrapf _ _ cause | LedgerErrorWith _ _ _ cause | RunError _ _ cause => is_prewrite cause
  | JoinError first second => is_prewrite first || is_prewrite second
  | _ => false
  end.
(** The evidence of the run, with the error that is returned beside it when the
    evidence is of a failure. *)
Definition persistFailure (manifestID : string) (original : error) (createdAt : Time) : Job (PersistedEvidence * option error) :=
  let! r := attempt_ (on_store (PersistEvidence manifestID None (Some original) createdAt)) in
  match r with
  | inl evidence => sret (evidence, Some original)
  | inr e => slift (Err (JoinError original (Wrapf "persist failed validation outcome: %w" [] e)))
  end.
Definition persistResult (manifest : ExperimentManifest) (result : WalkForwardResult) (createdAt : Time) : Job (PersistedEvidence * option error) :=
  let! r := attempt_ (on_store (PersistEvidence (EM_ID manifest) (Some result) None createdAt)) in
  match r with
  | inl evidence => sret (evidence, None)
  | inr e => if is_prewrite e then persistFailure (EM_ID manifest) e createdAt else slift (Err e)
  end.
(** A runner factory stands for the nil interface too. *)
Definition nil_factory : FoldRunnerFactory W R :=
  mkFactory W R (fun _ => slift (Panic "nil factory")) (fun _ _ _ _ _ => slift (Panic "nil factory")) (fun _ _ _ _ => slift (Panic "nil factory")) (fun _ => None).
Definition run_folds (manifest : ExperimentManifest) (samples : list Sample) (factory : option (FoldRunnerFactory W R)) : Job WalkForwardResult :=
  on_world (RunWalkForward (default nil_factory factory) sha256hex MarshalPolicy MarshalFamily MarshalHoldout MarshalSpec FormatTime MarshalSamples MarshalFit
    MarshalSelection Intn policyOrder foldOrder (is_some factory) manifest samples).
(** The evidence of the model: an error to record, if any. *)
Definition model_evidence (source : ExperimentSource) (manifest : ExperimentManifest) (result : WalkForwardResult) (createdAt : Time) : Job (option error) :=
  if is_none (MS_Model (EM_Spec manifest)) then sret None else
  match LoadML source with
  | None => sret (Some (DiagnosticError DiagnosticIncompleteCoverage "ml_evidence" "trusted production ML source is required"))
  | Some load =>
      let! loaded := attempt_ (on_world (load manifest result)) in
      match loaded with
      | inr e => sret (Some e)
      | inl (outcomes_, (requirements, provenance)) =>
          let! built := attempt_ (slift (NewImmutableMLEvidence manifest result outcomes_ requirements provenance createdAt)) in
          match built with
          | inr e => sret (Some e)
          | inl evidence => let! _ := on_store (PersistMLEvidence evidence) in sret None
          end
      end
  end.
(** [now] is the reading of the clock after the samples are loaded. *)
Definition Run (source : option ExperimentSource) (now : Time) (manifestID : string) : Job (PersistedEvidence * option error) :=
  match source with
  | None => slift (Err (Errorf "validation experiment source is required" []))
  | Some source =>
      let! manifest := on_store (LoadManifest manifestID) in
      let! completed := on_store (HasCompletedOutcome (EM_ID manifest)) in
      if (completed : bool) then slift (Err (integrity "experiment already has an immutable outcome")) else
      let! loaded := attempt_ (on_world (Load source manifest)) in
      match loaded with
      | inr e => persistFailure (EM_ID manifest) e now
      | inl (samples, factory) =>
          let! ran := attempt_ (run_folds manifest samples factory) in
          match ran with
          | inr e => persistFailure (EM_ID manifest) e now
          | inl result =>
              let! failed := model_evidence source manifest result now in
              match failed with
              | Some e => persistFailure (EM_ID manifest) e now
              | None => persistResult manifest result now
              end
          end
      end
  end.
End Repository.
