(* ===== verification/ResearchFacts.v ===== *)
(** * ResearchFacts: what a command does to the repository's tables *)
From Stdlib Require Import Ascii SpecFloat.
From stdpp Require Import base numbers strings gmap list.
From S2P Require Import Prelude GoStrings GoFloat GoTime Snapshots ValidationTypes Splits FoldMetrics Manifest Evaluation WalkForward Evidence MLEvaluation Cutover Research.
Local Open Scope Z_scope.
Set Default Proof Using "Type".

(** ** Rows *)
Lemma exists_row_true {K A} `{Countable K} (p : A -> bool) (m : gmap K A) : exists_row p m = true <-> exists k a, m !! k = Some a /\ p a = true.
Proof.
  unfold exists_row. rewrite existsb_exists. split.
  - intros ([k a] & Hin & Hp). apply base.list_elem_of_In, elem_of_map_to_list in Hin. eauto.
  - intros (k & a & Hk & Hp). exists (k, a). split; [|done]. by apply base.list_elem_of_In, elem_of_map_to_list.
Qed.
Lemma exists_row_false {K A} `{Countable K} (p : A -> bool) (m : gmap K A) : exists_row p m = false <-> forall k a, m !! k = Some a -> p a = false.
Proof.
  rewrite <- not_true_iff_false, exists_row_true. split.
  - intros H1 k a Hk. apply not_true_iff_false. intros Hp. apply H1. eauto.
  - intros H1 (k & a & Hk & Hp). by rewrite (H1 k a Hk) in Hp.
Qed.
Lemma head_In {A} (l : list A) a : head l = Some a -> a ∈ l.
Proof. destruct l; [done|]. intros [= ->]. left. Qed.
Lemma First_Some {A} (p : A -> bool) (m : gmap string A) a : First p m = Some a -> exists k, m !! k = Some a /\ p a = true.
Proof.
  unfold First. intros (k & _ & H)%head_In%list_elem_of_omap. exists k. destruct (m !! k) as [b|]; [|done]. destruct (p b) eqn:E; [|done]. by injection H as ->.
Qed.
Lemma First_None {A} (p : A -> bool) (m : gmap string A) : First p m = None -> forall k a, m !! k = Some a -> p a = false.
Proof.
  unfold First. intros H k a Hk. apply not_true_iff_false. intros Hp. match type of H with head ?l = None => assert (Hin : a ∈ l) end.
  - apply list_elem_of_omap. exists k. rewrite Hk, Hp. split; [|done]. unfold sort_strings, map_keys. rewrite <- SliceStable_Permutation.
    apply list_elem_of_fmap. exists (k, a). split; [done|]. by apply elem_of_map_to_list.
  - match type of H with head ?l = None => destruct l end; [by apply elem_of_nil in Hin | done].
Qed.

(** ** Computations *)
Lemma create_cases {S} own conflict unique references (write : S -> S) s r s' : create own conflict unique references write s = (r, s') ->
  (s' = s /\ (r = Ok false /\ conflict = true \/ is_ok r = false)) \/
  (r = Ok true /\ s' = write s /\ conflict = false /\ unique = false /\ references = true).
Proof.
  unfold create. destruct own; [|by intros [= <- <-]; left; split; [done | by right]..].
  destruct conflict; [intros [= <- <-]; left; split; [done | by left]|]. destruct unique; [intros [= <- <-]; left; split; [done | by right]|].
  destruct references; intros [= <- <-]; [by right | left; split; [done | by right]].
Qed.

(** The tables of [s] with more rows. *)
Definition extends (s s' : Store) : Prop :=
  experiments s ⊆ experiments s' /\ families s ⊆ families s' /\ attempts s ⊆ attempts s' /\ outcomes s ⊆ outcomes s' /\ holdouts s ⊆ holdouts s' /\
  uses s ⊆ uses s' /\ fold_rows s ⊆ fold_rows s' /\ evidences s ⊆ evidences s' /\ ml_rows s ⊆ ml_rows s'.
#[export] Instance extends_preorder : PreOrder extends.
Proof.
  split.
  - intros s. unfold extends. by split_and!.
  - intros s1 s2 s3. unfold extends. intros (? & ? & ? & ? & ? & ? & ? & ? & ?) (? & ? & ? & ? & ? & ? & ? & ? & ?). split_and!; by etrans.
Qed.
Definition grows {A} (m : Tx A) : Prop := forall s r s', m s = (r, s') -> extends s s'.
Lemma grows_lift {A} (m : res A) : grows (slift m).
Proof. by intros s r s' [= <- <-]. Qed.
Lemma grows_ret {A} (a : A) : grows (sret a).
Proof. by intros s r s' [= <- <-]. Qed.
Lemma grows_get {A} (f : Store -> A) : grows (get f).
Proof. by intros s r s' [= <- <-]. Qed.
Lemma grows_found {A} (row : option A) : grows (found row).
Proof. apply grows_lift. Qed.
Lemma grows_bind {A B} (m : Tx A) (k : A -> Tx B) : grows m -> (forall a, grows (k a)) -> grows (sbind m k).
Proof.
  intros Hm Hk s r s' H. unfold sbind in H. destruct (m s) as [[a|e|w] s1] eqn:E; apply Hm in E; [apply Hk in H; by etrans | by injection H as <- <-..].
Qed.
Lemma grows_transaction {A} (m : Tx A) : grows m -> grows (transaction m).
Proof. intros Hm s r s' H. unfold transaction in H. destruct (m s) as [[a|e|w] s1] eqn:E; injection H as <- <-; [by apply Hm in E|done..]. Qed.
Lemma grows_create own (conflict unique references : Store -> bool) write :
  (forall s, conflict s = false -> unique s = false -> extends s (write s)) ->
  grows (fun s => create own (conflict s) (unique s) (references s) write s).
Proof. intros H s r s' [[-> _]|(_ & -> & Hc & Hu & _)]%create_cases; [done | by apply H]. Qed.
Lemma grows_fold {A S} (f : S -> A -> Tx S) l : (forall t a, grows (f t a)) -> forall t, grows (sfoldM f t l).
Proof. intros Hf. induction l as [|a l IH]; intros t; [apply grows_ret|]. by apply grows_bind. Qed.
Create HintDb grows.
#[export] Hint Resolve grows_lift grows_ret grows_get grows_found : grows.
Lemma transaction_err {A} (m : Tx A) s r s' : transaction m s = (r, s') -> is_ok r = false -> s' = s.
Proof. unfold transaction. destruct (m s) as [[a|e|w] s1]; intros [= <- <-]; done. Qed.
Lemma fresh_insert {K A} `{Countable K} (m : gmap K A) k a : bool_decide (is_Some (m !! k)) = false -> m ⊆ <[k := a]> m.
Proof. intros E%bool_decide_eq_false. apply insert_subseteq. by apply eq_None_not_Some. Qed.

(** ** Inserting a row *)

Lemma not_some {A} (o : option A) : ~ is_Some o <-> o = None.
Proof. symmetry. apply eq_None_not_Some. Qed.
(** One table has one more row. *)
Ltac one_row := unfold extends; cbn; split_and!; try done; by apply insert_subseteq.
Section Create.
Context (jsonb : string -> res string) (column_time : Time -> Time).
Lemma CreateExperiment_spec row s r s' : CreateExperiment jsonb column_time row s = (r, s') ->
  (s' = s /\ (r = Ok false /\ is_Some (experiments s !! Ex_ID row) \/ is_ok r = false)) \/
  (exists stored, stored_experiment jsonb column_time row = Ok stored /\ r = Ok true /\ s' = set_experiments (<[Ex_ID row := stored]>) s /\
     experiments s !! Ex_ID row = None /\ forall k e, experiments s !! k = Some e -> same_key (Ex_IdempotencyKey e) (Ex_IdempotencyKey row) = false).
Proof.
  unfold CreateExperiment, sbind, get, slift, id. destruct (stored_experiment _ _ row) as [stored|e|w]; [|by intros [= <- <-]; left; split; [|right]..].
  intros [[-> [[-> H]|H]]|(-> & -> & H & U & _)]%create_cases.
  - left. split; [done|]. left. by apply bool_decide_eq_true in H.
  - left. split; [done|]. by right.
  - right. exists stored. apply bool_decide_eq_false, not_some in H. rewrite exists_row_false in U. by split_and!.
Qed.
Lemma CreateFamily_spec row s r s' : CreateFamily jsonb column_time row s = (r, s') ->
  (s' = s /\ (r = Ok false /\ is_Some (families s !! Fa_ID row) \/ is_ok r = false)) \/
  (exists content, r = Ok true /\ families s !! Fa_ID row = None /\
     s' = set_families (<[Fa_ID row := mkFamily (Fa_ID row) content (Fa_ContentDigest row) (column_time (Fa_CreatedAt row))]>) s).
Proof.
  unfold CreateFamily, sbind, get, slift, id. destruct (jsonb _) as [content|e|w]; [|by intros [= <- <-]; left; split; [|right]..].
  intros [[-> [[-> H]|H]]|(-> & -> & H & _)]%create_cases.
  - left. split; [done|]. left. by apply bool_decide_eq_true in H.
  - left. split; [done|]. by right.
  - right. exists content. apply bool_decide_eq_false, not_some in H. by split_and!.
Qed.
Lemma CreateAttempt_spec row s r s' : CreateAttempt column_time row s = (r, s') ->
  (s' = s /\ (r = Ok false \/ is_ok r = false)) \/
  (r = Ok true /\ attempts s !! At_ID row = None /\ is_Some (families s !! At_FamilyID row) /\ is_Some (experiments s !! At_ExperimentID row) /\
   s' = set_attempts (<[At_ID row := mkAttempt (At_ID row) (At_FamilyID row) (At_ExperimentID row) (At_CandidateDigest row) (At_ContentDigest row) (column_time (At_CreatedAt row))]>) s).
Proof.
  unfold CreateAttempt, sbind, get, id. intros [[-> [[-> H]|H]]|(-> & -> & H & _ & R)]%create_cases; [by left; auto..|]. right.
  apply orb_false_iff in H as [H%bool_decide_eq_false%not_some _]. apply andb_true_iff in R as [R1%bool_decide_eq_true R2%bool_decide_eq_true]. by split_and!.
Qed.
Lemma CreateHoldout_spec row s r s' : CreateHoldout column_time row s = (r, s') ->
  (s' = s /\ (r = Ok false \/ is_ok r = false)) \/
  (r = Ok true /\ holdouts s !! Ho_ID row = None /\ (forall k h, holdouts s !! k = Some h -> Ho_FamilyID h <> Ho_FamilyID row) /\
   s' = set_holdouts (<[Ho_ID row := mkHoldoutRow (Ho_ID row) (Ho_FamilyID row) (Ho_DatasetDigest row) (column_time (Ho_StartAt row)) (column_time (Ho_EndAt row))
       (Ho_ContentDigest row) (column_time (Ho_LockedAt row))]>) s).
Proof.
  unfold CreateHoldout, sbind, get, id. intros [[-> [[-> H]|H]]|(-> & -> & H & _ & R)]%create_cases; [by left; auto..|]. right.
  apply orb_false_iff in H as [H%bool_decide_eq_false%not_some H2]. rewrite exists_row_false in H2. split_and!; [done | done | | done].
  intros k h Hk E. specialize (H2 k h Hk). by apply String.eqb_neq in H2.
Qed.
Lemma CreateUse_spec row s r s' : CreateUse column_time row s = (r, s') ->
  (s' = s /\ (r = Ok false \/ is_ok r = false)) \/
  (r = Ok true /\ uses s !! Us_ID row = None /\ (forall k u, uses s !! k = Some u -> Us_HoldoutID u <> Us_HoldoutID row /\ Us_ExperimentID u <> Us_ExperimentID row) /\
   s' = set_uses (<[Us_ID row := mkUse (Us_ID row) (Us_HoldoutID row) (Us_ExperimentID row) (column_time (Us_CreatedAt row))]>) s).
Proof.
  unfold CreateUse, sbind, get, id. intros [[-> [[-> H]|H]]|(-> & -> & H & _ & R)]%create_cases; [by left; auto..|]. right.
  apply orb_false_iff in H as [[H%bool_decide_eq_false%not_some H2]%orb_false_iff H3]. rewrite exists_row_false in H2, H3. split_and!; [done | done | | done].
  intros k u Hk. specialize (H2 k u Hk). specialize (H3 k u Hk). by apply String.eqb_neq in H2, H3.
Qed.
Lemma CreateFold_spec row s r s' : CreateFold jsonb column_time row s = (r, s') ->
  (s' = s /\ (r = Ok false \/ is_ok r = false)) \/
  (exists stored, stored_fold jsonb column_time row = Ok stored /\ r = Ok true /\ fold_rows s !! (Fr_ExperimentID row, Fr_FoldIndex row) = None /\
   s' = set_fold_rows (<[(Fr_ExperimentID row, Fr_FoldIndex row) := stored]>) s).
Proof.
  unfold CreateFold, sbind, get, slift, id. destruct (stored_fold _ _ row) as [stored|e|w]; [|by intros [= <- <-]; left; split; [|right]..].
  intros [[-> [[-> H]|H]]|(-> & -> & H & _)]%create_cases; [by left; auto..|]. right. exists stored. apply bool_decide_eq_false, not_some in H. by split_and!.
Qed.
Lemma CreateEvidence_spec row s r s' : CreateEvidence jsonb column_time row s = (r, s') ->
  (s' = s /\ (r = Ok false \/ is_ok r = false)) \/
  (exists stored, stored_evidence jsonb column_time row = Ok stored /\ r = Ok true /\ evidences s !! Er_ID row = None /\
   (forall k e, evidences s !! k = Some e -> Er_ExperimentID e <> Er_ExperimentID row) /\ is_Some (experiments s !! Er_ExperimentID row) /\ s' = set_evidences (<[Er_ID row := stored]>) s).
Proof.
  unfold CreateEvidence, sbind, get, slift, id. destruct (stored_evidence _ _ row) as [stored|e|w]; [|by intros [= <- <-]; left; split; [|right]..].
  intros [[-> [[-> H]|H]]|(-> & -> & H & U & R%bool_decide_eq_true)]%create_cases; [by left; auto..|]. right. exists stored. apply bool_decide_eq_false, not_some in U.
  rewrite exists_row_false in H. split_and!; try done. intros k e Hk. specialize (H k e Hk). by apply String.eqb_neq in H.
Qed.
Lemma CreateOutcome_spec row s r s' : CreateOutcome column_time row s = (r, s') ->
  (s' = s /\ (r = Ok false \/ is_ok r = false)) \/
  (r = Ok true /\ outcomes s !! Oc_ID row = None /\
   (forall k o, outcomes s !! k = Some o -> Oc_AttemptID o <> Oc_AttemptID row /\ Oc_EvidenceID o <> Oc_EvidenceID row) /\
   s' = set_outcomes (<[Oc_ID row := mkAttemptOutcome (Oc_ID row) (Oc_AttemptID row) (Oc_ExperimentID row) (Oc_EvidenceID row) (Oc_Status row) (Oc_ContentDigest row) (column_time (Oc_CreatedAt row))]>) s).
Proof.
  unfold CreateOutcome, sbind, get, id. intros [[-> [[-> H]|H]]|(-> & -> & H & U & _)]%create_cases; [by left; auto..|]. right.
  apply orb_false_iff in U as [U%bool_decide_eq_false%not_some U2]. rewrite exists_row_false in H, U2. split_and!; try done.
  intros k o Hk. specialize (H k o Hk). specialize (U2 k o Hk). by apply String.eqb_neq in H, U2.
Qed.
Lemma CreateML_spec row s r s' : CreateML jsonb column_time row s = (r, s') ->
  s' = s \/ (exists stored, r = Ok true /\ ml_rows s !! Mr_ID row = None /\ s' = set_ml_rows (<[Mr_ID row := stored]>) s).
Proof.
  unfold CreateML, sbind, get, slift, id. destruct (jsonb _) as [json|e|w]; [|by intros [= <- <-]; left..].
  intros [[-> _]|(-> & -> & _ & U & _)]%create_cases; [by left|]. right. eexists. split_and!; [done | | done]. by apply bool_decide_eq_false, not_some in U.
Qed.

Lemma grows_CreateExperiment row : grows (CreateExperiment jsonb column_time row).
Proof. intros s r s' [[-> _]|(st & _ & _ & -> & H & _)]%CreateExperiment_spec; [done | one_row]. Qed.
Lemma grows_CreateFamily row : grows (CreateFamily jsonb column_time row).
Proof. intros s r s' [[-> _]|(st & _ & H & ->)]%CreateFamily_spec; [done | one_row]. Qed.
Lemma grows_CreateAttempt row : grows (CreateAttempt column_time row).
Proof. intros s r s' [[-> _]|(_ & H & _ & _ & ->)]%CreateAttempt_spec; [done | one_row]. Qed.
Lemma grows_CreateHoldout row : grows (CreateHoldout column_time row).
Proof. intros s r s' [[-> _]|(_ & H & _ & ->)]%CreateHoldout_spec; [done | one_row]. Qed.
Lemma grows_CreateUse row : grows (CreateUse column_time row).
Proof. intros s r s' [[-> _]|(_ & H & _ & ->)]%CreateUse_spec; [done | one_row]. Qed.
Lemma grows_CreateFold row : grows (CreateFold jsonb column_time row).
Proof. intros s r s' [[-> _]|(st & _ & _ & H & ->)]%CreateFold_spec; [done | one_row]. Qed.
Lemma grows_CreateEvidence row : grows (CreateEvidence jsonb column_time row).
Proof. intros s r s' [[-> _]|(st & _ & _ & H & _ & _ & ->)]%CreateEvidence_spec; [done | one_row]. Qed.
Lemma grows_CreateOutcome row : grows (CreateOutcome column_time row).
Proof. intros s r s' [[-> _]|(_ & H & _ & ->)]%CreateOutcome_spec; [done | one_row]. Qed.
Lemma grows_CreateML row : grows (CreateML jsonb column_time row).
Proof. intros s r s' [->|(st & _ & H & ->)]%CreateML_spec; [done | one_row]. Qed.
End Create.
#[export] Hint Resolve grows_CreateExperiment grows_CreateFamily grows_CreateAttempt grows_CreateHoldout grows_CreateUse grows_CreateFold grows_CreateEvidence
  grows_CreateOutcome grows_CreateML : grows.
(** Through the branches of a computation. *)
Ltac grow := repeat first
  [ solve [auto 1 with grows] | apply grows_bind; [|intros ?] | apply grows_transaction
  | match goal with |- grows (if ?c then _ else _) => destruct c | |- grows (match ?x with _ => _ end) => destruct x end ].
