(* ===== verification/ResearchProofs.v ===== *)
(** * ResearchProofs: the history of experiments and the single use of a holdout *)
From Stdlib Require Import Ascii SpecFloat.
From stdpp Require Import base numbers strings gmap list relations.
From S2P Require Import Prelude GoStrings GoFloat GoTime Snapshots ValidationTypes Splits FoldMetrics Manifest ManifestProofs Evaluation WalkForward Evidence EvidenceProofs MLEvaluation Cutover Research ResearchFacts.
Local Open Scope Z_scope.
Set Default Proof Using "Type".

Section Proofs.
Context (connected : bool) (flags : option Flags) (ObservationContext : Flags -> string -> gmap string string -> string).
Context (sha256hex : string -> string) (MarshalPolicy : string -> gmap string string -> string)
  (MarshalFamily : string -> string -> string -> string -> string) (MarshalHoldout : string -> string -> Interval -> string)
  (MarshalSpec : ManifestSpec -> res string) (UnmarshalSpec : string -> res ManifestSpec) (MarshalRef : VersionRef -> string)
  (MarshalOutcome : string -> string -> string -> string) (FormatTime : Time -> string)
  (MarshalMetrics : FoldMetrics -> res string) (MarshalAggregate : Evaluation -> res string) (MarshalFold : FoldResult -> res string)
  (MarshalFrozen : FrozenDecision -> res string) (MarshalRoot : compactEvidenceRoot -> res string)
  (UnmarshalFold : string -> res FoldResult) (UnmarshalRoot : string -> res compactEvidenceRoot) (ErrorText : error -> string).
Context (jsonb : string -> res string) (column_time : Time -> Time).
Context (Intn : Z -> Z -> nat -> Z) (policyOrder : gmap string string -> list (string * string))
  (range : nat -> nat -> forall A, gmap string A -> list (string * A)).
Context (UnmarshalLegacy : string -> res legacyEvidence) (MarshalLegacy : legacyEvidence -> res string).
Context (MarshalFolds : list FoldResult -> res string) (MarshalOutcomes : list MLOutcome -> res string)
  (MarshalPayload : string -> string -> string -> MLProvenance -> string -> MLEvaluation -> Time -> res string)
  (MarshalML : ImmutableMLEvidence -> res string) (UnmarshalML : string -> res ImmutableMLEvidence)
  (exposureOrder : gmap string float64 -> list (string * float64)).
Abbreviation VerifyManifest m := (Manifest_Verify sha256hex MarshalPolicy MarshalFamily MarshalHoldout MarshalSpec FormatTime policyOrder m).
Abbreviation Register := (registerResearchAttempt sha256hex MarshalFamily MarshalRef jsonb column_time).
Abbreviation CreateBody := (create_body sha256hex MarshalFamily MarshalRef jsonb column_time).
Abbreviation CreateManifest_ := (CreateManifestAuthenticated connected flags ObservationContext sha256hex MarshalPolicy MarshalFamily MarshalHoldout MarshalSpec
  UnmarshalSpec MarshalRef FormatTime ErrorText jsonb column_time policyOrder).
Abbreviation LoadManifest_ := (LoadManifest sha256hex MarshalPolicy MarshalFamily MarshalHoldout MarshalSpec UnmarshalSpec FormatTime ErrorText policyOrder).
Abbreviation PersistBody := (persist_body sha256hex MarshalOutcome jsonb column_time).
Abbreviation PersistEvidence_ := (PersistEvidence sha256hex MarshalPolicy MarshalFamily MarshalHoldout MarshalSpec UnmarshalSpec MarshalOutcome FormatTime
  MarshalMetrics MarshalAggregate MarshalFold MarshalFrozen MarshalRoot UnmarshalFold UnmarshalRoot ErrorText jsonb column_time Intn policyOrder range
  UnmarshalLegacy MarshalLegacy).
Abbreviation LoadEvidence_ := (LoadEvidence sha256hex MarshalPolicy MarshalFamily MarshalHoldout MarshalSpec UnmarshalSpec FormatTime
  MarshalMetrics MarshalAggregate MarshalFold MarshalFrozen MarshalRoot UnmarshalFold UnmarshalRoot ErrorText Intn policyOrder range
  UnmarshalLegacy MarshalLegacy).
Abbreviation PersistML := (PersistMLEvidence sha256hex MarshalPolicy MarshalFamily MarshalHoldout MarshalSpec UnmarshalSpec FormatTime ErrorText jsonb column_time
  policyOrder MarshalPayload MarshalML UnmarshalML).

(** ** Reading changes nothing *)
Definition reads {A} (m : Tx A) : Prop := forall s r s', m s = (r, s') -> s' = s.
Lemma reads_lift {A} (m : res A) : reads (slift m).
Proof. by intros s r s' [= <- <-]. Qed.
Lemma reads_ret {A} (a : A) : reads (sret a).
Proof. by intros s r s' [= <- <-]. Qed.
Lemma reads_get {A} (f : Store -> A) : reads (get f).
Proof. by intros s r s' [= <- <-]. Qed.
Lemma reads_bind {A B} (m : Tx A) (k : A -> Tx B) : reads m -> (forall a, reads (k a)) -> reads (sbind m k).
Proof.
  intros Hm Hk s r s' H. unfold sbind in H. destruct (m s) as [[a|e|w] s1] eqn:E; apply Hm in E; subst; [by apply Hk in H | by injection H..].
Qed.
Lemma reads_transaction {A} (m : Tx A) : reads m -> reads (transaction m).
Proof. intros Hm s r s' H. unfold transaction in H. destruct (m s) as [[a|e|w] s1] eqn:E; injection H as <- <-; [by apply Hm in E|done..]. Qed.
Lemma reads_fold {A S} (f : S -> A -> Tx S) l : (forall t a, reads (f t a)) -> forall t, reads (sfoldM f t l).
Proof. intros Hf. induction l as [|a l IH]; intros t; [apply reads_ret|]. by apply reads_bind. Qed.
Lemma reads_grows {A} (m : Tx A) : reads m -> grows m.
Proof. by intros H s r s' ->%H. Qed.
Ltac read := repeat first
  [ apply reads_bind; [|intros ?] | apply reads_lift | apply reads_ret | apply reads_get | apply reads_transaction
  | match goal with |- reads (if ?c then _ else _) => destruct c | |- reads (match ?x with _ => _ end) => destruct x | |- reads (found _) => apply reads_lift
                  | |- reads (integrity_tx _) => apply reads_lift | |- reads (reused _) => apply reads_lift end ].
Lemma reads_LoadManifest id_ : reads (LoadManifest_ id_).
Proof. unfold LoadManifest. read. Qed.
Lemma reads_LoadEvidence id_ : reads (LoadEvidence_ id_).
Proof.
  unfold LoadEvidence, loadCompactEvidence, loadCompactEvidenceSnapshot, smap, load_fold. read; try apply reads_LoadManifest.
  apply reads_fold. intros. read.
Qed.

(** ** Every command only adds rows *)
Lemma grows_Register m : grows (Register m).
Proof. unfold registerResearchAttempt, register_family, register_attempt, register_holdout, register_use, integrity_tx, reused. grow. Qed.
Lemma grows_LoadManifest id_ : grows (LoadManifest_ id_).
Proof. apply reads_grows, reads_LoadManifest. Qed.
Lemma grows_LoadEvidence id_ : grows (LoadEvidence_ id_).
Proof. apply reads_grows, reads_LoadEvidence. Qed.
#[local] Hint Resolve grows_Register grows_LoadManifest grows_LoadEvidence : grows.
Lemma grows_CreateBody m row : grows (CreateBody m row).
Proof. unfold create_body. grow. Qed.
#[local] Hint Resolve grows_CreateBody : grows.
Lemma grows_CreateManifest m job comparison creator key : grows (CreateManifest_ m job comparison creator key).
Proof. unfold CreateManifestAuthenticated. grow. Qed.
Lemma grows_PersistBody m isResult prepared at_ : grows (PersistBody m isResult prepared at_).
Proof.
  unfold persist_body, persist_root, persist_outcome, integrity_tx. apply grows_bind; [|intros _; apply grows_bind; [|intros _]]; [|grow..].
  destruct isResult; [|apply grows_ret]. apply grows_fold. intros t a. unfold persist_fold, integrity_tx. grow.
Qed.
#[local] Hint Resolve grows_PersistBody : grows.
Lemma grows_PersistEvidence id_ result failure at_ : grows (PersistEvidence_ id_ result failure at_).
Proof. unfold PersistEvidence. grow. Qed.
Lemma reads_LoadML id_ : reads (LoadMLEvidenceForExperiment sha256hex MarshalPayload UnmarshalML id_).
Proof. unfold LoadMLEvidenceForExperiment. read. Qed.
Lemma grows_LoadML id_ : grows (LoadMLEvidenceForExperiment sha256hex MarshalPayload UnmarshalML id_).
Proof. apply reads_grows, reads_LoadML. Qed.
#[local] Hint Resolve grows_LoadML : grows.
Lemma grows_PersistML e : grows (PersistML e).
Proof. unfold PersistMLEvidence, integrity_tx. grow. Qed.

(** ** What every state keeps *)

(** The specification survives its JSON text. *)
Definition survives (spec : ManifestSpec) : Prop :=
  forall text stored, MarshalSpec spec = Ok text -> jsonb text = Ok stored -> UnmarshalSpec stored = Ok spec.
Definition has_attempt (s : Store) (m : ExperimentManifest) : Prop :=
  exists k a, attempts s !! k = Some a /\ At_ExperimentID a = EM_ID m /\ At_FamilyID a = MS_FamilyID (EM_Spec m).
Definition has_holdout (s : Store) (m : ExperimentManifest) (h : ConfirmatoryHoldoutContract) : Prop :=
  exists k r, holdouts s !! k = Some r /\ Ho_ID r = CH_ID h /\ Ho_FamilyID r = MS_FamilyID (EM_Spec m).
Definition has_use (s : Store) (m : ExperimentManifest) (h : ConfirmatoryHoldoutContract) : Prop :=
  exists k u, uses s !! k = Some u /\ Us_HoldoutID u = CH_ID h /\ Us_ExperimentID u = EM_ID m.
(** The attempt of a manifest, and the holdout it has used up. *)
Definition registered (s : Store) (m : ExperimentManifest) : Prop :=
  has_attempt s m /\
  (MS_StudyType (EM_Spec m) = "confirmatory" -> exists h, MS_ConfirmatoryHoldout (EM_Spec m) = Some h /\ has_holdout s m h /\ has_use s m h).
(** Every experiment is registered, but for one whose registration goes on. *)
Record Inv (pending : option string) (s : Store) : Prop := {
  inv_experiments : forall k x, experiments s !! k = Some x ->
    Ex_ID x = k /\ exists m, EM_ID m = k /\ UnmarshalSpec (Ex_ContentJSON x) = Ok (EM_Spec m) /\ (pending <> Some k -> registered s m);
  inv_attempts : forall k a, attempts s !! k = Some a -> At_ID a = k /\ is_Some (experiments s !! At_ExperimentID a);
  inv_attempt_once : forall k1 k2 a b, attempts s !! k1 = Some a -> attempts s !! k2 = Some b -> At_ExperimentID a = At_ExperimentID b -> k1 = k2;
  inv_holdout_once : forall k1 k2 a b, holdouts s !! k1 = Some a -> holdouts s !! k2 = Some b -> Ho_FamilyID a = Ho_FamilyID b -> k1 = k2;
  inv_use_once : forall k1 k2 a b, uses s !! k1 = Some a -> uses s !! k2 = Some b -> Us_HoldoutID a = Us_HoldoutID b -> k1 = k2;
  inv_evidences : forall k e, evidences s !! k = Some e -> Er_ID e = k /\ is_Some (experiments s !! Er_ExperimentID e);
  inv_fold_rows : forall k e x spec f, evidences s !! k = Some e -> Er_Status e = "passed" -> experiments s !! Er_ExperimentID e = Some x ->
    UnmarshalSpec (Ex_ContentJSON x) = Ok spec -> f ∈ MS_Folds spec -> is_Some (fold_rows s !! (Er_ExperimentID e, Fo_Index f));
  inv_evidence_once : forall k1 k2 a b, evidences s !! k1 = Some a -> evidences s !! k2 = Some b -> Er_ExperimentID a = Er_ExperimentID b -> k1 = k2;
  inv_outcomes : forall k o, outcomes s !! k = Some o ->
    (exists e, evidences s !! Oc_EvidenceID o = Some e /\ Er_ExperimentID e = Oc_ExperimentID o /\ Er_Status e = Oc_Status o) /\
    (exists a, attempts s !! Oc_AttemptID o = Some a /\ At_ExperimentID a = Oc_ExperimentID o);
  inv_outcome_once : forall k1 k2 a b, outcomes s !! k1 = Some a -> outcomes s !! k2 = Some b -> Oc_AttemptID a = Oc_AttemptID b -> k1 = k2 }.
Lemma registered_extends s s' m : extends s s' -> registered s m -> registered s' m.
Proof.
  intros (_ & _ & Ha & _ & Hh & Hu & _) [(k & a & Hk & H) Hc]. split.
  - exists k, a. split; [|done]. by eapply lookup_weaken.
  - intros (h & E & (k1 & r & Hr & H1) & (k2 & u & Hu2 & H2))%Hc. exists h. split; [done|].
    split; [exists k1, r | exists k2, u]; (split; [|done]); by eapply lookup_weaken.
Qed.

(** Uniqueness in a table with one more row. *)
Lemma once_insert {A} (key : A -> string) (m : gmap string A) k a :
  (forall k1 k2 a b, m !! k1 = Some a -> m !! k2 = Some b -> key a = key b -> k1 = k2) -> (forall k' b, m !! k' = Some b -> key b <> key a) ->
  forall k1 k2 b c, <[k := a]> m !! k1 = Some b -> <[k := a]> m !! k2 = Some c -> key b = key c -> k1 = k2.
Proof.
  intros Hm Hf k1 k2 b c H1 H2 E. apply lookup_insert_Some in H1 as [[<- <-]|[N1 H1]], H2 as [[<- <-]|[N2 H2]]; [done | | | by eapply Hm].
  - by apply Hf in H2; congruence.
  - by apply Hf in H1; congruence.
Qed.

(** ** Registration *)
Lemma register_family_Ok m s u s' : register_family sha256hex MarshalFamily jsonb column_time m s = (Ok u, s') -> exists f, s' = set_families f s.
Proof.
  unfold register_family. intros H. apply sbind_Ok in H as (affected & s1 & E & H).
  match type of H with ?t _ = _ => assert (R : reads t) by read; apply R in H end. subst s1.
  apply CreateFamily_spec in E as [[-> _]|(content & _ & _ & ->)]; [exists id; by destruct s | by eexists].
Qed.
Lemma Inv_families p f s : Inv p s -> Inv p (set_families f s).
Proof. by intros []; constructor. Qed.
Lemma register_attempt_Ok p m s u s' : Inv p s -> (forall k a, attempts s !! k = Some a -> At_ExperimentID a <> EM_ID m) ->
  register_attempt sha256hex MarshalRef column_time m s = (Ok u, s') ->
  Inv p s' /\ has_attempt s' m /\ exists f, s' = set_attempts f s.
Proof.
  intros Hi Hno H. unfold register_attempt in H. apply sbind_Ok in H as (affected & s1 & E & H).
  apply CreateAttempt_spec in E as [[-> [[= ->]|?]]|([= ->] & Hk & Hf & He & ->)]; [|done|].
  - exfalso. unfold sbind, get, found, slift in H. destruct (First _ _) as [a|] eqn:Ef; [|done]. apply First_Some in Ef as (k & Hk & E).
    apply String.eqb_eq in E. by eapply Hno.
  - injection H as _ <-. destruct Hi. split_and!; [constructor; cbn; try done | |by eexists].
    + intros k x Hx. destruct (inv_experiments0 k x Hx) as (E0 & m' & E1 & E2 & E3). split; [done|]. exists m'. split_and!; [done..|]. intros Hp. eapply registered_extends; [|by apply E3].
      one_row.
    + intros k a [[<- <-]|[N Ha]]%lookup_insert_Some; [done | by eapply inv_attempts0].
    + apply once_insert; [done|]. intros k a Ha. cbn. by eapply Hno.
    + intros k o Ho. destruct (inv_outcomes0 k o Ho) as [H1 (a & H2 & H3)]. split; [done|]. exists a. split; [|done]. eapply lookup_weaken; [exact H2 | by apply insert_subseteq].
    + eexists _, _. split; [apply lookup_insert_eq|]. done.
Qed.
Lemma register_holdout_Ok p m h s u s' : Inv p s -> register_holdout column_time m h s = (Ok u, s') ->
  Inv p s' /\ has_holdout s' m h /\ exists f, s' = set_holdouts f s.
Proof.
  intros Hi H. unfold register_holdout in H. apply sbind_Ok in H as (affected & s1 & E & H).
  apply CreateHoldout_spec in E as [[-> [[= ->]|?]]|([= ->] & Hk & Hf & ->)]; [|done|].
  - unfold sbind, get, found, slift, reused in H. cbn in H. destruct (First _ _) as [r|] eqn:Ef; [|done]. apply First_Some in Ef as (k & Hk & E).
    apply String.eqb_eq in E. destruct (_ || _) eqn:Eo in H; [done|]. injection H as _ <-. bool_prop. split_and!; [done | by exists k, r | exists id; by destruct s].
  - injection H as _ <-. destruct Hi. split_and!; [constructor; cbn; try done | |by eexists].
    + intros k x Hx. destruct (inv_experiments0 k x Hx) as (E0 & m' & E1 & E2 & E3). split; [done|]. exists m'. split_and!; [done..|]. intros Hp. eapply registered_extends; [|by apply E3].
      one_row.
    + apply once_insert; [done|]. intros k a Ha. cbn. by eapply Hf.
    + eexists _, _. split; [apply lookup_insert_eq|]. done.
Qed.
Lemma register_use_Ok p m h s u s' : Inv p s -> register_use sha256hex column_time m h s = (Ok u, s') ->
  Inv p s' /\ has_use s' m h /\ exists f, s' = set_uses f s.
Proof.
  intros Hi H. unfold register_use in H. apply sbind_Ok in H as (affected & s1 & E & H).
  apply CreateUse_spec in E as [[-> [[= ->]|?]]|([= ->] & Hk & Hf & ->)]; [|done|].
  - unfold sbind, get, found, slift, reused in H. cbn in H. destruct (First _ _) as [r|] eqn:Ef; [|done]. apply First_Some in Ef as (k & Hk & E).
    apply String.eqb_eq in E. destruct (_ <>s _) eqn:Eo in H; [done|]. injection H as _ <-. bool_prop. split_and!; [done | by exists k, r | exists id; by destruct s].
  - injection H as _ <-. destruct Hi. split_and!; [constructor; cbn; try done | |by eexists].
    + intros k x Hx. destruct (inv_experiments0 k x Hx) as (E0 & m' & E1 & E2 & E3). split; [done|]. exists m'. split_and!; [done..|]. intros Hp. eapply registered_extends; [|by apply E3].
      one_row.
    + apply once_insert; [done|]. intros k a Ha. cbn. by eapply Hf.
    + eexists _, _. split; [apply lookup_insert_eq|]. done.
Qed.
Lemma register_Ok p m s u s' : Inv p s -> (forall k a, attempts s !! k = Some a -> At_ExperimentID a <> EM_ID m) -> Register m s = (Ok u, s') ->
  Inv p s' /\ registered s' m /\ experiments s' = experiments s.
Proof.
  intros Hi Hno H. unfold registerResearchAttempt in H. apply sbind_Ok in H as ([] & s1 & E1 & H). apply register_family_Ok in E1 as [f1 ->].
  apply sbind_Ok in H as ([] & s2 & E2 & H). apply (register_attempt_Ok p) in E2 as (I2 & Ha & f2 & ->); [|by apply Inv_families | done].
  destruct (MS_StudyType (EM_Spec m) <>s "confirmatory") eqn:Ec.
  - injection H as _ <-. split_and!; [done | | done]. split; [done|]. intros Hc. by rewrite Hc in Ec.
  - destruct (MS_ConfirmatoryHoldout (EM_Spec m)) as [h|] eqn:Eh; [|done]. apply sbind_Ok in H as ([] & s3 & E3 & H).
    apply (register_holdout_Ok p) in E3 as (I3 & Hh & f3 & ->); [|done]. apply (register_use_Ok p) in H as (I4 & Hu & f4 & ->); [|done].
    split_and!; [done | | done]. split; [exact Ha|]. intros _. exists h. split_and!; [done | exact Hh | exact Hu].
Qed.
Lemma registered_same s m m' : EM_ID m = EM_ID m' -> EM_Spec m = EM_Spec m' -> registered s m -> registered s m'.
Proof. unfold registered, has_attempt, has_holdout, has_use. by intros -> ->. Qed.
Lemma stored_experiment_content row stored : stored_experiment jsonb column_time row = Ok stored ->
  jsonb (Ex_ContentJSON row) = Ok (Ex_ContentJSON stored) /\ Ex_ID stored = Ex_ID row.
Proof.
  unfold stored_experiment. destruct (jsonb (Ex_ContentJSON row)) as [c|e|w]; [|done..]. cbn [rbind].
  destruct (jsonb (Ex_Stage08ContextJSON row)); [|done..]. cbn [rbind]. do 4 (destruct (varchar _ _ _); [|done..]; cbn [rbind]).
  destruct (violation _ _ _); [|done..]. by intros [= <-].
Qed.
Lemma create_body_Inv m text row s id_ s' : Inv None s -> survives (EM_Spec m) -> MarshalSpec (EM_Spec m) = Ok text ->
  Ex_ContentJSON row = text -> Ex_ID row = EM_ID m -> CreateBody m row s = (Ok id_, s') -> Inv None s'.
Proof.
  intros Hi Hs Ht Ec Eid H. unfold create_body in H. apply sbind_Ok in H as (s0 & s1 & E & H). injection E as <- <-.
  destruct (match Ex_IdempotencyKey row with Some k => _ | None => None end) as [x|]; [destruct (_ <>s _) in H; by injection H as _ <-|].
  apply sbind_Ok in H as (created & s1 & E & H).
  apply CreateExperiment_spec in E as [[-> [[[= ->] _]|?]]|(stored & Es & [= ->] & -> & Hf & _)]; [by injection H as _ <- | done|].
  apply sbind_Ok in H as ([] & s2 & E & H). injection H as _ <-.
  apply stored_experiment_content in Es as [Es Esid].
  assert (Hd : UnmarshalSpec (Ex_ContentJSON stored) = Ok (EM_Spec m)) by (rewrite Ec in Es; by eapply Hs).
  apply (register_Ok (Some (EM_ID m))) in E as (I2 & Hr & Hx).
  - constructor; try apply I2. intros k x Hk. pose proof Hk as Hk0. apply (inv_experiments _ _ I2) in Hk as (E0 & m' & E1 & E2 & E3). split; [done|]. exists m'. split_and!; [done..|].
    intros _. destruct (decide (EM_ID m = k)) as [Ek|N]; [|apply E3; congruence]. apply (registered_same _ m); [congruence | | done].
    rewrite Hx in Hk0. cbn in Hk0. rewrite Eid, Ek, lookup_insert_eq in Hk0. injection Hk0 as <-. congruence.
  - destruct Hi. constructor; cbn; try done.
    + intros k x [[<- <-]|[N Hk]]%lookup_insert_Some; [split; [done|]; exists m; split_and!; congruence|].
      destruct (inv_experiments0 k x Hk) as (E0 & m' & E1 & E2 & E3). split; [done|]. exists m'. split_and!; [done..|]. intros _. eapply registered_extends; [|by apply E3]. one_row.
    + intros k a Hk. destruct (inv_attempts0 k a Hk) as [A1 [x A2]]. split; [done|]. exists x. eapply lookup_weaken; [exact A2 | by apply insert_subseteq].
    + intros k e Hk. destruct (inv_evidences0 k e Hk) as [A1 [x A2]]. split; [done|]. exists x. eapply lookup_weaken; [exact A2 | by apply insert_subseteq].
    + intros k e x spec f Hk Hp Hx. apply lookup_insert_Some in Hx as [[Ee _]|[_ Hx]]; [|by eapply inv_fold_rows0].
      destruct (inv_evidences0 k e Hk) as [_ [y A2]]. congruence.
  - cbn. intros k a Hk Ee. apply (inv_attempts _ _ Hi) in Hk as [_ [x Hx]]. rewrite Ee in Hx. congruence.
Qed.
Lemma transaction_Inv {A} (m : Tx A) s r s' : (forall a s1, m s = (Ok a, s1) -> Inv None s1) -> Inv None s -> transaction m s = (r, s') -> Inv None s'.
Proof. intros Hm Hs H. unfold transaction in H. destruct (m s) as [[a|e|w] s1]; injection H as <- <-; [by eapply Hm | done..]. Qed.
(** What is read before and after the one transaction of a command does not matter. *)
Lemma bind_Inv {A B} (m : Tx A) (k : A -> Tx B) s r s' : (forall r1 s1, m s = (r1, s1) -> Inv None s1) ->
  (forall a s1 r' s2, m s = (Ok a, s1) -> Inv None s1 -> k a s1 = (r', s2) -> Inv None s2) -> sbind m k s = (r, s') -> Inv None s'.
Proof.
  intros Hm Hk H. unfold sbind in H. destruct (m s) as [[a|e|w] s1] eqn:E; [|by injection H as <- <-; eapply Hm..].
  eapply Hk; [done | by eapply Hm | done].
Qed.
Lemma reads_Inv {A} (m : Tx A) s r s' : reads m -> Inv None s -> m s = (r, s') -> Inv None s'.
Proof. by intros Hm Hs ->%Hm. Qed.
Lemma CreateManifest_Inv m job comparison creator key s r s' : survives (EM_Spec m) -> Inv None s -> CreateManifest_ m job comparison creator key s = (r, s') -> Inv None s'.
Proof.
  intros Hsv Hs H. unfold CreateManifestAuthenticated in H.
  unfold sbind at 1, slift at 1 in H. destruct (failIf _ _) in H; [|by injection H as <- <-..].
  unfold sbind at 1, slift at 1 in H. destruct (Manifest_Verify _ _ _ _ _ _ _ _) in H; [|by injection H as <- <-..].
  unfold sbind at 1, slift at 1 in H. destruct (MarshalSpec _) as [text|e|w] eqn:Et in H; [|by injection H as <- <-..].
  destruct (_ =s _) in H; [by injection H as <- <-|]. destruct (_ && _) in H; [by injection H as <- <-|].
  eapply bind_Inv in H; [exact H | |].
  - intros r1 s1 E. eapply transaction_Inv in E; [exact E | | done]. intros ? ? E2. by eapply create_body_Inv in E2.
  - intros ? ? ? ? _ Hs1 E2. by eapply reads_Inv in E2; [| apply reads_LoadManifest |].
Qed.

(** ** Evidence and outcomes *)
Lemma persist_fold_Ok m status at_ t a s u s' : persist_fold jsonb column_time m status at_ t a s = (Ok u, s') ->
  (exists f, s' = set_fold_rows f s) /\ is_Some (fold_rows s' !! (EM_ID m, Ref_FoldIndex (PF_Ref a))).
Proof.
  intros H. unfold persist_fold in H. apply sbind_Ok in H as (affected & s1 & E & H).
  match type of H with ?t _ = _ => assert (R : reads t) by read; pose proof (R _ _ _ H) end. subst s1.
  apply CreateFold_spec in E as [[-> [[= ->]|?]]|(stored & _ & [= ->] & _ & ->)]; [| done |].
  - split; [exists id; by destruct s|]. unfold sbind, get, found, slift, id in H. destruct (fold_rows s !! _); by eauto.
  - split; [by eexists|]. cbn. by rewrite lookup_insert_eq.
Qed.
Lemma grows_persist_fold m status at_ t a : grows (persist_fold jsonb column_time m status at_ t a).
Proof. unfold persist_fold, integrity_tx. grow. Qed.
Lemma persist_folds_Ok m status at_ l : forall s u s', sfoldM (persist_fold jsonb column_time m status at_) tt l s = (Ok u, s') ->
  (exists f, s' = set_fold_rows f s) /\ forall p, p ∈ l -> is_Some (fold_rows s' !! (EM_ID m, Ref_FoldIndex (PF_Ref p))).
Proof.
  induction l as [|a l IH]; intros s u s' H; cbn [sfoldM] in H; [injection H as _ <-; split; [exists id; by destruct s | by intros p Hp%elem_of_nil]|].
  apply sbind_Ok in H as ([] & s1 & E & H). apply persist_fold_Ok in E as [[f ->] Ha]. pose proof H as Hg.
  apply grows_fold in Hg as (_ & _ & _ & _ & _ & _ & Hg & _); [|intros; apply grows_persist_fold].
  apply IH in H as [[g ->] H]. split; [by exists (fun x => g (f x))|]. intros p [->|Hp]%elem_of_cons; [|by apply H].
  destruct Ha as [row Ha]. exists row. by eapply lookup_weaken.
Qed.
Lemma Inv_folds p f s : Inv p s -> fold_rows s ⊆ f (fold_rows s) -> Inv p (set_fold_rows f s).
Proof.
  intros [] Hf. constructor; try done. cbn. intros k e x spec g Hk Hp Hx Hs Hg. destruct (inv_fold_rows0 k e x spec g Hk Hp Hx Hs Hg) as [row Hr].
  exists row. by eapply lookup_weaken.
Qed.
Lemma stored_evidence_same row stored : stored_evidence jsonb column_time row = Ok stored ->
  Er_ID stored = Er_ID row /\ Er_ExperimentID stored = Er_ExperimentID row /\ Er_Status stored = Er_Status row /\ Er_EvidenceDigest stored = Er_EvidenceDigest row.
Proof.
  unfold stored_evidence. destruct (jsonb _); [|done..]. cbn [rbind]. destruct (violation _ _ _); [|done..]. by intros [= <-].
Qed.
Definition evidence_of (s : Store) (m : ExperimentManifest) (prepared : preparedEvidence) : Prop :=
  exists e, evidences s !! PE_ID prepared = Some e /\ Er_ExperimentID e = EM_ID m /\ Er_Status e = PE_Status prepared /\ Er_EvidenceDigest e = PE_RootDigest prepared.
Definition outcome_of (s : Store) (m : ExperimentManifest) (prepared : preparedEvidence) : Prop :=
  exists k o, outcomes s !! k = Some o /\ Oc_ExperimentID o = EM_ID m /\ Oc_EvidenceID o = PE_ID prepared /\ Oc_Status o = PE_Status prepared.
(** The row of the experiment decodes to the manifest. *)
Definition decodes (s : Store) (m : ExperimentManifest) : Prop :=
  exists x, experiments s !! EM_ID m = Some x /\ UnmarshalSpec (Ex_ContentJSON x) = Ok (EM_Spec m).
Definition folds_written (s : Store) (m : ExperimentManifest) (status : string) : Prop :=
  status = "passed" -> forall f, f ∈ MS_Folds (EM_Spec m) -> is_Some (fold_rows s !! (EM_ID m, Fo_Index f)).
Lemma persist_root_Ok p m prepared at_ s u s' : Inv p s -> decodes s m -> folds_written s m (PE_Status prepared) ->
  persist_root jsonb column_time m prepared at_ s = (Ok u, s') ->
  Inv p s' /\ evidence_of s' m prepared /\ exists f, s' = set_evidences f s.
Proof.
  intros Hi (x0 & Hx0 & Hd0) Hw H. unfold persist_root in H. apply sbind_Ok in H as (affected & s1 & E & H).
  apply CreateEvidence_spec in E as [[-> [[= ->]|?]]|(stored & Es & [= ->] & Hk & Hf & Hx & ->)]; [|done|].
  - unfold sbind, get, found, slift, integrity_tx in H. destruct (First _ _) as [e|] eqn:Ef; [|done]. apply First_Some in Ef as (k & Hk & E).
    apply String.eqb_eq in E. destruct (_ || _) eqn:Eo in H; [done|]. injection H as _ <-. bool_prop. split_and!; [done | | exists id; by destruct s].
    exists e. destruct (inv_evidences _ _ Hi k e Hk) as [Ek _]. cbn in *. split_and!; congruence.
  - injection H as _ <-. apply stored_evidence_same in Es as (S1 & S2 & S3 & S4). cbn in *. destruct Hi. split_and!; [constructor; cbn; try done | |by eexists].
    + intros k e [[<- <-]|[N He]]%lookup_insert_Some; [by rewrite S2 | by apply inv_evidences0].
    + intros k e x spec f [[<- <-]|[N He]]%lookup_insert_Some Hp Hx' Hsp Hin; [|by eapply inv_fold_rows0]. rewrite S2 in *. apply Hw; [congruence|].
      assert (spec = EM_Spec m) as <-; [congruence | done].
    + apply once_insert; [done|]. intros k e He. rewrite S2. by eapply Hf.
    + intros k o Ho. destruct (inv_outcomes0 k o Ho) as [(e & H2 & H3) H1]. split; [|done]. exists e. split; [|done].
      eapply lookup_weaken; [exact H2 | by apply insert_subseteq].
    + exists stored. cbn. rewrite lookup_insert_eq. done.
Qed.
Lemma persist_outcome_Ok p m prepared at_ s u s' : Inv p s -> evidence_of s m prepared -> persist_outcome sha256hex MarshalOutcome column_time m prepared at_ s = (Ok u, s') ->
  Inv p s' /\ outcome_of s' m prepared /\ exists f, s' = set_outcomes f s.
Proof.
  intros Hi (e & He & Ee & Es & _) H. unfold persist_outcome in H. apply sbind_Ok in H as (s0 & s1 & E & H). injection E as <- <-.
  apply sbind_Ok in H as (a & s1 & E & H). unfold found, slift, id in E. destruct (First _ _) as [a'|] eqn:Ef; [|done]. injection E as <- <-.
  apply First_Some in Ef as (ka & Hka & Ea%String.eqb_eq). destruct (inv_attempts _ _ Hi ka a' Hka) as [Eid _].
  apply sbind_Ok in H as (affected & s1 & E & H).
  apply CreateOutcome_spec in E as [[-> [[= ->]|?]]|([= ->] & Hk & Hf & ->)]; [|done|].
  - unfold sbind, get, found, slift, integrity_tx in H. destruct (First _ _) as [o|] eqn:Ef; [|done]. apply First_Some in Ef as (k & Hk & E).
    apply String.eqb_eq in E. destruct (_ || _) eqn:Eo in H; [done|]. injection H as _ <-. bool_prop. split_and!; [done | | exists id; by destruct s].
    destruct (inv_outcomes _ _ Hi k o Hk) as [_ (b & Hb & Eb)]. rewrite E, Eid, Hka in Hb. injection Hb as <-. exists k, o. cbn in *. split_and!; congruence.
  - injection H as _ <-. cbn in *. destruct Hi. split_and!; [constructor; cbn; try done | |by eexists].
    + intros k o [[<- <-]|[N Ho]]%lookup_insert_Some; [|by eapply inv_outcomes0]. cbn. split; [by exists e|]. exists a'. split; [by rewrite Eid | done].
    + apply once_insert; [done|]. intros k o Ho. by eapply Hf.
    + eexists _, _. split; [apply lookup_insert_eq|]. done.
Qed.
(** A passing result comes with a row for every fold of the manifest. *)
Definition covers (m : ExperimentManifest) (isResult : bool) (prepared : preparedEvidence) : Prop :=
  PE_Status prepared = "passed" -> isResult = true /\ forall f, f ∈ MS_Folds (EM_Spec m) -> exists p, p ∈ PE_Folds prepared /\ Ref_FoldIndex (PF_Ref p) = Fo_Index f.
Lemma persist_body_Ok p m isResult prepared at_ s u s' : Inv p s -> decodes s m -> covers m isResult prepared -> PersistBody m isResult prepared at_ s = (Ok u, s') ->
  Inv p s' /\ evidence_of s' m prepared /\ outcome_of s' m prepared.
Proof.
  intros Hi Hd Hc H. unfold persist_body in H. apply sbind_Ok in H as ([] & s1 & E & H).
  assert (I1 : Inv p s1 /\ decodes s1 m /\ folds_written s1 m (PE_Status prepared)).
  { destruct isResult.
    - pose proof E as Hg. apply grows_fold in Hg as (_ & _ & _ & _ & _ & _ & Hg & _); [|intros; apply grows_persist_fold].
      apply persist_folds_Ok in E as [[f ->] Hw]. split_and!; [by apply Inv_folds | done |].
      intros [_ Hp]%Hc g Hg2. destruct (Hp g Hg2) as (q & Hq & <-). by apply Hw.
    - injection E as <-. split_and!; [done..|]. intros [[=] _]%Hc. }
  destruct I1 as (I1 & D1 & W1). apply sbind_Ok in H as ([] & s2 & E2 & H). apply (persist_root_Ok p) in E2 as (I2 & He & f2 & ->); [|done..].
  apply (persist_outcome_Ok p) in H as (I3 & Ho & f3 & ->); done.
Qed.
Lemma LoadManifest_Ok id_ s m s' : LoadManifest_ id_ s = (Ok m, s') ->
  s' = s /\ VerifyManifest m = Ok tt /\ exists x, experiments s !! id_ = Some x /\ EM_ID m = Ex_ID x /\ UnmarshalSpec (Ex_ContentJSON x) = Ok (EM_Spec m).
Proof.
  intros H. pose proof H as ->%reads_LoadManifest. split; [done|]. unfold LoadManifest, sbind, get, found, slift, integrity_tx, id in H.
  destruct (experiments s !! id_) as [x|]; [|done]. destruct (_ <? _) in H; [done|]. destruct (UnmarshalSpec _) as [spec|e|w] eqn:Eu; [|done..].
  destruct (Manifest_Verify _ _ _ _ _ _ _ _) as [[]|e|w] eqn:Ev in H; [|done..]. destruct (_ <>s _) in H; [done|]. unfold sret in H. injection H as <-. eauto.
Qed.
Lemma LoadManifest_decodes p id_ s m s' : Inv p s -> LoadManifest_ id_ s = (Ok m, s') -> s' = s /\ EM_ID m = id_ /\ decodes s m.
Proof.
  intros Hi (-> & _ & x & Hx & E & Hu)%LoadManifest_Ok. destruct (inv_experiments _ _ Hi id_ x Hx) as [E0 _].
  split_and!; [done | congruence |]. exists x. by rewrite E, E0.
Qed.
Abbreviation Prepare_ := (prepareEvidenceForPersistence sha256hex MarshalPolicy MarshalFamily MarshalHoldout MarshalSpec FormatTime MarshalMetrics
  MarshalAggregate MarshalFold MarshalFrozen MarshalRoot ErrorText Intn policyOrder range).
Lemma prepare_folds_refs l : forall t s, foldM (prepare_fold sha256hex MarshalFold MarshalFrozen) t l = Ok s ->
  (Ref_FoldIndex ∘ PF_Ref) <$> s.2 = ((Ref_FoldIndex ∘ PF_Ref) <$> t.2) ++ ((fun f => Fo_Index (FR_Fold f)) <$> l).
Proof.
  induction l as [|f l IH]; intros [total folds] s H; cbn [foldM] in H; [injection H as <-; by rewrite app_nil_r|].
  unfold prepare_fold at 1 in H. destruct (prewrite (MarshalFold f)); [|done..]. cbn [rbind] in H. destruct (prewrite _); [|done..]. cbn [rbind] in H.
  destruct (prewrite _); [|done..]. cbn [rbind] in H. apply IH in H. rewrite H. cbn. by rewrite fmap_app, <- app_assoc.
Qed.
Lemma finish_root_Ok m b root folds p : finish_root sha256hex MarshalRoot m b root folds = Ok p -> PE_Status p = Ro_Status root /\ PE_Folds p = folds.
Proof.
  unfold finish_root. destruct (prewrite_if _ _); [|done..]. cbn [rbind]. destruct (prewrite_if _ _); [|done..]. by intros [= <-].
Qed.
Lemma prepare_covers m result failure p : Prepare_ m result failure = Ok p -> covers m (is_some result) p /\ PE_Status p = if is_some result then "passed" else "failed".
Proof.
  unfold prepareEvidenceForPersistence. destruct (Verify _ _ _ _ _ _ _ _); [|done..]. cbn [rbind].
  destruct result as [result|], failure as [failure|]; try done.
  - destruct (validateResultForPersistence _ _ _ _ _ _) as [[]|e|w] eqn:Ev; [|done..]. cbn [rbind].
    destruct (foldM _ _ _) as [s|e|w] eqn:Ef; [|done..]. cbn [rbind]. intros [Hs Hp]%finish_root_Ok. split; [|done].
    intros _. split; [done|]. intros f Hf. apply prepare_folds_refs in Ef. cbn in Ef. rewrite <- Hp in Ef.
    apply Validate_spec in Ev as (_ & _ & V3 & V4 & _). apply list_elem_of_lookup in Hf as [k Hk].
    destruct (lookup_lt_is_Some_2 (WF_Folds result) k) as [g Hg]; [rewrite V3; by eapply lookup_lt_Some|].
    destruct (V4 k f g Hk Hg) as [E _]. assert (Hin : Fo_Index f ∈ (Ref_FoldIndex ∘ PF_Ref) <$> PE_Folds p).
    { rewrite Ef. apply list_elem_of_fmap. exists g. split; [by rewrite E | by eapply list_elem_of_lookup_2]. }
    apply list_elem_of_fmap in Hin as (q & E2 & Hq). by exists q.
  - intros [Hs Hp]%finish_root_Ok. split; [|done]. intros E. rewrite Hs in E. discriminate E.
Qed.
Lemma prepared_declared m result failure p : Prepare_ m result failure = Ok p ->
  forall q, q ∈ PE_Folds p -> exists f, f ∈ MS_Folds (EM_Spec m) /\ Ref_FoldIndex (PF_Ref q) = Fo_Index f.
Proof.
  unfold prepareEvidenceForPersistence. destruct (Verify _ _ _ _ _ _ _ _); [|done..]. cbn [rbind].
  destruct result as [result|], failure as [failure|]; try done.
  - destruct (validateResultForPersistence _ _ _ _ _ _) as [[]|e|w] eqn:Ev; [|done..]. cbn [rbind].
    destruct (foldM _ _ _) as [s|e|w] eqn:Ef; [|done..]. cbn [rbind]. intros [_ Hp]%finish_root_Ok q Hq.
    apply prepare_folds_refs in Ef. cbn in Ef. rewrite <- Hp in Ef. apply Validate_spec in Ev as (_ & _ & V3 & V4 & _).
    assert (Hin : Ref_FoldIndex (PF_Ref q) ∈ (Ref_FoldIndex ∘ PF_Ref) <$> PE_Folds p) by (apply list_elem_of_fmap; by exists q).
    rewrite Ef in Hin. apply list_elem_of_fmap in Hin as (g & -> & Hg). apply list_elem_of_lookup in Hg as [k Hk].
    destruct (lookup_lt_is_Some_2 (MS_Folds (EM_Spec m)) k) as [f Hf]; [rewrite <- V3; by eapply lookup_lt_Some|].
    destruct (V4 k f g Hf Hk) as [E _]. exists f. split; [by eapply list_elem_of_lookup_2 | by rewrite E].
  - intros [_ ->]%finish_root_Ok q Hq. by apply elem_of_nil in Hq.
Qed.
Lemma PersistEvidence_cases id_ result failure at_ s r s' : Inv None s -> PersistEvidence_ id_ result failure at_ s = (r, s') ->
  (s' = s /\ is_ok r = false) \/
  exists m prepared, EM_ID m = id_ /\ decodes s m /\ covers m (is_some result) prepared /\
    (forall q, q ∈ PE_Folds prepared -> exists f, f ∈ MS_Folds (EM_Spec m) /\ Ref_FoldIndex (PF_Ref q) = Fo_Index f) /\ PE_Status prepared = (if is_some result then "passed" else "failed") /\
    PersistBody m (is_some result) prepared at_ s = (Ok tt, s') /\ LoadEvidence_ (PE_ID prepared) s' = (r, s').
Proof.
  intros Hs H. unfold PersistEvidence in H. unfold sbind at 1, slift at 1 in H. destruct (failIf _ _) in H; [|left; by injection H as <- <-..].
  unfold sbind at 1 in H. destruct (LoadManifest_ id_ s) as [[m|e|w] s1] eqn:El; [|left; injection H as <- <-; by apply reads_LoadManifest in El..].
  apply (LoadManifest_decodes None) in El as (-> & E & Hd); [|done]. destruct (IsZero at_) in H; [left; by injection H as <- <-|].
  unfold sbind at 1, slift at 1 in H. destruct (Prepare_ m result failure) as [prepared|e|w] eqn:Ep; [|left; by injection H as <- <-..].
  pose proof (prepared_declared _ _ _ _ Ep) as Hdec. apply prepare_covers in Ep as [Hc Hst]. unfold sbind at 1 in H. unfold transaction in H.
  destruct (PersistBody m (is_some result) prepared at_ s) as [[[]|e|w] s1] eqn:Eb; [|left; by injection H as <- <-..].
  right. exists m, prepared. pose proof H as ->%reads_LoadEvidence. done.
Qed.
Lemma PersistEvidence_Inv id_ result failure at_ s r s' : Inv None s -> PersistEvidence_ id_ result failure at_ s = (r, s') -> Inv None s'.
Proof. intros Hs [[-> _]|(m & p & _ & Hd & Hc & _ & _ & H & _)]%PersistEvidence_cases; [done | | done]. by eapply persist_body_Ok in H as (I & _). Qed.
Lemma Inv_ml p f s : Inv p s -> Inv p (set_ml_rows f s).
Proof. by intros []; constructor. Qed.
Lemma PersistML_Inv e s r s' : Inv None s -> PersistML e s = (r, s') -> Inv None s'.
Proof.
  intros Hs H. unfold PersistMLEvidence in H. eapply bind_Inv in H; [exact H | |].
  - intros ? ? E. by eapply reads_Inv in E; [| apply reads_LoadManifest |].
  - intros m s1 r' s2 _ Hs1 E. destruct (is_none _) in E; [by injection E as <- <-|]. destruct (_ || _) in E; [by injection E as <- <-|].
    eapply bind_Inv in E; [exact E | |].
    + intros ? ? E1. eapply transaction_Inv in E1; [exact E1 | | done]. intros ? ? E2. apply CreateML_spec in E2 as [->|(? & _ & _ & ->)]; [done | by apply Inv_ml].
    + intros ? ? ? ? _ Hs2 E2. by eapply reads_Inv in E2; [| apply reads_LoadML |].
Qed.

(** ** The states of a repository *)

(** A command, whatever it answers. *)
Inductive step (s s' : Store) : Prop :=
| step_create m job comparison creator key r : survives (EM_Spec m) -> CreateManifest_ m job comparison creator key s = (r, s') -> step s s'
| step_evidence id_ result failure at_ r : PersistEvidence_ id_ result failure at_ s = (r, s') -> step s s'
| step_ml e r : PersistML e s = (r, s') -> step s s'.
Definition reachable (s : Store) : Prop := rtc step empty_store s.
Lemma step_Inv s s' : step s s' -> Inv None s -> Inv None s'.
Proof. intros [] Hs; eauto using CreateManifest_Inv, PersistEvidence_Inv, PersistML_Inv. Qed.
Lemma steps_Inv s s' : rtc step s s' -> Inv None s -> Inv None s'.
Proof. induction 1; eauto using step_Inv. Qed.
Lemma empty_Inv : Inv None empty_store.
Proof. constructor; cbn; intros; by simplify_map_eq. Qed.
Lemma reachable_Inv s : reachable s -> Inv None s.
Proof. intros H. by eapply steps_Inv; [|apply empty_Inv]. Qed.
Lemma command_extends s s' : step s s' -> extends s s'.
Proof. intros [m job comparison creator key r _ H|id_ result failure at_ r H|e r H]; [by eapply grows_CreateManifest | by eapply grows_PersistEvidence | by eapply grows_PersistML]. Qed.
Lemma commands_extend s s' : rtc step s s' -> extends s s'.
Proof. induction 1 as [|s1 s2 s3 H _ IH]; [done|]. apply command_extends in H. by etrans. Qed.
Lemma loaded_registered s id_ m : Inv None s -> LoadManifest_ id_ s = (Ok m, s) -> EM_ID m = id_ /\ registered s m.
Proof.
  intros Hi (_ & _ & x & Hx & E & Hu)%LoadManifest_Ok. destruct (inv_experiments _ _ Hi id_ x Hx) as (E0 & m' & E1 & E2 & E3).
  split; [congruence|]. apply (registered_same s m'); [congruence.. | by apply E3].
Qed.

(** C27. In any state the repository can reach, a locked holdout is used up by
    at most one experiment, and a research family has at most one confirmatory
    experiment: two confirmatory manifests that can be loaded and are of the
    same family, or name the same holdout, are the same experiment. Every
    experiment has an attempt that is counted in its family. *)
Theorem holdout_single_use s id1 id2 m1 m2 : reachable s ->
  LoadManifest_ id1 s = (Ok m1, s) -> LoadManifest_ id2 s = (Ok m2, s) ->
  (has_attempt s m1 /\ has_attempt s m2) /\
  (MS_StudyType (EM_Spec m1) = "confirmatory" -> MS_StudyType (EM_Spec m2) = "confirmatory" ->
   (MS_FamilyID (EM_Spec m1) = MS_FamilyID (EM_Spec m2) \/ CH_ID <$> MS_ConfirmatoryHoldout (EM_Spec m1) = CH_ID <$> MS_ConfirmatoryHoldout (EM_Spec m2)) ->
   id1 = id2).
Proof.
  intros Hi%reachable_Inv H1 H2. apply (loaded_registered _ _ _ Hi) in H1 as [<- [A1 R1]], H2 as [<- [A2 R2]]. split; [done|].
  intros (h1 & E1 & (j1 & r1 & J1 & J1' & J1'') & (k1 & u1 & K1 & K1' & K1''))%R1 (h2 & E2 & (j2 & r2 & J2 & J2' & J2'') & (k2 & u2 & K2 & K2' & K2''))%R2.
  rewrite E1, E2. cbn. intros Hs. assert (E : CH_ID h1 = CH_ID h2).
  { destruct Hs as [Hs|[= Hs]]; [|done]. assert (j1 = j2) as -> by (eapply (inv_holdout_once _ _ Hi); eauto; congruence). congruence. }
  assert (k1 = k2) as -> by (eapply (inv_use_once _ _ Hi); eauto; congruence). congruence.
Qed.

Lemma outcome_unique s k1 k2 o1 o2 : Inv None s -> outcomes s !! k1 = Some o1 -> outcomes s !! k2 = Some o2 -> Oc_ExperimentID o1 = Oc_ExperimentID o2 -> o1 = o2.
Proof.
  intros Hi H1 H2 E. destruct (inv_outcomes _ _ Hi _ _ H1) as [_ (a1 & A1 & E1)], (inv_outcomes _ _ Hi _ _ H2) as [_ (a2 & A2 & E2)].
  assert (Oc_AttemptID o1 = Oc_AttemptID o2) by (eapply (inv_attempt_once _ _ Hi); eauto; congruence).
  assert (k1 = k2) as -> by (by eapply (inv_outcome_once _ _ Hi)). congruence.
Qed.
(** The record of research is immutable: along any commands from a
    reachable state, whatever they answer, every row stays as it is; an
    experiment never has a second outcome or a second evidence; and its outcome
    is that of its evidence, of the experiment's own attempt. *)
Theorem research_immutable s s' : reachable s -> rtc step s s' ->
  extends s s' /\
  (forall k k' o o', outcomes s !! k = Some o -> outcomes s' !! k' = Some o' -> Oc_ExperimentID o = Oc_ExperimentID o' -> o = o') /\
  (forall k k' e e', evidences s !! k = Some e -> evidences s' !! k' = Some e' -> Er_ExperimentID e = Er_ExperimentID e' -> e = e') /\
  (forall k o, outcomes s' !! k = Some o -> exists e a, evidences s' !! Oc_EvidenceID o = Some e /\ attempts s' !! Oc_AttemptID o = Some a /\
     Er_Status e = Oc_Status o /\ Er_ExperimentID e = Oc_ExperimentID o /\ At_ExperimentID a = Oc_ExperimentID o).
Proof.
  intros Hi%reachable_Inv H. pose proof (commands_extend _ _ H) as Hx. pose proof (steps_Inv _ _ H Hi) as Hi'. split; [done|].
  destruct Hx as (_ & _ & _ & Ho & _ & _ & _ & He & _). split_and!.
  - intros k k' o o' H1 H2 E. eapply lookup_weaken in H1; [|exact Ho]. by eapply outcome_unique in E.
  - intros k k' e e' H1 H2 E. eapply lookup_weaken in H1; [|exact He]. assert (k = k') as -> by (by eapply (inv_evidence_once _ _ Hi')). congruence.
  - intros k o H1. destruct (inv_outcomes _ _ Hi' _ _ H1) as [(e & H2 & H3 & H4) (a & H5 & H6)]. eauto 10.
Qed.

(** ** An outcome is final *)
Lemma persist_folds_again m status at_ l s u s' : (forall p, p ∈ l -> is_Some (fold_rows s !! (EM_ID m, Ref_FoldIndex (PF_Ref p)))) ->
  sfoldM (persist_fold jsonb column_time m status at_) tt l s = (Ok u, s') -> s' = s.
Proof.
  induction l as [|a l IH]; intros Hp H; cbn [sfoldM] in H; [by injection H as _ <-|]. apply sbind_Ok in H as ([] & s1 & E & H).
  assert (s1 = s) as ->; [|apply IH; [intros p Hin; apply Hp; by right | done]]. clear H. unfold persist_fold in E. apply sbind_Ok in E as (affected & s2 & E & H).
  match type of H with ?t _ = _ => assert (R : reads t) by read; apply R in H end. subst s2.
  apply CreateFold_spec in E as [[-> _]|(stored & _ & _ & E & ->)]; [done|]. destruct (Hp a ltac:(left)) as [row Hr]. cbn in E. congruence.
Qed.
Lemma persist_root_again m prepared at_ s u s' k e : evidences s !! k = Some e -> Er_ExperimentID e = EM_ID m ->
  persist_root jsonb column_time m prepared at_ s = (Ok u, s') -> s' = s.
Proof.
  intros Hk Ee H. unfold persist_root in H. apply sbind_Ok in H as (affected & s1 & E & H).
  match type of H with ?t _ = _ => assert (R : reads t) by read; apply R in H end. subst s1.
  apply CreateEvidence_spec in E as [[-> _]|(stored & _ & _ & _ & Hf & _)]; [done|]. by destruct (Hf k e Hk).
Qed.
Lemma persist_outcome_again m prepared at_ s u s' k o : Inv None s -> outcomes s !! k = Some o -> Oc_ExperimentID o = EM_ID m ->
  persist_outcome sha256hex MarshalOutcome column_time m prepared at_ s = (Ok u, s') -> s' = s.
Proof.
  intros Hi Hk Eo H. unfold persist_outcome in H. apply sbind_Ok in H as (s0 & s1 & E & H). injection E as <- <-.
  apply sbind_Ok in H as (a & s1 & E & H). unfold found, slift, id in E. destruct (First _ _) as [a'|] eqn:Ef; [|done]. injection E as <- <-.
  apply First_Some in Ef as (ka & Hka & Ea%String.eqb_eq). destruct (inv_attempts _ _ Hi ka a' Hka) as [Eid _].
  apply sbind_Ok in H as (affected & s1 & E & H). match type of H with ?t _ = _ => assert (R : reads t) by read; apply R in H end. subst s1.
  apply CreateOutcome_spec in E as [[-> _]|(_ & _ & Hf & _)]; [done|]. destruct (inv_outcomes _ _ Hi _ _ Hk) as [_ (b & Hb & Eb)].
  destruct (Hf k o Hk) as [N _]. destruct N. cbn. rewrite Eid. eapply (inv_attempt_once _ _ Hi); eauto. congruence.
Qed.
Lemma LoadEvidence_ID id_ s ev s' : Inv None s -> LoadEvidence_ id_ s = (Ok ev, s') -> Pe_ID ev = id_.
Proof.
  intros Hi H. unfold LoadEvidence, sbind, get, found, slift, integrity_tx, id in H. destruct (evidences s !! id_) as [e|] eqn:Ee; [|done].
  apply (inv_evidences _ _ Hi) in Ee as [<- _]. do 2 (destruct (_ <? _) in H; [done|]). destruct (_ =s _) in H.
  - unfold loadCompactEvidence, transaction in H. match type of H with match ?t with _ => _ end = _ => destruct t as [[x|x|w] s1] eqn:E; [|done..] end.
    injection H as -> _. unfold loadCompactEvidenceSnapshot, integrity_tx in E. apply sbind_Ok in E as (root & s2 & _ & E). apply sbind_Ok in E as (bound & s3 & _ & E).
    destruct (_ || _) in E; [done|]. apply sbind_Ok in E as (m & s4 & _ & E). apply sbind_Ok in E as (s5 & s6 & _ & E).
    match type of E with (if ?c then _ else _) _ = _ => destruct c; [done|] end.
    do 4 (apply sbind_Ok in E as (? & ? & _ & E)). by injection E as <- _.
  - unfold load_legacy in H. injection H as H _. destruct (UnmarshalLegacy _); [|done..]. cbn [rbind] in H. destruct (digest_is _ _ _); [|done..]. cbn [rbind] in H.
    destruct (_ || _) in H; [done|]. destruct (_ || _) in H; [done|]. by injection H as <-.
Qed.

(** An outcome is final: once an experiment has one, persisting anything
    for it changes nothing, and only a repetition of the same kind is answered,
    with the evidence of that outcome. *)
Theorem PersistEvidence_final s k o result failure at_ r s' : reachable s -> outcomes s !! k = Some o ->
  PersistEvidence_ (Oc_ExperimentID o) result failure at_ s = (r, s') ->
  s' = s /\ (forall ev, r = Ok ev -> Pe_ID ev = Oc_EvidenceID o /\ Oc_Status o = if is_some result then "passed" else "failed").
Proof.
  intros Hi%reachable_Inv Hk H. pose proof H as Hc. apply PersistEvidence_cases in Hc as [[-> Hr]|(m & p & Em & Hd & Hc & Hdec & Hst & Hb & Hl)]; [| |done].
  { split; [done|]. by intros ev ->. }
  pose proof Hb as (I' & (e & He & Ee & Es & _) & (k' & o' & Hk' & Eo' & Eev & Est))%(persist_body_Ok None); [|done..].
  assert (Hs : s' = s).
  { unfold persist_body in Hb. apply sbind_Ok in Hb as ([] & s1 & E1 & Hb). apply sbind_Ok in Hb as ([] & s2 & E2 & Hb).
    destruct (inv_outcomes _ _ Hi _ _ Hk) as [(e0 & He0 & Ee0 & Es0) _].
    assert (Hsub : evidences s ⊆ evidences s').
    { apply grows_PersistEvidence in H. by destruct H as (_ & _ & _ & _ & _ & _ & _ & ? & _). }
    assert (e0 = e).
    { eapply lookup_weaken in He0; [|exact Hsub]. assert (Oc_EvidenceID o = PE_ID p) by (eapply (inv_evidence_once _ _ I'); eauto; congruence). congruence. }
    subst e0. assert (s1 = s) as ->.
    { destruct (is_some result) eqn:Er; [|by injection E1 as <-]. eapply persist_folds_again; [|exact E1]. intros q Hq.
      destruct (Hdec q Hq) as (f & Hf & ->). destruct Hd as (x & Hx & Hu). rewrite Em in Hx. rewrite Em, <- Ee0. eapply (inv_fold_rows _ _ Hi); eauto; congruence. }
    apply (persist_root_again _ _ _ _ _ _ _ _ He0) in E2 as ->; [|congruence]. eapply persist_outcome_again; [| exact Hk | | exact Hb]; [done | congruence]. }
  subst s'. split; [done|]. intros ev ->. apply LoadEvidence_ID in Hl; [|done]. assert (o' = o) as -> by (eapply outcome_unique; eauto; congruence).
  split; congruence.
Qed.

(** ** The job *)
Context {W R : Type}.
Context (MarshalSamples : list Sample -> res string) (MarshalFit : Z -> string -> string -> string -> Z -> string)
  (MarshalSelection : Z -> string -> string -> gmap string string -> gmap string (list string) -> string)
  (foldOrder : nat -> nat -> forall A, gmap string A -> list (string * A)).
Abbreviation PersistFailure := (persistFailure sha256hex MarshalPolicy MarshalFamily MarshalHoldout MarshalSpec UnmarshalSpec MarshalOutcome FormatTime
  MarshalMetrics MarshalAggregate MarshalFold MarshalFrozen MarshalRoot UnmarshalFold UnmarshalRoot ErrorText jsonb column_time Intn policyOrder range
  UnmarshalLegacy MarshalLegacy (W := W) (R := R)).
Abbreviation PersistResult := (persistResult sha256hex MarshalPolicy MarshalFamily MarshalHoldout MarshalSpec UnmarshalSpec MarshalOutcome FormatTime
  MarshalMetrics MarshalAggregate MarshalFold MarshalFrozen MarshalRoot UnmarshalFold UnmarshalRoot ErrorText jsonb column_time Intn policyOrder range
  UnmarshalLegacy MarshalLegacy (W := W) (R := R)).
Abbreviation ModelEvidence := (model_evidence sha256hex MarshalPolicy MarshalFamily MarshalHoldout MarshalSpec UnmarshalSpec FormatTime ErrorText jsonb column_time
  policyOrder MarshalFolds MarshalOutcomes MarshalPayload MarshalML UnmarshalML exposureOrder (W := W) (R := R)).
Abbreviation Run_ := (Run connected sha256hex MarshalPolicy MarshalFamily MarshalHoldout MarshalSpec UnmarshalSpec MarshalOutcome FormatTime
  MarshalMetrics MarshalAggregate MarshalFold MarshalFrozen MarshalRoot UnmarshalFold UnmarshalRoot ErrorText jsonb column_time Intn policyOrder range
  UnmarshalLegacy MarshalLegacy MarshalFolds MarshalOutcomes MarshalPayload MarshalML UnmarshalML exposureOrder MarshalSamples MarshalFit MarshalSelection foldOrder (W := W) (R := R)).
(** What a job does to the database is a sequence of commands. *)
Definition commands {A} (m : Job (W := W) (R := R) A) : Prop := forall s w r s' w', m (s, w) = (r, (s', w')) -> rtc step s s'.
Lemma commands_lift {A} (m : res A) : commands (slift m).
Proof. intros s w r s' w' [= <- <- <-]. done. Qed.
Lemma commands_ret {A} (a : A) : commands (sret a).
Proof. intros s w r s' w' [= <- <- <-]. done. Qed.
Lemma commands_bind {A B} (m : Job A) (k : A -> Job B) : commands m -> (forall a, commands (k a)) -> commands (sbind m k).
Proof.
  intros Hm Hk s w r s' w' H. unfold sbind in H. destruct (m (s, w)) as [[a|e|x] [s1 w1]] eqn:E; apply Hm in E; [apply Hk in H; by etrans | by injection H as <- <- <-..].
Qed.
Lemma commands_attempt {A} (m : Job A) : commands m -> commands (attempt_ m).
Proof.
  intros Hm s w r s' w' H. unfold attempt_ in H. destruct (m (s, w)) as [[a|e|x] [s1 w1]] eqn:E; injection H as <- <- <-; by apply Hm in E.
Qed.
Lemma commands_world {A} (m : stM (W * list (Call R)) A) : commands (on_world m).
Proof. intros s w r s' w' H. unfold on_world in H. destruct (m w). by injection H as <- <- <-. Qed.
Lemma commands_store {A} (m : Tx A) : (forall s r s', m s = (r, s') -> rtc step s s') -> commands (on_store m).
Proof. intros Hm s w r s' w' H. unfold on_store in H. destruct (m s) eqn:E. injection H as <- <- <-. by apply Hm in E. Qed.
Lemma commands_reads {A} (m : Tx A) : reads m -> commands (on_store m).
Proof. intros Hm. apply commands_store. by intros s r s' ->%Hm. Qed.
Lemma commands_failure id_ e at_ : commands (PersistFailure id_ e at_).
Proof.
  apply commands_bind; [|by intros []; [apply commands_ret | apply commands_lift]]. apply commands_attempt, commands_store.
  intros s r s' H. apply rtc_once. by eapply step_evidence.
Qed.
Lemma commands_result m result at_ : commands (PersistResult m result at_).
Proof.
  apply commands_bind; [|intros [|e]; [apply commands_ret | destruct (is_prewrite e); [apply commands_failure | apply commands_lift]]].
  apply commands_attempt, commands_store. intros s r s' H. apply rtc_once. by eapply step_evidence.
Qed.
Lemma commands_model source m result at_ : commands (ModelEvidence source m result at_).
Proof.
  unfold model_evidence. destruct (is_none _); [apply commands_ret|]. destruct (LoadML source); [|apply commands_ret].
  apply commands_bind; [apply commands_attempt, commands_world|]. intros [(outs & req & prov)|e]; [|apply commands_ret].
  apply commands_bind; [apply commands_attempt, commands_lift|]. intros [ev|e]; [|apply commands_ret].
  apply commands_bind; [|intros ?; apply commands_ret]. apply commands_store. intros s0 r s1 H. apply rtc_once. by eapply step_ml.
Qed.
Lemma reads_HasCompleted id_ : reads (HasCompletedOutcome connected id_).
Proof. unfold HasCompletedOutcome. read. Qed.
Create HintDb commands.
#[local] Hint Resolve commands_lift commands_ret commands_failure commands_result commands_model commands_world commands_reads reads_LoadManifest reads_HasCompleted : commands.
Lemma commands_Run source now id_ : commands (Run_ source now id_).
Proof.
  unfold Run. destruct source as [source|]; [|auto with commands]. apply commands_bind; [auto with commands|]. intros m.
  apply commands_bind; [auto with commands|]. intros [|]; [auto with commands|].
  apply commands_bind; [apply commands_attempt; auto with commands|]. intros [[samples factory]|e]; [|auto with commands].
  apply commands_bind; [apply commands_attempt; unfold run_folds; auto with commands|]. intros [result|e]; [|auto with commands].
  apply commands_bind; [auto with commands|]. intros [e|]; auto with commands.
Qed.

(** What is recorded of the experiment. *)
Definition recorded (s : Store) (id_ evidence status : string) : Prop :=
  exists k o, outcomes s !! k = Some o /\ Oc_ExperimentID o = id_ /\ Oc_EvidenceID o = evidence /\ Oc_Status o = status.
Lemma PersistEvidence_recorded id_ result failure at_ s ev s' : Inv None s -> PersistEvidence_ id_ result failure at_ s = (Ok ev, s') ->
  Inv None s' /\ recorded s' id_ (Pe_ID ev) (if is_some result then "passed" else "failed").
Proof.
  intros Hi H. pose proof H as Hi'%PersistEvidence_Inv; [|done]. split; [done|].
  apply PersistEvidence_cases in H as [[_ [=]]|(m & p & E & Hd & Hc & _ & Hst & Hb & Hl)]; [|done].
  apply (persist_body_Ok None) in Hb as (_ & _ & k & o & Hk & E1 & E2 & E3); [|done..]. apply LoadEvidence_ID in Hl; [|done].
  exists k, o. split_and!; congruence.
Qed.
(** The outcome that an answer of the job stands for. *)
Definition answered (id_ : string) (r : res (PersistedEvidence * option error)) (s : Store) : Prop :=
  forall ev failure, r = Ok (ev, failure) -> recorded s id_ (Pe_ID ev) (if is_some failure then "failed" else "passed").
Lemma failure_answered id_ e at_ s w r s' w' : Inv None s -> PersistFailure id_ e at_ (s, w) = (r, (s', w')) ->
  answered id_ r s' /\ forall ev, r <> Ok (ev, None).
Proof.
  intros Hi H. unfold persistFailure, attempt_, on_store, sbind in H. destruct (PersistEvidence_ id_ None (Some e) at_ s) as [[ev|e'|x] s1] eqn:E;
    injection H as <- <- <-; [|by split..]. split; [|by intros ? [=]]. intros ? ? [= <- <-]. by apply PersistEvidence_recorded in E as [_ E].
Qed.
Lemma result_answered m result at_ s w r s' w' : Inv None s -> PersistResult m result at_ (s, w) = (r, (s', w')) -> answered (EM_ID m) r s'.
Proof.
  intros Hi H. unfold persistResult, attempt_, on_store, sbind in H. destruct (PersistEvidence_ _ _ _ _ s) as [[ev|e'|x] s1] eqn:E.
  - injection H as <- <- <-. intros ? ? [= <- <-]. by apply PersistEvidence_recorded in E as [_ E].
  - apply PersistEvidence_Inv in E; [|done]. destruct (is_prewrite e'); [by apply failure_answered in H as [H _] | by injection H as <- <- <-].
  - by injection H as <- <- <-.
Qed.
(** Passing evidence of the model is stored. *)
Definition model_passed (s : Store) (id_ : string) : Prop := exists k row, ml_rows s !! k = Some row /\ Mr_ExperimentID row = id_ /\ Mr_Passed row = true.
Lemma PersistML_passed e s r s' : PersistML e s = (Ok r, s') -> model_passed s' (Im_ExperimentID e).
Proof.
  intros H. unfold PersistMLEvidence in H. apply sbind_Ok in H as (m & s1 & _ & H). destruct (is_none _) in H; [done|].
  destruct (_ || _) in H; [done|]. apply sbind_Ok in H as (b & s2 & _ & H). pose proof H as ->%reads_LoadML.
  unfold LoadMLEvidenceForExperiment, sbind, get, found, slift, id in H. destruct (First _ _) as [row|] eqn:Ef; [|done].
  apply First_Some in Ef as (k & Hk & E%String.eqb_eq). destruct (_ <? _) in H; [done|].
  match type of H with match ?t with _ => _ end = _ => destruct t; [|done..] end.
  destruct (_ || _) eqn:Eo in H; [done|]. exists k, row. split_and!; [done..|]. destruct (Mr_Passed row); [done|]. cbn in Eo. by rewrite !orb_true_r in Eo.
Qed.
Lemma New_ExperimentID m result outs req prov at_ e : NewImmutableMLEvidence sha256hex MarshalFolds MarshalOutcomes MarshalPayload exposureOrder m result outs req prov at_ = Ok e ->
  Im_ExperimentID e = EM_ID m.
Proof.
  unfold NewImmutableMLEvidence. destruct (MS_Model _); [|done]. destruct (negb _); [done|]. destruct (EvaluateML _ _ _); [|done..]. cbn [rbind].
  destruct (MarshalFolds _); [|done..]. cbn [rbind]. destruct (MarshalOutcomes _); [|done..]. cbn [rbind]. by intros [= <-].
Qed.
Lemma model_gate source m result at_ s w s' w' : ModelEvidence source m result at_ (s, w) = (Ok None, (s', w')) ->
  is_some (MS_Model (EM_Spec m)) = true -> model_passed s' (EM_ID m).
Proof.
  intros H Hm. unfold model_evidence in H. destruct (MS_Model _); [|done]. cbn [is_none] in H. destruct (LoadML source) as [load|]; [|done].
  apply sbind_Ok in H as ([(outs & req & prov)|e] & [s1 w1] & _ & H); [|done].
  apply sbind_Ok in H as ([ev|e] & [s2 w2] & E & H); [|done]. apply sbind_Ok in H as (u & [s3 w3] & E2 & H). injection H as <- <-.
  unfold attempt_, slift in E. destruct (NewImmutableMLEvidence _ _ _ _ _ _ _ _ _ _ _) eqn:En; [|done..]. injection E as -> <- <-.
  apply New_ExperimentID in En. unfold on_store in E2. destruct (PersistML ev s1) as [[?|?|?] s4] eqn:Ep; [|done..]. injection E2 as -> <- <-.
  apply PersistML_passed in Ep. by rewrite En in Ep.
Qed.
Lemma commands_Inv {A} (m : Job A) s w r s' w' : m (s, w) = (r, (s', w')) -> commands m -> Inv None s -> Inv None s'.
Proof. intros H Hm Hi. apply Hm in H. by eapply steps_Inv. Qed.
Lemma failed_run id_ m e at_ s w ev failure s' w' (P : Prop) : Inv None s -> EM_ID m = id_ ->
  PersistFailure (EM_ID m) e at_ (s, w) = (Ok (ev, failure), (s', w')) ->
  recorded s' id_ (Pe_ID ev) (if is_some failure then "failed" else "passed") /\ (failure = None -> P).
Proof. intros Hi <- [Ha Hn]%failure_answered; [|done]. split; [by apply Ha|]. intros ->. by destruct (Hn ev). Qed.


(** Evidence of a model that fails its gates is refused, and the job passes the
    refusal on instead of recording it: no outcome is written. *)
Lemma failing_model_unrecorded source load m result at_ s w outs req prov w' e :
  is_some (MS_Model (EM_Spec m)) = true -> LoadML source = Some load -> load m result w = (Ok (outs, (req, prov)), w') ->
  NewImmutableMLEvidence sha256hex MarshalFolds MarshalOutcomes MarshalPayload exposureOrder m result outs req prov at_ = Ok e ->
  ME_Passed (Im_Evaluation e) = false ->
  exists r, ModelEvidence source m result at_ (s, w) = (r, (s, w')) /\ is_ok r = false.
Proof.
  intros Hm Hl Hw Hn Hp. unfold model_evidence. destruct (MS_Model _); [|done]. cbn [is_none]. rewrite Hl.
  unfold sbind at 1, attempt_ at 1, on_world at 1. rewrite Hw. unfold sbind at 1, attempt_ at 1, slift at 1. rewrite Hn.
  unfold sbind at 1, on_store at 1. destruct (PersistML e s) as [r s'] eqn:E. unfold PersistMLEvidence in E.
  unfold sbind at 1 in E. destruct (LoadManifest_ (Im_ExperimentID e) s) as [[m'|x|x] s1] eqn:El; pose proof El as ->%reads_LoadManifest.
  - destruct (is_none _) in E; [injection E as <- <-; by eexists|]. rewrite Hp in E. cbn [negb] in E. rewrite orb_true_r in E.
    injection E as <- <-. by eexists.
  - injection E as <- <-. by eexists.
  - injection E as <- <-. by eexists.
Qed.
End Proofs.
