(* ===== verification/ValidationSamples.v ===== *)
(** * ValidationSamples: a small experiment

    A concrete manifest, its samples and runners, at which the theorems on
    validation apply: the witnesses of their hypotheses. *)
From Stdlib Require Import Ascii SpecFloat.
From stdpp Require Import base numbers strings gmap list.
From S2P Require Import Prelude GoStrings GoFloat GoTime Snapshots ValidationTypes Splits SplitProofs FoldMetrics FoldMetricsProofs Manifest ManifestProofs Evaluation EvaluationProofs WalkForward WalkForwardProofs Evidence EvidenceProofs.
Local Open Scope Z_scope.

Module Experiment.
(** ** The manifest *)
Definition hex : string := "00112233445566778899aabbccddeeff00112233445566778899aabbccddeeff".
Definition digest (s : string) : string := "#" +:+ s.
Definition marshalPolicy (schema : string) (payload : gmap string string) : string := schema.
Definition marshalFamily (a b c d : string) : string := a +:+ b +:+ c +:+ d.
Definition marshalHoldout (a b : string) (i : Interval) : string := a +:+ b.
Definition marshalSpec (s : ManifestSpec) : res string := Ok (MS_CodeRevision s).
Definition formatTime (t : Time) : string := Itoa t.
Definition in_order (m : gmap string string) : list (string * string) := map_to_list m.
Definition payload : gmap string string := list_to_map ((fun k => (k, "v")) <$> policy_keys).
Definition policy_of (r : res AuthorityPolicyEnvelope) : AuthorityPolicyEnvelope := match r with Ok e => e | _ => mkAuthority "" ∅ "" end.
Definition policy : AuthorityPolicyEnvelope := policy_of (NewAuthorityPolicyEnvelope digest marshalPolicy in_order payload).
Definition fold (i start : Z) : Fold := mkFold i (mkInterval start (start + 100)) (mkInterval (start + 100) (start + 200)) (mkInterval (start + 200) (start + 300)).
Definition folds : list Fold := [fold 0 1000; fold 1 1100].
Definition spec : ManifestSpec :=
  mkSpec "" "exploratory" true hex None "rev" (mkVersionRef "candidate" "1" hex hex) (mkVersionRef "baseline" "1" hex hex) None None
    (mkPolicies "p" "p" "p" "p" "p" "p" "p" "p") GovernancePolicyVersion policy hex hex hex "universe" (mkInterval 1000 2000) "utc" "utc" 7
    (list_to_map [("fee_bps", "10"); ("slippage_bps", "5"); ("timing", "next_open"); ("liquidity", "bar")])
    (mkStress (f_of_ratio 1 10) (f_of_Z 10) (f_of_Z 2)) None folds [] 5 10 1 2 (list_to_map [("k", ["b"; "a"])]) ["after_cost_return"; "after_cost_expectancy"]
    "chronological_test_window" 5 (mkRequirements 2 2 1 1 1) [mkThreshold "after_cost_return" ">" (S754_zero true)] [mkThreshold "after_cost_return" "<" (f_of_Z (-1))]
    ∅ (mkArtifacts "a" "a" "a" "a" "a" "a" "a") (mkReproduce "run" ["--all"] ∅) None.
Definition manifest_of (r : res ExperimentManifest) : ExperimentManifest := match r with Ok m => m | _ => mkManifest "" "" "" 0 spec end.
Definition manifest : ExperimentManifest := manifest_of (NewManifest digest marshalPolicy marshalFamily marshalHoldout marshalSpec formatTime in_order spec 123456).
Lemma manifest_ok : NewManifest digest marshalPolicy marshalFamily marshalHoldout marshalSpec formatTime in_order spec 123456 = Ok manifest.
Proof. vm_compute. reflexivity. Qed.

(** ** Samples and runners *)
Definition sample (id : string) (at_ : Time) : Sample := mkSample id at_ (at_ - 5) at_ (at_ + 10) "BTC" "bull" true true {["x" := S754_zero true]}.
Definition samples : list Sample :=
  [sample "f" 1350; sample "a" 1010; sample "b" 1095; sample "c" 1101; sample "d" 1150; sample "e" 1250].
Definition minute (n : Z) : Time := n * MinuteNs.
Definition trade (id symbol : string) : TradePrimitive :=
  mkTrade id [] "" symbol "bull" (minute 1) (minute 3) (f_of_Z 500) (f_of_Z 6) (f_of_Z 1) (f_of_Z 5) (f_of_Z 100000).
Definition fill (id symbol side : string) : FillPrimitive := mkFillP id "" symbol side (minute 2) (f_of_Z 500) (f_of_Z 100000).
Definition point (n equity : Z) : CurvePrimitive := mkCurve (minute n) (f_of_Z equity) (f_of_Z 100) (f_of_ratio 1 2) (f_of_ratio 1 2).
Definition primitives : FoldPrimitives :=
  mkPrimitives (f_of_Z 1000) 3 3 [trade "t1" "BTC"; trade "t2" "ETH"] [fill "f1" "BTC" "buy"; fill "f2" "BTC" "sell"; fill "f3" "ETH" "buy"; fill "f4" "ETH" "sell"]
    [] [] [] [point 1 1000; point 2 995; point 4 1010] (f_of_ratio 1 2) (f_of_Z 2).
Definition fit (i : Z) : FoldFit := mkFit "k=a" (list_to_map [("k", "a")]) ("artifact-" +:+ Itoa i) "" "" "" "".
Definition runners : FoldRunnerFactory nat Z :=
  mkFactory nat Z (fun f => fun w => (Ok (Some (Fo_Index f)), S w)) (fun r _ _ _ _ => sret (fit r)) (fun _ _ _ _ => sret primitives) Some.
Definition marshalSamples (l : list Sample) : res string := Ok (String.concat "," (Sa_ID <$> l)).
Definition marshalFit (i : Z) (a b c : string) (seed : Z) : string := a +:+ c.
Definition marshalSelection (i : Z) (a b : string) (p : gmap string string) (c : gmap string (list string)) : string := a +:+ b.
Definition intn (seed n : Z) (k : nat) : Z := (seed + Z.of_nat k * Z.of_nat k) mod n.
Definition any_order (i j : nat) (A : Type) (m : gmap string A) : list (string * A) := map_to_list m.
Definition run : res WalkForwardResult * (nat * list (Call Z)) :=
  RunWalkForward runners digest marshalPolicy marshalFamily marshalHoldout marshalSpec formatTime marshalSamples marshalFit marshalSelection
    intn in_order any_order true manifest samples (0%nat, []).
Definition no_ci : ConfidenceInterval := unavailable.
Definition empty_result : WalkForwardResult :=
  mkWalkForward "" "" [] (mkEvaluation "" "" 0 (mkSummary no_ci no_ci no_ci no_ci no_ci no_ci no_ci no_ci no_ci no_ci no_ci no_ci no_ci) 0 "" ""
    (mkDomination fzero fzero fzero false) [] false).
Definition result_of (r : res WalkForwardResult) : WalkForwardResult := match r with Ok x => x | _ => empty_result end.
Definition result : WalkForwardResult := result_of run.1.
Definition calls : list (Call Z) := run.2.2.
Lemma run_eq : RunWalkForward runners digest marshalPolicy marshalFamily marshalHoldout marshalSpec formatTime marshalSamples marshalFit marshalSelection
    intn in_order any_order true manifest samples (0%nat, []) = (Ok result, (2%nat, calls)).
Proof. vm_compute. reflexivity. Qed.
Example run_passed : Ev_Passed (WF_Aggregate result) = true.
Proof. vm_compute. reflexivity. Qed.
Definition verified : res unit := Manifest_Verify digest marshalPolicy marshalFamily marshalHoldout marshalSpec formatTime in_order manifest.

(** ** A text for what is written: only what tells the values apart *)
Definition marshalMetrics (m : FoldMetrics) : res string := Ok (String.concat "," (map_keys (FM_TradeContributions m))).
Definition marshalAggregate (e : Evaluation) : res string := Ok (Ev_StudyType e).
Definition marshalFold (f : FoldResult) : res string := Ok (Itoa (Fo_Index (FR_Fold f))).
Definition marshalFrozen (f : FrozenDecision) : res string := Ok (FD_ArtifactDigest f).
Definition marshalRoot (r : compactEvidenceRoot) : res string := Ok (Ro_Status r).
Definition unmarshalFold (text : string) : res FoldResult :=
  match List.find (fun f => Itoa (Fo_Index (FR_Fold f)) =s text) (WF_Folds result) with Some f => Ok f | None => Err (Errorf "no such fold" []) end.
Definition errorText (e : error) : string := "error".
Definition prepare : res preparedEvidence :=
  prepareEvidenceForPersistence digest marshalPolicy marshalFamily marshalHoldout marshalSpec formatTime marshalMetrics marshalAggregate
    marshalFold marshalFrozen marshalRoot errorText intn in_order any_order manifest (Some result) None.
Definition prepared : preparedEvidence := match prepare with Ok p => p | _ => mkPrepared "" "" "" "" [] end.
Lemma prepare_eq : prepareEvidenceForPersistence digest marshalPolicy marshalFamily marshalHoldout marshalSpec formatTime marshalMetrics marshalAggregate
    marshalFold marshalFrozen marshalRoot errorText intn in_order any_order manifest (Some result) None = Ok prepared.
Proof. vm_compute. reflexivity. Qed.
Definition unmarshalRoot (text : string) : res compactEvidenceRoot := Ok (root_of manifest result (PF_Ref <$> PE_Folds prepared)).
Lemma intn_below seed n k : 0 < n -> 0 <= intn seed n k < n.
Proof. intros H. by apply Z.mod_pos_bound. Qed.
End Experiment.

(** * Witnesses *)
Section Witnesses.
Import Experiment.
Lemma NewManifest_verifies_witness : verified = Ok tt.
Proof.
  apply (NewManifest_verifies digest marshalPolicy marshalFamily marshalHoldout marshalSpec formatTime in_order in_order spec 123456 manifest);
    [by intros ? | by intros ? | | exact manifest_ok].
  apply (bool_decide_unpack _). vm_compute. exact I.
Defined.
Lemma ValidateFolds_spec_witness : fold_at (mkInterval 1000 2000) 0 (fold 0 1000) /\ Iv_End (Fo_Test (fold 0 1000)) <= Iv_Start (Fo_Test (fold 1 1100)).
Proof.
  destruct (ValidateFolds_spec folds (mkInterval 1000 2000) 2) as (_ & H1 & H2); [cbn; lia | vm_compute; reflexivity |].
  split; [by apply (H1 0%nat) | by apply (H2 0%nat 1%nat); [lia|..]].
Defined.
Lemma Evaluate_result_witness : if Do_Dominated (domination (WF_Folds result))
  then exists details, Evaluate intn (WF_Folds result) (EM_Spec manifest) = Err (DiagnosticError DiagnosticDominated "" details)
  else exists ev, Evaluate intn (WF_Folds result) (EM_Spec manifest) = Ok ev.
Proof.
  apply (Evaluate_result intn intn_below). split_and!; try (apply (bool_decide_unpack _); vm_compute; exact I).
  assert (E : exists f g, WF_Folds result = [f; g] /\ fold_usable (EM_Spec manifest) f /\ fold_usable (EM_Spec manifest) g).
  { eexists _, _. split; [vm_compute; reflexivity|]. split; split; try (vm_compute; reflexivity); intros v Hv; vm_compute in Hv; injection Hv as <-; reflexivity. }
  destruct E as (f & g & -> & Hf & Hg). by rewrite Forall_cons, Forall_singleton.
Defined.
Lemma RunWalkForward_sealed_witness : sealed runners digest marshalSamples marshalFit marshalSelection intn any_order manifest samples calls (Ok result).
Proof.
  apply (RunWalkForward_sealed runners digest marshalPolicy marshalFamily marshalHoldout marshalSpec formatTime marshalSamples marshalFit marshalSelection
    intn in_order any_order true manifest samples 0%nat (Ok result) 2%nat calls). exact run_eq.
Defined.
Lemma RunWalkForward_no_leakage_witness :
  exists r1 r2 f g train validation allowed fit artifact test primitives a b,
    CallFit r1 f train validation allowed fit ∈ calls /\ CallTest r2 g artifact test primitives ∈ calls /\ a ∈ train ++ validation /\ b ∈ test /\
    Sa_FeatureEnd a + MS_Purge (EM_Spec manifest) <= Sa_ObservedAt b /\ Sa_LabelEnd a + MS_Purge (EM_Spec manifest) <= Sa_ObservedAt b.
Proof.
  assert (E : exists r1 r2 f train validation allowed fit artifact test primitives a b,
    CallFit r1 f train validation allowed fit ∈ calls /\ CallTest r2 f artifact test primitives ∈ calls /\ a ∈ train ++ validation /\ b ∈ test).
  { do 12 eexists. split_and!.
    - apply list_elem_of_lookup. exists 1%nat. vm_compute. reflexivity.
    - apply list_elem_of_lookup. exists 4%nat. vm_compute. reflexivity.
    - apply list_elem_of_lookup. exists 0%nat. vm_compute. reflexivity.
    - apply list_elem_of_lookup. exists 0%nat. vm_compute. reflexivity. }
  destruct E as (r1 & r2 & f & train & validation & allowed & fit & artifact & test & primitives & a & b & H1 & H2 & H3 & H4).
  exists r1, r2, f, f, train, validation, allowed, fit, artifact, test, primitives, a, b.
  assert (Hp : MS_Purge (EM_Spec manifest) < 2 ^ 63) by (vm_compute; reflexivity).
  assert (Hi : 0 <= Iv_Start (MS_Interval (EM_Spec manifest))) by (vm_compute; discriminate).
  split; [exact H1|]. split; [exact H2|]. split; [exact H3|]. split; [exact H4|].
  exact (RunWalkForward_no_leakage runners digest marshalPolicy marshalFamily marshalHoldout marshalSpec formatTime marshalSamples marshalFit marshalSelection
    intn in_order any_order true manifest samples 0%nat (Ok result) 2%nat calls Hp Hi run_eq r1 r2 f train validation allowed fit artifact test primitives a b
    H1 H2 H3 H4).
Defined.
Lemma RunWalkForward_persistable_witness : validateResultForPersistence marshalMetrics marshalAggregate intn any_order manifest result = Ok tt.
Proof.
  apply (RunWalkForward_persistable digest marshalPolicy marshalFamily marshalHoldout marshalSpec formatTime marshalMetrics marshalAggregate
    intn in_order runners marshalSamples marshalFit marshalSelection any_order any_order true manifest samples 0%nat result 2%nat calls);
    [exact run_eq | intros i m H; exact H | intros f _; eexists; reflexivity | eexists; reflexivity].
Defined.
Lemma prepared_evidence_round_trip_witness :
  hydratePreparedEvidence digest marshalMetrics marshalAggregate marshalFold marshalFrozen marshalRoot unmarshalFold unmarshalRoot errorText intn any_order
    manifest (id (PE_RootBytes prepared)) (stored_row id manifest 5 <$> PE_Folds prepared) = Ok (mkPersisted "" (EM_ID manifest) "passed" (Some result) None 0).
Proof.
  apply (prepared_evidence_round_trip digest marshalPolicy marshalFamily marshalHoldout marshalSpec formatTime marshalMetrics marshalAggregate marshalFold
    marshalFrozen marshalRoot unmarshalFold unmarshalRoot errorText intn in_order id any_order any_order manifest result prepared 5); [ | | intros i m H; exact H | exact prepare_eq].
  - intros f b Hf Hb. split; [|injection Hb as <-; unfold id, slen; lia]. injection Hb as <-. revert f Hf. apply Forall_forall.
    assert (E : Forall (fun f => unmarshalFold (Itoa (Fo_Index (FR_Fold f))) = Ok f) (WF_Folds result)) by (vm_compute; repeat constructor). exact E.
  - intros b [= <-]. split; [done | vm_compute; discriminate].
Defined.
End Witnesses.
