(* ===== verification/ResearchSamples.v ===== *)
(** * ResearchSamples: a small research history

    A repository with an exploratory and two confirmatory experiments, the job
    that runs the first of them and the evaluation of a small model: where the
    theorems on research apply, and what a family that is named by the client
    allows. *)
From Stdlib Require Import Ascii SpecFloat.
From stdpp Require Import base numbers strings gmap list relations.
From S2P Require Import Prelude GoStrings GoFloat GoTime Snapshots ValidationTypes Splits FoldMetrics Manifest ManifestProofs Evaluation WalkForward Evidence EvidenceProofs MLEvaluation MLProofs Cutover Research ResearchFacts ResearchProofs ValidationSamples.
Local Open Scope Z_scope.

Module Study.
(** ** A digest of 64 hexadecimal digits *)
Fixpoint polynomial (h : Z) (s : string) : Z :=
  match s with EmptyString => h | String c rest => polynomial (Z.land (h * 33 + byte c) 16777215) rest end.
Fixpoint nibbles (n : nat) (h : Z) (text : string) : string :=
  match n with
  | O => text
  | S n' => nibbles n' (Z.shiftr h 4) (String (match String.get (Z.to_nat (Z.land h 15)) "0123456789abcdef" with Some c => c | None => "0"%char end) text)
  end.
Definition digest (s : string) : string := nibbles 64 (polynomial 5381 s) "".

(** ** The experiments *)
Definition marshalPolicy := Experiment.marshalPolicy.
Definition marshalFamily := Experiment.marshalFamily.
Definition marshalHoldout := Experiment.marshalHoldout.
Definition formatTime := Experiment.formatTime.
Definition in_order := Experiment.in_order.
Definition marshalRef (v : VersionRef) : string := VR_ID v +:+ VR_Version v.
Definition marshalSpec (s : ManifestSpec) : res string := Ok (MS_StudyType s +:+ ":" +:+ MS_FamilyID s).
Definition policy : AuthorityPolicyEnvelope := Experiment.policy_of (NewAuthorityPolicyEnvelope digest marshalPolicy in_order Experiment.payload).
Definition base (study family : string) (exploratory : bool) (holdout : option ConfirmatoryHoldoutContract) (folds : list Fold) (jobs : list Z)
    (metrics : list string) (samples : SampleRequirements) (elapsed : gmap string Duration) : ManifestSpec :=
  let s := Experiment.spec in
  mkSpec "" study exploratory family holdout "rev" (MS_Candidate s) (MS_Baseline s) None None (MS_Policies s) (MS_GovernancePolicy s) policy
    Experiment.hex Experiment.hex Experiment.hex "universe" (MS_Interval s) "utc" "utc" 7 (MS_ExecutionSemantics s) (MS_CapacityStress s) None folds jobs
    5 10 1 2 (MS_AllowedTuning s) metrics "chronological_test_window" 5 samples (MS_PromotionThresholds s) (MS_RollbackThresholds s) elapsed
    (MS_Artifacts s) (MS_Reproduce s) None.
Definition study : ManifestSpec := base "exploratory" "" true None Experiment.folds [] (MS_Metrics Experiment.spec) (MS_Samples Experiment.spec) ∅.
Definition holdout (family : string) : option ConfirmatoryHoldoutContract :=
  match NewConfirmatoryHoldoutContract digest marshalHoldout family Experiment.hex (MS_Interval Experiment.spec) with Ok h => Some h | _ => None end.
(** A confirmatory experiment of the family that the client names. *)
Definition confirm (family : string) : ManifestSpec :=
  base "confirmatory" family false (holdout family) (Experiment.folds ++ [Experiment.fold 2 1200]) [1; 2; 3] RequiredConfirmatoryMetrics (mkRequirements 3 3 10 1 2)
    {["paper" := 1; "limited_live" := 1; "full_live" := 1]}.
Definition family1 : string := digest "one".
Definition family2 : string := digest "another".
Definition create (spec : ManifestSpec) : ExperimentManifest :=
  Experiment.manifest_of (NewManifest digest marshalPolicy marshalFamily marshalHoldout marshalSpec formatTime in_order spec 123456).
Definition explore : ExperimentManifest := create study.
Definition confirm1 : ExperimentManifest := create (confirm family1).
Definition confirm2 : ExperimentManifest := create (confirm family2).
Definition specs : list ManifestSpec := [EM_Spec explore; EM_Spec confirm1; EM_Spec confirm2].
Definition text_of {A} (o : option A) : res A := match o with Some a => Ok a | None => Err (Errorf "no such text" []) end.
Definition unmarshalSpec (text : string) : res ManifestSpec := text_of (List.find (fun s => MS_StudyType s +:+ ":" +:+ MS_FamilyID s =s text) specs).

(** ** The runs, and a text for what is written *)
Definition walk : res WalkForwardResult :=
  (RunWalkForward Experiment.runners digest marshalPolicy marshalFamily marshalHoldout marshalSpec formatTime Experiment.marshalSamples Experiment.marshalFit
    Experiment.marshalSelection Experiment.intn in_order Experiment.any_order true explore Experiment.samples (0%nat, [])).1.
Definition result : WalkForwardResult := Experiment.result_of walk.
Definition marshalMetrics := Experiment.marshalMetrics.
Definition marshalAggregate := Experiment.marshalAggregate.
Definition marshalFold := Experiment.marshalFold.
Definition marshalFrozen := Experiment.marshalFrozen.
Definition marshalRoot (r : compactEvidenceRoot) : res string := Ok (Ro_ExperimentID r +:+ Ro_Status r).
Definition errorText := Experiment.errorText.
Definition unmarshalFold (text : string) : res FoldResult :=
  text_of (List.find (fun f => Itoa (Fo_Index (FR_Fold f)) =s text) (WF_Folds result)).
Definition or_none (r : res preparedEvidence) : preparedEvidence := match r with Ok p => p | _ => mkPrepared "" "" "" "" [] end.
Definition prepared : preparedEvidence :=
  or_none (prepareEvidenceForPersistence digest marshalPolicy marshalFamily marshalHoldout marshalSpec formatTime marshalMetrics marshalAggregate marshalFold
    marshalFrozen marshalRoot errorText Experiment.intn in_order Experiment.any_order explore (Some result) None).
Definition unmarshalRoot (text : string) : res compactEvidenceRoot :=
  if text =s EM_ID explore +:+ "passed" then Ok (root_of explore result (PF_Ref <$> PE_Folds prepared)) else Err (Errorf "no such root" []).
Definition jsonb (text : string) : res string := Ok text.
Definition marshalOutcome (a b c : string) : string := a +:+ b +:+ c.
Definition unmarshalLegacy (text : string) : res legacyEvidence := Err (Errorf "no such text" []).
Definition marshalLegacy (l : legacyEvidence) : res string := Ok (Le_ExperimentID l).
Definition marshalFolds (l : list FoldResult) : res string := Ok (String.concat "," ((fun f => Itoa (Fo_Index (FR_Fold f))) <$> l)).
Definition marshalOutcomes (l : list MLOutcome) : res string := Ok (String.concat "," (MO_ID <$> l)).
Definition marshalPayload (a b c : string) (p : MLProvenance) (d : string) (e : MLEvaluation) (at_ : Time) : res string := Ok (a +:+ b +:+ c +:+ d).
Definition marshalML (e : ImmutableMLEvidence) : res string := Ok (Im_ID e).
Definition unmarshalML (text : string) : res ImmutableMLEvidence := Err (Errorf "no such text" []).
Definition exposures (m : gmap string float64) : list (string * float64) := map_to_list m.
Definition observation (f : Flags) (purpose : string) (m : gmap string string) : string := purpose.

(** ** The history *)
Abbreviation CreateManifest_ m :=
  (CreateManifestAuthenticated true None observation digest marshalPolicy marshalFamily marshalHoldout marshalSpec unmarshalSpec marshalRef formatTime errorText
    jsonb truncate_micro in_order m None None "researcher" "").
Abbreviation LoadManifest_ id_ :=
  (LoadManifest digest marshalPolicy marshalFamily marshalHoldout marshalSpec unmarshalSpec formatTime errorText in_order id_).
Abbreviation Persist id_ result failure at_ :=
  (PersistEvidence digest marshalPolicy marshalFamily marshalHoldout marshalSpec unmarshalSpec marshalOutcome formatTime marshalMetrics marshalAggregate
    marshalFold marshalFrozen marshalRoot unmarshalFold unmarshalRoot errorText jsonb truncate_micro Experiment.intn in_order Experiment.any_order
    unmarshalLegacy marshalLegacy id_ result failure at_).
Definition source : ExperimentSource (W := nat) (R := Z) := mkSource (fun _ => sret (Experiment.samples, Some Experiment.runners)) None.
Abbreviation Run_ id_ :=
  (Run true digest marshalPolicy marshalFamily marshalHoldout marshalSpec unmarshalSpec marshalOutcome formatTime marshalMetrics marshalAggregate
    marshalFold marshalFrozen marshalRoot unmarshalFold unmarshalRoot errorText jsonb truncate_micro Experiment.intn in_order Experiment.any_order
    unmarshalLegacy marshalLegacy marshalFolds marshalOutcomes marshalPayload marshalML unmarshalML exposures
    Experiment.marshalSamples Experiment.marshalFit Experiment.marshalSelection Experiment.any_order (Some source) 654321 id_).
Abbreviation commands :=
  (step true None observation digest marshalPolicy marshalFamily marshalHoldout marshalSpec unmarshalSpec marshalRef marshalOutcome formatTime marshalMetrics
    marshalAggregate marshalFold marshalFrozen marshalRoot unmarshalFold unmarshalRoot errorText jsonb truncate_micro Experiment.intn in_order
    Experiment.any_order unmarshalLegacy marshalLegacy marshalPayload marshalML unmarshalML).
Definition s1 : Store := (CreateManifest_ explore empty_store).2.
Definition s2 : Store := (CreateManifest_ confirm1 s1).2.
Abbreviation ran := (Run_ (EM_ID explore) (s2, (0%nat, []))).
Definition s3 : Store := ran.2.1.
(** What the job left: the evidence it answers with, and the only outcome. *)
Definition evidence_of_run (r : res (PersistedEvidence * option error)) : PersistedEvidence :=
  match r with Ok (e, _) => e | _ => mkPersisted "" "" "" None None 0 end.
Definition evidence : PersistedEvidence := evidence_of_run ran.1.
Definition first_outcome (l : list (string * AttemptOutcome)) : string * AttemptOutcome :=
  match l with ko :: _ => ko | [] => ("", mkAttemptOutcome "" "" "" "" "" "" 0) end.
Definition outcome : string * AttemptOutcome := first_outcome (map_to_list (outcomes s3)).
Definition passes (id_ : string) (x : res (PersistedEvidence * option error) * (Store * (nat * list (Call Z)))) : bool :=
  match x.1, map_to_list (outcomes x.2.1) with
  | Ok (e, None), [(k, o)] => (Oc_ExperimentID o =s id_) && (Pe_ID e =s Oc_EvidenceID o)
  | _, _ => false
  end.
Lemma passes_eq id_ x : passes id_ x = true ->
  x = (Ok (evidence_of_run x.1, None), (x.2.1, x.2.2)) /\
  let ko := first_outcome (map_to_list (outcomes x.2.1)) in
  outcomes x.2.1 !! ko.1 = Some ko.2 /\ Oc_ExperimentID ko.2 = id_ /\ Pe_ID (evidence_of_run x.1) = Oc_EvidenceID ko.2.
Proof.
  destruct x as [[[e [|]]|e|w] [s y]]; [done| |done..]. unfold passes. cbn [fst snd].
  destruct (map_to_list (outcomes s)) as [|[k o] [|]] eqn:E; [done| |done]. intros [H1%String.eqb_eq H2%String.eqb_eq]%andb_true_iff.
  split; [done|]. cbn. split; [|done]. apply elem_of_map_to_list. rewrite E. left.
Qed.
Lemma run_passes : passes (EM_ID explore) ran = true.
Proof. vm_compute. reflexivity. Qed.
Lemma study_eq : ran = (Ok (evidence, None), (s3, ran.2.2)).
Proof. exact (proj1 (passes_eq (EM_ID explore) ran run_passes)). Qed.
Lemma outcome_at : outcomes s3 !! outcome.1 = Some outcome.2.
Proof. exact (proj1 (proj2 (passes_eq (EM_ID explore) ran run_passes))). Qed.
Lemma outcome_experiment : Oc_ExperimentID outcome.2 = EM_ID explore.
Proof. exact (proj1 (proj2 (proj2 (passes_eq (EM_ID explore) ran run_passes)))). Qed.
Lemma evidence_ID : Pe_ID evidence = Oc_EvidenceID outcome.2.
Proof. exact (proj2 (proj2 (proj2 (passes_eq (EM_ID explore) ran run_passes)))). Qed.
Lemma survives_study spec : unmarshalSpec (MS_StudyType spec +:+ ":" +:+ MS_FamilyID spec) = Ok spec -> survives marshalSpec unmarshalSpec jsonb spec.
Proof. intros H text stored [= <-] [= <-]. exact H. Qed.
Lemma reached (m : ExperimentManifest) (s : Store) :
  unmarshalSpec (MS_StudyType (EM_Spec m) +:+ ":" +:+ MS_FamilyID (EM_Spec m)) = Ok (EM_Spec m) -> commands s (CreateManifest_ m s).2.
Proof.
  intros H. eapply step_create; [exact (survives_study (EM_Spec m) H)|]. apply (surjective_pairing (CreateManifest_ m s)).
Qed.
Lemma reached1 : commands empty_store s1.
Proof. apply (reached explore empty_store). vm_compute. reflexivity. Qed.
Lemma reached2 : commands s1 s2.
Proof. apply (reached confirm1 s1). vm_compute. reflexivity. Qed.
Lemma reachable2 : rtc commands empty_store s2.
Proof. eapply rtc_l; [exact reached1|]. apply rtc_once, reached2. Qed.
Lemma reached3 : rtc commands s2 s3.
Proof. eapply commands_Run. exact study_eq. Qed.
Lemma reachable3 : rtc commands empty_store s3.
Proof. etrans; [exact reachable2 | exact reached3]. Qed.
Definition loaded (id_ : string) : ExperimentManifest := Experiment.manifest_of (LoadManifest_ id_ s2).1.
Lemma loads_eq (x : res ExperimentManifest * Store) s : x.2 = s -> is_ok x.1 = true -> x = (Ok (Experiment.manifest_of x.1), s).
Proof. destruct x as [[m|e|w] s']; [by intros <- | done..]. Qed.
Lemma loads id_ : is_ok (LoadManifest_ id_ s2).1 = true -> LoadManifest_ id_ s2 = (Ok (loaded id_), s2).
Proof.
  apply loads_eq. destruct (LoadManifest_ id_ s2) as [r s'] eqn:E. by apply reads_LoadManifest in E.
Qed.
Lemma explore_loads : LoadManifest_ (EM_ID explore) s2 = (Ok (loaded (EM_ID explore)), s2).
Proof. apply loads. vm_compute. reflexivity. Qed.
Lemma confirm_loads : LoadManifest_ (EM_ID confirm1) s2 = (Ok (loaded (EM_ID confirm1)), s2).
Proof. apply loads. vm_compute. reflexivity. Qed.

(** ** The outcomes of a small model *)
Definition prediction (id : string) (window probability return_ : Z) (positive : bool) : MLOutcome :=
  mkOutcome id window "BTC" (f_of_ratio probability 100) positive (f_of_ratio return_ 100) ["BTC"] fone ["BTC"] fone fzero {["BTC" := fone]} {["BTC" := fone]}.
Definition predictions : list MLOutcome :=
  [prediction "a" 1 10 (-1) false; prediction "b" 1 90 4 true; prediction "c" 2 20 (-1) false; prediction "d" 2 80 3 true].
Definition requirements : MLRequirements := mkMLRequirements 4 2 2 1 (f_of_ratio 1 100) fzero fzero fzero fzero.
Definition evaluation : res MLEvaluation := EvaluateML exposures predictions requirements.
End Study.

(** A locked holdout is not used up for another family: the same candidate is
    confirmed a second time on the same data and interval, under a family that
    only its client names. *)
Theorem holdout_reused_under_new_family :
  (MS_Candidate (EM_Spec Study.confirm1) = MS_Candidate (EM_Spec Study.confirm2) /\
   MS_DatasetManifestHash (EM_Spec Study.confirm1) = MS_DatasetManifestHash (EM_Spec Study.confirm2) /\
   CH_Interval <$> MS_ConfirmatoryHoldout (EM_Spec Study.confirm1) = CH_Interval <$> MS_ConfirmatoryHoldout (EM_Spec Study.confirm2)) /\
  is_ok (Study.CreateManifest_ Study.confirm1 Study.s1).1 = true /\ is_ok (Study.CreateManifest_ Study.confirm2 Study.s2).1 = true /\
  bool_decide (EM_ID Study.confirm1 = EM_ID Study.confirm2) = false.
Proof. split_and!; vm_compute; reflexivity. Qed.

(** * Witnesses *)
Section Witnesses.
Import Study.
Local Notation "'on_study' f" := (f true None observation digest marshalPolicy marshalFamily marshalHoldout marshalSpec unmarshalSpec marshalRef marshalOutcome formatTime marshalMetrics
    marshalAggregate marshalFold marshalFrozen marshalRoot unmarshalFold unmarshalRoot errorText jsonb truncate_micro Experiment.intn in_order
    Experiment.any_order unmarshalLegacy marshalLegacy) (at level 10).
Lemma holdout_single_use_witness : has_attempt s2 (loaded (EM_ID explore)) /\ has_attempt s2 (loaded (EM_ID confirm1)).
Proof.
  apply (on_study holdout_single_use marshalPayload marshalML unmarshalML s2 (EM_ID explore) (EM_ID confirm1) (loaded (EM_ID explore)) (loaded (EM_ID confirm1)));
    [exact reachable2 | exact explore_loads | exact confirm_loads].
Defined.
Lemma research_immutable_witness : extends s2 s3.
Proof. apply (on_study research_immutable marshalPayload marshalML unmarshalML s2 s3); [exact reachable2 | exact reached3]. Defined.
Lemma PersistEvidence_final_witness : (Persist (Oc_ExperimentID outcome.2) None (Some (Errorf "too late" [])) 777 s3).2 = s3.
Proof.
  destruct (Persist (Oc_ExperimentID outcome.2) None (Some (Errorf "too late" [])) 777 s3) as [r s'] eqn:E.
  destruct (on_study PersistEvidence_final marshalPayload marshalML unmarshalML s3 outcome.1 outcome.2 None (Some (Errorf "too late" [])) 777 r s'
    reachable3 outcome_at E) as [H _]. exact H.
Defined.
Lemma probabilities_are_floats : Forall (fun o => is_float (MO_Probability o)) predictions.
Proof. repeat constructor. Qed.
Lemma EvaluateML_total_witness : evaluation <> Panic "index out of range".
Proof. apply (EvaluateML_total exposures predictions requirements "index out of range" probabilities_are_floats). Defined.
End Witnesses.
