(* ===== verification/Governance.v ===== *)
(** * Governance: the promotion of an experiment to authority

    [internal/governance/service.go] over its tables: approvals, transitions,
    deployments and monitoring evidence, with the constraints and the write
    guard of the migrations. What the service asks of validation is the class
    [Validation]; the repository of [Research] is its instance. JSON, SHA-256,
    the text of a [jsonb] column and the precision of a time column are
    parameters. A transaction is one step. *)
From Stdlib Require Import Ascii SpecFloat.
From stdpp Require Import base numbers strings gmap list.
From S2P Require Import Prelude GoStrings GoFloat GoTime Snapshots ValidationTypes Splits FoldMetrics Manifest Evaluation WalkForward Evidence MLEvaluation Cutover Research.
Local Open Scope Z_scope.

(** ** States, codes and principals *)
Abbreviation State := string (only parsing).
Definition StateResearch : State := "research".
Definition StateShadow : State := "shadow".
Definition StatePaper : State := "paper".
Definition StateLimitedLive : State := "limited_live".
Definition StateFullLive : State := "full_live".
Definition StateRollback : State := "rollback".
Definition CodeIllegalTransition : string := "illegal_transition".
Definition CodeApprovalRequired : string := "human_approval_required".
Definition CodeApprovalMismatch : string := "approval_mismatch_or_stale".
Definition CodeEvidenceFailed : string := "validation_evidence_failed".
Definition CodeVersionMismatch : string := "experiment_version_mismatch".
Definition CodeArtifactQuarantined : string := "artifact_class_quarantined".
Definition CodeElapsedEvidence : string := "elapsed_evidence_insufficient".
Definition CodeRollbackGate : string := "rollback_threshold_not_met".
Definition CodeFallbackRequired : string := "fallback_required".
Definition CodeIntegrity : string := "governance_integrity_failure".
Definition CodeUnauthorized : string := "governance_unauthorized".
Definition CapabilityResearch : string := "research".
Definition CapabilityApprove : string := "approve".
Definition CapabilityTransition : string := "transition".
Definition CapabilityRollback : string := "rollback".
Record Principal : Type := mkPrincipal { Pr_id : string; Pr_capabilities : gset string; Pr_trusted : bool }.
Definition NewTrustedPrincipal (id : string) (capabilities : list string) : Principal :=
  mkPrincipal (TrimSpace id) (list_to_set capabilities) true.
Definition Principal_Has (p : Principal) (capability : string) : bool := Pr_trusted p && bool_decide (capability ∈ Pr_capabilities p).
Definition Principal_require (p : Principal) (capability : string) : res unit :=
  if negb (Pr_trusted p) || (Pr_id p =s "") then Err (GovernanceError CodeUnauthorized "trusted principal is required") else
  failIf (negb (bool_decide (capability ∈ Pr_capabilities p))) (GovernanceError CodeUnauthorized ("missing capability: " +:+ capability)).
Definition legal (from to : State) : bool :=
  if from =s "" then to =s StateResearch else
  (if from =s StateResearch then StateShadow else if from =s StateShadow then StatePaper else
   if from =s StatePaper then StateLimitedLive else if from =s StateLimitedLive then StateFullLive else "") =s to.
Definition known_states : list State := [StateResearch; StateShadow; StatePaper; StateLimitedLive; StateFullLive; StateRollback].
Definition knownState (s : State) : bool := existsb (String.eqb s) known_states.

(** ** Tables *)
Record Approval : Type := mkApproval {
  Ap_ID : string; Ap_IdempotencyKey : string; Ap_ExperimentID : string; Ap_EvidenceID : string; Ap_TargetState : string; Ap_ArtifactVersion : string;
  Ap_PolicyVersion : string; Ap_Approver : string; Ap_Reason : string; Ap_ApprovedAt : Time; Ap_ContentDigest : string; Ap_SourceState : string;
  Ap_SourceActivatedAt : Time; Ap_AuthorityPolicyDigest : string; Ap_EvidenceDigest : string; Ap_ExpiresAt : Time }.
Record Deployment : Type := mkDeployment {
  Dp_ContextKey : string; Dp_ExperimentID : string; Dp_EvidenceID : string; Dp_State : string; Dp_ArtifactVersion : string; Dp_PolicyVersion : string;
  Dp_FallbackVersion : string; Dp_ActivatedAt : Time; Dp_UpdatedAt : Time; Dp_AuthorityPolicyJSON : string; Dp_AuthorityPolicyDigest : string;
  Dp_TransitionID : string }.
Record TransitionRow : Type := mkTransition {
  Tr_ID : string; Tr_IdempotencyKey : string; Tr_ContextKey : string; Tr_ExperimentID : string; Tr_EvidenceID : string; Tr_ApprovalID : option string;
  Tr_FromState : string; Tr_ToState : string; Tr_ArtifactVersion : string; Tr_FallbackVersion : string; Tr_Reason : string; Tr_ContentDigest : string;
  Tr_CreatedAt : Time; Tr_PolicyVersion : string; Tr_AuthorityPolicyDigest : string; Tr_ApprovalDigest : string; Tr_EvidenceDigest : string;
  Tr_MonitoringEvidenceID : option string; Tr_MonitoringEvidenceDigest : string; Tr_Actor : string }.
Record Monitoring : Type := mkMonitoring {
  Mo_ID : string; Mo_ContextKey : string; Mo_ExperimentID : string; Mo_DeploymentTransitionID : string; Mo_AuthorityPolicyDigest : string;
  Mo_ArtifactVersion : string; Mo_WindowStart : Time; Mo_WindowEnd : Time; Mo_ExpectedObservations : Z; Mo_ObservedObservations : Z;
  Mo_MetricsJSON : string; Mo_ContentDigest : string; Mo_CreatedAt : Time }.
(** The tables of research, and those of governance by primary key. *)
Record GovDB : Type := mkGovDB {
  gv_research : Store; gv_approvals : gmap string Approval; gv_deployments : gmap string Deployment; gv_transitions : gmap string TransitionRow;
  gv_monitors : gmap string Monitoring; gv_settings : gmap string string }.
Definition Gov (A : Type) : Type := stM GovDB A.
Definition set_research f g := mkGovDB (f (gv_research g)) (gv_approvals g) (gv_deployments g) (gv_transitions g) (gv_monitors g) (gv_settings g).
Definition set_approvals f g := mkGovDB (gv_research g) (f (gv_approvals g)) (gv_deployments g) (gv_transitions g) (gv_monitors g) (gv_settings g).
Definition set_deployments f g := mkGovDB (gv_research g) (gv_approvals g) (f (gv_deployments g)) (gv_transitions g) (gv_monitors g) (gv_settings g).
Definition set_transitions f g := mkGovDB (gv_research g) (gv_approvals g) (gv_deployments g) (f (gv_transitions g)) (gv_monitors g) (gv_settings g).
Definition set_monitors f g := mkGovDB (gv_research g) (gv_approvals g) (gv_deployments g) (gv_transitions g) (f (gv_monitors g)) (gv_settings g).
Definition set_settings f g := mkGovDB (gv_research g) (gv_approvals g) (gv_deployments g) (gv_transitions g) (gv_monitors g) (f (gv_settings g)).
Definition on_research {A} (m : Tx A) : Gov A := fun g => let '(r, s) := m (gv_research g) in (r, set_research (const s) g).
(** The sizes of the columns. *)
Definition sizes (l : list (Z * (string * string))) : res unit := forM_ (fun c => varchar c.1 c.2.1 c.2.2) l.
Definition stringValue (v : option string) : string := default "" v.

(** What governance asks of the validation repository. *)
Class Validation : Type := mkValidation {
  V_LoadManifest : string -> Tx ExperimentManifest;
  V_LoadEvidence : string -> Tx PersistedEvidence;
  V_LoadMLEvidenceForExperiment : string -> Tx ImmutableMLEvidence;
  V_FoldResultsDigest : list FoldResult -> res string }.

Section Governance.
Context `{Validation}.
Context (connected : bool) (sha256hex : string -> string) (MarshalPolicy : string -> gmap string string -> string)
  (policyOrder : gmap string string -> list (string * string)).
Context (MarshalApproval : Approval -> string) (MarshalTransition : TransitionRow -> string) (MarshalMonitoring : Monitoring -> string -> string)
  (MarshalEnvelope : AuthorityPolicyEnvelope -> string) (UnmarshalEnvelope : string -> res AuthorityPolicyEnvelope)
  (MarshalValues : gmap string float64 -> string) (UnmarshalValues : string -> res (gmap string float64)) (CanonicalJSON : string -> option string).
Context (jsonb : string -> res string) (column_time : Time -> Time).
Abbreviation WithRollout e state := (WithRolloutState sha256hex MarshalPolicy policyOrder e state).
Definition govern {A} (code details : string) : Gov A := slift (Err (GovernanceError code details)).

(** ** Digests *)

(** The digest covers every column but the identity and the digest itself. *)
Definition approvalDigest (row : Approval) : string :=
  sha256hex (MarshalApproval (mkApproval "" (Ap_IdempotencyKey row) (Ap_ExperimentID row) (Ap_EvidenceID row) (Ap_TargetState row) (Ap_ArtifactVersion row)
    (Ap_PolicyVersion row) (Ap_Approver row) (Ap_Reason row) (Ap_ApprovedAt row) "" (Ap_SourceState row) (Ap_SourceActivatedAt row) (Ap_AuthorityPolicyDigest row)
    (Ap_EvidenceDigest row) (Ap_ExpiresAt row))).
Definition transitionDigest (row : TransitionRow) : string :=
  sha256hex (MarshalTransition (mkTransition "" (Tr_IdempotencyKey row) (Tr_ContextKey row) (Tr_ExperimentID row) (Tr_EvidenceID row) (Tr_ApprovalID row)
    (Tr_FromState row) (Tr_ToState row) (Tr_ArtifactVersion row) (Tr_FallbackVersion row) (Tr_Reason row) "" (Tr_CreatedAt row) (Tr_PolicyVersion row)
    (Tr_AuthorityPolicyDigest row) (Tr_ApprovalDigest row) (Tr_EvidenceDigest row) (Tr_MonitoringEvidenceID row) (Tr_MonitoringEvidenceDigest row) (Tr_Actor row))).
Definition monitoringDigest (row : Monitoring) : string :=
  sha256hex (MarshalMonitoring (mkMonitoring "" (Mo_ContextKey row) (Mo_ExperimentID row) (Mo_DeploymentTransitionID row) (Mo_AuthorityPolicyDigest row)
    (Mo_ArtifactVersion row) (Mo_WindowStart row) (Mo_WindowEnd row) (Mo_ExpectedObservations row) (Mo_ObservedObservations row) "" "" 0)
    (default (Mo_MetricsJSON row) (CanonicalJSON (Mo_MetricsJSON row)))).
Definition intact_approval (row : Approval) : bool := (Ap_ContentDigest row =s approvalDigest row) && (Ap_ID row =s sha256hex (Ap_ContentDigest row)).
Definition intact_transition (row : TransitionRow) : bool := (Tr_ContentDigest row =s transitionDigest row) && (Tr_ID row =s sha256hex (Tr_ContentDigest row)).
Definition VerifyApproval (row : Approval) : res unit := failIf (negb (intact_approval row)) (GovernanceError CodeIntegrity "approval digest mismatch").
Definition VerifyTransition (row : TransitionRow) : res unit := failIf (negb (intact_transition row)) (GovernanceError CodeIntegrity "transition digest mismatch").
Definition VerifyDeployment (row : Deployment) : Gov unit :=
  let! bound := slift (match UnmarshalEnvelope (Dp_AuthorityPolicyJSON row) with
    | Ok policy => match Envelope_Verify sha256hex MarshalPolicy policyOrder policy with
                   | Ok _ => Ok (AP_Digest policy =s Dp_AuthorityPolicyDigest row) | Err _ => Ok false | Panic w => Panic w end
    | Err _ => Ok false | Panic w => Panic w end) in
  if negb bound then govern CodeIntegrity "deployment policy digest mismatch" else
  let! g := get id in
  match gv_transitions g !! Dp_TransitionID row with
  | Some t =>
      if negb (intact_transition t) || (Tr_ContextKey t <>s Dp_ContextKey row) || (Tr_ToState t <>s Dp_State row) ||
         (Tr_AuthorityPolicyDigest t <>s Dp_AuthorityPolicyDigest row)
      then govern CodeIntegrity "deployment transition mismatch" else sret tt
  | None => govern CodeIntegrity "deployment transition mismatch"
  end.

(** ** The evidence of an experiment *)
Definition evidenceDigestTx (id_ : string) : Gov string :=
  let! g := get id in let! row := found (evidences (gv_research g) !! id_) in sret (Er_EvidenceDigest row).
Definition boundEvidence (manifestID evidenceID : string) : Gov (ExperimentManifest * PersistedEvidence) :=
  let! m := on_research (V_LoadManifest manifestID) in
  let! v := on_research (V_LoadEvidence evidenceID) in
  if Pe_ExperimentID v <>s EM_ID m then govern CodeVersionMismatch "evidence is not bound to experiment" else sret (m, v).
Definition verifyMLEvidence (m : ExperimentManifest) (v : PersistedEvidence) : Gov unit :=
  match MS_Model (EM_Spec m) with
  | None => sret tt
  | Some model =>
      let! loaded := attempt_ (on_research (V_LoadMLEvidenceForExperiment (EM_ID m))) in
      match loaded, Pe_Result v with
      | inr _, _ => govern CodeEvidenceFailed "immutable passing ML evidence is required"
      | inl _, None => govern CodeEvidenceFailed "walk-forward result missing"
      | inl ml, Some result =>
          let! digest := attempt_ (slift (V_FoldResultsDigest (WF_Folds result))) in
          if match digest with inl d => d =s Im_FoldEvidenceDigest ml | inr _ => false end && provenance_bound (Im_Provenance ml) model (EM_Spec m) &&
             ME_Passed (Im_Evaluation ml)
          then sret tt else govern CodeEvidenceFailed "ML evidence binding or gates failed"
      end
  end.
Definition matchVersions (m : ExperimentManifest) (artifact policy : string) : res unit :=
  let expected := match MS_Model (EM_Spec m) with Some model => MA_Version model | None => VR_Version (MS_Candidate (EM_Spec m)) end in
  failIf ((artifact <>s expected) || (policy <>s PB_Composite (MS_Policies (EM_Spec m))))
    (GovernanceError CodeVersionMismatch "artifact or policy differs from immutable experiment").
Definition authorityContext (m : ExperimentManifest) : string :=
  match MS_Model (EM_Spec m) with
  | Some model => "model:" +:+ MA_Version model
  | None => "strategy:" +:+ VR_ID (MS_Candidate (EM_Spec m)) +:+ "@" +:+ VR_Version (MS_Candidate (EM_Spec m))
  end.
Definition passing (v : PersistedEvidence) : bool :=
  (Pe_Status v =s "passed") && match Pe_Result v with Some result => Ev_Passed (WF_Aggregate result) | None => false end.

(** ** Approving *)
Record ApprovalRequest : Type := mkApprovalRequest {
  AR_IdempotencyKey : string; AR_ExperimentID : string; AR_EvidenceID : string; AR_TargetState : string; AR_ArtifactVersion : string; AR_PolicyVersion : string;
  AR_Reason : string; AR_ExpiresAt : Time }.
Definition now_ (clock : Time) : Time := truncate_micro clock.
Definition incomplete_approval (r : ApprovalRequest) : bool :=
  (AR_IdempotencyKey r =s "") || (AR_ExperimentID r =s "") || (AR_EvidenceID r =s "") || (AR_ArtifactVersion r =s "") || (AR_PolicyVersion r =s "") ||
  (TrimSpace (AR_Reason r) =s "") || negb (knownState (AR_TargetState r)).
Definition bad_expiry (expiry now : Time) : bool := IsZero expiry || negb (After expiry now) || After expiry (now + 7 * 24 * HourNs).
Definition approval_row (principal : Principal) (r : ApprovalRequest) (source : Deployment) (policy : AuthorityPolicyEnvelope) (evidenceDigest : string) (now : Time) : Approval :=
  let row id digest := mkApproval id (AR_IdempotencyKey r) (AR_ExperimentID r) (AR_EvidenceID r) (AR_TargetState r) (AR_ArtifactVersion r) (AR_PolicyVersion r)
    (Pr_id principal) (TrimSpace (AR_Reason r)) now digest (Dp_State source) (Dp_ActivatedAt source) (AP_Digest policy) evidenceDigest (AR_ExpiresAt r) in
  let digest := approvalDigest (row "" "") in row (sha256hex digest) digest.
Definition stored_approval (row : Approval) : Approval :=
  mkApproval (Ap_ID row) (Ap_IdempotencyKey row) (Ap_ExperimentID row) (Ap_EvidenceID row) (Ap_TargetState row) (Ap_ArtifactVersion row) (Ap_PolicyVersion row)
    (Ap_Approver row) (Ap_Reason row) (column_time (Ap_ApprovedAt row)) (Ap_ContentDigest row) (Ap_SourceState row) (column_time (Ap_SourceActivatedAt row))
    (Ap_AuthorityPolicyDigest row) (Ap_EvidenceDigest row) (column_time (Ap_ExpiresAt row)).
Definition check_approval (row : Approval) : res unit :=
  let* _ := sizes [(120, ("idempotency_key", Ap_IdempotencyKey row)); (64, ("experiment_id", Ap_ExperimentID row)); (64, ("evidence_id", Ap_EvidenceID row));
    (100, ("artifact_version", Ap_ArtifactVersion row)); (100, ("policy_version", Ap_PolicyVersion row)); (200, ("approver", Ap_Approver row));
    (1000, ("reason", Ap_Reason row)); (64, ("authority_policy_digest", Ap_AuthorityPolicyDigest row)); (64, ("evidence_digest", Ap_EvidenceDigest row))] in
  violation "23514" (knownState (Ap_TargetState row) && digests [Ap_ID row; Ap_ContentDigest row]) "governance_approval_state_check".
Definition in_research (s : Store) (experiment evidence : string) : bool :=
  bool_decide (is_Some (experiments s !! experiment)) && bool_decide (is_Some (evidences s !! evidence)).
Definition CreateApproval (row : Approval) : Gov bool :=
  let! g := get id in
  create (check_approval row) (exists_row (fun a => Ap_IdempotencyKey a =s Ap_IdempotencyKey row) (gv_approvals g)) (bool_decide (is_Some (gv_approvals g !! Ap_ID row)))
    (in_research (gv_research g) (Ap_ExperimentID row) (Ap_EvidenceID row)) (set_approvals (<[Ap_ID row := stored_approval row]>)).
Definition differs_approval (existing row : Approval) : bool :=
  (Ap_ExperimentID existing <>s Ap_ExperimentID row) || (Ap_EvidenceID existing <>s Ap_EvidenceID row) || (Ap_TargetState existing <>s Ap_TargetState row) ||
  (Ap_ArtifactVersion existing <>s Ap_ArtifactVersion row) || (Ap_PolicyVersion existing <>s Ap_PolicyVersion row) || (Ap_Approver existing <>s Ap_Approver row) ||
  (Ap_Reason existing <>s Ap_Reason row) || negb (Ap_ExpiresAt existing =? Ap_ExpiresAt row) || (Ap_SourceState existing <>s Ap_SourceState row) ||
  negb (Ap_SourceActivatedAt existing =? Ap_SourceActivatedAt row) || (Ap_EvidenceDigest existing <>s Ap_EvidenceDigest row) ||
  (Ap_AuthorityPolicyDigest existing <>s Ap_AuthorityPolicyDigest row).
Definition Approve (principal : Principal) (r : ApprovalRequest) (clock : Time) : Gov Approval :=
  let! _ := slift (Principal_require principal CapabilityApprove) in
  if negb connected then slift (Err (Errorf "governance database is required" [])) else
  if incomplete_approval r then govern CodeApprovalMismatch "complete approval identity, target, versions, actor, and reason are required" else
  let! mv := boundEvidence (AR_ExperimentID r) (AR_EvidenceID r) in
  let '(manifest, evidence) := mv in
  if negb (passing evidence) then govern CodeEvidenceFailed "" else
  let! _ := verifyMLEvidence manifest evidence in
  if MS_Exploratory (EM_Spec manifest) || (MS_StudyType (EM_Spec manifest) <>s "confirmatory")
  then govern CodeEvidenceFailed "exploratory evidence cannot promote" else
  let! _ := slift (matchVersions manifest (AR_ArtifactVersion r) (AR_PolicyVersion r)) in
  let now := now_ clock in
  if bad_expiry (AR_ExpiresAt r) now then govern CodeApprovalMismatch "bounded future approval expiry is required" else
  let! g := get id in
  match gv_deployments g !! authorityContext manifest with
  | None => govern CodeApprovalMismatch "source deployment does not exist"
  | Some source =>
      if Before now (Dp_ActivatedAt source) then govern CodeApprovalMismatch "approval predates source activation" else
      let! evidenceDigest := evidenceDigestTx (AR_EvidenceID r) in
      let! targetPolicy := slift (WithRollout (MS_AuthorityPolicy (EM_Spec manifest)) (AR_TargetState r)) in
      let row := approval_row principal r source targetPolicy evidenceDigest now in
      let! affected := CreateApproval row in
      if (affected : bool) then sret row else
      let! g := get id in
      let! existing := found (First (fun a => Ap_IdempotencyKey a =s AR_IdempotencyKey r) (gv_approvals g)) in
      if differs_approval existing row then govern CodeIntegrity "idempotency key replayed with different approval" else
      if negb (intact_approval existing) then govern CodeIntegrity "stored approval integrity check failed" else sret existing
  end.

(** ** Monitoring *)
Definition loadMonitoringEvidence (id_ : string) : Gov Monitoring :=
  let! g := get id in
  match gv_monitors g !! id_ with
  | None => govern CodeRollbackGate "monitoring evidence not found"
  | Some row =>
      if (Mo_ContentDigest row <>s monitoringDigest row) || (Mo_ID row <>s sha256hex (Mo_ContentDigest row))
      then govern CodeIntegrity "monitoring evidence integrity failed" else sret row
  end.
Record MonitoringEvidenceRequest : Type := mkMonitoringRequest {
  MR_ContextKey : string; MR_ExperimentID : string; MR_WindowStart : Time; MR_WindowEnd : Time; MR_ExpectedObservations : Z; MR_ObservedObservations : Z;
  MR_Metrics : gmap string float64 }.
Definition bad_window (r : MonitoringEvidenceRequest) (deployment : Deployment) (now : Time) : bool :=
  (Dp_ExperimentID deployment <>s MR_ExperimentID r) || Before (MR_WindowStart r) (Dp_ActivatedAt deployment) ||
  negb (After (MR_WindowEnd r) (MR_WindowStart r)) || After (MR_WindowEnd r) now || (MR_ExpectedObservations r <=? 0) || (MR_ObservedObservations r <? 0) ||
  (MR_ExpectedObservations r <? MR_ObservedObservations r).
Definition monitoring_row (r : MonitoringEvidenceRequest) (d : Deployment) (now : Time) : Monitoring :=
  let row id digest := mkMonitoring id (MR_ContextKey r) (MR_ExperimentID r) (Dp_TransitionID d) (Dp_AuthorityPolicyDigest d) (Dp_ArtifactVersion d)
    (MR_WindowStart r) (MR_WindowEnd r) (MR_ExpectedObservations r) (MR_ObservedObservations r) (MarshalValues (MR_Metrics r)) digest now in
  let digest := monitoringDigest (row "" "") in row (sha256hex digest) digest.
Definition stored_monitoring (row : Monitoring) : res Monitoring :=
  let* metrics := jsonb (Mo_MetricsJSON row) in
  let* _ := violation "23514" ((0 <? Mo_ExpectedObservations row) && (0 <=? Mo_ObservedObservations row) && (Mo_ObservedObservations row <=? Mo_ExpectedObservations row) &&
              (column_time (Mo_WindowStart row) <? column_time (Mo_WindowEnd row)) && digests [Mo_ContentDigest row]) "governance_monitoring_coverage_check" in
  Ok (mkMonitoring (Mo_ID row) (Mo_ContextKey row) (Mo_ExperimentID row) (Mo_DeploymentTransitionID row) (Mo_AuthorityPolicyDigest row) (Mo_ArtifactVersion row)
        (column_time (Mo_WindowStart row)) (column_time (Mo_WindowEnd row)) (Mo_ExpectedObservations row) (Mo_ObservedObservations row) metrics
        (Mo_ContentDigest row) (column_time (Mo_CreatedAt row))).
Definition CreateMonitoring (row : Monitoring) : Gov bool :=
  let! g := get id in
  let! stored := slift (stored_monitoring row) in
  create (Ok tt) (bool_decide (is_Some (gv_monitors g !! Mo_ID row))) false
    (bool_decide (is_Some (experiments (gv_research g) !! Mo_ExperimentID row)) && bool_decide (is_Some (gv_transitions g !! Mo_DeploymentTransitionID row)))
    (set_monitors (<[Mo_ID row := stored]>)).
Definition RecordMonitoringEvidence (principal : Principal) (r : MonitoringEvidenceRequest) (clock : Time) : Gov Monitoring :=
  let! _ := slift (Principal_require principal CapabilityRollback) in
  let now := now_ clock in
  let! g := get id in
  let! deployment := found (gv_deployments g !! MR_ContextKey r) in
  if bad_window r deployment now then govern CodeIntegrity "invalid monitoring evidence envelope" else
  if existsb (fun kv => (kv.1 =s "") || negb (finite_f kv.2)) (map_to_list (MR_Metrics r)) then govern CodeIntegrity "non-finite monitoring metric" else
  let row := monitoring_row r deployment now in
  let! _ := CreateMonitoring row in
  loadMonitoringEvidence (Mo_ID row).

(** ** Transitions *)
Record TransitionRequest : Type := mkTransitionRequest {
  TR_IdempotencyKey : string; TR_ContextKey : string; TR_ExperimentID : string; TR_EvidenceID : string; TR_ApprovalID : string; TR_TargetState : string;
  TR_ArtifactVersion : string; TR_PolicyVersion : string; TR_FallbackVersion : string; TR_Reason : string; TR_ElapsedEvidenceID : string }.
Definition incomplete_transition (r : TransitionRequest) : bool :=
  (TR_IdempotencyKey r =s "") || (TR_ContextKey r =s "") || (TR_ExperimentID r =s "") || (TR_EvidenceID r =s "") || (TR_ArtifactVersion r =s "") ||
  (TR_PolicyVersion r =s "") || (TR_Reason r =s "") || negb (knownState (TR_TargetState r)).
Definition with_digest (row : string -> string -> TransitionRow) : TransitionRow :=
  let digest := transitionDigest (row "" "") in row (sha256hex digest) digest.
Definition check_transition (row : TransitionRow) : res unit :=
  let* _ := sizes [(120, ("idempotency_key", Tr_IdempotencyKey row)); (120, ("context_key", Tr_ContextKey row)); (100, ("artifact_version", Tr_ArtifactVersion row));
    (100, ("fallback_version", Tr_FallbackVersion row)); (1000, ("reason", Tr_Reason row)); (100, ("policy_version", Tr_PolicyVersion row));
    (64, ("authority_policy_digest", Tr_AuthorityPolicyDigest row)); (64, ("evidence_digest", Tr_EvidenceDigest row)); (200, ("actor", Tr_Actor row))] in
  violation "23514" (existsb (String.eqb (Tr_FromState row)) ["" : string; StateResearch; StateShadow; StatePaper; StateLimitedLive; StateFullLive] &&
    knownState (Tr_ToState row) && digests [Tr_ID row; Tr_ContentDigest row]) "governance_transition_state_check".
Definition stored_transition (row : TransitionRow) : TransitionRow :=
  mkTransition (Tr_ID row) (Tr_IdempotencyKey row) (Tr_ContextKey row) (Tr_ExperimentID row) (Tr_EvidenceID row) (Tr_ApprovalID row) (Tr_FromState row)
    (Tr_ToState row) (Tr_ArtifactVersion row) (Tr_FallbackVersion row) (Tr_Reason row) (Tr_ContentDigest row) (column_time (Tr_CreatedAt row))
    (Tr_PolicyVersion row) (Tr_AuthorityPolicyDigest row) (Tr_ApprovalDigest row) (Tr_EvidenceDigest row) (Tr_MonitoringEvidenceID row)
    (Tr_MonitoringEvidenceDigest row) (Tr_Actor row).
(** A plain [Create]: a conflict is an error. *)
Definition CreateTransition (row : TransitionRow) : Gov unit :=
  let! g := get id in
  let! _ := create (check_transition row) false
    (bool_decide (is_Some (gv_transitions g !! Tr_ID row)) || exists_row (fun t => Tr_IdempotencyKey t =s Tr_IdempotencyKey row) (gv_transitions g))
    (in_research (gv_research g) (Tr_ExperimentID row) (Tr_EvidenceID row) &&
     match Tr_ApprovalID row with Some a => bool_decide (is_Some (gv_approvals g !! a)) | None => true end)
    (set_transitions (<[Tr_ID row := stored_transition row]>)) in
  sret tt.
(** The guard on the writes of a deployment, whose configuration setting names
    the transition that was just written. *)
Definition guard_deployment (setting : string) (g : GovDB) (d : Deployment) : bool :=
  (setting <>s "") && (setting =s Dp_TransitionID d) &&
  match gv_transitions g !! Dp_TransitionID d with Some t => (Tr_ContextKey t =s Dp_ContextKey d) && (Tr_ToState t =s Dp_State d) | None => false end.
Definition SaveDeployment (setting : string) (d : Deployment) : Gov unit :=
  let! g := get id in
  let! json := slift (jsonb (Dp_AuthorityPolicyJSON d)) in
  let! _ := slift (violation "P0001" (guard_deployment setting g d) "governance_deployment_guard") in
  let! _ := slift (sizes [(120, ("context_key", Dp_ContextKey d)); (100, ("artifact_version", Dp_ArtifactVersion d)); (100, ("policy_version", Dp_PolicyVersion d));
    (100, ("fallback_version", Dp_FallbackVersion d))]) in
  let! _ := slift (violation "23514" (knownState (Dp_State d)) "governance_deployment_state_check") in
  let! _ := slift (violation "23503" (in_research (gv_research g) (Dp_ExperimentID d) (Dp_EvidenceID d)) "foreign key") in
  fun g => (Ok tt, set_deployments (<[Dp_ContextKey d := mkDeployment (Dp_ContextKey d) (Dp_ExperimentID d) (Dp_EvidenceID d) (Dp_State d) (Dp_ArtifactVersion d)
    (Dp_PolicyVersion d) (Dp_FallbackVersion d) (column_time (Dp_ActivatedAt d)) (column_time (Dp_UpdatedAt d)) json (Dp_AuthorityPolicyDigest d) (Dp_TransitionID d)]>) g).
Definition SaveSetting (key value : string) : Gov unit :=
  let! _ := slift (sizes [(50, ("key", key)); (500, ("value", value))]) in fun g => (Ok tt, set_settings (<[key := value]>) g).
(** The two settings are written in the order of a map, which does not matter:
    they are different. *)
Definition writeModelAuthorityProjection (version : string) (state : State) : Gov unit :=
  let! _ := SaveSetting "active_model_version" version in SaveSetting "model_rollout_state" state.
Definition zero_deployment : Deployment := mkDeployment "" "" "" "" "" "" "" 0 0 "" "" "".
Definition stale_approval (a : Approval) (r : TransitionRequest) (evidence : PersistedEvidence) (current : Deployment) (evidenceDigest : string)
    (policy : AuthorityPolicyEnvelope) (now : Time) : bool :=
  (Ap_ExperimentID a <>s TR_ExperimentID r) || (Ap_EvidenceID a <>s TR_EvidenceID r) || (Ap_TargetState a <>s TR_TargetState r) ||
  (Ap_ArtifactVersion a <>s TR_ArtifactVersion r) || (Ap_PolicyVersion a <>s TR_PolicyVersion r) || Before (Ap_ApprovedAt a) (Pe_CreatedAt evidence) ||
  negb (After (Ap_ExpiresAt a) now) || (Ap_SourceState a <>s Dp_State current) || negb (Ap_SourceActivatedAt a =? Dp_ActivatedAt current) ||
  (Ap_EvidenceDigest a <>s evidenceDigest) || (Ap_AuthorityPolicyDigest a <>s AP_Digest policy).
(** The digest of the approval of a transition, [""] for the first one. *)
Definition require_approval (m : ExperimentManifest) (evidence : PersistedEvidence) (r : TransitionRequest) (current : Deployment) (now : Time) : Gov string :=
  if (Dp_State current =s "") && (TR_TargetState r =s StateResearch) then sret "" else
  if TR_ApprovalID r =s "" then govern CodeApprovalRequired "" else
  let! g := get id in
  match gv_approvals g !! TR_ApprovalID r with
  | None => govern CodeApprovalMismatch "approval not found"
  | Some approval =>
      let! evidenceDigest := evidenceDigestTx (TR_EvidenceID r) in
      let! targetPolicy := slift (WithRollout (MS_AuthorityPolicy (EM_Spec m)) (TR_TargetState r)) in
      if stale_approval approval r evidence current evidenceDigest targetPolicy now
      then govern CodeApprovalMismatch "approval is stale or bound to different evidence/target/versions" else
      if negb (intact_approval approval) then govern CodeApprovalMismatch "approval integrity check failed" else sret (Ap_ContentDigest approval)
  end.
Definition stale_elapsed (o : Monitoring) (r : TransitionRequest) (current : Deployment) (elapsed : Duration) (now : Time) : bool :=
  (Mo_ContextKey o <>s TR_ContextKey r) || (Mo_ExperimentID o <>s TR_ExperimentID r) || (Mo_DeploymentTransitionID o <>s Dp_TransitionID current) ||
  (Mo_AuthorityPolicyDigest o <>s Dp_AuthorityPolicyDigest current) || Before (Mo_WindowStart o) (Dp_ActivatedAt current) || After (Mo_WindowEnd o) now ||
  (time_Sub (Mo_WindowEnd o) (Mo_WindowStart o) <? elapsed) || (Mo_ObservedObservations o <? Mo_ExpectedObservations o).
(** The monitoring evidence of the time that must have passed, if any. *)
Definition require_elapsed (m : ExperimentManifest) (r : TransitionRequest) (current : Deployment) (now : Time) : Gov (option Monitoring) :=
  let elapsed := default 0 (MS_RequiredElapsed (EM_Spec m) !! TR_TargetState r) in
  if elapsed <=? 0 then sret None else
  if TR_ElapsedEvidenceID r =s "" then govern CodeElapsedEvidence "immutable elapsed monitoring evidence is required" else
  let! monitor := loadMonitoringEvidence (TR_ElapsedEvidenceID r) in
  if stale_elapsed monitor r current elapsed now
  then govern CodeElapsedEvidence "elapsed evidence is stale, incomplete, or bound to another source deployment" else sret (Some monitor).
Definition replays (t : TransitionRow) (r : TransitionRequest) : bool :=
  intact_transition t && (Tr_ContextKey t =s TR_ContextKey r) && (Tr_ExperimentID t =s TR_ExperimentID r) && (Tr_EvidenceID t =s TR_EvidenceID r) &&
  (Tr_ToState t =s TR_TargetState r) && (Tr_ArtifactVersion t =s TR_ArtifactVersion r) && (Tr_FallbackVersion t =s TR_FallbackVersion r) &&
  (Tr_Reason t =s TR_Reason r) && (stringValue (Tr_ApprovalID t) =s TR_ApprovalID r) && (stringValue (Tr_MonitoringEvidenceID t) =s TR_ElapsedEvidenceID r).
Definition authority_state (s : State) : bool := (s =s StatePaper) || (s =s StateLimitedLive) || (s =s StateFullLive).
Definition quarantined (m : ExperimentManifest) (target : State) : bool :=
  authority_state target && match MS_Model (EM_Spec m) with Some model => negb (CanHoldAuthority model) | None => false end.
Definition transition_row (principal : Principal) (r : TransitionRequest) (from : State) (policy : AuthorityPolicyEnvelope) (approvalDigest evidenceDigest : string)
    (monitor : option Monitoring) (now : Time) : TransitionRow :=
  with_digest (fun id digest => mkTransition id (TR_IdempotencyKey r) (TR_ContextKey r) (TR_ExperimentID r) (TR_EvidenceID r)
    (if TR_ApprovalID r =s "" then None else Some (TR_ApprovalID r)) from (TR_TargetState r) (TR_ArtifactVersion r) (TR_FallbackVersion r) (TR_Reason r) digest now
    (TR_PolicyVersion r) (AP_Digest policy) (if TR_ApprovalID r =s "" then "" else approvalDigest) evidenceDigest (Mo_ID <$> monitor)
    (match monitor with Some o => Mo_ContentDigest o | None => "" end) (Pr_id principal)).
Definition transition_body (principal : Principal) (m : ExperimentManifest) (evidence : PersistedEvidence) (r : TransitionRequest) (now : Time) : Gov TransitionRow :=
  let! g := get id in
  match First (fun t => Tr_IdempotencyKey t =s TR_IdempotencyKey r) (gv_transitions g) with
  | Some replay => if replays replay r then sret replay else govern CodeIntegrity "idempotency key replayed with different transition"
  | None =>
      let current := default zero_deployment (gv_deployments g !! TR_ContextKey r) in
      let from := Dp_State current in
      if negb (legal from (TR_TargetState r)) then govern CodeIllegalTransition (from +:+ " -> " +:+ TR_TargetState r) else
      let! approvalDigest := require_approval m evidence r current now in
      if quarantined m (TR_TargetState r)
      then govern CodeArtifactQuarantined (match MS_Model (EM_Spec m) with Some model => MA_Class model | None => "" end) else
      let! monitor := require_elapsed m r current now in
      let! evidenceDigest := evidenceDigestTx (TR_EvidenceID r) in
      let! targetPolicy := slift (WithRollout (MS_AuthorityPolicy (EM_Spec m)) (TR_TargetState r)) in
      let row := transition_row principal r from targetPolicy approvalDigest evidenceDigest monitor now in
      let! _ := CreateTransition row in
      let! _ := SaveDeployment (Tr_ID row) (mkDeployment (TR_ContextKey r) (TR_ExperimentID r) (TR_EvidenceID r) (TR_TargetState r) (TR_ArtifactVersion r)
        (TR_PolicyVersion r) (TR_FallbackVersion r) now now (MarshalEnvelope targetPolicy) (AP_Digest targetPolicy) (Tr_ID row)) in
      let! _ := if is_some (MS_Model (EM_Spec m)) && (TR_TargetState r <>s StateResearch)
                then writeModelAuthorityProjection (TR_ArtifactVersion r) (TR_TargetState r) else sret tt in
      sret row
  end.
Definition Transition (principal : Principal) (r : TransitionRequest) (clock : Time) : Gov TransitionRow :=
  let! _ := slift (Principal_require principal CapabilityTransition) in
  if TR_TargetState r =s StateRollback then govern CodeIllegalTransition "use the rollback operation" else
  if incomplete_transition r then govern CodeIllegalTransition "complete immutable transition context is required" else
  let! mv := boundEvidence (TR_ExperimentID r) (TR_EvidenceID r) in
  let '(manifest, evidence) := mv in
  if (TR_TargetState r <>s StateResearch) && negb (passing evidence) then govern CodeEvidenceFailed "" else
  let! _ := if TR_TargetState r <>s StateResearch then verifyMLEvidence manifest evidence else sret tt in
  let! _ := slift (matchVersions manifest (TR_ArtifactVersion r) (TR_PolicyVersion r)) in
  if TR_ContextKey r <>s authorityContext manifest then govern CodeVersionMismatch "context key does not match immutable experiment authority" else
  transaction (transition_body principal manifest evidence r (now_ clock)).

(** ** Rolling back *)
Record RollbackRequest : Type := mkRollbackRequest {
  RR_IdempotencyKey : string; RR_ContextKey : string; RR_ExperimentID : string; RR_EvidenceID : string; RR_FallbackVersion : string; RR_Reason : string;
  RR_MonitoringEvidenceID : string }.
Definition incomplete_rollback (r : RollbackRequest) : bool :=
  (RR_IdempotencyKey r =s "") || (RR_ContextKey r =s "") || (RR_ExperimentID r =s "") || (RR_EvidenceID r =s "") || (RR_FallbackVersion r =s "") ||
  (RR_Reason r =s "") || (RR_MonitoringEvidenceID r =s "").
Definition replays_rollback (t : TransitionRow) (r : RollbackRequest) : bool :=
  intact_transition t && (Tr_ContextKey t =s RR_ContextKey r) && (Tr_ExperimentID t =s RR_ExperimentID r) && (Tr_EvidenceID t =s RR_EvidenceID r) &&
  (Tr_ToState t =s StateRollback) && (Tr_FallbackVersion t =s RR_FallbackVersion r) && (Tr_Reason t =s RR_Reason r) &&
  (stringValue (Tr_MonitoringEvidenceID t) =s RR_MonitoringEvidenceID r).
Definition stale_monitor (o : Monitoring) (r : RollbackRequest) (current : Deployment) (now : Time) : bool :=
  (Mo_ContextKey o <>s RR_ContextKey r) || (Mo_ExperimentID o <>s RR_ExperimentID r) || (Mo_DeploymentTransitionID o <>s Dp_TransitionID current) ||
  (Mo_AuthorityPolicyDigest o <>s Dp_AuthorityPolicyDigest current) || (Mo_ArtifactVersion o <>s Dp_ArtifactVersion current) ||
  Before (Mo_WindowStart o) (Dp_ActivatedAt current) || After (Mo_WindowEnd o) now || (24 * HourNs <? time_Sub now (Mo_WindowEnd o)) ||
  (Mo_ExpectedObservations o <=? 0) || (Mo_ObservedObservations o <? Mo_ExpectedObservations o).
Definition met (metrics : gmap string float64) (t : Threshold) : bool :=
  match metrics !! Th_Metric t with Some value => finite_f value && compare value (Th_Op t) (Th_Value t) | None => false end.
Definition rollback_row (principal : Principal) (r : RollbackRequest) (current : Deployment) (policy : AuthorityPolicyEnvelope) (evidenceDigest : string)
    (monitor : Monitoring) (now : Time) : TransitionRow :=
  with_digest (fun id digest => mkTransition id (RR_IdempotencyKey r) (RR_ContextKey r) (RR_ExperimentID r) (RR_EvidenceID r) None (Dp_State current) StateRollback
    (Dp_ArtifactVersion current) (RR_FallbackVersion r) (RR_Reason r) digest now (Dp_PolicyVersion current) (AP_Digest policy) "" evidenceDigest (Some (Mo_ID monitor))
    (Mo_ContentDigest monitor) (Pr_id principal)).
Definition rollback_body (principal : Principal) (m : ExperimentManifest) (r : RollbackRequest) (now : Time) : Gov TransitionRow :=
  let! g := get id in
  match First (fun t => Tr_IdempotencyKey t =s RR_IdempotencyKey r) (gv_transitions g) with
  | Some replay => if replays_rollback replay r then sret replay else govern CodeIntegrity ""
  | None =>
      let! current := found (gv_deployments g !! RR_ContextKey r) in
      if (Dp_ExperimentID current <>s RR_ExperimentID r) || (Dp_EvidenceID current <>s RR_EvidenceID r) then govern CodeVersionMismatch "" else
      if RR_FallbackVersion r <>s Dp_FallbackVersion current then govern CodeFallbackRequired "requested fallback differs from preconfigured fallback" else
      let! monitor := loadMonitoringEvidence (RR_MonitoringEvidenceID r) in
      if stale_monitor monitor r current now then govern CodeRollbackGate "monitoring evidence is stale, incomplete, or bound to another deployment" else
      let! metrics := slift (match UnmarshalValues (Mo_MetricsJSON monitor) with Err _ => Err (GovernanceError CodeIntegrity "monitoring metrics malformed") | v => v end) in
      if negb (existsb (met metrics) (MS_RollbackThresholds (EM_Spec m))) then govern CodeRollbackGate "" else
      let! evidenceDigest := evidenceDigestTx (RR_EvidenceID r) in
      let! rollbackPolicy := slift (WithRollout (MS_AuthorityPolicy (EM_Spec m)) StateRollback) in
      let row := rollback_row principal r current rollbackPolicy evidenceDigest monitor now in
      let! _ := CreateTransition row in
      let! _ := SaveDeployment (Tr_ID row) (mkDeployment (RR_ContextKey r) (Dp_ExperimentID current) (Dp_EvidenceID current) StateRollback (RR_FallbackVersion r)
        (Dp_PolicyVersion current) (Dp_FallbackVersion current) now now (MarshalEnvelope rollbackPolicy) (AP_Digest rollbackPolicy) (Tr_ID row)) in
      let! _ := if is_some (MS_Model (EM_Spec m)) then writeModelAuthorityProjection (RR_FallbackVersion r) StateRollback else sret tt in
      sret row
  end.
Definition Rollback (principal : Principal) (r : RollbackRequest) (clock : Time) : Gov TransitionRow :=
  let! _ := slift (Principal_require principal CapabilityRollback) in
  if incomplete_rollback r then govern CodeFallbackRequired "" else
  let! mv := boundEvidence (RR_ExperimentID r) (RR_EvidenceID r) in
  transaction (rollback_body principal mv.1 r (now_ clock)).
End Governance.
