(* ===== verification/GovernanceProofs.v ===== *)
(** * GovernanceProofs: authority is earned step by step *)
From Stdlib Require Import Ascii SpecFloat.
From stdpp Require Import base numbers strings gmap list relations.
From S2P Require Import Prelude GoStrings GoFloat GoTime Snapshots ValidationTypes Splits FoldMetrics Manifest Evaluation WalkForward Evidence MLEvaluation Cutover Research ResearchFacts ResearchProofs Governance.
Local Open Scope Z_scope.
Set Default Proof Using "Type*".

(** What governance relies on: loading changes nothing, a manifest stays what it
    is as research goes on, and loaded evidence is that of its row. *)
Class ValidationLaws (V : Validation) : Prop := {
  manifest_reads id_ : reads (V_LoadManifest id_);
  evidence_reads id_ : reads (V_LoadEvidence id_);
  ml_reads id_ : reads (V_LoadMLEvidenceForExperiment id_);
  manifest_stable id_ s m s' : V_LoadManifest id_ s = (Ok m, s) -> extends s s' -> V_LoadManifest id_ s' = (Ok m, s');
  evidence_row id_ s v : V_LoadEvidence id_ s = (Ok v, s) ->
    exists e, evidences s !! id_ = Some e /\ Er_Status e = Pe_Status v /\ Er_ExperimentID e = Pe_ExperimentID v }.

Lemma lift_res {S A} (m : res A) (a : A) (s s' : S) : slift m s = (Ok a, s') -> m = Ok a.
Proof. by intros [= -> _]. Qed.

(** ** Looking changes nothing *)
Definition looks {A} (m : Gov A) : Prop := forall g r g', m g = (r, g') -> g' = g.
Lemma looks_lift {A} (m : res A) : looks (slift m).
Proof. by intros g r g' [= <- <-]. Qed.
Lemma looks_ret {A} (a : A) : looks (sret a).
Proof. by intros g r g' [= <- <-]. Qed.
Lemma looks_get {A} (f : GovDB -> A) : looks (get f).
Proof. by intros g r g' [= <- <-]. Qed.
Lemma looks_bind {A B} (m : Gov A) (k : A -> Gov B) : looks m -> (forall a, looks (k a)) -> looks (sbind m k).
Proof. intros Hm Hk g r g' H. unfold sbind in H. destruct (m g) as [[a|e|w] g1] eqn:E; apply Hm in E; subst; [by apply Hk in H | by injection H..]. Qed.
Lemma looks_attempt {A} (m : Gov A) : looks m -> looks (attempt_ m).
Proof. intros Hm g r g' H. unfold attempt_ in H. destruct (m g) as [[a|e|w] g1] eqn:E; apply Hm in E; subst; by injection H. Qed.
Lemma set_same g : set_research (const (gv_research g)) g = g.
Proof. by destruct g. Qed.
Lemma looks_research {A} (m : Tx A) : reads m -> looks (on_research m).
Proof. intros Hm g r g' H. unfold on_research in H. destruct (m (gv_research g)) eqn:E. apply Hm in E. subst. injection H as <- <-. apply set_same. Qed.
Create HintDb looks.
#[export] Hint Resolve looks_lift looks_ret looks_get looks_research looks_attempt manifest_reads evidence_reads ml_reads : looks.
Ltac look := repeat first
  [ apply looks_bind; [|intros ?] | solve [auto with looks]
  | match goal with |- looks (if ?c then _ else _) => destruct c | |- looks (match ?x with _ => _ end) => destruct x
                  | |- looks (govern _ _) => apply looks_lift | |- looks (found _) => apply looks_lift end ].

(** ** The ladder *)
Definition rank (s : State) : Z :=
  if s =s "" then 0 else if s =s StateResearch then 1 else if s =s StateShadow then 2 else if s =s StatePaper then 3 else
  if s =s StateLimitedLive then 4 else if s =s StateFullLive then 5 else 6.
Lemma legal_cases from to : legal from to = true ->
  (from = "" /\ to = StateResearch) \/ (from = StateResearch /\ to = StateShadow) \/ (from = StateShadow /\ to = StatePaper) \/
  (from = StatePaper /\ to = StateLimitedLive) \/ (from = StateLimitedLive /\ to = StateFullLive) \/ to = "".
Proof.
  unfold legal. do 5 (match goal with |- context [if ?a =s ?b then _ else _] => destruct (String.eqb_spec a b) as [->|?]; [intros <-%String.eqb_eq; tauto|] end).
  intros <-%String.eqb_eq. tauto.
Qed.
Lemma legal_rank from to : legal from to = true -> to <> "" -> rank to = rank from + 1.
Proof. by intros [[-> ->]|[[-> ->]|[[-> ->]|[[-> ->]|[[-> ->]| ->]]]]]%legal_cases H. Qed.
Definition ladder : list State := [StateResearch; StateShadow; StatePaper; StateLimitedLive; StateFullLive].
Lemma ladder_rank p : p ∈ ladder -> 1 <= rank p <= 5.
Proof. unfold ladder. rewrite !elem_of_cons, elem_of_nil. by intros [->|[->|[->|[->|[->|[]]]]]]. Qed.
Lemma ladder_inj p q : p ∈ ladder -> q ∈ ladder -> rank p = rank q -> p = q.
Proof. unfold ladder. rewrite !elem_of_cons, !elem_of_nil. by intros [->|[->|[->|[->|[->|[]]]]]] [->|[->|[->|[->|[->|[]]]]]]. Qed.
Lemma known_from from : existsb (String.eqb from) ("" :: ladder) = true -> from = "" \/ from ∈ ladder.
Proof. intros (q & Hq & <-%String.eqb_eq)%existsb_exists. apply base.list_elem_of_In, elem_of_cons in Hq. done. Qed.
Lemma legal_ladder from to : legal from to = true -> to <> "" -> to ∈ ladder.
Proof. unfold ladder. rewrite !elem_of_cons. intros [[-> ->]|[[-> ->]|[[-> ->]|[[-> ->]|[[-> ->]| ->]]]]]%legal_cases H; tauto. Qed.

Section Proofs.
Context `{V : Validation} `{!ValidationLaws V}.
Context (connected : bool) (sha256hex : string -> string) (MarshalPolicy : string -> gmap string string -> string)
  (policyOrder : gmap string string -> list (string * string)).
Context (MarshalApproval : Approval -> string) (MarshalTransition : TransitionRow -> string) (MarshalMonitoring : Monitoring -> string -> string)
  (MarshalEnvelope : AuthorityPolicyEnvelope -> string)
  (MarshalValues : gmap string float64 -> string) (UnmarshalValues : string -> res (gmap string float64)) (CanonicalJSON : string -> option string).
Context (jsonb : string -> res string) (column_time : Time -> Time).
Abbreviation Approve_ := (Approve connected sha256hex MarshalPolicy policyOrder MarshalApproval column_time).
Abbreviation Transition_ := (Transition sha256hex MarshalPolicy policyOrder MarshalApproval MarshalTransition MarshalMonitoring MarshalEnvelope CanonicalJSON jsonb column_time).
Abbreviation Rollback_ := (Rollback sha256hex MarshalPolicy policyOrder MarshalTransition MarshalMonitoring MarshalEnvelope UnmarshalValues CanonicalJSON jsonb column_time).
Abbreviation Record_ := (RecordMonitoringEvidence sha256hex MarshalMonitoring MarshalValues CanonicalJSON jsonb column_time).

Lemma looks_bound a b : looks (boundEvidence a b).
Proof. unfold boundEvidence. look. Qed.
Lemma looks_ml m v : looks (verifyMLEvidence m v).
Proof. unfold verifyMLEvidence. look. Qed.
Lemma looks_digest id_ : looks (evidenceDigestTx id_).
Proof. unfold evidenceDigestTx. look. Qed.
Lemma looks_monitor id_ : looks (loadMonitoringEvidence sha256hex MarshalMonitoring CanonicalJSON id_).
Proof. unfold loadMonitoringEvidence. look. Qed.
#[local] Hint Resolve looks_bound looks_ml looks_digest looks_monitor : looks.
Lemma looks_approval m v r d now : looks (require_approval sha256hex MarshalPolicy policyOrder MarshalApproval m v r d now).
Proof. unfold require_approval. look. Qed.
Lemma looks_elapsed m r d now : looks (require_elapsed sha256hex MarshalMonitoring CanonicalJSON m r d now).
Proof. unfold require_elapsed. look. Qed.
#[local] Hint Resolve looks_approval looks_elapsed : looks.

(** Step over a part that only looks, or a check that fails. *)
Ltac peek_by H close :=
  match type of H with
  | sbind ?m _ ?g = _ =>
      unfold sbind at 1 in H; let E := fresh "E" in let g1 := fresh "g" in
      destruct (m g) as [[?|?|?] g1] eqn:E;
      (assert (g1 = g) as -> by (match type of E with ?n _ = _ => assert (L : looks n) by (look); exact (L _ _ _ E) end));
      [|close H..]
  | (if ?c then _ else _) _ = _ => destruct c eqn:?; [close H|]
  end.
Ltac unchanged H := left; injection H as <- <-; reflexivity.
Ltac peek H := peek_by H unchanged.
Ltac refused H := left; injection H as <- <-; split; [reflexivity | by intros ? [=]].

(** ** What the commands write *)
Lemma bound_spec a b g m v : boundEvidence a b g = (Ok (m, v), g) ->
  V_LoadManifest a (gv_research g) = (Ok m, gv_research g) /\ V_LoadEvidence b (gv_research g) = (Ok v, gv_research g) /\ Pe_ExperimentID v = EM_ID m.
Proof.
  unfold boundEvidence, on_research, sbind. destruct (V_LoadManifest a _) as [[m'|e|w] s1] eqn:E1; [|done..]. pose proof E1 as ->%manifest_reads. cbn.
  destruct (V_LoadEvidence b _) as [[v'|e|w] s2] eqn:E2; [|done..]. pose proof E2 as ->%evidence_reads.
  destruct (_ <>s _) eqn:E3; [done|]. intros [= -> ->]. bool_prop. done.
Qed.
Lemma digest_spec id_ g d : evidenceDigestTx id_ g = (Ok d, g) -> exists e, evidences (gv_research g) !! id_ = Some e /\ Er_EvidenceDigest e = d.
Proof. unfold evidenceDigestTx, sbind, get, found, slift, id. destruct (evidences _ !! _) as [e|]; [|done]. intros [= <-]. eauto. Qed.
(** The evidence of an approval: a passed confirmatory experiment. *)
Definition worthy (s : Store) (a : Approval) : Prop :=
  (exists m, V_LoadManifest (Ap_ExperimentID a) s = (Ok m, s) /\ MS_StudyType (EM_Spec m) = "confirmatory" /\ matchVersions m (Ap_ArtifactVersion a) (Ap_PolicyVersion a) = Ok tt) /\
  (exists e, evidences s !! Ap_EvidenceID a = Some e /\ Er_Status e = "passed" /\ Er_EvidenceDigest e = Ap_EvidenceDigest a) /\
  Ap_Approver a <> "".
Lemma CreateApproval_spec row g r g' : CreateApproval column_time row g = (r, g') ->
  (g' = g /\ r <> Ok true) \/ (r = Ok true /\ g' = set_approvals (<[Ap_ID row := stored_approval column_time row]>) g /\ gv_approvals g !! Ap_ID row = None).
Proof.
  unfold CreateApproval, sbind at 1, get, id. intros [[-> Hr]|(-> & -> & _ & Hu & _)]%create_cases; [left | right].
  - split; [done|]. intros ->. by destruct Hr as [[[=] _]|[=]].
  - split_and!; [done..|]. apply bool_decide_eq_false in Hu. by apply eq_None_not_Some.
Qed.
Lemma lift_inv {A} (m : res A) (a : A) (g g' : GovDB) : slift m g = (Ok a, g') -> m = Ok a.
Proof. by intros [= -> _]. Qed.
Lemma require_id p c : Principal_require p c = Ok tt -> Pr_id p <> "" /\ c ∈ Pr_capabilities p /\ Pr_trusted p = true.
Proof.
  unfold Principal_require. destruct (_ || _) eqn:E; [done|]. bool_prop. destruct (bool_decide _) eqn:Eb; [|done]. apply bool_decide_eq_true in Eb. done.
Qed.
Lemma Approve_effect p r clock g x g' : Approve_ p r clock g = (x, g') -> g' = g \/
  exists k a, g' = set_approvals (<[k := a]>) g /\ gv_approvals g !! k = None /\ worthy (gv_research g) a.
Proof.
  intros H. unfold Approve in H. peek H. do 2 peek H. peek H. destruct a0 as [m v]. peek H. peek H. peek H. peek H. peek H. peek H.
  injection E3 as <-. destruct (gv_deployments g !! _) as [source|]; [|left; by injection H as <- <-]. peek H. peek H. peek H.
  set (row := approval_row _ _ _ _ _ _ _ _) in H. unfold sbind at 1 in H. destruct (CreateApproval column_time row g) as [r1 g1] eqn:Ec.
  apply CreateApproval_spec in Ec as [[-> Hr]|(-> & -> & Hn)].
  - left. destruct r1 as [[]|e|w]; [done | | by injection H as <- <-..]. unfold sbind, get, id in H.
    destruct (First _ _); cbn in H; [|by injection H as <- <-]. destruct (differs_approval _ _); [by injection H as <- <-|].
    match type of H with context [negb ?c] => destruct (negb c) end; unfold govern, slift, sret in H; by injection H as <- <-.
  - right. injection H as <- <-. exists (Ap_ID row), (stored_approval column_time row). split_and!; [done..|].
    apply lift_inv in E as E. destruct a as []. apply require_id in E as [Hid _]. apply lift_inv in E2 as E2. destruct a1 as [].
    apply bound_spec in E0 as (E0 & E0' & E0''). apply digest_spec in E3 as (e & He & Hd).
    destruct (evidence_row _ _ _ E0') as (e' & He' & Hs & _). split_and!; [exists m | exists e | done]; cbn.
    + split_and!; [done | | done]. match goal with H : MS_Exploratory _ || _ = false |- _ => by apply orb_false_iff in H as [_ ?]; bool_prop end.
    + assert (e' = e) as -> by congruence. split_and!; [done | | done]. rewrite Hs. match goal with H : negb (passing v) = false |- _ => apply negb_false_iff, andb_true_iff in H as [? _]; by bool_prop end.
Qed.

(** A transition is written with the deployment it leads to. *)
Definition bound_to (d : Deployment) (t : TransitionRow) : Prop :=
  Dp_ContextKey d = Tr_ContextKey t /\ Dp_State d = Tr_ToState t /\ Dp_TransitionID d = Tr_ID t /\ Dp_AuthorityPolicyDigest d = Tr_AuthorityPolicyDigest t /\
  Dp_ActivatedAt d = Tr_CreatedAt t /\ Dp_ExperimentID d = Tr_ExperimentID t /\ Dp_EvidenceID d = Tr_EvidenceID t.
Record moved (g g' : GovDB) (t : TransitionRow) (d : Deployment) : Prop := {
  mv_fresh : gv_transitions g !! Tr_ID t = None;
  mv_bound : bound_to d t;
  mv_shape : exists f, g' = set_settings f (set_deployments (<[Tr_ContextKey t := d]>) (set_transitions (<[Tr_ID t := t]>) g));
  mv_from : Tr_FromState t = Dp_State (default zero_deployment (gv_deployments g !! Tr_ContextKey t));
  mv_known : existsb (String.eqb (Tr_FromState t)) ("" :: [StateResearch; StateShadow; StatePaper; StateLimitedLive; StateFullLive]) = true }.
Lemma CreateTransition_Ok row g u g' : CreateTransition column_time row g = (Ok u, g') ->
  g' = set_transitions (<[Tr_ID row := stored_transition column_time row]>) g /\ gv_transitions g !! Tr_ID row = None /\
  existsb (String.eqb (Tr_FromState row)) ("" :: [StateResearch; StateShadow; StatePaper; StateLimitedLive; StateFullLive]) = true.
Proof.
  unfold CreateTransition. unfold sbind at 1, get, id. intros (b & g1 & E & H)%sbind_Ok. injection H as _ <-.
  pose proof E as Ec. apply create_cases in E as [[-> [[_ [=]]|[=]]]|(_ & -> & _ & Hu & _)]. split_and!; [done | |].
  - apply orb_false_iff in Hu as [Hu _]. apply bool_decide_eq_false in Hu. by apply eq_None_not_Some.
  - unfold create in Ec. destruct (check_transition row) eqn:Ek; [|done..]. unfold check_transition in Ek. destruct (sizes _); [|done..].
    cbn [rbind] in Ek. unfold violation, failIf in Ek. destruct (negb _) eqn:Ex in Ek; [done|]. apply negb_false_iff in Ex. by apply andb_true_iff in Ex as [[Ex _]%andb_true_iff _].
Qed.
Lemma SaveDeployment_Ok setting d g u g' : SaveDeployment jsonb column_time setting d g = (Ok u, g') -> exists json,
  g' = set_deployments (<[Dp_ContextKey d := mkDeployment (Dp_ContextKey d) (Dp_ExperimentID d) (Dp_EvidenceID d) (Dp_State d) (Dp_ArtifactVersion d)
    (Dp_PolicyVersion d) (Dp_FallbackVersion d) (column_time (Dp_ActivatedAt d)) (column_time (Dp_UpdatedAt d)) json (Dp_AuthorityPolicyDigest d) (Dp_TransitionID d)]>) g.
Proof.
  unfold SaveDeployment. unfold sbind at 1, get, id. intros (json & g1 & [= E <-] & H)%sbind_Ok. exists json. clear E.
  do 4 (apply sbind_Ok in H as (x & g2 & [= _ <-] & H); clear x). by injection H as _ <-.
Qed.
Lemma projection_Ok version state g u g' : writeModelAuthorityProjection version state g = (Ok u, g') -> exists f, g' = set_settings f g.
Proof.
  unfold writeModelAuthorityProjection, SaveSetting. intros (? & g1 & H1 & H2)%sbind_Ok.
  apply sbind_Ok in H1 as (? & ? & [= _ <-] & H1), H2 as (? & ? & [= _ <-] & H2). injection H1 as _ <-. injection H2 as _ <-.
  by exists (fun s => <["model_rollout_state" := state]> (<["active_model_version" := version]> s)).
Qed.
(** Writing a transition, its deployment and the settings. *)
Lemma moved_Ok (row : TransitionRow) (d : Deployment) (projects : bool) version state g g1 g2 u u' (u'' : unit) g' :
  CreateTransition column_time row g = (Ok u, g1) -> SaveDeployment jsonb column_time (Tr_ID row) d g1 = (Ok u', g2) ->
  (if projects then writeModelAuthorityProjection version state else sret tt) g2 = (Ok u'', g') ->
  Tr_FromState row = Dp_State (default zero_deployment (gv_deployments g !! Tr_ContextKey row)) ->
  Dp_ContextKey d = Tr_ContextKey row -> Dp_State d = Tr_ToState row -> Dp_TransitionID d = Tr_ID row -> Dp_AuthorityPolicyDigest d = Tr_AuthorityPolicyDigest row ->
  Dp_ActivatedAt d = Tr_CreatedAt row -> Dp_ExperimentID d = Tr_ExperimentID row -> Dp_EvidenceID d = Tr_EvidenceID row ->
  exists d', moved g g' (stored_transition column_time row) d' /\ Dp_ArtifactVersion d' = Dp_ArtifactVersion d /\ Dp_FallbackVersion d' = Dp_FallbackVersion d.
Proof.
  intros (-> & Hn & Hk)%CreateTransition_Ok (json & ->)%SaveDeployment_Ok H Hf E1 E2 E3 E4 E5 E6 E7. rewrite E1 in H. eexists. split; [split; [exact Hn | | | exact Hf | exact Hk]|].
  2: { destruct projects; [apply projection_Ok in H as [f ->]; by exists f | injection H as _ <-; by exists id]. }
  2: by split.
  unfold bound_to. cbn. split_and!; congruence.
Qed.

(** A promotion bears the approval of exactly that step. *)
Definition approved (approvals : gmap string Approval) (t : TransitionRow) : Prop :=
  exists k a, Tr_ApprovalID t = Some k /\ approvals !! k = Some a /\ Ap_ExperimentID a = Tr_ExperimentID t /\ Ap_EvidenceID a = Tr_EvidenceID t /\
    Ap_TargetState a = Tr_ToState t /\ Ap_SourceState a = Tr_FromState t /\ Ap_ContentDigest a = Tr_ApprovalDigest t /\ Ap_EvidenceDigest a = Tr_EvidenceDigest t.
Definition promotes (g : GovDB) (t : TransitionRow) : Prop :=
  Tr_ToState t <> StateRollback /\ Tr_ToState t <> "" /\ legal (Tr_FromState t) (Tr_ToState t) = true /\
  (exists m, V_LoadManifest (Tr_ExperimentID t) (gv_research g) = (Ok m, gv_research g) /\ Tr_ContextKey t = authorityContext m) /\
  (Tr_FromState t = "" \/ approved (gv_approvals g) t).
Lemma approval_spec m v r current now g d g' : require_approval sha256hex MarshalPolicy policyOrder MarshalApproval m v r current now g = (Ok d, g') ->
  g' = g /\ (Dp_State current = "" /\ TR_TargetState r = StateResearch \/
    exists a p, TR_ApprovalID r <> "" /\ gv_approvals g !! TR_ApprovalID r = Some a /\ Ap_ContentDigest a = d /\ Ap_ExperimentID a = TR_ExperimentID r /\
      Ap_EvidenceID a = TR_EvidenceID r /\ Ap_TargetState a = TR_TargetState r /\ Ap_ArtifactVersion a = TR_ArtifactVersion r /\ Ap_PolicyVersion a = TR_PolicyVersion r /\
      Pe_CreatedAt v <= Ap_ApprovedAt a /\ now < Ap_ExpiresAt a /\ Ap_SourceState a = Dp_State current /\ Ap_SourceActivatedAt a = Dp_ActivatedAt current /\
      evidenceDigestTx (TR_EvidenceID r) g = (Ok (Ap_EvidenceDigest a), g) /\ WithRolloutState sha256hex MarshalPolicy policyOrder (MS_AuthorityPolicy (EM_Spec m)) (TR_TargetState r) = Ok p /\
      Ap_AuthorityPolicyDigest a = AP_Digest p /\ intact_approval sha256hex MarshalApproval a = true).
Proof.
  intros H. pose proof H as ->%looks_approval. split; [done|]. unfold require_approval in H. destruct (_ && _) eqn:E in H.
  - left. by bool_prop.
  - right. destruct (TR_ApprovalID r =s "") eqn:Ea; [done|]. unfold sbind at 1, get, id in H. destruct (gv_approvals g !! _) as [a|]; [|done].
    apply sbind_Ok in H as (ed & g1 & E1 & H). pose proof E1 as ->%looks_digest. apply sbind_Ok in H as (p & g1 & E2 & H). apply lift_inv in E2 as E3. injection E2 as _ <-.
    destruct (stale_approval _ _ _ _ _ _ _) eqn:Es in H; [done|]. destruct (negb _) eqn:Ei in H; [done|]. injection H as <-. exists a, p. unfold stale_approval in Es. bool_prop.
    unfold Before, After in *. bool_prop. subst. split_and!; (done || congruence).
Qed.
Abbreviation TransitionBody := (transition_body sha256hex MarshalPolicy policyOrder MarshalApproval MarshalTransition MarshalMonitoring MarshalEnvelope CanonicalJSON jsonb column_time).
Abbreviation RollbackBody := (rollback_body sha256hex MarshalPolicy policyOrder MarshalTransition MarshalMonitoring MarshalEnvelope UnmarshalValues CanonicalJSON jsonb column_time).
Lemma transition_body_Ok p m v r now g row g' : TR_TargetState r <> StateRollback -> knownState (TR_TargetState r) = true ->
  TransitionBody p m v r now g = (Ok row, g') ->
  (g' = g /\ exists k, gv_transitions g !! k = Some row /\ replays sha256hex MarshalTransition row r = true) \/
  exists t d, moved g g' t d /\ t = stored_transition column_time row /\ Tr_ToState t = TR_TargetState r /\ Tr_ExperimentID t = TR_ExperimentID r /\ Tr_ContextKey t = TR_ContextKey r /\
    legal (Tr_FromState t) (Tr_ToState t) = true /\ (Tr_FromState t = "" \/ approved (gv_approvals g) t) /\ quarantined m (Tr_ToState t) = false /\
    (exists ad, require_approval sha256hex MarshalPolicy policyOrder MarshalApproval m v r (default zero_deployment (gv_deployments g !! TR_ContextKey r)) now g = (Ok ad, g)) /\
    Dp_ArtifactVersion d = TR_ArtifactVersion r /\
    (default 0 (MS_RequiredElapsed (EM_Spec m) !! TR_TargetState r) <= 0 \/ exists o, loadMonitoringEvidence sha256hex MarshalMonitoring CanonicalJSON (TR_ElapsedEvidenceID r) g = (Ok o, g) /\
       stale_elapsed o r (default zero_deployment (gv_deployments g !! TR_ContextKey r)) (default 0 (MS_RequiredElapsed (EM_Spec m) !! TR_TargetState r)) now = false).
Proof.
  intros Hr Hk H. unfold transition_body in H. unfold sbind at 1, get in H. change (id g) with g in H. destruct (First _ _) as [t|] eqn:Ef.
  - left. destruct (replays _ _ _ _) eqn:Er; [|done]. injection H as <- <-. split; [done|]. apply First_Some in Ef as (k & Hk' & _). by exists k.
  - right. set (current := default zero_deployment _) in H. destruct (legal _ _) eqn:El; [|done]. cbn [negb] in H.
    apply sbind_Ok in H as (ad & g1 & E1 & H). pose proof E1 as [-> Ha]%approval_spec. destruct (quarantined _ _) eqn:Eq; [done|].
    apply sbind_Ok in H as (monitor & g1 & E2 & H). pose proof E2 as ->%looks_elapsed. apply sbind_Ok in H as (ed & g1 & E3 & H). pose proof E3 as ->%looks_digest.
    apply sbind_Ok in H as (policy & g1 & E4 & H). apply lift_inv in E4 as E5. injection E4 as _ <-.
    apply sbind_Ok in H as (u & g1 & E6 & H). apply sbind_Ok in H as (u' & g2 & E7 & H). apply sbind_Ok in H as (u'' & g3 & E8 & H). injection H as <- <-.
    pose proof (moved_Ok _ _ _ _ _ _ _ _ _ _ _ _ E6 E7 E8 eq_refl eq_refl eq_refl eq_refl eq_refl eq_refl eq_refl eq_refl) as (d & Hm & Hv & _).
    eexists _, d. split; [exact Hm|]. split_and!; try done; [|by exists ad|].
    + cbn. destruct Ha as [[Ha _]|(a & q & A0 & A1 & A2 & A3 & A4 & A5 & A6 & A7 & A8 & A9 & A10 & A11 & A12 & A13 & A14 & A15)]; [by left | right].
      exists (TR_ApprovalID r), a. cbn. destruct (String.eqb_spec (TR_ApprovalID r) ""); [done|]. split_and!; try done. congruence.
    + unfold require_elapsed in E2. destruct (Z.leb_spec (default 0 (MS_RequiredElapsed (EM_Spec m) !! TR_TargetState r)) 0); [by left | right].
      destruct (_ =s _) in E2; [done|]. apply sbind_Ok in E2 as (o & g4 & Eo & E2). pose proof Eo as ->%looks_monitor. destruct (stale_elapsed _ _ _ _ _) eqn:Es in E2; [done|].
      exists o. done.
Qed.
Lemma Transition_effect p r clock g x g' : Transition_ p r clock g = (x, g') -> g' = g \/
  exists t d m v, moved g g' t d /\ Tr_ContextKey t = TR_ContextKey r /\ promotes g t /\ boundEvidence (TR_ExperimentID r) (TR_EvidenceID r) g = (Ok (m, v), g) /\
    quarantined m (Tr_ToState t) = false /\ (Tr_ToState t = StateResearch \/ passing v = true).
Proof.
  intros H. unfold Transition in H. peek H. do 2 peek H. unfold sbind at 1 in H. destruct (boundEvidence _ _ g) as [[[m v]|e|w] g1] eqn:E0;
    pose proof E0 as ->%looks_bound; [|left; by injection H as <- <-..]. do 4 peek H. unfold transaction in H.
  destruct (TransitionBody _ _ _ _ _ g) as [[row|e|w] g1] eqn:Eb; [|left; by injection H as <- <-..]. injection H as <- <-.
  apply transition_body_Ok in Eb as [[-> _]|(t & d & Hm & _ & Et & Ee & Ec & Hl & Ha & Hq & _)]; [by left | right | |].
  - exists t, d, m, v. pose proof E0 as (L1 & L2 & L3)%bound_spec. split; [done|]. split; [done|]. split; [|split; [first [exact E0 | reflexivity]|split; [exact Hq|rewrite Et]]].
    + split; [|split; [|split; [done|split; [|done]]]].
      * rewrite Et. by match goal with H : (_ =s StateRollback) = false |- _ => apply String.eqb_neq in H end.
      * rewrite Et. intros E3. match goal with H : incomplete_transition r = false |- _ => unfold incomplete_transition in H; rewrite E3 in H; cbn in H; by rewrite !orb_true_r in H end.
      * exists m. rewrite Ee, Ec. split; [done|]. by match goal with H : (TR_ContextKey r <>s _) = false |- _ => apply negb_false_iff, String.eqb_eq in H end.
    + match goal with H : _ && negb (passing v) = false |- _ => apply andb_false_iff in H as [H|H]; bool_prop; auto end.
  - by match goal with H : (_ =s StateRollback) = false |- _ => apply String.eqb_neq in H end.
  - match goal with H : incomplete_transition r = false |- _ => unfold incomplete_transition in H; by bool_prop end.
Qed.
Lemma rollback_body_Ok p m r now g row g' : RollbackBody p m r now g = (Ok row, g') ->
  (g' = g /\ exists k, gv_transitions g !! k = Some row /\ replays_rollback sha256hex MarshalTransition row r = true) \/
  exists t d current o metrics, moved g g' t d /\ t = stored_transition column_time row /\ Tr_ToState t = StateRollback /\ Tr_ContextKey t = RR_ContextKey r /\
    gv_deployments g !! RR_ContextKey r = Some current /\ Dp_ExperimentID current = RR_ExperimentID r /\ Dp_EvidenceID current = RR_EvidenceID r /\
    RR_FallbackVersion r = Dp_FallbackVersion current /\ Dp_ArtifactVersion d = RR_FallbackVersion r /\
    loadMonitoringEvidence sha256hex MarshalMonitoring CanonicalJSON (RR_MonitoringEvidenceID r) g = (Ok o, g) /\ stale_monitor o r current now = false /\
    UnmarshalValues (Mo_MetricsJSON o) = Ok metrics /\ existsb (met metrics) (MS_RollbackThresholds (EM_Spec m)) = true.
Proof.
  intros H. unfold rollback_body in H. unfold sbind at 1, get in H. change (id g) with g in H. destruct (First _ _) as [t|] eqn:Ef.
  - left. destruct (replays_rollback _ _ _ _) eqn:Er; [|done]. injection H as <- <-. split; [done|]. apply First_Some in Ef as (k & Hk' & _). by exists k.
  - right. apply sbind_Ok in H as (current & g1 & E0 & H). unfold found, slift in E0. destruct (gv_deployments g !! _) as [current'|] eqn:Ed; [|done]. injection E0 as <- <-.
    destruct (_ || _) eqn:E1 in H; [done|]. destruct (_ <>s _) eqn:E2 in H; [done|]. apply sbind_Ok in H as (o & g1 & E3 & H). pose proof E3 as ->%looks_monitor.
    destruct (stale_monitor _ _ _ _) eqn:E4 in H; [done|]. apply sbind_Ok in H as (metrics & g1 & E5 & H). apply lift_inv in E5 as E5'. injection E5 as _ <-.
    destruct (negb _) eqn:E6 in H; [done|]. apply sbind_Ok in H as (ed & g1 & E7 & H). pose proof E7 as ->%looks_digest.
    apply sbind_Ok in H as (policy & g1 & E8 & H). injection E8 as _ <-.
    apply sbind_Ok in H as (u & g1 & E9 & H). apply sbind_Ok in H as (u' & g2 & E10 & H). apply sbind_Ok in H as (u'' & g3 & E11 & H). injection H as <- <-.
    bool_prop. assert (Hf : Dp_State current' = Dp_State (default zero_deployment (gv_deployments g !! RR_ContextKey r))) by by rewrite Ed.
    pose proof (moved_Ok _ _ _ _ _ _ _ _ _ _ _ _ E9 E10 E11 Hf eq_refl eq_refl eq_refl eq_refl eq_refl) as Hm. cbn in Hm. destruct Hm as (d & Hm & Ha & _); [done..|].
    eexists _, d, current', o, metrics. split_and!; try done. by destruct (UnmarshalValues _); [|done|].
Qed.
Lemma Rollback_effect p r clock g x g' : Rollback_ p r clock g = (x, g') -> g' = g \/
  exists t d, moved g g' t d /\ Tr_ContextKey t = RR_ContextKey r /\ Tr_ToState t = StateRollback /\ is_Some (gv_deployments g !! Tr_ContextKey t).
Proof.
  intros H. unfold Rollback in H. peek H. peek H. unfold sbind at 1 in H. destruct (boundEvidence _ _ g) as [[[m v]|e|w] g1] eqn:E0;
    pose proof E0 as ->%looks_bound; [|left; by injection H as <- <-..]. unfold transaction in H.
  destruct (RollbackBody _ _ _ _ g) as [[row|e|w] g1] eqn:Eb; [|left; by injection H as <- <-..]. injection H as <- <-.
  apply rollback_body_Ok in Eb as [[-> _]|(t & d & current & o & metrics & Hm & _ & Et & Ec & Ed & _)]; [by left | right].
  exists t, d. split_and!; [exact Hm | exact Ec | exact Et | by rewrite Ec, Ed].
Qed.
Lemma Record_effect p r clock g x g' : Record_ p r clock g = (x, g') -> exists f, g' = set_monitors f g.
Proof.
  intros H. assert (Hs : g' = g \/ exists f, g' = set_monitors f g).
  { unfold RecordMonitoringEvidence in H. peek H. peek H. peek H. peek H. peek H. unfold sbind at 1 in H.
    destruct (CreateMonitoring _ _ _ g) as [r1 g1] eqn:Ec. assert (Hg : exists f, g1 = set_monitors f g).
    { unfold CreateMonitoring in Ec. unfold sbind at 1, get in Ec. unfold sbind at 1, slift at 1 in Ec. destruct (stored_monitoring _ _ _); [|injection Ec as <- <-; exists id; by destruct g..].
      apply create_cases in Ec as [[-> _]|(_ & -> & _)]; [exists id; by destruct g | by eexists]. }
    destruct r1 as [b|e|w]; [|right; by injection H as <- <-..]. apply looks_monitor in H as ->. by right. }
  destruct Hs as [->|Hs]; [|done]. exists id. by destruct g.
Qed.

(** ** The states of governance *)
Record GInv (g : GovDB) : Prop := {
  gi_deployed c d : gv_deployments g !! c = Some d -> Dp_ContextKey d = c /\ exists t, gv_transitions g !! Dp_TransitionID d = Some t /\ bound_to d t;
  gi_left k t : gv_transitions g !! k = Some t -> Tr_ID t = k /\ exists d, gv_deployments g !! Tr_ContextKey t = Some d /\ rank (Tr_FromState t) < rank (Dp_State d);
  gi_once k1 k2 t u : gv_transitions g !! k1 = Some t -> gv_transitions g !! k2 = Some u -> Tr_ContextKey t = Tr_ContextKey u -> Tr_FromState t = Tr_FromState u -> k1 = k2;
  gi_promoted k t : gv_transitions g !! k = Some t -> Tr_ToState t = StateRollback \/ promotes g t;
  gi_path c d p : gv_deployments g !! c = Some d -> Dp_State d <> StateRollback -> p ∈ ladder -> rank p <= rank (Dp_State d) ->
    exists k t, gv_transitions g !! k = Some t /\ Tr_ContextKey t = c /\ Tr_ToState t = p;
  gi_approvals k a : gv_approvals g !! k = Some a -> worthy (gv_research g) a }.
Lemma promotes_grows g g' t : extends (gv_research g) (gv_research g') -> gv_approvals g ⊆ gv_approvals g' -> promotes g t -> promotes g' t.
Proof.
  intros Hx Ha (H1 & H2 & H3 & (m & H4 & H5) & H6). split; [done|]. split; [done|]. split; [done|]. split.
  - exists m. split; [|done]. by eapply manifest_stable.
  - destruct H6 as [?|(k & a & K1 & K2 & K3)]; [by left | right]. exists k, a. split; [done|]. split; [|done]. by eapply lookup_weaken.
Qed.
Lemma worthy_grows s s' a : extends s s' -> worthy s a -> worthy s' a.
Proof.
  intros Hx ((m & H1 & H2) & (e & H3 & H4) & H5). split_and!; [exists m | exists e | done]; (split; [|done]); [by eapply manifest_stable|].
  destruct Hx as (_ & _ & _ & _ & _ & _ & _ & Hx & _). by eapply lookup_weaken.
Qed.
Lemma moved_Inv g g' t d : GInv g -> moved g g' t d -> (promotes g t \/ Tr_ToState t = StateRollback /\ is_Some (gv_deployments g !! Tr_ContextKey t)) -> GInv g'.
Proof.
  intros [I1 I2 I3 I4 I5 I6] [M1 M2 (f & ->) M4 M5] Hp. pose proof M2 as (B1 & B2 & B3 & _).
  assert (Hr : rank (Tr_FromState t) < rank (Tr_ToState t)).
  { destruct Hp as [(P1 & P2 & P3 & _)|[-> _]]; [rewrite (legal_rank _ _ P3 P2); lia|]. change (rank StateRollback) with 6.
    apply known_from in M5 as [->|M5%ladder_rank]; [done | lia]. }
  assert (Hold : forall k u, gv_transitions g !! k = Some u -> Tr_ContextKey u = Tr_ContextKey t -> rank (Tr_FromState u) < rank (Tr_FromState t)).
  { intros k u Hu E. apply I2 in Hu as (_ & c & Hc & Hu). rewrite E in Hc. rewrite M4, Hc. done. }
  constructor; cbn.
  - intros c e [[<- <-]|[N He]]%lookup_insert_Some.
    + split; [done|]. exists t. rewrite B3, lookup_insert_eq. done.
    + apply I1 in He as (E & u & Hu & Hb). split; [done|]. exists u. split; [|done]. rewrite lookup_insert_ne; [done|]. intros E2. congruence.
  - intros k u [[<- <-]|[N Hu]]%lookup_insert_Some.
    + split; [done|]. exists d. rewrite lookup_insert_eq, B2. done.
    + pose proof Hu as Hu'. apply I2 in Hu as (E & c & Hc & Hr'). split; [done|]. destruct (decide (Tr_ContextKey u = Tr_ContextKey t)) as [Ec|Ec].
      * rewrite Ec, lookup_insert_eq. exists d. split; [done|]. rewrite B2. specialize (Hold k u Hu' Ec). lia.
      * rewrite lookup_insert_ne by done. by exists c.
  - intros k1 k2 u w [[<- <-]|[N1 H1]]%lookup_insert_Some [[<- <-]|[N2 H2]]%lookup_insert_Some E1 E2; [done | | | by eapply I3].
    + specialize (Hold _ _ H2 ltac:(done)). rewrite E2 in Hold. lia.
    + specialize (Hold _ _ H1 ltac:(done)). rewrite E2 in Hold. lia.
  - intros k u [[<- <-]|[N Hu]]%lookup_insert_Some; [destruct Hp as [Hp|[Hp _]]; [by right | by left]|]. by eapply I4.
  - intros c e p [[<- <-]|[N He]]%lookup_insert_Some Hs Hl Hk.
    + destruct Hp as [(P1 & P2 & P3 & _)|[Hp _]]; [|congruence]. rewrite B2 in Hk. rewrite (legal_rank _ _ P3 P2) in Hk.
      destruct (Z.le_gt_cases (rank p) (rank (Tr_FromState t))) as [Hle|Hgt].
      * destruct (gv_deployments g !! Tr_ContextKey t) as [c|] eqn:Ec; [|rewrite M4 in Hle; apply ladder_rank in Hl; cbn in Hle; lia].
        cbn in M4. destruct (I5 _ _ p Ec) as (k & u & Hu & E1 & E2); [| done | by rewrite <- M4 |].
        { rewrite <- M4. apply known_from in M5 as [->|M5]; [done|]. intros E. rewrite E in M5. apply ladder_rank in M5. cbn in M5. lia. }
        exists k, u. split; [|done]. rewrite lookup_insert_ne; [done|]. intros E. congruence.
      * exists (Tr_ID t), t. rewrite lookup_insert_eq. split_and!; [done..|]. symmetry. apply ladder_inj; [done | by eapply legal_ladder|]. rewrite (legal_rank _ _ P3 P2). lia.
    + destruct (I5 _ _ p He Hs Hl Hk) as (k & u & Hu & E). exists k, u. split; [|done]. rewrite lookup_insert_ne; [done|]. intros E2. congruence.
  - exact I6.
Qed.

(** A command of governance, whatever it answers, or progress of research. *)
Inductive gov_step (g g' : GovDB) : Prop :=
| gs_research s : extends (gv_research g) s -> g' = set_research (const s) g -> gov_step g g'
| gs_approve p r clock x : Approve_ p r clock g = (x, g') -> gov_step g g'
| gs_transition p r clock x : Transition_ p r clock g = (x, g') -> gov_step g g'
| gs_rollback p r clock x : Rollback_ p r clock g = (x, g') -> gov_step g g'
| gs_record p r clock x : Record_ p r clock g = (x, g') -> gov_step g g'.
Definition governed (g : GovDB) : Prop := exists s, rtc gov_step (mkGovDB s ∅ ∅ ∅ ∅ ∅) g.
Lemma GInv_grows g g' : GInv g -> gv_deployments g' = gv_deployments g -> gv_transitions g' = gv_transitions g ->
  extends (gv_research g) (gv_research g') -> gv_approvals g ⊆ gv_approvals g' -> (forall k a, gv_approvals g' !! k = Some a -> worthy (gv_research g') a) -> GInv g'.
Proof.
  intros [I1 I2 I3 I4 I5 I6] E1 E2 Hx Ha Hw. constructor; rewrite ?E1, ?E2; try done.
  intros k t Ht. apply I4 in Ht as [Ht|Ht]; [by left | right]. by eapply promotes_grows.
Qed.
Lemma gov_step_Inv g g' : gov_step g g' -> GInv g -> GInv g'.
Proof.
  intros [s Hx -> |p r clock x H|p r clock x H|p r clock x H|p r clock x H] Hg.
  - apply (GInv_grows g); try done. intros k a Ha. eapply worthy_grows; [exact Hx | by eapply gi_approvals].
  - apply Approve_effect in H as [->|(k & a & -> & Hn & Hw)]; [done|]. apply (GInv_grows g); try done; cbn; [by apply insert_subseteq|].
    intros k' b [[<- <-]|[N Hb]]%lookup_insert_Some; [done | by eapply gi_approvals].
  - apply Transition_effect in H as [->|(t & d & m & v & Hm & _ & Hp & _)]; [done|]. eapply moved_Inv; [done.. | by left].
  - apply Rollback_effect in H as [->|(t & d & Hm & _ & Ht & Hd)]; [done|]. eapply moved_Inv; [done.. | by right].
  - apply Record_effect in H as [f ->]. apply (GInv_grows g); try done. apply Hg.
Qed.
Lemma governed_Inv g : governed g -> GInv g.
Proof.
  intros [s H]. remember (mkGovDB s ∅ ∅ ∅ ∅ ∅) as g0. assert (H0 : GInv g0) by (subst; constructor; cbn; intros; by simplify_map_eq).
  clear Heqg0. induction H; [done|]. eauto using gov_step_Inv.
Qed.

(** C30. Authority is earned rung by rung: a deployment that is not rolled back
    has behind it, for every rung up to its state, an immutable transition of
    its context to that rung, and from the second rung on each of these bears
    its own approval, by a named approver, of that very step, for evidence of a
    confirmatory experiment that passed. *)
Theorem authority_earned g c d p : governed g -> gv_deployments g !! c = Some d -> Dp_State d <> StateRollback -> p ∈ ladder -> rank p <= rank (Dp_State d) ->
  exists k t, gv_transitions g !! k = Some t /\ Tr_ContextKey t = c /\ Tr_ToState t = p /\
    (p <> StateResearch -> exists ka a, Tr_ApprovalID t = Some ka /\ gv_approvals g !! ka = Some a /\ Ap_TargetState a = p /\ Ap_SourceState a = Tr_FromState t /\
       Ap_ExperimentID a = Tr_ExperimentID t /\ Ap_EvidenceID a = Tr_EvidenceID t /\ worthy (gv_research g) a).
Proof.
  intros Hg%governed_Inv Hd Hs Hp Hr. destruct (gi_path _ Hg c d p Hd Hs Hp Hr) as (k & t & Ht & E1 & E2). exists k, t. split_and!; [done..|].
  intros Hn. destruct (gi_promoted _ Hg k t Ht) as [E|(_ & _ & Hl & _ & [E|(ka & a & A1 & A2 & A3 & A4 & A5 & A6 & _)])].
  - rewrite E2 in E. rewrite E in Hp. apply ladder_rank in Hp. change (rank StateRollback) with 6 in Hp. lia.
  - rewrite E, E2 in Hl. unfold legal in Hl. cbn in Hl. apply String.eqb_eq in Hl. done.
  - exists ka, a. split_and!; (done || congruence || by eapply gi_approvals).
Qed.
(** An approval is used once: two promotions that bear it are the same
    transition; and in a context no state is left twice. *)
Theorem approval_single_use g k1 k2 t1 t2 a : governed g -> gv_transitions g !! k1 = Some t1 -> gv_transitions g !! k2 = Some t2 ->
  (Tr_ContextKey t1 = Tr_ContextKey t2 -> Tr_FromState t1 = Tr_FromState t2 -> k1 = k2) /\
  (Tr_ApprovalID t1 = Some a -> Tr_ApprovalID t2 = Some a -> Tr_FromState t1 <> "" -> Tr_FromState t2 <> "" -> Tr_ToState t1 <> StateRollback ->
   Tr_ToState t2 <> StateRollback -> k1 = k2).
Proof.
  intros Hg%governed_Inv H1 H2. split; [by eapply gi_once|]. intros E1 E2 F1 F2 R1 R2.
  destruct (gi_promoted _ Hg k1 t1 H1) as [?|(_ & _ & _ & (m1 & L1 & C1) & [?|(ka & a1 & A1 & A2 & A3 & A4 & A5 & A6 & _)])]; [done..|].
  destruct (gi_promoted _ Hg k2 t2 H2) as [?|(_ & _ & _ & (m2 & L2 & C2) & [?|(kb & a2 & B1 & B2 & B3 & B4 & B5 & B6 & _)])]; [done..|].
  assert (a1 = a2) as -> by congruence. eapply (gi_once _ Hg); [exact H1 | exact H2 | | congruence]. rewrite <- A3, B3 in L1. congruence.
Qed.
Lemma from_rollback g g' t e d : moved g g' t e -> gv_deployments g !! Tr_ContextKey t = Some d -> Dp_State d = StateRollback -> False.
Proof. intros [_ _ _ Hf Hk] Hd Hs. rewrite Hd in Hf. cbn in Hf. rewrite Hf, Hs in Hk. done. Qed.
(** A rollback is final: nothing can be promoted out of it or rolled back
    again; and every deployment is the one its immutable transition, of the same
    state, policy and time, has led to. *)
Theorem rollback_final g c d : governed g -> gv_deployments g !! c = Some d ->
  (exists t, gv_transitions g !! Dp_TransitionID d = Some t /\ bound_to d t) /\
  (Dp_State d = StateRollback ->
    (forall p r clock x g', TR_ContextKey r = c -> Transition_ p r clock g = (x, g') -> g' = g) /\
    (forall p r clock x g', RR_ContextKey r = c -> Rollback_ p r clock g = (x, g') -> g' = g)).
Proof.
  intros Hg%governed_Inv Hd. split; [by apply (gi_deployed _ Hg) in Hd as [_ Hd]|]. intros Hs. split.
  - intros p r clock x g' <- [?|(t & e & _ & _ & Hm & Hc & _)]%Transition_effect; [done|]. destruct (from_rollback g g' t e d Hm); [by rewrite Hc | done].
  - intros p r clock x g' <- [?|(t & e & Hm & Hc & _)]%Rollback_effect; [done|]. destruct (from_rollback g g' t e d Hm); [by rewrite Hc | done].
Qed.

(** What is known of a promotion that takes effect. *)
Definition gates (g : GovDB) (r : TransitionRequest) (m : ExperimentManifest) (v : PersistedEvidence) (now : Time) : Prop :=
  let current := default zero_deployment (gv_deployments g !! TR_ContextKey r) in
  let elapsed := default 0 (MS_RequiredElapsed (EM_Spec m) !! TR_TargetState r) in
  legal (Dp_State current) (TR_TargetState r) = true /\ matchVersions m (TR_ArtifactVersion r) (TR_PolicyVersion r) = Ok tt /\ TR_ContextKey r = authorityContext m /\
  (TR_TargetState r = StateResearch \/ passing v = true /\ verifyMLEvidence m v g = (Ok tt, g)) /\ quarantined m (TR_TargetState r) = false /\
  (Dp_State current = "" \/ exists a, gv_approvals g !! TR_ApprovalID r = Some a /\ intact_approval sha256hex MarshalApproval a = true /\
     Pe_CreatedAt v <= Ap_ApprovedAt a /\ now < Ap_ExpiresAt a /\ Ap_SourceState a = Dp_State current /\ Ap_SourceActivatedAt a = Dp_ActivatedAt current /\
     Ap_ExperimentID a = TR_ExperimentID r /\ Ap_EvidenceID a = TR_EvidenceID r /\ Ap_TargetState a = TR_TargetState r) /\
  (elapsed <= 0 \/ exists o, loadMonitoringEvidence sha256hex MarshalMonitoring CanonicalJSON (TR_ElapsedEvidenceID r) g = (Ok o, g) /\
     Mo_DeploymentTransitionID o = Dp_TransitionID current /\ Dp_ActivatedAt current <= Mo_WindowStart o /\ Mo_WindowEnd o <= now /\
     elapsed <= time_Sub (Mo_WindowEnd o) (Mo_WindowStart o) /\ Mo_ExpectedObservations o <= Mo_ObservedObservations o).


(** A deployment that was activated without a fallback cannot be rolled back. *)
Lemma no_fallback_no_rollback g c d p r clock x g' : gv_deployments g !! c = Some d -> Dp_FallbackVersion d = "" -> RR_ContextKey r = c ->
  Rollback_ p r clock g = (x, g') -> g' = g.
Proof.
  intros Hd Hf <- H. enough (g' = g \/ False) by tauto. unfold Rollback in H. peek H. peek H. unfold sbind at 1 in H.
  destruct (boundEvidence _ _ g) as [[[m v]|e|w] g1] eqn:E0; pose proof E0 as ->%looks_bound; [|left; by injection H as <- <-..]. unfold transaction in H.
  destruct (RollbackBody _ _ _ _ g) as [[row|e|w] g1] eqn:Eb; [|left; by injection H as <- <-..]. injection H as <- <-.
  apply rollback_body_Ok in Eb as [[-> _]|(t & d' & current & o & metrics & _ & _ & _ & _ & Ed & _ & _ & Efb & _)]; [by left | right].
  match goal with H : incomplete_rollback r = false |- _ => unfold incomplete_rollback in H end. bool_prop. congruence.
Qed.
End Proofs.

(** ** The repository keeps the laws *)
Section Repository.
Context (sha256hex : string -> string) (MarshalPolicy : string -> gmap string string -> string)
  (MarshalFamily : string -> string -> string -> string -> string) (MarshalHoldout : string -> string -> Interval -> string)
  (MarshalSpec : ManifestSpec -> res string) (UnmarshalSpec : string -> res ManifestSpec) (FormatTime : Time -> string)
  (MarshalMetrics : FoldMetrics -> res string) (MarshalAggregate : Evaluation -> res string) (MarshalFold : FoldResult -> res string)
  (MarshalFrozen : FrozenDecision -> res string) (MarshalRoot : compactEvidenceRoot -> res string)
  (UnmarshalFold : string -> res FoldResult) (UnmarshalRoot : string -> res compactEvidenceRoot) (ErrorText : error -> string)
  (Intn : Z -> Z -> nat -> Z) (policyOrder : gmap string string -> list (string * string))
  (range : nat -> nat -> forall A, gmap string A -> list (string * A))
  (UnmarshalLegacy : string -> res legacyEvidence) (MarshalLegacy : legacyEvidence -> res string)
  (MarshalPayload : string -> string -> string -> MLProvenance -> string -> MLEvaluation -> Time -> res string)
  (UnmarshalML : string -> res ImmutableMLEvidence) (MarshalFolds : list FoldResult -> res string).
Abbreviation LoadManifest_ := (LoadManifest sha256hex MarshalPolicy MarshalFamily MarshalHoldout MarshalSpec UnmarshalSpec FormatTime ErrorText policyOrder).
Abbreviation LoadEvidence_ := (LoadEvidence sha256hex MarshalPolicy MarshalFamily MarshalHoldout MarshalSpec UnmarshalSpec FormatTime
  MarshalMetrics MarshalAggregate MarshalFold MarshalFrozen MarshalRoot UnmarshalFold UnmarshalRoot ErrorText Intn policyOrder range
  UnmarshalLegacy MarshalLegacy).
(** [validation.Repository] as governance uses it. *)
Definition repository : Validation :=
  mkValidation LoadManifest_ LoadEvidence_ (LoadMLEvidenceForExperiment sha256hex MarshalPayload UnmarshalML)
    (fun folds => let* text := MarshalFolds folds in Ok (sha256hex text)).
Lemma hydrated_status m text rows ev root : hydratePreparedEvidence sha256hex MarshalMetrics MarshalAggregate MarshalFold MarshalFrozen MarshalRoot UnmarshalFold
    UnmarshalRoot ErrorText Intn range m text rows = Ok ev -> UnmarshalRoot text = Ok root -> Pe_Status ev = Ro_Status root /\ Pe_ExperimentID ev = Ro_ExperimentID root.
Proof.
  intros H Hr. unfold hydratePreparedEvidence in H. destruct (bad_on _ _) in H; [|done..]. cbn [rbind] in H. rewrite Hr in H. cbn [bad_on rbind] in H.
  destruct (MarshalRoot root) in H; [|done..]. cbn [rbind] in H. destruct (_ || _) eqn:E in H; [done|]. apply orb_false_iff in E as [_ E]. apply negb_false_iff, String.eqb_eq in E.
  destruct (Ro_Status root =s "failed") in H.
  - destruct (Ro_Result root), (Ro_Failure root), rows; try done. by injection H as <-.
  - destruct (_ <>s _) in H; [done|]. destruct (Ro_Result root), (Ro_Failure root); try done. destruct (_ || _) in H; [done|].
    destruct (foldM _ _ _) in H; [|done..]. cbn [rbind] in H. destruct (bad_on _ _) in H; [|done..]. cbn [rbind] in H. by injection H as <-.
Qed.
#[export] Instance repository_laws : ValidationLaws repository.
Proof.
  split; unfold V_LoadManifest, V_LoadEvidence, V_LoadMLEvidenceForExperiment, repository.
  - intros id_. apply reads_LoadManifest.
  - intros id_. apply reads_LoadEvidence.
  - intros id_. apply reads_LoadML.
  - intros id_ s m s' H (Hx & _). pose proof H as (_ & _ & x & Hs & _)%LoadManifest_Ok. unfold LoadManifest, sbind, get, found, slift, id in H |- *.
    pose proof (lookup_weaken _ _ _ _ Hs Hx) as Hs'. rewrite Hs in H. rewrite Hs'. destruct (_ <? _) in H |- *; [done|]. destruct (UnmarshalSpec _); [|done..].
    destruct (Manifest_Verify _ _ _ _ _ _ _ _); [|done..]. destruct (_ <>s _); [done|]. unfold sret in *. congruence.
  - intros id_ s v H. unfold LoadEvidence in H. unfold sbind at 1, get in H. change (id s) with s in H.
    apply sbind_Ok in H as (row & s1 & E & H). unfold found, slift in E. destruct (evidences s !! id_) as [e|]; [|done]. injection E as <- <-. exists e. split; [done|].
    do 2 (destruct (_ <? _) in H; [done|]). destruct (_ =s CompactEvidenceRootSchemaVersion) in H.
    + unfold loadCompactEvidence, transaction in H. match type of H with match ?t with _ => _ end = _ => destruct t as [[y|y|w] s1] eqn:E; [|done..] end.
      injection H as -> _. unfold loadCompactEvidenceSnapshot, integrity_tx in E. apply sbind_Ok in E as (root & s2 & E1 & E). apply lift_res in E1.
      apply sbind_Ok in E as (bound & s3 & _ & E). destruct (_ || _) eqn:Eo in E; [done|]. apply sbind_Ok in E as (m & s4 & _ & E). apply sbind_Ok in E as (s5 & s6 & _ & E).
      match type of E with (if ?c then _ else _) _ = _ => destruct c; [done|] end.
      do 3 (apply sbind_Ok in E as (? & ? & _ & E)). apply sbind_Ok in E as (ev & s7 & E2 & E). apply lift_res in E2. injection E as <- _. cbn.
      destruct (UnmarshalRoot (Er_EvidenceJSON e)) as [root'|e1|e1] eqn:Er; [|done..]. injection E1 as ->. destruct (hydrated_status _ _ _ _ _ E2 Er) as [-> ->]. bool_prop. done.
    + apply lift_res in H. unfold load_legacy in H. destruct (UnmarshalLegacy _); [|done..]. cbn [rbind] in H. destruct (digest_is _ _ _); [|done..]. cbn [rbind] in H.
      destruct (_ || _) in H; [done|]. destruct (_ || _) eqn:Eo in H; [done|]. injection H as <-. cbn. bool_prop. done.
Qed.
End Repository.
