(* ===== verification/GovernanceSamples.v ===== *)
(** * GovernanceSamples: a small deployment

    A deployment that is opened, promoted and rolled back: where the theorems on
    governance apply, and what the precision of a time column and an unused
    request field do to an approval and a retry. *)
From Stdlib Require Import Ascii SpecFloat.
From stdpp Require Import base numbers strings gmap list relations.
From S2P Require Import Prelude GoStrings GoFloat GoTime Snapshots ValidationTypes Splits FoldMetrics Manifest Evaluation WalkForward Evidence MLEvaluation Cutover Research ResearchFacts ResearchProofs ValidationSamples ResearchSamples Governance GovernanceProofs.
Local Open Scope Z_scope.

Module Desk.
Definition manifest : ExperimentManifest := Study.confirm1.
Definition passed : WalkForwardResult :=
  let no := Experiment.no_ci in
  mkWalkForward "" "" [] (mkEvaluation "" "" 0 (mkSummary no no no no no no no no no no no no no) 0 "" "" (mkDomination fzero fzero fzero false) [] true).
(** Research with one experiment and its evidence, as governance sees it. *)
Definition desk : Validation :=
  mkValidation
    (fun id_ s => match experiments s !! id_ with Some _ => (Ok manifest, s) | None => (Err ErrRecordNotFound, s) end)
    (fun id_ s => match evidences s !! id_ with
                  | Some e => (Ok (mkPersisted id_ (Er_ExperimentID e) (Er_Status e) (Some passed) None 0), s) | None => (Err ErrRecordNotFound, s) end)
    (fun id_ s => (Err ErrRecordNotFound, s)) (fun _ => Ok "").
#[export] Existing Instance desk.
#[export] Instance desk_laws : ValidationLaws desk.
Proof.
  split; unfold desk; cbn; intros id_.
  - intros s r s' H. by destruct (experiments s !! id_); injection H as <- <-.
  - intros s r s' H. by destruct (evidences s !! id_); injection H as <- <-.
  - intros s r s' H. by injection H as <- <-.
  - intros s m s' H (Hx & _). destruct (experiments s !! id_) as [x|] eqn:E; [|done]. rewrite (lookup_weaken _ _ _ _ E Hx). congruence.
  - intros s v H. destruct (evidences s !! id_) as [e|]; [|done]. exists e. injection H as <-. done.
Qed.
Definition research : Store :=
  set_evidences (const {["ev" := mkEvidenceRow "ev" (EM_ID manifest) "v" "passed" "{}" "digest" 0]})
    (set_experiments (const {[EM_ID manifest := mkExperiment "" "" "" "" "" 0 None None "" "" "" None]}) empty_store).
Definition g0 : GovDB := mkGovDB research ∅ ∅ ∅ ∅ ∅.
Definition trader : Principal := NewTrustedPrincipal "trader" [CapabilityApprove; CapabilityTransition; CapabilityRollback].
Definition marshalApproval (a : Approval) : string :=
  String.concat "," [Ap_IdempotencyKey a; Ap_TargetState a; Ap_SourceState a; Itoa (Ap_ApprovedAt a); Itoa (Ap_ExpiresAt a)].
Definition marshalTransition (t : TransitionRow) : string := String.concat "," [Tr_IdempotencyKey t; Tr_FromState t; Tr_ToState t; Itoa (Tr_CreatedAt t)].
Definition marshalMonitoring (o : Monitoring) (metrics : string) : string := Itoa (Mo_WindowStart o) +:+ metrics.
Definition marshalEnvelope (e : AuthorityPolicyEnvelope) : string := AP_Digest e.
Definition marshalValues (m : gmap string float64) : string := String.concat "," (map_keys m).
Definition unmarshalValues (text : string) : res (gmap string float64) := Ok {["after_cost_return" := f_of_Z (-2)]}.
Definition canonical (text : string) : option string := Some text.
Definition jsonb (text : string) : res string := Ok text.
Definition context : string := authorityContext manifest.
Definition version : string := VR_Version (MS_Candidate (EM_Spec manifest)).
Definition request (key approval target elapsed : string) : TransitionRequest :=
  mkTransitionRequest key context (EM_ID manifest) "ev" approval target version "p" "fallback" "reason" elapsed.
Definition approval (key target : string) (expires : Time) : ApprovalRequest := mkApprovalRequest key (EM_ID manifest) "ev" target version "p" "reason" expires.
Abbreviation Approve_ r clock := (Approve true Study.digest Study.marshalPolicy Study.in_order marshalApproval truncate_micro trader r clock).
Abbreviation Transition_ r clock := (Transition Study.digest Study.marshalPolicy Study.in_order marshalApproval marshalTransition marshalMonitoring marshalEnvelope
  canonical jsonb truncate_micro trader r clock).
Abbreviation Rollback_ r clock := (Rollback Study.digest Study.marshalPolicy Study.in_order marshalTransition marshalMonitoring marshalEnvelope unmarshalValues
  canonical jsonb truncate_micro trader r clock).
Abbreviation Record_ r clock := (RecordMonitoringEvidence Study.digest marshalMonitoring marshalValues canonical jsonb truncate_micro trader r clock).
Definition id_of {A} (f : A -> string) (r : res A) : string := match r with Ok a => f a | _ => "" end.
(** Research, then shadow with an approval, then a rollback on bad figures. *)
Definition opened := Transition_ (request "key-1" "" StateResearch "") 1000000 g0.
Definition agreed := Approve_ (approval "key-2" StateShadow 9000000) 2000000 opened.2.
Definition promotion : TransitionRequest := request "key-3" (id_of Ap_ID agreed.1) StateShadow "".
Definition promoted := Transition_ promotion 3000000 agreed.2.
Definition observed := Record_ (mkMonitoringRequest context (EM_ID manifest) 3000000 3500000 1 1 {["after_cost_return" := f_of_Z (-2)]}) 4000000 promoted.2.
Definition retreat : RollbackRequest := mkRollbackRequest "key-4" context (EM_ID manifest) "ev" "fallback" "reason" (id_of Mo_ID observed.1).
Definition retired := Rollback_ retreat 5000000 observed.2.
Abbreviation steps := (gov_step true Study.digest Study.marshalPolicy Study.in_order marshalApproval marshalTransition marshalMonitoring marshalEnvelope
  marshalValues unmarshalValues canonical jsonb truncate_micro).
Lemma step1 : steps g0 opened.2.
Proof. unfold opened. eapply gs_transition. apply surjective_pairing. Qed.
Lemma step2 : steps opened.2 agreed.2.
Proof. unfold agreed. eapply gs_approve. apply surjective_pairing. Qed.
Lemma step3 : steps agreed.2 promoted.2.
Proof. unfold promoted. eapply gs_transition. apply surjective_pairing. Qed.
Lemma step4 : steps promoted.2 observed.2.
Proof. unfold observed. eapply gs_record. apply surjective_pairing. Qed.
Lemma step5 : steps observed.2 retired.2.
Proof. unfold retired. eapply gs_rollback. apply surjective_pairing. Qed.
Lemma governed3 : rtc steps g0 promoted.2.
Proof. eapply rtc_l; [exact step1|]. eapply rtc_l; [exact step2|]. apply rtc_once, step3. Qed.
Lemma governed5 : rtc steps g0 retired.2.
Proof. etrans; [exact governed3|]. eapply rtc_l; [exact step4|]. apply rtc_once, step5. Qed.
Definition deployment_of (g : GovDB) : Deployment := default zero_deployment (gv_deployments g !! context).
Lemma deployed (g : GovDB) : Dp_State (deployment_of g) <> "" -> gv_deployments g !! context = Some (deployment_of g).
Proof. unfold deployment_of. by destruct (gv_deployments g !! context). Qed.
Definition row_at (g : GovDB) (k : string) : TransitionRow :=
  default (mkTransition "" "" "" "" "" None "" "" "" "" "" "" 0 "" "" "" "" None "" "") (gv_transitions g !! k).
Lemma row_found g k : Tr_ID (row_at g k) <> "" -> gv_transitions g !! k = Some (row_at g k).
Proof. unfold row_at. by destruct (gv_transitions g !! k). Qed.
Definition opening : string := id_of Tr_ID opened.1.
Definition promoting : string := id_of Tr_ID promoted.1.

(** ** Precision and retries *)
Definition fine_approval := Approve_ (approval "key-2" StateShadow 9000777) 2000000 opened.2.
Definition idle_request : TransitionRequest := request "key-1" "" StateResearch "unused".
Definition idle := Transition_ idle_request 1000000 g0.
End Desk.

#[local] Existing Instance Desk.desk.
(** An approval whose expiry is given in nanoseconds is recorded, but the digest
    of the row read back, in microseconds, is another one: it can never be used. *)
Theorem approval_precision_lost : is_ok Desk.fine_approval.1 = true /\
  (let r := Desk.request "key-3" (Desk.id_of Ap_ID Desk.fine_approval.1) StateShadow "" in
   Transition Study.digest Study.marshalPolicy Study.in_order Desk.marshalApproval Desk.marshalTransition Desk.marshalMonitoring Desk.marshalEnvelope
     Desk.canonical Desk.jsonb truncate_micro Desk.trader r 3000000 Desk.fine_approval.2).1 = Err (GovernanceError CodeApprovalMismatch "approval integrity check failed").
Proof. split; vm_compute; reflexivity. Qed.
(** A transition that names monitoring evidence it does not need does not record
    it, and the same request again is a conflict. *)
Theorem idle_retry_conflicts : is_ok Desk.idle.1 = true /\
  (Transition Study.digest Study.marshalPolicy Study.in_order Desk.marshalApproval Desk.marshalTransition Desk.marshalMonitoring Desk.marshalEnvelope
     Desk.canonical Desk.jsonb truncate_micro Desk.trader Desk.idle_request 1000000 Desk.idle.2).1
  = Err (GovernanceError CodeIntegrity "idempotency key replayed with different transition").
Proof. split; vm_compute; reflexivity. Qed.

(** * Witnesses *)
Section Witnesses.
Import Desk.
#[local] Existing Instance desk.
#[local] Existing Instance desk_laws.
Local Notation "'at_desk' f" := (f true Study.digest Study.marshalPolicy Study.in_order marshalApproval marshalTransition marshalMonitoring marshalEnvelope
  marshalValues unmarshalValues canonical jsonb truncate_micro) (at level 10).
Lemma authority_earned_witness : exists k t, gv_transitions promoted.2 !! k = Some t /\ Tr_ContextKey t = context /\ Tr_ToState t = StateShadow.
Proof.
  destruct (at_desk authority_earned promoted.2 context (deployment_of promoted.2) StateShadow (ex_intro _ research governed3)) as (k & t & H1 & H2 & H3 & _).
  - apply deployed. vm_compute. discriminate.
  - vm_compute. discriminate.
  - apply (bool_decide_unpack _). vm_compute. exact I.
  - vm_compute. discriminate.
  - exists k, t. split; [exact H1 | split; [exact H2 | exact H3]].
Defined.
Lemma approval_single_use_witness : Tr_FromState (row_at promoted.2 opening) <> Tr_FromState (row_at promoted.2 promoting).
Proof.
  destruct (at_desk approval_single_use promoted.2 opening promoting (row_at promoted.2 opening) (row_at promoted.2 promoting) "" (ex_intro _ research governed3)) as [H _].
  - apply row_found. vm_compute. discriminate.
  - apply row_found. vm_compute. discriminate.
  - intros E. assert (Hc : Tr_ContextKey (row_at promoted.2 opening) = Tr_ContextKey (row_at promoted.2 promoting)) by (vm_compute; reflexivity).
    specialize (H Hc E). vm_compute in H. discriminate H.
Defined.
Lemma rollback_final_witness : (Transition_ (request "key-9" "" StateResearch "") 6000000 retired.2).2 = retired.2.
Proof.
  destruct (at_desk rollback_final retired.2 context (deployment_of retired.2) (ex_intro _ research governed5)) as [_ H].
  - apply deployed. vm_compute. discriminate.
  - destruct (H ltac:(vm_compute; reflexivity)) as [Ht _].
    destruct (Transition_ (request "key-9" "" StateResearch "") 6000000 retired.2) as [x g'] eqn:E.
    exact (Ht trader (request "key-9" "" StateResearch "") 6000000 x g' eq_refl E).
Defined.
End Witnesses.
