(* ===== verification/Exits.v ===== *)
(** * Exits: [internal/services/exit_rules.go]

    The exit policy of an open position: its settings, the trailing stops that
    only move up, the protective exits of a price tick and the exits of a bar's
    close, both through the shared lifecycle of [Lifecycle]. *)
From Stdlib Require Import Ascii SpecFloat.
From stdpp Require Import base numbers strings gmap list.
From S2P Require Import Prelude GoStrings GoFloat GoFormat Snapshots.
From S2P Require Lifecycle.
Local Open Scope Z_scope.

Definition CloseReasonStopLoss : string := "stop_loss".
Definition CloseReasonTakeProfit : string := "take_profit".
Definition CloseReasonATRTrailing : string := "atr_trailing_stop".
Definition CloseReasonTrailingStop : string := "trailing_stop".
Definition CloseReasonTimeStop : string := "time_stop".
Definition CloseReasonSellSignal : string := "sell_signal".
Definition ExecutionModePaper : string := "paper".
Definition ExecutionModeExchange : string := "exchange".
Definition ExecutionModeShadow : string := "shadow".
Definition OrderStatusFilled : string := "filled".

(** ** Settings ([trending.go]) *)
Abbreviation Settings := (gmap string string) (only parsing).
Definition getSettingBool (settings : Settings) (key : string) (defaultVal : bool) : bool :=
  match settings !! key with Some val => ToLower val =s "true" | None => defaultVal end.
Definition getSettingInt (settings : Settings) (key : string) (defaultVal : Z) : Z :=
  match settings !! key with Some val => default defaultVal (Atoi val) | None => defaultVal end.
Definition getSettingFloat (settings : Settings) (key : string) (defaultVal : float64) : float64 :=
  match settings !! key with Some val => default defaultVal (ParseFloat val) | None => defaultVal end.

(** ** The policy *)
Record ExitPolicy : Type := mkExitPolicy {
  StopLossPercent : float64; TakeProfitPercent : float64; TrailingStopEnabled : bool; TrailingStopPercent : float64; ATRTrailingEnabled : bool;
  ATRTrailingMult : float64; AllowSellAtLoss : bool; TimeStopBars : Z; SellOnSignal : bool; MinConfidenceToSell : float64 }.
Definition BuildExitPolicy (settings : Settings) : ExitPolicy :=
  mkExitPolicy (getSettingFloat settings "stop_loss_percent" (f_of_Z 5)) (getSettingFloat settings "take_profit_percent" (f_of_Z 30))
    (getSettingBool settings "trailing_stop_enabled" false) (getSettingFloat settings "trailing_stop_percent" (f_of_Z 10))
    (getSettingBool settings "atr_trailing_enabled" false) (getSettingFloat settings "atr_trailing_mult" (f_of_Z 1))
    (getSettingBool settings "allow_sell_at_loss" false) (getSettingInt settings "time_stop_bars" 0)
    (getSettingBool settings "sell_on_signal" true) (getSettingFloat settings "min_confidence_to_sell" (f_of_ratio 35 10)).
Record ExitEvaluationInput : Type := mkExitInput {
  EI_CurrentPrice : float64; EI_HighPrice : float64; EI_LowPrice : float64; EI_EntryPrice : float64; EI_StopPrice : option float64;
  EI_TakeProfitPrice : option float64; EI_TrailingStopPrice : option float64; EI_BarsHeld : Z; EI_MaxBarsHeld : option Z; EI_Signal : string;
  EI_SignalRating : float64 }.
Record ExitDecision : Type := mkExitDecision { ED_Reason : string; ED_TriggerPrice : float64; ED_Protective : bool }.
Definition no_exit : ExitDecision := mkExitDecision "" fzero false.

(** ** Trailing stops *)
Definition raised (existing : option float64) (candidate : float64) : option float64 :=
  if fle candidate fzero then existing else
  match existing with
  | None => Some candidate
  | Some stop => if flt stop candidate then Some candidate else existing
  end.
Definition RatchetPercentTrailingStop (existing : option float64) (currentPrice entryPrice trailingStopPercent : float64) : option float64 :=
  if fle trailingStopPercent fzero || fle currentPrice fzero then existing else
  if flt fzero entryPrice && fle currentPrice entryPrice then existing else
  raised existing (fmul currentPrice (fsub fone (fdiv trailingStopPercent fhundred))).
Definition RatchetATRTrailingStop (existing : option float64) (currentPrice entryPrice atr atrTrailingMult : float64) : option float64 :=
  if fle atr fzero || fle atrTrailingMult fzero || fle currentPrice fzero then existing else
  let reference := if flt fzero entryPrice && flt currentPrice entryPrice then entryPrice else currentPrice in
  raised existing (fsub reference (fmul atr atrTrailingMult)).

(** ** Decisions *)
Definition normalizedHigh (input : ExitEvaluationInput) : float64 :=
  if flt fzero (EI_HighPrice input) then EI_HighPrice input else EI_CurrentPrice input.
Definition normalizedLow (input : ExitEvaluationInput) : float64 :=
  if flt fzero (EI_LowPrice input) then EI_LowPrice input else EI_CurrentPrice input.
Definition fallbackStop (input : ExitEvaluationInput) (policy : ExitPolicy) : float64 :=
  if flt fzero (EI_EntryPrice input) && negb (bool_decide (is_Some (EI_StopPrice input))) && flt fzero (StopLossPercent policy)
  then fmul (EI_EntryPrice input) (fsub fone (fdiv (StopLossPercent policy) fhundred)) else fzero.
Definition fallbackTarget (input : ExitEvaluationInput) (policy : ExitPolicy) : float64 :=
  if flt fzero (EI_EntryPrice input) && negb (bool_decide (is_Some (EI_TakeProfitPrice input))) && flt fzero (TakeProfitPercent policy)
  then fmul (EI_EntryPrice input) (fadd fone (fdiv (TakeProfitPercent policy) fhundred)) else fzero.
(** [x != nil && low <= *x] and [x != nil && high >= *x]. *)
Definition reached_down (x : option float64) (low : float64) : bool := match x with Some x => fle low x | None => false end.
Definition reached_up (x : option float64) (high : float64) : bool := match x with Some x => fle x high | None => false end.
Definition protective_triggers (input : ExitEvaluationInput) (policy : ExitPolicy) : Lifecycle.ExitTriggerInput :=
  let high := normalizedHigh input in let low := normalizedLow input in
  let stop := fallbackStop input policy in let target := fallbackTarget input policy in
  Lifecycle.mkExitInput (reached_down (EI_StopPrice input) low) (reached_up (EI_TakeProfitPrice input) high)
    (ATRTrailingEnabled policy && reached_down (EI_TrailingStopPrice input) low)
    (TrailingStopEnabled policy && reached_down (EI_TrailingStopPrice input) low)
    (flt fzero stop && fle low stop) (flt fzero target && fle target high) false false false false.
(** The price of the trigger; reading an absent trailing stop would panic. *)
Definition trigger_price (input : ExitEvaluationInput) (policy : ExitPolicy) (reason : string) : res float64 :=
  if reason =s CloseReasonStopLoss then Ok (default (fallbackStop input policy) (EI_StopPrice input)) else
  if reason =s CloseReasonTakeProfit then Ok (default (fallbackTarget input policy) (EI_TakeProfitPrice input)) else
  if (reason =s CloseReasonATRTrailing) || (reason =s CloseReasonTrailingStop) then
    match EI_TrailingStopPrice input with Some stop => Ok stop | None => Panic "nil pointer dereference" end
  else Ok (EI_CurrentPrice input).
Definition EvaluateProtectiveExit (input : ExitEvaluationInput) (policy : ExitPolicy) : res ExitDecision :=
  let shared := Lifecycle.EvaluateExitLifecycle (protective_triggers input policy) in
  if negb (Lifecycle.Exit shared) then Ok no_exit else
  let* trigger := trigger_price input policy (Lifecycle.Reason shared) in
  Ok (mkExitDecision (Lifecycle.Reason shared) trigger true).
Definition discretionary_triggers (input : ExitEvaluationInput) (policy : ExitPolicy) : Lifecycle.ExitTriggerInput :=
  let maxBars := default (TimeStopBars policy) (EI_MaxBarsHeld input) in
  Lifecycle.mkExitInput false false false false false false ((0 <? maxBars) && (maxBars <=? EI_BarsHeld input))
    (SellOnSignal policy && ((EI_Signal input =s "SELL") || (EI_Signal input =s "STRONG_SELL")) &&
     fle (EI_SignalRating input) (MinConfidenceToSell policy))
    (flt fzero (EI_EntryPrice input) && flt (EI_CurrentPrice input) (EI_EntryPrice input)) (AllowSellAtLoss policy).
Definition EvaluateBarCloseExit (input : ExitEvaluationInput) (policy : ExitPolicy) : res ExitDecision :=
  let* decision := EvaluateProtectiveExit input policy in
  if ED_Reason decision <>s "" then Ok decision else
  let decision := Lifecycle.EvaluateExitLifecycle (discretionary_triggers input policy) in
  if negb (Lifecycle.Exit decision) then Ok no_exit else
  let reason := if Lifecycle.Reason decision =s "signal_exit" then CloseReasonSellSignal else Lifecycle.Reason decision in
  Ok (mkExitDecision reason (EI_CurrentPrice input) false).
(** The gate on its own; nothing calls it. *)
Definition discretionaryExitAllowed (input : ExitEvaluationInput) (policy : ExitPolicy) : bool :=
  AllowSellAtLoss policy || fle (EI_EntryPrice input) fzero || fle (EI_EntryPrice input) (EI_CurrentPrice input).

(** ** What the rules guarantee *)

(** A trailing stop never falls and never appears below or at zero. *)
Lemma raised_up existing candidate s : raised existing candidate = Some s -> existing = Some s \/
  (s = candidate /\ fle candidate fzero = false /\ match existing with Some old => flt old s = true | None => True end).
Proof.
  unfold raised. destruct (fle candidate fzero) eqn:E; [by left|]. destruct existing as [old|].
  - destruct (flt old candidate) eqn:Ec; intros [= <-]; [by right | by left].
  - intros [= <-]. by right.
Qed.
Lemma ratchets_up existing price entry percent atr mult s :
  RatchetPercentTrailingStop existing price entry percent = Some s \/ RatchetATRTrailingStop existing price entry atr mult = Some s ->
  existing = Some s \/ (fle s fzero = false /\ match existing with Some old => flt old s = true | None => True end).
Proof.
  unfold RatchetPercentTrailingStop, RatchetATRTrailingStop.
  cbv zeta. intros [H|H]; repeat (match type of H with (if ?c then existing else _) = _ => destruct c; [by left|] end);
    (apply raised_up in H as [H|(-> & H1 & H2)]; [by left | by right]).
Qed.

(** The lifecycle on protective triggers only, and on the others. *)
Lemma lifecycle_protective b1 b2 b3 b4 b5 b6 :
  let d := Lifecycle.EvaluateExitLifecycle (Lifecycle.mkExitInput b1 b2 b3 b4 b5 b6 false false false false) in
  Lifecycle.Exit d = b1 || b2 || b3 || b4 || b5 || b6 /\ Lifecycle.Reason d = (if b1 then "stop_loss" else if b2 then "take_profit" else if b3 then "atr_trailing_stop" else if b4 then "trailing_stop" else
    if b5 then "stop_loss" else if b6 then "take_profit" else "").
Proof. by destruct b1, b2, b3, b4, b5, b6. Qed.
Lemma lifecycle_discretionary time_ signal loss allow :
  let d := Lifecycle.EvaluateExitLifecycle (Lifecycle.mkExitInput false false false false false false time_ signal loss allow) in
  Lifecycle.Exit d = (time_ || signal) && (negb loss || allow) /\ (Lifecycle.Exit d = true -> Lifecycle.Reason d = (if time_ then "time_stop" else "signal_exit")).
Proof. by destruct time_, signal, loss, allow. Qed.
Definition no_protection_due (t : Lifecycle.ExitTriggerInput) : Prop :=
  Lifecycle.HardStop t = false /\ Lifecycle.TakeProfit t = false /\ Lifecycle.ATRTrailing t = false /\ Lifecycle.PercentTrailing t = false /\
  Lifecycle.FallbackStop t = false /\ Lifecycle.FallbackTakeProfit t = false.

(** What a protective exit is: a level that the low or high of the tick has
    reached, which is also its trigger price; stops before the profit. *)
Definition protective_exit (input : ExitEvaluationInput) (policy : ExitPolicy) (d : ExitDecision) : Prop :=
  (ED_Reason d = CloseReasonStopLoss /\ fle (normalizedLow input) (ED_TriggerPrice d) = true /\
     ED_TriggerPrice d = default (fallbackStop input policy) (EI_StopPrice input)) \/
  (ED_Reason d = CloseReasonTakeProfit /\ fle (ED_TriggerPrice d) (normalizedHigh input) = true /\
     ED_TriggerPrice d = default (fallbackTarget input policy) (EI_TakeProfitPrice input) /\ reached_down (EI_StopPrice input) (normalizedLow input) = false) \/
  ((ED_Reason d = CloseReasonATRTrailing /\ ATRTrailingEnabled policy = true \/ ED_Reason d = CloseReasonTrailingStop /\ TrailingStopEnabled policy = true) /\
     fle (normalizedLow input) (ED_TriggerPrice d) = true /\ EI_TrailingStopPrice input = Some (ED_TriggerPrice d) /\
     reached_down (EI_StopPrice input) (normalizedLow input) = false /\ reached_up (EI_TakeProfitPrice input) (normalizedHigh input) = false).
Lemma fallback_absent input policy : (EI_StopPrice input <> None -> fallbackStop input policy = fzero) /\
  (EI_TakeProfitPrice input <> None -> fallbackTarget input policy = fzero).
Proof.
  unfold fallbackStop, fallbackTarget. by split; intros H; rewrite (bool_decide_eq_true_2 _ (proj1 (not_eq_None_Some _) H)), andb_false_r.
Qed.
Lemma protective_cases input policy :
  (EvaluateProtectiveExit input policy = Ok no_exit /\ no_protection_due (protective_triggers input policy)) \/
  (exists d, EvaluateProtectiveExit input policy = Ok d /\ ED_Protective d = true /\ ED_Reason d <> "" /\ protective_exit input policy d).
Proof.
  unfold EvaluateProtectiveExit, no_protection_due, protective_exit, trigger_price. pose proof (fallback_absent input policy) as [Hstop Htarget].
  unfold protective_triggers. set (low := normalizedLow input). set (high := normalizedHigh input).
  set (b1 := reached_down (EI_StopPrice input) low). set (b2 := reached_up (EI_TakeProfitPrice input) high).
  set (b3 := ATRTrailingEnabled policy && _). set (b4 := TrailingStopEnabled policy && _). set (b5 := flt fzero (fallbackStop _ _) && _).
  set (b6 := flt fzero (fallbackTarget _ _) && _). destruct (lifecycle_protective b1 b2 b3 b4 b5 b6) as [-> ->]. cbn [Lifecycle.HardStop Lifecycle.TakeProfit
    Lifecycle.ATRTrailing Lifecycle.PercentTrailing Lifecycle.FallbackStop Lifecycle.FallbackTakeProfit].
  destruct b1 eqn:E1; [right; subst b1; unfold reached_down in E1; destruct (EI_StopPrice input) as [stop|]; [|done]; eexists; split; [reflexivity|]; (split; [done|]; split; [discriminate|]; left; split_and!; first [exact E1 | exact E2 | exact E5 | exact E6 | reflexivity])|].
  destruct b2 eqn:E2; [right; subst b2; unfold reached_up in E2; destruct (EI_TakeProfitPrice input) as [target|]; [|done]; eexists; split; [reflexivity|];
    (split; [done|]; split; [discriminate|]; right; left; split_and!; first [exact E1 | exact E2 | exact E5 | exact E6 | reflexivity])|].
  destruct b3 eqn:E3; [right; apply andb_true_iff in E3 as [Ha E3]; unfold reached_down in E3; destruct (EI_TrailingStopPrice input) as [trail|]; [|done];
    eexists; split; [reflexivity|]; (split; [done|]; split; [discriminate|]; right; right; split_and!; first [by left | exact E1 | exact E2 | exact E3 | reflexivity])|].
  destruct b4 eqn:E4; [right; apply andb_true_iff in E4 as [Ha E4]; unfold reached_down in E4; destruct (EI_TrailingStopPrice input) as [trail|]; [|done];
    eexists; split; [reflexivity|]; (split; [done|]; split; [discriminate|]; right; right; split_and!; first [by right | exact E1 | exact E2 | exact E4 | reflexivity])|].
  destruct b5 eqn:E5; [right; apply andb_true_iff in E5 as [Ha E5]; destruct (EI_StopPrice input) as [stop|]; [by rewrite Hstop in Ha|];
    eexists; split; [reflexivity|]; (split; [done|]; split; [discriminate|]; left; split_and!; first [exact E1 | exact E2 | exact E5 | exact E6 | reflexivity])|].
  destruct b6 eqn:E6; [right; apply andb_true_iff in E6 as [Ha E6]; destruct (EI_TakeProfitPrice input) as [target|]; [by rewrite Htarget in Ha|];
    eexists; split; [reflexivity|]; (split; [done|]; split; [discriminate|]; right; left; split_and!; first [exact E1 | exact E2 | exact E5 | exact E6 | reflexivity])|].
  left. by split_and!.
Qed.

Lemma bar_close_exit input policy : exists d, EvaluateBarCloseExit input policy = Ok d /\
  (ED_Protective d = true -> protective_exit input policy d /\ EvaluateProtectiveExit input policy = Ok d) /\
  (ED_Protective d = false -> no_protection_due (protective_triggers input policy)) /\
  (ED_Protective d = false -> ED_Reason d <> "" -> ED_TriggerPrice d = EI_CurrentPrice input /\
     (AllowSellAtLoss policy = true \/ flt fzero (EI_EntryPrice input) && flt (EI_CurrentPrice input) (EI_EntryPrice input) = false) /\
     (let maxBars := default (TimeStopBars policy) (EI_MaxBarsHeld input) in
      ED_Reason d = CloseReasonTimeStop /\ 0 < maxBars <= EI_BarsHeld input \/
      ED_Reason d = CloseReasonSellSignal /\ SellOnSignal policy = true /\ (EI_Signal input = "SELL" \/ EI_Signal input = "STRONG_SELL"))).
Proof.
  unfold EvaluateBarCloseExit. destruct (protective_cases input policy) as [[-> Hn]|(d & -> & Hp & Hr & Hd)]; cbn [rbind].
  - change (ED_Reason no_exit <>s "") with false. cbv iota. unfold discretionary_triggers. set (maxBars := default _ _).
    set (time_ := (0 <? maxBars) && _). set (signal := SellOnSignal policy && _ && _). set (loss := flt _ _ && flt _ _).
    destruct (lifecycle_discretionary time_ signal loss (AllowSellAtLoss policy)) as [He Hr].
    destruct (Lifecycle.Exit _) eqn:E; [rewrite Hr by done | exists no_exit; by split_and!]. eexists. split; [reflexivity|]. symmetry in He.
    apply andb_true_iff in He as [Hs Hl]. split; [done|]. split; [done|]. intros _ _. split; [done|]. split; [destruct loss; auto|].
    cbn. destruct time_ eqn:Et; cbn.
    + left. subst time_. bool_prop. split; [done | lia].
    + right. subst signal. apply andb_true_iff in Hs as [Hs _]. apply andb_true_iff in Hs as [Hs Ho]. apply orb_true_iff in Ho as [Ho|Ho]; bool_prop; auto.
  - rewrite (proj2 (String.eqb_neq _ _) Hr). cbn. exists d. split; [done|]. rewrite Hp. by split_and!.
Qed.
