(* ===== verification/Indicators.v ===== *)
(** * Indicators: technical indicators

    [internal/services/indicators.go]: relative strength, moving averages, MACD,
    volatility, bands, volume, momentum and the feature vector. Slices are read
    with their bounds, so a period that does not fit its data panics as it does
    in Go. *)
From Stdlib Require Import Ascii SpecFloat.
From stdpp Require Import base numbers strings gmap list.
From S2P Require Import Prelude GoStrings GoFloat GoTime GoFormat FoldMetrics Exits.
Local Open Scope Z_scope.

Record Candle : Type := mkCandle { Cn_Close : float64; Cn_High : float64; Cn_Low : float64; Cn_Volume : float64 }.
Record RSIResult : Type := mkRSI { RS_RSI : float64; RS_Signal : string }.
Record MACDResult : Type := mkMACD { MA_MACD : float64; MA_SignalLine : float64; MA_Histogram : float64; MA_Signal : string }.
Record BollingerBandsResult : Type := mkBB { BB_Upper : float64; BB_Middle : float64; BB_Lower : float64; BB_Signal : string }.
Record VolumeMAResult : Type := mkVolumeMA { VM_VolumeMA : float64; VM_Ratio : float64; VM_Signal : string }.
Record MomentumResult : Type := mkMomentum { MO_Momentum : float64; MO_Signal : string }.
Record FeatureVector : Type := mkFeatures {
  FV_RSI : float64; FV_MACDHistogram : float64; FV_BBPercentB : float64; FV_MomentumPercent : float64; FV_VolumeRatio : float64; FV_VolatilityRatio : float64;
  FV_Valid : bool }.
Record IndicatorConfig : Type := mkIndicatorConfig {
  RSIPeriod : Z; RSIOversold : float64; RSIOverbought : float64; MACDFastPeriod : Z; MACDSlowPeriod : Z; MACDSignalPeriod : Z; BBPeriod : float64;
  BBStd : float64; VolumeMAPeriod : Z; MomentumPeriod : Z }.
Definition DefaultIndicatorConfig : IndicatorConfig :=
  mkIndicatorConfig 14 (f_of_Z 30) (f_of_Z 70) 12 26 9 (f_of_Z 20) (f_of_Z 2) 20 10.

(** [l[low:high]]. *)
Definition slice {A} (l : list A) (low high : Z) : res (list A) :=
  if (low <? 0) || (high <? low) || (len l <? high) then Panic "slice bounds out of range" else Ok (take (Z.to_nat (high - low)) (drop (Z.to_nat low) l)).
(** [l[len(l)-1]]. *)
Definition last_value {A} (l : list A) : res A := index l (len l - 1).
(** [for i := low; i < high; i++]. *)
Definition range (low high : Z) : list Z := seqZ low (high - low).
(** [int(x)], as amd64 converts it. *)
Definition to_int (x : float64) : Z :=
  if finite_f x && int64_ok (f_trunc x) then f_trunc x else - 2 ^ 63.
(** [math.Round]: half away from zero. *)
Definition Round (x : float64) : float64 :=
  match x with
  | S754_finite s m e =>
      if 0 <=? e then x else
      let z := (2 * Z.pos m + 2 ^ (- e)) / 2 ^ (1 - e) in
      if z =? 0 then S754_zero s else if s then fneg (f_of_Z z) else f_of_Z z
  | _ => x
  end.

(** ** RSI *)
Definition rsi_step (closes : list float64) (s : float64 * float64) (i : Z) : res (float64 * float64) :=
  let '(gains, losses) := s in
  let* a := index closes i in
  let* b := index closes (i - 1) in
  let change := fsub a b in
  Ok (if flt fzero change then (fadd gains change, losses) else (gains, fadd losses (fabs change))).
Definition CalculateRSI (closes : list float64) (period : Z) : res RSIResult :=
  if len closes <? int64 (period + 1) then Ok (mkRSI (f_of_Z 50) "neutral") else
  let* (gains, losses) := foldM (rsi_step closes) (fzero, fzero) (range (int64 (len closes - period)) (len closes)) in
  let avgGain := fdiv gains (f_of_Z period) in
  let avgLoss := fdiv losses (f_of_Z period) in
  if feq avgLoss fzero then Ok (if feq avgGain fzero then mkRSI (f_of_Z 50) "neutral" else mkRSI fhundred "overbought") else
  let rs := fdiv avgGain avgLoss in
  let rsi := fsub fhundred (fdiv fhundred (fadd fone rs)) in
  Ok (mkRSI rsi (if flt rsi (f_of_Z 30) then "oversold" else if flt (f_of_Z 70) rsi then "overbought" else "neutral")).

(** ** Averages *)
Definition ema_step (multiplier ema x : float64) : float64 := fadd (fmul (fsub x ema) multiplier) ema.
Fixpoint ema_from (multiplier ema : float64) (l : list float64) : list float64 :=
  match l with
  | [] => []
  | x :: l' => let e := ema_step multiplier ema x in e :: ema_from multiplier e l'
  end.
(** One value per point, or none when there are fewer points than the period. *)
Definition calculateEMASeries (data : list float64) (period : Z) : res (list float64) :=
  if len data <? period then Ok [] else
  let multiplier := fdiv (f_of_Z 2) (f_of_Z (int64 (period + 1))) in
  let* ema := index data 0 in
  Ok (ema :: ema_from multiplier ema (drop 1 data)).
Definition calculateEMA (data : list float64) (period : Z) : res float64 :=
  let* series := calculateEMASeries data period in
  if len series =? 0 then Ok fzero else last_value series.
Definition CalculateEMA := calculateEMA.

(** ** MACD *)
Definition macd_value (fastSeries slowSeries : list float64) (i : Z) : res float64 :=
  let* a := index fastSeries i in
  let* b := index slowSeries i in Ok (fsub a b).
(** [macdValues]: zero before the first full window. *)
Definition macdValues (fastSeries slowSeries : list float64) (n slowPeriod : Z) : res (list float64) :=
  let first := int64 (slowPeriod - 1) in
  let* values := mapM (macd_value fastSeries slowSeries) (range first n) in
  Ok (replicate (Z.to_nat (Z.min n first)) fzero ++ values).
Definition CalculateMACD (closes : list float64) (fastPeriod slowPeriod signalPeriod : Z) : res MACDResult :=
  if len closes <? int64 (slowPeriod + signalPeriod) then Ok (mkMACD fzero fzero fzero "neutral") else
  let* fastSeries := calculateEMASeries closes fastPeriod in
  let* slowSeries := calculateEMASeries closes slowPeriod in
  let* values := macdValues fastSeries slowSeries (len closes) slowPeriod in
  let* macdLine := index values (len closes - 1) in
  let* signalLine := calculateEMA values signalPeriod in
  let histogram := fsub macdLine signalLine in
  Ok (mkMACD macdLine signalLine histogram
        (if flt fzero histogram && flt signalLine macdLine then "bullish"
         else if flt histogram fzero && flt macdLine signalLine then "bearish" else "neutral")).

(** ** Volatility and volume *)
Definition true_range (s : list float64 * float64) (c : Candle) : list float64 * float64 :=
  let '(trs, prevClose) := s in
  let highLow := fsub (Cn_High c) (Cn_Low c) in
  let highClose := fabs (fsub (Cn_High c) prevClose) in
  let lowClose := fabs (fsub (Cn_Low c) prevClose) in
  (trs ++ [fmax highLow (fmax highClose lowClose)], Cn_Close c).
Definition CalculateATR (candles : list Candle) (period : Z) : res float64 :=
  if len candles <? int64 (period + 1) then Ok fzero else
  let* first := index candles 0 in
  CalculateEMA (foldl true_range ([], Cn_Close first) candles).1 period.
Definition CalculateAnnualizedATR (candles : list Candle) (period timeframeMinutes annualizationDays : Z) : res float64 :=
  let* atr := CalculateATR candles period in
  if fle atr fzero then Ok fzero else
  if (timeframeMinutes <=? 0) || (annualizationDays <=? 0) then Ok atr else
  let barsPerYear := fdiv (f_of_Z (int64 (annualizationDays * 24 * 60))) (f_of_Z timeframeMinutes) in
  if fle barsPerYear fzero then Ok atr else Ok (fmul atr (fsqrt barsPerYear)).
Definition CalculateBollingerBands (closes : list float64) (period : Z) (stdDev : float64) : res BollingerBandsResult :=
  if len closes <? period then Ok (mkBB fzero fzero fzero "neutral") else
  let* recentCloses := slice closes (int64 (len closes - period)) (len closes) in
  let middle := fdiv (fsum recentCloses) (f_of_Z period) in
  let variance := foldl (fun v c => let diff := fsub c middle in fadd v (fmul diff diff)) fzero recentCloses in
  let std := fsqrt (fdiv variance (f_of_Z period)) in
  let upper := fadd middle (fmul stdDev std) in
  let lower := fsub middle (fmul stdDev std) in
  let* currentPrice := last_value closes in
  Ok (mkBB upper middle lower (if flt currentPrice lower then "oversold" else if flt upper currentPrice then "overbought" else "neutral")).
Definition CalculateVolumeMA (volumes : list float64) (period : Z) : res VolumeMAResult :=
  if len volumes <? int64 (period + 1) then Ok (mkVolumeMA fzero fone "neutral") else
  let* recentVolumes := slice volumes (int64 (len volumes - period - 1)) (len volumes - 1) in
  let volumeMA := fdiv (fsum recentVolumes) (f_of_Z period) in
  let* currentVolume := last_value volumes in
  let ratio := fdiv currentVolume volumeMA in
  Ok (mkVolumeMA volumeMA ratio (if flt (f_of_ratio 3 2) ratio then "high" else if fle ratio (f_of_ratio 1 2) then "low" else "neutral")).
Definition CalculateMomentum (closes : list float64) (period : Z) : res MomentumResult :=
  if len closes <? int64 (period + 1) then Ok (mkMomentum fzero "neutral") else
  let* currentClose := last_value closes in
  let* pastClose := index closes (int64 (len closes - period - 1)) in
  let momentum := fmul (fdiv (fsub currentClose pastClose) pastClose) fhundred in
  Ok (mkMomentum momentum (if flt (f_of_Z 2) momentum then "bullish" else if flt momentum (f_of_Z (-2)) then "bearish" else "neutral")).
Definition CalculateBBPercentB (bb : BollingerBandsResult) (price : float64) : float64 :=
  let denom := fsub (BB_Upper bb) (BB_Lower bb) in
  if feq denom fzero then f_of_ratio 1 2 else fdiv (fsub price (BB_Lower bb)) denom.
Definition CalculateVolumeRatio (volumes : list float64) (ma : float64) : res float64 :=
  if len volumes =? 0 then Ok fone else
  if fle ma fzero then Ok fone else
  let* current := last_value volumes in Ok (fdiv current ma).
Definition CalculateMedian (values : list float64) : res float64 :=
  if len values =? 0 then Ok fzero else
  let copyValues := sort_floats values in
  let mid := len copyValues / 2 in
  let* upper := index copyValues mid in
  if len copyValues mod 2 =? 0 then
    let* lower := index copyValues (mid - 1) in Ok (fdiv (fadd lower upper) (f_of_Z 2))
  else Ok upper.
Definition CalculateReturn (closes : list float64) (lookback : Z) : res float64 :=
  if (len closes =? 0) || (lookback <=? 0) || (len closes <=? lookback) then Ok fzero else
  let* past := index closes (len closes - lookback - 1) in
  let* current := last_value closes in
  if feq past fzero then Ok fzero else Ok (fmul (fdiv (fsub current past) past) fhundred).
(** The bars missing between consecutive opening times, in milliseconds. *)
Definition gap_bars (openTimes : list Z) (expectedMs : Z) (missingBars i : Z) : res Z :=
  let* a := index openTimes i in
  let* b := index openTimes (i - 1) in
  let gap := int64 (a - b) in
  Ok (if gap <=? expectedMs then missingBars else int64 (missingBars + int64 (Z.quot gap expectedMs - 1))).
Definition CalculateMissingBarRatio (openTimes : list Z) (expectedInterval : Z) : res float64 :=
  if (len openTimes <? 2) || (expectedInterval <=? 0) then Ok fzero else
  let expectedMs := expectedInterval / 1000000 in
  if expectedMs <=? 0 then Ok fzero else
  let observedGaps := len openTimes - 1 in
  let* missingBars := foldM (gap_bars openTimes expectedMs) 0 (range 1 (len openTimes)) in
  if observedGaps <=? 0 then Ok fzero else Ok (fdiv (f_of_Z missingBars) (f_of_Z (int64 (observedGaps + missingBars)))).

(** ** Features *)
Definition minBars (config : IndicatorConfig) : Z :=
  let grow m x := if m <? x then x else m in
  let m := int64 (RSIPeriod config + 1) in
  let m := grow m (int64 (MACDSlowPeriod config + MACDSignalPeriod config)) in
  let m := grow m (to_int (BBPeriod config)) in
  let m := grow m (int64 (VolumeMAPeriod config + 1)) in
  let m := grow m (int64 (MomentumPeriod config + 1)) in
  grow m 15.
Definition invalid_features : FeatureVector := mkFeatures fzero fzero fzero fzero fzero fzero false.
Definition bad_periods (config : IndicatorConfig) : bool :=
  (RSIPeriod config <=? 0) || (MACDFastPeriod config <=? 0) || (MACDSlowPeriod config <=? 0) || (MACDSignalPeriod config <=? 0) ||
  fle (BBPeriod config) fzero || (VolumeMAPeriod config <=? 0) || (MomentumPeriod config <=? 0).
Definition CalculateFeatureVector (candles : list Candle) (config : IndicatorConfig) : res FeatureVector :=
  if bad_periods config then Ok invalid_features else
  if len candles <? minBars config then Ok invalid_features else
  let closes := Cn_Close <$> candles in
  let volumes := Cn_Volume <$> candles in
  let* rsi := CalculateRSI closes (RSIPeriod config) in
  let* macd := CalculateMACD closes (MACDFastPeriod config) (MACDSlowPeriod config) (MACDSignalPeriod config) in
  let* bb := CalculateBollingerBands closes (to_int (BBPeriod config)) (BBStd config) in
  let* mom := CalculateMomentum closes (MomentumPeriod config) in
  let* vol := CalculateVolumeMA volumes (VolumeMAPeriod config) in
  let* currentPrice := last_value closes in
  let bbPercentB := CalculateBBPercentB bb currentPrice in
  let* volumeRatio := CalculateVolumeRatio volumes (VM_VolumeMA vol) in
  let* atr := CalculateATR candles 14 in
  let volatilityRatio := if flt fzero currentPrice && flt fzero atr then fdiv atr currentPrice else fzero in
  let values := [RS_RSI rsi; MA_Histogram macd; bbPercentB; MO_Momentum mom; volumeRatio; volatilityRatio] in
  Ok (if forallb finite_f values
      then mkFeatures (RS_RSI rsi) (MA_Histogram macd) bbPercentB (MO_Momentum mom) volumeRatio volatilityRatio true
      else invalid_features).
