(* ===== verification/Signals.v ===== *)
(** * Signals: from indicators to a rating, and from a rating to a size

    Of [internal/services/trending.go]: the ratings of the indicators, the final
    score and its signal, the regime, volatility and probability gates, and the
    sizes of positions; of [analyzer.go] the configuration of the indicators. *)
From Stdlib Require Import Ascii SpecFloat.
From stdpp Require Import base numbers strings gmap list.
From S2P Require Import Prelude GoStrings GoFloat GoTime GoFormat FoldMetrics Exits Indicators.
Local Open Scope Z_scope.

(** ** The configuration: one setting after the other, unreadable ones ignored *)
Definition with_int (set : Z -> IndicatorConfig) (value : string) (config : IndicatorConfig) : IndicatorConfig :=
  match Atoi value with Some v => set v | None => config end.
Definition with_float (set : float64 -> IndicatorConfig) (value : string) (config : IndicatorConfig) : IndicatorConfig :=
  match ParseFloat value with Some v => set v | None => config end.
Definition config_step (c : IndicatorConfig) (setting : string * string) : IndicatorConfig :=
  let '(key, value) := setting in
  let 'mkIndicatorConfig rsi oversold overbought fast slow sig bb std volume momentum := c in
  if key =s "rsi_period" then with_int (fun v => mkIndicatorConfig v oversold overbought fast slow sig bb std volume momentum) value c else
  if key =s "rsi_oversold" then with_float (fun v => mkIndicatorConfig rsi v overbought fast slow sig bb std volume momentum) value c else
  if key =s "rsi_overbought" then with_float (fun v => mkIndicatorConfig rsi oversold v fast slow sig bb std volume momentum) value c else
  if key =s "macd_fast_period" then with_int (fun v => mkIndicatorConfig rsi oversold overbought v slow sig bb std volume momentum) value c else
  if key =s "macd_slow_period" then with_int (fun v => mkIndicatorConfig rsi oversold overbought fast v sig bb std volume momentum) value c else
  if key =s "macd_signal_period" then with_int (fun v => mkIndicatorConfig rsi oversold overbought fast slow v bb std volume momentum) value c else
  if key =s "bb_period" then with_float (fun v => mkIndicatorConfig rsi oversold overbought fast slow sig v std volume momentum) value c else
  if key =s "bb_std" then with_float (fun v => mkIndicatorConfig rsi oversold overbought fast slow sig bb v volume momentum) value c else
  if key =s "volume_ma_period" then with_int (fun v => mkIndicatorConfig rsi oversold overbought fast slow sig bb std v momentum) value c else
  if key =s "momentum_period" then with_int (fun v => mkIndicatorConfig rsi oversold overbought fast slow sig bb std volume v) value c else c.
Definition GetIndicatorSettings (settings : list (string * string)) : IndicatorConfig := foldl config_step DefaultIndicatorConfig settings.

(** ** Ratings *)
Inductive IndicatorValue : Type := NumberValue (x : float64) | TextValue (s : string).
Record IndicatorResult : Type := mkIndicatorResult { IR_Name : string; IR_Value : IndicatorValue; IR_Signal : string; IR_Rating : Z; IR_Description : string }.
Definition convertRSIToRating (rsi oversold overbought : float64) : string * Z :=
  let midBuy := fdiv (fadd oversold (f_of_Z 50)) (f_of_Z 2) in
  let midSell := fdiv (fadd overbought (f_of_Z 50)) (f_of_Z 2) in
  if fle overbought rsi then ("sell", 5) else if flt midSell rsi then ("sell", 4) else
  if fle midBuy rsi && fle rsi midSell then ("neutral", 3) else if flt rsi oversold then ("buy", 5) else ("buy", 4).
Definition convertMACDToRating (macd : MACDResult) : string * Z :=
  if MA_Signal macd =s "bullish" then ("buy", 4) else if MA_Signal macd =s "bearish" then ("sell", 4) else ("neutral", 3).
Definition convertBollingerToRating (bb : BollingerBandsResult) (currentPrice : float64) : string * Z :=
  if flt (BB_Upper bb) currentPrice then ("sell", 4) else if flt currentPrice (BB_Lower bb) then ("buy", 4) else
  if flt (BB_Middle bb) currentPrice then ("buy", 3) else if flt currentPrice (BB_Middle bb) then ("sell", 3) else ("neutral", 3).
Definition convertMomentumToRating (mom : MomentumResult) : string * Z :=
  if flt fzero (MO_Momentum mom) then ("buy", 4) else if flt (MO_Momentum mom) fzero then ("sell", 4) else ("neutral", 3).
Definition convertVolumeToRating (vol : VolumeMAResult) : string * Z :=
  if VM_Signal vol =s "high" then ("buy", 4) else if VM_Signal vol =s "low" then ("sell", 3) else ("neutral", 3).
Definition round2 (x : float64) : float64 := fdiv (Round (fmul x fhundred)) fhundred.
Definition two_places (x : float64) : string := FormatFixed x 2.
Definition no_places (x : float64) : string := FormatFixed x 0.
Definition calculateIndicatorResults (candles : list Candle) (config : IndicatorConfig) : res (list IndicatorResult) :=
  let closes := Cn_Close <$> candles in
  let volumes := Cn_Volume <$> candles in
  let* rsi := CalculateRSI closes (RSIPeriod config) in
  let '(rsiSignal, rsiRating) := convertRSIToRating (RS_RSI rsi) (RSIOversold config) (RSIOverbought config) in
  let* macd := CalculateMACD closes (MACDFastPeriod config) (MACDSlowPeriod config) (MACDSignalPeriod config) in
  let '(macdSignal, macdRating) := convertMACDToRating macd in
  let* bb := CalculateBollingerBands closes (to_int (BBPeriod config)) (BBStd config) in
  let* currentPrice := last_value closes in
  let '(bbSignal, bbRating) := convertBollingerToRating bb currentPrice in
  let* mom := CalculateMomentum closes (MomentumPeriod config) in
  let '(momSignal, momRating) := convertMomentumToRating mom in
  let* vol := CalculateVolumeMA volumes (VolumeMAPeriod config) in
  let '(volSignal, volRating) := convertVolumeToRating vol in
  let* currentVolume := last_value volumes in
  Ok [mkIndicatorResult "RSI" (NumberValue (round2 (RS_RSI rsi))) rsiSignal rsiRating
        ("Period: " +:+ Itoa (RSIPeriod config) +:+ ", Oversold: " +:+ no_places (RSIOversold config) +:+ ", Overbought: " +:+ no_places (RSIOverbought config));
      mkIndicatorResult "MACD" (TextValue ("MACD: " +:+ two_places (MA_MACD macd) +:+ ", Signal: " +:+ two_places (MA_SignalLine macd) +:+ ", Hist: " +:+ two_places (MA_Histogram macd))) macdSignal macdRating
        ("Fast: " +:+ Itoa (MACDFastPeriod config) +:+ ", Slow: " +:+ Itoa (MACDSlowPeriod config) +:+ ", Signal: " +:+ Itoa (MACDSignalPeriod config));
      mkIndicatorResult "Bollinger" (TextValue ("Upper: " +:+ two_places (BB_Upper bb) +:+ ", Middle: " +:+ two_places (BB_Middle bb) +:+ ", Lower: " +:+ two_places (BB_Lower bb))) bbSignal bbRating
        ("Period: " +:+ no_places (BBPeriod config) +:+ ", Std: " +:+ FormatFixed (BBStd config) 1);
      mkIndicatorResult "Momentum" (NumberValue (round2 (MO_Momentum mom))) momSignal momRating ("Period: " +:+ Itoa (MomentumPeriod config));
      mkIndicatorResult "Volume" (TextValue ("Current: " +:+ no_places currentVolume +:+ ", MA" +:+ Itoa (VolumeMAPeriod config) +:+ ": " +:+ no_places (VM_VolumeMA vol))) volSignal volRating
        ("MA Period: " +:+ Itoa (VolumeMAPeriod config))].

(** ** The final score *)
Definition indicator_score (ind : IndicatorResult) : float64 :=
  if IR_Signal ind =s "buy" then f_of_Z (IR_Rating ind) else if IR_Signal ind =s "sell" then fneg (f_of_Z (IR_Rating ind)) else fzero.
Definition score_step (weights : gmap string float64) (s : float64 * float64) (ind : IndicatorResult) : float64 * float64 :=
  let '(weightedSum, totalWeight) := s in
  let weight := default fone (weights !! ToLower (IR_Name ind)) in
  (fadd weightedSum (fmul (indicator_score ind) weight), fadd totalWeight weight).
Definition final_signal (finalRating : float64) : string :=
  if fle (f_of_ratio 9 2) finalRating then "STRONG_BUY" else if fle (f_of_Z 4) finalRating then "BUY" else
  if fle finalRating (f_of_ratio 3 2) then "STRONG_SELL" else if fle finalRating (f_of_Z 2) then "SELL" else "NEUTRAL".
Definition clamp_rating (avgScore : float64) : float64 := fmax fone (fmin (f_of_Z 5) (fadd avgScore (f_of_Z 3))).
Definition CalculateFinalScore (indicators : list IndicatorResult) (weights : gmap string float64) : float64 * string :=
  let '(weightedSum, totalWeight) := foldl (score_step weights) (fzero, fzero) indicators in
  if feq totalWeight fzero then (f_of_Z 3, "NEUTRAL") else
  let finalRating := clamp_rating (fdiv weightedSum totalWeight) in
  (round2 finalRating, final_signal finalRating).
Definition AnalyzeCandlesWithConfig (candles : list Candle) (config : IndicatorConfig) (weights : gmap string float64) : res (float64 * string) :=
  if len candles =? 0 then Ok (fzero, "NEUTRAL") else
  let* indicators := calculateIndicatorResults candles config in
  Ok (CalculateFinalScore indicators weights).

(** ** Gates *)
Definition computeRegimeGate (candles : list Candle) (emaFast emaSlow : Z) : res bool :=
  if len candles <? emaSlow then Ok false else
  let closes := Cn_Close <$> candles in
  let* fast := CalculateEMA closes emaFast in
  let* slow := CalculateEMA closes emaSlow in
  Ok (flt slow fast).
Definition computeVolGate (candles : list Candle) (price : float64) (atrPeriod : Z) (minRatio maxRatio : float64) : res bool :=
  if len candles <? int64 (atrPeriod + 1) then Ok false else
  let* atr := CalculateATR candles atrPeriod in
  if fle atr fzero || fle price fzero then Ok false else
  let ratio := fdiv atr price in
  Ok (fle minRatio ratio && fle ratio maxRatio).
Definition getAtrValue (candles : list Candle) (period : Z) (annualizeEnabled : bool) (timeframeMinutes annualizationDays : Z) : res float64 :=
  if annualizeEnabled then CalculateAnnualizedATR candles period timeframeMinutes annualizationDays else CalculateATR candles period.

(** ** Sizes *)
Record PositionSize : Type := mkPositionSize {
  SZ_AmountUsdt : float64; SZ_CryptoAmount : float64; SZ_StopPrice : float64; SZ_TakeProfitPrice : float64; SZ_MaxBarsHeld : option Z }.
Definition refuse {A} (message : string) : res A := Err (Errorf message []).
Definition capped_amount (positionSize price balance maxPositionValue : float64) : float64 :=
  let amountUsdt := fmul positionSize price in
  let amountUsdt := if flt fzero maxPositionValue && flt maxPositionValue amountUsdt then maxPositionValue else amountUsdt in
  if flt balance amountUsdt then balance else amountUsdt.
Definition computePositionSize (atr price balance portfolioValue : float64) (settings : Settings) : res PositionSize :=
  if fle atr fzero then refuse "invalid ATR for sizing" else
  if fle price fzero then refuse "invalid price for sizing" else
  if fle balance fzero then refuse "insufficient balance" else
  if fle portfolioValue fzero then refuse "invalid portfolio value" else
  let riskPerTrade := getSettingFloat settings "risk_per_trade" (f_of_ratio 1 2) in
  let stopMult := getSettingFloat settings "stop_mult" (f_of_ratio 3 2) in
  let tpMult := getSettingFloat settings "tp_mult" (f_of_Z 3) in
  let maxPositionValue := getSettingFloat settings "max_position_value" fzero in
  let timeStopBars := getSettingInt settings "time_stop_bars" 0 in
  if fle riskPerTrade fzero || flt fhundred riskPerTrade then refuse "risk_per_trade must be between 0 and 100" else
  if fle stopMult fzero then refuse "stop_mult must be greater than 0" else
  if fle tpMult fzero then refuse "tp_mult must be greater than 0" else
  if flt maxPositionValue fzero then refuse "max_position_value must be >= 0" else
  if timeStopBars <? 0 then refuse "time_stop_bars must be >= 0" else
  let volStop := fmul atr stopMult in
  if fle volStop fzero then refuse "invalid stop distance from ATR" else
  let riskBudget := fmul portfolioValue (fdiv riskPerTrade fhundred) in
  if fle riskBudget fzero then refuse "risk budget is too small" else
  let positionSize := fdiv riskBudget volStop in
  if fle positionSize fzero then refuse "position size is too small" else
  let amountUsdt := capped_amount positionSize price balance maxPositionValue in
  if fle amountUsdt fzero then refuse "calculated order value is too small" else
  let cryptoAmount := fdiv amountUsdt price in
  if fle cryptoAmount fzero || negb (finite_f cryptoAmount) then refuse "invalid crypto amount" else
  let stopPrice := fsub price volStop in
  let takeProfitPrice := fadd price (fmul atr tpMult) in
  if fle stopPrice fzero || fle takeProfitPrice fzero then refuse "invalid stop or take-profit price" else
  Ok (mkPositionSize amountUsdt cryptoAmount stopPrice takeProfitPrice (if 0 <? timeStopBars then Some timeStopBars else None)).
Definition computeFixedPositionSize (balance price entryPercent : float64) : res (float64 * float64) :=
  let amountUsdt := fmul balance (fdiv entryPercent fhundred) in
  if flt balance amountUsdt then refuse "insufficient balance" else
  if fle amountUsdt fzero then refuse "calculated amount is 0" else
  Ok (amountUsdt, fdiv amountUsdt price).

(** ** The probability gate, over [math.Exp] *)
Section Probability.
Context (Exp : float64 -> float64).
Record Betas : Type := mkBetas { b0 : float64; b1 : float64; b2 : float64; b3 : float64; b4 : float64; b5 : float64; b6 : float64 }.
Definition computeProbUp (features : FeatureVector) (b : Betas) : float64 :=
  let z := fadd (fadd (fadd (fadd (fadd (fadd (b0 b) (fmul (b1 b) (FV_RSI features))) (fmul (b2 b) (FV_MACDHistogram features)))
    (fmul (b3 b) (FV_BBPercentB features))) (fmul (b4 b) (FV_MomentumPercent features))) (fmul (b5 b) (FV_VolumeRatio features)))
    (fmul (b6 b) (FV_VolatilityRatio features)) in
  if fle fzero z then fdiv fone (fadd fone (Exp (fneg z))) else let expZ := Exp z in fdiv expZ (fadd fone expZ).
Definition computeEV (pUp avgGain avgLoss : float64) : float64 :=
  let avgGain := if flt avgGain fzero then fzero else avgGain in
  let avgLoss := if flt avgLoss fzero then fzero else avgLoss in
  fsub (fmul pUp avgGain) (fmul (fsub fone pUp) avgLoss).
Definition computeProbGate (features : FeatureVector) (settings : Settings) : float64 * float64 * bool :=
  if negb (FV_Valid features) then (fzero, fzero, false) else
  let get key := getSettingFloat settings key fzero in
  let pUp := computeProbUp features (mkBetas (get "prob_model_beta0") (get "prob_model_beta1") (get "prob_model_beta2") (get "prob_model_beta3")
    (get "prob_model_beta4") (get "prob_model_beta5") (get "prob_model_beta6")) in
  if negb (finite_f pUp) then (fzero, fzero, false) else
  let ev := computeEV pUp (get "prob_avg_gain") (get "prob_avg_loss") in
  (pUp, ev, flt (get "prob_ev_min") ev && flt (get "prob_p_min") pUp).
End Probability.
