(* ===== verification/IndicatorProofs.v ===== *)
(** * IndicatorProofs: the indicators never read outside their data

    The moving averages of one pass are those computed from scratch at every
    bar, indicators with periods that fit their data never panic, and a position
    is sized within its limits. *)
From Stdlib Require Import Ascii SpecFloat.
From stdpp Require Import base numbers strings gmap list.
From S2P Require Import Prelude GoStrings GoFloat GoTime GoFloatFacts FoldMetrics Exits Indicators Signals.
Local Open Scope Z_scope.

(** ** Reading within bounds *)
Lemma index_in {A} (l : list A) i : 0 <= i < len l -> exists a, index l i = Ok a /\ l !! Z.to_nat i = Some a.
Proof.
  unfold index, len. intros Hi. rewrite (proj2 (Z.ltb_ge _ _)) by lia. destruct (lookup_lt_is_Some_2 l (Z.to_nat i)) as [a Ha]; [lia|].
  rewrite Ha. by exists a.
Qed.
Lemma last_value_in {A} (l : list A) : 0 < len l -> exists a, last_value l = Ok a /\ last l = Some a.
Proof.
  intros Hl. destruct (index_in l (len l - 1)) as (a & H1 & H2); [lia|]. exists a. split; [exact H1|]. rewrite last_lookup. rewrite <- H2. f_equal. unfold len. lia.
Qed.
Lemma slice_in {A} (l : list A) low high : 0 <= low -> low <= high -> high <= len l -> slice l low high = Ok (take (Z.to_nat (high - low)) (drop (Z.to_nat low) l)).
Proof. intros. unfold slice. by rewrite !(proj2 (Z.ltb_ge _ _)) by lia. Qed.
Lemma mapM_runs {A B} (f : A -> res B) l : Forall (fun x => exists y, f x = Ok y) l -> exists ys, mapM f l = Ok ys.
Proof. induction 1 as [|x l [y Hy] _ [ys IH]]; cbn; [by eexists|]. rewrite Hy, IH. by eexists. Qed.
Lemma foldM_runs {A S} (f : S -> A -> res S) l s : Forall (fun x => forall s, exists s', f s x = Ok s') l -> exists s', foldM f s l = Ok s'.
Proof. intros Hl. revert s. induction Hl as [|x l Hx _ IH]; intros s; cbn; [by eexists|]. destruct (Hx s) as [s' ->]. apply IH. Qed.
Lemma mapM_ext {A B} (f g : A -> res B) l : Forall (fun x => f x = g x) l -> mapM f l = mapM g l.
Proof. induction 1 as [|x l Hx _ IH]; cbn; [done | by rewrite Hx, IH]. Qed.
Lemma range_in low high : Forall (fun i => low <= i < high) (range low high).
Proof. apply Forall_forall. intros i Hi. unfold range in Hi. apply elem_of_seqZ in Hi. lia. Qed.

(** ** Averages *)
Definition multiplier_of (period : Z) : float64 := fdiv (f_of_Z 2) (f_of_Z (int64 (period + 1))).
Definition ema_all (m : float64) (data : list float64) : list float64 :=
  match data with [] => [] | x :: rest => x :: ema_from m x rest end.
Lemma ema_from_length m e l : length (ema_from m e l) = length l.
Proof. revert e. induction l as [|x l IH]; intros e; cbn; [done | by rewrite IH]. Qed.
Lemma ema_from_take m e l k : take k (ema_from m e l) = ema_from m e (take k l).
Proof. revert e k. induction l as [|x l IH]; intros e [|k]; cbn; [done..|]. by rewrite IH. Qed.
Lemma ema_all_length m data : length (ema_all m data) = length data.
Proof. destruct data; cbn; [done | by rewrite ema_from_length]. Qed.
Lemma ema_all_take m data k : take k (ema_all m data) = ema_all m (take k data).
Proof. destruct data, k; cbn; [done..|]. by rewrite ema_from_take. Qed.
Lemma series_all data period : period <= len data -> 0 < len data -> calculateEMASeries data period = Ok (ema_all (multiplier_of period) data).
Proof.
  intros Hp Hd. unfold calculateEMASeries. rewrite (proj2 (Z.ltb_ge _ _)) by lia. destruct data as [|x rest]; [done|]. cbn. by rewrite drop_0.
Qed.
Lemma EMA_all data period : period <= len data -> 0 < len data -> exists e, calculateEMA data period = Ok e /\ last (ema_all (multiplier_of period) data) = Some e.
Proof.
  intros Hp Hd. unfold calculateEMA. rewrite series_all by done. cbn [rbind]. unfold len at 1. rewrite ema_all_length. fold (len data). rewrite (proj2 (Z.eqb_neq _ _)) by lia.
  apply last_value_in. unfold len. rewrite ema_all_length. done.
Qed.
(** The average at a bar is the one computed from the data up to that bar. *)
Lemma series_prefix data period i : 0 <= i < len data -> period <= i + 1 ->
  index (ema_all (multiplier_of period) data) i = calculateEMA (take (Z.to_nat (i + 1)) data) period.
Proof.
  intros Hi Hp. assert (Hlen : len (take (Z.to_nat (i + 1)) data) = i + 1) by (unfold len in *; rewrite length_take; lia).
  destruct (EMA_all (take (Z.to_nat (i + 1)) data) period) as (e & -> & He); [lia..|].
  destruct (index_in (ema_all (multiplier_of period) data) i) as (a & -> & Ha); [unfold len in *; rewrite ema_all_length; done|].
  rewrite <- ema_all_take, last_lookup, length_take, ema_all_length, lookup_take_lt in He by (unfold len in *; lia). f_equal.
  replace (pred (Z.to_nat (i + 1) `min` length data)) with (Z.to_nat i) in He by (unfold len in *; lia). congruence.
Qed.

(** ** MACD *)
(** One value of MACD, with both averages recomputed from the data so far. *)
Definition macd_from_scratch (closes : list float64) (fastPeriod slowPeriod i : Z) : res float64 :=
  let seen := take (Z.to_nat (i + 1)) closes in
  let* fast := calculateEMA seen fastPeriod in
  let* slow := calculateEMA seen slowPeriod in Ok (fsub fast slow).
Definition signal_of (macdLine signalLine : float64) : string :=
  let histogram := fsub macdLine signalLine in
  if flt fzero histogram && flt signalLine macdLine then "bullish" else if flt histogram fzero && flt macdLine signalLine then "bearish" else "neutral".
(** MACD as defined: the fast average less the slow one at every bar from the
    first full window on, and the average of these as the signal line. *)
Definition MACD_from_scratch (closes : list float64) (fastPeriod slowPeriod signalPeriod : Z) : res MACDResult :=
  if len closes <? slowPeriod + signalPeriod then Ok (mkMACD fzero fzero fzero "neutral") else
  let* values := mapM (macd_from_scratch closes fastPeriod slowPeriod) (range (slowPeriod - 1) (len closes)) in
  let series := replicate (Z.to_nat (slowPeriod - 1)) fzero ++ values in
  let* macdLine := macd_from_scratch closes fastPeriod slowPeriod (len closes - 1) in
  let* signalLine := calculateEMA series signalPeriod in
  Ok (mkMACD macdLine signalLine (fsub macdLine signalLine) (signal_of macdLine signalLine)).
Lemma macd_value_scratch closes fast slow i : 0 <= i < len closes -> fast <= slow -> slow <= i + 1 ->
  macd_value (ema_all (multiplier_of fast) closes) (ema_all (multiplier_of slow) closes) i = macd_from_scratch closes fast slow i.
Proof. intros. unfold macd_value, macd_from_scratch. by rewrite !series_prefix by lia. Qed.
Lemma scratch_total closes fast slow i : 0 <= i < len closes -> fast <= slow -> slow <= i + 1 -> exists v, macd_from_scratch closes fast slow i = Ok v.
Proof.
  intros. unfold macd_from_scratch. rewrite <- !series_prefix by lia.
  destruct (index_in (ema_all (multiplier_of fast) closes) i) as (a & -> & _); [unfold len in *; by rewrite ema_all_length|].
  destruct (index_in (ema_all (multiplier_of slow) closes) i) as (b & -> & _); [unfold len in *; by rewrite ema_all_length|]. by eexists.
Qed.
Lemma mapM_index {A} (f : Z -> res A) low high ys i : mapM f (range low high) = Ok ys -> low <= i < high -> index ys (i - low) = f i.
Proof.
  intros H%mapM_Ok Hi. assert (Hl : range low high !! Z.to_nat (i - low) = Some i) by (unfold range; apply lookup_seqZ; split; lia).
  destruct (Forall2_lookup_l _ _ _ _ _ H Hl) as (y & Hy & ->). unfold index. rewrite (proj2 (Z.ltb_ge _ _)) by lia. by rewrite Hy.
Qed.
Lemma index_app_r {A} (l1 l2 : list A) i : len l1 <= i -> index (l1 ++ l2) i = index l2 (i - len l1).
Proof.
  unfold index, len. intros Hi. rewrite !(proj2 (Z.ltb_ge _ _)) by lia. rewrite lookup_app_r by lia. replace (Z.to_nat i - length l1)%nat with (Z.to_nat (i - Z.of_nat (length l1))) by lia. done.
Qed.
Lemma MACD_scratch closes fastPeriod slowPeriod signalPeriod :
  0 < fastPeriod <= slowPeriod -> 0 < signalPeriod -> in_int64 (slowPeriod + signalPeriod) ->
  CalculateMACD closes fastPeriod slowPeriod signalPeriod = MACD_from_scratch closes fastPeriod slowPeriod signalPeriod /\
  exists result, CalculateMACD closes fastPeriod slowPeriod signalPeriod = Ok result /\ MA_Signal result = signal_of (MA_MACD result) (MA_SignalLine result).
Proof.
  intros Hf Hs Hi. unfold CalculateMACD, MACD_from_scratch. rewrite int64_id by done. destruct (Z.ltb_spec (len closes) (slowPeriod + signalPeriod)) as [Hl|Hl].
  { split; [done|]. eexists. split; [done|]. vm_compute. reflexivity. }
  rewrite !series_all by lia. cbn [rbind]. unfold macdValues. rewrite int64_id by (unfold in_int64 in *; lia).
  rewrite (mapM_ext _ (macd_from_scratch closes fastPeriod slowPeriod)).
  2:{ eapply Forall_impl; [apply range_in|]. intros i Hin. cbn beta in Hin. apply macd_value_scratch; lia. }
  destruct (mapM_runs (macd_from_scratch closes fastPeriod slowPeriod) (range (slowPeriod - 1) (len closes))) as [values Hv].
  { eapply Forall_impl; [apply range_in|]. intros i Hin. cbn beta in Hin. apply scratch_total; lia. }
  rewrite Hv. cbn [rbind]. rewrite Z.min_r by lia. set (series := replicate _ fzero ++ values).
  assert (Hrep : len (replicate (Z.to_nat (slowPeriod - 1)) fzero) = slowPeriod - 1) by (unfold len; rewrite length_replicate; lia).
  assert (Hn : len series = len closes).
  { unfold series, len in *. rewrite length_app, (mapM_length _ _ _ Hv). unfold range. rewrite length_seqZ. lia. }
  assert (Hline : index series (len closes - 1) = macd_from_scratch closes fastPeriod slowPeriod (len closes - 1)).
  { unfold series. rewrite index_app_r, Hrep by lia. apply (mapM_index _ _ _ _ _ Hv). lia. }
  rewrite Hline. destruct (scratch_total closes fastPeriod slowPeriod (len closes - 1)) as [line ->]; [lia..|]. cbn [rbind].
  destruct (EMA_all series signalPeriod) as (signal & -> & _); [lia..|]. cbn [rbind]. split; [done|]. by eexists.
Qed.
(** A fast period longer than the data panics, whatever the slow one. *)
Theorem fast_period_too_long closes fastPeriod slowPeriod signalPeriod : 0 < slowPeriod -> 0 < signalPeriod -> in_int64 (slowPeriod + signalPeriod) ->
  slowPeriod + signalPeriod <= len closes -> len closes < fastPeriod -> CalculateMACD closes fastPeriod slowPeriod signalPeriod = Panic "index out of range".
Proof.
  intros H1 H2 Hi Hl Hf. unfold CalculateMACD. rewrite int64_id by done. rewrite (proj2 (Z.ltb_ge _ _)) by lia.
  unfold calculateEMASeries at 1. rewrite (proj2 (Z.ltb_lt _ _)) by lia. rewrite series_all by lia. cbn [rbind]. unfold macdValues.
  rewrite int64_id by (unfold in_int64 in *; lia). unfold range. rewrite (seqZ_cons (slowPeriod - 1)) by lia. cbn [mapM]. unfold macd_value at 1, index at 1.
  by destruct (_ <? 0).
Qed.

(** ** Totality *)
Lemma RSI_total closes period : 0 < period < 2 ^ 62 -> in_int64 (len closes) -> exists r, CalculateRSI closes period = Ok r.
Proof.
  intros Hp Hl. unfold CalculateRSI. rewrite int64_id by (unfold in_int64; lia). destruct (Z.ltb_spec (len closes) (period + 1)) as [|H]; [by eexists|].
  rewrite int64_id by (unfold in_int64, len in *; lia).
  destruct (foldM_runs (rsi_step closes) (range (len closes - period) (len closes)) (fzero, fzero)) as [[gains losses] ->].
  - eapply Forall_impl; [apply range_in|]. intros i Hin [g l]. cbn beta in Hin. unfold rsi_step.
    destruct (index_in closes i) as (a & -> & _); [lia|]. destruct (index_in closes (i - 1)) as (b & -> & _); [lia|]. by eexists.
  - cbn [rbind]. destruct (feq _ _); by eexists.
Qed.
Lemma Bollinger_total closes period dev : 0 <= period -> 0 < len closes -> in_int64 (len closes) -> exists r, CalculateBollingerBands closes period dev = Ok r.
Proof.
  intros Hp H0 Hl. unfold CalculateBollingerBands. destruct (Z.ltb_spec (len closes) period) as [|H]; [by eexists|].
  rewrite int64_id by (unfold in_int64 in *; lia). rewrite slice_in by lia. cbn [rbind]. destruct (last_value_in closes H0) as (a & -> & _). by eexists.
Qed.
Lemma Momentum_total closes period : 0 < period < 2 ^ 62 -> in_int64 (len closes) -> exists r, CalculateMomentum closes period = Ok r.
Proof.
  intros Hp Hl. unfold CalculateMomentum. rewrite int64_id by (unfold in_int64; lia). destruct (Z.ltb_spec (len closes) (period + 1)) as [|H]; [by eexists|].
  rewrite int64_id by (unfold in_int64, len in *; lia). destruct (last_value_in closes) as (a & -> & _); [lia|]. destruct (index_in closes (len closes - period - 1)) as (b & -> & _); [lia|].
  by eexists.
Qed.
Lemma VolumeMA_total volumes period : 0 < period < 2 ^ 62 -> in_int64 (len volumes) -> exists r, CalculateVolumeMA volumes period = Ok r.
Proof.
  intros Hp Hl. unfold CalculateVolumeMA. rewrite int64_id by (unfold in_int64; lia). destruct (Z.ltb_spec (len volumes) (period + 1)) as [|H]; [by eexists|].
  rewrite int64_id by (unfold in_int64, len in *; lia). rewrite slice_in by lia. cbn [rbind]. destruct (last_value_in volumes) as (a & -> & _); [lia|]. by eexists.
Qed.
Lemma true_ranges_length l s : length (foldl true_range s l).1 = (length s.1 + length l)%nat.
Proof. revert s. induction l as [|c l IH]; intros [trs prev]; cbn; [lia|]. rewrite IH. cbn. rewrite length_app. cbn. lia. Qed.
Lemma ATR_total candles period : 0 < period < 2 ^ 62 -> exists r, CalculateATR candles period = Ok r.
Proof.
  intros Hp. unfold CalculateATR. rewrite int64_id by (unfold in_int64; lia). destruct (Z.ltb_spec (len candles) (period + 1)) as [|H]; [by eexists|].
  destruct (index_in candles 0) as (c & -> & _); [lia|]. cbn [rbind]. destruct (EMA_all (foldl true_range ([], Cn_Close c) candles).1 period) as (e & He & _);
    [unfold len in *; rewrite true_ranges_length; cbn; lia..|]. by exists e.
Qed.
Lemma VolumeRatio_total volumes ma : exists r, CalculateVolumeRatio volumes ma = Ok r.
Proof.
  unfold CalculateVolumeRatio. destruct (Z.eqb_spec (len volumes) 0) as [|H]; [by eexists|]. destruct (fle ma fzero); [by eexists|].
  destruct (last_value_in volumes) as (a & -> & _); [unfold len in *; lia|]. by eexists.
Qed.
(** Periods the data can be read with. *)
Record readable (config : IndicatorConfig) (n : Z) : Prop := {
  rd_periods : Forall (fun p => 0 < p < 2 ^ 61) [RSIPeriod config; MACDFastPeriod config; MACDSlowPeriod config; MACDSignalPeriod config; VolumeMAPeriod config; MomentumPeriod config];
  rd_fast : MACDFastPeriod config <= MACDSlowPeriod config; rd_bands : 0 <= to_int (BBPeriod config); rd_length : 0 < n < 2 ^ 63 }.
Lemma MACD_total closes config : readable config (len closes) -> exists r, CalculateMACD closes (MACDFastPeriod config) (MACDSlowPeriod config) (MACDSignalPeriod config) = Ok r.
Proof.
  intros [Hp Hf _ _]. repeat (apply Forall_cons in Hp as [? Hp]). destruct (MACD_scratch closes (MACDFastPeriod config) (MACDSlowPeriod config) (MACDSignalPeriod config)) as (_ & r & Hr & _); [lia | lia | unfold in_int64; lia|].
  by exists r.
Qed.
(** What a feature vector promises: figures only from enough bars, all finite. *)
Definition features_ok (candles : list Candle) (config : IndicatorConfig) (f : FeatureVector) : Prop :=
  FV_Valid f = true -> minBars config <= len candles /\
    Forall (fun v => finite_f v = true) [FV_RSI f; FV_MACDHistogram f; FV_BBPercentB f; FV_MomentumPercent f; FV_VolumeRatio f; FV_VolatilityRatio f].
(** The features of a model are always computed, without a panic, from
    periods that are readable; a valid vector has only finite figures and at
    least the bars that its longest indicator needs. *)
Theorem CalculateFeatureVector_total candles config : readable config (len candles) ->
  exists f, CalculateFeatureVector candles config = Ok f /\ features_ok candles config f.
Proof.
  intros Hr. assert (Hm := Hr). rewrite <- (len_fmap Cn_Close candles) in Hm. apply MACD_total in Hm as [macd Hm]. destruct Hr as [Hp _ Hb Hn].
  assert (Hc : len (Cn_Close <$> candles) = len candles) by apply len_fmap. assert (Hv : len (Cn_Volume <$> candles) = len candles) by apply len_fmap.
  assert (Hi : in_int64 (len candles)) by (unfold in_int64; lia). repeat (apply Forall_cons in Hp as [? Hp]).
  unfold CalculateFeatureVector. destruct (bad_periods config); [by eexists|]. destruct (Z.ltb_spec (len candles) (minBars config)) as [|Hl]; [by eexists|].
  destruct (RSI_total (Cn_Close <$> candles) (RSIPeriod config)) as [rsi ->]; [lia | by rewrite Hc|]. rewrite Hm.
  destruct (Bollinger_total (Cn_Close <$> candles) (to_int (BBPeriod config)) (BBStd config)) as [bb ->]; [lia | lia | by rewrite Hc|].
  destruct (Momentum_total (Cn_Close <$> candles) (MomentumPeriod config)) as [mom ->]; [lia | by rewrite Hc|].
  destruct (VolumeMA_total (Cn_Volume <$> candles) (VolumeMAPeriod config)) as [vol ->]; [lia | by rewrite Hv|]. cbn [rbind].
  destruct (last_value_in (Cn_Close <$> candles)) as (price & -> & _); [lia|]. cbn [rbind].
  destruct (VolumeRatio_total (Cn_Volume <$> candles) (VM_VolumeMA vol)) as [ratio ->]. destruct (ATR_total candles 14) as [atr ->]; [lia|]. cbn [rbind].
  destruct (forallb finite_f _) eqn:E; eexists; (split; [reflexivity|]); [|by intros ?]. intros _. split; [exact Hl|]. apply Forall_forall. intros v Hin. rewrite forallb_forall in E. by apply E, list_elem_of_In.
Qed.
Lemma CalculateFeatureVector_total_witness : exists f,
  CalculateFeatureVector ((fun i => mkCandle (f_of_Z (100 + i)) (f_of_Z (102 + i)) (f_of_Z (99 + i)) (f_of_Z (7 + i mod 3))) <$> seqZ 0 40) DefaultIndicatorConfig = Ok f /\ FV_Valid f = true.
Proof.
  destruct (CalculateFeatureVector_total ((fun i => mkCandle (f_of_Z (100 + i)) (f_of_Z (102 + i)) (f_of_Z (99 + i)) (f_of_Z (7 + i mod 3))) <$> seqZ 0 40) DefaultIndicatorConfig) as (f & Hf & _).
  - split; [repeat constructor; cbn; lia | cbn; lia | vm_compute; discriminate | vm_compute; split; reflexivity].
  - exists f. split; [exact Hf|]. assert (Hv : is_ok (let* f := CalculateFeatureVector ((fun i => mkCandle (f_of_Z (100 + i)) (f_of_Z (102 + i)) (f_of_Z (99 + i)) (f_of_Z (7 + i mod 3))) <$> seqZ 0 40) DefaultIndicatorConfig in
      failIf (negb (FV_Valid f)) (Errorf "" [])) = true) by (vm_compute; reflexivity). rewrite Hf in Hv. cbn [rbind] in Hv. by destruct (FV_Valid f).
Defined.

(** ** The final score *)
(** The comment on the score promises a linear scale on which +5 is 5 and -5 is
    1; an average of +2 is already 5, and -2 is 1. *)
Theorem score_scale_saturates :
  let agree rating signal := [mkIndicatorResult "RSI" (TextValue "") signal rating ""] in
  CalculateFinalScore (agree 2 "buy") ∅ = CalculateFinalScore (agree 5 "buy") ∅ /\ CalculateFinalScore (agree 2 "buy") ∅ = (f_of_Z 5, "STRONG_BUY") /\
  CalculateFinalScore (agree 2 "sell") ∅ = CalculateFinalScore (agree 5 "sell") ∅ /\ CalculateFinalScore (agree 2 "sell") ∅ = (f_of_Z 1, "STRONG_SELL").
Proof. vm_compute. split_and!; reflexivity. Qed.

(** ** Sizes *)
Lemma capped_amount_balance size price balance cap : flt balance (capped_amount size price balance cap) = false.
Proof. unfold capped_amount. cbv zeta. match goal with |- flt _ (if ?c then _ else _) = _ => destruct c eqn:E end; [apply flt_irrefl | exact E]. Qed.
Lemma capped_amount_cap size price balance cap : flt fzero cap = true -> flt cap (capped_amount size price balance cap) = false.
Proof.
  intros Hc. unfold capped_amount. rewrite Hc. cbn [andb]. set (amount := fmul size price). destruct (flt cap amount) eqn:E.
  - destruct (flt balance cap) eqn:Eb; [by apply flt_asym | apply flt_irrefl].
  - destruct (flt balance amount) eqn:Eb; [|exact E]. apply not_true_iff_false. intros H. rewrite (flt_trans _ _ _ H Eb) in E. done.
Qed.
(** What a size promises, for a configured maximum. *)
Record sized (price balance : float64) (settings : Settings) (z : PositionSize) : Prop := {
  sz_positive : fle (SZ_AmountUsdt z) fzero = false /\ fle (SZ_CryptoAmount z) fzero = false /\ fle (SZ_StopPrice z) fzero = false;
  sz_balance : flt balance (SZ_AmountUsdt z) = false;
  sz_cap : let cap := getSettingFloat settings "max_position_value" fzero in flt fzero cap = true -> flt cap (SZ_AmountUsdt z) = false;
  sz_quantity : SZ_CryptoAmount z = fdiv (SZ_AmountUsdt z) price /\ finite_f (SZ_CryptoAmount z) = true;
  sz_number : is_nan (SZ_AmountUsdt z) = false;
  sz_bars : match SZ_MaxBarsHeld z with Some n => 0 < n /\ n = getSettingInt settings "time_stop_bars" 0 | None => getSettingInt settings "time_stop_bars" 0 = 0 end }.
(** A position that is sized never costs more than the balance or the
    configured maximum value, its quantity is a finite positive number, the one
    the amount buys at the price, and its stop is above zero; whatever the
    settings say, including NaN, an order that breaks this is refused. *)
Theorem computePositionSize_bounded atr price balance portfolioValue settings z :
  computePositionSize atr price balance portfolioValue settings = Ok z -> sized price balance settings z.
Proof.
  unfold computePositionSize, refuse. intros H.
  repeat match type of H with (if ?c then Err _ else _) = Ok _ => let E := fresh "E" in destruct c eqn:E; [discriminate H|] end.
  cbv zeta in H.
  repeat match type of H with (if ?c then Err _ else _) = Ok _ => let E := fresh "E" in destruct c eqn:E; [discriminate H|] end.
  bool_prop. injection H as <-. split; cbn [SZ_AmountUsdt SZ_CryptoAmount SZ_StopPrice SZ_TakeProfitPrice SZ_MaxBarsHeld].
  - by split_and!.
  - apply capped_amount_balance.
  - apply capped_amount_cap.
  - by split.
  - destruct (is_nan _) eqn:En; [|done]. by destruct (capped_amount _ _ _ _).
  - destruct (0 <? _) eqn:Et; bool_prop; lia.
Qed.
Lemma computePositionSize_bounded_witness : exists z, computePositionSize (f_of_Z 2) (f_of_Z 100) (f_of_Z 1000) (f_of_Z 4000) {["max_position_value" := "500"]} = Ok z /\
  flt (f_of_Z 1000) (SZ_AmountUsdt z) = false /\ flt (getSettingFloat {["max_position_value" := "500"]} "max_position_value" fzero) (SZ_AmountUsdt z) = false.
Proof.
  assert (Hok : is_ok (computePositionSize (f_of_Z 2) (f_of_Z 100) (f_of_Z 1000) (f_of_Z 4000) {["max_position_value" := "500"]}) = true) by (vm_compute; reflexivity).
  destruct (computePositionSize (f_of_Z 2) (f_of_Z 100) (f_of_Z 1000) (f_of_Z 4000) {["max_position_value" := "500"]}) as [z|e|w] eqn:E; [|discriminate Hok..].
  exists z. split; [reflexivity|]. destruct (computePositionSize_bounded _ _ _ _ _ _ E) as [_ Hb Hc _ _ _]. split; [exact Hb|]. apply Hc. vm_compute. reflexivity.
Defined.
