(* ===== verification/Universe.v ===== *)
(** * Universe: which symbols are traded

    [internal/services/universe.go]: the policy from the settings, the metadata
    of the exchange, the metrics and the hard filters of a candidate, the
    ranking by z-scores, the regime, and the selection of the active universe
    and its shortlist. *)
From Stdlib Require Import Ascii SpecFloat.
From stdpp Require Import base numbers strings gmap list.
From S2P Require Import Prelude GoStrings GoFloat GoTime GoFormat Snapshots Splits FoldMetrics Exits Indicators Signals.
Local Open Scope Z_scope.

Definition UniverseModeDynamic : string := "dynamic".
Definition UniverseRegimeRiskOn : string := "risk_on".
Definition UniverseRegimeNeutral : string := "neutral".
Definition UniverseRegimeRiskOff : string := "risk_off".
Definition BacktestUniverseModeStatic : string := "static".
Definition BacktestUniverseModeDynamicRecompute : string := "dynamic_recompute".

(** ** The policy *)
Record UniversePolicy : Type := mkUniversePolicy {
  UP_Mode : string; UP_RebalanceInterval : Duration; UP_RebalanceIntervalLabel : string; UP_MinListingDays : Z; UP_MinDailyQuoteVolume : float64;
  UP_MinIntradayQuoteVolume : float64; UP_MaxGapRatio : float64; UP_VolRatioMin : float64; UP_VolRatioMax : float64; UP_Max24hMove : float64; UP_TopK : Z;
  UP_AnalyzeTopN : Z }.
Definition getSettingString (settings : Settings) (key defaultVal : string) : string := default defaultVal (settings !! key).
Definition f_dec (n : Z) (d : positive) : float64 := f_of_ratio n d.
(** The interval and its label, one hour when the setting is not a positive duration. *)
Definition rebalance_interval (label : string) : Duration * string :=
  match ParseDuration label with Some d => if d <=? 0 then (HourNs, "1h") else (d, label) | None => (HourNs, "1h") end.
Definition top_k (settings : Settings) : Z := let k := getSettingInt settings "universe_top_k" 20 in if k <=? 0 then 20 else k.
Definition analyze_top_n (settings : Settings) : Z :=
  let legacy := getSettingInt settings "trending_coins_to_analyze" 8 in
  let n := getSettingInt settings "universe_analyze_top_n" legacy in
  let n := if n <=? 0 then legacy else n in
  if top_k settings <? n then top_k settings else n.
Definition GetUniversePolicy (settings : Settings) : UniversePolicy :=
  let '(interval, label) := rebalance_interval (getSettingString settings "universe_rebalance_interval" "1h") in
  let floorZ z := if z <? 0 then 0 else z in
  let floorF x := if flt x fzero then fzero else x in
  let volMin := floorF (getSettingFloat settings "universe_vol_ratio_min" (f_dec 4 1000)) in
  let volMax := getSettingFloat settings "universe_vol_ratio_max" (f_dec 8 100) in
  let volMax := if fle volMax fzero then f_dec 8 100 else volMax in
  let swap := flt volMax volMin in
  let move := getSettingFloat settings "universe_max_24h_move" (f_of_Z 25) in
  mkUniversePolicy (ToLower (getSettingString settings "universe_mode" UniverseModeDynamic)) interval label
    (floorZ (getSettingInt settings "universe_min_listing_days" 45)) (getSettingFloat settings "universe_min_daily_quote_volume" (f_of_Z 2000000))
    (getSettingFloat settings "universe_min_intraday_quote_volume" (f_of_Z 75000)) (floorF (getSettingFloat settings "universe_max_gap_ratio" (f_dec 5 100)))
    (if swap then volMax else volMin) (if swap then volMin else volMax) (if fle move fzero then f_of_Z 25 else move) (top_k settings) (analyze_top_n settings).
Definition ResolveBacktestUniverseMode (settings : Settings) : string :=
  let mode := ToLower (getSettingString settings "backtest_universe_mode" BacktestUniverseModeStatic) in
  if mode =s BacktestUniverseModeDynamicRecompute then mode else BacktestUniverseModeStatic.

(** ** Metadata *)
Record ExchangeSymbolInfo : Type := mkSymbolInfo {
  SI_Symbol : string; SI_Status : string; SI_BaseAsset : string; SI_QuoteAsset : string; SI_IsSpotTradingAllowed : bool; SI_Permissions : list string }.
Record UniverseSymbol : Type := mkUniverseSymbol {
  US_Symbol : string; US_BaseAsset : string; US_QuoteAsset : string; US_Status : string; US_SpotTradable : bool; US_IsExcluded : bool;
  US_ExclusionReason : option string; US_FirstSeenAt : Time; US_LastSeenAt : Time }.
Definition containsString (values : list string) (target : string) : bool := existsb (fun value => ToUpper value =s ToUpper target) values.
Definition universeBaseAssetExclusionReason (base : string) : string :=
  if existsb (HasSuffix base) ["UP"; "DOWN"; "BULL"; "BEAR"] then "leveraged_token" else
  if containsString ["USDC"; "FDUSD"; "BUSD"; "USDP"; "TUSD"; "DAI"; "PAX"; "EUR"; "TRY"; "BRL"; "GBP"; "AUD"] base then "wrapper_or_fiat" else "".
Definition spot_tradable (info : ExchangeSymbolInfo) : bool := SI_IsSpotTradingAllowed info || containsString (SI_Permissions info) "SPOT".
Definition universeMetadataExclusionReason (info : ExchangeSymbolInfo) : string :=
  let status := ToUpper (SI_Status info) in
  if ToUpper (SI_QuoteAsset info) <>s "USDT" then "quote_asset" else
  if negb (spot_tradable info) then "spot_not_allowed" else
  if status <>s "TRADING" then "status_" +:+ ToLower status else universeBaseAssetExclusionReason (ToUpper (SI_BaseAsset info)).
(** The row of a symbol, first seen now or when a stored row says. *)
Definition metadata_row (existing : gmap string UniverseSymbol) (now : Time) (info : ExchangeSymbolInfo) : UniverseSymbol :=
  let symbol := ToUpper (SI_Symbol info) in
  let reason := universeMetadataExclusionReason info in
  let firstSeen := match existing !! symbol with Some row => if IsZero (US_FirstSeenAt row) then now else US_FirstSeenAt row | None => now end in
  mkUniverseSymbol symbol (ToUpper (SI_BaseAsset info)) (ToUpper (SI_QuoteAsset info)) (ToUpper (SI_Status info)) (spot_tradable info) (reason <>s "")
    (if reason =s "" then None else Some reason) firstSeen now.
Definition by_symbol (rows : list UniverseSymbol) : gmap string UniverseSymbol := foldl (fun m row => <[ToUpper (US_Symbol row) := row]> m) ∅ rows.
Definition metadata_rows (existing : list UniverseSymbol) (now : Time) (infos : list ExchangeSymbolInfo) : list UniverseSymbol :=
  metadata_row (by_symbol existing) now <$> infos.
Definition tradable (row : UniverseSymbol) : bool := negb (US_IsExcluded row) && US_SpotTradable row && (ToUpper (US_Status row) =s "TRADING").
Definition eligible_symbols (metadata : list UniverseSymbol) : list string := sort_strings ((fun row => ToUpper (US_Symbol row)) <$> List.filter tradable metadata).

(** ** Metrics of a candidate *)
Record OHLCV : Type := mkOHLCV { OH_OpenTime : Z; OH_Open : float64; OH_High : float64; OH_Low : float64; OH_Close : float64; OH_Volume : float64;
  OH_CloseTime : Z }.
Record UniverseCandidateMetrics : Type := mkCandidate {
  UC_Symbol : string; UC_BaseAsset : string; UC_QuoteAsset : string; UC_LastPrice : float64; UC_Change24h : float64; UC_QuoteVolume24h : float64;
  UC_ListingAgeDays : Z; UC_MedianDailyQuoteVolume : float64; UC_MedianIntradayQuoteVolume : float64; UC_GapRatio : float64; UC_VolatilityRatio : float64;
  UC_Return1D : float64; UC_Return3D : float64; UC_Return7D : float64; UC_Return30D : float64; UC_RelativeStrength : float64; UC_TrendQuality : float64;
  UC_BreakoutProximity : float64; UC_VolumeAcceleration : float64; UC_OverextensionPenalty : float64; UC_RankScore : float64;
  UC_RankComponents : gmap string float64; UC_Shortlisted : bool; UC_RejectionReason : string }.
Definition with_rank (c : UniverseCandidateMetrics) (score : float64) (components : gmap string float64) : UniverseCandidateMetrics :=
  mkCandidate (UC_Symbol c) (UC_BaseAsset c) (UC_QuoteAsset c) (UC_LastPrice c) (UC_Change24h c) (UC_QuoteVolume24h c) (UC_ListingAgeDays c)
    (UC_MedianDailyQuoteVolume c) (UC_MedianIntradayQuoteVolume c) (UC_GapRatio c) (UC_VolatilityRatio c) (UC_Return1D c) (UC_Return3D c) (UC_Return7D c)
    (UC_Return30D c) (UC_RelativeStrength c) (UC_TrendQuality c) (UC_BreakoutProximity c) (UC_VolumeAcceleration c) (UC_OverextensionPenalty c)
    score components (UC_Shortlisted c) (UC_RejectionReason c).
Definition with_verdict (c : UniverseCandidateMetrics) (shortlisted : bool) (rejection : string) : UniverseCandidateMetrics :=
  mkCandidate (UC_Symbol c) (UC_BaseAsset c) (UC_QuoteAsset c) (UC_LastPrice c) (UC_Change24h c) (UC_QuoteVolume24h c) (UC_ListingAgeDays c)
    (UC_MedianDailyQuoteVolume c) (UC_MedianIntradayQuoteVolume c) (UC_GapRatio c) (UC_VolatilityRatio c) (UC_Return1D c) (UC_Return3D c) (UC_Return7D c)
    (UC_Return30D c) (UC_RelativeStrength c) (UC_TrendQuality c) (UC_BreakoutProximity c) (UC_VolumeAcceleration c) (UC_OverextensionPenalty c)
    (UC_RankScore c) (UC_RankComponents c) shortlisted rejection.
Definition ohlcvToCandles (values : list OHLCV) : list Candle := (fun c => mkCandle (OH_Close c) (OH_High c) (OH_Low c) (OH_Volume c)) <$> values.
Definition ohlcvCloses (values : list OHLCV) : list float64 := OH_Close <$> values.
Definition quoteVolumes (values : list OHLCV) : list float64 := (fun c => fmul (OH_Close c) (OH_Volume c)) <$> values.
Definition calculateOHLCVReturn (values : list OHLCV) (lookback : Z) : res float64 := CalculateReturn (ohlcvCloses values) lookback.
Definition highestHigh (values : list OHLCV) (lookback : Z) : float64 :=
  if (len values =? 0) || (lookback <=? 0) then fzero else
  foldl (fun highest c => if flt highest (OH_High c) then OH_High c else highest) fzero (drop (Z.to_nat (Z.max 0 (len values - lookback))) values).
Definition trend_quality (closes : list float64) (price : float64) : res float64 :=
  if (50 <=? len closes) && flt fzero price then
    let* ema20 := CalculateEMA closes 20 in
    let* ema50 := CalculateEMA closes 50 in Ok (fmul (fdiv (fsub ema20 ema50) price) fhundred)
  else Ok fzero.
Definition breakout_proximity (daily : list OHLCV) (price : float64) : float64 :=
  if (0 <? len daily) && flt fzero price then
    let recentHigh := highestHigh daily (Z.min 20 (len daily)) in if flt fzero recentHigh then fdiv price recentHigh else fzero
  else fzero.
Definition tail_of (l : list float64) (n : Z) : list float64 := drop (Z.to_nat (Z.max 0 (len l - n))) l.
Definition BuildUniverseCandidateMetrics (symbol baseAsset quoteAsset : string) (lastPrice change24h quoteVolume24h : float64) (daily intraday : list OHLCV)
    (benchmarkReturn7D : float64) : res UniverseCandidateMetrics :=
  let dailyCloses := ohlcvCloses daily in
  let* price := if fle lastPrice fzero && (0 <? len dailyCloses) then last_value dailyCloses else Ok lastPrice in
  let listingAgeDays := if 0 <? len daily then len daily - 1 else 0 in
  let* volatilityRatio := if flt fzero price then let* atr := CalculateATR (ohlcvToCandles intraday) 14 in Ok (fdiv atr price) else Ok fzero in
  let* trendQuality := trend_quality (ohlcvCloses intraday) price in
  let breakoutProximity := breakout_proximity daily price in
  let* medianDaily := CalculateMedian (tail_of (quoteVolumes daily) 20) in
  let* medianIntraday := CalculateMedian (tail_of (quoteVolumes intraday) (24 * 7)) in
  let volumeAcceleration := if flt fzero medianDaily then fdiv quoteVolume24h medianDaily else fzero in
  let overextension := if flt (f_of_Z 10) (fabs change24h) then fdiv (fabs change24h) (f_of_Z 10) else fzero in
  let* gapRatio := CalculateMissingBarRatio (OH_OpenTime <$> intraday) HourNs in
  let* return1D := calculateOHLCVReturn daily 1 in
  let* return3D := calculateOHLCVReturn daily 3 in
  let* return7D := calculateOHLCVReturn daily 7 in
  let* return30D := calculateOHLCVReturn daily 30 in
  Ok (mkCandidate (ToUpper symbol) (ToUpper baseAsset) (ToUpper quoteAsset) price change24h quoteVolume24h listingAgeDays medianDaily medianIntraday gapRatio
        volatilityRatio return1D return3D return7D return30D (fsub return7D benchmarkReturn7D) trendQuality breakoutProximity volumeAcceleration overextension
        fzero ∅ false "").
Definition UniverseHardFilterReason (c : UniverseCandidateMetrics) (policy : UniversePolicy) : string :=
  if UC_ListingAgeDays c <? UP_MinListingDays policy then "listing_age" else
  if flt (UC_MedianDailyQuoteVolume c) (UP_MinDailyQuoteVolume policy) then "daily_quote_volume" else
  if flt (UC_MedianIntradayQuoteVolume c) (UP_MinIntradayQuoteVolume policy) then "intraday_quote_volume" else
  if flt (UP_MaxGapRatio policy) (UC_GapRatio c) then "missing_bar_ratio" else
  if flt (UC_VolatilityRatio c) (UP_VolRatioMin policy) then "volatility_too_low" else
  if flt (UP_VolRatioMax policy) (UC_VolatilityRatio c) then "volatility_too_high" else
  if flt (UP_Max24hMove policy) (fabs (UC_Change24h c)) then "excessive_24h_move" else "".

(** ** Ranking *)
Section Ranking.
(** [math.Log1p], and the order in which Go visits a map. *)
Context (Log1p : float64 -> float64) (visit : gmap string float64 -> list (string * float64)).
Definition zscoreMap (raw : gmap string float64) : gmap string float64 :=
  let values := (visit raw).*2 in
  let mean := fdiv (fsum values) (flen values) in
  let variance := foldl (fun v value => let delta := fsub value mean in fadd v (fmul delta delta)) fzero values in
  let stdDev := fsqrt (fdiv variance (flen values)) in
  (fun value => if feq stdDev fzero then fzero else fdiv (fsub value mean) stdDev) <$> raw.
(** The raw value of every symbol; a later candidate of a symbol replaces an earlier one. *)
Definition raw_by (f : UniverseCandidateMetrics -> float64) (candidates : list UniverseCandidateMetrics) : gmap string float64 :=
  foldl (fun m c => <[UC_Symbol c := f c]> m) ∅ candidates.
Definition momentum_raw (c : UniverseCandidateMetrics) : float64 :=
  fadd (fadd (fmul (UC_Return1D c) (f_dec 2 10)) (fmul (UC_Return3D c) (f_dec 35 100))) (fmul (UC_Return7D c) (f_dec 45 100)).
Definition target_volatility (policy : UniversePolicy) : float64 :=
  let targetVol := fdiv (fadd (UP_VolRatioMin policy) (UP_VolRatioMax policy)) (f_of_Z 2) in if fle targetVol fzero then f_dec 2 100 else targetVol.
Definition rank_features (policy : UniversePolicy) : list (string * (UniverseCandidateMetrics -> float64)) :=
  [("momentum", momentum_raw); ("relative_strength", UC_RelativeStrength); ("liquidity", fun c => Log1p (fmax (UC_MedianIntradayQuoteVolume c) fzero));
   ("trend_quality", UC_TrendQuality); ("breakout", UC_BreakoutProximity); ("volume_accel", UC_VolumeAcceleration);
   ("volatility_fit", fun c => fneg (fabs (fsub (UC_VolatilityRatio c) (target_volatility policy)))); ("overextension", UC_OverextensionPenalty)].
Definition rank_score (components : gmap string float64) : float64 :=
  let part key weight := fmul (default fzero (components !! key)) weight in
  fsub (fadd (fadd (fadd (fadd (fadd (fadd (part "relative_strength" (f_dec 24 100)) (part "momentum" (f_dec 20 100))) (part "trend_quality" (f_dec 16 100)))
    (part "liquidity" (f_dec 14 100))) (part "breakout" (f_dec 10 100))) (part "volume_accel" (f_dec 8 100))) (part "volatility_fit" (f_dec 8 100)))
    (part "overextension" (f_dec 12 100)).
Definition rank_less (a b : UniverseCandidateMetrics) : bool :=
  if feq (UC_RankScore a) (UC_RankScore b) then
    if feq (UC_QuoteVolume24h a) (UC_QuoteVolume24h b) then String.ltb (UC_Symbol a) (UC_Symbol b) else flt (UC_QuoteVolume24h b) (UC_QuoteVolume24h a)
  else flt (UC_RankScore b) (UC_RankScore a).
Definition ranked_candidate (scores : list (string * gmap string float64)) (c : UniverseCandidateMetrics) : UniverseCandidateMetrics :=
  let components := list_to_map ((fun kv => (kv.1, default fzero (kv.2 !! UC_Symbol c))) <$> scores) in
  with_rank c (rank_score components) components.
Definition RankUniverseCandidates (candidates : list UniverseCandidateMetrics) (policy : UniversePolicy) : list UniverseCandidateMetrics :=
  let scores := (fun kf => (kf.1, zscoreMap (raw_by kf.2 candidates))) <$> rank_features policy in
  SliceStable rank_less (ranked_candidate scores <$> candidates).
Definition ComputeUniverseBreadth (candidates : list UniverseCandidateMetrics) : float64 :=
  if len candidates =? 0 then fzero else
  let positive := List.filter (fun c => flt fzero (UC_Return3D c) && fle fzero (UC_TrendQuality c)) candidates in
  fdiv (flen positive) (flen candidates).
Definition DetermineUniverseRegime (higherTrendUp dailyTrendUp : bool) (breadth : float64) : string :=
  if higherTrendUp && dailyTrendUp && fle (f_dec 55 100) breadth then UniverseRegimeRiskOn else
  if negb higherTrendUp && negb dailyTrendUp && flt breadth (f_dec 40 100) then UniverseRegimeRiskOff else UniverseRegimeNeutral.

(** ** Selection *)
(** The sizes of the active universe and of its shortlist. *)
Definition selection_limits (ranked : Z) (policy : UniversePolicy) (regime : string) : Z * Z :=
  let activeLimit := UP_TopK policy in
  let shortlistLimit := if UP_AnalyzeTopN policy <=? 0 then activeLimit else UP_AnalyzeTopN policy in
  let '(activeLimit, shortlistLimit) :=
    if regime =s UniverseRegimeRiskOff then (Z.min activeLimit 3, Z.min shortlistLimit 2) else
    if regime =s UniverseRegimeNeutral then
      (Z.min activeLimit (Z.max shortlistLimit (Z.max 4 (Z.quot activeLimit 2))), Z.min shortlistLimit (Z.max 3 (int64 (Z.quot shortlistLimit 2 + 1))))
    else (activeLimit, shortlistLimit) in
  let activeLimit := if activeLimit <=? 0 then ranked else activeLimit in
  let shortlistLimit := if shortlistLimit <=? 0 then ranked else shortlistLimit in
  let activeLimit := Z.min activeLimit ranked in (activeLimit, Z.min shortlistLimit activeLimit).
Definition SelectUniverseCandidates (ranked : list UniverseCandidateMetrics) (policy : UniversePolicy) (regime : string) :
    list UniverseCandidateMetrics * list UniverseCandidateMetrics :=
  let '(activeLimit, shortlistLimit) := selection_limits (len ranked) policy regime in
  let active := take (Z.to_nat activeLimit) ranked in
  (imap (fun i c => with_verdict c (Z.of_nat i <? shortlistLimit) (UC_RejectionReason c)) active,
   (fun c => with_verdict c true (UC_RejectionReason c)) <$> take (Z.to_nat shortlistLimit) active).

(** ** The snapshot *)
Record TrendingCoin : Type := mkTrendingCoin { TC_Symbol : string; TC_Price : float64; TC_Change24h : float64; TC_Volume24h : float64 }.
Record TickerPrice : Type := mkTicker { TK_Symbol : string; TK_LastPrice : string; TK_PriceChangePercent : string; TK_QuoteVolume : string }.
Record TrendingData : Type := mkTrending { TD_Source : string; TD_TopVolume : list TrendingCoin; TD_TopGainers : list TrendingCoin; TD_TopLosers : list TrendingCoin }.
Record UniverseSelectionResult : Type := mkSelection {
  UR_SnapshotID : Z; UR_Timestamp : Time; UR_Policy : UniversePolicy; UR_RegimeState : string; UR_BreadthRatio : float64; UR_EligibleCount : Z; UR_CandidateCount : Z; UR_RankedCount : Z;
  UR_ShortlistCount : Z; UR_ActiveUniverse : list UniverseCandidateMetrics; UR_Shortlist : list UniverseCandidateMetrics; UR_Members : list UniverseCandidateMetrics;
  UR_Trending : TrendingData }.
Definition parseFloatOrZero (value : string) : float64 := default fzero (ParseFloat (TrimSpace value)).
Definition trimTrendingCoins (coins : list TrendingCoin) (limit : Z) : list TrendingCoin := if len coins <=? limit then coins else take (Z.to_nat limit) coins.
Definition buildTrendingDataFromCoins (coins : list TrendingCoin) (source : string) : TrendingData :=
  mkTrending source (trimTrendingCoins (SliceStable (fun a b => flt (TC_Volume24h b) (TC_Volume24h a)) coins) 20)
    (trimTrendingCoins (SliceStable (fun a b => flt (TC_Change24h b) (TC_Change24h a)) coins) 20)
    (trimTrendingCoins (SliceStable (fun a b => flt (TC_Change24h a) (TC_Change24h b)) coins) 20).
Definition universeCandidatePoolLimit (policy : UniversePolicy) : Z :=
  Z.min 80 (Z.max 30 (Z.max (int64 (UP_TopK policy * 4)) (int64 (UP_AnalyzeTopN policy * 6)))).
Definition coin_of (ticker : TickerPrice) : TrendingCoin :=
  mkTrendingCoin (ToUpper (TK_Symbol ticker)) (parseFloatOrZero (TK_LastPrice ticker)) (parseFloatOrZero (TK_PriceChangePercent ticker)) (parseFloatOrZero (TK_QuoteVolume ticker)).
Definition eligible_coins (metadata : gmap string UniverseSymbol) (tickers : list TickerPrice) : list TrendingCoin :=
  coin_of <$> List.filter (fun ticker => match metadata !! ToUpper (TK_Symbol ticker) with Some row => tradable row | None => false end) tickers.
Definition pool_less (a b : TrendingCoin) : bool :=
  if feq (TC_Volume24h a) (TC_Volume24h b) then String.ltb (TC_Symbol a) (TC_Symbol b) else flt (TC_Volume24h b) (TC_Volume24h a).
Definition candidate_pool (policy : UniversePolicy) (coins : list TrendingCoin) : list TrendingCoin :=
  let broad := SliceStable pool_less (List.filter (fun coin => fle (fmul (UP_MinDailyQuoteVolume policy) (f_dec 1 2)) (TC_Volume24h coin)) coins) in
  if universeCandidatePoolLimit policy <? len broad then take (Z.to_nat (universeCandidatePoolLimit policy)) broad else broad.
(** The klines of the exchange: symbol, interval, limit. *)
Context (FetchOHLCV : string -> string -> Z -> res (list OHLCV)).
(** A failed fetch whose error is dropped. *)
Definition fetched (r : res (list OHLCV)) : res (list OHLCV) := match r with Err _ => Ok [] | _ => r end.
Definition no_metrics (coin : TrendingCoin) (base quote : string) : UniverseCandidateMetrics :=
  mkCandidate (TC_Symbol coin) base quote (TC_Price coin) (TC_Change24h coin) (TC_Volume24h coin) 0 fzero fzero fzero fzero fzero fzero fzero fzero fzero fzero
    fzero fzero fzero fzero ∅ false "market_data_unavailable".
Definition daily_limit (policy : UniversePolicy) : Z := Z.max (int64 (UP_MinListingDays policy + 35)) 60.
(** One coin of the pool: a rejected member, or an accepted candidate. *)
Definition candidate_step (metadata : gmap string UniverseSymbol) (policy : UniversePolicy) (btcReturn7D : float64)
    (s : list UniverseCandidateMetrics * list UniverseCandidateMetrics) (coin : TrendingCoin) : res (list UniverseCandidateMetrics * list UniverseCandidateMetrics) :=
  let '(members, accepted) := s in
  let '(base, quote) := match metadata !! TC_Symbol coin with Some row => (US_BaseAsset row, US_QuoteAsset row) | None => ("", "") end in
  let unavailable := Ok (members ++ [no_metrics coin base quote], accepted) in
  match FetchOHLCV (TC_Symbol coin) "1d" (daily_limit policy), FetchOHLCV (TC_Symbol coin) "1h" (24 * 10) with
  | Panic w, _ => Panic w
  | _, Panic w => Panic w
  | Ok daily, Ok intraday =>
      if (len daily =? 0) || (len intraday =? 0) then unavailable else
      let* candidate := BuildUniverseCandidateMetrics (TC_Symbol coin) base quote (TC_Price coin) (TC_Change24h coin) (TC_Volume24h coin) daily intraday btcReturn7D in
      let rejection := UniverseHardFilterReason candidate policy in
      if rejection =s "" then Ok (members ++ [candidate], accepted ++ [candidate])
      else Ok (members ++ [with_verdict candidate (UC_Shortlisted candidate) rejection], accepted)
  | _, _ => unavailable
  end.
Definition ranked_members (ranked members : list UniverseCandidateMetrics) : list UniverseCandidateMetrics :=
  let rankedBySymbol : gmap string UniverseCandidateMetrics := foldl (fun m c => <[UC_Symbol c := c]> m) ∅ ranked in
  (fun member => default member (rankedBySymbol !! UC_Symbol member)) <$> members.
(** What the data of the exchange make of the policy, before it is stored. *)
Definition select_universe (policy : UniversePolicy) (metadata : list UniverseSymbol) (tickers : list TickerPrice) (now : Time) : res UniverseSelectionResult :=
  let metadataBySymbol := by_symbol metadata in
  let eligibleCoins := eligible_coins metadataBySymbol tickers in
  let broadCandidates := candidate_pool policy eligibleCoins in
  let* btcDaily := fetched (FetchOHLCV "BTCUSDT" "1d" (daily_limit policy)) in
  let* btc4h := fetched (FetchOHLCV "BTCUSDT" "4h" 250) in
  let* btcReturn7D := calculateOHLCVReturn btcDaily 7 in
  let* (members, accepted) := foldM (candidate_step metadataBySymbol policy btcReturn7D) ([], []) broadCandidates in
  let breadth := ComputeUniverseBreadth accepted in
  let* higher := computeRegimeGate (ohlcvToCandles btc4h) 50 200 in
  let* daily := computeRegimeGate (ohlcvToCandles btcDaily) 20 50 in
  let regime := DetermineUniverseRegime higher daily breadth in
  let ranked := RankUniverseCandidates accepted policy in
  let '(activeUniverse, shortlist) := SelectUniverseCandidates ranked policy regime in
  Ok (mkSelection 0 (Truncate now SecondNs) policy regime breadth (len eligibleCoins) (len members) (len activeUniverse) (len shortlist) activeUniverse shortlist
        (ranked_members ranked members) (buildTrendingDataFromCoins eligibleCoins "dynamic_universe")).
(** The stage a member is stored with. *)
Definition member_stage (result : UniverseSelectionResult) (c : UniverseCandidateMetrics) : string :=
  let within l := existsb (fun d => UC_Symbol d =s UC_Symbol c) l in
  if UC_RejectionReason c <>s "" then "rejected" else if within (UR_Shortlist result) then "shortlist" else if within (UR_ActiveUniverse result) then "active" else "ranked".

(** ** The tables

    Symbols by their unique name, snapshots and members in the order of their
    keys. [Answer] is what the database says of a statement: a failing one
    leaves the tables as they are. *)
Record UniverseSnapshotRow : Type := mkSnapshotRow {
  SN_ID : Z; SN_SnapshotTime : Time; SN_RebalanceInterval : string; SN_RegimeState : string; SN_BreadthRatio : float64; SN_EligibleCount : Z;
  SN_CandidateCount : Z; SN_RankedCount : Z; SN_ShortlistCount : Z; SN_DatasetManifestID : option string; SN_CoverageState : string }.
(** A member has the figures of its candidate next to its own columns. *)
Record UniverseMember : Type := mkMember {
  UM_UniverseSnapshotID : Z; UM_Figures : UniverseCandidateMetrics; UM_Stage : string; UM_RankComponentsJSON : string; UM_Shortlisted : bool;
  UM_RejectionReason : option string }.
Record UniverseDB : Type := mkUniverseDB { ud_symbols : gmap string UniverseSymbol; ud_snapshots : list UniverseSnapshotRow; ud_members : list UniverseMember }.
Context (FetchExchangeInfo : res (list ExchangeSymbolInfo)) (FetchAllTickers : res (list TickerPrice)) (Answer : string -> UniverseDB -> res unit)
  (MarshalComponents : gmap string float64 -> res string).
Definition Uni (A : Type) : Type := stM UniverseDB A.
Definition statement (name : string) (f : UniverseDB -> UniverseDB) : Uni unit := fun db =>
  match Answer name db with Ok _ => (Ok tt, f db) | Err e => (Err e, db) | Panic w => (Panic w, db) end.
(** A read whose error nobody looks at finds nothing. *)
Definition FindSymbols : Uni (list UniverseSymbol) := fun db =>
  match Answer "find symbols" db with Ok _ => (Ok (map_to_list (ud_symbols db)).*2, db) | Err _ => (Ok [], db) | Panic w => (Panic w, db) end.
Definition UpsertSymbol (row : UniverseSymbol) : Uni unit :=
  statement "upsert symbol" (fun db => mkUniverseDB (<[US_Symbol row := row]> (ud_symbols db)) (ud_snapshots db) (ud_members db)).
Definition failed_with {A} (format : string) (r : res A) : res A := match r with Err e => Err (Wrapf format [] e) | _ => r end.
Definition RefreshUniverseMetadata (now : Time) : Uni (list UniverseSymbol) :=
  let! infos := slift (failed_with "failed to fetch exchange metadata: %w" FetchExchangeInfo) in
  let! existing := FindSymbols in
  let rows := metadata_rows existing now infos in
  let! _ := sfoldM (fun _ row => UpsertSymbol row) tt rows in sret rows.
Definition DiscoverEligibleUniverseSymbols (now : Time) : Uni (list string) :=
  let! metadata := RefreshUniverseMetadata now in sret (eligible_symbols metadata).
Definition next_snapshot (db : UniverseDB) : Z := 1 + foldl (fun m r => Z.max m (SN_ID r)) 0 (ud_snapshots db).
Definition CreateSnapshot (row : Z -> UniverseSnapshotRow) : Uni Z := fun db =>
  let id := next_snapshot db in
  let '(r, db') := statement "create snapshot" (fun db => mkUniverseDB (ud_symbols db) (ud_snapshots db ++ [row id]) (ud_members db)) db in
  (let* _ := r in Ok id, db').
Definition CreateMembers (rows : list UniverseMember) : Uni unit :=
  statement "create members" (fun db => mkUniverseDB (ud_symbols db) (ud_snapshots db) (ud_members db ++ rows)).
Definition components_json (c : UniverseCandidateMetrics) : res string :=
  if (size (UC_RankComponents c) =? 0)%nat then Ok "" else match MarshalComponents (UC_RankComponents c) with Err _ => Ok "" | r => r end.
Definition member_row (result : UniverseSelectionResult) (snapshot : Z) (c : UniverseCandidateMetrics) : res UniverseMember :=
  let* json := components_json c in
  Ok (mkMember snapshot c (member_stage result c) json (UC_Shortlisted c) (if UC_RejectionReason c =s "" then None else Some (UC_RejectionReason c))).
Definition snapshot_row (result : UniverseSelectionResult) (id : Z) : UniverseSnapshotRow :=
  mkSnapshotRow id (UR_Timestamp result) (UP_RebalanceIntervalLabel (UR_Policy result)) (UR_RegimeState result) (UR_BreadthRatio result) (UR_EligibleCount result)
    (UR_CandidateCount result) (UR_RankedCount result) (UR_ShortlistCount result) None "complete".
Definition stored_as (result : UniverseSelectionResult) (id : Z) : UniverseSelectionResult :=
  mkSelection id (UR_Timestamp result) (UR_Policy result) (UR_RegimeState result) (UR_BreadthRatio result) (UR_EligibleCount result) (UR_CandidateCount result)
    (UR_RankedCount result) (UR_ShortlistCount result) (UR_ActiveUniverse result) (UR_Shortlist result) (UR_Members result) (UR_Trending result).
Definition persistUniverseSnapshot (result : UniverseSelectionResult) : Uni UniverseSelectionResult :=
  let! id := CreateSnapshot (snapshot_row result) in
  let! members := slift (mapM (member_row result id) (UR_Members result)) in
  let! _ := if len members =? 0 then sret tt else CreateMembers members in
  sret (stored_as result id).
Definition BuildUniverseSnapshot (policy : UniversePolicy) (now : nat -> Time) : Uni UniverseSelectionResult :=
  let! metadata := RefreshUniverseMetadata (now 0%nat) in
  let! tickers := slift (failed_with "failed to fetch ticker universe: %w" FetchAllTickers) in
  let! result := slift (select_universe policy metadata tickers (now 1%nat)) in
  persistUniverseSnapshot result.
End Ranking.
