(* ===== verification/UniverseProofs.v ===== *)
(** * UniverseProofs: what is in the active universe *)
From Stdlib Require Import Ascii SpecFloat Permutation.
From stdpp Require Import base numbers strings gmap list.
From S2P Require Import Prelude GoStrings GoFloat GoTime Snapshots Splits FoldMetrics Exits Indicators Signals IndicatorProofs Universe.
Local Open Scope Z_scope.

(** A candidate without the verdicts of the selection. *)
Definition unmarked (c : UniverseCandidateMetrics) : UniverseCandidateMetrics := with_verdict c false (UC_RejectionReason c).
Lemma unmarked_with c b : unmarked (with_verdict c b (UC_RejectionReason c)) = unmarked c.
Proof. done. Qed.
Lemma hard_filter_unmarked c d policy : unmarked c = unmarked d -> UniverseHardFilterReason c policy = UniverseHardFilterReason d policy.
Proof. destruct c, d. unfold unmarked, with_verdict. cbn. intros H. injection H as <- <- <- <- <- <- <- <- <- <- <- <- <- <- <- <- <- <- <- <- <- <- <-. done. Qed.
Lemma hard_filter_ranked c score components policy : UniverseHardFilterReason (with_rank c score components) policy = UniverseHardFilterReason c policy.
Proof. done. Qed.

(** ** Selection *)
Section Limits.
Context (policy : UniversePolicy) (regime : string) (n : Z).
Lemma limits_bounds : 0 <= n -> 0 < UP_TopK policy < 2 ^ 62 -> let '(active, short) := selection_limits n policy regime in
  0 <= short <= active /\ active <= n /\ active <= UP_TopK policy /\ (0 < UP_AnalyzeTopN policy -> short <= UP_AnalyzeTopN policy) /\
  (regime = UniverseRegimeRiskOff -> active <= 3 /\ short <= 2) /\ (0 < n -> UP_AnalyzeTopN policy < 2 ^ 62 -> 0 < short).
Proof.
  intros Hn Hk. unfold selection_limits. set (short := if UP_AnalyzeTopN policy <=? 0 then UP_TopK policy else UP_AnalyzeTopN policy).
  assert (Hs : 0 < short /\ (0 < UP_AnalyzeTopN policy -> short = UP_AnalyzeTopN policy) /\ (UP_AnalyzeTopN policy < 2 ^ 62 -> short < 2 ^ 62)) by (subst short; destruct (Z.leb_spec (UP_AnalyzeTopN policy) 0); lia).
  clearbody short. destruct (String.eqb_spec regime UniverseRegimeRiskOff) as [->|Hr]; [|destruct (String.eqb_spec regime UniverseRegimeNeutral) as [->|Hr2]].
  - rewrite !(proj2 (Z.leb_gt _ _)) by lia. split_and!; lia.
  - assert (Hint : short < 2 ^ 62 -> int64 (Z.quot short 2 + 1) = Z.quot short 2 + 1) by (intros; apply int64_id; unfold in_int64; pose proof (Z.quot_le_upper_bound short 2 short); pose proof (Z.quot_pos short 2); lia).
    pose proof (Z.quot_pos short 2). pose proof (Z.quot_pos (UP_TopK policy) 2).
    rewrite !(proj2 (Z.leb_gt _ _)) by lia. split_and!; lia || (by intros) || idtac.
  - rewrite !(proj2 (Z.leb_gt _ _)) by lia. split_and!; try lia. by intros.
Qed.
End Limits.
(** What a selection promises. *)
Record selected (policy : UniversePolicy) (regime : string) (ranked active shortlist : list UniverseCandidateMetrics) : Prop := {
  sl_active : unmarked <$> active = take (length active) (unmarked <$> ranked);
  sl_shortlist : unmarked <$> shortlist = take (length shortlist) (unmarked <$> active);
  sl_marked : Forall (fun c => UC_Shortlisted c = true) shortlist /\
    (forall i c, active !! i = Some c -> UC_Shortlisted c = true <-> (i < length shortlist)%nat);
  sl_size : len active <= len ranked /\ len active <= UP_TopK policy /\ (0 < UP_AnalyzeTopN policy -> len shortlist <= UP_AnalyzeTopN policy);
  sl_risk_off : regime = UniverseRegimeRiskOff -> len active <= 3 /\ len shortlist <= 2;
  sl_nonempty : 0 < len ranked -> 0 < len shortlist }.
Lemma fmap_unmarked_imap (f : nat -> UniverseCandidateMetrics -> bool) (l : list UniverseCandidateMetrics) : unmarked <$> imap (fun i c => with_verdict c (f i c) (UC_RejectionReason c)) l = unmarked <$> l.
Proof. revert f. induction l as [|c l IH]; intros f; cbn; [done|]. f_equal. apply (IH (fun i => f (S i))). Qed.
Lemma fmap_unmarked_all (l : list UniverseCandidateMetrics) : unmarked <$> ((fun c => with_verdict c true (UC_RejectionReason c)) <$> l) = unmarked <$> l.
Proof. rewrite <- list_fmap_compose. by apply list_fmap_ext. Qed.
Lemma select_selected ranked policy regime active shortlist : 0 < UP_TopK policy < 2 ^ 62 -> UP_AnalyzeTopN policy < 2 ^ 62 ->
  SelectUniverseCandidates ranked policy regime = (active, shortlist) -> selected policy regime ranked active shortlist.
Proof.
  intros Hk Ha H. unfold SelectUniverseCandidates in H. pose proof (limits_bounds policy regime (len ranked) ltac:(unfold len; lia) Hk) as Hl.
  destruct (selection_limits (len ranked) policy regime) as [na ns]. destruct Hl as (H1 & H2 & H3 & H4 & H5 & H6). injection H as <- <-.
  assert (Hla : length (take (Z.to_nat na) ranked) = Z.to_nat na) by (rewrite length_take; unfold len in *; lia).
  assert (Hls : length (take (Z.to_nat ns) (take (Z.to_nat na) ranked)) = Z.to_nat ns) by (rewrite length_take, Hla; lia).
  split; unfold len; rewrite ?length_fmap, ?length_imap, ?Hla, ?Hls.
  - rewrite fmap_unmarked_imap. by rewrite fmap_take.
  - by rewrite fmap_unmarked_all, fmap_unmarked_imap, fmap_take.
  - split; [by apply Forall_fmap, Forall_true|]. intros i c Hc. rewrite list_lookup_imap in Hc. apply fmap_Some in Hc as (d & Hd & ->). cbn. rewrite Z.ltb_lt. lia.
  - unfold len in *. split_and!; [lia..|]. intros Hn. pose proof (H4 Hn). lia.
  - intros Hr. destruct (H5 Hr). lia.
  - intros Hn. pose proof (H6 Hn Ha). lia.
Qed.

(** ** No read out of bounds *)
Lemma Median_total values : exists m, CalculateMedian values = Ok m.
Proof.
  unfold CalculateMedian. destruct (Z.eqb_spec (len values) 0) as [|H]; [by eexists|].
  assert (Hs : len (sort_floats values) = len values) by (unfold len, sort_floats; by rewrite SliceStable_length). rewrite Hs.
  assert (Hpos : 0 < len values) by (unfold len in *; lia). pose proof (Z.div_lt (len values) 2 Hpos ltac:(lia)). pose proof (Z.div_pos (len values) 2 ltac:(lia) ltac:(lia)).
  destruct (index_in (sort_floats values) (len values / 2)) as (a & -> & _); [lia|]. cbn [rbind]. destruct (Z.eqb_spec (len values mod 2) 0) as [Hm|]; [|by eexists].
  destruct (index_in (sort_floats values) (len values / 2 - 1)) as (b & -> & _); [|by eexists]. rewrite Hs. pose proof (Z.div_mod (len values) 2). lia.
Qed.
Lemma Return_total closes lookback : exists r, CalculateReturn closes lookback = Ok r.
Proof.
  unfold CalculateReturn. destruct (_ || _) eqn:E; [by eexists|]. bool_prop. destruct (index_in closes (len closes - lookback - 1)) as (a & -> & _); [lia|].
  destruct (last_value_in closes) as (b & -> & _); [lia|]. cbn [rbind]. destruct (feq _ _); by eexists.
Qed.
Lemma MissingBars_total times interval : exists r, CalculateMissingBarRatio times interval = Ok r.
Proof.
  unfold CalculateMissingBarRatio. destruct (_ || _); [by eexists|]. destruct (_ <=? 0); [by eexists|].
  destruct (foldM_runs (gap_bars times (interval / 1000000)) (range 1 (len times)) 0) as [m ->].
  - eapply Forall_impl; [apply range_in|]. intros i Hi s. cbn beta in Hi. unfold gap_bars.
    destruct (index_in times i) as (a & -> & _); [lia|]. destruct (index_in times (i - 1)) as (b & -> & _); [lia|]. by eexists.
  - cbn [rbind]. destruct (_ <=? 0); by eexists.
Qed.
Lemma EMA_total data period : period <= len data -> 0 < len data -> exists e, CalculateEMA data period = Ok e.
Proof. intros H1 H2. destruct (EMA_all data period H1 H2) as (e & He & _). by exists e. Qed.
Lemma RegimeGate_total candles fast slow : fast <= slow -> 0 < slow -> exists b, computeRegimeGate candles fast slow = Ok b.
Proof.
  intros Hf Hs. unfold computeRegimeGate. destruct (Z.ltb_spec (len candles) slow); [by eexists|]. rewrite <- (len_fmap Cn_Close) in *.
  destruct (EMA_total (Cn_Close <$> candles) fast) as [a ->]; [lia..|]. destruct (EMA_total (Cn_Close <$> candles) slow) as [b ->]; [lia..|]. by eexists.
Qed.
Lemma trend_quality_total closes price : exists q, trend_quality closes price = Ok q.
Proof.
  unfold trend_quality. destruct (_ && _) eqn:E; [|by eexists]. bool_prop.
  destruct (EMA_total closes 20) as [a ->]; [lia..|]. destruct (EMA_total closes 50) as [b ->]; [lia..|]. by eexists.
Qed.
Lemma metrics_total symbol base quote price change volume daily intraday benchmark : exists c,
  BuildUniverseCandidateMetrics symbol base quote price change volume daily intraday benchmark = Ok c /\ UC_Symbol c = ToUpper symbol /\ UC_Shortlisted c = false /\ UC_RejectionReason c = "".
Proof.
  unfold BuildUniverseCandidateMetrics, calculateOHLCVReturn.
  assert (exists p, (if fle price fzero && (0 <? len (ohlcvCloses daily)) then last_value (ohlcvCloses daily) else Ok price) = Ok p) as [p ->].
  { destruct (_ && _) eqn:E; [|by eexists]. bool_prop. destruct (last_value_in (ohlcvCloses daily)) as (a & -> & _); [lia | by eexists]. }
  cbn [rbind]. assert (exists v, (if flt fzero p then let* atr := CalculateATR (ohlcvToCandles intraday) 14 in Ok (fdiv atr p) else Ok fzero) = Ok v) as [v ->].
  { destruct (flt fzero p); [|by eexists]. destruct (ATR_total (ohlcvToCandles intraday) 14) as [a ->]; [lia | by eexists]. }
  cbn [rbind]. destruct (trend_quality_total (ohlcvCloses intraday) p) as [q ->]. destruct (Median_total (tail_of (quoteVolumes daily) 20)) as [m1 ->].
  destruct (Median_total (tail_of (quoteVolumes intraday) (24 * 7))) as [m2 ->]. cbn [rbind]. destruct (MissingBars_total (OH_OpenTime <$> intraday) HourNs) as [g ->].
  destruct (Return_total (ohlcvCloses daily) 1) as [r1 ->], (Return_total (ohlcvCloses daily) 3) as [r3 ->], (Return_total (ohlcvCloses daily) 7) as [r7 ->], (Return_total (ohlcvCloses daily) 30) as [r30 ->].
  cbn [rbind]. eexists. by split_and!.
Qed.

(** ** The snapshot *)
Section Snapshot.
Context (Log1p : float64 -> float64) (visit : gmap string float64 -> list (string * float64)) (FetchOHLCV : string -> string -> Z -> res (list OHLCV)).
Hypothesis fetch_returns : forall symbol interval limit w, FetchOHLCV symbol interval limit <> Panic w.
Context (policy : UniversePolicy) (metadata : gmap string UniverseSymbol) (tickers : list TickerPrice) (benchmark : float64).
(** A candidate that may be traded: its symbol is listed as tradable, it is in
    the pool of the most traded symbols, and no hard filter rejects it. *)
Definition admitted (c : UniverseCandidateMetrics) : Prop :=
  UniverseHardFilterReason c policy = "" /\ exists coin row, coin ∈ candidate_pool policy (eligible_coins metadata tickers) /\ UC_Symbol c = ToUpper (TC_Symbol coin) /\
    metadata !! TC_Symbol coin = Some row /\ tradable row = true.
Lemma pool_eligible coin : coin ∈ candidate_pool policy (eligible_coins metadata tickers) -> exists row, metadata !! TC_Symbol coin = Some row /\ tradable row = true.
Proof.
  intros Hc. assert (Hin : coin ∈ eligible_coins metadata tickers).
  { unfold candidate_pool in Hc. set (broad := SliceStable _ _) in Hc. assert (Hb : coin ∈ broad).
    { destruct (_ <? _) in Hc; [|exact Hc]. apply elem_of_sublist with (l1 := take (Z.to_nat (universeCandidatePoolLimit policy)) broad); [exact Hc | apply sublist_take]. }
    subst broad. rewrite SliceStable_elem in Hb. by apply list_elem_of_In, List.filter_In in Hb as [Hb%list_elem_of_In _]. }
  unfold eligible_coins in Hin. apply list_elem_of_fmap in Hin as (ticker & -> & Ht). apply list_elem_of_In, List.filter_In in Ht as [_ Ht]. cbn.
  destruct (metadata !! ToUpper (TK_Symbol ticker)) as [row|]; [|done]. by exists row.
Qed.
Record pool_inv (done : nat) (s : list UniverseCandidateMetrics * list UniverseCandidateMetrics) : Prop := {
  pi_members : Forall (fun c => UC_Shortlisted c = false) s.1 /\ length s.1 = done;
  pi_accepted : Forall (fun c => UC_Shortlisted c = false /\ admitted c) s.2;
  pi_kept : Forall (fun c => c ∈ s.1 /\ UC_RejectionReason c = "") s.2 }.
Lemma kept_more (members more accepted : list UniverseCandidateMetrics) :
  Forall (fun c => c ∈ members /\ UC_RejectionReason c = "") accepted -> Forall (fun c => c ∈ members ++ more /\ UC_RejectionReason c = "") accepted.
Proof. intros H. eapply Forall_impl; [exact H|]. intros c [Hc Hr]. split; [apply elem_of_app; by left | exact Hr]. Qed.
Lemma candidate_step_inv done s coin : coin ∈ candidate_pool policy (eligible_coins metadata tickers) -> pool_inv done s ->
  exists s', candidate_step FetchOHLCV metadata policy benchmark s coin = Ok s' /\ pool_inv (S done) s'.
Proof.
  intros Hin [[Hm Hn] Ha Hk]. destruct s as [members accepted]. unfold candidate_step. cbn in Hm, Hn, Ha, Hk. destruct (pool_eligible _ Hin) as (row & Hrow & Ht). rewrite Hrow. cbn [fst snd].
  assert (Hrej : forall c accepted', UC_Shortlisted c = false -> Forall (fun c => UC_Shortlisted c = false /\ admitted c) accepted' ->
    Forall (fun d => d ∈ members ++ [c] /\ UC_RejectionReason d = "") accepted' -> exists s', Ok (members ++ [c], accepted') = Ok s' /\ pool_inv (S done) s').
  { intros c accepted' Hc Ha' Hk'. eexists. split; [reflexivity|]. split; [|exact Ha'|exact Hk']. cbn. split; [apply Forall_app; split; [exact Hm | by repeat constructor] | rewrite length_app; cbn; lia]. }
  assert (Hun : exists s', Ok (members ++ [no_metrics coin (US_BaseAsset row) (US_QuoteAsset row)], accepted) = Ok s' /\ pool_inv (S done) s') by (apply Hrej; [done | exact Ha | by apply kept_more]).
  destruct (FetchOHLCV (TC_Symbol coin) "1d" (daily_limit policy)) as [daily|e|w] eqn:Ed; [| |by apply fetch_returns in Ed].
  2:{ destruct (FetchOHLCV (TC_Symbol coin) "1h" (24 * 10)) as [|e2|w] eqn:Ei; [exact Hun..|by apply fetch_returns in Ei]. }
  destruct (FetchOHLCV (TC_Symbol coin) "1h" (24 * 10)) as [intraday|e|w] eqn:Ei; [|exact Hun|by apply fetch_returns in Ei].
  destruct (_ || _); [exact Hun|].
  destruct (metrics_total (TC_Symbol coin) (US_BaseAsset row) (US_QuoteAsset row) (TC_Price coin) (TC_Change24h coin) (TC_Volume24h coin) daily intraday benchmark) as (c & -> & Hs & Hf & Hr).
  cbn [rbind]. destruct (String.eqb_spec (UniverseHardFilterReason c policy) "") as [Hok|_]; apply Hrej.
  - exact Hf.
  - apply Forall_app. split; [exact Ha|]. repeat constructor; [exact Hf | exact Hok|]. by exists coin, row.
  - apply Forall_app. split; [by apply kept_more|]. repeat constructor; [|exact Hr]. apply elem_of_app. right. by apply list_elem_of_singleton.
  - exact Hf.
  - exact Ha.
  - by apply kept_more.
Qed.
Lemma pool_runs pool done s : Forall (fun coin => coin ∈ candidate_pool policy (eligible_coins metadata tickers)) pool -> pool_inv done s ->
  exists s', foldM (candidate_step FetchOHLCV metadata policy benchmark) s pool = Ok s' /\ pool_inv (done + length pool) s'.
Proof.
  intros Hp. revert done s. induction Hp as [|coin pool Hc _ IH]; intros done s Hs; cbn [foldM length].
  - exists s. split; [done|]. by rewrite Nat.add_0_r.
  - destruct (candidate_step_inv _ _ _ Hc Hs) as (s1 & -> & H1). cbn [rbind]. destruct (IH _ _ H1) as (s2 & -> & H2). exists s2. split; [done|]. by replace (done + S (length pool))%nat with (S done + length pool)%nat by lia.
Qed.
(** Ranking and selecting keep a candidate as it is, up to its marks. *)
Lemma ranked_admitted accepted : Forall (fun c => UC_Shortlisted c = false /\ admitted c) accepted ->
  Forall (fun c => UC_Shortlisted c = false /\ admitted c) (RankUniverseCandidates Log1p visit accepted policy).
Proof. intros H. unfold RankUniverseCandidates. apply SliceStable_Forall, Forall_fmap. eapply Forall_impl; [exact H|]. intros c. done. Qed.
Lemma admitted_unmarked l l' : unmarked <$> l' = take (length l') (unmarked <$> l) -> Forall admitted l -> Forall admitted l'.
Proof.
  intros He Hl. apply Forall_forall. intros c Hc. assert (Hin : unmarked c ∈ unmarked <$> l).
  { apply elem_of_sublist with (l1 := take (length l') (unmarked <$> l)); [rewrite <- He; by apply list_elem_of_fmap_2 | apply sublist_take]. }
  apply list_elem_of_fmap in Hin as (d & Hd & Hin). rewrite Forall_forall in Hl. destruct (Hl _ Hin) as (Hf & coin & row & H1 & H2 & H3). split; [by rewrite (hard_filter_unmarked _ _ _ Hd)|].
  exists coin, row. split; [exact H1|]. split; [|exact H3]. rewrite <- H2. by apply (f_equal UC_Symbol) in Hd.
Qed.
Lemma by_symbol_lookup (l : list UniverseCandidateMetrics) k d : foldl (fun (m : gmap string UniverseCandidateMetrics) c => <[UC_Symbol c := c]> m) ∅ l !! k = Some d -> d ∈ l /\ UC_Symbol d = k.
Proof.
  induction l as [|c l IH] using rev_ind; cbn; [done|]. rewrite foldl_snoc, elem_of_app, list_elem_of_singleton. intros H. destruct (decide (UC_Symbol c = k)) as [Heq|Hne].
  - rewrite Heq, lookup_insert_eq in H. injection H as <-. by split; [right|].
  - rewrite lookup_insert_ne in H by done. destruct (IH H). by split; [left|].
Qed.
(** A stored member is a ranked candidate, or the member as it was. *)
Lemma ranked_members_elem ranked members d : d ∈ ranked_members ranked members -> d ∈ ranked \/ d ∈ members.
Proof.
  unfold ranked_members. intros (c & -> & Hc)%list_elem_of_fmap. destruct (_ !! UC_Symbol c) as [d|] eqn:E; [|by right]. left. by apply by_symbol_lookup in E as [].
Qed.
Lemma ranked_members_kept ranked members c : c ∈ members -> UC_RejectionReason c = "" -> Forall (fun d => UC_RejectionReason d = "") ranked ->
  exists d, d ∈ ranked_members ranked members /\ UC_Symbol d = UC_Symbol c /\ UC_RejectionReason d = "".
Proof.
  intros Hc Hr Hall. rewrite Forall_forall in Hall. eexists. split; [unfold ranked_members; apply (list_elem_of_fmap_2 _ _ c Hc)|]. cbn. destruct (_ !! UC_Symbol c) as [d|] eqn:E; [|done].
  apply by_symbol_lookup in E as [H1 H2]. split; [done | by apply Hall].
Qed.
End Snapshot.

(** Where a ranked, and where a selected candidate comes from. *)
Lemma ranked_from Log1p visit policy accepted r : r ∈ RankUniverseCandidates Log1p visit accepted policy ->
  exists a, a ∈ accepted /\ UC_Symbol r = UC_Symbol a /\ UC_RejectionReason r = UC_RejectionReason a.
Proof. unfold RankUniverseCandidates. rewrite SliceStable_elem. intros (a & -> & Ha)%list_elem_of_fmap. by exists a. Qed.
Lemma take_unmarked l l' c : unmarked <$> l' = take (length l') (unmarked <$> l) -> c ∈ l' -> exists d, d ∈ l /\ UC_Symbol c = UC_Symbol d.
Proof.
  intros He Hc. assert (Hin : unmarked c ∈ unmarked <$> l).
  { apply elem_of_sublist with (l1 := take (length l') (unmarked <$> l)); [rewrite <- He; by apply list_elem_of_fmap_2 | apply sublist_take]. }
  apply list_elem_of_fmap in Hin as (d & Hd & Hin). exists d. split; [done|]. by apply (f_equal UC_Symbol) in Hd.
Qed.
Lemma unmarked_from ranked active shortlist c : unmarked <$> active = take (length active) (unmarked <$> ranked) -> unmarked <$> shortlist = take (length shortlist) (unmarked <$> active) ->
  c ∈ shortlist -> exists r, r ∈ ranked /\ UC_Symbol c = UC_Symbol r.
Proof. intros H1 H2 Hc. destruct (take_unmarked _ _ _ H2 Hc) as (d & Hd & ->). by apply (take_unmarked _ _ _ H1 Hd). Qed.

(** ** The whole handler *)
(** What a selection is made of. *)
Record chosen (policy : UniversePolicy) (metadata : list UniverseSymbol) (tickers : list TickerPrice) (result : UniverseSelectionResult) : Prop := {
  ch_selected : exists ranked, selected policy (UR_RegimeState result) ranked (UR_ActiveUniverse result) (UR_Shortlist result);
  ch_admitted : Forall (admitted policy (by_symbol metadata) tickers) (UR_ActiveUniverse result) /\ Forall (admitted policy (by_symbol metadata) tickers) (UR_Shortlist result);
  ch_members : len (UR_Members result) = len (candidate_pool policy (eligible_coins (by_symbol metadata) tickers));
  ch_unmarked : Forall (fun c => UC_Shortlisted c = false) (UR_Members result);
  ch_kept : Forall (fun c => exists d, d ∈ UR_Members result /\ UC_Symbol d = UC_Symbol c /\ UC_RejectionReason d = "") (UR_Shortlist result) }.
(** How it is stored: one new snapshot, and its members in their order. *)
Record stored (MarshalComponents : gmap string float64 -> res string) (result : UniverseSelectionResult) (db db' : UniverseDB) : Prop := {
  sd_snapshot : ud_snapshots db' = ud_snapshots db ++ [snapshot_row result (UR_SnapshotID result)];
  sd_fresh : Forall (fun r => SN_ID r < UR_SnapshotID result) (ud_snapshots db);
  sd_members : exists rows, ud_members db' = ud_members db ++ rows /\
    Forall2 (fun c m => member_row MarshalComponents result (UR_SnapshotID result) c = Ok m) (UR_Members result) rows }.
Section Snapshots.
Context (Log1p : float64 -> float64) (visit : gmap string float64 -> list (string * float64)) (FetchOHLCV : string -> string -> Z -> res (list OHLCV)).
Context (FetchExchangeInfo : res (list ExchangeSymbolInfo)) (FetchAllTickers : res (list TickerPrice)) (Answer : string -> UniverseDB -> res unit)
  (MarshalComponents : gmap string float64 -> res string).
(** The exchange, the database and the encoder answer: with data or with an error. *)
Record answering : Prop := {
  an_fetch : forall symbol interval limit w, FetchOHLCV symbol interval limit <> Panic w;
  an_info : forall w, FetchExchangeInfo <> Panic w;
  an_tickers : forall w, FetchAllTickers <> Panic w;
  an_answer : forall name db w, Answer name db <> Panic w;
  an_marshal : forall m w, MarshalComponents m <> Panic w }.
Hypothesis answers : answering.
Lemma selection_built policy metadata tickers now : 0 < UP_TopK policy < 2 ^ 62 -> UP_AnalyzeTopN policy < 2 ^ 62 ->
  exists result, select_universe Log1p visit FetchOHLCV policy metadata tickers now = Ok result /\ chosen policy metadata tickers result.
Proof.
  intros Hk Ha. pose proof (an_fetch answers) as fetch_returns. unfold select_universe. set (pool := candidate_pool policy _).
  assert (Hget : forall s i n, exists l, fetched (FetchOHLCV s i n) = Ok l).
  { intros s i n. destruct (FetchOHLCV s i n) as [l|e|w] eqn:E; [by exists l | by exists [] | by apply fetch_returns in E]. }
  destruct (Hget "BTCUSDT" "1d" (daily_limit policy)) as [btcDaily ->]. destruct (Hget "BTCUSDT" "4h" 250) as [btc4h ->]. cbn [rbind]. unfold calculateOHLCVReturn.
  destruct (Return_total (ohlcvCloses btcDaily) 7) as [benchmark ->]. cbn [rbind].
  destruct (pool_runs FetchOHLCV fetch_returns policy (by_symbol metadata) tickers benchmark pool 0 ([], [])) as ([members accepted] & -> & [[Hm Hlen] Hacc Hkept]);
    [by apply Forall_forall | by split|]. cbn [rbind]. cbn in Hm, Hlen, Hacc, Hkept.
  destruct (RegimeGate_total (ohlcvToCandles btc4h) 50 200) as [higher ->]; [lia..|]. destruct (RegimeGate_total (ohlcvToCandles btcDaily) 20 50) as [daily ->]; [lia..|]. cbn [rbind].
  set (regime := DetermineUniverseRegime _ _ _). apply (ranked_admitted Log1p visit) in Hacc.
  pose proof (ranked_from Log1p visit policy accepted) as Hfrom. set (ranked := RankUniverseCandidates _ _ _ _) in *.
  destruct (SelectUniverseCandidates ranked policy regime) as [active shortlist] eqn:Es. apply select_selected in Es; [|done..]. cbn beta iota.
  assert (Hadm : Forall (admitted policy (by_symbol metadata) tickers) ranked) by (eapply Forall_impl; [exact Hacc | by intros c [_ ?]]).
  assert (Hact : Forall (admitted policy (by_symbol metadata) tickers) active) by (eapply admitted_unmarked; [apply (sl_active _ _ _ _ _ Es) | exact Hadm]).
  rewrite Forall_forall in Hkept, Hm.
  assert (Hr : forall r, r ∈ ranked -> exists a, a ∈ members /\ UC_RejectionReason a = "" /\ UC_Symbol r = UC_Symbol a /\ UC_RejectionReason r = "").
  { intros r Hr. destruct (Hfrom r Hr) as (a & H1 & H2 & H3). destruct (Hkept a H1) as [H4 H5]. exists a. split_and!; [done..|]. by rewrite H3. }
  eexists. split; [reflexivity|]. split; cbn [UR_RegimeState UR_ActiveUniverse UR_Shortlist UR_Members].
  - by exists ranked.
  - split; [exact Hact|]. eapply admitted_unmarked; [apply (sl_shortlist _ _ _ _ _ Es) | exact Hact].
  - unfold ranked_members. rewrite len_fmap. subst pool. unfold len. lia.
  - apply Forall_forall. intros d [Hd|Hd]%ranked_members_elem; [|by apply Hm]. rewrite Forall_forall in Hacc. by apply Hacc.
  - apply Forall_forall. intros c Hc. destruct (unmarked_from ranked active shortlist c) as (r & Hin & Hs); [apply (sl_active _ _ _ _ _ Es) | apply (sl_shortlist _ _ _ _ _ Es) | exact Hc|].
    destruct (Hr r Hin) as (a & H1 & H2 & H3 & H4). destruct (ranked_members_kept ranked members a) as (d & G1 & G2 & G3); [done..| |exists d; split_and!; congruence || done].
    apply Forall_forall. intros x Hx. by destruct (Hr x Hx) as (? & ? & ? & ? & ?).
Qed.
Lemma statement_effect name f db : match statement Answer name f db with (Ok _, db') => db' = f db | (Err _, db') => db' = db | (Panic _, _) => False end.
Proof. unfold statement. destruct (Answer name db) as [|e|w] eqn:E; [done..|by apply (an_answer answers) in E]. Qed.
Definition same_snapshots (db db' : UniverseDB) : Prop := ud_snapshots db' = ud_snapshots db /\ ud_members db' = ud_members db.
Lemma upserts_effect rows db : match sfoldM (fun (_ : unit) row => UpsertSymbol Answer row) tt rows db with (Panic _, _) => False | (_, db') => same_snapshots db db' end.
Proof.
  revert db. induction rows as [|row rows IH]; intros db; cbn [sfoldM]; [done|]. unfold sbind, UpsertSymbol. pose proof (statement_effect "upsert symbol" (fun d => mkUniverseDB (<[US_Symbol row := row]> (ud_symbols d)) (ud_snapshots d) (ud_members d)) db) as H.
  destruct (statement _ _ _ _) as [[[]|e|w] db1]; [|by subst|done]. subst db1. specialize (IH (mkUniverseDB (<[US_Symbol row := row]> (ud_symbols db)) (ud_snapshots db) (ud_members db))).
  destruct (sfoldM _ _ _ _) as [[| |] db2]; done.
Qed.
Lemma refresh_effect now db : match RefreshUniverseMetadata FetchExchangeInfo Answer now db with
  | (Ok metadata, db') => same_snapshots db db' /\ exists infos existing, FetchExchangeInfo = Ok infos /\ metadata = metadata_rows existing now infos
  | (Err _, db') => same_snapshots db db' | (Panic _, _) => False end.
Proof.
  unfold RefreshUniverseMetadata, sbind, slift. destruct FetchExchangeInfo as [infos|e|w] eqn:Ei; cbn [failed_with]; [|done|by apply (an_info answers) in Ei].
  unfold FindSymbols. destruct (Answer "find symbols" db) as [[]|e|w] eqn:Ea; [| |by apply (an_answer answers) in Ea].
  all: cbn beta iota; match goal with |- context [metadata_rows ?ex ?t ?l] => pose proof (upserts_effect (metadata_rows ex t l) db) as H; remember (metadata_rows ex t l) as rows eqn:Hrows end;
    destruct (sfoldM _ _ rows _) as [[[]|e2|w2] db1]; [|done|done]; cbn; split; [exact H|]; by eexists _, _.
Qed.
Lemma member_rows result id l : exists rows, mapM (member_row MarshalComponents result id) l = Ok rows /\ Forall2 (fun c m => member_row MarshalComponents result id c = Ok m) l rows.
Proof.
  induction l as [|c l (rows & H1 & H2)]; [by exists []|]. assert (exists m, member_row MarshalComponents result id c = Ok m) as [m Hm].
  { unfold member_row, components_json. destruct (_ =? 0)%nat; [by eexists|]. destruct (MarshalComponents _) as [j|e|w] eqn:E; [by eexists..|by apply (an_marshal answers) in E]. }
  exists (m :: rows). cbn [mapM]. rewrite Hm, H1. cbn. split; [done | by constructor].
Qed.
Lemma next_snapshot_fresh db : Forall (fun r => SN_ID r < next_snapshot db) (ud_snapshots db).
Proof.
  apply Forall_forall. intros r Hr. unfold next_snapshot. assert (H : forall l m, (r ∈ l -> SN_ID r <= foldl (fun m x => Z.max m (SN_ID x)) m l) /\ m <= foldl (fun m x => Z.max m (SN_ID x)) m l).
  { clear. induction l as [|x l IH]; intros m; cbn; [split; [by intros ?%elem_of_nil | lia]|]. destruct (IH (Z.max m (SN_ID x))) as [H1 H2]. split; [|lia]. intros [->|Hin]%elem_of_cons; [lia | by apply H1]. }
  destruct (H (ud_snapshots db) 0) as [H1 _]. specialize (H1 Hr). lia.
Qed.
Lemma persist_effect result db : match persistUniverseSnapshot Answer MarshalComponents result db with
  | (Ok result', db') => stored MarshalComponents result' db db' /\ result' = stored_as result (UR_SnapshotID result')
  | (Err _, db') => ud_members db' = ud_members db | (Panic _, _) => False end.
Proof.
  unfold persistUniverseSnapshot, sbind, CreateSnapshot. set (id := next_snapshot db). set (f := fun d => mkUniverseDB (ud_symbols d) (ud_snapshots d ++ [snapshot_row result id]) (ud_members d)).
  pose proof (statement_effect "create snapshot" f db) as H. destruct (statement _ _ f db) as [[[]|e|w] db1]; cbn [rbind]; [|by subst|done]. subst db1.
  unfold slift. destruct (member_rows result id (UR_Members result)) as (rows & -> & Hrows). cbn beta iota.
  assert (Hst : forall db', ud_snapshots db' = ud_snapshots db ++ [snapshot_row result id] -> ud_members db' = ud_members db ++ rows -> stored MarshalComponents (stored_as result id) db db').
  { intros db' H1 H2. split; [done | apply next_snapshot_fresh | by exists rows]. }
  destruct (Z.eqb_spec (len rows) 0) as [Hz|Hz].
  - cbn. split; [|done]. apply Hst; [done|]. destruct rows; [by rewrite app_nil_r | done].
  - set (g := fun d => mkUniverseDB (ud_symbols d) (ud_snapshots d) (ud_members d ++ rows)). unfold CreateMembers. pose proof (statement_effect "create members" g (f db)) as H2. fold g.
    destruct (statement _ _ g (f db)) as [[[]|e|w] db2]; [|by subst|done]. subst db2. cbn. split; [|done]. by apply Hst.
Qed.
End Snapshots.

(** ** A market of three symbols *)
Section Market.
Definition market_policy : UniversePolicy := mkUniversePolicy UniverseModeDynamic HourNs "1h" 2 (f_of_Z 100) (f_of_Z 10) (f_dec 5 100) fzero (f_of_Z 1) (f_of_Z 25) 20 8.
Definition market_infos : list ExchangeSymbolInfo :=
  [mkSymbolInfo "BTCUSDT" "TRADING" "BTC" "USDT" true []; mkSymbolInfo "ETHUSDT" "BREAK" "ETH" "USDT" true []; mkSymbolInfo "JUPUSDT" "TRADING" "JUP" "USDT" false ["SPOT"]].
Definition market_time : Time := 1750000000 * SecondNs.
Definition market_tickers : list TickerPrice := [mkTicker "btcusdt" "50000" "1.5" "900000"; mkTicker "ETHUSDT" "2500" "2" "800000"; mkTicker "JUPUSDT" "1" "3" "700000"].
Definition market_bars : list OHLCV := (fun i => mkOHLCV (i * 3600000) (f_of_Z (50 + i)) (f_of_Z (51 + i)) (f_of_Z (49 + i)) (f_of_Z (50 + i)) (f_of_Z 100) (i * 3600000 + 3599999)) <$> seqZ 0 5.
Definition market_fetch (symbol interval : string) (limit : Z) : res (list OHLCV) := if symbol =s "BTCUSDT" then Ok market_bars else Err (Errorf "no klines" []).
Definition market_db : UniverseDB := mkUniverseDB ∅ [] [].
Definition market_run : res UniverseSelectionResult * UniverseDB :=
  BuildUniverseSnapshot id map_to_list market_fetch (Ok market_infos) (Ok market_tickers) (fun _ _ => Ok tt) (fun _ => Ok "{}") market_policy (fun _ => market_time) market_db.
(** Only the listed, spot-traded symbol is selected, and it is stored. *)
Example market_selects : ((let* r := market_run.1 in Ok (UC_Symbol <$> UR_Shortlist r, UR_RegimeState r)), (fun m => (UC_Symbol (UM_Figures m), UM_Stage m, UM_Shortlisted m)) <$> ud_members market_run.2)
  = (Ok (["BTCUSDT"], UniverseRegimeNeutral), [("BTCUSDT", "shortlist", false)]).
Proof. vm_compute. reflexivity. Qed.
(** A snapshot whose members cannot be stored stays behind without them. *)
Theorem orphan_snapshot : exists Answer, let '(r, db) := BuildUniverseSnapshot id map_to_list market_fetch (Ok market_infos) (Ok market_tickers) Answer (fun _ => Ok "{}") market_policy (fun _ => market_time) market_db in
  r = Err (Errorf "connection lost" []) /\ length (ud_snapshots db) = 1%nat /\ ud_members db = [].
Proof. exists (fun name _ => if name =s "create members" then Err (Errorf "connection lost" []) else Ok tt). vm_compute. by split_and!. Qed.
(** A failed look-up of the known symbols is not noticed: every symbol is
    stored as if it were seen for the first time. *)
Theorem unread_symbols_forgotten now infos (Answer : string -> UniverseDB -> res unit) db e : Answer "find symbols" db = Err e -> (forall name d, name <> "find symbols" -> Answer name d = Ok tt) ->
  exists rows db', RefreshUniverseMetadata (Ok infos) Answer now db = (Ok rows, db') /\ Forall (fun row => US_FirstSeenAt row = now) rows.
Proof.
  intros Hf Hok. unfold RefreshUniverseMetadata, sbind, slift, FindSymbols. cbn [failed_with]. rewrite Hf. set (rows := metadata_rows [] now infos).
  assert (H : forall l d, exists d', sfoldM (fun (_ : unit) row => UpsertSymbol Answer row) tt l d = (Ok tt, d')).
  { induction l as [|row l IH]; intros d; cbn [sfoldM]; [by exists d|]. unfold sbind, UpsertSymbol, statement. rewrite Hok by done. apply IH. }
  destruct (H rows db) as [db' ->]. exists rows, db'. split; [done|]. subst rows. unfold metadata_rows. apply Forall_fmap, Forall_forall. intros info _. unfold metadata_row. cbn. by rewrite lookup_empty.
Qed.
(** The suffix test that rejects leveraged tokens rejects a listed asset whose
    name ends the same way. *)
Theorem plain_asset_excluded : universeMetadataExclusionReason (mkSymbolInfo "JUPUSDT" "TRADING" "JUP" "USDT" true []) = "leveraged_token".
Proof. reflexivity. Qed.
End Market.
