(* ===== verification/Replay.v ===== *)
(** * Replay: the stored universe as a backtest sees it

    The dynamic replay of [internal/backtest/engine.go], with
    [replay_membership.go]: the snapshots a replay loads, the one in force at a
    time, and the members of it that may be traded. *)
From Stdlib Require Import Ascii SpecFloat.
From stdpp Require Import base numbers strings gmap list.
From S2P Require Import Prelude GoStrings GoFloat GoTime Snapshots Splits FoldMetrics Universe.
Local Open Scope Z_scope.

Record replaySnapshotEntry : Type := mkReplayEntry {
  RE_Timestamp : Time; RE_RegimeState : string; RE_BreadthRatio : float64; RE_Members : list UniverseMember; RE_ObservedComplete : bool }.
Record backtestUniverseSelection : Type := mkBacktestSelection {
  BS_MembershipError : string; BS_RegimeState : string; BS_BreadthRatio : float64; BS_ActiveUniverse : list UniverseCandidateMetrics;
  BS_Shortlist : list UniverseCandidateMetrics }.
Definition no_selection : backtestUniverseSelection := mkBacktestSelection "" "" fzero [] [].

(** ** Membership *)
Definition replayMemberEligible (stage : string) (shortlisted rejected includeShortlist : bool) : res bool :=
  let name := ToLower (TrimSpace stage) in
  if name =s "active" then Ok (negb rejected) else
  if name =s "shortlist" then Ok (includeShortlist && shortlisted && negb rejected) else
  if (name =s "ranked") || (name =s "rejected") then Ok false else Err (Errorf "unknown persisted universe stage %q" [stage]).
Definition member_rejected (m : UniverseMember) : bool := match UM_RejectionReason m with Some _ => true | None => false end.
Definition member_eligible (m : UniverseMember) : res bool := replayMemberEligible (UM_Stage m) (UM_Shortlisted m) (member_rejected m) true.
(** The columns of a member that its candidate gets back. *)
Definition replay_candidate (m : UniverseMember) : UniverseCandidateMetrics :=
  let c := UM_Figures m in
  mkCandidate (UC_Symbol c) "" "" (UC_LastPrice c) (UC_Change24h c) (UC_QuoteVolume24h c) (UC_ListingAgeDays c) (UC_MedianDailyQuoteVolume c)
    (UC_MedianIntradayQuoteVolume c) (UC_GapRatio c) (UC_VolatilityRatio c) (UC_Return1D c) (UC_Return3D c) (UC_Return7D c) (UC_Return30D c)
    (UC_RelativeStrength c) (UC_TrendQuality c) (UC_BreakoutProximity c) (UC_VolumeAcceleration c) (UC_OverextensionPenalty c) (UC_RankScore c) ∅ (UM_Shortlisted m) "".
Definition member_less (a b : UniverseMember) : bool :=
  let x := UM_Figures a in
  let y := UM_Figures b in
  if feq (UC_RankScore x) (UC_RankScore y) then String.ltb (UC_Symbol x) (UC_Symbol y) else flt (UC_RankScore y) (UC_RankScore x).

(** ** Loading

    The rows of the tables that a query names, in its order; rows that tie keep
    the order of the table. *)
Section Load.
Context (Answer : string -> UniverseDB -> res unit).
Definition of_manifest (manifestID : string) (row : UniverseSnapshotRow) : bool :=
  (manifestID =s "") || (bool_decide (SN_DatasetManifestID row = Some manifestID) && (SN_CoverageState row =s "complete")).
Definition members_of (db : UniverseDB) (row : UniverseSnapshotRow) : list UniverseMember :=
  SliceStable member_less (List.filter (fun m => UM_UniverseSnapshotID m =? SN_ID row) (ud_members db)).
Definition replay_entry (db : UniverseDB) (row : UniverseSnapshotRow) : replaySnapshotEntry :=
  mkReplayEntry (SN_SnapshotTime row) (SN_RegimeState row) (SN_BreadthRatio row) (members_of db row) (SN_CoverageState row =s "complete").
(** The last snapshot at or before the start. *)
Definition effective_snapshot (start : Time) (manifestID : string) (db : UniverseDB) : res (list UniverseSnapshotRow) :=
  if IsZero start then Ok [] else
  let* _ := Answer "effective snapshot" db in
  Ok (match head (SliceStable (fun a b => Before (SN_SnapshotTime b) (SN_SnapshotTime a))
        (List.filter (fun row => negb (After (SN_SnapshotTime row) start) && of_manifest manifestID row) (ud_snapshots db))) with
      | Some row => [row] | None => [] end).
Definition in_range (start end_ : Time) (manifestID : string) (row : UniverseSnapshotRow) : bool :=
  of_manifest manifestID row && (IsZero start || After (SN_SnapshotTime row) start) && (IsZero end_ || negb (After (SN_SnapshotTime row) end_)).
Definition loadReplaySnapshotsForManifest (start end_ : Time) (manifestID : string) (db : UniverseDB) : res (list replaySnapshotEntry) :=
  let* effective := effective_snapshot start manifestID db in
  let* _ := Answer "snapshots in range" db in
  let inRange := SliceStable (fun a b => Before (SN_SnapshotTime a) (SN_SnapshotTime b)) (List.filter (in_range start end_ manifestID) (ud_snapshots db)) in
  Ok (replay_entry db <$> effective ++ inRange).
Definition loadReplaySnapshots (start end_ : Time) : UniverseDB -> res (list replaySnapshotEntry) := loadReplaySnapshotsForManifest start end_ "".
End Load.

(** ** The snapshot in force *)
Definition eligible_step (candidates : list UniverseCandidateMetrics) (m : UniverseMember) : res (list UniverseCandidateMetrics) :=
  let* eligible := member_eligible m in
  Ok (if eligible : bool then candidates ++ [replay_candidate m] else candidates).
Section Resolve.
(** The printed error. *)
Context (ErrorText : error -> string).
Definition selection_of (snap : replaySnapshotEntry) : res backtestUniverseSelection :=
  match foldM eligible_step [] (SliceStable member_less (RE_Members snap)) with
  | Ok candidates => Ok (mkBacktestSelection "" (RE_RegimeState snap) (RE_BreadthRatio snap) candidates (List.filter UC_Shortlisted candidates))
  | Err e => Ok (mkBacktestSelection (ErrorText e) "" fzero [] [])
  | Panic w => Panic w
  end.
Definition after_at (snapshots : list replaySnapshotEntry) (currentTime : Time) (i : nat) : bool :=
  match snapshots !! i with Some e => After (RE_Timestamp e) currentTime | None => false end.
Definition resolveReplayUniverse (snapshots : list replaySnapshotEntry) (currentTime : Time) : res backtestUniverseSelection :=
  if len snapshots =? 0 then Ok no_selection else
  let idx := Search (length snapshots) (after_at snapshots currentTime) in
  if (idx =? 0)%nat then
    if after_at snapshots currentTime 0 then Ok no_selection else let* snap := index snapshots 0 in selection_of snap
  else let* snap := index snapshots (Z.of_nat idx - 1) in selection_of snap.
End Resolve.
