(* ===== verification/ReplayProofs.v ===== *)
(** * ReplayProofs: a replay sees the universe as it was *)
From Stdlib Require Import Ascii SpecFloat.
From stdpp Require Import base numbers strings gmap list.
From S2P Require Import Prelude GoStrings GoFloat GoTime Snapshots Splits FoldMetrics Exits Indicators IndicatorProofs Universe UniverseProofs Replay.
Local Open Scope Z_scope.

(** ** Stable sorting and filtering *)
Section Filter.
Context {A : Type} (less : A -> A -> bool) `{!StrictWeak less} (p : A -> bool).
Lemma filter_sinsert x l : ordered less l -> List.filter p (sinsert less x l) = if p x then sinsert less x (List.filter p l) else List.filter p l.
Proof.
  induction l as [|y l IH]; [intros _; cbn; by destruct (p x)|]. rewrite (ordered_cons less weak_trans). intros [Ho Hy]. cbn [sinsert].
  destruct (less y x) eqn:E; cbn [List.filter].
  - rewrite (IH Ho). destruct (p y) eqn:Py, (p x) eqn:Px; cbn [sinsert]; [by rewrite E | done | done | done].
  - destruct (p x) eqn:Px; [|done]. assert (Hall : Forall (fun z => less z x = false) (y :: l)).
    { constructor; [exact E|]. eapply Forall_impl; [exact Hy|]. cbn. intros z Hz. by eapply weak_trans. }
    change (if p y then y :: List.filter p l else List.filter p l) with (List.filter p (y :: l)).
    assert (Hf : Forall (fun z => less z x = false) (List.filter p (y :: l))).
    { apply Forall_forall. intros z Hz. apply list_elem_of_In, List.filter_In in Hz as [Hz%list_elem_of_In _]. rewrite Forall_forall in Hall. by apply Hall. }
    destruct (List.filter p (y :: l)) as [|z rest]; [done|]. cbn [sinsert]. by rewrite (Forall_inv Hf).
Qed.
Lemma filter_sorted l : List.filter p (SliceStable less l) = SliceStable less (List.filter p l).
Proof.
  induction l as [|x l IH]; [done|]. cbn [SliceStable]. rewrite filter_sinsert by (apply sort_ordered, _). rewrite IH. cbn [List.filter]. by destruct (p x).
Qed.
End Filter.
#[export] Instance earlier_weak {A} (f : A -> Time) : StrictWeak (fun a b => Before (f a) (f b)).
Proof. unfold Before. split; intros x y; [|intros z]; rewrite ?Z.ltb_lt, ?Z.ltb_ge; lia. Qed.

(** ** The snapshot in force *)
Section InForce.
Context (ErrorText : error -> string).
Definition by_now (t : Time) (e : replaySnapshotEntry) : bool := negb (After (RE_Timestamp e) t).
Definition in_time (l : list replaySnapshotEntry) : Prop := forall i j a b, (i <= j)%nat -> l !! i = Some a -> l !! j = Some b -> RE_Timestamp a <= RE_Timestamp b.
Lemma by_now_prefix l t k : (forall i e, l !! i = Some e -> by_now t e = true <-> (i < k)%nat) -> List.filter (by_now t) l = take k l.
Proof.
  revert k. induction l as [|e l IH]; intros k H; [by rewrite take_nil|]. cbn [List.filter]. pose proof (H 0%nat e eq_refl) as H0. destruct k as [|k].
  - destruct (by_now t e); [destruct (proj1 H0 eq_refl) as []; lia|]. rewrite (IH 0%nat); [by rewrite take_0|]. intros i x Hx. rewrite (H (S i) x Hx). lia.
  - cbn [take]. rewrite (proj2 H0) by lia. f_equal. apply IH. intros i x Hx. rewrite (H (S i) x Hx). lia.
Qed.
Definition in_force (l : list replaySnapshotEntry) (t : Time) : res backtestUniverseSelection :=
  match last (List.filter (by_now t) l) with None => Ok no_selection | Some e => selection_of ErrorText e end.
Lemma resolve_in_force l t : in_time l -> resolveReplayUniverse ErrorText l t = in_force l t.
Proof.
  intros Hl. unfold resolveReplayUniverse, in_force. destruct (Z.eqb_spec (len l) 0) as [H|H]; [destruct l; done|].
  assert (Hmono : forall i j, (i <= j < length l)%nat -> after_at l t i = true -> after_at l t j = true).
  { intros i j Hij. unfold after_at. destruct (lookup_lt_is_Some_2 l i) as [a Ha]; [lia|]. destruct (lookup_lt_is_Some_2 l j) as [b Hb]; [lia|].
    rewrite Ha, Hb. pose proof (Hl i j a b ltac:(lia) Ha Hb). unfold After. rewrite !Z.ltb_lt. lia. }
  destruct (Search_spec (after_at l t) (length l) Hmono) as (Hle & Hlo & Hhi). set (idx := Search (length l) (after_at l t)) in *.
  rewrite (by_now_prefix l t idx).
  2:{ intros i e He. pose proof (lookup_lt_Some _ _ _ He). unfold by_now. specialize (Hlo i). specialize (Hhi i). unfold after_at in Hlo, Hhi. rewrite He in Hlo, Hhi.
      destruct (After (RE_Timestamp e) t); cbn; split; intros; try done; [by specialize (Hlo ltac:(lia)) | destruct (decide (i < idx)%nat); [done|]; by specialize (Hhi ltac:(lia))]. }
  destruct (Nat.eqb_spec idx 0) as [Hz|Hz].
  - rewrite Hz, take_0. cbn. rewrite Hhi; [done|]. unfold len in H. lia.
  - destruct (index_in l (Z.of_nat idx - 1)) as (e & -> & He); [unfold len; lia|]. cbn [rbind]. rewrite last_lookup, length_take, lookup_take_lt by lia.
    replace (pred (idx `min` length l)) with (Z.to_nat (Z.of_nat idx - 1)) by lia. by rewrite He.
Qed.
End InForce.

(** ** Loading *)
Section Loaded.
Context (Answer : string -> UniverseDB -> res unit) (start end_ : Time) (manifestID : string).
Lemma effective_early db rows : effective_snapshot Answer start manifestID db = Ok rows -> (length rows <= 1)%nat /\ (IsZero start = true -> rows = []) /\ Forall (fun r => SN_SnapshotTime r <= start) rows.
Proof.
  unfold effective_snapshot. destruct (IsZero start) eqn:Ez; [intros [= <-]; by split_and!; [cbn; lia | | constructor]|].
  destruct (Answer _ db) as [[]| |]; cbn [rbind]; [|done..]. destruct (head _) as [r|] eqn:Eh; intros [= <-]; [|by split_and!; [cbn; lia | | constructor]].
  split_and!; [cbn; lia | done|]. apply Forall_singleton. destruct (SliceStable _ _) as [|x rest] eqn:Es; [done|]. injection Eh as ->.
  assert (Hin : r ∈ SliceStable (fun a b => Before (SN_SnapshotTime b) (SN_SnapshotTime a)) (List.filter (fun row => negb (After (SN_SnapshotTime row) start) && of_manifest manifestID row) (ud_snapshots db))) by (rewrite Es; left).
  rewrite SliceStable_elem in Hin. apply list_elem_of_In, List.filter_In in Hin as [_ Hin]. unfold After in Hin. bool_prop. lia.
Qed.
Lemma sorted_times (l : list UniverseSnapshotRow) : ordered (fun a b => Before (SN_SnapshotTime a) (SN_SnapshotTime b)) l ->
  forall i j a b, (i <= j)%nat -> l !! i = Some a -> l !! j = Some b -> SN_SnapshotTime a <= SN_SnapshotTime b.
Proof.
  induction l as [|x l IH]; [done|]. rewrite (ordered_cons _ weak_trans). intros [Ho Hx] [|i] [|j] a b Hij Ha Hb; cbn in Ha, Hb.
  - by simplify_eq.
  - simplify_eq. rewrite Forall_forall in Hx. specialize (Hx b ltac:(by eapply list_elem_of_lookup_2)). unfold Before in Hx. apply Z.ltb_ge in Hx. lia.
  - lia.
  - eapply IH; [done | | done..]. lia.
Qed.
Lemma loaded_in_time db entries : loadReplaySnapshotsForManifest Answer start end_ manifestID db = Ok entries -> in_time entries.
Proof.
  unfold loadReplaySnapshotsForManifest. destruct (effective_snapshot Answer start manifestID db) as [eff| |] eqn:Ee; cbn [rbind]; [|done..].
  destruct (Answer _ db) as [[]| |]; cbn [rbind]; [|done..]. destruct (effective_early db eff Ee) as (Hl & Hz & Hs). set (rest := SliceStable _ _). intros [= <-].
  assert (Hr : Forall (fun r => in_range start end_ manifestID r = true) rest).
  { subst rest. apply SliceStable_Forall, Forall_forall. intros r Hr. by apply list_elem_of_In, List.filter_In in Hr as [_ Hr]. }
  assert (Ho : ordered (fun a b => Before (SN_SnapshotTime a) (SN_SnapshotTime b)) rest) by (subst rest; apply sort_ordered, _).
  clearbody rest. intros i j a b Hij Ha Hb. rewrite list_lookup_fmap in Ha, Hb. apply fmap_Some in Ha as (x & Hx & ->), Hb as (y & Hy & ->). cbn.
  destruct eff as [|e [|? ?]]; [|clear Hl|cbn in Hl; lia].
  - by eapply (sorted_times rest).
  - destruct i as [|i], j as [|j]; cbn in Hx, Hy; simplify_eq; try lia.
    + rewrite Forall_forall in Hr. specialize (Hr y ltac:(by eapply list_elem_of_lookup_2)). apply Forall_inv in Hs. unfold in_range, After in Hr.
      apply andb_prop in Hr as [[_ [Hr|Hr]%orb_prop]%andb_prop _]; [by specialize (Hz Hr)|]. apply Z.ltb_lt in Hr. lia.
    + eapply (sorted_times rest); [done | | done..]. lia.
Qed.
End Loaded.

(** ** What is recorded later *)
Record recorded_later (t : Time) (db db' : UniverseDB) : Prop := {
  rl_snapshots : exists rows, ud_snapshots db' = ud_snapshots db ++ rows /\ Forall (fun r => t < SN_SnapshotTime r) rows;
  rl_members : exists more, ud_members db' = ud_members db ++ more /\ Forall (fun m => Forall (fun r => SN_ID r <> UM_UniverseSnapshotID m) (ud_snapshots db)) more }.
(** A snapshot that is built after a time is recorded later. *)
Lemma stored_later MarshalComponents result db db' t : stored MarshalComponents result db db' -> t < UR_Timestamp result -> recorded_later t db db'.
Proof.
  intros [H1 H2 (rows & H3 & H4)] Ht. split; [exists [snapshot_row result (UR_SnapshotID result)]; split; [done|]; by repeat constructor|].
  exists rows. split; [done|]. apply Forall_forall. intros m Hm. eapply Forall_impl; [exact H2|]. cbn. intros r Hr.
  apply list_elem_of_lookup in Hm as (i & Hi). destruct (Forall2_lookup_r _ _ _ _ _ H4 Hi) as (c & _ & Hc). unfold member_row in Hc.
  destruct (components_json MarshalComponents c); cbn in Hc; [|done..]. injection Hc as <-. cbn. lia.
Qed.
Section Later.
Context (Answer : string -> UniverseDB -> res unit) (start end_ t : Time) (manifestID : string) (db db' : UniverseDB).
Hypothesis later : recorded_later t db db'.
Hypothesis started : start <= t.
Lemma entry_same row : row ∈ ud_snapshots db -> replay_entry db' row = replay_entry db row.
Proof.
  intros Hr. unfold replay_entry, members_of. destruct (rl_members t db db' later) as (more & -> & Hm). rewrite List.filter_app, (filter_none _ more), app_nil_r; [done|].
  eapply Forall_impl; [exact Hm|]. cbn. intros m H. rewrite Forall_forall in H. specialize (H row Hr). apply Z.eqb_neq. congruence.
Qed.
Lemma effective_same rows rows' : effective_snapshot Answer start manifestID db = Ok rows -> effective_snapshot Answer start manifestID db' = Ok rows' -> rows = rows'.
Proof.
  unfold effective_snapshot. destruct (IsZero start); [congruence|]. destruct (Answer _ db) as [[]| |], (Answer _ db') as [[]| |]; cbn [rbind]; try done.
  destruct (rl_snapshots t db db' later) as (more & -> & Hm). rewrite List.filter_app, (filter_none _ more), app_nil_r; [congruence|].
  eapply Forall_impl; [exact Hm|]. cbn. intros r Hr. unfold After. rewrite (proj2 (Z.ltb_lt _ _)) by lia. done.
Qed.
Definition row_by_now (r : UniverseSnapshotRow) : bool := negb (After (SN_SnapshotTime r) t).
Lemma filter_entries d (l : list UniverseSnapshotRow) : List.filter (by_now t) (replay_entry d <$> l) = replay_entry d <$> List.filter row_by_now l.
Proof. induction l as [|r l IH]; cbn; [done|]. unfold by_now, row_by_now in *. cbn. rewrite IH. by destruct (negb _). Qed.
Lemma filter_twice {A} (p q : A -> bool) l : List.filter p (List.filter q l) = List.filter q (List.filter p l).
Proof. induction l as [|x l IH]; cbn; [done|]. destruct (q x) eqn:Eq, (p x) eqn:Ep; cbn; rewrite ?Eq, ?Ep, IH; done. Qed.
Lemma loaded_same entries entries' : loadReplaySnapshotsForManifest Answer start end_ manifestID db = Ok entries -> loadReplaySnapshotsForManifest Answer start end_ manifestID db' = Ok entries' ->
  List.filter (by_now t) entries = List.filter (by_now t) entries'.
Proof.
  unfold loadReplaySnapshotsForManifest. destruct (effective_snapshot Answer start manifestID db) as [eff| |] eqn:Ee, (effective_snapshot Answer start manifestID db') as [eff'| |] eqn:Ee'; cbn [rbind]; try done.
  destruct (Answer _ db) as [[]| |], (Answer _ db') as [[]| |]; cbn [rbind]; try done. intros [= <-] [= <-]. rewrite <- (effective_same eff eff' Ee Ee'), !filter_entries.
  assert (Hin : Forall (fun r => r ∈ ud_snapshots db) eff).
  { unfold effective_snapshot in Ee. destruct (IsZero start); [by injection Ee as <-|]. destruct (Answer _ db) as [[]| |]; cbn [rbind] in Ee; [|done..]. destruct (head _) as [r|] eqn:Eh; injection Ee as <-; [|done].
    apply Forall_singleton. destruct (SliceStable _ _) as [|x rest] eqn:Es; [done|]. injection Eh as ->.
    assert (Hr : r ∈ SliceStable (fun a b => Before (SN_SnapshotTime b) (SN_SnapshotTime a)) (List.filter (fun row => negb (After (SN_SnapshotTime row) start) && of_manifest manifestID row) (ud_snapshots db))) by (rewrite Es; left).
    rewrite SliceStable_elem in Hr. by apply list_elem_of_In, List.filter_In in Hr as [Hr%list_elem_of_In _]. }
  rewrite !List.filter_app, !fmap_app. f_equal.
  - apply list_fmap_ext. intros i r Hr. symmetry. apply entry_same. apply list_elem_of_lookup_2, list_elem_of_In, List.filter_In in Hr as [Hr%list_elem_of_In _]. rewrite Forall_forall in Hin. by apply Hin.
  - rewrite !filter_sorted by apply _. rewrite !(filter_twice row_by_now). destruct (rl_snapshots t db db' later) as (more & -> & Hm).
    rewrite (List.filter_app row_by_now), (filter_none row_by_now more), app_nil_r.
    + apply list_fmap_ext. intros i r Hr. symmetry. apply entry_same. apply list_elem_of_lookup_2 in Hr. rewrite SliceStable_elem in Hr.
      apply list_elem_of_In, List.filter_In in Hr as [Hr _]. by apply List.filter_In in Hr as [Hr%list_elem_of_In _].
    + eapply Forall_impl; [exact Hm|]. cbn. intros r Hr. unfold row_by_now, After. by rewrite (proj2 (Z.ltb_lt _ _)) by lia.
Qed.
End Later.
(** C39. A replay has no foresight: whatever snapshots are recorded for times
    after [t], a backtest that replays the stored universe sees at [t] the same
    selection, which is that of the last snapshot it loaded that is not after
    [t], or none. *)
Theorem resolveReplayUniverse_no_lookahead Answer ErrorText start end_ manifestID t db db' entries entries' : recorded_later t db db' -> start <= t ->
  loadReplaySnapshotsForManifest Answer start end_ manifestID db = Ok entries -> loadReplaySnapshotsForManifest Answer start end_ manifestID db' = Ok entries' ->
  resolveReplayUniverse ErrorText entries' t = resolveReplayUniverse ErrorText entries t /\ resolveReplayUniverse ErrorText entries t = in_force ErrorText entries t.
Proof.
  intros Hl Hs H1 H2. rewrite !resolve_in_force by (by eapply loaded_in_time). split; [|done]. unfold in_force. by rewrite (loaded_same Answer start end_ t manifestID db db' Hl Hs entries entries' H1 H2).
Qed.

(** ** What a replay makes of a live snapshot *)
Lemma eligible_from l cs cs' : foldM eligible_step cs l = Ok cs' -> forall a, a ∈ cs' -> a ∈ cs \/ exists m, m ∈ l /\ member_eligible m = Ok true /\ a = replay_candidate m.
Proof.
  revert cs. induction l as [|m l IH]; intros cs; cbn [foldM]; [intros [= <-]; by left|]. unfold eligible_step at 1. destruct (member_eligible m) as [b| |] eqn:Em; cbn [rbind]; [|done..].
  intros H a Ha. destruct (IH _ H a Ha) as [Hin|(x & Hx & H1 & H2)]; [|right; exists x; split_and!; [by right | done..]]. destruct b; [|by left].
  apply elem_of_app in Hin as [Hin| ->%list_elem_of_singleton]; [by left|]. right. exists m. split_and!; [by left | done..].
Qed.
Lemma selection_from ErrorText snap sel a : selection_of ErrorText snap = Ok sel -> a ∈ BS_ActiveUniverse sel -> exists m, m ∈ RE_Members snap /\ member_eligible m = Ok true /\ a = replay_candidate m.
Proof.
  unfold selection_of. destruct (foldM _ _ _) as [cs| |] eqn:E; [|intros [= <-]; cbn; by intros ?%elem_of_nil|done]. intros [= <-] Ha. cbn in Ha.
  destruct (eligible_from _ _ _ E a Ha) as [?%elem_of_nil|(m & Hm & H)]; [done|]. exists m. split; [by rewrite SliceStable_elem in Hm | done].
Qed.
Lemma stage_shortlisted result c d : c ∈ UR_Shortlist result -> UC_Symbol d = UC_Symbol c -> member_stage result d = if UC_RejectionReason d =s "" then "shortlist" else "rejected".
Proof.
  intros Hc Hs. unfold member_stage. destruct (UC_RejectionReason d =s ""); [|done]. cbn [negb].
  rewrite (proj2 (List.existsb_exists _ _)); [done|]. exists c. split; [by apply list_elem_of_In|]. apply String.eqb_eq. congruence.
Qed.
(** The members of a live snapshot are stored before the shortlist is marked,
    and a replay trades a shortlisted member only when it is marked: it drops
    exactly the candidates that the live system would trade. *)
Theorem replay_drops_live_shortlist MarshalComponents ErrorText policy metadata tickers result db db' sel : stored MarshalComponents result db db' -> chosen policy metadata tickers result ->
  Forall (fun m => exists r, r ∈ ud_snapshots db /\ SN_ID r = UM_UniverseSnapshotID m) (ud_members db) ->
  selection_of ErrorText (replay_entry db' (snapshot_row result (UR_SnapshotID result))) = Ok sel ->
  forall c a, c ∈ UR_Shortlist result -> a ∈ BS_ActiveUniverse sel -> UC_Symbol a <> UC_Symbol c.
Proof.
  intros [_ Hfresh (rows & Hrows & Hm)] Hch Hold Hsel c a Hc Ha Heq. destruct (selection_from _ _ _ _ Hsel Ha) as (m & Hin & He & ->). cbn in Hin, Heq.
  unfold members_of in Hin. rewrite SliceStable_elem, Hrows in Hin. apply list_elem_of_In, List.filter_In in Hin as [Hin%list_elem_of_In Hid]. cbn in Hid. apply Z.eqb_eq in Hid.
  apply elem_of_app in Hin as [Hin|Hin].
  - rewrite Forall_forall in Hold. rewrite Forall_forall in Hfresh. destruct (Hold m Hin) as (r & Hr & Hri). specialize (Hfresh r Hr). lia.
  - apply list_elem_of_lookup in Hin as (i & Hi). destruct (Forall2_lookup_r _ _ _ _ _ Hm Hi) as (d & Hd & Hrow). unfold member_row in Hrow.
    destruct (components_json MarshalComponents d); cbn in Hrow; [|done..]. injection Hrow as <-. cbn in Heq. unfold member_eligible, member_rejected in He. cbn in He.
    rewrite (stage_shortlisted _ _ _ Hc Heq) in He. pose proof (ch_unmarked _ _ _ _ Hch) as Hu. rewrite Forall_forall in Hu. rewrite (Hu d) in He by (by eapply list_elem_of_lookup_2).
    by destruct (UC_RejectionReason d =s "").
Qed.

(** ** Two snapshots *)
Section Snapshots.
Definition plain_member (snapshot : Z) (symbol stage : string) (shortlisted : bool) : UniverseMember :=
  mkMember snapshot (mkCandidate symbol "" "" fone fzero fzero 0 fzero fzero fzero fzero fzero fzero fzero fzero fzero fzero fzero fzero fzero fzero ∅ false "") stage "" shortlisted None.
Definition plain_row (id : Z) (at_ : Time) : UniverseSnapshotRow := mkSnapshotRow id at_ "1h" UniverseRegimeNeutral fone 2 2 1 1 None "complete".
Definition one_snapshot : UniverseDB := mkUniverseDB ∅ [plain_row 1 100] [plain_member 1 "AAAUSDT" "active" false; plain_member 1 "BBBUSDT" "shortlist" true].
Definition two_snapshots : UniverseDB := mkUniverseDB ∅ [plain_row 1 100; plain_row 2 300] (ud_members one_snapshot ++ [plain_member 2 "CCCUSDT" "active" false]).
Definition loaded (db : UniverseDB) : list replaySnapshotEntry :=
  match loadReplaySnapshots (fun _ _ => Ok tt) 150 400 db with Ok entries => entries | _ => [] end.
Definition seen (db : UniverseDB) (t : Time) : res (list string) :=
  let* sel := resolveReplayUniverse (fun _ => "") (loaded db) t in Ok (UC_Symbol <$> BS_ActiveUniverse sel).
Example replay_sees : seen two_snapshots 200 = Ok ["AAAUSDT"; "BBBUSDT"] /\ seen two_snapshots 300 = Ok ["CCCUSDT"].
Proof. by vm_compute. Qed.
Lemma resolveReplayUniverse_no_lookahead_witness :
  resolveReplayUniverse (fun _ => "") (loaded two_snapshots) 200 = resolveReplayUniverse (fun _ => "") (loaded one_snapshot) 200 /\
  resolveReplayUniverse (fun _ => "") (loaded one_snapshot) 200 = in_force (fun _ => "") (loaded one_snapshot) 200.
Proof.
  apply (resolveReplayUniverse_no_lookahead (fun _ _ => Ok tt) (fun _ => "") 150 400 "" 200 one_snapshot two_snapshots).
  - split; [exists [plain_row 2 300] | exists [plain_member 2 "CCCUSDT" "active" false]]; (split; [reflexivity|]); repeat constructor; cbn; lia.
  - lia.
  - vm_compute. reflexivity.
  - vm_compute. reflexivity.
Defined.
(** The only symbol the live system shortlists is not there for a replay. *)
Definition live_then_replayed : res (list string * list string) :=
  match market_run with
  | (Ok result, db) =>
      let* entries := loadReplaySnapshots (fun _ _ => Ok tt) (market_time + HourNs) 0 db in
      let* sel := resolveReplayUniverse (fun _ => "") entries (market_time + HourNs) in
      Ok (UC_Symbol <$> UR_Shortlist result, UC_Symbol <$> BS_ActiveUniverse sel)
  | (Err e, _) => Err e
  | (Panic w, _) => Panic w
  end.
Example live_shortlist_lost : live_then_replayed = Ok (["BTCUSDT"], []).
Proof. vm_compute. reflexivity. Qed.
End Snapshots.
