(* ===== verification/CloseRequests.v ===== *)
(** * CloseRequests: closing a position, durably and once

    [internal/services/execution_coordinator.go], [position_projection.go] and
    the price ticks of [position_monitor.go], over the tables of the ledger and [close_requests]: a close is first
    reserved, then applied through the ledger service in one transaction, and a
    failure is recorded on the reservation, to be retried or refused. The
    transactions are the steps of the model; the settings, the clock readings,
    the text of an error and the parameters of the ledger service are
    parameters. *)
From Stdlib Require Import Ascii SpecFloat.
From stdpp Require Import base numbers strings gmap list.
From S2P Require Import Prelude GoStrings GoFloat GoFormat GoTime Accounting Snapshots LedgerModel Ledger Exits.
Local Open Scope Z_scope.

(** ** Rows and requests *)
Record CloseRow : Type := mkCloseRow {
  Cr_ID : string; Cr_PositionID : Z; Cr_CycleID : string; Cr_AccountID : string; Cr_Currency : string; Cr_Symbol : string; Cr_Reason : string;
  Cr_Source : string; Cr_Price : float64; Cr_FeeBPS : Z; Cr_SlippageBPS : Z; Cr_Status : string; Cr_Attempts : Z; Cr_LastError : string;
  Cr_TriggeredAt : Time; Cr_AppliedAt : option Time; Cr_CreatedAt : Time }.
Record CloseRequest : Type := mkCloseRequest {
  Rq_PositionID : Z; Rq_Symbol : string; Rq_Reason : string; Rq_RequestedPrice : float64; Rq_TriggeredAt : Time; Rq_Source : string }.
Record CloseResult : Type := mkCloseResult {
  Cl_Closed : bool; Cl_Duplicate : bool; Cl_Position : Position; Cl_Order : option Order; Cl_Wallet : option Wallet; Cl_Reason : string; Cl_Price : float64 }.
Definition closeRequestPending : string := "pending".
Definition closeRequestRetryable : string := "retryable".
Definition closeRequestApplied : string := "applied".
Definition closeRequestRejected : string := "rejected".
(** The ledger and the table of close requests, by primary key. *)
Record CloseDB : Type := mkCloseDB { cd_ledger : DB; cd_requests : gmap string CloseRow }.
Definition Cls (A : Type) : Type := stM CloseDB A.
Definition on_ledger {A} (m : Tx A) : Cls A := fun s => let '(r, db) := m (cd_ledger s) in (r, mkCloseDB db (cd_requests s)).
Definition set_requests (f : gmap string CloseRow -> gmap string CloseRow) (s : CloseDB) : CloseDB := mkCloseDB (cd_ledger s) (f (cd_requests s)).
(** The columns that change after a request was created. *)
Definition with_status (r : CloseRow) (status : string) (attempts : Z) (lastError : string) (appliedAt : option Time) : CloseRow :=
  mkCloseRow (Cr_ID r) (Cr_PositionID r) (Cr_CycleID r) (Cr_AccountID r) (Cr_Currency r) (Cr_Symbol r) (Cr_Reason r) (Cr_Source r) (Cr_Price r) (Cr_FeeBPS r)
    (Cr_SlippageBPS r) status attempts lastError (Cr_TriggeredAt r) appliedAt (Cr_CreatedAt r).
Definition FirstRequest (id_ : string) : Cls CloseRow :=
  fun s => (match cd_requests s !! id_ with Some r => Ok r | None => Err ErrRecordNotFound end, s).
Definition CreateRequest (r : CloseRow) : Cls unit := fun s =>
  if existsb (fun kv => (kv.1 =s Cr_ID r) || ((Cr_PositionID kv.2 =? Cr_PositionID r) && (Cr_CycleID kv.2 =s Cr_CycleID r))) (map_to_list (cd_requests s))
  then (Err (PgError "23505" "idx_close_requests_position_cycle"), s) else (Ok tt, set_requests (<[Cr_ID r := r]>) s).
Definition UpdateRequest (id_ : string) (f : CloseRow -> CloseRow) : Cls unit := fun s => (Ok tt, set_requests (alter f id_) s).

(** ** Operational columns of a position *)
Definition with_control (p : Position) (mark : option Time) (pending : bool) : Position :=
  let f := Ps_floats p in let c := Ps_cycle p in
  mkPosition (Ps_ID p) (Ps_Symbol p) (Ps_AccountID p) (Ps_exact p)
    (mkFloats (Amount f) (AvgPrice f) (EntryPrice f) (CurrentPrice f) (LastMarkPrice f) mark (Pnl f) (PnlPercent f))
    (mkCycle (Status c) (OpenedAt c) (ClosedAt c) (CloseReason c) pending) (Ps_entry p) (Ps_labels p) (Ps_protection p).
Definition UpdatePositions (p : Position -> bool) (f : Position -> Position) : Tx unit :=
  modify (set_positions (fmap (fun x => if p x then f x else x))).
(** A mark: [current_price] and [last_mark_price], the trailing stop and the last
    ATR; the profit of a positive mark is computed by the database. *)
Record Mark : Type := mkMark { Mk_price : float64; Mk_trailing : option float64; Mk_atr : option (option float64) }.
Definition marked (p : Position) (m : Mark) (observedAt : Time) : Position :=
  let f := Ps_floats p in let v := Ps_protection p in
  let positive := flt fzero (Mk_price m) in
  let pnl := if positive then fmul (fsub (Mk_price m) (AvgPrice f)) (Amount f) else Pnl f in
  let percent := if positive then (if flt fzero (AvgPrice f) then fmul (fdiv (fsub (Mk_price m) (AvgPrice f)) (AvgPrice f)) fhundred else fzero) else PnlPercent f in
  mkPosition (Ps_ID p) (Ps_Symbol p) (Ps_AccountID p) (Ps_exact p)
    (mkFloats (Amount f) (AvgPrice f) (EntryPrice f) (Some (Mk_price m)) (Some (Mk_price m)) (Some observedAt) pnl percent) (Ps_cycle p) (Ps_entry p) (Ps_labels p)
    (mkProtection (StopPrice v) (TakeProfitPrice v) (Mk_trailing m) (default (LastAtrValue v) (Mk_atr m)) (MaxBarsHeld v)).
Definition not_newer (p : Position) (observedAt : Time) : bool :=
  match LastMarkAt (Ps_floats p) with Some t => t <=? observedAt | None => true end.
(** Whether a row was written: the position is open and its mark not newer. *)
Definition updatePositionOperational (positionID : Z) (observedAt : Time) (m : Mark) : Tx bool := fun db =>
  let hit p := (Ps_ID p =? positionID) && is_open p && not_newer p observedAt in
  (Ok (existsb hit (positions db)), set_positions (fmap (fun p => if hit p then marked p m observedAt else p)) db).

(** ** Helpers *)
Definition UnixEpoch : Time := 62135596800 * SecondNs.
Definition UnixNano (t : Time) : Z := int64 (t - UnixEpoch).
Definition closeCycleID (position : Position) : string := Itoa (UnixNano (OpenedAt (Ps_cycle position))).
Definition closeRequestID (position : Position) : string := "close:" +:+ Itoa (Ps_ID position) +:+ ":" +:+ closeCycleID position.
Definition normalizeExecutionMode (mode : string) : string :=
  let m := ToLower (TrimSpace mode) in
  if m =s ExecutionModeExchange then ExecutionModeExchange else if m =s ExecutionModeShadow then ExecutionModeShadow else ExecutionModePaper.
Definition nonemptySource (source : string) : string := if TrimSpace source =s "" then "execution_coordinator" else source.
Definition positive_price (p : option float64) : option float64 := match p with Some x => if flt fzero x then Some x else None | None => None end.
Definition positionPriceForExecution (position : Position) : float64 :=
  let f := Ps_floats position in
  match positive_price (LastMarkPrice f), positive_price (CurrentPrice f), positive_price (EntryPrice f) with
  | Some x, _, _ => x | None, Some x, _ => x | None, None, Some x => x | None, None, None => AvgPrice f
  end.
Definition closeRequestPrice (value : float64) : res Decimal := Parse (FormatFixed value (Z.of_nat Scale)).
(** [errors.Is(err, ErrExchangeExecutionFenced)]: along the wrapped causes. *)
Fixpoint is_fenced (e : error) : bool :=
  match e with
  | LedgerError kind code _ => (kind =s KindUnavailable) && (code =s "exchange_execution_fenced")
  | LedgerErrorWith _ _ _ cause | Wrapf _ _ cause | RunError _ _ cause => is_fenced cause
  | _ => false
  end.
Definition failure_status (e : error) : string := if is_fenced e then closeRequestRejected else closeRequestRetryable.
Definition closeFillCommand (position : Position) (request : CloseRow) : res FillCommand :=
  match AmountExact (Ps_exact position) with
  | None => Err ErrProjectionUnavailable
  | Some amount =>
      if Sign amount <=? 0 then Err ErrProjectionUnavailable else
      let* price := closeRequestPrice (Cr_Price request) in
      let* (fillPrice, fee) := CostedPaperFill "sell" amount price (Cr_FeeBPS request) (Cr_SlippageBPS request) in
      let metadata : Metadata := {[ "fee_bps" := MetaOther (Itoa (Cr_FeeBPS request)); "slippage_bps" := MetaOther (Itoa (Cr_SlippageBPS request));
        "close_request_id" := MetaString (Cr_ID request); "close_source" := MetaString (Cr_Source request) ]} in
      Ok (mkFillCommand (Cr_ID request) (Ps_AccountID position) (Ps_Symbol position) "sell" amount price fillPrice fee EventTradingFee (Cr_Currency request)
            (normalizeExecutionMode (ExecutionMode_ (Ps_entry position))) "" "" "" "" OrderStatusFilled 0 (Cr_ID request) (Cr_TriggeredAt request) (Cr_Source request)
            (Cr_Reason request) (StrategyVersion (Ps_entry position)) "paper-cost-v1" (Some metadata) "" ""
            (mkLabels "" (PolicyVersion (Ps_labels position)) "" "" None None "") (mkProtection None None None None None))
  end.

Section Coordinator.
Context (guards : DB -> DB -> res unit) (SetRole : res unit) (AfterWrite : string -> res unit).
Context (sha256hex : string -> string) (MarshalFill : FillCommand -> res string) (MarshalMetadata : Metadata -> res string) (Stage08 : FillCommand -> string).
Context (ErrorText : error -> string).
(** A transaction over both tables, with the ledger's commit guards. *)
Definition commit {A} (body : Cls A) : Cls A := fun s =>
  match body s with
  | (Ok a, s') => match guards (cd_ledger s) (cd_ledger s') with Ok _ => (Ok a, s') | Err e => (Err e, s) | Panic w => (Panic w, s) end
  | (r, _) => (r, s)
  end.

(** ** Reserving *)
Definition find_position (req : CloseRequest) : Tx Position :=
  if 0 <? Rq_PositionID req then FirstPosition (Rq_PositionID req) else
  if TrimSpace (Rq_Symbol req) <>s "" then let! db := get id in found (where_ (fun p => Ps_Symbol p =s Rq_Symbol req) (positions db)) else
  slift (Err (Errorf "missing position identifier" [])).
Definition no_request (positionID : Z) : CloseRow := mkCloseRow "" positionID "" "" "" "" "" "" fzero 0 0 "" 0 "" 0 None 0.
Definition close_row (req : CloseRequest) (settings : Settings) (position : Position) (wallet : Wallet) (price : float64) (now : Time) : CloseRow :=
  mkCloseRow (closeRequestID position) (Ps_ID position) (closeCycleID position) (Ps_AccountID position) (W_Currency wallet) (Ps_Symbol position)
    (nonemptySource (Rq_Reason req)) (nonemptySource (Rq_Source req)) price (getSettingInt settings "paper_fee_bps" 10)
    (getSettingInt settings "paper_slippage_bps" 5) closeRequestPending 0 "" (Rq_TriggeredAt req) None now.
(** The reservation of an open position: the one of its cycle, or a new one. *)
Definition reserve_open (req : CloseRequest) (settings : Settings) (position : Position) (now : Time) : Cls (CloseRow * bool) :=
  let! existing := (fun s => (Ok (cd_requests s !! closeRequestID position), s)) in
  match existing with
  | Some row => if Cr_Status row =s closeRequestRejected then slift (Err ErrExchangeExecutionFenced) else sret (row, true)
  | None =>
      let! wallet := on_ledger (FirstWalletOf (Ps_AccountID position)) in
      if TrimSpace (W_Currency wallet) =s "" then slift (Err ErrProjectionUnavailable) else
      let price := if fle (Rq_RequestedPrice req) fzero then positionPriceForExecution position else Rq_RequestedPrice req in
      if fle price fzero then slift (Err (Errorf "close request requires a positive executable mark" [])) else
      let row := close_row req settings position wallet price now in
      let! _ := CreateRequest row in sret (row, false)
  end.
Definition reserveClose (req : CloseRequest) (settings : Settings) (now : Time) : Cls (CloseRow * bool) :=
  commit (
    let! position := on_ledger (find_position req) in
    if negb (is_open position) then
      fun s => (Ok (default (no_request (Ps_ID position)) (cd_requests s !! closeRequestID position), true), s)
    else
      let! reserved := reserve_open req settings position now in
      let! _ := on_ledger (UpdatePositions (fun p => (Ps_ID p =? Ps_ID position) && is_open p)
                             (fun p => with_control p (Some (Rq_TriggeredAt req)) true)) in
      sret reserved).

(** ** Applying *)
Definition loadAppliedClose (request : CloseRow) : Tx CloseResult :=
  let! db := get id in
  let! order := found (where_ (fun o => bool_decide (O_ClientOrderID o = Some (Cr_ID request))) (orders db)) in
  let! position := FirstPosition (Cr_PositionID request) in
  let! wallet := FirstWalletOf (Cr_AccountID request) in
  sret (mkCloseResult (Status (Ps_cycle position) =s "closed") false position (Some order) (Some wallet) (Cr_Reason request)
          (default (Cr_Price request) (FillPrice (O_floats order)))).
Definition applyBody (now : nat -> Time) (id_ : string) : Cls CloseResult :=
  let! _ := slift SetRole in
  let! request := FirstRequest id_ in
  if Cr_Status request =s closeRequestApplied then on_ledger (loadAppliedClose request) else
  if Cr_Status request =s closeRequestRejected then slift (Err ErrExchangeExecutionFenced) else
  let! position := on_ledger (FirstPosition (Cr_PositionID request)) in
  if negb (is_open position) || (closeCycleID position <>s Cr_CycleID request)
  then slift (Err (Errorf "close request %s no longer matches an open position lifecycle" [Cr_ID request])) else
  if normalizeExecutionMode (ExecutionMode_ (Ps_entry position)) =s ExecutionModeExchange then slift (Err ErrExchangeExecutionFenced) else
  let! command := slift (closeFillCommand position request) in
  let! fill := on_ledger (ApplyFillWith SetRole AfterWrite now sha256hex MarshalFill MarshalMetadata Stage08 (fun m => m) command) in
  let! _ := UpdateRequest (Cr_ID request) (fun r => with_status r closeRequestApplied (Cr_Attempts request + 1) "" (Some (now 2%nat))) in
  sret (mkCloseResult (Status (Ps_cycle (R_Position fill)) =s "closed") false (R_Position fill) (Some (R_Order fill)) (Some (R_Wallet fill)) (Cr_Reason request)
          (Float64 (C_FillPrice command))).
Definition attemptClose (now : nat -> Time) (id_ : string) : Cls CloseResult := commit (applyBody now id_).
Definition truncated (message : string) : string := if 2000 <? slen message then String.substring 0 2000 message else message.
(** The state of a request whose attempt failed; an applied one is kept. *)
Definition recordCloseFailure (id_ status : string) (closeErr : error) : Cls unit :=
  commit (
    let! request := FirstRequest id_ in
    if Cr_Status request =s closeRequestApplied then sret tt else
    let! _ := UpdateRequest id_ (fun r => with_status r status (Cr_Attempts r + 1) (truncated (ErrorText closeErr)) (Cr_AppliedAt r)) in
    if status =s closeRequestRejected
    then on_ledger (UpdatePositions (fun p => Ps_ID p =? Cr_PositionID request) (fun p => with_control p (LastMarkAt (Ps_floats p)) false)) else sret tt).
Definition applyClose (now : nat -> Time) (id_ : string) : Cls CloseResult := fun s =>
  match attemptClose now id_ s with
  | (Err e, s') =>
      match recordCloseFailure id_ (failure_status e) e s' with
      | (Err e', s'') => (Err (Wrapf "close failed: %w (could not persist recovery state: %v)" [ErrorText e'] e), s'')
      | (Panic w, s'') => (Panic w, s'')
      | (Ok _, s'') => (Err e, s'')
      end
  | r => r
  end.

(** ** The operations *)
Definition stamped_request (req : CloseRequest) (now : Time) : CloseRequest :=
  mkCloseRequest (Rq_PositionID req) (Rq_Symbol req) (Rq_Reason req) (Rq_RequestedPrice req) (if IsZero (Rq_TriggeredAt req) then now else Rq_TriggeredAt req)
    (Rq_Source req).
Definition duplicated (r : CloseResult) (duplicate : bool) : CloseResult :=
  mkCloseResult (Cl_Closed r) duplicate (Cl_Position r) (Cl_Order r) (Cl_Wallet r) (Cl_Reason r) (Cl_Price r).
Definition check_ready : Tx unit := CheckReady guards SetRole "".
Definition RequestClose (req : CloseRequest) (settings : Settings) (now : nat -> Time) : Cls CloseResult :=
  let! _ := on_ledger check_ready in
  let! (reservation, duplicate) := reserveClose (stamped_request req (now 0%nat)) settings (now 1%nat) in
  if duplicate && (Cr_ID reservation =s "") then
    let! position := on_ledger (FirstPosition (Cr_PositionID reservation)) in
    sret (mkCloseResult (Status (Ps_cycle position) =s "closed") true position None None "" fzero)
  else if duplicate && (Cr_Status reservation =s closeRequestApplied) then
    let! result := on_ledger (loadAppliedClose reservation) in sret (duplicated result true)
  else
    let! result := applyClose (fun n => now (2 + n)%nat) (Cr_ID reservation) in sret (duplicated result duplicate).
(** The requests that are not finished, in the order of their creation. *)
Definition request_less (a b : CloseRow) : bool :=
  (Cr_CreatedAt a <? Cr_CreatedAt b) || ((Cr_CreatedAt a =? Cr_CreatedAt b) && String.ltb (Cr_ID a) (Cr_ID b)).
Definition unfinished (r : CloseRow) : bool := (Cr_Status r =s closeRequestPending) || (Cr_Status r =s closeRequestRetryable).
Definition pendingRequests (m : gmap string CloseRow) : list CloseRow := SliceStable request_less (List.filter unfinished (map_to_list m).*2).
Definition RecoverPendingCloses (now : nat -> nat -> Time) : Cls Z :=
  let! _ := on_ledger check_ready in
  let! requests := (fun s => (Ok (pendingRequests (cd_requests s)), s)) in
  sfoldM (fun count request => let! _ := applyClose (now (Z.to_nat count)) (Cr_ID request) in sret (count + 1)) 0 requests.

(** ** Price ticks ([position_monitor.go]) *)
Record PriceEvent : Type := mkPriceEvent { PE_LastPrice : float64; PE_MarkPrice : float64; PE_Timestamp : Time; PE_Source : string }.
Definition event_mark (event : PriceEvent) : float64 := if fle (PE_MarkPrice event) fzero then PE_LastPrice event else PE_MarkPrice event.
Definition entry_price (p : Position) : float64 := default (AvgPrice (Ps_floats p)) (positive_price (EntryPrice (Ps_floats p))).
Definition tick_trailing (policy : ExitPolicy) (p : Position) (mark : float64) : option float64 :=
  let existing := TrailingStopPrice (Ps_protection p) in
  match ATRTrailingEnabled policy, LastAtrValue (Ps_protection p) with
  | true, Some atr => RatchetATRTrailingStop existing mark (entry_price p) atr (ATRTrailingMult policy)
  | _, _ => if TrailingStopEnabled policy then RatchetPercentTrailingStop existing mark (entry_price p) (TrailingStopPercent policy) else existing
  end.
Definition tick_input (policy : ExitPolicy) (p : Position) (mark : float64) : ExitEvaluationInput :=
  mkExitInput mark mark mark (entry_price p) (StopPrice (Ps_protection p)) (TakeProfitPrice (Ps_protection p)) (tick_trailing policy p mark) 0 None "" fzero.
Definition find_open (symbol : string) : Tx Position :=
  let! db := get id in found (where_ (fun p => (Ps_Symbol p =s symbol) && is_open p) (positions db)).
Definition tick_exit (policy : ExitPolicy) (position : Position) (mark : float64) (event : PriceEvent) (settings : Settings) (now : nat -> Time) : Cls unit :=
  if ExitPending (Ps_cycle position) then sret tt else
  let! decision := slift (EvaluateProtectiveExit (tick_input policy position mark) policy) in
  if ED_Reason decision =s "" then sret tt else
  let! _ := RequestClose (mkCloseRequest (Ps_ID position) "" (ED_Reason decision) (ED_TriggerPrice decision) (PE_Timestamp event) (PE_Source event)) settings now in
  sret tt.
Definition tick (policy : ExitPolicy) (mark : float64) (symbol : string) (event : PriceEvent) (settings : Settings) (now : nat -> Time) : Cls unit :=
  let! position := on_ledger (find_open symbol) in
  if fle mark fzero then sret tt else
  let! updated := on_ledger (updatePositionOperational (Ps_ID position) (PE_Timestamp event) (mkMark mark (tick_trailing policy position mark) None)) in
  if negb updated then sret tt else tick_exit policy position mark event settings now.
Definition processPriceEvent (symbol : string) (event : PriceEvent) (settings : Settings) (now : nat -> Time) : Cls unit :=
  tick (BuildExitPolicy settings) (event_mark event) symbol event settings now.
End Coordinator.
