(* ===== verification/BarClose.v ===== *)
(** * BarClose: exits when a bar closes

    [internal/services/bar_close_exits.go]: every open position is marked at the
    close of its last bar, its trailing stop is raised, and it is closed when a
    protective level, its time or a sell signal says so. *)
From Stdlib Require Import Ascii SpecFloat.
From stdpp Require Import base numbers strings gmap list.
From S2P Require Import Prelude GoStrings GoFloat GoTime Accounting Snapshots LedgerModel Ledger FoldMetrics Exits Indicators Signals CloseRequests.
Local Open Scope Z_scope.

Definition PositionPairSymbol (symbol settlementCurrency : string) : string :=
  let pair := ToUpper (ReplaceAll (TrimSpace symbol) "/" "") in
  let quote := ToUpper (TrimSpace settlementCurrency) in
  if (quote <>s "") && negb (HasSuffix pair quote) then pair +:+ quote else pair.

Section OnBar.
Context (guards : DB -> DB -> res unit) (SetRole : res unit) (AfterWrite : string -> res unit).
Context (sha256hex : string -> string) (MarshalFill : FillCommand -> res string) (MarshalMetadata : Metadata -> res string) (Stage08 : FillCommand -> string).
Context (ErrorText : error -> string).
(** The candles of the exchange, and the configuration of the indicators. *)
Context (fetchCandles : string -> res (list Candle)) (config : IndicatorConfig) (weights : gmap string float64).

(** What a new bar does to the trailing stop and the last ATR. *)
Definition bar_trailing (settings : Settings) (policy : ExitPolicy) (p : Position) (candles : list Candle) (currentPrice : float64) : res (option float64 * option float64) :=
  let v := Ps_protection p in
  if ATRTrailingEnabled policy then
    let* atr := getAtrValue candles (getSettingInt settings "atr_trailing_period" 14) (getSettingBool settings "atr_annualization_enabled" false) 15
                  (getSettingInt settings "atr_annualization_days" 365) in
    Ok (if flt fzero atr then (RatchetATRTrailingStop (TrailingStopPrice v) currentPrice (entry_price p) atr (ATRTrailingMult policy), Some atr)
        else (TrailingStopPrice v, LastAtrValue v))
  else if TrailingStopEnabled policy then Ok (RatchetPercentTrailingStop (TrailingStopPrice v) currentPrice (entry_price p) (TrailingStopPercent policy), LastAtrValue v)
  else Ok (TrailingStopPrice v, LastAtrValue v).
Definition analyzeSymbolFromCandles (candles : list Candle) : res (float64 * string) :=
  let* indicators := calculateIndicatorResults candles config in Ok (CalculateFinalScore indicators weights).
Definition quarterHour : Duration := 15 * MinuteNs.
Definition bar_input (p : Position) (currentPrice : float64) (trailing : option float64) (since : Duration) (analysis : float64 * string) : ExitEvaluationInput :=
  let v := Ps_protection p in
  mkExitInput currentPrice currentPrice currentPrice (entry_price p) (StopPrice v) (TakeProfitPrice v) trailing (Z.quot since quarterHour) (MaxBarsHeld v) analysis.2 analysis.1.
(** One position, as it was read before the loop: whether it was closed. *)
Definition close_on_bar (settings : Settings) (currency : string) (now : nat -> Time) (position : Position) : Cls bool :=
  if ExitPending (Ps_cycle position) then sret false else
  match fetchCandles (PositionPairSymbol (Ps_Symbol position) currency) with
  | Panic w => slift (Panic w)
  | Err _ => sret false
  | Ok candles =>
      if len candles =? 0 then sret false else
      let policy := BuildExitPolicy settings in
      let! last_candle := slift (last_value candles) in
      let currentPrice := Cn_Close last_candle in
      let! (trailing, atr) := slift (bar_trailing settings policy position candles currentPrice) in
      let! updated := on_ledger (updatePositionOperational (Ps_ID position) (now 0%nat) (mkMark currentPrice trailing (Some atr))) in
      if negb updated then sret false else
      let! analysis := slift (analyzeSymbolFromCandles candles) in
      let input := bar_input position currentPrice trailing (time_Sub (now 1%nat) (OpenedAt (Ps_cycle position))) analysis in
      let! decision := slift (EvaluateBarCloseExit input policy) in
      if ED_Reason decision =s "" then sret false else
      let! result := RequestClose guards SetRole AfterWrite sha256hex MarshalFill MarshalMetadata Stage08 ErrorText
        (mkCloseRequest (Ps_ID position) "" (ED_Reason decision) (ED_TriggerPrice decision) (now 0%nat) "bar_close_plane") settings (fun n => now (2 + n)%nat) in
      sret (Cl_Closed result)
  end.
(** The number of positions closed, with the error that ended the loop. *)
Fixpoint close_all_on_bar (settings : Settings) (currency : string) (now : nat -> nat -> Time) (count : Z) (l : list Position) : Cls (Z * option error) :=
  match l with
  | [] => sret (count, None)
  | position :: rest => fun s =>
      match close_on_bar settings currency (now (length rest)) position s with
      | (Ok closed, s') => close_all_on_bar settings currency now (if closed : bool then count + 1 else count) rest s'
      | (Err e, s') => (Ok (count, Some e), s')
      | (Panic w, s') => (Panic w, s')
      end
  end.
Definition EvaluateOpenPositionsOnBarClose (settings : Settings) (now : nat -> nat -> Time) : Cls (Z * option error) := fun s =>
  match head (wallets (cd_ledger s)) with
  | None => (Ok (0, Some ErrRecordNotFound), s)
  | Some wallet => close_all_on_bar settings (W_Currency wallet) now 0 (List.filter is_open (positions (cd_ledger s))) s
  end.
End OnBar.
