(* ===== verification/CloseProofs.v ===== *)
(** * CloseProofs: a position's cycle is sold once *)
From Stdlib Require Import Ascii SpecFloat.
From stdpp Require Import base numbers strings gmap list relations.
From S2P Require Import Prelude GoStrings GoFloat GoFormat GoTime Accounting.
From S2P Require Values Contracts.
From S2P Require Import Snapshots LedgerModel Ledger LedgerAdmin LedgerAdapter LedgerFacts LedgerFill LedgerBooks LedgerHistory LedgerOutcome LedgerTheorems Exits CloseRequests.
Local Open Scope Z_scope.

(** ** Operational changes of positions *)

(** What the books know of a position stays. *)
Record neutral (p q : Position) : Prop := mkNeutral {
  nt_id : Ps_ID q = Ps_ID p; nt_symbol : Ps_Symbol q = Ps_Symbol p; nt_account : Ps_AccountID q = Ps_AccountID p; nt_exact : Ps_exact q = Ps_exact p;
  nt_status : Status (Ps_cycle q) = Status (Ps_cycle p); nt_opened : OpenedAt (Ps_cycle q) = OpenedAt (Ps_cycle p); nt_entry : Ps_entry q = Ps_entry p }.
Section Neutral.
Context (f : Position -> Position) (Hf : forall p, neutral p (f p)).
Lemma neutral_fmap {K} (g : Position -> K) (l : list Position) : (forall p, g (f p) = g p) -> g <$> (f <$> l) = g <$> l.
Proof. intros Hg. rewrite <- list_fmap_compose. apply list_fmap_ext. intros i p _. cbn. apply Hg. Qed.
Lemma neutral_projection (l : list Position) s : projection_in (f <$> l) s = projection_in l s.
Proof.
  unfold projection_in, where_. induction l as [|p l IH]; [done|]. cbn. rewrite (nt_symbol _ _ (Hf p)).
  destruct (Ps_Symbol p =s s); [by rewrite (nt_exact _ _ (Hf p)) | exact IH].
Qed.
Lemma neutral_good p : good_position p -> good_position (f p).
Proof. destruct (Hf p) as [_ _ Ha Hx Hs _ _]. intros []. by split; rewrite ?Ha, ?Hx, ?Hs. Qed.
Lemma neutral_positions next (l : list Position) : positions_ok next l -> positions_ok next (f <$> l).
Proof.
  intros [H1 H2 H3 H4]. split.
  - rewrite neutral_fmap; [done | intros p; apply (nt_symbol _ _ (Hf p))].
  - rewrite neutral_fmap; [done | intros p; apply (nt_id _ _ (Hf p))].
  - rewrite Forall_fmap. eapply Forall_impl; [exact H3|]. intros p Hp. cbn. by rewrite (nt_id _ _ (Hf p)).
  - rewrite Forall_fmap. eapply Forall_impl; [exact H4|]. intros p Hp. by apply neutral_good.
Qed.
Lemma neutral_ledger_ok db : ledger_ok db -> ledger_ok (set_positions (fmap f) db).
Proof.
  intros [[Hw Hp Hj Hn He] Ho Hop]. split; [split | by destruct Ho | exact Hop]; try done.
  - by apply neutral_positions.
  - intros s. unfold projection. cbn. rewrite neutral_projection. apply Hj.
Qed.
End Neutral.
Lemma neutral_refl p : neutral p p. Proof. by split. Qed.
Lemma control_neutral (c : Position -> bool) m b p : neutral p (if c p then with_control p (m p) b else p).
Proof. destruct (c p); by split. Qed.
Lemma marked_neutral (c : Position -> bool) m t p : neutral p (if c p then marked p m t else p).
Proof. destruct (c p); by split. Qed.

(** ** The keys of the coordinator *)
Definition is_close (k : string) : bool := HasPrefix k "close:".
Lemma closeRequestID_close p : is_close (closeRequestID p) = true.
Proof. unfold is_close, HasPrefix, closeRequestID. by destruct (Itoa (Ps_ID p) +:+ _). Qed.
Definition close_fills (db : DB) : list Fill := List.filter (fun f => is_close (F_LedgerBatchID f)) (fills db).
Definition fills_with (k : string) (db : DB) : list Fill := List.filter (fun f => F_LedgerBatchID f =s k) (fills db).
Lemma fills_with_close k db : is_close k = true -> fills_with k db = List.filter (fun f => F_LedgerBatchID f =s k) (close_fills db).
Proof.
  intros Hk. unfold fills_with, close_fills. induction (fills db) as [|f l IH]; [done|]. cbn.
  destruct (F_LedgerBatchID f =s k) eqn:E; [apply String.eqb_eq in E; rewrite E, Hk; cbn; by rewrite E, String.eqb_refl, IH|].
  destruct (is_close (F_LedgerBatchID f)); cbn; [by rewrite E | exact IH].
Qed.
(** The fill that answers a request: the sale of its position, at its price and
    costs. *)
Definition answers (r : CloseRow) (f : Fill) : Prop :=
  F_LedgerBatchID f = Cr_ID r /\ F_Side f = "sell" /\ F_PositionID f = Cr_PositionID r /\
  exists price, closeRequestPrice (Cr_Price r) = Ok price /\ CostedPaperFill "sell" (F_Quantity f) price (Cr_FeeBPS r) (Cr_SlippageBPS r) = Ok (F_FillPrice f, F_FeeAmount f).
(** The payload of a request never changes. *)
Definition same_payload (r q : CloseRow) : Prop := q = with_status r (Cr_Status q) (Cr_Attempts q) (Cr_LastError q) (Cr_AppliedAt q).
Lemma same_payload_refl r : same_payload r r. Proof. by destruct r. Qed.
Lemma same_payload_trans r q u : same_payload r q -> same_payload q u -> same_payload r u.
Proof. intros -> ->. done. Qed.
Lemma answers_payload r q f : same_payload r q -> answers r f -> answers q f.
Proof. by intros ->. Qed.

(** ** The invariant *)
Record closes_ok (db : DB) (m : gmap string CloseRow) : Prop := {
  co_key : forall k r, m !! k = Some r -> Cr_ID r = k /\ is_close k = true;
  co_applied : forall k r, m !! k = Some r -> Cr_Status r = closeRequestApplied -> is_Some (batches db !! k) /\ exists f, fills_with k db = [f] /\ answers r f;
  co_open : forall k r, m !! k = Some r -> Cr_Status r <> closeRequestApplied -> batches db !! k = None;
  co_none : forall k, is_close k = true -> m !! k = None -> batches db !! k = None;
  co_fills : forall f, f ∈ close_fills db -> is_Some (batches db !! F_LedgerBatchID f) }.
(** A request is known by its position and its cycle. *)
Definition keyed (r : CloseRow) : Prop := exists p, Cr_ID r = closeRequestID p /\ Cr_PositionID r = Ps_ID p.
Definition all_keyed (m : gmap string CloseRow) : Prop := map_Forall (fun _ r => keyed r) m.
Lemma keyed_payload r q : same_payload r q -> keyed r -> keyed q.
Proof. by intros ->. Qed.
Lemma Itoa_no_colon z : has_char ":" (Itoa z) = false.
Proof.
  assert (H : forall n, 0 <= n -> has_char ":" (format_nonneg n) = false).
  { intros n Hn. apply digits_no_char; [done|]. by apply format_nonneg_numeral. }
  unfold Itoa. destruct (z <? 0) eqn:E; [|apply H; lia]. cbn. apply H. lia.
Qed.
Lemma closeRequestID_inj p q : closeRequestID p = closeRequestID q -> Ps_ID p = Ps_ID q.
Proof.
  intros H. assert (E : forall x, closeRequestID x = "close:" +:+ (Itoa (Ps_ID x) +:+ String ":" (closeCycleID x))) by reflexivity.
  rewrite !E in H. apply (f_equal (drop_str 6)) in H. unfold closeCycleID in H.
  assert (D : forall t, drop_str 6 ("close:" +:+ t) = t) by (intros t; exact (drop_str_app "close:" t)).
  rewrite !D in H. apply (f_equal (Split ":")) in H. rewrite !Split_one in H by apply Itoa_no_colon.
  injection H as H _. by apply Itoa_inj.
Qed.
Record CInv (s : CloseDB) : Prop := {
  ci_ledger : ledger_ok (cd_ledger s); ci_closes : closes_ok (cd_ledger s) (cd_requests s); ci_keyed : all_keyed (cd_requests s) }.
(** Only the batches and the fills with keys of the coordinator matter. *)
Definition same_closes (db db' : DB) : Prop := (forall k, is_close k = true -> batches db' !! k = batches db !! k) /\ close_fills db' = close_fills db.
Lemma is_close_fill f db : f ∈ close_fills db -> is_close (F_LedgerBatchID f) = true.
Proof. intros Hf. unfold close_fills in Hf. by apply list_elem_of_In, List.filter_In in Hf as [_ Hf]. Qed.
Lemma closes_same db db' m : same_closes db db' -> closes_ok db m -> closes_ok db' m.
Proof.
  intros [Hb Hf] [H1 H2 H3 H4 H5]. split; [done | | | |].
  - intros k r Hr Hs. destruct (H1 _ _ Hr) as [_ Hk]. rewrite Hb, fills_with_close, Hf, <- fills_with_close by done. by apply H2.
  - intros k r Hr Hs. destruct (H1 _ _ Hr) as [_ Hk]. rewrite Hb by done. by eapply H3.
  - intros k Hk Hn. rewrite Hb by done. by apply H4.
  - intros f Hin. rewrite Hf in Hin. rewrite Hb by by eapply is_close_fill. by apply H5.
Qed.
(** A request that is not applied has left nothing in the ledger. *)
Lemma not_applied k r s : CInv s -> cd_requests s !! k = Some r -> Cr_Status r <> closeRequestApplied ->
  batches (cd_ledger s) !! k = None /\ fills_with k (cd_ledger s) = [].
Proof.
  intros [_ Hc _] Hr Hs. pose proof (co_open _ _ Hc _ _ Hr Hs) as Hn. split; [done|]. destruct (co_key _ _ Hc _ _ Hr) as [_ Hk].
  destruct (fills_with k _) as [|f l] eqn:E; [done|]. exfalso.
  assert (Hf : f ∈ fills_with k (cd_ledger s)) by (rewrite E; left). rewrite fills_with_close in Hf by done.
  apply list_elem_of_In, List.filter_In in Hf as [Hf Hkey]. apply String.eqb_eq in Hkey.
  apply list_elem_of_In in Hf. destruct (co_fills _ _ Hc _ Hf) as [b Hb]. congruence.
Qed.
(** A change of the state of a request that is not applied. *)
Lemma closes_status db m k r q : closes_ok db m -> m !! k = Some r -> Cr_Status r <> closeRequestApplied -> Cr_Status q <> closeRequestApplied ->
  same_payload r q -> closes_ok db (<[k := q]> m).
Proof.
  intros [H1 H2 H3 H4 H5] Hr Hs Hq Hp. destruct (H1 _ _ Hr) as [Hid Hk]. split; [.. | done].
  - intros j u. destruct (decide (j = k)) as [->|Hj]; [rewrite lookup_insert_eq; intros [= <-]; rewrite Hp; done | rewrite lookup_insert_ne by done; apply H1].
  - intros j u. destruct (decide (j = k)) as [->|Hj]; [rewrite lookup_insert_eq; intros [= <-]; done | rewrite lookup_insert_ne by done; apply H2].
  - intros j u. destruct (decide (j = k)) as [->|Hj]; [intros _ _; by eapply H3 | rewrite lookup_insert_ne by done; apply H3].
  - intros j Hj. destruct (decide (j = k)) as [->|Hjk]; [by rewrite lookup_insert_eq | rewrite lookup_insert_ne by done; by apply H4].
Qed.
(** A new request. *)
Lemma closes_new db m r : closes_ok db m -> m !! Cr_ID r = None -> is_close (Cr_ID r) = true -> Cr_Status r <> closeRequestApplied ->
  closes_ok db (<[Cr_ID r := r]> m).
Proof.
  intros [H1 H2 H3 H4 H5] Hn Hk Hs. split; [.. | done].
  - intros j u. destruct (decide (j = Cr_ID r)) as [->|Hj]; [rewrite lookup_insert_eq; by intros [= <-] | rewrite lookup_insert_ne by done; apply H1].
  - intros j u. destruct (decide (j = Cr_ID r)) as [->|Hj]; [rewrite lookup_insert_eq; by intros [= <-] | rewrite lookup_insert_ne by done; apply H2].
  - intros j u. destruct (decide (j = Cr_ID r)) as [->|Hj]; [intros _ _; by apply H4 | rewrite lookup_insert_ne by done; apply H3].
  - intros j Hj. destruct (decide (j = Cr_ID r)) as [->|Hjk]; [by rewrite lookup_insert_eq | rewrite lookup_insert_ne by done; by apply H4].
Qed.
(** A request that is applied, with its batch and its fill. *)
Lemma closes_applied db db' m k r q f : closes_ok db m -> m !! k = Some r -> Cr_Status r <> closeRequestApplied -> Cr_Status q = closeRequestApplied ->
  same_payload r q -> fills_with k db = [] -> answers r f -> fills db' = fills db ++ [f] -> (exists b, batches db' = <[k := b]> (batches db)) ->
  closes_ok db' (<[k := q]> m).
Proof.
  intros [H1 H2 H3 H4 H5] Hr Hs Hq Hp Hnone Hans Hf [b Hb]. destruct (H1 _ _ Hr) as [Hid Hk]. pose proof Hans as (Hfb & _).
  assert (Hother : forall j, j <> k -> fills_with j db' = fills_with j db).
  { intros j Hj. unfold fills_with. rewrite Hf, List.filter_app. cbn. rewrite Hfb, Hid, (proj2 (String.eqb_neq _ _)) by done. apply app_nil_r. }
  split.
  - intros j u. destruct (decide (j = k)) as [->|Hj]; [rewrite lookup_insert_eq; intros [= <-]; rewrite Hp; done | rewrite lookup_insert_ne by done; apply H1].
  - intros j u. rewrite Hb. destruct (decide (j = k)) as [->|Hj].
    + rewrite !lookup_insert_eq. intros [= <-] _. split; [done|]. exists f. split; [|by eapply answers_payload].
      unfold fills_with in *. rewrite Hf, List.filter_app, Hnone. cbn. by rewrite Hfb, Hid, String.eqb_refl.
    + rewrite !lookup_insert_ne, Hother by done. apply H2.
  - intros j u. rewrite Hb. destruct (decide (j = k)) as [->|Hj]; [rewrite lookup_insert_eq; by intros [= <-] | rewrite !lookup_insert_ne by done; apply H3].
  - intros j Hj. rewrite Hb. destruct (decide (j = k)) as [->|Hjk]; [by rewrite lookup_insert_eq | rewrite !lookup_insert_ne by done; by apply H4].
  - intros g Hg. unfold close_fills in Hg. rewrite Hf, List.filter_app in Hg. apply elem_of_app in Hg as [Hg|Hg]; rewrite Hb.
    + apply lookup_insert_is_Some'. right. by apply H5.
    + cbn in Hg. destruct (is_close (F_LedgerBatchID f)); [|by apply elem_of_nil in Hg]. apply list_elem_of_singleton in Hg as ->. rewrite Hfb, Hid, lookup_insert_eq. done.
Qed.

(** ** The sale of a close *)
Section Coordinator.
Context (guards : DB -> DB -> res unit) (SetRole : res unit) (AfterWrite : string -> res unit)
  (sha256hex : string -> string) (MarshalFill : FillCommand -> res string) (MarshalMetadata : Metadata -> res string) (Stage08 : FillCommand -> string)
  (ErrorText : error -> string).
Abbreviation Reserve := (reserveClose guards).
Abbreviation Body := (applyBody SetRole AfterWrite sha256hex MarshalFill MarshalMetadata Stage08).
Abbreviation Attempt := (attemptClose guards SetRole AfterWrite sha256hex MarshalFill MarshalMetadata Stage08).
Abbreviation RecordFailure := (recordCloseFailure guards ErrorText).
Abbreviation Apply_ := (applyClose guards SetRole AfterWrite sha256hex MarshalFill MarshalMetadata Stage08 ErrorText).
Abbreviation Request_ := (RequestClose guards SetRole AfterWrite sha256hex MarshalFill MarshalMetadata Stage08 ErrorText).
Abbreviation Recover_ := (RecoverPendingCloses guards SetRole AfterWrite sha256hex MarshalFill MarshalMetadata Stage08 ErrorText).
Abbreviation Fill_ := (fun now => ApplyFillWith SetRole AfterWrite now sha256hex MarshalFill MarshalMetadata Stage08 (fun m => m)).

(** A fill on the caller's transaction is one whose commit is not checked yet. *)
Lemma fill_in_transaction now c db r db' : Fill_ now c db = (Ok r, db') ->
  applyFill (fun _ _ => Ok tt) SetRole AfterWrite sha256hex MarshalFill MarshalMetadata Stage08 now c db = (Ok r, db').
Proof.
  unfold applyFill, ApplyFill, ApplyFillWith, sbind, slift. destruct (prepareFill now c) as [[c' t]|e|w]; [|done..]. destruct (hashFill _ _ _ c') as [[h m]|e|w]; [|done..].
  unfold normalized, transaction. by destruct (fillBody _ _ _ _ _ _ _ _ db) as [[x|e|w] d].
Qed.
Lemma fill_keeps now c db r db' : ledger_ok db -> Fill_ now c db = (Ok r, db') -> ledger_ok db'.
Proof.
  intros Hok H. unfold ApplyFillWith in H. tx_inv. apply (proj1 (normalized_Ok _ _ _ _)) in H.
  eapply fillBody_ok; [by eapply prepareFill_valid | exact Hok | exact H].
Qed.
Lemma sale_row command recordedAt metadata db r db' : C_Side command = "sell" ->
  applyNewFill AfterWrite sha256hex Stage08 command recordedAt metadata db = (Ok r, db') ->
  exists p, p ∈ positions db /\ Ps_Symbol p = C_Symbol command /\ Ps_ID (R_Position r) = Ps_ID p.
Proof.
  intros Hs H. unfold applyNewFill, FirstWallet, fail in H. apply sbind_Ok in H as (u & d0 & E0 & H). apply requireReady_Ok in E0 as [-> _]. tx_inv.
  match goal with H : applyPosition _ _ _ = _ |- _ => rename H into Hpos end. unfold applyPosition in Hpos. rewrite Hs in Hpos. cbn [String.eqb] in Hpos.
  apply sbind_Ok in Hpos as (row & dz & Ez & Hpos). apply or_not_found_Ok in Ez. unfold FirstPositionOf in Ez. destruct row as [p|]; [|discriminate]. cbn in Hpos. tx_inv.
  match goal with H : where_ _ _ = Some p |- _ => apply where_Some in H as [Hp Hw] end. bool_prop. exists p. cbn [R_Position].
  by split_and!.
Qed.
(** Which positions there are: a sale changes the row of one, and adds none. *)
Definition position_keys (db : DB) : list (Z * string) := (fun p => (Ps_ID p, Ps_Symbol p)) <$> positions db.
Lemma applyPosition_keys command gross db x db' : positions_ok (next_position db) (positions db) -> C_Side command = "sell" ->
  applyPosition command gross db = (Ok x, db') -> position_keys db' = position_keys db /\ (orders_ok db -> orders_ok db').
Proof.
  destruct x as [[p' realized] basis]. intros Hok Hs H. unfold applyPosition in H. rewrite Hs in H. change ("sell" =s "buy") with false in H. cbv iota in H. apply sbind_Ok in H as (row & d & E & H). apply or_not_found_Ok in E. unfold FirstPositionOf in E.
  destruct row as [p|]; [|discriminate]. cbn beta iota in H. tx_inv. match goal with H : where_ _ _ = Some _ |- _ => apply where_Some in H as [Hp _] end.
  match goal with H : sold _ _ _ _ _ = _ |- _ => rename H into Hsold end. assert (Hids : Ps_ID p' = Ps_ID p /\ Ps_Symbol p' = Ps_Symbol p) by (injection Hsold as <- _ _; done).
  match goal with H : SavePosition _ _ = _ |- _ => apply SavePosition_Ok in H as -> end. destruct Hids as [Hid Hsym]. split; [|by intros []]. unfold position_keys. cbn [positions set_positions].
  eapply replace_fmap; [exact Hok | exact Hp | exact Hid |]. by rewrite Hid, Hsym.
Qed.
Lemma sale_keys command recordedAt metadata db r db' : positions_ok (next_position db) (positions db) -> orders_ok db -> C_Side command = "sell" ->
  applyNewFill AfterWrite sha256hex Stage08 command recordedAt metadata db = (Ok r, db') -> position_keys db' = position_keys db.
Proof.
  intros Hpos Ho Hs H. unfold applyNewFill, FirstWallet, fail in H. apply sbind_Ok in H as (u & d0 & E0 & H). apply requireReady_Ok in E0 as [-> _]. tx_inv.
  repeat match goal with H : slift (AfterWrite _) _ = (Ok _, _) |- _ => apply slift_Ok in H as [_ ->] end.
  match goal with H : applyPosition _ _ _ = _ |- _ => apply applyPosition_keys in H as [Hk Ho1]; [|done..] end.
  match goal with H : SaveWallet _ _ = _ |- _ => apply SaveWallet_Ok in H as -> end.
  match goal with H : upsertFilledOrder _ _ _ _ = _ |- _ => apply upsertFilledOrder_ok in H as (Ed & _); [|by destruct (Ho1 Ho)] end.
  match goal with H : CreateFill _ _ = _ |- _ => apply CreateFill_Ok in H as (-> & _) end.
  match goal with H : CreateEvents _ _ = _ |- _ => apply CreateEvents_ok in H as [-> _] end.
  unfold position_keys in *. cbn. rewrite Ed. cbn. exact Hk.
Qed.
(** The sale of everything that is held. *)
Record sells_all (now : nat -> Time) (p : Position) (c : FillCommand) (db db' : DB) (r : FillResult) : Prop := {
  sa_fill : fills db' = fills db ++ [R_Fill r];
  sa_batch : exists b, batches db' = <[C_IdempotencyKey c := b]> (batches db);
  sa_row : F_LedgerBatchID (R_Fill r) = C_IdempotencyKey c /\ F_Side (R_Fill r) = "sell" /\ F_PositionID (R_Fill r) = Ps_ID p /\
    F_Quantity (R_Fill r) = C_Quantity c /\ F_FillPrice (R_Fill r) = C_FillPrice c /\ F_FeeAmount (R_Fill r) = C_Fee c;
  sa_closed : Status (Ps_cycle (R_Position r)) = "closed" /\ Ps_ID (R_Position r) = Ps_ID p;
  sa_position : s_amount (projection db' (Ps_Symbol p)) = 0 /\ s_basis (projection db' (Ps_Symbol p)) = 0;
  sa_others : forall symbol, symbol <> Ps_Symbol p -> projection db' symbol = projection db symbol;
  sa_keys : position_keys db' = position_keys db;
  sa_wallet : exists w b b', wallets db = [w] /\ W_BalanceExact w = Some b /\ wallets db' = [R_Wallet r] /\ W_BalanceExact (R_Wallet r) = Some b' /\
    integer b' = integer b + integer (Mul (C_Quantity c) (C_FillPrice c)) - integer (C_Fee c) }.
Lemma fill_sells_all now p request c db r db' : ledger_ok db -> p ∈ positions db -> closeFillCommand p request = Ok c -> batches db !! Cr_ID request = None ->
  Fill_ now c db = (Ok r, db') -> sells_all now p c db db' r.
Proof.
  intros Hok Hp Hc Hnone H. unfold closeFillCommand in Hc. destruct (AmountExact (Ps_exact p)) as [amount|] eqn:Ea; [|done]. destruct (Sign amount <=? 0) eqn:Es; [done|].
  destruct (closeRequestPrice (Cr_Price request)) as [price| |] eqn:Ep; [|done..]. cbn [rbind] in Hc.
  destruct (CostedPaperFill _ _ _ _ _) as [[fillPrice fee]| |] eqn:Ecost; [|done..]. cbn [rbind] in Hc. injection Hc as Hc.
  assert (C_IdempotencyKey c = Cr_ID request /\ C_Symbol c = Ps_Symbol p /\ C_Side c = "sell" /\ C_Quantity c = amount) as (Hkey & Hsym & Hside & Hqty) by by rewrite <- Hc.
  clear Hc Ecost Ep. assert (Hfull : integer amount = s_amount (projection db (Ps_Symbol p))).
  { destruct Hok as [[_ Hpos _ _ _] _ _]. unfold projection. rewrite (projection_in_found _ p); [|apply (po_symbols _ _ Hpos) | done]. unfold exact_sums. by rewrite Ea. }
  pose proof (fill_in_transaction _ _ _ _ _ H) as H1. 
  assert (Hnew : AlreadyApplied r = false).
  { unfold ApplyFillWith in H. tx_inv. apply (proj1 (normalized_Ok _ _ _ _)) in H. unfold fillBody, allowLedgerProjectionWrites, lockAccount in H. tx_inv.
    match goal with H : prepareFill _ _ = Ok _ |- _ => apply prepareFill_fields in H as (Ek & _) end.
    match goal with H : beginBatch _ _ _ _ _ = (Ok ?x, _) |- _ => rename x into already; apply beginBatch_Ok in H as Hb end.
    rewrite Ek, Hkey in Hb. destruct already; [destruct Hb as [_ (row & Hb & _)]; congruence|].
    unfold applyNewFill in H. apply sbind_Ok in H as (? & ? & _ & H). tx_inv. done. }
  pose proof H1 as H2. apply applyFill_new in H2 as (c' & t & hash & m & w & b & realized & bd & Hpp & _ & _ & _ & P); try done.
  apply prepareFill_fields in Hpp as (Ek & Es' & Eside & Eq & Epr & Ef & _). rewrite Hsym in Es'. rewrite Hside in Eside.
  assert (Hid : Ps_ID (R_Position r) = Ps_ID p /\ position_keys db' = position_keys db).
  { unfold ApplyFillWith in H. tx_inv. apply (proj1 (normalized_Ok _ _ _ _)) in H. unfold fillBody, allowLedgerProjectionWrites, lockAccount in H. tx_inv.
    match goal with H : prepareFill _ _ = Ok _ |- _ => apply prepareFill_fields in H as (_ & Es2 & Eside2 & _) end.
    match goal with H : beginBatch _ _ _ _ _ = (Ok ?x, _) |- _ => rename x into already; apply beginBatch_Ok in H as Hb end.
    destruct already; [tx_inv; discriminate|]. destruct Hb as [_ ->]. destruct Hok as [[_ Hpos _ _ _] Hord _].
    apply sale_keys in H as Hk; [|done | by destruct Hord | by rewrite Eside2]. split; [|exact Hk].
    apply sale_row in H as (q & Hq & Hqs & ->); [|by rewrite Eside2]. cbn in Hq. f_equal. eapply NoDup_same_key; [apply (po_symbols _ _ Hpos) | exact Hq | exact Hp|]. by rewrite Hqs, Es2. }
  destruct Hid as [Hid Hkeys]. destruct P as [[Ew Eb] EW Hnn Ew' Hpost _ _ EF [EFs _] _ (Ebt & _) _ _ _ Hsell]. destruct Hsell as [S1 S2 S3 S4 _]; [by rewrite Eside|].
  rewrite Es', Eq, Hqty in *. destruct (S4 Hfull) as [Hbasis Hclosed].
  change (- integer bd = s_basis (projection db (Ps_Symbol p))) in Hbasis.
  assert (Hpr : forall s, projection db' s = add_sums (projection db s) (if Ps_Symbol p =s s then fill_delta c' realized bd else zero_sums))
    by exact (pp_projection _ _ _ _ Hpost).
  unfold fill_cash, fill_gross, fill_delta in *. rewrite Eside, Eq, Epr, Ef in *.
  split.
  - exact EFs.
  - exists (mkBatchRow (C_AccountID c') hash (C_OccurredAt c')). by rewrite Ebt, Ek.
  - rewrite EF. cbn. by rewrite Ek, Eside, Eq, Epr, Ef, Hid.
  - done.
  - rewrite Hpr, String.eqb_refl. cbn. rewrite <- Hbasis, <- Hfull. lia.
  - intros symbol Hne. rewrite Hpr, (proj2 (String.eqb_neq _ _)) by done. apply add_sums_0_r.
  - exact Hkeys.
  - exists w, b. eexists. split_and!; [done.. | by rewrite EW |]. rewrite Hqty. autorewrite with go_dec. cbn. lia.
Qed.

(** ** The effect of each transaction *)
Lemma lift_state {W A} (m : res A) (w : W) a w' : slift m w = (Ok a, w') -> m = Ok a /\ w' = w.
Proof. by intros [= -> ->]. Qed.
Lemma commit_Ok {A} (body : Cls A) s a s' : commit guards body s = (Ok a, s') -> body s = (Ok a, s').
Proof. unfold commit. destruct (body s) as [[x|e|w] d]; [|done..]. by destruct (guards _ _). Qed.
Lemma commit_fail {A} (body : Cls A) s r s' : commit guards body s = (r, s') -> is_ok r = false -> s' = s.
Proof. unfold commit. destruct (body s) as [[x|e|w] d]; [destruct (guards _ _)|..]; by intros [= <- <-]. Qed.
Lemma on_ledger_inv {A} (m : Tx A) s r s' : on_ledger m s = (r, s') -> m (cd_ledger s) = (r, cd_ledger s') /\ cd_requests s' = cd_requests s.
Proof. unfold on_ledger. destruct (m _) as [x db]. by intros [= <- <-]. Qed.
Lemma cdb_eq s s' : cd_ledger s' = cd_ledger s -> cd_requests s' = cd_requests s -> s' = s.
Proof. destruct s, s'. by intros [= ->] [= ->]. Qed.
(** Reading the ledger. *)
Lemma on_ledger_read {A} (m : Tx A) s r s' : (forall db x db', m db = (x, db') -> db' = db) -> on_ledger m s = (r, s') -> m (cd_ledger s) = (r, cd_ledger s) /\ s' = s.
Proof. intros Hm (H & Hr)%on_ledger_inv. pose proof (Hm _ _ _ H) as E. rewrite E in H. split; [done | by apply cdb_eq]. Qed.
Lemma FirstPosition_read i db x db' : FirstPosition i db = (x, db') -> db' = db.
Proof. unfold FirstPosition, sbind, get, found, slift. cbn. by intros [= <- <-]. Qed.
Lemma FirstWalletOf_read i db x db' : FirstWalletOf i db = (x, db') -> db' = db.
Proof. unfold FirstWalletOf, sbind, get, found, slift. cbn. by intros [= <- <-]. Qed.
Lemma find_position_read req db x db' : find_position req db = (x, db') -> db' = db.
Proof.
  unfold find_position. destruct (0 <? _); [apply FirstPosition_read|]. destruct (_ <>s _); unfold sbind, get, found, slift; cbn; by intros [= <- <-].
Qed.
Lemma loadAppliedClose_read r db x db' : loadAppliedClose r db = (x, db') -> db' = db.
Proof.
  unfold loadAppliedClose, FirstPosition, FirstWalletOf, sbind, get, found, slift, sret. cbn.
  do 3 (match goal with |- context [where_ ?p ?l] => destruct (where_ p l) end; cbn; [|by intros [= <- <-]]). by intros [= <- <-].
Qed.

(** A successful application: a repetition, or the sale of the whole position. *)
Record applied_now (now : nat -> Time) (s s' : CloseDB) (r : CloseRow) (result : CloseResult) (p : Position) (c : FillCommand) (fill : FillResult) : Prop := {
  an_position : p ∈ positions (cd_ledger s) /\ Ps_ID p = Cr_PositionID r /\ is_open p = true /\ closeCycleID p = Cr_CycleID r;
  an_command : closeFillCommand p r = Ok c;
  an_sale : sells_all now p c (cd_ledger s) (cd_ledger s') fill;
  an_ledger : ledger_ok (cd_ledger s');
  an_requests : cd_requests s' = <[Cr_ID r := with_status r closeRequestApplied (Cr_Attempts r + 1) "" (Some (now 2%nat))]> (cd_requests s);
  an_result : result = mkCloseResult true false (R_Position fill) (Some (R_Order fill)) (Some (R_Wallet fill)) (Cr_Reason r) (Float64 (C_FillPrice c)) }.
Lemma body_effect now k s result s' : CInv s -> Body now k s = (Ok result, s') -> exists r, cd_requests s !! k = Some r /\ Cr_ID r = k /\
  ((Cr_Status r = closeRequestApplied /\ s' = s /\ loadAppliedClose r (cd_ledger s) = (Ok result, cd_ledger s)) \/
   (Cr_Status r <> closeRequestApplied /\ Cr_Status r <> closeRequestRejected /\ exists p c fill, applied_now now s s' r result p c fill)).
Proof.
  intros [Hok Hc _] H. unfold applyBody in H. apply sbind_Ok in H as ([] & s0 & E & H). apply lift_state in E as [_ ->].
  apply sbind_Ok in H as (r & s0 & E & H). unfold FirstRequest in E. destruct (cd_requests s !! k) as [r0|] eqn:Er; [|done]. injection E as -> <-.
  destruct (co_key _ _ Hc _ _ Er) as [Hid _]. exists r. split; [done|]. split; [done|].
  destruct (Cr_Status r =s closeRequestApplied) eqn:Ea.
  { left. apply String.eqb_eq in Ea. apply on_ledger_read in H as [H ->]; [done | apply loadAppliedClose_read]. }
  destruct (Cr_Status r =s closeRequestRejected) eqn:Ej; [discriminate|]. right. apply String.eqb_neq in Ea, Ej. split; [done|]. split; [done|].
  apply sbind_Ok in H as (p & s0 & E & H). apply on_ledger_read in E as [Ep ->]; [|apply FirstPosition_read].
  unfold FirstPosition, sbind, get, found, slift in Ep. cbn in Ep. destruct (where_ _ _) as [p0|] eqn:Ew; [|done]. injection Ep as ->.
  apply where_Some in Ew as [Hp Hw]. apply Z.eqb_eq in Hw. destruct (negb (is_open p) || _) eqn:Eo; [discriminate|]. apply orb_false_iff in Eo as [Eo Ecy].
  apply negb_false_iff in Eo, Ecy. apply String.eqb_eq in Ecy. destruct (_ =s ExecutionModeExchange); [discriminate|].
  apply sbind_Ok in H as (c & s0 & E & H). apply lift_state in E as [Ec ->]. apply sbind_Ok in H as (fill & s1 & E & H). apply on_ledger_inv in E as [Ef Erq].
  apply sbind_Ok in H as ([] & s2 & E & H). injection E as <-. injection H as <- <-.
  pose proof (co_open _ _ Hc _ _ Er Ea) as Hnone. rewrite <- Hid in Hnone.
  pose proof (fill_sells_all _ _ _ _ _ _ _ Hok Hp Ec Hnone Ef) as Hsell. exists p, c, fill. split; try done.
  - by eapply fill_keeps.
  - cbn. rewrite Erq, Hid. apply map_eq. intros j. destruct (decide (j = k)) as [->|Hj].
    + by rewrite lookup_alter_eq, lookup_insert_eq, Er.
    + by rewrite lookup_alter_ne, lookup_insert_ne.
  - destruct (sa_closed _ _ _ _ _ _ Hsell) as [-> _]. done.
Qed.
Lemma answers_sale now p r c fill db db' : closeFillCommand p r = Ok c -> Ps_ID p = Cr_PositionID r -> sells_all now p c db db' fill -> answers r (R_Fill fill).
Proof.
  intros Hc Hp [_ _ (E1 & E2 & E3 & E4 & E5 & E6) _ _ _ _]. unfold closeFillCommand in Hc. destruct (AmountExact _) as [amount|]; [|done]. destruct (_ <=? _); [done|].
  destruct (closeRequestPrice _) as [price| |] eqn:Ep; [|done..]. cbn [rbind] in Hc. destruct (CostedPaperFill _ _ _ _ _) as [[fp fee]| |] eqn:Ex; [|done..].
  injection Hc as <-. cbn in *. split_and!; [done | done | congruence |]. exists price. by rewrite E4, E5, E6.
Qed.
Lemma body_keeps now k s result s' : CInv s -> Body now k s = (Ok result, s') -> CInv s'.
Proof.
  intros Hi H. pose proof (body_effect _ _ _ _ _ Hi H) as (r & Hr & Hid & [(_ & -> & _)|(Ha & _ & p & c & fill & [(Hp & Hpid & _) Hc Hs Hl Hq _])]); [done|].
  split; [done | | rewrite Hq; apply map_Forall_insert_2; [eapply (keyed_payload r); [by destruct r | by eapply (ci_keyed _ Hi)] | apply Hi]].
  rewrite Hq, Hid. eapply closes_applied; [by apply Hi | exact Hr | exact Ha | done | by destruct r | | | exact (sa_fill _ _ _ _ _ _ Hs) |].
  - by apply (not_applied k r s).
  - by eapply answers_sale.
  - destruct (sa_batch _ _ _ _ _ _ Hs) as [b Hb]. exists b. rewrite Hb. f_equal. clear -Hc Hid. unfold closeFillCommand in Hc.
    destruct (AmountExact _); [|done]. destruct (_ <=? _); [done|]. destruct (closeRequestPrice _); [|done..]. cbn [rbind] in Hc.
    destruct (CostedPaperFill _ _ _ _ _) as [[? ?]| |]; [|done..]. by injection Hc as <-.
Qed.

(** A change of operational columns only. *)
Definition calm (db db' : DB) : Prop := exists f, (forall p, neutral p (f p)) /\ db' = set_positions (fmap f) db.
Lemma calm_refl db : calm db db.
Proof. exists (fun p => p). split; [apply neutral_refl|]. destruct db. unfold set_positions. cbn. by rewrite list_fmap_id. Qed.
Lemma calm_trans db1 db2 db3 : calm db1 db2 -> calm db2 db3 -> calm db1 db3.
Proof.
  intros (f & Hf & ->) (g & Hg & ->). exists (fun p => g (f p)). split.
  - intros p. destruct (Hf p) as [F1 F2 F3 F4 F5 F6 F7], (Hg (f p)) as [G1 G2 G3 G4 G5 G6 G7]. split; congruence.
  - unfold set_positions. cbn. by rewrite <- list_fmap_compose.
Qed.
Lemma calm_ok db db' : calm db db' -> ledger_ok db -> ledger_ok db'.
Proof. intros (f & Hf & ->). by apply neutral_ledger_ok. Qed.
Lemma calm_same db db' : calm db db' -> same_closes db db'.
Proof. intros (f & Hf & ->). by split. Qed.
Lemma calm_projection db db' s : calm db db' -> projection db' s = projection db s.
Proof. intros (f & Hf & ->). unfold projection. cbn. by apply neutral_projection. Qed.
Lemma UpdatePositions_calm c f db x db' : (forall p, neutral p (f p)) -> UpdatePositions c f db = (x, db') -> calm db db'.
Proof.
  intros Hf. unfold UpdatePositions, modify. intros [= <- <-]. exists (fun p => if c p then f p else p). split; [|done].
  intros p. destruct (c p); [apply Hf | apply neutral_refl].
Qed.
(** Requests keep their payload, and an applied one never changes. *)
Definition kept (m m' : gmap string CloseRow) : Prop := forall k r, m !! k = Some r ->
  exists q, m' !! k = Some q /\ same_payload r q /\ (Cr_Status r = closeRequestApplied -> q = r).
Lemma kept_refl m : kept m m. Proof. intros k r Hr. exists r. split; [done|]. split; [apply same_payload_refl | done]. Qed.
Lemma kept_insert m k r q : m !! k = Some r -> Cr_Status r <> closeRequestApplied -> same_payload r q -> kept m (<[k := q]> m).
Proof.
  intros Hr Hs Hp j u Hu. destruct (decide (j = k)) as [->|Hj].
  - rewrite Hr in Hu. injection Hu as <-. exists q. by rewrite lookup_insert_eq.
  - exists u. rewrite lookup_insert_ne by done. split; [done|]. split; [apply same_payload_refl | done].
Qed.
Lemma kept_new m k q : m !! k = None -> kept m (<[k := q]> m).
Proof. intros Hn j u Hu. exists u. rewrite lookup_insert_ne by congruence. split; [done|]. split; [apply same_payload_refl | done]. Qed.
Lemma kept_trans m1 m2 m3 : kept m1 m2 -> kept m2 m3 -> kept m1 m3.
Proof.
  intros H1 H2 k r Hr. destruct (H1 k r Hr) as (q & Hq & Hp & Hs). destruct (H2 k q Hq) as (u & Hu & Hp2 & Hs2). exists u. split; [done|].
  split; [by eapply same_payload_trans|]. intros Ha. rewrite (Hs Ha) in *. by apply Hs2.
Qed.

(** The position a request names. *)
Definition requested (req : CloseRequest) (p : Position) : Prop :=
  if 0 <? Rq_PositionID req then Ps_ID p = Rq_PositionID req else Ps_Symbol p = Rq_Symbol req.
(** What a reservation answers. *)
Record reserved (req : CloseRequest) (s s' : CloseDB) (row : CloseRow) (duplicate : bool) : Prop := {
  rv_calm : calm (cd_ledger s) (cd_ledger s');
  rv_row : (exists p, p ∈ positions (cd_ledger s) /\ requested req p /\ is_open p = true /\ cd_requests s' !! Cr_ID row = Some row /\ Cr_ID row = closeRequestID p /\
      (if duplicate then cd_requests s' = cd_requests s /\ Cr_Status row <> closeRequestRejected
       else cd_requests s !! Cr_ID row = None /\ cd_requests s' = <[Cr_ID row := row]> (cd_requests s) /\ Cr_Status row = closeRequestPending /\ keyed row)) \/
    (exists p, p ∈ positions (cd_ledger s) /\ is_open p = false /\ duplicate = true /\ s' = s /\
      (row = no_request (Ps_ID p) \/ cd_requests s !! closeRequestID p = Some row)) }.
Lemma reserve_open_Ok req settings p now s row d s' : CInv s -> reserve_open req settings p now s = (Ok (row, d), s') ->
  cd_ledger s' = cd_ledger s /\ cd_requests s' !! Cr_ID row = Some row /\ Cr_ID row = closeRequestID p /\
  (if d then cd_requests s' = cd_requests s /\ Cr_Status row <> closeRequestRejected
   else cd_requests s !! Cr_ID row = None /\ cd_requests s' = <[Cr_ID row := row]> (cd_requests s) /\ Cr_Status row = closeRequestPending /\ keyed row).
Proof.
  intros [_ Hc _] H. unfold reserve_open in H. apply sbind_Ok in H as (o & s0 & E & H). injection E as <- <-.
  destruct (cd_requests s !! closeRequestID p) as [r|] eqn:Er.
  - destruct (Cr_Status r =s closeRequestRejected) eqn:E; [done|]. injection H as <- <- <-. apply String.eqb_neq in E.
    destruct (co_key _ _ Hc _ _ Er) as [-> _]. done.
  - apply sbind_Ok in H as (w & s0 & E & H). apply on_ledger_read in E as [_ ->]; [|apply FirstWalletOf_read]. destruct (_ =s "") in H; [done|].
    cbv zeta in H. destruct (fle (if fle _ _ then _ else _) fzero) in H; [done|]. apply sbind_Ok in H as ([] & s1 & E & H). injection H as <- <- <-.
    unfold CreateRequest in E. destruct (existsb _ _); [done|]. injection E as <-. cbn. rewrite lookup_insert_eq. split_and!; try done. by exists p.
Qed.
Lemma reserve_Ok req settings now s row d s' : CInv s -> Reserve req settings now s = (Ok (row, d), s') -> reserved req s s' row d.
Proof.
  intros Hi H. apply commit_Ok in H. apply sbind_Ok in H as (p & s0 & E & H). apply on_ledger_read in E as [Ep ->]; [|apply find_position_read].
  assert (p ∈ positions (cd_ledger s) /\ requested req p) as [Hp Hreq].
  { unfold requested. unfold find_position, FirstPosition in Ep. destruct (0 <? _); [|destruct (_ <>s _); [|done]]; unfold sbind, get, found, slift in Ep; cbn in Ep;
      match type of Ep with context [where_ ?q ?l] => destruct (where_ q l) eqn:Ew end; try done; injection Ep as ->; apply where_Some in Ew as [? Hw];
      split; try done; [by apply Z.eqb_eq | by apply String.eqb_eq]. }
  destruct (is_open p) eqn:Eo; cbn [negb] in H.
  - apply sbind_Ok in H as ([r b] & s0 & E & H). apply reserve_open_Ok in E as (El & Hr & Hk & Hd); [|done].
    apply sbind_Ok in H as ([] & s1 & E & H). apply on_ledger_inv in E as [E Eq]. injection H as <- <- <-. rewrite <- Eq in *. split.
    + rewrite <- El. eapply UpdatePositions_calm; [|exact E]. intros q. by split.
    + left. exists p. by split_and!.
  - injection H as <- <- <-. split; [apply calm_refl|]. right. exists p. split_and!; try done. destruct (cd_requests s !! _); [by right | by left].
Qed.
Lemma reserve_keeps req settings now s x s' : CInv s -> Reserve req settings now s = (x, s') ->
  CInv s' /\ calm (cd_ledger s) (cd_ledger s') /\ kept (cd_requests s) (cd_requests s').
Proof.
  intros Hi H. destruct x as [[row d]|e|w].
  2,3: apply commit_fail in H as ->; [|done]; split; [done|]; split; [apply calm_refl | apply kept_refl].
  apply reserve_Ok in H as [Hcalm Hrow]; [|done]. split_and!; [split | done |].
  - eapply calm_ok; [done | apply Hi].
  - destruct Hrow as [(p & _ & _ & _ & Hr & Hk & Hd)|(p & _ & _ & _ & -> & _)]; [|apply Hi].
    eapply closes_same; [by apply calm_same|]. destruct d; [destruct Hd as [-> _]; apply Hi|]. destruct Hd as (Hn & -> & Hst & _).
    apply closes_new; [apply Hi | done | rewrite Hk; apply closeRequestID_close | by rewrite Hst].
  - destruct Hrow as [(p & _ & _ & _ & Hr & Hk & Hd)|(p & _ & _ & _ & -> & _)]; [|apply Hi].
    destruct d; [destruct Hd as [-> _]; apply Hi|]. destruct Hd as (_ & -> & _ & Hy). apply map_Forall_insert_2; [done | apply Hi].
  - destruct Hrow as [(p & _ & _ & _ & Hr & Hk & Hd)|(p & _ & _ & _ & -> & _)]; [|apply kept_refl].
    destruct d; [destruct Hd as [-> _]; apply kept_refl|]. destruct Hd as (Hn & -> & _). by apply kept_new.
Qed.
Lemma failure_open e : failure_status e <> closeRequestApplied.
Proof. unfold failure_status. by destruct (is_fenced e). Qed.
(** A recorded failure. *)
Lemma failure_effect k status e s x s' : status <> closeRequestApplied -> CInv s -> RecordFailure k status e s = (x, s') ->
  CInv s' /\ calm (cd_ledger s) (cd_ledger s') /\ kept (cd_requests s) (cd_requests s') /\
  (x = Ok tt -> exists r, cd_requests s !! k = Some r /\ (Cr_Status r <> closeRequestApplied -> exists q, cd_requests s' !! k = Some q /\ Cr_Status q = status /\
     Cr_Attempts q = Cr_Attempts r + 1)).
Proof.
  intros Hst Hi H. destruct x as [[]|err|w].
  2,3: apply commit_fail in H as ->; [|done]; split_and!; [done | apply calm_refl | apply kept_refl | done].
  apply commit_Ok in H. apply sbind_Ok in H as (r & s0 & E & H). unfold FirstRequest in E. destruct (cd_requests s !! k) as [r0|] eqn:Er; [|done]. injection E as -> <-.
  destruct (Cr_Status r =s closeRequestApplied) eqn:Ea.
  { apply String.eqb_eq in Ea. injection H as <-. split_and!; [done | apply calm_refl | apply kept_refl | intros _; by exists r]. }
  apply String.eqb_neq in Ea. apply sbind_Ok in H as ([] & s1 & E & H). injection E as <-.
  set (q := with_status r status (Cr_Attempts r + 1) (truncated (ErrorText e)) (Cr_AppliedAt r)).
  assert (Hal : alter (fun r => with_status r status (Cr_Attempts r + 1) (truncated (ErrorText e)) (Cr_AppliedAt r)) k (cd_requests s) = <[k := q]> (cd_requests s)).
  { apply map_eq. intros j. destruct (decide (j = k)) as [->|Hj]; [by rewrite lookup_alter_eq, lookup_insert_eq, Er | by rewrite lookup_alter_ne, lookup_insert_ne]. }
  assert (Hs' : calm (cd_ledger s) (cd_ledger s') /\ cd_requests s' = <[k := q]> (cd_requests s)).
  { destruct (status =s closeRequestRejected).
    - apply on_ledger_inv in H as [H ->]. rewrite <- Hal. split; [|done]. eapply UpdatePositions_calm; [|exact H]. intros p. by split.
    - injection H as <-. rewrite <- Hal. split; [apply calm_refl | done]. }
  destruct Hs' as [Hcalm Hreq]. split_and!; [split | done | rewrite Hreq; eapply kept_insert; [exact Er | done | by destruct r] |].
  - eapply calm_ok; [done | apply Hi].
  - rewrite Hreq. eapply closes_same; [by apply calm_same|]. eapply closes_status; [apply Hi | exact Er | done | done | by destruct r].
  - rewrite Hreq. apply map_Forall_insert_2; [eapply (keyed_payload r); [by destruct r | by eapply (ci_keyed _ Hi)] | apply Hi].
  - intros _. exists r. split; [done|]. intros _. exists q. by rewrite Hreq, lookup_insert_eq.
Qed.
Lemma attempt_keeps now k s x s' : CInv s -> Attempt now k s = (x, s') -> CInv s' /\ kept (cd_requests s) (cd_requests s') /\ (is_ok x = false -> s' = s).
Proof.
  intros Hi H. destruct x as [result|e|w].
  2,3: apply commit_fail in H as ->; [|done]; split_and!; [done | apply kept_refl | done].
  apply commit_Ok in H. split_and!; [by eapply body_keeps | | done].
  pose proof (body_effect _ _ _ _ _ Hi H) as (r & Hr & Hid & [(_ & -> & _)|(Ha & _ & p & c & fill & [_ _ _ _ Hq _])]); [apply kept_refl|].
  rewrite Hq, Hid. eapply kept_insert; [exact Hr | done | by destruct r].
Qed.

Lemma mark_keeps i t m s : CInv s -> CInv (on_ledger (updatePositionOperational i t m) s).2 /\
  calm (cd_ledger s) (cd_ledger (on_ledger (updatePositionOperational i t m) s).2) /\ cd_requests (on_ledger (updatePositionOperational i t m) s).2 = cd_requests s.
Proof.
  intros Hi. destruct (on_ledger _ s) as [x s'] eqn:E. apply on_ledger_inv in E as [E Hq]. cbn.
  assert (calm (cd_ledger s) (cd_ledger s')) as Hc.
  { unfold updatePositionOperational in E. injection E as _ <-. eexists. split; [|reflexivity]. intros p. apply (marked_neutral (fun p => (Ps_ID p =? i) && is_open p && not_newer p t)). }
  split_and!; [split; [eapply calm_ok; [exact Hc | apply Hi] | rewrite Hq; eapply closes_same; [by apply calm_same | apply Hi] | rewrite Hq; apply Hi] | done | done].
Qed.

(** ** Histories *)
Section Histories.
Context (MarshalAdjustment : AdjustmentCommand -> res string) (MarshalReversal : ReversalCommand -> res string) (MarshalCorrection : AssetCorrectionCommand -> res string)
  (MarshalEvidence : option Metadata -> res string) (MarshalBackfill : BackfillOptions -> list string -> string) (MarshalStrings : list string -> string)
  (ObservationContext : string) (MarshalOutcome : list OutcomeItem -> string) (MarshalObservation : Contracts.OrderIntent -> string).
Abbreviation ledger_command := (ledger_step guards SetRole AfterWrite sha256hex MarshalFill MarshalMetadata Stage08 MarshalAdjustment MarshalReversal MarshalCorrection
  MarshalEvidence MarshalBackfill MarshalStrings ObservationContext MarshalOutcome MarshalObservation).
(** One transaction of the coordinator, or of anything else that uses the
    ledger under keys of its own, or a mark of a position. Any of them may
    follow any other: concurrent callers, crashes between the transactions of
    one call and recovery are among the histories. *)
Inductive close_step (s : CloseDB) : CloseDB -> Prop :=
| cs_ledger db' : ledger_command (cd_ledger s) db' -> same_closes (cd_ledger s) db' -> close_step s (mkCloseDB db' (cd_requests s))
| cs_mark i t m : close_step s (on_ledger (updatePositionOperational i t m) s).2
| cs_reserve req settings now : close_step s (Reserve req settings now s).2
| cs_attempt now k : close_step s (Attempt now k s).2
| cs_failure k e : close_step s (RecordFailure k (failure_status e) e s).2.
Lemma step_keeps s s' : CInv s -> close_step s s' -> CInv s' /\ kept (cd_requests s) (cd_requests s').
Proof.
  intros Hi Hs. destruct Hs as [db' Hl Hc|i t m|req settings now|now k|k e].
  - split; [|apply kept_refl]. split; cbn; [eapply step_ledger_ok; [apply Hi | exact Hl] | eapply closes_same; [exact Hc | apply Hi] | apply Hi].
  - destruct (mark_keeps i t m s Hi) as (H1 & _ & ->). split; [done | apply kept_refl].
  - destruct (Reserve _ _ _ s) as [x s'] eqn:E. apply reserve_keeps in E as (H1 & _ & H2); [by split | done].
  - destruct (Attempt _ _ s) as [x s'] eqn:E. apply attempt_keeps in E as (H1 & H2 & _); [by split | done].
  - destruct (RecordFailure _ _ _ s) as [x s'] eqn:E. apply failure_effect in E as (H1 & _ & H2 & _); [by split | apply failure_open | done].
Qed.
Lemma steps_keep s s' : CInv s -> rtc close_step s s' -> CInv s' /\ kept (cd_requests s) (cd_requests s').
Proof.
  intros Hi H. induction H as [s|s u s' Hs _ IH]; [split; [done | apply kept_refl]|].
  destruct (step_keeps _ _ Hi Hs) as [Hu Hk]. destruct (IH Hu) as [H1 H2]. split; [done | by eapply kept_trans].
Qed.
Definition reachable (s : CloseDB) : Prop :=
  exists db0, legacy db0 /\ fills db0 = [] /\ batches db0 = ∅ /\ rtc close_step (mkCloseDB db0 ∅) s.
Lemma close_reachable_Inv s : reachable s -> CInv s.
Proof.
  intros (db0 & Hl & Hf & Hb & H). apply (steps_keep _ _) in H as [H _]; [done|]. split; cbn; [by apply legacy_ledger_ok | | done].
  split; cbn; [done | done | done | by rewrite Hb |]. unfold close_fills. rewrite Hf. intros f Hin. by apply elem_of_nil in Hin.
Qed.

(** C32. A cycle of a position is closed once: in every history, with crashes
    and competing callers, a request that is applied has exactly one fill, the
    sale of its position at its price and its costs, and one that is not has
    none and may be tried again; the ledger is reconciled throughout, requests
    keep the payload they were reserved with, and an applied one is final. *)
Theorem close_once s s' k r : reachable s -> rtc close_step s s' -> cd_requests s !! k = Some r ->
  reconciled (cd_ledger s) /\
  (Cr_Status r = closeRequestApplied -> exists f, fills_with k (cd_ledger s) = [f] /\ answers r f) /\
  (Cr_Status r <> closeRequestApplied -> fills_with k (cd_ledger s) = [] /\ batches (cd_ledger s) !! k = None) /\
  exists q, cd_requests s' !! k = Some q /\ same_payload r q /\ (Cr_Status r = closeRequestApplied -> q = r).
Proof.
  intros Hi%close_reachable_Inv Hs Hr. split_and!; [apply Hi | | |].
  - intros Ha. by destruct (co_applied _ _ (ci_closes _ Hi) _ _ Hr Ha) as [_ Hf].
  - intros Ha. by destruct (not_applied _ _ _ Hi Hr Ha).
  - destruct (steps_keep _ _ Hi Hs) as [_ Hk]. by apply Hk.
Qed.
End Histories.

(** ** The operations *)
Lemma check_ready_read db x db' : check_ready guards SetRole db = (x, db') -> db' = db.
Proof.
  unfold check_ready, CheckReady, sbind. cbn. unfold transaction, allowLedgerProjectionWrites, requireReady, FirstState, FirstWalletOf, sbind, get, found, slift, sret. cbn.
  destruct SetRole; cbn; [|by intros [= <- <-]..]. destruct (states db !! DefaultAccountID) as [st|]; cbn; [|by intros [= <- <-]].
  destruct (S_Status st =s "ready"); cbn; [|by intros [= <- <-]]. destruct (where_ _ _) as [w|]; cbn; [|by intros [= <- <-]].
  destruct (W_BalanceExact w); cbn; [|by intros [= <- <-]]. by destruct (guards db db); intros [= <- <-].
Qed.
Lemma apply_keeps now k s x s' : CInv s -> Apply_ now k s = (x, s') ->
  CInv s' /\ kept (cd_requests s) (cd_requests s') /\ (is_ok x = false -> calm (cd_ledger s) (cd_ledger s')) /\
  (forall result, x = Ok result -> Attempt now k s = (Ok result, s')).
Proof.
  intros Hi H. unfold applyClose in H. destruct (Attempt now k s) as [[result|e|w] s1] eqn:E; pose proof (attempt_keeps _ _ _ _ _ Hi E) as (H1 & H2 & H3).
  - injection H as <- <-. split_and!; [done | done | done | by intros ? [= <-]].
  - rewrite (H3 eq_refl) in *. destruct (RecordFailure _ _ _ s) as [[u|e'|w] s2] eqn:Er; pose proof (failure_effect _ _ _ _ _ _ (failure_open _) Hi Er) as (F1 & F2 & F3 & _);
      injection H as <- <-; by split_and!.
  - injection H as <- <-. rewrite (H3 eq_refl) in *. split_and!; [done | done | intros _; apply calm_refl | done].
Qed.
(** What a caller that is answered without [Duplicate] knows. *)
Definition closed_by (now : nat -> Time) (s s' : CloseDB) (result : CloseResult) : Prop :=
  exists k r p c fill, cd_requests s !! k = Some r /\ applied_now now s s' r result p c fill.

(** The position that is sold is the one that was named. *)
Lemma answered_requested req now s s1 s' row d r result p c fill : CInv s -> CInv s1 -> reserved req s s1 row d ->
  d && (Cr_ID row =s "") = false -> cd_requests s1 !! Cr_ID row = Some r -> applied_now now s1 s' r result p c fill -> requested req p.
Proof.
  intros Hi Hi1 [(f & Hf & El) Hrow] Hd Hr [(Hp & Hpid & Hopen & _) _ _ _ _ _]. pose proof (ci_keyed _ Hi1 _ _ Hr) as (p1 & Hk1 & Hid1).
  destruct (co_key _ _ (ci_closes _ Hi1) _ _ Hr) as [Hkey _]. rewrite El in Hp. cbn in Hp. apply list_elem_of_fmap in Hp as (p2 & -> & Hp2).
  destruct Hi as [[[_ Hpos _ _ _] _ _] Hc _]. assert (Hsame : forall q, q ∈ positions (cd_ledger s) -> closeRequestID q = Cr_ID row -> p2 = q).
  { intros q Hq E. eapply NoDup_same_key; [apply (po_ids _ _ Hpos) | done | done|]. rewrite <- Hkey, Hk1 in E. apply closeRequestID_inj in E.
    pose proof (nt_id _ _ (Hf p2)). congruence. }
  destruct Hrow as [(p0 & Hp0 & Hq & _ & _ & Hk & _)|(p0 & Hp0 & Ho & -> & -> & Hrow)].
  - rewrite <- (Hsame p0 Hp0 (eq_sym Hk)) in Hq. unfold requested in *. destruct (Hf p2) as [-> -> _ _ _ _ _]. exact Hq.
  - destruct Hrow as [->|Hrow]; [done|]. destruct (co_key _ _ Hc _ _ Hrow) as [Hk _]. rewrite <- (Hsame p0 Hp0 (eq_sym Hk)) in Ho.
    unfold is_open in *. rewrite (nt_status _ _ (Hf p2)) in Hopen. congruence.
Qed.
Lemma request_effect req settings now s x s' : CInv s -> Request_ req settings now s = (x, s') ->
  CInv s' /\ kept (cd_requests s) (cd_requests s') /\
  (is_ok x = false -> calm (cd_ledger s) (cd_ledger s')) /\
  (forall result, x = Ok result ->
     (exists s1 k r p c fill, calm (cd_ledger s) (cd_ledger s1) /\ cd_requests s1 !! k = Some r /\ requested req p /\
        applied_now (fun n => now (2 + n)%nat) s1 s' r (duplicated result false) p c fill /\ Cl_Closed result = true) \/
     (Cl_Duplicate result = true /\ calm (cd_ledger s) (cd_ledger s'))).
Proof.
  intros Hi H. unfold RequestClose in H. unfold sbind at 1 in H. destruct (on_ledger (check_ready _ _) s) as [[u|e|w] s0] eqn:E0;
    apply on_ledger_read in E0 as [_ ->]; try apply check_ready_read.
  2,3: injection H as <- <-; split_and!; [done | apply kept_refl | intros _; apply calm_refl | done].
  unfold sbind at 1 in H. destruct (Reserve _ _ _ s) as [[[row d]|e|w] s1] eqn:E1; pose proof (reserve_keeps _ _ _ _ _ _ Hi E1) as (H1 & H2 & H3).
  2,3: injection H as <- <-; split_and!; [done | done | done | done].
  apply reserve_Ok in E1 as Hres; [|done]. pose proof Hres as [_ Hrow]. cbv beta iota in H. destruct (d && (Cr_ID row =s "")) eqn:Ed.
  - unfold sbind in H. destruct (on_ledger _ s1) as [[p|e|w] s2] eqn:E2; apply on_ledger_read in E2 as [_ ->]; try apply FirstPosition_read;
      injection H as <- <-; split_and!; try done. intros result [= <-]. by right.
  - destruct (d && (Cr_Status row =s closeRequestApplied)) eqn:Ea.
    + unfold sbind in H. destruct (on_ledger _ s1) as [[p|e|w] s2] eqn:E2; apply on_ledger_read in E2 as [_ ->]; try apply loadAppliedClose_read;
        injection H as <- <-; split_and!; try done. intros result [= <-]. by right.
    + unfold sbind in H. destruct (Apply_ _ _ s1) as [[result|e|w] s2] eqn:E2; pose proof (apply_keeps _ _ _ _ _ H1 E2) as (A1 & A2 & A3 & A4); injection H as <- <-;
        (split_and!; [done | by eapply kept_trans | | try done]).
      * done.
      * intros ? [= <-]. specialize (A4 _ eq_refl). apply commit_Ok in A4. pose proof (body_effect _ _ _ _ _ H1 A4) as (r & Hr & Hid & [(Hst & -> & _)|(Ha & _ & p & c & fill & Hn)]).
        -- right. split; [|done]. cbn. destruct d; [done|]. destruct Hrow as [(p & _ & _ & _ & Hr' & _ & _ & _ & Hpend & _)|(p & _ & _ & ? & _)]; [|done].
           rewrite Hr in Hr'. injection Hr' as ->. by rewrite Hst in Hpend.
        -- left. exists s1, (Cr_ID row), r, p, c, fill. split; [done|]. split; [done|]. split; [exact (answered_requested (stamped_request req (now 0%nat)) _ _ _ _ _ _ _ _ _ _ _ Hi H1 Hres Ed Hr Hn)|]. pose proof (an_result _ _ _ _ _ _ _ _ Hn) as ->. split; [|done].
           destruct Hn as [N1 N2 N3 N4 N5 N6]. by split.
      * intros _. eapply calm_trans; [exact H2 | by apply A3].
      * intros _. eapply calm_trans; [exact H2 | by apply A3].
Qed.

(** C33. Asking for a close either sells the whole position, once, under the
    reservation of its cycle, moving only its own projection and the wallet, or
    answers that this has happened already; a call that fails, for whatever
    reason, leaves the economic state of the ledger as it was. *)
Theorem RequestClose_effect req settings now s x s' : CInv s -> Request_ req settings now s = (x, s') ->
  CInv s' /\ kept (cd_requests s) (cd_requests s') /\
  (is_ok x = false -> calm (cd_ledger s) (cd_ledger s')) /\
  (forall result, x = Ok result ->
     (exists s1 k r p c fill, calm (cd_ledger s) (cd_ledger s1) /\ cd_requests s1 !! k = Some r /\ requested req p /\
        applied_now (fun n => now (2 + n)%nat) s1 s' r (duplicated result false) p c fill /\ Cl_Closed result = true) \/
     (Cl_Duplicate result = true /\ calm (cd_ledger s) (cd_ledger s'))).
Proof. apply request_effect. Qed.

(** ** Recovery *)
Lemma attempt_applied now k s result s' : CInv s -> Attempt now k s = (Ok result, s') -> exists q, cd_requests s' !! k = Some q /\ Cr_Status q = closeRequestApplied.
Proof.
  intros Hi H. apply commit_Ok in H. destruct (body_effect _ _ _ _ _ Hi H) as (r & Hr & Hid & [(Hst & -> & _)|(_ & _ & p & c & fill & [_ _ _ _ Hq _])]); [by exists r|].
  rewrite Hq, Hid, lookup_insert_eq. by eexists.
Qed.
Lemma attempt_others now k s result s' j : CInv s -> Attempt now k s = (Ok result, s') -> j <> k -> cd_requests s' !! j = cd_requests s !! j.
Proof.
  intros Hi H Hj. apply commit_Ok in H. destruct (body_effect _ _ _ _ _ Hi H) as (r & Hr & Hid & [(_ & -> & _)|(_ & _ & p & c & fill & [_ _ _ _ Hq _])]); [done|].
  by rewrite Hq, Hid, lookup_insert_ne.
Qed.
Lemma recover_loop (now : nat -> nat -> Time) l count s n s' : CInv s ->
  sfoldM (fun count request => sbind (Apply_ (now (Z.to_nat count)) (Cr_ID request)) (fun _ => sret (count + 1))) count l s = (Ok n, s') ->
  CInv s' /\ kept (cd_requests s) (cd_requests s') /\ n = count + Z.of_nat (length l) /\
  (forall k, k ∉ Cr_ID <$> l -> cd_requests s' !! k = cd_requests s !! k) /\
  Forall (fun r => exists q, cd_requests s' !! Cr_ID r = Some q /\ Cr_Status q = closeRequestApplied) l.
Proof.
  revert count s. induction l as [|r l IH]; intros count s Hi H; cbn [sfoldM] in H.
  - injection H as <- <-. split_and!; [done | apply kept_refl | cbn; lia | done | constructor].
  - apply sbind_Ok in H as (c & s1 & E & H). apply sbind_Ok in E as (result & s2 & E & Er). injection Er as <- <-.
    pose proof (apply_keeps _ _ _ _ _ Hi E) as (H1 & H2 & _ & H4). destruct (IH _ _ H1 H) as (H5 & H6 & -> & H7 & H8). split_and!; [done | by eapply kept_trans | cbn; lia | |].
    { intros k. rewrite fmap_cons, not_elem_of_cons. intros [Hk Hl]. rewrite H7 by done. by eapply attempt_others; [exact Hi | by apply H4 |]. }
    constructor; [|done]. destruct (attempt_applied _ _ _ _ _ Hi (H4 _ eq_refl)) as (q & Hq & Hs). destruct (H6 _ _ Hq) as (u & Hu & _ & He). rewrite (He Hs) in Hu. by exists q.
Qed.
Lemma unfinished_spec r : unfinished r = true <-> Cr_Status r = closeRequestPending \/ Cr_Status r = closeRequestRetryable.
Proof. unfold unfinished. by rewrite orb_true_iff, !String.eqb_eq. Qed.
Lemma recovered_all (now : nat -> nat -> Time) s n s' : CInv s -> Recover_ now s = (Ok n, s') ->
  CInv s' /\ n = Z.of_nat (length (pendingRequests (cd_requests s))) /\ pendingRequests (cd_requests s') = [] /\
  (forall k r, cd_requests s !! k = Some r -> unfinished r = true ->
     exists q f, cd_requests s' !! k = Some q /\ Cr_Status q = closeRequestApplied /\ same_payload r q /\ fills_with k (cd_ledger s') = [f] /\ answers q f).
Proof.
  intros Hi H. apply sbind_Ok in H as (u & s0 & E & H). apply on_ledger_read in E as [_ ->]; [|apply check_ready_read].
  apply sbind_Ok in H as (l & s0 & E & H). injection E as <- <-. destruct (recover_loop _ _ _ _ _ _ Hi H) as (H1 & H2 & H3 & Hsame & H4).
  assert (Hall : forall k r, cd_requests s !! k = Some r -> unfinished r = true -> exists q, cd_requests s' !! k = Some q /\ Cr_Status q = closeRequestApplied /\ same_payload r q).
  { intros k r Hr Hu. destruct (co_key _ _ (ci_closes _ Hi) _ _ Hr) as [Hid _]. rewrite Forall_forall in H4.
    destruct (H4 r) as (q & Hq & Hs); [|rewrite Hid in Hq; exists q; destruct (H2 _ _ Hr) as (q' & Hq' & Hp & _); split_and!; [done | done | congruence]].
    unfold pendingRequests. apply SliceStable_elem, list_elem_of_In, List.filter_In. split; [|done]. apply list_elem_of_In, list_elem_of_fmap.
    exists (k, r). split; [done | by apply elem_of_map_to_list]. }
  split_and!; [done | lia | |].
  - unfold pendingRequests. destruct (List.filter unfinished (map_to_list (cd_requests s')).*2) as [|r l] eqn:E; [done|]. exfalso.
    assert (Hin : r ∈ List.filter unfinished (map_to_list (cd_requests s')).*2) by (rewrite E; left).
    apply list_elem_of_In, List.filter_In in Hin as [Hin Hu]. apply list_elem_of_In, list_elem_of_fmap in Hin as ([k r'] & -> & Hr%elem_of_map_to_list). cbn in Hu.
    destruct (cd_requests s !! k) as [r|] eqn:E0.
    + destruct (unfinished r) eqn:Eu.
      * destruct (Hall _ _ E0 Eu) as (q & Hq & Hs & _). rewrite Hr in Hq. injection Hq as ->. unfold unfinished in Hu. by rewrite Hs in Hu.
      * rewrite Hsame, E0 in Hr; [injection Hr as ->; congruence|]. intros (z & -> & Hin)%list_elem_of_fmap.
        apply SliceStable_elem, list_elem_of_In, List.filter_In in Hin as [Hin Hun]. apply list_elem_of_In, list_elem_of_fmap in Hin as ([j v] & -> & Hj%elem_of_map_to_list).
        cbn in *. destruct (co_key _ _ (ci_closes _ Hi) _ _ Hj) as [Hid _]. rewrite Hid in E0. congruence.
    + rewrite Hsame, E0 in Hr; [done|]. intros (z & -> & Hin)%list_elem_of_fmap.
      apply SliceStable_elem, list_elem_of_In, List.filter_In in Hin as [Hin Hun]. apply list_elem_of_In, list_elem_of_fmap in Hin as ([j v] & -> & Hj%elem_of_map_to_list).
      cbn in *. destruct (co_key _ _ (ci_closes _ Hi) _ _ Hj) as [Hid _]. rewrite Hid in E0. congruence.
  - intros k r Hr Hu. destruct (Hall _ _ Hr Hu) as (q & Hq & Hs & Hp). destruct (co_applied _ _ (ci_closes _ H1) _ _ Hq Hs) as (_ & f & Hf & Ha).
    exists q, f. by split_and!.
Qed.
(** C34. Recovery leaves nothing open: when it returns without an error it has
    tried every reservation that was pending or retryable, each is applied with
    the payload it was reserved with, and none is left. *)
Theorem RecoverPendingCloses_complete (now : nat -> nat -> Time) s n s' : CInv s -> Recover_ now s = (Ok n, s') ->
  CInv s' /\ n = Z.of_nat (length (pendingRequests (cd_requests s))) /\
  (forall k r, cd_requests s !! k = Some r -> Cr_Status r = closeRequestPending \/ Cr_Status r = closeRequestRetryable ->
     exists q f, cd_requests s' !! k = Some q /\ Cr_Status q = closeRequestApplied /\ same_payload r q /\ fills_with k (cd_ledger s') = [f] /\ answers q f) /\
  (forall k r, cd_requests s' !! k = Some r -> Cr_Status r <> closeRequestPending /\ Cr_Status r <> closeRequestRetryable).
Proof.
  intros Hi H. pose proof (recovered_all _ _ _ _ Hi H) as (H1 & H2 & H3 & H4). split_and!; [done | done | |].
  - intros k r Hr Hs. apply (H4 _ _ Hr). by apply unfinished_spec.
  - intros k r Hr. cut (~ (Cr_Status r = closeRequestPending \/ Cr_Status r = closeRequestRetryable)); [tauto|]. intros Hs%unfinished_spec. assert (Hin : r ∈ pendingRequests (cd_requests s')); [|rewrite H3 in Hin; by inversion Hin].
    apply SliceStable_elem, list_elem_of_In, List.filter_In. split; [|done]. apply list_elem_of_In, list_elem_of_fmap. exists (k, r). split; [done | by apply elem_of_map_to_list].
Qed.

(** ** Ticks and failures *)
(** A request for a known position, after a change of operational columns. *)
Lemma calm_keys db db' : calm db db' -> position_keys db' = position_keys db.
Proof.
  intros (f & Hf & ->). unfold position_keys. cbn. rewrite <- list_fmap_compose. apply list_fmap_ext. intros i p _. cbn. by rewrite (nt_id _ _ (Hf p)), (nt_symbol _ _ (Hf p)).
Qed.
Lemma keys_elem db db' p : position_keys db' = position_keys db -> p ∈ positions db -> exists q, q ∈ positions db' /\ Ps_ID q = Ps_ID p /\ Ps_Symbol q = Ps_Symbol p.
Proof.
  intros Hk Hp. assert (Hin : (Ps_ID p, Ps_Symbol p) ∈ position_keys db') by (rewrite Hk; apply list_elem_of_fmap; by exists p).
  apply list_elem_of_fmap in Hin as (q & Hq & Hin). injection Hq as -> ->. by exists q.
Qed.
(** The sale of one symbol's whole holding, and of nothing else. *)
Record only_sold (symbol : string) (db db' : DB) : Prop := {
  os_sold : s_amount (projection db' symbol) = 0;
  os_others : forall other, other <> symbol -> projection db' other = projection db other }.
Lemma tick_request i symbol reason price t source settings now s s2 x s' : CInv s -> (i, symbol) ∈ position_keys (cd_ledger s) -> CInv s2 -> calm (cd_ledger s) (cd_ledger s2) ->
  cd_requests s2 = cd_requests s -> Request_ (mkCloseRequest i "" reason price t source) settings now s2 = (x, s') ->
  CInv s' /\ kept (cd_requests s) (cd_requests s') /\ position_keys (cd_ledger s') = position_keys (cd_ledger s) /\
  (calm (cd_ledger s) (cd_ledger s') \/ is_ok x = true /\ only_sold symbol (cd_ledger s) (cd_ledger s')).
Proof.
  intros Hi Hp H1 H2 H3 H. pose proof (request_effect _ _ _ _ _ _ H1 H) as (R1 & R2 & R3 & R4). rewrite H3 in R2. split; [exact R1|]. split; [exact R2|].
  assert (Hquiet : calm (cd_ledger s2) (cd_ledger s') -> position_keys (cd_ledger s') = position_keys (cd_ledger s) /\
    (calm (cd_ledger s) (cd_ledger s') \/ is_ok x = true /\ only_sold symbol (cd_ledger s) (cd_ledger s'))).
  { intros Hc. pose proof (calm_trans _ _ _ H2 Hc) as Hc2. split; [by apply calm_keys | by left]. }
  destruct x as [result|e|w]; [|by apply Hquiet, R3..].
  destruct (R4 _ eq_refl) as [(s1 & k & r & q & c & fill & Hcalm & _ & Hreq & Hn & _)|[_ Hcalm]]; [|by apply Hquiet].
  pose proof (an_sale _ _ _ _ _ _ _ _ Hn) as Hsale. destruct (an_position _ _ _ _ _ _ _ _ Hn) as (Hq & _). pose proof (calm_trans _ _ _ H2 Hcalm) as Hc.
  assert (Hsym : Ps_Symbol q = symbol).
  { destruct (keys_elem _ _ q (eq_sym (calm_keys _ _ Hc)) Hq) as (q0 & Hq0 & Eid & <-). apply list_elem_of_fmap in Hp as (p & Ep & Hp). injection Ep as -> ->.
    destruct Hi as [[[_ Hpos _ _ _] _ _] _ _]. pose proof (po_range _ _ Hpos) as Hrange. rewrite Forall_forall in Hrange. destruct (Hrange p Hp) as [Hid _].
    unfold requested in Hreq. cbn in Hreq. rewrite (proj2 (Z.ltb_lt _ _) Hid) in Hreq. f_equal. eapply NoDup_same_key; [apply (po_ids _ _ Hpos) | done | done | congruence]. }
  destruct Hsale as [_ _ _ _ [Hz _] Hothers Hkeys _]. rewrite Hsym in *. split; [by rewrite Hkeys, (calm_keys _ _ Hc)|]. right. split; [done|]. split; [done|].
  intros other Hne. rewrite Hothers by done. by apply calm_projection.
Qed.
Lemma find_open_inv symbol s x s' : on_ledger (find_open symbol) s = (x, s') ->
  s' = s /\ (forall p, x = Ok p -> p ∈ positions (cd_ledger s) /\ Ps_Symbol p = symbol /\ is_open p = true).
Proof.
  intros H. apply on_ledger_read in H as [H ->]; [|intros db y db'; unfold find_open, sbind, get, found, slift; cbn; by intros [= <- <-]]. split; [done|]. intros p ->.
  unfold find_open, sbind, get, found, slift in H. cbn in H. destruct (where_ _ _) as [q|] eqn:Ew; [|done]. injection H as ->.
  apply where_Some in Ew as [Hp Hw]. apply andb_true_iff in Hw as [Hsym Hopen]. by apply String.eqb_eq in Hsym.
Qed.
(** What a tick may do to a position: nothing economic, or sell it for a level that is reached. *)
Definition tick_outcome (policy : ExitPolicy) (mark : float64) (symbol : string) (s : CloseDB) (x : res unit) (s' : CloseDB) : Prop :=
  calm (cd_ledger s) (cd_ledger s') \/
  x = Ok tt /\ only_sold symbol (cd_ledger s) (cd_ledger s') /\
  exists p d, p ∈ positions (cd_ledger s) /\ Ps_Symbol p = symbol /\ is_open p = true /\ ExitPending (Ps_cycle p) = false /\
    EvaluateProtectiveExit (tick_input policy p mark) policy = Ok d /\ protective_exit (tick_input policy p mark) policy d.
Lemma slift_bind {A B} (r : res A) d (k : A -> Cls B) s : r = Ok d -> sbind (slift r) k s = k d s.
Proof. by intros ->. Qed.
Lemma tick_exit_effect policy p mark event settings now s s2 x s' : CInv s -> p ∈ positions (cd_ledger s) -> is_open p = true ->
  CInv s2 -> calm (cd_ledger s) (cd_ledger s2) -> cd_requests s2 = cd_requests s ->
  tick_exit guards SetRole AfterWrite sha256hex MarshalFill MarshalMetadata Stage08 ErrorText policy p mark event settings now s2 = (x, s') ->
  CInv s' /\ kept (cd_requests s) (cd_requests s') /\ tick_outcome policy mark (Ps_Symbol p) s x s'.
Proof.
  intros Hi Hp Hopen P1 P3 P2 H. unfold tick_exit in H.
  assert (Hquiet : CInv s2 /\ kept (cd_requests s) (cd_requests s2) /\ tick_outcome policy mark (Ps_Symbol p) s (Ok tt) s2).
  { rewrite P2. split; [exact P1|]. split; [apply kept_refl | by left]. }
  destruct (ExitPending (Ps_cycle p)) eqn:Epend; [injection H as <- <-; exact Hquiet|].
  destruct (protective_cases (tick_input policy p mark) policy) as [[Ed _]|(d & Ed & _ & Hreason & Hd)]; rewrite (slift_bind _ _ _ _ Ed) in H.
  { injection H as <- <-. exact Hquiet. }
  rewrite (proj2 (String.eqb_neq _ _) Hreason) in H. unfold sbind in H.
  match type of H with (let (_, _) := ?m in _) = _ => destruct m as [r s3] eqn:E3 end. apply tick_request with (s := s) (symbol := Ps_Symbol p) in E3 as (T1 & T2 & _ & T3); [| done | apply list_elem_of_fmap; by exists p | assumption..].
  destruct r as [result|e|w]; injection H as <- <-; (split; [exact T1|]; split; [exact T2|]); destruct T3 as [T3|[? T3]]; try (by left); try done.
  right. split; [reflexivity|]. split; [exact T3|]. exists p, d. exact (conj Hp (conj eq_refl (conj Hopen (conj Epend (conj Ed Hd))))).
Qed.
Lemma tick_effect policy mark symbol event settings now s x s' : CInv s ->
  tick guards SetRole AfterWrite sha256hex MarshalFill MarshalMetadata Stage08 ErrorText policy mark symbol event settings now s = (x, s') ->
  CInv s' /\ kept (cd_requests s) (cd_requests s') /\ tick_outcome policy mark symbol s x s'.
Proof.
  intros Hi H. unfold tick in H.
  assert (Hquiet : forall s2, CInv s2 -> cd_requests s2 = cd_requests s -> calm (cd_ledger s) (cd_ledger s2) ->
    CInv s2 /\ kept (cd_requests s) (cd_requests s2) /\ tick_outcome policy mark symbol s x s2).
  { intros s2 Q1 -> Q3. split; [exact Q1|]. split; [apply kept_refl | left; exact Q3]. }
  unfold sbind at 1 in H.
  destruct (on_ledger (find_open symbol) s) as [[p|e|w] s0] eqn:E0; apply find_open_inv in E0 as [-> E0]; [|injection H as _ <-; exact (Hquiet s Hi eq_refl (calm_refl _))..].
  destruct (E0 p eq_refl) as (Hp & <- & Hopen). clear E0. destruct (fle mark fzero); [injection H as _ <-; exact (Hquiet s Hi eq_refl (calm_refl _))|].
  pose proof (mark_keeps (Ps_ID p) (PE_Timestamp event) (mkMark mark (tick_trailing policy p mark) None) s Hi) as (H1 & H2 & H3).
  unfold sbind at 1 in H. destruct (on_ledger (updatePositionOperational _ _ _) s) as [[updated|e|w] s2]; cbn [snd] in H1, H2, H3; [|injection H as _ <-; exact (Hquiet s2 H1 H3 H2)..].
  destruct (negb updated); [injection H as _ <-; exact (Hquiet s2 H1 H3 H2)|]. exact (tick_exit_effect _ _ _ _ _ _ _ _ _ _ Hi Hp Hopen H1 H2 H3 H).
Qed.
(** C36. A price tick sells a position only when one of its protective levels is
    reached at the mark, it is open and no exit is pending, and then sells all
    of it and nothing else; otherwise, and whenever the call fails, nothing
    economic changes. *)
Theorem processPriceEvent_protective symbol event settings now s x s' : CInv s ->
  processPriceEvent guards SetRole AfterWrite sha256hex MarshalFill MarshalMetadata Stage08 ErrorText symbol event settings now s = (x, s') ->
  CInv s' /\ kept (cd_requests s) (cd_requests s') /\
  (calm (cd_ledger s) (cd_ledger s') \/
   x = Ok tt /\ only_sold symbol (cd_ledger s) (cd_ledger s') /\
   exists p d, p ∈ positions (cd_ledger s) /\ Ps_Symbol p = symbol /\ is_open p = true /\ ExitPending (Ps_cycle p) = false /\
     EvaluateProtectiveExit (tick_input (BuildExitPolicy settings) p (event_mark event)) (BuildExitPolicy settings) = Ok d /\
     protective_exit (tick_input (BuildExitPolicy settings) p (event_mark event)) (BuildExitPolicy settings) d).
Proof. intros Hi H. exact (tick_effect _ _ _ _ _ _ _ _ _ Hi H). Qed.
(** A failure that may be retried leaves the position marked as exiting, so
    later ticks do not try again. *)
Lemma retryable_failure_keeps_pending k e s x s' : RecordFailure k closeRequestRetryable e s = (x, s') -> cd_ledger s' = cd_ledger s.
Proof.
  intros H. destruct x as [[]|err|w]; [|by apply commit_fail in H as ->..]. apply commit_Ok in H. apply sbind_Ok in H as (r & s0 & E & H).
  unfold FirstRequest in E. destruct (cd_requests s !! k) as [r0|]; [|done]. injection E as -> <-. destruct (_ =s _) in H; [by injection H as <-|].
  apply sbind_Ok in H as ([] & s1 & E & H). injection E as <-. by injection H as <-.
Qed.
End Coordinator.
