(* ===== verification/BarCloseProofs.v ===== *)
(** * BarCloseProofs: a bar's close sells what its rules say, and nothing else *)
From Stdlib Require Import Ascii SpecFloat.
From stdpp Require Import base numbers strings gmap list.
From S2P Require Import Prelude GoStrings GoFloat GoTime Accounting Snapshots LedgerModel Ledger LedgerFacts LedgerFill LedgerTheorems FoldMetrics Exits Indicators Signals IndicatorProofs CloseRequests BarClose CloseProofs.
Local Open Scope Z_scope.

Section OnBar.
Context (guards : DB -> DB -> res unit) (SetRole : res unit) (AfterWrite : string -> res unit).
Context (sha256hex : string -> string) (MarshalFill : FillCommand -> res string) (MarshalMetadata : Metadata -> res string) (Stage08 : FillCommand -> string).
Context (ErrorText : error -> string).
Context (fetchCandles : string -> res (list Candle)) (config : IndicatorConfig) (weights : gmap string float64).
Abbreviation Step_ := (close_on_bar guards SetRole AfterWrite sha256hex MarshalFill MarshalMetadata Stage08 ErrorText fetchCandles config weights).
Abbreviation Loop_ := (close_all_on_bar guards SetRole AfterWrite sha256hex MarshalFill MarshalMetadata Stage08 ErrorText fetchCandles config weights).
Abbreviation All_ := (EvaluateOpenPositionsOnBarClose guards SetRole AfterWrite sha256hex MarshalFill MarshalMetadata Stage08 ErrorText fetchCandles config weights).

(** Why a position may be sold on a bar: its rules, at the close of its last
    candle, with some trailing stop, age and analysis, end in an exit; one that
    is not protective is not at a loss unless that is allowed. *)
Record bar_exit (settings : Settings) (currency : string) (p : Position) : Prop := {
  be_idle : ExitPending (Ps_cycle p) = false;
  be_due : exists candles last_candle trailing since analysis d,
    fetchCandles (PositionPairSymbol (Ps_Symbol p) currency) = Ok candles /\ last candles = Some last_candle /\
    analyzeSymbolFromCandles config weights candles = Ok analysis /\
    EvaluateBarCloseExit (bar_input p (Cn_Close last_candle) trailing since analysis) (BuildExitPolicy settings) = Ok d /\ ED_Reason d <> "" /\
    (ED_Protective d = false -> AllowSellAtLoss (BuildExitPolicy settings) = true \/ flt fzero (entry_price p) && flt (Cn_Close last_candle) (entry_price p) = false) }.
Definition bar_outcome (settings : Settings) (currency : string) (p : Position) (x : res bool) (db db' : DB) : Prop :=
  calm db db' \/ is_ok x = true /\ only_sold (Ps_Symbol p) db db' /\ bar_exit settings currency p.
Lemma bar_step_effect settings currency now p s x s' : CInv s -> (Ps_ID p, Ps_Symbol p) ∈ position_keys (cd_ledger s) -> Step_ settings currency now p s = (x, s') ->
  CInv s' /\ kept (cd_requests s) (cd_requests s') /\ position_keys (cd_ledger s') = position_keys (cd_ledger s) /\
  bar_outcome settings currency p x (cd_ledger s) (cd_ledger s').
Proof.
  intros Hi Hp H. unfold close_on_bar in H.
  assert (Hquiet : forall s2, CInv s2 -> cd_requests s2 = cd_requests s -> calm (cd_ledger s) (cd_ledger s2) ->
    CInv s2 /\ kept (cd_requests s) (cd_requests s2) /\ position_keys (cd_ledger s2) = position_keys (cd_ledger s) /\ bar_outcome settings currency p x (cd_ledger s) (cd_ledger s2)).
  { intros s2 Q1 -> Q3. split; [exact Q1|]. split; [apply kept_refl|]. split; [by apply calm_keys | by left]. }
  pose proof (Hquiet s Hi eq_refl (calm_refl _)) as Hsame.
  destruct (ExitPending (Ps_cycle p)) eqn:Epend; [injection H as _ <-; exact Hsame|].
  destruct (fetchCandles _) as [candles|e|w] eqn:Ec; [|injection H as _ <-; exact Hsame..].
  destruct (len candles =? 0) eqn:El; [injection H as _ <-; exact Hsame|].
  unfold sbind at 1, slift at 1 in H. destruct (last_value candles) as [last_candle|e|w] eqn:Elast; [|injection H as _ <-; exact Hsame..].
  unfold sbind at 1, slift at 1 in H. destruct (bar_trailing _ _ _ _ _) as [[trailing atr]|e|w]; [|injection H as _ <-; exact Hsame..].
  pose proof (mark_keeps (Ps_ID p) (now 0%nat) (mkMark (Cn_Close last_candle) trailing (Some atr)) s Hi) as (H1 & H2 & H3).
  unfold sbind at 1 in H. destruct (on_ledger (updatePositionOperational _ _ _) s) as [[updated|e|w] s2]; cbn [snd] in H1, H2, H3; [|injection H as _ <-; exact (Hquiet s2 H1 H3 H2)..].
  destruct (negb updated); [injection H as _ <-; exact (Hquiet s2 H1 H3 H2)|].
  unfold sbind at 1, slift at 1 in H. destruct (analyzeSymbolFromCandles config weights candles) as [analysis|e|w] eqn:Ea; [|injection H as _ <-; exact (Hquiet s2 H1 H3 H2)..].
  set (input := bar_input _ _ _ _ _) in H. destruct (bar_close_exit input (BuildExitPolicy settings)) as (d & Ed & _ & _ & Hloss). rewrite (slift_bind _ _ _ _ Ed) in H.
  destruct (String.eqb_spec (ED_Reason d) "") as [|Hreason]; [injection H as _ <-; exact (Hquiet s2 H1 H3 H2)|].
  unfold sbind in H. match type of H with (let (_, _) := ?m in _) = _ => destruct m as [r s3] eqn:E3 end.
  apply tick_request with (s := s) (symbol := Ps_Symbol p) in E3 as (T1 & T2 & T3 & T4); [|assumption..].
  destruct r as [result|e|w]; injection H as <- <-; (split; [exact T1|]; split; [exact T2|]; split; [exact T3|]); destruct T4 as [T4|[? T4]]; try (by left); try done.
  right. split; [done|]. split; [exact T4|]. split; [exact Epend|].
  destruct (last_value_in candles) as (c & Ec2 & Elast2); [apply Z.eqb_neq in El; unfold len in *; lia|]. rewrite Elast in Ec2. injection Ec2 as <-.
  exists candles, last_candle, trailing, (time_Sub (now 1%nat) (OpenedAt (Ps_cycle p))), analysis, d. split_and!; try done.
  intros Hprot. by destruct (Hloss Hprot Hreason) as (_ & Hl & _).
Qed.

(** ** The loop *)
(** What has become of every holding since the start. *)
Definition justified (settings : Settings) (currency : string) (s0 : CloseDB) (db : DB) : Prop := forall symbol,
  projection db symbol = projection (cd_ledger s0) symbol \/
  s_amount (projection db symbol) = 0 /\ exists p, p ∈ positions (cd_ledger s0) /\ Ps_Symbol p = symbol /\ is_open p = true /\ bar_exit settings currency p.
Lemma bar_loop_effect settings currency now s0 l count s x s' : CInv s ->
  position_keys (cd_ledger s) = position_keys (cd_ledger s0) -> justified settings currency s0 (cd_ledger s) ->
  Forall (fun p => p ∈ positions (cd_ledger s0) /\ is_open p = true) l -> Loop_ settings currency now count l s = (x, s') ->
  CInv s' /\ kept (cd_requests s) (cd_requests s') /\ justified settings currency s0 (cd_ledger s') /\
  (forall n e, x = Ok (n, e) -> count <= n <= count + Z.of_nat (length l)).
Proof.
  revert count s. induction l as [|p l IH]; intros count s Hi Hk Hj Hl H; cbn [close_all_on_bar] in H.
  - injection H as <- <-. split_and!; [done | apply kept_refl | done |]. intros n e [= <- <-]. cbn. lia.
  - apply Forall_cons in Hl as [[Hp Hopen] Hl]. destruct (Step_ settings currency (now (length l)) p s) as [r s1] eqn:E.
    apply bar_step_effect in E as (H1 & H2 & H3 & H4); [|done | rewrite Hk; apply list_elem_of_fmap; by exists p].
    assert (Hj1 : justified settings currency s0 (cd_ledger s1)).
    { intros symbol. destruct H4 as [Hc|(_ & [Hz Ho] & Hexit)]; [rewrite (calm_projection _ _ _ Hc); apply Hj|].
      destruct (decide (symbol = Ps_Symbol p)) as [->|Hne]; [right; split; [exact Hz|]; exists p; by split_and! | rewrite (Ho _ Hne); apply Hj]. }
    destruct r as [closed|e|w].
    + apply IH in H as (G1 & G2 & G3 & G4); [|done | by rewrite H3 | done | done]. split; [exact G1|]. split; [by eapply kept_trans|]. split; [exact G3|].
      intros n e He. apply G4 in He. cbn [length]. destruct closed; lia.
    + injection H as <- <-. split; [exact H1|]. split; [exact H2|]. split; [exact Hj1|]. intros n e' [= <- _]. cbn [length]. lia.
    + injection H as <- <-. split; [exact H1|]. split; [exact H2|]. split; [exact Hj1|]. discriminate.
Qed.
End OnBar.
