(* ===== verification/CloseSamples.v ===== *)
(** * CloseSamples: closing a small position

    A position that is bought, reserved for a close and sold: where the theorems
    on close requests apply, and what a failed attempt leaves behind. *)
From Stdlib Require Import Ascii SpecFloat.
From stdpp Require Import base numbers strings gmap list relations.
From S2P Require Import Prelude GoStrings GoFloat Accounting Snapshots LedgerModel Ledger LedgerAdmin LedgerFacts LedgerFill LedgerTheorems Exits Indicators CloseRequests BarClose CloseProofs BarCloseProofs.
Local Open Scope Z_scope.

Module Till.
Definition errorText (_ : error) : string := "failed".
Definition settings : Settings := {["stop_loss_percent" := "5"]}.
Definition request : CloseRequest := mkCloseRequest 2 "" "manual" fzero 2000 "api".
Definition clock (n : nat) : Time := 3000 + Z.of_nat n.
Definition tick : PriceEvent := mkPriceEvent fzero (f_of_Z 90) 2500 "stream".
Abbreviation Reserve_ s := (reserveClose Sample.guards request settings 2900 s).
Abbreviation Attempt_ k s := (attemptClose Sample.guards (Ok tt) Sample.hook Sample.digest Sample.fillText Sample.metaText Sample.stage08 clock k s).
Abbreviation Request_ s := (RequestClose Sample.guards (Ok tt) Sample.hook Sample.digest Sample.fillText Sample.metaText Sample.stage08 errorText request settings clock s).
Abbreviation Recover_ s := (RecoverPendingCloses Sample.guards (Ok tt) Sample.hook Sample.digest Sample.fillText Sample.metaText Sample.stage08 errorText (fun _ => clock) s).
Abbreviation Tick_ s := (processPriceEvent Sample.guards (Ok tt) Sample.hook Sample.digest Sample.fillText Sample.metaText Sample.stage08 errorText "BTC" tick settings clock s).
Definition start : CloseDB := mkCloseDB (Sample.db0 []) ∅.
Definition ready : CloseDB := mkCloseDB Sample.ready ∅.
Definition bought : CloseDB := mkCloseDB Sample.bought_db ∅.
Definition reserved := Reserve_ bought.
Definition key : string := match reserved.1 with Ok (row, _) => Cr_ID row | _ => "" end.
Definition applied := Attempt_ key reserved.2.
Definition closed := Request_ bought.
Definition recovered := Recover_ reserved.2.
Definition ticked := Tick_ bought.
Definition candles (_ : string) : res (list Candle) := Ok ((fun c => mkCandle (f_of_Z c) (f_of_Z (c + 1)) (f_of_Z (c - 1)) (f_of_Z 5)) <$> [100; 95; 90]).
Abbreviation Bar_ s := (EvaluateOpenPositionsOnBarClose Sample.guards (Ok tt) Sample.hook Sample.digest Sample.fillText Sample.metaText Sample.stage08 errorText
  candles DefaultIndicatorConfig ∅ settings (fun _ => clock) s).
Definition barred := Bar_ bought.
Abbreviation steps := (close_step Sample.guards (Ok tt) Sample.hook Sample.digest Sample.fillText Sample.metaText Sample.stage08 errorText Sample.adjText Sample.revText
  Sample.corText Sample.evidenceText Sample.backText Sample.listText "{}" Sample.outcomeText Sample.intentText).
Definition close_free (db : DB) : bool :=
  forallb (fun kv => negb (is_close kv.1)) (map_to_list (batches db)) && forallb (fun f => negb (is_close (F_LedgerBatchID f))) (fills db).
Lemma close_free_same db db' : close_free db = true -> close_free db' = true -> same_closes db db'.
Proof.
  assert (H : forall db, close_free db = true -> (forall k, is_close k = true -> batches db !! k = None) /\ close_fills db = []).
  { intros d [Hb Hf]%andb_true_iff. rewrite forallb_forall in Hb, Hf. split.
    - intros k Hk. destruct (batches d !! k) as [b|] eqn:E; [|done]. apply elem_of_map_to_list, list_elem_of_In, Hb in E. change (negb (is_close k) = true) in E. by rewrite Hk in E.
    - unfold close_fills. destruct (List.filter _ (fills d)) as [|f l] eqn:E; [done|].
      assert (Hin : List.In f (List.filter (fun f => is_close (F_LedgerBatchID f)) (fills d))) by (rewrite E; by left).
      apply List.filter_In in Hin as [Hin Hc]. apply Hf in Hin. by rewrite Hc in Hin. }
  intros [H1 H2]%H [H3 H4]%H. split; [|congruence]. intros k Hk. by rewrite H1, H3.
Qed.
Lemma step_ready : steps start ready.
Proof. apply (cs_ledger _ _ _ _ _ _ _ _ _ _ _ _ _ _ _ _ _ start (Sample.backfill (Sample.db0 []))); [apply Sample.backfill_step | apply close_free_same; vm_compute; reflexivity]. Qed.
Lemma step_bought : steps ready bought.
Proof.
  apply (cs_ledger _ _ _ _ _ _ _ _ _ _ _ _ _ _ _ _ _ ready (Sample.fill (Sample.command "k1" "buy" 3 100) Sample.ready)); [apply Sample.fill_step|].
  apply close_free_same; vm_compute; reflexivity.
Qed.
Lemma step_reserved : steps bought reserved.2.
Proof. unfold reserved. apply cs_reserve. Qed.
Lemma step_applied : steps reserved.2 applied.2.
Proof. unfold applied. apply cs_attempt. Qed.
Abbreviation reached := (reachable Sample.guards (Ok tt) Sample.hook Sample.digest Sample.fillText Sample.metaText Sample.stage08 errorText Sample.adjText Sample.revText
  Sample.corText Sample.evidenceText Sample.backText Sample.listText "{}" Sample.outcomeText Sample.intentText).
Lemma reached_from s : rtc steps start s -> reached s.
Proof. intros H. exists (Sample.db0 []). split; [apply Sample.db0_legacy; by left|]. split; [done|]. split; [done | exact H]. Qed.
Lemma reached_bought : reached bought.
Proof. apply reached_from. eapply rtc_l; [exact step_ready|]. apply rtc_once, step_bought. Qed.
Lemma reached_reserved : reached reserved.2.
Proof. apply reached_from. eapply rtc_l; [exact step_ready|]. eapply rtc_l; [exact step_bought|]. apply rtc_once, step_reserved. Qed.
Lemma reached_applied : reached applied.2.
Proof. apply reached_from. eapply rtc_l; [exact step_ready|]. eapply rtc_l; [exact step_bought|]. eapply rtc_l; [exact step_reserved|]. apply rtc_once, step_applied. Qed.
Definition row_in (s : CloseDB) : CloseRow := default (no_request 0) (cd_requests s !! key).
Lemma row_there s : Cr_ID (row_in s) <> "" -> cd_requests s !! key = Some (row_in s).
Proof. unfold row_in. by destruct (cd_requests s !! key). Qed.
Lemma ended_with {A} (o : res A * CloseDB) (P : A -> bool) : match o.1 with Ok a => P a | _ => false end = true -> exists a, o = (Ok a, o.2) /\ P a = true.
Proof. destruct o as [[a|e|w] s]; cbn; [by exists a | done..]. Qed.
Lemma closed_run : exists result, Request_ bought = (Ok result, closed.2) /\ negb (Cl_Duplicate result) = true.
Proof. unfold closed. apply ended_with. vm_compute. reflexivity. Qed.
Lemma recovered_run : exists n, Recover_ reserved.2 = (Ok n, recovered.2) /\ (n =? 1) = true.
Proof. unfold recovered. apply ended_with. vm_compute. reflexivity. Qed.
Lemma ticked_run : exists u, Tick_ bought = (Ok u, ticked.2) /\ true = true.
Proof. unfold ticked. apply (ended_with _ (fun _ => true)). vm_compute. reflexivity. Qed.
Lemma barred_run : exists o, Bar_ bought = (Ok o, barred.2) /\ (o.1 =? 1) = true.
Proof. unfold barred. apply ended_with. vm_compute. reflexivity. Qed.
End Till.

(** The lock of a failed attempt: the position stays marked as exiting, although
    the comment on the flag says it is cleared so that the next tick may retry. *)
Theorem failed_close_stays_pending :
  (exists e, applyClose Sample.guards (Err (PgError "08006" "connection")) Sample.hook Sample.digest Sample.fillText Sample.metaText Sample.stage08 Till.errorText Till.clock
     Till.key Till.reserved.2 = (Err e, (applyClose Sample.guards (Err (PgError "08006" "connection")) Sample.hook Sample.digest Sample.fillText Sample.metaText
       Sample.stage08 Till.errorText Till.clock Till.key Till.reserved.2).2)) /\
  ExitPending ∘ Ps_cycle <$> positions (cd_ledger (applyClose Sample.guards (Err (PgError "08006" "connection")) Sample.hook Sample.digest Sample.fillText Sample.metaText
    Sample.stage08 Till.errorText Till.clock Till.key Till.reserved.2).2) = [true].
Proof. split; [eexists; vm_compute; reflexivity | vm_compute; reflexivity]. Qed.

Lemma close_once_witness : exists r f, cd_requests Till.applied.2 !! Till.key = Some r /\ Cr_Status r = closeRequestApplied /\
  fills_with Till.key (cd_ledger Till.applied.2) = [f] /\ answers r f.
Proof.
  assert (Hr : cd_requests Till.applied.2 !! Till.key = Some (Till.row_in Till.applied.2)).
  { apply Till.row_there. apply (bool_decide_unpack _). vm_compute. exact I. }
  assert (Hs : Cr_Status (Till.row_in Till.applied.2) = closeRequestApplied) by (vm_compute; reflexivity).
  pose proof (close_once _ _ _ _ _ _ _ _ _ _ _ _ _ _ _ _ _ Till.applied.2 Till.applied.2 Till.key (Till.row_in Till.applied.2) Till.reached_applied (rtc_refl _ _) Hr) as (_ & H & _ & _).
  destruct (H Hs) as (f & Hf & Ha). exists (Till.row_in Till.applied.2), f. exact (conj Hr (conj Hs (conj Hf Ha))).
Defined.

Lemma RequestClose_effect_witness : exists result s1 k r p c fill, Cl_Duplicate result = false /\
  calm (cd_ledger Till.bought) (cd_ledger s1) /\ cd_requests s1 !! k = Some r /\ requested Till.request p /\
  applied_now (fun n => Till.clock (2 + n)%nat) s1 Till.closed.2 r (duplicated result false) p c fill.
Proof.
  destruct Till.closed_run as (result & He & Hd%negb_true_iff).
  pose proof (close_reachable_Inv _ _ _ _ _ _ _ _ _ _ _ _ _ _ _ _ _ _ Till.reached_bought) as Hi.
  destruct (RequestClose_effect _ _ _ _ _ _ _ _ Till.request Till.settings Till.clock Till.bought (Ok result) Till.closed.2 Hi He) as (_ & _ & _ & H).
  destruct (H result eq_refl) as [(s1 & k & r & p & c & fill & H1 & H2 & H3 & H4 & _)|[H1 _]].
  - exists result, s1, k, r, p, c, fill. exact (conj Hd (conj H1 (conj H2 (conj H3 H4)))).
  - rewrite Hd in H1. discriminate H1.
Defined.
Lemma RecoverPendingCloses_complete_witness : exists n q f, n = 1 /\ cd_requests Till.recovered.2 !! Till.key = Some q /\ Cr_Status q = closeRequestApplied /\
  fills_with Till.key (cd_ledger Till.recovered.2) = [f] /\ answers q f.
Proof.
  destruct Till.recovered_run as (n & He & Hn%Z.eqb_eq).
  assert (Hr : cd_requests Till.reserved.2 !! Till.key = Some (Till.row_in Till.reserved.2)).
  { apply Till.row_there. apply (bool_decide_unpack _). vm_compute. exact I. }
  assert (Hs : Cr_Status (Till.row_in Till.reserved.2) = closeRequestPending) by (vm_compute; reflexivity).
  pose proof (close_reachable_Inv _ _ _ _ _ _ _ _ _ _ _ _ _ _ _ _ _ _ Till.reached_reserved) as Hi.
  destruct (RecoverPendingCloses_complete _ _ _ _ _ _ _ _ (fun _ => Till.clock) Till.reserved.2 n Till.recovered.2 Hi He) as (_ & _ & H & _).
  destruct (H _ _ Hr (or_introl Hs)) as (q & f & H1 & H2 & _ & H3 & H4). exists n, q, f. exact (conj Hn (conj H1 (conj H2 (conj H3 H4)))).
Defined.
Lemma processPriceEvent_protective_witness : s_amount (projection (cd_ledger Till.ticked.2) "BTC") = 0 /\
  exists p d, p ∈ positions (cd_ledger Till.bought) /\ EvaluateProtectiveExit (tick_input (BuildExitPolicy Till.settings) p (event_mark Till.tick)) (BuildExitPolicy Till.settings) = Ok d.
Proof.
  destruct Till.ticked_run as (u & He & _).
  pose proof (close_reachable_Inv _ _ _ _ _ _ _ _ _ _ _ _ _ _ _ _ _ _ Till.reached_bought) as Hi.
  destruct (processPriceEvent_protective _ _ _ _ _ _ _ _ "BTC" Till.tick Till.settings Till.clock Till.bought (Ok u) Till.ticked.2 Hi He) as (_ & _ & [(f & Hf & H)|(_ & H1 & p & d & H2 & _ & _ & _ & H3 & _)]).
  - exfalso. apply (f_equal (fun db => length (fills db))) in H. revert H. vm_compute. discriminate.
  - split; [exact (os_sold _ _ _ H1)|]. exists p, d. exact (conj H2 H3).
Defined.
